(* ===== verification/_CoqProject ===== *)
-Q . S2P
Prelude.v
Uuid.v
PyTime.v
Sha256.v
Json.v
Text.v
Base64.v
JsonLoads.v
JsonProofs.v
JsonBytes.v
UuidText.v
Domain.v
Codec.v
CodecTheorems.v
AgentApi.v
Http.v
Net.v
UrlText.v
Configuration.v
PyFloat.v
Files.v
DatabaseDsn.v
Certificates.v
TlsContext.v
PrivateHttps.v
Enrollment.v
IssuerClient.v
Candidate.v
Ledger.v
ControlPlane.v
Paging.v
ControlPlaneProofs.v
ControlPlaneRefinement.v
ControlPlaneTheorems.v
Simulator.v
Views.v
OperatorApi.v
OperatorVerifier.v
ServiceConfiguration.v
Database.v
Persistence.v
PersistenceProofs.v
PersistenceInvariant.v
PersistenceRefinement.v
PersistenceTheorems.v
PersistenceBehaviour.v
PersistenceCalls.v
AgentExchange.v
EnrollmentExchange.v
OperatorExchange.v
OperatorBrowse.v
Migrations.v
Services.v
ListenerLife.v
RateLimit.v
Admission.v
Connection.v
OperatorListener.v
OperatorWire.v
EnrollmentListener.v
EnrollmentWire.v
AgentListener.v
AgentWire.v
