(* ===== verification/Prelude.v ===== *)
(** * NorthGate RMM: verification development

NorthGate RMM is a remote-monitoring server in Python ([src/src/northgate_rmm/], with the
scripts [server/packaging/launcher.py] and [agent/packaging/release/verify-candidate.py]).
Endpoints enroll with a one-time grant, receive a client certificate from an
issuer, and send heartbeats and inventories over mutual TLS; operators read the
endpoint views through an authenticated console. Every decision is audited. This
library is a shallow embedding of that program: pure functions are Rocq functions,
fallible code returns [result] (a value or a raised [exn]), stateful code is state
passing ([M W A := W -> W * result A], mutations before an exception stay visible).
All definitions are executable.

** The parts and their files

Shared: [Prelude] (strings as code points, exceptions, the two monads and their
rules, sorting, automation), [Uuid] (UUIDs, [uuid4] as a stream of draws, the
process state [world]), [PyTime] ([datetime] with offsets, [isoformat]), [Sha256],
[Base64], [Text] (UTF-8, [repr]), [Json] ([json.dumps]), [JsonLoads] and
[JsonProofs] ([json.loads] with its hooks, and the round trip), [JsonBytes]
([json.loads] of bytes: the detection of the encoding), [UuidText] ([uuid.UUID(text)]),
[PyFloat] (binary64 rounding of literals, [timedelta]), [UrlText] ([str.strip], [int],
[urllib.parse.parse_qsl]).

- [domain.py]: [Domain], the dataclasses with their [__post_init__] validation.
- [codec.py]: [Codec] ([decode_message]), [CodecTheorems].
- [control_plane.py]: [ControlPlane] (every method of the in-memory control plane),
  [Paging], [ControlPlaneProofs], [ControlPlaneRefinement], [ControlPlaneTheorems].
- [persistence.py] and [migrations/*.sql]: [Database] (the tables, their CHECK,
  unique and deferred constraints), [Persistence] (every method of
  [PostgresControlPlane]), [PersistenceProofs], [PersistenceInvariant],
  [PersistenceRefinement], [PersistenceTheorems] (every execution),
  [PersistenceBehaviour] and [PersistenceCalls] (single calls), [Migrations]
  ([apply_migrations], [verify_schema_state]).
- [agent_api.py]: [AgentApi] (the handler over the store protocol, a type class with
  laws), [AgentExchange] (the PostgreSQL instance and the end-to-end theorems).
- [enrollment.py] and the certificate checks of [listener.py]: [Certificates],
  [Enrollment], [EnrollmentExchange]; [issuer_client.py]: [IssuerClient].
- [operator_api.py] and [views.py]: [Views], [OperatorApi], [OperatorExchange],
  [OperatorBrowse]; [operator_verifier.py]: [OperatorVerifier].
- [listener.py], [enrollment_listener.py], [operator_listener.py]: [RateLimit]
  (the three sliding-window limiters), [Admission] (request, handshake and connection
  slots under interleaved tasks), [Http] (request heads and responses as bytes), [Net]
  ([ipaddress]), [Configuration] (the [__post_init__] checks of every listener and
  client configuration), [Connection] ([_handle_transport] and [_handle_connection],
  shared by two listeners), [ListenerLife] ([start], [close] and the task set of the stream
  listeners, interleaved), [EnrollmentListener], [OperatorListener], [AgentListener]
  (the aiohttp adapter and the life of a connection). [EnrollmentWire], [OperatorWire]
  and [AgentWire] compose listener, application and database, from the bytes or the
  parsed request of a connection to its response.
- [secure_files.py], [tls_identity.py], [private_https.py] and the TLS contexts of the
  listeners: [Files] (a file system other processes change between the system calls;
  [_read_regular_file], [regular_file_reference]), [TlsContext] (contexts as records of
  their settings and key material), [PrivateHttps] (the pinned connection and its deadline).
- [agent_service.py], [enrollment_service.py], [operator_service.py]: [DatabaseDsn]
  ([load_database_dsn]), [ServiceConfiguration] (the three loaders), [Services]
  ([run_*_service] and [main], over a [process] with its files, handlers, socket and log,
  and the launcher).
- [verify-candidate.py]: [Candidate].
- [simulator.py]: [Simulator].
- [Ledger] is the abstract specification both control planes refine: identities
  bound to endpoints, revocation, and accepted messages with increasing sequence
  numbers.

Components meet at type classes: [AgentMessageStore], [EnrollmentStore],
[EndpointReader] and [OperatorStore] are the protocols the handlers require, their
[...Laws] classes what a handler relies on; handlers are verified against the laws
and the PostgreSQL control plane discharges them.

** What is shown

- Both control planes refine [Ledger] and keep their invariants along every
  execution; messages are never accepted twice, sequence numbers increase,
  revocation and grant consumption are final, identities follow their lifecycle.
- Ingestion, certificate authentication, enrollment, retries and reads are specified
  on every branch, errors included; failures leave every table but the audit trail
  as it was, unless the reply to a commit was lost.
- The agent, enrollment and operator handlers, composed with the database, disclose
  or acknowledge only what the database holds and the policy allows (safety), and
  serve the well-formed authorized request (liveness).
- Codecs fail closed and round-trip (the encoder of messages is a specification of the wire
  format, which the agents implement); the rendered pages cannot be changed by data.
- Over the wire, the enrollment and operator listeners write only framed responses
  with their fixed headers, carrying an error document or what the database records
  and the identity provider vouches for (safety), and serve an admitted connection of
  an authorized client (liveness); the agent listener acknowledges only stored
  messages of verified peers, one request per connection.
- Readers, verifier and issuer client fail closed on any bytes; configurations are
  constructed exactly under their stated conditions, loaded safely and loaded back.
- Secrets and key material are the contents of the very files that passed the checks,
  whatever happens to the paths meanwhile, and descriptors are closed on every path; a
  service listens only after every start-up check, and shuts down in order; a private
  HTTPS request respects one deadline and leaves no socket open; a release candidate is
  accepted exactly if signature, manifest, package, SBOM and provenance agree with the pins.
- A stream listener shuts down completely under every interleaving with its tasks.
- The limiters equal limiters that keep their whole history and stay within their
  quotas; the admission accounting never goes wrong under any interleaving.

** Choices

Transactions are serial (the code serialises them by row locks); each has a [fate]:
it commits, cannot connect, fails at commit, or commits while the reply is lost.
Executions quantify over all fates, draws and clock readings. [depth], the recursion
limit of [json.loads], is a parameter of the decoders; [n] in [follow_pages] and
[browse] bounds the pages a client opens, and the theorems show that more than the
number of endpoints is enough. Other fuel is the length of the input, which the
recursion consumes. A [Connection] holds what the environment decides for one
connection (peer, TLS outcome, arriving bytes, deadline, cancellation, drain); handling
one connection is sequential, and the interleaving of many is [Admission]'s. The loop over
short reads in [Files] has one more unit of fuel than the byte limit, enough since every
chunk it continues after is not empty. [except Exception] lets [KeyboardInterrupt], [SystemExit]
and [CancelledError] through ([is_Exception]). Parameters for code outside the repository:
[fromisoformat], [str.isprintable] and [str.lower] outside ASCII, psycopg's
[conninfo_to_dict], the X.509 library (classes [X509] and [X509Pem], operations that may
raise), OpenSSL (class [TLSLibrary]), the issuer and identity-provider exchanges, the
monotonic clock, the [network] of socket calls, and the [tools] the verifier runs.

** Not modelled

The TLS protocol itself, aiohttp's parser and server (the classes of [listener.py] that only
pass arguments to it: [_BoundedTLSSite], [_HardenedServer], [_HardenedAppRunner]), asyncio
itself, argument parsing and messages on stderr; row locks and isolation below serial
execution. *)
From stdpp Require Import prelude strings gmap sorting pretty.
From stdpp Require Import ssreflect.

Set Warnings "-clear-no-such-hyp".

(** ** Python strings

A Python [str] is a sequence of Unicode code points; [len] counts code
points. ASCII literals of the source are written as Rocq strings and
injected by [py]. *)
Definition pystr := list Z.

Fixpoint py (s : string) : pystr :=
  match s with
  | EmptyString => []
  | String a s' => Z.of_N (Ascii.N_of_ascii a) :: py s'
  end.

Coercion py : string >-> pystr.
Arguments py : simpl never.

#[export] Instance pystr_eq_dec : EqDecision pystr := list_eq_dec.
#[export] Instance pystr_countable : Countable pystr := list_countable.

(** [not s] for a Python string. *)
Definition str_empty (s : pystr) : bool := match s with [] => true | _ => false end.
Definition str_len (s : pystr) : Z := Z.of_nat (length s).

(** ** Python exceptions the code raises, by class, with their message. *)
Inductive exn :=
| ValidationError (msg : pystr)
| AuthorizationError (msg : pystr)
| ServiceUnavailableError (msg : pystr)
| ReplayError (msg : pystr)
| NotFoundError (msg : pystr)
| UniqueViolation
| PsycopgError
| JSONDecodeError
| UnicodeDecodeError
| RecursionError
| AssertionError (msg : pystr)
| OverflowError
| TypeError
| ValueError
| KeyError
| UnicodeEncodeError
| TimeoutError
| OSError
| HTTPException
| UnsupportedAlgorithm
| InvalidVersion
| ExtensionNotFound
| DuplicateExtension
| VerificationError
| RuntimeError (msg : pystr)
| NotImplementedError
| KeyboardInterrupt
| SystemExit
| CancelledError
| AttributeError
| CandidateRejected (msg : pystr)
| RequestError (status : Z) (code : pystr).

#[export] Instance exn_eq_dec : EqDecision exn.
Proof. solve_decision. Defined.

(** [isinstance(e, Exception)]: three of them derive from [BaseException] only. *)
Definition is_Exception (e : exn) : bool :=
  match e with KeyboardInterrupt | SystemExit | CancelledError => false | _ => true end.

Inductive result (A : Type) :=
| Ok (a : A)
| Raise (e : exn).
Arguments Ok {_} _.
Arguments Raise {_} _.

#[export] Instance result_eq_dec `{EqDecision A} : EqDecision (result A).
Proof. solve_decision. Defined.

#[export] Instance result_ret : MRet result := @Ok.
#[export] Instance result_bind : MBind result := λ A B k m,
  match m with Ok a => k a | Raise e => Raise e end.

(** [if cond: raise e]. *)
Definition raise_if (b : bool) (e : exn) : result unit :=
  if b then Raise e else Ok tt.

(** [except E] clauses, by the classes they name: [ValueError] includes the
decoding errors, [psycopg.Error] includes the unique violation, [OSError]
includes the time-out. *)
Definition is_ValueError (e : exn) : bool :=
  match e with
  | ValueError | JSONDecodeError | UnicodeDecodeError | UnicodeEncodeError => true
  | _ => false
  end.
Definition is_ValidationError (e : exn) : bool :=
  match e with ValidationError _ => true | _ => false end.
Definition is_AuthorizationError (e : exn) : bool :=
  match e with AuthorizationError _ => true | _ => false end.
Definition is_PsycopgError (e : exn) : bool :=
  match e with PsycopgError | UniqueViolation => true | _ => false end.
Definition is_OSError (e : exn) : bool :=
  match e with OSError | TimeoutError => true | _ => false end.

(** [try: r except <handled>: raise e'], for a value and for a computation. *)
Definition except_as {A} (handled : exn → bool) (e' : exn) (r : result A) : result A :=
  match r with
  | Raise e => if handled e then Raise e' else Raise e
  | Ok a => Ok a
  end.

(** What holds of the value returned or of the exception raised. *)
Definition outcome {A} (E : exn → Prop) (P : A → Prop) (r : result A) : Prop :=
  match r with Ok a => P a | Raise e => E e end.

Lemma outcome_bind {A B} E (P : A → Prop) (Q : B → Prop) m (k : A → result B) :
  outcome E P m → (∀ a, P a → outcome E Q (k a)) → outcome E Q (m ≫= k).
Proof. destruct m; cbn; auto. Qed.

Lemma outcome_mono {A} (E E' : exn → Prop) (P Q : A → Prop) r :
  outcome E P r → (∀ e, E e → E' e) → (∀ a, P a → Q a) → outcome E' Q r.
Proof. destruct r; cbn; auto. Qed.

Lemma outcome_raise_if (E : exn → Prop) b e : E e → outcome E (λ _, b = false) (raise_if b e).
Proof. by destruct b. Qed.

Lemma except_as_Ok {A} handled e' (r : result A) a : except_as handled e' r = Ok a ↔ r = Ok a.
Proof. destruct r; simpl; [done|]. by case_match. Qed.

(** ** Stateful Python code: state passing with exceptions.  Mutations made
before an exception stay visible, as they do in Python. *)
Definition M (W A : Type) : Type := W → W * result A.

#[export] Instance M_ret W : MRet (M W) := λ A a w, (w, Ok a).
#[export] Instance M_bind W : MBind (M W) := λ A B k m w,
  match m w with
  | (w', Ok a) => k a w'
  | (w', Raise e) => (w', Raise e)
  end.

Definition lift {W A} (r : result A) : M W A := λ w, (w, r).
Definition raise {W A} (e : exn) : M W A := λ w, (w, Raise e).
Definition except_asM {W A} (handled : exn → bool) (e' : exn) (m : M W A) : M W A := λ w,
  (((m w).1), except_as handled e' (m w).2).
(** [try: m finally: cleanup]: an exception of the clean-up replaces the outcome. *)
Definition finallyM {W A} (m : M W A) (cleanup : M W unit) : M W A := λ w,
  let '(w1, r) := m w in
  match cleanup w1 with
  | (w2, Ok _) => (w2, r)
  | (w2, Raise e) => (w2, Raise e)
  end.
Definition gets {W A} (f : W → A) : M W A := λ w, (w, Ok (f w)).
Definition modify {W} (f : W → W) : M W unit := λ w, (f w, Ok tt).


(** Weakest precondition of a stateful computation, with its rules. *)
Definition wp {W A} (m : M W A) (Q : W → result A → Prop) (w : W) : Prop :=
  Q (m w).1 (m w).2.

Arguments wp : simpl never.

Lemma wp_bind {W A B} (m : M W A) (k : A → M W B) Q w :
  wp (m ≫= k) Q w ↔
  wp m (λ w' r, match r with Ok a => wp (k a) Q w' | Raise e => Q w' (Raise e) end) w.
Proof. rw /wp /mbind /M_bind. by destruct (m w) as [w' [a|e]]. Qed.

Lemma wp_mono {W A} (m : M W A) (P Q : W → result A → Prop) w :
  wp m P w → (∀ w' r, P w' r → Q w' r) → wp m Q w.
Proof. rw /wp. auto. Qed.

(** The outcome itself may be remembered. *)
Lemma wp_eq {W A} (m : M W A) (P : W → result A → Prop) w :
  wp m P w → wp m (λ w' r, P w' r ∧ m w = (w', r)) w.
Proof. rw /wp. split; [done|]. by destruct (m w). Qed.

Lemma wp_ret {W A} (a : A) (Q : W → result A → Prop) w :
  wp (mret a) Q w ↔ Q w (Ok a).
Proof. done. Qed.

Lemma wp_raise {W A} e (Q : W → result A → Prop) w :
  wp (raise e) Q w ↔ Q w (Raise e).
Proof. done. Qed.

Lemma wp_lift {W A} (r : result A) (Q : W → result A → Prop) w :
  wp (lift r) Q w ↔ Q w r.
Proof. done. Qed.

Lemma wp_gets {W A} (f : W → A) (Q : W → result A → Prop) w :
  wp (gets f) Q w ↔ Q w (Ok (f w)).
Proof. done. Qed.

Lemma wp_modify {W} (f : W → W) (Q : W → result unit → Prop) w :
  wp (modify f) Q w ↔ Q (f w) (Ok tt).
Proof. done. Qed.

(** Splitting a run known to return. *)
Lemma run_Ok {W A} (m : M W A) w :
  (∃ a, (m w).2 = Ok a) → ∃ w' a, m w = (w', Ok a).
Proof. destruct (m w) as [w' r]. intros [a Ha]. simpl in Ha. subst. eauto. Qed.

(** A bind that returned: its first part returned too. *)
Lemma bind_Ok_inv {W A B} (m : M W A) (k : A → M W B) w w' b :
  (m ≫= k) w = (w', Ok b) → ∃ w1 a, m w = (w1, Ok a) ∧ k a w1 = (w', Ok b).
Proof. rw /mbind /M_bind. destruct (m w) as [w1 [a|e]]; naive_solver. Qed.

Lemma result_bind_Ok_inv {A B} (m : result A) (k : A → result B) b :
  m ≫= k = Ok b → ∃ a, m = Ok a ∧ k a = Ok b.
Proof. destruct m; naive_solver. Qed.

Lemma raise_if_Ok b e u : raise_if b e = Ok u ↔ b = false.
Proof. destruct u. by destruct b. Qed.

Lemma raise_if_Raise b e e' : raise_if b e = Raise e' ↔ b = true ∧ e' = e.
Proof. destruct b; naive_solver. Qed.

Lemma result_seq_Ok {B} (m : result unit) (k : result B) b :
  (m;; k) = Ok b ↔ m = Ok tt ∧ k = Ok b.
Proof. destruct m as [[]|]; naive_solver. Qed.

Lemma result_seq_Raise {B} (m : result unit) (k : result B) e :
  (m;; k) = Raise e ↔ m = Raise e ∨ m = Ok tt ∧ k = Raise e.
Proof. destruct m as [[]|]; naive_solver. Qed.

(** [py] rewrites chains of checks that all passed into their conditions. *)
Create Rewrite HintDb pyok.
#[export] Hint Rewrite @result_seq_Ok raise_if_Ok : pyok.
#[export] Hint Rewrite orb_false_iff negb_false_iff andb_true_iff : pyok.
#[export] Hint Rewrite @bool_decide_eq_true @bool_decide_eq_false : pyok.
#[export] Hint Rewrite Z.leb_le Z.leb_gt Z.ltb_lt Z.ltb_ge Z.eqb_eq Z.eqb_neq : pyok.

(** Simplify passed checks in a hypothesis or in the goal. *)
Ltac checks_in H := autorewrite with pyok in H.
Ltac checks := autorewrite with pyok.

(** Case analysis on the scrutinee of the first [match] of the goal. *)
Ltac case_goal :=
  match goal with |- context [match ?x with _ => _ end] => destruct x eqn:? end.

(** ** Ordering

[sorted] and [<] on Python strings compare code points lexicographically;
tuples compare componentwise. *)
Fixpoint str_leb (s t : pystr) : bool :=
  match s, t with
  | [], _ => true
  | _ :: _, [] => false
  | a :: s', b :: t' => (a <? b)%Z || ((a =? b)%Z && str_leb s' t')
  end.

Lemma str_leb_refl s : str_leb s s = true.
Proof. induction s as [|a s IH]; [done|]. rw /= Z.eqb_refl IH. by rw orb_true_r. Qed.

Lemma str_leb_total s t : str_leb s t = true ∨ str_leb t s = true.
Proof.
  revert t. induction s as [|a s IH]; intros [|b t]; simpl; auto.
  rw !orb_true_iff !andb_true_iff !Z.ltb_lt !Z.eqb_eq.
  destruct (IH t), (Z.lt_trichotomy a b) as [?|[?|?]]; auto.
Qed.

Lemma str_leb_antisym s t : str_leb s t = true → str_leb t s = true → s = t.
Proof.
  revert t. induction s as [|a s IH]; intros [|b t]; simpl; try done.
  rw !orb_true_iff !andb_true_iff !Z.ltb_lt !Z.eqb_eq.
  intros [?|[-> ?]] [?|[? ?]]; [lia..|]. f_equal; auto.
Qed.

Lemma str_leb_trans s t u :
  str_leb s t = true → str_leb t u = true → str_leb s u = true.
Proof.
  revert t u. induction s as [|a s IH]; intros [|b t] [|c u]; simpl; try done.
  rw !orb_true_iff !andb_true_iff !Z.ltb_lt !Z.eqb_eq.
  intros [?|[-> ?]] [?|[-> ?]]; eauto with lia.
Qed.

Definition pair_leb (p q : pystr * pystr) : bool :=
  if decide (p.1 = q.1) then str_leb p.2 q.2 else str_leb p.1 q.1.


(** The relation a boolean comparison decides. *)
Definition rel_of {A} (cmp : A → A → bool) : relation A := λ x y, cmp x y = true.

#[export] Instance rel_of_dec {A} (cmp : A → A → bool) : RelDecision (rel_of cmp).
Proof. intros x y. unfold rel_of. apply _. Defined.

(** What [sorted] asks of a comparison. *)
Class Comparison {A} (cmp : A → A → bool) : Prop := {
  cmp_total x y : cmp x y = true ∨ cmp y x = true;
  cmp_trans x y z : cmp x y = true → cmp y z = true → cmp x z = true;
}.

#[export] Instance rel_of_total `{Comparison A cmp} : Total (rel_of cmp).
Proof. intros x y. apply cmp_total. Qed.
#[export] Instance rel_of_trans `{Comparison A cmp} : Transitive (rel_of cmp).
Proof. intros x y z. apply cmp_trans. Qed.

#[export] Instance str_leb_cmp : Comparison str_leb.
Proof. split; [apply str_leb_total|apply str_leb_trans]. Qed.

#[export] Instance pair_leb_cmp : Comparison pair_leb.
Proof.
  unfold pair_leb. split.
  - intros [a1 a2] [b1 b2]; simpl. destruct (decide (a1 = b1)) as [->|].
    + rw decide_True //. apply str_leb_total.
    + rw decide_False //. apply str_leb_total.
  - intros [a1 a2] [b1 b2] [c1 c2]; simpl.
    repeat case_decide; subst; eauto using str_leb_trans.
    intros. naive_solver eauto using str_leb_antisym.
Qed.

#[export] Instance cmp_on `{Comparison A cmp} {B} (f : B → A) :
  Comparison (λ x y, cmp (f x) (f y)).
Proof. split; intros; [apply cmp_total|eapply cmp_trans; eauto]. Qed.

(** [sorted(l)] for a comparison. *)
Definition py_sorted {A} (cmp : A → A → bool) (l : list A) : list A :=
  merge_sort (rel_of cmp) l.

Lemma py_sorted_perm {A} (cmp : A → A → bool) l : py_sorted cmp l ≡ₚ l.
Proof. apply merge_sort_Permutation. Qed.

Lemma py_sorted_sorted `{Comparison A cmp} l : StronglySorted (rel_of cmp) (py_sorted cmp l).
Proof. apply StronglySorted_merge_sort; apply _. Qed.

(** Sorting pairs: the sorted permutation is unique. *)
Lemma pair_sorted_unique l k :
  StronglySorted (rel_of pair_leb) l → StronglySorted (rel_of pair_leb) k → l ≡ₚ k → l = k.
Proof.
  intros Hl Hk Hp. eapply (StronglySorted_unique_strong (rel_of pair_leb)); [|done..].
  intros [a b] [c d] _ _. unfold rel_of, pair_leb. cbn.
  destruct (decide (a = c)) as [-> |Hne].
  - rw decide_True //. intros. f_equal. by apply str_leb_antisym.
  - rw decide_False; [|congruence]. intros. destruct Hne. by apply str_leb_antisym.
Qed.

(** ** Lists *)

Lemma forallb_mono {A} (f g : A → bool) l :
  (∀ x, f x = true → g x = true) → forallb f l = true → forallb g l = true.
Proof. intros Hfg. rw !forallb_forall. auto. Qed.

Lemma NoDup_fmap_elem {A B} (f : A → B) (l : list A) x y :
  NoDup (f <$> l) → x ∈ l → y ∈ l → f x = f y → x = y.
Proof.
  induction l as [|z l IH]; [set_solver|].
  rw fmap_cons NoDup_cons. intros [Hz Hnd] Hx Hy Hxy.
  rw !elem_of_cons in Hx Hy. destruct Hx as [-> |Hx], Hy as [-> |Hy]; [done| | |by apply IH].
  - destruct Hz. rw Hxy. by apply list_elem_of_fmap_2.
  - destruct Hz. rw -Hxy. by apply list_elem_of_fmap_2.
Qed.

Lemma StronglySorted_filter {A} (R : relation A) (P : A → Prop) `{!∀ x, Decision (P x)} l :
  StronglySorted R l → StronglySorted R (filter P l).
Proof.
  induction 1 as [|x l Hs IH Hall]; [constructor|]. rw filter_cons. case_decide; [|done].
  constructor; [done|]. rw !Forall_forall in Hall |- *. intros y. rw list_elem_of_filter. naive_solver.
Qed.

Lemma filter_none {A} (P : A → Prop) `{!∀ x, Decision (P x)} (l : list A) :
  (∀ x, x ∈ l → ¬ P x) → filter P l = [].
Proof.
  induction l as [|x l IH]; intros Hl; [done|].
  rw filter_cons_False; [|apply Hl; set_solver]. apply IH. set_solver.
Qed.

Lemma filter_every {A} (P : A → Prop) `{!∀ x, Decision (P x)} (l : list A) :
  (∀ x, x ∈ l → P x) → filter P l = l.
Proof.
  induction l as [|x l IH]; intros Hl; [done|].
  rw filter_cons_True; [|apply Hl; set_solver]. f_equal. apply IH. set_solver.
Qed.

Lemma StronglySorted_before {A} (R : relation A) pre x post y :
  StronglySorted R (pre ++ x :: post) → y ∈ pre → R y x.
Proof.
  induction pre as [|z pre IH]; [by intros _ ?%not_elem_of_nil|].
  intros [Hs Hall]%StronglySorted_inv [-> |Hy]%elem_of_cons; [|by apply IH].
  rw Forall_forall in Hall. apply Hall. apply elem_of_app. right. apply list_elem_of_here.
Qed.

Lemma filter_sublist_elem {A} (P Q : A → Prop) `{!∀ x, Decision (P x), !∀ x, Decision (Q x)}
    (l : list A) :
  (∀ x, x ∈ l → P x → Q x) → filter P l `sublist_of` filter Q l.
Proof.
  induction l as [|x l IH]; intros Hl; [done|].
  assert (filter P l `sublist_of` filter Q l) as Hs.
  { apply IH. intros y Hy. apply Hl. by apply list_elem_of_further. }
  pose proof (Hl x (list_elem_of_here _ _)) as Hx.
  rw !filter_cons. repeat case_decide; [by apply sublist_skip|naive_solver|by apply sublist_cons|done].
Qed.

Lemma filter_ext_elem {A} (P Q : A → Prop) `{!∀ x, Decision (P x), !∀ x, Decision (Q x)}
    (l : list A) :
  (∀ x, x ∈ l → P x ↔ Q x) → filter P l = filter Q l.
Proof.
  induction l as [|x l IH]; intros Hl; [done|].
  pose proof (Hl x (list_elem_of_here _ _)) as Hx. rw !filter_cons.
  rw IH; [|intros y Hy; apply Hl; by apply list_elem_of_further].
  repeat case_decide; naive_solver.
Qed.

(** ** Hexadecimal text *)
Definition hex_digit (d : Z) : Z := if (d <? 10)%Z then (48 + d)%Z else (87 + d)%Z.

(** ['%0nx' % z]: the [n] low hexadecimal digits, most significant first. *)
Fixpoint hexn (n : nat) (z : Z) : pystr :=
  match n with
  | O => []
  | S n' => hexn n' (z / 16)%Z ++ [hex_digit (z mod 16)%Z]
  end.

(** The character class [[0-9a-f]]. *)
Definition is_lower_hex (c : Z) : bool :=
  ((48 <=? c) && (c <=? 57) || (97 <=? c) && (c <=? 102))%Z.

Lemma hex_digit_lower d : (0 ≤ d < 16)%Z → is_lower_hex (hex_digit d) = true.
Proof. unfold is_lower_hex, hex_digit. intros. destruct (d <? 10)%Z eqn:?; lia. Qed.

Lemma hex_digit_leb d e :
  (0 ≤ d < 16)%Z → (0 ≤ e < 16)%Z → (hex_digit d <=? hex_digit e)%Z = (d <=? e)%Z.
Proof. unfold hex_digit. intros. destruct (d <? 10)%Z eqn:?, (e <? 10)%Z eqn:?; lia. Qed.

Lemma hex_digit_inj d e :
  (0 ≤ d < 16)%Z → (0 ≤ e < 16)%Z → hex_digit d = hex_digit e → d = e.
Proof. unfold hex_digit. intros. destruct (d <? 10)%Z eqn:?, (e <? 10)%Z eqn:?; lia. Qed.

Lemma length_hexn n z : length (hexn n z) = n.
Proof. revert z. induction n; intros z; simpl; [done|]. rw length_app IHn /=. lia. Qed.

Lemma forallb_app_true {A} (f : A → bool) l k :
  forallb f (l ++ k) = true ↔ forallb f l = true ∧ forallb f k = true.
Proof. rw forallb_app andb_true_iff. done. Qed.

Lemma hexn_lower n z : forallb is_lower_hex (hexn n z) = true.
Proof.
  revert z. induction n as [|n IH]; intros z; simpl; [done|].
  rw forallb_app IH /= hex_digit_lower //. apply Z.mod_pos_bound. lia.
Qed.

Lemma str_leb_snoc s t a b :
  length s = length t →
  str_leb (s ++ [a]) (t ++ [b]) =
    if decide (s = t) then (a <=? b)%Z else str_leb s t.
Proof.
  revert t. induction s as [|x s IH]; intros [|y t]; simpl; intros Hl; simplify_eq.
  - rw andb_true_r. lia.
  - rw IH //. destruct (Z.eqb_spec x y) as [->|]; simpl; last first.
    { rw decide_False; [done|congruence]. }
    rw Z.ltb_irrefl /=. repeat case_decide; naive_solver.
Qed.

Lemma hexn_leb n a b :
  (0 ≤ a < 16 ^ Z.of_nat n)%Z → (0 ≤ b < 16 ^ Z.of_nat n)%Z →
  (hexn n a = hexn n b ↔ a = b) ∧ (str_leb (hexn n a) (hexn n b) = (a <=? b)%Z).
Proof.
  revert a b. induction n as [|n IH]; intros a b Ha Hb.
  { simpl in *. change (16 ^ Z.of_nat 0)%Z with 1%Z in *.
    assert (a = b) as -> by lia. split; [done|]. symmetry. lia. }
  rw Nat2Z.inj_succ Z.pow_succ_r in Ha Hb; [|lia..].
  assert (0 ≤ a / 16 < 16 ^ Z.of_nat n)%Z by (split; [apply Z.div_pos|apply Z.div_lt_upper_bound]; lia).
  assert (0 ≤ b / 16 < 16 ^ Z.of_nat n)%Z by (split; [apply Z.div_pos|apply Z.div_lt_upper_bound]; lia).
  destruct (IH (a / 16) (b / 16))%Z as [IH1 IH2]; [done..|].
  pose proof (Z.div_mod a 16). pose proof (Z.div_mod b 16).
  pose proof (Z.mod_pos_bound a 16). pose proof (Z.mod_pos_bound b 16).
  simpl. split.
  - split; [|congruence]. intros [Hq [= Hr]]%app_inj_2; [|done].
    apply IH1 in Hq. apply hex_digit_inj in Hr; lia.
  - rw str_leb_snoc; [|by rw !length_hexn].
    case_decide as Hd.
    + apply IH1 in Hd. rw hex_digit_leb; lia.
    + rw IH2. rw IH1 in Hd. lia.
Qed.
