(* ===== verification/Uuid.v ===== *)
(** * [uuid.UUID]: 128-bit identifiers, their text and their order, and the
process state every stateful component threads ([world]: an object store and
the values [uuid4] will draw). *)
From stdpp Require Import prelude strings gmap sorting pretty ssreflect.
From S2P Require Import Prelude.

Set Warnings "-clear-no-such-hyp".

(** A UUID is its 128-bit integer. *)
Definition uuid_range (z : Z) : bool := ((0 <=? z) && (z <? 2 ^ 128))%Z.

Record uuid := UUID { uuid_int : Z; uuid_wf : uuid_range uuid_int = true }.

Lemma uuid_eq u v : uuid_int u = uuid_int v → u = v.
Proof.
  destruct u as [a Ha], v as [b Hb]. simpl. intros ->. f_equal. apply proof_irrel.
Qed.

Lemma uuid_bounds u : (0 ≤ uuid_int u < 2 ^ 128)%Z.
Proof. destruct u as [z Hz]. unfold uuid_range in Hz. simpl. lia. Qed.

(** [UUID(int=z)], which refuses an integer outside 128 bits. *)
Definition uuid_of_int (z : Z) : option uuid :=
  (if uuid_range z as b return uuid_range z = b → option uuid
   then λ H, Some (UUID z H) else λ _, None) eq_refl.

Definition uuid_nil : uuid := UUID 0 eq_refl.
(** The UUID of a (small) integer literal. *)
Definition uid (z : Z) : uuid := default uuid_nil (uuid_of_int (z mod 2 ^ 128)).

Lemma uuid_of_int_Some z u : uuid_of_int z = Some u → uuid_int u = z.
Proof.
  unfold uuid_of_int. generalize (eq_refl (uuid_range z)).
  destruct (uuid_range z) at 2 3; naive_solver.
Qed.

Lemma uuid_of_int_uuid_int u : uuid_of_int (uuid_int u) = Some u.
Proof.
  unfold uuid_of_int. destruct u as [z Hz]; simpl.
  generalize (eq_refl (uuid_range z)).
  destruct (uuid_range z) at 2 3; [|congruence].
  intros e. f_equal. f_equal. apply proof_irrel.
Qed.

Lemma uuid_int_uid z : (0 ≤ z < 2 ^ 128)%Z → uuid_int (uid z) = z.
Proof.
  intros Hz. unfold uid. rw Z.mod_small; [|done].
  assert (uuid_range z = true) as Hr by (unfold uuid_range; lia).
  by rw (uuid_of_int_uuid_int (UUID z Hr) : uuid_of_int z = _).
Qed.

#[export] Instance uuid_eq_dec : EqDecision uuid.
Proof.
  refine (λ u v, cast_if (decide (uuid_int u = uuid_int v)));
    [by apply uuid_eq|congruence].
Defined.

#[export] Instance uuid_countable : Countable uuid :=
  inj_countable uuid_int uuid_of_int uuid_of_int_uuid_int.

(** [u <= v] and [u > v] compare the integers. *)
Definition uuid_leb (u v : uuid) : bool := (uuid_int u <=? uuid_int v)%Z.
Definition uuid_gtb (u v : uuid) : bool := (uuid_int v <? uuid_int u)%Z.

#[export] Instance uuid_leb_cmp : Comparison uuid_leb.
Proof. unfold uuid_leb. split; intros; lia. Qed.

(** [str(u)]: the 8-4-4-4-12 grouping of the 32 hexadecimal digits. *)
Definition uuid_str (u : uuid) : pystr :=
  let h := hexn 32 (uuid_int u) in
  take 8 h ++ py "-" ++ take 4 (drop 8 h) ++ py "-" ++ take 4 (drop 12 h)
    ++ py "-" ++ take 4 (drop 16 h) ++ py "-" ++ drop 20 h.

(** The text of an [UUID] without its dashes. *)
Lemma str_leb_app_l p s t : str_leb (p ++ s) (p ++ t) = str_leb s t.
Proof. induction p as [|x p IH]; simpl; [done|]. by rw IH Z.ltb_irrefl Z.eqb_refl. Qed.

Lemma str_leb_app_eq s1 t1 s2 t2 :
  length s1 = length t1 →
  str_leb (s1 ++ s2) (t1 ++ t2) =
    if decide (s1 = t1) then str_leb s2 t2 else str_leb s1 t1.
Proof.
  revert t1. induction s1 as [|x s IH]; intros [|y t] Hl; simplify_eq/=; [done|].
  rw IH //. destruct (Z.eqb_spec x y) as [->|]; simpl; last first.
  { rw decide_False; [done|congruence]. }
  rw Z.ltb_irrefl /=. repeat case_decide; naive_solver.
Qed.

(** Inserting a fixed separator at a fixed position keeps the order. *)
Lemma str_leb_separator n sep s t :
  length s = length t → n ≤ length s →
  str_leb (take n s ++ sep ++ drop n s) (take n t ++ sep ++ drop n t) = str_leb s t.
Proof.
  intros Hl Hn.
  trans (str_leb (take n s ++ drop n s) (take n t ++ drop n t)); [|by rw !take_drop].
  assert (length (take n s) = length (take n t)) by (rw !length_take; lia).
  rw !(str_leb_app_eq (take n s) (take n t)) //. by rw str_leb_app_l.
Qed.

Definition dash_at (n : nat) (s : pystr) : pystr := take n s ++ py "-" ++ drop n s.

Lemma length_dash_at n s : length (dash_at n s) = S (length s).
Proof. unfold dash_at. rw !length_app length_take length_drop /=. lia. Qed.

Lemma dash_at_leb n s t :
  length s = length t → n ≤ length s →
  str_leb (dash_at n s) (dash_at n t) = str_leb s t.
Proof. apply str_leb_separator. Qed.

Lemma uuid_str_dashes u :
  uuid_str u = dash_at 23 (dash_at 18 (dash_at 13 (dash_at 8 (hexn 32 (uuid_int u))))).
Proof.
  unfold uuid_str, dash_at. pose proof (length_hexn 32 (uuid_int u)) as Hl.
  destruct (hexn 32 (uuid_int u)) as [|? h]; [done|].
  do 31 (destruct h as [|? h]; [done|]). by destruct h.
Qed.

(** Text order is integer order. *)
Lemma uuid_str_leb u v : str_leb (uuid_str u) (uuid_str v) = uuid_leb u v.
Proof.
  rw !uuid_str_dashes. pose proof (uuid_bounds u). pose proof (uuid_bounds v).
  rw !dash_at_leb ?length_dash_at ?length_hexn; try lia.
  apply hexn_leb; lia.
Qed.

#[export] Instance uuid_str_inj : Inj (=) (=) uuid_str.
Proof.
  intros u v Huv. apply uuid_eq.
  pose proof (uuid_str_leb u v) as H1. pose proof (uuid_str_leb v u) as H2.
  rw Huv str_leb_refl in H1 H2. unfold uuid_leb in *. lia.
Qed.

Lemma length_uuid_str u : length (uuid_str u) = 36.
Proof. rw uuid_str_dashes !length_dash_at length_hexn. done. Qed.

(** ** Process state *)
Record world (T : Type) := World { store : T; rng : nat → uuid }.
Arguments World {_} _ _.
Arguments store {_} _.
Arguments rng {_} _ _.

(** [uuid.uuid4()]: the next value of the random source. *)
Definition uuid4 {T} : M (world T) uuid := λ w,
  (World (store w) (λ n, rng w (S n)), Ok (rng w 0)).

Definition get {T} : M (world T) T := gets store.
Definition upd {T} (f : T → T) : M (world T) unit :=
  modify (λ w, World (f (store w)) (rng w)).

Lemma wp_uuid4 {T} Q (w : world T) :
  wp uuid4 Q w ↔ Q (World (store w) (λ n, rng w (S n))) (Ok (rng w 0)).
Proof. done. Qed.

Lemma wp_get {T} Q (w : world T) : wp get Q w ↔ Q w (Ok (store w)).
Proof. done. Qed.

Lemma wp_upd {T} (f : T → T) Q (w : world T) :
  wp (upd f) Q w ↔ Q (World (f (store w)) (rng w)) (Ok tt).
Proof. done. Qed.

(** The first [n] draws of [k] are pairwise different. *)
Definition distinct_draws (k : nat → uuid) (n : nat) : Prop :=
  ∀ i j, i < n → j < n → k i = k j → i = j.

Definition shift (n : nat) (k : nat → uuid) : nat → uuid := λ i, k (n + i).

Lemma distinct_shift a k n m : a + m ≤ n → distinct_draws k n → distinct_draws (shift a k) m.
Proof. intros Hle Hk i j Hi Hj Hij. apply Hk in Hij; lia. Qed.

Lemma distinct_draws_check k n : bool_decide (NoDup (k <$> seq 0 n)) = true → distinct_draws k n.
Proof.
  intros Hnd%bool_decide_eq_true i j Hi Hj Hij.
  apply (NoDup_lookup _ i j (k i) Hnd); rw list_lookup_fmap lookup_seq_lt //=. by rw Hij.
Qed.
