(* ===== verification/PyTime.v ===== *)
(** * [datetime], [timezone] and [timedelta]

A [datetime] is a wall-clock reading in microseconds since 0001-01-01T00:00
together with its timezone; [timedelta]s are microseconds. Comparisons and
differences of aware values are taken on the UTC instant. Sums leave the
supported range (years 1 to 9999) with [OverflowError]. *)
From stdpp Require Import prelude strings gmap sorting pretty ssreflect.
From S2P Require Import Prelude Uuid.

Set Warnings "-clear-no-such-hyp".

(** What [tzinfo.utcoffset] does: absent timezone, a fixed offset, a timezone
without an offset, or a timezone whose lookup raises. *)
Inductive tzinfo := TzNone | TzOffset (offset : Z) | TzNoOffset | TzInvalid.

#[export] Instance tzinfo_eq_dec : EqDecision tzinfo.
Proof. solve_decision. Defined.

Record datetime := DateTime { dt_wall : Z; dt_tz : tzinfo }.

#[export] Instance datetime_eq_dec : EqDecision datetime.
Proof. solve_decision. Defined.

Definition microsecond : Z := 1.
Definition second : Z := 1000000.
Definition minute : Z := 60 * second.
Definition hour : Z := 60 * minute.
Definition day : Z := 24 * hour.

(** [datetime.max] on this scale: the last microsecond of year 9999. *)
Definition DT_MAX : Z := 3652059 * day - 1.

Definition utcoffset (d : datetime) : result (option Z) :=
  match dt_tz d with
  | TzNone | TzNoOffset => Ok None
  | TzOffset o => Ok (Some o)
  | TzInvalid => Raise ValueError
  end.

(** The UTC instant of an aware value. *)
Definition instant (d : datetime) : Z :=
  match dt_tz d with TzOffset o => dt_wall d - o | _ => dt_wall d end.

Definition aware (d : datetime) : bool :=
  match dt_tz d with TzOffset _ => true | _ => false end.

Definition dt_ltb (a b : datetime) : bool := (instant a <? instant b)%Z.
Definition dt_leb (a b : datetime) : bool := (instant a <=? instant b)%Z.
Definition dt_eqb (a b : datetime) : bool := (instant a =? instant b)%Z.
Definition dt_sub (a b : datetime) : Z := (instant a - instant b)%Z.

(** [max(a, b)]: the second argument only when it is greater. *)
Definition dt_max (a b : datetime) : datetime := if dt_ltb a b then b else a.

Definition dt_in_range (wall : Z) : bool := ((0 <=? wall) && (wall <=? DT_MAX))%Z.

(** [d + delta]. *)
Definition dt_add (d : datetime) (delta : Z) : result datetime :=
  if dt_in_range (dt_wall d + delta)
  then Ok (DateTime (dt_wall d + delta) (dt_tz d)) else Raise OverflowError.

(** [d.astimezone(UTC)] of an aware value (callers check awareness first). *)
Definition astimezone_utc (d : datetime) : result datetime :=
  match utcoffset d with
  | Ok (Some _) =>
    if dt_in_range (instant d) then Ok (DateTime (instant d) (TzOffset 0))
    else Raise OverflowError
  | Ok None => Raise ValueError
  | Raise e => Raise e
  end.

(** A UTC value built from its instant. *)
Definition utc (t : Z) : datetime := DateTime t (TzOffset 0).

Lemma instant_utc t : instant (utc t) = t.
Proof. unfold instant, utc. simpl. lia. Qed.

Lemma instant_dt_max a b : instant (dt_max a b) = Z.max (instant a) (instant b).
Proof. unfold dt_max, dt_ltb. destruct (Z.ltb_spec (instant a) (instant b)); lia. Qed.

Lemma dt_add_Ok d delta d' :
  dt_add d delta = Ok d' → instant d' = (instant d + delta)%Z ∧ dt_tz d' = dt_tz d.
Proof.
  unfold dt_add, instant. destruct (dt_in_range _); intros; simplify_eq/=.
  split; [|done]. destruct (dt_tz d); lia.
Qed.

Lemma astimezone_utc_Ok d d' :
  astimezone_utc d = Ok d' → instant d' = instant d ∧ d' = utc (instant d).
Proof.
  unfold astimezone_utc, utcoffset. destruct (dt_tz d) eqn:Htz; try done.
  destruct (dt_in_range _); intros; simplify_eq. by rw instant_utc.
Qed.

(** ** [isoformat] *)

(** ['%0nd' % z] for a non-negative [z] of at most [n] digits. *)
Fixpoint decn (n : nat) (z : Z) : pystr :=
  match n with
  | O => []
  | S n' => decn n' (z / 10)%Z ++ [(48 + z mod 10)%Z]
  end.

Definition days_before_month (m : Z) : Z :=
  nth (Z.to_nat m) [0; 0; 31; 59; 90; 120; 151; 181; 212; 243; 273; 304; 334]%Z 0%Z.
Definition days_in_month (m : Z) : Z :=
  nth (Z.to_nat m) [0; 31; 28; 31; 30; 31; 30; 31; 31; 30; 31; 30; 31]%Z 0%Z.

(** Year, month and day of a day number counted from 0001-01-01 (day 0). *)
Definition ymd_of_days (n0 : Z) : Z * Z * Z :=
  let n400 := (n0 / 146097)%Z in let n := (n0 mod 146097)%Z in
  let n100 := (n / 36524)%Z in let n := (n mod 36524)%Z in
  let n4 := (n / 1461)%Z in let n := (n mod 1461)%Z in
  let n1 := (n / 365)%Z in let n := (n mod 365)%Z in
  let year := (n400 * 400 + 1 + n100 * 100 + n4 * 4 + n1)%Z in
  if ((n1 =? 4) || (n100 =? 4))%Z then ((year - 1)%Z, 12%Z, 31%Z) else
  let leap := ((n1 =? 3) && (negb (n4 =? 24) || (n100 =? 3)))%Z in
  let month := Z.shiftr (n + 50) 5 in
  let preceding := (days_before_month month + Z.b2z ((2 <? month) && leap))%Z in
  let '(month, preceding) :=
    if (n <? preceding)%Z
    then ((month - 1)%Z,
          (preceding - (days_in_month (month - 1) + Z.b2z ((month - 1 =? 2) && leap)))%Z)
    else (month, preceding) in
  (year, month, (n - preceding + 1)%Z).

Definition iso_time (t : Z) : pystr :=
  decn 2 (t / hour) ++ py ":" ++ decn 2 (t / minute mod 60) ++ py ":"
    ++ decn 2 (t / second mod 60)
    ++ (if (t mod second =? 0)%Z then [] else py "." ++ decn 6 (t mod second)).

Definition iso_offset (o : Z) : pystr :=
  let a := Z.abs o in
  py (if (o <? 0)%Z then "-" else "+")
    ++ decn 2 (a / hour) ++ py ":" ++ decn 2 (a / minute mod 60)
    ++ (if (a mod minute =? 0)%Z then []
        else py ":" ++ decn 2 (a / second mod 60)
          ++ (if (a mod second =? 0)%Z then [] else py "." ++ decn 6 (a mod second))).

(** [d.isoformat()]. *)
Definition isoformat (d : datetime) : pystr :=
  let '(y, m, dd) := ymd_of_days (dt_wall d / day) in
  decn 4 y ++ py "-" ++ decn 2 m ++ py "-" ++ decn 2 dd ++ py "T"
    ++ iso_time (dt_wall d mod day)
    ++ match dt_tz d with TzOffset o => iso_offset o | _ => [] end.

Example isoformat_epoch :
  isoformat (utc (719162 * day)) = py "1970-01-01T00:00:00+00:00".
Proof. reflexivity. Qed.

Example isoformat_leap :
  isoformat (DateTime (738944 * day + 13 * hour + 5 * minute + 9 * second + 70)
               (TzOffset (- (5 * hour + 30 * minute))))
  = py "2024-02-29T13:05:09.000070-05:30".
Proof. reflexivity. Qed.

Example isoformat_max : isoformat (utc DT_MAX) = py "9999-12-31T23:59:59.999999+00:00".
Proof. reflexivity. Qed.
