(* ===== verification/Sha256.v ===== *)
(** * [hashlib.sha256(data).hexdigest()]

The hash function of FIPS 180-4 on 32-bit words, as the code uses it: bytes
in, 64 lowercase hexadecimal characters out. *)
From stdpp Require Import prelude strings gmap sorting pretty ssreflect.
From S2P Require Import Prelude.

Set Warnings "-clear-no-such-hyp".

Module Sha256.

Definition w32 (x : Z) : Z := Z.land x 4294967295.
Definition add32 (x y : Z) : Z := w32 (x + y).
Definition rotr (n x : Z) : Z := Z.lor (Z.shiftr x n) (w32 (Z.shiftl x (32 - n))).

Definition bigS0 (x : Z) := Z.lxor (rotr 2 x) (Z.lxor (rotr 13 x) (rotr 22 x)).
Definition bigS1 (x : Z) := Z.lxor (rotr 6 x) (Z.lxor (rotr 11 x) (rotr 25 x)).
Definition smallS0 (x : Z) := Z.lxor (rotr 7 x) (Z.lxor (rotr 18 x) (Z.shiftr x 3)).
Definition smallS1 (x : Z) := Z.lxor (rotr 17 x) (Z.lxor (rotr 19 x) (Z.shiftr x 10)).
Definition Ch (x y z : Z) := Z.lxor (Z.land x y) (Z.land (Z.lxor x 4294967295) z).
Definition Maj (x y z : Z) := Z.lxor (Z.land x y) (Z.lxor (Z.land x z) (Z.land y z)).

(** ** The constants

The round constants are the first 32 bits of the fractional parts of the cube
roots of the first 64 primes, the initial state those of the square roots of
the first eight. *)
Definition is_prime (n : nat) : bool :=
  (2 <=? n) && forallb (λ d, negb (n mod d =? 0)) (seq 2 (n - 2)).
Definition primes64 : list Z := Z.of_nat <$> List.filter is_prime (seq 2 310).

(** The integer [k]-th root of [n], found bit by bit from bit [bits] down. *)
Fixpoint iroot (k : Z) (bits : nat) (acc n : Z) : Z :=
  match bits with
  | O => acc
  | S b =>
    let next := (acc + 2 ^ Z.of_nat b)%Z in
    iroot k b (if (next ^ k <=? n)%Z then next else acc) n
  end.

Definition root_fraction (k p : Z) : Z := w32 (iroot k 40 0 (p * 2 ^ (32 * k))).

Definition K : list Z := Eval vm_compute in root_fraction 3 <$> primes64.

Record hstate := HState { ha : Z; hb : Z; hc : Z; hd : Z; he : Z; hf : Z; hg : Z; hh : Z }.

Definition state_of (ws : list Z) : hstate :=
  let w i := nth i ws 0%Z in HState (w 0) (w 1) (w 2) (w 3) (w 4) (w 5) (w 6) (w 7).

Definition H0 : hstate := Eval vm_compute in state_of (root_fraction 2 <$> primes64).

(** The message schedule, most recent word first. *)
Definition schedule_step (ws : list Z) : list Z :=
  add32 (add32 (smallS1 (nth 1 ws 0%Z)) (nth 6 ws 0%Z))
        (add32 (smallS0 (nth 14 ws 0%Z)) (nth 15 ws 0%Z)) :: ws.

Definition schedule (block : list Z) : list Z :=
  reverse (Nat.iter 48 schedule_step (reverse block)).

Definition round (s : hstate) (kw : Z * Z) : hstate :=
  let t1 := add32 (add32 (hh s) (bigS1 (he s)))
                  (add32 (Ch (he s) (hf s) (hg s)) (add32 kw.1 kw.2)) in
  let t2 := add32 (bigS0 (ha s)) (Maj (ha s) (hb s) (hc s)) in
  HState (add32 t1 t2) (ha s) (hb s) (hc s) (add32 (hd s) t1) (he s) (hf s) (hg s).

Definition compress (s : hstate) (block : list Z) : hstate :=
  let r := foldl round s (zip K (schedule block)) in
  HState (add32 (ha s) (ha r)) (add32 (hb s) (hb r)) (add32 (hc s) (hc r))
         (add32 (hd s) (hd r)) (add32 (he s) (he r)) (add32 (hf s) (hf r))
         (add32 (hg s) (hg r)) (add32 (hh s) (hh r)).

Fixpoint words_of_bytes (bs : list Z) : list Z :=
  match bs with
  | a :: b :: c :: d :: rest =>
    (((a * 256 + b) * 256 + c) * 256 + d)%Z :: words_of_bytes rest
  | _ => []
  end.

Fixpoint blocks (n : nat) (ws : list Z) : list (list Z) :=
  match n with O => [] | S n' => take 16 ws :: blocks n' (drop 16 ws) end.

(** Padding: a one bit, zeros, and the bit length in 64 bits. *)
Definition pad (msg : list Z) : list Z :=
  let len := Z.of_nat (length msg) in
  msg ++ [128%Z] ++ replicate (Z.to_nat ((55 - len) mod 64)) 0%Z
    ++ map (λ i, Z.land (Z.shiftr (8 * len) (8 * i)) 255) [7; 6; 5; 4; 3; 2; 1; 0]%Z.

Definition digest (msg : list Z) : hstate :=
  let ws := words_of_bytes (pad msg) in
  foldl compress H0 (blocks (length ws / 16) ws).

Definition hex_of (s : hstate) : pystr :=
  hexn 8 (ha s) ++ hexn 8 (hb s) ++ hexn 8 (hc s) ++ hexn 8 (hd s)
    ++ hexn 8 (he s) ++ hexn 8 (hf s) ++ hexn 8 (hg s) ++ hexn 8 (hh s).

Definition hexdigest (msg : list Z) : pystr := hex_of (digest msg).

Example sha256_empty :
  hexdigest [] = py "e3b0c44298fc1c149afbf4c8996fb92427ae41e4649b934ca495991b7852b855".
Proof. vm_compute. reflexivity. Qed.

Example sha256_two_blocks :
  hexdigest (py "abcdbcdecdefdefgefghfghighijhijkijkljklmklmnlmnomnopnopq")
  = py "248d6a61d20638b8e5c026930c3e6039a33ce45964ff2167f6ecedd419db06c1".
Proof. vm_compute. reflexivity. Qed.

(** Every digest is 64 lowercase hexadecimal characters. *)
Lemma length_hexdigest msg : length (hexdigest msg) = 64.
Proof. unfold hexdigest, hex_of. by rw !length_app. Qed.

Lemma hexdigest_lower msg : forallb is_lower_hex (hexdigest msg) = true.
Proof.
  unfold hexdigest, hex_of.
  do 7 (apply forallb_app_true; split; [apply hexn_lower|]). apply hexn_lower.
Qed.

(** Proofs use the two lemmas above only. *)
#[global] Opaque hexdigest.

End Sha256.
