(* ===== verification/Json.v ===== *)
(** * [json.dumps] with [ensure_ascii] and compact separators *)
From stdpp Require Import prelude strings gmap sorting pretty ssreflect.
From S2P Require Import Prelude.

Set Warnings "-clear-no-such-hyp".

Set Warnings "-register-all".

(** JSON documents as Python values; an object keeps the order its keys were
inserted in, and a float keeps its source text. *)
Inductive json :=
| JNull
| JBool (b : bool)
| JInt (z : Z)
| JFloat (raw : pystr)
| JStr (s : pystr)
| JArr (items : list json)
| JObj (fields : list (pystr * json)).

(** [sep.join(parts)]. *)
Fixpoint join (sep : pystr) (parts : list pystr) : pystr :=
  match parts with
  | [] => []
  | [p] => p
  | p :: ps => p ++ sep ++ join sep ps
  end.

(** [str(z)] for an integer. *)
Definition int_str (z : Z) : pystr := py (pretty z).

Definition u_escape (c : Z) : pystr := py "\u" ++ hexn 4 c.

(** One character of [encode_basestring_ascii]. *)
Definition json_escape (c : Z) : pystr :=
  if (c =? 34)%Z then py "\" ++ [34%Z] else
  if (c =? 92)%Z then py "\\" else
  if (c =? 10)%Z then py "\n" else
  if (c =? 13)%Z then py "\r" else
  if (c =? 9)%Z then py "\t" else
  if (c =? 12)%Z then py "\f" else
  if (c =? 8)%Z then py "\b" else
  if ((32 <=? c) && (c <=? 126))%Z then [c] else
  if (c <? 65536)%Z then u_escape c else
  let n := (c - 65536)%Z in
  u_escape (Z.lor 55296 (Z.land (Z.shiftr n 10) 1023))
    ++ u_escape (Z.lor 56320 (Z.land n 1023)).

Definition json_str (s : pystr) : pystr := [34%Z] ++ (s ≫= json_escape) ++ [34%Z].

Definition json_key_leb (p q : pystr * pystr) : bool := str_leb p.1 q.1.

(** [json.dumps(v, ensure_ascii=True, separators=(",", ":"), sort_keys=sort)].
Each object member is rendered first and the members are then ordered by key. *)
Fixpoint json_dumps (sort : bool) (v : json) : pystr :=
  match v with
  | JNull => py "null"
  | JBool b => py (if b then "true" else "false")
  | JInt z => int_str z
  | JFloat raw => raw
  | JStr s => json_str s
  | JArr items => py "[" ++ join (py ",") (json_dumps sort <$> items) ++ py "]"
  | JObj fields =>
    let members := map (λ f, (f.1, json_dumps sort f.2)) fields in
    let members := if sort then py_sorted json_key_leb members else members in
    py "{" ++ join (py ",") ((λ m, json_str m.1 ++ py ":" ++ m.2) <$> members) ++ py "}"
  end.

Example json_dumps_sorted :
  json_dumps true (JObj [(py "b", JArr [JInt (-7); JBool true; JStr [9786; 128512; 10]%Z]); (py "a", JNull)])
  = py "{" ++ json_str (py "a") ++ py ":null," ++ json_str (py "b") ++ py ":[-7,true,"
    ++ [34%Z] ++ py "\u263a\ud83d\ude00\n" ++ [34%Z] ++ py "]}".
Proof. reflexivity. Qed.
