(* ===== verification/Text.v ===== *)
(** * Text: UTF-8, [repr] and string helpers

[bytes] values are lists of integers below 256. *)
From stdpp Require Import prelude strings gmap sorting pretty ssreflect.
From S2P Require Import Prelude Json.

Set Warnings "-clear-no-such-hyp".

(** [s.encode("utf-8")] of text without surrogates. *)
Definition utf8_char (c : Z) : list Z :=
  if (c <? 128)%Z then [c] else
  if (c <? 2048)%Z then [(192 + c / 64)%Z; (128 + c mod 64)%Z] else
  if (c <? 65536)%Z then
    [(224 + c / 4096)%Z; (128 + c / 64 mod 64)%Z; (128 + c mod 64)%Z]
  else [(240 + c / 262144)%Z; (128 + c / 4096 mod 64)%Z; (128 + c / 64 mod 64)%Z;
        (128 + c mod 64)%Z].
Definition utf8 (s : pystr) : list Z := s ≫= utf8_char.

(** [repr] of a list of printable ASCII names. *)
Definition repr_char (quote c : Z) : pystr :=
  if ((c =? 92) || (c =? quote))%Z then [92%Z; c] else [c].
Definition repr_str (s : pystr) : pystr :=
  let quote := if existsb (Z.eqb 39) s && negb (existsb (Z.eqb 34) s) then 34%Z else 39%Z in
  [quote] ++ (s ≫= repr_char quote) ++ [quote].
Definition repr_list (l : list pystr) : pystr :=
  py "[" ++ join (py ", ") (repr_str <$> l) ++ py "]".

(** [repr] of any text. [printable] is [str.isprintable] of a character outside
ASCII, which depends on the interpreter's Unicode tables. *)
Definition repr_escape (printable : Z → bool) (quote c : Z) : pystr :=
  if ((c =? 92) || (c =? quote))%Z then [92%Z; c] else
  if (c =? 9)%Z then py "\t" else
  if (c =? 10)%Z then py "\n" else
  if (c =? 13)%Z then py "\r" else
  if ((c <? 32) || (c =? 127))%Z then py "\x" ++ hexn 2 c else
  if (c <? 127)%Z || printable c then [c] else
  if (c <? 256)%Z then py "\x" ++ hexn 2 c else
  if (c <? 65536)%Z then py "\u" ++ hexn 4 c else py "\U" ++ hexn 8 c.
Definition py_repr (printable : Z → bool) (s : pystr) : pystr :=
  let quote := if existsb (Z.eqb 39) s && negb (existsb (Z.eqb 34) s) then 34%Z else 39%Z in
  [quote] ++ (s ≫= repr_escape printable quote) ++ [quote].
Definition py_repr_list (printable : Z → bool) (l : list pystr) : pystr :=
  py "[" ++ join (py ", ") (py_repr printable <$> l) ++ py "]".

(** ** [raw.decode("utf-8", errors="strict")] *)

(** A continuation byte's six bits. *)
Definition utf8_cont (b : Z) : option Z :=
  if ((128 <=? b) && (b <? 192))%Z then Some (b - 128)%Z else None.

(** The decoder rejects overlong forms, values above 0x10FFFF, and surrogates unless
the error handler is "surrogatepass". *)
Fixpoint utf8_decode_with (surrogates : bool) (raw : list Z) : result pystr :=
  match raw with
  | [] => Ok []
  | b :: r1 =>
    if (b <? 128)%Z then s ← utf8_decode_with surrogates r1; Ok (b :: s)
    else if (b <? 194)%Z then Raise UnicodeDecodeError
    else if (b <? 224)%Z then
      match r1 with
      | c1 :: r2 =>
        match utf8_cont c1 with
        | Some x1 => s ← utf8_decode_with surrogates r2; Ok (((b - 192) * 64 + x1)%Z :: s)
        | None => Raise UnicodeDecodeError
        end
      | _ => Raise UnicodeDecodeError
      end
    else if (b <? 240)%Z then
      match r1 with
      | c1 :: c2 :: r3 =>
        match utf8_cont c1, utf8_cont c2 with
        | Some x1, Some x2 =>
          let c := ((b - 224) * 4096 + x1 * 64 + x2)%Z in
          if ((c <? 2048) || (negb surrogates && (55296 <=? c) && (c <=? 57343)))%Z then Raise UnicodeDecodeError
          else s ← utf8_decode_with surrogates r3; Ok (c :: s)
        | _, _ => Raise UnicodeDecodeError
        end
      | _ => Raise UnicodeDecodeError
      end
    else if (b <? 245)%Z then
      match r1 with
      | c1 :: c2 :: c3 :: r4 =>
        match utf8_cont c1, utf8_cont c2, utf8_cont c3 with
        | Some x1, Some x2, Some x3 =>
          let c := ((b - 240) * 262144 + x1 * 4096 + x2 * 64 + x3)%Z in
          if ((c <? 65536) || (1114111 <? c))%Z then Raise UnicodeDecodeError
          else s ← utf8_decode_with surrogates r4; Ok (c :: s)
        | _, _, _ => Raise UnicodeDecodeError
        end
      | _ => Raise UnicodeDecodeError
      end
    else Raise UnicodeDecodeError
  end.

Definition utf8_decode : list Z → result pystr := utf8_decode_with false.

(** A Unicode scalar value. *)
Definition is_scalar (c : Z) : bool :=
  ((0 <=? c) && (c <=? 1114111) && negb ((55296 <=? c) && (c <=? 57343)))%Z.

(** [text.encode("utf-8")]: strict encoding refuses surrogates. *)
Definition encode_utf8 (s : pystr) : result (list Z) :=
  if forallb is_scalar s then Ok (utf8 s) else Raise UnicodeEncodeError.

#[local] Ltac Zify.zify_post_hook ::= Z.to_euclidean_division_equations.

Lemma utf8_cont_digit x : (0 ≤ x < 64)%Z → utf8_cont (128 + x) = Some x.
Proof.
  intros Hx. unfold utf8_cont. rw (proj2 (Z.leb_le 128 (128 + x))); [|lia].
  rw (proj2 (Z.ltb_lt (128 + x) 192)); [|lia]. cbn. f_equal. lia.
Qed.

(** Rewrite the comparisons of the goal that [lia] decides. *)
Ltac compare_Z :=
  repeat match goal with
  | |- context [(?a <? ?b)%Z] =>
    (rw (proj2 (Z.ltb_lt a b)); [|lia]) || (rw (proj2 (Z.ltb_ge a b)); [|lia])
  | |- context [(?a <=? ?b)%Z] =>
    (rw (proj2 (Z.leb_le a b)); [|lia]) || (rw (proj2 (Z.leb_gt a b)); [|lia])
  | |- context [(?a =? ?b)%Z] =>
    (rw (proj2 (Z.eqb_eq a b)); [|lia]) || (rw (proj2 (Z.eqb_neq a b)); [|lia])
  end.

Lemma is_scalar_spec c :
  is_scalar c = true ↔ (0 ≤ c ≤ 1114111 ∧ ¬ (55296 ≤ c ≤ 57343))%Z.
Proof. unfold is_scalar. lia. Qed.

Lemma utf8_decode_char c s :
  is_scalar c = true → utf8_decode (utf8_char c ++ s) = (t ← utf8_decode s; Ok (c :: t)).
Proof.
  intros [Hc Hs]%is_scalar_spec. unfold utf8_char.
  destruct (Z.ltb_spec c 128).
  { cbn. by compare_Z. }
  destruct (Z.ltb_spec c 2048); [|destruct (Z.ltb_spec c 65536)]; unfold utf8_decode; cbn [app utf8_decode_with]; fold utf8_decode.
  - compare_Z. rw utf8_cont_digit; [|lia].
    by replace ((192 + c / 64 - 192) * 64 + c mod 64)%Z with c by lia.
  - compare_Z. rw !utf8_cont_digit; [|lia..]. cbv zeta.
    replace ((224 + c / 4096 - 224) * 4096 + (c / 64) mod 64 * 64 + c mod 64)%Z with c by lia.
    by replace ((c <? 2048) || (negb false && (55296 <=? c) && (c <=? 57343)))%Z with false by lia.
  - compare_Z. rw !utf8_cont_digit; [|lia..]. cbv zeta.
    replace ((240 + c / 262144 - 240) * 262144 + (c / 4096) mod 64 * 4096 +
             (c / 64) mod 64 * 64 + c mod 64)%Z with c by lia.
    by replace ((c <? 65536) || (1114111 <? c))%Z with false by lia.
Qed.

(** Decoding inverts encoding. *)
Lemma utf8_roundtrip s : forallb is_scalar s = true → utf8_decode (utf8 s) = Ok s.
Proof.
  induction s as [|c s IH]; [done|]. intros [Hc Hs]%andb_true_iff.
  unfold utf8. cbn. rw utf8_decode_char //. change (s ≫= utf8_char) with (utf8 s). by rw IH.
Qed.

(** ASCII text is its own encoding. *)
Definition is_ascii (c : Z) : bool := ((0 <=? c) && (c <? 128))%Z.

Definition is_plain (c : Z) : bool := ((1 <=? c) && (c <? 128))%Z.

Lemma utf8_ascii s : forallb is_ascii s = true → utf8 s = s.
Proof.
  induction s as [|c s IH]; [done|]. intros [Hc Hs]%andb_true_iff. unfold is_ascii in Hc.
  unfold utf8. cbn. unfold utf8_char. rw (proj2 (Z.ltb_lt c 128)); [|lia]. cbn. f_equal. by apply IH.
Qed.

Lemma utf8_decode_ascii s : forallb is_ascii s = true → utf8_decode s = Ok s.
Proof.
  intros Hs. rw -{1}(utf8_ascii s Hs). apply utf8_roundtrip. revert Hs.
  induction s as [|c s IH]; [done|]. intros [Hc Hs]%andb_true_iff. unfold is_ascii in Hc. cbn.
  rw IH //. rw andb_true_r. apply is_scalar_spec. lia.
Qed.

(** Decoding raises nothing else. *)
Lemma utf8_decode_with_raises pass raw e : utf8_decode_with pass raw = Raise e → e = UnicodeDecodeError.
Proof.
  revert e. induction raw as [raw IH] using (induction_ltof1 _ length). unfold ltof in IH.
  assert (IH' : ∀ c t e, length t < length raw →
    (s ← utf8_decode_with pass t; Ok (c :: s)) = Raise e → e = UnicodeDecodeError).
  { intros c t e Ht. specialize (IH t Ht). destruct (utf8_decode_with pass t); cbn; [done|].
    intros [= <-]. by apply IH. }
  intros e. destruct raw as [|b r1]; [done|]. cbn [utf8_decode_with].
  repeat match goal with
  | |- Raise _ = _ → _ => by intros [= <-]
  | |- mbind _ (utf8_decode_with _ _) = _ → _ => apply IH'; cbn; lia
  | |- (if ?b then _ else _) = _ → _ => destruct b
  | |- match ?x with _ => _ end = _ → _ => destruct x
  | |- (let _ := _ in _) = _ → _ => cbv zeta
  end.
Qed.

Lemma utf8_decode_raises raw e : utf8_decode raw = Raise e → e = UnicodeDecodeError.
Proof. apply utf8_decode_with_raises. Qed.

(** Text the strict decoder reads, the lenient one reads alike. *)
Lemma utf8_decode_with_pass raw s : utf8_decode raw = Ok s → utf8_decode_with true raw = Ok s.
Proof.
  unfold utf8_decode. revert s. induction raw as [raw IH] using (induction_ltof1 _ length). unfold ltof in IH.
  assert (IH' : ∀ c t s, length t < length raw →
    (u ← utf8_decode_with false t; Ok (c :: u)) = Ok s → (u ← utf8_decode_with true t; Ok (c :: u)) = Ok s).
  { intros c t s Ht. specialize (IH t Ht). destruct (utf8_decode_with false t) as [u|]; cbn; [|done].
    intros [= <-]. by rw (IH u eq_refl). }
  intros s. destruct raw as [|b r1]; [done|]. cbn [utf8_decode_with].
  repeat match goal with
  | |- Raise _ = _ → _ => done
  | |- mbind _ (utf8_decode_with _ _) = _ → _ => apply IH'; cbn; lia
  | |- context [negb _ && _] => cbn [negb andb]
  | |- (if ?b || _ then _ else _) = _ → _ => destruct b eqn:?; cbn [orb]
  | |- (if ?b then _ else _) = _ → _ => destruct b eqn:?
  | |- match ?x with _ => _ end = _ → _ => destruct x
  | |- (let _ := _ in _) = _ → _ => cbv zeta
  end.
Qed.
