(* ===== verification/Base64.v ===== *)
(** * Base64

[base64.b64encode], and [base64.b64decode] with [validate=True] (the strict
mode of CPython's [a2b_base64]: only the alphabet, padding at the end; padding
after a complete group is ignored). *)
From stdpp Require Import prelude strings ssreflect.
From S2P Require Import Prelude Text.

Set Warnings "-clear-no-such-hyp".

Definition b64_digit (d : Z) : Z :=
  (if d <? 26 then d + 65
   else if d <? 52 then d + 71
   else if d <? 62 then d - 4
   else if d =? 62 then 43 else 47)%Z.

Definition b64_value (c : Z) : option Z :=
  if ((65 <=? c) && (c <=? 90))%Z then Some (c - 65)%Z
  else if ((97 <=? c) && (c <=? 122))%Z then Some (c - 71)%Z
  else if ((48 <=? c) && (c <=? 57))%Z then Some (c + 4)%Z
  else if (c =? 43)%Z then Some 62%Z
  else if (c =? 47)%Z then Some 63%Z
  else None.

Fixpoint b64encode (bytes : list Z) : pystr :=
  match bytes with
  | [] => []
  | [a] => [b64_digit (a / 4); b64_digit (a mod 4 * 16); 61; 61]%Z
  | [a; b] => [b64_digit (a / 4); b64_digit (a mod 4 * 16 + b / 16);
               b64_digit (b mod 16 * 4); 61]%Z
  | a :: b :: c :: rest =>
    [b64_digit (a / 4); b64_digit (a mod 4 * 16 + b / 16);
     b64_digit (b mod 16 * 4 + c / 64); b64_digit (c mod 64)]%Z ++ b64encode rest
  end.

(** The loop of [a2b_base64]: [quad] digits of the current group are read, [left]
holds their bits not yet emitted, [pads] padding characters count towards
closing it, [started] once any padding was read. *)
Inductive quad := Q0 | Q1 | Q2 | Q3.

Definition emit (b : Z) (r : result (list Z)) : result (list Z) :=
  bytes ← r; Ok (b :: bytes).

Fixpoint a2b (q : quad) (left : Z) (pads : nat) (started : bool) (s : pystr)
    : result (list Z) :=
  match s with
  | [] => match q with Q0 => Ok [] | _ => Raise ValueError end
  | c :: r =>
    if (c =? 61)%Z then
      let close := match r with [] => Ok [] | _ => Raise ValueError end in
      match q with
      | Q3 => close
      | Q2 => if (1 <=? pads)%nat then close else a2b q left (S pads) true r
      | _ => a2b q left pads true r
      end
    else
      match b64_value c with
      | None => Raise ValueError
      | Some v =>
        if started then Raise ValueError else
        match q with
        | Q0 => a2b Q1 v 0 started r
        | Q1 => emit (left * 4 + v / 16) (a2b Q2 (v mod 16) 0 started r)
        | Q2 => emit (left * 16 + v / 4) (a2b Q3 (v mod 4) 0 started r)
        | Q3 => emit (left * 64 + v) (a2b Q0 0 0 started r)
        end
      end
  end.

(** [base64.b64decode(s, validate=True)]. *)
Definition b64decode (s : pystr) : result (list Z) :=
  match s with
  | c :: _ => raise_if (c =? 61)%Z ValueError
  | [] => Ok tt
  end;;
  a2b Q0 0 0 false s.

(** ** Decoding an encoding *)
Definition is_byte (b : Z) : bool := ((0 <=? b) && (b <? 256))%Z.

Lemma b64_digits_checked :
  forallb (λ d, negb (b64_digit d =? 61)%Z && bool_decide (b64_value (b64_digit d) = Some d))
    (seqZ 0 64) = true.
Proof. reflexivity. Qed.

Lemma b64_digit_spec d :
  (0 ≤ d < 64)%Z → (b64_digit d =? 61)%Z = false ∧ b64_value (b64_digit d) = Some d.
Proof.
  intros Hd. pose proof b64_digits_checked as H. rw forallb_forall in H.
  specialize (H d). rw andb_true_iff negb_true_iff bool_decide_eq_true in H. apply H, list_elem_of_In, elem_of_seqZ. lia.
Qed.

(** One digit read. *)
Lemma a2b_digit q left pads d r :
  (0 ≤ d < 64)%Z →
  a2b q left pads false (b64_digit d :: r) =
    match q with
    | Q0 => a2b Q1 d 0 false r
    | Q1 => emit (left * 4 + d / 16) (a2b Q2 (d mod 16) 0 false r)
    | Q2 => emit (left * 16 + d / 4) (a2b Q3 (d mod 4) 0 false r)
    | Q3 => emit (left * 64 + d) (a2b Q0 0 0 false r)
    end.
Proof. intros Hd. destruct (b64_digit_spec d Hd) as [Hp Hv]. cbn [a2b]. by rw Hp Hv. Qed.

Lemma emit_eq b b' r r' : b = b' → r = r' → emit b r = emit b' r'.
Proof. by intros -> ->. Qed.

Lemma a2b_group a b c r :
  is_byte a = true → is_byte b = true → is_byte c = true →
  a2b Q0 0 0 false
    ([b64_digit (a / 4); b64_digit (a mod 4 * 16 + b / 16);
      b64_digit (b mod 16 * 4 + c / 64); b64_digit (c mod 64)]%Z ++ r)
  = emit a (emit b (emit c (a2b Q0 0 0 false r))).
Proof.
  unfold is_byte. intros Ha Hb Hc. cbn [app].
  rw !a2b_digit; [|Z.to_euclidean_division_equations; lia..].
  do 3 (apply emit_eq; [Z.to_euclidean_division_equations; lia|]). done.
Qed.

Lemma a2b_b64encode l : forallb is_byte l = true → a2b Q0 0 0 false (b64encode l) = Ok l.
Proof.
  remember (length l) as n eqn:Hn. revert l Hn.
  induction n as [n IH] using lt_wf_ind. intros l -> Hl.
  destruct l as [|a [|b [|c r]]]; cbn [forallb] in Hl; checks_in Hl.
  - done.
  - destruct Hl as [Ha _]. unfold is_byte in Ha. cbn [b64encode].
    rw !a2b_digit; [|Z.to_euclidean_division_equations; lia..]. cbn.
    do 2 f_equal. Z.to_euclidean_division_equations; lia.
  - destruct Hl as (Ha & Hb & _). unfold is_byte in *. cbn [b64encode].
    rw !a2b_digit; [|Z.to_euclidean_division_equations; lia..]. cbn.
    do 2 f_equal; [|f_equal]; Z.to_euclidean_division_equations; lia.
  - destruct Hl as (Ha & Hb & Hc & Hr).
    change (b64encode (a :: b :: c :: r)) with
      ([b64_digit (a / 4); b64_digit (a mod 4 * 16 + b / 16);
        b64_digit (b mod 16 * 4 + c / 64); b64_digit (c mod 64)]%Z ++ b64encode r).
    rw a2b_group // (IH (length r)) //=; lia.
Qed.

Lemma b64decode_b64encode l : forallb is_byte l = true → b64decode (b64encode l) = Ok l.
Proof.
  intros Hl. unfold b64decode. rw a2b_b64encode //.
  assert (match b64encode l with c :: _ => raise_if (c =? 61)%Z ValueError | [] => Ok tt end = Ok tt)
    as ->; [|done].
  assert (∀ a, is_byte a = true → raise_if (b64_digit (a / 4) =? 61)%Z ValueError = Ok tt) as Hd.
  { intros a Ha. unfold is_byte in Ha. rw (proj1 (b64_digit_spec (a / 4) _)) //. Z.to_euclidean_division_equations; lia. }
  destruct l as [|a [|b [|c r]]]; cbn [forallb b64encode app] in Hl |- *; checks_in Hl;
    [done|apply Hd; apply Hl..].
Qed.

(** The encoding is four characters for every three bytes begun, all ASCII. *)
Lemma length_b64encode l : Z.of_nat (length (b64encode l)) = (4 * ((Z.of_nat (length l) + 2) / 3))%Z.
Proof.
  remember (length l) as n eqn:Hn. revert l Hn.
  induction n as [n IH] using lt_wf_ind. intros l ->.
  destruct l as [|a [|b [|c r]]]; [done..|]. cbn [b64encode app length].
  rw !Nat2Z.inj_succ (IH (length r)) //=; [|lia]. Z.to_euclidean_division_equations; lia.
Qed.

Lemma b64_digit_ascii d : is_ascii (b64_digit d) = true ∨ ¬ (0 ≤ d < 64)%Z.
Proof. unfold b64_digit, is_ascii. repeat case_match; lia. Qed.

Lemma ascii_b64encode l : forallb is_byte l = true → forallb is_ascii (b64encode l) = true.
Proof.
  assert (∀ d, (0 ≤ d < 64)%Z → is_ascii (b64_digit d) = true) as Hd.
  { intros d Hd. by destruct (b64_digit_ascii d). }
  remember (length l) as n eqn:Hn. revert l Hn.
  induction n as [n IH] using lt_wf_ind. intros l -> Hl.
  destruct l as [|a [|b [|c r]]]; [done|..]; cbn [forallb] in Hl; checks_in Hl; unfold is_byte in Hl.
  1-2: cbn [b64encode forallb]; rw !Hd //; Z.to_euclidean_division_equations; lia.
  destruct Hl as (Ha & Hb & Hc & Hr). cbn [b64encode app forallb].
  rw !Hd; [|Z.to_euclidean_division_equations; lia..]. cbn [andb]. by apply (IH (length r)); [cbn; lia|..].
Qed.

Lemma a2b_raises s : ∀ q left pads started e, a2b q left pads started s = Raise e → e = ValueError.
Proof.
  assert (∀ b r e, emit b r = Raise e → r = Raise e) as Hemit by (intros b [l|x] e; naive_solver).
  induction s as [|c r IH]; intros q left pads started e; cbn [a2b]; [destruct q; naive_solver|].
  destruct (c =? 61)%Z.
  - destruct q; [by apply IH|by apply IH| |destruct r; naive_solver].
    destruct (1 <=? pads); [destruct r; naive_solver|by apply IH].
  - destruct (b64_value c); [|naive_solver]. destruct started; [naive_solver|].
    destruct q; [|intros He%Hemit..]; by eapply IH.
Qed.

Lemma b64decode_raises s e : b64decode s = Raise e → e = ValueError.
Proof.
  unfold b64decode. intros [Hr|[_ Hr]]%result_seq_Raise; [|by eapply a2b_raises].
  destruct s; [done|]. unfold raise_if in Hr. case_match; naive_solver.
Qed.
