(* ===== verification/JsonLoads.v ===== *)
(** * [json.loads] with hooks

The scanner of CPython's [json] module: what it accepts beyond RFC 8259
([NaN], [Infinity], lone surrogate escapes) included. The three hooks are the
arguments [object_pairs_hook], [parse_int] and [parse_constant] of the call.
[depth] is the number of nested containers the interpreter's recursion limit
leaves; [fuel] bounds the recursion of the model, and [loads] gives enough. *)
From stdpp Require Import prelude strings gmap sorting pretty ssreflect.
From S2P Require Import Prelude Json Text.

Set Warnings "-clear-no-such-hyp".

Record hooks := mkHooks {
  object_pairs : list (pystr * json) → result json;
  parse_int : pystr → result json;
  parse_constant : pystr → result json;
}.

Definition is_space (c : Z) : bool := ((c =? 32) || (c =? 9) || (c =? 10) || (c =? 13))%Z.

Fixpoint skip_space (s : pystr) : pystr :=
  match s with
  | c :: r => if is_space c then skip_space r else s
  | [] => []
  end.

(** ** Strings *)
Definition hex_value (c : Z) : option Z :=
  if ((48 <=? c) && (c <=? 57))%Z then Some (c - 48)%Z
  else if ((97 <=? c) && (c <=? 102))%Z then Some (c - 87)%Z
  else if ((65 <=? c) && (c <=? 70))%Z then Some (c - 55)%Z
  else None.

Definition hex4 (a b c d : Z) : option Z :=
  a ← hex_value a; b ← hex_value b; c ← hex_value c; d ← hex_value d;
  Some (((a * 16 + b) * 16 + c) * 16 + d)%Z.

Definition is_high (c : Z) : bool := ((55296 <=? c) && (c <=? 56319))%Z.
Definition is_low (c : Z) : bool := ((56320 <=? c) && (c <=? 57343))%Z.

(** The character of a one-letter escape. *)
Definition simple_escape (e : Z) : option Z :=
  if ((e =? 34) || (e =? 92) || (e =? 47))%Z then Some e
  else if (e =? 98)%Z then Some 8%Z
  else if (e =? 102)%Z then Some 12%Z
  else if (e =? 110)%Z then Some 10%Z
  else if (e =? 114)%Z then Some 13%Z
  else if (e =? 116)%Z then Some 9%Z
  else None.

Definition char_then (c : Z) (r : result (pystr * pystr)) : result (pystr * pystr) :=
  p ← r; Ok (c :: p.1, p.2).

(** [scanstring] from after the opening quote: the text and what follows the
closing quote. *)
Fixpoint scan_string (s : pystr) : result (pystr * pystr) :=
  match s with
  | [] => Raise JSONDecodeError
  | c :: s1 =>
    if (c =? 34)%Z then Ok ([], s1)
    else if (c =? 92)%Z then
      match s1 with
      | [] => Raise JSONDecodeError
      | e :: s2 =>
        if (e =? 117)%Z then
          match s2 with
          | h1 :: h2 :: h3 :: h4 :: s3 =>
            match hex4 h1 h2 h3 h4 with
            | None => Raise JSONDecodeError
            | Some u =>
              if is_high u then
                match s3 with
                | b :: e' :: l1 :: l2 :: l3 :: l4 :: s4 =>
                  if ((b =? 92) && (e' =? 117))%Z then
                    match hex4 l1 l2 l3 l4 with
                    | None => Raise JSONDecodeError
                    | Some v =>
                      if is_low v
                      then char_then (65536 + (u - 55296) * 1024 + (v - 56320))%Z (scan_string s4)
                      else char_then u (scan_string s3)
                    end
                  else char_then u (scan_string s3)
                | _ => char_then u (scan_string s3)
                end
              else char_then u (scan_string s3)
            end
          | _ => Raise JSONDecodeError
          end
        else
          match simple_escape e with
          | Some ch => char_then ch (scan_string s2)
          | None => Raise JSONDecodeError
          end
      end
    else if (c <=? 31)%Z then Raise JSONDecodeError
    else char_then c (scan_string s1)
  end.

(** ** Numbers *)
Definition is_digit (c : Z) : bool := ((48 <=? c) && (c <=? 57))%Z.

(** The decimal value of ASCII digits. *)
Definition digits_value (ds : pystr) : Z := fold_left (λ acc c, acc * 10 + (c - 48))%Z ds 0%Z.

Fixpoint span_digits (s : pystr) : pystr * pystr :=
  match s with
  | c :: r => if is_digit c then let p := span_digits r in (c :: p.1, p.2) else ([], s)
  | [] => ([], [])
  end.

Definition scan_fraction (s : pystr) : pystr * pystr :=
  match s with
  | c :: r =>
    if (c =? 46)%Z then
      match span_digits r with
      | ([], _) => ([], s)
      | (ds, r') => (c :: ds, r')
      end
    else ([], s)
  | [] => ([], s)
  end.

Definition scan_exponent (s : pystr) : pystr * pystr :=
  match s with
  | c :: r =>
    if ((c =? 101) || (c =? 69))%Z then
      let '(sign, r1) := match r with
        | g :: r' => if ((g =? 43) || (g =? 45))%Z then ([g], r') else ([], r)
        | [] => ([], r)
        end in
      match span_digits r1 with
      | ([], _) => ([], s)
      | (ds, r') => (c :: sign ++ ds, r')
      end
    else ([], s)
  | [] => ([], s)
  end.

(** [_match_number]: the integer text, the fraction and exponent text, the rest. *)
Definition match_number (s : pystr) : option (pystr * pystr * pystr) :=
  let '(sign, s1) := match s with
    | c :: r => if (c =? 45)%Z then ([c], r) else ([], s)
    | [] => ([], s)
    end in
  match s1 with
  | c :: r =>
    if (c =? 48)%Z then
      let '(frac, r1) := scan_fraction r in
      let '(exp, r2) := scan_exponent r1 in
      Some (sign ++ [c], frac ++ exp, r2)
    else if is_digit c then
      let '(ds, r0) := span_digits r in
      let '(frac, r1) := scan_fraction r0 in
      let '(exp, r2) := scan_exponent r1 in
      Some (sign ++ c :: ds, frac ++ exp, r2)
    else None
  | [] => None
  end.

(** ** Values *)

(** [text.startswith(prefix)], with the rest. *)
Fixpoint strip_prefix (prefix s : pystr) : option pystr :=
  match prefix, s with
  | [], _ => Some s
  | p :: prefix', c :: s' => if (p =? c)%Z then strip_prefix prefix' s' else None
  | _ :: _, [] => None
  end.

Lemma strip_prefix_Some p s r : strip_prefix p s = Some r ↔ s = p ++ r.
Proof.
  revert s. induction p as [|c p IH]; intros s; simpl; [naive_solver|].
  destruct s as [|d s]; [naive_solver|]. destruct (c =? d)%Z eqn:Hcd.
  - rw IH. split; [intros ->|intros [= _ ->]]; [|done]. f_equal. lia.
  - split; [done|]. intros [= -> _]. lia.
Qed.

Section scanner.
Context (h : hooks).

(** Literals and numbers, by their first characters. *)
Definition scan_atom (s : pystr) : result (json * pystr) :=
  let constant name r := v ← parse_constant h (py name); Ok (v, r) in
  match strip_prefix (py "null") s, strip_prefix (py "true") s, strip_prefix (py "false") s with
  | Some r, _, _ => Ok (JNull, r)
  | _, Some r, _ => Ok (JBool true, r)
  | _, _, Some r => Ok (JBool false, r)
  | _, _, _ =>
    match strip_prefix (py "NaN") s, strip_prefix (py "Infinity") s,
          strip_prefix (py "-Infinity") s with
    | Some r, _, _ => constant "NaN"%string r
    | _, Some r, _ => constant "Infinity"%string r
    | _, _, Some r => constant "-Infinity"%string r
    | _, _, _ =>
      match match_number s with
      | None => Raise JSONDecodeError
      | Some (digits, [], r) => v ← parse_int h digits; Ok (v, r)
      | Some (digits, frac, r) => Ok (JFloat (digits ++ frac), r)
      end
    end
  end.

(** [scan_once] and the loops of [_parse_object] and [_parse_array] from a key or
a value on; the pairs and items read so far are kept in order. *)
Fixpoint scan_once (fuel depth : nat) (s : pystr) : result (json * pystr) :=
  match fuel with
  | O => Raise (AssertionError (py "fuel"))
  | S fuel =>
    match s with
    | [] => Raise JSONDecodeError
    | c :: s1 =>
      if (c =? 34)%Z then p ← scan_string s1; Ok (JStr p.1, p.2)
      else if (c =? 123)%Z then
        match depth with
        | O => Raise RecursionError
        | S depth =>
          match skip_space s1 with
          | c' :: r =>
            if (c' =? 125)%Z then v ← object_pairs h []; Ok (v, r)
            else scan_members fuel depth [] (c' :: r)
          | [] => Raise JSONDecodeError
          end
        end
      else if (c =? 91)%Z then
        match depth with
        | O => Raise RecursionError
        | S depth =>
          match skip_space s1 with
          | c' :: r =>
            if (c' =? 93)%Z then Ok (JArr [], r)
            else scan_items fuel depth [] (c' :: r)
          | [] => Raise JSONDecodeError
          end
        end
      else scan_atom s
    end
  end
with scan_members (fuel depth : nat) (pairs : list (pystr * json)) (s : pystr)
    : result (json * pystr) :=
  match fuel with
  | O => Raise (AssertionError (py "fuel"))
  | S fuel =>
    match s with
    | c :: s1 =>
      if (c =? 34)%Z then
        key ← scan_string s1;
        match skip_space key.2 with
        | colon :: s2 =>
          if (colon =? 58)%Z then
            value ← scan_once fuel depth (skip_space s2);
            let pairs := pairs ++ [(key.1, value.1)] in
            match skip_space value.2 with
            | d :: s3 =>
              if (d =? 125)%Z then v ← object_pairs h pairs; Ok (v, s3)
              else if (d =? 44)%Z then scan_members fuel depth pairs (skip_space s3)
              else Raise JSONDecodeError
            | [] => Raise JSONDecodeError
            end
          else Raise JSONDecodeError
        | [] => Raise JSONDecodeError
        end
      else Raise JSONDecodeError
    | [] => Raise JSONDecodeError
    end
  end
with scan_items (fuel depth : nat) (items : list json) (s : pystr) : result (json * pystr) :=
  match fuel with
  | O => Raise (AssertionError (py "fuel"))
  | S fuel =>
    value ← scan_once fuel depth s;
    let items := items ++ [value.1] in
    match skip_space value.2 with
    | d :: s3 =>
      if (d =? 93)%Z then Ok (JArr items, s3)
      else if (d =? 44)%Z then scan_items fuel depth items (skip_space s3)
      else Raise JSONDecodeError
    | [] => Raise JSONDecodeError
    end
  end.

(** [JSONDecoder.decode]: white space around the value is skipped, anything after it
is an error. *)
Definition loads_text (depth : nat) (text : pystr) : result json :=
  p ← scan_once (S (2 * length text)) depth (skip_space text);
  match skip_space p.2 with
  | [] => Ok p.1
  | _ => Raise JSONDecodeError
  end.

(** [json.loads(text, ...)]: a leading byte order mark is refused. *)
Definition loads (depth : nat) (text : pystr) : result json :=
  match text with
  | c :: _ => raise_if (c =? 65279)%Z JSONDecodeError
  | [] => Ok tt
  end;;
  loads_text depth text.
End scanner.

(** The hooks of a plain call, without the interpreter's limit on integers. *)
Definition plain_hooks : hooks := mkHooks (λ ps, Ok (JObj ps)) (λ ds, Ok (JFloat ds)) (λ c, Ok (JFloat c)).
