(* ===== verification/JsonProofs.v ===== *)
(** * [json.loads]: enough fuel, and the round trip with [json.dumps]

The scanner consumes its input, so the fuel [loads] gives is never exhausted:
every exception is one of the decoder's own or of a hook. On documents that
[json.dumps] writes, [loads] returns the document. *)
From stdpp Require Import prelude strings gmap sorting pretty ssreflect.
From S2P Require Import Prelude Json Text JsonLoads.

Set Warnings "-clear-no-such-hyp".

Lemma length_py s : length (py s) = String.length s.
Proof. induction s as [|a s IH]; [done|]. change (S (length (py s)) = S (String.length s)). by rw IH. Qed.

(** ** Consumption *)
Section consumption.
Context (h : hooks) (E : exn → Prop).
Hypothesis E_syntax : E JSONDecodeError.
Hypothesis E_depth : E RecursionError.
Hypothesis E_pairs : ∀ l e, object_pairs h l = Raise e → E e.
Hypothesis E_int : ∀ s e, parse_int h s = Raise e → E e.
Hypothesis E_constant : ∀ s e, parse_constant h s = Raise e → E e.

(** A scan of [s] that returns leaves less than [n] characters; one that raises
raises an exception of [E]. *)
Definition consumes {A} (n : nat) (r : result (A * pystr)) : Prop :=
  match r with Ok p => length p.2 < n | Raise e => E e end.

Lemma consumes_mono {A} n n' (r : result (A * pystr)) : consumes n r → n ≤ n' → consumes n' r.
Proof using Type. destruct r; cbn; [lia|done]. Qed.

Lemma consumes_bind {A B} n (r : result (A * pystr)) (k : A * pystr → result (B * pystr)) n' :
  consumes n r → (∀ p, length p.2 < n → consumes n' (k p)) → consumes n' (r ≫= k).
Proof using Type. destruct r; cbn; auto. Qed.

Lemma skip_space_le s : length (skip_space s) ≤ length s.
Proof using Type. induction s as [|c s IH]; cbn; [done|]. destruct (is_space c); cbn; lia. Qed.

Lemma char_then_consumes c n r : consumes n r → consumes n (char_then c r).
Proof using Type. by destruct r. Qed.

Lemma scan_string_consumes s : consumes (S (length s)) (scan_string s).
Proof using E_syntax.
  induction s as [s IH] using (induction_ltof1 _ length). unfold ltof in IH.
  assert (IH' : ∀ c t, length t < length s → consumes (S (length s)) (char_then c (scan_string t))).
  { intros c t Ht. apply char_then_consumes. eapply consumes_mono; [by apply IH|lia]. }
  destruct s as [|c s1]; [done|]. cbn [scan_string].
  repeat match goal with
  | |- consumes _ (Raise _) => exact E_syntax
  | |- consumes _ (Ok _) => cbn; lia
  | |- consumes _ (char_then _ _) => apply IH'; cbn; lia
  | |- consumes _ (if ?b then _ else _) => destruct b
  | |- consumes _ (match ?x with _ => _ end) => destruct x
  end.
Qed.

Lemma strip_prefix_length p s r : strip_prefix p s = Some r → length s = length p + length r.
Proof using Type.
  revert s. induction p as [|c p IH]; intros s; cbn; [by intros [= ->]|].
  destruct s as [|d s]; [done|]. destruct (c =? d)%Z; [|done]. intros Hr%IH. cbn. lia.
Qed.

Lemma span_digits_le s : length (span_digits s).2 ≤ length s.
Proof using Type. induction s as [|c s IH]; cbn; [done|]. destruct (is_digit c); cbn; lia. Qed.

Lemma scan_fraction_le s : length (scan_fraction s).2 ≤ length s.
Proof using Type.
  destruct s as [|c r]; cbn; [done|]. destruct (c =? 46)%Z; [|done].
  pose proof (span_digits_le r). destruct (span_digits r) as [[|d ds] r']; cbn in *; lia.
Qed.

Lemma scan_exponent_le s : length (scan_exponent s).2 ≤ length s.
Proof using Type.
  destruct s as [|c r]; cbn; [done|]. destruct (_ || _)%Z; [|done].
  set (q := match r with [] => _ | _ => _ end).
  assert (length q.2 ≤ length r) by (unfold q; destruct r as [|g r']; cbn; [lia|]; destruct (_ || _)%Z; cbn; lia).
  destruct q as [sign r1]. pose proof (span_digits_le r1).
  destruct (span_digits r1) as [[|d ds] r']; cbn in *; lia.
Qed.

Lemma match_number_lt s i f r : match_number s = Some (i, f, r) → length r < length s.
Proof using Type.
  unfold match_number. set (q := match s with [] => _ | _ => _ end).
  assert (length q.2 ≤ length s) by (unfold q; destruct s as [|g r']; cbn; [lia|]; destruct (_ =? _)%Z; cbn; lia).
  destruct q as [sign [|c s1]]; [done|]. cbn in *.
  assert (Hend : ∀ t, length t ≤ length s1 → length (scan_exponent (scan_fraction t).2).2 < length s).
  { intros t Ht. pose proof (scan_fraction_le t). pose proof (scan_exponent_le (scan_fraction t).2). lia. }
  destruct (c =? 48)%Z; [|destruct (is_digit c); [|done]].
  - specialize (Hend s1 (le_n _)). destruct (scan_fraction s1) as [fr r1]; cbn in *.
    destruct (scan_exponent r1); cbn in *. naive_solver.
  - specialize (Hend _ (span_digits_le s1)). destruct (span_digits s1) as [ds r0]; cbn in *.
    destruct (scan_fraction r0) as [fr r1]; cbn in *. destruct (scan_exponent r1); cbn in *. naive_solver.
Qed.

Lemma scan_atom_consumes s : consumes (length s) (scan_atom h s).
Proof using E_syntax E_int E_constant.
  unfold scan_atom.
  assert (Hc : ∀ name r, length r < length s →
    consumes (length s) (v ← parse_constant h (py name); Ok (v, r))).
  { intros name r Hr. destruct (parse_constant h (py name)) eqn:Hp; cbn; [done|by eapply E_constant]. }
  repeat match goal with
  | |- context [strip_prefix ?p s] =>
    let Hs := fresh in destruct (strip_prefix p s) eqn:Hs; [apply strip_prefix_length in Hs; rw length_py in Hs; cbn in Hs|]
  end; try (cbn; lia); try (apply Hc; lia).
  destruct (match_number s) as [[[i f] r]|] eqn:Hm; [|exact E_syntax].
  apply match_number_lt in Hm. destruct f; [|cbn; lia].
  destruct (parse_int h i) eqn:Hp; cbn; [done|by eapply E_int].
Qed.

(** The three mutual scans, with the fuel each needs. *)
Lemma scan_consumes fuel :
  (∀ depth s, 2 * length s < fuel → consumes (length s) (scan_once h fuel depth s)) ∧
  (∀ depth pairs s, S (2 * length s) < fuel →
    consumes (length s) (scan_members h fuel depth pairs s)) ∧
  (∀ depth items s, S (2 * length s) < fuel →
    consumes (length s) (scan_items h fuel depth items s)).
Proof using All.
  induction fuel as [|fuel (IHo & IHm & IHi)]; [split_and!; lia|]. split_and!.
  - intros depth [|c s1] Hf; [exact E_syntax|]. cbn [scan_once length] in *.
    pose proof (skip_space_le s1) as Hsk.
    destruct (c =? 34)%Z.
    { eapply consumes_bind; [apply scan_string_consumes|]. intros p Hp. exact Hp. }
    destruct (c =? 123)%Z; [|destruct (c =? 91)%Z; [|apply (scan_atom_consumes (c :: s1))]].
    + destruct depth as [|depth]; [exact E_depth|]. destruct (skip_space s1) as [|c' r]; [exact E_syntax|].
      cbn in Hsk. destruct (c' =? 125)%Z.
      * destruct (object_pairs h []) eqn:Hp; cbn; [lia|by eapply E_pairs].
      * eapply consumes_mono; [apply IHm; cbn; lia|cbn; lia].
    + destruct depth as [|depth]; [exact E_depth|]. destruct (skip_space s1) as [|c' r]; [exact E_syntax|].
      cbn in Hsk. destruct (c' =? 93)%Z; [cbn; lia|].
      eapply consumes_mono; [apply IHi; cbn; lia|cbn; lia].
  - intros depth pairs [|c s1] Hf; [exact E_syntax|]. cbn [scan_members length] in *.
    destruct (c =? 34)%Z; [|exact E_syntax].
    eapply consumes_bind; [apply scan_string_consumes|]. intros [key rest] Hkey. cbn [fst snd] in *.
    pose proof (skip_space_le rest). destruct (skip_space rest) as [|colon s2]; [exact E_syntax|].
    destruct (colon =? 58)%Z; [|exact E_syntax]. cbn in *. pose proof (skip_space_le s2).
    eapply consumes_bind; [apply IHo; lia|]. intros [value after] Hv. cbn [fst snd] in *.
    pose proof (skip_space_le after). destruct (skip_space after) as [|d s3]; [exact E_syntax|].
    cbn in *. destruct (d =? 125)%Z; [|destruct (d =? 44)%Z; [|exact E_syntax]].
    + destruct (object_pairs h _) eqn:Hp; cbn; [lia|by eapply E_pairs].
    + pose proof (skip_space_le s3). eapply consumes_mono; [apply IHm; lia|lia].
  - intros depth items s Hf. cbn [scan_items].
    eapply consumes_bind; [apply IHo; lia|]. intros [value after] Hv. cbn [fst snd] in *.
    pose proof (skip_space_le after). destruct (skip_space after) as [|d s3]; [exact E_syntax|].
    cbn in *. destruct (d =? 93)%Z; [cbn; lia|]. destruct (d =? 44)%Z; [|exact E_syntax].
    pose proof (skip_space_le s3). eapply consumes_mono; [apply IHi; lia|lia].
Qed.

(** [loads] raises only exceptions of the decoder or of a hook. *)
Lemma loads_text_raises depth text e : loads_text h depth text = Raise e → E e.
Proof using All.
  unfold loads_text. intros Hl.
  assert (Hscan : consumes (length (skip_space text))
    (scan_once h (S (2 * length text)) depth (skip_space text))).
  { apply scan_consumes. pose proof (skip_space_le text). lia. }
  destruct (scan_once _ _ _ _) as [p|e1]; cbn [consumes mbind result_bind] in Hl, Hscan; [|congruence].
  destruct (skip_space p.2); congruence.
Qed.

Lemma loads_raises depth text e : loads h depth text = Raise e → E e.
Proof using All.
  unfold loads. intros [Hb|[_ Hl]]%result_seq_Raise; [|by eapply loads_text_raises].
  destruct text as [|c text]; [done|]. apply raise_if_Raise in Hb as [_ ->]. exact E_syntax.
Qed.
End consumption.

(** ** Decimal text *)

(** [ds] is what [str] writes for the positive [z]. *)
Record decimal (ds : pystr) (z : Z) : Prop := {
  dec_digits : forallb is_digit ds = true;
  dec_value : digits_value ds = z;
  dec_head : ∃ c ds', ds = c :: ds' ∧ c ≠ 48%Z;
  dec_length : (10 ^ Z.of_nat (length ds - 1) ≤ z)%Z;
}.

Lemma py_cons a s : py (String a s) = Z.of_N (Ascii.N_of_ascii a) :: py s.
Proof. done. Qed.

Lemma py_app s t : py (s +:+ t) = py s ++ py t.
Proof. induction s as [|a s IH]; [done|]. cbn [String.append]. by rw !py_cons IH. Qed.

Lemma digit_char x :
  (x < 10)%N → Z.of_N (Ascii.N_of_ascii (pretty_N_char x)) = (48 + Z.of_N x)%Z.
Proof.
  intros Hx. assert (x ∈ [0;1;2;3;4;5;6;7;8;9]%N) as Hin.
  { rw !elem_of_cons. lia. }
  revert Hin. rw !elem_of_cons elem_of_nil. intros Hin.
  repeat (destruct Hin as [-> |Hin]; [reflexivity|]). done.
Qed.

Lemma digits_value_snoc ds c : digits_value (ds ++ [c]) = (digits_value ds * 10 + (c - 48))%Z.
Proof. unfold digits_value. by rw fold_left_app. Qed.

Lemma decimal_snoc ds z d :
  decimal ds z → (0 ≤ d < 10)%Z → decimal (ds ++ [(48 + d)%Z]) (10 * z + d).
Proof.
  intros [Hd Hv (c & ds' & -> & Hc) Hl] Hr. split.
  - rw forallb_app Hd. cbn. unfold is_digit. lia.
  - rw digits_value_snoc Hv. lia.
  - by exists c, (ds' ++ [(48 + d)%Z]).
  - cbn [length app] in *. rw length_app. cbn [length].
    replace (S (length ds' + 1) - 1) with (S (S (length ds') - 1)) by lia.
    rw Nat2Z.inj_succ Z.pow_succ_r; lia.
Qed.

Lemma pretty_go_decimal x s :
  (0 < x)%N → ∃ ds, decimal ds (Z.of_N x) ∧ py (pretty_N_go x s) = ds ++ py s.
Proof.
  revert s. induction (N.lt_wf_0 x) as [x _ IH]. intros s Hx.
  assert (Hmod : (x `mod` 10 < 10)%N) by (apply N.mod_lt; lia).
  assert (Hdm : x = (10 * (x `div` 10) + x `mod` 10)%N) by (apply N.div_mod; lia).
  assert (Hlt : (x `div` 10 < x)%N) by (apply N.div_lt; lia).
  rw pretty_N_go_step //.
  generalize dependent (x `mod` 10)%N. generalize dependent (x `div` 10)%N. intros q Hlt d Hd Hx'.
  destruct (decide (q = 0)%N) as [H0|H0].
  - rw H0 pretty_N_go_0 py_cons digit_char //.
    exists [(48 + Z.of_N d)%Z]. split; [|done]. split.
    + cbn. unfold is_digit. lia.
    + cbn. lia.
    + eexists _, []. split; [done|]. lia.
    + cbn. lia.
  - destruct (IH q) with (s := String (pretty_N_char d) s)
      as (ds & Hds & ->); [done|lia|].
    exists (ds ++ [(48 + Z.of_N d)%Z]). split.
    + replace (Z.of_N x) with (10 * Z.of_N q + Z.of_N d)%Z by lia.
      apply decimal_snoc; [done|lia].
    + rw py_cons digit_char // -app_assoc. done.
Qed.

(** The three shapes of [str(z)]. *)
Lemma int_str_cases z :
  (z = 0%Z ∧ int_str z = [48%Z]) ∨
  (∃ ds, decimal ds z ∧ int_str z = ds) ∨
  (∃ ds, decimal ds (- z) ∧ int_str z = 45%Z :: ds).
Proof.
  assert (Hpos : ∀ p, ∃ ds, decimal ds (Z.pos p) ∧ py (pretty p) = ds).
  { intros p. destruct (pretty_go_decimal (N.pos p) "") as (ds & Hds & Heq); [lia|].
    exists ds. split; [done|]. rw app_nil_r in Heq. exact Heq. }
  unfold int_str. destruct z as [|p|p]; [by left| |].
  - right. left. apply Hpos.
  - right. right. destruct (Hpos p) as (ds & Hds & Heq). exists ds. split; [done|].
    change (py ("-" +:+ pretty p) = 45%Z :: ds). by rw py_app Heq.
Qed.

(** ** Scanning what [json.dumps] wrote *)

(** What may follow a value. *)
Definition delimited (rest : pystr) : Prop :=
  match rest with [] => True | c :: _ => c = 44%Z ∨ c = 93%Z ∨ c = 125%Z end.

Lemma span_digits_app ds rest :
  forallb is_digit ds = true → delimited rest → span_digits (ds ++ rest) = (ds, rest).
Proof.
  intros Hd Hr. induction ds as [|c ds IH]; cbn [app span_digits].
  - destruct rest as [|c rest]; [done|]. cbn in *. unfold is_digit.
    by replace ((48 <=? c) && (c <=? 57))%Z with false by lia.
  - cbn in Hd. apply andb_true_iff in Hd as [-> Hd]. by rw IH.
Qed.

Lemma delimited_tail rest :
  delimited rest → scan_fraction rest = ([], rest) ∧ scan_exponent rest = ([], rest).
Proof.
  destruct rest as [|c rest]; [done|]. cbn. intros Hc.
  replace (c =? 46)%Z with false by lia.
  by replace ((c =? 101) || (c =? 69))%Z with false by lia.
Qed.

Lemma match_number_unsigned sign ds z s rest :
  (z = 0%Z ∧ ds = [48%Z]) ∨ decimal ds z → delimited rest →
  match s with c :: r => if (c =? 45)%Z then ([c], r) else ([], s) | [] => ([], s) end
    = (sign, ds ++ rest) →
  match_number s = Some (sign ++ ds, [], rest).
Proof.
  intros Hds Hr Hs. unfold match_number. rw Hs.
  destruct (delimited_tail rest Hr) as [Hf He].
  destruct Hds as [[-> ->]|[Hd _ (c & ds' & -> & Hc) _]]; cbn [app].
  - by rw Z.eqb_refl Hf He.
  - cbn in Hd. apply andb_true_iff in Hd as [Hc' Hd].
    replace (c =? 48)%Z with false by lia. by rw Hc' span_digits_app // Hf He.
Qed.

Lemma match_number_int z rest :
  delimited rest → match_number (int_str z ++ rest) = Some (int_str z, [], rest).
Proof.
  intros Hr. destruct (int_str_cases z) as [[-> ->]|[(ds & Hds & ->)|(ds & Hds & ->)]].
  - apply (match_number_unsigned [] [48%Z] 0); [by left; split|done|done].
  - apply (match_number_unsigned [] ds z); [by right|done|].
    destruct Hds as [Hd _ (c & ds' & -> & _) _]. cbn in Hd. apply andb_true_iff in Hd as [Hc _].
    unfold is_digit in Hc. cbn [app]. by replace (c =? 45)%Z with false by lia.
  - by apply (match_number_unsigned [45%Z] ds (- z)); [right|..].
Qed.

(** The first character of [str(z)], and the second after a sign. *)
Lemma int_str_head z :
  ∃ c s, int_str z = c :: s ∧
    (is_digit c = true ∨ c = 45%Z ∧ ∃ d s', s = d :: s' ∧ is_digit d = true).
Proof.
  destruct (int_str_cases z) as [[_ ->]|[(ds & Hds & ->)|(ds & Hds & ->)]].
  - eexists _, _. split; [done|]. by left.
  - destruct Hds as [Hd _ (c & ds' & -> & _) _]. cbn in Hd. apply andb_true_iff in Hd as [Hc _].
    eauto.
  - destruct Hds as [Hd _ (c & ds' & -> & _) _]. cbn in Hd. apply andb_true_iff in Hd as [Hc _].
    eexists _, _. split; [done|]. right. eauto.
Qed.

Lemma strip_prefix_ne a p c s :
  Z.of_N (Ascii.N_of_ascii a) ≠ c → strip_prefix (py (String a p)) (c :: s) = None.
Proof. intros Hne. rw py_cons. cbn [strip_prefix]. by rw (proj2 (Z.eqb_neq _ _) Hne). Qed.

(** ** Strings *)
Lemma hex_value_digit d : (0 ≤ d < 16)%Z → hex_value (hex_digit d) = Some d.
Proof.
  intros Hd. unfold hex_value, hex_digit. destruct (Z.ltb_spec d 10).
  - replace ((48 <=? 48 + d) && (48 + d <=? 57))%Z with true by lia. f_equal. lia.
  - replace ((48 <=? 87 + d) && (87 + d <=? 57))%Z with false by lia.
    replace ((97 <=? 87 + d) && (87 + d <=? 102))%Z with true by lia. f_equal. lia.
Qed.

Lemma u_escape_digits c : ∃ a b d e,
  u_escape c = [92; 117; a; b; d; e]%Z ∧ ((0 ≤ c < 65536)%Z → hex4 a b d e = Some c).
Proof.
  eexists _, _, _, _. split; [reflexivity|]. intros Hc. unfold hex4.
  rw !hex_value_digit; try (apply Z.mod_pos_bound; lia). cbn. f_equal.
  Z.to_euclidean_division_equations. lia.
Qed.

(** The surrogates are written by their low ten bits. *)
Lemma lor_low base x :
  base ∈ [55296; 56320]%Z → (0 ≤ x < 1024)%Z → Z.lor base x = (base + x)%Z.
Proof.
  intros Hb Hx.
  assert (Hall : ∀ b, b ∈ [55296; 56320]%Z →
    forallb (λ y, Z.lor b y =? b + y)%Z (seqZ 0 1024) = true).
  { apply Forall_forall. repeat constructor; vm_compute; reflexivity. }
  specialize (Hall base Hb). rw forallb_forall in Hall. apply Z.eqb_eq, Hall.
  apply list_elem_of_In, elem_of_seqZ. lia.
Qed.

Lemma astral_pair c :
  (65536 ≤ c ≤ 1114111)%Z →
  let n := (c - 65536)%Z in
  let hi := Z.lor 55296 (Z.land (Z.shiftr n 10) 1023) in
  let lo := Z.lor 56320 (Z.land n 1023) in
  is_high hi = true ∧ is_low lo = true ∧ (0 ≤ hi < 65536)%Z ∧ (0 ≤ lo < 65536)%Z ∧
  (65536 + (hi - 55296) * 1024 + (lo - 56320))%Z = c.
Proof.
  intros Hc n hi lo. unfold hi, lo.
  change 1023%Z with (Z.ones 10). rw !Z.land_ones; [|lia..].
  rw Z.shiftr_div_pow2; [|lia]. change (2 ^ 10)%Z with 1024%Z.
  rw !lor_low; [|set_solver|apply Z.mod_pos_bound; lia|set_solver|apply Z.mod_pos_bound; lia].
  unfold is_high, is_low, n. Z.to_euclidean_division_equations. lia.
Qed.

Lemma scan_escape c rest :
  is_scalar c = true → scan_string (json_escape c ++ rest) = char_then c (scan_string rest).
Proof.
  intros [Hc Hs]%is_scalar_spec. unfold json_escape.
  destruct (Z.eqb_spec c 34) as [-> |]; [reflexivity|].
  destruct (Z.eqb_spec c 92) as [-> |]; [reflexivity|].
  destruct (Z.eqb_spec c 10) as [-> |]; [reflexivity|].
  destruct (Z.eqb_spec c 13) as [-> |]; [reflexivity|].
  destruct (Z.eqb_spec c 9) as [-> |]; [reflexivity|].
  destruct (Z.eqb_spec c 12) as [-> |]; [reflexivity|].
  destruct (Z.eqb_spec c 8) as [-> |]; [reflexivity|].
  destruct ((32 <=? c) && (c <=? 126))%Z eqn:Hp.
  { cbn [app scan_string]. compare_Z. done. }
  destruct (Z.ltb_spec c 65536).
  - destruct (u_escape_digits c) as (a & b & d & e & -> & Hh). cbn [app scan_string Z.eqb Pos.eqb].
    rw Hh; [|lia]. unfold is_high.
    by replace ((55296 <=? c) && (c <=? 56319))%Z with false by lia.
  - destruct (astral_pair c) as (Hhi & Hlo & Hrh & Hrl & Hsum); [lia|]. cbv zeta in *.
    set (hi := Z.lor 55296 _) in *. set (lo := Z.lor 56320 _) in *.
    destruct (u_escape_digits hi) as (a & b & d & e & -> & Hh).
    destruct (u_escape_digits lo) as (a' & b' & d' & e' & -> & Hl).
    cbn [app scan_string Z.eqb Pos.eqb andb].
    by rw Hh // Hhi Hl // Hlo Hsum.
Qed.

Lemma scan_string_dumped s rest :
  forallb is_scalar s = true → scan_string ((s ≫= json_escape) ++ 34%Z :: rest) = Ok (s, rest).
Proof.
  induction s as [|c s IH]; [done|]. intros [Hc Hs]%andb_true_iff.
  rw bind_cons -app_assoc scan_escape // IH //.
Qed.

Section dumped.
Context (h : hooks).
Context (int_ok : Z → bool).
Hypothesis h_int : ∀ z, int_ok z = true → parse_int h (int_str z) = Ok (JInt z).
Hypothesis h_pairs : ∀ l, NoDup l.*1 → object_pairs h l = Ok (JObj l).

Lemma scan_atom_int z rest :
  int_ok z = true → delimited rest → scan_atom h (int_str z ++ rest) = Ok (JInt z, rest).
Proof using h_int.
  intros Hz Hr. unfold scan_atom.
  pose proof (match_number_int z rest Hr) as Hm.
  destruct (int_str_head z) as (c & s & Hs & Hc).
  assert (Hlit : ∀ a p, (Z.of_N (Ascii.N_of_ascii a) <? 45)%Z || (57 <? Z.of_N (Ascii.N_of_ascii a))%Z = true →
    strip_prefix (py (String a p)) (int_str z ++ rest) = None).
  { intros a p Ha. rw Hs. cbn [app]. apply strip_prefix_ne. unfold is_digit in Hc.
    destruct Hc as [Hc|[Hc _]]; lia. }
  assert (Hinf : strip_prefix (py "-Infinity") (int_str z ++ rest) = None).
  { rw Hs. destruct Hc as [Hc|[-> (d & s' & -> & Hd)]]; cbn [app].
    - apply strip_prefix_ne. unfold is_digit in Hc. vm_compute Z.of_N. lia.
    - rw py_cons. cbn [strip_prefix]. vm_compute Z.of_N. cbn [Z.eqb Pos.eqb].
      apply strip_prefix_ne. unfold is_digit in Hd. vm_compute Z.of_N. lia. }
  rw Hinf !Hlit; [|reflexivity..]. by rw Hm h_int.
Qed.


(** ** Documents *)

(** Documents whose text determines them: integers the hook accepts, text of
scalar values, no repeated key, no float. *)
Fixpoint json_wf (v : json) : bool :=
  match v with
  | JNull | JBool _ => true
  | JInt z => int_ok z
  | JFloat _ => false
  | JStr s => forallb is_scalar s
  | JArr items => forallb json_wf items
  | JObj fields =>
    bool_decide (NoDup fields.*1)
    && forallb (λ f, forallb is_scalar f.1 && json_wf f.2) fields
  end.

(** The nesting of containers. *)
Fixpoint json_depth (v : json) : nat :=
  match v with
  | JArr items => S (max_list (json_depth <$> items))
  | JObj fields => S (max_list ((λ f, json_depth f.2) <$> fields))
  | _ => 0
  end.

Fixpoint json_size (v : json) : nat :=
  match v with
  | JArr items => S (sum_list (json_size <$> items))
  | JObj fields => S (sum_list ((λ f, json_size f.2) <$> fields))
  | _ => 0
  end.

Abbreviation dumps := (json_dumps false).

(** The text of one member. *)
Definition member (f : pystr * json) : pystr := json_str f.1 ++ py ":" ++ dumps f.2.

Lemma dumps_obj fields :
  dumps (JObj fields) = py "{" ++ join (py ",") (member <$> fields) ++ py "}".
Proof using Type. cbn [json_dumps]. do 2 f_equal. by rw -list_fmap_compose. Qed.

(** The text of a value starts with an ASCII character that is neither white space
nor a closing bracket. *)
Definition starts (s : pystr) : Prop :=
  ∃ c t, s = c :: t ∧ is_space c = false ∧ c ≠ 93%Z ∧ (c < 128)%Z.

Lemma starts_app s t : starts s → starts (s ++ t).
Proof using Type. intros (c & r & -> & ?). by exists c, (r ++ t). Qed.

Lemma starts_skip s : starts s → skip_space s = s.
Proof using Type. intros (c & r & -> & Hc & _). cbn. by rw Hc. Qed.

Lemma starts_dumps v : json_wf v = true → starts (dumps v).
Proof using Type.
  destruct v as [| [] |z| | | |]; try (intros _; eexists _, _; done); [|done].
  intros _. cbn [json_dumps]. destruct (int_str_head z) as (c & s & -> & Hc).
  exists c, s. unfold is_digit in Hc. unfold is_space. split; [done|]. lia.
Qed.

Lemma delimited_skip rest : delimited rest → skip_space rest = rest.
Proof using Type.
  destruct rest as [|c r]; [done|]. cbn. intros Hc. unfold is_space.
  by replace ((c =? 32) || (c =? 9) || (c =? 10) || (c =? 13))%Z with false by lia.
Qed.

(** The texts after the first one of a comma-separated list. *)
Definition commas (ps : list pystr) : pystr := ps ≫= λ q, 44%Z :: q.

Lemma join_cons p ps : join (py ",") (p :: ps) = p ++ commas ps.
Proof using Type.
  revert p. induction ps as [|q ps IH]; intros p; [by rw app_nil_r|].
  change (join (py ",") (p :: q :: ps)) with (p ++ 44%Z :: join (py ",") (q :: ps)).
  rw IH. done.
Qed.

Lemma commas_cons q ps : commas (q :: ps) = 44%Z :: q ++ commas ps.
Proof using Type. done. Qed.

Lemma length_commas_cons q ps : length (commas (q :: ps)) = S (length q + length (commas ps)).
Proof using Type. rw commas_cons. cbn [length]. by rw length_app. Qed.

Lemma commas_delimited ps c rest : c = 93%Z ∨ c = 125%Z → delimited (commas ps ++ c :: rest).
Proof using Type. destruct ps; cbn; tauto. Qed.

#[local] Opaque commas.

(** [v] is read back from its text. *)
Definition reads (v : json) : Prop :=
  ∀ fuel depth rest, 2 * length (dumps v ++ rest) < fuel → json_depth v ≤ depth →
    delimited rest → scan_once h fuel depth (dumps v ++ rest) = Ok (v, rest).

(** The loop over the items, after [acc] has been read. *)
Lemma scan_items_dumped items : ∀ acc v fuel depth rest,
  Forall reads (v :: items) → Forall (λ x, json_wf x = true) (v :: items) →
  Forall (λ x, json_depth x ≤ depth) (v :: items) →
  S (2 * length (dumps v ++ commas (dumps <$> items) ++ 93%Z :: rest)) < fuel →
  scan_items h fuel depth acc (dumps v ++ commas (dumps <$> items) ++ 93%Z :: rest)
  = Ok (JArr (acc ++ v :: items), rest).
Proof using Type.
  induction items as [|w items IH]; intros acc v fuel depth rest Hr Hw Hd Hf;
    (destruct fuel as [|fuel]; [lia|]); cbn [scan_items];
    apply Forall_cons in Hr as [Hv Hr]; apply Forall_cons in Hw as [Hwv Hw];
    apply Forall_cons in Hd as [Hdv Hd];
    rw Hv; [|lia|done|apply commas_delimited; by left| |lia|done|apply commas_delimited; by left].
  - reflexivity.
  - rw (length_app (dumps v)) (length_app (commas _)) fmap_cons length_commas_cons in Hf.
    cbn [mbind result_bind snd fst length] in *.
    rw fmap_cons commas_cons -app_comm_cons. cbn [skip_space is_space Z.eqb Pos.eqb orb].
    rw -app_assoc starts_skip; [|apply starts_app, starts_dumps; by apply Forall_cons in Hw as [? _]].
    rw IH //; [by rw -app_assoc|]. rw !length_app. cbn [length]. lia.
Qed.

Lemma member_text k v tail :
  member (k, v) ++ tail = 34%Z :: (k ≫= json_escape) ++ 34%Z :: 58%Z :: dumps v ++ tail.
Proof using Type. unfold member, json_str. cbn [fst snd app]. by rw -!app_assoc. Qed.

Lemma length_member k v : length (dumps v) < length (member (k, v)).
Proof using Type. unfold member. rw !length_app length_py. cbn. lia. Qed.

(** One member, and what the loop does at the character after it. *)
Lemma scan_member acc k v fuel depth tail :
  reads v → forallb is_scalar k = true → json_wf v = true → json_depth v ≤ depth →
  delimited tail → 2 * length (dumps v ++ tail) < fuel →
  scan_members h (S fuel) depth acc (member (k, v) ++ tail) =
  match tail with
  | d :: s3 =>
    if (d =? 125)%Z then o ← object_pairs h (acc ++ [(k, v)]); Ok (o, s3)
    else if (d =? 44)%Z then scan_members h fuel depth (acc ++ [(k, v)]) (skip_space s3)
    else Raise JSONDecodeError
  | [] => Raise JSONDecodeError
  end.
Proof using Type.
  intros Hv Hk Hw Hd Ht Hf. rw member_text. cbn [scan_members Z.eqb Pos.eqb].
  rw scan_string_dumped //. cbn [mbind result_bind fst snd].
  cbn [skip_space is_space Z.eqb Pos.eqb orb].
  rw starts_skip; [|by apply starts_app, starts_dumps]. rw Hv //.
  cbn [mbind result_bind fst snd]. by rw delimited_skip.
Qed.

(** The loop over the members, after [acc] has been read. *)
Lemma scan_members_dumped (fields : list (pystr * json)) : ∀ acc (f : pystr * json) fuel depth rest,
  Forall (λ g, reads g.2) (f :: fields) →
  Forall (λ g, forallb is_scalar g.1 = true ∧ json_wf g.2 = true) (f :: fields) →
  Forall (λ g, json_depth g.2 ≤ depth) (f :: fields) → NoDup (acc ++ f :: fields).*1 →
  S (2 * length (member f ++ commas (member <$> fields) ++ 125%Z :: rest)) < fuel →
  scan_members h fuel depth acc (member f ++ commas (member <$> fields) ++ 125%Z :: rest)
  = Ok (JObj (acc ++ f :: fields), rest).
Proof using h_pairs.
  induction fields as [|g fields IH]; intros acc [k v] fuel depth rest Hr Hw Hd Hnd Hf;
    (destruct fuel as [|fuel]; [lia|]);
    apply Forall_cons in Hr as [Hv Hr]; apply Forall_cons in Hw as [[Hk Hwv] Hw];
    apply Forall_cons in Hd as [Hdv Hd]; cbn [fst snd] in *;
    pose proof (length_member k v); rw (length_app (member _)) in Hf;
    (rw scan_member //; [|apply commas_delimited; by right|rw (length_app (dumps v)); lia]).
  - change (commas (member <$> []) ++ 125%Z :: rest) with (125%Z :: rest). cbn [Z.eqb Pos.eqb].
    by rw h_pairs.
  - rw fmap_cons commas_cons -app_comm_cons. cbn [Z.eqb Pos.eqb].
    rw -app_assoc starts_skip; [|by exists 34%Z; eexists].
    rw (IH (acc ++ [(k, v)]) g) //; [by rw -app_assoc|by rw -app_assoc|].
    rw (length_app (commas _)) fmap_cons length_commas_cons in Hf.
    rw (length_app (member g)) (length_app (commas _)). cbn [length] in *. lia.
Qed.

Lemma max_list_elem {A} (f : A → nat) l n :
  max_list (f <$> l) ≤ n → Forall (λ x, f x ≤ n) l.
Proof using Type. induction l as [|x l IH]; cbn; [by constructor|]. intros. constructor; [lia|apply IH; lia]. Qed.

Lemma sum_list_elem {A} (f : A → nat) l : Forall (λ x, f x ≤ sum_list (f <$> l)) l.
Proof using Type.
  induction l as [|x l IH]; cbn; [by constructor|]. constructor; [lia|].
  eapply Forall_impl; [exact IH|]. cbn. lia.
Qed.

Lemma forallb_Forall {A} (f : A → bool) l : forallb f l = true → Forall (λ x, f x = true) l.
Proof using Type. induction l as [|x l IH]; cbn; [done|]. intros [? ?]%andb_true_iff. by constructor; [|apply IH]. Qed.

Lemma scan_literal fuel depth s v rest :
  starts s → hd 0%Z s ∉ [34; 123; 91]%Z → scan_atom h (s ++ rest) = Ok (v, rest) →
  0 < fuel → scan_once h fuel depth (s ++ rest) = Ok (v, rest).
Proof using Type.
  intros (c & t & -> & _) Hc Ha Hf. destruct fuel as [|fuel]; [lia|]. cbn [app scan_once hd] in *.
  rw !elem_of_cons in Hc. destruct (Z.eqb_spec c 34), (Z.eqb_spec c 123), (Z.eqb_spec c 91); tauto.
Qed.

Lemma arr_text x items rest :
  dumps (JArr (x :: items)) ++ rest = 91%Z :: dumps x ++ commas (dumps <$> items) ++ 93%Z :: rest.
Proof using Type.
  cbn [json_dumps]. rw fmap_cons join_cons. generalize (dumps x) (commas (dumps <$> items)).
  intros a b. by rw -!app_assoc.
Qed.

Lemma obj_text f fields rest :
  dumps (JObj (f :: fields)) ++ rest
  = 123%Z :: member f ++ commas (member <$> fields) ++ 125%Z :: rest.
Proof using Type.
  rw dumps_obj fmap_cons join_cons. generalize (member f) (commas (member <$> fields)).
  intros a b. by rw -!app_assoc.
Qed.

Lemma reads_container v :
  json_wf v = true →
  (∀ w, json_size w < json_size v → json_wf w = true → reads w) → reads v.
Proof using h_int h_pairs.
  intros Hw IH fuel depth rest Hf Hd Hr. destruct v as [| b |z| raw |s|items|fields].
  - apply scan_literal; [by apply starts_dumps|by vm_compute; set_solver|done|lia].
  - destruct b; (apply scan_literal; [by apply starts_dumps|by vm_compute; set_solver|done|lia]).
  - apply scan_literal; [by apply starts_dumps| |by apply scan_atom_int|lia].
    cbn [json_dumps]. destruct (int_str_head z) as (c & t & -> & Hc). unfold is_digit in Hc.
    cbn [hd]. rw !elem_of_cons elem_of_nil. lia.
  - done.
  - destruct fuel as [|fuel]; [lia|]. cbn [json_dumps]. unfold json_str.
    rw -!app_assoc. cbn [app scan_once Z.eqb Pos.eqb]. by rw scan_string_dumped.
  - cbn [json_wf] in Hw. apply forallb_Forall in Hw.
    destruct depth as [|depth]; [cbn in Hd; lia|]. destruct fuel as [|fuel]; [lia|].
    destruct items as [|x items]; [reflexivity|]. rw arr_text in Hf |- *.
    assert (Hall : Forall reads (x :: items)).
    { pose proof (sum_list_elem json_size (x :: items)) as Hs.
      apply Forall_forall. intros y Hy. rw !Forall_forall in Hw Hs. apply IH; [|by apply Hw].
      specialize (Hs y Hy). cbn [json_size]. lia. }
    cbn [scan_once Z.eqb Pos.eqb].
    assert (starts (dumps x ++ commas (dumps <$> items) ++ 93%Z :: rest)) as Hst.
    { apply starts_app, starts_dumps. by apply Forall_cons in Hw as [? _]. }
    rw starts_skip //. destruct Hst as (c & t & Heq & _ & H93 & _). rw Heq.
    rw (proj2 (Z.eqb_neq c 93) H93) -Heq. apply (scan_items_dumped items []); [done|done| |].
    + apply max_list_elem. cbn [json_depth] in Hd. lia.
    + cbn [length] in Hf. lia.
  - cbn [json_wf] in Hw. apply andb_true_iff in Hw as [Hnd%bool_decide_eq_true Hw].
    apply forallb_Forall in Hw.
    destruct depth as [|depth]; [cbn in Hd; lia|]. destruct fuel as [|fuel]; [lia|].
    destruct fields as [|f fields]; [cbn; by rw h_pairs|]. rw obj_text in Hf |- *.
    assert (Hall : Forall (λ g, reads g.2) (f :: fields)).
    { pose proof (sum_list_elem (λ g : pystr * json, json_size g.2) (f :: fields)) as Hs.
      apply Forall_forall. intros y Hy. rw !Forall_forall in Hw Hs.
      specialize (Hs y Hy). specialize (Hw y Hy). apply andb_true_iff in Hw as [_ Hw].
      apply IH; [cbn [json_size] in *; lia|done]. }
    cbn [scan_once Z.eqb Pos.eqb]. rw starts_skip; [|by exists 34%Z; eexists].
    apply (scan_members_dumped fields []); [done| | |done|].
    + eapply Forall_impl; [exact Hw|]. cbn. intros g [? ?]%andb_true_iff. done.
    + apply max_list_elem. cbn [json_depth] in Hd. lia.
    + cbn [length] in Hf. lia.
Qed.

Lemma reads_wf v : json_wf v = true → reads v.
Proof using h_int h_pairs.
  induction v as [v IH] using (induction_ltof1 _ json_size). intros Hw.
  apply reads_container; [done|]. intros w Hlt Hww. by apply IH.
Qed.

(** [loads] returns the document [dumps] wrote. *)
Lemma loads_text_dumps v depth :
  json_wf v = true → json_depth v ≤ depth → loads_text h depth (dumps v) = Ok v.
Proof using h_int h_pairs.
  intros Hw Hd. unfold loads_text. pose proof (reads_wf v Hw) as Hv.
  pose proof (starts_dumps v Hw) as Hst. rw starts_skip //.
  specialize (Hv (S (2 * length (dumps v))) depth []). rw app_nil_r in Hv.
  by rw Hv; [|lia|done|done].
Qed.

Lemma loads_dumps v depth :
  json_wf v = true → json_depth v ≤ depth → loads h depth (dumps v) = Ok v.
Proof using h_int h_pairs.
  intros Hw Hd. unfold loads. pose proof (starts_dumps v Hw) as (c & t & Ht & _ & _ & Hc).
  rw Ht. rw -Ht. replace (c =? 65279)%Z with false by lia. cbn [raise_if mbind result_bind].
  by apply loads_text_dumps.
Qed.

(** *** The text is ASCII without NUL *)
Lemma plain_app s t :
  forallb is_plain (s ++ t) = true ↔ forallb is_plain s = true ∧ forallb is_plain t = true.
Proof using Type. by rw forallb_app andb_true_iff. Qed.

Lemma plain_hexn n z : forallb is_plain (hexn n z) = true.
Proof using Type.
  pose proof (hexn_lower n z) as Hl. rw !forallb_forall in Hl |- *. intros c Hc%Hl.
  unfold is_lower_hex in Hc. unfold is_plain. lia.
Qed.

Lemma plain_u_escape c : forallb is_plain (u_escape c) = true.
Proof using Type. apply plain_app. split; [reflexivity|apply plain_hexn]. Qed.

Lemma plain_escape c : forallb is_plain (json_escape c) = true.
Proof using Type.
  unfold json_escape. repeat case_match; try reflexivity.
  - cbn. unfold is_plain. lia.
  - apply plain_u_escape.
  - apply plain_app. split; apply plain_u_escape.
Qed.

Lemma plain_json_str s : forallb is_plain (json_str s) = true.
Proof using Type.
  unfold json_str. rw !plain_app. split_and!; [reflexivity| |reflexivity].
  induction s as [|c s IH]; [done|]. rw bind_cons plain_app. split; [apply plain_escape|done].
Qed.

Lemma plain_int z : forallb is_plain (int_str z) = true.
Proof using Type.
  assert (Hd : ∀ ds, forallb is_digit ds = true → forallb is_plain ds = true).
  { intros ds. rw !forallb_forall. intros Hds c Hc%Hds. unfold is_digit in Hc. unfold is_plain. lia. }
  destruct (int_str_cases z) as [[_ ->]|[(ds & [Hds _ _ _] & ->)|(ds & [Hds _ _ _] & ->)]];
    [done|by apply Hd|]. cbn. by apply Hd.
Qed.

Lemma plain_commas ps :
  Forall (λ p, forallb is_plain p = true) ps → forallb is_plain (commas ps) = true.
Proof using Type.
  induction 1 as [|p ps Hp _ IH]; [done|]. rw commas_cons. cbn. rw plain_app. done.
Qed.

Lemma plain_dumps v : json_wf v = true → forallb is_plain (dumps v) = true.
Proof using Type.
  induction v as [v IH] using (induction_ltof1 _ json_size). unfold ltof in IH. intros Hw.
  destruct v as [| [] |z| |s|items|fields]; try reflexivity; [apply plain_int|done|apply plain_json_str| |].
  - cbn [json_wf] in Hw. apply forallb_Forall in Hw. destruct items as [|x items]; [done|].
    rw -(app_nil_r (dumps _)) arr_text. cbn [forallb]. rw !plain_app.
    pose proof (sum_list_elem json_size (x :: items)) as Hs.
    assert (Hall : Forall (λ y, forallb is_plain (dumps y) = true) (x :: items)).
    { apply Forall_forall. intros y Hy. rw !Forall_forall in Hw Hs. specialize (Hs y Hy).
      apply IH; [cbn [json_size]; lia|by apply Hw]. }
    apply Forall_cons in Hall as [Hx Hall]. split_and!; [done|by apply plain_commas, Forall_fmap|done].
  - cbn [json_wf] in Hw. apply andb_true_iff in Hw as [_ Hw]. apply forallb_Forall in Hw.
    destruct fields as [|f fields]; [done|].
    rw -(app_nil_r (dumps _)) obj_text. cbn [forallb].
    pose proof (sum_list_elem (λ g : pystr * json, json_size g.2) (f :: fields)) as Hs.
    assert (Hall : Forall (λ g, forallb is_plain (member g) = true) (f :: fields)).
    { apply Forall_forall. intros y Hy. rw !Forall_forall in Hw Hs. specialize (Hs y Hy).
      specialize (Hw y Hy). apply andb_true_iff in Hw as [_ Hw].
      apply plain_app. split; [apply plain_json_str|]. cbn. apply IH; [cbn [json_size] in *; lia|done]. }
    apply Forall_cons in Hall as [Hx Hall].
    generalize dependent (member f). intros mf Hmf.
    assert (Hcm : forallb is_plain (commas (member <$> fields)) = true) by (by apply plain_commas, Forall_fmap).
    revert Hcm. generalize (commas (member <$> fields)). intros cm Hcm. rw !plain_app. done.
Qed.
Lemma ascii_dumps v : json_wf v = true → forallb is_ascii (dumps v) = true.
Proof using Type.
  intros Hw%plain_dumps. revert Hw. apply forallb_mono. intros c. unfold is_plain, is_ascii. lia.
Qed.
End dumped.
