(* ===== verification/JsonBytes.v ===== *)
(** * [json.loads] of [bytes]

The encoding is detected from the first bytes, and the text is decoded with the
error handler "surrogatepass", before it is scanned. *)
From stdpp Require Import prelude strings gmap sorting pretty ssreflect.
From S2P Require Import Prelude Json Text JsonLoads JsonProofs.

Set Warnings "-clear-no-such-hyp".

Inductive encoding := UTF8 | UTF8_SIG | UTF16 | UTF16_BE | UTF16_LE | UTF32 | UTF32_BE | UTF32_LE.

#[export] Instance encoding_eq_dec : EqDecision encoding.
Proof. solve_decision. Defined.

Definition has_prefix (p b : list Z) : bool :=
  match strip_prefix p b with Some _ => true | None => false end.

(** [json.detect_encoding]. *)
Definition detect_encoding (b : list Z) : encoding :=
  if has_prefix [0; 0; 254; 255]%Z b || has_prefix [255; 254; 0; 0]%Z b then UTF32
  else if has_prefix [254; 255]%Z b || has_prefix [255; 254]%Z b then UTF16
  else if has_prefix [239; 187; 191]%Z b then UTF8_SIG
  else match b with
  | b0 :: b1 :: b2 :: b3 :: _ =>
    if (b0 =? 0)%Z then (if (b1 =? 0)%Z then UTF32_BE else UTF16_BE)
    else if (b1 =? 0)%Z then (if ((b2 =? 0) && (b3 =? 0))%Z then UTF32_LE else UTF16_LE)
    else UTF8
  | [b0; b1] => if (b0 =? 0)%Z then UTF16_BE else if (b1 =? 0)%Z then UTF16_LE else UTF8
  | _ => UTF8
  end.

(** 16-bit units; [None] for a byte left over. *)
Fixpoint units16 (big : bool) (b : list Z) : option (list Z) :=
  match b with
  | [] => Some []
  | [_] => None
  | x :: y :: r =>
    us ← units16 big r;
    Some ((if big then x * 256 + y else y * 256 + x)%Z :: us)
  end.

(** Pairs of surrogates are one character; a lone one passes. *)
Fixpoint join_surrogates (us : list Z) : pystr :=
  match us with
  | [] => []
  | u :: r =>
    match r with
    | v :: r' =>
      if is_high u && is_low v
      then (65536 + (u - 55296) * 1024 + (v - 56320))%Z :: join_surrogates r'
      else u :: join_surrogates r
    | [] => [u]
    end
  end.

Definition utf16_decode (big : bool) (b : list Z) : result pystr :=
  match units16 big b with Some us => Ok (join_surrogates us) | None => Raise UnicodeDecodeError end.

Fixpoint utf32_decode (big : bool) (b : list Z) : result pystr :=
  match b with
  | [] => Ok []
  | w :: x :: y :: z :: r =>
    let c := (if big then ((w * 256 + x) * 256 + y) * 256 + z
              else ((z * 256 + y) * 256 + x) * 256 + w)%Z in
    raise_if (1114111 <? c)%Z UnicodeDecodeError;;
    s ← utf32_decode big r; Ok (c :: s)
  | _ => Raise UnicodeDecodeError
  end.

(** [b.decode(encoding, "surrogatepass")]. *)
Definition decode_as (e : encoding) (b : list Z) : result pystr :=
  match e with
  | UTF8 => utf8_decode_with true b
  | UTF8_SIG =>
    utf8_decode_with true (match strip_prefix [239; 187; 191]%Z b with Some r => r | None => b end)
  | UTF16 =>
    match strip_prefix [254; 255]%Z b with
    | Some r => utf16_decode true r
    | None => utf16_decode false (match strip_prefix [255; 254]%Z b with Some r => r | None => b end)
    end
  | UTF16_BE => utf16_decode true b
  | UTF16_LE => utf16_decode false b
  | UTF32 =>
    match strip_prefix [0; 0; 254; 255]%Z b with
    | Some r => utf32_decode true r
    | None => utf32_decode false (match strip_prefix [255; 254; 0; 0]%Z b with Some r => r | None => b end)
    end
  | UTF32_BE => utf32_decode true b
  | UTF32_LE => utf32_decode false b
  end.

(** [json.loads(b, ...)]: the decoded text is not checked for a byte order mark. *)
Definition loads_bytes (h : hooks) (depth : nat) (b : list Z) : result json :=
  text ← decode_as (detect_encoding b) b;
  loads_text h depth text.

(** ** Outcomes *)
Lemma units_decode_raises big b e : utf16_decode big b = Raise e → e = UnicodeDecodeError.
Proof. unfold utf16_decode. case_match; [done|]. by intros [= <-]. Qed.

Lemma utf32_decode_raises big b e : utf32_decode big b = Raise e → e = UnicodeDecodeError.
Proof.
  revert e. induction b as [b IH] using (induction_ltof1 _ length). unfold ltof in IH.
  intros e. destruct b as [|w [|x [|y [|z r]]]]; cbn [utf32_decode]; try done; try (by intros [= <-]).
  intros [[_ ->]%raise_if_Raise|[_ Hr]]%result_seq_Raise; [done|].
  destruct (utf32_decode big r) eqn:E; [done|]. injection Hr as <-. apply (IH r); [cbn; lia|done].
Qed.

Lemma decode_as_raises enc b e : decode_as enc b = Raise e → e = UnicodeDecodeError.
Proof.
  destruct enc; cbn [decode_as]; repeat case_match;
    eauto using utf8_decode_with_raises, units_decode_raises, utf32_decode_raises.
Qed.

(** ASCII bytes without NUL are UTF-8. *)
Lemma detect_plain b : forallb is_plain b = true → detect_encoding b = UTF8.
Proof.
  unfold is_plain, detect_encoding, has_prefix. intros Hb.
  destruct b as [|b0 b]; [done|]. apply andb_true_iff in Hb as [H0 Hb]. cbn [strip_prefix].
  replace (0 =? b0)%Z with false by lia. replace (255 =? b0)%Z with false by lia.
  replace (254 =? b0)%Z with false by lia. replace (239 =? b0)%Z with false by lia. cbn [orb].
  destruct b as [|b1 b]; [done|]. apply andb_true_iff in Hb as [H1 Hb].
  replace (b0 =? 0)%Z with false by lia. replace (b1 =? 0)%Z with false by lia.
  destruct b as [|b2 b]; [done|]. by destruct b.
Qed.

Lemma loads_bytes_plain h depth b :
  forallb is_plain b = true → loads_bytes h depth b = loads_text h depth b.
Proof.
  intros Hb. unfold loads_bytes. rw detect_plain //. cbn [decode_as].
  rw (utf8_decode_with_pass b b) //. apply utf8_decode_ascii. revert Hb. apply forallb_mono.
  intros c. unfold is_plain, is_ascii. lia.
Qed.
