(* ===== verification/UuidText.v ===== *)
(** * [uuid.UUID(text)] and [int(text, 16)]

What the constructor of [uuid.UUID] accepts, which is more than the canonical
form: [urn:] and [uuid:] anywhere, braces at the ends, dashes anywhere, and the
liberties of [int] with base 16 (white space, a sign, the prefix [0x], single
underscores, decimal digits of any script). *)
From stdpp Require Import prelude strings gmap sorting pretty ssreflect.
From S2P Require Import Prelude Uuid Json JsonLoads JsonProofs.

Set Warnings "-clear-no-such-hyp".

(** ** Character classes *)

(** [Py_ISSPACE], the white space of ASCII. *)
Definition ascii_space (c : Z) : bool := (((9 <=? c) && (c <=? 13)) || (c =? 32))%Z.

(** [str.isspace] of one character. *)
Definition unicode_space (c : Z) : bool :=
  (((9 <=? c) && (c <=? 13)) || ((28 <=? c) && (c <=? 32)) || (c =? 133) || (c =? 160)
   || (c =? 5760) || ((8192 <=? c) && (c <=? 8202)) || (c =? 8232) || (c =? 8233)
   || (c =? 8239) || (c =? 8287) || (c =? 12288))%Z.

(** The zeros of the decimal digits (category Nd of Unicode 14); each is followed
by its nine other digits. *)
Definition decimal_zeros : list Z :=
  [1632; 1776; 1984; 2406; 2534; 2662; 2790; 2918; 3046; 3174; 3302; 3430; 3558; 3664; 3792;
   3872; 4160; 4240; 6112; 6160; 6470; 6608; 6784; 6800; 6992; 7088; 7232; 7248; 42528; 43216;
   43264; 43472; 43504; 43600; 44016; 65296; 66720; 68912; 69734; 69872; 69942; 70096; 70384;
   70736; 70864; 71248; 71360; 71472; 71904; 72016; 72784; 73040; 73120; 92768; 92864; 93008;
   120782; 120792; 120802; 120812; 120822; 123200; 123632; 125264; 130032]%Z.

Definition decimal_value (c : Z) : option Z :=
  match find (λ z, (z <=? c) && (c <=? z + 9))%Z decimal_zeros with
  | Some z => Some (c - z)%Z
  | None => None
  end.

(** ** [int(text, 16)] *)

(** [_PyUnicode_TransformDecimalAndSpaceToASCII]; the first character that is
neither ends the text with a question mark. *)
Fixpoint to_ascii_digits (s : pystr) : pystr :=
  match s with
  | [] => []
  | c :: r =>
    if (c <? 127)%Z then c :: to_ascii_digits r
    else if unicode_space c then 32%Z :: to_ascii_digits r
    else match decimal_value c with
    | Some d => (48 + d)%Z :: to_ascii_digits r
    | None => [63%Z]
    end
  end.

Definition ascii_digits (s : pystr) : pystr :=
  if forallb (λ c, c <? 128)%Z s then s else to_ascii_digits s.

Fixpoint drop_ascii_space (s : pystr) : pystr :=
  match s with
  | c :: r => if ascii_space c then drop_ascii_space r else s
  | [] => []
  end.

(** The digits of [long_from_binary_base]: the value, whether the last character
was an underscore, and the rest. Two underscores in a row are refused. *)
Fixpoint scan_hex (acc : Z) (underscore : bool) (s : pystr) : option (Z * bool * pystr) :=
  match s with
  | c :: r =>
    if (c =? 95)%Z then if underscore then None else scan_hex acc true r
    else match hex_value c with
    | Some d => scan_hex (acc * 16 + d)%Z false r
    | None => Some (acc, underscore, s)
    end
  | [] => Some (acc, underscore, s)
  end.

Definition int_sign (s : pystr) : Z * pystr :=
  match s with
  | c :: r => if (c =? 43)%Z then (1%Z, r) else if (c =? 45)%Z then ((-1)%Z, r) else (1%Z, s)
  | [] => (1%Z, s)
  end.

(** The prefix [0x] with one underscore after it. *)
Definition hex_prefix (s : pystr) : pystr :=
  match s with
  | z :: x :: r =>
    if ((z =? 48) && ((x =? 120) || (x =? 88)))%Z then
      match r with c :: r' => if (c =? 95)%Z then r' else r | [] => r end
    else s
  | _ => s
  end.

(** [int(text, 16)]; [None] is [ValueError]. *)
Definition int16 (text : pystr) : option Z :=
  let '(sign, s) := int_sign (drop_ascii_space (ascii_digits text)) in
  match hex_prefix s with
  | [] => None
  | c :: r =>
    if (c =? 95)%Z then None
    else match scan_hex 0 false (c :: r) with
    | Some (value, false, rest) =>
      if bool_decide (rest = c :: r) then None
      else match drop_ascii_space rest with
      | [] => Some (sign * value)%Z
      | _ => None
      end
    | _ => None
    end
  end.

(** ** [UUID(text)] *)

(** [text.replace(old, "")] for a non-empty [old]. *)
Fixpoint remove_all (fuel : nat) (old s : pystr) : pystr :=
  match fuel with
  | O => s
  | S fuel =>
    match strip_prefix old s with
    | Some r => remove_all fuel old r
    | None => match s with [] => [] | c :: r => c :: remove_all fuel old r end
    end
  end.
Definition str_remove (old s : pystr) : pystr := remove_all (length s) old s.

Definition is_brace (c : Z) : bool := ((c =? 123) || (c =? 125))%Z.
Fixpoint lstrip_braces (s : pystr) : pystr :=
  match s with
  | c :: r => if is_brace c then lstrip_braces r else s
  | [] => []
  end.
(** [text.strip("{}")]. *)
Definition strip_braces (s : pystr) : pystr :=
  rev (lstrip_braces (rev (lstrip_braces s))).

(** [UUID(text)]; [None] is [ValueError]. *)
Definition uuid_of_str (text : pystr) : option uuid :=
  let hex := str_remove (py "uuid:") (str_remove (py "urn:") text) in
  let hex := str_remove (py "-") (strip_braces hex) in
  if bool_decide (length hex = 32) then z ← int16 hex; uuid_of_int z else None.

(** ** The canonical form is read back *)
Lemma strip_prefix_first a p s :
  Z.of_N (Ascii.N_of_ascii a) ∉ s → strip_prefix (py (String a p)) s = None.
Proof.
  destruct s as [|c s]; [done|]. rw not_elem_of_cons. intros [Hne _]. cbn [strip_prefix].
  change (py (String a p)) with (Z.of_N (Ascii.N_of_ascii a) :: py p). cbn [strip_prefix].
  by rw (proj2 (Z.eqb_neq _ _) Hne).
Qed.

Lemma remove_all_absent a p fuel s :
  Z.of_N (Ascii.N_of_ascii a) ∉ s → remove_all fuel (py (String a p)) s = s.
Proof.
  revert s. induction fuel as [|fuel IH]; intros s Hs; [done|]. cbn [remove_all].
  rw strip_prefix_first //. destruct s as [|c s]; [done|]. f_equal. apply IH.
  by apply not_elem_of_cons in Hs as [_ Hs].
Qed.

Lemma remove_dash fuel s :
  length s ≤ fuel → remove_all fuel (py "-") s = filter (λ c, c ≠ 45%Z) s.
Proof.
  revert s. induction fuel as [|fuel IH]; intros s Hs; [by destruct s; cbn in *; [|lia]|].
  cbn [remove_all]. destruct s as [|c s]; [done|]. cbn [length] in Hs.
  change (py "-") with [45%Z]. cbn [strip_prefix]. rw filter_cons.
  destruct (Z.eqb_spec 45 c), (decide (c ≠ 45%Z)); try lia; [apply IH; lia|].
  f_equal. apply IH. lia.
Qed.

(** The characters of [str(u)]. *)
Definition uuid_char (c : Z) : bool := is_lower_hex c || (c =? 45)%Z.

Lemma dash_at_chars n s : forallb uuid_char s = true → forallb uuid_char (dash_at n s) = true.
Proof.
  intros Hs. unfold dash_at. rw -{1}(take_drop n s) forallb_app in Hs.
  apply andb_true_iff in Hs as [Ht Hd]. by rw !forallb_app Ht Hd.
Qed.

Lemma uuid_str_chars u : forallb uuid_char (uuid_str u) = true.
Proof.
  rw uuid_str_dashes. do 4 apply dash_at_chars.
  eapply forallb_mono; [|apply hexn_lower]. unfold uuid_char. by intros c ->.
Qed.

Lemma uuid_char_absent c u : uuid_char c = false → c ∉ uuid_str u.
Proof.
  intros Hc Hin. pose proof (uuid_str_chars u) as Hall. rw forallb_forall in Hall.
  apply list_elem_of_In, Hall in Hin. congruence.
Qed.

Lemma lstrip_braces_id s : (∀ c, c ∈ s → is_brace c = false) → lstrip_braces s = s.
Proof. destruct s as [|c s]; [done|]. intros Hs. cbn. by rw (Hs c (list_elem_of_here _ _)). Qed.

Lemma filter_dash_at n s :
  filter (λ c, c ≠ 45%Z) (dash_at n s) = filter (λ c, c ≠ 45%Z) s.
Proof. unfold dash_at. rw -{3}(take_drop n s) !filter_app. done. Qed.

Lemma hexn_no_dash n z : filter (λ c, c ≠ 45%Z) (hexn n z) = hexn n z.
Proof.
  apply filter_every. intros c Hc ->. pose proof (hexn_lower n z) as Hl.
  rw forallb_forall in Hl. apply list_elem_of_In, Hl in Hc. done.
Qed.

Lemma hex_value_lower c : is_lower_hex c = true → is_Some (hex_value c) ∧ c ≠ 95%Z.
Proof.
  unfold is_lower_hex, hex_value. intros Hc. split; [|lia].
  destruct ((48 <=? c) && (c <=? 57))%Z; [done|].
  destruct ((97 <=? c) && (c <=? 102))%Z; [done|]. done.
Qed.

Lemma scan_hex_hexn n : ∀ acc z t,
  (0 ≤ z < 16 ^ Z.of_nat n)%Z →
  scan_hex acc false (hexn n z ++ t) = scan_hex (acc * 16 ^ Z.of_nat n + z) false t.
Proof.
  induction n as [|n IH]; intros acc z t Hz.
  { cbn [hexn app]. f_equal. change (Z.of_nat 0) with 0%Z in *. rw Z.pow_0_r in Hz |- *. lia. }
  rw Nat2Z.inj_succ Z.pow_succ_r in Hz |- *; [|lia..]. cbn [hexn]. rw -app_assoc IH.
  2: { split; [apply Z.div_pos; lia|]. apply Z.div_lt_upper_bound; lia. }
  assert (Hm : (0 ≤ z mod 16 < 16)%Z) by (apply Z.mod_pos_bound; lia).
  cbn [app scan_hex]. rw hex_value_digit //.
  pose proof (hex_digit_lower _ Hm) as Hl. apply hex_value_lower in Hl as [_ H95].
  rw (proj2 (Z.eqb_neq _ _) H95). f_equal. pose proof (Z.div_mod z 16). lia.
Qed.

Lemma int16_hexn z : (0 ≤ z < 2 ^ 128)%Z → int16 (hexn 32 z) = Some z.
Proof.
  intros Hz. pose proof (scan_hex_hexn 32 0 z [] Hz) as Hs. rw app_nil_r in Hs.
  pose proof (hexn_lower 32 z) as Hl. pose proof (length_hexn 32 z) as Hlen.
  unfold int16, ascii_digits.
  rw (forallb_mono is_lower_hex (λ c, c <? 128)%Z) //.
  2: { unfold is_lower_hex. intros c Hc. lia. }
  destruct (hexn 32 z) as [|c [|c' s]]; [done..|]. cbn in Hl.
  apply andb_true_iff in Hl as [Hc Hl]. apply andb_true_iff in Hl as [Hc' Hl].
  unfold is_lower_hex in Hc, Hc'. cbn [drop_ascii_space]. unfold ascii_space.
  replace (((9 <=? c) && (c <=? 13)) || (c =? 32))%Z with false by lia.
  cbn [int_sign]. replace (c =? 43)%Z with false by lia. replace (c =? 45)%Z with false by lia.
  cbn [hex_prefix].
  replace ((c =? 48) && ((c' =? 120) || (c' =? 88)))%Z with false by lia.
  replace (c =? 95)%Z with false by lia. rw Hs. cbn [scan_hex].
  rw bool_decide_false; [|done]. cbn [drop_ascii_space]. f_equal. lia.
Qed.

(** [UUID(str(u)) == u]. *)
Lemma uuid_of_str_str u : uuid_of_str (uuid_str u) = Some u.
Proof.
  unfold uuid_of_str, str_remove. rw (remove_all_absent _ "rn:"); [|by apply uuid_char_absent].
  rw (remove_all_absent _ "uid:"); [|by apply uuid_char_absent].
  unfold strip_braces. rw (lstrip_braces_id (uuid_str u)); last first.
  { intros c Hc. destruct (is_brace c) eqn:Hb; [|done]. exfalso. revert Hc.
    apply uuid_char_absent. unfold is_brace in Hb. unfold uuid_char, is_lower_hex. lia. }
  rw lstrip_braces_id; last first.
  { intros c Hc. destruct (is_brace c) eqn:Hb; [|done]. exfalso.
    apply list_elem_of_In, in_rev, list_elem_of_In in Hc. revert Hc.
    apply uuid_char_absent. unfold is_brace in Hb. unfold uuid_char, is_lower_hex. lia. }
  rw rev_involutive remove_dash //.
  rw uuid_str_dashes !filter_dash_at hexn_no_dash length_hexn.
  rw bool_decide_true //. rw int16_hexn; [|apply uuid_bounds]. apply uuid_of_int_uuid_int.
Qed.
