(* ===== verification/Domain.v ===== *)
(** * Domain values ([src/src/northgate_rmm/domain.py])

Each dataclass is a record; its [__post_init__] checks are a function
[X_post_init] and its constructor call is [new_X], which returns the record or
the exception the checks raise, in the order of the source. *)
From stdpp Require Import prelude strings gmap sorting pretty ssreflect.
From S2P Require Import Prelude Uuid PyTime Sha256 Json.

Set Warnings "-clear-no-such-hyp".

Definition PROTOCOL_VERSION : Z := 1.
Definition MAX_MESSAGE_TTL : Z := 5 * minute.
Definition MAX_CLOCK_SKEW : Z := 5 * minute.
Definition MAX_ENROLLMENT_GRANT_TTL : Z := 15 * minute.
Definition MAX_SEQUENCE : Z := 2 ^ 63 - 1.
Definition MAX_DISPLAY_NAME_LENGTH : Z := 128.
Definition MAX_AGENT_VERSION_LENGTH : Z := 64.
Definition MAX_CAPABILITIES : Z := 32.
Definition MAX_INVENTORY_FIELDS : Z := 128.
Definition MAX_INVENTORY_KEY_LENGTH : Z := 64.
Definition MAX_INVENTORY_VALUE_LENGTH : Z := 512.

(** [raise ValidationError("...")] with a literal message. *)
Definition verr (s : string) : exn := ValidationError (py s).

(** [not s or len(s) > n]. *)
Definition empty_or_longer (s : pystr) (n : Z) : bool :=
  str_empty s || (n <? str_len s)%Z.

Definition require_aware (value : datetime) (field_name : pystr) : result unit :=
  match utcoffset value with
  | Raise _ => Raise (ValidationError (field_name ++ py " must include a valid timezone"))
  | Ok None => Raise (ValidationError (field_name ++ py " must include a timezone"))
  | Ok (Some _) => Ok tt
  end.

(** [if value is not None: require_aware(value, field_name)]. *)
Definition require_aware_opt (value : option datetime) (field_name : pystr) : result unit :=
  match value with None => Ok tt | Some d => require_aware d field_name end.

Lemma require_aware_Ok d f u : require_aware d f = Ok u ↔ aware d = true.
Proof. unfold require_aware, utcoffset, aware. destruct u, (dt_tz d); naive_solver. Qed.

Definition canonical_digest (payload : json) : pystr :=
  Sha256.hexdigest (json_dumps true payload).

(** [re.fullmatch(r"[0-9a-f]{64}", s)]. *)
Definition fullmatch_sha256 (s : pystr) : bool :=
  bool_decide (length s = 64) && forallb is_lower_hex s.

(** [re.fullmatch(r"sha256:[0-9a-f]{64}", s)]. *)
Definition fullmatch_fingerprint (s : pystr) : bool :=
  bool_decide (take 7 s = py "sha256:") && fullmatch_sha256 (drop 7 s).

Lemma fullmatch_hexdigest msg : fullmatch_sha256 (Sha256.hexdigest msg) = true.
Proof.
  unfold fullmatch_sha256. apply andb_true_iff. split; [|apply Sha256.hexdigest_lower].
  apply bool_decide_eq_true_2, Sha256.length_hexdigest.
Qed.

Lemma canonical_digest_shape payload : fullmatch_sha256 (canonical_digest payload) = true.
Proof. apply fullmatch_hexdigest. Qed.

(** ** Enumerations *)
Inductive Platform := LINUX | WINDOWS.
Inductive EndpointLifecycle := PENDING | ISSUED | ACTIVE | RETIRED | REVOKED.
Inductive EndpointHealth := ONLINE | STALE | OFFLINE.

#[export] Instance Platform_eq_dec : EqDecision Platform.
Proof. solve_decision. Defined.
#[export] Instance EndpointLifecycle_eq_dec : EqDecision EndpointLifecycle.
Proof. solve_decision. Defined.
#[export] Instance EndpointHealth_eq_dec : EqDecision EndpointHealth.
Proof. solve_decision. Defined.

Definition platform_value (p : Platform) : pystr :=
  py match p with LINUX => "linux" | WINDOWS => "windows" end.
Definition lifecycle_value (l : EndpointLifecycle) : pystr :=
  py match l with
     | PENDING => "pending" | ISSUED => "issued" | ACTIVE => "active"
     | RETIRED => "retired" | REVOKED => "revoked"
     end.
Definition health_value (h : EndpointHealth) : pystr :=
  py match h with ONLINE => "online" | STALE => "stale" | OFFLINE => "offline" end.

(** ** Freshness policy *)
Record FreshnessPolicy := mkFreshnessPolicy { online_for : Z; stale_for : Z }.

Definition FreshnessPolicy_post_init (p : FreshnessPolicy) : result unit :=
  raise_if (online_for p <=? 0)%Z (verr "online_for must be positive");;
  raise_if (stale_for p <=? online_for p)%Z (verr "stale_for must exceed online_for").

Definition new_FreshnessPolicy (online stale : Z) : result FreshnessPolicy :=
  let p := mkFreshnessPolicy online stale in
  FreshnessPolicy_post_init p;; Ok p.

(** [FreshnessPolicy()]: the dataclass defaults. *)
Definition default_FreshnessPolicy : FreshnessPolicy :=
  mkFreshnessPolicy (90 * second) (5 * minute).

(** ** Endpoint identity *)
Record EndpointIdentity := mkIdentity {
  ei_identity_id : uuid;
  ei_endpoint_id : uuid;
  ei_fingerprint : pystr;
  ei_created_at : datetime;
  ei_status : EndpointLifecycle;
  ei_revoked_at : option datetime;
  ei_revocation_reason : option pystr;
}.

#[export] Instance EndpointIdentity_eq_dec : EqDecision EndpointIdentity.
Proof. solve_decision. Defined.

(** [not s] for an optional string. *)
Definition opt_str_falsy (s : option pystr) : bool :=
  match s with None => true | Some t => str_empty t end.

Definition EndpointIdentity_post_init (i : EndpointIdentity) : result unit :=
  require_aware (ei_created_at i) (py "created_at");;
  raise_if (negb (fullmatch_fingerprint (ei_fingerprint i)))
    (verr "fingerprint must be a lowercase SHA-256 value");;
  (if decide (ei_status i = REVOKED) then
     raise_if (bool_decide (ei_revoked_at i = None) || opt_str_falsy (ei_revocation_reason i))
       (verr "revoked identity requires time and reason")
   else
     raise_if (negb (bool_decide (ei_revoked_at i = None))
               || negb (bool_decide (ei_revocation_reason i = None)))
       (verr "only a revoked identity may have revocation facts"));;
  match ei_revoked_at i with
  | None => Ok tt
  | Some r =>
    require_aware r (py "revoked_at");;
    raise_if (dt_ltb r (ei_created_at i))
      (verr "revocation cannot predate identity creation")
  end.

Definition new_EndpointIdentity (identity_id endpoint_id : uuid) (fingerprint : pystr)
    (created_at : datetime) (status : EndpointLifecycle)
    (revoked_at : option datetime) (reason : option pystr) : result EndpointIdentity :=
  let i := mkIdentity identity_id endpoint_id fingerprint created_at status revoked_at reason in
  EndpointIdentity_post_init i;; Ok i.

(** [replace(identity, status=..., revoked_at=..., revocation_reason=...)]. *)
Definition replace_identity (i : EndpointIdentity) (status : EndpointLifecycle)
    (revoked_at : option datetime) (reason : option pystr) : result EndpointIdentity :=
  new_EndpointIdentity (ei_identity_id i) (ei_endpoint_id i) (ei_fingerprint i)
    (ei_created_at i) status revoked_at reason.

(** ** Enrollment grant *)
Record EnrollmentGrant := mkGrant {
  eg_grant_id : uuid;
  eg_token_sha256 : pystr;
  eg_display_name : pystr;
  eg_platform : Platform;
  eg_architecture : pystr;
  eg_created_at : datetime;
  eg_expires_at : datetime;
  eg_created_by : pystr;
  eg_consumed_at : option datetime;
  eg_consumed_identity_id : option uuid;
}.

#[export] Instance EnrollmentGrant_eq_dec : EqDecision EnrollmentGrant.
Proof. solve_decision. Defined.

Definition EnrollmentGrant_post_init (g : EnrollmentGrant) : result unit :=
  require_aware (eg_created_at g) (py "created_at");;
  require_aware (eg_expires_at g) (py "expires_at");;
  raise_if (negb (fullmatch_sha256 (eg_token_sha256 g)))
    (verr "token_sha256 must be a lowercase SHA-256 value");;
  raise_if (empty_or_longer (eg_display_name g) MAX_DISPLAY_NAME_LENGTH)
    (verr "display_name is empty or too long");;
  raise_if (negb (bool_decide (eg_platform g = LINUX)))
    (verr "v1 enrollment grants support Linux only");;
  raise_if (negb (bool_decide (eg_architecture g = py "amd64")))
    (verr "v1 enrollment grants support amd64 only");;
  raise_if (empty_or_longer (eg_created_by g) 256)
    (verr "created_by is empty or too long");;
  created_utc ← astimezone_utc (eg_created_at g);
  expires_utc ← astimezone_utc (eg_expires_at g);
  let lifetime := dt_sub expires_utc created_utc in
  raise_if ((lifetime <=? 0) || (MAX_ENROLLMENT_GRANT_TTL <? lifetime))%Z
    (verr "enrollment grant lifetime is invalid");;
  raise_if (negb (bool_decide (eg_consumed_at g = None ↔ eg_consumed_identity_id g = None)))
    (verr "enrollment grant consumption state is incomplete");;
  match eg_consumed_at g with
  | None => Ok tt
  | Some c =>
    require_aware c (py "consumed_at");;
    consumed_utc ← astimezone_utc c;
    raise_if (negb (dt_leb created_utc consumed_utc && dt_ltb consumed_utc expires_utc))
      (verr "enrollment grant consumption time is invalid")
  end.

Definition new_EnrollmentGrant (grant_id : uuid) (token_sha256 display_name : pystr)
    (platform : Platform) (architecture : pystr) (created_at expires_at : datetime)
    (created_by : pystr) (consumed_at : option datetime) (consumed_identity : option uuid)
    : result EnrollmentGrant :=
  let g := mkGrant grant_id token_sha256 display_name platform architecture created_at
             expires_at created_by consumed_at consumed_identity in
  EnrollmentGrant_post_init g;; Ok g.

(** ** Endpoint *)
Record Endpoint := mkEndpoint {
  ep_endpoint_id : uuid;
  ep_display_name : pystr;
  ep_platform : Platform;
  ep_architecture : pystr;
  ep_identity_id : uuid;
  ep_enrolled_at : datetime;
  ep_last_receipt_at : option datetime;
  ep_last_heartbeat_at : option datetime;
}.

#[export] Instance Endpoint_eq_dec : EqDecision Endpoint.
Proof. solve_decision. Defined.

Definition Endpoint_post_init (e : Endpoint) : result unit :=
  require_aware (ep_enrolled_at e) (py "enrolled_at");;
  raise_if (empty_or_longer (ep_display_name e) MAX_DISPLAY_NAME_LENGTH)
    (verr "display_name is empty or too long");;
  raise_if (empty_or_longer (ep_architecture e) 32)
    (verr "architecture is empty or too long");;
  require_aware_opt (ep_last_receipt_at e) (py "last_receipt_at");;
  require_aware_opt (ep_last_heartbeat_at e) (py "last_heartbeat_at").

Definition new_Endpoint (endpoint_id : uuid) (display_name : pystr) (platform : Platform)
    (architecture : pystr) (identity_id : uuid) (enrolled_at : datetime)
    (last_receipt last_heartbeat : option datetime) : result Endpoint :=
  let e := mkEndpoint endpoint_id display_name platform architecture identity_id
             enrolled_at last_receipt last_heartbeat in
  Endpoint_post_init e;; Ok e.

(** [replace(endpoint, last_receipt_at=..., last_heartbeat_at=...)]. *)
Definition replace_endpoint (e : Endpoint) (receipt heartbeat : option datetime)
    : result Endpoint :=
  new_Endpoint (ep_endpoint_id e) (ep_display_name e) (ep_platform e) (ep_architecture e)
    (ep_identity_id e) (ep_enrolled_at e) receipt heartbeat.

(** ** Messages *)
Record MessageEnvelope := mkEnvelope {
  me_message_id : uuid;
  me_endpoint_id : uuid;
  me_boot_id : uuid;
  me_sequence : Z;
  me_created_at : datetime;
  me_expires_at : datetime;
  me_correlation_id : uuid;
  me_protocol_version : Z;
}.

#[export] Instance MessageEnvelope_eq_dec : EqDecision MessageEnvelope.
Proof. solve_decision. Defined.

Definition MessageEnvelope_post_init (m : MessageEnvelope) : result unit :=
  require_aware (me_created_at m) (py "created_at");;
  require_aware (me_expires_at m) (py "expires_at");;
  raise_if (negb (me_protocol_version m =? PROTOCOL_VERSION)%Z)
    (verr "unsupported protocol version");;
  raise_if (negb ((1 <=? me_sequence m) && (me_sequence m <=? MAX_SEQUENCE)))%Z
    (verr "sequence is outside the supported range");;
  let ttl := dt_sub (me_expires_at m) (me_created_at m) in
  raise_if ((ttl <=? 0) || (MAX_MESSAGE_TTL <? ttl))%Z
    (verr "message lifetime is invalid").

Definition new_MessageEnvelope (message_id endpoint_id boot_id : uuid) (sequence : Z)
    (created_at expires_at : datetime) (correlation_id : uuid) (protocol_version : Z)
    : result MessageEnvelope :=
  let m := mkEnvelope message_id endpoint_id boot_id sequence created_at expires_at
             correlation_id protocol_version in
  MessageEnvelope_post_init m;; Ok m.

Record HeartbeatPayload := mkHeartbeatPayload {
  hp_agent_version : pystr;
  hp_capabilities : list pystr;
}.

#[export] Instance HeartbeatPayload_eq_dec : EqDecision HeartbeatPayload.
Proof. solve_decision. Defined.

Definition HeartbeatPayload_post_init (p : HeartbeatPayload) : result unit :=
  raise_if (empty_or_longer (hp_agent_version p) MAX_AGENT_VERSION_LENGTH)
    (verr "agent_version is empty or too long");;
  raise_if (MAX_CAPABILITIES <? Z.of_nat (length (hp_capabilities p)))%Z
    (verr "too many capabilities");;
  raise_if (existsb (λ item, empty_or_longer item 64) (hp_capabilities p))
    (verr "capability is empty or too long").

Definition new_HeartbeatPayload (agent_version : pystr) (capabilities : list pystr)
    : result HeartbeatPayload :=
  let p := mkHeartbeatPayload agent_version capabilities in
  HeartbeatPayload_post_init p;; Ok p.

Definition HeartbeatPayload_digest (p : HeartbeatPayload) : pystr :=
  canonical_digest (JObj [(py "agent_version", JStr (hp_agent_version p));
                          (py "capabilities", JArr (JStr <$> hp_capabilities p))]).

Record InventoryPayload := mkInventoryPayload {
  ip_platform : Platform;
  ip_architecture : pystr;
  ip_fields : list (pystr * pystr);
  ip_collector_complete : bool;
  ip_schema_version : Z;
}.

#[export] Instance InventoryPayload_eq_dec : EqDecision InventoryPayload.
Proof. solve_decision. Defined.

Definition InventoryPayload_post_init (p : InventoryPayload) : result unit :=
  raise_if (negb (ip_schema_version p =? 1)%Z) (verr "unsupported inventory schema version");;
  raise_if (empty_or_longer (ip_architecture p) 32) (verr "architecture is empty or too long");;
  raise_if (MAX_INVENTORY_FIELDS <? Z.of_nat (length (ip_fields p)))%Z
    (verr "too many inventory fields");;
  raise_if (negb (bool_decide
      (size (list_to_set (ip_fields p).*1 : gset pystr) = length (ip_fields p))))
    (verr "inventory field names must be unique");;
  raise_if (existsb (λ f, empty_or_longer f.1 MAX_INVENTORY_KEY_LENGTH
                          || (MAX_INVENTORY_VALUE_LENGTH <? str_len f.2)%Z) (ip_fields p))
    (verr "inventory field is empty or too long").

Definition new_InventoryPayload (platform : Platform) (architecture : pystr)
    (fields : list (pystr * pystr)) (collector_complete : bool) (schema_version : Z)
    : result InventoryPayload :=
  let p := mkInventoryPayload platform architecture fields collector_complete schema_version in
  InventoryPayload_post_init p;; Ok p.

Definition InventoryPayload_digest (p : InventoryPayload) : pystr :=
  canonical_digest
    (JObj [(py "architecture", JStr (ip_architecture p));
           (py "collector_complete", JBool (ip_collector_complete p));
           (py "fields", JObj ((λ f, (f.1, JStr f.2)) <$> ip_fields p));
           (py "platform", JStr (platform_value (ip_platform p)));
           (py "schema_version", JInt (ip_schema_version p))]).

Record HeartbeatMessage := mkHeartbeatMessage {
  hm_envelope : MessageEnvelope;
  hm_payload : HeartbeatPayload;
}.

Record InventoryMessage := mkInventoryMessage {
  im_envelope : MessageEnvelope;
  im_payload : InventoryPayload;
}.

(** ** Observation, status, audit event *)
Record Observation := mkObservation {
  ob_observation_id : uuid;
  ob_endpoint_id : uuid;
  ob_message_id : uuid;
  ob_observation_type : pystr;
  ob_schema_version : Z;
  ob_source_time : datetime;
  ob_received_at : datetime;
  ob_boot_id : uuid;
  ob_sequence : Z;
  ob_payload_digest : pystr;
  ob_encoded_message_digest : option pystr;
}.

#[export] Instance Observation_eq_dec : EqDecision Observation.
Proof. solve_decision. Defined.

Definition Observation_post_init (o : Observation) : result unit :=
  require_aware (ob_source_time o) (py "source_time");;
  require_aware (ob_received_at o) (py "received_at");;
  raise_if (negb (fullmatch_sha256 (ob_payload_digest o)))
    (verr "payload_digest must be a lowercase SHA-256 value");;
  match ob_encoded_message_digest o with
  | None => Ok tt
  | Some d =>
    raise_if (negb (fullmatch_sha256 d))
      (verr "encoded_message_digest must be a lowercase SHA-256 value")
  end.

Definition new_Observation (observation_id endpoint_id message_id : uuid)
    (observation_type : pystr) (schema_version : Z) (source_time received_at : datetime)
    (boot_id : uuid) (sequence : Z) (payload_digest : pystr)
    (encoded_message_digest : option pystr) : result Observation :=
  let o := mkObservation observation_id endpoint_id message_id observation_type
             schema_version source_time received_at boot_id sequence payload_digest
             encoded_message_digest in
  Observation_post_init o;; Ok o.

Record EndpointStatus := mkEndpointStatus {
  es_endpoint_id : uuid;
  es_lifecycle : EndpointLifecycle;
  es_health : EndpointHealth;
  es_last_heartbeat_at : option datetime;
}.

#[export] Instance EndpointStatus_eq_dec : EqDecision EndpointStatus.
Proof. solve_decision. Defined.

Record AuditEvent := mkAuditEvent {
  ae_event_id : uuid;
  ae_server_time : datetime;
  ae_actor_type : pystr;
  ae_actor_id : pystr;
  ae_subject : pystr;
  ae_action : pystr;
  ae_decision : pystr;
  ae_reason : pystr;
  ae_correlation_id : uuid;
  ae_metadata : list (pystr * pystr);
}.

#[export] Instance AuditEvent_eq_dec : EqDecision AuditEvent.
Proof. solve_decision. Defined.

(** A well-formed message as a decoder or a simulator hands it over. *)
Definition envelope_ok (m : MessageEnvelope) : Prop := MessageEnvelope_post_init m = Ok tt.

Lemma envelope_ok_spec m :
  envelope_ok m ↔
  aware (me_created_at m) = true ∧ aware (me_expires_at m) = true ∧
  me_protocol_version m = PROTOCOL_VERSION ∧ (1 ≤ me_sequence m ≤ MAX_SEQUENCE)%Z ∧
  (instant (me_created_at m) < instant (me_expires_at m) ≤
     instant (me_created_at m) + MAX_MESSAGE_TTL)%Z.
Proof.
  unfold envelope_ok, MessageEnvelope_post_init, dt_sub.
  checks. rw !require_aware_Ok. naive_solver lia.
Qed.

(** ** Constructors that succeed *)
Lemma require_aware_opt_Ok d f : require_aware_opt d f = Ok tt ↔ ∀ t, d = Some t → aware t = true.
Proof. destruct d as [t|]; simpl; [rw require_aware_Ok|]; naive_solver. Qed.

Lemma new_Observation_Ok oid eid mid ty sv src rcv boot seq digest :
  aware src = true → aware rcv = true → fullmatch_sha256 digest = true →
  new_Observation oid eid mid ty sv src rcv boot seq digest None
  = Ok (mkObservation oid eid mid ty sv src rcv boot seq digest None).
Proof.
  intros Hs Hr Hd. unfold new_Observation. rw result_seq_Ok. split; [|done].
  unfold Observation_post_init. simpl. checks. by rw !require_aware_Ok.
Qed.

Lemma Endpoint_post_init_Ok e :
  Endpoint_post_init e = Ok tt ↔
  aware (ep_enrolled_at e) = true ∧
  empty_or_longer (ep_display_name e) MAX_DISPLAY_NAME_LENGTH = false ∧
  empty_or_longer (ep_architecture e) 32 = false ∧
  (∀ t, ep_last_receipt_at e = Some t → aware t = true) ∧
  (∀ t, ep_last_heartbeat_at e = Some t → aware t = true).
Proof.
  unfold Endpoint_post_init. checks. by rw require_aware_Ok !require_aware_opt_Ok.
Qed.

Lemma replace_endpoint_Ok e receipt heartbeat :
  Endpoint_post_init e = Ok tt →
  (∀ t, receipt = Some t → aware t = true) → (∀ t, heartbeat = Some t → aware t = true) →
  ∃ e', replace_endpoint e receipt heartbeat = Ok e' ∧ Endpoint_post_init e' = Ok tt ∧
    e' = mkEndpoint (ep_endpoint_id e) (ep_display_name e) (ep_platform e)
      (ep_architecture e) (ep_identity_id e) (ep_enrolled_at e) receipt heartbeat.
Proof.
  rw Endpoint_post_init_Ok. intros (? & ? & ? & _ & _) Hr Hh.
  eexists. split_and!; [|..|done].
  - unfold replace_endpoint, new_Endpoint. rw result_seq_Ok. split; [|done].
    by apply Endpoint_post_init_Ok.
  - by apply Endpoint_post_init_Ok.
Qed.

Lemma EndpointIdentity_post_init_Ok i :
  EndpointIdentity_post_init i = Ok tt ↔
  aware (ei_created_at i) = true ∧ fullmatch_fingerprint (ei_fingerprint i) = true ∧
  (ei_status i = REVOKED ↔ is_Some (ei_revoked_at i)) ∧
  (is_Some (ei_revoked_at i) ↔ opt_str_falsy (ei_revocation_reason i) = false) ∧
  (is_Some (ei_revocation_reason i) → is_Some (ei_revoked_at i)) ∧
  (∀ r, ei_revoked_at i = Some r →
     aware r = true ∧ (instant (ei_created_at i) ≤ instant r)%Z).
Proof.
  unfold EndpointIdentity_post_init, opt_str_falsy. checks. rw require_aware_Ok.
  destruct (ei_revoked_at i) as [r|], (ei_revocation_reason i) as [s|];
    case_decide; checks; rw ?require_aware_Ok; unfold dt_ltb; checks;
    naive_solver eauto using is_Some_None.
Qed.

Lemma astimezone_utc_aware d d' :
  aware d = true → astimezone_utc d = Ok d' ↔ dt_in_range (instant d) = true ∧ d' = utc (instant d).
Proof.
  unfold aware, astimezone_utc, utcoffset. destruct (dt_tz d) eqn:Htz; try done. intros _.
  unfold utc. destruct (dt_in_range _); naive_solver.
Qed.

Lemma result_bind_Ok {A B} (m : result A) (k : A → result B) b :
  m ≫= k = Ok b ↔ ∃ a, m = Ok a ∧ k a = Ok b.
Proof. destruct m; naive_solver. Qed.

Lemma EnrollmentGrant_post_init_Ok g :
  EnrollmentGrant_post_init g = Ok tt ↔
  aware (eg_created_at g) = true ∧ aware (eg_expires_at g) = true ∧
  fullmatch_sha256 (eg_token_sha256 g) = true ∧
  empty_or_longer (eg_display_name g) MAX_DISPLAY_NAME_LENGTH = false ∧
  eg_platform g = LINUX ∧ eg_architecture g = py "amd64" ∧
  empty_or_longer (eg_created_by g) 256 = false ∧
  dt_in_range (instant (eg_created_at g)) = true ∧
  dt_in_range (instant (eg_expires_at g)) = true ∧
  (instant (eg_created_at g) < instant (eg_expires_at g) ≤
     instant (eg_created_at g) + MAX_ENROLLMENT_GRANT_TTL)%Z ∧
  (eg_consumed_at g = None ↔ eg_consumed_identity_id g = None) ∧
  (∀ c, eg_consumed_at g = Some c → aware c = true ∧ dt_in_range (instant c) = true ∧
     (instant (eg_created_at g) ≤ instant c < instant (eg_expires_at g))%Z).
Proof.
  unfold EnrollmentGrant_post_init. checks. rw !require_aware_Ok.
  split; intros (Hc & He & H).
  - destruct H as (? & ? & ? & ? & ? & H).
    apply result_bind_Ok in H as (c & Hcu & H). apply result_bind_Ok in H as (e & Heu & H).
    apply astimezone_utc_aware in Hcu as [? ->]; [|done].
    apply astimezone_utc_aware in Heu as [? ->]; [|done].
    checks_in H. unfold dt_sub in H. rw !instant_utc in H. destruct H as ([? ?] & ? & H).
    split_and!; [done..|lia|lia|done|]. intros t Ht. rw Ht in H.
    checks_in H. destruct H as [Haw H]. apply require_aware_Ok in Haw.
    apply result_bind_Ok in H as (t' & Htu & H). apply astimezone_utc_aware in Htu as [? ->]; [|done].
    checks_in H. unfold dt_leb, dt_ltb in H. rw !instant_utc in H. split_and!; [done..|lia|lia].
  - destruct H as (? & ? & ? & ? & ? & Hrc & Hre & ? & ? & Hcons). split_and!; [done..|].
    apply result_bind_Ok. exists (utc (instant (eg_created_at g))).
    split; [by apply astimezone_utc_aware|].
    apply result_bind_Ok. exists (utc (instant (eg_expires_at g))).
    split; [by apply astimezone_utc_aware|].
    checks. unfold dt_sub. rw !instant_utc. split_and!; [lia|lia|done|].
    destruct (eg_consumed_at g) as [t|]; [|done]. destruct (Hcons t eq_refl) as (? & ? & ?).
    checks. split; [by apply require_aware_Ok|]. apply result_bind_Ok.
    exists (utc (instant t)). split; [by apply astimezone_utc_aware|].
    checks. unfold dt_leb, dt_ltb. rw !instant_utc. lia.
Qed.
