(* ===== verification/Codec.v ===== *)
(** * The strict message decoder ([src/src/northgate_rmm/codec.py])

[decode_message] and its helpers, over the model of [json.loads]. Three things
of the interpreter are parameters: [fromisoformat] is
[datetime.fromisoformat], whose accepted formats differ between versions
([None] is [ValueError]); [printable] is [str.isprintable] outside ASCII, which
only shapes an error message; [depth] is the nesting the recursion limit
allows. *)
From stdpp Require Import prelude strings gmap sorting pretty ssreflect.
From S2P Require Import Prelude Uuid PyTime Sha256 Json Text JsonLoads UuidText Domain.

Set Warnings "-clear-no-such-hyp".

Definition MAX_ENCODED_MESSAGE_BYTES : Z := 65536.

Inductive Message :=
| Heartbeat (m : HeartbeatMessage)
| Inventory (m : InventoryMessage).

(** [value[key]] of a decoded object. *)
Definition dict_get (key : pystr) (fields : list (pystr * json)) : result json :=
  match find (λ f, bool_decide (f.1 = key)) fields with
  | Some f => Ok f.2
  | None => Raise KeyError
  end.

(** [_unique_object]: the dictionary keeps the order of its pairs. *)
Fixpoint _unique_object (result pairs : list (pystr * json)) : Prelude.result json :=
  match pairs with
  | [] => Ok (JObj result)
  | (key, value) :: rest =>
    raise_if (bool_decide (key ∈ result.*1))
      (ValidationError (py "duplicate JSON field: " ++ key));;
    _unique_object (result ++ [(key, value)]) rest
  end.

Definition _bounded_json_integer (raw : pystr) : result json :=
  let negative := match raw with c :: _ => (c =? 45)%Z | [] => false end in
  let digits := if negative then tail raw else raw in
  let range := verr "JSON integer exceeds the supported range" in
  raise_if (19 <? str_len digits)%Z range;;
  let value := if negative then (- digits_value digits)%Z else digits_value digits in
  raise_if ((value <? - 2 ^ 63) || (MAX_SEQUENCE <? value))%Z range;;
  Ok (JInt value).

(** The call of [json.loads]; the other hooks are the defaults. *)
Definition message_hooks : hooks :=
  mkHooks (_unique_object []) _bounded_json_integer (λ c, Ok (JFloat c)).

Definition _object (value : json) (field_name : pystr) : result (list (pystr * json)) :=
  match value with
  | JObj fields => Ok fields
  | _ => Raise (ValidationError (field_name ++ py " must be an object"))
  end.

Definition _string (value : json) (field_name : pystr) : result pystr :=
  match value with
  | JStr s => Ok s
  | _ => Raise (ValidationError (field_name ++ py " must be a string"))
  end.

Definition _integer (value : json) (field_name : pystr) : result Z :=
  match value with
  | JInt z => Ok z
  | _ => Raise (ValidationError (field_name ++ py " must be an integer"))
  end.

Definition _uuid (value : json) (field_name : pystr) : result uuid :=
  s ← _string value field_name;
  match uuid_of_str s with
  | Some u => Ok u
  | None => Raise (ValidationError (field_name ++ py " must be a UUID"))
  end.

Definition platform_of (s : pystr) : option Platform :=
  if bool_decide (s = platform_value LINUX) then Some LINUX
  else if bool_decide (s = platform_value WINDOWS) then Some WINDOWS
  else None.

Definition _platform (value : json) : result Platform :=
  s ← _string value (py "platform");
  match platform_of s with
  | Some p => Ok p
  | None => Raise (verr "platform is unsupported")
  end.

(** [raw.replace("Z", "+00:00")]. *)
Definition replace_zulu (raw : pystr) : pystr :=
  raw ≫= λ c, if (c =? 90)%Z then py "+00:00" else [c].

(** [tuple(f(x) for x in xs)]: the first failure ends it. *)
Fixpoint map_result {A B} (f : A → result B) (l : list A) : result (list B) :=
  match l with
  | [] => Ok []
  | x :: r => y ← f x; ys ← map_result f r; Ok (y :: ys)
  end.

Section codec.
Context (printable : Z → bool) (fromisoformat : pystr → option datetime) (depth : nat).

Definition _exact_keys (value : list (pystr * json)) (expected : list pystr)
    (field_name : pystr) : result unit :=
  let missing := py_sorted str_leb (filter (λ k, k ∉ value.*1) expected) in
  let unknown := py_sorted str_leb (filter (λ k, k ∉ expected) value.*1) in
  raise_if (negb (bool_decide (missing = [] ∧ unknown = [])))
    (ValidationError (field_name ++ py " fields do not match schema; missing="
       ++ py_repr_list printable missing ++ py ", unknown=" ++ py_repr_list printable unknown)).

Definition _timestamp (value : json) (field_name : pystr) : result datetime :=
  raw ← _string value field_name;
  match fromisoformat (replace_zulu raw) with
  | Some d => Ok d
  | None => Raise (ValidationError (field_name ++ py " must be an ISO 8601 timestamp"))
  end.

Definition envelope_keys : list pystr :=
  [py "message_id"; py "endpoint_id"; py "boot_id"; py "sequence"; py "created_at";
   py "expires_at"; py "correlation_id"; py "protocol_version"].

Definition _decode_envelope (value : list (pystr * json)) : result MessageEnvelope :=
  _exact_keys value envelope_keys (py "envelope");;
  v ← dict_get (py "message_id") value; message_id ← _uuid v (py "message_id");
  v ← dict_get (py "endpoint_id") value; endpoint_id ← _uuid v (py "endpoint_id");
  v ← dict_get (py "boot_id") value; boot_id ← _uuid v (py "boot_id");
  v ← dict_get (py "sequence") value; sequence ← _integer v (py "sequence");
  v ← dict_get (py "created_at") value; created_at ← _timestamp v (py "created_at");
  v ← dict_get (py "expires_at") value; expires_at ← _timestamp v (py "expires_at");
  v ← dict_get (py "correlation_id") value; correlation_id ← _uuid v (py "correlation_id");
  v ← dict_get (py "protocol_version") value;
  protocol_version ← _integer v (py "protocol_version");
  new_MessageEnvelope message_id endpoint_id boot_id sequence created_at expires_at
    correlation_id protocol_version.

Definition heartbeat_keys : list pystr := [py "agent_version"; py "capabilities"].

Definition _decode_heartbeat (payload : list (pystr * json)) : result HeartbeatPayload :=
  _exact_keys payload heartbeat_keys (py "heartbeat payload");;
  capabilities_value ← dict_get (py "capabilities") payload;
  capabilities ←
    match capabilities_value with
    | JArr items => map_result (λ item, _string item (py "capability")) items
    | _ => Raise (verr "capabilities must be an array")
    end;
  v ← dict_get (py "agent_version") payload; agent_version ← _string v (py "agent_version");
  new_HeartbeatPayload agent_version capabilities.

Definition inventory_keys : list pystr :=
  [py "platform"; py "architecture"; py "fields"; py "collector_complete"; py "schema_version"].

Definition _decode_inventory (payload : list (pystr * json)) : result InventoryPayload :=
  _exact_keys payload inventory_keys (py "inventory payload");;
  v ← dict_get (py "fields") payload; fields_object ← _object v (py "fields");
  items ← map_result (λ f, item ← _string f.2 (py "inventory value"); Ok (f.1, item))
            fields_object;
  let fields := py_sorted pair_leb items in
  collector_value ← dict_get (py "collector_complete") payload;
  collector_complete ←
    match collector_value with
    | JBool b => Ok b
    | _ => Raise (verr "collector_complete must be a boolean")
    end;
  v ← dict_get (py "platform") payload; platform ← _platform v;
  v ← dict_get (py "architecture") payload; architecture ← _string v (py "architecture");
  v ← dict_get (py "schema_version") payload; schema_version ← _integer v (py "schema_version");
  new_InventoryPayload platform architecture fields collector_complete schema_version.

(** [except (UnicodeDecodeError, json.JSONDecodeError, RecursionError)]. *)
Definition except_syntax {A} (r : result A) : result A :=
  match r with
  | Raise UnicodeDecodeError | Raise JSONDecodeError | Raise RecursionError =>
    Raise (verr "message body is not valid bounded JSON")
  | _ => r
  end.

Definition message_keys : list pystr := [py "type"; py "envelope"; py "payload"].

(** What follows the parsing. *)
Definition decode_document (value : json) : result Message :=
  root ← _object value (py "message");
  _exact_keys root message_keys (py "message");;
  v ← dict_get (py "type") root; message_type ← _string v (py "type");
  v ← dict_get (py "envelope") root; o ← _object v (py "envelope");
  envelope ← _decode_envelope o;
  v ← dict_get (py "payload") root; payload ← _object v (py "payload");
  if bool_decide (message_type = py "heartbeat") then
    p ← _decode_heartbeat payload; Ok (Heartbeat (mkHeartbeatMessage envelope p))
  else if bool_decide (message_type = py "inventory") then
    p ← _decode_inventory payload; Ok (Inventory (mkInventoryMessage envelope p))
  else Raise (verr "unsupported message type").

Definition decode_message (raw : list Z) : result Message :=
  raise_if (bool_decide (raw = [])) (verr "message body is empty");;
  raise_if (MAX_ENCODED_MESSAGE_BYTES <? Z.of_nat (length raw))%Z
    (verr "message body exceeds the encoded size limit");;
  value ← except_syntax (text ← utf8_decode raw; loads message_hooks depth text);
  decode_document value.
End codec.
