(* ===== verification/CodecTheorems.v ===== *)
(** * The decoder fails closed and inverts the encoding

Whatever bytes arrive, [decode_message] returns a message that satisfies the
contract of the domain types or raises [ValidationError]; on the canonical
encoding of a message it returns that message. *)
From stdpp Require Import prelude strings gmap sorting pretty ssreflect.
From S2P Require Import Prelude Uuid PyTime Sha256 Json Text JsonLoads JsonProofs UuidText Domain Codec.

Set Warnings "-clear-no-such-hyp".

(** ** Results that raise only [ValidationError] *)
Definition is_validation (e : exn) : Prop := ∃ msg, e = ValidationError msg.

Definition okr {A} (P : A → Prop) (r : result A) : Prop :=
  match r with Ok a => P a | Raise e => is_validation e end.

Lemma okr_bind {A B} (P : A → Prop) (Q : B → Prop) m (k : A → result B) :
  okr P m → (∀ a, P a → okr Q (k a)) → okr Q (m ≫= k).
Proof. destruct m; cbn; auto. Qed.

Lemma okr_mono {A} (P Q : A → Prop) r : okr P r → (∀ a, P a → Q a) → okr Q r.
Proof. destruct r; cbn; auto. Qed.

Lemma okr_raise_if b msg : okr (λ _, b = false) (raise_if b (ValidationError msg)).
Proof. destruct b; cbn; [by eexists|done]. Qed.

Lemma okr_require_aware d f : okr (λ _, True) (require_aware d f).
Proof. unfold require_aware, utcoffset. destruct (dt_tz d); cbn; unfold is_validation; eauto. Qed.

Create HintDb okr.
#[export] Hint Resolve okr_raise_if okr_require_aware : okr.

(** Walk a chain of checks and reads. *)
Ltac okr_step :=
  match goal with
  | |- okr _ (let _ := _ in _) => cbv zeta
  | |- okr _ (raise_if _ _ ;; _) => eapply okr_bind; [apply okr_raise_if|]; intros [] ?
  | |- okr _ (require_aware _ _ ;; _) => eapply okr_bind; [apply okr_require_aware|]; intros _ _
  | |- okr _ (raise_if _ _) => eapply okr_mono; [apply okr_raise_if|done]
  | |- okr _ (Raise _) => by eexists
  end.

(** What a check that raises only [ValidationError] says of a constructor. *)
Lemma okr_new {A} (check : result unit) (a : A) :
  okr (λ _, True) check → okr (λ a', a' = a ∧ check = Ok tt) (check;; Ok a).
Proof. destruct check as [[]|e]; done. Qed.

Lemma okr_envelope_check m : okr (λ _, True) (MessageEnvelope_post_init m).
Proof. unfold MessageEnvelope_post_init, verr. repeat okr_step. Qed.

Lemma okr_heartbeat_check p : okr (λ _, True) (HeartbeatPayload_post_init p).
Proof. unfold HeartbeatPayload_post_init, verr. repeat okr_step. Qed.

Lemma okr_inventory_check p : okr (λ _, True) (InventoryPayload_post_init p).
Proof. unfold InventoryPayload_post_init, verr. repeat okr_step. Qed.

(** ** The readers *)
Lemma okr_object v n : okr (λ _, True) (_object v n).
Proof. destruct v; cbn; try done; by eexists. Qed.
Lemma okr_string v n : okr (λ _, True) (_string v n).
Proof. destruct v; cbn; try done; by eexists. Qed.
Lemma okr_integer v n : okr (λ _, True) (_integer v n).
Proof. destruct v; cbn; try done; by eexists. Qed.
Lemma okr_uuid v n : okr (λ _, True) (_uuid v n).
Proof.
  unfold _uuid. eapply okr_bind; [apply okr_string|]. intros s _.
  destruct (uuid_of_str s); [done|by eexists].
Qed.
Lemma okr_platform v : okr (λ _, True) (_platform v).
Proof.
  unfold _platform. eapply okr_bind; [apply okr_string|]. intros s _.
  destruct (platform_of s); [done|by eexists].
Qed.

Lemma okr_map {A B} (f : A → result B) l :
  (∀ x, okr (λ _, True) (f x)) → okr (λ _, True) (map_result f l).
Proof.
  intros Hf. induction l as [|x l IH]; [done|]. cbn [map_result].
  eapply okr_bind; [apply Hf|]. intros y _. eapply okr_bind; [apply IH|]. done.
Qed.

#[export] Hint Resolve okr_object okr_string okr_integer okr_uuid okr_platform okr_map : okr.

Section decoding.
Context (printable : Z → bool) (fromisoformat : pystr → option datetime) (depth : nat).

Lemma okr_timestamp v n : okr (λ _, True) (_timestamp fromisoformat v n).
Proof.
  unfold _timestamp. eapply okr_bind; [apply okr_string|]. intros s _.
  destruct (fromisoformat _); [done|by eexists].
Qed.

(** After [_exact_keys] every key of the schema is there, and no other. *)
Lemma exact_keys_spec value expected name :
  okr (λ _, ∀ k, k ∈ expected ↔ k ∈ value.*1) (_exact_keys printable value expected name).
Proof.
  unfold _exact_keys. eapply okr_mono; [apply okr_raise_if|]. cbv beta. intros _ Hb.
  apply negb_false_iff, bool_decide_eq_true in Hb as [Hm Hu]. intros k.
  assert (Hnil : ∀ l, py_sorted str_leb l = [] → k ∉ l).
  { intros l Hl. rw -(py_sorted_perm str_leb l) Hl. apply not_elem_of_nil. }
  apply Hnil in Hm, Hu. rw !list_elem_of_filter in Hm Hu.
  split; intros Hk; destruct (decide (k ∈ value.*1)), (decide (k ∈ expected)); naive_solver.
Qed.

Lemma dict_get_present key value :
  key ∈ value.*1 → okr (λ v, (key, v) ∈ value) (dict_get key value).
Proof.
  intros Hk. unfold dict_get. destruct (find _ value) as [[k v]|] eqn:Hf.
  - apply find_some in Hf as [Hin Hb]. apply bool_decide_eq_true in Hb. cbn in *. subst k.
    by apply list_elem_of_In.
  - exfalso. apply list_elem_of_fmap in Hk as ([k v] & -> & Hin).
    pose proof (find_none _ _ Hf (k, v) (proj1 (list_elem_of_In _ _) Hin)) as Hb.
    by rw bool_decide_eq_false in Hb.
Qed.

(** One [value[key]] after the keys were checked. *)
Lemma okr_get {B} (Q : B → Prop) key value (expected : list pystr) (k : json → result B) :
  (∀ x, x ∈ expected ↔ x ∈ value.*1) → key ∈ expected →
  (∀ v, okr Q (k v)) → okr Q (dict_get key value ≫= k).
Proof.
  intros Hkeys Hk Hcont. eapply okr_bind; [apply dict_get_present, Hkeys, Hk|].
  intros v _. apply Hcont.
Qed.

Lemma okr_read {A B} (Q : B → Prop) (r : result A) (k : A → result B) :
  okr (λ _, True) r → (∀ a, okr Q (k a)) → okr Q (r ≫= k).
Proof. intros Hr Hk. eapply okr_bind; [exact Hr|]. intros a _. apply Hk. Qed.

#[local] Hint Resolve okr_timestamp : okr.

(** Membership in a list of literals. *)
Ltac in_keys := apply (bool_decide_unpack _); vm_compute; exact I.

Ltac read_step Hkeys :=
  first
  [ eapply okr_get; [exact Hkeys|in_keys|]; intros ?
  | eapply okr_read; [by eauto with okr|]; intros ? ].

Lemma okr_decode_envelope value :
  okr envelope_ok (_decode_envelope printable fromisoformat value).
Proof.
  unfold _decode_envelope. eapply okr_bind; [apply exact_keys_spec|]. intros [] Hkeys.
  repeat read_step Hkeys. unfold new_MessageEnvelope.
  eapply okr_mono; [apply okr_new, okr_envelope_check|]. by intros m [-> ?].
Qed.

Lemma okr_decode_heartbeat payload :
  okr (λ p, HeartbeatPayload_post_init p = Ok tt) (_decode_heartbeat printable payload).
Proof.
  unfold _decode_heartbeat. eapply okr_bind; [apply exact_keys_spec|]. intros [] Hkeys.
  read_step Hkeys. eapply okr_read.
  { destruct v; try (by eexists). apply okr_map. intros. apply okr_string. }
  intros capabilities. repeat read_step Hkeys. unfold new_HeartbeatPayload.
  eapply okr_mono; [apply okr_new, okr_heartbeat_check|]. by intros p [-> ?].
Qed.

Lemma okr_decode_inventory payload :
  okr (λ p, InventoryPayload_post_init p = Ok tt) (_decode_inventory printable payload).
Proof.
  unfold _decode_inventory. eapply okr_bind; [apply exact_keys_spec|]. intros [] Hkeys.
  do 2 read_step Hkeys. eapply okr_read.
  { apply okr_map. intros f. eapply okr_read; [apply okr_string|]. done. }
  intros items. cbv zeta. read_step Hkeys. eapply okr_read.
  { destruct v0; try (by eexists). }
  intros complete. repeat read_step Hkeys. unfold new_InventoryPayload.
  eapply okr_mono; [apply okr_new, okr_inventory_check|]. by intros p [-> ?].
Qed.

(** The contract of a decoded message. *)
Definition message_valid (m : Message) : Prop :=
  match m with
  | Heartbeat m => envelope_ok (hm_envelope m) ∧ HeartbeatPayload_post_init (hm_payload m) = Ok tt
  | Inventory m => envelope_ok (im_envelope m) ∧ InventoryPayload_post_init (im_payload m) = Ok tt
  end.

Lemma okr_decode_document value :
  okr message_valid (decode_document printable fromisoformat value).
Proof.
  unfold decode_document. eapply okr_read; [apply okr_object|]. intros root.
  eapply okr_bind; [apply exact_keys_spec|]. intros [] Hkeys.
  do 4 read_step Hkeys. eapply okr_bind; [apply okr_decode_envelope|]. intros env Henv.
  do 2 read_step Hkeys. case_bool_decide; [|case_bool_decide]; [| |by eexists].
  - eapply okr_bind; [apply okr_decode_heartbeat|]. by intros p Hp.
  - eapply okr_bind; [apply okr_decode_inventory|]. by intros p Hp.
Qed.

Lemma unique_object_raises acc l e : _unique_object acc l = Raise e → is_validation e.
Proof.
  revert acc. induction l as [|[k v] l IH]; intros acc; [done|]. cbn [_unique_object].
  intros [Hr|[_ Hr]]%result_seq_Raise; [|by eapply IH].
  unfold raise_if in Hr. destruct (bool_decide _); [|done]. injection Hr as <-. by eexists.
Qed.

Lemma bounded_integer_raises s e : _bounded_json_integer s = Raise e → is_validation e.
Proof.
  assert (Hok : okr (λ _, True) (_bounded_json_integer s)).
  { unfold _bounded_json_integer, verr. by repeat okr_step. }
  intros He. by rw He in Hok.
Qed.

(** The exceptions that end in the decoder's own error. *)
Definition is_syntax (e : exn) : Prop :=
  e = JSONDecodeError ∨ e = RecursionError ∨ is_validation e.

Lemma okr_parse raw :
  okr (λ _, True) (except_syntax (text ← utf8_decode raw; loads message_hooks depth text)).
Proof.
  assert (Hl : ∀ text e, loads message_hooks depth text = Raise e → is_syntax e).
  { intros text e. apply loads_raises; unfold is_syntax; [by left|by right; left| | |done].
    - intros l e' He. right. right. exact (unique_object_raises [] l e' He).
    - intros s e' He. right. right. exact (bounded_integer_raises s e' He). }
  destruct (utf8_decode raw) as [text|e] eqn:Hu; cbn [mbind result_bind].
  - destruct (loads message_hooks depth text) as [v|e] eqn:He; [done|].
    destruct (Hl text e He) as [-> |[-> |[msg ->]]]; by eexists.
  - apply utf8_decode_raises in Hu as ->. by eexists.
Qed.
End decoding.

(** ** The canonical encoding

The document of a message, and its text as [json.dumps] with compact separators
writes it; times are written by [isoformat]. *)
Definition envelope_document (m : MessageEnvelope) : json :=
  JObj [(py "message_id", JStr (uuid_str (me_message_id m)));
        (py "endpoint_id", JStr (uuid_str (me_endpoint_id m)));
        (py "boot_id", JStr (uuid_str (me_boot_id m)));
        (py "sequence", JInt (me_sequence m));
        (py "created_at", JStr (isoformat (me_created_at m)));
        (py "expires_at", JStr (isoformat (me_expires_at m)));
        (py "correlation_id", JStr (uuid_str (me_correlation_id m)));
        (py "protocol_version", JInt (me_protocol_version m))].

Definition message_document (m : Message) : json :=
  match m with
  | Heartbeat m =>
    JObj [(py "type", JStr (py "heartbeat")); (py "envelope", envelope_document (hm_envelope m));
          (py "payload", JObj [(py "agent_version", JStr (hp_agent_version (hm_payload m)));
             (py "capabilities", JArr (JStr <$> hp_capabilities (hm_payload m)))])]
  | Inventory m =>
    let p := im_payload m in
    JObj [(py "type", JStr (py "inventory")); (py "envelope", envelope_document (im_envelope m));
          (py "payload", JObj [(py "platform", JStr (platform_value (ip_platform p)));
             (py "architecture", JStr (ip_architecture p));
             (py "fields", JObj ((λ f, (f.1, JStr f.2)) <$> ip_fields p));
             (py "collector_complete", JBool (ip_collector_complete p));
             (py "schema_version", JInt (ip_schema_version p))])]
  end.

Definition encode_message (m : Message) : list Z := json_dumps false (message_document m).

Definition message_envelope (m : Message) : MessageEnvelope :=
  match m with Heartbeat m => hm_envelope m | Inventory m => im_envelope m end.

(** What the decoder makes of a message: inventory fields in the order of their names. *)
Definition sorted_payload (p : InventoryPayload) : InventoryPayload :=
  mkInventoryPayload (ip_platform p) (ip_architecture p) (py_sorted pair_leb (ip_fields p)) (ip_collector_complete p)
    (ip_schema_version p).
Definition canonical_message (m : Message) : Message :=
  match m with
  | Heartbeat m => Heartbeat m
  | Inventory m => Inventory (mkInventoryMessage (im_envelope m) (sorted_payload (im_payload m)))
  end.
Definition fields_sorted (m : Message) : Prop :=
  match m with Heartbeat _ => True | Inventory m => StronglySorted (rel_of pair_leb) (ip_fields (im_payload m)) end.
Definition payload_digest (m : Message) : pystr :=
  match m with
  | Heartbeat m => HeartbeatPayload_digest (hm_payload m)
  | Inventory m => InventoryPayload_digest (im_payload m)
  end.

(** The texts of a message are sequences of scalar values. *)
Definition message_texts_ok (m : Message) : Prop :=
  match m with
  | Heartbeat m => forallb is_scalar (hp_agent_version (hm_payload m)) = true ∧
      forallb (forallb is_scalar) (hp_capabilities (hm_payload m)) = true
  | Inventory m => forallb is_scalar (ip_architecture (im_payload m)) = true ∧
      forallb (λ f, forallb is_scalar f.1 && forallb is_scalar f.2) (ip_fields (im_payload m)) = true
  end.

(** *** The hooks on such documents *)
Definition message_int (z : Z) : bool := ((- 2 ^ 63 <=? z) && (z <=? MAX_SEQUENCE))%Z.

Lemma unique_object_NoDup l : ∀ acc,
  NoDup (acc ++ l).*1 → _unique_object acc l = Ok (JObj (acc ++ l)).
Proof.
  induction l as [|[k v] l IH]; intros acc Hnd; cbn [_unique_object]; [by rw app_nil_r|].
  rw bool_decide_false.
  - cbn. rw IH -app_assoc //.
  - rw fmap_app in Hnd. apply NoDup_app in Hnd as (_ & Hdisj & _). intros Hin.
    apply (Hdisj k Hin). apply list_elem_of_here.
Qed.

Lemma decimal_length ds z : decimal ds z → (z < 10 ^ 19)%Z → (str_len ds ≤ 19)%Z.
Proof.
  intros [_ _ (c & ds' & -> & _) Hl] Hz. unfold str_len. cbn [length] in *.
  destruct (decide (length ds' < 19)) as [|Hge]; [lia|].
  assert (10 ^ 19 ≤ 10 ^ Z.of_nat (S (length ds') - 1))%Z by (apply Z.pow_le_mono_r; lia). lia.
Qed.

Lemma bounded_integer_int_str z :
  message_int z = true → _bounded_json_integer (int_str z) = Ok (JInt z).
Proof.
  unfold message_int, MAX_SEQUENCE. intros Hz. unfold _bounded_json_integer.
  destruct (int_str_cases z) as [[-> ->]|[(ds & Hds & ->)|(ds & Hds & ->)]]; [reflexivity| |].
  - pose proof (decimal_length ds z Hds) as Hlen. destruct Hds as [Hd Hv (c & ds' & -> & _) _].
    cbn in Hd. apply andb_true_iff in Hd as [Hc _]. unfold is_digit in Hc.
    replace (c =? 45)%Z with false by lia. rw Hv. unfold raise_if, MAX_SEQUENCE.
    replace (19 <? str_len (c :: ds'))%Z with false by lia.
    by replace ((z <? - 2 ^ 63) || (2 ^ 63 - 1 <? z))%Z with false by lia.
  - pose proof (decimal_length ds (- z) Hds) as Hlen. destruct Hds as [Hd Hv _ _].
    cbn [tail Z.eqb Pos.eqb]. rw Hv. unfold raise_if, MAX_SEQUENCE.
    replace (19 <? str_len ds)%Z with false by lia.
    replace ((- - z <? - 2 ^ 63) || (2 ^ 63 - 1 <? - - z))%Z with false by lia.
    by rw Z.opp_involutive.
Qed.

(** *** The texts of identifiers and times *)
Definition iso_char (c : Z) : bool := is_ascii c && negb (c =? 90)%Z.

Lemma decn_chars n z : forallb iso_char (decn n z) = true.
Proof.
  revert z. induction n as [|n IH]; intros z; [done|]. cbn [decn]. rw forallb_app IH. cbn.
  pose proof (Z.mod_pos_bound z 10). unfold iso_char, is_ascii. lia.
Qed.

Lemma isoformat_chars d : forallb iso_char (isoformat d) = true.
Proof.
  assert (Happ : ∀ s t, forallb iso_char s = true → forallb iso_char t = true →
    forallb iso_char (s ++ t) = true) by (intros s t Hs Ht; by rw forallb_app Hs Ht).
  unfold isoformat. destruct (ymd_of_days _) as [[y m] dd]. unfold iso_time, iso_offset.
  repeat first [apply decn_chars | reflexivity | apply Happ | case_match].
Qed.

Lemma isoformat_scalar d : forallb is_scalar (isoformat d) = true.
Proof.
  eapply forallb_mono; [|apply isoformat_chars]. unfold iso_char, is_ascii, is_scalar. lia.
Qed.

Lemma replace_zulu_isoformat d : replace_zulu (isoformat d) = isoformat d.
Proof.
  unfold replace_zulu. generalize (isoformat_chars d). induction (isoformat d) as [|c s IH]; [done|].
  cbn [forallb]. intros [Hc Hs]%andb_true_iff. rw bind_cons IH //. unfold iso_char in Hc.
  by replace (c =? 90)%Z with false by lia.
Qed.

Lemma uuid_str_scalar u : forallb is_scalar (uuid_str u) = true.
Proof.
  eapply forallb_mono; [|apply uuid_str_chars]. unfold uuid_char, is_lower_hex, is_scalar. lia.
Qed.

(** *** The document of a message *)
Lemma envelope_document_wf m :
  envelope_ok m → json_wf message_int (envelope_document m) = true.
Proof.
  rw envelope_ok_spec. intros (_ & _ & Hv & Hs & _). unfold envelope_document. cbn [json_wf].
  apply andb_true_iff. split; [by apply bool_decide_eq_true; vm_compute; apply (bool_decide_unpack _)|].
  cbn [forallb fst snd json_wf]. rw !uuid_str_scalar !isoformat_scalar Hv.
  unfold message_int at 1. unfold MAX_SEQUENCE in *.
  replace ((- 2 ^ 63 <=? me_sequence m) && (me_sequence m <=? 2 ^ 63 - 1))%Z with true by lia.
  reflexivity.
Qed.

(** The payload of a message satisfies its contract. *)
Definition payload_ok (m : Message) : Prop :=
  match m with
  | Heartbeat m => HeartbeatPayload_post_init (hm_payload m) = Ok tt
  | Inventory m => InventoryPayload_post_init (im_payload m) = Ok tt
  end.

Lemma message_valid_split m : message_valid m ↔ envelope_ok (message_envelope m) ∧ payload_ok m.
Proof. by destruct m. Qed.

Lemma size_list_to_set_le (l : list pystr) : size (list_to_set l : gset pystr) ≤ length l.
Proof.
  induction l as [|x l IH]; [done|]. cbn [list_to_set length].
  rw size_union_alt size_singleton.
  assert (size (list_to_set l ∖ {[x]} : gset pystr) ≤ size (list_to_set l : gset pystr))
    by (apply subseteq_size; set_solver). lia.
Qed.

Lemma size_list_to_set_eq (l : list pystr) :
  size (list_to_set l : gset pystr) = length l → NoDup l.
Proof.
  induction l as [|x l IH]; [constructor|]. cbn [list_to_set length]. intros Hs.
  pose proof (size_list_to_set_le l) as Hle. destruct (decide (x ∈ l)) as [Hin|Hnin].
  - exfalso. assert ({[x]} ∪ list_to_set l = (list_to_set l : gset pystr)) as Heq by set_solver.
    rw Heq in Hs. lia.
  - rw size_union in Hs; [|set_solver]. rw size_singleton in Hs. constructor; [done|]. apply IH. lia.
Qed.

Lemma inventory_fields_NoDup p :
  InventoryPayload_post_init p = Ok tt → NoDup (ip_fields p).*1.
Proof.
  unfold InventoryPayload_post_init. checks. intros (_ & _ & _ & Hsize & _).
  apply size_list_to_set_eq. by rw length_fmap.
Qed.

(** *** Reading a document back *)
Lemma exact_keys_same printable value expected name :
  value.*1 = expected → _exact_keys printable value expected name = Ok tt.
Proof.
  intros Heq. unfold _exact_keys. rw Heq !filter_none; [|naive_solver..]. done.
Qed.

Lemma dict_get_here key v l : dict_get key ((key, v) :: l) = Ok v.
Proof. unfold dict_get. cbn [find fst]. by rw bool_decide_true. Qed.

Lemma dict_get_next key k v l : k ≠ key → dict_get key ((k, v) :: l) = dict_get key l.
Proof. intros Hne. unfold dict_get. cbn [find fst]. by rw bool_decide_false. Qed.

Lemma read_uuid u name : _uuid (JStr (uuid_str u)) name = Ok u.
Proof. cbn [_uuid _string mbind result_bind]. by rw uuid_of_str_str. Qed.

Lemma read_platform p : _platform (JStr (platform_value p)) = Ok p.
Proof. by destruct p. Qed.

Lemma read_strings l name :
  map_result (λ item, _string item name) (JStr <$> l) = Ok l.
Proof. induction l as [|s l IH]; [done|]. rw fmap_cons. cbn [map_result]. by rw IH. Qed.

Lemma read_fields (l : list (pystr * pystr)) name :
  map_result (λ f, item ← _string f.2 name; Ok (f.1, item)) ((λ f, (f.1, JStr f.2)) <$> l) = Ok l.
Proof. induction l as [|[k s] l IH]; [done|]. rw fmap_cons. cbn [map_result]. by rw IH. Qed.

(** One step of a chain of reads. *)
Lemma bind_eq {A B} (m : result A) a (k : A → result B) r : m = Ok a → k a = r → m ≫= k = r.
Proof. by intros ->. Qed.

(** The lookup of a literal key. *)
Ltac get_key :=
  repeat first [exact (dict_get_here _ _ _) | etrans; [apply dict_get_next; by vm_compute|]].

Ltac step tac := eapply bind_eq; [tac|]; cbv beta.

Section round_trip.
Context (printable : Z → bool) (fromisoformat : pystr → option datetime) (depth : nat).

Lemma read_timestamp d name :
  fromisoformat (isoformat d) = Some d →
  _timestamp fromisoformat (JStr (isoformat d)) name = Ok d.
Proof.
  intros Hf. unfold _timestamp. cbn [_string mbind result_bind]. by rw replace_zulu_isoformat Hf.
Qed.

Lemma read_envelope m fields :
  envelope_ok m → fromisoformat (isoformat (me_created_at m)) = Some (me_created_at m) →
  fromisoformat (isoformat (me_expires_at m)) = Some (me_expires_at m) →
  envelope_document m = JObj fields →
  _decode_envelope printable fromisoformat fields = Ok m.
Proof.
  intros Hok Hc He [= <-]. unfold _decode_envelope.
  step ltac:(by apply exact_keys_same).
  step ltac:(get_key). step ltac:(apply read_uuid).
  step ltac:(get_key). step ltac:(apply read_uuid).
  step ltac:(get_key). step ltac:(apply read_uuid).
  step ltac:(get_key). step ltac:(reflexivity).
  step ltac:(get_key). step ltac:(by apply read_timestamp).
  step ltac:(get_key). step ltac:(by apply read_timestamp).
  step ltac:(get_key). step ltac:(apply read_uuid).
  step ltac:(get_key). step ltac:(reflexivity).
  step ltac:(exact Hok). by destruct m.
Qed.

Lemma read_heartbeat p :
  HeartbeatPayload_post_init p = Ok tt →
  _decode_heartbeat printable [(py "agent_version", JStr (hp_agent_version p));
    (py "capabilities", JArr (JStr <$> hp_capabilities p))] = Ok p.
Proof.
  intros Hok. unfold _decode_heartbeat. step ltac:(by apply exact_keys_same).
  step ltac:(get_key). step ltac:(apply read_strings).
  step ltac:(get_key). step ltac:(reflexivity).
  destruct p. step ltac:(exact Hok). done.
Qed.

Lemma sorted_fields l : StronglySorted (rel_of pair_leb) l → py_sorted pair_leb l = l.
Proof.
  intros Hs. apply pair_sorted_unique; [apply py_sorted_sorted|done|apply py_sorted_perm].
Qed.

Lemma sorted_payload_ok p : InventoryPayload_post_init p = Ok tt → InventoryPayload_post_init (sorted_payload p) = Ok tt.
Proof.
  pose proof (py_sorted_perm pair_leb (ip_fields p)) as Hperm.
  assert (Hset : (list_to_set (py_sorted pair_leb (ip_fields p)).*1 : gset pystr) = list_to_set (ip_fields p).*1)
    by (apply list_to_set_perm_L; by rw Hperm).
  unfold InventoryPayload_post_init. cbn [sorted_payload ip_schema_version ip_architecture ip_fields].
  rw Hset (Permutation_length Hperm). checks. intros (? & ? & ? & ? & He). split_and!; [done..|].
  rw -not_true_iff_false existsb_exists in He. rw -not_true_iff_false existsb_exists. intros (f & Hf & Hx). apply He.
  exists f. split; [|done]. apply list_elem_of_In. rw -Hperm. by apply list_elem_of_In.
Qed.

(** Equal objects have one text with sorted keys. *)
#[local] Instance json_key_comparison : Comparison json_key_leb := cmp_on (cmp := str_leb) fst.

Lemma json_dumps_perm (l l' : list (pystr * json)) :
  NoDup l.*1 → l ≡ₚ l' → json_dumps true (JObj l) = json_dumps true (JObj l').
Proof.
  intros Hnd Hp. cbn [json_dumps]. set (f := λ f : pystr * json, (f.1, json_dumps true f.2)).
  assert (Heq : py_sorted json_key_leb (map f l) = py_sorted json_key_leb (map f l')); [|by rw Heq].
  apply (StronglySorted_unique_strong (rel_of json_key_leb)); [|apply py_sorted_sorted..|by rw !py_sorted_perm Hp].
  intros x y Hx Hy Hxy Hyx. rw py_sorted_perm in Hx. rw py_sorted_perm -Hp in Hy.
  apply list_elem_of_fmap in Hx as ([k v] & -> & Hx), Hy as ([k' v'] & -> & Hy).
  assert (k = k') as <- by (by apply str_leb_antisym).
  apply list_elem_of_lookup in Hx as [i Hi], Hy as [j Hj].
  assert (i = j) as <- by (eapply (NoDup_lookup l.*1 i j k); [done|by rw list_lookup_fmap Hi|by rw list_lookup_fmap Hj]).
  by simplify_eq.
Qed.

Lemma json_dumps_member pre post k v v' :
  json_dumps true v = json_dumps true v' →
  json_dumps true (JObj (pre ++ (k, v) :: post)) = json_dumps true (JObj (pre ++ (k, v') :: post)).
Proof. intros Heq. cbn [json_dumps]. rw !map_app. cbn [map fst snd]. by rw Heq. Qed.

Lemma canonical_message_digest m : message_valid m → payload_digest (canonical_message m) = payload_digest m.
Proof.
  destruct m as [m|m]; [done|]. intros [_ Hp]. cbn [canonical_message payload_digest im_payload].
  unfold InventoryPayload_digest, canonical_digest. f_equal. cbn [sorted_payload ip_platform ip_architecture ip_fields
    ip_collector_complete ip_schema_version].
  apply (json_dumps_member [(_, _); (_, _)] [(_, _); (_, _)]). apply json_dumps_perm.
  - rw -list_fmap_compose (list_fmap_ext _ fst); [|done]. rw py_sorted_perm. by apply inventory_fields_NoDup.
  - by rw py_sorted_perm.
Qed.

Lemma canonical_message_sorted m : fields_sorted m → canonical_message m = m.
Proof.
  destruct m as [m|[env [pl ar fields cc sv]]]; [done|]. cbn. intros Hs. do 2 f_equal.
  unfold sorted_payload. f_equal. by apply sorted_fields.
Qed.

Lemma read_inventory p :
  InventoryPayload_post_init p = Ok tt →
  _decode_inventory printable [(py "platform", JStr (platform_value (ip_platform p)));
    (py "architecture", JStr (ip_architecture p));
    (py "fields", JObj ((λ f, (f.1, JStr f.2)) <$> ip_fields p));
    (py "collector_complete", JBool (ip_collector_complete p));
    (py "schema_version", JInt (ip_schema_version p))] = Ok (sorted_payload p).
Proof.
  intros Hok. unfold _decode_inventory. step ltac:(by apply exact_keys_same).
  step ltac:(get_key). step ltac:(reflexivity). step ltac:(apply read_fields). cbv zeta.
  step ltac:(get_key). step ltac:(reflexivity).
  step ltac:(get_key). step ltac:(apply read_platform).
  step ltac:(get_key). step ltac:(reflexivity).
  step ltac:(get_key). step ltac:(reflexivity).
  step ltac:(exact (sorted_payload_ok p Hok)). done.
Qed.

Lemma read_document m :
  message_valid m → message_texts_ok m →
  fromisoformat (isoformat (me_created_at (message_envelope m)))
    = Some (me_created_at (message_envelope m)) →
  fromisoformat (isoformat (me_expires_at (message_envelope m)))
    = Some (me_expires_at (message_envelope m)) →
  decode_document printable fromisoformat (message_document m) = Ok (canonical_message m).
Proof.
  intros Hok Ht Hc He. unfold decode_document.
  destruct m as [[env p]|[env p]]; destruct Hok as [Henv Hp]; cbv zeta beta;
    (step ltac:(reflexivity)); (step ltac:(by apply exact_keys_same));
    (step ltac:(get_key)); (step ltac:(reflexivity));
    (step ltac:(get_key)); (step ltac:(reflexivity)); (step ltac:(by apply read_envelope));
    (step ltac:(get_key)); (step ltac:(reflexivity)).
  - rw bool_decide_true //. step ltac:(by apply read_heartbeat). done.
  - rw bool_decide_false; [|by vm_compute]. rw bool_decide_true //.
    step ltac:(by apply read_inventory). done.
Qed.
End round_trip.

(** *** The document is one that its text determines *)
Lemma json_wf_obj int_ok fields :
  NoDup fields.*1 → Forall (λ f, forallb is_scalar f.1 = true ∧ json_wf int_ok f.2 = true) fields →
  json_wf int_ok (JObj fields) = true.
Proof.
  intros Hnd Hall. cbn [json_wf]. rw bool_decide_true //. apply forallb_forall.
  intros f Hf%list_elem_of_In. rw Forall_forall in Hall. by destruct (Hall f Hf) as [-> ->].
Qed.

Lemma wf_strings int_ok l :
  forallb (forallb is_scalar) l = true → json_wf int_ok (JArr (JStr <$> l)) = true.
Proof.
  cbn [json_wf]. induction l as [|s l IH]; [done|]. cbn. intros [-> Hl]%andb_true_iff. by apply IH.
Qed.

Lemma wf_fields (l : list (pystr * pystr)) :
  NoDup l.*1 → forallb (λ f, forallb is_scalar f.1 && forallb is_scalar f.2) l = true →
  json_wf message_int (JObj ((λ f, (f.1, JStr f.2)) <$> l)) = true.
Proof.
  intros Hnd Hf. apply json_wf_obj; [by rw -list_fmap_compose|].
  apply Forall_fmap. apply forallb_Forall in Hf. eapply Forall_impl; [exact Hf|].
  by intros f [? ?]%andb_true_iff.
Qed.

(** An object with literal keys: one goal per value. *)
Ltac wf_object :=
  apply json_wf_obj; [by apply (bool_decide_unpack _); vm_compute|];
  repeat (apply Forall_cons; split; [split; [reflexivity|]; cbn [snd]|]);
  [..|by constructor].

Lemma message_document_wf m :
  message_valid m → message_texts_ok m → json_wf message_int (message_document m) = true.
Proof.
  intros Hok Ht. destruct m as [[env p]|[env p]]; destruct Hok as [Henv Hp].
  - destruct Ht as [Hv Hc]. wf_object; [done|by apply envelope_document_wf|].
    wf_object; [done|by apply wf_strings].
  - destruct Ht as (Ha & Hf). wf_object; [done|by apply envelope_document_wf|].
    wf_object; [by destruct (ip_platform _)|done| |done|].
    + apply wf_fields; [exact (inventory_fields_NoDup p Hp)|done].
    + unfold InventoryPayload_post_init in Hp. checks_in Hp. destruct Hp as [Hv _].
      cbn [json_wf]. cbn in Hv |- *. by rw Hv.
Qed.

Lemma max_list_zero {A} (f : A → nat) l : (∀ x, f x = 0) → max_list (f <$> l) = 0.
Proof.
  intros Hf. induction l as [|x l IH]; [done|]. rw fmap_cons.
  change (max_list (f x :: (f <$> l))) with (f x `max` max_list (f <$> l)). by rw Hf IH.
Qed.

Lemma message_document_depth m : json_depth (message_document m) ≤ 3.
Proof.
  destruct m as [[env p]|[env p]].
  - assert (Hl : max_list (json_depth <$> (JStr <$> hp_capabilities p)) = 0)
      by (rw -list_fmap_compose; by apply max_list_zero).
    cbn in *. rw Hl. done.
  - assert (Hl : max_list ((λ f : pystr * json, json_depth f.2) <$> ((λ f, (f.1, JStr f.2)) <$> ip_fields p)) = 0)
      by (rw -list_fmap_compose; by apply max_list_zero).
    cbn in *. rw Hl. done.
Qed.

Lemma okr_decode_message printable fromisoformat depth raw :
  okr (λ m, message_valid m ∧ (0 < Z.of_nat (length raw) ≤ MAX_ENCODED_MESSAGE_BYTES)%Z)
    (decode_message printable fromisoformat depth raw).
Proof.
  unfold decode_message, verr. do 2 okr_step.
  eapply okr_read; [apply okr_parse|]. intros value.
  eapply okr_mono; [apply okr_decode_document|]. intros m Hm. split; [done|].
  cbv beta in *. apply Z.ltb_ge in H0. destruct raw; [done|]. cbn [length] in *. lia.
Qed.

(** A decoded message satisfies its contract. *)
Lemma decode_message_valid printable fromisoformat depth raw m :
  decode_message printable fromisoformat depth raw = Ok m → message_valid m.
Proof.
  intros Hd. pose proof (okr_decode_message printable fromisoformat depth raw) as Hok.
  rw Hd in Hok. apply Hok.
Qed.

(** C32: the decoder fails closed. Whatever bytes are presented, [decode_message]
either raises [ValidationError] — never a lookup, overflow, recursion or decoding
error of the interpreter — or the bytes are within the size limit and the result
is a message whose envelope and payload satisfy their contracts. *)
Theorem decode_fails_closed printable fromisoformat depth raw :
  match decode_message printable fromisoformat depth raw with
  | Ok m => message_valid m ∧ (0 < Z.of_nat (length raw) ≤ MAX_ENCODED_MESSAGE_BYTES)%Z
  | Raise e => is_validation e
  end.
Proof. exact (okr_decode_message printable fromisoformat depth raw). Qed.

(** C33: decoding inverts encoding. For every heartbeat and inventory message that
satisfies its contract, whose texts are sequences of Unicode scalar values and whose
encoding is within the size limit, provided the interpreter allows three nested containers and
[fromisoformat] reads back the two times, decoding the JSON encoding returns the message with its
inventory fields in the order of their names: that very message when they were in this order, and
in every case a message with the same payload digest. The encoder is a specification of the wire
format; the server only decodes. *)
Theorem decode_encode printable fromisoformat depth m :
  message_valid m → message_texts_ok m →
  (Z.of_nat (length (encode_message m)) ≤ MAX_ENCODED_MESSAGE_BYTES)%Z → 3 ≤ depth →
  fromisoformat (isoformat (me_created_at (message_envelope m)))
    = Some (me_created_at (message_envelope m)) →
  fromisoformat (isoformat (me_expires_at (message_envelope m)))
    = Some (me_expires_at (message_envelope m)) →
  decode_message printable fromisoformat depth (encode_message m) = Ok (canonical_message m) ∧
  (fields_sorted m → canonical_message m = m) ∧ payload_digest (canonical_message m) = payload_digest m.
Proof.
  intros Hok Ht Hlen Hdepth Hc He. split_and!; [|apply canonical_message_sorted|by apply canonical_message_digest].
  unfold decode_message.
  pose proof (message_document_wf m Hok Ht) as Hwf.
  assert (Hne : encode_message m ≠ []).
  { destruct (starts_dumps message_int _ Hwf) as (c & t & Heq & _). unfold encode_message. by rw Heq. }
  rw bool_decide_false //. step ltac:(reflexivity).
  rw (proj2 (Z.ltb_ge _ _) Hlen). step ltac:(reflexivity).
  eapply bind_eq; [|by apply read_document].
  unfold encode_message. rw (utf8_decode_ascii _ (ascii_dumps message_int _ Hwf)).
  cbn [mbind result_bind]. rw (loads_dumps message_hooks message_int) //.
  - apply bounded_integer_int_str.
  - intros l. exact (unique_object_NoDup l []).
  - pose proof (message_document_depth m). lia.
Qed.

(** ** A sample *)
Module CodecSample.

Definition created : datetime := utc (738000 * day + 12 * hour).
Definition expires : datetime := utc (738000 * day + 12 * hour + minute).

(** [fromisoformat] on the two times of the sample. *)
Definition read_time (s : pystr) : option datetime :=
  if bool_decide (s = isoformat created) then Some created
  else if bool_decide (s = isoformat expires) then Some expires
  else None.

Definition envelope : MessageEnvelope :=
  mkEnvelope (uid 1) (uid 2) (uid 3) 7 created expires (uid 4) PROTOCOL_VERSION.
Definition inventory : Message :=
  Inventory (mkInventoryMessage envelope
    (mkInventoryPayload LINUX (py "amd64") [(py "os", [68; 233; 128512]%Z); (py "kernel", py "6.1")] true 1)).
Definition heartbeat : Message :=
  Heartbeat (mkHeartbeatMessage envelope (mkHeartbeatPayload (py "1.0.0") [py "inventory"])).

End CodecSample.

Lemma decode_encode_witness :
  decode_message (λ _, true) CodecSample.read_time 900 (encode_message CodecSample.inventory)
    = Ok (canonical_message CodecSample.inventory) ∧
  canonical_message CodecSample.inventory ≠ CodecSample.inventory ∧
  decode_message (λ _, true) CodecSample.read_time 900 (encode_message CodecSample.heartbeat)
    = Ok CodecSample.heartbeat.
Proof.
  split; [|split; [vm_compute; discriminate|]].
  - apply (decode_encode (λ _, true) CodecSample.read_time 900 CodecSample.inventory);
      [split; vm_compute; reflexivity|split; vm_compute; reflexivity|vm_compute; discriminate|lia|vm_compute; reflexivity..].
  - apply (decode_encode (λ _, true) CodecSample.read_time 900 CodecSample.heartbeat);
      [split; vm_compute; reflexivity|split; vm_compute; reflexivity|vm_compute; discriminate|lia|vm_compute; reflexivity..].
Defined.

(** Literals with single quotes for double ones. *)
Definition dq (s : string) : list Z := (λ c, if (c =? 39)%Z then 34%Z else c) <$> py s.

(** What the decoder refuses, by its first check that fails: a repeated key, an
unknown key, an integer out of range, a syntax error. *)
Example decode_refuses :
  let decode s := decode_message (λ _, true) CodecSample.read_time 900 (dq s) in
  decode "{'type':'a','type':'b'}"%string = Raise (verr "duplicate JSON field: type") ∧
  decode "{'type':'a','env':{}}"%string = Raise (ValidationError (py
    "message fields do not match schema; missing=['envelope', 'payload'], unknown=['env']")) ∧
  decode "[9223372036854775808]"%string = Raise (verr "JSON integer exceeds the supported range") ∧
  decode "{'type':}"%string = Raise (verr "message body is not valid bounded JSON").
Proof. vm_compute. done. Qed.
