(* ===== verification/AgentApi.v ===== *)
(** * The agent message API ([src/src/northgate_rmm/agent_api.py])

[AgentMessageApplication.handle] over the protocol [AgentMessageStore], a class
of operations; [AgentStoreLaws] states what a store promises, and the theorems
on the handler are proved against it. *)
From stdpp Require Import prelude strings gmap sorting pretty ssreflect.
From S2P Require Import Prelude Uuid PyTime Sha256 Json Text JsonLoads UuidText Domain Codec.

Set Warnings "-clear-no-such-hyp".

Definition AGENT_MESSAGE_PATH : pystr := py "/v1/agent/messages".

Record VerifiedClientCertificate := mkVerifiedClientCertificate {
  vc_endpoint_id : uuid;
  vc_public_key_fingerprint : pystr;
}.

Definition VerifiedClientCertificate_post_init (c : VerifiedClientCertificate) : result unit :=
  raise_if (negb (fullmatch_fingerprint (vc_public_key_fingerprint c)))
    (verr "client certificate fingerprint is invalid").

Record AgentMessageRequest := mkAgentMessageRequest {
  rq_method : pystr;
  rq_path : pystr;
  rq_content_type : option pystr;
  rq_content_encoding : option pystr;
  rq_body : list Z;
}.

Record AgentMessageResponse := mkAgentMessageResponse {
  resp_status : Z;
  resp_headers : list (pystr * pystr);
  resp_body : pystr;
}.

(** The protocol a store implements. *)
Class AgentMessageStore (W : Type) := {
  st_authenticate_endpoint_certificate : uuid → pystr → datetime → uuid → M W EndpointIdentity;
  st_ingest_heartbeat : uuid → HeartbeatMessage → datetime → option pystr → M W Observation;
  st_ingest_inventory : uuid → InventoryMessage → datetime → option pystr → M W Observation;
}.

(** [s.lower()] as far as a comparison with an ASCII text without the letters k
and i-dotted can tell: no other character lowers to ASCII. *)
Definition ascii_lower (s : pystr) : pystr :=
  (λ c, if ((65 <=? c) && (c <=? 90))%Z then (c + 32)%Z else c) <$> s.

Definition _json_response (status : Z) (value : json) : AgentMessageResponse :=
  mkAgentMessageResponse status
    [(py "content-type", py "application/json"); (py "cache-control", py "no-store")]
    (json_dumps false value).

Definition _error_response (status : Z) (code : string) (allow : option pystr)
    : AgentMessageResponse :=
  let response := _json_response status (JObj [(py "error", JStr (py code))]) in
  match allow with
  | None => response
  | Some a =>
    mkAgentMessageResponse (resp_status response) (resp_headers response ++ [(py "allow", a)])
      (resp_body response)
  end.

Definition envelope_of (m : Message) : MessageEnvelope :=
  match m with Heartbeat m => hm_envelope m | Inventory m => im_envelope m end.

(** The [except] clauses of [handle], over the computation of the response. *)
Definition except_domain {W} (m : M W AgentMessageResponse) : M W AgentMessageResponse := λ w,
  match m w with
  | (w', Raise (AuthorizationError _)) => (w', Ok (_error_response 403 "unauthorized" None))
  | (w', Raise (ReplayError _)) => (w', Ok (_error_response 409 "message_conflict" None))
  | (w', Raise (ValidationError _)) => (w', Ok (_error_response 400 "invalid_message" None))
  | outcome => outcome
  end.

Section application.
Context {W : Type} `{AgentMessageStore W}.
Context (printable : Z → bool) (fromisoformat : pystr → option datetime) (depth : nat).

(** The body of the [try] and the acknowledgement. *)
Definition process (request : AgentMessageRequest) (peer : VerifiedClientCertificate)
    (received_at : datetime) : M W AgentMessageResponse :=
  message ← lift (decode_message printable fromisoformat depth (rq_body request));
  let encoded_digest := Sha256.hexdigest (rq_body request) in
  identity ← st_authenticate_endpoint_certificate (vc_endpoint_id peer)
    (vc_public_key_fingerprint peer) received_at (me_correlation_id (envelope_of message));
  match message with
  | Heartbeat m =>
    st_ingest_heartbeat (ei_identity_id identity) m received_at (Some encoded_digest)
  | Inventory m =>
    st_ingest_inventory (ei_identity_id identity) m received_at (Some encoded_digest)
  end;;
  mret (_json_response 200
    (JObj [(py "message_id", JStr (uuid_str (me_message_id (envelope_of message))));
           (py "accepted", JBool true)])).

Definition handle (request : AgentMessageRequest) (peer : VerifiedClientCertificate)
    (received_at : datetime) : M W AgentMessageResponse :=
  if bool_decide (rq_path request ≠ AGENT_MESSAGE_PATH) then
    mret (_error_response 404 "not_found" None)
  else if bool_decide (rq_method request ≠ py "POST") then
    mret (_error_response 405 "method_not_allowed" (Some (py "POST")))
  else if match rq_content_type request with
          | None => true
          | Some t => negb (bool_decide (ascii_lower t = py "application/json"))
          end then
    mret (_error_response 415 "unsupported_media_type" None)
  else if bool_decide (rq_content_encoding request ≠ None) then
    mret (_error_response 415 "content_encoding_not_allowed" None)
  else if (MAX_ENCODED_MESSAGE_BYTES <? Z.of_nat (length (rq_body request)))%Z then
    mret (_error_response 413 "request_too_large" None)
  else except_domain (process request peer received_at).
End application.

(** ** What a store promises *)

(** A store's state has a part that only messages and lifecycle operations change
([unchanged] compares it), the messages it holds with the digest of their bytes
and their sender, and the identities its certificates authenticate; in a
[settled] state no reply of the database gets lost. *)
Class AgentStoreLaws (W : Type) `{AgentMessageStore W} := {
  settled : W → Prop;
  unchanged : relation W;
  holds : W → MessageEnvelope → pystr → uuid → Prop;
  authenticated : W → uuid → pystr → uuid → Prop;
  unchanged_preorder : PreOrder unchanged;
  authenticate_spec w w' r eid fp t corr :
    st_authenticate_endpoint_certificate eid fp t corr w = (w', r) →
    (settled w → unchanged w w' ∧ settled w') ∧
    (∀ i, r = Ok i → unchanged w w' ∧ authenticated w eid fp (ei_identity_id i));
  heartbeat_spec w w' r aid m t digest :
    st_ingest_heartbeat aid m t (Some digest) w = (w', r) →
    match r with
    | Ok _ => holds w' (hm_envelope m) digest aid
    | Raise _ => settled w → unchanged w w'
    end;
  inventory_spec w w' r aid m t digest :
    st_ingest_inventory aid m t (Some digest) w = (w', r) →
    match r with
    | Ok _ => holds w' (im_envelope m) digest aid
    | Raise _ => settled w → unchanged w w'
    end;
}.
#[export] Existing Instance unchanged_preorder.

Section handler.
Context {W : Type} `{AgentStoreLaws W}.
Context (printable : Z → bool) (fromisoformat : pystr → option datetime) (depth : nat).

(** What an outcome of the handler means: an acknowledgement is for a decoded
message of an authenticated sender that the store now holds with the digest of
the very bytes received; every other outcome leaves the store unchanged. *)
Definition exchange_ok (request : AgentMessageRequest) (peer : VerifiedClientCertificate)
    (w w' : W) (r : result AgentMessageResponse) : Prop :=
  match r with
  | Ok response =>
    (resp_status response = 200%Z ∧ ∃ m aid,
       decode_message printable fromisoformat depth (rq_body request) = Ok m ∧
       authenticated w (vc_endpoint_id peer) (vc_public_key_fingerprint peer) aid ∧
       holds w' (envelope_of m) (Sha256.hexdigest (rq_body request)) aid ∧
       resp_body response = json_dumps false
         (JObj [(py "message_id", JStr (uuid_str (me_message_id (envelope_of m))));
                (py "accepted", JBool true)])) ∨
    (resp_status response ∈ [400; 403; 404; 405; 409; 413; 415]%Z ∧
       (settled w → unchanged w w'))
  | Raise _ => settled w → unchanged w w'
  end.

Lemma process_ok request peer received w w' r :
  process printable fromisoformat depth request peer received w = (w', r) →
  exchange_ok request peer w w' r.
Proof.
  unfold process, mbind, M_bind, lift. cbv zeta.
  destruct (decode_message _ _ _ _) as [m|e] eqn:Hd; [|by intros [= <- <-] _].
  destruct (st_authenticate_endpoint_certificate _ _ _ _ w) as [w1 [i|e]] eqn:Ha;
    apply authenticate_spec in Ha as [Hs Hi]; last first.
  { intros [= <- <-] Hset. by apply Hs. }
  destruct (Hi i eq_refl) as [Hu Hauth].
  assert (Hend : ∀ (q : W * result Observation),
    match q.2 with Ok _ => holds q.1 (envelope_of m) (Sha256.hexdigest (rq_body request)) (ei_identity_id i)
                 | Raise _ => settled w1 → unchanged w1 q.1 end →
    (match q with
     | (w2, Ok _) => (w2, Ok (_json_response 200
         (JObj [(py "message_id", JStr (uuid_str (me_message_id (envelope_of m))));
                (py "accepted", JBool true)])))
     | (w2, Raise e) => (w2, Raise e)
     end) = (w', r) → exchange_ok request peer w w' r).
  { intros [w2 [o|e]] Hq [= <- <-]; cbn in Hq.
    - left. split; [done|]. by exists m, (ei_identity_id i).
    - intros Hset. etrans; [exact Hu|]. by apply Hq, Hs. }
  destruct m as [m|m].
  - intros Heq. eapply Hend; [|exact Heq].
    pose proof (heartbeat_spec w1 _ _ (ei_identity_id i) m received (Sha256.hexdigest (rq_body request))
      (surjective_pairing _)) as Hq. exact Hq.
  - intros Heq. eapply Hend; [|exact Heq].
    pose proof (inventory_spec w1 _ _ (ei_identity_id i) m received (Sha256.hexdigest (rq_body request))
      (surjective_pairing _)) as Hq. exact Hq.
Qed.

Lemma handle_ok request peer received w w' r :
  handle printable fromisoformat depth request peer received w = (w', r) →
  exchange_ok request peer w w' r.
Proof.
  assert (Hrefuse : ∀ status code allow, status ∈ [400; 403; 404; 405; 409; 413; 415]%Z →
    (w, Ok (_error_response status code allow)) = (w', r) → exchange_ok request peer w w' r).
  { intros status code allow Hst [= <- <-]. right. split; [by destruct allow|by intros _]. }
  unfold handle.
  do 5 (match goal with |- (if ?b then _ else _) w = _ → _ => destruct b end;
        [apply Hrefuse; by apply (bool_decide_unpack _)|]).
  unfold except_domain.
  destruct (process printable fromisoformat depth request peer received w) as [w1 r1] eqn:Hp.
  apply process_ok in Hp. destruct r1 as [response|e]; [by intros [= <- <-]|].
  destruct e; try (by intros [= <- <-]); intros [= <- <-]; right;
    (split; [by apply (bool_decide_unpack _)|exact Hp]).
Qed.
End handler.
