(* ===== verification/Http.v ===== *)
(** * HTTP over the private listeners

What [enrollment_listener.py] and [operator_listener.py] share: reading a request
head from a stream of bytes, and writing one response. A stream is the bytes the
peer sends and whether it then closes; when it does neither, the deadline of the
request expires. *)
From stdpp Require Import prelude strings gmap sorting pretty ssreflect.
From S2P Require Import Prelude Uuid Json Text JsonLoads JsonProofs AgentApi.

Set Warnings "-clear-no-such-hyp".

Record StreamReader := mkStreamReader {
  sr_bytes : list Z;
  sr_eof : bool;
}.

(** ** Bytes *)
Definition CRLF : list Z := [13; 10]%Z.

(** [line :: ...] with a byte added to its first element. *)
Definition cons_head (c : Z) (l : list (list Z)) : list (list Z) :=
  match l with [] => [[c]] | h :: t => (c :: h) :: t end.

(** [s.split(b"\r\n")]. *)
Fixpoint split_crlf (s : list Z) : list (list Z) :=
  match s with
  | [] => [[]]
  | c :: r =>
    match r with
    | [] => [[c]]
    | d :: r' => if ((c =? 13) && (d =? 10))%Z then [] :: split_crlf r' else cons_head c (split_crlf r)
    end
  end.

(** [s.split(sep)] for one byte. *)
Fixpoint split_on (sep : Z) (s : list Z) : list (list Z) :=
  match s with
  | [] => [[]]
  | c :: r => if (c =? sep)%Z then [] :: split_on sep r else cons_head c (split_on sep r)
  end.

(** [s.partition(sep)] for one byte: what precedes it, and what follows when it
occurs. *)
Fixpoint partition (sep : Z) (s : list Z) : list Z * option (list Z) :=
  match s with
  | [] => ([], None)
  | c :: r =>
    if (c =? sep)%Z then ([], Some r)
    else let '(before, after) := partition sep r in (c :: before, after)
  end.

(** [s.strip(b" \t")]. *)
Definition is_blank (c : Z) : bool := ((c =? 32) || (c =? 9))%Z.
Fixpoint lstrip (s : list Z) : list Z :=
  match s with [] => [] | c :: r => if is_blank c then lstrip r else s end.
Definition strip (s : list Z) : list Z := reverse (lstrip (reverse (lstrip s))).

(** [s.decode("ascii")] and [text.encode("ascii")]. *)
Definition decode_ascii (s : list Z) : result pystr :=
  if forallb is_ascii s then Ok s else Raise UnicodeDecodeError.
Definition encode_ascii (s : pystr) : result (list Z) :=
  if forallb is_ascii s then Ok s else Raise UnicodeEncodeError.

(** ** Reading *)

(** The bytes before the first empty line, and after it. *)
Fixpoint cut_head (s : list Z) : option (list Z * list Z) :=
  match strip_prefix (CRLF ++ CRLF) s with
  | Some rest => Some ([], rest)
  | None =>
    match s with
    | [] => None
    | c :: r => '(head, rest) ← cut_head r; Some (c :: head, rest)
    end
  end.

Definition invalid_request : exn := RequestError 400 (py "invalid_request").

(** [reader.readuntil(b"\r\n\r\n")] of a reader with this limit, its errors mapped. *)
Definition readuntil_blank (limit : Z) (reader : StreamReader) : result (list Z * StreamReader) :=
  match cut_head (sr_bytes reader) with
  | Some (head, rest) =>
    raise_if (limit <? Z.of_nat (length head))%Z invalid_request;;
    Ok (head ++ CRLF ++ CRLF, mkStreamReader rest (sr_eof reader))
  | None =>
    if sr_eof reader || (limit <? Z.of_nat (length (sr_bytes reader)) + 1 - 4)%Z
    then Raise invalid_request else Raise TimeoutError
  end.

(** [reader.readexactly(length)], its error mapped. *)
Definition readexactly (length_ : Z) (reader : StreamReader) : result (list Z * StreamReader) :=
  if (length_ <=? Z.of_nat (length (sr_bytes reader)))%Z
  then Ok (take (Z.to_nat length_) (sr_bytes reader),
           mkStreamReader (drop (Z.to_nat length_) (sr_bytes reader)) (sr_eof reader))
  else if sr_eof reader then Raise invalid_request else Raise TimeoutError.

(** [_HEADER_NAME]. *)
Definition is_name_char (c : Z) : bool :=
  ((48 <=? c) && (c <=? 57) || (65 <=? c) && (c <=? 90) || (97 <=? c) && (c <=? 122))%Z
  || bool_decide (c ∈ [33; 35; 36; 37; 38; 39; 42; 43; 45; 46; 94; 95; 96; 124; 126]%Z).
Definition header_name_ok (name : list Z) : bool :=
  match name with [] => false | _ => forallb is_name_char name end.

(** A header value: bytes 32 to 126. *)
Definition value_char (c : Z) : bool := ((32 <=? c) && (c <=? 126))%Z.

(** One line of [for line in lines[1:]]. *)
Definition parse_header (headers : gmap pystr pystr) (line : list Z) : result (gmap pystr pystr) :=
  match partition 58 line with
  | (_, None) => Raise invalid_request
  | (name, Some raw_value) =>
    raise_if (negb (header_name_ok name)) invalid_request;;
    let normalized_name := ascii_lower name in
    raise_if (bool_decide (is_Some (headers !! normalized_name))) invalid_request;;
    let value := strip raw_value in
    raise_if (str_empty value || negb (forallb value_char value)) invalid_request;;
    Ok (<[normalized_name := value]> headers)
  end.

Fixpoint parse_headers (headers : gmap pystr pystr) (lines : list (list Z))
    : result (gmap pystr pystr) :=
  match lines with
  | [] => Ok headers
  | line :: rest => headers' ← parse_header headers line; parse_headers headers' rest
  end.

Record RequestHead := mkRequestHead {
  rh_method : pystr;
  rh_target : pystr;
  rh_headers : gmap pystr pystr;
}.

(** [_read_request] up to the header section. *)
Definition read_head (max_bytes max_headers : Z) (reader : StreamReader)
    : result (RequestHead * StreamReader) :=
  '(encoded_headers, reader') ← readuntil_blank (max_bytes + 4) reader;
  raise_if (max_bytes <? Z.of_nat (length encoded_headers))%Z
    (RequestError 431 (py "headers_too_large"));;
  let lines := split_crlf (take (length encoded_headers - 4) encoded_headers) in
  raise_if (max_headers + 1 <? Z.of_nat (length lines))%Z invalid_request;;
  match lines with
  | [] => Raise invalid_request
  | request_line :: header_lines =>
    match split_on 32 request_line with
    | [raw_method; raw_target; version] =>
      raise_if (negb (bool_decide (version = py "HTTP/1.1"))) invalid_request;;
      '(method, target) ← except_as (λ e, bool_decide (e = UnicodeDecodeError)) invalid_request
        (method ← decode_ascii raw_method; target ← decode_ascii raw_target; Ok (method, target));
      headers ← parse_headers ∅ header_lines;
      Ok (mkRequestHead method target headers, reader')
    | _ => Raise invalid_request
    end
  end.

Definition expected_host (authority : pystr) (port : Z) : pystr :=
  if bool_decide (port ∈ [0; 443]%Z) then authority else authority ++ py ":" ++ int_str port.

Definition check_host (authority : pystr) (port : Z) (headers : gmap pystr pystr) : result unit :=
  raise_if (negb (bool_decide (headers !! py "host" = Some (expected_host authority port))))
    (RequestError 421 (py "misdirected_request")).

(** ** Writing *)

(** [d[key] = value] of a dict: a present key keeps its place. *)
Fixpoint dict_set (key value : pystr) (d : list (pystr * pystr)) : list (pystr * pystr) :=
  match d with
  | [] => [(key, value)]
  | (k, v) :: r => if bool_decide (k = key) then (k, value) :: r else (k, v) :: dict_set key value r
  end.

Definition header_line (h : pystr * pystr) : pystr := h.1 ++ py ": " ++ h.2 ++ CRLF.

(** The bytes of a response. *)
Definition write_head (status : Z) (reason : pystr) (output_headers : list (pystr * pystr))
    (body : list Z) : result (list Z) :=
  encoded_headers ← encode_ascii (concat (header_line <$> output_headers));
  status_line ← encode_ascii (py "HTTP/1.1 " ++ int_str status ++ py " " ++ reason ++ CRLF);
  Ok (status_line ++ encoded_headers ++ CRLF ++ body).

(** [{"error":"code"}]. *)
Definition error_body (code : pystr) : list Z :=
  let q := [34%Z] in py "{" ++ q ++ py "error" ++ q ++ py ":" ++ q ++ code ++ q ++ py "}".

(** ** Lines *)
Fixpoint join_crlf (lines : list (list Z)) : list Z :=
  match lines with
  | [] => []
  | l :: r => match r with [] => l | _ => l ++ CRLF ++ join_crlf r end
  end.

(** A line that can be sent: not empty, without a carriage return. *)
Definition line_ok (l : list Z) : bool :=
  match l with [] => false | _ => forallb (λ c, negb (c =? 13)%Z) l end.

Lemma cut_head_split s head rest :
  cut_head s = Some (head, rest) → s = head ++ (CRLF ++ CRLF) ++ rest.
Proof.
  revert head rest. induction s as [|c s IH]; intros head rest.
  - intros [=].
  - cbn [cut_head]. destruct (strip_prefix _ _) as [r|] eqn:Hp.
    + intros [= <- <-]. by apply strip_prefix_Some in Hp.
    + destruct (cut_head s) as [[h r]|]; [|done]. intros [= <- <-]. cbn [app]. f_equal. by apply IH.
Qed.

Lemma cut_head_step c s :
  strip_prefix (CRLF ++ CRLF) (c :: s) = None →
  cut_head (c :: s) = '(h, r) ← cut_head s; Some (c :: h, r).
Proof. intros Hp. cbn [cut_head]. by rw Hp. Qed.

Lemma no_break c s : (c ≠ 13)%Z → strip_prefix (CRLF ++ CRLF) (c :: s) = None.
Proof.
  intros Hc. change (strip_prefix (CRLF ++ CRLF) (c :: s)) with
    (if (13 =? c)%Z then strip_prefix (10%Z :: CRLF) s else None).
  by rw (proj2 (Z.eqb_neq 13 c)); [|lia].
Qed.

Lemma cut_head_line l s :
  forallb (λ c, negb (c =? 13)%Z) l = true →
  cut_head (l ++ s) = '(h, r) ← cut_head s; Some (l ++ h, r).
Proof.
  induction l as [|c l IH]; intros Hl.
  - cbn [app]. by destruct (cut_head s) as [[h r]|].
  - cbn [forallb] in Hl. apply andb_true_iff in Hl as [Hc Hl]. cbn [app].
    rw cut_head_step; [|apply no_break; lia].
    rw (IH Hl). by destruct (cut_head s) as [[h r]|].
Qed.

Lemma cut_head_break c s :
  (c ≠ 13)%Z → cut_head (CRLF ++ c :: s) = '(h, r) ← cut_head (c :: s); Some (CRLF ++ h, r).
Proof.
  intros Hc. unfold CRLF. cbn [app]. rw cut_head_step; last first.
  { change (strip_prefix (CRLF ++ CRLF) (13 :: 10 :: c :: s)%Z) with
      (if (13 =? c)%Z then strip_prefix [10%Z] s else None).
    by rw (proj2 (Z.eqb_neq 13 c)); [|lia]. }
  rw cut_head_step; [|done]. by destruct (cut_head (c :: s)) as [[h r]|].
Qed.

Lemma cut_head_end rest : cut_head (CRLF ++ CRLF ++ rest) = Some ([], rest).
Proof. done. Qed.

Lemma cut_head_join lines rest :
  lines ≠ [] → forallb line_ok lines = true →
  cut_head (join_crlf lines ++ CRLF ++ CRLF ++ rest) = Some (join_crlf lines, rest).
Proof.
  intros Hne Hok. induction lines as [|l lines IH]; [done|]. cbn [forallb] in Hok.
  apply andb_true_iff in Hok as [Hl Hok].
  assert (Hl' : forallb (λ c, negb (c =? 13)%Z) l = true) by by destruct l.
  cbn [join_crlf]. destruct lines as [|k lines].
  - rw cut_head_line // cut_head_end. cbn. by rw app_nil_r.
  - rw -!app_assoc cut_head_line //. specialize (IH ltac:(done) Hok).
    destruct k as [|c k]; [done|].
    assert (Hj : ∃ s, join_crlf ((c :: k) :: lines) = c :: s).
    { destruct lines; cbn [join_crlf app]; eauto. }
    destruct Hj as [s Hj]. rw Hj in IH |- *. cbn [app] in IH |- *.
    rw cut_head_break; [|cbn in Hok; lia]. rw IH. done.
Qed.

Lemma split_crlf_line l s :
  forallb (λ c, negb (c =? 13)%Z) l = true → split_crlf (l ++ CRLF ++ s) = l :: split_crlf s.
Proof.
  induction l as [|c l IH]; intros Hl; [done|]. cbn [forallb] in Hl.
  apply andb_true_iff in Hl as [Hc Hl]. specialize (IH Hl). cbn [app].
  assert (Hd : ∃ d r, l ++ CRLF ++ s = d :: r) by (destruct l; cbn; eauto).
  destruct Hd as (d & r & Hd). cbn [split_crlf]. rw Hd in IH |- *.
  rw (_ : (c =? 13)%Z = false); [|lia]. cbn [andb]. by rw IH.
Qed.

Lemma split_crlf_last l :
  forallb (λ c, negb (c =? 13)%Z) l = true → split_crlf l = [l].
Proof.
  induction l as [|c l IH]; intros Hl; [done|]. cbn [forallb] in Hl.
  apply andb_true_iff in Hl as [Hc Hl]. specialize (IH Hl). cbn [split_crlf].
  destruct l as [|d l]; [done|]. rw (_ : (c =? 13)%Z = false); [|lia]. cbn [andb]. by rw IH.
Qed.

Lemma split_crlf_join lines :
  lines ≠ [] → forallb line_ok lines = true → split_crlf (join_crlf lines) = lines.
Proof.
  intros Hne Hok. induction lines as [|l lines IH]; [done|]. cbn [forallb] in Hok.
  apply andb_true_iff in Hok as [Hl Hok].
  assert (Hl' : forallb (λ c, negb (c =? 13)%Z) l = true) by by destruct l.
  cbn [join_crlf]. destruct lines as [|k lines]; [by apply split_crlf_last|].
  rw split_crlf_line //. by rw IH.
Qed.

(** ** Header lines *)
Lemma split_on_word sep l s : sep ∉ l → split_on sep (l ++ sep :: s) = l :: split_on sep s.
Proof.
  induction l as [|c l IH]; intros Hl; cbn [app split_on]; [by rw Z.eqb_refl|].
  rw (proj2 (Z.eqb_neq c sep)); [|set_solver]. rw IH; [done|set_solver].
Qed.
Lemma split_on_last sep l : sep ∉ l → split_on sep l = [l].
Proof.
  induction l as [|c l IH]; intros Hl; cbn [split_on]; [done|].
  rw (proj2 (Z.eqb_neq c sep)); [|set_solver]. rw IH; [done|set_solver].
Qed.
Lemma partition_at sep l s : sep ∉ l → partition sep (l ++ sep :: s) = (l, Some s).
Proof.
  induction l as [|c l IH]; intros Hl; cbn [app partition]; [by rw Z.eqb_refl|].
  rw (proj2 (Z.eqb_neq c sep)); [|set_solver]. rw IH; [done|set_solver].
Qed.
Lemma partition_none sep l : sep ∉ l → partition sep l = (l, None).
Proof.
  induction l as [|c l IH]; intros Hl; cbn [partition]; [done|].
  rw (proj2 (Z.eqb_neq c sep)); [|set_solver]. rw IH; [done|set_solver].
Qed.

(** Text a header value can hold as it is. *)
Definition starts_solid (v : pystr) : bool := match v with [] => false | c :: _ => negb (is_blank c) end.
Definition value_ok (v : pystr) : bool :=
  forallb value_char v && starts_solid v && starts_solid (reverse v).

Lemma lstrip_solid v : starts_solid v = true → lstrip v = v.
Proof. destruct v as [|c v]; [done|]. cbn. intros Hc%negb_true_iff. by rw Hc. Qed.

Lemma strip_value v : value_ok v = true → strip (32%Z :: v) = v.
Proof.
  unfold value_ok. intros [[_ H1]%andb_true_iff H2]%andb_true_iff. unfold strip.
  change (lstrip (32%Z :: v)) with (lstrip v). rw lstrip_solid // lstrip_solid //.
  apply reverse_involutive.
Qed.

Definition header_ok (h : pystr * pystr) : bool := header_name_ok h.1 && value_ok h.2.
Definition header_text (h : pystr * pystr) : pystr := h.1 ++ py ": " ++ h.2.

Lemma name_char_spec c : is_name_char c = true → (33 ≤ c ≤ 126)%Z ∧ c ≠ 58%Z.
Proof.
  unfold is_name_char. intros H. apply orb_true_iff in H as [H|H]; [lia|].
  apply bool_decide_eq_true in H. rw !elem_of_cons elem_of_nil in H. lia.
Qed.

Lemma header_name_chars name c : header_name_ok name = true → c ∈ name → is_name_char c = true.
Proof.
  intros Hn Hc. destruct name as [|d name]; [done|]. unfold header_name_ok in Hn.
  rw forallb_forall in Hn. apply Hn. by apply list_elem_of_In.
Qed.

Lemma parse_header_text m h :
  header_ok h = true → m !! ascii_lower h.1 = None →
  parse_header m (header_text h) = Ok (<[ascii_lower h.1 := h.2]> m).
Proof.
  intros [Hn Hv]%andb_true_iff Hm. unfold parse_header, header_text.
  change (py ": " ++ h.2) with (58%Z :: 32%Z :: h.2). rw partition_at; last first.
  { intros Hin. by apply (header_name_chars _ _ Hn), name_char_spec in Hin as [_ Hin]. }
  rw Hn Hm strip_value //. cbn [negb raise_if mbind result_bind].
  rw bool_decide_eq_false_2; [|by intros []].
  pose proof Hv as [[Hc Hs]%andb_true_iff _]%andb_true_iff. rw Hc.
  by destruct h.2.
Qed.

Definition lowered (hs : list (pystr * pystr)) : list (pystr * pystr) :=
  prod_map ascii_lower id <$> hs.

Lemma parse_headers_text hs m :
  forallb header_ok hs = true → NoDup (lowered hs).*1 → (∀ k, k ∈ (lowered hs).*1 → m !! k = None) →
  parse_headers m (header_text <$> hs) = Ok (list_to_map (lowered hs) ∪ m).
Proof.
  revert m. induction hs as [|h hs IH]; intros m Hok Hnd Hm; cbn [fmap list_fmap parse_headers].
  { by rw left_id_L. }
  cbn [forallb] in Hok. apply andb_true_iff in Hok as [Hh Hok].
  unfold lowered in Hnd, Hm. rw !fmap_cons in Hnd Hm. apply NoDup_cons in Hnd as [Hni Hnd].
  rw parse_header_text //; [|apply Hm; by left]. cbn [mbind result_bind]. rw IH //.
  - f_equal. unfold lowered. rw fmap_cons. cbn [list_to_map foldr uncurry prod_map fst snd curry].
    rw -insert_union_l insert_union_r //. by apply not_elem_of_list_to_map_1.
  - intros k Hk. rw lookup_insert_ne; [|by intros <-]. apply Hm. by right.
Qed.

(** ** Responses *)
Definition status_text (status : Z) (reason : pystr) : pystr :=
  py "HTTP/1.1 " ++ int_str status ++ py " " ++ reason.

(** The bytes of a response are its lines, an empty line, and the body. *)
Lemma write_head_lines status reason hs body :
  status_text status reason ++ CRLF ++ concat (header_line <$> hs) ++ CRLF ++ body =
  join_crlf (status_text status reason :: (header_text <$> hs)) ++ CRLF ++ CRLF ++ body.
Proof.
  generalize (status_text status reason). intros first. revert first.
  induction hs as [|h hs IH]; intros first; [done|].
  rw fmap_cons. cbn [concat join_crlf]. rw -!app_assoc. f_equal. f_equal. specialize (IH (header_text h)).
  rw fmap_cons -IH. unfold header_text, header_line. by rw -!app_assoc.
Qed.

(** A client that reads one response: status line, headers and body. *)
Definition read_response (bytes : list Z) : option (pystr * gmap pystr pystr * list Z) :=
  '(head, body) ← cut_head bytes;
  match split_crlf head with
  | [] => None
  | status_line :: lines =>
    match parse_headers ∅ lines with
    | Ok headers => Some (status_line, headers, body)
    | Raise _ => None
    end
  end.

Lemma value_char_ascii s : forallb value_char s = true → forallb is_ascii s = true.
Proof. apply forallb_mono. intros c Hc. unfold value_char in Hc. unfold is_ascii. lia. Qed.

Lemma value_char_line s : forallb value_char s = true → forallb (λ c, negb (c =? 13)%Z) s = true.
Proof. apply forallb_mono. intros c Hc. unfold value_char in Hc. lia. Qed.

Lemma int_str_chars z : forallb value_char (int_str z) = true.
Proof.
  assert (Hd : ∀ ds n, decimal ds n → forallb value_char ds = true).
  { intros ds n [Hds _ _ _]. revert Hds. apply forallb_mono. intros c Hc.
    unfold is_digit in Hc. unfold value_char. lia. }
  destruct (int_str_cases z) as [[_ ->]|[(ds & Hds & ->)|(ds & Hds & ->)]]; [done|by eapply Hd|].
  cbn [forallb]. by rw (Hd _ _ Hds).
Qed.

Lemma digits_value_nonneg ds : forallb is_digit ds = true → (0 ≤ digits_value ds)%Z.
Proof.
  induction ds as [|c ds IH] using rev_ind; [done|]. rw forallb_app andb_true_iff. intros [Hds Hc].
  rw digits_value_snoc. specialize (IH Hds). cbn in Hc. unfold is_digit in Hc. lia.
Qed.

(** The decimal text of a length. *)
Lemma int_str_digits z :
  (0 ≤ z)%Z → forallb is_digit (int_str z) = true ∧ digits_value (int_str z) = z ∧ int_str z ≠ [].
Proof.
  intros Hz. destruct (int_str_cases z) as [[-> ->]|[(ds & Hds & ->)|(ds & Hds & _)]]; [done|..].
  - destruct Hds as [Hd Hv (c & ds' & -> & _) _]. done.
  - exfalso. destruct Hds as [_ _ _ Hl].
    pose proof (Z.pow_pos_nonneg 10 (Z.of_nat (length ds - 1)) ltac:(lia) ltac:(lia)). lia.
Qed.

Lemma int_str_length z n :
  (0 ≤ z < 10 ^ Z.of_nat n)%Z → 1 ≤ n → length (int_str z) ≤ n.
Proof.
  intros Hz Hn. destruct (int_str_cases z) as [[-> ->]|[(ds & Hds & ->)|(ds & Hds & _)]]; [cbn; lia|..].
  - destruct Hds as [_ _ _ Hl]. destruct (decide (length ds ≤ n)) as [|Hlt]; [done|].
    pose proof (Z.pow_le_mono_r 10 (Z.of_nat n) (Z.of_nat (length ds - 1)) ltac:(lia) ltac:(lia)). lia.
  - exfalso. destruct Hds as [_ _ _ Hl].
    pose proof (Z.pow_pos_nonneg 10 (Z.of_nat (length ds - 1)) ltac:(lia) ltac:(lia)). lia.
Qed.

Lemma int_str_value z : (0 ≤ z)%Z → value_ok (int_str z) = true.
Proof.
  intros Hz. destruct (int_str_digits z Hz) as (Hd & _ & Hne). unfold value_ok. rw int_str_chars. cbn [andb].
  assert (Hsolid : ∀ s, s ≠ [] → forallb is_digit s = true → starts_solid s = true).
  { intros [|c s] Hs Hds; [done|]. cbn in Hds |- *. apply andb_true_iff in Hds as [Hc _].
    unfold is_digit in Hc. unfold is_blank. lia. }
  rw !Hsolid //.
  - intros Hr%(f_equal reverse). by rw reverse_involutive in Hr.
  - apply forallb_forall. intros c Hc%list_elem_of_In. rw forallb_forall in Hd. apply Hd.
    apply list_elem_of_In. by apply elem_of_reverse.
Qed.

Lemma header_text_chars h : header_ok h = true → forallb value_char (header_text h) = true.
Proof.
  intros [Hn Hv]%andb_true_iff. unfold header_text. rw !forallb_app.
  apply andb_true_iff in Hv as [[Hv _]%andb_true_iff _]. rw Hv andb_true_r andb_true_iff.
  split; [|done]. apply forallb_forall. intros c Hc%list_elem_of_In.
  apply (header_name_chars _ _ Hn), name_char_spec in Hc as [Hc _]. unfold value_char. lia.
Qed.

Lemma header_text_line h : header_ok h = true → line_ok (header_text h) = true.
Proof.
  intros Hh. pose proof (value_char_line _ (header_text_chars h Hh)) as Hl.
  apply andb_true_iff in Hh as [Hn _]. unfold header_text in *. by destruct h.1.
Qed.

Lemma status_text_chars status reason :
  forallb value_char reason = true → forallb value_char (status_text status reason) = true.
Proof. intros Hr. unfold status_text. rw !forallb_app int_str_chars Hr. done. Qed.

Lemma read_response_write status reason hs body :
  forallb value_char reason = true → forallb header_ok hs = true → NoDup (lowered hs).*1 →
  ∃ bytes, write_head status reason hs body = Ok bytes ∧
    read_response bytes = Some (status_text status reason, list_to_map (lowered hs), body).
Proof.
  intros Hr Hok Hnd. pose proof (status_text_chars status reason Hr) as Hst.
  assert (Hlines : forallb line_ok (status_text status reason :: (header_text <$> hs)) = true).
  { cbn [forallb]. rw (_ : line_ok (status_text status reason) = true);
      [|exact (value_char_line _ Hst)].
    rw forallb_forall. intros l Hl%list_elem_of_In. apply list_elem_of_fmap in Hl as (h & -> & Hh).
    rw forallb_forall in Hok. apply header_text_line, Hok. by apply list_elem_of_In. }
  assert (Hasc : forallb is_ascii (concat (header_line <$> hs)) = true).
  { clear Hlines Hnd. induction hs as [|h hs IH]; [done|]. cbn [forallb] in Hok.
    apply andb_true_iff in Hok as [Hh Hok]. rw fmap_cons. cbn [concat]. rw forallb_app (IH Hok) andb_true_r.
    rw (_ : header_line h = header_text h ++ CRLF); [|unfold header_line, header_text; by rw -!app_assoc].
    by rw forallb_app (value_char_ascii _ (header_text_chars h Hh)). }
  exists (join_crlf (status_text status reason :: (header_text <$> hs)) ++ CRLF ++ CRLF ++ body). split.
  - unfold write_head, encode_ascii. rw Hasc. cbn [mbind result_bind].
    rw (_ : py "HTTP/1.1 " ++ int_str status ++ py " " ++ reason ++ CRLF = status_text status reason ++ CRLF);
      [|unfold status_text; by rw -!app_assoc].
    rw forallb_app (value_char_ascii _ Hst). cbn [andb]. rw -write_head_lines.
    change (forallb is_ascii CRLF) with true. cbn [mbind result_bind].
    by rw -(app_assoc (status_text status reason)).
  - unfold read_response. rw cut_head_join //. cbn [mbind option_bind]. rw split_crlf_join //.
    rw parse_headers_text //. by rw right_id_L.
Qed.

(** ** Requests read back *)
Definition word_char (c : Z) : bool := is_ascii c && negb (c =? 32)%Z && negb (c =? 13)%Z.
Definition request_line (method target : pystr) : pystr :=
  method ++ py " " ++ target ++ py " HTTP/1.1".

(** The head of a request, up to and with the empty line. *)
Definition request_head (method target : pystr) (hs : list (pystr * pystr)) : list Z :=
  join_crlf (request_line method target :: (header_text <$> hs)) ++ CRLF ++ CRLF.

Lemma word_chars s : forallb word_char s = true →
  forallb is_ascii s = true ∧ forallb (λ c, negb (c =? 13)%Z) s = true ∧ (32%Z ∉ s).
Proof.
  intros Hs. split_and!; [revert Hs; apply forallb_mono; intros c; unfold word_char, is_ascii; lia..|].
  intros Hin%list_elem_of_In. rw forallb_forall in Hs. apply Hs in Hin. done.
Qed.

Lemma request_line_split m t :
  forallb word_char m = true → forallb word_char t = true →
  split_on 32 (request_line m t) = [m; t; py "HTTP/1.1"].
Proof.
  intros (_ & _ & Hm)%word_chars (_ & _ & Ht)%word_chars. unfold request_line.
  change (py " " ++ t ++ py " HTTP/1.1") with (32%Z :: t ++ (32%Z :: py "HTTP/1.1")).
  rw split_on_word // split_on_word // split_on_last //.
Qed.

Lemma request_line_ok m t :
  forallb word_char m = true → forallb word_char t = true → line_ok (request_line m t) = true.
Proof.
  intros (_ & Hm & _)%word_chars (_ & Ht & _)%word_chars.
  assert (Hl : forallb (λ c, negb (c =? 13)%Z) (request_line m t) = true)
    by (unfold request_line; by rw !forallb_app Hm Ht).
  revert Hl. unfold request_line. by destruct m.
Qed.

Lemma header_lines_ok hs :
  forallb header_ok hs = true → forallb line_ok (header_text <$> hs) = true.
Proof.
  intros Hok. rw forallb_forall. intros l Hl%list_elem_of_In.
  apply list_elem_of_fmap in Hl as (h & -> & Hh). rw forallb_forall in Hok.
  apply header_text_line, Hok. by apply list_elem_of_In.
Qed.

Lemma read_head_request max_bytes max_headers m t hs rest eof :
  forallb word_char m = true → forallb word_char t = true →
  forallb header_ok hs = true → NoDup (lowered hs).*1 →
  (Z.of_nat (length hs) ≤ max_headers)%Z →
  (Z.of_nat (length (request_head m t hs)) ≤ max_bytes)%Z →
  read_head max_bytes max_headers (mkStreamReader (request_head m t hs ++ rest) eof)
    = Ok (mkRequestHead m t (list_to_map (lowered hs)), mkStreamReader rest eof).
Proof.
  intros Hm Ht Hok Hnd Hn Hlen. set (lines := request_line m t :: (header_text <$> hs)).
  assert (Hlines : forallb line_ok lines = true)
    by (cbn [forallb lines]; by rw request_line_ok // header_lines_ok).
  assert (Hlen' : length (join_crlf lines ++ CRLF ++ CRLF) = length (join_crlf lines) + 4)
    by (rw !length_app; done).
  change (request_head m t hs) with (join_crlf lines ++ CRLF ++ CRLF) in *.
  unfold read_head, readuntil_blank. cbn [sr_bytes sr_eof].
  rw -!app_assoc cut_head_join //.
  rw (proj2 (Z.ltb_ge (max_bytes + 4) (Z.of_nat (length (join_crlf lines))))); [|lia].
  cbn [raise_if mbind result_bind]. rw Hlen' in Hlen |- *.
  rw (proj2 (Z.ltb_ge max_bytes _) Hlen) (_ : length (join_crlf lines) + 4 - 4 = length (join_crlf lines)); [|lia].
  rw take_app_length split_crlf_join //.
  rw (proj2 (Z.ltb_ge (max_headers + 1) (Z.of_nat (length lines))));
    [|change (length lines) with (S (length (header_text <$> hs))); rw length_fmap; lia].
  cbn [raise_if mbind result_bind lines]. rw request_line_split //. cbn [raise_if mbind result_bind].
  destruct (word_chars m Hm) as (Ham & _ & _). destruct (word_chars t Ht) as (Hat & _ & _).
  unfold decode_ascii. rw Ham Hat. cbn [mbind result_bind except_as].
  rw parse_headers_text //. by rw right_id_L.
Qed.

(** ** Reading fails closed *)

(** What a reader may raise: a refusal, or the deadline of a stream left open. *)
Definition read_refused (statuses : list Z) (reader : StreamReader) (e : exn) : Prop :=
  (∃ status code, e = RequestError status code ∧ status ∈ statuses ∧
     forallb value_char code = true) ∨
  (e = TimeoutError ∧ sr_eof reader = false).

Lemma parse_headers_returns E lines m :
  E invalid_request → outcome E (λ m', size m' = size m + length lines) (parse_headers m lines).
Proof.
  intros HE. revert m. induction lines as [|line lines IH]; intros m; cbn [parse_headers length].
  { cbn. lia. }
  eapply (outcome_bind _ (λ m', size m' = S (size m))).
  - unfold parse_header. destruct (partition 58 line) as [name [raw|]]; [|exact HE].
    eapply outcome_bind; [by apply outcome_raise_if|]. intros [] _.
    eapply outcome_bind; [by apply outcome_raise_if|]. intros [] Hfresh%bool_decide_eq_false.
    eapply outcome_bind; [by apply outcome_raise_if|]. intros [] _. cbn [outcome].
    apply map_size_insert_None. by apply eq_None_not_Some.
  - intros m' Hm'. specialize (IH m'). destruct (parse_headers m' lines); [|exact IH].
    cbn in *. lia.
Qed.

(** The stream after a head of at most [max_bytes] bytes. *)
Definition head_consumed (max_bytes max_headers : Z) (reader : StreamReader)
    (r : RequestHead * StreamReader) : Prop :=
  (∃ consumed, sr_bytes reader = consumed ++ sr_bytes r.2 ∧
     (Z.of_nat (length consumed) ≤ max_bytes)%Z) ∧
  sr_eof r.2 = sr_eof reader ∧ (Z.of_nat (size (rh_headers r.1)) ≤ max_headers)%Z.

Lemma read_head_returns statuses max_bytes max_headers reader :
  400%Z ∈ statuses → 431%Z ∈ statuses →
  outcome (read_refused statuses reader) (head_consumed max_bytes max_headers reader)
    (read_head max_bytes max_headers reader).
Proof.
  intros H400 H431.
  assert (Hinv : read_refused statuses reader invalid_request) by (left; by eexists _, _).
  unfold read_head.
  eapply (outcome_bind _ (λ r, sr_bytes reader = r.1 ++ sr_bytes r.2 ∧ sr_eof r.2 = sr_eof reader)).
  { unfold readuntil_blank. destruct (cut_head (sr_bytes reader)) as [[head rest]|] eqn:Hc.
    - eapply outcome_bind; [by apply outcome_raise_if|]. intros [] _. cbn. split; [|done].
      apply cut_head_split in Hc. rw Hc. by rw -!app_assoc.
    - destruct (sr_eof reader) eqn:Heof; [exact Hinv|]. cbn [orb]. case_match; [exact Hinv|]. by right. }
  intros [encoded reader'] [Hb He]. cbn [fst snd] in *.
  eapply outcome_bind; [apply outcome_raise_if; left; by eexists _, _|]. intros [] Hlen%Z.ltb_ge.
  eapply outcome_bind; [by apply outcome_raise_if|]. intros [] Hn%Z.ltb_ge.
  destruct (split_crlf _) as [|line lines]; [exact Hinv|].
  destruct (split_on 32 line) as [|m [|t [|v [|]]]]; try exact Hinv.
  eapply outcome_bind; [by apply outcome_raise_if|]. intros [] _.
  eapply (outcome_bind _ (λ _, True)).
  { unfold decode_ascii. destruct (forallb is_ascii m); [|exact Hinv]. cbn [mbind result_bind].
    by destruct (forallb is_ascii t). }
  intros [method target] _.
  pose proof (parse_headers_returns _ lines ∅ Hinv) as Hp.
  destruct (parse_headers ∅ lines) as [headers|e]; [|exact Hp]. cbn in Hp |- *. split; [by exists encoded|].
  split; [done|]. cbn. rw map_size_empty in Hp. cbn [length] in Hn. lia.
Qed.

Lemma check_host_returns statuses authority port headers reader :
  421%Z ∈ statuses →
  outcome (read_refused statuses reader) (λ _, headers !! py "host" = Some (expected_host authority port))
    (check_host authority port headers).
Proof.
  intros H421. unfold check_host. destruct (bool_decide _) eqn:Hb; cbn.
  - by apply bool_decide_eq_true in Hb.
  - left. by eexists _, _.
Qed.

(** ** Dictionaries of output headers *)
Lemma list_to_map_dict_set key value d :
  (list_to_map (dict_set key value d) : gmap pystr pystr) = <[key := value]> (list_to_map d).
Proof.
  induction d as [|[k v] d IH]; [done|]. cbn [dict_set]. case_bool_decide as Hk.
  - subst k. rw !list_to_map_cons. by rw insert_insert_eq.
  - rw !list_to_map_cons IH. by rw insert_insert_ne.
Qed.

Lemma dict_set_keys key value d k : k ∈ (dict_set key value d).*1 → k = key ∨ k ∈ d.*1.
Proof.
  induction d as [|[k' v] d IH]; cbn [dict_set]; [set_solver|].
  case_bool_decide; rw !fmap_cons !elem_of_cons; [by right|]. naive_solver.
Qed.

Lemma dict_set_NoDup key value d : NoDup d.*1 → NoDup (dict_set key value d).*1.
Proof.
  induction d as [|[k v] d IH]; cbn [dict_set]; [by constructor; [set_solver|constructor]|].
  rw fmap_cons. intros [Hk Hd]%NoDup_cons. case_bool_decide as Hkey.
  - rw fmap_cons. by apply NoDup_cons.
  - rw fmap_cons. apply NoDup_cons. split; [|by apply IH].
    intros [?|?]%dict_set_keys; [by apply Hkey|done].
Qed.

Lemma dict_set_Forall (P : pystr * pystr → Prop) key value d :
  P (key, value) → Forall P d → Forall P (dict_set key value d).
Proof.
  intros Hp. induction 1 as [|[k v] d Hkv Hd IH]; cbn [dict_set]; [by constructor|].
  case_bool_decide as Hk; constructor; try done. by subst k.
Qed.

(** Output headers a listener may write: lower-case names, each once, valid values. *)
Record headers_ok (hs : list (pystr * pystr)) : Prop := {
  ho_valid : Forall (λ h, header_ok h = true ∧ ascii_lower h.1 = h.1) hs;
  ho_NoDup : NoDup hs.*1;
}.

Lemma headers_ok_set hs key value :
  headers_ok hs → header_ok (key, value) = true → ascii_lower key = key →
  headers_ok (dict_set key value hs).
Proof.
  intros [Hv Hnd] Hok Hl. split; [|by apply dict_set_NoDup]. by apply dict_set_Forall.
Qed.

Lemma lowered_id hs : headers_ok hs → lowered hs = hs.
Proof.
  intros [Hv _]. unfold lowered. induction Hv as [|[k v] hs [_ Hl] Hv IH]; [done|].
  rw fmap_cons IH. cbn in *. by rw Hl.
Qed.

(** Writing a response with such headers succeeds, and a client reads it back. *)
Lemma read_response_headers status reason hs body :
  forallb value_char reason = true → headers_ok hs →
  ∃ bytes, write_head status reason hs body = Ok bytes ∧
    read_response bytes = Some (status_text status reason, list_to_map hs, body).
Proof.
  intros Hr Hok. pose proof (lowered_id hs Hok) as Hl. destruct Hok as [Hv Hnd].
  rw -{2}Hl. apply read_response_write; [done| |by rw Hl].
  apply forallb_forall. intros h Hh%list_elem_of_In. rw Forall_forall in Hv. by apply Hv.
Qed.
