(* ===== verification/Net.v ===== *)
(** * Addresses and authorities

[ipaddress.ip_address] with the predicates the configurations use, and the DNS
authority pattern they share. *)
From stdpp Require Import prelude strings gmap sorting pretty ssreflect.
From S2P Require Import Prelude Json Text JsonLoads Http.

Set Warnings "-clear-no-such-hyp".

Inductive ip_addr :=
| IPv4 (n : Z)
| IPv6 (n : Z) (scope : option pystr).

#[export] Instance ip_addr_eq_dec : EqDecision ip_addr.
Proof. solve_decision. Defined.

(** ** Parsing *)

(** [_parse_octet]. *)
Definition parse_octet (s : pystr) : option Z :=
  if match s with [] => true | _ => false end || negb (forallb is_digit s) || (3 <? str_len s)%Z
     || (negb (bool_decide (s = [48%Z])) && bool_decide (head s = Some 48%Z))
     || (255 <? digits_value s)%Z
  then None else Some (digits_value s).

Definition parse_ipv4 (s : pystr) : option Z :=
  match split_on 46 s with
  | [a; b; c; d] =>
    a ← parse_octet a; b ← parse_octet b; c ← parse_octet c; d ← parse_octet d;
    Some (((a * 256 + b) * 256 + c) * 256 + d)%Z
  | _ => None
  end.

Definition hex_value (c : Z) : option Z :=
  if is_digit c then Some (c - 48)%Z
  else if ((97 <=? c) && (c <=? 102))%Z then Some (c - 87)%Z
  else if ((65 <=? c) && (c <=? 70))%Z then Some (c - 55)%Z
  else None.

(** [_parse_hextet]; [int("", 16)] raises. *)
Definition parse_hextet (s : pystr) : option Z :=
  if match s with [] => true | _ => false end || (4 <? str_len s)%Z then None
  else fold_left (λ acc c, a ← acc; v ← hex_value c; Some (a * 16 + v)%Z) s (Some 0%Z).

(** The hextets of consecutive parts, most significant first. *)
Fixpoint parse_hextets (acc : Z) (parts : list pystr) : option Z :=
  match parts with
  | [] => Some acc
  | p :: r => v ← parse_hextet p; parse_hextets (acc * 65536 + v)%Z r
  end.

(** [for i in range(1, len(parts) - 1)]: the one empty inner part, or an error. *)
Fixpoint find_skip (i : nat) (inner : list pystr) (found : option nat) : option (option nat) :=
  match inner with
  | [] => Some found
  | p :: r =>
    if str_empty p then match found with Some _ => None | None => find_skip (S i) r (Some i) end
    else find_skip (S i) r found
  end.

(** ['%x' % n] for a hextet. *)
Definition hextet_str (n : Z) : pystr :=
  if (n <? 16)%Z then hexn 1 n else if (n <? 256)%Z then hexn 2 n
  else if (n <? 4096)%Z then hexn 3 n else hexn 4 n.

Definition parse_ipv6_int (s : pystr) : option Z :=
  let parts := split_on 58 s in
  if length parts <? 3 then None else
  parts ← match last parts with
          | Some l =>
            if bool_decide (46%Z ∈ l) then
              v4 ← parse_ipv4 l;
              Some (take (length parts - 1) parts
                    ++ [hextet_str (v4 / 65536 mod 65536); hextet_str (v4 mod 65536)])
            else Some parts
          | None => Some parts
          end;
  if 9 <? length parts then None else
  skip ← find_skip 1 (take (length parts - 2) (drop 1 parts)) None;
  let first_empty := match head parts with Some p => str_empty p | None => true end in
  let last_empty := match last parts with Some p => str_empty p | None => true end in
  match skip with
  | Some i =>
    let hi := if first_empty then i - 1 else i in
    let lo := if last_empty then length parts - i - 2 else length parts - i - 1 in
    if (first_empty && negb (hi =? 0)) || (last_empty && negb (lo =? 0)) || (8 <=? hi + lo) then None
    else
      high ← parse_hextets 0 (take hi parts);
      parse_hextets (high * 65536 ^ Z.of_nat (8 - (hi + lo)))%Z (drop (length parts - lo) parts)
  | None =>
    if negb (length parts =? 8) || first_empty || last_empty then None
    else parse_hextets 0 parts
  end.

(** [IPv6Address(s)], with its scope. *)
Definition parse_ipv6 (s : pystr) : option ip_addr :=
  match partition 37 s with
  | (addr, None) => n ← parse_ipv6_int addr; Some (IPv6 n None)
  | (addr, Some scope) =>
    if str_empty scope || bool_decide (37%Z ∈ scope) then None
    else n ← parse_ipv6_int addr; Some (IPv6 n (Some scope))
  end.

(** [ipaddress.ip_address(s)]; [None] when it raises [ValueError]. *)
Definition ip_address (s : pystr) : option ip_addr :=
  if bool_decide (47%Z ∈ s) then None
  else match parse_ipv4 s with Some n => Some (IPv4 n) | None => parse_ipv6 s end.

(** ** Printing *)
Definition ipv4_str (n : Z) : pystr :=
  int_str (n / 16777216) ++ py "." ++ int_str (n / 65536 mod 256) ++ py "."
  ++ int_str (n / 256 mod 256) ++ py "." ++ int_str (n mod 256).

Definition hextets_of (n : Z) : list Z := (λ i, n / 65536 ^ i mod 65536)%Z <$> [7; 6; 5; 4; 3; 2; 1; 0]%Z.

(** The first longest run of zeros, as start and length: [_compress_hextets]. *)
Fixpoint longest_zeros (i : nat) (hextets : list Z) (start len best_start best_len : nat) : nat * nat :=
  match hextets with
  | [] => (best_start, best_len)
  | h :: r =>
    if (h =? 0)%Z then
      let start := if len =? 0 then i else start in
      let len := S len in
      if best_len <? len then longest_zeros (S i) r start len start len
      else longest_zeros (S i) r start len best_start best_len
    else longest_zeros (S i) r 0 0 best_start best_len
  end.

Fixpoint join_with (sep : pystr) (parts : list pystr) : pystr :=
  match parts with
  | [] => []
  | p :: r => match r with [] => p | _ => p ++ sep ++ join_with sep r end
  end.

Definition ipv6_str (n : Z) : pystr :=
  let hextets := hextets_of n in
  let '(start, len) := longest_zeros 0 hextets 0 0 0 0 in
  let texts := hextet_str <$> hextets in
  join_with (py ":")
    (if len <? 2 then texts
     else (if start =? 0 then [ [] ] else []) ++ take start texts ++ [ [] ] ++ drop (start + len) texts
          ++ (if start + len =? 8 then [ [] ] else [])).

(** [str(address)]. *)
Definition ip_str (a : ip_addr) : pystr :=
  match a with
  | IPv4 n => ipv4_str n
  | IPv6 n None => ipv6_str n
  | IPv6 n (Some scope) => ipv6_str n ++ py "%" ++ scope
  end.

(** ** Networks *)

(** A network: its version, first address and number of host bits. *)
Record ip_network := mkNetwork { nw_v6 : bool; nw_first : Z; nw_bits : Z }.

(** [address in network]. *)
Definition in_network (a : ip_addr) (w : ip_network) : bool :=
  match a, nw_v6 w with
  | IPv4 n, false | IPv6 n _, true => (n / 2 ^ nw_bits w =? nw_first w / 2 ^ nw_bits w)%Z
  | _, _ => false
  end.

Definition v4net (a b c d prefix : Z) : ip_network :=
  mkNetwork false (((a * 256 + b) * 256 + c) * 256 + d) (32 - prefix).
Definition v6net (first prefix : Z) : ip_network := mkNetwork true first (128 - prefix).

Definition is_unspecified (a : ip_addr) : bool :=
  match a with IPv4 n => (n =? 0)%Z | IPv6 n _ => (n =? 0)%Z end.
Definition is_loopback (a : ip_addr) : bool :=
  match a with IPv4 _ => in_network a (v4net 127 0 0 0 8) | IPv6 n _ => (n =? 1)%Z end.
Definition is_multicast (a : ip_addr) : bool :=
  in_network a (v4net 224 0 0 0 4) || in_network a (v6net (0xff00 * 2 ^ 112) 8).

(** The tables of [is_private]. *)
Definition private_v4 : list ip_network :=
  [v4net 0 0 0 0 8; v4net 10 0 0 0 8; v4net 127 0 0 0 8; v4net 169 254 0 0 16; v4net 172 16 0 0 12;
   v4net 192 0 0 0 24; v4net 192 0 0 170 31; v4net 192 0 2 0 24; v4net 192 168 0 0 16;
   v4net 198 18 0 0 15; v4net 198 51 100 0 24; v4net 203 0 113 0 24; v4net 240 0 0 0 4;
   v4net 255 255 255 255 32].
Definition private_v4_exceptions : list ip_network := [v4net 192 0 0 9 32; v4net 192 0 0 10 32].
Definition private_v6 : list ip_network :=
  [v6net 1 128; v6net 0 128; v6net (0xffff * 2 ^ 32) 96; v6net (0x64ff9b0001 * 2 ^ 80) 48;
   v6net (0x100 * 2 ^ 112) 64; v6net (0x2001 * 2 ^ 112) 23; v6net (0x20010db8 * 2 ^ 96) 32;
   v6net (0x2002 * 2 ^ 112) 16; v6net (0xfc00 * 2 ^ 112) 7; v6net (0xfe80 * 2 ^ 112) 10].
Definition private_v6_exceptions : list ip_network :=
  [v6net (0x20010001 * 2 ^ 96 + 1) 128; v6net (0x20010001 * 2 ^ 96 + 2) 128;
   v6net (0x20010003 * 2 ^ 96) 32; v6net (0x200100040112 * 2 ^ 80) 48;
   v6net (0x20010020 * 2 ^ 96) 28; v6net (0x20010030 * 2 ^ 96) 28].

Definition private_in (a : ip_addr) (nets exceptions : list ip_network) : bool :=
  existsb (in_network a) nets && negb (existsb (in_network a) exceptions).

(** [address.is_private]. *)
Definition is_private (a : ip_addr) : bool :=
  match a with
  | IPv4 _ => private_in a private_v4 private_v4_exceptions
  | IPv6 n _ =>
    if (n / 2 ^ 32 =? 0xffff)%Z
    then private_in (IPv4 (n mod 2 ^ 32)) private_v4 private_v4_exceptions
    else private_in a private_v6 private_v6_exceptions
  end.
