(* ===== verification/UrlText.v ===== *)
(** * Text of the standard library used to read a connection URL

[str.strip], [int(text)], [bytes.decode("utf-8", "replace")] and
[urllib.parse.parse_qsl]. *)
From stdpp Require Import prelude strings gmap sorting pretty ssreflect.
From S2P Require Import Prelude Json Text JsonLoads Domain AgentApi Http.

Set Warnings "-clear-no-such-hyp".

(** ** Spaces and digits of Unicode *)
Definition is_unicode_space (c : Z) : bool :=
  ((9 <=? c) && (c <=? 13) || (28 <=? c) && (c <=? 32) || (c =? 133) || (c =? 160) || (c =? 5760)
   || (8192 <=? c) && (c <=? 8202) || (c =? 8232) || (c =? 8233) || (c =? 8239) || (c =? 8287)
   || (c =? 12288))%Z.

(** The zeros of the decimal digits outside ASCII. *)
Definition unicode_zeros : list Z :=
  [1632; 1776; 1984; 2406; 2534; 2662; 2790; 2918; 3046; 3174; 3302; 3430; 3558; 3664; 3792; 3872; 4160;
   4240; 6112; 6160; 6470; 6608; 6784; 6800; 6992; 7088; 7232; 7248; 42528; 43216; 43264; 43472; 43504;
   43600; 44016; 65296; 66720; 68912; 69734; 69872; 69942; 70096; 70384; 70736; 70864; 71248; 71360;
   71472; 71904; 72016; 72784; 73040; 73120; 92768; 92864; 93008; 120782; 120792; 120802; 120812;
   120822; 123200; 123632; 125264; 130032]%Z.
Definition unicode_decimal (c : Z) : option Z :=
  match find (λ z, (z <=? c) && (c <=? z + 9))%Z unicode_zeros with Some z => Some (c - z)%Z | None => None end.

Section stripping.
Context (space : Z → bool).
Fixpoint lstrip_by (s : pystr) : pystr :=
  match s with [] => [] | c :: r => if space c then lstrip_by r else s end.
Definition strip_by (s : pystr) : pystr := reverse (lstrip_by (reverse (lstrip_by s))).
End stripping.

(** [s.strip()]. *)
Definition py_strip : pystr → pystr := strip_by is_unicode_space.

(** ** [int(text)]; [None] for [ValueError] *)
Definition is_c_space (c : Z) : bool := ((9 <=? c) && (c <=? 13) || (c =? 32))%Z.

(** Digits and spaces outside ASCII are replaced by their ASCII counterparts. *)
Definition to_ascii_digit (c : Z) : Z :=
  if (c <? 127)%Z then c
  else if is_unicode_space c then 32%Z
  else match unicode_decimal c with Some d => (48 + d)%Z | None => 63%Z end.

(** Digits, single underscores between them. *)
Fixpoint grouped_digits (s : pystr) (after_digit : bool) : option pystr :=
  match s with
  | [] => if after_digit then Some [] else None
  | c :: r =>
    if is_digit c then cons c <$> grouped_digits r true
    else if (c =? 95)%Z && after_digit then grouped_digits r false else None
  end.

Definition py_int (text : pystr) : option Z :=
  let s := strip_by is_c_space (if forallb is_ascii text then text else to_ascii_digit <$> text) in
  let '(sign, r) := match s with
    | c :: r => if (c =? 45)%Z then ((-1)%Z, r) else if (c =? 43)%Z then (1%Z, r) else (1%Z, s)
    | [] => (1%Z, s)
    end in
  digits ← grouped_digits r false;
  if (4300 <? str_len digits)%Z then None else Some (sign * digits_value digits)%Z.

(** ** [raw.decode("utf-8", errors="replace")]

Each maximal invalid prefix of a sequence becomes one U+FFFD. *)
Definition is_cont (b : Z) : bool := ((128 <=? b) && (b <? 192))%Z.

(** The second byte a lead byte allows. *)
Definition second_ok (lead b : Z) : bool :=
  if (lead =? 224)%Z then ((160 <=? b) && (b <? 192))%Z
  else if (lead =? 237)%Z then ((128 <=? b) && (b <? 160))%Z
  else if (lead =? 240)%Z then ((144 <=? b) && (b <? 192))%Z
  else if (lead =? 244)%Z then ((128 <=? b) && (b <? 144))%Z
  else is_cont b.

Fixpoint utf8_replace (raw : list Z) : pystr :=
  match raw with
  | [] => []
  | b :: r1 =>
    if (b <? 128)%Z then b :: utf8_replace r1
    else if ((b <? 194) || (244 <? b))%Z then 65533%Z :: utf8_replace r1
    else
      match r1 with
      | [] => [65533%Z]
      | c1 :: r2 =>
        if negb (second_ok b c1) then 65533%Z :: utf8_replace r1
        else if (b <? 224)%Z then ((b - 192) * 64 + (c1 - 128))%Z :: utf8_replace r2
        else
          match r2 with
          | [] => [65533%Z]
          | c2 :: r3 =>
            if negb (is_cont c2) then 65533%Z :: utf8_replace r2
            else if (b <? 240)%Z then
              ((b - 224) * 4096 + (c1 - 128) * 64 + (c2 - 128))%Z :: utf8_replace r3
            else
              match r3 with
              | [] => [65533%Z]
              | c3 :: r4 =>
                if negb (is_cont c3) then 65533%Z :: utf8_replace r3
                else ((b - 240) * 262144 + (c1 - 128) * 4096 + (c2 - 128) * 64 + (c3 - 128))%Z
                     :: utf8_replace r4
              end
          end
      end
  end.

(** ** [urllib.parse] *)

(** [unquote(s)]: the escapes of each run of ASCII characters are bytes, decoded together. *)
Fixpoint unquote_from (run : list Z) (s : pystr) : pystr :=
  match s with
  | [] => utf8_replace (reverse run)
  | c :: r =>
    if negb (is_ascii c) then utf8_replace (reverse run) ++ c :: unquote_from [] r
    else if (c =? 37)%Z then
      match r with
      | a :: b :: r' =>
        match hex_value a, hex_value b with
        | Some x, Some y => unquote_from ((x * 16 + y)%Z :: run) r'
        | _, _ => unquote_from (37%Z :: run) r
        end
      | _ => unquote_from (37%Z :: run) r
      end
    else unquote_from (c :: run) r
  end.
Definition unquote : pystr → pystr := unquote_from [].

Definition plus_to_space (s : pystr) : pystr := (λ c, if (c =? 43)%Z then 32%Z else c) <$> s.

(** The names and values of [parse_qsl(qs, keep_blank_values=True, strict_parsing=True)];
[None] for [ValueError]. *)
Fixpoint parse_fields (fields : list pystr) : option (list (pystr * pystr)) :=
  match fields with
  | [] => Some []
  | f :: rest =>
    match partition 61 f with
    | (name, Some value) =>
      r ← parse_fields rest;
      Some ((unquote (plus_to_space name), unquote (plus_to_space value)) :: r)
    | (_, None) => None
    end
  end.
Definition parse_qsl (qs : pystr) : option (list (pystr * pystr)) :=
  match qs with [] => Some [] | _ => parse_fields (split_on 38 qs) end.
