(* ===== verification/Configuration.v ===== *)
(** * Listener and client configurations

The [__post_init__] checks of [AgentListenerConfiguration] ([listener.py]),
[EnrollmentListenerConfiguration], [OperatorListenerConfiguration],
[IssuerClientConfiguration] and [OperatorVerifierConfiguration]. A timeout is a
finite number or one that compares with nothing as the ranges need ([nan], the
infinities); a path is its text. *)
From stdpp Require Import prelude strings gmap sorting pretty ssreflect.
From Stdlib Require Import QArith.
From S2P Require Import Prelude Json Text JsonLoads JsonProofs Domain AgentApi Http Net.

Set Warnings "-clear-no-such-hyp".
Local Close Scope Q_scope.

Inductive pynumber := Finite (q : Q) | NotFinite.

(** [lo <= x <= hi]. *)
Definition number_between (lo hi : Z) (x : pynumber) : bool :=
  match x with
  | Finite q => Qle_bool (inject_Z lo) q && Qle_bool q (inject_Z hi)
  | NotFinite => false
  end.

(** [Path(text).is_absolute()]. *)
Definition is_absolute (path : pystr) : bool := bool_decide (head path = Some 47%Z).

(** The networks the listeners and clients allow. *)
Definition allowed_networks : list ip_network :=
  [v4net 10 0 0 0 8; v4net 172 16 0 0 12; v4net 192 168 0 0 16; v4net 127 0 0 0 8;
   v6net (0xfc00 * 2 ^ 112) 7; v6net 1 128].
Definition allowed_address (a : ip_addr) : bool := existsb (in_network a) allowed_networks.

(** ** DNS authorities: [_DNS_AUTHORITY] *)
Definition is_lower_alnum (c : Z) : bool := (is_digit c || ((97 <=? c) && (c <=? 122)))%Z.
Definition is_dash (c : Z) : bool := (c =? 45)%Z.

(** [[a-z0-9](?:[a-z0-9-]{0,61}[a-z0-9])?]. *)
Definition dns_label (l : pystr) : bool :=
  match l with
  | [] => false
  | c :: r =>
    is_lower_alnum c &&
    match last r with
    | None => true
    | Some d =>
      is_lower_alnum d && forallb (λ x, is_lower_alnum x || is_dash x) r && (str_len r <=? 62)%Z
    end
  end.

Definition dns_authority (s : pystr) : bool :=
  let labels := split_on 46 s in
  (1 <=? str_len s)%Z && (str_len s <=? 253)%Z && (2 <=? length labels)%nat && forallb dns_label labels.

(** ** The listeners that terminate server-authenticated TLS *)
Record TLSListenerConfiguration := mkTLSListenerConfiguration {
  tc_bind_address : pystr;
  tc_port : Z;
  tc_authority : pystr;
  tc_server_certificate : pystr;
  tc_server_private_key : pystr;
  tc_request_timeout_seconds : pynumber;
}.

(** The checks both make, under their names for the listener. *)
Definition listener_checks (name : string) (c : TLSListenerConfiguration) : result unit :=
  let err (m : string) := ValidationError (py name ++ py m) in
  address ← match ip_address (tc_bind_address c) with
            | Some a => Ok a
            | None => Raise (err " bind address must be an IP literal")
            end;
  raise_if (negb (allowed_address address)) (err " bind address is outside allowed networks");;
  raise_if (negb ((0 <=? tc_port c) && (tc_port c <=? 65535)))%Z
    (err " port is outside the supported range");;
  raise_if ((tc_port c =? 0)%Z && negb (is_loopback address))
    (ValidationError (py "ephemeral " ++ py name ++ py " ports are test-only"));;
  raise_if (negb (dns_authority (tc_authority c))) (err " authority is invalid");;
  raise_if (negb (number_between 1 30 (tc_request_timeout_seconds c)))
    (err " timeout is outside the supported range");;
  raise_if (negb (is_absolute (tc_server_certificate c)) || negb (is_absolute (tc_server_private_key c)))
    (err " TLS paths must be absolute").

Definition EnrollmentListenerConfiguration_post_init : TLSListenerConfiguration → result unit :=
  listener_checks "enrollment".
Definition OperatorListenerConfiguration_post_init : TLSListenerConfiguration → result unit :=
  listener_checks "operator".

(** ** The mTLS clients *)
Record ClientConfiguration := mkClientConfiguration {
  cc_connect_address : pystr;
  cc_port : Z;
  cc_authority : pystr;
  cc_ca_certificate : pystr;
  cc_client_certificate : pystr;
  cc_client_private_key : pystr;
  cc_timeout_seconds : pynumber;
}.

Definition client_checks (name : string) (maximum : Z) (c : ClientConfiguration) : result unit :=
  let err (m : string) := ValidationError (py name ++ py m) in
  address ← match ip_address (cc_connect_address c) with
            | Some a => Ok a
            | None => Raise (err " address must be an IP literal")
            end;
  raise_if (negb (allowed_address address)) (err " address is outside allowed private networks");;
  raise_if (negb ((1 <=? cc_port c) && (cc_port c <=? 65535)))%Z
    (err " port is outside the supported range");;
  raise_if (negb (dns_authority (cc_authority c))) (err " TLS authority is invalid");;
  raise_if (negb (number_between 1 maximum (cc_timeout_seconds c)))
    (err " timeout is outside the supported range");;
  raise_if (negb (forallb is_absolute
      [cc_ca_certificate c; cc_client_certificate c; cc_client_private_key c]))
    (err " TLS paths must be absolute").

Definition IssuerClientConfiguration_post_init : ClientConfiguration → result unit :=
  client_checks "issuer" 30.
Definition OperatorVerifierConfiguration_post_init : ClientConfiguration → result unit :=
  client_checks "operator verifier" 15.

(** [http_authority(authority, port)]. *)
Definition http_authority (authority : pystr) (port : Z) : pystr :=
  if (port =? 443)%Z then authority else authority ++ py ":" ++ int_str port.

(** ** The agent listener *)

(** [str.isspace] of an ASCII character. *)
Definition is_space (c : Z) : bool := ((9 <=? c) && (c <=? 13) || (28 <=? c) && (c <=? 32))%Z.

(** The host and port of [urlsplit("//" + authority)] for an ASCII authority
without the characters [/?#@] and without spaces; [None] for [ValueError]. The
host of a bracketed address is an IPv6 literal, or of the form [v<hex>.<rest>]. *)
Definition future_address (h : pystr) : bool :=
  match h with
  | c :: r =>
    (c =? 118)%Z &&
    match partition 46 r with
    | (hex, Some rest) => negb (str_empty hex) && forallb (λ x, bool_decide (is_Some (hex_value x))) hex
                          && negb (str_empty rest)
    | (_, None) => false
    end
  | [] => false
  end.

Definition bracketed_host_ok (h : pystr) : bool :=
  if bool_decide (head h = Some 118%Z) then future_address h
  else match ip_address h with Some (IPv6 _ _) => true | _ => false end.

Definition split_port (raw : option pystr) : option (option Z) :=
  match raw with
  | None | Some [] => Some None
  | Some p =>
    if forallb is_digit p && (digits_value p <=? 65535)%Z then Some (Some (digits_value p)) else None
  end.

Definition urlsplit_authority (authority : pystr) : option (pystr * option Z) :=
  match partition 91 authority with
  | (before, Some bracketed) =>
    match partition 93 bracketed with
    | (_, None) => None
    | (hostname, Some after) =>
      if negb (str_empty before) || negb (str_empty after || bool_decide (head after = Some 58%Z))
         || negb (bracketed_host_ok hostname) then None
      else port ← split_port (partition 58 after).2; Some (hostname, port)
    end
  | (_, None) =>
    if bool_decide (93%Z ∈ authority) then None
    else let '(hostname, port) := partition 58 authority in
         port ← split_port port; Some (hostname, port)
  end.

Definition _looks_like_legacy_ipv4 (hostname : pystr) : bool :=
  forallb (λ component,
    negb (str_empty component) &&
    match component with
    | 48%Z :: x :: c :: r =>
      if bool_decide (ascii_lower [x] = py "x")
      then forallb (λ d, bool_decide (is_Some (hex_value d))) (c :: r)
      else forallb is_digit component
    | _ => forallb is_digit component
    end) (split_on 46 hostname).

Definition is_alnum (c : Z) : bool := is_lower_alnum c || ((65 <=? c) && (c <=? 90))%Z.

(** A label of the listener's host name. *)
Definition host_label (label : pystr) : bool :=
  negb (str_empty label) && (str_len label <=? 63)%Z
  && negb (bool_decide (head label = Some 45%Z)) && negb (bool_decide (last label = Some 45%Z))
  && forallb (λ c, is_alnum c || is_dash c) label.

Definition _validate_authority (authority : pystr) : result unit :=
  let invalid := verr "listener authority is invalid" in
  raise_if (str_empty authority || negb (forallb is_ascii authority)
            || negb (bool_decide (ascii_lower authority = authority))
            || existsb (λ c, is_space c || bool_decide (c ∈ [47; 63; 35; 64]%Z)) authority) invalid;;
  match urlsplit_authority authority with
  | None => Raise invalid
  | Some (hostname, port) =>
    raise_if (str_empty hostname) invalid;;
    raise_if (bool_decide (last authority = Some 58%Z) && bool_decide (port = None)) invalid;;
    raise_if (match port with Some p => negb ((1 <=? p) && (p <=? 65535))%Z | None => false end) invalid;;
    match ip_address hostname with
    | Some _ => Ok tt
    | None =>
      raise_if (_looks_like_legacy_ipv4 hostname) invalid;;
      raise_if ((253 <? str_len hostname)%Z || bool_decide (last hostname = Some 46%Z)) invalid;;
      raise_if (negb (forallb host_label (split_on 46 hostname))) invalid
    end
  end.

Record AgentListenerConfiguration := mkAgentListenerConfiguration {
  ac_bind_address : pystr;
  ac_port : Z;
  ac_authority : pystr;
  ac_server_certificate : pystr;
  ac_server_private_key : pystr;
  ac_endpoint_ca_certificate : pystr;
  ac_request_timeout_seconds : pynumber;
}.

Definition AgentListenerConfiguration_post_init (c : AgentListenerConfiguration) : result unit :=
  address ← match ip_address (ac_bind_address c) with
            | Some a => Ok a
            | None => Raise (verr "listener bind address must be an IP literal")
            end;
  raise_if (is_unspecified address || is_multicast address)
    (verr "listener bind address cannot be wildcard or multicast");;
  raise_if (negb (is_private address)) (verr "listener bind address must be private");;
  raise_if (negb ((0 <=? ac_port c) && (ac_port c <=? 65535)))%Z
    (verr "listener port is outside the supported range");;
  raise_if ((ac_port c =? 0)%Z && negb (is_loopback address))
    (verr "ephemeral listener ports are test-only");;
  _validate_authority (ac_authority c);;
  raise_if (negb (number_between 1 30 (ac_request_timeout_seconds c)))
    (verr "listener request timeout is outside the supported range").

(** ** What an accepted configuration is *)

(** RFC 1918, IPv4 loopback, IPv6 unique local or loopback, as ranges. *)
Definition private_range (a : ip_addr) : Prop :=
  match a with
  | IPv4 n =>
    (10 * 2 ^ 24 ≤ n < 11 * 2 ^ 24)%Z ∨ (172 * 2 ^ 24 + 16 * 2 ^ 16 ≤ n < 172 * 2 ^ 24 + 32 * 2 ^ 16)%Z ∨
    (192 * 2 ^ 24 + 168 * 2 ^ 16 ≤ n < 192 * 2 ^ 24 + 169 * 2 ^ 16)%Z ∨ (127 * 2 ^ 24 ≤ n < 128 * 2 ^ 24)%Z
  | IPv6 n _ => (0xfc * 2 ^ 120 ≤ n < 0xfe * 2 ^ 120)%Z ∨ n = 1%Z
  end.
Definition loopback_range (a : ip_addr) : Prop :=
  match a with IPv4 n => (127 * 2 ^ 24 ≤ n < 128 * 2 ^ 24)%Z | IPv6 n _ => n = 1%Z end.

Lemma network_range n first bits :
  (0 ≤ bits)%Z → (first mod 2 ^ bits = 0)%Z →
  (n / 2 ^ bits =? first / 2 ^ bits)%Z = true ↔ (first ≤ n < first + 2 ^ bits)%Z.
Proof.
  intros Hb Hm. rw Z.eqb_eq. assert (Hp : (0 < 2 ^ bits)%Z) by by apply Z.pow_pos_nonneg.
  pose proof (Z.div_mod n (2 ^ bits) ltac:(lia)). pose proof (Z.mod_pos_bound n (2 ^ bits) Hp).
  pose proof (Z.div_mod first (2 ^ bits) ltac:(lia)). split; [nia|].
  intros [H3 H4]. apply Z.le_antisymm.
  - apply Z.lt_succ_r, Z.div_lt_upper_bound; nia.
  - apply Z.div_le_mono; lia.
Qed.

Lemma allowed_address_range a : allowed_address a = true ↔ private_range a.
Proof.
  unfold allowed_address, allowed_networks, private_range.
  destruct a as [n|n scope]; cbn [existsb in_network nw_v6 nw_first nw_bits v4net v6net];
    rw !orb_true_iff !network_range; try done; naive_solver lia.
Qed.
Lemma is_loopback_range a : is_loopback a = true ↔ loopback_range a.
Proof.
  destruct a as [n|n scope]; unfold is_loopback, loopback_range.
  - unfold in_network, v4net. cbn [nw_v6 nw_first nw_bits]. rw network_range; done || lia.
  - apply Z.eqb_eq.
Qed.

(** A DNS label, and a name of at least two. *)
Definition label_spec (l : pystr) : Prop :=
  (1 ≤ length l ≤ 63) ∧ (∀ c, c ∈ l → is_lower_alnum c = true ∨ c = 45%Z) ∧
  head l ≠ Some 45%Z ∧ last l ≠ Some 45%Z.
Definition dns_name (s : pystr) : Prop :=
  (length s ≤ 253) ∧ ∃ labels, s = join_with (py ".") labels ∧ 2 ≤ length labels ∧ Forall label_spec labels.

Lemma label_char c : is_lower_alnum c || is_dash c = true ↔ is_lower_alnum c = true ∨ c = 45%Z.
Proof. unfold is_dash. rw orb_true_iff. by rw Z.eqb_eq. Qed.

Lemma dns_label_spec l : dns_label l = true ↔ label_spec l.
Proof.
  assert (H45 : is_lower_alnum 45 = false) by done. unfold label_spec.
  destruct l as [|c r]; [split; [done|]; intros [[? _] _]; cbn in *; lia|].
  cbn [dns_label head]. destruct r as [|d r _] using rev_ind.
  - rw andb_true_r. cbn [length last]. split.
    + intros Hc. split_and!; [lia|lia|set_solver|intros [= ->]; congruence..].
    + intros (_ & Hc & Hh & _). destruct (Hc c ltac:(set_solver)) as [?| ->]; [done|congruence].
  - rw last_snoc last_cons last_snoc !andb_true_iff forallb_forall Z.leb_le.
    unfold str_len. cbn [length]. split.
    + intros (Hc & [Hd Hall] & Hl). split_and!; [lia|lia| |intros [= ->]; congruence..].
      intros x [->|Hx]%elem_of_cons; [by left|]. apply label_char, Hall. by apply list_elem_of_In.
    + intros ([_ Hl] & Hall & Hh & Hlast). split_and!; [| | |lia].
      * destruct (Hall c ltac:(set_solver)) as [?| ->]; [done|congruence].
      * destruct (Hall d ltac:(set_solver)) as [?| ->]; [done|congruence].
      * intros x Hx%list_elem_of_In. apply label_char, Hall. by right.
Qed.

Lemma join_split sep s : join_with [sep] (split_on sep s) = s.
Proof.
  induction s as [|c s IH]; [done|]. cbn [split_on].
  assert (Hne : split_on sep s ≠ []).
  { destruct s as [|d s']; [done|]. cbn [split_on]. case_match; [done|]. by destruct (split_on sep s'). }
  destruct (Z.eqb_spec c sep) as [->|].
  - cbn [join_with]. destruct (split_on sep s) as [|x l] eqn:E; [done|]. cbn [app]. by rw IH.
  - destruct (split_on sep s) as [|x l] eqn:E; [done|]. cbn [cons_head join_with] in *.
    destruct l; cbn [app]; by rw IH.
Qed.

Lemma split_join sep labels :
  labels ≠ [] → (∀ l, l ∈ labels → sep ∉ l) → split_on sep (join_with [sep] labels) = labels.
Proof.
  intros Hne Hl. induction labels as [|l labels IH]; [done|]. cbn [join_with].
  destruct labels as [|k labels]; [apply split_on_last, Hl; by left|].
  change ([sep] ++ join_with [sep] (k :: labels)) with (sep :: join_with [sep] (k :: labels)).
  rw split_on_word; [|apply Hl; by left]. f_equal. apply IH; [done|]. intros x Hx. apply Hl. by right.
Qed.

Lemma dns_authority_spec s : dns_authority s = true ↔ dns_name s.
Proof.
  unfold dns_authority, dns_name, str_len. rw !andb_true_iff !Z.leb_le Nat.leb_le. split.
  - intros [[[H1 H2] H3] H4]. split; [lia|]. exists (split_on 46 s).
    split; [symmetry; apply (join_split 46)|]. split; [done|].
    rw forallb_forall in H4. apply Forall_forall. intros l Hl. apply dns_label_spec, H4.
    by apply list_elem_of_In.
  - intros (Hl & labels & -> & H2 & Hall). rw Forall_forall in Hall.
    assert (Hdot : ∀ l, l ∈ labels → 46%Z ∉ l).
    { intros l Hin H46. destruct (Hall l Hin) as (_ & Hc & _). by destruct (Hc 46%Z H46). }
    rw (split_join 46); [|by intros ->; cbn in H2; lia|done].
    split_and!; [|lia|done|].
    + destruct labels as [|l [|k labels]]; cbn in H2; [lia..|]. cbn [join_with].
      rw !length_app. change (length (py ".")) with 1. lia.
    + apply forallb_forall. intros l Hin%list_elem_of_In. by apply dns_label_spec, Hall.
Qed.

(** *** The agent listener's authority *)

(** ASCII without blanks, capitals or the delimiters of a URL. *)
Definition plain_text (s : pystr) : Prop :=
  s ≠ [] ∧ ∀ c, c ∈ s → (0 ≤ c < 128 ∧ ~ 9 ≤ c ≤ 13 ∧ ~ 28 ≤ c ≤ 32 ∧ ~ 65 ≤ c ≤ 90 ∧ c ∉ [47; 63; 35; 64])%Z.

(** A component of the old IPv4 forms: digits, or hexadecimal digits after 0x. *)
Definition legacy_component (p : pystr) : Prop :=
  (p ≠ [] ∧ ∀ c, c ∈ p → (48 ≤ c ≤ 57)%Z) ∨
  ∃ hex, p = py "0x" ++ hex ∧ hex ≠ [] ∧ ∀ c, c ∈ hex → (48 ≤ c ≤ 57 ∨ 97 ≤ c ≤ 102)%Z.

(** A text of components with dots between them. *)
Definition dotted (P : pystr → Prop) (s : pystr) : Prop :=
  ∃ components, s = join_with (py ".") components ∧ components ≠ [] ∧ Forall P components.

(** A DNS name of one or more labels that no resolver reads as an IPv4 address. *)
Definition host_name (h : pystr) : Prop :=
  length h ≤ 253 ∧ dotted label_spec h ∧ ~ dotted legacy_component h.

Definition port_suffix (s : pystr) : Prop :=
  s = [] ∨ ∃ digits, s = py ":" ++ digits ∧ digits ≠ [] ∧ (∀ d, d ∈ digits → (48 ≤ d ≤ 57)%Z) ∧
    (1 ≤ digits_value digits ≤ 65535)%Z.

(** What may stand in brackets: an IPv6 literal, or the form reserved for later address families. *)
Definition bracket_text (h : pystr) : Prop :=
  (head h ≠ Some 118%Z ∧ ∃ n scope, ip_address h = Some (IPv6 n scope)) ∨
  ∃ hex rest, h = py "v" ++ hex ++ py "." ++ rest ∧ hex ≠ [] ∧ rest ≠ [] ∧
    ∀ c, c ∈ hex → (48 ≤ c ≤ 57 ∨ 97 ≤ c ≤ 102 ∨ 65 ≤ c ≤ 70)%Z.

(** [host], [host:port], [[host]] or [[host]:port], where the host is an IP literal or a host name. *)
Definition listener_authority (s : pystr) : Prop :=
  plain_text s ∧ ∃ host suffix, port_suffix suffix ∧ host ≠ [] ∧ (is_Some (ip_address host) ∨ host_name host) ∧
    ((s = host ++ suffix ∧ (∀ c, c ∈ host → c ∉ [58; 91; 93]%Z)) ∨
     (s = py "[" ++ host ++ py "]" ++ suffix ∧ (93%Z ∉ host) ∧ bracket_text host)).

Lemma partition_inv sep s b r :
  partition sep s = (b, r) → (sep ∉ b) ∧ s = b ++ match r with Some a => sep :: a | None => [] end.
Proof.
  revert b r. induction s as [|c s IH]; intros b r; cbn [partition]; [intros [= <- <-]; set_solver|].
  destruct (Z.eqb_spec c sep) as [->|Hc]; [intros [= <- <-]; set_solver|].
  destruct (partition sep s) as [b' r'] eqn:Hp. intros [= <- <-]. destruct (IH b' r' eq_refl) as [Hb ->].
  split; [set_solver|done].
Qed.

Lemma plain_text_check s :
  str_empty s || negb (forallb is_ascii s) || negb (bool_decide (ascii_lower s = s))
  || existsb (λ c, is_space c || bool_decide (c ∈ [47; 63; 35; 64]%Z)) s = false ↔ plain_text s.
Proof.
  assert (Hlow : ascii_lower s = s ↔ ∀ c, c ∈ s → (~ 65 ≤ c ≤ 90)%Z).
  { induction s as [|c s IH]; [set_solver|]. unfold ascii_lower in *. rw fmap_cons.
    setoid_rewrite elem_of_cons. destruct ((65 <=? c) && (c <=? 90))%Z eqn:E.
    - split; [intros [= ?]; lia|]. intros H. exfalso. apply (H c); [by left|lia].
    - split; [intros [= H] c' [->|Hin]; [lia|by apply IH]|]. intros H. f_equal. apply IH. auto. }
  rw !orb_false_iff !negb_false_iff bool_decide_eq_true Hlow forallb_forall -(not_true_iff_false (existsb _ s)) existsb_exists.
  unfold plain_text. assert (He : str_empty s = false ↔ s ≠ []) by by destruct s.
  rw He. setoid_rewrite <-list_elem_of_In. setoid_rewrite orb_true_iff.
  setoid_rewrite bool_decide_eq_true. unfold is_ascii, is_space. split.
  - intros [[[Hne Ha] Hl] Hs]. split; [done|]. intros c Hc. specialize (Ha c Hc). specialize (Hl c Hc).
    split_and!; try lia; [intros ?; apply Hs; exists c; split; [done|left; lia]..|].
    intros Hin. apply Hs. exists c. split; [done|by right].
  - intros [Hne H]. split_and!; [done| | |].
    + intros c Hc. specialize (H c Hc). lia.
    + intros c Hc. by apply H.
    + intros (c & Hc & [Hs|Hd]); destruct (H c Hc) as (_ & H1 & H2 & _ & H3); [lia|done].
Qed.

Lemma join_chars (sep : pystr) ls l c : l ∈ ls → c ∈ l → c ∈ join_with sep ls.
Proof.
  induction ls as [|k ls IH]; [set_solver|]. intros [->|Hl]%elem_of_cons Hc; cbn [join_with].
  - destruct ls; [done|]. set_solver.
  - destruct ls; [set_solver|]. rw !elem_of_app. auto.
Qed.

Lemma dotted_check (f : pystr → bool) (P : pystr → Prop) s :
  (∀ l, (∀ c, c ∈ l → c ∈ s) → f l = true ↔ P l) → (∀ l, P l → 46%Z ∉ l) →
  forallb f (split_on 46 s) = true ↔ dotted P s.
Proof.
  intros Hf Hdot. unfold dotted. pose proof (join_split 46 s) as Hj. rw forallb_forall. split.
  - intros H. exists (split_on 46 s). split; [done|]. split.
    { destruct s as [|c s]; [done|]. cbn [split_on]. case_match; [done|]. by destruct (split_on 46 s). }
    apply Forall_forall. intros l Hl. apply Hf, H; [|by apply list_elem_of_In].
    intros c Hc. rw -Hj. by eapply join_chars.
  - intros (parts & -> & Hne & Hall) l. rw Forall_forall in Hall. change (py ".") with [46%Z] in *.
    rw (split_join 46) //; [|by intros k Hk; apply Hdot, Hall].
    intros Hl%list_elem_of_In. apply Hf; [|by apply Hall]. intros c Hc. by eapply join_chars.
Qed.

Lemma host_label_spec l :
  (∀ c, c ∈ l → (~ 65 ≤ c ≤ 90)%Z) → host_label l = true ↔ label_spec l.
Proof.
  intros Hlow. unfold host_label, label_spec. rw !andb_true_iff !negb_true_iff !bool_decide_eq_false Z.leb_le forallb_forall.
  assert (He : str_empty l = false ↔ 1 ≤ length l) by (destruct l; cbn; split; done || lia). rw He.
  assert (Hc : (∀ x, In x l → is_alnum x || is_dash x = true) ↔ ∀ c, c ∈ l → is_lower_alnum c = true ∨ c = 45%Z).
  { setoid_rewrite <-list_elem_of_In. unfold is_alnum, is_dash. split; intros H c Hin; specialize (H c Hin);
      specialize (Hlow c Hin); destruct (is_lower_alnum c); cbn in *; try (by left); try done; [right; lia|].
    destruct H as [?| ->]; done. }
  rw Hc. unfold str_len. split; [intros ((((? & ?) & ?) & ?) & ?); split_and!; try done; lia|].
  intros ([? ?] & ? & ? & ?). split_and!; try done; lia.
Qed.

Lemma hex_digit_check c : bool_decide (is_Some (hex_value c)) = true ↔ (48 ≤ c ≤ 57 ∨ 97 ≤ c ≤ 102 ∨ 65 ≤ c ≤ 70)%Z.
Proof.
  rw bool_decide_eq_true. unfold hex_value, is_digit.
  repeat case_match; (split; [intros [? ?]; simplify_eq; lia|intros ?; by eauto || lia]).
Qed.
Lemma digits_check p : forallb is_digit p = true ↔ ∀ c, c ∈ p → (48 ≤ c ≤ 57)%Z.
Proof.
  rw forallb_forall. setoid_rewrite <-list_elem_of_In. unfold is_digit.
  split; intros H c Hc; specialize (H c Hc); lia.
Qed.

(** One component, as [_looks_like_legacy_ipv4] reads it. *)
Definition legacy_check (component : pystr) : bool :=
  negb (str_empty component) &&
  match component with
  | 48%Z :: x :: c :: r =>
    if bool_decide (ascii_lower [x] = py "x")
    then forallb (λ d, bool_decide (is_Some (hex_value d))) (c :: r)
    else forallb is_digit component
  | _ => forallb is_digit component
  end.
Lemma legacy_check_digits p : p ≠ [] → (∀ c, c ∈ p → (48 ≤ c ≤ 57)%Z) → legacy_check p = true.
Proof.
  intros Hne Hd%digits_check. unfold legacy_check. assert (str_empty p = false) as -> by by destruct p.
  destruct p as [|a [|x [|c r]]]; try done; [by repeat case_match|by repeat case_match|].
  assert (Hx : ascii_lower [x] ≠ py "x").
  { apply digits_check with (c := x) in Hd; [|set_solver]. unfold ascii_lower. cbn.
    rw (_ : (65 <=? x)%Z = false); [|lia]. intros [= ->]. lia. }
  cbn [negb andb]. rw (bool_decide_eq_false_2 _ Hx). by repeat case_match.
Qed.
Lemma legacy_check_spec p :
  (∀ c, c ∈ p → (~ 65 ≤ c ≤ 90)%Z) → legacy_check p = true ↔ legacy_component p.
Proof.
  intros Hlow. unfold legacy_component. split.
  - unfold legacy_check. rw andb_true_iff negb_true_iff. intros [Hne H].
    assert (Hdig : forallb is_digit p = true → p ≠ [] ∧ ∀ c, c ∈ p → (48 ≤ c ≤ 57)%Z).
    { intros Hd. split; [by intros ->|]. by apply digits_check. }
    destruct p as [|a [|x [|c r]]]; [done|left; apply Hdig; by repeat case_match..|].
    destruct (bool_decide (ascii_lower [x] = py "x")) eqn:Hx; [|left; apply Hdig; by repeat case_match].
    destruct (Z.eq_dec a 48) as [->|Ha]; [|left; apply Hdig; repeat case_match; done || congruence].
    right. exists (c :: r). split.
    { apply bool_decide_eq_true in Hx. unfold ascii_lower in Hx. cbn in Hx. specialize (Hlow x ltac:(set_solver)).
      rw (_ : (65 <=? x)%Z && (x <=? 90)%Z = false) in Hx; [|lia]. injection Hx as ->. done. }
    split; [done|]. rw forallb_forall in H. intros d Hd. specialize (Hlow d ltac:(set_solver)).
    apply list_elem_of_In, H, hex_digit_check in Hd. lia.
  - intros [[Hne Hd]|(hex & -> & Hne & Hh)]; [by apply legacy_check_digits|].
    unfold legacy_check. destruct hex as [|c r]; [done|]. cbn [negb andb str_empty app py].
    change (forallb (λ d, bool_decide (is_Some (hex_value d))) (c :: r) = true).
    apply forallb_forall. intros d Hd%list_elem_of_In%Hh. apply hex_digit_check. lia.
Qed.

Lemma label_no_dot l : label_spec l → 46%Z ∉ l.
Proof. intros (_ & Hc & _) H46. by destruct (Hc 46%Z H46). Qed.
Lemma legacy_no_dot l : legacy_component l → 46%Z ∉ l.
Proof.
  intros [[_ H]|(hex & -> & _ & H)] Hin; [specialize (H _ Hin); lia|].
  apply elem_of_app in Hin as [Hin|Hin]; [by vm_compute in Hin; set_solver|specialize (H _ Hin); lia].
Qed.

Lemma host_name_spec h :
  (∀ c, c ∈ h → (~ 65 ≤ c ≤ 90)%Z) →
  (_looks_like_legacy_ipv4 h = false ∧ ((253 <? str_len h)%Z || bool_decide (last h = Some 46%Z) = false) ∧
   forallb host_label (split_on 46 h) = true) ↔ host_name h.
Proof.
  intros Hlow. unfold host_name. change (_looks_like_legacy_ipv4 h) with (forallb legacy_check (split_on 46 h)).
  rw -not_true_iff_false (dotted_check legacy_check legacy_component); cycle 1.
  { intros l Hl. apply legacy_check_spec. eauto. } { apply legacy_no_dot. }
  rw (dotted_check host_label label_spec); cycle 1.
  { intros l Hl. apply host_label_spec. eauto. } { apply label_no_dot. }
  rw orb_false_iff Z.ltb_ge bool_decide_eq_false. unfold str_len. split.
  - intros (? & [? _] & ?). split_and!; try done. lia.
  - intros (? & Hd & ?). split_and!; try done; [lia|]. intros Hlast. destruct Hd as (ls & -> & Hne & Hall).
    clear -Hlast Hne Hall. induction ls as [|l ls IH]; [done|]. apply Forall_cons in Hall as [Hl Hall]. cbn [join_with] in Hlast.
    destruct ls as [|k ls]; [apply (label_no_dot _ Hl); by eapply last_Some_elem_of|].
    apply IH; [|done..]. rw !last_app in Hlast.
    destruct (last (join_with (py ".") (k :: ls))) as [x|] eqn:E; [done|].
    exfalso. apply last_None in E. apply Forall_cons in Hall as [([Hk _] & _) _]. cbn [join_with] in E.
    destruct ls; [by rw E in Hk; cbn in Hk; lia|]. by destruct k; [cbn in Hk; lia|].
Qed.

Lemma bracket_text_spec h : bracketed_host_ok h = true ↔ bracket_text h.
Proof.
  unfold bracketed_host_ok, bracket_text. case_bool_decide as Hh.
  - destruct h as [|c r]; [done|]. injection Hh as ->. cbn [future_address]. rw Z.eqb_refl. cbn [andb]. split.
    + destruct (partition 46 r) as [hex [rest|]] eqn:Hp; [|done]. apply partition_inv in Hp as [_ ->].
      rw !andb_true_iff !negb_true_iff forallb_forall. intros [[H1 H2] H3]. right. exists hex, rest.
      split_and!; [done|by intros ->|by intros ->|]. intros c Hc%list_elem_of_In%H2. by apply hex_digit_check.
    + intros [[? _]|(hex & rest & [= ->] & H1 & H2 & H3)]; [done|]. change (py "." ++ rest) with (46%Z :: rest).
      rw partition_at; [|intros H46; specialize (H3 _ H46); lia]. rw !andb_true_iff !negb_true_iff. split_and!.
      * by destruct hex.
      * apply forallb_forall. intros c Hc%list_elem_of_In%H3. by apply hex_digit_check.
      * by destruct rest.
  - split.
    + destruct (ip_address h) as [[n|n scope]|]; try done. left. split; [done|]. by exists n, scope.
    + intros [(_ & n & scope & ->)|(hex & rest & -> & _)]; [done|]. by destruct Hh.
Qed.

(** How [urlsplit] reads the text after the host. *)
Definition suffix_port (suffix : pystr) (port : option Z) : Prop :=
  (suffix = [] ∧ port = None) ∨ ∃ p, suffix = 58%Z :: p ∧ split_port (Some p) = Some port.

Lemma urlsplit_authority_Some s host port :
  urlsplit_authority s = Some (host, port) ↔ ∃ suffix, suffix_port suffix port ∧
    ((s = host ++ suffix ∧ (∀ c, c ∈ s → c ∉ [91; 93]%Z) ∧ 58%Z ∉ host) ∨
     (s = py "[" ++ host ++ py "]" ++ suffix ∧ (93%Z ∉ host) ∧ bracketed_host_ok host = true)).
Proof.
  unfold urlsplit_authority, suffix_port. split.
  - destruct (partition 91 s) as [before [bracketed|]] eqn:Hp; apply partition_inv in Hp as [H91 Hs].
    + destruct (partition 93 bracketed) as [h [after|]] eqn:Hb; [|done]. apply partition_inv in Hb as [H93 ->].
      case_match eqn:Hc; [done|]. rw !orb_false_iff !negb_false_iff in Hc. destruct Hc as [[Hbe Ha] Hok].
      destruct before; [|done]. intros (p & Hport & [= <- <-])%bind_Some. exists after. split.
      * destruct after as [|c after]; [left; split; [done|]; by injection Hport as <-|right].
        cbn in Ha. apply bool_decide_eq_true in Ha as [= ->]. cbn in Hport. by exists after.
      * right. by subst s.
    + rw app_nil_r in Hs. subst before. case_bool_decide as H93; [done|].
      destruct (partition 58 s) as [h p] eqn:Hc. apply partition_inv in Hc as [H58 Hs].
      intros (q & Hport & [= <- <-])%bind_Some. eexists. split; [|left; split; [exact Hs|]; split; [set_solver|done]].
      destruct p as [p|]; [right; by exists p|left]. by injection Hport as <-.
  - intros (suffix & Hsuf & [(Hs & Hno & H58)|(-> & H93 & Hok)]).
    + rw partition_none; [|intros Hin; apply (Hno 91%Z Hin); set_solver].
      rw bool_decide_eq_false_2; [|intros Hin; apply (Hno 93%Z Hin); set_solver]. rw Hs.
      destruct Hsuf as [[-> ->]|(p & -> & Hport)].
      * by rw app_nil_r partition_none.
      * rw partition_at //. cbn. cbn in Hport. by rw Hport.
    + change (py "[" ++ host ++ py "]" ++ suffix) with (91%Z :: host ++ 93%Z :: suffix). cbn [partition].
      rw Z.eqb_refl partition_at // Hok. cbn [str_empty negb orb].
      destruct Hsuf as [[-> ->]|(p & -> & Hport)]; [done|]. cbn [str_empty orb head]. rw bool_decide_eq_true_2 //.
      cbn [negb orb partition]. rw Z.eqb_refl. cbn [snd]. by rw Hport.
Qed.

(** The two checks on the port leave [:digits] with a port from 1 to 65535. *)
Lemma port_suffix_spec s front suffix port :
  s = front ++ suffix → last front ≠ Some 58%Z → front ≠ [] →
  (suffix_port suffix port ∧ bool_decide (last s = Some 58%Z) && bool_decide (port = None) = false ∧
   match port with Some p => negb ((1 <=? p) && (p <=? 65535))%Z | None => false end = false) ↔
  (port_suffix suffix ∧ suffix_port suffix port).
Proof.
  intros -> Hf Hne. unfold suffix_port, port_suffix. split.
  - intros (Hs & Hlast & Hr). split; [|done]. destruct Hs as [[-> _]|(p & -> & Hp)]; [by left|right]. exists p.
    split; [done|]. destruct p as [|d p].
    { injection Hp as <-. by rw last_app bool_decide_eq_true_2 in Hlast. }
    cbn [split_port] in Hp. destruct (forallb is_digit (d :: p)) eqn:Hd; [|done]. cbn [andb] in Hp.
    destruct (digits_value (d :: p) <=? 65535)%Z eqn:Hle; [|done]. injection Hp as <-. split; [done|]. split; [by apply digits_check|]. lia.
  - intros [Hsp Hs]. split; [done|]. destruct Hs as [[-> ->]|(p & -> & Hp)].
    { rw app_nil_r. by rw (bool_decide_eq_false_2 _ Hf). }
    destruct Hsp as [?|(digits & [= <-] & Hn & Hd%digits_check & Hr)]; [done|]. destruct p as [|d p]; [done|].
    cbn [split_port] in Hp. rw Hd in Hp. cbn [andb] in Hp.
    destruct (digits_value (d :: p) <=? 65535)%Z eqn:Hle; [|done]. injection Hp as <-. split; [|lia].
    rw andb_false_iff. right. by apply bool_decide_eq_false.
Qed.
Lemma port_suffix_total suffix : port_suffix suffix → ∃ port, suffix_port suffix port.
Proof.
  intros [->|(digits & -> & Hn & Hd%digits_check & Hr)]; [exists None; by left|].
  exists (Some (digits_value digits)). right. exists digits. split; [done|]. destruct digits as [|d p]; [done|].
  cbn [split_port]. rw Hd. cbn [andb]. rw (_ : (digits_value (d :: p) <=? 65535)%Z = true); [done|lia].
Qed.

(** The part of an authority before its port. *)
Lemma authority_front s host suffix :
  host ≠ [] → (s = host ++ suffix ∧ (58%Z ∉ host)) ∨ s = py "[" ++ host ++ py "]" ++ suffix →
  ∃ front, s = front ++ suffix ∧ last front ≠ Some 58%Z ∧ front ≠ [] ∧ ∀ c, c ∈ host → c ∈ s.
Proof.
  intros Hne [[-> H58]| ->].
  - exists host. split_and!; [done| |done|set_solver]. intros Hl. by apply H58, last_Some_elem_of.
  - exists (py "[" ++ host ++ py "]"). rw -!app_assoc. split_and!; [done| |done|set_solver]. by rw !last_app.
Qed.

Lemma host_check host :
  (∀ c, c ∈ host → (~ 65 ≤ c ≤ 90)%Z) →
  match ip_address host with
  | Some _ => Ok tt
  | None =>
    raise_if (_looks_like_legacy_ipv4 host) (verr "listener authority is invalid");;
    raise_if ((253 <? str_len host)%Z || bool_decide (last host = Some 46%Z)) (verr "listener authority is invalid");;
    raise_if (negb (forallb host_label (split_on 46 host))) (verr "listener authority is invalid")
  end = Ok tt ↔ is_Some (ip_address host) ∨ host_name host.
Proof.
  intros Hlow. destruct (ip_address host) as [a|]; [split; [by left; exists a|done]|].
  rw !result_seq_Ok !raise_if_Ok negb_false_iff host_name_spec //. split; [by right|]. by intros [[? ?]|?].
Qed.

Lemma validate_authority_spec s : _validate_authority s = Ok tt ↔ listener_authority s.
Proof.
  unfold _validate_authority, listener_authority. cbv zeta.
  rw result_seq_Ok raise_if_Ok plain_text_check. split.
  - intros [Hpl H]. split; [done|]. destruct (urlsplit_authority s) as [[host port]|] eqn:Hu; [|done].
    apply urlsplit_authority_Some in Hu as (suffix & Hsuf & Hshape).
    rw !result_seq_Ok !raise_if_Ok in H. destruct H as (Hne & Hlast & Hport & Hhost).
    assert (Hne' : host ≠ []) by by destruct host.
    destruct (authority_front s host suffix Hne') as (front & Hs & Hf & Hfn & Hin); [naive_solver|].
    destruct (proj1 (port_suffix_spec s front suffix port Hs Hf Hfn)) as [Hps _]; [done|].
    apply host_check in Hhost; [|intros c Hc; by apply Hpl, Hin]. exists host, suffix. split_and!; try done.
    destruct Hshape as [(Hs1 & Hno & H58)|(Hs1 & H93 & Hb)]; [left|right; split_and!; try done; by apply bracket_text_spec].
    split; [done|]. intros c Hc. specialize (Hno c (Hin c Hc)). intros Hbad. rw elem_of_cons in Hbad.
    destruct Hbad as [->|?]; done.
  - intros (Hpl & host & suffix & Hps & Hne & Hhost & Hshape). split; [done|].
    destruct (port_suffix_total suffix Hps) as [port Hsuf].
    destruct (authority_front s host suffix Hne) as (front & Hs & Hf & Hfn & Hin).
    { destruct Hshape as [[? Hno]|[? _]]; [left; split; [done|]|by right]. intros H58. apply (Hno _ H58). set_solver. }
    destruct (proj2 (port_suffix_spec s front suffix port Hs Hf Hfn) (conj Hps Hsuf)) as (_ & Hlast & Hport).
    rw (proj2 (urlsplit_authority_Some s host port)); cycle 1.
    { exists suffix. split; [done|]. destruct Hshape as [[Hs1 Hno]|(Hs1 & H93 & Hb)].
      - left. split; [done|]. split; [|intros H58; apply (Hno _ H58); set_solver]. intros c Hc Hbad. rw Hs1 in Hc.
        apply elem_of_app in Hc as [Hc|Hc]; [apply (Hno c Hc); set_solver|].
        destruct Hps as [->|(digits & -> & _ & Hd & _)]; [set_solver|].
        apply elem_of_app in Hc as [Hc|Hc]; [apply list_elem_of_singleton in Hc as ->; set_solver|].
        specialize (Hd c Hc). rw !elem_of_cons elem_of_nil in Hbad. lia.
      - right. split_and!; try done. by apply bracket_text_spec. }
    rw !result_seq_Ok !raise_if_Ok. split_and!; [by destruct host|done|done|].
    apply host_check; [|done]. intros c Hc. by apply Hpl, Hin.
Qed.

(** *** The addresses the agent listener may bind *)
Definition quad (a b c d : Z) : Z := (((a * 256 + b) * 256 + c) * 256 + d)%Z.
Definition within (ranges : list (Z * Z)) (n : Z) : Prop := Exists (λ r, (r.1 ≤ n ≤ r.2)%Z) ranges.

(** The IANA special-purpose blocks that are not globally reachable, and the exceptions inside them. *)
Definition reserved_v4 : list (Z * Z) :=
  [(quad 0 0 0 0, quad 0 255 255 255); (quad 10 0 0 0, quad 10 255 255 255); (quad 127 0 0 0, quad 127 255 255 255);
   (quad 169 254 0 0, quad 169 254 255 255); (quad 172 16 0 0, quad 172 31 255 255);
   (quad 192 0 0 0, quad 192 0 0 255); (quad 192 0 0 170, quad 192 0 0 171); (quad 192 0 2 0, quad 192 0 2 255);
   (quad 192 168 0 0, quad 192 168 255 255); (quad 198 18 0 0, quad 198 19 255 255);
   (quad 198 51 100 0, quad 198 51 100 255); (quad 203 0 113 0, quad 203 0 113 255);
   (quad 240 0 0 0, quad 255 255 255 255); (quad 255 255 255 255, quad 255 255 255 255)].
Definition reachable_v4 : list (Z * Z) := [(quad 192 0 0 9, quad 192 0 0 9); (quad 192 0 0 10, quad 192 0 0 10)].
Definition reserved_v6 : list (Z * Z) :=
  [(1, 1); (0, 0); (0xffff00000000, 0xffffffffffff);
   (0x64ff9b0001 * 2 ^ 80, 0x64ff9b0002 * 2 ^ 80 - 1); (0x100 * 2 ^ 112, 0x100 * 2 ^ 112 + 2 ^ 64 - 1);
   (0x20010000 * 2 ^ 96, 0x20010200 * 2 ^ 96 - 1); (0x20010db8 * 2 ^ 96, 0x20010db9 * 2 ^ 96 - 1);
   (0x2002 * 2 ^ 112, 0x2003 * 2 ^ 112 - 1); (0xfc00 * 2 ^ 112, 0xfe00 * 2 ^ 112 - 1);
   (0xfe80 * 2 ^ 112, 0xfec0 * 2 ^ 112 - 1)]%Z.
Definition reachable_v6 : list (Z * Z) :=
  [(0x20010001 * 2 ^ 96 + 1, 0x20010001 * 2 ^ 96 + 1); (0x20010001 * 2 ^ 96 + 2, 0x20010001 * 2 ^ 96 + 2);
   (0x20010003 * 2 ^ 96, 0x20010004 * 2 ^ 96 - 1); (0x200100040112 * 2 ^ 80, 0x200100040113 * 2 ^ 80 - 1);
   (0x20010020 * 2 ^ 96, 0x20010030 * 2 ^ 96 - 1); (0x20010030 * 2 ^ 96, 0x20010040 * 2 ^ 96 - 1)]%Z.

(** Not globally reachable: an IPv6 address that maps an IPv4 one is judged by that. *)
Definition reserved (a : ip_addr) : Prop :=
  match a with
  | IPv4 n => within reserved_v4 n ∧ ~ within reachable_v4 n
  | IPv6 n _ =>
    ((0xffff00000000 ≤ n < 0x1000000000000)%Z ∧
     within reserved_v4 (n - 0xffff00000000) ∧ ~ within reachable_v4 (n - 0xffff00000000)) ∨
    (~ (0xffff00000000 ≤ n < 0x1000000000000)%Z ∧ within reserved_v6 n ∧ ~ within reachable_v6 n)
  end.
Definition multicast_group (a : ip_addr) : Prop :=
  match a with
  | IPv4 n => (quad 224 0 0 0 ≤ n ≤ quad 239 255 255 255)%Z
  | IPv6 n _ => (0xff00 * 2 ^ 112 ≤ n < 2 ^ 128)%Z
  end.
Definition wildcard (a : ip_addr) : Prop := match a with IPv4 n | IPv6 n _ => n = 0%Z end.

(** A network is the range from its first address. *)
Definition is_range (v6 : bool) (w : ip_network) (r : Z * Z) : bool :=
  Bool.eqb (nw_v6 w) v6 && (0 <=? nw_bits w)%Z && (nw_first w mod 2 ^ nw_bits w =? 0)%Z
  && (r.1 =? nw_first w)%Z && (r.2 =? nw_first w + 2 ^ nw_bits w - 1)%Z.

Lemma networks_within (nets : list ip_network) ranges (a : ip_addr) :
  let v6 := match a with IPv4 _ => false | IPv6 _ _ => true end in
  let n := match a with IPv4 n | IPv6 n _ => n end in
  length nets = length ranges → forallb (λ p, is_range v6 p.1 p.2) (zip nets ranges) = true →
  existsb (in_network a) nets = true ↔ within ranges n.
Proof.
  intros v6 n. revert ranges. induction nets as [|w nets IH]; intros [|r ranges] Hl H; try done.
  { split; [done|]. intros Hw. inversion Hw. }
  cbn [existsb zip forallb zip_with fst snd] in *. apply andb_true_iff in H as [Hr H]. injection Hl as Hl.
  rw orb_true_iff (IH _ Hl H). unfold within. rw Exists_cons.
  assert (Hw : in_network a w = true ↔ (r.1 ≤ n ≤ r.2)%Z); [|by rw Hw].
  unfold is_range in Hr. rw !andb_true_iff !Z.eqb_eq Z.leb_le Bool.eqb_true_iff in Hr. destruct Hr as [[[[H1 H2] H3] H4] H5].
  unfold in_network. rw H1. subst v6 n. destruct a; rw network_range //; lia.
Qed.

Lemma is_private_reserved a : is_private a = true ↔ reserved a.
Proof.
  assert (H4 : ∀ n, private_in (IPv4 n) private_v4 private_v4_exceptions = true ↔
    within reserved_v4 n ∧ ~ within reachable_v4 n).
  { intros n. unfold private_in. rw andb_true_iff negb_true_iff -not_true_iff_false.
    by rw (networks_within private_v4 reserved_v4 (IPv4 n)) // (networks_within private_v4_exceptions reachable_v4 (IPv4 n)). }
  destruct a as [n|n scope]; cbn [is_private reserved]; [apply H4|].
  assert (Hm : (n / 2 ^ 32 =? 0xffff)%Z = true ↔ (0xffff00000000 ≤ n < 0x1000000000000)%Z).
  { apply (network_range n 0xffff00000000 32); done. }
  destruct (n / 2 ^ 32 =? 0xffff)%Z eqn:E.
  - pose proof (proj1 Hm eq_refl) as Hr. rw H4.
    assert ((n mod 2 ^ 32)%Z = (n - 0xffff00000000)%Z) as ->.
    { symmetry. apply (Z.mod_unique_pos _ _ 0xffff); lia. }
    split; [intros ?; left; by split|]. intros [[_ ?]|[? _]]; [done|tauto].
  - unfold private_in. rw andb_true_iff negb_true_iff -not_true_iff_false.
    rw (networks_within private_v6 reserved_v6 (IPv6 n scope)) // (networks_within private_v6_exceptions reachable_v6 (IPv6 n scope)) //.
    assert (~ (0xffff00000000 ≤ n < 0x1000000000000)%Z) by (intros Hr%Hm; done). tauto.
Qed.

Lemma is_multicast_group a : is_multicast a = true ↔ multicast_group a.
Proof.
  unfold is_multicast, multicast_group. rw orb_true_iff.
  destruct a as [n|n scope]; cbn [in_network nw_v6 nw_first nw_bits v4net v6net].
  - rw network_range //. unfold quad. split; [intros [?|?]; [lia|done]|intros ?; left; lia].
  - rw network_range //. split; [intros [?|?]; [done|lia]|intros ?; right; lia].
Qed.
Lemma is_unspecified_wildcard a : is_unspecified a = true ↔ wildcard a.
Proof. destruct a; apply Z.eqb_eq. Qed.

(** A timeout within bounds. *)
Definition timeout_within (lo hi : Z) (x : pynumber) : Prop :=
  ∃ q, x = Finite q ∧ (inject_Z lo <= q)%Q ∧ (q <= inject_Z hi)%Q.

Lemma number_between_spec lo hi x : number_between lo hi x = true ↔ timeout_within lo hi x.
Proof.
  unfold timeout_within. destruct x as [q|]; cbn [number_between].
  - rw andb_true_iff !Qle_bool_iff. naive_solver.
  - split; [done|]. by intros (q & ? & _).
Qed.

(** The address a listener or client names. *)
Definition names_address (s : pystr) (P : ip_addr → Prop) : Prop :=
  ∃ a, ip_address s = Some a ∧ P a.

Record tls_listener_ok (c : TLSListenerConfiguration) : Prop := {
  tlo_address : names_address (tc_bind_address c)
    (λ a, private_range a ∧ (tc_port c = 0%Z → loopback_range a));
  tlo_port : (0 ≤ tc_port c ≤ 65535)%Z;
  tlo_authority : dns_name (tc_authority c);
  tlo_timeout : timeout_within 1 30 (tc_request_timeout_seconds c);
  tlo_certificate : head (tc_server_certificate c) = Some 47%Z;
  tlo_key : head (tc_server_private_key c) = Some 47%Z;
}.

Record client_ok (maximum : Z) (c : ClientConfiguration) : Prop := {
  clo_address : names_address (cc_connect_address c) private_range;
  clo_port : (1 ≤ cc_port c ≤ 65535)%Z;
  clo_authority : dns_name (cc_authority c);
  clo_timeout : timeout_within 1 maximum (cc_timeout_seconds c);
  clo_paths : ∀ p, p ∈ [cc_ca_certificate c; cc_client_certificate c; cc_client_private_key c] →
    head p = Some 47%Z;
}.

(** The agent listener: a reserved address that is neither the wildcard nor a multicast group, and an
authority that is an address or a host name, with a port perhaps. *)
Record agent_listener_ok (c : AgentListenerConfiguration) : Prop := {
  alo_address : names_address (ac_bind_address c) (λ a,
    reserved a ∧ ~ wildcard a ∧ ~ multicast_group a ∧ (ac_port c = 0%Z → loopback_range a));
  alo_port : (0 ≤ ac_port c ≤ 65535)%Z;
  alo_authority : listener_authority (ac_authority c);
  alo_timeout : timeout_within 1 30 (ac_request_timeout_seconds c);
}.

(** A check that raises only [ValidationError] and passes exactly when [P]. *)
Definition validates (r : result unit) (P : Prop) : Prop :=
  (r = Ok tt ↔ P) ∧ (∀ e, r = Raise e → is_ValidationError e = true).

Lemma port_condition port a :
  (port =? 0)%Z && negb (is_loopback a) = false ↔ (port = 0%Z → loopback_range a).
Proof. rw -is_loopback_range. destruct (is_loopback a), (Z.eqb_spec port 0); naive_solver. Qed.

Lemma raises_validation (r k : result unit) :
  (∀ e, r = Raise e → is_ValidationError e = true) →
  (∀ e, k = Raise e → is_ValidationError e = true) →
  ∀ e, (r;; k) = Raise e → is_ValidationError e = true.
Proof. intros Hr Hk e [?|[_ ?]]%result_seq_Raise; auto. Qed.

Lemma raise_if_validation b m e :
  raise_if b (ValidationError m) = Raise e → is_ValidationError e = true.
Proof. by intros [_ ->]%raise_if_Raise. Qed.

Ltac validation_errors :=
  repeat first [ apply raise_if_validation | apply raises_validation ].

Lemma listener_checks_ok name c : validates (listener_checks name c) (tls_listener_ok c).
Proof.
  unfold listener_checks. destruct (ip_address (tc_bind_address c)) as [a|] eqn:Ha; cbn [mbind result_bind].
  - split; [|validation_errors]. checks.
    rw allowed_address_range port_condition dns_authority_spec number_between_spec.
    unfold is_absolute. rw !bool_decide_eq_true. split.
    + intros (H1 & H2 & H3 & H4 & H5 & H6 & H7). split; try done. by exists a.
    + intros [(a' & Ha' & H1 & H2) ? ? ? ? ?]. rw Ha in Ha'. injection Ha' as <-. done.
  - split; [|by intros e [= <-]]. split; [done|]. intros [(a & Ha' & _) _ _ _ _ _]. congruence.
Qed.

Lemma client_checks_ok name maximum c : validates (client_checks name maximum c) (client_ok maximum c).
Proof.
  unfold client_checks. destruct (ip_address (cc_connect_address c)) as [a|] eqn:Ha; cbn [mbind result_bind].
  - split; [|validation_errors]. checks. cbn [forallb]. checks.
    rw allowed_address_range dns_authority_spec number_between_spec.
    unfold is_absolute. rw !bool_decide_eq_true. split.
    + intros (H1 & H2 & H3 & H4 & H5 & H6 & H7 & _). split; try done; [by exists a|].
      intros p. rw !elem_of_cons elem_of_nil. naive_solver.
    + intros [(a' & Ha' & H1) ? ? ? Hp]. rw Ha in Ha'. injection Ha' as <-.
      split_and!; try done; try lia; apply Hp; set_solver.
  - split; [|by intros e [= <-]]. split; [done|]. intros [(a & Ha' & _) _ _ _ _]. congruence.
Qed.

Lemma validate_authority_errors s e : _validate_authority s = Raise e → is_ValidationError e = true.
Proof.
  unfold _validate_authority. revert e. apply raises_validation; [apply raise_if_validation|].
  destruct (urlsplit_authority s) as [[h port]|]; [|by intros e [= <-]].
  validation_errors. destruct (ip_address h); [done|]. validation_errors.
Qed.

Lemma agent_checks_ok c : validates (AgentListenerConfiguration_post_init c) (agent_listener_ok c).
Proof.
  unfold AgentListenerConfiguration_post_init.
  destruct (ip_address (ac_bind_address c)) as [a|] eqn:Ha; cbn [mbind result_bind].
  - split; [|repeat first [exact (validate_authority_errors _) | apply raise_if_validation | apply raises_validation]]. checks.
    rw port_condition number_between_spec validate_authority_spec is_private_reserved -!not_true_iff_false.
    rw is_unspecified_wildcard is_multicast_group. split.
    + intros ([H1 H2] & H3 & H4 & H5 & H6 & H7). split; try done. by exists a.
    + intros [(a' & Ha' & H1 & H2 & H3 & H4) ? ? ?]. rw Ha in Ha'. injection Ha' as <-. done.
  - split; [|by intros e [= <-]]. split; [done|]. intros [(a & Ha' & _) _ _ _]. congruence.
Qed.

(** C36: the configurations of the three listeners and the two clients are checked completely. Each
check passes exactly when the following holds, and raises [ValidationError] otherwise. The address is
an IP literal: private (RFC 1918), loopback or unique-local, and for the agent listener in a block that
is not globally reachable and neither the wildcard nor a multicast group. Port 0 is used only on
loopback; port and timeout are within their ranges. The authority of the enrollment and operator
listeners and of the clients is a DNS name of at least two labels, and their TLS paths are absolute.
The agent listener's authority is ASCII without capitals, blanks or [/?#@]: an IP literal or a name of
one or more labels that cannot be read as an old form of IPv4 address, bare or in brackets where
brackets may hold it, followed by nothing or by a port from 1 to 65535. *)
Theorem configuration_checks_exact :
  (∀ c, validates (EnrollmentListenerConfiguration_post_init c) (tls_listener_ok c)) ∧
  (∀ c, validates (OperatorListenerConfiguration_post_init c) (tls_listener_ok c)) ∧
  (∀ c, validates (IssuerClientConfiguration_post_init c) (client_ok 30 c)) ∧
  (∀ c, validates (OperatorVerifierConfiguration_post_init c) (client_ok 15 c)) ∧
  (∀ c, validates (AgentListenerConfiguration_post_init c) (agent_listener_ok c)).
Proof.
  split; [intros c; apply listener_checks_ok|]. split; [intros c; apply listener_checks_ok|].
  split; [intros c; apply client_checks_ok|]. split; [intros c; apply client_checks_ok|].
  exact agent_checks_ok.
Qed.

(** ** Hosts *)

(** Text without blanks. *)
Definition solid_char (c : Z) : bool := value_char c && negb (is_blank c).

Lemma solid_value s : s ≠ [] → forallb solid_char s = true → value_ok s = true.
Proof.
  intros Hne Hs. unfold value_ok. rw andb_true_iff andb_true_iff.
  assert (Hc : ∀ c, c ∈ s → solid_char c = true)
    by (intros c Hc; rw forallb_forall in Hs; apply Hs; by apply list_elem_of_In).
  assert (Hsol : ∀ l, l ≠ [] → (∀ c, c ∈ l → c ∈ s) → starts_solid l = true).
  { intros [|c l] Hl Hin; [done|]. specialize (Hc c (Hin c ltac:(by left))). unfold solid_char in Hc.
    cbn. by apply andb_true_iff in Hc as [_ Hc]. }
  split_and!; [|by apply Hsol|].
  - revert Hs. apply forallb_mono. unfold solid_char. intros c. by rw andb_true_iff; intros [? _].
  - apply Hsol; [|intros c; by rw elem_of_reverse].
    intros Hr%(f_equal reverse). by rw reverse_involutive in Hr.
Qed.

Lemma dns_name_solid s : dns_name s → s ≠ [] ∧ forallb solid_char s = true.
Proof.
  intros (_ & labels & -> & Hn & Hl).
  assert (Hlabel : ∀ l, label_spec l → l ≠ [] ∧ forallb solid_char l = true).
  { intros l ([Hlen _] & Hc & _). split; [intros ->; cbn in Hlen; lia|].
    apply forallb_forall. intros c Hin%list_elem_of_In. unfold solid_char, value_char, is_blank.
    destruct (Hc c Hin) as [Ha| ->]; [|done]. unfold is_lower_alnum, is_digit in Ha. lia. }
  destruct labels as [|l0 labels]; [cbn in Hn; lia|]. clear Hn. revert l0 Hl.
  induction labels as [|l1 labels IH]; intros l0 Hl; cbn [join_with]; apply Forall_cons in Hl as [H0 Hl].
  - by apply Hlabel.
  - specialize (IH l1 Hl) as [_ IH]. destruct (Hlabel l0 H0) as [Hne H0'].
    split; [by destruct l0|]. rw !forallb_app H0'. cbn [andb]. by rw IH.
Qed.

Lemma int_str_solid z : (0 ≤ z)%Z → forallb solid_char (int_str z) = true.
Proof.
  intros Hz. destruct (int_str_digits z Hz) as (Hd & _ & _). revert Hd. apply forallb_mono.
  intros c. unfold is_digit, solid_char, value_char, is_blank. lia.
Qed.

Lemma expected_host_ok c :
  tls_listener_ok c → value_ok (expected_host (tc_authority c) (tc_port c)) = true ∧
  length (expected_host (tc_authority c) (tc_port c)) ≤ 259.
Proof.
  intros [_ Hp Hd _ _ _]. pose proof Hd as [Hlen _]. apply dns_name_solid in Hd as [Hne Hs].
  unfold expected_host. case_bool_decide.
  - split; [by apply solid_value|lia].
  - split; [apply solid_value|].
    + by destruct (tc_authority c).
    + rw !forallb_app Hs int_str_solid; [done|lia].
    + rw !length_app. pose proof (int_str_length (tc_port c) 5 ltac:(lia) ltac:(lia)). cbn [length py]. 
      change (length (py ":")) with 1. lia.
Qed.

(** Accepted and refused samples. *)
Example listener_samples :
  let c addr port authority :=
    mkTLSListenerConfiguration (py addr) port (py authority) (py "/c") (py "/k") (Finite 10) in
  [OperatorListenerConfiguration_post_init (c "10.1.2.3" 8443%Z "ops.example");
   OperatorListenerConfiguration_post_init (c "127.0.0.1" 0%Z "ops.example");
   OperatorListenerConfiguration_post_init (c "10.1.2.3" 0%Z "ops.example");
   EnrollmentListenerConfiguration_post_init (c "8.8.8.8" 443%Z "ops.example");
   EnrollmentListenerConfiguration_post_init (c "fd00::1" 443%Z "ops")]
  = [Ok tt; Ok tt; Raise (verr "ephemeral operator ports are test-only");
     Raise (verr "enrollment bind address is outside allowed networks");
     Raise (verr "enrollment authority is invalid")].
Proof. vm_compute. reflexivity. Qed.

Example authority_samples :
  (_validate_authority ∘ py <$> ["agents.internal:8443"; "[fd00::1]:8443"; "10.0.0.1"; "0x7f.1";
     "agents.internal:"; "agents.internal:0"; "-a.b"; "Agents"; "a@b"])
  = [Ok tt; Ok tt; Ok tt] ++ replicate 6 (Raise (verr "listener authority is invalid")).
Proof. vm_compute. reflexivity. Qed.
