(* ===== verification/PyFloat.v ===== *)
(** * Python floats: [float(text)] and [timedelta(seconds=x)]

A float is a binary64 number. Its value is kept as an exact rational ([pynumber]);
the roundings of the interpreter are [SpecFloat.binary_normalize] at 53 bits. *)
From stdpp Require Import prelude strings gmap sorting pretty ssreflect.
From Stdlib Require Import QArith Qround SpecFloat.
From S2P Require Import Prelude Json Text JsonLoads Domain AgentApi Http Net Configuration.

Set Warnings "-clear-no-such-hyp".
Local Close Scope Q_scope.

(** [m * 2 ^ e] in lowest terms. *)
Fixpoint dyadic (sign : bool) (m : positive) (e : Z) : Q :=
  match m with
  | xO m' => if (e <? 0)%Z then dyadic sign m' (e + 1) else inject_Z ((if sign then Zneg m else Zpos m) * 2 ^ e)
  | _ =>
    let z := if sign then Zneg m else Zpos m in
    if (e <? 0)%Z then Qmake z (Z.to_pos (2 ^ (- e))) else inject_Z (z * 2 ^ e)
  end.

(** The value of a binary64 number. *)
Definition spec_value (x : spec_float) : pynumber :=
  match x with
  | S754_zero _ => Finite 0
  | S754_finite sign m e => Finite (dyadic sign m e)
  | _ => NotFinite
  end.

(** The binary64 number nearest to [n / d], ties to even: the quotient is computed to
more bits than a float keeps, and its last bit remembers a remainder. *)
Definition round_ratio (n : Z) (d : positive) : pynumber :=
  let a := Z.abs n in
  let s := Z.max 0 (57 + Z.log2 (Zpos d) - Z.log2 a) in
  let q := (a * 2 ^ s / Zpos d)%Z in
  let sticky := if (a * 2 ^ s mod Zpos d =? 0)%Z then 0%Z else 1%Z in
  spec_value (binary_normalize 53 1024 (Z.sgn n * (2 * q + sticky)) (- s - 1) false).

Definition round_Q (q : Q) : pynumber := round_ratio (Qnum q) (Qden q).

Fixpoint drop_zeros (ds : pystr) : pystr :=
  match ds with 48%Z :: r => drop_zeros r | _ => ds end.

(** The decimal [digits * 10 ^ e], rounded; magnitudes no float reaches are settled
by the number of digits. *)
Definition round_decimal (negative : bool) (digits : pystr) (e : Z) : pynumber :=
  match drop_zeros digits with
  | [] => Finite 0
  | ds =>
    let magnitude := (str_len ds + e)%Z in
    let m := if negative then (- digits_value ds)%Z else digits_value ds in
    if (310 <? magnitude)%Z then NotFinite
    else if (magnitude <? -330)%Z then Finite 0
    else if (0 <=? e)%Z then round_ratio (m * 10 ^ e) 1
    else round_ratio m (Z.to_pos (10 ^ (- e)))
  end.

(** [float(raw)] for the text of a JSON number or constant. *)
Definition json_float (raw : pystr) : pynumber :=
  let '(negative, r0) := match raw with 45%Z :: r => (true, r) | _ => (false, raw) end in
  match r0 with
  | c :: _ =>
    if is_digit c then
      let '(whole, r1) := span_digits r0 in
      let '(fraction, r2) := match r1 with 46%Z :: r => span_digits r | _ => ([], r1) end in
      let e := match r2 with
        | _ :: 45%Z :: ds => (- digits_value ds)%Z
        | _ :: 43%Z :: ds => digits_value ds
        | _ :: ds => digits_value ds
        | [] => 0%Z
        end in
      round_decimal negative (whole ++ fraction) (e - str_len fraction)
    else NotFinite
  | [] => NotFinite
  end.

(** [timedelta(seconds=x)] in microseconds, for a finite [x >= 0]: the fraction of a
second is scaled in floating point, and the rest is rounded half to even. *)
Definition timedelta_seconds (x : Q) : Z :=
  let whole := Qfloor x in
  let fraction := (x - inject_Z whole)%Q in
  match round_Q (fraction * inject_Z 1000000)%Q with
  | NotFinite => 0%Z
  | Finite scaled =>
    let us := (whole * 1000000 + Qfloor scaled)%Z in
    let leftover := (scaled - inject_Z (Qfloor scaled))%Q in
    match (leftover ?= 1 # 2)%Q with
    | Lt => us
    | Gt => (us + 1)%Z
    | Eq => if Z.odd us then (us + 1)%Z else us
    end
  end.
