(* ===== verification/Files.v ===== *)
(** * Files as the services open them

[_read_regular_file] and [_effective_user_id] of [agent_service.py], and
[secure_files.py], over a model of the operating system: paths name symbolic links or
inodes, descriptors hold inodes. Between any two system calls the environment may
change the files ([ev_change]), make the next call fail, or cut a read short; it
cannot change the descriptors of the process. A path is its text. *)
From stdpp Require Import prelude strings gmap sorting pretty ssreflect.
From S2P Require Import Prelude Json Text JsonLoads JsonProofs Domain AgentApi Http Net Configuration.

Set Warnings "-clear-no-such-hyp".

(** ** The operating system *)
Record inode := mkInode { st_mode : Z; st_uid : Z; i_content : list Z }.

Definition st_size (i : inode) : Z := Z.of_nat (length (i_content i)).
Definition S_ISREG (mode : Z) : bool := (Z.land mode 0xF000 =? 0x8000)%Z.

Inductive entry := Link (target : pystr) | File (ino : nat).

Record files := mkFiles { f_entries : gmap pystr entry; f_inodes : gmap nat inode }.

(** What happens right before, and to, one system call. *)
Record event := mkEvent { ev_change : files → files; ev_error : bool; ev_chunk : nat }.

(** [os.name == "posix"], whether [os.O_NOFOLLOW] exists, and [os.geteuid()] if it does. *)
Record platform := mkPlatform { p_posix : bool; p_nofollow : bool; p_euid : option Z }.

Record host := mkHost {
  h_platform : platform;
  h_env : nat → event;
  h_time : nat;
  h_files : files;
  h_fds : gmap nat (nat * nat);
}.

Definition with_fds (f : gmap nat (nat * nat) → gmap nat (nat * nat)) (h : host) : host :=
  mkHost (h_platform h) (h_env h) (h_time h) (h_files h) (f (h_fds h)).

(** The environment moves, then the call is made. *)
Definition tick (h : host) : host :=
  mkHost (h_platform h) (h_env h) (S (h_time h)) (ev_change (h_env h (h_time h)) (h_files h)) (h_fds h).

Definition syscall {A} (f : event → host → host * result A) : M host A := λ h,
  let ev := h_env h (h_time h) in
  if ev_error ev then (tick h, Raise OSError) else f ev (tick h).

(** [path.is_symlink()]: a missing file or a path no system call accepts is none. *)
Definition is_symlink (path : pystr) : M host bool :=
  if bool_decide (0%Z ∈ path) then mret false
  else syscall (λ _ h,
    (h, Ok match f_entries (h_files h) !! path with Some (Link _) => true | _ => false end)).

(** The inode a path leads to, through at most 40 links. *)
Fixpoint resolve (n : nat) (f : files) (path : pystr) : option nat :=
  match f_entries f !! path, n with
  | Some (File ino), _ => Some ino
  | Some (Link target), S n => resolve n f target
  | _, _ => None
  end.

(** [os.open(path, O_RDONLY | O_CLOEXEC | O_NOFOLLOW | O_NONBLOCK)]. *)
Definition os_open (path : pystr) : M host nat :=
  if bool_decide (0%Z ∈ path) then raise ValueError
  else syscall (λ _ h,
    match resolve (if p_nofollow (h_platform h) then 0 else 40) (h_files h) path with
    | Some ino =>
      let fd := fresh (dom (h_fds h)) in
      (with_fds <[fd := (ino, 0)]> h, Ok fd)
    | None => (h, Raise OSError)
    end).

(** [os.fstat(descriptor)]. *)
Definition os_fstat (fd : nat) : M host inode :=
  syscall (λ _ h,
    match h_fds h !! fd ≫= (λ d : nat * nat, f_inodes (h_files h) !! d.1) with
    | Some i => (h, Ok i)
    | None => (h, Raise OSError)
    end).

(** [os.read(descriptor, n)]: at most [n] bytes, fewer when the call is cut short, none
only at the end of the file. *)
Definition os_read (fd : nat) (n : Z) : M host (list Z) :=
  syscall (λ ev h,
    match h_fds h !! fd with
    | Some (ino, offset) =>
      match f_inodes (h_files h) !! ino with
      | Some i =>
        let chunk := take (S (ev_chunk ev) `min` Z.to_nat n) (drop offset (i_content i)) in
        (with_fds <[fd := (ino, offset + length chunk)]> h, Ok chunk)
      | None => (h, Raise OSError)
      end
    | None => (h, Raise OSError)
    end).

(** [os.close(descriptor)]: the descriptor is released even when the call fails. *)
Definition os_close (fd : nat) : M host unit := λ h,
  (with_fds (delete fd) (tick h), if ev_error (h_env h (h_time h)) then Raise OSError else Ok tt).

(** [os.name == "posix"], and [os.geteuid()] where it exists. *)
Definition os_posix : M host bool := λ h, (h, Ok (p_posix (h_platform h))).
Definition os_geteuid : M host (option Z) := λ h, (h, Ok (p_euid (h_platform h))).

(** ** [_effective_user_id] *)
Definition _effective_user_id : M host (option Z) := os_geteuid.

(** ** A descriptor held while [body] runs

[try: descriptor = os.open(path, flags); ... except OSError: ... finally: os.close(...)]. *)
Definition unsafe (label : pystr) : exn := ValidationError (label ++ py " could not be opened safely").

Definition with_descriptor {A} (path label : pystr) (body : nat → M host A) : M host A :=
  fd ← except_asM is_OSError (unsafe label) (os_open path);
  finallyM (except_asM is_OSError (unsafe label) (body fd)) (os_close fd).

Definition not_bounded (maximum_bytes : Z) (metadata : inode) : bool :=
  negb (S_ISREG (st_mode metadata)) || (maximum_bytes <? st_size metadata)%Z.

Definition too_broad (euid : Z) (metadata : inode) : bool :=
  negb (bool_decide (st_uid metadata ∈ [0%Z; euid])) || negb (Z.land (st_mode metadata) 0x3F =? 0)%Z.

(** The loop [while remaining: ...]. Every chunk is not empty, so [remaining] iterations
are enough. *)
Fixpoint read_chunks (fuel : nat) (fd : nat) (remaining : Z) : M host (list Z) :=
  if (remaining =? 0)%Z then mret [] else
  match fuel with
  | O => raise (AssertionError (py "fuel"))
  | S fuel =>
    chunk ← os_read fd remaining;
    if bool_decide (chunk = []) then mret []
    else chunks ← read_chunks fuel fd (remaining - Z.of_nat (length chunk));
         mret (chunk ++ chunks)
  end.

Definition _read_regular_file (path label : pystr) (maximum_bytes : Z) (private : bool)
    : M host (list Z) :=
  let err (m : string) := ValidationError (label ++ py m) in
  lift (raise_if (negb (is_absolute path)) (err " path must be absolute"));;
  link ← is_symlink path;
  lift (raise_if link (unsafe label));;
  with_descriptor path label (λ fd,
    metadata ← os_fstat fd;
    lift (raise_if (not_bounded maximum_bytes metadata) (err " is not a bounded regular file"));;
    posix ← os_posix;
    (if private && posix then
       euid ← _effective_user_id;
       match euid with
       | None => raise (err " owner could not be verified")
       | Some euid => lift (raise_if (too_broad euid metadata) (err " permissions are too broad"))
       end
     else mret tt);;
    encoded ← read_chunks (Z.to_nat (maximum_bytes + 1)) fd (maximum_bytes + 1);
    final_metadata ← os_fstat fd;
    let size := Z.of_nat (length encoded) in
    lift (raise_if ((maximum_bytes <? size)%Z
                    || negb (st_size final_metadata =? st_size metadata)%Z
                    || negb (size =? st_size final_metadata)%Z)
      (err " changed or exceeded its size limit"));;
    mret encoded).

(** ** [secure_files.py] *)
Definition MAX_PRIVATE_KEY_BYTES : Z := 65536.

Definition fd_path (fd : nat) : pystr := py "/proc/self/fd/" ++ int_str (Z.of_nat fd).

(** [with regular_file_reference(...) as reference: body]. The exceptions of the body pass
through the generator. *)
Definition regular_file_reference {A} (path label : pystr) (maximum_bytes : Z) (private : bool)
    (body : pystr → M host A) : M host A :=
  let err (m : string) := ValidationError (label ++ py m) in
  link ← is_symlink path;
  lift (raise_if link (unsafe label));;
  with_descriptor path label (λ fd,
    metadata ← os_fstat fd;
    lift (raise_if (not_bounded maximum_bytes metadata) (err " is not a bounded regular file"));;
    posix ← os_posix;
    (if private && posix then
       euid ← os_geteuid;
       lift (raise_if (match euid with Some euid => too_broad euid metadata | None => true end)
         (err " permissions are too broad"))
     else mret tt);;
    body (if posix : bool then fd_path fd else path)).

Definition private_key_reference {A} (path label : pystr) (body : pystr → M host A) : M host A :=
  regular_file_reference path label MAX_PRIVATE_KEY_BYTES true body.

(** A library reads the file at a path: [/proc/self/fd/<n>] leads to the inode the
descriptor holds, other paths are resolved. *)
Definition fd_of_path (path : pystr) : option nat :=
  digits ← strip_prefix (py "/proc/self/fd/") path;
  if negb (str_empty digits) && forallb is_digit digits then Some (Z.to_nat (digits_value digits)) else None.

Definition path_inode (h : host) (path : pystr) : option nat :=
  match fd_of_path path with
  | Some fd => if p_posix (h_platform h) then fst <$> h_fds h !! fd else resolve 40 (h_files h) path
  | None => resolve 40 (h_files h) path
  end.

Definition library_read (path : pystr) : M host (list Z) :=
  syscall (λ _ h,
    match path_inode h path ≫= (λ ino : nat, f_inodes (h_files h) !! ino) with
    | Some i => (h, Ok (i_content i))
    | None => (h, Raise OSError)
    end).

(** ** The course of the files

The services only read: the files after [n] system calls are what the environment
made of them. *)
Fixpoint files_at (h : host) (n : nat) : files :=
  match n with
  | O => h_files h
  | S n => ev_change (h_env h (h_time h + n)) (files_at h n)
  end.

(** [h'] is [h] some system calls later, with other descriptors perhaps. *)
Record later (n : nat) (h h' : host) : Prop := {
  lt_platform : h_platform h' = h_platform h;
  lt_env : h_env h' = h_env h;
  lt_time : h_time h' = h_time h + n;
  lt_files : h_files h' = files_at h n;
}.

Lemma later_refl h : later 0 h h.
Proof. split; [done..|lia|done]. Qed.

Lemma files_at_add h h' n k : later n h h' → files_at h' k = files_at h (n + k).
Proof.
  intros [Hp He Ht Hf]. induction k as [|k IH]; [by rw Nat.add_0_r|].
  rw Nat.add_succ_r. cbn [files_at]. rw IH He Ht. by rw Nat.add_assoc.
Qed.

Lemma later_trans n k h h' h'' : later n h h' → later k h' h'' → later (n + k) h h''.
Proof.
  intros H1 H2. pose proof (files_at_add h h' n k H1) as Hf.
  destruct H1 as [Hp He Ht _], H2 as [Hp' He' Ht' Hf'].
  split; [congruence..|lia|congruence].
Qed.

Lemma later_tick h : later 1 h (tick h).
Proof. split; [done..|cbn; lia|]. cbn. by rw Nat.add_0_r. Qed.

Lemma later_with_fds n h h' f : later n h h' → later n h (with_fds f h').
Proof. by intros [Hp He Ht Hf]. Qed.

(** The environment never touches an inode. *)
Definition stable (h : host) (ino : nat) : Prop :=
  ∀ t f, f_inodes (ev_change (h_env h t) f) !! ino = f_inodes f !! ino.

Lemma stable_later n h h' ino : later n h h' → stable h ino → stable h' ino.
Proof. intros [_ He _ _] Hs t f. rw He. apply Hs. Qed.

Lemma stable_files h ino n : stable h ino → f_inodes (files_at h n) !! ino = f_inodes (h_files h) !! ino.
Proof. intros Hs. induction n as [|n IH]; [done|]. cbn [files_at]. by rw Hs. Qed.

(** ** What a run leaves behind *)
Definition released (h h' : host) : Prop := (∃ n, later n h h') ∧ h_fds h' = h_fds h.
Definition held (fd : nat) (h h' : host) : Prop :=
  (∃ n, later n h h') ∧ delete fd (h_fds h') = delete fd (h_fds h).

Definition leaves {A} (R : host → host → Prop) (m : M host A) : Prop := ∀ h, R h (m h).1.

#[export] Instance released_preorder : PreOrder released.
Proof.
  split.
  - intros h. split; [exists 0; apply later_refl|done].
  - intros h h' h'' [[n Hn] Hf] [[k Hk] Hf']. split; [|congruence]. exists (n + k). by eapply later_trans.
Qed.

#[export] Instance held_preorder fd : PreOrder (held fd).
Proof.
  split.
  - intros h. split; [exists 0; apply later_refl|done].
  - intros h h' h'' [[n Hn] Hf] [[k Hk] Hf']. split; [|congruence]. exists (n + k). by eapply later_trans.
Qed.

Lemma released_held fd h h' : released h h' → held fd h h'.
Proof. intros [Hn Hf]. split; [done|by rw Hf]. Qed.

Section leaves.
Context (R : host → host → Prop) `{!PreOrder R}.

Lemma leaves_pure {A} (m : M host A) : (∀ h, (m h).1 = h) → leaves R m.
Proof using All. intros Hm h. rw Hm. reflexivity. Qed.
Lemma leaves_lift {A} (r : result A) : leaves R (lift r).
Proof using All. by apply leaves_pure. Qed.
Lemma leaves_ret {A} (a : A) : leaves R (mret a).
Proof using All. by apply leaves_pure. Qed.
Lemma leaves_raise {A} e : leaves R (raise (A := A) e).
Proof using All. by apply leaves_pure. Qed.
Lemma leaves_posix : leaves R os_posix.
Proof using All. by apply leaves_pure. Qed.
Lemma leaves_geteuid : leaves R os_geteuid.
Proof using All. by apply leaves_pure. Qed.
Lemma leaves_bind {A B} (m : M host A) (k : A → M host B) :
  leaves R m → (∀ a, leaves R (k a)) → leaves R (m ≫= k).
Proof using All.
  intros Hm Hk h. unfold mbind, M_bind. specialize (Hm h). destruct (m h) as [h1 [a|e]]; [|done].
  etransitivity; [exact Hm|apply Hk].
Qed.
Lemma leaves_except {A} handled e (m : M host A) : leaves R m → leaves R (except_asM handled e m).
Proof using All. done. Qed.
End leaves.

(** A sequence of steps that each leave what they must. *)
Ltac leaves_step :=
  first [ apply leaves_bind; [apply _| |intros ?] | apply leaves_lift, _ | apply leaves_ret, _
        | apply leaves_raise, _ | apply leaves_posix, _ | apply leaves_geteuid, _ ].

Lemma leaves_mono {A} (R R' : host → host → Prop) (m : M host A) :
  (∀ h h', R h h' → R' h h') → leaves R m → leaves R' m.
Proof. intros HR Hm h. apply HR, Hm. Qed.

Lemma released_tick h : released h (tick h).
Proof. split; [exists 1; apply later_tick|done]. Qed.

Lemma syscall_released {A} (f : event → host → host * result A) :
  (∀ ev h, (f ev h).1 = h) → leaves released (syscall f).
Proof. intros Hf h. unfold syscall. case_match; [|rw Hf]; apply released_tick. Qed.

Lemma is_symlink_released path : leaves released (is_symlink path).
Proof. unfold is_symlink. case_bool_decide; [apply leaves_ret, _|]. by apply syscall_released. Qed.
Lemma os_fstat_released fd : leaves released (os_fstat fd).
Proof. apply syscall_released. intros ev h. by case_match. Qed.
Lemma library_read_released path : leaves released (library_read path).
Proof. apply syscall_released. intros ev h. by case_match. Qed.

Lemma os_read_held fd n : leaves (held fd) (os_read fd n).
Proof.
  intros h. unfold os_read, syscall. case_match; [apply released_held, released_tick|].
  cbn. destruct (h_fds h !! fd) as [[ino off]|]; [case_match|]; try (apply released_held, released_tick).
  split; [exists 1; by apply later_with_fds, later_tick|]. cbn. by rw delete_insert_eq.
Qed.

Lemma read_chunks_held fuel fd remaining : leaves (held fd) (read_chunks fuel fd remaining).
Proof.
  revert remaining. induction fuel as [|fuel IH]; intros remaining; cbn [read_chunks];
    (case_match; [apply leaves_ret, _|]); [apply leaves_raise, _|].
  apply leaves_bind; [apply _|apply os_read_held|]. intros chunk.
  case_bool_decide; [apply leaves_ret, _|]. apply leaves_bind; [apply _|apply IH|].
  intros chunks. apply leaves_ret, _.
Qed.

(** A descriptor that is opened is released, however [body] ends. *)
Lemma with_descriptor_released {A} path label (body : nat → M host A) :
  (∀ fd, leaves (held fd) (body fd)) → leaves released (with_descriptor path label body).
Proof.
  intros Hb h. unfold with_descriptor, mbind, M_bind, except_asM.
  destruct (os_open path h) as [h1 r] eqn:Ho. unfold os_open, raise, syscall in Ho.
  case_bool_decide; [injection Ho as <- <-; reflexivity|].
  destruct (ev_error _); [injection Ho as <- <-; apply released_tick|].
  cbn in Ho. destruct (resolve _ _ _) as [ino|]; [|injection Ho as <- <-; apply released_tick].
  injection Ho as <- <-. cbn. set (fd := fresh _).
  set (h1 := with_fds _ _). pose proof (Hb fd h1) as [[n Hn] Hfd].
  unfold finallyM. destruct (body fd h1) as [h2 r2]. cbn in Hn, Hfd |- *.
  assert (Hgoal : released h (with_fds (delete fd) (tick h2))).
  { split.
    - exists (1 + (n + 1)). apply (later_trans _ _ _ h1); [apply later_with_fds, later_tick|].
      apply later_with_fds. eapply later_trans; [exact Hn|apply later_tick].
    - cbn. rw Hfd. cbn. apply delete_insert_id. apply not_elem_of_dom, is_fresh. }
  by destruct (ev_error _).
Qed.

(** ** Runs that return *)
Lemma syscall_Ok {A} (f : event → host → host * result A) h h' a :
  syscall f h = (h', Ok a) → f (h_env h (h_time h)) (tick h) = (h', Ok a).
Proof. unfold syscall. by case_match. Qed.

Lemma is_symlink_Ok path h h' b :
  0%Z ∉ path → is_symlink path h = (h', Ok b) →
  later 1 h h' ∧ h_fds h' = h_fds h ∧
  b = match f_entries (files_at h 1) !! path with Some (Link _) => true | _ => false end.
Proof.
  intros H0. unfold is_symlink. rw bool_decide_false //. intros [= <- <-]%syscall_Ok.
  split; [apply later_tick|]. split; [done|]. cbn. by rw Nat.add_0_r.
Qed.

Definition follow_limit (h : host) : nat := if p_nofollow (h_platform h) then 0 else 40.

Lemma os_open_Ok path h h' fd :
  os_open path h = (h', Ok fd) →
  (0%Z ∉ path) ∧ later 1 h h' ∧ (∃ ino,
  h_fds h !! fd = None ∧ h_fds h' = <[fd := (ino, 0)]> (h_fds h) ∧
  resolve (follow_limit h) (files_at h 1) path = Some ino).
Proof.
  unfold os_open. case_bool_decide as H0; [done|]. intros Ho%syscall_Ok. cbn in Ho. split; [done|].
  destruct (resolve _ _ _) as [ino|] eqn:Hr; [|done]. injection Ho as <- <-.
  split; [apply later_with_fds, later_tick|]. exists ino.
  split; [apply not_elem_of_dom, is_fresh|]. split; [done|].
  rw -Hr. unfold follow_limit. cbn [files_at]. by rw Nat.add_0_r.
Qed.

Lemma os_fstat_Ok fd h h' i :
  os_fstat fd h = (h', Ok i) →
  later 1 h h' ∧ h_fds h' = h_fds h ∧
  ∃ ino off, h_fds h !! fd = Some (ino, off) ∧ f_inodes (files_at h 1) !! ino = Some i.
Proof.
  intros Ho%syscall_Ok. cbn in Ho. destruct (h_fds h !! fd) as [[ino off]|] eqn:Hfd; [|done].
  cbn in Ho. destruct (f_inodes _ !! ino) as [j|] eqn:Hi; [|done]. injection Ho as <- <-.
  split; [apply later_tick|]. split; [done|]. exists ino, off. split; [done|].
  cbn. by rw Nat.add_0_r.
Qed.

Lemma os_read_Ok fd n h h' chunk ino off :
  h_fds h !! fd = Some (ino, off) → os_read fd n h = (h', Ok chunk) →
  later 1 h h' ∧ h_fds h' = <[fd := (ino, off + length chunk)]> (h_fds h) ∧
  ∃ i k, f_inodes (files_at h 1) !! ino = Some i ∧
    chunk = take (S k `min` Z.to_nat n) (drop off (i_content i)).
Proof.
  intros Hfd Ho%syscall_Ok. cbn in Ho. rw Hfd in Ho.
  destruct (f_inodes _ !! ino) as [i|] eqn:Hi; [|done]. injection Ho as <- <-.
  split; [apply later_with_fds, later_tick|]. split; [done|].
  exists i, (ev_chunk (h_env h (h_time h))). split; [|done]. cbn. by rw Nat.add_0_r.
Qed.

Lemma take_step {A} (l : list A) k n : take n l = take k (take n l) ++ take (n - length (take k (take n l))) (drop (length (take k (take n l))) l).
Proof.
  rw take_take. destruct (decide (length l ≤ k `min` n)) as [Hl|Hl].
  - rw (take_ge l (k `min` n)) //. rw drop_all. rw take_nil app_nil_r. apply take_ge. lia.
  - rw length_take_le; [|lia]. rw take_take_drop. f_equal. lia.
Qed.

(** The loop reads to the end of a file that does not change, or as many bytes as asked. *)
Lemma read_chunks_Ok fuel fd remaining h h' bytes ino off :
  (0 ≤ remaining)%Z → h_fds h !! fd = Some (ino, off) →
  read_chunks fuel fd remaining h = (h', Ok bytes) →
  (∃ n, later n h h') ∧ h_fds h' = <[fd := (ino, off + length bytes)]> (h_fds h) ∧
  (Z.of_nat (length bytes) ≤ remaining)%Z ∧
  ∀ i, stable h ino → f_inodes (h_files h) !! ino = Some i →
    bytes = take (Z.to_nat remaining) (drop off (i_content i)).
Proof.
  revert remaining h off bytes. induction fuel as [|fuel IH]; intros remaining h off bytes Hr Hfd;
    cbn [read_chunks]; destruct (Z.eqb_spec remaining 0) as [->|Hn].
  1,3: intros [= <- <-]; cbn; rw Nat.add_0_r insert_id //; split_and!; [exists 0; apply later_refl|done|lia|done].
  { done. }
  intros (h1 & chunk & Hread & Hk)%bind_Ok_inv.
  pose proof (os_read_Ok _ _ _ _ _ _ _ Hfd Hread) as (Hl1 & Hf1 & i & k & Hi & Hc).
  assert (Hlen : length chunk ≤ Z.to_nat remaining) by (rw Hc length_take; lia).
  assert (Hst : ∀ j, stable h ino → f_inodes (h_files h) !! ino = Some j → j = i).
  { intros j Hs Hj. rw (stable_files _ _ 1 Hs) in Hi. congruence. }
  case_bool_decide as Hnil.
  - injection Hk as <- <-. subst chunk. split; [by exists 1|]. rw Hnil in Hf1. split; [done|]. cbn.
    split; [lia|]. intros j Hs Hj. rw (Hst j Hs Hj). destruct (drop off (i_content i)) as [|c l]; [by rw take_nil|].
    exfalso. destruct (Z.to_nat remaining) eqn:E; [lia|]. done.
  - apply bind_Ok_inv in Hk as (h2 & chunks & Hrec & Hret). injection Hret as <- <-.
    apply (IH _ _ (off + length chunk)) in Hrec as ((n & Hl2) & Hf2 & Hle & Hb); [|lia|by rw Hf1 lookup_insert_eq].
    split; [exists (1 + n); by eapply later_trans|]. rw Hf2 Hf1 insert_insert_eq length_app.
    split; [by rw Nat.add_assoc|]. split; [lia|]. intros j Hs Hj. pose proof (Hst j Hs Hj) as ->.
    rw (Hb i); [|by eapply stable_later|rw (lt_files _ _ _ Hl1); by rw (stable_files _ _ 1 Hs)].
    pose proof (take_step (drop off (i_content i)) (S k) (Z.to_nat remaining)) as Ht.
    rw take_take in Ht. rw -Hc in Ht. rw Ht. f_equal. rw drop_drop. f_equal. lia.
Qed.

Lemma with_descriptor_Ok {A} path label (body : nat → M host A) h h' a :
  with_descriptor path label body h = (h', Ok a) →
  (0%Z ∉ path) ∧ ∃ fd ino h1 h2, later 1 h h1 ∧ h_fds h !! fd = None ∧
    h_fds h1 = <[fd := (ino, 0)]> (h_fds h) ∧ resolve (follow_limit h) (files_at h 1) path = Some ino ∧ body fd h1 = (h2, Ok a).
Proof.
  unfold with_descriptor. intros (h1 & fd & Ho & Hf)%bind_Ok_inv.
  unfold except_asM in Ho. destruct (os_open path h) as [h1' r] eqn:Hop. cbn in Ho.
  injection Ho as -> Hr. apply except_as_Ok in Hr as ->.
  apply os_open_Ok in Hop as (H0 & Hl & ino & Hnew & Hfds & Hres).
  split; [done|]. exists fd, ino, h1. unfold finallyM, except_asM in Hf.
  destruct (body fd h1) as [h2 r2]. exists h2. cbn in Hf. do 4 (split; [done|]).
  destruct (ev_error _); [done|]. injection Hf as _ Hr. apply except_as_Ok in Hr as ->. done.
Qed.

(** On POSIX, a secret belongs to root or to the service, and to nobody else. *)
Definition owner_ok (p : platform) (private : bool) (i : inode) : Prop :=
  private = true → p_posix p = true →
    ∃ euid, p_euid p = Some euid ∧ (st_uid i = 0 ∨ st_uid i = euid)%Z ∧ (Z.land (st_mode i) 0x3F = 0)%Z.

(** What the checks establish of a file: named by the path when it was opened, by its own
entry where links are not followed; regular, bounded, and for secrets owned by root or
the service and closed to everyone else. *)
Record checked_file (h : host) (start : nat) (path : pystr) (maximum_bytes : Z) (private : bool)
    (ino : nat) (i : inode) : Prop := {
  cf_named : resolve (follow_limit h) (files_at h (S start)) path = Some ino;
  cf_entry : p_nofollow (h_platform h) = true → f_entries (files_at h (S start)) !! path = Some (File ino);
  cf_inode : f_inodes (files_at h (S (S start))) !! ino = Some i;
  cf_regular : S_ISREG (st_mode i) = true;
  cf_size : (st_size i ≤ maximum_bytes)%Z;
  cf_private : owner_ok (h_platform h) private i;
}.

Lemma resolve_entry h f path ino :
  resolve (follow_limit h) f path = Some ino → p_nofollow (h_platform h) = true →
  f_entries f !! path = Some (File ino).
Proof. unfold follow_limit. intros Hr Hn. rw Hn in Hr. cbn in Hr. repeat case_match; naive_solver. Qed.

Lemma not_bounded_false maximum_bytes i :
  not_bounded maximum_bytes i = false ↔ S_ISREG (st_mode i) = true ∧ (st_size i ≤ maximum_bytes)%Z.
Proof. unfold not_bounded. rw orb_false_iff negb_false_iff. by rw Z.ltb_ge. Qed.

Lemma too_broad_false euid i :
  too_broad euid i = false ↔ (st_uid i = 0 ∨ st_uid i = euid)%Z ∧ (Z.land (st_mode i) 0x3F = 0)%Z.
Proof.
  unfold too_broad. rw orb_false_iff !negb_false_iff bool_decide_eq_true Z.eqb_eq. set_solver.
Qed.

(** One stateful check that passed. *)
Lemma seq_Ok_inv {W A} (m : M W unit) (k : M W A) w w' a :
  (m;; k) w = (w', Ok a) → ∃ w1, m w = (w1, Ok tt) ∧ k w1 = (w', Ok a).
Proof. intros (w1 & [] & H1 & H2)%bind_Ok_inv. eauto. Qed.

Lemma lift_if_Ok {W} b e (w w' : W) u : lift (raise_if b e) w = (w', Ok u) → w' = w ∧ b = false.
Proof. unfold lift. intros [= <- Hb%raise_if_Ok]. done. Qed.

Lemma read_regular_file_Ok path label maximum_bytes private h h' bytes :
  (0 ≤ maximum_bytes)%Z →
  _read_regular_file path label maximum_bytes private h = (h', Ok bytes) →
  is_absolute path = true ∧ ∃ ino i, checked_file h 1 path maximum_bytes private ino i ∧
    Z.of_nat (length bytes) = st_size i ∧ (stable h ino → bytes = i_content i).
Proof.
  intros Hmax. unfold _read_regular_file.
  intros (h0 & [-> Habs]%lift_if_Ok & Hrun)%seq_Ok_inv. apply negb_false_iff in Habs. split; [done|].
  apply bind_Ok_inv in Hrun as (h1 & link & Hlink & Hrun).
  apply seq_Ok_inv in Hrun as (h1' & [-> _]%lift_if_Ok & Hrun).
  apply with_descriptor_Ok in Hrun as (H0 & fd & ino & h2 & h3 & Hl2 & Hnew & Hfds & Hres & Hbody).
  apply is_symlink_Ok in Hlink as (Hl1 & Hfds1 & _); [|done].
  apply bind_Ok_inv in Hbody as (h4 & i & Hstat & Hbody).
  apply os_fstat_Ok in Hstat as (Hl4 & Hfds4 & ino' & off & Hfd & Hi).
  rw Hfds lookup_insert_eq in Hfd. injection Hfd as <- <-.
  apply seq_Ok_inv in Hbody as (h4' & Hchk & Hbody). apply lift_if_Ok in Hchk as [-> Hchk].
  apply not_bounded_false in Hchk as [Hreg Hsize].
  apply bind_Ok_inv in Hbody as (h5 & posix & Hposix & Hbody). injection Hposix as <- <-.
  apply seq_Ok_inv in Hbody as (h5 & Hown & Hbody).
  pose proof (later_trans _ _ _ _ _ Hl1 Hl2) as Hl12.
  assert (Hp4 : h_platform h4 = h_platform h).
  { rw (lt_platform _ _ _ Hl4) (lt_platform _ _ _ Hl2). apply (lt_platform _ _ _ Hl1). }
  assert (Hown' : h5 = h4 ∧ owner_ok (h_platform h) private i).
  { unfold owner_ok. rw -Hp4. destruct (private && p_posix (h_platform h4)) eqn:Hpp.
    - apply bind_Ok_inv in Hown as (h6 & euid & Heuid & Hown). injection Heuid as <- Heuid.
      destruct euid as [euid|]; [|done]. apply lift_if_Ok in Hown as [-> Hown].
      apply too_broad_false in Hown. split; [done|]. intros _ _. by exists euid.
    - injection Hown as <-. split; [done|]. intros Hpr Hpo. by rw Hpr Hpo in Hpp. }
  destruct Hown' as [-> Hpriv]. clear Hown.
  apply bind_Ok_inv in Hbody as (h6 & encoded & Hread & Hbody).
  apply (read_chunks_Ok _ _ _ _ _ _ ino 0) in Hread as ((n & Hl6) & Hfds6 & Hle & Hstable);
    [|lia|by rw Hfds4 Hfds lookup_insert_eq].
  apply bind_Ok_inv in Hbody as (h7 & final & Hstat & Hbody).
  apply seq_Ok_inv in Hbody as (h7' & Hchk & Hret). apply lift_if_Ok in Hchk as [-> Hchk].
  injection Hret as _ <-. rw !orb_false_iff !negb_false_iff !Z.eqb_eq Z.ltb_ge in Hchk.
  destruct Hchk as [[Hb1 Hb2] Hb3].
  pose proof (later_trans _ _ _ _ _ Hl12 Hl4) as Hl14.
  assert (Hpl : follow_limit h1 = follow_limit h) by (unfold follow_limit; by rw (lt_platform _ _ _ Hl1)).
  rw (files_at_add _ _ _ _ Hl1) Hpl in Hres. rw (files_at_add _ _ _ _ Hl12) in Hi.
  exists ino, i. split; [|split; [lia|]].
  - split; [done| |done|done|done|done]. by apply resolve_entry.
  - intros Hs. rw (Hstable i); [|by eapply stable_later|by rw (lt_files _ _ _ Hl14)].
    cbn [drop]. apply take_ge. unfold st_size in Hsize. lia.
Qed.

(** ** Runs that raise *)
Definition raises {A} (E : exn → Prop) (m : M host A) : Prop := ∀ h, outcome E (λ _, True) (m h).2.

Lemma raises_bind {A B} E (m : M host A) (k : A → M host B) :
  raises E m → (∀ a, raises E (k a)) → raises E (m ≫= k).
Proof.
  intros Hm Hk h. unfold mbind, M_bind. specialize (Hm h). destruct (m h) as [h1 [a|e]]; [apply Hk|done].
Qed.

Lemma raises_check (E : exn → Prop) b e : E e → raises E (lift (raise_if b e)).
Proof. intros He h. by destruct b. Qed.

Lemma raises_syscall {A} (E : exn → Prop) (f : event → host → host * result A) :
  E OSError → (∀ ev h, outcome E (λ _, True) (f ev h).2) → raises E (syscall f).
Proof. intros HE Hf h. unfold syscall. by case_match. Qed.

Lemma os_read_raises E fd n : E OSError → raises E (os_read fd n).
Proof. intros HE. apply raises_syscall; [done|]. intros ev h. by repeat case_match. Qed.
Lemma os_fstat_raises E fd : E OSError → raises E (os_fstat fd).
Proof. intros HE. apply raises_syscall; [done|]. intros ev h. by repeat case_match. Qed.
Lemma is_symlink_raises E path : E OSError → raises E (is_symlink path).
Proof. intros HE. unfold is_symlink. by case_bool_decide; [|apply raises_syscall]. Qed.

Lemma os_read_length fd n h h' chunk :
  os_read fd n h = (h', Ok chunk) → length chunk ≤ Z.to_nat n.
Proof.
  intros Ho%syscall_Ok. destruct (h_fds _ !! fd) as [[ino off]|]; [|done].
  destruct (f_inodes _ !! ino) as [i|]; [|done].
  assert (Hc : chunk = take (S (ev_chunk (h_env h (h_time h))) `min` Z.to_nat n) (drop off (i_content i)))
    by by injection Ho. rw Hc length_take. lia.
Qed.

(** The loop ends: every chunk but the last brings it closer to the limit. *)
Lemma read_chunks_raises E fuel fd remaining :
  E OSError → (0 ≤ remaining ≤ Z.of_nat fuel)%Z → raises E (read_chunks fuel fd remaining).
Proof.
  intros HE. revert remaining. induction fuel as [|fuel IH]; intros remaining Hr h; cbn [read_chunks];
    destruct (Z.eqb_spec remaining 0); [done|exfalso; lia|done|].
  unfold mbind, M_bind. pose proof (os_read_raises E fd remaining HE h) as Hread.
  destruct (os_read fd remaining h) as [h1 [chunk|e]] eqn:Ho; [|done].
  apply os_read_length in Ho. case_bool_decide; [done|].
  assert (0 < length chunk) by (destruct chunk; [done|cbn; lia]).
  pose proof (IH (remaining - Z.of_nat (length chunk))%Z ltac:(lia) h1) as Hrec.
  by destruct (read_chunks _ _ _ h1) as [h2 [chunks|e]].
Qed.

(** What opening may raise: besides the check's own error, the error of [lstat] or
[close], and that of a path no system call takes. *)
Definition open_error (path : pystr) (e : exn) : Prop :=
  is_ValidationError e = true ∨ e = OSError ∨ e = ValueError ∧ 0%Z ∈ path.

Lemma with_descriptor_raises {A} path label (body : nat → M host A) (E : exn → Prop) :
  (∀ e, open_error path e → E e) → (∀ fd, raises E (body fd)) → raises E (with_descriptor path label body).
Proof.
  intros HE Hb. apply raises_bind.
  - intros h. unfold except_asM, os_open, raise, syscall. case_bool_decide; cbn; [apply HE; right; by right|].
    repeat (case_match; cbn); try done; apply HE; by left.
  - intros fd h. unfold finallyM, except_asM. specialize (Hb fd h). destruct (body fd h) as [h1 r]. cbn.
    unfold os_close. destruct (ev_error _); cbn; [apply HE; right; by left|].
    destruct r as [a|e]; [done|]. cbn in Hb |- *. case_match; [apply HE; by left|done].
Qed.

Ltac raises_step :=
  first [ apply raises_bind; [|intros ?] | apply raises_check | apply os_fstat_raises
        | apply is_symlink_raises | by intros ? ].

Lemma read_regular_file_raises path label maximum_bytes private :
  (0 ≤ maximum_bytes)%Z → raises (open_error path) (_read_regular_file path label maximum_bytes private).
Proof.
  intros Hmax. assert (HO : open_error path OSError) by (right; by left).
  assert (HV : ∀ m, open_error path (ValidationError m)) by (by left).
  unfold _read_regular_file. do 3 (raises_step; [raises_step; first [exact HO|apply HV]|]).
  apply with_descriptor_raises; [done|]. intros fd.
  do 2 (raises_step; [raises_step; first [exact HO|apply HV]|]). raises_step; [by intros h|].
  raises_step.
  { case_match; [|by intros h]. raises_step; [by intros h|]. case_match; [apply raises_check, HV|]. intros h. apply HV. }
  raises_step; [apply read_chunks_raises; [done|lia]|]. do 2 (raises_step; [raises_step; first [exact HO|apply HV]|]). by intros h.
Qed.

(** ** Undisturbed runs *)
Definition quiet (h : host) : Prop :=
  ∀ t, ev_error (h_env h t) = false ∧ ∀ f, ev_change (h_env h t) f = f.

Lemma quiet_files h n : quiet h → files_at h n = h_files h.
Proof. intros Hq. induction n as [|n IH]; [done|]. cbn [files_at]. by rw (proj2 (Hq _)). Qed.

Lemma quiet_later n h h' : quiet h → later n h h' → quiet h' ∧ h_files h' = h_files h.
Proof.
  intros Hq [_ He _ Hf]. split; [intros t; rw He; apply Hq|]. by rw Hf quiet_files.
Qed.

Lemma quiet_syscall {A} h (f : event → host → host * result A) :
  quiet h → syscall f h = f (h_env h (h_time h)) (tick h).
Proof. intros Hq. unfold syscall. by rw (proj1 (Hq _)). Qed.

Lemma quiet_stable h ino : quiet h → stable h ino.
Proof. intros Hq t f. by rw (proj2 (Hq t)). Qed.

Lemma quiet_fstat h fd ino off i :
  quiet h → h_fds h !! fd = Some (ino, off) → f_inodes (h_files h) !! ino = Some i →
  os_fstat fd h = (tick h, Ok i).
Proof.
  intros Hq Hfd Hi. unfold os_fstat. rw quiet_syscall //. cbn. rw Hfd. cbn. by rw (proj2 (Hq _)) Hi.
Qed.

Lemma quiet_read h fd n ino off i :
  quiet h → h_fds h !! fd = Some (ino, off) → f_inodes (h_files h) !! ino = Some i →
  ∃ h1 chunk, os_read fd n h = (h1, Ok chunk).
Proof.
  intros Hq Hfd Hi. unfold os_read. rw quiet_syscall //. cbn. rw Hfd (proj2 (Hq _)) Hi. by eexists _, _.
Qed.

Lemma quiet_read_chunks fuel fd remaining h ino off i :
  quiet h → (0 ≤ remaining ≤ Z.of_nat fuel)%Z → h_fds h !! fd = Some (ino, off) →
  f_inodes (h_files h) !! ino = Some i →
  ∃ h' bytes, read_chunks fuel fd remaining h = (h', Ok bytes).
Proof.
  revert remaining h off. induction fuel as [|fuel IH]; intros remaining h off Hq Hr Hfd Hi;
    cbn [read_chunks]; destruct (Z.eqb_spec remaining 0); [by eexists _, _|exfalso; lia|by eexists _, _|].
  destruct (quiet_read h fd remaining ino off i Hq Hfd Hi) as (h1 & chunk & Ho).
  unfold mbind, M_bind. rw Ho. pose proof (os_read_length _ _ _ _ _ Ho) as Hlen.
  apply (os_read_Ok _ _ _ _ _ ino off Hfd) in Ho as (Hl & Hf & _).
  case_bool_decide as Hnil; [by eexists _, _|].
  apply quiet_later in Hl as [Hq1 Hf1]; [|done].
  assert (0 < length chunk) by (destruct chunk; [done|cbn; lia]).
  destruct (IH (remaining - Z.of_nat (length chunk))%Z h1 (off + length chunk) Hq1) as (h' & bytes & ->);
    [lia|rw Hf; apply lookup_insert_eq|by rw Hf1|by eexists _, _].
Qed.

(** A file that meets the checks, in an undisturbed system. *)
Record readable_file (h : host) (path : pystr) (maximum_bytes : Z) (private : bool) (i : inode) : Prop := {
  rf_quiet : quiet h;
  rf_path : (0%Z ∉ path);
  rf_entry : ∃ ino, f_entries (h_files h) !! path = Some (File ino) ∧ f_inodes (h_files h) !! ino = Some i;
  rf_regular : S_ISREG (st_mode i) = true;
  rf_size : (st_size i ≤ maximum_bytes)%Z;
  rf_private : owner_ok (h_platform h) private i;
}.

Lemma quiet_symlink h path ino :
  quiet h → (0%Z ∉ path) → f_entries (h_files h) !! path = Some (File ino) →
  is_symlink path h = (tick h, Ok false).
Proof.
  intros Hq H0 He. unfold is_symlink. rw bool_decide_false // quiet_syscall //. cbn.
  by rw (proj2 (Hq _)) He.
Qed.

Lemma quiet_open h path ino :
  quiet h → (0%Z ∉ path) → f_entries (h_files h) !! path = Some (File ino) →
  ∃ fd, h_fds h !! fd = None ∧ os_open path h = (with_fds <[fd := (ino, 0)]> (tick h), Ok fd).
Proof.
  intros Hq H0 He. exists (fresh (dom (h_fds h))). split; [apply not_elem_of_dom, is_fresh|].
  unfold os_open. rw bool_decide_false // quiet_syscall //. cbn. rw (proj2 (Hq _)).
  assert (Hr : ∀ n, resolve n (h_files h) path = Some ino) by (intros [|n]; cbn; by rw He).
  by rw Hr.
Qed.

(** A descriptor in an undisturbed system: the body's own result is the result. *)
Lemma quiet_descriptor {A} h path label ino (body : nat → M host A) a :
  quiet h → (0%Z ∉ path) → f_entries (h_files h) !! path = Some (File ino) →
  (∀ fd h1, quiet h1 → later 1 h h1 → h_fds h1 !! fd = Some (ino, 0) →
    ∃ n h2, later n h1 h2 ∧ body fd h1 = (h2, Ok a)) →
  ∃ h', with_descriptor path label body h = (h', Ok a).
Proof.
  intros Hq H0 He Hb. destruct (quiet_open h path ino Hq H0 He) as (fd & _ & Ho).
  unfold with_descriptor, mbind, M_bind, except_asM. rw Ho. cbn.
  set (h1 := with_fds _ _). assert (Hl : later 1 h h1) by apply later_with_fds, later_tick.
  pose proof (quiet_later _ _ _ Hq Hl) as [Hq1 _].
  destruct (Hb fd h1 Hq1 Hl (lookup_insert_eq _ _ _)) as (n & h2 & Hl2 & Hrun).
  pose proof (quiet_later _ _ _ Hq1 Hl2) as [Hq2 _].
  unfold finallyM. rw Hrun. cbn. unfold os_close. rw (proj1 (Hq2 _)). cbn. by eexists.
Qed.

(** Checks that pass are skipped. *)
Lemma lift_seq {W A} b e (k : M W A) w : b = false → (lift (raise_if b e);; k) w = k w.
Proof. by intros ->. Qed.
Lemma bind_Ok {W A B} (m : M W A) (k : A → M W B) w w' a : m w = (w', Ok a) → (m ≫= k) w = k a w'.
Proof. unfold mbind, M_bind. by intros ->. Qed.

Lemma quiet_contents h fd ino i maximum_bytes :
  quiet h → h_fds h !! fd = Some (ino, 0) → f_inodes (h_files h) !! ino = Some i →
  (st_size i ≤ maximum_bytes)%Z →
  ∃ n h', later n h h' ∧ h_fds h' !! fd = Some (ino, length (i_content i)) ∧
    read_chunks (Z.to_nat (maximum_bytes + 1)) fd (maximum_bytes + 1) h = (h', Ok (i_content i)).
Proof.
  intros Hq Hfd Hi Hsize. unfold st_size in Hsize.
  destruct (quiet_read_chunks (Z.to_nat (maximum_bytes + 1)) fd (maximum_bytes + 1) h ino 0 i Hq)
    as (h' & bytes & Hread); [lia|done|done|].
  pose proof Hread as Hr. apply (read_chunks_Ok _ _ _ _ _ _ ino 0) in Hr as ((n & Hl) & Hfds & _ & Hb); [|lia|done].
  specialize (Hb i (quiet_stable h ino Hq) Hi). rw drop_0 take_ge in Hb; [|lia]. subst bytes.
  exists n, h'. split; [done|]. split; [rw Hfds; apply lookup_insert_eq|done].
Qed.

Lemma owner_passes {A} h private i (check : option Z → M host unit) (k : M host A) :
  owner_ok (h_platform h) private i →
  (∀ e, too_broad e i = false → check (Some e) = mret tt) →
  ((if private && p_posix (h_platform h) then euid ← os_geteuid; check euid else mret tt);; k) h = k h.
Proof.
  intros Ho Hc. destruct (private && p_posix (h_platform h)) eqn:Hp; [|done].
  apply andb_true_iff in Hp as [H1 H2]. destruct (Ho H1 H2) as (e & He & Ht).
  unfold mbind, M_bind, os_geteuid. rw He Hc //. by apply too_broad_false.
Qed.

Lemma read_regular_file_complete path label maximum_bytes private h i :
  (0 ≤ maximum_bytes)%Z → is_absolute path = true → readable_file h path maximum_bytes private i →
  ∃ h', _read_regular_file path label maximum_bytes private h = (h', Ok (i_content i)).
Proof.
  intros Hmax Habs [Hq H0 (ino & He & Hi) Hreg Hsize Hpriv]. unfold _read_regular_file.
  rw lift_seq; [|by rw Habs]. rw (bind_Ok _ _ _ _ _ (quiet_symlink h path ino Hq H0 He)).
  rw lift_seq //. pose proof (quiet_later _ _ _ Hq (later_tick h)) as [Hq0 Hf0].
  apply (quiet_descriptor _ _ _ ino); [done|done|by rw Hf0|].
  intros fd h1 Hq1 Hl1 Hfd. pose proof (quiet_later _ _ _ Hq0 Hl1) as [_ Hf1].
  rw Hf0 in Hf1. assert (Hi1 : f_inodes (h_files h1) !! ino = Some i) by by rw Hf1.
  rw (bind_Ok _ _ _ _ _ (quiet_fstat h1 fd ino 0 i Hq1 Hfd Hi1)).
  rw lift_seq; [|by apply not_bounded_false].
  pose proof (quiet_later _ _ _ Hq1 (later_tick h1)) as [Hq2 Hf2]. rw Hf1 in Hf2.
  assert (Hown : owner_ok (h_platform (tick h1)) private i).
  { cbn. by rw (lt_platform _ _ _ Hl1). }
  change (h_fds h1) with (h_fds (tick h1)) in Hfd. set (h2 := tick h1) in *.
  rw (bind_Ok os_posix _ h2 h2 (p_posix (h_platform h2)) eq_refl).
  rw (owner_passes h2 private i) //; [|intros e Ht; unfold lift; by rw Ht].
  destruct (quiet_contents h2 fd ino i maximum_bytes Hq2 Hfd ltac:(by rw Hf2) Hsize) as (n & h3 & Hl3 & Hfd3 & Hread).
  pose proof (quiet_later _ _ _ Hq2 Hl3) as [Hq3 Hf3].
  exists (1 + (n + 1)), (tick h3).
  split; [apply (later_trans _ _ _ h2); [apply later_tick|]; eapply later_trans; [done|apply later_tick]|].
  rw (bind_Ok _ _ _ _ _ Hread).
  rw (bind_Ok _ _ _ _ _ (quiet_fstat h3 fd ino (length (i_content i)) i Hq3 Hfd3 ltac:(by rw Hf3 Hf2))).
  cbv zeta. rw lift_seq //. unfold st_size in *. rw !Z.eqb_refl. cbn [negb]. rw !orb_false_r.
  by apply Z.ltb_ge.
Qed.

(** ** References *)
Lemma fd_path_fd fd : fd_of_path (fd_path fd) = Some fd.
Proof.
  unfold fd_of_path, fd_path. rw (proj2 (strip_prefix_Some _ _ (int_str (Z.of_nat fd))) eq_refl). cbn [mbind option_bind].
  destruct (int_str_digits (Z.of_nat fd) ltac:(lia)) as (Hd & Hv & Hn). rw Hd Hv.
  destruct (int_str (Z.of_nat fd)); [done|]. cbn. by rw Nat2Z.id.
Qed.

(** A reference leads to the inode the descriptor holds, whatever happens to the path. *)
Lemma reference_inode h fd ino off :
  p_posix (h_platform h) = true → h_fds h !! fd = Some (ino, off) → path_inode h (fd_path fd) = Some ino.
Proof. intros Hp Hfd. unfold path_inode. by rw fd_path_fd Hp Hfd. Qed.

Lemma library_read_Ok path h h' bytes :
  library_read path h = (h', Ok bytes) →
  later 1 h h' ∧ h_fds h' = h_fds h ∧ ∃ ino i, path_inode (tick h) path = Some ino ∧
    f_inodes (files_at h 1) !! ino = Some i ∧ bytes = i_content i.
Proof.
  intros Hr%syscall_Ok. destruct (path_inode (tick h) path) as [ino|] eqn:Hp; [|done]. cbn in Hr.
  destruct (f_inodes _ !! ino) as [i|] eqn:Hi; [|done]. injection Hr as <- <-.
  split; [apply later_tick|]. split; [done|]. exists ino, i. split_and!; [done| |done]. cbn. by rw Nat.add_0_r.
Qed.

Lemma regular_file_reference_Ok {A} path label maximum_bytes private (body : pystr → M host A) h h' a :
  regular_file_reference path label maximum_bytes private body h = (h', Ok a) →
  ∃ ino i fd h1 h2, checked_file h 1 path maximum_bytes private ino i ∧ later 3 h h1 ∧
    h_fds h !! fd = None ∧ h_fds h1 = <[fd := (ino, 0)]> (h_fds h) ∧
    body (if p_posix (h_platform h) then fd_path fd else path) h1 = (h2, Ok a).
Proof.
  unfold regular_file_reference. intros (h1 & link & Hlink & Hrun)%bind_Ok_inv.
  apply seq_Ok_inv in Hrun as (h1' & Hchk & Hrun). apply lift_if_Ok in Hchk as [-> _].
  apply with_descriptor_Ok in Hrun as (H0 & fd & ino & h2 & h3 & Hl2 & Hnew & Hfds & Hres & Hbody).
  apply is_symlink_Ok in Hlink as (Hl1 & Hfds1 & _); [|done].
  apply bind_Ok_inv in Hbody as (h4 & i & Hstat & Hbody).
  apply os_fstat_Ok in Hstat as (Hl4 & Hfds4 & ino' & off & Hfd & Hi).
  rw Hfds lookup_insert_eq in Hfd. injection Hfd as <- <-.
  apply seq_Ok_inv in Hbody as (h4' & Hchk & Hbody). apply lift_if_Ok in Hchk as [-> Hchk].
  apply not_bounded_false in Hchk as [Hreg Hsize].
  apply bind_Ok_inv in Hbody as (h5 & posix & Hposix & Hbody). injection Hposix as <- <-.
  apply seq_Ok_inv in Hbody as (h5 & Hown & Hbody).
  pose proof (later_trans _ _ _ _ _ Hl1 Hl2) as Hl12. pose proof (later_trans _ _ _ _ _ Hl12 Hl4) as Hl14.
  pose proof (lt_platform _ _ _ Hl14) as Hp4.
  assert (Hown' : h5 = h4 ∧ owner_ok (h_platform h) private i).
  { unfold owner_ok. rw -Hp4. destruct (private && p_posix (h_platform h4)) eqn:Hpp.
    - apply bind_Ok_inv in Hown as (h6 & euid & Heuid & Hown). injection Heuid as <- Heuid.
      apply lift_if_Ok in Hown as [-> Hown]. destruct euid as [euid|]; [|done].
      apply too_broad_false in Hown. split; [done|]. intros _ _. by exists euid.
    - injection Hown as <-. split; [done|]. intros Hpr Hpo. by rw Hpr Hpo in Hpp. }
  destruct Hown' as [-> Hpriv]. rw Hp4 in Hbody.
  assert (Hpl : follow_limit h1 = follow_limit h) by (unfold follow_limit; by rw (lt_platform _ _ _ Hl1)).
  rw (files_at_add _ _ _ _ Hl1) Hpl in Hres. rw (files_at_add _ _ _ _ Hl12) in Hi.
  exists ino, i, fd, h4, h3. split_and!; [|done|by rw -Hfds1|by rw Hfds4 Hfds Hfds1|done].
  split; [done| |done|done|done|done]. by apply resolve_entry.
Qed.

Lemma regular_file_reference_released {A} path label maximum_bytes private (body : pystr → M host A) :
  (∀ reference, leaves released (body reference)) →
  leaves released (regular_file_reference path label maximum_bytes private body).
Proof.
  intros Hb. unfold regular_file_reference. leaves_step; [apply is_symlink_released|].
  leaves_step; [leaves_step|]. apply with_descriptor_released. intros fd.
  apply (leaves_mono released); [apply released_held|]. leaves_step; [apply os_fstat_released|].
  do 2 (leaves_step; [leaves_step|]). leaves_step; [|apply Hb].
  case_match; [leaves_step|]; leaves_step.
Qed.

Lemma read_regular_file_released path label maximum_bytes private :
  leaves released (_read_regular_file path label maximum_bytes private).
Proof.
  unfold _read_regular_file. leaves_step; [leaves_step|]. leaves_step; [apply is_symlink_released|].
  leaves_step; [leaves_step|]. apply with_descriptor_released. intros fd.
  assert (Hstat : leaves (held fd) (os_fstat fd)) by (eapply leaves_mono, os_fstat_released; apply released_held).
  leaves_step; [done|]. do 2 (leaves_step; [leaves_step|]). leaves_step.
  { case_match; [leaves_step; [leaves_step|case_match; leaves_step]|leaves_step]. }
  leaves_step; [apply read_chunks_held|]. leaves_step; [done|]. leaves_step; leaves_step.
Qed.

(** C22: reading a configuration or a secret. Whatever other processes do to the files between
the system calls, the bytes returned are as many as the size of one regular file within the limit, a
file the absolute path named by its own entry when it was opened, private to root or the service
where a secret is read, and they are its contents unless the file itself was rewritten meanwhile;
every other outcome is an error, the loop over short reads ends, and the descriptor is closed on every
path. An undisturbed file that meets the checks is read in full, however the reads are cut. *)
Theorem regular_file_read path label maximum_bytes private h :
  (0 ≤ maximum_bytes)%Z →
  let '(h', r) := _read_regular_file path label maximum_bytes private h in
  released h h' ∧
  match r with
  | Ok bytes =>
    is_absolute path = true ∧ ∃ ino i, checked_file h 1 path maximum_bytes private ino i ∧
      Z.of_nat (length bytes) = st_size i ∧ (stable h ino → bytes = i_content i)
  | Raise e => open_error path e
  end ∧
  ∀ i, is_absolute path = true → readable_file h path maximum_bytes private i → r = Ok (i_content i).
Proof.
  intros Hmax. pose proof (read_regular_file_released path label maximum_bytes private h) as Hrel.
  pose proof (read_regular_file_raises path label maximum_bytes private Hmax h) as Hraise.
  pose proof (λ h' b, read_regular_file_Ok path label maximum_bytes private h h' b Hmax) as Hok.
  pose proof (λ i Ha, read_regular_file_complete path label maximum_bytes private h i Hmax Ha) as Hc.
  destruct (_read_regular_file path label maximum_bytes private h) as [h' r].
  split; [done|]. split; [destruct r; [by eapply Hok|done]|].
  intros i Ha Hi. destruct (Hc i Ha Hi) as [h'' Hr]. by injection Hr.
Qed.

(** A private file read three bytes at a time, then two, then one. *)
Module FileSample.
Definition secret : inode := mkInode 0x8180 1000 [112; 111; 115; 116; 103; 114; 101]%Z.
Definition system : files :=
  mkFiles (<[py "/run/dsn" := File 7]> (<[py "/run/link" := Link (py "/run/dsn")]> ∅)) {[7 := secret]}.
Definition machine : host :=
  mkHost (mkPlatform true true (Some 1000%Z)) (λ t, mkEvent id false (2 - t `mod` 3)) 0 system ∅.

Lemma readable : readable_file machine (py "/run/dsn") 64 true secret.
Proof.
  split; [by intros t|vm_compute; by repeat (intros [?|?]%elem_of_cons; [done|])||set_solver| |reflexivity|done|].
  - exists 7. split; reflexivity.
  - intros _ _. exists 1000%Z. split; [reflexivity|]. split; [by right|reflexivity].
Qed.
End FileSample.

Lemma regular_file_read_witness :
  (_read_regular_file (py "/run/dsn") (py "dsn") 64 true FileSample.machine).2 = Ok (i_content FileSample.secret) ∧
  (_read_regular_file (py "/run/link") (py "dsn") 64 true FileSample.machine).2 = Raise (unsafe (py "dsn")).
Proof.
  split; [|vm_compute; reflexivity].
  pose proof (regular_file_read (py "/run/dsn") (py "dsn") 64 true FileSample.machine ltac:(lia)) as H.
  destruct (_read_regular_file (py "/run/dsn") (py "dsn") 64 true FileSample.machine) as [h' r].
  destruct H as (_ & _ & H). exact (H _ eq_refl FileSample.readable).
Defined.
