(* ===== verification/DatabaseDsn.v ===== *)
(** * The database credential ([load_database_dsn] of [agent_service.py])

[conninfo_to_dict], libpq's reading of a connection string, is a parameter, as is
[str.lower], whose tables are the interpreter's. *)
From stdpp Require Import prelude strings gmap sorting pretty ssreflect.
From S2P Require Import Prelude Json Text JsonLoads Domain AgentApi Http Net UrlText Configuration Files.

Set Warnings "-clear-no-such-hyp".

Definition MAX_DATABASE_DSN_BYTES : Z := 4096.

(** A value of the dictionary: a string, an integer, or [None]. *)
Inductive conn_param := ConnStr (s : pystr) | ConnInt (z : Z) | ConnNone.

#[export] Instance conn_param_eq_dec : EqDecision conn_param.
Proof. solve_decision. Defined.

Definition conninfo : Type := list (pystr * conn_param).
Definition param (key : string) (p : conninfo) : option conn_param :=
  snd <$> find (λ f, bool_decide (f.1 = py key)) p.
(** [parameters.get(key)]. *)
Definition param_get (key : string) (p : conninfo) : conn_param := default ConnNone (param key p).

Definition starts_with (prefix : string) (s : pystr) : bool :=
  match strip_prefix (py prefix) s with Some _ => true | None => false end.

Definition ends_with_colon (s : pystr) : bool := bool_decide (last s = Some 58%Z).

(** [value.removeprefix("postgresql://").split("/", 1)[0]], then [.split("@", 1)[-1]]. *)
Definition raw_host_authority (value : pystr) : pystr :=
  let rest := match strip_prefix (py "postgresql://") value with Some r => r | None => value end in
  let raw_authority := (partition 47 rest).1 in
  match partition 64 raw_authority with (_, Some host) => host | (whole, None) => whole end.

(** [value.partition("?")[2]]. *)
Definition raw_query (value : pystr) : pystr := default [] (partition 63 value).2.

Lemma param_get_str key p s : param_get key p = ConnStr s ↔ param key p = Some (ConnStr s).
Proof. unfold param_get. destruct (param key p); naive_solver. Qed.

Lemma param_default_str key p s : default (ConnStr []) (param key p) = ConnStr s → s ≠ [] → param key p = Some (ConnStr s).
Proof. destruct (param key p); cbn; naive_solver. Qed.

Lemma raise_if_seq_Ok {A} b e (k : result A) a : (raise_if b e;; k) = Ok a ↔ b = false ∧ k = Ok a.
Proof. rw result_seq_Ok. by rw raise_if_Ok. Qed.

Section dsn.
Context (conninfo_to_dict : pystr → result conninfo) (lower : pystr → pystr).

Definition malformed : exn := verr "database DSN credential has an invalid format".

(** The body of the [try] statement: the parameters, the address and the query's fields. *)
Definition parse_dsn (value : pystr) : result (conninfo * pystr * ip_addr * list pystr) :=
  parameters ← conninfo_to_dict value;
  match default (ConnStr []) (param "host" parameters), default (ConnStr []) (param "dbname" parameters) with
  | ConnStr hostname, ConnStr database_name =>
    raise_if (bool_decide (44%Z ∈ hostname)) ValueError;;
    port ← match param_get "port" parameters with
           | ConnNone => Ok None
           | ConnStr s => Ok (Some s)
           | ConnInt _ => Raise ValueError
           end;
    raise_if (ends_with_colon (raw_host_authority value)) ValueError;;
    match port with
    | None => Ok tt
    | Some text =>
      match py_int text with
      | None => Raise ValueError
      | Some z => raise_if (negb ((1 <=? z) && (z <=? 65535)))%Z ValueError
      end
    end;;
    match parse_qsl (raw_query value) with
    | None => Raise ValueError
    | Some fields =>
      match ip_address hostname with
      | None => Raise ValueError
      | Some address => Ok (parameters, database_name, address, lower ∘ fst <$> fields)
      end
    end
  | _, _ => Raise ValueError
  end.

Definition forbidden_targets : list pystr := [py "host"; py "hostaddr"; py "service"].

Definition check_dsn (value : pystr) : result pystr :=
  raise_if (negb (bool_decide (value = py_strip value)) || bool_decide (0%Z ∈ value)
            || bool_decide (13%Z ∈ value) || bool_decide (10%Z ∈ value)) malformed;;
  '(parameters, database_name, address, query_fields) ← except_as is_ValueError malformed (parse_dsn value);
  raise_if (negb (starts_with "postgresql://" value)
            || str_empty database_name
            || negb (bool_decide (param_get "sslmode" parameters = ConnStr (py "verify-full")))
            || match param_get "sslrootcert" parameters with
               | ConnStr path => negb (is_absolute path)
               | _ => true
               end
            || negb (bool_decide (param_get "gssencmode" parameters = ConnStr (py "disable")))
            || existsb (λ f, bool_decide (f ∈ forbidden_targets)) query_fields
            || bool_decide (is_Some (param "hostaddr" parameters))
            || bool_decide (is_Some (param "service" parameters))
            || negb (allowed_address address)) malformed;;
  Ok value.

Definition load_database_dsn (environ : list pystr) (path : pystr) : M host pystr :=
  lift (raise_if (existsb (starts_with "PG") environ) (verr "libpq environment variables are not allowed"));;
  encoded ← _read_regular_file path (py "database DSN credential") MAX_DATABASE_DSN_BYTES true;
  lift (value ← except_as (λ e, bool_decide (e = UnicodeDecodeError)) (verr "database DSN credential is not UTF-8")
          (utf8_decode encoded);
        check_dsn value).

(** ** What an accepted credential is

One literal private address over TLS with a verified server name, no Kerberos encryption
to fall back to, and no parameter that would send libpq elsewhere. *)
Record safe_dsn (value : pystr) (p : conninfo) : Prop := {
  sd_parsed : conninfo_to_dict value = Ok p;
  sd_text : value = py_strip value ∧ ∀ c, c ∈ [0; 10; 13]%Z → c ∉ value;
  sd_scheme : ∃ rest, value = py "postgresql://" ++ rest;
  sd_host : ∃ hostname, param "host" p = Some (ConnStr hostname) ∧ (44%Z ∉ hostname) ∧
    names_address hostname private_range;
  sd_database : ∃ name, param "dbname" p = Some (ConnStr name) ∧ name ≠ [];
  sd_port : param_get "port" p = ConnNone ∨
    ∃ text z, param "port" p = Some (ConnStr text) ∧ py_int text = Some z ∧ (1 ≤ z ≤ 65535)%Z;
  sd_port_text : last (raw_host_authority value) ≠ Some 58%Z;
  sd_tls : param "sslmode" p = Some (ConnStr (py "verify-full")) ∧
    param "gssencmode" p = Some (ConnStr (py "disable")) ∧
    ∃ root, param "sslrootcert" p = Some (ConnStr root) ∧ head root = Some 47%Z;
  sd_targets : param "hostaddr" p = None ∧ param "service" p = None;
  sd_query : ∃ fields, parse_qsl (raw_query value) = Some fields ∧
    ∀ f, f ∈ fields → lower f.1 ∉ forbidden_targets;
}.

(** The port, if there is one. *)
Definition port_ok (p : conninfo) : Prop :=
  param_get "port" p = ConnNone ∨
  ∃ text z, param "port" p = Some (ConnStr text) ∧ py_int text = Some z ∧ (1 ≤ z ≤ 65535)%Z.

Lemma parse_dsn_Ok value p database address fields :
  parse_dsn value = Ok (p, database, address, fields) ↔
  conninfo_to_dict value = Ok p ∧ ∃ hostname parsed,
    default (ConnStr []) (param "host" p) = ConnStr hostname ∧
    default (ConnStr []) (param "dbname" p) = ConnStr database ∧
    (44%Z ∉ hostname) ∧ port_ok p ∧ last (raw_host_authority value) ≠ Some 58%Z ∧
    parse_qsl (raw_query value) = Some parsed ∧ fields = lower ∘ fst <$> parsed ∧
    ip_address hostname = Some address.
Proof using Type.
  unfold parse_dsn. destruct (conninfo_to_dict value) as [p'|e]; cbn [mbind result_bind]; [|split; [done|]; by intros [? _]].
  destruct (default (ConnStr []) (param "host" p')) as [hostname| |] eqn:Hh; [|split; [done|]; intros [[= <-] (hn & q & Hq & _)]; congruence..].
  destruct (default (ConnStr []) (param "dbname" p')) as [name| |] eqn:Hd;
    [|split; [done|]; intros [[= <-] (hn & q & _ & Hq & _)]; congruence..].
  rw raise_if_seq_Ok bool_decide_eq_false.
  assert (Hport : ∀ k : result (conninfo * pystr * ip_addr * list pystr),
    (port ← match param_get "port" p' with ConnNone => Ok None | ConnStr s => Ok (Some s) | ConnInt _ => Raise ValueError end;
     raise_if (ends_with_colon (raw_host_authority value)) ValueError;;
     match port with
     | None => Ok tt
     | Some text => match py_int text with None => Raise ValueError | Some z => raise_if (negb ((1 <=? z) && (z <=? 65535)))%Z ValueError end
     end;; k) = Ok (p, database, address, fields) ↔
    port_ok p' ∧ last (raw_host_authority value) ≠ Some 58%Z ∧ k = Ok (p, database, address, fields)).
  { intros k. unfold port_ok, ends_with_colon. destruct (param_get "port" p') as [text|z|] eqn:Hp; cbn [mbind result_bind].
    - rw raise_if_seq_Ok bool_decide_eq_false. apply param_get_str in Hp. rw Hp.
      destruct (py_int text) as [z|] eqn:Hz; [rw raise_if_seq_Ok negb_false_iff andb_true_iff !Z.leb_le|].
      + split; [intros (H1 & H2 & H3)|intros ([?|(t & z' & [= <-] & Hz' & H1)] & H2 & H3)]; [|done|].
        * split; [right; by exists text, z|done].
        * split; [done|]. split; [|done]. congruence.
      + split; [by intros [_ ?]|]. intros ([?|(t & z' & [= <-] & Hz' & _)] & _); congruence.
    - split; [done|]. unfold param_get in Hp. destruct (param "port" p') as [[]|]; try done.
      intros ([?|(t & z' & ? & _)] & _); done.
    - rw raise_if_seq_Ok bool_decide_eq_false. split; [intros [H1 H2]|intros (_ & H1 & H2)]; [|done].
      split; [by left|done]. }
  rw Hport. destruct (parse_qsl (raw_query value)) as [parsed|]; cycle 1.
  { split; [by intros (_ & _ & _ & ?)|]. intros (_ & hn & q & _ & _ & _ & _ & _ & ? & _). done. }
  destruct (ip_address hostname) as [a|] eqn:Ha; cycle 1.
  { split; [by intros (_ & _ & _ & ?)|]. intros ([= <-] & hn & q & Hq & _ & _ & _ & _ & _ & _ & Hip).
    rw Hh in Hq. injection Hq as <-. congruence. }
  split.
  - intros (H1 & H2 & H3 & [= <- <- <- <-]). split; [done|]. by exists hostname, parsed.
  - intros ([= <-] & hn & q & Hq & Hn & H1 & H2 & H3 & [= <-] & -> & Hip). rw Hh in Hq. injection Hq as <-.
    rw Hd in Hn. injection Hn as <-. rw Ha in Hip. by injection Hip as <-.
Qed.

Lemma fields_allowed (parsed : list (pystr * pystr)) :
  existsb (λ f, bool_decide (f ∈ forbidden_targets)) (lower ∘ fst <$> parsed) = false ↔
  ∀ f, f ∈ parsed → lower f.1 ∉ forbidden_targets.
Proof using Type.
  split.
  - intros He f Hf Hin. rw -not_true_iff_false existsb_exists in He. destruct He. exists (lower f.1).
    split; [|by apply bool_decide_eq_true]. apply list_elem_of_In, list_elem_of_fmap. by exists f.
  - intros Hf. apply not_true_iff_false. rw existsb_exists. intros (x & Hx%list_elem_of_In & Hin%bool_decide_eq_true).
    apply list_elem_of_fmap in Hx as (f & -> & Hx). by apply (Hf f).
Qed.

Lemma starts_with_spec prefix s : starts_with prefix s = true ↔ ∃ rest, s = py prefix ++ rest.
Proof using Type.
  unfold starts_with. destruct (strip_prefix (py prefix) s) as [r|] eqn:E.
  - apply strip_prefix_Some in E. by split; [exists r|].
  - split; [done|]. intros [rest Hr%strip_prefix_Some]. congruence.
Qed.

(** The checks accept exactly the safe credentials. *)
Lemma check_dsn_Ok value v : check_dsn value = Ok v ↔ v = value ∧ ∃ p, safe_dsn value p.
Proof using Type.
  unfold check_dsn. rw raise_if_seq_Ok !orb_false_iff negb_false_iff bool_decide_eq_true !bool_decide_eq_false.
  split.
  - intros ([[[Hs H0] H13] H10] & Hrun).
    apply result_bind_Ok_inv in Hrun as ([[[p db] a] fields] & Hp & Hrun).
    apply except_as_Ok, parse_dsn_Ok in Hp as (Hc & hostname & parsed & Hh & Hd & H44 & Hport & Hlast & Hq & -> & Ha).
    rw raise_if_seq_Ok !orb_false_iff !negb_false_iff !bool_decide_eq_true !bool_decide_eq_false fields_allowed allowed_address_range in Hrun.
    destruct Hrun as ([[[[[[[[Hscheme Hdb] Hssl] Hroot] Hgss] Hfields] Hha] Hsv] Haddr] & [= <-]).
    split; [done|]. exists p. split.
    + done.
    + split; [done|]. intros c. rw !elem_of_cons elem_of_nil. intros [->|[->|[->|[]]]]; done.
    + by apply starts_with_spec.
    + exists hostname. split; [apply param_default_str; [done|by intros ->]|]. split; [done|]. by exists a.
    + exists db. split; [apply param_default_str; [done|by intros ->]|by intros ->].
    + done.
    + done.
    + split; [by apply param_get_str|]. split; [by apply param_get_str|].
      destruct (param_get "sslrootcert" p) as [root| |] eqn:Hr; try done. exists root.
      split; [by apply param_get_str|]. apply negb_false_iff in Hroot. by apply bool_decide_eq_true in Hroot.
    + split; by apply eq_None_not_Some.
    + by exists parsed.
  - intros (-> & p & [Hc [Hs Hchars] Hscheme (hostname & Hh & H44 & a & Ha & Hr) (db & Hd & Hdb) Hport Hlast
      (Hssl & Hgss & root & Hroot & Habs) [Hha Hsv] (parsed & Hq & Hfields)]).
    split; [split; [split; [split|]|]; [done|apply Hchars; set_solver..]|].
    assert (Hp : parse_dsn value = Ok (p, db, a, lower ∘ fst <$> parsed)).
    { apply parse_dsn_Ok. split; [done|]. exists hostname, parsed. by rw Hh Hd. }
    rw Hp. cbn [except_as mbind result_bind]. apply raise_if_seq_Ok. split; [|done].
    rw !orb_false_iff !negb_false_iff !bool_decide_eq_true !bool_decide_eq_false fields_allowed allowed_address_range
      starts_with_spec !param_get_str (proj2 (param_get_str _ _ _) Hroot) negb_false_iff Hha Hsv.
    unfold is_absolute. rw bool_decide_eq_true. split_and!; try done; [by destruct db|by intros [? ?]..].
Qed.

(** What loading the credential may raise: the error of libpq's parser besides the others. *)
Definition dsn_error (path : pystr) (e : exn) : Prop :=
  open_error path e ∨ ∃ value, conninfo_to_dict value = Raise e.

Lemma parse_dsn_raises value :
  outcome (λ e, is_ValueError e = true ∨ conninfo_to_dict value = Raise e) (λ _, True) (parse_dsn value).
Proof using Type.
  unfold parse_dsn. destruct (conninfo_to_dict value) as [p|e]; cbn [mbind result_bind]; [|by right].
  destruct (default (ConnStr []) (param "host" p)) as [hostname| |]; [|by left..].
  destruct (default (ConnStr []) (param "dbname" p)) as [name| |]; [|by left..].
  eapply outcome_bind; [apply outcome_raise_if; by left|]. intros _ _.
  eapply (outcome_bind _ (λ _, True)); [destruct (param_get "port" p); [done|by left|done]|]. intros port _.
  eapply outcome_bind; [apply outcome_raise_if; by left|]. intros _ _.
  eapply (outcome_bind _ (λ _, True)).
  { destruct port as [text|]; [|done]. destruct (py_int text); [|by left].
    unfold raise_if. destruct (negb _); [by left|done]. }
  intros _ _. destruct (parse_qsl _); [|by left]. destruct (ip_address _); [done|by left].
Qed.

Lemma check_dsn_raises value e : check_dsn value = Raise e →
  is_ValidationError e = true ∨ conninfo_to_dict value = Raise e.
Proof using Type.
  unfold check_dsn. intros [[_ ->]%raise_if_Raise|[_ Hr]]%result_seq_Raise; [by left|].
  destruct (parse_dsn value) as [[[[p db] a] fields]|e'] eqn:Hp; cbn [except_as mbind result_bind] in Hr.
  - apply result_seq_Raise in Hr as [[_ ->]%raise_if_Raise|[_ ?]]; [by left|done].
  - destruct (is_ValueError e') eqn:He; cbn [mbind result_bind] in Hr; injection Hr as <-; [by left|]. right.
    pose proof (parse_dsn_raises value) as Hout. rw Hp in Hout. destruct Hout as [?|?]; [congruence|done].
Qed.

Lemma no_libpq_variables environ :
  existsb (starts_with "PG") environ = false ↔ ∀ name rest, name ∈ environ → name ≠ py "PG" ++ rest.
Proof using Type.
  rw -not_true_iff_false existsb_exists. split.
  - intros He name rest Hn ->. apply He. exists (py "PG" ++ rest). split; [by apply list_elem_of_In|].
    apply starts_with_spec. by exists rest.
  - intros Hn (name & Hin%list_elem_of_In & (rest & Heq)%starts_with_spec). by eapply Hn.
Qed.

Lemma load_database_dsn_Ok environ path h h' dsn :
  load_database_dsn environ path h = (h', Ok dsn) → ∃ p, safe_dsn dsn p.
Proof using Type.
  unfold load_database_dsn. intros (h1 & _ & Hr)%seq_Ok_inv.
  apply bind_Ok_inv in Hr as (h2 & b & _ & Hr). injection Hr as _ Hr.
  apply result_bind_Ok_inv in Hr as (value & _ & Hr). by apply check_dsn_Ok in Hr as [-> Hp].
Qed.

(** C23: the database credential is loaded safely. It is returned exactly as the file holds it, only if
no libpq variable is set, the file is a regular file private to root or the service, and the
connection string names one literal private address, a database, a verified TLS server with an
absolute root certificate, no GSS encryption, no invalid port, and no host, hostaddr or service
override in any letter case; anything else raises. A file that meets all this is accepted. *)
Theorem database_credential_safe environ path h :
  let '(h', r) := load_database_dsn environ path h in
  released h h' ∧
  match r with
  | Ok dsn =>
    (∀ name rest, name ∈ environ → name ≠ py "PG" ++ rest) ∧ (∃ p, safe_dsn dsn p) ∧
    ∃ ino i, checked_file h 1 path MAX_DATABASE_DSN_BYTES true ino i ∧
      (stable h ino → utf8_decode (i_content i) = Ok dsn)
  | Raise e => dsn_error path e
  end ∧
  ∀ i dsn p, (∀ name rest, name ∈ environ → name ≠ py "PG" ++ rest) → is_absolute path = true →
    readable_file h path MAX_DATABASE_DSN_BYTES true i → utf8_decode (i_content i) = Ok dsn →
    safe_dsn dsn p → r = Ok dsn.
Proof using Type.
  pose proof (no_libpq_variables environ) as Hpg.
  assert (Hm : (0 ≤ MAX_DATABASE_DSN_BYTES)%Z) by done.
  pose proof (read_regular_file_released path (py "database DSN credential") MAX_DATABASE_DSN_BYTES true h) as Hrel.
  pose proof (read_regular_file_raises path (py "database DSN credential") MAX_DATABASE_DSN_BYTES true Hm h) as Hraise.
  pose proof (λ h' b, read_regular_file_Ok path (py "database DSN credential") MAX_DATABASE_DSN_BYTES true h h' b Hm) as Hok.
  pose proof (λ i Ha, read_regular_file_complete path (py "database DSN credential") MAX_DATABASE_DSN_BYTES true h i Hm Ha) as Hc.
  unfold load_database_dsn. destruct (existsb (starts_with "PG") environ).
  { split; [reflexivity|]. split; [left; by left|]. intros i dsn p Hn%Hpg. done. }
  rw lift_seq //. unfold mbind at 1, M_bind at 1.
  destruct (_read_regular_file path _ _ _ h) as [h' [b|e]]; (split; [done|]); cycle 1.
  { split; [by left|]. intros i dsn p _ Ha Hi. destruct (Hc i Ha Hi) as [h'' ?]. done. }
  split.
  - unfold lift. cbn [snd]. destruct (utf8_decode b) as [value|e] eqn:Hu; cbn [except_as mbind result_bind].
    + destruct (check_dsn value) as [v|e] eqn:Hv.
      * apply check_dsn_Ok in Hv as [-> Hp]. split; [by apply Hpg|]. split; [done|].
        destruct (Hok h' b eq_refl) as (_ & ino & i & Hi & _ & Hs). exists ino, i. split; [done|].
        intros Hst. by rw -(Hs Hst).
      * apply check_dsn_raises in Hv as [?|?]; [left; by left|right; by exists value].
    + apply utf8_decode_raises in Hu as ->. left. by left.
  - intros i dsn p _ Ha Hi Hu Hp. destruct (Hc i Ha Hi) as [h'' [= -> ->]]. unfold lift. cbn [snd].
    rw Hu. cbn [except_as mbind result_bind]. apply check_dsn_Ok. split; [done|by exists p].
Qed.
End dsn.

Module DsnSample.
Definition dsn : pystr :=
  py "postgresql://rmm@10.0.0.7:5432/rmm?sslmode=verify-full&sslrootcert=/tls/ca&gssencmode=disable".
(** libpq's reading of two strings: the second overrides the target. *)
Definition parameters : conninfo :=
  [(py "user", ConnStr (py "rmm")); (py "host", ConnStr (py "10.0.0.7")); (py "port", ConnStr (py "5432"));
   (py "dbname", ConnStr (py "rmm")); (py "sslmode", ConnStr (py "verify-full"));
   (py "sslrootcert", ConnStr (py "/tls/ca")); (py "gssencmode", ConnStr (py "disable"))].
Definition overridden : pystr := dsn ++ py "&HostAddr=192.0.2.1".
Definition parser (value : pystr) : result conninfo :=
  if bool_decide (value = dsn) || bool_decide (value = overridden) then Ok parameters else Raise PsycopgError.
Definition secret : inode := mkInode 0x8180 1000 dsn.
Definition machine : host :=
  mkHost (mkPlatform true true (Some 1000%Z)) (λ t, mkEvent id false 9) 0
    (mkFiles {[py "/run/dsn" := File 1]} {[1 := secret]}) ∅.

Lemma accepted : check_dsn parser ascii_lower dsn = Ok dsn.
Proof. vm_compute. reflexivity. Qed.
Lemma override_refused : check_dsn parser ascii_lower overridden = Raise malformed.
Proof. vm_compute. reflexivity. Qed.

Lemma credential_readable : readable_file machine (py "/run/dsn") MAX_DATABASE_DSN_BYTES true secret.
Proof.
  split.
  - by intros t.
  - apply (bool_decide_eq_false (0%Z ∈ py "/run/dsn")). vm_compute. reflexivity.
  - exists 1. split; reflexivity.
  - reflexivity.
  - apply Z.leb_le. vm_compute. reflexivity.
  - intros _ _. exists 1000%Z. split; [reflexivity|]. split; [by right|reflexivity].
Qed.
End DsnSample.

Lemma database_credential_safe_witness :
  (load_database_dsn DsnSample.parser ascii_lower [py "HOME"; py "LANG"] (py "/run/dsn") DsnSample.machine).2
  = Ok DsnSample.dsn.
Proof.
  pose proof (database_credential_safe DsnSample.parser ascii_lower [py "HOME"; py "LANG"] (py "/run/dsn") DsnSample.machine) as H.
  destruct (load_database_dsn _ _ _ _ _) as [h' r]. destruct H as (_ & _ & H).
  destruct (proj1 (check_dsn_Ok DsnSample.parser ascii_lower _ _) DsnSample.accepted) as [_ [p Hp]].
  apply (H DsnSample.secret DsnSample.dsn p); [|reflexivity|exact DsnSample.credential_readable|vm_compute; reflexivity|exact Hp].
  intros name rest Hn Heq. subst name. rw !elem_of_cons elem_of_nil in Hn. by destruct Hn as [?|[?|?]].
Defined.
