(* ===== verification/Certificates.v ===== *)
(** * Endpoint certificates ([src/src/northgate_rmm/listener.py] and the CSR
checks of [src/src/northgate_rmm/enrollment.py])

The X.509 library is a class of operations: what it parses and verifies is not
part of the program. Every accessor that can raise returns a [result]. *)
From stdpp Require Import prelude strings ssreflect.
From S2P Require Import Prelude Uuid PyTime Sha256 Json Text JsonLoads UuidText Domain AgentApi.

Set Warnings "-clear-no-such-hyp".

(** ** The library *)
Inductive curve := SECP256R1 | SECP384R1 | OtherCurve.
Inductive key_type :=
| Ed25519PublicKey
| EllipticCurvePublicKey (c : curve)
| RSAPublicKey (key_size : Z)
| OtherPublicKey.

Inductive general_name := UniformResourceIdentifier (value : pystr) | OtherGeneralName.

Class X509 := {
  Certificate : Type;
  Csr : Type;
  PublicKey : Type;
  load_der_x509_certificate : list Z → result Certificate;
  load_der_x509_csr : list Z → result Csr;
  (** [certificate.extensions.get_extension_for_class(...)] and the field read *)
  BasicConstraints_ca : Certificate → result bool;
  KeyUsage_digital_signature : Certificate → result bool;
  ExtendedKeyUsage : Certificate → result (list pystr);
  SubjectAlternativeName : Certificate → result (list general_name);
  (** for each extension: is it critical, is it an [UnrecognizedExtension] *)
  extensions : Certificate → result (list (bool * bool));
  certificate_public_key : Certificate → result PublicKey;
  certificate_public_bytes : Certificate → list Z;
  serial_number : Certificate → Z;
  issuer_rfc4514_string : Certificate → pystr;
  not_valid_before_utc : Certificate → datetime;
  not_valid_after_utc : Certificate → datetime;
  (** [PolicyBuilder().store(roots).time(now).build_client_verifier().verify] *)
  client_verify : list Certificate → datetime → Certificate → list Certificate → result unit;
  is_signature_valid : Csr → result bool;
  subject_len : Csr → result Z;
  csr_extensions_len : Csr → result Z;
  attributes_len : Csr → result Z;
  csr_public_key : Csr → result PublicKey;
  csr_public_bytes : Csr → list Z;
  key_type_of : PublicKey → key_type;
  (** [public_bytes(DER, SubjectPublicKeyInfo)] *)
  subject_public_key_info : PublicKey → list Z;
}.

Section certificates.
Context `{X509}.

(** ** The endpoint certificate profile *)
Definition ENDPOINT_URI_PREFIX : pystr := py "urn:northgate-rmm:endpoint:".

(** [ExtendedKeyUsageOID.CLIENT_AUTH]. *)
Definition CLIENT_AUTH : pystr := py "1.3.6.1.5.5.7.3.2".

Definition key_fingerprint (key : PublicKey) : pystr :=
  py "sha256:" ++ Sha256.hexdigest (subject_public_key_info key).

(** [listener._supported_public_key]. *)
Definition listener_supported_public_key (key : PublicKey) : bool :=
  match key_type_of key with
  | Ed25519PublicKey => true
  | EllipticCurvePublicKey c => match c with OtherCurve => false | _ => true end
  | RSAPublicKey size => (2048 <=? size)%Z
  | OtherPublicKey => false
  end.

(** [except (ValueError, x509.ExtensionNotFound, x509.DuplicateExtension)]. *)
Definition is_profile_error (e : exn) : bool :=
  is_ValueError e || match e with ExtensionNotFound | DuplicateExtension => true | _ => false end.

Definition certificate_extensions (certificate : Certificate)
    : result (bool * bool * list pystr * list general_name) :=
  except_as is_profile_error (verr "client certificate profile is invalid")
    (ca ← BasicConstraints_ca certificate;
     digital_signature ← KeyUsage_digital_signature certificate;
     extended ← ExtendedKeyUsage certificate;
     names ← SubjectAlternativeName certificate;
     Ok (ca, digital_signature, extended, names)).

Definition endpoint_of_names (names : list general_name) : result uuid :=
  let invalid := verr "client certificate endpoint identity is invalid" in
  match names with
  | [UniformResourceIdentifier endpoint_value] =>
    match strip_prefix ENDPOINT_URI_PREFIX endpoint_value with
    | None => Raise invalid
    | Some endpoint_text =>
      match uuid_of_str endpoint_text with
      | None => Raise invalid
      | Some endpoint_id =>
        raise_if (negb (bool_decide (uuid_str endpoint_id = endpoint_text)))
          (verr "client certificate endpoint identity is not canonical");;
        Ok endpoint_id
      end
    end
  | _ => Raise invalid
  end.

Definition validate_endpoint_certificate (certificate : Certificate)
    : result VerifiedClientCertificate :=
  '(ca, digital_signature, extended, names) ← certificate_extensions certificate;
  raise_if (ca || negb digital_signature) (verr "client certificate purpose is invalid");;
  raise_if (negb (bool_decide (extended = [CLIENT_AUTH])))
    (verr "client certificate extended purpose is invalid");;
  endpoint_id ← endpoint_of_names names;
  all_extensions ← extensions certificate;
  raise_if (existsb (λ e, e.1 && e.2) all_extensions)
    (verr "client certificate has an unknown critical extension");;
  public_key ← certificate_public_key certificate;
  raise_if (negb (listener_supported_public_key public_key))
    (verr "client certificate public key is unsupported");;
  let peer := mkVerifiedClientCertificate endpoint_id (key_fingerprint public_key) in
  VerifiedClientCertificate_post_init peer;; Ok peer.

(** The TLS object: its protocol version and the peer's certificate, if any. *)
Record ssl_object := mkSslObject {
  ssl_version : option pystr;
  ssl_peercert : option (list Z);
}.

Definition extract_verified_client_certificate (ssl : option ssl_object)
    : result VerifiedClientCertificate :=
  match ssl with
  | None => Raise (verr "verified TLS 1.3 client certificate is required")
  | Some s =>
    raise_if (negb (bool_decide (ssl_version s = Some (py "TLSv1.3"))))
      (verr "verified TLS 1.3 client certificate is required");;
    match ssl_peercert s with
    | None | Some [] => Raise (verr "verified client certificate is required")
    | Some encoded =>
      certificate ← except_as is_ValueError (verr "client certificate profile is invalid")
        (load_der_x509_certificate encoded);
      validate_endpoint_certificate certificate
    end
  end.

(** ** The endpoint CSR *)
Definition MAX_CSR_BYTES : Z := 8192.

(** [enrollment._supported_public_key]. *)
Definition _supported_public_key (key : PublicKey) : bool :=
  match key_type_of key with
  | EllipticCurvePublicKey c => match c with OtherCurve => false | _ => true end
  | RSAPublicKey size => (2048 <=? size)%Z
  | _ => false
  end.

(** [except (UnsupportedAlgorithm, ValueError, DuplicateExtension, InvalidVersion)]. *)
Definition is_csr_error (e : exn) : bool :=
  is_ValueError e
  || match e with UnsupportedAlgorithm | DuplicateExtension | InvalidVersion => true | _ => false end.

(** [a or b] of comparisons that may raise: the second is read only when the
first is false. *)
Definition or_else (a : result bool) (b : result bool) : result bool :=
  a ≫= λ x : bool, if x then Ok true else b.
Definition nonzero (n : result Z) : result bool := z ← n; Ok (negb (z =? 0)%Z).

Definition _validate_csr (csr_der : list Z) : result (list Z * pystr) :=
  raise_if (negb ((1 <=? Z.of_nat (length csr_der)) && (Z.of_nat (length csr_der) <=? MAX_CSR_BYTES))%Z)
    (verr "endpoint CSR size is invalid");;
  except_as is_csr_error (verr "endpoint CSR is invalid")
    (csr ← load_der_x509_csr csr_der;
     valid ← is_signature_valid csr;
     raise_if (negb valid) (verr "endpoint CSR proof of possession is invalid");;
     claims ← or_else (nonzero (subject_len csr))
                (or_else (nonzero (csr_extensions_len csr)) (nonzero (attributes_len csr)));
     raise_if claims (verr "endpoint CSR contains unauthorized claims");;
     public_key ← csr_public_key csr;
     raise_if (negb (_supported_public_key public_key))
       (verr "endpoint CSR public key is unsupported");;
     Ok (csr_public_bytes csr, key_fingerprint public_key)).

(** ** What the checks establish *)

Lemma key_fingerprint_valid key : fullmatch_fingerprint (key_fingerprint key) = true.
Proof.
  unfold fullmatch_fingerprint, key_fingerprint. apply andb_true_iff. split.
  - apply bool_decide_eq_true_2. reflexivity.
  - exact (fullmatch_hexdigest (subject_public_key_info key)).
Qed.

(** The profile of an endpoint certificate bound to [endpoint_id] and [key]. *)
Record endpoint_profile (certificate : Certificate) (endpoint_id : uuid) (key : PublicKey)
    : Prop := {
  pf_leaf : BasicConstraints_ca certificate = Ok false;
  pf_usage : KeyUsage_digital_signature certificate = Ok true;
  pf_purpose : ExtendedKeyUsage certificate = Ok [CLIENT_AUTH];
  pf_name : SubjectAlternativeName certificate =
    Ok [UniformResourceIdentifier (ENDPOINT_URI_PREFIX ++ uuid_str endpoint_id)];
  pf_critical : ∃ l, extensions certificate = Ok l ∧ (true, true) ∉ l;
  pf_key : certificate_public_key certificate = Ok key;
  pf_supported : listener_supported_public_key key = true;
}.

Lemma endpoint_of_names_Ok names e :
  endpoint_of_names names = Ok e ↔
  names = [UniformResourceIdentifier (ENDPOINT_URI_PREFIX ++ uuid_str e)].
Proof.
  unfold endpoint_of_names. split.
  - destruct names as [|[v|] [|? ?]]; try done.
    destruct (strip_prefix _ v) as [t|] eqn:Hp; [|done]. apply strip_prefix_Some in Hp as ->.
    destruct (uuid_of_str t) as [u|] eqn:Hu; [|done].
    rw result_seq_Ok raise_if_Ok negb_false_iff bool_decide_eq_true. by intros [<- [= ->]].
  - intros ->. rw (proj2 (strip_prefix_Some _ _ _) eq_refl) uuid_of_str_str.
    rw bool_decide_eq_true_2 //.
Qed.

Lemma validate_endpoint_certificate_Ok certificate peer :
  validate_endpoint_certificate certificate = Ok peer ↔
  ∃ key, endpoint_profile certificate (vc_endpoint_id peer) key ∧
    vc_public_key_fingerprint peer = key_fingerprint key.
Proof.
  unfold validate_endpoint_certificate, certificate_extensions. split.
  - intros Hv. apply result_bind_Ok_inv in Hv as ([[[ca ds] ext] names] & He & Hv).
    apply except_as_Ok in He.
    apply result_bind_Ok_inv in He as (ca' & Hca & He).
    apply result_bind_Ok_inv in He as (ds' & Hds & He).
    apply result_bind_Ok_inv in He as (ext' & Hext & He).
    apply result_bind_Ok_inv in He as (names' & Hnames & [= -> -> -> ->]).
    rw !result_seq_Ok !raise_if_Ok negb_false_iff bool_decide_eq_true orb_false_iff negb_false_iff in Hv.
    destruct Hv as ([-> ->] & -> & Hv).
    apply result_bind_Ok_inv in Hv as (e & ->%endpoint_of_names_Ok & Hv).
    apply result_bind_Ok_inv in Hv as (exts & Hexts & Hv).
    rw result_seq_Ok raise_if_Ok in Hv. destruct Hv as [Hcrit Hv].
    apply result_bind_Ok_inv in Hv as (key & Hkey & Hv).
    rw !result_seq_Ok raise_if_Ok negb_false_iff in Hv. destruct Hv as (Hsup & _ & [= <-]).
    exists key. split; [|done]. split; [done..| |done|done]. exists exts. split; [done|].
    intros Hin. rw -not_true_iff_false existsb_exists in Hcrit. destruct Hcrit.
    exists (true, true). by rw list_elem_of_In in Hin.
  - destruct peer as [e fp]. intros (key & [Hca Hds Hext Hnames (l & Hl & Hcrit) Hkey Hsup] & Hfp).
    cbn in Hnames, Hfp. subst fp. rw Hca Hds Hext Hnames. cbn [mbind result_bind except_as].
    rw bool_decide_eq_true_2 // (proj2 (endpoint_of_names_Ok _ _) eq_refl) Hl.
    cbn [negb orb raise_if mbind result_bind].
    rw (_ : existsb _ l = false); last first.
    { apply not_true_iff_false. rw existsb_exists. intros ([[] []] & Hin & Hb); try done.
      by rw -list_elem_of_In in Hin. }
    cbn [raise_if mbind result_bind]. rw Hkey. cbn [mbind result_bind]. rw Hsup. cbn [negb raise_if].
    unfold VerifiedClientCertificate_post_init. cbn [vc_public_key_fingerprint].
    by rw key_fingerprint_valid.
Qed.

Lemma extract_Ok ssl peer :
  extract_verified_client_certificate ssl = Ok peer →
  ∃ s encoded certificate key, ssl = Some s ∧ ssl_version s = Some (py "TLSv1.3") ∧
    ssl_peercert s = Some encoded ∧ load_der_x509_certificate encoded = Ok certificate ∧
    endpoint_profile certificate (vc_endpoint_id peer) key ∧
    vc_public_key_fingerprint peer = key_fingerprint key.
Proof.
  unfold extract_verified_client_certificate. destruct ssl as [s|]; [|done].
  rw result_seq_Ok raise_if_Ok negb_false_iff bool_decide_eq_true. intros [Hv Hc].
  destruct (ssl_peercert s) as [[|b encoded]|] eqn:Hp; try done.
  apply result_bind_Ok_inv in Hc as (c & Hl%except_as_Ok & Hc).
  apply validate_endpoint_certificate_Ok in Hc as (key & Hprof & Hfp).
  by exists s, (b :: encoded), c, key.
Qed.

(** A CSR that passes: a valid self-signature, no claims, a supported key whose
fingerprint and whose re-encoded request are returned. *)
Lemma validate_csr_Ok csr_der canonical fp :
  _validate_csr csr_der = Ok (canonical, fp) →
  (1 ≤ Z.of_nat (length csr_der) ≤ MAX_CSR_BYTES)%Z ∧
  ∃ csr key, load_der_x509_csr csr_der = Ok csr ∧ is_signature_valid csr = Ok true ∧
    subject_len csr = Ok 0%Z ∧ csr_extensions_len csr = Ok 0%Z ∧ attributes_len csr = Ok 0%Z ∧
    csr_public_key csr = Ok key ∧ _supported_public_key key = true ∧
    canonical = csr_public_bytes csr ∧ fp = key_fingerprint key.
Proof.
  unfold _validate_csr. rw result_seq_Ok raise_if_Ok negb_false_iff. intros [Hsize Hv].
  split; [lia|]. apply except_as_Ok in Hv.
  apply result_bind_Ok_inv in Hv as (csr & Hl & Hv).
  apply result_bind_Ok_inv in Hv as (valid & Hvalid & Hv).
  rw result_seq_Ok raise_if_Ok negb_false_iff in Hv. destruct Hv as [-> Hv].
  apply result_bind_Ok_inv in Hv as (claims & Hclaims & Hv).
  rw result_seq_Ok raise_if_Ok in Hv. destruct Hv as [-> Hv].
  apply result_bind_Ok_inv in Hv as (key & Hkey & Hv).
  rw result_seq_Ok raise_if_Ok negb_false_iff in Hv. destruct Hv as [Hsup [= <- <-]].
  exists csr, key. unfold or_else, nonzero in Hclaims.
  destruct (subject_len csr) as [a|]; [|done]. cbn in Hclaims.
  destruct (a =? 0)%Z eqn:?; [|done]. cbn in Hclaims.
  destruct (csr_extensions_len csr) as [b|]; [|done]. cbn in Hclaims.
  destruct (b =? 0)%Z eqn:?; [|done]. cbn in Hclaims.
  destruct (attributes_len csr) as [c|]; [|done]. cbn in Hclaims.
  destruct (c =? 0)%Z eqn:?; [|done].
  split_and!; try done; do 2 f_equal; lia.
Qed.
End certificates.
