(* ===== verification/TlsContext.v ===== *)
(** * TLS contexts and their key material

[build_mtls_client_context] ([private_https.py]), [_build_server_context]
([enrollment_listener.py], [operator_listener.py]), [build_server_ssl_context] and
[_real_file] ([listener.py]), [load_tls_identity_public_key] ([tls_identity.py]) and
[load_endpoint_issuer_trust_root] ([enrollment_service.py]). OpenSSL and the X.509
library are classes of operations; [ssl.SSLError] is an [OSError]. *)
From stdpp Require Import prelude strings gmap sorting pretty ssreflect.
From S2P Require Import Prelude Uuid PyTime Json Text JsonLoads Domain AgentApi Http Net Configuration Certificates Files.

Set Warnings "-clear-no-such-hyp".

(** ** [ssl.SSLContext] *)
Inductive tls_version := MINIMUM_SUPPORTED | TLSv1_3 | MAXIMUM_SUPPORTED.
Inductive verify_mode := CERT_NONE | CERT_REQUIRED.
Inductive tls_protocol := PROTOCOL_TLS_CLIENT | PROTOCOL_TLS_SERVER.

Record ssl_context := mkContext {
  sc_protocol : tls_protocol;
  sc_minimum_version : tls_version;
  sc_maximum_version : tls_version;
  sc_verify_mode : verify_mode;
  sc_check_hostname : bool;
  sc_no_ticket : bool;
  sc_num_tickets : Z;
  sc_cert_chain : option (list Z * list Z);
  sc_verify_locations : list (list Z);
}.

(** [ssl.SSLContext(protocol)]: a client verifies certificates and host names. *)
Definition SSLContext (protocol : tls_protocol) : ssl_context :=
  let client := match protocol with PROTOCOL_TLS_CLIENT => true | PROTOCOL_TLS_SERVER => false end in
  mkContext protocol MINIMUM_SUPPORTED MAXIMUM_SUPPORTED
    (if client then CERT_REQUIRED else CERT_NONE) client false 2 None [].

Definition set_versions (lo hi : tls_version) (c : ssl_context) : ssl_context :=
  mkContext (sc_protocol c) lo hi (sc_verify_mode c) (sc_check_hostname c)
    (sc_no_ticket c) (sc_num_tickets c) (sc_cert_chain c) (sc_verify_locations c).
Definition set_verify (mode : verify_mode) (check_hostname : bool) (c : ssl_context) : ssl_context :=
  mkContext (sc_protocol c) (sc_minimum_version c) (sc_maximum_version c) mode check_hostname
    (sc_no_ticket c) (sc_num_tickets c) (sc_cert_chain c) (sc_verify_locations c).
Definition set_tickets (no_ticket : bool) (num_tickets : Z) (c : ssl_context) : ssl_context :=
  mkContext (sc_protocol c) (sc_minimum_version c) (sc_maximum_version c) (sc_verify_mode c)
    (sc_check_hostname c) no_ticket num_tickets (sc_cert_chain c) (sc_verify_locations c).
Definition set_chain (certificate key : list Z) (c : ssl_context) : ssl_context :=
  mkContext (sc_protocol c) (sc_minimum_version c) (sc_maximum_version c) (sc_verify_mode c)
    (sc_check_hostname c) (sc_no_ticket c) (sc_num_tickets c) (Some (certificate, key)) (sc_verify_locations c).
Definition add_ca (ca : list Z) (c : ssl_context) : ssl_context :=
  mkContext (sc_protocol c) (sc_minimum_version c) (sc_maximum_version c) (sc_verify_mode c)
    (sc_check_hostname c) (sc_no_ticket c) (sc_num_tickets c) (sc_cert_chain c)
    (sc_verify_locations c ++ [ca]).

(** What OpenSSL makes of the bytes it is given. *)
Class TLSLibrary := {
  tls_check_chain : list Z → list Z → result unit;
  tls_check_ca : list Z → result unit;
}.

Section contexts.
Context `{TLSLibrary}.

Definition load_verify_locations (cafile : pystr) (c : ssl_context) : M host ssl_context :=
  ca ← library_read cafile;
  lift (tls_check_ca ca);;
  mret (add_ca ca c).

Definition load_cert_chain (certfile keyfile : pystr) (c : ssl_context) : M host ssl_context :=
  certificate ← library_read certfile;
  key ← library_read keyfile;
  lift (tls_check_chain certificate key);;
  mret (set_chain certificate key c).

Definition MAX_TLS_CERTIFICATE_FILE_BYTES : Z := 65536.

(** ** The mTLS clients *)
Definition build_mtls_client_context
    (ca_certificate client_certificate client_private_key ca_label certificate_label private_key_label : pystr)
    : M host ssl_context :=
  let context := SSLContext PROTOCOL_TLS_CLIENT in
  let context := set_versions TLSv1_3 TLSv1_3 context in
  let context := set_verify CERT_REQUIRED true context in
  let context := set_tickets true (sc_num_tickets context) context in
  context ← regular_file_reference ca_certificate ca_label MAX_TLS_CERTIFICATE_FILE_BYTES false
    (λ ca_path, load_verify_locations ca_path context);
  regular_file_reference client_certificate certificate_label MAX_TLS_CERTIFICATE_FILE_BYTES false
    (λ certificate_path,
      private_key_reference client_private_key private_key_label
        (λ key_path, load_cert_chain certificate_path key_path context)).

(** ** The listeners without client certificates *)
Definition build_server_context (name : string) (configuration : TLSListenerConfiguration)
    : M host ssl_context :=
  let context := SSLContext PROTOCOL_TLS_SERVER in
  let context := set_versions TLSv1_3 TLSv1_3 context in
  let context := set_verify CERT_NONE (sc_check_hostname context) context in
  let context := set_tickets true 0 context in
  regular_file_reference (tc_server_certificate configuration) (py name ++ py " server certificate") 65536 false
    (λ certificate_path,
      private_key_reference (tc_server_private_key configuration) (py name ++ py " server private key")
        (λ key_path, load_cert_chain certificate_path key_path context)).

Definition enrollment_build_server_context : TLSListenerConfiguration → M host ssl_context :=
  build_server_context "enrollment".
Definition operator_build_server_context : TLSListenerConfiguration → M host ssl_context :=
  build_server_context "operator".

(** ** The agent listener *)

(** [path.is_file()], following links. *)
Definition is_file (path : pystr) : M host bool :=
  if bool_decide (0%Z ∈ path) then mret false
  else syscall (λ _ h,
    (h, Ok match resolve 40 (h_files h) path ≫= (λ ino : nat, f_inodes (h_files h) !! ino) with
           | Some i => S_ISREG (st_mode i)
           | None => false
           end)).

(** [path.resolve(strict=True)]: the last path of the chain of links. *)
Fixpoint resolve_path (n : nat) (f : files) (path : pystr) : option pystr :=
  match f_entries f !! path, n with
  | Some (File _), _ => Some path
  | Some (Link target), S n => resolve_path n f target
  | _, _ => None
  end.

Definition path_resolve (path : pystr) : M host pystr :=
  syscall (λ _ h,
    (h, match resolve_path 40 (h_files h) path with Some p => Ok p | None => Raise OSError end)).

(** [_real_file]: the three conditions are evaluated in turn. *)
Definition _real_file (path label : pystr) : M host pystr :=
  let not_real := ValidationError (label ++ py " must be an absolute real file") in
  lift (raise_if (negb (is_absolute path)) not_real);;
  link ← is_symlink path;
  lift (raise_if link not_real);;
  file ← is_file path;
  lift (raise_if (negb file) not_real);;
  path_resolve path.

Definition build_server_ssl_context (configuration : AgentListenerConfiguration) : M host ssl_context :=
  certificate ← _real_file (ac_server_certificate configuration) (py "server certificate");
  private_key ← _real_file (ac_server_private_key configuration) (py "server private key");
  endpoint_ca ← _real_file (ac_endpoint_ca_certificate configuration) (py "endpoint CA certificate");
  let context := SSLContext PROTOCOL_TLS_SERVER in
  let context := set_versions TLSv1_3 TLSv1_3 context in
  let context := set_verify CERT_REQUIRED false context in
  let context := set_tickets true 0 context in
  context ← load_cert_chain certificate private_key context;
  load_verify_locations endpoint_ca context.
End contexts.

(** ** Certificates read from files *)
Class X509Pem `{X509} := {
  load_pem_x509_certificates : list Z → result (list Certificate);
  KeyUsage_key_cert_sign : Certificate → result bool;
  subject_is_issuer : Certificate → bool;
}.

Section certificates.
Context `{X509Pem}.

Definition MAX_TLS_IDENTITY_CERTIFICATE_BYTES : Z := 65536.
Definition MAX_TRUST_ROOT_BYTES : Z := 65536.

Definition is_identity_error (e : exn) : bool := is_ValueError e || bool_decide (e = UnsupportedAlgorithm).

Definition load_tls_identity_public_key (path label : pystr) : M host (list Z) :=
  encoded ← _read_regular_file path label MAX_TLS_IDENTITY_CERTIFICATE_BYTES false;
  lift (except_as is_identity_error (ValidationError (label ++ py " is invalid"))
    (certificates ← load_pem_x509_certificates encoded;
     match certificates with
     | [] => Raise ValueError
     | certificate :: _ =>
       key ← certificate_public_key certificate;
       Ok (subject_public_key_info key)
     end)).

Definition load_endpoint_issuer_trust_root (path : pystr) : M host Certificate :=
  encoded ← _read_regular_file path (py "endpoint issuer trust root") MAX_TRUST_ROOT_BYTES false;
  lift (
    certificates ← except_as is_ValueError (verr "endpoint issuer trust root is invalid")
      (load_pem_x509_certificates encoded);
    match certificates with
    | [certificate] =>
      ca ← except_as (λ e, bool_decide (e = ExtensionNotFound))
        (verr "endpoint issuer trust root is not a CA") (BasicConstraints_ca certificate);
      raise_if (negb ca) (verr "endpoint issuer trust root is not a CA");;
      key_cert_sign ← except_as (λ e, bool_decide (e = ExtensionNotFound))
        (verr "endpoint issuer trust root cannot sign certificates") (KeyUsage_key_cert_sign certificate);
      raise_if (negb key_cert_sign || negb (subject_is_issuer certificate))
        (verr "endpoint issuer trust root cannot sign certificates");;
      Ok certificate
    | _ => Raise (verr "exactly one endpoint issuer trust root is required")
    end).
End certificates.

(** ** Where the key material comes from *)
Lemma checked_file_later n h h1 start path maximum_bytes private ino i :
  later n h h1 → checked_file h1 start path maximum_bytes private ino i →
  checked_file h (n + start) path maximum_bytes private ino i.
Proof.
  intros Hl [H1 H2 H3 H4 H5 H6]. pose proof (lt_platform _ _ _ Hl) as Hp.
  assert (Hfl : follow_limit h1 = follow_limit h) by (unfold follow_limit; by rw Hp).
  rw (files_at_add _ _ _ _ Hl) in H1 H2. rw (files_at_add _ _ _ _ Hl) in H3. rw Hp in H2 H6. rw Hfl in H1.
  rw !Nat.add_succ_r in H1 H2 H3. by split.
Qed.

(** [bytes] were read from a file after it passed the checks: later contents of the very
inode that was checked, and the checked contents if nobody rewrote it. *)
Definition loaded_from (h : host) (path : pystr) (maximum_bytes : Z) (private : bool) (bytes : list Z) : Prop :=
  ∃ start ino i t j, checked_file h start path maximum_bytes private ino i ∧ start + 2 ≤ t ∧
    f_inodes (files_at h t) !! ino = Some j ∧ bytes = i_content j ∧ (stable h ino → j = i).

Lemma loaded_from_intro h start path maximum_bytes private ino i t j :
  checked_file h start path maximum_bytes private ino i → start + 2 ≤ t →
  f_inodes (files_at h t) !! ino = Some j → loaded_from h path maximum_bytes private (i_content j).
Proof.
  intros Hc Ht Hj. exists start, ino, i, t, j. split_and!; [done..|]. intros Hs.
  pose proof (cf_inode _ _ _ _ _ _ _ Hc) as Hi. rw stable_files // in Hi. rw stable_files // in Hj. congruence.
Qed.

Lemma reference_read h h' fd ino off bytes :
  p_posix (h_platform h) = true → h_fds h !! fd = Some (ino, off) →
  library_read (fd_path fd) h = (h', Ok bytes) →
  later 1 h h' ∧ h_fds h' = h_fds h ∧ ∃ j, f_inodes (files_at h 1) !! ino = Some j ∧ bytes = i_content j.
Proof.
  intros Hp Hfd (Hl & Hf & ino' & j & Hino & Hj & Hb)%library_read_Ok. split; [done|]. split; [done|].
  rw (reference_inode (tick h) fd ino off) in Hino; [|done|done]. injection Hino as <-. by exists j.
Qed.

(** The settings every context has. *)
Record strict_context (protocol : tls_protocol) (verify : verify_mode) (c : ssl_context) : Prop := {
  st_protocol : sc_protocol c = protocol;
  st_versions : sc_minimum_version c = TLSv1_3 ∧ sc_maximum_version c = TLSv1_3;
  st_verify : sc_verify_mode c = verify;
  st_tickets : sc_no_ticket c = true;
}.

Section material.
Context `{TLSLibrary}.

(** [load_cert_chain] under the two nested references. *)
Definition load_chain_from (certificate certificate_label key key_label : pystr) (c : ssl_context) : M host ssl_context :=
  regular_file_reference certificate certificate_label 65536 false (λ certificate_path,
    private_key_reference key key_label (λ key_path, load_cert_chain certificate_path key_path c)).

Lemma load_cert_chain_Ok certfile keyfile c h h' c' :
  load_cert_chain certfile keyfile c h = (h', Ok c') →
  ∃ h1 h2 cert key, library_read certfile h = (h1, Ok cert) ∧ library_read keyfile h1 = (h2, Ok key) ∧
    c' = set_chain cert key c.
Proof using Type.
  unfold load_cert_chain. intros (h1 & cert & H1 & Hr)%bind_Ok_inv.
  apply bind_Ok_inv in Hr as (h2 & key & H2 & Hr). apply seq_Ok_inv in Hr as (h3 & _ & Hr).
  injection Hr as _ <-. by exists h1, h2, cert, key.
Qed.

Lemma load_chain_from_Ok certificate certificate_label key key_label c h h' c' :
  p_posix (h_platform h) = true →
  load_chain_from certificate certificate_label key key_label c h = (h', Ok c') →
  ∃ cert secret, c' = set_chain cert secret c ∧
    loaded_from h certificate 65536 false cert ∧ loaded_from h key MAX_PRIVATE_KEY_BYTES true secret.
Proof using Type.
  intros Hp Hrun. unfold load_chain_from, private_key_reference in Hrun.
  apply regular_file_reference_Ok in Hrun as (ino & i & fd & h1 & h2 & Hc & Hl & Hnew & Hfds & Hrun).
  rw Hp in Hrun. pose proof (lt_platform _ _ _ Hl) as Hp1.
  apply regular_file_reference_Ok in Hrun as (ino' & i' & fd' & h3 & h4 & Hc' & Hl' & Hnew' & Hfds' & Hrun).
  rw Hp1 Hp in Hrun. pose proof (later_trans _ _ _ _ _ Hl Hl') as Hl3. pose proof (lt_platform _ _ _ Hl3) as Hp3.
  apply load_cert_chain_Ok in Hrun as (h5 & h6 & cert & secret & Hr1 & Hr2 & ->).
  assert (Hne : fd ≠ fd') by (intros ->; by rw Hfds lookup_insert_eq in Hnew').
  apply (reference_read h3 h5 fd ino 0) in Hr1 as (Hl5 & Hf5 & j & Hj & ->);
    [|by rw Hp3|by rw Hfds' lookup_insert_ne // Hfds lookup_insert_eq].
  pose proof (later_trans _ _ _ _ _ Hl3 Hl5) as Hl15.
  apply (reference_read h5 h6 fd' ino' 0) in Hr2 as (Hl6 & Hf6 & j' & Hj' & ->);
    [|by rw (lt_platform _ _ _ Hl15)|by rw Hf5 Hfds' lookup_insert_eq].
  rw (files_at_add _ _ _ _ Hl3) in Hj. rw (files_at_add _ _ _ _ Hl15) in Hj'.
  apply (checked_file_later _ _ _ _ _ _ _ _ _ Hl) in Hc'.
  exists (i_content j), (i_content j'). split; [done|].
  split; [eapply loaded_from_intro; [exact Hc| |exact Hj]; lia|eapply loaded_from_intro; [exact Hc'| |exact Hj']; lia].
Qed.

Lemma load_chain_from_released certificate certificate_label key key_label c :
  leaves released (load_chain_from certificate certificate_label key key_label c).
Proof using Type.
  unfold load_chain_from, private_key_reference.
  apply regular_file_reference_released. intros r1. apply regular_file_reference_released. intros r2.
  unfold load_cert_chain.
  do 2 (leaves_step; [apply library_read_released|]). leaves_step; leaves_step.
Qed.

Lemma load_verify_Ok cafile c h h' c' :
  load_verify_locations cafile c h = (h', Ok c') →
  ∃ h1 ca, library_read cafile h = (h1, Ok ca) ∧ c' = add_ca ca c.
Proof using Type.
  unfold load_verify_locations. intros (h1 & ca & H1 & Hr)%bind_Ok_inv.
  apply seq_Ok_inv in Hr as (h2 & _ & Hr). injection Hr as _ <-. by exists h1, ca.
Qed.

Lemma load_ca_from_Ok path label c h h' c' :
  p_posix (h_platform h) = true →
  regular_file_reference path label 65536 false (λ ca_path, load_verify_locations ca_path c) h = (h', Ok c') →
  ∃ ca, c' = add_ca ca c ∧ loaded_from h path 65536 false ca.
Proof using Type.
  intros Hp Hrun. apply regular_file_reference_Ok in Hrun as (ino & i & fd & h1 & h2 & Hc & Hl & _ & Hfds & Hrun).
  rw Hp in Hrun. apply load_verify_Ok in Hrun as (h3 & ca & Hr & ->).
  apply (reference_read h1 h3 fd ino 0) in Hr as (_ & _ & j & Hj & ->);
    [|by rw (lt_platform _ _ _ Hl)|by rw Hfds lookup_insert_eq].
  rw (files_at_add _ _ _ _ Hl) in Hj. exists (i_content j). split; [done|].
  eapply loaded_from_intro; [exact Hc| |exact Hj]; lia.
Qed.

Lemma loaded_from_later n h h1 path maximum_bytes private bytes :
  later n h h1 → loaded_from h1 path maximum_bytes private bytes → loaded_from h path maximum_bytes private bytes.
Proof using Type.
  intros Hl (start & ino & i & t & j & Hc & Ht & Hj & -> & _).
  apply (checked_file_later _ _ _ _ _ _ _ _ _ Hl) in Hc. rw (files_at_add _ _ _ _ Hl) in Hj.
  eapply loaded_from_intro; [exact Hc| |exact Hj]; lia.
Qed.

Lemma build_mtls_client_context_released ca cert key l1 l2 l3 :
  leaves released (build_mtls_client_context ca cert key l1 l2 l3).
Proof using Type.
  unfold build_mtls_client_context. leaves_step; [|apply load_chain_from_released].
  apply regular_file_reference_released. intros r. unfold load_verify_locations.
  leaves_step; [apply library_read_released|]. leaves_step; leaves_step.
Qed.

Lemma build_server_context_strict name configuration h h' c :
  build_server_context name configuration h = (h', Ok c) →
  strict_context PROTOCOL_TLS_SERVER CERT_NONE c ∧ sc_num_tickets c = 0%Z.
Proof using Type.
  unfold build_server_context, private_key_reference.
  intros (ino & i & fd & h1 & h2 & _ & _ & _ & _ & Hr)%regular_file_reference_Ok.
  apply regular_file_reference_Ok in Hr as (ino' & i' & fd' & h3 & h4 & _ & _ & _ & _ & Hr).
  by apply load_cert_chain_Ok in Hr as (h5 & h6 & cert & key & _ & _ & ->).
Qed.

Lemma build_server_ssl_context_strict configuration h h' c :
  build_server_ssl_context configuration h = (h', Ok c) →
  strict_context PROTOCOL_TLS_SERVER CERT_REQUIRED c ∧ sc_num_tickets c = 0%Z ∧ ∃ ca, sc_verify_locations c = [ca].
Proof using Type.
  unfold build_server_ssl_context. intros (h1 & cert & _ & Hr)%bind_Ok_inv.
  apply bind_Ok_inv in Hr as (h2 & key & _ & Hr). apply bind_Ok_inv in Hr as (h3 & ca & _ & Hr).
  apply bind_Ok_inv in Hr as (h4 & c1 & H1 & Hr). apply load_verify_Ok in Hr as (h5 & ca' & _ & ->).
  apply load_cert_chain_Ok in H1 as (h6 & h7 & b1 & b2 & _ & _ & ->). split; [done|]. split; [done|]. by exists ca'.
Qed.

(** C24: the TLS key material of the workload clients and of the enrollment and operator listeners.
However paths are replaced meanwhile, a context that is built speaks TLS 1.3 only and without session
tickets; a client's context verifies certificates and host names; the certificates and the private key
OpenSSL loads are the contents of the very files that passed the checks (regular, bounded, the key
private to root or the service), and every descriptor opened on the way is closed. *)
Theorem tls_context_material h :
  p_posix (h_platform h) = true →
  (∀ ca cert key l1 l2 l3,
    let '(h', r) := build_mtls_client_context ca cert key l1 l2 l3 h in
    released h h' ∧ ∀ c, r = Ok c →
      strict_context PROTOCOL_TLS_CLIENT CERT_REQUIRED c ∧ sc_check_hostname c = true ∧
      ∃ ca' cert' key', sc_verify_locations c = [ca'] ∧ sc_cert_chain c = Some (cert', key') ∧
        loaded_from h ca 65536 false ca' ∧ loaded_from h cert 65536 false cert' ∧
        loaded_from h key MAX_PRIVATE_KEY_BYTES true key') ∧
  (∀ name configuration,
    let '(h', r) := build_server_context name configuration h in
    released h h' ∧ ∀ c, r = Ok c →
      strict_context PROTOCOL_TLS_SERVER CERT_NONE c ∧ sc_num_tickets c = 0%Z ∧
      ∃ cert' key', sc_cert_chain c = Some (cert', key') ∧
        loaded_from h (tc_server_certificate configuration) 65536 false cert' ∧
        loaded_from h (tc_server_private_key configuration) MAX_PRIVATE_KEY_BYTES true key').
Proof using Type.
  intros Hp. split.
  - intros ca cert key l1 l2 l3. pose proof (build_mtls_client_context_released ca cert key l1 l2 l3 h) as Hrel.
    destruct (build_mtls_client_context ca cert key l1 l2 l3 h) as [h' r] eqn:Hrun. split; [done|]. intros c ->.
    apply bind_Ok_inv in Hrun as (h1 & c1 & Hca & Hchain).
    assert (Hl : ∃ n, later n h h1).
    { change h1 with ((h1, Ok c1).1). rw -Hca. apply regular_file_reference_released. intros r.
      unfold load_verify_locations. leaves_step; [apply library_read_released|]. leaves_step; leaves_step. }
    destruct Hl as [n Hl]. apply load_ca_from_Ok in Hca as (ca' & -> & Hca); [|done].
    apply load_chain_from_Ok in Hchain as (cert' & key' & -> & Hcert & Hkey); [|by rw (lt_platform _ _ _ Hl)].
    split; [done|]. split; [done|]. exists ca', cert', key'. split_and!; try done; by eapply loaded_from_later.
  - intros name configuration.
    pose proof (load_chain_from_released (tc_server_certificate configuration) (py name ++ py " server certificate")
      (tc_server_private_key configuration) (py name ++ py " server private key")
      (set_tickets true 0 (set_verify CERT_NONE false (set_versions TLSv1_3 TLSv1_3 (SSLContext PROTOCOL_TLS_SERVER)))) h) as Hrel.
    change (load_chain_from _ _ _ _ _ h) with (build_server_context name configuration h) in Hrel.
    destruct (build_server_context name configuration h) as [h' r] eqn:Hrun. split; [done|]. intros c ->.
    apply load_chain_from_Ok in Hrun as (cert' & key' & -> & Hcert & Hkey); [|done].
    split; [done|]. split; [done|]. by exists cert', key'.
Qed.
End material.

Module TlsSample.
#[local] Instance library : TLSLibrary := {|
  tls_check_chain := λ certificate key, raise_if (bool_decide (key = [])) OSError;
  tls_check_ca := λ ca, Ok tt |}.
Definition file (path : string) (n : nat) (mode : Z) (content : list Z) (f : files) : files :=
  mkFiles (<[py path := File n]> (f_entries f)) (<[n := mkInode mode 0 content]> (f_inodes f)).
Definition system : files :=
  file "/tls/ca" 1 0x81A4 [1]%Z (file "/tls/cert" 2 0x81A4 [2]%Z (file "/tls/key" 3 0x8180 [3]%Z
    (file "/tls/open" 4 0x81A4 [4]%Z (mkFiles ∅ ∅)))).
(** The path of the key is pointed at another file once the key has been opened. *)
Definition replace (t : nat) (f : files) : files :=
  if (9 <? t)%nat then mkFiles (<[py "/tls/key" := File 4]> (f_entries f)) (f_inodes f) else f.
Definition machine : host :=
  mkHost (mkPlatform true true (Some 1000%Z)) (λ t, mkEvent (replace t) false 0) 0 system ∅.
Definition build (key : string) : M host ssl_context :=
  build_mtls_client_context (py "/tls/ca") (py "/tls/cert") (py key) (py "ca") (py "cert") (py "key").

Lemma built : (λ c, (sc_verify_locations c, sc_cert_chain c)) <$> match (build "/tls/key" machine).2 with Ok c => Some c | _ => None end
  = Some ([[1]], Some ([2], [3]))%Z.
Proof. vm_compute. reflexivity. Qed.
Lemma open_key_refused : (build "/tls/open" machine).2 = Raise (ValidationError (py "key permissions are too broad")).
Proof. vm_compute. reflexivity. Qed.
End TlsSample.

Lemma tls_context_material_witness :
  ∃ c, (TlsSample.build "/tls/key" TlsSample.machine).2 = Ok c ∧ sc_check_hostname c = true ∧
    loaded_from TlsSample.machine (py "/tls/key") MAX_PRIVATE_KEY_BYTES true [3]%Z.
Proof.
  pose proof (proj1 (@tls_context_material TlsSample.library TlsSample.machine eq_refl)
    (py "/tls/ca") (py "/tls/cert") (py "/tls/key") (py "ca") (py "cert") (py "key")) as H.
  pose proof TlsSample.built as Hb. unfold TlsSample.build in *.
  destruct (build_mtls_client_context _ _ _ _ _ _ TlsSample.machine) as [h' [c|e]]; [|discriminate Hb].
  destruct H as [_ H]. destruct (H c eq_refl) as (_ & Hh & ca & cert & key & Hv & Hc & _ & _ & Hk).
  exists c. split; [reflexivity|]. split; [exact Hh|]. injection Hb as _ Hb. rw Hc in Hb. by injection Hb as _ ->.
Defined.
