(* ===== verification/PrivateHttps.v ===== *)
(** * The pinned HTTPS connection ([src/src/northgate_rmm/private_https.py])

[PinnedHTTPSConnection], [DeadlineSocket] and [_DeadlineReader]: every blocking call of a
request is armed with what is left of one budget. The clock counts ticks, so the rounding of
[float] is left out. The socket calls are the operating system's: [network] gives, for the
n-th call, how long it would take and what it yields; a call that would outlast its timeout
raises [TimeoutError] when the timeout has passed. [http.client] is a tree of the socket calls
it makes ([http_client]), chosen as it likes from the outcomes of the earlier ones. *)
From stdpp Require Import prelude strings gmap sorting pretty ssreflect.
From S2P Require Import Prelude Text Net Configuration Files TlsContext.

Set Warnings "-clear-no-such-hyp".
Local Open Scope Z_scope.

(** ** Sockets with timeouts *)
Inductive socket_call :=
| Connect (address : pystr) (port : Z)
| Handshake (context : ssl_context) (server_hostname : pystr)
| SendAll (data : list Z) (flags : Z)
| RecvInto (nbytes flags : Z).

(** A blocking call that was made: when it began and ended, and whether it returned. *)
Record blocked := mkBlocked {
  bl_call : socket_call;
  bl_start : Z;
  bl_finish : Z;
  bl_returned : bool;
}.

(** [nt_idle n] ticks pass before the n-th call on the clock or the socket begins. *)
Record network := mkNetwork {
  nt_idle : nat → Z;
  nt_answer : nat → Z * result (list Z);
}.

(** The deadline socket over a secured one. *)
Record DeadlineSocket := mkDeadlineSocket { ds_deadline : Z }.

(** The clock, the calls made so far, the socket's timeout and whether it is open, and what
[http.client] holds as [self.sock]. *)
Record wire := mkWire {
  wi_now : Z;
  wi_calls : nat;
  wi_timeout : option Z;
  wi_open : bool;
  wi_sock : option DeadlineSocket;
  wi_log : list blocked;
}.

Definition settimeout (timeout : Z) : M wire unit :=
  modify (λ w, mkWire (wi_now w) (wi_calls w) (Some timeout) (wi_open w) (wi_sock w) (wi_log w)).
Definition set_open (b : bool) : M wire unit :=
  modify (λ w, mkWire (wi_now w) (wi_calls w) (wi_timeout w) b (wi_sock w) (wi_log w)).
Definition set_sock (s : option DeadlineSocket) : M wire unit :=
  modify (λ w, mkWire (wi_now w) (wi_calls w) (wi_timeout w) (wi_open w) s (wi_log w)).

(** [try: m except BaseException: cleanup; raise]. *)
Definition on_exception {A} (m : M wire A) (cleanup : M wire unit) : M wire A := λ w,
  match m w with
  | (w', Ok a) => (w', Ok a)
  | (w', Raise e) => (cleanup;; raise e) w'
  end.

Definition DEFAULT_BUFFER_SIZE : Z := 8192.

(** The socket calls of [http.client] during a request. *)
Inductive http_client (A : Type) :=
| Finish (r : result A)
| CallSendall (data : list Z) (flags : Z) (k : result unit → http_client A)
| CallRecvInto (nbytes flags : Z) (k : result (list Z) → http_client A)
| CallMakefile (mode : string) (buffering : option Z) (k : result Z → http_client A)
| CallReadinto (k : result (list Z) → http_client A).
Arguments Finish {_} _.
Arguments CallSendall {_} _ _ _.
Arguments CallRecvInto {_} _ _ _.
Arguments CallMakefile {_} _ _ _.
Arguments CallReadinto {_} _.

Section network.
Context (nt : network).

Definition tick (w : wire) : wire :=
  mkWire (wi_now w + nt_idle nt (wi_calls w)) (S (wi_calls w)) (wi_timeout w) (wi_open w) (wi_sock w) (wi_log w).

Definition time_monotonic : M wire Z := λ w, (tick w, Ok (wi_now (tick w))).

Definition blocking (c : socket_call) : M wire (list Z) := λ w,
  let '(lasts, answer) := nt_answer nt (wi_calls w) in
  let '(lasts, answer) :=
    match wi_timeout w with
    | Some timeout => if lasts <=? timeout then (lasts, answer) else (timeout, Raise TimeoutError)
    | None => (lasts, answer)
    end in
  let start := wi_now w + nt_idle nt (wi_calls w) in
  (mkWire (start + lasts) (S (wi_calls w)) (wi_timeout w) (wi_open w) (wi_sock w)
     (wi_log w ++ [mkBlocked c start (start + lasts) (match answer with Ok _ => true | Raise _ => false end)]),
   answer).

(** [socket.create_connection(address, timeout)] of an IP literal. *)
Definition create_connection (address : pystr) (port timeout : Z) : M wire unit :=
  settimeout timeout;; blocking (Connect address port);; set_open true.

(** ** The connection *)
Definition _remaining (deadline : Z) : M wire Z :=
  now ← time_monotonic;
  let remaining := deadline - now in
  lift (raise_if (remaining <=? 0) TimeoutError);; mret remaining.

Record PinnedHTTPSConnection := mkPinnedConnection {
  pc_connect_address : pystr;
  pc_port : Z;
  pc_host : pystr;
  pc_ssl_context : ssl_context;
  pc_deadline : Z;
}.

Definition PinnedHTTPSConnection_init (connect_address : pystr) (port : Z) (authority : pystr) (timeout_seconds : Z)
    (context : ssl_context) : M wire PinnedHTTPSConnection :=
  now ← time_monotonic;
  mret (mkPinnedConnection connect_address port authority context (now + timeout_seconds)).

(** [connect]: the socket stays open only as [self.sock]. *)
Definition connect (c : PinnedHTTPSConnection) : M wire unit :=
  timeout ← _remaining (pc_deadline c);
  create_connection (pc_connect_address c) (pc_port c) timeout;;
  on_exception
    (timeout ← _remaining (pc_deadline c);
     settimeout timeout;;
     blocking (Handshake (pc_ssl_context c) (pc_host c));;
     set_sock (Some (mkDeadlineSocket (pc_deadline c))))
    (set_open false).

Definition _arm (s : DeadlineSocket) : M wire unit :=
  timeout ← _remaining (ds_deadline s); settimeout timeout.

Definition DeadlineSocket_sendall (s : DeadlineSocket) (data : list Z) (flags : Z) : M wire unit :=
  _arm s;; blocking (SendAll data flags);; mret tt.

Definition DeadlineSocket_recv_into (s : DeadlineSocket) (nbytes flags : Z) : M wire (list Z) :=
  _arm s;; blocking (RecvInto nbytes flags).

(** The size of the buffered reader; [io.BufferedReader] refuses one that is not positive. *)
Definition DeadlineSocket_makefile (mode : string) (buffering : option Z) : result Z :=
  raise_if (negb (bool_decide (mode = "rb"%string))) ValueError;;
  let size := match buffering with
              | None => DEFAULT_BUFFER_SIZE
              | Some n => if n =? -1 then DEFAULT_BUFFER_SIZE else n
              end in
  raise_if (size <=? 0) ValueError;;
  Ok size.

Definition DeadlineSocket_close : M wire unit := set_open false.

Definition _DeadlineReader_readinto (s : DeadlineSocket) : M wire (list Z) := DeadlineSocket_recv_into s 0 0.

(** ** A request *)
Fixpoint run_client {A} (s : DeadlineSocket) (c : http_client A) : M wire A := λ w,
  match c with
  | Finish r => (w, r)
  | CallSendall data flags k => let '(w', r) := DeadlineSocket_sendall s data flags w in run_client s (k r) w'
  | CallRecvInto nbytes flags k => let '(w', r) := DeadlineSocket_recv_into s nbytes flags w in run_client s (k r) w'
  | CallMakefile mode buffering k => run_client s (k (DeadlineSocket_makefile mode buffering)) w
  | CallReadinto k => let '(w', r) := _DeadlineReader_readinto s w in run_client s (k r) w'
  end.

(** [http.client]'s [close]: only a socket that [connect] left in [self.sock] is closed. *)
Definition connection_close : M wire unit := λ w,
  match wi_sock w with
  | Some _ => (set_sock None;; DeadlineSocket_close) w
  | None => (w, Ok tt)
  end.

(** The calls on the connected socket. *)
Definition run_connected {A} (client : http_client A) : M wire A := λ w,
  match wi_sock w with
  | Some s => run_client s client w
  | None => (w, Raise HTTPException)
  end.

(** [request], [getresponse] and the reads of the two clients, between the constructor of their
connection and the [close] of their [finally]; [request] connects. *)
Definition pinned_exchange {A} (c : ClientConfiguration) (context : ssl_context) (timeout_seconds : Z)
    (client : http_client A) : M wire A :=
  connection ← PinnedHTTPSConnection_init (cc_connect_address c) (cc_port c) (cc_authority c) timeout_seconds context;
  finallyM (connect connection;; run_connected client) connection_close.
End network.

(** ** The budget *)
Definition is_data (c : socket_call) : Prop :=
  match c with SendAll _ _ | RecvInto _ _ => True | Connect _ _ | Handshake _ _ => False end.

(** The call began before the deadline and ended by it, up to the time between reading the clock
and entering the call. *)
Definition timely (deadline gap : Z) (b : blocked) : Prop :=
  bl_start b < deadline + gap ∧ bl_finish b ≤ deadline + gap.

(** The calls [l] were made, and nothing else happened to the socket. *)
Definition made (l : list blocked) (w w' : wire) : Prop :=
  wi_log w' = wi_log w ++ l ∧ wi_open w' = wi_open w ∧ wi_sock w' = wi_sock w.

Definition returned {A} (r : result A) : bool := match r with Ok _ => true | Raise _ => false end.

Lemma made_nil w : made [] w w.
Proof. split_and!; [by rw app_nil_r|done..]. Qed.
Lemma made_app l1 l2 w1 w2 w3 : made l1 w1 w2 → made l2 w2 w3 → made (l1 ++ l2) w1 w3.
Proof. intros (H1 & O1 & S1) (H2 & O2 & S2). split_and!; [by rw H2 H1 app_assoc|by rw O2|by rw S2]. Qed.

Section budget.
Context (nt : network) (gap : Z).
Hypothesis idle_bounded : ∀ n, nt_idle nt n ≤ gap.

Lemma wp_remaining deadline w :
  wp (_remaining nt deadline) (λ w' r,
    made [] w w' ∧ (r = Raise TimeoutError ∨ (r = Ok (deadline - wi_now w') ∧ wi_now w' < deadline))) w.
Proof using Type.
  unfold wp, _remaining, mbind, M_bind, time_monotonic, lift, raise_if.
  assert (Hm : made [] w (tick nt w)) by (split_and!; [by rw app_nil_r|done..]).
  destruct (Z.leb_spec (deadline - wi_now (tick nt w)) 0); (split; [exact Hm|]); [by left|right].
  split; [done|]. change (wi_now (tick nt w) < deadline). lia.
Qed.

(** Armed with what was left when the clock was read, a call is timely. *)
Lemma wp_blocking deadline c w :
  wi_timeout w = Some (deadline - wi_now w) → wi_now w < deadline →
  wp (blocking nt c) (λ w' r,
    ∃ b, made [b] w w' ∧ bl_call b = c ∧ timely deadline gap b ∧ bl_returned b = returned r) w.
Proof using Type*.
  intros Ht Hd. unfold wp, blocking. rw Ht. destruct (nt_answer nt (wi_calls w)) as [lasts r].
  pose proof (idle_bounded (wi_calls w)) as Hi. unfold timely.
  destruct (Z.leb_spec lasts (deadline - wi_now w)); eexists; (split; [split_and!; reflexivity|]); split_and!;
    cbn [bl_call bl_start bl_finish]; try reflexivity; lia.
Qed.

(** Set the timeout to what is left, and call. *)
Lemma wp_armed deadline c w Q :
  wi_now w < deadline →
  (∀ w' r b, made [b] w w' → bl_call b = c → timely deadline gap b → bl_returned b = returned r → Q w' r) →
  wp (settimeout (deadline - wi_now w)) (λ w' r,
    match r with Ok _ => wp (blocking nt c) Q w' | Raise e => Q w' (Raise e) end) w.
Proof using Type*.
  intros Hd HQ. unfold settimeout. rw wp_modify. eapply wp_mono; [by apply (wp_blocking deadline)|].
  intros w' r (b & Hm & Hc & Ht & Hr). by apply (HQ w' r b).
Qed.

(** The calls a client makes on the deadline socket. *)
Definition data_calls (deadline : Z) (w w' : wire) : Prop :=
  ∃ l, made l w w' ∧ Forall (λ b, is_data (bl_call b) ∧ timely deadline gap b) l.

Lemma data_calls_nil deadline w : data_calls deadline w w.
Proof using Type. exists []. split; [apply made_nil|done]. Qed.
Lemma data_calls_trans deadline w1 w2 w3 :
  data_calls deadline w1 w2 → data_calls deadline w2 w3 → data_calls deadline w1 w3.
Proof using Type.
  intros (l1 & H1 & F1) (l2 & H2 & F2). exists (l1 ++ l2). split; [by eapply made_app|by apply Forall_app].
Qed.

Lemma wp_data s c w :
  is_data c → wp (_arm nt s;; blocking nt c) (λ w' _, data_calls (ds_deadline s) w w') w.
Proof using Type*.
  intros Hc. unfold _arm. rw 2!wp_bind. eapply wp_mono; [apply wp_remaining|].
  intros w1 r1 [Hm [-> |[-> Hd]]]; [by exists []|]. apply wp_armed; [done|]. intros w2 r b Hb <- Ht _.
  exists [b]. split; [exact (made_app [] [b] _ _ _ Hm Hb)|]. by constructor.
Qed.
Lemma wp_sendall s data flags w :
  wp (DeadlineSocket_sendall nt s data flags) (λ w' _, data_calls (ds_deadline s) w w') w.
Proof using Type*.
  unfold DeadlineSocket_sendall. pose proof (wp_data s (SendAll data flags) w I) as Hd.
  rw wp_bind in Hd. rw wp_bind. eapply wp_mono; [exact Hd|]. intros w' [u|e]; [|done]. intros Hb.
  rw wp_bind. eapply wp_mono; [exact Hb|]. by intros w2 [].
Qed.

Lemma wp_client {A} s (c : http_client A) w :
  wp (run_client nt s c) (λ w' _, data_calls (ds_deadline s) w w') w.
Proof using Type*.
  assert (Hstep : ∀ B (m : M wire B) (k : result B → http_client A) w,
    wp m (λ w' _, data_calls (ds_deadline s) w w') w →
    (∀ r w', wp (run_client nt s (k r)) (λ w2 _, data_calls (ds_deadline s) w' w2) w') →
    wp (λ w, let '(w', r) := m w in run_client nt s (k r) w') (λ w' _, data_calls (ds_deadline s) w w') w).
  { intros B m k w0 Hm Hk. unfold wp in Hm |- *. destruct (m w0) as [w' r]. eapply data_calls_trans; [exact Hm|]. apply Hk. }
  revert w. induction c as [r|data flags k IH|nbytes flags k IH|mode buffering k IH|k IH]; intros w.
  - apply data_calls_nil.
  - apply Hstep; [apply wp_sendall|done].
  - apply Hstep; [by apply wp_data|done].
  - apply IH.
  - apply Hstep; [by apply wp_data|done].
Qed.

(** The calls of [connect], in order. *)
Definition route (c : PinnedHTTPSConnection) : list socket_call :=
  [Connect (pc_connect_address c) (pc_port c); Handshake (pc_ssl_context c) (pc_host c)].

(** After [connect]: the calls were a prefix of the route, in time; it left the socket open exactly
when it returned, as [self.sock], and then both calls had returned. *)
Definition attempted (c : PinnedHTTPSConnection) (w w' : wire) (r : result unit) : Prop :=
  ∃ l, wi_log w' = wi_log w ++ l ∧ (bl_call <$> l) `prefix_of` route c ∧ Forall (timely (pc_deadline c) gap) l ∧
    match r with
    | Ok _ => wi_sock w' = Some (mkDeadlineSocket (pc_deadline c)) ∧ bl_call <$> l = route c ∧
        Forall (λ b, bl_returned b = true) l
    | Raise _ => wi_sock w' = None ∧ wi_open w' = false
    end.

Lemma attempted_connect c w w' b e :
  wi_log w' = wi_log w ++ [b] → bl_call b = Connect (pc_connect_address c) (pc_port c) →
  timely (pc_deadline c) gap b → wi_sock w' = None → wi_open w' = false → attempted c w w' (Raise e).
Proof using Type.
  intros Hl Hc Ht Hs Ho. exists [b]. cbn. rw Hc.
  split_and!; [done|by exists [Handshake (pc_ssl_context c) (pc_host c)]|by constructor|done|done].
Qed.

(** The second half of [connect], after the connection was made. *)
Lemma wp_secure c w w1 b :
  wi_log w1 = wi_log w ++ [b] → bl_call b = Connect (pc_connect_address c) (pc_port c) →
  timely (pc_deadline c) gap b → bl_returned b = true → wi_sock w1 = None →
  wp (on_exception
    (timeout ← _remaining nt (pc_deadline c); settimeout timeout;;
     blocking nt (Handshake (pc_ssl_context c) (pc_host c));; set_sock (Some (mkDeadlineSocket (pc_deadline c))))
    (set_open false)) (attempted c w) w1.
Proof using Type*.
  intros Hl Hc Ht Hr Hs.
  match goal with |- wp (on_exception ?body _) _ _ =>
    enough (Hbody : wp body (λ w' r, match r with Ok _ => attempted c w w' (Ok tt) | Raise e =>
      attempted c w (set_open false w').1 (Raise e) end) w1)
      by (unfold wp, on_exception in Hbody |- *; by destruct (body w1) as [w' [[]|e]]) end.
  rw wp_bind. eapply wp_mono; [apply wp_remaining|].
  intros w2 r2 [(H2 & _ & S2) [-> |[-> Hd]]].
  { eapply attempted_connect; cbn; [by rw H2 app_nil_r|done|done|by rw S2|done]. }
  rw wp_bind. apply wp_modify. rw wp_bind. eapply wp_mono; [by apply (wp_blocking (pc_deadline c))|].
  intros w3 r3 (b' & (H3 & _ & S3) & Hc' & Ht' & Hr'). cbn [wi_log wi_sock] in H3, S3. rw H2 app_nil_r Hl -app_assoc in H3.
  assert (Hcalls : bl_call <$> [b; b'] = route c) by (cbn; by rw Hc Hc').
  assert (Htimely : Forall (timely (pc_deadline c) gap) [b; b']) by (by do 2 (apply Forall_cons; split; [done|])).
  destruct r3 as [x|e].
  - apply wp_modify. exists [b; b']. split_and!; [done|by rw Hcalls|done|done|done|].
    by do 2 (apply Forall_cons; split; [done|]).
  - exists [b; b']. split_and!; [done|by rw Hcalls|done|cbn; by rw S3 S2|done].
Qed.

Lemma wp_connect c w : wi_sock w = None → wi_open w = false → wp (connect nt c) (attempted c w) w.
Proof using Type*.
  intros Hs Ho. unfold connect. rw wp_bind. eapply wp_mono; [apply wp_remaining|].
  intros w1 r1 [(H1 & O1 & S1) [-> |[-> Hd]]].
  { exists []. rw H1. split_and!; [done|apply prefix_nil|done|by rw S1|by rw O1]. }
  unfold create_connection. rw wp_bind wp_bind. apply wp_modify. rw wp_bind.
  eapply wp_mono; [by apply (wp_blocking (pc_deadline c))|].
  intros w2 r2 (b & (H2 & O2 & S2) & Hc & Ht & Hr). cbn [wi_log wi_open wi_sock] in H2, O2, S2. rw H1 app_nil_r in H2.
  destruct r2 as [x|e]; [|eapply attempted_connect; [done..|by rw S2 S1|by rw O2 O1]].
  apply wp_modify. by apply (wp_secure c w _ b); [..|rw /= S2 S1].
Qed.
End budget.

(** C25: the budget of a private HTTPS request ([PinnedHTTPSConnection], [DeadlineSocket]). Whatever
the network does and whatever calls the HTTP client makes, a request of the issuer client or of the
operator verifier connects only to the configured address, completes a TLS handshake for the
configured authority under its own context before any byte of the request or the response passes,
leaves no socket open in the end (the client's own [close] reaches only a socket whose handshake
succeeded), and makes no blocking call that begins or ends after the one deadline
set when the connection was created, up to the time the process itself takes between reading the
clock and entering the call. *)
Theorem pinned_exchange_deadline {A} (nt : network) (gap : Z) (c : ClientConfiguration) (context : ssl_context)
    (timeout_seconds : Z) (client : http_client A) (w : wire) :
  (∀ n, nt_idle nt n ≤ gap) →
  wi_sock w = None → wi_open w = false →
  let deadline := wi_now w + nt_idle nt (wi_calls w) + timeout_seconds in
  let w' := (pinned_exchange nt c context timeout_seconds client w).1 in
  wi_open w' = false ∧
  ∃ setup data, wi_log w' = wi_log w ++ setup ++ data ∧
    (bl_call <$> setup) `prefix_of` [Connect (cc_connect_address c) (cc_port c); Handshake context (cc_authority c)] ∧
    Forall (λ b, is_data (bl_call b)) data ∧
    Forall (λ b, bl_start b < deadline + gap ∧ bl_finish b ≤ deadline + gap) (setup ++ data) ∧
    (data ≠ [] → length setup = 2%nat ∧ Forall (λ b, bl_returned b = true) setup).
Proof.
  intros Hidle Hs Ho. cbv zeta. set (w1 := tick nt w).
  set (connection := mkPinnedConnection (cc_connect_address c) (cc_port c) (cc_authority c) context
    (wi_now w1 + timeout_seconds)).
  change (pinned_exchange nt c context timeout_seconds client w)
    with (finallyM (connect nt connection;; run_connected nt client) connection_close w1).
  unfold finallyM, mbind, M_bind.
  pose proof (wp_connect nt gap Hidle connection w1 Hs Ho) as Hc. unfold wp in Hc.
  destruct (connect nt connection w1) as [w2 [[]|e]]; cbn [fst snd] in Hc.
  - destruct Hc as (l & Hl & Hpre & Ht & Hsock & Hall & Hret). unfold run_connected. rw Hsock.
    pose proof (wp_client nt gap Hidle (mkDeadlineSocket (pc_deadline connection)) client w2) as Hd.
    unfold wp in Hd. destruct (run_client nt _ client w2) as [w3 r]. destruct Hd as (data & (Hlog & _ & Hs3) & Hdata).
    cbn [fst] in Hlog, Hs3. unfold connection_close. rw Hs3 Hsock. split; [done|]. exists l, data. split_and!; [|done| | |].
    + change (wi_log w3 = wi_log w ++ l ++ data). rw Hlog Hl -app_assoc. done.
    + eapply Forall_impl; [exact Hdata|]. by intros b [].
    + apply Forall_app. split; [exact Ht|]. eapply Forall_impl; [exact Hdata|]. by intros b [].
    + intros _. split; [|done]. rw -(length_fmap bl_call) Hall. done.
  - destruct Hc as (l & Hl & Hpre & Ht & Hsock & Hopen). unfold connection_close. rw Hsock.
    split; [done|]. exists l, []. rw app_nil_r. by split_and!.
Qed.

(** A peer that answers every call after 4 ticks, under a budget of 20 of which the process itself
uses one before each call: after the connection, the handshake and the request, the first of the
ten reads is cut one tick past the deadline (121) and the others are not made. *)
Module SlowPeer.
Definition peer : network := mkNetwork (λ _, 1) (λ _, (4, Ok [65])).
Definition target : ClientConfiguration :=
  mkClientConfiguration (py "10.0.0.9") 443 (py "issuer.internal.example") [] [] [] (Finite (QArith_base.inject_Z 20)).
Fixpoint reads (n : nat) : http_client nat :=
  match n with
  | O => Finish (Ok O)
  | S n' => CallReadinto (λ r, match r with Ok _ => reads n' | Raise _ => Finish (Ok n) end)
  end.
Definition exchange : wire * result nat :=
  pinned_exchange peer target (SSLContext PROTOCOL_TLS_CLIENT) 20 (CallSendall [71] 0 (λ _, reads 10))
    (mkWire 100 0 None false None []).
End SlowPeer.

Lemma pinned_exchange_deadline_witness :
  (λ b, (bl_start b, bl_finish b, bl_returned b)) <$> wi_log SlowPeer.exchange.1 =
    [(103, 107, true); (109, 113, true); (115, 119, true); (121, 122, false)] ∧
  SlowPeer.exchange.2 = Ok 10%nat ∧
  wi_open SlowPeer.exchange.1 = false.
Proof.
  split; [reflexivity|split; [reflexivity|]].
  apply (pinned_exchange_deadline SlowPeer.peer 1 SlowPeer.target (SSLContext PROTOCOL_TLS_CLIENT) 20
    (CallSendall [71] 0 (λ _, SlowPeer.reads 10)) (mkWire 100 0 None false None [])); [|reflexivity..].
  intros n. reflexivity.
Defined.
