(* ===== verification/Enrollment.v ===== *)
(** * Enrollment ([src/src/northgate_rmm/enrollment.py])

[EnrollmentApplication.handle] over [EnrollmentService.enroll] over the protocol
[EnrollmentStore], a class of operations. The issuer's answer to the request of
one call and the reading of the clock after it are arguments of the call; the
X.509 library is the class [X509]. *)
From stdpp Require Import prelude strings gmap sorting pretty ssreflect.
From S2P Require Import Prelude Uuid PyTime Sha256 Json Text Base64 JsonLoads UuidText Domain Codec AgentApi Certificates.

Set Warnings "-clear-no-such-hyp".

Definition MAX_CERTIFICATE_BYTES : Z := 16384.
Definition MAX_INTERMEDIATE_CERTIFICATES : Z := 4.
Definition MAX_ENROLLMENT_BODY_BYTES : Z := 16384.
Definition ENROLLMENT_PATH : pystr := py "/v1/enrollment".

Record EndpointIssuanceRequest := mkIssuanceRequest {
  is_identity_id : uuid;
  is_endpoint_id : uuid;
  is_public_key_fingerprint : pystr;
  is_csr_der : list Z;
}.

Record IssuedEndpointCredential := mkIssuedCredential {
  ic_leaf_certificate_der : list Z;
  ic_intermediate_certificates_der : list (list Z);
}.

Record EnrollmentResult := mkEnrollmentResult {
  en_endpoint_id : uuid;
  en_identity_id : uuid;
  en_leaf_certificate_der : list Z;
  en_intermediate_certificates_der : list (list Z);
}.

Record EnrollmentRequest := mkEnrollmentRequest {
  eq_method : pystr;
  eq_path : pystr;
  eq_content_type : option pystr;
  eq_content_encoding : option pystr;
  eq_body : list Z;
}.

Record EnrollmentResponse := mkEnrollmentResponse {
  ers_status : Z;
  ers_headers : list (pystr * pystr);
  ers_body : pystr;
}.

(** The protocol a store implements; the default actor is an argument. *)
Class EnrollmentStore (W : Type) := {
  st_begin_endpoint_enrollment : pystr → pystr → datetime → pystr → M W (Endpoint * EndpointIdentity);
  st_record_issued_endpoint_identity :
    uuid → pystr → pystr → datetime → datetime → datetime → pystr → M W EndpointIdentity;
}.

Definition enrollment_actor : pystr := py "enrollment-service".

(** ** The request body *)

(** The default [parse_int]: [int(text)], which refuses more digits than the
interpreter's limit. *)
Definition INT_MAX_STR_DIGITS : Z := 4300.
Definition default_parse_int (raw : pystr) : result json :=
  let negative := match raw with c :: _ => (c =? 45)%Z | [] => false end in
  let digits := if negative then tail raw else raw in
  raise_if (INT_MAX_STR_DIGITS <? str_len digits)%Z ValueError;;
  Ok (JInt (if negative then - digits_value digits else digits_value digits)%Z).

(** [_unique_object]: the dictionary keeps the order of its pairs. *)
Fixpoint unique_object (duplicate : exn) (value pairs : list (pystr * json)) : result json :=
  match pairs with
  | [] => Ok (JObj value)
  | (key, item) :: rest =>
    raise_if (bool_decide (key ∈ value.*1)) duplicate;;
    unique_object duplicate (value ++ [(key, item)]) rest
  end.

Lemma unique_object_all dup l : ∀ acc,
  NoDup (acc ++ l).*1 → unique_object dup acc l = Ok (JObj (acc ++ l)).
Proof.
  induction l as [|[k v] l IH]; intros acc Hnd; cbn [unique_object]; [by rw app_nil_r|].
  rw bool_decide_false.
  - cbn. rw IH -app_assoc //.
  - rw fmap_app in Hnd. apply NoDup_app in Hnd as (_ & Hdisj & _). intros Hin.
    apply (Hdisj k Hin). apply list_elem_of_here.
Qed.

Definition _reject_json_constant (_raw : pystr) : result json :=
  Raise (verr "enrollment body contains a non-finite value").

Definition enrollment_hooks : hooks :=
  mkHooks (unique_object (verr "enrollment body contains a duplicate field") [])
    default_parse_int _reject_json_constant.

(** [except (UnicodeDecodeError, json.JSONDecodeError, RecursionError)]. *)
Definition is_syntax_error (e : exn) : bool :=
  match e with UnicodeDecodeError | JSONDecodeError | RecursionError => true | _ => false end.

(** [set(body) == {...}]. *)
Definition keys_are (body : list (pystr * json)) (keys : list pystr) : bool :=
  bool_decide ((list_to_set body.*1 : gset pystr) = list_to_set keys).

(** [isinstance(value, str) and lo <= len(value) <= hi]. *)
Definition bounded_string (value : json) (lo hi : Z) (e : exn) : result pystr :=
  match value with
  | JStr s => raise_if (negb ((lo <=? str_len s) && (str_len s <=? hi)))%Z e;; Ok s
  | _ => Raise e
  end.

Definition _decode_enrollment_body (depth : nat) (raw : list Z) : result (pystr * list Z) :=
  value ← except_as is_syntax_error (verr "enrollment body is invalid JSON")
    (text ← utf8_decode raw; loads enrollment_hooks depth text);
  match value with
  | JObj body =>
    raise_if (negb (keys_are body [py "grant"; py "csr"]))
      (verr "enrollment body fields do not match the schema");;
    v ← dict_get (py "grant") body;
    encoded ← dict_get (py "csr") body;
    token ← bounded_string v 1 128 (verr "enrollment grant is invalid");
    encoded_csr ← bounded_string encoded 1 12000 (verr "endpoint CSR encoding is invalid");
    csr_der ← except_as is_ValueError (verr "endpoint CSR encoding is invalid")
      (b64decode encoded_csr);
    Ok (token, csr_der)
  | _ => Raise (verr "enrollment body must be an object")
  end.

(** [format(n, "x")]. *)
Definition hex_str (n : Z) : pystr :=
  (if (n <? 0)%Z then [45%Z] else []) ++ hexn (Z.to_nat (Z.log2 (Z.abs n) / 4 + 1)) (Z.abs n).

(** ** Responses *)
Definition _http_json (status : Z) (value : json) : EnrollmentResponse :=
  mkEnrollmentResponse status
    [(py "content-type", py "application/json"); (py "cache-control", py "no-store")]
    (json_dumps false value).

Definition _http_error (status : Z) (code : string) (allow : option pystr) : EnrollmentResponse :=
  let response := _http_json status (JObj [(py "error", JStr (py code))]) in
  match allow with
  | None => response
  | Some a =>
    mkEnrollmentResponse (ers_status response) (ers_headers response ++ [(py "allow", a)])
      (ers_body response)
  end.

Definition enrolled_document (r : EnrollmentResult) : json :=
  JObj [(py "endpoint_id", JStr (uuid_str (en_endpoint_id r)));
        (py "identity_id", JStr (uuid_str (en_identity_id r)));
        (py "state", JStr (py "issued"));
        (py "leaf_certificate", JStr (b64encode (en_leaf_certificate_der r)));
        (py "intermediate_certificates",
         JArr (JStr ∘ b64encode <$> en_intermediate_certificates_der r))].

(** The [except] clauses of [handle]. *)
Definition except_enrollment {W} (m : M W EnrollmentResponse) : M W EnrollmentResponse := λ w,
  match m w with
  | (w', Raise (AuthorizationError _)) => (w', Ok (_http_error 403 "enrollment_unavailable" None))
  | (w', Raise (ServiceUnavailableError _)) =>
    (w', Ok (_http_error 503 "enrollment_unavailable" None))
  | (w', Raise (ValidationError _)) => (w', Ok (_http_error 400 "invalid_enrollment" None))
  | outcome => outcome
  end.

Section enrollment.
Context `{X509} {W : Type} `{EnrollmentStore W}.

(** ** The service *)

(** [EnrollmentService.__init__]: a service has trust roots. *)
Definition EnrollmentService_init (issuer_trust_roots : list Certificate) : result (list Certificate) :=
  raise_if (bool_decide (length issuer_trust_roots = 0))
    (verr "endpoint issuer trust roots are required");;
  Ok issuer_trust_roots.

Definition size_ok (encoded : list Z) : bool :=
  ((1 <=? Z.of_nat (length encoded)) && (Z.of_nat (length encoded) <=? MAX_CERTIFICATE_BYTES))%Z.

Definition _validate_issued_credential (roots : list Certificate)
    (issued : IssuedEndpointCredential) (endpoint_id : uuid) (public_key_fingerprint : pystr)
    (now : datetime) : result (Certificate * list Certificate) :=
  raise_if (negb (size_ok (ic_leaf_certificate_der issued)))
    (verr "issued endpoint certificate size is invalid");;
  raise_if (MAX_INTERMEDIATE_CERTIFICATES <?
              Z.of_nat (length (ic_intermediate_certificates_der issued)))%Z
    (verr "issued endpoint chain is too long");;
  '(leaf, intermediates) ← except_as is_ValueError (verr "issued endpoint certificate is invalid")
    (leaf ← load_der_x509_certificate (ic_leaf_certificate_der issued);
     intermediates ← map_result load_der_x509_certificate
       (filter (λ e, size_ok e = true) (ic_intermediate_certificates_der issued));
     Ok (leaf, intermediates));
  raise_if (negb (bool_decide
      (length intermediates = length (ic_intermediate_certificates_der issued))))
    (verr "issued endpoint certificate size is invalid");;
  except_as (λ e, bool_decide (e = VerificationError))
    (verr "issued endpoint certificate chain is invalid")
    (client_verify roots now leaf intermediates);;
  peer ← validate_endpoint_certificate leaf;
  raise_if (negb (bool_decide (vc_endpoint_id peer = endpoint_id))
            || negb (bool_decide (vc_public_key_fingerprint peer = public_key_fingerprint)))
    (verr "issued endpoint certificate binding is invalid");;
  raise_if (negb (dt_leb (not_valid_before_utc leaf) now && dt_ltb now (not_valid_after_utc leaf)))
    (verr "issued endpoint certificate is not currently valid");;
  Ok (leaf, intermediates).

(** [except (PsycopgError, TimeoutError)] and
[except (PsycopgError, TimeoutError, ValidationError)]. *)
Definition is_store_error (e : exn) : bool := is_PsycopgError e || bool_decide (e = TimeoutError).

Definition unavailable (msg : string) : exn := ServiceUnavailableError (py msg).

(** What [enroll] does with the outside world: the issuer and the clock. *)
Record surroundings := mkSurroundings {
  sr_roots : list Certificate;
  sr_issue : EndpointIssuanceRequest → datetime → result IssuedEndpointCredential;
  sr_clock : datetime;
}.

Definition enroll (env : surroundings) (token : pystr) (csr_der : list Z) (now : datetime)
    : M W EnrollmentResult :=
  lift (require_aware now (py "now"));;
  server_time ← lift (astimezone_utc now);
  '(canonical_csr, fingerprint) ← lift (_validate_csr csr_der);
  '(endpoint, identity) ← except_asM is_store_error (unavailable "enrollment store is unavailable")
    (st_begin_endpoint_enrollment token fingerprint server_time enrollment_actor);
  issued ← lift (sr_issue env
    (mkIssuanceRequest (ei_identity_id identity) (ep_endpoint_id endpoint) fingerprint canonical_csr)
    server_time);
  lift (require_aware (sr_clock env) (py "verification time"));;
  verification_time ← lift (astimezone_utc (sr_clock env));
  '(leaf, intermediates) ← lift (except_as is_ValidationError
      (unavailable "issuer returned an invalid endpoint credential")
      (_validate_issued_credential (sr_roots env) issued (ep_endpoint_id endpoint) fingerprint
         verification_time));
  except_asM (λ e, is_store_error e || is_ValidationError e)
    (unavailable "enrollment store is unavailable")
    (st_record_issued_endpoint_identity (ei_identity_id identity)
      (hex_str (serial_number leaf)) (issuer_rfc4514_string leaf) (not_valid_before_utc leaf)
      (not_valid_after_utc leaf) verification_time enrollment_actor);;
  mret (mkEnrollmentResult (ep_endpoint_id endpoint) (ei_identity_id identity)
    (certificate_public_bytes leaf) (certificate_public_bytes <$> intermediates)).

(** ** The application *)
Definition handle (depth : nat) (env : surroundings) (request : EnrollmentRequest)
    (received_at : datetime) : M W EnrollmentResponse :=
  if bool_decide (eq_path request ≠ ENROLLMENT_PATH) then mret (_http_error 404 "not_found" None)
  else if bool_decide (eq_method request ≠ py "POST") then
    mret (_http_error 405 "method_not_allowed" (Some (py "POST")))
  else if match eq_content_type request with
          | None => true
          | Some t => negb (bool_decide (ascii_lower t = py "application/json"))
          end then
    mret (_http_error 415 "unsupported_media_type" None)
  else if bool_decide (eq_content_encoding request ≠ None) then
    mret (_http_error 415 "content_encoding_not_allowed" None)
  else if bool_decide (eq_body request = [])
          || (MAX_ENROLLMENT_BODY_BYTES <? Z.of_nat (length (eq_body request)))%Z then
    mret (_http_error 413 "request_size_invalid" None)
  else except_enrollment
    ('(token, csr_der) ← lift (_decode_enrollment_body depth (eq_body request));
     result ← enroll env token csr_der received_at;
     mret (_http_json 201 (enrolled_document result))).
End enrollment.

(** ** What a store promises *)

(** [redeemed w token fp e i]: the grant of [token] is consumed by the identity
[i] of the endpoint [e], whose key has the fingerprint [fp]; [certified]: the
identity holds this certificate and is issued or active. *)
Class EnrollmentStoreLaws (W : Type) `{EnrollmentStore W} := {
  redeemed : W → pystr → pystr → uuid → uuid → Prop;
  certified : W → uuid → pystr → pystr → Z → Z → Prop;
  law_begin token fp now actor w w' r :
    st_begin_endpoint_enrollment token fp now actor w = (w', Ok r) →
    redeemed w' token fp (ep_endpoint_id r.1) (ei_identity_id r.2);
  law_issue i serial issuer not_before not_after now actor w w' r :
    st_record_issued_endpoint_identity i serial issuer not_before not_after now actor w
      = (w', Ok r) →
    certified w' i serial issuer (instant not_before) (instant not_after) ∧
    ∀ token fp e, redeemed w token fp e i → redeemed w' token fp e i;
}.

Section disclosure.
Context {library : X509} {W : Type} `{!EnrollmentStore W} `{!EnrollmentStoreLaws W}.

(** The credential an enrollment may disclose: the leaf is what the issuer sent,
its chain verifies to a root at [now], it has the endpoint profile, names the
endpoint, carries the key of the request and is valid at [now]. *)
Record credential_ok (roots : list Certificate) (issued : IssuedEndpointCredential)
    (e : uuid) (fp : pystr) (now : datetime) (leaf : Certificate)
    (intermediates : list Certificate) : Prop := {
  cr_leaf : load_der_x509_certificate (ic_leaf_certificate_der issued) = Ok leaf;
  cr_size : size_ok (ic_leaf_certificate_der issued) = true ∧
    Forall (λ c, size_ok c = true) (ic_intermediate_certificates_der issued) ∧
    (Z.of_nat (length (ic_intermediate_certificates_der issued)) ≤ MAX_INTERMEDIATE_CERTIFICATES)%Z;
  cr_intermediates :
    map_result load_der_x509_certificate (ic_intermediate_certificates_der issued)
      = Ok intermediates;
  cr_chain : client_verify roots now leaf intermediates = Ok tt;
  cr_profile : ∃ key, endpoint_profile leaf e key ∧ fp = key_fingerprint key;
  cr_valid : (instant (not_valid_before_utc leaf) ≤ instant now < instant (not_valid_after_utc leaf))%Z;
}.

Lemma map_result_length {A B} (f : A → result B) l l' : map_result f l = Ok l' → length l' = length l.
Proof.
  revert l'. induction l as [|x l IH]; intros l'; cbn [map_result]; [by intros [= <-]|].
  intros H. apply result_bind_Ok_inv in H as (y & _ & H).
  apply result_bind_Ok_inv in H as (ys & Hys & [= <-]). cbn. by rw (IH ys).
Qed.

Lemma length_filter_all {A} (P : A → Prop) `{!∀ x, Decision (P x)} (l : list A) :
  length (filter P l) = length l → Forall P l.
Proof.
  induction l as [|x l IH]; intros Hl; [constructor|]. rw filter_cons in Hl.
  pose proof (length_filter P l). case_decide; cbn in Hl; [|lia]. constructor; [done|]. apply IH. lia.
Qed.

Lemma validate_issued_credential_Ok roots issued e fp now leaf intermediates :
  _validate_issued_credential roots issued e fp now = Ok (leaf, intermediates) ↔
  credential_ok roots issued e fp now leaf intermediates.
Proof.
  unfold _validate_issued_credential. split.
  - rw !result_seq_Ok !raise_if_Ok negb_false_iff. intros (Hsize & Hcount & Hv).
    apply result_bind_Ok_inv in Hv as ([leaf' ints'] & Hload%except_as_Ok & Hv).
    apply result_bind_Ok_inv in Hload as (l1 & Hleaf & Hload).
    apply result_bind_Ok_inv in Hload as (l2 & Hints & [= -> ->]).
    rw !result_seq_Ok raise_if_Ok negb_false_iff bool_decide_eq_true in Hv.
    destruct Hv as (Hlen & Hchain%except_as_Ok & Hv).
    apply result_bind_Ok_inv in Hv as (peer & Hpeer & Hv).
    rw !result_seq_Ok !raise_if_Ok !orb_false_iff !negb_false_iff andb_true_iff !bool_decide_eq_true in Hv.
    destruct Hv as ([He Hfp] & Htime & [= <- <-]).
    pose proof (map_result_length _ _ _ Hints) as Hl. rw Hlen in Hl.
    pose proof (length_filter_all _ _ (eq_sym Hl)) as Hall.
    rw filter_every in Hints; [|by rw -Forall_forall].
    apply validate_endpoint_certificate_Ok in Hpeer as (key & Hprof & Hkey).
    split; [done|split_and!; [done..|lia]|done|done| |unfold dt_leb, dt_ltb in Htime; lia].
    exists key. by rw -He -Hfp.
  - intros [Hleaf (Hsize & Hall & Hcount) Hints Hchain (key & Hprof & ->) Hvalid].
    rw Hsize. cbn [negb raise_if]. rw result_seq_Ok. split; [done|].
    rw result_seq_Ok raise_if_Ok. split; [lia|].
    rw Hleaf. cbn [mbind result_bind]. rw filter_every; [|by rw -Forall_forall].
    rw Hints. cbn [mbind result_bind except_as].
    rw (bool_decide_eq_true_2 _ (map_result_length _ _ _ Hints)). cbn [negb raise_if].
    rw result_seq_Ok. split; [done|]. rw Hchain. cbn [except_as]. rw result_seq_Ok. split; [done|].
    rw (proj2 (validate_endpoint_certificate_Ok leaf (mkVerifiedClientCertificate e (key_fingerprint key))));
      [|by exists key].
    cbn [mbind result_bind vc_endpoint_id vc_public_key_fingerprint].
    rw !bool_decide_eq_true_2 //. rw !result_seq_Ok !raise_if_Ok. split_and!; [done| |done].
    unfold dt_leb, dt_ltb. lia.
Qed.

(** What an enrollment that returned has established. *)
Record enrolled_by (env : surroundings) (token : pystr) (csr_der : list Z) (now : datetime)
    (w' : W) (r : EnrollmentResult) : Prop := {
  eb_csr : ∃ canonical fp, _validate_csr csr_der = Ok (canonical, fp) ∧
    redeemed w' token fp (en_endpoint_id r) (en_identity_id r) ∧
    ∃ issued leaf intermediates,
      sr_issue env (mkIssuanceRequest (en_identity_id r) (en_endpoint_id r) fp canonical)
        (utc (instant now)) = Ok issued ∧
      credential_ok (sr_roots env) issued (en_endpoint_id r) fp (utc (instant (sr_clock env)))
        leaf intermediates ∧
      en_leaf_certificate_der r = certificate_public_bytes leaf ∧
      en_intermediate_certificates_der r = certificate_public_bytes <$> intermediates ∧
      certified w' (en_identity_id r) (hex_str (serial_number leaf)) (issuer_rfc4514_string leaf)
        (instant (not_valid_before_utc leaf)) (instant (not_valid_after_utc leaf));
}.

Lemma except_asM_Ok {A} handled e' (m : M W A) w w' a :
  except_asM handled e' m w = (w', Ok a) ↔ m w = (w', Ok a).
Proof.
  unfold except_asM. destruct (m w) as [w1 [b|e]]; cbn; [done|].
  destruct (handled e); naive_solver.
Qed.

Lemma lift_bind_Ok_inv {A B} (r : result A) (k : A → M W B) w w' b :
  (lift r ≫= k) w = (w', Ok b) → ∃ a, r = Ok a ∧ k a w = (w', Ok b).
Proof. intros Hb. apply bind_Ok_inv in Hb as (w1 & a & [= <- Hr] & Hk). eauto. Qed.

Lemma enroll_Ok env token csr_der now w w' r :
  enroll env token csr_der now w = (w', Ok r) → enrolled_by env token csr_der now w' r.
Proof.
  unfold enroll. intros Hr.
  apply lift_bind_Ok_inv in Hr as (_ & _ & Hr). apply lift_bind_Ok_inv in Hr as (server & [_ ->]%astimezone_utc_Ok & Hr).
  apply lift_bind_Ok_inv in Hr as ([canonical fp] & Hcsr & Hr).
  apply bind_Ok_inv in Hr as (w1 & [endpoint identity] & Hbegin%except_asM_Ok & Hr).
  apply law_begin in Hbegin. cbn [fst snd] in Hbegin.
  apply lift_bind_Ok_inv in Hr as (issued & Hans & Hr). apply lift_bind_Ok_inv in Hr as (_ & _ & Hr).
  apply lift_bind_Ok_inv in Hr as (vt & [_ ->]%astimezone_utc_Ok & Hr).
  apply lift_bind_Ok_inv in Hr as ([leaf ints] & Hcred%except_as_Ok & Hr).
  apply validate_issued_credential_Ok in Hcred.
  apply bind_Ok_inv in Hr as (w2 & ident & Hissue%except_asM_Ok & [= <- <-]).
  apply law_issue in Hissue as [Hcert Hkeep].
  split. exists canonical, fp. split_and!; [done|by apply Hkeep|]. by exists issued, leaf, ints.
Qed.

(** The statuses of an error response are not 201. *)
Lemma except_enrollment_201 (m : M W EnrollmentResponse) w w' resp :
  except_enrollment m w = (w', Ok resp) → ers_status resp = 201%Z → m w = (w', Ok resp).
Proof.
  unfold except_enrollment. destruct (m w) as [w1 [a|e]]; [done|].
  destruct e; try done; by intros [= <- <-].
Qed.

Lemma handle_created depth env request received_at w w' resp :
  handle depth env request received_at w = (w', Ok resp) → ers_status resp = 201%Z →
  ∃ token csr_der r, _decode_enrollment_body depth (eq_body request) = Ok (token, csr_der) ∧
    enroll env token csr_der received_at w = (w', Ok r) ∧ resp = _http_json 201 (enrolled_document r).
Proof.
  unfold handle. intros Hh H201.
  repeat (case_match; [injection Hh as <- <-; done|]).
  apply except_enrollment_201 in Hh; [|done].
  apply lift_bind_Ok_inv in Hh as ([token csr] & Hbody & Hh).
  apply bind_Ok_inv in Hh as (w1 & r & Hr & [= <- <-]). by exists token, csr, r.
Qed.
End disclosure.
