(* ===== verification/IssuerClient.v ===== *)
(** * The issuer client ([src/src/northgate_rmm/issuer_client.py])

[MTLSIssuerClient.issue_endpoint_certificate]: the request it writes and the
checks of the response. The HTTPS exchange is a parameter: from the body of the
request to the response, whose two reads may fail too. *)
From stdpp Require Import prelude strings gmap sorting pretty ssreflect.
From S2P Require Import Prelude Uuid PyTime Sha256 Json Text Base64 JsonLoads JsonProofs UuidText Domain Codec CodecTheorems AgentApi Certificates Enrollment.

Set Warnings "-clear-no-such-hyp".

Definition MAX_ISSUER_RESPONSE_BYTES : Z := 65536.

(** [http.client.HTTPResponse], as the client reads it: the status, the headers,
[read(MAX_ISSUER_RESPONSE_BYTES + 1)] and then [read(1)]. *)
Record http_response := mkHttpResponse {
  hr_status : Z;
  hr_getheader : pystr → option pystr;
  hr_read : result (list Z);
  hr_read_more : result (list Z);
}.

(** ** The response body *)
Definition issuer_hooks : hooks :=
  mkHooks (unique_object (verr "issuer response contains a duplicate field") [])
    default_parse_int (λ _, Raise (verr "issuer response contains a non-finite value")).

Definition _decode_certificate (value : json) : result (list Z) :=
  text ← bounded_string value 1 24000 (verr "issuer certificate encoding is invalid");
  encoded ← except_as is_ValueError (verr "issuer certificate encoding is invalid") (b64decode text);
  raise_if (negb ((1 <=? Z.of_nat (length encoded)) && (Z.of_nat (length encoded) <=? 16384)))%Z
    (verr "issuer certificate size is invalid");;
  Ok encoded.

Definition issuer_keys : list pystr := [py "leaf_certificate"; py "intermediate_certificates"].

Definition _decode_issuer_response (depth : nat) (encoded : list Z)
    : result IssuedEndpointCredential :=
  value ← except_as is_syntax_error (verr "issuer response is invalid JSON")
    (text ← utf8_decode encoded; loads issuer_hooks depth text);
  match value with
  | JObj body =>
    raise_if (negb (keys_are body issuer_keys)) (verr "issuer response fields are not exact");;
    leaf_value ← dict_get (py "leaf_certificate") body;
    leaf ← _decode_certificate leaf_value;
    intermediates_value ← dict_get (py "intermediate_certificates") body;
    match intermediates_value with
    | JArr items =>
      raise_if (4 <? Z.of_nat (length items))%Z (verr "issuer response chain is invalid");;
      intermediates ← map_result _decode_certificate items;
      Ok (mkIssuedCredential leaf intermediates)
    | _ => Raise (verr "issuer response chain is invalid")
    end
  | _ => Raise (verr "issuer response fields are not exact")
  end.

(** ** The exchange *)
Definition invalid_response : exn := ServiceUnavailableError (py "issuer response is invalid").

(** [isascii() and isdigit()] of a header, and the two limits. *)
Definition content_length_ok (value : pystr) : bool :=
  match value with [] => false | _ => forallb is_digit value end
  && (str_len value <=? 5)%Z && (digits_value value <=? MAX_ISSUER_RESPONSE_BYTES)%Z.

Definition issuance_document (request : EndpointIssuanceRequest) (now : datetime) : json :=
  JObj [(py "identity_id", JStr (uuid_str (is_identity_id request)));
        (py "endpoint_id", JStr (uuid_str (is_endpoint_id request)));
        (py "public_key_fingerprint", JStr (is_public_key_fingerprint request));
        (py "csr", JStr (b64encode (is_csr_der request)));
        (py "requested_at", JStr (isoformat now))].

Definition check_response (depth : nat) (response : http_response)
    : result IssuedEndpointCredential :=
  raise_if (match hr_getheader response (py "Content-Length") with
            | Some value => negb (content_length_ok value)
            | None => false
            end) invalid_response;;
  encoded ← hr_read response;
  raise_if (MAX_ISSUER_RESPONSE_BYTES <? Z.of_nat (length encoded))%Z invalid_response;;
  more ← hr_read_more response;
  raise_if (negb (bool_decide (more = []))) invalid_response;;
  raise_if (bool_decide (hr_status response ∈ [401; 403]%Z))
    (ServiceUnavailableError (py "issuer workload identity was rejected"));;
  raise_if (bool_decide (hr_status response ∈ [408; 425; 429]%Z)
            || ((500 <=? hr_status response) && (hr_status response <=? 599))%Z)
    (ServiceUnavailableError (py "issuer is unavailable"));;
  raise_if (negb (hr_status response =? 201)%Z) invalid_response;;
  raise_if (negb (bool_decide
      (hr_getheader response (py "Content-Type") = Some (py "application/json"))))
    invalid_response;;
  raise_if (negb (bool_decide (hr_getheader response (py "Content-Encoding") = None)))
    invalid_response;;
  except_as is_ValidationError invalid_response (_decode_issuer_response depth encoded).

(** [except (OSError, http.client.HTTPException, ssl.SSLError)]. *)
Definition is_transport_error (e : exn) : bool := is_OSError e || bool_decide (e = HTTPException).

Definition issue_endpoint_certificate (depth : nat) (exchange : list Z → result http_response)
    (request : EndpointIssuanceRequest) (now : datetime) : result IssuedEndpointCredential :=
  let naive := verr "issuer request time must be timezone-aware" in
  raise_if (bool_decide (dt_tz now = TzNone)) naive;;
  offset ← utcoffset now;
  raise_if (bool_decide (offset = None)) naive;;
  requested_at ← astimezone_utc now;
  let body := json_dumps false (issuance_document request requested_at) in
  except_as is_transport_error (ServiceUnavailableError (py "issuer request failed"))
    (response ← exchange body; check_response depth response).

(** ** Outcomes of the decoders *)

(** A decoder raises [ValidationError], or the [ValueError] of an integer literal
over the interpreter's limit. *)
Definition decode_error (e : exn) : Prop := is_validation e ∨ e = ValueError.

Lemma unique_object_outcome dup acc l e :
  is_validation dup → unique_object dup acc l = Raise e → is_validation e.
Proof.
  intros Hd. revert acc. induction l as [|[k v] l IH]; intros acc; [done|]. cbn [unique_object].
  intros [Hr|[_ Hr]]%result_seq_Raise; [|by eapply IH].
  unfold raise_if in Hr. destruct (bool_decide _); [|done]. by injection Hr as <-.
Qed.

Lemma parse_outcome dup constant msg depth raw :
  is_validation dup → (∀ s, is_validation (constant s)) →
  outcome decode_error (λ _, True)
    (except_as is_syntax_error (ValidationError msg)
       (text ← utf8_decode raw;
        loads (mkHooks (unique_object dup []) default_parse_int (λ s, Raise (constant s))) depth text)).
Proof.
  intros Hdup Hconst. set (h := mkHooks _ _ _).
  destruct (utf8_decode raw) as [text|e] eqn:Hu; cbn [mbind result_bind].
  - assert (∀ e, loads h depth text = Raise e →
      e = JSONDecodeError ∨ e = RecursionError ∨ decode_error e) as Hl.
    { intros e. apply (loads_raises h (λ e, e = JSONDecodeError ∨ e = RecursionError ∨ decode_error e));
      [by left|by right; left|..]; unfold decode_error.
      - intros l e' He. right. right. left. exact (unique_object_outcome dup [] l e' Hdup He).
      - intros s e' He. right. right. right. cbn in He. unfold default_parse_int in He.
        apply result_seq_Raise in He as [He|[_ He]]; [|done].
        unfold raise_if in He. case_match; naive_solver.
      - intros s e' He. right. right. left. cbn in He. injection He as <-. apply Hconst. }
    destruct (loads h depth text) as [v|e] eqn:He; [done|]. cbn [except_as].
    destruct (Hl e eq_refl) as [-> |[-> |Hd]]; [left; by eexists|left; by eexists|].
    destruct (is_syntax_error e); cbn; [left; by eexists|done].
  - apply utf8_decode_raises in Hu as ->. left. by eexists.
Qed.

Lemma verr_validation s : is_validation (verr s).
Proof. by eexists. Qed.
Lemma verr_decode s : decode_error (verr s).
Proof. left. apply verr_validation. Qed.
#[local] Hint Resolve verr_validation verr_decode : core.

Lemma bounded_string_outcome v lo hi e :
  decode_error e →
  outcome decode_error (λ s, v = JStr s ∧ (lo ≤ str_len s ≤ hi)%Z) (bounded_string v lo hi e).
Proof.
  intros He. destruct v; cbn [bounded_string]; try exact He.
  eapply outcome_bind; [by apply outcome_raise_if|]. intros [] Hb. cbn. split; [done|lia].
Qed.

Lemma b64decode_outcome s e :
  decode_error e → outcome decode_error (λ _, True) (except_as is_ValueError e (b64decode s)).
Proof.
  intros He. destruct (b64decode s) as [l|e'] eqn:Hd; [done|].
  apply b64decode_raises in Hd as ->. exact He.
Qed.

Definition cert_size (c : list Z) : Prop := (1 ≤ Z.of_nat (length c) ≤ 16384)%Z.

Lemma decode_certificate_outcome v : outcome decode_error cert_size (_decode_certificate v).
Proof.
  unfold _decode_certificate. eapply outcome_bind; [by apply bounded_string_outcome|]. intros s _.
  eapply outcome_bind; [by apply b64decode_outcome|]. intros c _.
  eapply outcome_bind; [by apply outcome_raise_if|]. intros [] Hb. cbn. unfold cert_size. lia.
Qed.

Lemma map_result_outcome {A B} E (P : B → Prop) (f : A → result B) l :
  (∀ x, outcome E P (f x)) → outcome E (Forall P) (map_result f l).
Proof.
  intros Hf. induction l as [|x l IH]; cbn [map_result]; [constructor|].
  eapply outcome_bind; [apply Hf|]. intros y Hy. eapply outcome_bind; [exact IH|]. intros ys Hys.
  by constructor.
Qed.

Lemma keys_are_spec body keys : keys_are body keys = true → ∀ k, k ∈ keys → k ∈ body.*1.
Proof. unfold keys_are. intros Heq%bool_decide_eq_true k Hk. set_solver. Qed.

Lemma dict_get_outcome E key body :
  key ∈ body.*1 → outcome E (λ v, (key, v) ∈ body) (dict_get key body).
Proof.
  intros Hk. pose proof (dict_get_present key body Hk) as Hg. unfold dict_get in *.
  destruct (find _ body) as [f|]; [exact Hg|]. by destruct Hg.
Qed.

(** A credential within the program's limits. *)
Definition credential_bounded (c : IssuedEndpointCredential) : Prop :=
  cert_size (ic_leaf_certificate_der c) ∧ Forall cert_size (ic_intermediate_certificates_der c) ∧
  length (ic_intermediate_certificates_der c) ≤ 4.

Lemma decode_issuer_response_outcome depth encoded :
  outcome decode_error credential_bounded (_decode_issuer_response depth encoded).
Proof.
  unfold _decode_issuer_response. eapply outcome_bind; [by apply parse_outcome|].
  intros v _. destruct v as [| | | | | |body]; try apply verr_decode.
  eapply outcome_bind; [by apply outcome_raise_if|]. intros [] Hk%negb_false_iff.
  pose proof (keys_are_spec _ _ Hk) as Hkeys.
  eapply outcome_bind; [apply dict_get_outcome, Hkeys, list_elem_of_here|]. intros leaf_value _.
  eapply outcome_bind; [apply decode_certificate_outcome|]. intros leaf Hleaf.
  eapply outcome_bind; [apply dict_get_outcome, Hkeys; apply list_elem_of_further, list_elem_of_here|].
  intros v _. destruct v as [| | | | |items|]; try apply verr_decode.
  eapply outcome_bind; [by apply outcome_raise_if|]. intros [] Hlen.
  destruct (map_result _decode_certificate items) as [ints|e] eqn:Hm; last first.
  { pose proof (map_result_outcome decode_error cert_size _decode_certificate items decode_certificate_outcome)
      as Ho. by rw Hm in Ho. }
  pose proof (map_result_outcome decode_error cert_size _decode_certificate items decode_certificate_outcome)
    as Ho. rw Hm in Ho. cbn in Ho |- *. apply map_result_length in Hm.
  split_and!; [done|done|]. cbn. lia.
Qed.

(** ** The client *)

(** What the HTTP library documents: a failing exchange or read raises a transport
error. *)
Record transport (exchange : list Z → result http_response) : Prop := {
  tr_exchange b e : exchange b = Raise e → is_transport_error e = true;
  tr_read b r e : exchange b = Ok r → hr_read r = Raise e → is_transport_error e = true;
  tr_more b r e : exchange b = Ok r → hr_read_more r = Raise e → is_transport_error e = true;
}.

(** The response a credential is taken from. *)
Record accepted_response (depth : nat) (r : http_response) (c : IssuedEndpointCredential)
    : Prop := {
  ar_status : hr_status r = 201%Z;
  ar_type : hr_getheader r (py "Content-Type") = Some (py "application/json");
  ar_encoding : hr_getheader r (py "Content-Encoding") = None;
  ar_length v : hr_getheader r (py "Content-Length") = Some v → content_length_ok v = true;
  ar_body : ∃ encoded, hr_read r = Ok encoded ∧
    (Z.of_nat (length encoded) ≤ MAX_ISSUER_RESPONSE_BYTES)%Z ∧ hr_read_more r = Ok [] ∧
    _decode_issuer_response depth encoded = Ok c;
}.

Definition client_error (e : exn) : Prop := (∃ msg, e = ServiceUnavailableError msg) ∨ e = ValueError.

Lemma check_response_outcome depth r :
  outcome (λ e, client_error e ∨ hr_read r = Raise e ∨ hr_read_more r = Raise e)
    (λ c, accepted_response depth r c ∧ credential_bounded c) (check_response depth r).
Proof.
  set (E := λ e, client_error e ∨ hr_read r = Raise e ∨ hr_read_more r = Raise e).
  assert (∀ msg, E (ServiceUnavailableError msg)) as Hsu by (intros msg; left; left; by eexists).
  unfold check_response, invalid_response.
  eapply outcome_bind; [by apply outcome_raise_if|]. intros [] Hcl.
  destruct (hr_read r) as [encoded|e] eqn:Hread; [|by right; left]. cbn [mbind result_bind].
  eapply outcome_bind; [by apply outcome_raise_if|]. intros [] Hlen.
  destruct (hr_read_more r) as [more|e] eqn:Hmore; [|by right; right]. cbn [mbind result_bind].
  eapply outcome_bind; [by apply outcome_raise_if|]. intros [] Hnil%negb_false_iff%bool_decide_eq_true.
  do 2 (eapply outcome_bind; [by apply outcome_raise_if|]; intros [] _).
  eapply outcome_bind; [by apply outcome_raise_if|]. intros [] Hst.
  eapply outcome_bind; [by apply outcome_raise_if|]. intros [] Hty%negb_false_iff%bool_decide_eq_true.
  eapply outcome_bind; [by apply outcome_raise_if|]. intros [] Henc%negb_false_iff%bool_decide_eq_true.
  pose proof (decode_issuer_response_outcome depth encoded) as Ho.
  destruct (_decode_issuer_response depth encoded) as [c|e] eqn:Hd; cbn in Ho |- *.
  - split; [|exact Ho]. split; [lia|exact Hty|exact Henc| |].
    + intros v Hv. rw Hv in Hcl. by apply negb_false_iff in Hcl.
    + exists encoded. split; [done|]. split; [lia|]. by subst more.
  - destruct Ho as [[msg ->]| ->]; [apply Hsu|]. left. by right.
Qed.

(** C31: the issuer client fails closed. Over any transport that raises only
transport errors, a call at a representable time returns a credential only
when the whole response was read within the limits, had status 201 and exactly
the JSON content type and no encoding, and its body decodes to that credential,
with at most four intermediates and every certificate between 1 and 16384
bytes; every other answer, error or malformed body ends in
[ServiceUnavailableError], apart from the interpreter's [ValueError] for an
integer literal over its digit limit. *)
Theorem issuer_client_fails_closed depth exchange request now :
  transport exchange → aware now = true → dt_in_range (instant now) = true →
  match issue_endpoint_certificate depth exchange request now with
  | Ok c => credential_bounded c ∧
      ∃ r, exchange (json_dumps false (issuance_document request (utc (instant now)))) = Ok r ∧
        accepted_response depth r c
  | Raise e => client_error e
  end.
Proof.
  intros [Hx Hr Hm] Haw Hrg. unfold issue_endpoint_certificate.
  assert (dt_tz now ≠ TzNone ∧ utcoffset now ≠ Ok None ∧ ∀ e, utcoffset now ≠ Raise e) as (H1 & H2 & H3).
  { unfold aware, utcoffset in *. by destruct (dt_tz now). }
  rw (bool_decide_eq_false_2 _ H1). cbn [raise_if mbind result_bind].
  destruct (utcoffset now) as [[o|]|e]; [|by destruct H2|by destruct (H3 e)]. cbn [mbind result_bind].
  rw bool_decide_eq_false_2; [|done]. cbn [raise_if mbind result_bind].
  rw (proj2 (astimezone_utc_aware now (utc (instant now)) Haw)) //. cbn [mbind result_bind].
  set (body := json_dumps _ _). destruct (exchange body) as [r|e] eqn:Hex; cbn [mbind result_bind].
  - pose proof (check_response_outcome depth r) as Ho. destruct (check_response depth r) as [c|e] eqn:Hc.
    + destruct Ho as [Hacc Hb]. split; [exact Hb|]. exists r. by split.
    + cbn [except_as outcome] in *. destruct (is_transport_error e) eqn:Ht; [left; by eexists|].
      destruct Ho as [Ho|[Ho|Ho]]; [exact Ho|..].
      * by rw (Hr _ _ _ Hex Ho) in Ht.
      * by rw (Hm _ _ _ Hex Ho) in Ht.
  - cbn [except_as]. rw (Hx _ _ Hex). left. by eexists.
Qed.

(** ** A credential read back *)
Definition credential_document (c : IssuedEndpointCredential) : json :=
  JObj [(py "leaf_certificate", JStr (b64encode (ic_leaf_certificate_der c)));
        (py "intermediate_certificates",
         JArr (JStr ∘ b64encode <$> ic_intermediate_certificates_der c))].

Definition credential_bytes (c : IssuedEndpointCredential) : Prop :=
  forallb is_byte (ic_leaf_certificate_der c) = true ∧
  Forall (λ b, forallb is_byte b = true) (ic_intermediate_certificates_der c).

Lemma decode_certificate_encoded c :
  cert_size c → forallb is_byte c = true → _decode_certificate (JStr (b64encode c)) = Ok c.
Proof.
  unfold cert_size. intros Hsize Hb. unfold _decode_certificate, bounded_string, raise_if.
  pose proof (length_b64encode c) as Hl. unfold str_len. rw Hl.
  rw (_ : (1 <=? 4 * ((Z.of_nat (length c) + 2) / 3)) && (4 * ((Z.of_nat (length c) + 2) / 3) <=? 24000)
      = true)%Z; [|Z.to_euclidean_division_equations; lia].
  cbn [negb mbind result_bind]. rw b64decode_b64encode //. cbn [except_as mbind result_bind].
  rw (_ : (1 <=? Z.of_nat (length c)) && (Z.of_nat (length c) <=? 16384) = true)%Z; [done|lia].
Qed.

Lemma scalar_b64encode c : forallb is_byte c = true → forallb is_scalar (b64encode c) = true.
Proof.
  intros Hc. pose proof (ascii_b64encode c Hc) as Ha. rw !forallb_forall in Ha |- *.
  intros x Hx%Ha. unfold is_ascii in Hx. apply is_scalar_spec. lia.
Qed.

Lemma credential_document_wf c :
  credential_bytes c → json_wf (λ _, false) (credential_document c) = true.
Proof.
  intros [Hl Hi]. unfold credential_document. cbn [json_wf forallb fst snd].
  apply andb_true_iff. split; [apply bool_decide_eq_true_2; by apply (bool_decide_unpack _)|].
  apply andb_true_iff. split.
  { rw (scalar_b64encode _ Hl). reflexivity. }
  apply andb_true_iff. split; [|reflexivity]. apply andb_true_iff. split; [reflexivity|].
  apply forallb_forall. intros v Hv%list_elem_of_In. apply list_elem_of_fmap in Hv as (b & -> & Hb).
  rw Forall_forall in Hi. exact (scalar_b64encode b (Hi b Hb)).
Qed.

Lemma credential_document_depth c : json_depth (credential_document c) ≤ 2.
Proof.
  assert (max_list (json_depth <$> (JStr ∘ b64encode <$> ic_intermediate_certificates_der c)) = 0) as Hz
    by (rw -list_fmap_compose; by apply max_list_zero).
  unfold credential_document. cbn in *. rw Hz. done.
Qed.

Lemma decode_certificates_encoded l :
  Forall cert_size l → Forall (λ b, forallb is_byte b = true) l →
  map_result _decode_certificate (JStr ∘ b64encode <$> l) = Ok l.
Proof.
  induction 1 as [|c l Hc Hl IH]; intros Hb; [done|]. apply Forall_cons in Hb as [Hcb Hb].
  rw fmap_cons. cbn [map_result compose]. rw decode_certificate_encoded //. cbn [mbind result_bind].
  by rw IH.
Qed.

(** Decoding inverts the issuer's encoding. The canonical JSON encoding of a
credential within the limits (one to 16384 bytes per certificate, at most four
intermediates) decodes to exactly that credential, provided the interpreter
allows two nested containers. *)
Theorem issuer_response_roundtrip depth c :
  credential_bounded c → credential_bytes c → 2 ≤ depth →
  _decode_issuer_response depth (json_dumps false (credential_document c)) = Ok c.
Proof.
  intros (Hl & Hi & Hn) Hb Hdepth. pose proof (credential_document_wf c Hb) as Hwf.
  unfold _decode_issuer_response. rw (utf8_decode_ascii _ (ascii_dumps (λ _, false) _ Hwf)).
  cbn [mbind result_bind]. rw (loads_dumps issuer_hooks (λ _, false)); [|done| |done|]; last first.
  { pose proof (credential_document_depth c). lia. }
  { intros l. exact (unique_object_all _ l []). }
  cbn [except_as mbind result_bind credential_document].
  assert (∀ a b, keys_are [(py "leaf_certificate", a); (py "intermediate_certificates", b)] issuer_keys
    = true) as -> by (intros a b; unfold keys_are; by apply bool_decide_eq_true_2).
  cbn [negb raise_if]. eapply bind_eq; [reflexivity|]. cbv beta.
  eapply bind_eq; [exact (dict_get_here _ _ _)|]. cbv beta.
  eapply bind_eq; [by apply decode_certificate_encoded; [|apply Hb]|]. cbv beta.
  eapply bind_eq; [etrans; [by apply dict_get_next|exact (dict_get_here _ _ _)]|]. cbv beta iota.
  rw length_fmap (proj2 (Z.ltb_ge _ _)); [|lia]. eapply bind_eq; [reflexivity|]. cbv beta.
  eapply bind_eq; [by apply decode_certificates_encoded; [|apply Hb]|]. cbv beta. by destruct c.
Qed.

Module IssuerSample.

Definition credential : IssuedEndpointCredential := mkIssuedCredential [48; 130; 1]%Z [[48; 131]%Z].
Definition response : http_response :=
  mkHttpResponse 201
    (λ name, if bool_decide (name = py "Content-Type") then Some (py "application/json") else None)
    (Ok (json_dumps false (credential_document credential))) (Ok []).
Definition exchange (_ : list Z) : result http_response := Ok response.
Definition request : EndpointIssuanceRequest := mkIssuanceRequest (uid 1) (uid 2) [] [48; 129]%Z.
Definition now : datetime := utc (738000 * day).

End IssuerSample.

Lemma issuer_response_roundtrip_witness :
  _decode_issuer_response 2 (json_dumps false (credential_document IssuerSample.credential))
    = Ok IssuerSample.credential.
Proof.
  apply (issuer_response_roundtrip 2 IssuerSample.credential).
  - split; [by vm_compute|]. split; [by repeat constructor|]. cbn. lia.
  - split; [reflexivity|]. by repeat constructor.
  - lia.
Defined.

Lemma issuer_client_fails_closed_witness :
  issue_endpoint_certificate 2 IssuerSample.exchange IssuerSample.request IssuerSample.now
    = Ok IssuerSample.credential ∧ credential_bounded IssuerSample.credential.
Proof.
  pose proof (issuer_client_fails_closed 2 IssuerSample.exchange IssuerSample.request IssuerSample.now) as H.
  assert (issue_endpoint_certificate 2 IssuerSample.exchange IssuerSample.request IssuerSample.now
    = Ok IssuerSample.credential) as Hrun by (vm_compute; reflexivity).
  rw Hrun in H. split; [reflexivity|]. apply H; [|reflexivity|reflexivity].
  split; [done|by intros b r e [= <-]|by intros b r e [= <-]].
Defined.
