(* ===== verification/Candidate.v ===== *)
(** * The release-candidate verifier ([agent/packaging/release/verify-candidate.py])

[CandidateRejected] is the script's [VerificationError]. The candidate directory and its
files do not change while the script runs; Cosign, dpkg-deb and the SPDX validator are
programs outside the repository, given by what they answer ([tools]). Where a message of
the script quotes the interpreter's own text, only its beginning is kept. *)
From stdpp Require Import prelude strings gmap sorting pretty ssreflect.
From Stdlib Require Import QArith.
From S2P Require Import Prelude Uuid Sha256 Json Text JsonLoads JsonProofs Domain Codec AgentApi Http Net UrlText Configuration PyFloat Certificates Enrollment.

Set Warnings "-clear-no-such-hyp".
Local Close Scope Q_scope.

(** ** The environment *)
Inductive dentry := Regular (content : list Z) | OtherEntry.

Record candidate := mkCandidate {
  cd_is_dir : bool;
  cd_entries : list (pystr * dentry);
}.

(** [subprocess.run(..., check=True, capture_output=True, text=True)]: it returns, or raises
[OSError], [CalledProcessError], or [UnicodeDecodeError] for output that is not text. *)
Inductive completed := Completed (stdout : pystr) | NotExecuted | Failed (stderr : pystr) | Undecodable.

Record tools := mkTools {
  (** [cosign verify-blob --key ... --bundle ... manifest] *)
  tl_cosign : list Z → list Z → list Z → completed;
  (** [dpkg-deb --field package field] *)
  tl_dpkg : list Z → pystr → completed;
  (** [node validator schema sbom] *)
  tl_spdx : list Z → completed;
  (** the schema and the validator are regular files *)
  tl_schema : bool;
  tl_validator : bool;
}.

Record expectations := mkExpectations {
  ex_commit : pystr;
  ex_version : pystr;
  ex_package_sha256 : pystr;
  ex_source_date_epoch : Z;
  ex_public_key_sha256 : pystr;
  ex_invocation_id : pystr;
}.

(** ** Values of JSON documents *)
Definition require (condition : bool) (message : string) : result unit :=
  raise_if (negb condition) (CandidateRejected (py message)).
Definition require_of (condition : bool) (label : pystr) (message : string) : result unit :=
  raise_if (negb condition) (CandidateRejected (label ++ py message)).

(** [fields.get(key)]. *)
Definition jget (key : string) (fields : list (pystr * json)) : json :=
  match dict_get (py key) fields with Ok v => v | Raise _ => JNull end.

(** [value == "text"]; [value == n]: numbers compare by value, and booleans are numbers. *)
Definition eq_str (value : json) (s : pystr) : bool :=
  match value with JStr t => bool_decide (t = s) | _ => false end.
Definition eq_int (value : json) (n : Z) : bool :=
  match value with
  | JInt z => (z =? n)%Z
  | JBool b => ((if b then 1 else 0) =? n)%Z
  | JFloat raw => match json_float raw with Finite q => Qeq_bool q (inject_Z n) | NotFinite => false end
  | _ => false
  end.
Definition is_bool (b : bool) (value : json) : bool :=
  match value with JBool c => Bool.eqb b c | _ => false end.
Definition is_str (value : json) : bool := match value with JStr _ => true | _ => false end.
Definition truthy (value : json) : bool :=
  match value with
  | JNull => false
  | JBool b => b
  | JInt z => negb (z =? 0)%Z
  | JFloat raw => match json_float raw with Finite q => negb (Qeq_bool q 0) | NotFinite => true end
  | JStr s => negb (str_empty s)
  | JArr items => negb (bool_decide (length items = 0))
  | JObj fields => negb (bool_decide (length fields = 0))
  end.

(** [require(isinstance(value, dict), message)], with the dictionary. *)
Definition object (value : json) (message : string) : result (list (pystr * json)) :=
  match value with JObj fields => Ok fields | _ => Raise (CandidateRejected (py message)) end.
(** [value.get]: an attribute of dictionaries only. *)
Definition attributes (value : json) : result (list (pystr * json)) :=
  match value with JObj fields => Ok fields | _ => Raise AttributeError end.

(** [value == {key: "text"}]. *)
Definition eq_singleton (value : json) (key : string) (s : pystr) : bool :=
  match value with JObj [(k, v)] => bool_decide (k = py key) && eq_str v s | _ => false end.

Fixpoint is_prefix (p s : pystr) : bool :=
  match p, s with
  | [], _ => true
  | a :: p', b :: s' => (a =? b)%Z && is_prefix p' s'
  | _ :: _, [] => false
  end.
Fixpoint is_substring (p s : pystr) : bool :=
  is_prefix p s || match s with [] => false | _ :: s' => is_substring p s' end.
Definition is_suffix (p s : pystr) : bool := is_prefix (reverse p) (reverse s).

(** [x in (value or [])] for a string [x], and the items a loop over [value or []] visits. *)
Definition contains (x : pystr) (value : json) : result bool :=
  if negb (truthy value) then Ok false
  else match value with
  | JArr items => Ok (existsb (λ v, eq_str v x) items)
  | JStr s => Ok (is_substring x s)
  | JObj fields => Ok (bool_decide (x ∈ fields.*1))
  | _ => Raise TypeError
  end.
Definition iterate (value : json) : result (list json) :=
  if negb (truthy value) then Ok []
  else match value with
  | JArr items => Ok items
  | JStr s => Ok ((λ c, JStr [c]) <$> s)
  | JObj fields => Ok (JStr <$> fields.*1)
  | _ => Raise TypeError
  end.

(** ** Files *)
Fixpoint reject_duplicates (result pairs : list (pystr * json)) : Prelude.result json :=
  match pairs with
  | [] => Ok (JObj result)
  | (key, value) :: rest =>
    raise_if (bool_decide (key ∈ result.*1)) (CandidateRejected (py "duplicate JSON key: " ++ key));;
    reject_duplicates (result ++ [(key, value)]) rest
  end.
Definition candidate_hooks : hooks := mkHooks (reject_duplicates []) default_parse_int (λ c, Ok (JFloat c)).

(** Text files are read with universal newlines. *)
Fixpoint newlines (s : pystr) : pystr :=
  match s with
  | [] => []
  | c :: r =>
    if (c =? 13)%Z then
      10%Z :: match r with
              | d :: r' => if (d =? 10)%Z then newlines r' else newlines r
              | [] => []
              end
    else c :: newlines r
  end.

Section script.
Context (depth : nat) (t : tools) (cd : candidate) (ex : expectations).

Definition entry_of (name : pystr) : option dentry :=
  snd <$> find (λ e, bool_decide (e.1 = name)) (cd_entries cd).
(** [path.is_file() and not path.is_symlink()]. *)
Definition regular (name : pystr) : bool :=
  match entry_of name with Some (Regular _) => true | _ => false end.
Definition read_bytes (name : pystr) : result (list Z) :=
  match entry_of name with Some (Regular content) => Ok content | _ => Raise OSError end.

Definition is_load_error (e : exn) : bool :=
  match e with OSError | UnicodeDecodeError | JSONDecodeError => true | _ => false end.

Definition load_json (name : pystr) : result (list (pystr * json)) :=
  value ← except_as is_load_error (CandidateRejected (py "invalid JSON in " ++ name))
    (raw ← read_bytes name; text ← utf8_decode raw; loads candidate_hooks depth (newlines text));
  match value with
  | JObj fields => Ok fields
  | _ => Raise (CandidateRejected (name ++ py " must contain a JSON object"))
  end.

Definition digest (name : pystr) : result pystr := content ← read_bytes name; Ok (Sha256.hexdigest content).

Definition evidence_path (record : json) (label : pystr) : result pystr :=
  match record with
  | JObj fields =>
    match jget "path" fields with
    | JStr name =>
      require_of (negb (bool_decide (name ∈ [[]; py "."; py ".."]))) label " path is invalid";;
      require_of (negb (bool_decide (47%Z ∈ name)) && negb (bool_decide (92%Z ∈ name))) label
        " path must be a filename";;
      require_of (regular name) label " file is missing or unsafe";;
      content ← read_bytes name;
      require_of (eq_str (jget "sha256" fields) (Sha256.hexdigest content)) label " SHA-256 mismatch";;
      require_of (eq_int (jget "size" fields) (Z.of_nat (length content))) label " size mismatch";;
      Ok name
    | _ => Raise (CandidateRejected (label ++ py " path must be a string"))
    end
  | _ => Raise (CandidateRejected (label ++ py " evidence must be an object"))
  end.

Definition dpkg_field (package field : pystr) : result pystr :=
  content ← read_bytes package;
  match tl_dpkg t content field with
  | Completed stdout => Ok (py_strip stdout)
  | Undecodable => Raise UnicodeDecodeError
  | _ => Raise (CandidateRejected (py "cannot inspect package field " ++ field))
  end.

(** ** [verify] *)
Definition hex_text (n : Z) (s : pystr) : bool :=
  (str_len s =? n)%Z && forallb (λ c, is_digit c || ((97 <=? c) && (c <=? 102)))%Z s.
Definition version_char (c : Z) : bool := is_alnum c || bool_decide (c ∈ [46; 43; 126; 58; 45]%Z).
Definition run_prefix : pystr := py "https://github.com/Beowxlf/northgate-rmm/actions/runs/".
Definition invocation_text (s : pystr) : bool :=
  match strip_prefix run_prefix s with
  | Some (c :: r) => ((49 <=? c) && (c <=? 57))%Z && forallb is_digit r
  | _ => false
  end.

Definition check_arguments : result unit :=
  require (cd_is_dir cd) "candidate directory is missing";;
  require (hex_text 40 (ex_commit ex)) "expected commit must be a full SHA";;
  require (negb (str_empty (ex_version ex)) && forallb version_char (ex_version ex)) "expected version is invalid";;
  require (hex_text 64 (ex_package_sha256 ex)) "expected package digest must be a SHA-256 value";;
  require (0 <? ex_source_date_epoch ex)%Z "expected source epoch is invalid";;
  require (hex_text 64 (ex_public_key_sha256 ex)) "expected public-key digest must be a SHA-256 value";;
  require (invocation_text (ex_invocation_id ex)) "expected invocation identifier is invalid";;
  require (tl_schema t) "SPDX schema is missing or unsafe";;
  require (tl_validator t) "SPDX validator is missing or unsafe".

Definition manifest_name : pystr := py "release-manifest.json".
Definition public_key_name : pystr := py "release-test.pub".
Definition bundle_name : pystr := py "release-manifest.sigstore.json".

Fixpoint check_present (names : list pystr) : result unit :=
  match names with
  | [] => Ok tt
  | name :: rest =>
    raise_if (negb (regular name)) (CandidateRejected (py "missing or unsafe file: " ++ name));;
    check_present rest
  end.

Definition check_signature : result unit :=
  check_present [manifest_name; public_key_name; bundle_name];;
  public_key ← read_bytes public_key_name;
  bundle ← read_bytes bundle_name;
  manifest ← read_bytes manifest_name;
  match tl_cosign t public_key bundle manifest with
  | Completed _ => Ok tt
  | NotExecuted => Raise (CandidateRejected (py "Cosign could not be executed"))
  | Failed stderr =>
    let text := py_strip stderr in
    let detail := if str_empty text then py "Cosign returned no diagnostic" else text in
    Raise (CandidateRejected (py "release manifest signature verification failed: " ++ detail))
  | Undecodable => Raise UnicodeDecodeError
  end.

Definition repository : pystr := py "https://github.com/Beowxlf/northgate-rmm".
Definition expected_build_type : pystr :=
  repository ++ py "/.github/workflows/g2b-release-trust.yml".

(** The manifest's own fields, its source, build and signing records. *)
Definition check_manifest (manifest : list (pystr * json)) : result unit :=
  require (eq_int (jget "schemaVersion" manifest) 1) "unsupported manifest schema";;
  require (eq_str (jget "gate" manifest) (py "G2B")) "manifest is not a G2B candidate";;
  require (eq_str (jget "product" manifest) (py "northgate-rmm-agent")) "unexpected product";;
  require (eq_str (jget "version" manifest) (ex_version ex)) "release version mismatch";;
  require (eq_str (jget "architecture" manifest) (py "amd64")) "release architecture mismatch";;
  require (is_bool true (jget "releaseCandidate" manifest)) "release-candidate marker is absent";;
  require (is_bool false (jget "publicationAuthorized" manifest)) "publication must remain unauthorized";;
  require (is_bool false (jget "deploymentAuthorized" manifest)) "deployment must remain unauthorized";;
  source ← object (jget "source" manifest) "source metadata is missing";
  require (eq_str (jget "repository" source) repository) "repository mismatch";;
  require (eq_str (jget "commit" source) (ex_commit ex)) "source commit mismatch";;
  build ← object (jget "build" manifest) "build metadata is missing";
  require (eq_int (jget "sourceDateEpoch" build) (ex_source_date_epoch ex)) "source epoch mismatch";;
  require (eq_str (jget "buildType" build) expected_build_type) "build type mismatch";;
  require (eq_str (jget "invocationId" build) (ex_invocation_id ex)) "invocation identifier mismatch";;
  signing ← object (jget "signing" manifest) "signing metadata is missing";
  require (eq_str (jget "profile" signing) (py "test-only-ephemeral")) "unexpected signing profile";;
  key_path ← evidence_path (jget "publicKey" signing) (py "public key");
  require (bool_decide (key_path = public_key_name)) "manifest names an unexpected public key";;
  key_digest ← digest public_key_name;
  require (bool_decide (key_digest = ex_public_key_sha256 ex))
    "public key does not match the independently supplied trust pin".

Definition expected_package_name : pystr := py "northgate-rmm-agent_" ++ ex_version ex ++ py "_amd64.deb".

(** The artifacts: the names of the package, the SBOM and the provenance. *)
Definition check_artifacts (manifest : list (pystr * json)) : result (pystr * pystr * pystr) :=
  artifacts ← object (jget "artifacts" manifest) "artifact evidence is missing";
  require (keys_are artifacts [py "package"; py "sbom"; py "provenance"]) "artifact set is not exact";;
  package ← evidence_path (jget "package" artifacts) (py "package");
  sbom_path ← evidence_path (jget "sbom" artifacts) (py "SBOM");
  provenance_path ← evidence_path (jget "provenance" artifacts) (py "provenance");
  package_digest ← digest package;
  require (bool_decide (package_digest = ex_package_sha256 ex))
    "package does not match the independently supplied build digest";;
  require (bool_decide (package = expected_package_name)) "package filename mismatch";;
  require (bool_decide (sbom_path = expected_package_name ++ py ".spdx.json")) "SBOM filename mismatch";;
  require (bool_decide (provenance_path = expected_package_name ++ py ".provenance.json"))
    "provenance filename mismatch";;
  sbom ← attributes (jget "sbom" artifacts);
  require (eq_str (jget "format" sbom) (py "SPDX-2.3")) "SBOM format mismatch";;
  provenance ← attributes (jget "provenance" artifacts);
  require (eq_str (jget "predicateType" provenance) (py "https://slsa.dev/provenance/v1"))
    "provenance type mismatch";;
  Ok (package, sbom_path, provenance_path).

(** The loop over [root.iterdir()], and the two requirements on the names. *)
Fixpoint check_entries (entries : list (pystr * dentry)) : result unit :=
  match entries with
  | [] => Ok tt
  | (name, e) :: rest =>
    raise_if (match e with Regular _ => false | OtherEntry => true end)
      (CandidateRejected (py "unexpected non-regular entry: " ++ name));;
    check_entries rest
  end.

Definition is_private_key_name (name : pystr) : bool :=
  is_suffix (py ".key") name || is_suffix (py ".p12") name || is_suffix (py ".pfx") name.

Definition check_directory (package sbom_path provenance_path : pystr) : result unit :=
  check_entries (cd_entries cd);;
  require (bool_decide ((list_to_set (cd_entries cd).*1 : gset pystr) =
    list_to_set [manifest_name; public_key_name; bundle_name; package; sbom_path; provenance_path]))
    "candidate file set is not exact";;
  require (negb (existsb is_private_key_name (cd_entries cd).*1)) "private key material is present".

Definition check_package (package : pystr) : result unit :=
  name ← dpkg_field package (py "Package");
  require (bool_decide (name = py "northgate-rmm-agent")) "Debian package name mismatch";;
  version ← dpkg_field package (py "Version");
  require (bool_decide (version = ex_version ex)) "Debian package version mismatch";;
  architecture ← dpkg_field package (py "Architecture");
  require (bool_decide (architecture = py "amd64")) "Debian package architecture mismatch".

Definition array (value : json) (message : string) : result (list json) :=
  match value with JArr items => Ok items | _ => Raise (CandidateRejected (py message)) end.

Definition run_validator (sbom_path : pystr) : result unit :=
  content ← read_bytes sbom_path;
  match tl_spdx t content with
  | Completed _ => Ok tt
  | NotExecuted => Raise (CandidateRejected (py "SPDX schema validator could not be executed"))
  | Failed stderr =>
    let text := py_strip stderr in
    let detail := if str_empty text then py "validator returned no diagnostic" else text in
    Raise (CandidateRejected (py "SPDX 2.3 schema validation failed: " ++ detail))
  | Undecodable => Raise UnicodeDecodeError
  end.

(** The document's own fields. *)
Definition check_sbom_document (sbom : list (pystr * json)) : result unit :=
  require (eq_str (jget "spdxVersion" sbom) (py "SPDX-2.3")) "SBOM is not SPDX 2.3";;
  require (eq_str (jget "dataLicense" sbom) (py "CC0-1.0")) "SBOM data license mismatch";;
  require (eq_str (jget "SPDXID" sbom) (py "SPDXRef-DOCUMENT")) "SBOM document identity mismatch";;
  require (is_str (jget "name" sbom) && truthy (jget "name" sbom)) "SBOM document name is missing";;
  require (match jget "documentNamespace" sbom with
           | JStr s => is_prefix (py "https://") s || is_prefix (py "http://") s
           | _ => false
           end) "SBOM document namespace is invalid";;
  creation ← object (jget "creationInfo" sbom) "SBOM creation information is missing";
  require (is_str (jget "created" creation) && truthy (jget "created" creation)) "SBOM creation time is missing";;
  require (match jget "creators" creation with
           | JArr items => existsb (λ v, match v with JStr s => is_prefix (py "Tool: syft-") s | _ => false end) items
           | _ => false
           end) "SBOM does not identify Syft as its creator".

(** [isinstance(item, dict) and item.get("name") == ... and item.get("versionInfo") == ...]. *)
Definition is_candidate_package (item : json) : bool :=
  match item with
  | JObj fields =>
    eq_str (jget "name" fields) (py "northgate-rmm-agent") && eq_str (jget "versionInfo" fields) (ex_version ex)
  | _ => false
  end.

Definition binds_digest (package_digest : pystr) (item : json) : bool :=
  match item with
  | JObj fields =>
    eq_str (jget "algorithm" fields) (py "SHA256") && eq_str (jget "checksumValue" fields) package_digest
  | _ => false
  end.

Definition describes (spdx_id : pystr) (item : json) : bool :=
  match item with
  | JObj fields =>
    eq_str (jget "spdxElementId" fields) (py "SPDXRef-DOCUMENT")
    && eq_str (jget "relationshipType" fields) (py "DESCRIBES")
    && eq_str (jget "relatedSpdxElement" fields) spdx_id
  | _ => false
  end.

(** The package inventory; the number of packages is reported. *)
Definition check_sbom_packages (package : pystr) (sbom : list (pystr * json)) : result Z :=
  packages ← array (jget "packages" sbom) "SBOM package inventory is empty";
  require (negb (bool_decide (length packages = 0))) "SBOM package inventory is empty";;
  match List.filter is_candidate_package packages with
  | [JObj candidate_package] =>
    checksums ← array (jget "checksums" candidate_package) "SBOM package checksums are missing";
    package_digest ← digest package;
    require (existsb (binds_digest package_digest) checksums)
      "SBOM package checksum does not bind the candidate bytes";;
    match jget "SPDXID" candidate_package with
    | JStr candidate_spdx_id =>
      described ← contains candidate_spdx_id (jget "documentDescribes" sbom);
      described ← (if described : bool then Ok true
                   else relationships ← iterate (jget "relationships" sbom);
                        Ok (existsb (describes candidate_spdx_id) relationships));
      require described "SBOM document does not describe the candidate package";;
      Ok (Z.of_nat (length packages))
    | _ => Raise (CandidateRejected (py "SBOM package identity is missing"))
    end
  | _ => Raise (CandidateRejected (py "SBOM does not identify exactly one Debian release candidate"))
  end.

Definition check_sbom (package sbom_path : pystr) : result Z :=
  sbom ← load_json sbom_path;
  run_validator sbom_path;;
  check_sbom_document sbom;;
  check_sbom_packages package sbom.

(** [value == {"architecture": "amd64", "releaseCandidate": True, "version": version}]. *)
Definition external_parameters_ok (value : json) : bool :=
  match value with
  | JObj fields =>
    keys_are fields [py "architecture"; py "releaseCandidate"; py "version"]
    && eq_str (jget "architecture" fields) (py "amd64") && eq_int (jget "releaseCandidate" fields) 1
    && eq_str (jget "version" fields) (ex_version ex)
  | _ => false
  end.

(** The subject of the statement, and the one item of a list. *)
Definition singleton_item (value : json) (message : string) : result json :=
  match value with JArr [item] => Ok item | _ => Raise (CandidateRejected (py message)) end.

Definition check_subject (package : pystr) (provenance : list (pystr * json)) : result unit :=
  require (eq_str (jget "_type" provenance) (py "https://in-toto.io/Statement/v1")) "provenance statement type mismatch";;
  require (eq_str (jget "predicateType" provenance) (py "https://slsa.dev/provenance/v1"))
    "provenance predicate mismatch";;
  subject ← singleton_item (jget "subject" provenance) "provenance subject set is not exact";
  subject ← attributes subject;
  require (eq_str (jget "name" subject) package) "provenance subject name mismatch";;
  package_digest ← digest package;
  require (eq_singleton (jget "digest" subject) "sha256" package_digest) "provenance subject digest mismatch".

Definition check_build (predicate : list (pystr * json)) : result unit :=
  definition ← object (jget "buildDefinition" predicate) "provenance build definition is missing";
  require (eq_str (jget "buildType" definition) expected_build_type) "provenance build type mismatch";;
  dependency ← singleton_item (jget "resolvedDependencies" definition) "resolved source is not exact";
  dependency ← attributes dependency;
  require (eq_str (jget "uri" dependency) (py "git+" ++ repository ++ py "@" ++ ex_commit ex))
    "provenance source URI mismatch";;
  require (eq_singleton (jget "digest" dependency) "gitCommit" (ex_commit ex)) "provenance source digest mismatch";;
  require (external_parameters_ok (jget "externalParameters" definition)) "provenance external parameters mismatch";;
  internal ← object (jget "internalParameters" definition) "provenance internal parameters are missing";
  require (is_bool false (jget "publicationAuthorized" internal)) "provenance publication boundary is absent";;
  require (eq_str (jget "signingProfile" internal) (py "test-only-ephemeral")) "provenance signing boundary is absent";;
  require (eq_int (jget "sourceDateEpoch" internal) (ex_source_date_epoch ex)) "source epoch disagreement";;
  details ← object (jget "runDetails" predicate) "provenance run details are missing";
  require (eq_singleton (jget "builder" details) "id" expected_build_type) "provenance builder mismatch";;
  require (eq_singleton (jget "metadata" details) "invocationId" (ex_invocation_id ex))
    "provenance invocation mismatch".

Definition check_provenance (package provenance_path : pystr) : result unit :=
  provenance ← load_json provenance_path;
  check_subject package provenance;;
  predicate ← object (jget "predicate" provenance) "provenance predicate is missing";
  check_build predicate.

(** The evidence that is printed. *)
Definition evidence (package sbom_path provenance_path : pystr) (sbom_packages : Z) : result json :=
  package_bytes ← read_bytes package;
  manifest_sha256 ← digest manifest_name;
  bundle_sha256 ← digest bundle_name;
  sbom_sha256 ← digest sbom_path;
  provenance_sha256 ← digest provenance_path;
  key_sha256 ← digest public_key_name;
  Ok (JObj [(py "gate", JStr (py "G2B")); (py "source_commit", JStr (ex_commit ex));
    (py "source_date_epoch", JInt (ex_source_date_epoch ex)); (py "version", JStr (ex_version ex));
    (py "package_sha256", JStr (Sha256.hexdigest package_bytes));
    (py "package_bytes", JInt (Z.of_nat (length package_bytes)));
    (py "release_manifest_sha256", JStr manifest_sha256); (py "signature_bundle_sha256", JStr bundle_sha256);
    (py "sbom_sha256", JStr sbom_sha256); (py "sbom_packages", JInt sbom_packages);
    (py "provenance_sha256", JStr provenance_sha256); (py "test_public_key_sha256", JStr key_sha256);
    (py "signature_verified", JBool true); (py "publication_authorized", JBool false);
    (py "deployment_authorized", JBool false)]).

Definition verify : result json :=
  check_arguments;;
  check_signature;;
  manifest ← load_json manifest_name;
  check_manifest manifest;;
  '(package, sbom_path, provenance_path) ← check_artifacts manifest;
  check_directory package sbom_path provenance_path;;
  check_package package;;
  sbom_packages ← check_sbom package sbom_path;
  check_provenance package provenance_path;;
  evidence package sbom_path provenance_path sbom_packages.

(** [main]: what is printed and the exit status; other exceptions escape. *)
Definition candidate_main : result (option json * Z) :=
  match verify with
  | Ok report => Ok (Some report, 0%Z)
  | Raise (CandidateRejected _) => Ok (None, 1%Z)
  | Raise e => Raise e
  end.
End script.

(** ** What an accepted candidate is *)
Lemma require_Ok b m u : require b m = Ok u ↔ b = true.
Proof. unfold require. rw raise_if_Ok negb_false_iff. done. Qed.
Lemma require_of_Ok b l m u : require_of b l m = Ok u ↔ b = true.
Proof. unfold require_of. rw raise_if_Ok negb_false_iff. done. Qed.
Lemma eq_str_true v s : eq_str v s = true ↔ v = JStr s.
Proof. destruct v; cbn; try (split; done). rw bool_decide_eq_true. naive_solver. Qed.
Lemma eq_singleton_true v k s : eq_singleton v k s = true ↔ v = JObj [(py k, JStr s)].
Proof.
  destruct v as [| | | | | |[|[k' v'] [|]]]; cbn; try (split; done).
  rw andb_true_iff bool_decide_eq_true eq_str_true. naive_solver.
Qed.
Lemma is_bool_true b v : is_bool b v = true ↔ v = JBool b.
Proof. destruct v; cbn; try (split; done). rw Bool.eqb_true_iff. naive_solver. Qed.
Lemma object_Ok v m fields : object v m = Ok fields ↔ v = JObj fields.
Proof. destruct v; cbn; naive_solver. Qed.
Lemma attributes_Ok v fields : attributes v = Ok fields ↔ v = JObj fields.
Proof. destruct v; cbn; naive_solver. Qed.
Lemma array_Ok v m items : array v m = Ok items ↔ v = JArr items.
Proof. destruct v; cbn; naive_solver. Qed.
Lemma singleton_item_Ok v m item : singleton_item v m = Ok item ↔ v = JArr [item].
Proof. destruct v as [| | | | |[|? [|]]|]; cbn; naive_solver. Qed.

(** Numbers compare by value: 1, 1.0 and [True] are equal. *)
Definition numeric (value : json) (n : Z) : Prop :=
  value = JInt n ∨ (∃ b, value = JBool b ∧ n = if b then 1%Z else 0%Z) ∨
  ∃ raw q, value = JFloat raw ∧ json_float raw = Finite q ∧ (q == inject_Z n)%Q.
Lemma eq_int_true v n : eq_int v n = true ↔ numeric v n.
Proof.
  unfold numeric. destruct v as [|b|z|raw|s|l|l]; cbn [eq_int].
  all: split; [try done|intros [E|[(b' & E & ->)|(raw' & q' & E & Hf & Hq)]]; try done; injection E as <-].
  - intros <-%Z.eqb_eq. right. left. by exists b.
  - apply Z.eqb_refl.
  - intros ->%Z.eqb_eq. by left.
  - apply Z.eqb_refl.
  - destruct (json_float raw) as [q|] eqn:Hf; [|done]. intros Hq%Qeq_bool_iff. right. right. by exists raw, q.
  - rw Hf. by apply Qeq_bool_iff.
Qed.

Lemma is_prefix_true p s : is_prefix p s = true ↔ ∃ rest, s = p ++ rest.
Proof.
  revert s. induction p as [|a p IH]; intros [|b s]; cbn; try naive_solver.
  rw andb_true_iff Z.eqb_eq IH. naive_solver.
Qed.
Lemma is_substring_true p s : is_substring p s = true ↔ ∃ a b, s = a ++ p ++ b.
Proof.
  assert (Hp : ∀ s, is_prefix p s = true → ∃ a b, s = a ++ p ++ b).
  { intros s' [b ->]%is_prefix_true. by exists [], b. }
  split.
  - induction s as [|c s IH]; cbn [is_substring]; intros [H|H]%orb_true_iff; auto; [done|].
    destruct (IH H) as (a & b & ->). by exists (c :: a), b.
  - intros (a & b & ->). induction a as [|c a IH]; cbn [app].
    + destruct (p ++ b) eqn:E; cbn [is_substring]; rw -E orb_true_iff; left; apply is_prefix_true; by exists b.
    + cbn [is_substring]. rw orb_true_iff. by right.
Qed.

(** One element satisfies the test. *)
Definition exactly_one {A} (P : A → Prop) (l : list A) (x : A) : Prop :=
  ∃ before after, l = before ++ x :: after ∧ P x ∧ Forall (λ y, ¬ P y) before ∧ Forall (λ y, ¬ P y) after.
Lemma filter_no_candidates {A} (f : A → bool) l : List.filter f l = [] ↔ Forall (λ y, ¬ f y = true) l.
Proof.
  induction l as [|y l IH]; cbn; [split; [constructor|done]|]. rw Forall_cons -IH. destruct (f y); naive_solver.
Qed.
Lemma filter_one {A} (f : A → bool) l x : List.filter f l = [x] ↔ exactly_one (λ y, f y = true) l x.
Proof.
  unfold exactly_one. split.
  - induction l as [|y l IH]; cbn [List.filter]; [done|]. destruct (f y) eqn:Hy.
    + intros [= -> Hn%filter_no_candidates]. exists [], l. by split_and!.
    + intros (b & a & -> & Hx & Hb & Ha)%IH. exists (y :: b), a. split_and!; try done. constructor; [congruence|done].
  - intros (b & a & -> & Hx & Hb%filter_no_candidates & Ha%filter_no_candidates). by rw List.filter_app Hb /= Hx Ha.
Qed.

Lemma keys_are_true fields keys : keys_are fields keys = true ↔ ∀ k, k ∈ fields.*1 ↔ k ∈ keys.
Proof.
  unfold keys_are. rw bool_decide_eq_true set_eq. setoid_rewrite elem_of_list_to_set. done.
Qed.

(** Texts of the arguments. *)
Definition lower_hex (n : Z) (s : pystr) : Prop :=
  str_len s = n ∧ ∀ c, c ∈ s → (48 ≤ c ≤ 57 ∨ 97 ≤ c ≤ 102)%Z.
Lemma hex_text_true n s : hex_text n s = true ↔ lower_hex n s.
Proof.
  unfold hex_text, lower_hex, is_digit. rw andb_true_iff Z.eqb_eq forallb_forall.
  setoid_rewrite orb_true_iff. setoid_rewrite andb_true_iff. setoid_rewrite Z.leb_le.
  setoid_rewrite list_elem_of_In. done.
Qed.
Definition version_text (s : pystr) : Prop :=
  s ≠ [] ∧ ∀ c, c ∈ s → (48 ≤ c ≤ 57 ∨ 65 ≤ c ≤ 90 ∨ 97 ≤ c ≤ 122)%Z ∨ c ∈ [46; 43; 126; 58; 45]%Z.
Lemma version_text_true s : negb (str_empty s) && forallb version_char s = true ↔ version_text s.
Proof.
  assert (Hc : ∀ c, version_char c = true ↔
    (48 ≤ c ≤ 57 ∨ 65 ≤ c ≤ 90 ∨ 97 ≤ c ≤ 122)%Z ∨ c ∈ [46; 43; 126; 58; 45]%Z).
  { intros c. unfold version_char, is_alnum, is_lower_alnum.
    rw !orb_true_iff bool_decide_eq_true !andb_true_iff !Z.leb_le. tauto. }
  unfold version_text. rw andb_true_iff forallb_forall. setoid_rewrite Hc. setoid_rewrite list_elem_of_In.
  by destruct s; cbn; naive_solver.
Qed.
Definition run_url (s : pystr) : Prop :=
  ∃ c r, s = run_prefix ++ c :: r ∧ (49 ≤ c ≤ 57)%Z ∧ ∀ d, d ∈ r → (48 ≤ d ≤ 57)%Z.
Lemma invocation_text_true s : invocation_text s = true ↔ run_url s.
Proof.
  unfold invocation_text, run_url. assert (Hd : ∀ c r,
    ((49 <=? c) && (c <=? 57))%Z && forallb is_digit r = true ↔ (49 ≤ c ≤ 57)%Z ∧ ∀ d, d ∈ r → (48 ≤ d ≤ 57)%Z).
  { intros c r. unfold is_digit. rw !andb_true_iff !Z.leb_le forallb_forall. setoid_rewrite andb_true_iff.
    setoid_rewrite Z.leb_le. by setoid_rewrite list_elem_of_In. }
  destruct (strip_prefix run_prefix s) as [[|c r]|] eqn:E.
  - apply strip_prefix_Some in E as ->. split; [done|]. by intros (c & r & [=]%(inj (app run_prefix)) & _).
  - apply strip_prefix_Some in E as ->. rw Hd. split; [by exists c, r|].
    by intros (c' & r' & [= <- <-]%(inj (app run_prefix)) & ?).
  - split; [done|]. intros (c & r & Hs%strip_prefix_Some & _). congruence.
Qed.

Create Rewrite HintDb accepted.
#[local] Hint Rewrite require_Ok require_of_Ok eq_str_true eq_int_true eq_singleton_true is_bool_true object_Ok
  attributes_Ok array_Ok singleton_item_Ok keys_are_true
  @bool_decide_eq_true andb_true_iff negb_true_iff @bool_decide_eq_false Z.ltb_lt : accepted.

(** Take a chain of checks that returned apart, and build one. *)
Ltac accepted H :=
  repeat match type of H with
  | (_;; _) = Ok _ => let C := fresh "C" in apply result_seq_Ok in H as [C H]; autorewrite with accepted in C
  | mbind _ _ = Ok _ =>
    let x := fresh "x" in let C := fresh "C" in
    apply result_bind_Ok_inv in H as (x & C & H); autorewrite with accepted in C
  end.
Ltac accept :=
  repeat match goal with
  | |- (_;; _) = Ok _ => apply result_seq_Ok; split; [autorewrite with accepted; try done|]
  | |- mbind _ _ = Ok _ =>
    apply result_bind_Ok; eexists; split; [autorewrite with accepted; try eassumption; try done|]
  end; autorewrite with accepted; try done.

Section acceptance.
Context (depth : nat) (t : tools) (cd : candidate) (ex : expectations).

Definition holds (name : pystr) (content : list Z) : Prop := entry_of cd name = Some (Regular content).

Lemma read_bytes_Ok name content : read_bytes cd name = Ok content ↔ holds name content.
Proof using Type. unfold read_bytes, holds. destruct (entry_of cd name) as [[]|]; naive_solver. Qed.

Lemma regular_true name : regular cd name = true ↔ ∃ content, holds name content.
Proof using Type. unfold regular, holds. destruct (entry_of cd name) as [[]|]; naive_solver. Qed.

Lemma digest_Ok name d : digest cd name = Ok d ↔ ∃ content, holds name content ∧ d = Sha256.hexdigest content.
Proof using Type.
  unfold digest. split.
  - intros (content & Hc%read_bytes_Ok & [= <-])%result_bind_Ok_inv. by exists content.
  - intros (content & Hc%read_bytes_Ok & ->). by rw Hc.
Qed.

Definition package_name : pystr := expected_package_name ex.
Definition sbom_name : pystr := package_name ++ py ".spdx.json".
Definition provenance_name : pystr := package_name ++ py ".provenance.json".

(** A file holds a JSON object in UTF-8, whose objects pass [reject_duplicates]. *)
Definition document (name : pystr) (fields : list (pystr * json)) : Prop :=
  ∃ content text, holds name content ∧ utf8_decode content = Ok text ∧
    loads candidate_hooks depth (newlines text) = Ok (JObj fields).

Lemma load_json_Ok name fields : load_json depth cd name = Ok fields ↔ document name fields.
Proof using Type.
  unfold load_json, document. split.
  - intros (value & Hv%except_as_Ok & Hf)%result_bind_Ok_inv.
    apply result_bind_Ok_inv in Hv as (content & Hc%read_bytes_Ok & Hv).
    apply result_bind_Ok_inv in Hv as (text & Ht & Hv). destruct value; try done. injection Hf as ->. by exists content, text.
  - intros (content & text & Hc%read_bytes_Ok & Ht & Hv). rw Hc. cbn [mbind result_bind]. rw Ht.
    cbn [mbind result_bind]. by rw Hv.
Qed.

(** ** The arguments *)
Record sound_arguments : Prop := {
  sa_directory : cd_is_dir cd = true;
  sa_commit : lower_hex 40 (ex_commit ex);
  sa_version : version_text (ex_version ex);
  sa_package : lower_hex 64 (ex_package_sha256 ex);
  sa_epoch : (0 < ex_source_date_epoch ex)%Z;
  sa_key : lower_hex 64 (ex_public_key_sha256 ex);
  sa_run : run_url (ex_invocation_id ex);
  sa_validator : tl_schema t = true ∧ tl_validator t = true;
}.

Lemma check_arguments_Ok : check_arguments t cd ex = Ok tt ↔ sound_arguments.
Proof using Type.
  unfold check_arguments. rw !result_seq_Ok !require_Ok !hex_text_true version_text_true invocation_text_true Z.ltb_lt.
  split; [intros (? & ? & ? & ? & ? & ? & ? & ? & ?); by split|intros []; tauto].
Qed.

(** ** The signature *)
Definition signed_manifest : Prop :=
  ∃ key bundle manifest out, holds public_key_name key ∧ holds bundle_name bundle ∧ holds manifest_name manifest ∧
    tl_cosign t key bundle manifest = Completed out.

Lemma check_present_Ok names : check_present cd names = Ok tt ↔ ∀ name, name ∈ names → ∃ content, holds name content.
Proof using Type.
  induction names as [|name names IH]; cbn [check_present]; [set_solver|].
  rw result_seq_Ok raise_if_Ok negb_false_iff regular_true IH. set_solver.
Qed.

Lemma check_signature_Ok : check_signature t cd = Ok tt ↔ signed_manifest.
Proof using Type.
  unfold check_signature, signed_manifest. split.
  - intros H. accepted H. apply read_bytes_Ok in C0, C1, C2.
    destruct (tl_cosign t x x0 x1) as [out| | |] eqn:Ho; try done. by exists x, x0, x1, out.
  - intros (key & bundle & manifest & out & Hk & Hb & Hm & Ho). rw result_seq_Ok check_present_Ok. split; [set_solver|].
    apply read_bytes_Ok in Hk, Hb, Hm. rw Hk Hb Hm. cbn [mbind result_bind]. by rw Ho.
Qed.

(** ** The manifest *)

(** A record of the manifest names a file and holds its digest and size. *)
Definition evidences (record : json) (name : pystr) (content : list Z) : Prop :=
  ∃ fields, record = JObj fields ∧ jget "path" fields = JStr name ∧ (name ∉ [[]; py "."; py ".."]) ∧
    (47%Z ∉ name) ∧ (92%Z ∉ name) ∧ holds name content ∧
    jget "sha256" fields = JStr (Sha256.hexdigest content) ∧ numeric (jget "size" fields) (Z.of_nat (length content)).

Lemma evidence_path_Ok record label name :
  evidence_path cd record label = Ok name ↔ ∃ content, evidences record name content.
Proof using Type.
  unfold evidence_path, evidences. split.
  - destruct record as [| | | | | |fields]; try done. destruct (jget "path" fields) as [| | | |n| |] eqn:Hp; try done.
    intros H. accepted H. apply read_bytes_Ok in C2. injection H as <-. exists x, fields. split_and!; try done; naive_solver.
  - intros (content & fields & -> & -> & Hn & Hs & Hs' & Hc & Hd & Hz). accept.
    + apply regular_true. by exists content.
    + by apply read_bytes_Ok.
Qed.

Lemma evidences_holds record name content : evidences record name content → holds name content.
Proof using Type. by intros (fields & _ & _ & _ & _ & _ & Hh & _). Qed.

Record honest_manifest (m : list (pystr * json)) : Prop := {
  hm_schema : numeric (jget "schemaVersion" m) 1;
  hm_gate : jget "gate" m = JStr (py "G2B");
  hm_product : jget "product" m = JStr (py "northgate-rmm-agent");
  hm_version : jget "version" m = JStr (ex_version ex);
  hm_architecture : jget "architecture" m = JStr (py "amd64");
  hm_candidate : jget "releaseCandidate" m = JBool true;
  hm_publication : jget "publicationAuthorized" m = JBool false;
  hm_deployment : jget "deploymentAuthorized" m = JBool false;
  hm_source : ∃ source, jget "source" m = JObj source ∧ jget "repository" source = JStr repository ∧
    jget "commit" source = JStr (ex_commit ex);
  hm_build : ∃ build, jget "build" m = JObj build ∧
    numeric (jget "sourceDateEpoch" build) (ex_source_date_epoch ex) ∧
    jget "buildType" build = JStr expected_build_type ∧ jget "invocationId" build = JStr (ex_invocation_id ex);
  hm_signing : ∃ signing key, jget "signing" m = JObj signing ∧
    jget "profile" signing = JStr (py "test-only-ephemeral") ∧
    evidences (jget "publicKey" signing) public_key_name key ∧ Sha256.hexdigest key = ex_public_key_sha256 ex;
}.

Lemma check_manifest_Ok m : check_manifest cd ex m = Ok tt ↔ honest_manifest m.
Proof using Type.
  unfold check_manifest. split.
  - intros H. accepted H. autorewrite with accepted in H. apply evidence_path_Ok in C16 as [key Hk].
    apply digest_Ok in C18 as (key' & Hk' & ->). subst x2. split; try done; [by exists x|by exists x0|].
    exists x1, key. split_and!; try done. apply evidences_holds in Hk. unfold holds in *. congruence.
  - intros [H1 H2 H3 H4 H5 H6 H7 H8 (source & Hs & Hs1 & Hs2) (build & Hb & Hb1 & Hb2 & Hb3) (signing & key & Hg & Hg1 & Hg2 & Hg3)].
    accept.
    + apply evidence_path_Ok. by exists key.
    + apply digest_Ok. exists key. by apply evidences_holds in Hg2.
Qed.

(** The artifacts: exactly the package with the pinned digest, the SBOM and the provenance. *)
Record honest_artifacts (m : list (pystr * json)) : Prop := {
  ha_artifacts : ∃ artifacts sbom provenance package b1 b2, jget "artifacts" m = JObj artifacts ∧
    (∀ k, k ∈ artifacts.*1 ↔ k ∈ [py "package"; py "sbom"; py "provenance"]) ∧
    evidences (jget "package" artifacts) package_name package ∧ Sha256.hexdigest package = ex_package_sha256 ex ∧
    evidences (jget "sbom" artifacts) sbom_name b1 ∧ evidences (jget "provenance" artifacts) provenance_name b2 ∧
    jget "sbom" artifacts = JObj sbom ∧ jget "format" sbom = JStr (py "SPDX-2.3") ∧
    jget "provenance" artifacts = JObj provenance ∧
    jget "predicateType" provenance = JStr (py "https://slsa.dev/provenance/v1");
}.

Lemma check_artifacts_Ok m names :
  check_artifacts cd ex m = Ok names ↔ names = (package_name, sbom_name, provenance_name) ∧ honest_artifacts m.
Proof using Type.
  unfold check_artifacts. split.
  - intros H. accepted H. apply evidence_path_Ok in C1 as [package Hp], C2 as [b1 Hb1], C3 as [b2 Hb2].
    apply digest_Ok in C4 as (package' & Hp' & ->). injection H as <-. subst x0 x1 x2. split; [done|]. split.
    assert (package' = package) as ->.
    { apply evidences_holds in Hp. unfold holds in *. congruence. }
    by exists x, x4, x5, package, b1, b2.
  - intros [-> [(artifacts & sbom & provenance & package & b1 & b2 & Ha & Hk & Hp & Hpin & Hb1 & Hb2 & Hs & Hs1 & Hv & Hv1)]].
    accept.
    + apply evidence_path_Ok. by exists package.
    + apply evidence_path_Ok. by exists b1.
    + apply evidence_path_Ok. by exists b2.
    + apply digest_Ok. exists package. by apply evidences_holds in Hp.
Qed.

(** ** The directory: exactly the six regular files, none of which is named like a private key. *)
Definition named_private_key (name : pystr) : Prop :=
  ∃ stem suffix, suffix ∈ [py ".key"; py ".p12"; py ".pfx"] ∧ name = stem ++ suffix.

Record exact_directory : Prop := {
  xd_names : ∀ name, name ∈ (cd_entries cd).*1 ↔
    name ∈ [manifest_name; public_key_name; bundle_name; package_name; sbom_name; provenance_name];
  xd_regular : ∀ name e, (name, e) ∈ cd_entries cd → ∃ content, e = Regular content;
  xd_no_keys : ∀ name, name ∈ (cd_entries cd).*1 → ¬ named_private_key name;
}.

Lemma is_suffix_true p s : is_suffix p s = true ↔ ∃ stem, s = stem ++ p.
Proof using Type.
  unfold is_suffix. rw is_prefix_true. split; intros [r Hr].
  - exists (reverse r). by rw -(reverse_involutive s) Hr reverse_app reverse_involutive.
  - exists (reverse r). by rw Hr reverse_app.
Qed.
Lemma is_private_key_name_true name : is_private_key_name name = true ↔ named_private_key name.
Proof using Type.
  unfold is_private_key_name, named_private_key. rw !orb_true_iff !is_suffix_true.
  setoid_rewrite elem_of_cons. setoid_rewrite elem_of_cons. setoid_rewrite elem_of_cons. setoid_rewrite elem_of_nil.
  naive_solver.
Qed.

Lemma check_entries_Ok entries :
  check_entries entries = Ok tt ↔ ∀ name e, (name, e) ∈ entries → ∃ content, e = Regular content.
Proof using Type.
  induction entries as [|[n d] entries IH]; cbn [check_entries]; [set_solver|].
  rw result_seq_Ok raise_if_Ok IH. split.
  - intros [Hd H] name e [[= -> ->]|Hin]%elem_of_cons; [|by eapply H]. destruct d as [content|]; [by exists content|done].
  - intros H. split; [|intros name e Hin; apply (H name); by right].
    by destruct (H n d) as [content ->]; [left|].
Qed.

Lemma check_directory_Ok :
  check_directory cd package_name sbom_name provenance_name = Ok tt ↔ exact_directory.
Proof using Type.
  unfold check_directory. rw !result_seq_Ok !require_Ok check_entries_Ok bool_decide_eq_true set_eq negb_true_iff.
  assert (Hk : existsb is_private_key_name (cd_entries cd).*1 = false ↔
    ∀ name, name ∈ (cd_entries cd).*1 → ¬ named_private_key name).
  { rw -not_true_iff_false existsb_exists. setoid_rewrite is_private_key_name_true. setoid_rewrite list_elem_of_In.
    naive_solver. }
  rw Hk. setoid_rewrite elem_of_list_to_set. split; [intros (? & ? & ?); by split|by intros []].
Qed.

(** ** The package is the pinned build, and says so itself. *)
Definition package_says (bytes : list Z) (field value : pystr) : Prop :=
  ∃ out, tl_dpkg t bytes field = Completed out ∧ py_strip out = value.
Definition named_package (bytes : list Z) : Prop :=
  package_says bytes (py "Package") (py "northgate-rmm-agent") ∧
  package_says bytes (py "Version") (ex_version ex) ∧ package_says bytes (py "Architecture") (py "amd64").

Lemma dpkg_field_Ok name bytes field value :
  holds name bytes → dpkg_field t cd name field = Ok value ↔ package_says bytes field value.
Proof using Type.
  intros Hb%read_bytes_Ok. unfold dpkg_field, package_says. rw Hb. cbn [mbind result_bind].
  destruct (tl_dpkg t bytes field); naive_solver.
Qed.
Lemma check_package_Ok bytes :
  holds package_name bytes → check_package t cd ex package_name = Ok tt ↔ named_package bytes.
Proof using Type.
  intros Hb. unfold check_package, named_package. split.
  - intros H. accepted H. autorewrite with accepted in H. subst.
    split_and!; by apply (dpkg_field_Ok package_name).
  - intros (H1 & H2 & H3). accept; by apply (dpkg_field_Ok package_name bytes).
Qed.

(** ** The SBOM *)
Record spdx_document (sbom : list (pystr * json)) : Prop := {
  sp_version : jget "spdxVersion" sbom = JStr (py "SPDX-2.3");
  sp_license : jget "dataLicense" sbom = JStr (py "CC0-1.0");
  sp_identity : jget "SPDXID" sbom = JStr (py "SPDXRef-DOCUMENT");
  sp_name : ∃ name, jget "name" sbom = JStr name ∧ name ≠ [];
  sp_namespace : ∃ scheme rest, scheme ∈ [py "https://"; py "http://"] ∧
    jget "documentNamespace" sbom = JStr (scheme ++ rest);
  sp_creation : ∃ creation created creators tool, jget "creationInfo" sbom = JObj creation ∧
    jget "created" creation = JStr created ∧ created ≠ [] ∧
    jget "creators" creation = JArr creators ∧ JStr (py "Tool: syft-" ++ tool) ∈ creators;
}.

Lemma text_present v : is_str v && truthy v = true ↔ ∃ s, v = JStr s ∧ s ≠ [].
Proof using Type.
  destruct v as [| | | |s| |]; (split; [try done|intros (s' & [= <-] & Hs)]).
  - intros Hs. exists s. split; [done|]. by intros ->.
  - by destruct s.
Qed.
Lemma namespace_ok v :
  match v with JStr s => is_prefix (py "https://") s || is_prefix (py "http://") s | _ => false end = true ↔
  ∃ scheme rest, scheme ∈ [py "https://"; py "http://"] ∧ v = JStr (scheme ++ rest).
Proof using Type.
  setoid_rewrite elem_of_cons. setoid_rewrite elem_of_cons. setoid_rewrite elem_of_nil.
  destruct v as [| | | |s| |]; try (by split; [|intros (? & ? & _ & ?)]). rw orb_true_iff !is_prefix_true. split.
  - intros [[rest ->]|[rest ->]]; eexists _, rest; (split; [|done]); auto.
  - intros (scheme & rest & [-> |[-> |?]] & [= ->]); [left|right|done]; by exists rest.
Qed.
Lemma creators_ok v :
  match v with
  | JArr items => existsb (λ v, match v with JStr s => is_prefix (py "Tool: syft-") s | _ => false end) items
  | _ => false
  end = true ↔ ∃ creators tool, v = JArr creators ∧ JStr (py "Tool: syft-" ++ tool) ∈ creators.
Proof using Type.
  destruct v as [| | | | |items|]; try (by split; [|intros (? & ? & ? & _)]). rw existsb_exists. split.
  - intros (item & Hin%list_elem_of_In & Hp). destruct item; try done. apply is_prefix_true in Hp as [rest ->].
    by exists items, rest.
  - intros (creators & tool & [= <-] & Hin%list_elem_of_In). eexists. split; [exact Hin|]. apply is_prefix_true. by exists tool.
Qed.

Lemma check_sbom_document_Ok sbom : check_sbom_document sbom = Ok tt ↔ spdx_document sbom.
Proof using Type.
  unfold check_sbom_document. rw !result_seq_Ok !result_bind_Ok.
  setoid_rewrite result_seq_Ok. rw !require_Ok !eq_str_true text_present namespace_ok.
  setoid_rewrite require_Ok. setoid_rewrite object_Ok. setoid_rewrite text_present. setoid_rewrite creators_ok.
  split.
  - intros (? & ? & ? & ? & ? & creation & Hc & (created & ? & ?) & creators & tool & ? & ?). split; try done.
    by exists creation, created, creators, tool.
  - intros [? ? ? ? ? (creation & created & creators & tool & ? & ? & ? & ? & ?)]. split_and!; try done.
    exists creation. split_and!; [done|by exists created|by exists creators, tool].
Qed.

(** An item that claims to be the agent's package of this version. *)
Definition candidate_package (item : json) : Prop :=
  ∃ fields, item = JObj fields ∧ jget "name" fields = JStr (py "northgate-rmm-agent") ∧
    jget "versionInfo" fields = JStr (ex_version ex).
(** [id in (value or [])]: an element of a list, a key of an object, a part of a text. *)
Definition listed (id : pystr) (value : json) : Prop :=
  (∃ items, value = JArr items ∧ JStr id ∈ items) ∨ (∃ fields, value = JObj fields ∧ id ∈ fields.*1) ∨
  ∃ a b, value = JStr (a ++ id ++ b) ∧ a ++ id ++ b ≠ [].
(** [in] and [for] raise for [true] and for numbers other than zero. *)
Definition searchable (value : json) : Prop :=
  match value with JBool _ | JInt _ | JFloat _ => truthy value = false | _ => True end.
Definition described (id : pystr) (sbom : list (pystr * json)) : Prop :=
  listed id (jget "documentDescribes" sbom) ∨
  searchable (jget "documentDescribes" sbom) ∧ ∃ items relationship,
    jget "relationships" sbom = JArr items ∧ JObj relationship ∈ items ∧
    jget "spdxElementId" relationship = JStr (py "SPDXRef-DOCUMENT") ∧
    jget "relationshipType" relationship = JStr (py "DESCRIBES") ∧
    jget "relatedSpdxElement" relationship = JStr id.

(** One package of the inventory is the candidate; it has the digest, and the document describes it. *)
Definition bound_package (sha256 : pystr) (sbom : list (pystr * json)) (packages : list json) : Prop :=
  ∃ package checksums checksum id, jget "packages" sbom = JArr packages ∧
    exactly_one candidate_package packages (JObj package) ∧
    jget "checksums" package = JArr checksums ∧ JObj checksum ∈ checksums ∧
    jget "algorithm" checksum = JStr (py "SHA256") ∧ jget "checksumValue" checksum = JStr sha256 ∧
    jget "SPDXID" package = JStr id ∧ described id sbom.

Lemma is_candidate_package_true item : is_candidate_package ex item = true ↔ candidate_package item.
Proof using Type.
  unfold candidate_package. destruct item as [| | | | | |fields]; try (by split; [|intros (? & ? & _)]).
  cbn [is_candidate_package]. rw andb_true_iff !eq_str_true. split; [by exists fields|]. by intros (? & [= <-] & ?).
Qed.
Lemma binds_digest_true d checksums :
  existsb (binds_digest d) checksums = true ↔ ∃ checksum, JObj checksum ∈ checksums ∧
    jget "algorithm" checksum = JStr (py "SHA256") ∧ jget "checksumValue" checksum = JStr d.
Proof using Type.
  rw existsb_exists. setoid_rewrite <-list_elem_of_In. split.
  - intros (item & Hin & Hb). destruct item as [| | | | | |checksum]; try done. cbn [binds_digest] in Hb.
    rw andb_true_iff !eq_str_true in Hb. by exists checksum.
  - intros (checksum & Hin & Ha & Hv). exists (JObj checksum). split; [done|]. cbn. by rw andb_true_iff !eq_str_true.
Qed.
Lemma describes_true id items :
  existsb (describes id) items = true ↔ ∃ relationship, JObj relationship ∈ items ∧
    jget "spdxElementId" relationship = JStr (py "SPDXRef-DOCUMENT") ∧
    jget "relationshipType" relationship = JStr (py "DESCRIBES") ∧ jget "relatedSpdxElement" relationship = JStr id.
Proof using Type.
  rw existsb_exists. setoid_rewrite <-list_elem_of_In. split.
  - intros (item & Hin & Hb). destruct item as [| | | | | |r]; try done. cbn [describes] in Hb.
    rw !andb_true_iff !eq_str_true in Hb. exists r. naive_solver.
  - intros (r & Hin & H1 & H2 & H3). exists (JObj r). split; [done|]. cbn. by rw !andb_true_iff !eq_str_true.
Qed.
Lemma contains_true id v : contains id v = Ok true ↔ listed id v.
Proof using Type.
  unfold listed. destruct v as [|[]|z|raw|s|items|fields]; unfold contains; cbn [truthy].
  1,2,3: by split; [|intros [(? & ? & _)|[(? & ? & _)|(? & ? & ? & _)]]].
  1,2: by destruct (negb _); (split; [|intros [(? & ? & _)|[(? & ? & _)|(? & ? & ? & _)]]]).
  - destruct s as [|c s]; cbn [str_empty negb].
    { split; [done|]. by intros [(? & ? & _)|[(? & ? & _)|(a & b & [= <-] & ?)]]. }
    split.
    + intros [= Hs]. apply (is_substring_true id (c :: s)) in Hs as (a & b & Hs). right. right. exists a, b. by rw -Hs.
    + intros [(? & ? & _)|[(? & ? & _)|(a & b & [= Hs] & _)]]; [done..|]. f_equal. apply is_substring_true. exists a, b. by rw Hs.
  - case_bool_decide as Hl; cbn [negb]; [|split].
    { destruct items; [|done]. split; [done|]. by intros [(? & [= <-] & ?%elem_of_nil)|[(? & ? & _)|(? & ? & ? & _)]]. }
    + intros [= (v & Hin%list_elem_of_In & ->%eq_str_true)%existsb_exists]. left. by exists items.
    + intros [(? & [= <-] & Hin%list_elem_of_In)|[(? & ? & _)|(a & b & ? & _)]]; [|done..]. f_equal.
      apply existsb_exists. exists (JStr id). split; [done|]. by apply eq_str_true.
  - case_bool_decide as Hl; cbn [negb]; [|split].
    { destruct fields; [|done]. split; [done|]. by intros [(? & ? & _)|[(? & [= <-] & ?%elem_of_nil)|(? & ? & ? & _)]]. }
    + intros [= Hin%bool_decide_eq_true]. right. left. by exists fields.
    + intros [(? & ? & _)|[(? & [= <-] & Hin)|(a & b & ? & _)]]; [done| |done]. f_equal. by apply bool_decide_eq_true.
Qed.
Lemma contains_searchable id v : (∃ b, contains id v = Ok b) ↔ searchable v.
Proof using Type.
  unfold contains, searchable. destruct (truthy v) eqn:Ht; cbn [negb]; cycle 1.
  { by destruct v; (split; [|by exists false]). }
  destruct v; try done; (split; [intros [found Hb]; done|intros Hf; try congruence; eauto]).
Qed.
Lemma relationships_ok id v :
  (∃ items, iterate v = Ok items ∧ existsb (describes id) items = true) ↔
  ∃ items, v = JArr items ∧ existsb (describes id) items = true.
Proof using Type.
  split.
  - intros (items & Hi & Hd). pose proof (proj1 (describes_true _ _) Hd) as (r & Hr & _). unfold iterate in Hi.
    destruct (negb (truthy v)); [by injection Hi as <-; set_solver|].
    destruct v as [| | | |s|l|l]; try done; injection Hi as <-; [set_solver|by exists l|set_solver].
  - intros (items & -> & Hd). exists items. split; [|done]. unfold iterate. cbn [truthy].
    by destruct items; [apply describes_true in Hd as (? & ? & _); set_solver|].
Qed.

Lemma check_described_Ok id sbom :
  (∃ d, (described ← contains id (jget "documentDescribes" sbom);
         if described : bool then Ok true
         else relationships ← iterate (jget "relationships" sbom); Ok (existsb (describes id) relationships)) = Ok d ∧
     d = true) ↔ described id sbom.
Proof using Type.
  unfold described. rw -contains_true -contains_searchable. split.
  - intros (d & (b & Hc & Hd)%result_bind_Ok & ->). destruct b; [by left|right]. split; [by exists false|].
    apply result_bind_Ok in Hd as (items & Hi & [= Hd]).
    destruct (proj1 (relationships_ok id _) (ex_intro _ items (conj Hi Hd))) as (l & Hl & (r & Hr)%describes_true).
    by exists l, r.
  - intros [Hc|([b Hc] & items & r & Hi & Hr)]; exists true; (split; [|done]); rw Hc; [done|]. cbn [mbind result_bind].
    destruct b; [done|]. destruct (proj2 (relationships_ok id (jget "relationships" sbom))) as (l & Hl & Hd).
    { exists items. split; [done|]. apply describes_true. by exists r. }
    rw Hl. cbn [mbind result_bind]. by rw Hd.
Qed.

Lemma candidates_one packages package :
  List.filter (is_candidate_package ex) packages = [package] ↔ exactly_one candidate_package packages package.
Proof using Type.
  rw filter_one. unfold exactly_one. setoid_rewrite is_candidate_package_true. done.
Qed.

Lemma check_sbom_packages_Ok bytes sbom n :
  holds package_name bytes →
  check_sbom_packages cd ex package_name sbom = Ok n ↔
  ∃ packages, bound_package (Sha256.hexdigest bytes) sbom packages ∧ n = Z.of_nat (length packages).
Proof using Type.
  intros Hb. assert (Hd : digest cd package_name = Ok (Sha256.hexdigest bytes)) by (apply digest_Ok; by exists bytes).
  unfold check_sbom_packages, bound_package. split.
  - intros H. accepted H.
    destruct (List.filter _ _) as [|[| | | | | |package] [|]] eqn:Hf; try done. apply candidates_one in Hf.
    accepted H. rw Hd in C2. injection C2 as <-. apply binds_digest_true in C3 as (checksum & Hc).
    destruct (jget "SPDXID" package) as [| | | |id| |] eqn:Hid; try done. accepted H. injection H as <-.
    exists x. split; [|done]. exists package, x0, checksum, id. destruct Hc as (? & ? & ?). split_and!; try done.
    apply check_described_Ok. exists true. split; [|done]. rw C2. cbn [mbind result_bind]. by rw C3 C4.
  - intros (packages & (package & checksums & checksum & id & Hp & H1 & Hc & Hin & Ha & Hv & Hid & Hds) & ->).
    rw Hp. cbn [array mbind result_bind]. rw result_seq_Ok require_Ok. split.
    { apply negb_true_iff, bool_decide_eq_false. destruct H1 as (before & after & -> & _). rw length_app. cbn. lia. }
    rw (proj2 (candidates_one _ _) H1). rw Hc. cbn [array mbind result_bind]. rw Hd. cbn [mbind result_bind].
    rw result_seq_Ok require_Ok binds_digest_true. split; [by exists checksum|]. rw Hid.
    apply check_described_Ok in Hds as (d & (b & Hb1 & Hb2)%result_bind_Ok & ->). rw Hb1. cbn [mbind result_bind].
    rw Hb2. done.
Qed.

Definition bound_sbom (package : list Z) (packages : list json) : Prop :=
  ∃ sbom content out, document sbom_name sbom ∧ holds sbom_name content ∧ tl_spdx t content = Completed out ∧
    spdx_document sbom ∧ bound_package (Sha256.hexdigest package) sbom packages.

Lemma run_validator_Ok : run_validator t cd sbom_name = Ok tt ↔
  ∃ content out, holds sbom_name content ∧ tl_spdx t content = Completed out.
Proof using Type.
  unfold run_validator. split.
  - intros (content & Hc%read_bytes_Ok & H)%result_bind_Ok_inv. exists content.
    destruct (tl_spdx t content) as [out| | |]; try done. by exists out.
  - intros (content & out & Hc%read_bytes_Ok & Ho). rw Hc. cbn [mbind result_bind]. by rw Ho.
Qed.

Lemma check_sbom_Ok bytes n :
  holds package_name bytes →
  check_sbom depth t cd ex package_name sbom_name = Ok n ↔
  ∃ packages, bound_sbom bytes packages ∧ n = Z.of_nat (length packages).
Proof using Type.
  intros Hb. unfold check_sbom, bound_sbom. split.
  - intros H. accepted H. apply load_json_Ok in C. apply run_validator_Ok in C0 as (content & out & Hc & Ho).
    apply check_sbom_document_Ok in C1. apply (check_sbom_packages_Ok bytes) in H as (packages & Hp & ->); [|done].
    exists packages. split; [|done]. by exists x, content, out.
  - intros (packages & (sbom & content & out & Hl & Hc & Ho & Hd & Hp) & ->). apply load_json_Ok in Hl. rw Hl.
    apply result_seq_Ok. split; [apply run_validator_Ok; by exists content, out|].
    apply result_seq_Ok. split; [by apply check_sbom_document_Ok|]. apply (check_sbom_packages_Ok bytes); [done|].
    by exists packages.
Qed.

(** ** The provenance: it attests the package, built from the expected commit by the expected run, for
the expected release, and authorizes no publication. *)
Definition attested_subject (sha256 : pystr) (p : list (pystr * json)) : Prop :=
  jget "_type" p = JStr (py "https://in-toto.io/Statement/v1") ∧
  jget "predicateType" p = JStr (py "https://slsa.dev/provenance/v1") ∧
  ∃ subject, jget "subject" p = JArr [JObj subject] ∧ jget "name" subject = JStr package_name ∧
    jget "digest" subject = JObj [(py "sha256", JStr sha256)].

Definition external_parameters (value : json) : Prop :=
  ∃ fields, value = JObj fields ∧
    (∀ k, k ∈ fields.*1 ↔ k ∈ [py "architecture"; py "releaseCandidate"; py "version"]) ∧
    jget "architecture" fields = JStr (py "amd64") ∧ numeric (jget "releaseCandidate" fields) 1 ∧
    jget "version" fields = JStr (ex_version ex).

Record attested_build (predicate : list (pystr * json)) : Prop := {
  ab_definition : ∃ definition dependency internal, jget "buildDefinition" predicate = JObj definition ∧
    jget "buildType" definition = JStr expected_build_type ∧
    jget "resolvedDependencies" definition = JArr [JObj dependency] ∧
    jget "uri" dependency = JStr (py "git+" ++ repository ++ py "@" ++ ex_commit ex) ∧
    jget "digest" dependency = JObj [(py "gitCommit", JStr (ex_commit ex))] ∧
    external_parameters (jget "externalParameters" definition) ∧
    jget "internalParameters" definition = JObj internal ∧
    jget "publicationAuthorized" internal = JBool false ∧
    jget "signingProfile" internal = JStr (py "test-only-ephemeral") ∧
    numeric (jget "sourceDateEpoch" internal) (ex_source_date_epoch ex);
  ab_details : ∃ details, jget "runDetails" predicate = JObj details ∧
    jget "builder" details = JObj [(py "id", JStr expected_build_type)] ∧
    jget "metadata" details = JObj [(py "invocationId", JStr (ex_invocation_id ex))];
}.

Definition attested (package : list Z) : Prop :=
  ∃ p predicate, document provenance_name p ∧ attested_subject (Sha256.hexdigest package) p ∧
    jget "predicate" p = JObj predicate ∧ attested_build predicate.

Lemma check_subject_Ok bytes p :
  holds package_name bytes → check_subject cd package_name p = Ok tt ↔ attested_subject (Sha256.hexdigest bytes) p.
Proof using Type.
  intros Hb. assert (Hd : digest cd package_name = Ok (Sha256.hexdigest bytes)) by (apply digest_Ok; by exists bytes).
  unfold check_subject, attested_subject. split.
  - intros H. accepted H. autorewrite with accepted in H. rw Hd in C4. injection C4 as <-. subst x.
    split_and!; try done. by exists x0.
  - intros (H1 & H2 & subject & H3 & H4 & H5). accept.
Qed.

Lemma external_parameters_true v : external_parameters_ok ex v = true ↔ external_parameters v.
Proof using Type.
  unfold external_parameters. destruct v as [| | | | | |fields]; try (by split; [|intros (? & ? & _)]).
  cbn [external_parameters_ok]. rw !andb_true_iff !eq_str_true eq_int_true keys_are_true. split.
  - intros (((H1 & H2) & H3) & H4). by exists fields.
  - by intros (? & [= <-] & ? & ? & ? & ?).
Qed.

Lemma check_build_Ok predicate : check_build ex predicate = Ok tt ↔ attested_build predicate.
Proof using Type.
  unfold check_build. split.
  - intros H. accepted H. autorewrite with accepted in H. apply external_parameters_true in C5. subst.
    split; [by exists x, x1, x2|by exists x3].
  - intros [(definition & dependency & internal & H1 & H2 & H3 & H4 & H5 & H6 & H7 & H8 & H9 & H10) (details & D1 & D2 & D3)].
    accept. by apply external_parameters_true.
Qed.

Lemma check_provenance_Ok bytes :
  holds package_name bytes →
  check_provenance depth cd ex package_name provenance_name = Ok tt ↔ attested bytes.
Proof using Type.
  intros Hb. unfold check_provenance, attested. split.
  - intros H. accepted H. apply load_json_Ok in C. apply (check_subject_Ok bytes) in C0; [|done].
    apply check_build_Ok in H. by exists x, x0.
  - intros (p & predicate & Hl%load_json_Ok & Hs%check_subject_Ok & Hp & Hbu%check_build_Ok); [|done]. by rw Hl; accept.
Qed.

(** ** The verdict *)

(** What the script requires of a candidate it accepts, with the bytes of its package and the
inventory of its SBOM. *)
Record trusted (package : list Z) (packages : list json) : Prop := {
  tr_arguments : sound_arguments;
  tr_signed : signed_manifest;
  tr_manifest : ∃ m, document manifest_name m ∧ honest_manifest m ∧ honest_artifacts m;
  tr_directory : exact_directory;
  tr_package : holds package_name package ∧ Sha256.hexdigest package = ex_package_sha256 ex ∧ named_package package;
  tr_sbom : bound_sbom package packages;
  tr_provenance : attested package;
}.

(** The evidence: what was expected, and the digests of the six files. *)
Definition evidence_of (package : list Z) (packages : list json) (report : json) : Prop :=
  ∃ fields manifest bundle sbom provenance, report = JObj fields ∧ holds manifest_name manifest ∧
    holds bundle_name bundle ∧ holds sbom_name sbom ∧ holds provenance_name provenance ∧
    jget "gate" fields = JStr (py "G2B") ∧ jget "source_commit" fields = JStr (ex_commit ex) ∧
    jget "source_date_epoch" fields = JInt (ex_source_date_epoch ex) ∧ jget "version" fields = JStr (ex_version ex) ∧
    jget "package_sha256" fields = JStr (ex_package_sha256 ex) ∧
    jget "package_bytes" fields = JInt (Z.of_nat (length package)) ∧
    jget "release_manifest_sha256" fields = JStr (Sha256.hexdigest manifest) ∧
    jget "signature_bundle_sha256" fields = JStr (Sha256.hexdigest bundle) ∧
    jget "sbom_sha256" fields = JStr (Sha256.hexdigest sbom) ∧
    jget "sbom_packages" fields = JInt (Z.of_nat (length packages)) ∧
    jget "provenance_sha256" fields = JStr (Sha256.hexdigest provenance) ∧
    jget "test_public_key_sha256" fields = JStr (ex_public_key_sha256 ex) ∧
    jget "signature_verified" fields = JBool true ∧
    jget "publication_authorized" fields = JBool false ∧ jget "deployment_authorized" fields = JBool false.

Lemma artifacts_package m :
  honest_artifacts m → ∃ package, holds package_name package ∧ Sha256.hexdigest package = ex_package_sha256 ex.
Proof using Type.
  intros [(artifacts & sbom & provenance & package & b1 & b2 & _ & _ & Hp%evidences_holds & Hpin & _)]. by exists package.
Qed.
Lemma manifest_key m : honest_manifest m → digest cd public_key_name = Ok (ex_public_key_sha256 ex).
Proof using Type.
  intros H. destruct (hm_signing _ H) as (signing & key & _ & _ & Hk%evidences_holds & <-). apply digest_Ok. by exists key.
Qed.

Lemma evidence_Ok package packages report :
  holds package_name package → Sha256.hexdigest package = ex_package_sha256 ex →
  digest cd public_key_name = Ok (ex_public_key_sha256 ex) →
  evidence cd ex package_name sbom_name provenance_name (Z.of_nat (length packages)) = Ok report →
  evidence_of package packages report.
Proof using Type.
  intros Hb Hpin Hkey. unfold evidence. intros H. accepted H. rw Hkey in C4. injection C4 as <-.
  apply read_bytes_Ok in C. unfold holds in Hb, C. rw Hb in C. injection C as <-. rw Hpin in H.
  apply digest_Ok in C0 as (manifest & Hm & ->), C1 as (bundle & Hbu & ->), C2 as (sbom & Hs & ->), C3 as (prov & Hp & ->).
  injection H as <-. eexists _, manifest, bundle, sbom, prov. by split_and!.
Qed.

Lemma verify_Ok report :
  verify depth t cd ex = Ok report → ∃ package packages, trusted package packages ∧ evidence_of package packages report.
Proof using Type.
  unfold verify. intros H. accepted H. apply check_arguments_Ok in C. apply check_signature_Ok in C0.
  apply load_json_Ok in C1. apply check_manifest_Ok in C2. apply check_artifacts_Ok in C3 as [-> Ha].
  accepted H. apply check_directory_Ok in C3. destruct (artifacts_package _ Ha) as (package & Hp & Hpin).
  apply (check_package_Ok package) in C4; [|done]. apply (check_sbom_Ok package) in C5 as (packages & Hs & ->); [|done].
  apply (check_provenance_Ok package) in C6; [|done]. exists package, packages. split.
  - split; try done. by exists x.
  - apply evidence_Ok; try done. by eapply manifest_key.
Qed.

Lemma evidence_total package packages m n :
  trusted package packages → document manifest_name m → honest_manifest m →
  ∃ report, evidence cd ex package_name sbom_name provenance_name n = Ok report.
Proof using Type.
  intros [_ (key & bundle & manifest & out & Hk & Hb & Hm & _) _ _ (Hp & _) (sbom & content & o & _ & Hs & _) (p & pr & (pc & _ & Hpc & _) & _)] _ _.
  assert (Hd : ∀ name bytes, holds name bytes → digest cd name = Ok (Sha256.hexdigest bytes)).
  { intros name bytes Hh. apply digest_Ok. by exists bytes. }
  eexists. unfold evidence. apply read_bytes_Ok in Hp. rw Hp (Hd _ _ Hm) (Hd _ _ Hb) (Hd _ _ Hs) (Hd _ _ Hpc) (Hd _ _ Hk).
  done.
Qed.

Lemma verify_complete package packages : trusted package packages → ∃ report, verify depth t cd ex = Ok report.
Proof using Type.
  intros Ht. pose proof Ht as [Ha Hs (m & Hm & Hh & Hart) Hd (Hp & Hpin & Hn) Hb Hv].
  destruct (evidence_total _ _ m (Z.of_nat (length packages)) Ht Hm Hh) as [report He]. exists report. unfold verify.
  rw (proj2 check_arguments_Ok Ha) (proj2 check_signature_Ok Hs) (proj2 (load_json_Ok _ _) Hm).
  cbn [mbind result_bind]. rw (proj2 (check_manifest_Ok m) Hh) (proj2 (check_artifacts_Ok m _) (conj eq_refl Hart)).
  cbn [mbind result_bind]. rw (proj2 check_directory_Ok Hd) (proj2 (check_package_Ok _ Hp) Hn).
  rw (proj2 (check_sbom_Ok _ _ Hp) (ex_intro _ packages (conj Hb eq_refl))). cbn [mbind result_bind].
  rw (proj2 (check_provenance_Ok _ Hp) Hv). done.
Qed.
End acceptance.

Lemma reject_duplicates_Ok pairs : ∀ acc value, NoDup acc.*1 →
  reject_duplicates acc pairs = Ok value ↔ value = JObj (acc ++ pairs) ∧ NoDup (acc ++ pairs).*1.
Proof.
  induction pairs as [|[key v] pairs IH]; intros acc value Hacc; cbn [reject_duplicates].
  { rw app_nil_r. split; [by intros [= <-]|by intros [-> _]]. }
  rw result_seq_Ok raise_if_Ok bool_decide_eq_false. split.
  - intros [Hk H]. apply IH in H as [-> Hn]; [by rw -!app_assoc in Hn |- *|].
    rw fmap_app. apply NoDup_app. split_and!; [done|set_solver|apply NoDup_singleton].
  - intros [-> Hn]. assert (Ha : NoDup (acc ++ [(key, v)]).*1 ∧ key ∉ acc.*1).
    { rw !fmap_app fmap_cons in Hn |- *. apply NoDup_app in Hn as (_ & Hd & Hc). apply NoDup_cons in Hc as [Hc _].
      assert (key ∉ acc.*1) by (intros Hin; apply (Hd key Hin); left).
      split; [|done]. apply NoDup_app. split_and!; [done|set_solver|apply NoDup_singleton]. }
    split; [apply Ha|]. apply IH; [apply Ha|]. by rw -!app_assoc.
Qed.

(** C21: the candidate verifier accepts exactly the trusted candidates ([main] of verify-candidate.py).
It exits 0 and prints evidence only for a candidate, and for every candidate, with well-formed
expectations, whose manifest Cosign verified with the key of the pinned digest; whose manifest is a
G2B manifest for the expected version, commit, run and source epoch, authorizes neither publication
nor deployment, and holds the digests and sizes of the key and of exactly three artifacts, the package
having the independently supplied digest; whose directory is exactly the six regular files, none
named like a private key; whose package names itself accordingly; whose SBOM is a validated SPDX 2.3
document by Syft that describes its one candidate package and binds the package's digest to it; and
whose provenance attests the same digest, commit, build workflow, parameters, epoch and run, and
authorizes no publication. The evidence reports the expected values and the digests of the six files,
and authorizes nothing. Any other candidate ends with status 1 or an exception, and no evidence. An object of a document is
accepted exactly when its keys are distinct. *)
Theorem candidate_verdict (depth : nat) (t : tools) (cd : candidate) (ex : expectations) :
  (∀ pairs value, object_pairs candidate_hooks pairs = Ok value ↔ value = JObj pairs ∧ NoDup pairs.*1) ∧
  match candidate_main depth t cd ex with
  | Ok (Some report, status) =>
    status = 0%Z ∧ ∃ package packages,
      trusted depth t cd ex package packages ∧ evidence_of cd ex package packages report
  | Ok (None, status) => status = 1%Z ∧ ∀ package packages, ¬ trusted depth t cd ex package packages
  | Raise _ => ∀ package packages, ¬ trusted depth t cd ex package packages
  end.
Proof.
  split; [intros pairs value; apply (reject_duplicates_Ok pairs []); constructor|].
  unfold candidate_main. destruct (verify depth t cd ex) as [report|e] eqn:Hv; [split; [done|by apply verify_Ok]|].
  assert (Hn : ∀ package packages, ¬ trusted depth t cd ex package packages).
  { intros package packages [report Hr]%verify_complete. congruence. }
  by destruct e.
Qed.

(** ** A candidate that is accepted *)
Module Accepted.
Definition document (fields : list (string * json)) : json := JObj ((λ f, (py f.1, f.2)) <$> fields).
Definition text (s : pystr) : json := JStr s.
Definition file (v : json) : list Z := json_dumps true v.

Definition commit : pystr := replicate 40 97%Z.
Definition invocation : pystr := run_prefix ++ py "42".
Definition package_bytes : list Z := py "debian".
Definition key_bytes : list Z := py "key".
Definition package : pystr := py "northgate-rmm-agent_1.0_amd64.deb".
Definition package_sha256 : pystr := Sha256.hexdigest package_bytes.

Definition record (name : pystr) (content : list Z) (rest : list (string * json)) : json :=
  document ([("path", text name); ("sha256", text (Sha256.hexdigest content));
    ("size", JInt (Z.of_nat (length content)))] ++ rest).

Definition sbom_bytes : list Z := file (document [
  ("spdxVersion", text (py "SPDX-2.3")); ("dataLicense", text (py "CC0-1.0"));
  ("SPDXID", text (py "SPDXRef-DOCUMENT")); ("name", text package);
  ("documentNamespace", text (py "https://example.org/sbom"));
  ("creationInfo", document [("created", text (py "2026-01-01T00:00:00Z"));
    ("creators", JArr [text (py "Tool: syft-1.0")])]);
  ("packages", JArr [document [("name", text (py "northgate-rmm-agent")); ("versionInfo", text (py "1.0"));
    ("SPDXID", text (py "SPDXRef-Agent"));
    ("checksums", JArr [document [("algorithm", text (py "SHA256")); ("checksumValue", text package_sha256)]])]]);
  ("documentDescribes", JArr [text (py "SPDXRef-Agent")])]).

Definition provenance_bytes : list Z := file (document [
  ("_type", text (py "https://in-toto.io/Statement/v1"));
  ("predicateType", text (py "https://slsa.dev/provenance/v1"));
  ("subject", JArr [document [("name", text package); ("digest", document [("sha256", text package_sha256)])]]);
  ("predicate", document [
    ("buildDefinition", document [("buildType", text expected_build_type);
      ("resolvedDependencies", JArr [document [("uri", text (py "git+" ++ repository ++ py "@" ++ commit));
        ("digest", document [("gitCommit", text commit)])]]);
      ("externalParameters", document [("architecture", text (py "amd64")); ("releaseCandidate", JBool true);
        ("version", text (py "1.0"))]);
      ("internalParameters", document [("publicationAuthorized", JBool false);
        ("signingProfile", text (py "test-only-ephemeral")); ("sourceDateEpoch", JInt 1700000000)])]);
    ("runDetails", document [("builder", document [("id", text expected_build_type)]);
      ("metadata", document [("invocationId", text invocation)])])])]).

Definition manifest_bytes : list Z := file (document [
  ("schemaVersion", JInt 1); ("gate", text (py "G2B")); ("product", text (py "northgate-rmm-agent"));
  ("version", text (py "1.0")); ("architecture", text (py "amd64")); ("releaseCandidate", JBool true);
  ("publicationAuthorized", JBool false); ("deploymentAuthorized", JBool false);
  ("source", document [("repository", text repository); ("commit", text commit)]);
  ("build", document [("sourceDateEpoch", JInt 1700000000); ("buildType", text expected_build_type);
    ("invocationId", text invocation)]);
  ("signing", document [("profile", text (py "test-only-ephemeral"));
    ("publicKey", record public_key_name key_bytes [])]);
  ("artifacts", document [("package", record package package_bytes []);
    ("sbom", record (package ++ py ".spdx.json") sbom_bytes [("format", text (py "SPDX-2.3"))]);
    ("provenance", record (package ++ py ".provenance.json") provenance_bytes
      [("predicateType", text (py "https://slsa.dev/provenance/v1"))])])]).

Definition directory : candidate := mkCandidate true [
  (manifest_name, Regular manifest_bytes); (public_key_name, Regular key_bytes); (bundle_name, Regular (py "{}"));
  (package, Regular package_bytes); (package ++ py ".spdx.json", Regular sbom_bytes);
  (package ++ py ".provenance.json", Regular provenance_bytes)].

(** Cosign accepts this manifest only; dpkg-deb reads a well-formed control file. *)
Definition programs : tools := mkTools
  (λ key _ manifest, if bool_decide (key = key_bytes ∧ manifest = manifest_bytes) then Completed [] else Failed [])
  (λ _ field,
    if bool_decide (field = py "Package") then Completed (py "northgate-rmm-agent")
    else if bool_decide (field = py "Version") then Completed (py "1.0") else Completed (py "amd64"))
  (λ _, Completed []) true true.

Definition pins : expectations :=
  mkExpectations commit (py "1.0") package_sha256 1700000000 (Sha256.hexdigest key_bytes) invocation.
End Accepted.

(** The verifier accepts it, and rejects it with one file more or for another commit. *)
Example candidate_accepted :
  (∃ report, candidate_main 64 Accepted.programs Accepted.directory Accepted.pins = Ok (Some report, 0%Z)) ∧
  candidate_main 64 Accepted.programs
    (mkCandidate true (cd_entries Accepted.directory ++ [(py "extra", Regular [])])) Accepted.pins = Ok (None, 1%Z) ∧
  candidate_main 64 Accepted.programs Accepted.directory
    (mkExpectations (replicate 40 98%Z) (py "1.0") Accepted.package_sha256 1700000000
      (Sha256.hexdigest Accepted.key_bytes) Accepted.invocation) = Ok (None, 1%Z).
Proof. split_and!; [eexists|..]; vm_compute; reflexivity. Qed.
