(* ===== verification/Ledger.v ===== *)
(** * The message ledger: what a control plane promises

An abstract state machine shared by the in-memory and the PostgreSQL control
planes: identities are bound to endpoints, may be revoked, and messages are
accepted for them. The class [LedgerImpl] is the interface an implementation
discharges with a forward simulation; the replay and revocation guarantees are
proved once here against the interface. *)
From stdpp Require Import prelude strings gmap sorting ssreflect relations.
From S2P Require Import Prelude Uuid.

Set Warnings "-clear-no-such-hyp".

(** One accepted message. *)
Record entry := mkEntry {
  en_identity : uuid;
  en_endpoint : uuid;
  en_message : uuid;
  en_boot : uuid;
  en_sequence : Z;
}.

#[export] Instance entry_eq_dec : EqDecision entry.
Proof. solve_decision. Defined.

Record ledger := mkLedger {
  lg_bound : gmap uuid uuid;
  lg_revoked : gset uuid;
  lg_entries : list entry;
}.

Definition empty_ledger : ledger := mkLedger ∅ ∅ [].

(** Two entries of one identity's boot. *)
Definition same_stream (a b : entry) : Prop :=
  en_identity a = en_identity b ∧ en_boot a = en_boot b.

Inductive ledger_step : ledger → ledger → Prop :=
| step_bind l i e :
    lg_bound l !! i = None →
    ledger_step l (mkLedger (<[i := e]> (lg_bound l)) (lg_revoked l) (lg_entries l))
| step_revoke l i :
    is_Some (lg_bound l !! i) →
    ledger_step l (mkLedger (lg_bound l) ({[i]} ∪ lg_revoked l) (lg_entries l))
| step_accept l en :
    lg_bound l !! en_identity en = Some (en_endpoint en) →
    en_identity en ∉ lg_revoked l →
    en_message en ∉ en_message <$> lg_entries l →
    (∀ en', en' ∈ lg_entries l → same_stream en' en → (en_sequence en' < en_sequence en)%Z) →
    ledger_step l (mkLedger (lg_bound l) (lg_revoked l) (lg_entries l ++ [en])).

#[export] Hint Constructors ledger_step : core.

(** ** Guarantees of the abstract machine *)

(** No message is accepted twice and sequence numbers grow within a boot. *)
Definition ledger_ok (l : ledger) : Prop :=
  NoDup (en_message <$> lg_entries l) ∧
  StronglySorted (λ a b, same_stream a b → (en_sequence a < en_sequence b)%Z) (lg_entries l) ∧
  (∀ en, en ∈ lg_entries l → lg_bound l !! en_identity en = Some (en_endpoint en)) ∧
  (∀ i, i ∈ lg_revoked l → is_Some (lg_bound l !! i)).

Lemma ledger_ok_empty : ledger_ok empty_ledger.
Proof. repeat split; simpl; try constructor; set_solver. Qed.

Lemma StronglySorted_snoc {A} (R : relation A) l x :
  StronglySorted R l → (∀ y, y ∈ l → R y x) → StronglySorted R (l ++ [x]).
Proof.
  induction 1 as [|y l Hl IH Hall]; intros Hx; simpl; constructor.
  - constructor.
  - constructor.
  - apply IH. set_solver.
  - apply Forall_app. split; [done|]. constructor; [|done]. apply Hx. set_solver.
Qed.

Lemma ledger_ok_step l l' : ledger_step l l' → ledger_ok l → ledger_ok l'.
Proof.
  destruct 1 as [l i e Hi|l i Hi|l en Hb Hr Hm Hs]; intros (Hnd & Hss & He & Hrev).
  - split_and!; simpl; [done..| |].
    + intros en Hen. rw lookup_insert_ne; [by apply He|]. intros ->. by rw He in Hi.
    + intros j Hj. destruct (decide (i = j)) as [->|]; [by rw lookup_insert_eq|].
      rw lookup_insert_ne //. by apply Hrev.
  - split_and!; simpl; [done..|]. set_solver.
  - split_and!; simpl; [| |set_solver|done].
    + rw fmap_app. apply NoDup_app. split_and!; [done| |apply NoDup_singleton].
      intros m Hm1 Hm2. set_solver.
    + apply StronglySorted_snoc; [done|]. eauto.
Qed.

Lemma ledger_ok_rtc l l' : rtc ledger_step l l' → ledger_ok l → ledger_ok l'.
Proof. induction 1; eauto using ledger_ok_step. Qed.

(** The ledger is append-only. *)
Lemma ledger_prefix l l' : rtc ledger_step l l' → lg_entries l `prefix_of` lg_entries l'.
Proof.
  induction 1 as [|l l1 l2 Hs _ IH]; [done|]. etrans; [|exact IH].
  destruct Hs; simpl; [done..|]. by apply prefix_app_r.
Qed.

(** What an identity has had accepted. *)
Definition entries_of (i : uuid) (l : ledger) : list entry :=
  filter (λ en, en_identity en = i) (lg_entries l).

(** Revocation is permanent, and nothing more is accepted after it. *)
Lemma ledger_revoked_mono l l' : rtc ledger_step l l' → lg_revoked l ⊆ lg_revoked l'.
Proof.
  induction 1 as [|l l1 l2 Hs _ IH]; [done|]. etrans; [|exact IH].
  destruct Hs; simpl; set_solver.
Qed.

Lemma ledger_revoked_final l l' i :
  rtc ledger_step l l' → i ∈ lg_revoked l → entries_of i l' = entries_of i l.
Proof.
  induction 1 as [|l l1 l2 Hs Hr IH]; intros Hi; [done|].
  assert (i ∈ lg_revoked l1) as Hi1.
  { apply (ledger_revoked_mono l); [by apply rtc_once|done]. }
  rw IH //. destruct Hs as [| |l en Hb Hrv]; [done..|].
  unfold entries_of. simpl. rw filter_app filter_cons_False ?app_nil_r //. set_solver.
Qed.

(** ** The interface *)

(** [step] is one call of the implementation and [rel] relates its state to a
ledger: every call is matched by ledger steps. *)
Class LedgerImpl {W : Type} (step : relation W) (rel : W → ledger → Prop) : Prop := {
  li_sim w w' l : rel w l → step w w' → ∃ l', rtc ledger_step l l' ∧ rel w' l';
}.

Section impl.
Context `{LedgerImpl W step rel}.

Lemma impl_sim_star w w' l :
  rtc step w w' → rel w l → ∃ l', rtc ledger_step l l' ∧ rel w' l'.
Proof.
  intros Hs. revert l. induction Hs as [w|w w1 w2 Hs _ IH]; intros l Hl; [by exists l|].
  destruct (li_sim w w1 l Hl Hs) as (l1 & ? & Hl1).
  destruct (IH l1 Hl1) as (l2 & ? & ?). exists l2. split; [by etrans|done].
Qed.

(** Everything an implementation inherits along a sequence of calls. *)
Lemma impl_guarantee w w' l :
  rtc step w w' → rel w l → ledger_ok l →
  ∃ l', rel w' l' ∧ ledger_ok l' ∧ lg_entries l `prefix_of` lg_entries l' ∧
    lg_revoked l ⊆ lg_revoked l' ∧
    (∀ i, i ∈ lg_revoked l → entries_of i l' = entries_of i l).
Proof.
  intros Hs Hl Hok. destruct (impl_sim_star w w' l Hs Hl) as (l' & Hrtc & Hl').
  exists l'. split_and!;
    eauto using ledger_ok_rtc, ledger_prefix, ledger_revoked_mono, ledger_revoked_final.
Qed.

End impl.
