(* ===== verification/ControlPlane.v ===== *)
(** * In-memory control plane ([src/src/northgate_rmm/control_plane.py])

The object's seven attributes are the record [ControlPlane]; each method is a
computation over [world ControlPlane]. Methods that only read are functions of
the record. *)
From stdpp Require Import prelude strings gmap sorting pretty ssreflect.
From S2P Require Import Prelude Uuid PyTime Json Domain.

Set Warnings "-clear-no-such-hyp".

Record ControlPlane := mkCP {
  cp_endpoints : gmap uuid Endpoint;
  cp_identities : gmap uuid EndpointIdentity;
  cp_fingerprints : gmap pystr uuid;
  cp_observations : list Observation;
  cp_audit_events : list AuditEvent;
  cp_seen_message_ids : gset uuid;
  cp_last_sequences : gmap (uuid * uuid) Z;
}.

(** [ControlPlane()]. *)
Definition empty_control_plane : ControlPlane := mkCP ∅ ∅ ∅ [] [] ∅ ∅.

(** Attribute updates. *)
Definition set_endpoint (k : uuid) (e : Endpoint) (c : ControlPlane) : ControlPlane :=
  mkCP (<[k := e]> (cp_endpoints c)) (cp_identities c) (cp_fingerprints c)
    (cp_observations c) (cp_audit_events c) (cp_seen_message_ids c) (cp_last_sequences c).
Definition set_identity (k : uuid) (i : EndpointIdentity) (c : ControlPlane) : ControlPlane :=
  mkCP (cp_endpoints c) (<[k := i]> (cp_identities c)) (cp_fingerprints c)
    (cp_observations c) (cp_audit_events c) (cp_seen_message_ids c) (cp_last_sequences c).
Definition set_fingerprint (f : pystr) (k : uuid) (c : ControlPlane) : ControlPlane :=
  mkCP (cp_endpoints c) (cp_identities c) (<[f := k]> (cp_fingerprints c))
    (cp_observations c) (cp_audit_events c) (cp_seen_message_ids c) (cp_last_sequences c).
Definition append_audit (a : AuditEvent) (c : ControlPlane) : ControlPlane :=
  mkCP (cp_endpoints c) (cp_identities c) (cp_fingerprints c) (cp_observations c)
    (cp_audit_events c ++ [a]) (cp_seen_message_ids c) (cp_last_sequences c).

(** ** Reads *)
Definition endpoint_str_leb (a b : Endpoint) : bool :=
  str_leb (uuid_str (ep_endpoint_id a)) (uuid_str (ep_endpoint_id b)).
Definition endpoint_id_leb (a b : Endpoint) : bool :=
  uuid_leb (ep_endpoint_id a) (ep_endpoint_id b).

(** [self._endpoints.values()]. *)
Definition endpoint_values (c : ControlPlane) : list Endpoint :=
  (map_to_list (cp_endpoints c)).*2.

Definition list_endpoints (c : ControlPlane) : list Endpoint :=
  py_sorted endpoint_str_leb (endpoint_values c).

(** [after is None or endpoint.endpoint_id > after]. *)
Definition after_cursor (after : option uuid) (e : Endpoint) : bool :=
  match after with None => true | Some a => uuid_gtb (ep_endpoint_id e) a end.

(** [nsmallest(n, items, key)] is documented as [sorted(items, key)[:n]]. *)
Definition list_endpoint_page (c : ControlPlane) (after : option uuid) (limit : Z)
    : result (list Endpoint) :=
  raise_if (negb ((1 <=? limit) && (limit <=? 1000)))%Z
    (verr "endpoint page limit is invalid");;
  let candidates := filter (λ e, after_cursor after e = true) (endpoint_values c) in
  Ok (take (Z.to_nat limit) (py_sorted endpoint_id_leb candidates)).

Definition get_endpoint (c : ControlPlane) (endpoint_id : uuid) : result Endpoint :=
  match cp_endpoints c !! endpoint_id with
  | Some e => Ok e
  | None => Raise (NotFoundError (py "endpoint does not exist"))
  end.

Definition get_identity (c : ControlPlane) (identity_id : uuid) : result EndpointIdentity :=
  match cp_identities c !! identity_id with
  | Some i => Ok i
  | None => Raise (NotFoundError (py "identity does not exist"))
  end.

(** The health of an endpoint from its last receipt time. *)
Definition derive_health (freshness : FreshnessPolicy) (now : datetime)
    (last : option datetime) : EndpointHealth :=
  match last with
  | None => OFFLINE
  | Some l =>
    let age := Z.max (dt_sub now l) 0 in
    if (age <=? online_for freshness)%Z then ONLINE
    else if (age <=? stale_for freshness)%Z then STALE
    else OFFLINE
  end.

Definition endpoint_status (c : ControlPlane) (endpoint_id : uuid) (now : datetime)
    (policy : option FreshnessPolicy) : result EndpointStatus :=
  require_aware now (py "now");;
  endpoint ← get_endpoint c endpoint_id;
  identity ← get_identity c (ep_identity_id endpoint);
  let freshness := default default_FreshnessPolicy policy in
  let last := ep_last_heartbeat_at endpoint in
  Ok (mkEndpointStatus endpoint_id (ei_status identity)
        (derive_health freshness now last) last).

(** ** Writes *)
Abbreviation CP := (M (world ControlPlane)).

Definition _audit (server_time : datetime) (actor_type actor_id subject action decision
    reason : pystr) (correlation_id : uuid) (metadata : list (pystr * pystr)) : CP unit :=
  event_id ← uuid4;
  upd (append_audit (mkAuditEvent event_id server_time actor_type actor_id subject action
         decision reason correlation_id (py_sorted pair_leb metadata))).

(** [_reject]: audit the rejection, then raise [error_type(reason)]. *)
Definition _reject {A} (identity_id endpoint_id : uuid) (action reason : pystr)
    (correlation_id : uuid) (received_at : datetime) (error_type : pystr → exn) : CP A :=
  _audit received_at (py "endpoint_identity") (uuid_str identity_id)
    (py "endpoint:" ++ uuid_str endpoint_id) action (py "rejected") reason
    correlation_id [];;
  raise (error_type reason).

Definition record_operator_access (actor_id subject action decision reason : pystr)
    (correlation_id : uuid) (now : datetime) (metadata : list (pystr * pystr)) : CP unit :=
  lift (require_aware now (py "now"));;
  lift (raise_if (empty_or_longer actor_id 512) (verr "operator audit actor is invalid"));;
  lift (raise_if (empty_or_longer subject 512) (verr "operator audit subject is invalid"));;
  lift (raise_if (empty_or_longer action 128) (verr "operator audit action is invalid"));;
  lift (raise_if (negb (bool_decide (decision ∈ [py "accepted"; py "rejected"])))
          (verr "operator audit decision is invalid"));;
  lift (raise_if (empty_or_longer reason 512) (verr "operator audit reason is invalid"));;
  lift (raise_if ((8 <? Z.of_nat (length metadata))%Z
                  || existsb (λ m, empty_or_longer m.1 64 || (512 <? str_len m.2)%Z) metadata)
          (verr "operator audit metadata is invalid"));;
  _audit now (py "human_operator") actor_id subject action decision reason
    correlation_id metadata.

Definition enroll_synthetic_endpoint (display_name : pystr) (platform : Platform)
    (architecture public_key_fingerprint : pystr) (now : datetime) (actor_id : pystr)
    : CP (Endpoint * EndpointIdentity) :=
  lift (require_aware now (py "now"));;
  c ← get;
  lift (raise_if (bool_decide (is_Some (cp_fingerprints c !! public_key_fingerprint)))
          (verr "fingerprint is already enrolled"));;
  endpoint_id ← uuid4;
  identity_id ← uuid4;
  identity ← lift (new_EndpointIdentity identity_id endpoint_id public_key_fingerprint now
                     ACTIVE None None);
  endpoint ← lift (new_Endpoint endpoint_id display_name platform architecture identity_id
                     now None None);
  upd (set_identity identity_id identity);;
  upd (set_endpoint endpoint_id endpoint);;
  upd (set_fingerprint public_key_fingerprint identity_id);;
  correlation_id ← uuid4;
  _audit now (py "operator") actor_id (py "endpoint:" ++ uuid_str endpoint_id)
    (py "endpoint.enroll") (py "accepted") (py "synthetic Phase 1 enrollment")
    correlation_id [(py "identity_id", uuid_str identity_id)];;
  mret (endpoint, identity).

Definition _authorize_message (authenticated_identity_id endpoint_id message_id boot_id : uuid)
    (sequence : Z) (created_at expires_at : datetime) (correlation_id : uuid)
    (received_at : datetime) (action : pystr) : CP EndpointIdentity :=
  let reject (subject : uuid) (reason : string) (error_type : pystr → exn) :=
    _reject authenticated_identity_id subject action (py reason) correlation_id received_at
      error_type in
  lift (require_aware received_at (py "received_at"));;
  c ← get;
  match cp_identities c !! authenticated_identity_id with
  | None => reject endpoint_id "unknown authenticated identity" AuthorizationError
  | Some identity =>
    let bound := ei_endpoint_id identity in
    if bool_decide (is_Some (ei_revoked_at identity)) then
      reject bound "authenticated identity is revoked" AuthorizationError
    else if bool_decide (endpoint_id ≠ bound) then
      reject endpoint_id "message endpoint does not match transport identity"
        AuthorizationError
    else
      latest ← lift (dt_add received_at MAX_CLOCK_SKEW);
      if dt_ltb latest created_at then
        reject bound "message creation time exceeds allowed clock skew" ValidationError
      else if dt_leb expires_at received_at then
        reject bound "message expired before receipt" ValidationError
      else if bool_decide (message_id ∈ cp_seen_message_ids c) then
        reject bound "message ID replayed" ReplayError
      else
        let previous := default 0%Z
          (cp_last_sequences c !! (authenticated_identity_id, boot_id)) in
        if (sequence <=? previous)%Z then
          reject bound "boot sequence replayed or out of order" ReplayError
        else mret identity
  end.

(** [_accept_message]: remember the message ID and the boot sequence, and
append the observation. *)
Definition _accept_message (identity_id boot_id : uuid) (observation : Observation) : CP unit :=
  upd (λ c, mkCP (cp_endpoints c) (cp_identities c) (cp_fingerprints c)
    (cp_observations c ++ [observation]) (cp_audit_events c)
    ({[ob_message_id observation]} ∪ cp_seen_message_ids c)
    (<[(identity_id, boot_id) := ob_sequence observation]> (cp_last_sequences c))).

Definition _audit_acceptance (identity : EndpointIdentity) (observation : Observation)
    (correlation_id : uuid) : CP unit :=
  _audit (ob_received_at observation) (py "endpoint_identity")
    (uuid_str (ei_identity_id identity))
    (py "endpoint:" ++ uuid_str (ei_endpoint_id identity))
    (ob_observation_type observation ++ py ".ingest") (py "accepted")
    (py "message contract and authorization checks passed") correlation_id
    [(py "message_id", uuid_str (ob_message_id observation));
     (py "payload_digest", ob_payload_digest observation);
     (py "sequence", int_str (ob_sequence observation))].

(** [max(received_at, last or received_at)]. *)
Definition later (received_at : datetime) (last : option datetime) : datetime :=
  dt_max received_at (default received_at last).

Definition ingest_heartbeat (authenticated_identity_id : uuid) (message : HeartbeatMessage)
    (received_at : datetime) : CP Observation :=
  let env := hm_envelope message in
  identity ← _authorize_message authenticated_identity_id (me_endpoint_id env)
    (me_message_id env) (me_boot_id env) (me_sequence env) (me_created_at env)
    (me_expires_at env) (me_correlation_id env) received_at (py "heartbeat.ingest");
  observation_id ← uuid4;
  observation ← lift (new_Observation observation_id (ei_endpoint_id identity)
    (me_message_id env) (py "heartbeat") 1 (me_created_at env) received_at (me_boot_id env)
    (me_sequence env) (HeartbeatPayload_digest (hm_payload message)) None);
  _accept_message authenticated_identity_id (me_boot_id env) observation;;
  c ← get;
  endpoint ← lift (get_endpoint c (ei_endpoint_id identity));
  endpoint' ← lift (replace_endpoint endpoint
    (Some (later received_at (ep_last_receipt_at endpoint)))
    (Some (later received_at (ep_last_heartbeat_at endpoint))));
  upd (set_endpoint (ep_endpoint_id endpoint) endpoint');;
  _audit_acceptance identity observation (me_correlation_id env);;
  mret observation.

Definition ingest_inventory (authenticated_identity_id : uuid) (message : InventoryMessage)
    (received_at : datetime) : CP Observation :=
  let env := im_envelope message in
  let payload := im_payload message in
  identity ← _authorize_message authenticated_identity_id (me_endpoint_id env)
    (me_message_id env) (me_boot_id env) (me_sequence env) (me_created_at env)
    (me_expires_at env) (me_correlation_id env) received_at (py "inventory.ingest");
  c ← get;
  endpoint ← lift (get_endpoint c (ei_endpoint_id identity));
  (if bool_decide (ip_platform payload ≠ ep_platform endpoint)
      || bool_decide (ip_architecture payload ≠ ep_architecture endpoint)
   then _reject authenticated_identity_id (ei_endpoint_id identity) (py "inventory.ingest")
          (py "inventory binding does not match enrolled endpoint")
          (me_correlation_id env) received_at ValidationError
   else mret tt);;
  observation_id ← uuid4;
  observation ← lift (new_Observation observation_id (ei_endpoint_id identity)
    (me_message_id env) (py "inventory") (ip_schema_version payload) (me_created_at env)
    received_at (me_boot_id env) (me_sequence env) (InventoryPayload_digest payload) None);
  _accept_message authenticated_identity_id (me_boot_id env) observation;;
  endpoint' ← lift (replace_endpoint endpoint
    (Some (later received_at (ep_last_receipt_at endpoint)))
    (ep_last_heartbeat_at endpoint));
  upd (set_endpoint (ep_endpoint_id endpoint) endpoint');;
  _audit_acceptance identity observation (me_correlation_id env);;
  mret observation.

Definition revoke_identity (identity_id : uuid) (reason actor_id : pystr) (now : datetime)
    (correlation_id : option uuid) : CP EndpointIdentity :=
  lift (require_aware now (py "now"));;
  lift (raise_if (empty_or_longer reason 256)
          (verr "revocation reason is empty or too long"));;
  c ← get;
  identity ← lift (get_identity c identity_id);
  event_correlation_id ← match correlation_id with Some u => mret u | None => uuid4 end;
  let audit (decision : string) (why : pystr) :=
    _audit now (py "operator") actor_id (py "identity:" ++ uuid_str identity_id)
      (py "identity.revoke") (py decision) why event_correlation_id [] in
  if bool_decide (is_Some (ei_revoked_at identity)) then
    audit "no_change" (py "identity already revoked");;
    mret identity
  else
    revoked ← lift (replace_identity identity REVOKED (Some now) (Some reason));
    upd (set_identity identity_id revoked);;
    audit "accepted" reason;;
    mret revoked.
