(* ===== verification/Paging.v ===== *)
(** * Keyset paging over endpoints

The page routines sort the endpoints after a cursor and keep the first
[limit]. Here: walking pages from the start visits every endpoint once, in
order. *)
From stdpp Require Import prelude strings gmap sorting pretty ssreflect.
From S2P Require Import Prelude Uuid PyTime Json Domain ControlPlane.

Set Warnings "-clear-no-such-hyp".

(** The endpoints have distinct IDs. *)
Definition distinct_ids (l : list Endpoint) : Prop := NoDup (ep_endpoint_id <$> l).

Definition id_lt (a b : Endpoint) : Prop :=
  (uuid_int (ep_endpoint_id a) < uuid_int (ep_endpoint_id b))%Z.

(** One page of a list of endpoints. *)
Definition page_of (values : list Endpoint) (after : option uuid) (limit : Z) : list Endpoint :=
  take (Z.to_nat limit)
    (py_sorted endpoint_id_leb (filter (λ e, after_cursor after e = true) values)).

#[export] Instance endpoint_id_leb_cmp : Comparison endpoint_id_leb.
Proof. apply (cmp_on ep_endpoint_id). Qed.

Lemma distinct_ids_inj l x y :
  distinct_ids l → x ∈ l → y ∈ l → ep_endpoint_id x = ep_endpoint_id y → x = y.
Proof. apply NoDup_fmap_elem. Qed.

(** Sorted lists with the same elements and distinct IDs are equal. *)
Lemma sorted_unique l k :
  distinct_ids l → StronglySorted (rel_of endpoint_id_leb) l →
  StronglySorted (rel_of endpoint_id_leb) k → l ≡ₚ k → l = k.
Proof.
  intros Hd Hl Hk Hp. eapply (StronglySorted_unique_strong (rel_of endpoint_id_leb)); try done.
  intros x y Hx Hy. unfold rel_of, endpoint_id_leb, uuid_leb. intros.
  apply (distinct_ids_inj l); [done..| |apply uuid_eq; lia].
  by rw Hp.
Qed.

Lemma distinct_ids_sorted l :
  distinct_ids l → distinct_ids (py_sorted endpoint_id_leb l).
Proof. unfold distinct_ids. by rw (py_sorted_perm endpoint_id_leb l). Qed.

Lemma distinct_ids_filter l (P : Endpoint → Prop) `{!∀ x, Decision (P x)} :
  distinct_ids l → distinct_ids (filter P l).
Proof.
  unfold distinct_ids. induction l as [|x l IH]; [done|]. rw fmap_cons NoDup_cons filter_cons.
  intros [Hx Hd]. case_decide; [|by apply IH]. rw fmap_cons NoDup_cons.
  split; [|by apply IH]. contradict Hx. apply list_elem_of_fmap in Hx as (y & -> & Hy).
  apply list_elem_of_filter in Hy as [_ ?]. by apply list_elem_of_fmap_2.
Qed.

Lemma sorted_filter l (P : Endpoint → Prop) `{!∀ x, Decision (P x)} :
  distinct_ids l →
  py_sorted endpoint_id_leb (filter P l) = filter P (py_sorted endpoint_id_leb l).
Proof.
  intros Hd. apply sorted_unique.
  - by apply distinct_ids_sorted, distinct_ids_filter.
  - apply py_sorted_sorted.
  - apply StronglySorted_filter, py_sorted_sorted.
  - by rw !py_sorted_perm.
Qed.

(** Past the last element of a sorted prefix, the cursor leaves the rest. *)
Lemma sorted_after l1 e l2 :
  distinct_ids (l1 ++ e :: l2) → StronglySorted (rel_of endpoint_id_leb) (l1 ++ e :: l2) →
  filter (λ x, after_cursor (Some (ep_endpoint_id e)) x = true) (l1 ++ e :: l2) = l2.
Proof.
  intros Hd Hs. rw filter_app filter_cons_False; [|simpl; unfold uuid_gtb; lia].
  apply StronglySorted_app in Hs as (Hle & _ & Hs).
  apply StronglySorted_inv in Hs as [_ Hall]. rw Forall_forall in Hall.
  assert (filter (λ x, after_cursor (Some (ep_endpoint_id e)) x = true) l1 = []) as ->.
  { apply filter_none. intros x Hx. specialize (Hle x e Hx ltac:(set_solver)).
    unfold rel_of, endpoint_id_leb, uuid_leb in Hle. simpl. unfold uuid_gtb. lia. }
  apply filter_every. intros x Hx. simpl.
  specialize (Hall x Hx). unfold rel_of, endpoint_id_leb, uuid_leb, uuid_gtb in *.
  unfold distinct_ids in Hd. rw fmap_app fmap_cons in Hd.
  apply NoDup_app in Hd as (_ & _ & Hd). apply NoDup_cons in Hd as [Hd _].
  assert (uuid_int (ep_endpoint_id e) ≠ uuid_int (ep_endpoint_id x)); [|lia].
  intros Heq%uuid_eq. destruct Hd. rw Heq. by apply list_elem_of_fmap_2.
Qed.

(** A client that follows pages: it asks for the first page, then for the page
after the last endpoint it received, until a page is empty. *)
Fixpoint follow_pages (page : option uuid → result (list Endpoint)) (n : nat)
    (after : option uuid) : result (list Endpoint) :=
  match n with
  | O => Ok []
  | S n' =>
    items ← page after;
    match last items with
    | None => Ok []
    | Some e => rest ← follow_pages page n' (Some (ep_endpoint_id e)); Ok (items ++ rest)
    end
  end.

Section follow.
Context (values : list Endpoint) (limit : Z).
Context (Hd : distinct_ids values) (Hl : (1 ≤ limit)%Z).
Context (page : option uuid → result (list Endpoint)).
Context (Hpage : ∀ after, page after = Ok (page_of values after limit)).

Local Abbreviation sorted := (py_sorted endpoint_id_leb values).

(** The cursor that stands after the prefix [l]. *)
Definition cursor_of (l : list Endpoint) : option uuid := ep_endpoint_id <$> last l.

Lemma page_of_cursor l1 l2 :
  sorted = l1 ++ l2 → page_of values (cursor_of l1) limit = take (Z.to_nat limit) l2.
Proof.
  intros Hs. unfold page_of. f_equal. rw sorted_filter //.
  destruct l1 as [|e l1 _] using rev_ind.
  - simpl in *. rw Hs. by apply filter_every.
  - unfold cursor_of. rw last_snoc. simpl. rw Hs -app_assoc /=.
    rw -app_assoc /= in Hs. apply sorted_after; rw -Hs.
    + by apply distinct_ids_sorted.
    + apply py_sorted_sorted.
Qed.

Lemma follow_pages_rest n l1 l2 :
  sorted = l1 ++ l2 → length l2 < n → follow_pages page n (cursor_of l1) = Ok l2.
Proof.
  revert l1 l2. induction n as [|n IH]; intros l1 l2 Hs Hn; [lia|].
  simpl. rw Hpage (page_of_cursor l1 l2) //=.
  destruct l2 as [|x l2]; [by rw take_nil|].
  destruct (last (take (Z.to_nat limit) (x :: l2))) as [e|] eqn:He; last first.
  { apply last_None in He. by destruct (Z.to_nat limit) eqn:?; [lia|]. }
  set (t := take (Z.to_nat limit) (x :: l2)) in *. set (d := drop (Z.to_nat limit) (x :: l2)).
  assert (t ++ d = x :: l2) as Htd by apply take_drop.
  assert (length d < length (x :: l2)) by (unfold d; rw length_drop; simpl; lia).
  pose proof (IH (l1 ++ t) d) as IH'. unfold cursor_of in IH'. rw last_app He /= in IH'.
  rw IH' /=; [by rw Htd|by rw -app_assoc Htd|lia].
Qed.

Lemma follow_pages_all n :
  length values < n → follow_pages page n None = Ok sorted.
Proof.
  intros Hn. apply (follow_pages_rest n [] sorted); [done|]. by rw py_sorted_perm.
Qed.

End follow.
