(* ===== verification/ControlPlaneProofs.v ===== *)
(** * The in-memory control plane: invariant, behaviour and refinement *)
From stdpp Require Import prelude strings gmap sorting pretty ssreflect relations.
From S2P Require Import Prelude Uuid PyTime Json Domain Ledger ControlPlane.

Set Warnings "-clear-no-such-hyp".

(** ** Calls that only audit *)

(** The state after one audit event: the event appended, one UUID drawn. *)
Definition audited (a : AuditEvent) (w : world ControlPlane) : world ControlPlane :=
  World (append_audit a (store w)) (λ n, rng w (S n)).

Lemma wp__audit t at_ aid sub act dec reason corr md Q w :
  wp (_audit t at_ aid sub act dec reason corr md) Q w ↔
  Q (audited (mkAuditEvent (rng w 0) t at_ aid sub act dec reason corr
                (py_sorted pair_leb md)) w) (Ok tt).
Proof. done. Qed.

(** The audit event of a rejected message. *)
Definition rejection (w : world ControlPlane) (aid subject : uuid) (action reason : pystr)
    (corr : uuid) (received : datetime) : AuditEvent :=
  mkAuditEvent (rng w 0) received (py "endpoint_identity") (uuid_str aid)
    (py "endpoint:" ++ uuid_str subject) action (py "rejected") reason corr [].

Lemma wp__reject {A} aid sub action reason corr received ty (Q : _ → result A → _) w :
  wp (_reject aid sub action reason corr received ty) Q w ↔
  Q (audited (rejection w aid sub action reason corr received) w) (Raise (ty reason)).
Proof. done. Qed.

(** ** Authorization *)

(** When a message of [aid] with these envelope facts is acceptable. *)
Record authorized (c : ControlPlane) (aid : uuid) (env : MessageEnvelope)
    (received : datetime) (identity : EndpointIdentity) : Prop := {
  au_identity : cp_identities c !! aid = Some identity;
  au_active : ei_revoked_at identity = None;
  au_endpoint : me_endpoint_id env = ei_endpoint_id identity;
  au_skew : (instant (me_created_at env) ≤ instant received + MAX_CLOCK_SKEW)%Z;
  au_live : (instant received < instant (me_expires_at env))%Z;
  au_fresh : me_message_id env ∉ cp_seen_message_ids c;
  au_sequence : (default 0 (cp_last_sequences c !! (aid, me_boot_id env)) < me_sequence env)%Z;
}.

Definition authorize (aid : uuid) (env : MessageEnvelope) (received : datetime)
    (action : pystr) : CP EndpointIdentity :=
  _authorize_message aid (me_endpoint_id env) (me_message_id env) (me_boot_id env)
    (me_sequence env) (me_created_at env) (me_expires_at env) (me_correlation_id env)
    received action.

(** A refused message: nothing but one audit event naming the reason, or an
untouched state when the receipt time itself is unusable. *)
Definition refused (w : world ControlPlane) (aid : uuid) (env : MessageEnvelope)
    (received : datetime) (action : pystr) (w' : world ControlPlane) (e : exn) : Prop :=
  (w' = w ∧ (aware received = false ∨ e = OverflowError)) ∨
  ∃ subject reason,
    w' = audited (rejection w aid subject action reason (me_correlation_id env) received) w ∧
    e ∈ [AuthorizationError reason; ValidationError reason; ReplayError reason].

Lemma authorize_spec aid env received action w :
  wp (authorize aid env received action)
    (λ w' r, match r with
             | Ok identity => w' = w ∧ aware received = true ∧
                              authorized (store w) aid env received identity
             | Raise e => refused w aid env received action w' e
             end) w.
Proof.
  unfold authorize, _authorize_message. rw wp_bind wp_lift.
  destruct (require_aware received _) as [[]|e] eqn:Haw; last first.
  { left. split; [done|]. left. destruct (aware received) eqn:Ha; [|done].
    by rw (proj2 (require_aware_Ok received (py "received_at") tt) Ha) in Haw. }
  apply require_aware_Ok in Haw. rw wp_bind wp_get.
  destruct (cp_identities (store w) !! aid) as [identity|] eqn:Hid; last first.
  { rw wp__reject. right. do 2 eexists. split; [done|]. rw !elem_of_cons. auto. }
  case_bool_decide as Hrev.
  { rw wp__reject. right. do 2 eexists. split; [done|]. rw !elem_of_cons. auto. }
  case_bool_decide as Hep.
  { rw wp__reject. right. do 2 eexists. split; [done|]. rw !elem_of_cons. auto. }
  rw wp_bind wp_lift. destruct (dt_add received MAX_CLOCK_SKEW) as [latest|e] eqn:Hadd; last first.
  { left. split; [done|]. right. unfold dt_add in Hadd. by case_match; simplify_eq. }
  apply dt_add_Ok in Hadd as [Hlatest _].
  destruct (dt_ltb latest _) eqn:Hskew.
  { rw wp__reject. right. do 2 eexists. split; [done|]. rw !elem_of_cons. auto. }
  destruct (dt_leb _ received) eqn:Hexp.
  { rw wp__reject. right. do 2 eexists. split; [done|]. rw !elem_of_cons. auto. }
  case_bool_decide as Hseen.
  { rw wp__reject. right. do 2 eexists. split; [done|]. rw !elem_of_cons. auto. }
  destruct (_ <=? _)%Z eqn:Hseq.
  { rw wp__reject. right. do 2 eexists. split; [done|]. rw !elem_of_cons. auto. }
  rw wp_ret. split_and!; [done..|]. unfold dt_ltb, dt_leb in *.
  split; [done| | |lia..|done|lia].
  - destruct (ei_revoked_at identity); [|done]. destruct Hrev. by eexists.
  - by destruct (decide (me_endpoint_id env = ei_endpoint_id identity)).
Qed.

(** Why a message at a usable receipt time is refused: the condition that fails, the endpoint the
rejection names, its reason and the exception. *)
Inductive refusal (c : ControlPlane) (aid : uuid) (env : MessageEnvelope) (received : datetime)
    : uuid → string → exn → Prop :=
| RefusedUnknown :
    cp_identities c !! aid = None →
    refusal c aid env received (me_endpoint_id env) "unknown authenticated identity"
      (AuthorizationError (py "unknown authenticated identity"))
| RefusedRevoked identity :
    cp_identities c !! aid = Some identity → ei_revoked_at identity ≠ None →
    refusal c aid env received (ei_endpoint_id identity) "authenticated identity is revoked"
      (AuthorizationError (py "authenticated identity is revoked"))
| RefusedEndpoint identity :
    cp_identities c !! aid = Some identity → me_endpoint_id env ≠ ei_endpoint_id identity →
    refusal c aid env received (me_endpoint_id env) "message endpoint does not match transport identity"
      (AuthorizationError (py "message endpoint does not match transport identity"))
| RefusedSkew :
    (instant received + MAX_CLOCK_SKEW < instant (me_created_at env))%Z →
    refusal c aid env received (me_endpoint_id env) "message creation time exceeds allowed clock skew"
      (ValidationError (py "message creation time exceeds allowed clock skew"))
| RefusedExpired :
    (instant (me_expires_at env) ≤ instant received)%Z →
    refusal c aid env received (me_endpoint_id env) "message expired before receipt"
      (ValidationError (py "message expired before receipt"))
| RefusedReplay :
    me_message_id env ∈ cp_seen_message_ids c →
    refusal c aid env received (me_endpoint_id env) "message ID replayed"
      (ReplayError (py "message ID replayed"))
| RefusedSequence :
    (me_sequence env ≤ default 0 (cp_last_sequences c !! (aid, me_boot_id env)))%Z →
    refusal c aid env received (me_endpoint_id env) "boot sequence replayed or out of order"
      (ReplayError (py "boot sequence replayed or out of order")).

Lemma authorize_refusal aid env received action w w' e :
  aware received = true → dt_in_range (dt_wall received + MAX_CLOCK_SKEW) = true →
  authorize aid env received action w = (w', Raise e) →
  ∃ subject reason, refusal (store w) aid env received subject reason e ∧
    w' = audited (rejection w aid subject action (py reason) (me_correlation_id env) received) w.
Proof.
  intros Haw Hrange. unfold authorize, _authorize_message, mbind at 1, M_bind at 1, lift at 1.
  rw (proj2 (require_aware_Ok received (py "received_at") tt) Haw).
  unfold mbind at 1, M_bind at 1, get, gets.
  destruct (cp_identities (store w) !! aid) as [identity|] eqn:Hid; cycle 1.
  { intros [= <- <-]. do 2 eexists. split; [by apply RefusedUnknown|done]. }
  case_bool_decide as Hrev.
  { intros [= <- <-]. do 2 eexists. split; [eapply (RefusedRevoked _ _ _ _ identity); [done|by destruct Hrev as [? ->]]|done]. }
  case_bool_decide as Hep.
  { intros [= <- <-]. do 2 eexists. split; [by eapply (RefusedEndpoint _ _ _ _ identity)|done]. }
  assert (Hsame : me_endpoint_id env = ei_endpoint_id identity) by (by destruct (decide (me_endpoint_id env = ei_endpoint_id identity))).
  unfold mbind at 1, M_bind at 1, lift at 1, dt_add. rw Hrange -Hsame.
  set (later := {| dt_wall := _ |}).
  assert (Hlater : instant later = (instant received + MAX_CLOCK_SKEW)%Z) by (unfold later, instant; simpl; by destruct (dt_tz received); lia).
  destruct (dt_ltb later _) eqn:Hskew.
  { intros [= <- <-]. do 2 eexists. split; [apply RefusedSkew; unfold dt_ltb in Hskew; lia|done]. }
  destruct (dt_leb _ received) eqn:Hexp.
  { intros [= <- <-]. do 2 eexists. split; [apply RefusedExpired; unfold dt_leb in Hexp; lia|done]. }
  case_bool_decide as Hseen.
  { intros [= <- <-]. do 2 eexists. split; [by apply RefusedReplay|done]. }
  destruct (_ <=? _)%Z eqn:Hseq; [|done]. intros [= <- <-]. do 2 eexists. split; [|done].
  apply RefusedSequence. lia.
Qed.

Lemma authorize_complete aid env received action identity w :
  aware received = true → dt_in_range (dt_wall received + MAX_CLOCK_SKEW) = true →
  authorized (store w) aid env received identity →
  authorize aid env received action w = (w, Ok identity).
Proof.
  intros Haw Hrange [Hid Hact Hep Hskew Hlive Hfresh Hseq].
  unfold authorize, _authorize_message, mbind, M_bind, lift, get, gets.
  rw (proj2 (require_aware_Ok received (py "received_at") tt) Haw) Hid Hact.
  rw bool_decide_eq_false_2; [|by intros [? ?]].
  rw bool_decide_eq_false_2; [|by intros ?].
  unfold dt_add. rw Hrange.
  rw (_ : dt_ltb _ _ = false); [|unfold dt_ltb, instant in *; simpl; by destruct (dt_tz received); lia].
  rw (_ : dt_leb _ _ = false); [|unfold dt_leb; lia].
  rw bool_decide_eq_false_2 // (_ : (_ <=? _)%Z = false) //. lia.
Qed.

(** ** The invariant *)

(** The latest receipt instant among the observations selected by [p]. *)
Definition latest (p : Observation → bool) (obs : list Observation) : option Z :=
  foldl (λ acc o, if p o then Some (from_option (Z.max (instant (ob_received_at o)))
                                      (instant (ob_received_at o)) acc) else acc) None obs.

Definition of_endpoint (e : uuid) (o : Observation) : bool := bool_decide (ob_endpoint_id o = e).
Definition heartbeat_of (e : uuid) (o : Observation) : bool :=
  of_endpoint e o && bool_decide (ob_observation_type o = py "heartbeat").

Lemma latest_snoc p obs o :
  latest p (obs ++ [o]) =
    if p o then Some (from_option (Z.max (instant (ob_received_at o)))
                        (instant (ob_received_at o)) (latest p obs))
    else latest p obs.
Proof. unfold latest. by rw foldl_app. Qed.

Record cp_wf (c : ControlPlane) : Prop := {
  wf_identity i id : cp_identities c !! i = Some id →
    ei_identity_id id = i ∧ EndpointIdentity_post_init id = Ok tt ∧
    ∃ ep, cp_endpoints c !! ei_endpoint_id id = Some ep ∧ ep_identity_id ep = i;
  wf_endpoint e ep : cp_endpoints c !! e = Some ep →
    ep_endpoint_id ep = e ∧ Endpoint_post_init ep = Ok tt ∧
    ∃ id, cp_identities c !! ep_identity_id ep = Some id ∧ ei_endpoint_id id = e;
  wf_fingerprint f i : cp_fingerprints c !! f = Some i ↔
    ∃ id, cp_identities c !! i = Some id ∧ ei_fingerprint id = f;
  wf_observation o : o ∈ cp_observations c →
    Observation_post_init o = Ok tt ∧
    ∃ ep n, cp_endpoints c !! ob_endpoint_id o = Some ep ∧
      cp_last_sequences c !! (ep_identity_id ep, ob_boot_id o) = Some n ∧
      (ob_sequence o ≤ n)%Z;
  wf_last i b n : cp_last_sequences c !! (i, b) = Some n →
    (0 < n)%Z ∧ ∃ o ep, o ∈ cp_observations c ∧
      cp_endpoints c !! ob_endpoint_id o = Some ep ∧ ep_identity_id ep = i ∧
      ob_boot_id o = b ∧ ob_sequence o = n;
  wf_seen m : m ∈ cp_seen_message_ids c ↔ m ∈ ob_message_id <$> cp_observations c;
  wf_receipt e ep : cp_endpoints c !! e = Some ep →
    instant <$> ep_last_receipt_at ep = latest (of_endpoint e) (cp_observations c);
  wf_heartbeat e ep : cp_endpoints c !! e = Some ep →
    instant <$> ep_last_heartbeat_at ep = latest (heartbeat_of e) (cp_observations c);
}.

Lemma cp_wf_empty : cp_wf empty_control_plane.
Proof. split; simpl; try set_solver; intros; simplify_map_eq; naive_solver. Qed.

Lemma cp_wf_audit a c : cp_wf (append_audit a c) ↔ cp_wf c.
Proof. split; intros [????????]; by split. Qed.

(** ** Accepting a message *)

(** The state after an accepted observation [o] of identity [aid], whose
endpoint record becomes [ep']. *)
Definition accept_store (aid : uuid) (o : Observation) (ep' : Endpoint) (c : ControlPlane)
    : ControlPlane :=
  mkCP (<[ob_endpoint_id o := ep']> (cp_endpoints c)) (cp_identities c) (cp_fingerprints c)
    (cp_observations c ++ [o]) (cp_audit_events c)
    ({[ob_message_id o]} ∪ cp_seen_message_ids c)
    (<[(aid, ob_boot_id o) := ob_sequence o]> (cp_last_sequences c)).

(** The later of a receipt time and the one recorded before. *)
Definition newest (received : datetime) (last : option datetime) : datetime :=
  match last with
  | Some t => if decide (instant received < instant t)%Z then t else received
  | None => received
  end.

(** The endpoint after [o] is accepted for it: its receipt time and, for a heartbeat, its
heartbeat time move forward; every other field stays. *)
Definition refreshed (o : Observation) (ep : Endpoint) : Endpoint :=
  mkEndpoint (ep_endpoint_id ep) (ep_display_name ep) (ep_platform ep) (ep_architecture ep) (ep_identity_id ep)
    (ep_enrolled_at ep) (Some (newest (ob_received_at o) (ep_last_receipt_at ep)))
    (if decide (ob_observation_type o = py "heartbeat")
     then Some (newest (ob_received_at o) (ep_last_heartbeat_at ep)) else ep_last_heartbeat_at ep).

(** What changes of an endpoint when [o] is accepted for it. *)
Record endpoint_after (o : Observation) (ep ep' : Endpoint) : Prop := {
  ea_exact : ep' = refreshed o ep;
  ea_id : ep_endpoint_id ep' = ep_endpoint_id ep;
  ea_identity : ep_identity_id ep' = ep_identity_id ep;
  ea_ok : Endpoint_post_init ep' = Ok tt;
  ea_platform : ep_platform ep' = ep_platform ep ∧ ep_architecture ep' = ep_architecture ep;
  ea_receipt : instant <$> ep_last_receipt_at ep' =
    Some (from_option (Z.max (instant (ob_received_at o))) (instant (ob_received_at o))
            (instant <$> ep_last_receipt_at ep));
  ea_heartbeat : instant <$> ep_last_heartbeat_at ep' =
    if decide (ob_observation_type o = py "heartbeat")
    then Some (from_option (Z.max (instant (ob_received_at o))) (instant (ob_received_at o))
                 (instant <$> ep_last_heartbeat_at ep))
    else instant <$> ep_last_heartbeat_at ep;
}.

Section accept.
Context (c : ControlPlane) (aid : uuid) (o : Observation) (identity : EndpointIdentity).
Context (ep ep' : Endpoint).
Context (Hwf : cp_wf c) (Hid : cp_identities c !! aid = Some identity).
Context (Heid : ei_endpoint_id identity = ob_endpoint_id o).
Context (Hep : cp_endpoints c !! ob_endpoint_id o = Some ep).
Context (Hobs : Observation_post_init o = Ok tt).
Context (Hseq : (default 0 (cp_last_sequences c !! (aid, ob_boot_id o)) < ob_sequence o)%Z).
Context (Hafter : endpoint_after o ep ep').

Lemma accept_bound : ep_identity_id ep = aid.
Proof.
  destruct (wf_identity c Hwf aid identity Hid) as (_ & _ & ep0 & Hep0 & Hi).
  rw Heid in Hep0. by simplify_eq.
Qed.

(** Endpoint records keep their identity across the update. *)
Lemma accept_endpoints e q :
  cp_endpoints (accept_store aid o ep' c) !! e = Some q →
  ∃ q0, cp_endpoints c !! e = Some q0 ∧ ep_identity_id q = ep_identity_id q0 ∧
    (e = ob_endpoint_id o ∧ q = ep' ∧ q0 = ep ∨ e ≠ ob_endpoint_id o ∧ q = q0).
Proof.
  simpl. destruct Hafter. intros [[<- <-]|[? ?]]%lookup_insert_Some; naive_solver.
Qed.

Lemma accept_endpoints_r e q0 :
  cp_endpoints c !! e = Some q0 →
  ∃ q, cp_endpoints (accept_store aid o ep' c) !! e = Some q ∧
    ep_identity_id q = ep_identity_id q0.
Proof.
  intros Hq. simpl. destruct Hafter. destruct (decide (ob_endpoint_id o = e)) as [<-|].
  - exists ep'. rw lookup_insert_eq. naive_solver.
  - exists q0. by rw lookup_insert_ne.
Qed.

Lemma accept_last i b n :
  cp_last_sequences c !! (i, b) = Some n →
  ∃ n', cp_last_sequences (accept_store aid o ep' c) !! (i, b) = Some n' ∧ (n ≤ n')%Z.
Proof.
  intros Hn. simpl. destruct (decide ((aid, ob_boot_id o) = (i, b))) as [[= -> <-]|].
  - pose proof Hseq as Hs. rw lookup_insert_eq. rw Hn /= in Hs. eexists. split; [done|]. lia.
  - rw lookup_insert_ne //. eexists. split; [done|]. lia.
Qed.

Lemma accept_latest p e q0 :
  (p = of_endpoint ∨ p = heartbeat_of) → cp_endpoints c !! e = Some q0 →
  e ≠ ob_endpoint_id o →
  latest (p e) (cp_observations c ++ [o]) = latest (p e) (cp_observations c).
Proof.
  intros Hp _ Hne. rw latest_snoc (_ : p e o = false) //.
  destruct Hp as [-> | ->]; unfold heartbeat_of, of_endpoint;
    by rw bool_decide_eq_false_2.
Qed.

Lemma cp_wf_accept : cp_wf (accept_store aid o ep' c).
Proof.
  pose proof accept_bound as Hbound. split.
  - intros i id Hi. destruct (wf_identity c Hwf i id Hi) as (? & ? & q0 & Hq0 & <-).
    destruct (accept_endpoints_r _ _ Hq0) as (q & ? & ?). split_and!; [done..|]. by exists q.
  - intros e q Hq. destruct (accept_endpoints _ _ Hq) as (q0 & Hq0 & Hqi & Hcase).
    destruct (wf_endpoint c Hwf e q0 Hq0) as (? & ? & id & ? & ?). rw Hqi.
    destruct Hcase as [(-> & -> & ->)|[? ->]].
    + split_and!; [by rw (ea_id _ _ _ Hafter)|by apply (ea_ok _ _ _ Hafter)|by exists id].
    + split_and!; [done..|by exists id].
  - apply (wf_fingerprint c Hwf).
  - simpl. intros o' [Ho'| ->%list_elem_of_singleton]%elem_of_app.
    + destruct (wf_observation c Hwf o' Ho') as (? & q0 & n & Hq0 & Hn & ?).
      split; [done|]. destruct (accept_endpoints_r _ _ Hq0) as (q & Hq & Hqi).
      destruct (accept_last _ _ _ Hn) as (n' & Hn' & ?).
      exists q, n'. rw Hqi. split_and!; [done..|lia].
    + split; [done|]. destruct (accept_endpoints_r _ _ Hep) as (q & Hq & Hqi).
      exists q, (ob_sequence o). rw Hqi Hbound. split_and!; [exact Hq|apply lookup_insert_eq|lia].
  - intros i b n. simpl. intros [[[= <- <-] <-]|[_ Hn]]%lookup_insert_Some.
    + split. { pose proof Hseq as Hs.
        destruct (cp_last_sequences c !! _) as [n|] eqn:Hn; simpl in Hs; [|lia].
        apply (wf_last c Hwf) in Hn as [? _]. lia. }
      destruct (accept_endpoints_r _ _ Hep) as (q & Hq & Hqi).
      exists o, q. rw Hqi Hbound. split_and!; [set_solver|done..].
    + destruct (wf_last c Hwf i b n Hn) as (? & o' & q0 & ? & Hq0 & ? & ? & ?).
      split; [done|]. destruct (accept_endpoints_r _ _ Hq0) as (q & Hq & Hqi).
      exists o', q. rw Hqi. split_and!; [set_solver|done..].
  - intros m. simpl. rw fmap_app elem_of_union elem_of_app (wf_seen c Hwf). set_solver.
  - intros e q Hq. destruct (accept_endpoints _ _ Hq) as (q0 & Hq0 & _ & [(-> & -> & ->)|[? ->]]).
    + simpl. rw latest_snoc (_ : of_endpoint _ _ = true); [|by apply bool_decide_eq_true_2].
      by rw -(wf_receipt c Hwf _ _ Hq0) (ea_receipt _ _ _ Hafter).
    + simpl. rw (accept_latest of_endpoint _ _ _ Hq0) //; [|by left]. by apply wf_receipt.
  - intros e q Hq. destruct (accept_endpoints _ _ Hq) as (q0 & Hq0 & _ & [(-> & -> & ->)|[? ->]]).
    + simpl. rw latest_snoc (ea_heartbeat _ _ _ Hafter) -(wf_heartbeat c Hwf _ _ Hq0).
      unfold heartbeat_of, of_endpoint. rw bool_decide_eq_true_2 //=.
      by repeat case_decide; case_bool_decide.
    + simpl. rw (accept_latest heartbeat_of _ _ _ Hq0) //; [|by right]. by apply wf_heartbeat.
Qed.

End accept.

(** ** Ingestion *)

Lemma later_newest received last : later received last = newest received last.
Proof.
  unfold later, newest, dt_max, dt_ltb. destruct last as [t|]; cbn.
  - destruct (Z.ltb_spec (instant received) (instant t)); case_decide; lia || done.
  - by case_match.
Qed.

(** The audit event of an accepted observation, drawn after its ID. *)
Definition acceptance (w : world ControlPlane) (identity : EndpointIdentity)
    (o : Observation) (corr : uuid) : AuditEvent :=
  mkAuditEvent (rng w 1) (ob_received_at o) (py "endpoint_identity")
    (uuid_str (ei_identity_id identity)) (py "endpoint:" ++ uuid_str (ei_endpoint_id identity))
    (ob_observation_type o ++ py ".ingest") (py "accepted")
    (py "message contract and authorization checks passed") corr
    (py_sorted pair_leb
       [(py "message_id", uuid_str (ob_message_id o));
        (py "payload_digest", ob_payload_digest o);
        (py "sequence", int_str (ob_sequence o))]).

(** An accepted message of type [ty]: the observation is recorded, the endpoint
refreshed and the acceptance audited; nothing else changes. *)
Inductive accepted (w : world ControlPlane) (aid : uuid) (env : MessageEnvelope)
    (received : datetime) (ty : pystr) (schema : Z) (digest : pystr)
    (w' : world ControlPlane) (o : Observation) : Prop :=
| Accepted identity ep ep' :
    authorized (store w) aid env received identity →
    cp_endpoints (store w) !! ei_endpoint_id identity = Some ep →
    o = mkObservation (rng w 0) (ei_endpoint_id identity) (me_message_id env) ty schema
          (me_created_at env) received (me_boot_id env) (me_sequence env) digest None →
    Observation_post_init o = Ok tt →
    endpoint_after o ep ep' →
    w' = World (append_audit (acceptance w identity o (me_correlation_id env))
           (accept_store aid o ep' (store w))) (λ n, rng w (S (S n))) →
    accepted w aid env received ty schema digest w' o.

Lemma later_instant received last :
  instant (later received last) =
  from_option (Z.max (instant received)) (instant received) (instant <$> last).
Proof. unfold later. rw instant_dt_max. destruct last; simpl; lia. Qed.

Lemma later_aware received last :
  aware received = true → (∀ t, last = Some t → aware t = true) →
  aware (later received last) = true.
Proof. unfold later, dt_max. destruct last; simpl; case_match; naive_solver. Qed.

Lemma wf_endpoint_of c aid identity :
  cp_wf c → cp_identities c !! aid = Some identity →
  ∃ ep, cp_endpoints c !! ei_endpoint_id identity = Some ep ∧
    Endpoint_post_init ep = Ok tt ∧ ep_endpoint_id ep = ei_endpoint_id identity.
Proof.
  intros Hwf Hid. destruct (wf_identity c Hwf _ _ Hid) as (_ & _ & ep & Hep & _).
  destruct (wf_endpoint c Hwf _ _ Hep) as (? & ? & _). eauto.
Qed.

Lemma observation_valid oid eid mid ty sv src rcv boot seq digest :
  aware src = true → aware rcv = true → fullmatch_sha256 digest = true →
  Observation_post_init (mkObservation oid eid mid ty sv src rcv boot seq digest None) = Ok tt.
Proof.
  intros Hs Hr Hd. pose proof (new_Observation_Ok oid eid mid ty sv src rcv boot seq digest Hs Hr Hd) as H.
  unfold new_Observation in H. by apply result_seq_Ok in H as [-> _].
Qed.

Lemma ingest_heartbeat_spec aid m received w :
  cp_wf (store w) → aware (me_created_at (hm_envelope m)) = true →
  wp (ingest_heartbeat aid m received)
    (λ w' r, match r with
       | Ok o => accepted w aid (hm_envelope m) received (py "heartbeat") 1
                   (HeartbeatPayload_digest (hm_payload m)) w' o
       | Raise e =>
         refused w aid (hm_envelope m) received (py "heartbeat.ingest") w' e ∧
         authorize aid (hm_envelope m) received (py "heartbeat.ingest") w = (w', Raise e)
       end) w.
Proof.
  intros Hwf Hsrc. unfold ingest_heartbeat. rw wp_bind.
  eapply wp_mono; [apply wp_eq, authorize_spec|].
  intros w1 [identity|e] [Hpost Heq]; [|by unfold authorize; rw Heq].
  destruct Hpost as (-> & Hrcv & Hauth). rw wp_bind wp_uuid4.
  rw wp_bind wp_lift new_Observation_Ok //; [|apply canonical_digest_shape].
  rw wp_bind. unfold _accept_message. rw wp_upd wp_bind wp_get.
  destruct (wf_endpoint_of _ _ _ Hwf (au_identity _ _ _ _ _ Hauth)) as (ep & Hep & Hepok & Hepid).
  rw wp_bind wp_lift. unfold get_endpoint. simpl. rw Hep wp_bind wp_lift.
  pose proof (proj1 (Endpoint_post_init_Ok ep) Hepok) as (_ & _ & _ & Har & Hah).
  destruct (replace_endpoint_Ok ep (Some (later received (ep_last_receipt_at ep)))
    (Some (later received (ep_last_heartbeat_at ep)))) as (ep' & -> & Hok' & Hep');
    [done|intros t [= <-]; by apply later_aware..|].
  rw wp_bind wp_upd wp_bind. unfold _audit_acceptance. rw wp__audit wp_ret.
  eapply (Accepted _ _ _ _ _ _ _ _ _ identity ep ep' Hauth Hep);
    [done|by apply observation_valid, canonical_digest_shape| |by rw /audited /= Hepid].
  subst ep'. split; simpl; rw ?later_instant //. by rw !later_newest.
Qed.

(** Does the inventory describe the platform the endpoint enrolled with? *)
Definition binding_matches (p : InventoryPayload) (ep : Endpoint) : Prop :=
  ip_platform p = ep_platform ep ∧ ip_architecture p = ep_architecture ep.

Lemma ingest_inventory_spec aid m received w :
  cp_wf (store w) → aware (me_created_at (im_envelope m)) = true →
  wp (ingest_inventory aid m received)
    (λ w' r, match r with
       | Ok o => accepted w aid (im_envelope m) received (py "inventory")
                   (ip_schema_version (im_payload m)) (InventoryPayload_digest (im_payload m)) w' o ∧
                 ∃ ep, cp_endpoints (store w) !! me_endpoint_id (im_envelope m) = Some ep ∧
                   binding_matches (im_payload m) ep
       | Raise e =>
         refused w aid (im_envelope m) received (py "inventory.ingest") w' e ∧
         ((authorize aid (im_envelope m) received (py "inventory.ingest") w).2 = Raise e ∨
          ∃ ep, cp_endpoints (store w) !! me_endpoint_id (im_envelope m) = Some ep ∧
            ¬ binding_matches (im_payload m) ep)
       end) w.
Proof.
  intros Hwf Hsrc. unfold ingest_inventory. rw wp_bind.
  eapply wp_mono; [apply wp_eq, authorize_spec|].
  intros w1 [identity|e] [Hpost Heq]; [|unfold authorize; rw Heq; by auto].
  destruct Hpost as (-> & Hrcv & Hauth). rw wp_bind. rw wp_get.
  destruct (wf_endpoint_of _ _ _ Hwf (au_identity _ _ _ _ _ Hauth)) as (ep & Hep & Hepok & Hepid).
  rw wp_bind wp_lift. unfold get_endpoint. rw Hep wp_bind.
  destruct (_ || _) eqn:Hbind.
  { rw wp__reject. split.
    - right. do 2 eexists. split; [done|]. rw !elem_of_cons. auto.
    - right. exists ep. rw (au_endpoint _ _ _ _ _ Hauth). split; [done|]. intros [Hp Ha].
      apply orb_true_iff in Hbind as [H|H]; by apply bool_decide_eq_true in H. }
  checks_in Hbind. destruct Hbind as [Hpl Har0]. rw wp_ret wp_bind wp_uuid4.
  rw wp_bind wp_lift new_Observation_Ok //; [|apply canonical_digest_shape].
  rw wp_bind. unfold _accept_message. rw wp_upd wp_bind wp_lift.
  pose proof (proj1 (Endpoint_post_init_Ok ep) Hepok) as (_ & _ & _ & Har & Hah).
  destruct (replace_endpoint_Ok ep (Some (later received (ep_last_receipt_at ep)))
    (ep_last_heartbeat_at ep)) as (ep' & -> & Hok' & Hep');
    [done|intros t [= <-]; by apply later_aware|done|].
  rw wp_bind wp_upd wp_bind. unfold _audit_acceptance. rw wp__audit wp_ret.
  split; last first.
  { exists ep. rw (au_endpoint _ _ _ _ _ Hauth). split; [done|].
    split; [by destruct (decide (ip_platform (im_payload m) = ep_platform ep))
           |by destruct (decide (ip_architecture (im_payload m) = ep_architecture ep))]. }
  eapply (Accepted _ _ _ _ _ _ _ _ _ identity ep ep' Hauth Hep);
    [done|by apply observation_valid, canonical_digest_shape| |by rw /audited /= Hepid].
  subst ep'. split; simpl; rw ?later_instant //. by rw !later_newest.
Qed.

Lemma accepted_wf w aid env received ty schema digest w' o :
  cp_wf (store w) → accepted w aid env received ty schema digest w' o → cp_wf (store w').
Proof.
  intros Hwf [identity ep ep' Hauth Hep -> Hobs Hafter ->]. simpl.
  apply cp_wf_audit. destruct Hauth. by eapply cp_wf_accept.
Qed.

Lemma refused_wf w aid env received action w' e :
  cp_wf (store w) → refused w aid env received action w' e → cp_wf (store w').
Proof. intros Hwf [[-> _]|(? & ? & -> & _)]; [done|]. by apply cp_wf_audit. Qed.

(** ** Revocation *)
Definition revocation_audit (w : world ControlPlane) (n : nat) (i : uuid) (actor : pystr)
    (now : datetime) (decision why : pystr) (corr : uuid) : AuditEvent :=
  mkAuditEvent (rng w n) now (py "operator") actor (py "identity:" ++ uuid_str i)
    (py "identity.revoke") decision why corr [].

(** Everything [revoke_identity] may do. *)
Inductive revoke_outcome (w : world ControlPlane) (i : uuid) (reason : pystr)
    (now : datetime) : world ControlPlane → result EndpointIdentity → Prop :=
| revoke_again id a k :
    cp_identities (store w) !! i = Some id → is_Some (ei_revoked_at id) →
    ae_decision a = py "no_change" →
    revoke_outcome w i reason now (World (append_audit a (store w)) k) (Ok id)
| revoke_first id id' a k :
    cp_identities (store w) !! i = Some id → ei_revoked_at id = None →
    id' = mkIdentity (ei_identity_id id) (ei_endpoint_id id) (ei_fingerprint id)
            (ei_created_at id) REVOKED (Some now) (Some reason) →
    EndpointIdentity_post_init id' = Ok tt → ae_decision a = py "accepted" →
    revoke_outcome w i reason now
      (World (append_audit a (set_identity i id' (store w))) k) (Ok id')
| revoke_error e k :
    revoke_outcome w i reason now (World (store w) k) (Raise e).

Lemma revoke_identity_spec i reason actor now corr w :
  wp (revoke_identity i reason actor now corr) (revoke_outcome w i reason now) w.
Proof.
  assert (∀ e, revoke_outcome w i reason now w (Raise e)) as Herr.
  { intros e. pose proof (revoke_error w i reason now e (rng w)) as H. by destruct w. }
  unfold revoke_identity. rw wp_bind wp_lift.
  destruct (require_aware _ _); [|by apply Herr]. rw wp_bind wp_lift.
  destruct (raise_if _ _); [|by apply Herr]. rw wp_bind wp_get wp_bind wp_lift.
  unfold get_identity. destruct (cp_identities (store w) !! i) as [id|] eqn:Hid; [|by apply Herr].
  rw wp_bind.
  assert (∀ k corr', wp (if bool_decide (is_Some (ei_revoked_at id)) then
      _audit now (py "operator") actor (py "identity:" ++ uuid_str i) (py "identity.revoke")
        (py "no_change") (py "identity already revoked") corr' [];; mret id
    else revoked ← lift (replace_identity id REVOKED (Some now) (Some reason));
      upd (set_identity i revoked);;
      _audit now (py "operator") actor (py "identity:" ++ uuid_str i) (py "identity.revoke")
        (py "accepted") reason corr' [];; mret revoked)
    (revoke_outcome w i reason now) (World (store w) k)) as Hrest; last first.
  { destruct corr as [u|]; [|by apply Hrest]. rw wp_ret.
    specialize (Hrest (rng w) u). by destruct w. }
  intros k corr'. case_bool_decide as Hrev.
  { rw wp_bind wp__audit wp_ret. by eapply (revoke_again w i reason now id). }
  rw wp_bind wp_lift. unfold replace_identity, new_EndpointIdentity.
  destruct (EndpointIdentity_post_init _) as [[]|e] eqn:Hpost; [|by apply (revoke_error w i reason now)].
  eapply (revoke_first w i reason now id); [done| |done..].
  destruct (ei_revoked_at id); [|done]. destruct Hrev. by eexists.
Qed.

Lemma cp_wf_revoke c i id now reason :
  cp_wf c → cp_identities c !! i = Some id → ei_revoked_at id = None →
  let id' := mkIdentity (ei_identity_id id) (ei_endpoint_id id) (ei_fingerprint id)
               (ei_created_at id) REVOKED (Some now) (Some reason) in
  EndpointIdentity_post_init id' = Ok tt → cp_wf (set_identity i id' c).
Proof.
  intros Hwf Hid Hnone id' Hpost. split; simpl; try apply Hwf.
  - intros j jd [[<- <-]|[? Hj]]%lookup_insert_Some; [|by apply (wf_identity c Hwf)].
    destruct (wf_identity c Hwf _ _ Hid) as (? & _ & ?). done.
  - intros e ep Hep. destruct (wf_endpoint c Hwf _ _ Hep) as (? & ? & jd & Hjd & Hje).
    split_and!; [done..|]. destruct (decide (i = ep_identity_id ep)) as [->|].
    + exists id'. rw lookup_insert_eq. simplify_eq/=. done.
    + exists jd. by rw lookup_insert_ne.
  - intros f j. rw (wf_fingerprint c Hwf). destruct (decide (i = j)) as [->|].
    + rw lookup_insert_eq Hid. unfold id'. naive_solver.
    + by rw lookup_insert_ne.
Qed.

(** ** Enrollment *)

(** What a successful enrollment stores. *)
Definition enroll_store (eid iid : uuid) (identity : EndpointIdentity) (endpoint : Endpoint)
    (c : ControlPlane) : ControlPlane :=
  set_fingerprint (ei_fingerprint identity) iid
    (set_endpoint eid endpoint (set_identity iid identity c)).

Inductive enroll_outcome (w : world ControlPlane) (name : pystr) (platform : Platform)
    (arch fp : pystr) (now : datetime) :
    world ControlPlane → result (Endpoint * EndpointIdentity) → Prop :=
| enroll_ok identity endpoint a k :
    cp_fingerprints (store w) !! fp = None →
    identity = mkIdentity (rng w 1) (rng w 0) fp now ACTIVE None None →
    endpoint = mkEndpoint (rng w 0) name platform arch (rng w 1) now None None →
    EndpointIdentity_post_init identity = Ok tt → Endpoint_post_init endpoint = Ok tt →
    ae_decision a = py "accepted" →
    enroll_outcome w name platform arch fp now
      (World (append_audit a (enroll_store (rng w 0) (rng w 1) identity endpoint (store w))) k)
      (Ok (endpoint, identity))
| enroll_error e k :
    enroll_outcome w name platform arch fp now (World (store w) k) (Raise e).

Lemma enroll_spec name platform arch fp now actor w :
  wp (enroll_synthetic_endpoint name platform arch fp now actor)
    (enroll_outcome w name platform arch fp now) w.
Proof.
  assert (∀ e, enroll_outcome w name platform arch fp now w (Raise e)) as Herr.
  { intros e. pose proof (enroll_error w name platform arch fp now e (rng w)) as H.
    by destruct w. }
  unfold enroll_synthetic_endpoint. rw wp_bind wp_lift.
  destruct (require_aware _ _); [|by apply Herr]. rw wp_bind wp_get wp_bind wp_lift.
  destruct (raise_if _ _) as [[]|] eqn:Hfp; [|by apply Herr]. checks_in Hfp.
  rw wp_bind wp_uuid4 wp_bind wp_uuid4 wp_bind wp_lift /=. unfold new_EndpointIdentity.
  destruct (EndpointIdentity_post_init _) as [[]|] eqn:Hi; [|apply (enroll_error w)].
  rw /= wp_bind wp_lift. unfold new_Endpoint.
  destruct (Endpoint_post_init _) as [[]|] eqn:He; [|apply (enroll_error w)].
  rw /= wp_bind wp_upd wp_bind wp_upd wp_bind wp_upd wp_bind wp_uuid4 wp_bind wp__audit wp_ret.
  eapply (enroll_ok w _ _ _ _ _ (mkIdentity (rng w 1) (rng w 0) fp now ACTIVE None None)
    (mkEndpoint (rng w 0) name platform arch (rng w 1) now None None));
    [by apply eq_None_not_Some|done..].
Qed.

(** The two IDs an enrollment draws are unused. *)
Definition uuid4_fresh (w : world ControlPlane) : Prop :=
  cp_endpoints (store w) !! rng w 0 = None ∧ cp_identities (store w) !! rng w 1 = None.

Lemma cp_wf_enroll c eid iid name platform arch fp now :
  cp_wf c → cp_endpoints c !! eid = None → cp_identities c !! iid = None →
  cp_fingerprints c !! fp = None →
  let identity := mkIdentity iid eid fp now ACTIVE None None in
  let endpoint := mkEndpoint eid name platform arch iid now None None in
  EndpointIdentity_post_init identity = Ok tt → Endpoint_post_init endpoint = Ok tt →
  cp_wf (enroll_store eid iid identity endpoint c).
Proof.
  intros Hwf Hne Hni Hnf identity endpoint Hip Hep.
  assert (∀ p, (p = of_endpoint ∨ p = heartbeat_of) → latest (p eid) (cp_observations c) = None) as Hnone.
  { intros p Hp. assert (∀ o, o ∈ cp_observations c → p eid o = false) as Hf.
    { intros o Ho. destruct (wf_observation c Hwf o Ho) as (_ & q & _ & Hq & _).
      destruct Hp as [-> | ->]; unfold heartbeat_of, of_endpoint;
        rw bool_decide_eq_false_2 //; intros ?; simplify_eq. }
    induction (cp_observations c) as [|o obs IH] using rev_ind; [done|].
    rw latest_snoc Hf; [|set_solver]. apply IH. set_solver. }
  split; simpl.
  - intros i id [[<- <-]|[? Hi]]%lookup_insert_Some.
    { split_and!; [done..|]. exists endpoint. by rw lookup_insert_eq. }
    destruct (wf_identity c Hwf _ _ Hi) as (? & ? & q & Hq & ?).
    split_and!; [done..|]. exists q. rw lookup_insert_ne //. congruence.
  - intros e q [[<- <-]|[? Hq]]%lookup_insert_Some.
    { split_and!; [done..|]. exists identity. by rw lookup_insert_eq. }
    destruct (wf_endpoint c Hwf _ _ Hq) as (? & ? & id & Hid & ?).
    split_and!; [done..|]. exists id. rw lookup_insert_ne //. congruence.
  - intros f i. rw !lookup_insert_Some (wf_fingerprint c Hwf).
    destruct (decide (iid = i)) as [<-|].
    + rw lookup_insert_eq Hni. naive_solver.
    + rw lookup_insert_ne //. split; [naive_solver|]. intros (id & Hid & <-). right.
      split; [|by exists id]. intros Hfp.
      assert (cp_fingerprints c !! ei_fingerprint id = Some i) as Hx by (apply (wf_fingerprint c Hwf); eauto).
      unfold identity in Hfp. simpl in Hfp. congruence.
  - intros o Ho. destruct (wf_observation c Hwf o Ho) as (? & q & n & Hq & ? & ?).
    split; [done|]. exists q, n. rw lookup_insert_ne //. congruence.
  - intros i b n Hn. destruct (wf_last c Hwf _ _ _ Hn) as (? & o & q & ? & Hq & ? & ? & ?).
    split; [done|]. exists o, q. rw lookup_insert_ne //. congruence.
  - apply (wf_seen c Hwf).
  - intros e q [[<- <-]|[? Hq]]%lookup_insert_Some; [|by apply wf_receipt].
    simpl. symmetry. apply Hnone. by left.
  - intros e q [[<- <-]|[? Hq]]%lookup_insert_Some; [|by apply wf_heartbeat].
    simpl. symmetry. apply Hnone. by right.
Qed.

(** ** Calls and executions *)
Inductive cp_call :=
| CallEnroll (name : pystr) (platform : Platform) (arch fp : pystr) (now : datetime) (actor : pystr)
| CallHeartbeat (aid : uuid) (m : HeartbeatMessage) (received : datetime)
| CallInventory (aid : uuid) (m : InventoryMessage) (received : datetime)
| CallRevoke (i : uuid) (reason actor : pystr) (now : datetime) (corr : option uuid)
| CallOperatorAccess (actor subject action decision reason : pystr) (corr : uuid)
    (now : datetime) (metadata : list (pystr * pystr)).

Definition cp_exec (call : cp_call) : CP unit :=
  match call with
  | CallEnroll name platform arch fp now actor =>
    enroll_synthetic_endpoint name platform arch fp now actor;; mret tt
  | CallHeartbeat aid m received => ingest_heartbeat aid m received;; mret tt
  | CallInventory aid m received => ingest_inventory aid m received;; mret tt
  | CallRevoke i reason actor now corr => revoke_identity i reason actor now corr;; mret tt
  | CallOperatorAccess actor subject action decision reason corr now metadata =>
    record_operator_access actor subject action decision reason corr now metadata
  end.

(** Message arguments were built by their validating constructor. *)
Definition call_ok (call : cp_call) : Prop :=
  match call with
  | CallHeartbeat _ m _ => envelope_ok (hm_envelope m)
  | CallInventory _ m _ => envelope_ok (im_envelope m)
  | _ => True
  end.

(** One call, whatever its outcome. *)
Definition cp_step (w w' : world ControlPlane) : Prop :=
  ∃ call, call_ok call ∧ uuid4_fresh w ∧ w' = (cp_exec call w).1.

Lemma wp_discard {A} (m : CP A) (Q : world ControlPlane → Prop) w :
  wp m (λ w' _, Q w') w → Q ((m;; mret tt) w).1.
Proof. unfold wp, mbind, M_bind. by destruct (m w) as [w' [a|e]]. Qed.

Lemma operator_access_spec actor subject action decision reason corr now metadata w :
  wp (record_operator_access actor subject action decision reason corr now metadata)
    (λ w' r, (∃ e, r = Raise e ∧ w' = w) ∨
             (∃ a, r = Ok tt ∧ w' = audited a w ∧ ae_actor_type a = py "human_operator" ∧
                ae_decision a = decision ∧ decision ∈ [py "accepted"; py "rejected"])) w.
Proof.
  unfold record_operator_access.
  do 4 (rw wp_bind wp_lift; case_goal; [|simpl; left; eauto]).
  rw wp_bind wp_lift. destruct (raise_if (negb _) _) as [[]|] eqn:Hdec; [|simpl; left; eauto].
  do 2 (rw wp_bind wp_lift; case_goal; [|simpl; left; eauto]).
  rw wp__audit. right. eexists. split_and!; [done..|]. by checks_in Hdec.
Qed.

Lemma envelope_ok_created env : envelope_ok env → aware (me_created_at env) = true.
Proof. rw envelope_ok_spec. by intros [? _]. Qed.

(** Everything one call may do to the object. *)
Inductive cp_effect (w w' : world ControlPlane) : Prop :=
| effect_none : store w' = store w → cp_effect w w'
| effect_audit a : store w' = append_audit a (store w) → cp_effect w w'
| effect_accept aid env received ty schema digest o :
    accepted w aid env received ty schema digest w' o → cp_effect w w'
| effect_revoke i id id' now reason a :
    cp_identities (store w) !! i = Some id → ei_revoked_at id = None →
    id' = mkIdentity (ei_identity_id id) (ei_endpoint_id id) (ei_fingerprint id)
            (ei_created_at id) REVOKED (Some now) (Some reason) →
    EndpointIdentity_post_init id' = Ok tt →
    store w' = append_audit a (set_identity i id' (store w)) → cp_effect w w'
| effect_enroll eid iid name platform arch fp now identity endpoint a :
    cp_endpoints (store w) !! eid = None → cp_identities (store w) !! iid = None →
    cp_fingerprints (store w) !! fp = None →
    identity = mkIdentity iid eid fp now ACTIVE None None →
    endpoint = mkEndpoint eid name platform arch iid now None None →
    EndpointIdentity_post_init identity = Ok tt → Endpoint_post_init endpoint = Ok tt →
    store w' = append_audit a (enroll_store eid iid identity endpoint (store w)) →
    cp_effect w w'.

Lemma refused_effect w aid env received action w' e :
  refused w aid env received action w' e → cp_effect w w'.
Proof.
  intros [[-> _]|(? & ? & -> & _)]; [by apply effect_none|by eapply effect_audit].
Qed.

Lemma cp_step_effect w w' : cp_step w w' → cp_wf (store w) → cp_effect w w'.
Proof.
  intros (call & Hok & [Hf0 Hf1] & ->) Hwf. destruct call; simpl in *.
  - apply (wp_discard _ (cp_effect w)). eapply wp_mono; [apply enroll_spec|].
    intros w1 r [identity endpoint a k ? Hi He ? ? _|e k]; [|by apply effect_none].
    by eapply (effect_enroll w _ (rng w 0) (rng w 1)).
  - apply (wp_discard _ (cp_effect w)).
    eapply wp_mono; [apply ingest_heartbeat_spec; [done|by apply envelope_ok_created]|].
    intros w1 [o|e]; [intros ?; by eapply effect_accept|intros [? _]; by eapply refused_effect].
  - apply (wp_discard _ (cp_effect w)).
    eapply wp_mono; [apply ingest_inventory_spec; [done|by apply envelope_ok_created]|].
    intros w1 [o|e] [? _]; [by eapply effect_accept|by eapply refused_effect].
  - apply (wp_discard _ (cp_effect w)). eapply wp_mono; [apply revoke_identity_spec|].
    intros w1 r [id a k _ _ _|id id' a k Hid Hn Hid' Hp _|e k];
      [by eapply effect_audit|by eapply (effect_revoke w _ i id id')|by apply effect_none].
  - eapply (wp_mono _ _ (λ w' _, cp_effect w w')); [apply operator_access_spec|].
    intros w1 r [(e & _ & ->)|(a & _ & -> & _)]; [by apply effect_none|by eapply effect_audit].
Qed.

Lemma cp_step_wf w w' : cp_step w w' → cp_wf (store w) → cp_wf (store w').
Proof.
  intros Hs Hwf. destruct (cp_step_effect w w' Hs Hwf)
    as [-> |a -> |???????|i id id' now reason a Hid Hn -> Hp ->
       |eid iid name pl arch fp now identity endpoint a ??? -> -> ?? ->];
    rw ?cp_wf_audit; [done..|by eapply accepted_wf|by apply cp_wf_revoke|by apply cp_wf_enroll].
Qed.

Lemma cp_run_wf w w' : rtc cp_step w w' → cp_wf (store w) → cp_wf (store w').
Proof. induction 1; eauto using cp_step_wf. Qed.
