(* ===== verification/ControlPlaneRefinement.v ===== *)
(** * The in-memory control plane refines the message ledger

[cp_abs] relates the object's dictionaries to a ledger; every call is matched
by ledger steps, which discharges the interface [LedgerImpl] of [Ledger.v]. *)
From stdpp Require Import prelude strings gmap sorting pretty ssreflect relations.
From S2P Require Import Prelude Uuid PyTime Json Domain Ledger ControlPlane ControlPlaneProofs.

Set Warnings "-clear-no-such-hyp".

(** ** The abstraction *)
Definition entry_of (c : ControlPlane) (en : entry) (o : Observation) : Prop :=
  en_endpoint en = ob_endpoint_id o ∧ en_message en = ob_message_id o ∧
  en_boot en = ob_boot_id o ∧ en_sequence en = ob_sequence o ∧
  ∃ id, cp_identities c !! en_identity en = Some id ∧ ei_endpoint_id id = ob_endpoint_id o.

Record cp_abs (c : ControlPlane) (l : ledger) : Prop := {
  abs_bound : lg_bound l = ei_endpoint_id <$> cp_identities c;
  abs_revoked i : i ∈ lg_revoked l ↔
    ∃ id, cp_identities c !! i = Some id ∧ is_Some (ei_revoked_at id);
  abs_entries : Forall2 (entry_of c) (lg_entries l) (cp_observations c);
}.

Definition cp_rel (w : world ControlPlane) (l : ledger) : Prop :=
  cp_wf (store w) ∧ cp_abs (store w) l.

Lemma cp_rel_empty k : cp_rel (World empty_control_plane k) empty_ledger.
Proof.
  split; [apply cp_wf_empty|]. split; simpl; [by rw fmap_empty| |constructor].
  intros i. rw lookup_empty. set_solver.
Qed.

Lemma abs_messages c l :
  cp_abs c l → en_message <$> lg_entries l = ob_message_id <$> cp_observations c.
Proof.
  intros [_ _ Hf]. induction Hf as [|en o ens os (_ & Hm & _) _ IH]; [done|].
  by rw !fmap_cons Hm IH.
Qed.

Lemma abs_audit a c l : cp_abs c l → cp_abs (append_audit a c) l.
Proof. intros [???]. by split. Qed.

(** Entries survive any change that keeps the identities' endpoints. *)
Lemma abs_entries_mono c c' l os :
  Forall2 (entry_of c) l os →
  (∀ i id, cp_identities c !! i = Some id →
     ∃ id', cp_identities c' !! i = Some id' ∧ ei_endpoint_id id' = ei_endpoint_id id) →
  Forall2 (entry_of c') l os.
Proof.
  intros Hf Hm. eapply Forall2_impl; [exact Hf|].
  intros en o (? & ? & ? & ? & id & Hid & He). split_and!; [done..|].
  destruct (Hm _ _ Hid) as (id' & ? & ?). exists id'. split; [done|congruence].
Qed.

Lemma Forall2_in_l {A B} (R : A → B → Prop) l k x :
  Forall2 R l k → x ∈ l → ∃ y, y ∈ k ∧ R x y.
Proof. induction 1; set_solver. Qed.

(** An accepted message is one ledger step. *)
Lemma abs_accepted w aid env received ty schema digest w' o l :
  cp_rel w l → accepted w aid env received ty schema digest w' o →
  ∃ l', ledger_step l l' ∧ cp_rel w' l'.
Proof.
  intros [Hwf Habs] Hacc. pose proof (accepted_wf _ _ _ _ _ _ _ _ _ Hwf Hacc) as Hwf'.
  destruct Hacc as [identity ep ep' Hauth Hep -> Hobs Hafter ->]. destruct Hauth.
  set (en := mkEntry aid (ei_endpoint_id identity) (me_message_id env) (me_boot_id env)
               (me_sequence env)).
  eexists. split; [apply (step_accept l en)|]; simpl.
  - by rw (abs_bound _ _ Habs) lookup_fmap au_identity.
  - rw (abs_revoked _ _ Habs) au_identity. intros (? & [= <-] & Hs). rw au_active in Hs.
    by apply is_Some_None in Hs.
  - by rw (abs_messages _ _ Habs) -(wf_seen _ Hwf).
  - intros en' Hin [Hsi Hsb]. simpl in *.
    destruct (Forall2_in_l _ _ _ _ (abs_entries _ _ Habs) Hin) as (o' & Ho' & Heq).
    destruct Heq as (? & ? & Hb & Hs & id & Hid & He).
    destruct (wf_observation _ Hwf _ Ho') as (_ & q & n & Hq & Hn & Hle).
    rw Hsi au_identity in Hid. injection Hid as <-.
    destruct (wf_identity _ Hwf _ _ au_identity) as (_ & _ & q' & Hq' & Hqi).
    rw He Hq in Hq'. injection Hq' as <-. rw Hqi -Hb Hsb in Hn. rw Hn /= in au_sequence.
    rw Hs. lia.
  - split; [done|]. split; simpl; [apply Habs..|]. apply Forall2_app.
    + eapply abs_entries_mono; [apply Habs|]. simpl. eauto.
    + constructor; [|constructor]. split_and!; [done..|]. simpl. eauto.
Qed.

Lemma abs_refused w aid env received action w' e l :
  cp_rel w l → refused w aid env received action w' e → cp_rel w' l.
Proof.
  intros [Hwf Habs] [[-> _]|(? & ? & -> & _)]; [done|].
  split; [by apply cp_wf_audit|by apply abs_audit].
Qed.

(** Revoking an identity for the first time is one ledger step. *)
Lemma abs_revoke c l i id id' :
  cp_abs c l → cp_identities c !! i = Some id → ei_endpoint_id id' = ei_endpoint_id id →
  is_Some (ei_revoked_at id') →
  cp_abs (set_identity i id' c)
    (mkLedger (lg_bound l) ({[i]} ∪ lg_revoked l) (lg_entries l)).
Proof.
  intros [Hb Hr He] Hid Heid Hrev. split; simpl.
  - rw Hb fmap_insert Heid insert_id //. by rw lookup_fmap Hid.
  - intros j. rw elem_of_union elem_of_singleton Hr.
    destruct (decide (i = j)) as [<-|]; [rw lookup_insert_eq; naive_solver|].
    rw lookup_insert_ne //. naive_solver.
  - eapply abs_entries_mono; [exact He|]. intros j jd Hj. simpl.
    destruct (decide (i = j)) as [<-|]; [|exists jd; by rw lookup_insert_ne].
    exists id'. rw lookup_insert_eq. split; congruence.
Qed.

(** A successful enrollment is one ledger step. *)
Lemma abs_enroll c l eid iid identity endpoint :
  cp_abs c l → cp_identities c !! iid = None → ei_endpoint_id identity = eid →
  ei_revoked_at identity = None →
  cp_abs (enroll_store eid iid identity endpoint c)
    (mkLedger (<[iid := eid]> (lg_bound l)) (lg_revoked l) (lg_entries l)).
Proof.
  intros [Hb Hr He] Hid Heid Hrev. split; simpl.
  - by rw Hb fmap_insert Heid.
  - intros j. rw Hr. destruct (decide (iid = j)) as [<-|]; [|by rw lookup_insert_ne].
    rw lookup_insert_eq Hid. split; [naive_solver|]. intros (? & [= <-] & Hs).
    rw Hrev in Hs. by destruct Hs.
  - eapply abs_entries_mono; [exact He|]. intros j jd Hj. simpl.
    exists jd. rw lookup_insert_ne //. congruence.
Qed.

Abbreviation matched l w' := (∃ l', rtc ledger_step l l' ∧ cp_rel w' l').

Lemma matched_here l w : cp_rel w l → matched l w.
Proof. by exists l. Qed.
Lemma matched_once l l' w : ledger_step l l' → cp_rel w l' → matched l w.
Proof. intros. exists l'. split; [by apply rtc_once|done]. Qed.

#[export] Instance control_plane_ledger : LedgerImpl cp_step cp_rel.
Proof.
  split. intros w w' l Hrel Hstep. pose proof Hrel as [Hwf Habs].
  pose proof (cp_step_wf _ _ Hstep Hwf) as Hwf'.
  destruct (cp_step_effect w w' Hstep Hwf)
    as [Hw|a Hw|? ? ? ? ? ? ? Hacc|i id id' now reason a Hid Hn Hid' Hp Hw
       |eid iid name pl arch fp now identity endpoint a ? Hni ? Hi Hen ?? Hw].
  - apply matched_here. split; by rw Hw.
  - apply matched_here. split; [done|]. rw Hw. by apply abs_audit.
  - destruct (abs_accepted _ _ _ _ _ _ _ _ _ l Hrel Hacc) as (? & ? & ?).
    by eapply matched_once.
  - eapply matched_once; [apply (step_revoke l i); by rw (abs_bound _ _ Habs) lookup_fmap Hid|].
    split; [done|]. rw Hw. apply abs_audit. subst id'. by eapply abs_revoke.
  - eapply matched_once;
      [by apply (step_bind l iid eid); rw (abs_bound _ _ Habs) lookup_fmap Hni|].
    split; [done|]. rw Hw. by apply abs_audit, abs_enroll; subst identity.
Qed.
