(* ===== verification/ControlPlaneTheorems.v ===== *)
(** * Theorems of the in-memory control plane: what holds of every execution,
what each call does on every branch, freshness and paging. *)
From stdpp Require Import prelude strings gmap sorting pretty ssreflect relations.
From S2P Require Import Prelude Uuid PyTime Json Domain Ledger ControlPlane Paging ControlPlaneProofs.
From S2P Require Import ControlPlaneRefinement.

Set Warnings "-clear-no-such-hyp".

(** A fresh object with a random source. *)
Abbreviation start k := (World empty_control_plane k).

(** ** A sample run, on which the witnesses evaluate *)
Module Sample.

Definition t0 : datetime := utc (63900000000 * second).
Definition at_ (s : Z) : datetime := utc (63900000000 * second + s * second).
Definition rng0 : nat → uuid := λ n, uid (1000 + Z.of_nat n).
Definition fp : pystr := py "sha256:" ++ hexn 64 12345.
Definition call_enroll : cp_call :=
  CallEnroll (py "host-1") LINUX (py "amd64") fp t0 (py "operator-1").
Definition envelope (mid seq sent : Z) : MessageEnvelope :=
  mkEnvelope (uid mid) (uid 1000) (uid 7) seq (at_ sent) (at_ (sent + 60)) (uid 8) 1.
Definition heartbeat (mid seq sent : Z) : HeartbeatMessage :=
  mkHeartbeatMessage (envelope mid seq sent) (mkHeartbeatPayload (py "1.0.0") [py "inventory"]).
Definition inventory (mid seq sent : Z) : InventoryMessage :=
  mkInventoryMessage (envelope mid seq sent)
    (mkInventoryPayload LINUX (py "amd64") [(py "kernel", py "6.1")] true 1).

(** Enrolled; then one heartbeat; then revoked. *)
Definition w0 : world ControlPlane := start rng0.
Definition w1 : world ControlPlane := (cp_exec call_enroll w0).1.
Definition call_beat : cp_call := CallHeartbeat (uid 1001) (heartbeat 500 1 10) (at_ 11).
Definition w2 : world ControlPlane := (cp_exec call_beat w1).1.
Definition call_revoke : cp_call :=
  CallRevoke (uid 1001) (py "lost device") (py "operator-1") (at_ 20) None.
Definition w3 : world ControlPlane := (cp_exec call_revoke w2).1.

Lemma step1 : cp_step w0 w1.
Proof. exists call_enroll. split_and!; [done| |done]. by split; vm_compute. Qed.
Lemma step2 : cp_step w1 w2.
Proof. exists call_beat. split_and!; [by vm_compute| |done]. by split; vm_compute. Qed.
Lemma step3 : cp_step w2 w3.
Proof. exists call_revoke. split_and!; [done| |done]. by split; vm_compute. Qed.
Lemma run1 : rtc cp_step w0 w1.
Proof. apply rtc_once, step1. Qed.
Lemma run2 : rtc cp_step w0 w2.
Proof. eapply rtc_r; [apply run1|apply step2]. Qed.
Lemma run3 : rtc cp_step w0 w3.
Proof. eapply rtc_r; [apply run2|apply step3]. Qed.

End Sample.

(** ** Every execution *)

(** Every object reachable from [ControlPlane()] by calls of its public
methods, whatever their arguments and outcomes, satisfies the invariant:
endpoints and identities are in bijection, the fingerprint index is exact,
observations are valid and covered by the sequence table, the replay set is
exactly the accepted message IDs, and the receipt and heartbeat times of each
endpoint are the latest of its accepted observations. *)
Theorem control_plane_invariant k w : rtc cp_step (start k) w → cp_wf (store w).
Proof. intros Hr. by apply (cp_run_wf (start k)), cp_wf_empty. Qed.

Lemma control_plane_invariant_witness :
  length (cp_observations (store Sample.w3)) = 1 ∧ cp_wf (store Sample.w3).
Proof.
  split; [by vm_compute|]. apply (control_plane_invariant Sample.rng0). exact Sample.run3.
Defined.

(** C8: the control plane implements the message ledger: every execution is
matched by an execution of the abstract machine that binds identities, revokes
them and accepts messages. *)
Theorem control_plane_refines_ledger k w :
  rtc cp_step (start k) w → ∃ l, rtc ledger_step empty_ledger l ∧ cp_rel w l.
Proof. intros Hr. apply (impl_sim_star _ _ _ Hr), cp_rel_empty. Qed.

Lemma control_plane_refines_ledger_witness :
  ∃ l, rtc ledger_step empty_ledger l ∧ cp_rel Sample.w3 l.
Proof. apply (control_plane_refines_ledger Sample.rng0). exact Sample.run3. Defined.

(** Observations of one boot of one endpoint. *)
Definition same_boot (a b : Observation) : Prop :=
  ob_endpoint_id a = ob_endpoint_id b ∧ ob_boot_id a = ob_boot_id b.

(** The ledger's sequence order read back on the observations. *)
Lemma abs_sorted c l :
  cp_wf c → cp_abs c l →
  StronglySorted (λ a b, same_stream a b → (en_sequence a < en_sequence b)%Z) (lg_entries l) →
  StronglySorted (λ a b, same_boot a b → (ob_sequence a < ob_sequence b)%Z) (cp_observations c).
Proof.
  intros Hwf [_ _ Hf] Hs. induction Hf as [|en o ens os Heq Hf IH]; [constructor|].
  apply StronglySorted_inv in Hs as [Hs Hall]. constructor; [by apply IH|].
  apply Forall_forall. intros o' Ho' [He Hb].
  destruct (Forall2_in_l (flip (entry_of c)) os ens o') as (en' & Hen' & Heq');
    [by apply Forall2_flip|done|].
  rw Forall_forall in Hall. specialize (Hall en').
  destruct Heq as (_ & _ & Hb1 & <- & id1 & Hid1 & He1).
  destruct Heq' as (_ & _ & Hb2 & <- & id2 & Hid2 & He2).
  apply Hall; [done|]. split; [|congruence].
  destruct (wf_identity c Hwf _ _ Hid1) as (_ & _ & ep1 & Hep1 & <-).
  destruct (wf_identity c Hwf _ _ Hid2) as (_ & _ & ep2 & Hep2 & <-). congruence.
Qed.

(** Replay safety. In every execution no message ID is ever accepted twice
and, within one boot of one endpoint, accepted sequence numbers strictly
increase. *)
Theorem control_plane_replay_safe k w :
  rtc cp_step (start k) w →
  NoDup (ob_message_id <$> cp_observations (store w)) ∧
  StronglySorted (λ a b, same_boot a b → (ob_sequence a < ob_sequence b)%Z)
    (cp_observations (store w)).
Proof.
  intros Hr. destruct (impl_guarantee _ _ _ Hr (cp_rel_empty k) ledger_ok_empty)
    as (l & [Hwf Habs] & (Hnd & Hss & _) & _).
  split; [by rw -(abs_messages _ _ Habs)|by eapply abs_sorted].
Qed.

Lemma control_plane_replay_safe_witness :
  NoDup (ob_message_id <$> cp_observations (store Sample.w3)).
Proof. apply (control_plane_replay_safe Sample.rng0). exact Sample.run3. Defined.

(** How an identity record may change: not at all, or from unrevoked to
revoked with its binding, fingerprint and creation time kept. *)
Definition identity_next (id id' : EndpointIdentity) : Prop :=
  id' = id ∨
  (ei_revoked_at id = None ∧ ei_status id' = REVOKED ∧ is_Some (ei_revoked_at id') ∧
   ei_identity_id id' = ei_identity_id id ∧ ei_endpoint_id id' = ei_endpoint_id id ∧
   ei_fingerprint id' = ei_fingerprint id ∧ ei_created_at id' = ei_created_at id).

#[export] Instance identity_next_preorder : PreOrder identity_next.
Proof.
  split; [by left|]. intros a b c [-> |Hab] [-> |Hbc]; [by left|by right|by right|].
  destruct Hab as (_ & _ & [? Hb] & _), Hbc as (Hn & _). congruence.
Qed.

Lemma cp_step_history w w' :
  cp_step w w' → cp_wf (store w) →
  cp_observations (store w) `prefix_of` cp_observations (store w') ∧
  cp_audit_events (store w) `prefix_of` cp_audit_events (store w') ∧
  (∀ i id, cp_identities (store w) !! i = Some id →
     ∃ id', cp_identities (store w') !! i = Some id' ∧ identity_next id id').
Proof.
  intros Hs Hwf. destruct (cp_step_effect w w' Hs Hwf)
    as [-> |a -> |? ? ? ? ? ? ? [? ? ? ? ? ? ? ? ->]|i id id' now reason a Hid Hn -> Hp ->
       |eid iid name pl arch fp now identity endpoint a ? Hni ? -> -> ?? ->]; simpl;
    (split_and!; [try done; by eexists|try done; by eexists|]); intros j jd Hj.
  1-3: by exists jd.
  - destruct (decide (i = j)) as [<-|]; [|by exists jd; rw lookup_insert_ne].
    eexists. rw lookup_insert_eq. split; [done|]. right. simplify_eq. naive_solver.
  - exists jd. rw lookup_insert_ne; [done|congruence].
Qed.

Lemma cp_run_history w w' :
  rtc cp_step w w' → cp_wf (store w) →
  cp_observations (store w) `prefix_of` cp_observations (store w') ∧
  cp_audit_events (store w) `prefix_of` cp_audit_events (store w') ∧
  (∀ i id, cp_identities (store w) !! i = Some id →
     ∃ id', cp_identities (store w') !! i = Some id' ∧ identity_next id id').
Proof.
  induction 1 as [w|w w1 w2 Hs _ IH]; intros Hwf; [naive_solver|].
  destruct (cp_step_history w w1 Hs Hwf) as (? & ? & Hi).
  destruct IH as (? & ? & Hi'); [by eapply cp_step_wf|].
  split_and!; [by etrans..|]. intros i id Hid.
  destruct (Hi i id Hid) as (id1 & Hid1 & ?). destruct (Hi' i id1 Hid1) as (id2 & ? & ?).
  exists id2. split; [done|by etrans].
Qed.

(** History is append-only. Between any two moments of an execution the
observations and the audit trail only grow at their end, and an identity
record either is unchanged or went from unrevoked to revoked keeping its
binding, fingerprint and creation time. *)
Theorem control_plane_append_only k w w' :
  rtc cp_step (start k) w → rtc cp_step w w' →
  cp_observations (store w) `prefix_of` cp_observations (store w') ∧
  cp_audit_events (store w) `prefix_of` cp_audit_events (store w') ∧
  (∀ i id, cp_identities (store w) !! i = Some id →
     ∃ id', cp_identities (store w') !! i = Some id' ∧ identity_next id id').
Proof.
  intros Hr Hr'. apply cp_run_history; [done|]. apply (cp_run_wf (start k) w Hr), cp_wf_empty.
Qed.

Lemma control_plane_append_only_witness :
  cp_observations (store Sample.w2) `prefix_of` cp_observations (store Sample.w3).
Proof.
  apply (control_plane_append_only Sample.rng0); [exact Sample.run2|].
  apply rtc_once. exact Sample.step3.
Defined.

Lemma entries_of_endpoint c l i id :
  cp_wf c → cp_abs c l → cp_identities c !! i = Some id →
  length (entries_of i l) =
  length (filter (λ o, ob_endpoint_id o = ei_endpoint_id id) (cp_observations c)).
Proof.
  intros Hwf [_ _ Hf] Hid. unfold entries_of.
  induction Hf as [|en o ens os (_ & _ & _ & _ & id' & Hid' & He) _ IH]; [done|].
  rw !filter_cons. case_decide as H1; case_decide as H2; simpl; rw ?IH //.
  - destruct H2. congruence.
  - destruct H1.
    destruct (wf_identity c Hwf _ _ Hid) as (_ & _ & ep1 & Hep1 & <-).
    destruct (wf_identity c Hwf _ _ Hid') as (_ & _ & ep2 & Hep2 & <-). congruence.
Qed.

(** Revocation is final. Once an identity is revoked its record never
changes again and no later call, in any order and by any caller, adds an
observation of its endpoint. *)
Theorem revocation_final k w w' i id :
  rtc cp_step (start k) w → rtc cp_step w w' →
  cp_identities (store w) !! i = Some id → is_Some (ei_revoked_at id) →
  cp_identities (store w') !! i = Some id ∧
  filter (λ o, ob_endpoint_id o = ei_endpoint_id id) (cp_observations (store w')) =
  filter (λ o, ob_endpoint_id o = ei_endpoint_id id) (cp_observations (store w)).
Proof.
  intros Hr Hr' Hid Hrev.
  destruct (impl_guarantee _ _ _ Hr (cp_rel_empty k) ledger_ok_empty) as (l & Hrel & Hok & _).
  destruct (impl_guarantee _ _ _ Hr' Hrel Hok) as (l' & [Hwf' Habs'] & _ & _ & _ & Hfin).
  pose proof Hrel as [Hwf Habs].
  destruct (cp_run_history w w' Hr' Hwf) as ([os Hos] & _ & Hids).
  destruct (Hids i id Hid) as (id' & Hid' & [-> |[Hn _]]); last first.
  { rw Hn in Hrev. by destruct Hrev. }
  split; [done|]. rw Hos filter_app.
  assert (length (filter (λ o, ob_endpoint_id o = ei_endpoint_id id) os) = 0) as Hz.
  { assert (i ∈ lg_revoked l) as Hin by (apply (abs_revoked _ _ Habs); eauto).
    pose proof (entries_of_endpoint _ _ _ _ Hwf Habs Hid) as H1.
    pose proof (entries_of_endpoint _ _ _ _ Hwf' Habs' Hid') as H2.
    rw (Hfin i Hin) Hos filter_app length_app in H2. lia. }
  apply nil_length_inv in Hz. by rw Hz app_nil_r.
Qed.

Lemma revocation_final_witness :
  ∃ id, cp_identities (store Sample.w3) !! uid 1001 = Some id ∧ is_Some (ei_revoked_at id) ∧
    filter (λ o, ob_endpoint_id o = ei_endpoint_id id)
      (cp_observations (store (cp_exec (CallHeartbeat (uid 1001) (Sample.heartbeat 501 2 30)
                                   (Sample.at_ 31)) Sample.w3).1)) =
    filter (λ o, ob_endpoint_id o = ei_endpoint_id id) (cp_observations (store Sample.w3)).
Proof.
  eexists. split_and!; [by vm_compute|by eexists; vm_compute|].
  eapply (revocation_final Sample.rng0 _ _ (uid 1001));
    [exact Sample.run3| |by vm_compute|by eexists; vm_compute].
  apply rtc_once. eexists. split_and!; [|by split; vm_compute|done]. by vm_compute.
Defined.

(** ** Ingestion *)

(** A receipt time the skew check can be computed for. *)
Definition usable (received : datetime) : Prop :=
  aware received = true ∧ dt_in_range (dt_wall received + MAX_CLOCK_SKEW) = true.

Lemma authorize_Raise_not aid env received action e w identity :
  usable received → (authorize aid env received action w).2 = Raise e →
  ¬ authorized (store w) aid env received identity.
Proof.
  intros [Haw Hrg] He Hauth.
  by rw (authorize_complete aid env received action identity w Haw Hrg Hauth) in He.
Qed.

(** C7: heartbeat ingestion, every branch. At a usable receipt time a heartbeat
returns an observation exactly when the message is authorized (known unrevoked
identity bound to the claimed endpoint, creation time within skew, not
expired, unseen ID, sequence above the boot's last one); then the new state is the old one
with the observation appended, the boot's sequence and the replay mark recorded, one audit event
appended, and of the endpoint only its two receipt times moved forward, every other field kept.
Otherwise the call raises the exception of a condition that failed, and the only change is one
rejection event that names this reason. *)
Theorem ingest_heartbeat_correct aid m received w :
  cp_wf (store w) → envelope_ok (hm_envelope m) → usable received →
  let (w', r) := ingest_heartbeat aid m received w in
  match r with
  | Ok o => ∃ identity ep, authorized (store w) aid (hm_envelope m) received identity ∧
      cp_endpoints (store w) !! ei_endpoint_id identity = Some ep ∧
      o = mkObservation (rng w 0) (ei_endpoint_id identity) (me_message_id (hm_envelope m)) (py "heartbeat") 1
            (me_created_at (hm_envelope m)) received (me_boot_id (hm_envelope m)) (me_sequence (hm_envelope m))
            (HeartbeatPayload_digest (hm_payload m)) None ∧
      w' = World (append_audit (acceptance w identity o (me_correlation_id (hm_envelope m)))
             (accept_store aid o (refreshed o ep) (store w))) (λ n, rng w (S (S n)))
  | Raise e =>
      (∃ subject reason, refusal (store w) aid (hm_envelope m) received subject reason e ∧
        w' = World (append_audit (rejection w aid subject (py "heartbeat.ingest") (py reason)
               (me_correlation_id (hm_envelope m)) received) (store w)) (λ n, rng w (S n))) ∧
      ∀ identity, ¬ authorized (store w) aid (hm_envelope m) received identity
  end.
Proof.
  intros Hwf Henv Hus.
  pose proof (ingest_heartbeat_spec aid m received w Hwf (envelope_ok_created _ Henv)) as H.
  unfold wp in H. destruct (ingest_heartbeat aid m received w) as [w' [o|e]]; cbn [fst snd] in H.
  - destruct H as [identity ep ep' Hauth Hep Ho _ Hafter Hw]. exists identity, ep.
    rw (ea_exact _ _ _ Hafter) in Hw. done.
  - destruct H as [_ Ha]. destruct Hus as [Haw Hrg]. split.
    + exact (authorize_refusal _ _ _ _ _ _ _ Haw Hrg Ha).
    + intros identity. eapply (authorize_Raise_not _ _ _ (py "heartbeat.ingest") e w); [by split|by rw Ha].
Qed.

Lemma accepted_endpoints a aid o ep c draws :
  cp_endpoints (store (World (append_audit a (accept_store aid o ep c)) draws)) = <[ob_endpoint_id o := ep]> (cp_endpoints c).
Proof. done. Qed.

Lemma ingest_heartbeat_correct_witness :
  (∃ o, (ingest_heartbeat (uid 1001) (Sample.heartbeat 500 1 10) (Sample.at_ 11) Sample.w1).2 = Ok o) ∧
  ∃ o identity ep, authorized (store Sample.w1) (uid 1001) (Sample.envelope 500 1 10) (Sample.at_ 11) identity ∧
    cp_endpoints (store (ingest_heartbeat (uid 1001) (Sample.heartbeat 500 1 10) (Sample.at_ 11) Sample.w1).1) =
      <[ob_endpoint_id o := refreshed o ep]> (cp_endpoints (store Sample.w1)).
Proof.
  split; [eexists; by vm_compute|].
  pose proof (ingest_heartbeat_correct (uid 1001) (Sample.heartbeat 500 1 10) (Sample.at_ 11) Sample.w1) as H.
  destruct (run_Ok (ingest_heartbeat (uid 1001) (Sample.heartbeat 500 1 10) (Sample.at_ 11)) Sample.w1)
    as (w' & o & Ho); [eexists; by vm_compute|]. rw Ho in H |- *.
  destruct H as (identity & ep & Hauth & _ & _ & ->);
    [apply (cp_run_wf _ _ Sample.run1), cp_wf_empty|by vm_compute|by split; vm_compute|].
  exists o, identity, ep. split; [exact Hauth|]. apply accepted_endpoints.
Defined.

(** Inventory ingestion, every branch. At a usable receipt time an inventory
returns an observation exactly when the message is authorized and describes
the platform and architecture its endpoint enrolled with; every other outcome
records nothing but one rejection event, and in neither case does the
heartbeat time of the endpoint change. *)
Theorem ingest_inventory_correct aid m received w :
  cp_wf (store w) → envelope_ok (im_envelope m) → usable received →
  let (w', r) := ingest_inventory aid m received w in
  match r with
  | Ok o => accepted w aid (im_envelope m) received (py "inventory")
              (ip_schema_version (im_payload m)) (InventoryPayload_digest (im_payload m)) w' o ∧
      ∃ ep, cp_endpoints (store w) !! me_endpoint_id (im_envelope m) = Some ep ∧
        binding_matches (im_payload m) ep
  | Raise e => refused w aid (im_envelope m) received (py "inventory.ingest") w' e ∧
      ∀ identity ep, authorized (store w) aid (im_envelope m) received identity →
        cp_endpoints (store w) !! me_endpoint_id (im_envelope m) = Some ep →
        ¬ binding_matches (im_payload m) ep
  end.
Proof.
  intros Hwf Henv Hus.
  pose proof (ingest_inventory_spec aid m received w Hwf (envelope_ok_created _ Henv)) as H.
  unfold wp in H. destruct (ingest_inventory aid m received w) as [w' [o|e]]; [done|].
  destruct H as [? H]. split; [done|]. intros identity ep Hauth Hep Hb.
  destruct H as [H|(ep' & Hep' & Hn)]; [by eapply authorize_Raise_not|].
  destruct Hn. congruence.
Qed.

Lemma ingest_inventory_correct_witness :
  ∃ o w', ingest_inventory (uid 1001) (Sample.inventory 501 2 12) (Sample.at_ 13) Sample.w2
          = (w', Ok o) ∧
  accepted Sample.w2 (uid 1001) (Sample.envelope 501 2 12) (Sample.at_ 13) (py "inventory") 1
    (InventoryPayload_digest (im_payload (Sample.inventory 501 2 12))) w' o.
Proof.
  pose proof (ingest_inventory_correct (uid 1001) (Sample.inventory 501 2 12) (Sample.at_ 13)
    Sample.w2) as H.
  destruct (run_Ok (ingest_inventory (uid 1001) (Sample.inventory 501 2 12) (Sample.at_ 13))
    Sample.w2) as (w' & o & Ho); [eexists; by vm_compute|].
  exists o, w'. rw Ho in H. split; [done|]. apply H;
    [apply (cp_run_wf _ _ Sample.run2), cp_wf_empty|by vm_compute|by split; vm_compute].
Defined.

Lemma accepted_seen w aid env received ty schema digest w' o :
  accepted w aid env received ty schema digest w' o →
  me_message_id env ∈ ob_message_id <$> cp_observations (store w').
Proof.
  intros [identity ep ep' _ _ -> _ _ ->]. simpl. rw fmap_app. set_solver.
Qed.

Lemma authorize_replay aid env received action identity w :
  usable received → cp_identities (store w) !! aid = Some identity →
  ei_revoked_at identity = None → me_endpoint_id env = ei_endpoint_id identity →
  (instant (me_created_at env) ≤ instant received + MAX_CLOCK_SKEW)%Z →
  (instant received < instant (me_expires_at env))%Z →
  me_message_id env ∈ cp_seen_message_ids (store w) →
  (authorize aid env received action w).2 = Raise (ReplayError (py "message ID replayed")).
Proof.
  intros [Haw Hrange] Hid Hact Hep Hskew Hlive Hseen.
  unfold authorize, _authorize_message, mbind, M_bind, lift, get, gets.
  rw (proj2 (require_aware_Ok received (py "received_at") tt) Haw) Hid Hact.
  rw bool_decide_eq_false_2; [|by intros [? ?]].
  rw bool_decide_eq_false_2; [|by intros ?].
  unfold dt_add. rw Hrange.
  rw (_ : dt_ltb _ _ = false); [|unfold dt_ltb, instant in *; simpl; by destruct (dt_tz received); lia].
  rw (_ : dt_leb _ _ = false); [|unfold dt_leb; lia].
  by rw bool_decide_eq_true_2.
Qed.

(** A message cannot be replayed. Once a message was accepted, presenting
any message with its ID again, at any later point of the execution, by any
identity and even with another sequence number, raises and records no
observation; while the identity is active, the endpoint matches and the
message is live, the error is [ReplayError]. *)
Theorem replayed_message_rejected k w aid env received ty schema digest w1 o w2 aid2 m received2 :
  rtc cp_step (start k) w → accepted w aid env received ty schema digest w1 o →
  rtc cp_step w1 w2 → me_message_id (hm_envelope m) = me_message_id env →
  envelope_ok (hm_envelope m) →
  ∃ e, (ingest_heartbeat aid2 m received2 w2).2 = Raise e ∧
    cp_observations (store (ingest_heartbeat aid2 m received2 w2).1) = cp_observations (store w2) ∧
    ∀ identity, cp_identities (store w2) !! aid2 = Some identity →
      ei_revoked_at identity = None →
      me_endpoint_id (hm_envelope m) = ei_endpoint_id identity → usable received2 →
      (instant (me_created_at (hm_envelope m)) ≤ instant received2 + MAX_CLOCK_SKEW)%Z →
      (instant received2 < instant (me_expires_at (hm_envelope m)))%Z →
      e = ReplayError (py "message ID replayed").
Proof.
  intros Hr Hacc Hr2 Hmid Henv.
  assert (cp_wf (store w)) as Hwf by by apply (cp_run_wf (start k)), cp_wf_empty.
  pose proof (accepted_wf _ _ _ _ _ _ _ _ _ Hwf Hacc) as Hwf1.
  pose proof (cp_run_wf _ _ Hr2 Hwf1) as Hwf2.
  destruct (cp_run_history _ _ Hr2 Hwf1) as ([os Hos] & _).
  pose proof (accepted_seen _ _ _ _ _ _ _ _ _ Hacc) as Hin.
  pose proof (ingest_heartbeat_spec aid2 m received2 w2 Hwf2 (envelope_ok_created _ Henv)) as H.
  assert (me_message_id (hm_envelope m) ∈ cp_seen_message_ids (store w2)) as Hseen.
  { rw (wf_seen _ Hwf2) Hos fmap_app Hmid. set_solver. }
  unfold wp in H. destruct (ingest_heartbeat aid2 m received2 w2) as [w3 [o'|e]]; simpl in *.
  - by destruct H as [identity ? ? [] _ _ _ _ _].
  - destruct H as [Href Hraise%(f_equal snd)]. cbn [snd] in Hraise. exists e. split_and!; [done| |].
    + by destruct Href as [[-> _]|(? & ? & -> & _)].
    + intros identity **. rw (authorize_replay _ _ _ _ identity) // in Hraise. by injection Hraise.
Qed.

Lemma replayed_message_rejected_witness :
  (ingest_heartbeat (uid 1001) (Sample.heartbeat 500 2 15) (Sample.at_ 16) Sample.w2).2
  = Raise (ReplayError (py "message ID replayed")).
Proof.
  assert (∃ o, accepted Sample.w1 (uid 1001) (Sample.envelope 500 1 10) (Sample.at_ 11)
    (py "heartbeat") 1 (HeartbeatPayload_digest (hm_payload (Sample.heartbeat 500 1 10)))
    Sample.w2 o) as [o Hacc].
  { pose proof (ingest_heartbeat_spec (uid 1001) (Sample.heartbeat 500 1 10) (Sample.at_ 11)
      Sample.w1) as H. unfold wp in H.
    destruct (run_Ok (ingest_heartbeat (uid 1001) (Sample.heartbeat 500 1 10) (Sample.at_ 11))
      Sample.w1) as (w' & o & Ho); [eexists; by vm_compute|].
    assert (Sample.w2 = w') as ->.
    { unfold Sample.w2, Sample.call_beat, cp_exec, mbind, M_bind. rw Ho. reflexivity. }
    exists o. rw Ho in H. apply H; [apply (cp_run_wf _ _ Sample.run1), cp_wf_empty|by vm_compute]. }
  destruct (replayed_message_rejected Sample.rng0 _ _ _ _ _ _ _ _ _ Sample.w2 (uid 1001)
    (Sample.heartbeat 500 2 15) (Sample.at_ 16) Sample.run1 Hacc) as (e & He & _ & Hreplay);
    [done|done|by vm_compute|].
  rw He. f_equal. eapply Hreplay; [vm_compute; reflexivity|reflexivity|reflexivity| | |];
    [split|..]; vm_compute; congruence.
Defined.

(** ** Revocation and enrollment *)

(** Revoking twice is the same as revoking once. A revocation that returned
leaves a revoked identity; any later revocation of it, whatever its reason,
time and caller, returns that same record and adds exactly one [no_change]
event. *)
Theorem revoke_identity_idempotent i reason actor now corr w w1 id reason' actor' now' corr' :
  revoke_identity i reason actor now corr w = (w1, Ok id) →
  aware now' = true → empty_or_longer reason' 256 = false →
  is_Some (ei_revoked_at id) ∧ cp_identities (store w1) !! i = Some id ∧
  ∃ a k, revoke_identity i reason' actor' now' corr' w1 =
           (World (append_audit a (store w1)) k, Ok id) ∧ ae_decision a = py "no_change".
Proof.
  intros Hrev Haw Hreason.
  assert (is_Some (ei_revoked_at id) ∧ cp_identities (store w1) !! i = Some id) as [Hs Hl].
  { pose proof (revoke_identity_spec i reason actor now corr w) as H. unfold wp in H.
    rw Hrev in H. simpl in H. inversion H; subst; simpl; [done|].
    split; [by eexists|apply lookup_insert_eq]. }
  split_and!; [done..|]. unfold revoke_identity, mbind, M_bind, lift, get, gets.
  rw (proj2 (require_aware_Ok now' (py "now") tt) Haw) Hreason /=.
  unfold get_identity. rw Hl.
  destruct corr' as [u|]; simpl; rw bool_decide_eq_true_2 //; by do 2 eexists.
Qed.

Lemma revoke_identity_idempotent_witness :
  ∃ id a k,
    revoke_identity (uid 1001) (py "again") (py "operator-2") (Sample.at_ 40) None Sample.w3
    = (World (append_audit a (store Sample.w3)) k, Ok id) ∧ ae_decision a = py "no_change".
Proof.
  destruct (run_Ok (revoke_identity (uid 1001) (py "lost device") (py "operator-1")
    (Sample.at_ 20) None) Sample.w2) as (w' & id & Hrev); [eexists; by vm_compute|].
  assert (Sample.w3 = w') as ->.
  { unfold Sample.w3, Sample.call_revoke, cp_exec, mbind, M_bind. rw Hrev. reflexivity. }
  destruct (revoke_identity_idempotent _ _ _ _ _ _ _ _ (py "again") (py "operator-2")
    (Sample.at_ 40) None Hrev) as (_ & _ & a & k & Heq & Hd); [reflexivity..|].
  exists id, a, k. exact (conj Heq Hd).
Defined.

(** A device key enrolls at most once. In every execution two identities
never share a fingerprint, revoked ones included, and enrolling a known
fingerprint raises without changing anything. *)
Theorem fingerprint_unique k w i j id jd :
  rtc cp_step (start k) w →
  cp_identities (store w) !! i = Some id → cp_identities (store w) !! j = Some jd →
  ei_fingerprint id = ei_fingerprint jd →
  i = j ∧ ∀ name platform arch now actor, aware now = true →
    enroll_synthetic_endpoint name platform arch (ei_fingerprint id) now actor w =
    (w, Raise (verr "fingerprint is already enrolled")).
Proof.
  intros Hr Hi Hj Hf.
  assert (cp_wf (store w)) as Hwf by by apply (cp_run_wf (start k)), cp_wf_empty.
  assert (cp_fingerprints (store w) !! ei_fingerprint id = Some i) as Hfi
    by (apply (wf_fingerprint _ Hwf); eauto).
  assert (cp_fingerprints (store w) !! ei_fingerprint id = Some j) as Hfj
    by (apply (wf_fingerprint _ Hwf); eauto).
  split; [congruence|]. intros name platform arch now actor Haw.
  unfold enroll_synthetic_endpoint, mbind, M_bind, lift, get, gets.
  rw (proj2 (require_aware_Ok now (py "now") tt) Haw) Hfi bool_decide_eq_true_2 //.
Qed.

Lemma fingerprint_unique_witness :
  enroll_synthetic_endpoint (py "other") LINUX (py "amd64") Sample.fp (Sample.at_ 50) (py "op")
    Sample.w3 = (Sample.w3, Raise (verr "fingerprint is already enrolled")).
Proof.
  destruct (cp_identities (store Sample.w3) !! uid 1001) as [id|] eqn:Hid;
    [|exfalso; revert Hid; vm_compute; congruence].
  assert (ei_fingerprint id = Sample.fp) as <-.
  { revert Hid. vm_compute. intros [= <-]. reflexivity. }
  by apply (fingerprint_unique Sample.rng0 Sample.w3 _ _ id id Sample.run3 Hid Hid eq_refl).
Defined.

(** ** Freshness *)

(** How bad a health value is. *)
Definition severity (h : EndpointHealth) : nat :=
  match h with ONLINE => 0 | STALE => 1 | OFFLINE => 2 end.

Lemma derive_health_spec p now last :
  derive_health p now last =
  match instant <$> last with
  | None => OFFLINE
  | Some t =>
    if (Z.max (instant now - t) 0 <=? online_for p)%Z then ONLINE
    else if (Z.max (instant now - t) 0 <=? stale_for p)%Z then STALE else OFFLINE
  end.
Proof. by destruct last. Qed.

Lemma derive_health_mono p now now' last :
  (online_for p < stale_for p)%Z → (instant now ≤ instant now')%Z →
  severity (derive_health p now last) ≤ severity (derive_health p now' last).
Proof.
  intros Hp Hn. rw !derive_health_spec. destruct last as [t|]; simpl; [|done].
  repeat (case_match; simpl in *; try lia).
Qed.

(** Health is server receipt time only, and only decays. In every execution
the health of a known endpoint at an aware time is decided by the age of the
latest accepted heartbeat of that endpoint, by the server's receipt clock
(online up to [online_for], stale up to [stale_for], offline beyond or without
a heartbeat); endpoint clocks and inventories play no part. Asking later
without new messages never yields a better health. *)
Theorem endpoint_status_freshness k w e ep now now' policy :
  rtc cp_step (start k) w → cp_endpoints (store w) !! e = Some ep →
  aware now = true → aware now' = true → (instant now ≤ instant now')%Z →
  (∀ p, policy = Some p → FreshnessPolicy_post_init p = Ok tt) →
  ∃ st st', endpoint_status (store w) e now policy = Ok st ∧
    endpoint_status (store w) e now' policy = Ok st' ∧
    severity (es_health st) ≤ severity (es_health st') ∧
    es_health st =
      match latest (heartbeat_of e) (cp_observations (store w)) with
      | None => OFFLINE
      | Some t =>
        let p := default default_FreshnessPolicy policy in
        if (Z.max (instant now - t) 0 <=? online_for p)%Z then ONLINE
        else if (Z.max (instant now - t) 0 <=? stale_for p)%Z then STALE else OFFLINE
      end.
Proof.
  intros Hr Hep Haw Haw' Hle Hpol.
  assert (cp_wf (store w)) as Hwf by by apply (cp_run_wf (start k)), cp_wf_empty.
  destruct (wf_endpoint _ Hwf _ _ Hep) as (_ & _ & id & Hid & _).
  unfold endpoint_status, get_endpoint, get_identity, mbind, result_bind.
  rw (proj2 (require_aware_Ok now (py "now") tt) Haw) Hep Hid.
  rw (proj2 (require_aware_Ok now' (py "now") tt) Haw').
  do 2 eexists. split_and!; [done..| |]; simpl.
  - apply derive_health_mono; [|done]. destruct policy as [p|]; [|done]. simpl.
    specialize (Hpol p eq_refl). unfold FreshnessPolicy_post_init in Hpol. checks_in Hpol. lia.
  - by rw derive_health_spec (wf_heartbeat _ Hwf _ _ Hep).
Qed.

Lemma endpoint_status_freshness_witness :
  ∃ st st', endpoint_status (store Sample.w2) (uid 1000) (Sample.at_ 101) None = Ok st ∧
    endpoint_status (store Sample.w2) (uid 1000) (Sample.at_ 102) None = Ok st' ∧
    severity (es_health st) ≤ severity (es_health st').
Proof.
  destruct (cp_endpoints (store Sample.w2) !! uid 1000) as [ep|] eqn:Hep;
    [|exfalso; revert Hep; vm_compute; congruence].
  destruct (endpoint_status_freshness Sample.rng0 Sample.w2 (uid 1000) ep (Sample.at_ 101)
    (Sample.at_ 102) None Sample.run2 Hep) as (st & st' & H1 & H2 & H3 & _);
    [reflexivity|reflexivity|vm_compute; congruence|congruence|].
  exists st, st'. exact (conj H1 (conj H2 H3)).
Defined.

(** ** Paging *)

Lemma endpoint_values_distinct c : cp_wf c → distinct_ids (endpoint_values c).
Proof.
  intros Hwf. unfold distinct_ids, endpoint_values.
  rw (_ : ep_endpoint_id <$> (map_to_list (cp_endpoints c)).*2
          = (map_to_list (cp_endpoints c)).*1); [apply NoDup_fst_map_to_list|].
  rw -list_fmap_compose. apply list_fmap_ext. intros i [k ep] Hk. simpl.
  apply list_elem_of_lookup_2, elem_of_map_to_list in Hk.
  by destruct (wf_endpoint c Hwf k ep Hk) as [-> _].
Qed.

(** Ordering by ID text and by ID value is the same. *)
Lemma list_endpoints_by_id c :
  cp_wf c → list_endpoints c = py_sorted endpoint_id_leb (endpoint_values c).
Proof.
  intros Hwf. symmetry. apply sorted_unique.
  - by apply distinct_ids_sorted, endpoint_values_distinct.
  - apply py_sorted_sorted.
  - unfold list_endpoints.
    assert (StronglySorted (rel_of endpoint_str_leb)
      (py_sorted endpoint_str_leb (endpoint_values c))) as Hs.
    { apply @py_sorted_sorted. exact (cmp_on (cmp := str_leb) (λ e, uuid_str (ep_endpoint_id e))). }
    revert Hs. generalize (py_sorted endpoint_str_leb (endpoint_values c)). intros l.
    induction 1 as [|x l Hs IH Hall]; constructor; [done|].
    eapply Forall_impl; [exact Hall|]. intros y.
    unfold rel_of, endpoint_str_leb, endpoint_id_leb. by rw uuid_str_leb.
  - unfold list_endpoints. by rw !py_sorted_perm.
Qed.

(** Paging is complete. In every execution, for every page size the code
accepts, following pages from the start (each after the last endpoint of the
previous one) until an empty page yields exactly [list_endpoints]: every
endpoint once, in the same order, although one routine orders by the text of
the ID and the other by its value. *)
Theorem pages_cover_list k w limit n :
  rtc cp_step (start k) w → (1 ≤ limit ≤ 1000)%Z → size (cp_endpoints (store w)) < n →
  follow_pages (λ after, list_endpoint_page (store w) after limit) n None
  = Ok (list_endpoints (store w)).
Proof.
  intros Hr Hl Hn.
  assert (cp_wf (store w)) as Hwf by by apply (cp_run_wf (start k)), cp_wf_empty.
  rw list_endpoints_by_id //. apply (follow_pages_all _ limit).
  - by apply endpoint_values_distinct.
  - lia.
  - intros after. unfold list_endpoint_page. rw (_ : _ && _ = true) //. lia.
  - unfold endpoint_values. by rw length_fmap length_map_to_list.
Qed.

Lemma pages_cover_list_witness :
  follow_pages (λ after, list_endpoint_page (store Sample.w3) after 1) 5 None
  = Ok (list_endpoints (store Sample.w3)).
Proof.
  apply (pages_cover_list Sample.rng0); [exact Sample.run3|lia|vm_compute; lia].
Defined.

(** The page size the code refuses. *)
Lemma list_endpoint_page_limit c after limit :
  (limit < 1 ∨ 1000 < limit)%Z →
  list_endpoint_page c after limit = Raise (verr "endpoint page limit is invalid").
Proof. intros Hl. unfold list_endpoint_page. rw (_ : _ && _ = false) //. lia. Qed.
