(* ===== verification/Simulator.v ===== *)
(** * The synthetic agent ([src/src/northgate_rmm/simulator.py])

[SyntheticAgent] keeps its identifiers, its boot and its last sequence; its
methods mutate it before they can raise, so they are computations over a state
that holds the agent. A session is the agent beside the control plane it
enrolled with. *)
From stdpp Require Import prelude strings gmap sorting pretty ssreflect.
From S2P Require Import Prelude Uuid PyTime Sha256 Json Domain Ledger ControlPlane ControlPlaneProofs ControlPlaneTheorems.

Set Warnings "-clear-no-such-hyp".

Record SyntheticAgent := mkSyntheticAgent {
  sa_endpoint_id : uuid;
  sa_identity_id : uuid;
  sa_platform : Platform;
  sa_architecture : pystr;
  sa_agent_version : pystr;
  sa_boot_id : uuid;
  sa_sequence : Z;
}.

(** [u.bytes]: the 16 bytes, most significant first. *)
Fixpoint bytes_of (n : nat) (z : Z) : list Z :=
  match n with
  | O => []
  | S n' => bytes_of n' (z / 256)%Z ++ [(z mod 256)%Z]
  end.
Definition uuid_bytes (u : uuid) : list Z := bytes_of 16 (uuid_int u).

(** [SyntheticAgent.enroll]. *)
Definition enroll (display_name : pystr) (platform : Platform) (architecture : pystr)
    (now : datetime) : CP SyntheticAgent :=
  seed ← uuid4;
  let fingerprint := py "sha256:" ++ Sha256.hexdigest (uuid_bytes seed) in
  enrolled ← enroll_synthetic_endpoint display_name platform architecture fingerprint now
    (py "phase1-simulator");
  boot_id ← uuid4;
  mret (mkSyntheticAgent (ep_endpoint_id enrolled.1) (ei_identity_id enrolled.2) platform
          architecture (py "0.1.0-sim") boot_id 0).

(** ** Methods of the agent *)
Abbreviation Agent := (M (world SyntheticAgent)).

Definition set_sequence (n : Z) (a : SyntheticAgent) : SyntheticAgent :=
  mkSyntheticAgent (sa_endpoint_id a) (sa_identity_id a) (sa_platform a) (sa_architecture a)
    (sa_agent_version a) (sa_boot_id a) n.
Definition set_boot (b : uuid) (a : SyntheticAgent) : SyntheticAgent :=
  mkSyntheticAgent (sa_endpoint_id a) (sa_identity_id a) (sa_platform a) (sa_architecture a)
    (sa_agent_version a) b 0.

Definition _envelope (now : datetime) (ttl : Z) : Agent MessageEnvelope :=
  upd (λ a, set_sequence (sa_sequence a + 1) a);;
  message_id ← uuid4;
  a ← get;
  expires_at ← lift (dt_add now ttl);
  correlation_id ← uuid4;
  lift (new_MessageEnvelope message_id (sa_endpoint_id a) (sa_boot_id a) (sa_sequence a) now
          expires_at correlation_id PROTOCOL_VERSION).

Definition heartbeat (now : datetime) (ttl : Z) (capabilities : list pystr)
    : Agent HeartbeatMessage :=
  envelope ← _envelope now ttl;
  a ← get;
  payload ← lift (new_HeartbeatPayload (sa_agent_version a) capabilities);
  mret (mkHeartbeatMessage envelope payload).

(** [fields] are the items of the mapping. *)
Definition inventory (now : datetime) (fields : list (pystr * pystr)) (collector_complete : bool)
    (ttl : Z) : Agent InventoryMessage :=
  envelope ← _envelope now ttl;
  a ← get;
  payload ← lift (new_InventoryPayload (sa_platform a) (sa_architecture a)
    (py_sorted pair_leb fields) collector_complete 1);
  mret (mkInventoryMessage envelope payload).

Definition restart : Agent unit :=
  boot_id ← uuid4;
  upd (set_boot boot_id).

(** ** Sessions *)
Record Session := mkSession { ss_plane : ControlPlane; ss_agent : SyntheticAgent }.

Definition on_agent {A} (m : Agent A) : M (world Session) A := λ w,
  let '(w', r) := m (World (ss_agent (store w)) (rng w)) in
  (World (mkSession (ss_plane (store w)) (store w')) (rng w'), r).
Definition on_plane {A} (m : CP A) : M (world Session) A := λ w,
  let '(w', r) := m (World (ss_plane (store w)) (rng w)) in
  (World (mkSession (store w') (ss_agent (store w))) (rng w'), r).

(** One thing the agent does; a message made at [now] is received at [received]. *)
Inductive action :=
| Beat (now : datetime) (ttl : Z) (capabilities : list pystr) (received : datetime)
| Report (now : datetime) (ttl : Z) (fields : list (pystr * pystr)) (complete : bool)
    (received : datetime)
| Restart.

Definition perform (a : action) : M (world Session) unit :=
  match a with
  | Beat now ttl capabilities received =>
    message ← on_agent (heartbeat now ttl capabilities);
    s ← get;
    on_plane (ingest_heartbeat (sa_identity_id (ss_agent s)) message received);; mret tt
  | Report now ttl fields complete received =>
    message ← on_agent (inventory now fields complete ttl);
    s ← get;
    on_plane (ingest_inventory (sa_identity_id (ss_agent s)) message received);; mret tt
  | Restart => on_agent restart
  end.

Fixpoint perform_all (l : list action) : M (world Session) unit :=
  match l with
  | [] => mret tt
  | a :: rest => perform a;; perform_all rest
  end.

(** Enrollment, then the actions. *)
Definition session (display_name : pystr) (platform : Platform) (architecture : pystr)
    (now : datetime) (actions : list action) (w : world ControlPlane)
    : world Session * result unit :=
  match enroll display_name platform architecture now w with
  | (w', Ok agent) => perform_all actions (World (mkSession (store w') agent) (rng w'))
  | (w', Raise e) =>
    (World (mkSession (store w') (mkSyntheticAgent uuid_nil uuid_nil platform [] [] uuid_nil 0))
       (rng w'), Raise e)
  end.

(** ** What a session needs *)

(** A message made at [now] for [ttl] can be built, and is received in time. *)
Record timely (now : datetime) (ttl : Z) (received : datetime) : Prop := {
  tm_now : aware now = true;
  tm_received : usable received;
  tm_ttl : (0 < ttl ≤ MAX_MESSAGE_TTL)%Z;
  tm_range : dt_in_range (dt_wall now + ttl) = true;
  tm_skew : (instant now ≤ instant received + MAX_CLOCK_SKEW)%Z;
  tm_live : (instant received < instant now + ttl)%Z;
}.

Definition action_ok (platform : Platform) (architecture : pystr) (a : action) : Prop :=
  match a with
  | Beat now ttl capabilities received =>
    timely now ttl received ∧
    HeartbeatPayload_post_init (mkHeartbeatPayload (py "0.1.0-sim") capabilities) = Ok tt
  | Report now ttl fields complete received =>
    timely now ttl received ∧
    InventoryPayload_post_init (mkInventoryPayload platform architecture
      (py_sorted pair_leb fields) complete 1) = Ok tt
  | Restart => True
  end.

(** The observation type an action leaves, if it sends a message. *)
Definition kind (a : action) : option pystr :=
  match a with
  | Beat _ _ _ _ => Some (py "heartbeat")
  | Report _ _ _ _ _ => Some (py "inventory")
  | Restart => None
  end.

(** The plane is ready for the agent's next message, and [n] more draws of [k]
can be made that are new to it and to the agent. *)
Record ready (s : Session) (k : nat → uuid) (n : nat) : Prop := {
  rd_wf : cp_wf (ss_plane s);
  rd_identity : ∃ id, cp_identities (ss_plane s) !! sa_identity_id (ss_agent s) = Some id ∧
    ei_revoked_at id = None ∧ ei_endpoint_id id = sa_endpoint_id (ss_agent s);
  rd_endpoint : ∃ ep, cp_endpoints (ss_plane s) !! sa_endpoint_id (ss_agent s) = Some ep ∧
    ep_platform ep = sa_platform (ss_agent s) ∧ ep_architecture ep = sa_architecture (ss_agent s);
  rd_version : sa_agent_version (ss_agent s) = py "0.1.0-sim";
  rd_sequence : (0 ≤ sa_sequence (ss_agent s))%Z ∧
    (default 0 (cp_last_sequences (ss_plane s) !! (sa_identity_id (ss_agent s), sa_boot_id (ss_agent s)))
       ≤ sa_sequence (ss_agent s))%Z;
  rd_draws : distinct_draws k n;
  rd_seen i : i < n → k i ∉ cp_seen_message_ids (ss_plane s);
  rd_boots i : i < n → cp_last_sequences (ss_plane s) !! (sa_identity_id (ss_agent s), k i) = None;
  rd_boot i : i < n → k i ≠ sa_boot_id (ss_agent s);
}.

(** The envelope the agent's next message carries. *)
Definition next_envelope (a : SyntheticAgent) (k : nat → uuid) (now expires : datetime)
    : MessageEnvelope :=
  mkEnvelope (k 0) (sa_endpoint_id a) (sa_boot_id a) (sa_sequence a + 1) now expires (k 1)
    PROTOCOL_VERSION.

Lemma envelope_run a k now ttl received :
  timely now ttl received → (0 ≤ sa_sequence a < MAX_SEQUENCE)%Z →
  ∃ expires, dt_add now ttl = Ok expires ∧ envelope_ok (next_envelope a k now expires) ∧
    _envelope now ttl (World a k) =
      (World (set_sequence (sa_sequence a + 1) a) (shift 2 k), Ok (next_envelope a k now expires)).
Proof.
  intros [Haw _ Httl Hrg _ _] Hseq.
  destruct (dt_add now ttl) as [expires|e] eqn:Hadd; [|by rw /dt_add Hrg in Hadd].
  exists expires. destruct (dt_add_Ok _ _ _ Hadd) as [Hi Htz].
  assert (envelope_ok (next_envelope a k now expires)) as Hok.
  { apply envelope_ok_spec. cbn. unfold aware in *. rw Hi Htz. split_and!; [done..|lia|lia|lia|lia]. }
  split_and!; [done|done|].
  unfold _envelope, mbind, M_bind, upd, modify, uuid4, get, gets, lift, new_MessageEnvelope. cbn.
  rw Hadd. unfold envelope_ok, next_envelope in Hok. by rw Hok.
Qed.

Lemma envelope_authorized s k n now ttl received expires id :
  ready s k (4 + n) → timely now ttl received → dt_add now ttl = Ok expires →
  cp_identities (ss_plane s) !! sa_identity_id (ss_agent s) = Some id →
  ei_revoked_at id = None → ei_endpoint_id id = sa_endpoint_id (ss_agent s) →
  authorized (ss_plane s) (sa_identity_id (ss_agent s))
    (next_envelope (ss_agent s) k now expires) received id.
Proof.
  intros Hr Ht Hadd Hid Hrev Hep. destruct (dt_add_Ok _ _ _ Hadd) as [Hi _].
  destruct Ht as [? ? ? ? ? ?], (rd_sequence _ _ _ Hr).
  split; cbn; [done..|lia|lia|apply (rd_seen _ _ _ Hr); lia|lia].
Qed.

Lemma ready_accepted s k n now expires received ty schema digest w' o :
  ready s k (4 + n) →
  accepted (World (ss_plane s) (shift 2 k)) (sa_identity_id (ss_agent s))
    (next_envelope (ss_agent s) k now expires) received ty schema digest w' o →
  let s' := mkSession (store w') (set_sequence (sa_sequence (ss_agent s) + 1) (ss_agent s)) in
  ready s' (rng w') n ∧
  cp_observations (store w') = cp_observations (ss_plane s) ++ [o] ∧
  ob_endpoint_id o = sa_endpoint_id (ss_agent s) ∧ ob_observation_type o = ty.
Proof.
  intros [Hwf (id & Hid & Hrev & Hepid) (ep & Hep & Hpl & Har) Hver Hseq Hinj Hseen Hboots Hboot] Hacc s'.
  pose proof (accepted_wf (World (ss_plane s) (shift 2 k)) _ _ _ _ _ _ _ _ Hwf Hacc) as Hwf'.
  destruct Hacc as [id' q ep' Hauth Hq -> Hobs Hafter ->]. cbn in *.
  pose proof (au_identity _ _ _ _ _ Hauth) as Hid'. cbn in Hid'. simplify_eq. rw Hepid in Hq Hobs Hafter.
  simplify_eq. split_and!; [|done..].
  destruct (ea_platform _ _ _ Hafter) as [Hp' Ha'].
  clear Hafter.
  split; cbn; [done|by exists id| |done| | | | |].
  - rw Hepid lookup_insert_eq. exists ep'. by rw Hp' Ha'.
  - rw lookup_insert_eq /=. lia.
  - by apply (distinct_shift 4 k (4 + n)).
  - intros i Hi. rw not_elem_of_union not_elem_of_singleton. split; [|apply Hseen; lia].
    intros Heq. apply Hinj in Heq; lia.
  - intros i Hi. rw lookup_insert_ne; [apply Hboots; lia|].
    intros [= Heq]. apply (Hboot (4 + i)); [lia|done].
  - intros i Hi. apply (Hboot (4 + i)). lia.
Qed.

(** What one action leaves: the plane ready for the next, the agent's bindings,
and one more observation of the agent's endpoint per type in [types]. *)
Record progress (s s' : Session) (k' : nat → uuid) (n : nat) (types : list pystr) : Prop := {
  pg_ready : ready s' k' n;
  pg_endpoint : sa_endpoint_id (ss_agent s') = sa_endpoint_id (ss_agent s);
  pg_binding : sa_platform (ss_agent s') = sa_platform (ss_agent s) ∧
    sa_architecture (ss_agent s') = sa_architecture (ss_agent s);
  pg_sequence : (sa_sequence (ss_agent s') ≤ sa_sequence (ss_agent s) + 1)%Z;
  pg_observed : ∃ new, cp_observations (ss_plane s') = cp_observations (ss_plane s) ++ new ∧
    (λ o, (ob_endpoint_id o, ob_observation_type o)) <$> new =
      pair (sa_endpoint_id (ss_agent s)) <$> types;
}.

(** A message the agent makes and the plane accepts. *)
Lemma deliver {Msg} (make : Agent Msg) (ingest : uuid → Msg → CP Observation) s k n m now exp
    received ty schema digest w' o :
  ready s k (4 + n) →
  make (World (ss_agent s) k) =
    (World (set_sequence (sa_sequence (ss_agent s) + 1) (ss_agent s)) (shift 2 k), Ok m) →
  ingest (sa_identity_id (ss_agent s)) m (World (ss_plane s) (shift 2 k)) = (w', Ok o) →
  accepted (World (ss_plane s) (shift 2 k)) (sa_identity_id (ss_agent s))
    (next_envelope (ss_agent s) k now exp) received ty schema digest w' o →
  ∃ s' k', (message ← on_agent make; s ← get;
     on_plane (ingest (sa_identity_id (ss_agent s)) message);; mret tt) (World s k)
     = (World s' k', Ok tt) ∧ progress s s' k' n [ty].
Proof.
  intros Hr Hmake Hing Hacc.
  destruct (ready_accepted _ _ _ _ _ _ _ _ _ _ _ Hr Hacc) as (Hr' & Hobs & Hoe & Hot).
  do 2 eexists. split.
  { unfold mbind, M_bind, on_agent. cbn [store rng]. rw Hmake. cbn [store rng get gets].
    unfold on_plane. cbn. rw Hing. done. }
  split; cbn; [exact Hr'|done|done|lia|]. exists [o]. split; [exact Hobs|]. cbn. by rw Hoe Hot.
Qed.

Lemma heartbeat_run s k n now ttl caps received :
  ready s k (4 + n) → (sa_sequence (ss_agent s) < MAX_SEQUENCE)%Z → timely now ttl received →
  HeartbeatPayload_post_init (mkHeartbeatPayload (py "0.1.0-sim") caps) = Ok tt →
  ∃ s' k', perform (Beat now ttl caps received) (World s k) = (World s' k', Ok tt) ∧
    progress s s' k' n [py "heartbeat"].
Proof.
  intros Hr Hmax Ht Hp. pose proof (rd_sequence _ _ _ Hr) as [Hpos _].
  destruct (rd_identity _ _ _ Hr) as (id & Hid & Hrev & Hepid).
  destruct (envelope_run (ss_agent s) k now ttl received Ht) as (exp & Hadd & Henv & Hrun); [lia|].
  pose proof (envelope_authorized _ _ _ _ _ _ _ _ Hr Ht Hadd Hid Hrev Hepid) as Hauth.
  set (m := mkHeartbeatMessage (next_envelope (ss_agent s) k now exp)
              (mkHeartbeatPayload (py "0.1.0-sim") caps)).
  pose proof (ingest_heartbeat_spec (sa_identity_id (ss_agent s)) m received
    (World (ss_plane s) (shift 2 k)) (rd_wf _ _ _ Hr) (envelope_ok_created _ Henv)) as Hspec.
  unfold wp in Hspec.
  destruct (ingest_heartbeat _ m received _) as [w' [o|e]] eqn:Hing; last first.
  { destruct Hspec as [_ He]. destruct (tm_received _ _ _ Ht) as [Haw Hrg].
    by rw (authorize_complete _ _ _ _ id (World (ss_plane s) (shift 2 k)) Haw Hrg Hauth) in He. }
  apply (deliver (heartbeat now ttl caps) (λ i m, ingest_heartbeat i m received) s k n m now exp
    received _ 1 (HeartbeatPayload_digest (hm_payload m)) w' o Hr); [|exact Hing|exact Hspec].
  unfold heartbeat, mbind at 1, M_bind. rw Hrun.
  unfold mbind, M_bind, get, gets, lift, new_HeartbeatPayload. cbn. by rw (rd_version _ _ _ Hr) Hp.
Qed.

Lemma inventory_run s k n now ttl fields complete received :
  ready s k (4 + n) → (sa_sequence (ss_agent s) < MAX_SEQUENCE)%Z → timely now ttl received →
  InventoryPayload_post_init (mkInventoryPayload (sa_platform (ss_agent s))
    (sa_architecture (ss_agent s)) (py_sorted pair_leb fields) complete 1) = Ok tt →
  ∃ s' k', perform (Report now ttl fields complete received) (World s k) = (World s' k', Ok tt) ∧
    progress s s' k' n [py "inventory"].
Proof.
  intros Hr Hmax Ht Hp. pose proof (rd_sequence _ _ _ Hr) as [Hpos _].
  destruct (rd_identity _ _ _ Hr) as (id & Hid & Hrev & Hepid).
  destruct (envelope_run (ss_agent s) k now ttl received Ht) as (exp & Hadd & Henv & Hrun); [lia|].
  pose proof (envelope_authorized _ _ _ _ _ _ _ _ Hr Ht Hadd Hid Hrev Hepid) as Hauth.
  set (m := mkInventoryMessage (next_envelope (ss_agent s) k now exp)
              (mkInventoryPayload (sa_platform (ss_agent s)) (sa_architecture (ss_agent s))
                 (py_sorted pair_leb fields) complete 1)).
  pose proof (ingest_inventory_spec (sa_identity_id (ss_agent s)) m received
    (World (ss_plane s) (shift 2 k)) (rd_wf _ _ _ Hr) (envelope_ok_created _ Henv)) as Hspec.
  unfold wp in Hspec.
  destruct (ingest_inventory _ m received _) as [w' [o|e]] eqn:Hing; last first.
  { destruct Hspec as [_ [He|(ep & Hep & [])]].
    - destruct (tm_received _ _ _ Ht) as [Haw Hrg].
      by rw (authorize_complete _ _ _ _ id (World (ss_plane s) (shift 2 k)) Haw Hrg Hauth) in He.
    - destruct (rd_endpoint _ _ _ Hr) as (ep' & Hep' & ? & ?). cbn in Hep. simplify_eq.
      by split; symmetry. }
  destruct Hspec as [Hacc _].
  apply (deliver (inventory now fields complete ttl) (λ i m, ingest_inventory i m received) s k n m
    now exp received _ 1 (InventoryPayload_digest (im_payload m)) w' o Hr);
    [|exact Hing|exact Hacc].
  unfold inventory, mbind at 1, M_bind. rw Hrun.
  unfold mbind, M_bind, get, gets, lift, new_InventoryPayload. cbn -[InventoryPayload_post_init]. by rw Hp.
Qed.

Lemma restart_run s k n :
  ready s k (4 + n) → ∃ s' k', perform Restart (World s k) = (World s' k', Ok tt) ∧ progress s s' k' n [].
Proof.
  intros [Hwf Hid Hep Hver Hseq Hinj Hseen Hboots Hboot]. do 2 eexists. split; [done|].
  split; cbn; [|done|done|lia|by exists []; rw app_nil_r].
  split; cbn; [done..| | | | |].
  - rw Hboots; [done|lia].
  - by apply (distinct_shift 1 k (4 + n)); [lia|].
  - intros i Hi. apply Hseen. lia.
  - intros i Hi. apply Hboots. lia.
  - intros i Hi Heq. apply Hinj in Heq; lia.
Qed.

Lemma perform_ready a s k n :
  ready s k (4 + n) → action_ok (sa_platform (ss_agent s)) (sa_architecture (ss_agent s)) a →
  (sa_sequence (ss_agent s) < MAX_SEQUENCE)%Z →
  ∃ s' k', perform a (World s k) = (World s' k', Ok tt) ∧
    progress s s' k' n (option_list (kind a)).
Proof.
  intros Hr Ha Hmax. destruct a; [| |by apply restart_run]; destruct Ha;
    [by apply heartbeat_run|by apply inventory_run].
Qed.

Lemma perform_all_ready l s k :
  ready s k (4 * length l) → Forall (action_ok (sa_platform (ss_agent s)) (sa_architecture (ss_agent s))) l →
  (sa_sequence (ss_agent s) + Z.of_nat (length l) ≤ MAX_SEQUENCE)%Z →
  ∃ w', perform_all l (World s k) = (w', Ok tt) ∧
    ∃ new, cp_observations (ss_plane (store w')) = cp_observations (ss_plane s) ++ new ∧
      (λ o, (ob_endpoint_id o, ob_observation_type o)) <$> new =
        pair (sa_endpoint_id (ss_agent s)) <$> omap kind l.
Proof.
  revert s k. induction l as [|a l IH]; intros s k Hr Hall Hmax.
  { eexists. split; [done|]. exists []. by rw app_nil_r. }
  apply Forall_cons in Hall as [Ha Hall]. cbn [length] in Hmax, Hr.
  rw Nat.mul_succ_r Nat.add_comm in Hr. destruct (perform_ready a s k _ Hr Ha) as (s1 & k1 & Hrun & [Hr1 He1 [Hp1 Ha1] Hs1 (new1 & Ho1 & Ht1)]); [lia|].
  destruct (IH s1 k1 Hr1) as (w' & Hrun' & new & Ho & Ht); [by rw Hp1 Ha1|lia|].
  exists w'. split; [by rw /= /mbind /M_bind Hrun|]. exists (new1 ++ new).
  split; [by rw Ho Ho1 app_assoc|]. rw fmap_app Ht1 Ht He1 -fmap_app. f_equal. by destruct a.
Qed.

(** ** Enrollment of the agent *)
Definition agent_fingerprint (seed : uuid) : pystr :=
  py "sha256:" ++ Sha256.hexdigest (uuid_bytes seed).

Lemma agent_fingerprint_valid seed : fullmatch_fingerprint (agent_fingerprint seed) = true.
Proof.
  unfold fullmatch_fingerprint, agent_fingerprint. apply andb_true_iff. split.
  - apply bool_decide_eq_true_2. reflexivity.
  - exact (fullmatch_hexdigest (uuid_bytes seed)).
Qed.

(** The plane has room for an enrollment with the draws of [w], and [n] further
draws are new to it. *)
Record enrollable (w : world ControlPlane) (name arch : pystr) (now : datetime) (n : nat)
    : Prop := {
  el_wf : cp_wf (store w);
  el_now : aware now = true;
  el_name : empty_or_longer name MAX_DISPLAY_NAME_LENGTH = false;
  el_arch : empty_or_longer arch 32 = false;
  el_draws : distinct_draws (rng w) (6 + n);
  el_fingerprint : cp_fingerprints (store w) !! agent_fingerprint (rng w 0) = None;
  el_endpoint : cp_endpoints (store w) !! rng w 1 = None;
  el_identity : cp_identities (store w) !! rng w 2 = None;
  el_seen i : i < 6 + n → rng w i ∉ cp_seen_message_ids (store w);
}.

Lemma enroll_run w name platform arch now n :
  enrollable w name arch now n →
  let identity := mkIdentity (rng w 2) (rng w 1) (agent_fingerprint (rng w 0)) now ACTIVE None None in
  let endpoint := mkEndpoint (rng w 1) name platform arch (rng w 2) now None None in
  EndpointIdentity_post_init identity = Ok tt ∧ Endpoint_post_init endpoint = Ok tt ∧
  ∃ a, enroll name platform arch now w =
    (World (append_audit a (enroll_store (rng w 1) (rng w 2) identity endpoint (store w)))
       (shift 6 (rng w)),
     Ok (mkSyntheticAgent (rng w 1) (rng w 2) platform arch (py "0.1.0-sim") (rng w 5) 0)).
Proof.
  intros [Hwf Hnow Hname Harch Hinj Hfp Hep Hid Hseen] identity endpoint.
  assert (EndpointIdentity_post_init identity = Ok tt) as Hi.
  { apply EndpointIdentity_post_init_Ok. split_and!;
      [done|exact (agent_fingerprint_valid (rng w 0))|by cbn; split; [|intros []]
      |by cbn; split; [intros []|]|by intros []|done]. }
  assert (Endpoint_post_init endpoint = Ok tt) as He by (by apply Endpoint_post_init_Ok).
  split_and!; [done..|].
  unfold enroll. unfold mbind at 1, M_bind, uuid4 at 1. cbn [store rng].
  fold (agent_fingerprint (rng w 0)). revert Hi. unfold identity.
  generalize dependent (agent_fingerprint (rng w 0)). intros fp Hfp identity Hi.
  unfold enroll_synthetic_endpoint, mbind, M_bind, lift, get, gets, uuid4, new_EndpointIdentity,
    new_Endpoint, mbind, result_bind. cbn [store rng].
  rw (proj2 (require_aware_Ok now (py "now") tt) Hnow) Hfp.
  rw bool_decide_eq_false_2; [|by intros [? ?]]. cbn [raise_if].
  fold identity. rw Hi. fold endpoint. rw He. eexists. reflexivity.
Qed.

(** A fresh enrollment makes the plane ready. *)
Lemma enroll_ready w name platform arch now n :
  enrollable w name arch now n →
  ∃ w' agent, enroll name platform arch now w = (w', Ok agent) ∧
    ready (mkSession (store w') agent) (rng w') n ∧
    sa_endpoint_id agent = rng w 1 ∧ sa_platform agent = platform ∧
    sa_architecture agent = arch ∧ sa_sequence agent = 0%Z ∧
    cp_observations (store w') = cp_observations (store w).
Proof.
  intros Hel. destruct (enroll_run w name platform arch now n Hel) as (Hi & He & a & Hrun).
  destruct Hel as [Hwf Hnow Hname Harch Hinj Hfp Hep Hid Hseen].
  do 2 eexists. split; [exact Hrun|]. split_and!; [|done..].
  assert (∀ b, cp_last_sequences (store w) !! (rng w 2, b) = None) as Hlast.
  { intros b. destruct (_ !! (rng w 2, b)) as [sq|] eqn:Hn; [|done].
    destruct (wf_last _ Hwf _ _ _ Hn) as (_ & o & ep & _ & Hoe & Hoi & _).
    destruct (wf_endpoint _ Hwf _ _ Hoe) as (_ & _ & id & Hx & _). congruence. }
  split; cbn [ss_plane ss_agent store rng].
  - apply cp_wf_audit. by apply cp_wf_enroll.
  - eexists. split; [by apply lookup_insert_eq|done].
  - eexists. split; [by apply lookup_insert_eq|done].
  - done.
  - split; [done|]. cbn. by rw Hlast.
  - by apply (distinct_shift 6 (rng w) (6 + n)).
  - intros i Hlt. apply Hseen. lia.
  - intros i _. apply Hlast.
  - intros i Hlt Heq. apply Hinj in Heq; lia.
Qed.

(** A simulated agent is never turned away. On any control plane that
satisfies its invariant, with unused draws, an agent that enrolls and then
sends heartbeats and inventories (valid payloads, received within skew and
lifetime) and restarts in any order runs to the end without an exception, and
the plane gains exactly one observation per message, of the agent's endpoint
and of the message's type, in the order they were sent. *)
Theorem simulated_session_accepted name platform arch now actions w :
  enrollable w name arch now (4 * length actions) → Forall (action_ok platform arch) actions →
  (Z.of_nat (length actions) ≤ MAX_SEQUENCE)%Z →
  ∃ w' new, session name platform arch now actions w = (w', Ok tt) ∧
    cp_observations (ss_plane (store w')) = cp_observations (store w) ++ new ∧
    (λ o, (ob_endpoint_id o, ob_observation_type o)) <$> new =
      pair (rng w 1) <$> omap kind actions.
Proof.
  intros Hel Hall Hmax.
  destruct (enroll_ready w name platform arch now _ Hel)
    as (w1 & agent & Hrun & Hr & He & Hp & Ha & Hs & Ho).
  destruct (perform_all_ready actions _ _ Hr) as (w' & Hrun' & new & Ho' & Ht);
    [by rw /= Hp Ha|cbn; lia|].
  exists w', new. unfold session. rw Hrun. split; [exact Hrun'|].
  by rw Ho' Ht /= Ho He.
Qed.

Module SessionSample.

Definition actions : list action :=
  [Beat (Sample.at_ 5) (30 * second) [py "inventory.v1"] (Sample.at_ 6);
   Report (Sample.at_ 7) (2 * minute) [(py "os", py "linux"); (py "kernel", py "6.1")] true (Sample.at_ 8);
   Restart;
   Beat (Sample.at_ 20) (30 * second) [] (Sample.at_ 21)].

End SessionSample.

Lemma simulated_session_accepted_witness :
  ∃ w' new, session (py "sim") LINUX (py "amd64") Sample.t0 SessionSample.actions Sample.w0
              = (w', Ok tt) ∧
    cp_observations (ss_plane (store w')) = [] ++ new ∧
    (λ o, (ob_endpoint_id o, ob_observation_type o)) <$> new =
      pair (uid 1001) <$> [py "heartbeat"; py "inventory"; py "heartbeat"].
Proof.
  apply (simulated_session_accepted (py "sim") LINUX (py "amd64") Sample.t0 SessionSample.actions
           Sample.w0).
  - split; [exact cp_wf_empty|done..| |done|done|done|intros i _; apply not_elem_of_empty].
    intros i j Hi Hj Hij. apply (f_equal uuid_int) in Hij. unfold Sample.w0, Sample.rng0 in Hij.
    cbn [rng] in Hij. rw !uuid_int_uid in Hij; cbn in Hi, Hj; lia.
  - repeat constructor; by vm_compute.
  - done.
Defined.
