(* ===== verification/Views.v ===== *)
(** * Endpoint views ([src/src/northgate_rmm/views.py])

The HTML of the two operator pages, over the protocol [EndpointReader]. What is
shown of the data is escaped; [tags] reads the markup of a page back. *)
From stdpp Require Import prelude strings gmap sorting pretty ssreflect.
From S2P Require Import Prelude Uuid PyTime Json UuidText Domain.

Set Warnings "-clear-no-such-hyp".

Class EndpointReader (W : Type) := {
  rd_list_endpoints : M W (list Endpoint);
  rd_get_endpoint : uuid → M W Endpoint;
  rd_get_identity : uuid → M W EndpointIdentity;
  rd_endpoint_status : uuid → datetime → M W EndpointStatus;
}.

(** [html.escape(s)]. *)
Definition escape_char (c : Z) : pystr :=
  if (c =? 38)%Z then py "&amp;"
  else if (c =? 60)%Z then py "&lt;"
  else if (c =? 62)%Z then py "&gt;"
  else if (c =? 34)%Z then py "&quot;"
  else if (c =? 39)%Z then py "&#x27;"
  else [c].
Definition escape (s : pystr) : pystr := s ≫= escape_char.

Definition _time (value : option datetime) : pystr :=
  match value with
  | None => py "Never"
  | Some t => isoformat t
  end.

(** A double quote, which a string literal of the source holds unescaped. *)
Definition quote : pystr := [34%Z].

(** [<a href="path">]. *)
Definition anchor (path : pystr) : pystr := py "<a href=" ++ quote ++ path ++ quote ++ py ">".

Definition row_html (endpoint : Endpoint) (status : EndpointStatus) : pystr :=
  py "<tr>" ++ py "<td>" ++ anchor (py "/endpoints/" ++ uuid_str (ep_endpoint_id endpoint))
  ++ escape (ep_display_name endpoint) ++ py "</a></td>"
  ++ py "<td>" ++ escape (platform_value (ep_platform endpoint)) ++ py "</td>"
  ++ py "<td>" ++ escape (ep_architecture endpoint) ++ py "</td>"
  ++ py "<td>" ++ escape (lifecycle_value (es_lifecycle status)) ++ py "</td>"
  ++ py "<td>" ++ escape (health_value (es_health status)) ++ py "</td>"
  ++ py "<td>" ++ _time (es_last_heartbeat_at status) ++ py "</td>"
  ++ py "</tr>".

Definition no_endpoints : pystr :=
  py "<tr><td colspan=" ++ quote ++ py "6" ++ quote ++ py ">No endpoints</td></tr>".

Definition next_link (next_after : option uuid) : pystr :=
  match next_after with
  | Some u =>
    py "<nav>" ++ anchor (py "/endpoints?after=" ++ uuid_str u) ++ py "Next page</a></nav>"
  | None => []
  end.

Definition html_head : pystr :=
  py "<!doctype html><html lang=" ++ quote ++ py "en" ++ quote ++ py "><head><meta charset="
  ++ quote ++ py "utf-8" ++ quote ++ py ">".

Definition page_html (rows : list pystr) (next_after : option uuid) : pystr :=
  let body := match concat rows with [] => no_endpoints | b => b end in
  html_head ++ py "<title>NorthGate RMM endpoints</title></head><body>"
  ++ py "<main><h1>Endpoints</h1><table><thead><tr>"
  ++ py "<th>Name</th><th>Platform</th><th>Architecture</th>"
  ++ py "<th>Lifecycle</th><th>Health</th><th>Last heartbeat</th>"
  ++ py "</tr></thead><tbody>" ++ body ++ py "</tbody></table>" ++ next_link next_after
  ++ py "</main></body></html>".

Definition detail_values (endpoint : Endpoint) (identity : EndpointIdentity)
    (status : EndpointStatus) : list (pystr * pystr) :=
  [(py "Endpoint ID", uuid_str (ep_endpoint_id endpoint));
   (py "Display name", ep_display_name endpoint);
   (py "Platform", platform_value (ep_platform endpoint));
   (py "Architecture", ep_architecture endpoint);
   (py "Identity ID", uuid_str (ei_identity_id identity));
   (py "Fingerprint", ei_fingerprint identity);
   (py "Lifecycle", lifecycle_value (es_lifecycle status));
   (py "Health", health_value (es_health status));
   (py "Enrolled", _time (Some (ep_enrolled_at endpoint)));
   (py "Last receipt", _time (ep_last_receipt_at endpoint));
   (py "Last heartbeat", _time (ep_last_heartbeat_at endpoint));
   (py "Revoked", _time (ei_revoked_at identity));
   (py "Revocation reason", default [] (ei_revocation_reason identity))].

Definition detail_html (endpoint : Endpoint) (identity : EndpointIdentity)
    (status : EndpointStatus) : pystr :=
  let items := concat ((λ v : pystr * pystr,
    py "<dt>" ++ escape v.1 ++ py "</dt><dd>" ++ escape v.2 ++ py "</dd>")
      <$> detail_values endpoint identity status) in
  html_head ++ py "<title>" ++ escape (ep_display_name endpoint) ++ py " " ++ [8212%Z]
  ++ py " NorthGate RMM</title>"
  ++ py "</head><body><main>" ++ anchor (py "/endpoints") ++ py "Endpoints</a>"
  ++ py "<h1>" ++ escape (ep_display_name endpoint) ++ py "</h1><dl>" ++ items ++ py "</dl>"
  ++ py "</main></body></html>".

Section views.
Context {W : Type} `{!EndpointReader W}.

Fixpoint render_rows (endpoints : list Endpoint) (now : datetime) : M W (list pystr) :=
  match endpoints with
  | [] => mret []
  | endpoint :: rest =>
    status ← rd_endpoint_status (ep_endpoint_id endpoint) now;
    rows ← render_rows rest now;
    mret (row_html endpoint status :: rows)
  end.

Definition render_endpoint_page (endpoints : list Endpoint) (next_after : option uuid)
    (now : datetime) : M W pystr :=
  rows ← render_rows endpoints now;
  mret (page_html rows next_after).

Definition render_endpoint_list (now : datetime) : M W pystr :=
  endpoints ← rd_list_endpoints;
  render_endpoint_page endpoints None now.

Definition render_endpoint_detail (endpoint_id : uuid) (now : datetime) : M W pystr :=
  endpoint ← rd_get_endpoint endpoint_id;
  identity ← rd_get_identity (ep_identity_id endpoint);
  status ← rd_endpoint_status endpoint_id now;
  mret (detail_html endpoint identity status).
End views.

(** ** Reading the markup back *)

(** The texts between [<] and the next [>], in order. *)
Fixpoint scan_tags (inside : option pystr) (s : pystr) : list pystr :=
  match s with
  | [] => []
  | c :: r =>
    match inside with
    | None => if (c =? 60)%Z then scan_tags (Some []) r else scan_tags None r
    | Some tag => if (c =? 62)%Z then tag :: scan_tags None r else scan_tags (Some (tag ++ [c])) r
    end
  end.
Definition tags (s : pystr) : list pystr := scan_tags None s.

(** The state at the end of a text. *)
Fixpoint scan_state (inside : option pystr) (s : pystr) : option pystr :=
  match s with
  | [] => inside
  | c :: r =>
    match inside with
    | None => if (c =? 60)%Z then scan_state (Some []) r else scan_state None r
    | Some tag => if (c =? 62)%Z then scan_state None r else scan_state (Some (tag ++ [c])) r
    end
  end.

Lemma scan_app s r : ∀ st,
  scan_tags st (s ++ r) = scan_tags st s ++ scan_tags (scan_state st s) r ∧
  scan_state st (s ++ r) = scan_state (scan_state st s) r.
Proof.
  induction s as [|c s IH]; intros st; [done|]. cbn [app scan_tags scan_state].
  destruct st as [tag|]; destruct (_ =? _)%Z; try apply IH. cbn [app].
  destruct (IH None) as [-> ->]. done.
Qed.

(** Two texts with the same tags, both ending outside a tag. *)
Record same_markup (s s' : pystr) : Prop := {
  sm_tags : tags s = tags s';
  sm_closed : scan_state None s = None;
  sm_closed' : scan_state None s' = None;
}.

Lemma same_markup_app s s' t t' :
  same_markup s s' → same_markup t t' → same_markup (s ++ t) (s' ++ t').
Proof.
  unfold tags. intros [H1 H2 H3] [H4 H5 H6]. split; unfold tags;
    rw ?(proj1 (scan_app _ _ _)) ?(proj2 (scan_app _ _ _)) ?H2 ?H3 //. unfold tags in *. by rw H1 H4.
Qed.

Lemma same_markup_closed s : scan_state None s = None → same_markup s s.
Proof. by split. Qed.

(** Text without [<] has no markup. *)
Definition quiet (s : pystr) : bool := forallb (λ c, negb (c =? 60)%Z) s.

Lemma quiet_scan s : quiet s = true → tags s = [] ∧ scan_state None s = None.
Proof.
  induction s as [|c s IH]; [done|]. unfold tags in *. cbn [quiet forallb scan_tags scan_state].
  intros [Hc Hs]%andb_true_iff. apply negb_true_iff in Hc. rw Hc. by apply IH.
Qed.

Lemma same_markup_quiet s s' : quiet s = true → quiet s' = true → same_markup s s'.
Proof. intros [H1 H2]%quiet_scan [H3 H4]%quiet_scan. split; congruence. Qed.

Lemma quiet_escape s : quiet (escape s) = true.
Proof.
  unfold quiet, escape. induction s as [|c s IH]; [done|]. rw bind_cons forallb_app IH andb_true_r.
  unfold escape_char. repeat case_match; try reflexivity. cbn. lia.
Qed.

(** Inside a tag, text without [>] stays inside. *)
Lemma inside_scan tag s :
  forallb (λ c, negb (c =? 62)%Z) s = true →
  scan_tags (Some tag) s = [] ∧ scan_state (Some tag) s = Some (tag ++ s).
Proof.
  revert tag. induction s as [|c s IH]; intros tag; cbn [forallb scan_tags scan_state];
    [by rw app_nil_r|]. intros [Hc Hs]%andb_true_iff. apply negb_true_iff in Hc. rw Hc.
  assert (E : tag ++ c :: s = (tag ++ [c]) ++ s) by by rw -app_assoc.
  rw E. exact (IH (tag ++ [c]) Hs).
Qed.

Lemma anchor_closed path :
  forallb (λ c, negb (c =? 62)%Z) path = true → scan_state None (anchor path) = None.
Proof.
  intros Hp. unfold anchor. rw (proj2 (scan_app _ _ _)) (proj2 (scan_app quote _ _)).
  rw (proj2 (scan_app path _ _)) (proj2 (inside_scan _ path Hp)). by vm_compute.
Qed.

Lemma quiet_app s t : quiet s = true → quiet t = true → quiet (s ++ t) = true.
Proof. unfold quiet. intros H1 H2. by rw forallb_app H1 H2. Qed.

Lemma quiet_decn n z : quiet (decn n z) = true.
Proof.
  revert z. induction n as [|n IH]; intros z; [done|]. cbn [decn]. apply quiet_app; [apply IH|].
  unfold quiet. cbn [forallb]. pose proof (Z.mod_pos_bound z 10 ltac:(lia)).
  destruct (Z.eqb_spec (48 + z mod 10) 60); [lia|done].
Qed.

Create HintDb quiet.
#[local] Hint Resolve quiet_app quiet_decn quiet_escape : quiet.
#[local] Hint Extern 1 (quiet _ = true) => reflexivity : quiet.

Lemma quiet_isoformat d : quiet (isoformat d) = true.
Proof.
  unfold isoformat, iso_time, iso_offset. destruct (ymd_of_days _) as [[y m] dd].
  repeat case_match; eauto 25 with quiet.
Qed.

Lemma quiet_time t : quiet (_time t) = true.
Proof. destruct t as [t|]; [apply quiet_isoformat|done]. Qed.
#[local] Hint Resolve quiet_time : quiet.

Lemma uuid_path_closed prefix u :
  forallb (λ c, negb (c =? 62)%Z) prefix = true →
  scan_state None (anchor (prefix ++ uuid_str u)) = None.
Proof.
  intros Hp. apply anchor_closed. rw forallb_app Hp. eapply forallb_mono; [|apply uuid_str_chars].
  intros c Hc. unfold uuid_char, is_lower_hex in Hc. lia.
Qed.

Ltac markup :=
  repeat lazymatch goal with
  | |- same_markup (_ ++ _) (_ ++ _) => apply same_markup_app
  | |- same_markup (anchor (_ ++ uuid_str _)) _ =>
    apply same_markup_closed, uuid_path_closed; reflexivity
  | |- same_markup ?s ?s => apply same_markup_closed; reflexivity
  | |- same_markup (escape _) (escape _) => apply same_markup_quiet; apply quiet_escape
  | |- same_markup (_time _) (_time _) => apply same_markup_quiet; apply quiet_time
  end.

Lemma row_same_markup e e' st st' :
  ep_endpoint_id e = ep_endpoint_id e' → same_markup (row_html e st) (row_html e' st').
Proof. intros He. unfold row_html. rw He. markup. Qed.

Lemma rows_same_markup es es' sts sts' :
  ep_endpoint_id <$> es = ep_endpoint_id <$> es' →
  length sts = length es → length sts' = length es' →
  same_markup (concat (zip_with row_html es sts)) (concat (zip_with row_html es' sts')).
Proof.
  revert es' sts sts'. induction es as [|e es IH]; intros [|e' es'] [|st sts] [|st' sts'] Hes Hl Hl';
    try discriminate; [apply same_markup_closed; reflexivity|].
  injection Hes as He Hes. cbn [zip_with concat]. apply same_markup_app; [by apply row_same_markup|].
  apply IH; [exact Hes|by injection Hl|by injection Hl'].
Qed.

Lemma page_same_markup es es' sts sts' next_after :
  ep_endpoint_id <$> es = ep_endpoint_id <$> es' →
  length sts = length es → length sts' = length es' →
  same_markup (page_html (zip_with row_html es sts) next_after)
    (page_html (zip_with row_html es' sts') next_after).
Proof.
  intros Hes Hl Hl'. pose proof (rows_same_markup _ _ _ _ Hes Hl Hl') as Hrows. unfold page_html.
  markup; [|destruct next_after; unfold next_link; markup].
  destruct es as [|e es], es' as [|e' es'], sts, sts'; try discriminate; [markup|].
  exact Hrows.
Qed.

Lemma detail_same_markup e e' i i' st st' :
  same_markup (detail_html e i st) (detail_html e' i' st').
Proof. unfold detail_html, detail_values. cbn [fmap list_fmap concat fst snd]. markup. Qed.

Lemma render_rows_run {W} `{!EndpointReader W} es now w w' rows :
  render_rows es now w = (w', Ok rows) →
  ∃ sts, length sts = length es ∧ rows = zip_with row_html es sts.
Proof.
  revert w w' rows. induction es as [|e es IH]; intros w w' rows.
  - intros [= <- <-]. by exists [].
  - cbn [render_rows]. rw /mbind /M_bind. destruct (rd_endpoint_status _ _ w) as [w1 [st|]]; [|done].
    destruct (render_rows es now w1) as [w2 [rest|]] eqn:Hrest; [|done]. intros [= <- <-].
    apply IH in Hrest as (sts & Hl & ->). exists (st :: sts). split; [cbn; lia|done].
Qed.

(** Escaping loses nothing: a reader recovers the value shown. *)
Lemma escape_char_inj c d (r r' : pystr) :
  escape_char c ++ r = escape_char d ++ r' → c = d ∧ r = r'.
Proof.
  unfold escape_char.
  destruct (Z.eqb_spec c 38) as [->|]; [|destruct (Z.eqb_spec c 60) as [->|];
    [|destruct (Z.eqb_spec c 62) as [->|]; [|destruct (Z.eqb_spec c 34) as [->|];
    [|destruct (Z.eqb_spec c 39) as [->|]]]]];
  (destruct (Z.eqb_spec d 38) as [->|]; [|destruct (Z.eqb_spec d 60) as [->|];
    [|destruct (Z.eqb_spec d 62) as [->|]; [|destruct (Z.eqb_spec d 34) as [->|];
    [|destruct (Z.eqb_spec d 39) as [->|]]]]]); cbv [py app]; cbn; intros; simplify_eq; done.
Qed.

Lemma escape_inj s s' : escape s = escape s' → s = s'.
Proof.
  revert s'. unfold escape. induction s as [|c s IH]; intros [|c' s']; rw ?bind_nil ?bind_cons.
  - done.
  - unfold escape_char. intros H. by repeat case_match.
  - unfold escape_char. intros H. by repeat case_match.
  - intros [-> Hs]%escape_char_inj. by rw (IH s' Hs).
Qed.

(** C30: the data shown on the operator pages cannot change their markup. Two list pages over the
same endpoint IDs and next cursor have the same tags, attributes included, whatever the names,
architectures, statuses and times the two readers return; two detail pages have the same tags
whatever they show; and escaping is injective, so the values themselves are not lost. *)
Theorem rendered_markup_fixed {W W'} `{!EndpointReader W, !EndpointReader W'} :
  (∀ endpoints endpoints' next_after now now' (w w1 : W) (w' w1' : W') page page',
    ep_endpoint_id <$> endpoints = ep_endpoint_id <$> endpoints' →
    render_endpoint_page endpoints next_after now w = (w1, Ok page) →
    render_endpoint_page endpoints' next_after now' w' = (w1', Ok page') →
    tags page = tags page') ∧
  (∀ endpoint_id endpoint_id' now now' (w w1 : W) (w' w1' : W') page page',
    render_endpoint_detail endpoint_id now w = (w1, Ok page) →
    render_endpoint_detail endpoint_id' now' w' = (w1', Ok page') →
    tags page = tags page') ∧
  (∀ s s', escape s = escape s' → s = s').
Proof.
  split; [|split; [|exact escape_inj]].
  - intros es es' next_after now now' w w1 w' w1' page page' Hes Hrun Hrun'.
    unfold render_endpoint_page in *.
    apply bind_Ok_inv in Hrun as (w2 & rows & Hrows & [= -> <-]).
    apply bind_Ok_inv in Hrun' as (w2' & rows' & Hrows' & [= -> <-]).
    apply render_rows_run in Hrows as (sts & Hl & ->), Hrows' as (sts' & Hl' & ->).
    apply sm_tags. by apply page_same_markup.
  - intros id id' now now' w w1 w' w1' page page' Hrun Hrun'.
    unfold render_endpoint_detail in *.
    repeat match goal with H : (_ ≫= _) _ = (_, Ok _) |- _ =>
      apply bind_Ok_inv in H as (? & ? & ? & H) end.
    injection Hrun as -> <-. injection Hrun' as -> <-. apply sm_tags, detail_same_markup.
Qed.

(** A reader of one endpoint, whatever its name. *)
Definition sample_endpoint (display_name : pystr) : Endpoint :=
  mkEndpoint (uid 7) display_name LINUX (py "x86_64") (uid 8) (utc 0) None None.
Definition sample_reader (display_name : pystr) : EndpointReader unit := {|
  rd_list_endpoints := mret [sample_endpoint display_name];
  rd_get_endpoint _ := mret (sample_endpoint display_name);
  rd_get_identity _ :=
    mret (mkIdentity (uid 8) (uid 7) display_name (utc 0) ACTIVE None (Some display_name));
  rd_endpoint_status k _ := mret (mkEndpointStatus k ACTIVE ONLINE (Some (utc 0)));
|}.

Lemma rendered_markup_fixed_witness :
  ∃ page page',
    (@render_endpoint_detail unit (sample_reader (py "web-01")) (uid 7) (utc 0) tt).2 = Ok page ∧
    (@render_endpoint_detail unit (sample_reader (py "<script>")) (uid 7) (utc 0) tt).2 = Ok page' ∧
    page ≠ page' ∧ length (tags page) = 70 ∧ tags page = tags page'.
Proof.
  eexists _, _. split; [reflexivity|]. split; [reflexivity|]. split; [|split].
  - intros E%(f_equal length). vm_compute in E. discriminate E.
  - vm_compute. reflexivity.
  - exact (proj1 (proj2 (@rendered_markup_fixed unit unit
      (sample_reader (py "web-01")) (sample_reader (py "<script>"))))
      (uid 7) (uid 7) (utc 0) (utc 0) tt tt tt tt _ _ eq_refl eq_refl).
Defined.
