(* ===== verification/OperatorApi.v ===== *)
(** * The operator application ([src/src/northgate_rmm/operator_api.py])

Authentication by an external verifier, authorization against a pinned policy,
the audit of every decision, and the two read routes, over the protocol
[OperatorStore]. The verifier ([OperatorSessionVerifier]) is an argument; so is
[printable], the classification of non-ASCII characters by [str.isprintable]. *)
From stdpp Require Import prelude strings gmap sorting pretty ssreflect.
From S2P Require Import Prelude Uuid PyTime Json Text JsonLoads UuidText Domain Views.

Set Warnings "-clear-no-such-hyp".

Definition MAX_AUTHORIZATION_HEADER_BYTES : Z := 4096.
Definition MAX_OPERATOR_VALUE_LENGTH : Z := 512.
Definition MAX_OPERATOR_AUDIT_IDENTIFIER_LENGTH : Z := 256.
Definition MAX_OPERATOR_ROLE_LENGTH : Z := 64.
Definition MAX_OPERATOR_PATH_LENGTH : Z := 256.
Definition MAX_OPERATOR_SESSION_AGE : Z := 12 * hour.
Definition OPERATOR_ENDPOINT_PAGE_SIZE : Z := 100.

Record OperatorPrincipal := mkOperatorPrincipal {
  op_issuer : pystr;
  op_tenant : pystr;
  op_subject : pystr;
  op_session_id : pystr;
  op_client_id : pystr;
  op_roles : list pystr;
  op_authenticated_at : datetime;
  op_expires_at : datetime;
  op_mfa : bool;
}.

Record OperatorAuthorizationPolicy := mkOperatorPolicy {
  pol_issuer : pystr;
  pol_tenant : pystr;
  pol_subject : pystr;
  pol_client_id : pystr;
  pol_required_role : pystr;
  pol_maximum_session_age : Z;
}.

Record OperatorRequest := mkOperatorRequest {
  or_method : pystr;
  or_path : pystr;
  or_authorization : option pystr;
  or_query_string : pystr;
}.

Record OperatorResponse := mkOperatorResponse {
  os_status : Z;
  os_headers : list (pystr * pystr);
  os_body : list Z;
}.

(** [verify]: raises, returns a principal, or returns some other object. *)
Definition OperatorSessionVerifier : Type := pystr → datetime → result (option OperatorPrincipal).

Class OperatorStore (T : Type) := {
  os_reader :: EndpointReader (world T);
  os_list_endpoint_page : option uuid → Z → M (world T) (list Endpoint);
  os_record_operator_access :
    pystr → pystr → pystr → pystr → pystr → uuid → datetime → list (pystr * pystr) →
    M (world T) unit;
}.

(** [s.isprintable()]. *)
Definition isprintable (printable : Z → bool) (s : pystr) : bool :=
  forallb (λ c, if (c <? 128)%Z then ((32 <=? c) && (c <=? 126))%Z else printable c) s.

Section principal.
Context (printable : Z → bool).

Definition value_invalid (maximum_length : Z) (value : pystr) : bool :=
  str_empty value || (maximum_length <? str_len value)%Z || negb (isprintable printable value).

(** The loop over the named values of a dataclass. *)
Fixpoint check_values (prefix : string) (values : list (string * Z * pystr)) : result unit :=
  match values with
  | [] => Ok tt
  | (name, maximum_length, value) :: rest =>
    raise_if (value_invalid maximum_length value)
      (ValidationError (py prefix ++ py name ++ py " is invalid"));;
    check_values prefix rest
  end.

Definition is_normalization_error (e : exn) : bool :=
  bool_decide (e = OverflowError) || is_ValueError e.

(** The named values of a principal, with their limits. *)
Definition operator_values (p : OperatorPrincipal) : list (string * Z * pystr) :=
  [("issuer", MAX_OPERATOR_VALUE_LENGTH, op_issuer p);
   ("tenant", MAX_OPERATOR_VALUE_LENGTH, op_tenant p);
   ("subject", MAX_OPERATOR_AUDIT_IDENTIFIER_LENGTH, op_subject p);
   ("session_id", MAX_OPERATOR_VALUE_LENGTH, op_session_id p);
   ("client_id", MAX_OPERATOR_VALUE_LENGTH, op_client_id p)].

Definition OperatorPrincipal_post_init (p : OperatorPrincipal) : result OperatorPrincipal :=
  check_values "operator " (operator_values p);;
  raise_if (bool_decide (op_roles p = []) || (8 <? Z.of_nat (length (op_roles p)))%Z)
    (verr "operator roles are invalid");;
  raise_if (existsb (value_invalid MAX_OPERATOR_ROLE_LENGTH) (op_roles p))
    (verr "operator role is invalid");;
  raise_if (negb (bool_decide (NoDup (op_roles p))))
    (verr "operator roles contain a duplicate");;
  require_aware (op_authenticated_at p) (py "operator authenticated_at");;
  require_aware (op_expires_at p) (py "operator expires_at");;
  times ← except_as is_normalization_error
    (verr "operator session times cannot be normalized to UTC")
    (authenticated_at ← astimezone_utc (op_authenticated_at p);
     expires_at ← astimezone_utc (op_expires_at p);
     Ok (authenticated_at, expires_at));
  raise_if (dt_leb times.2 times.1) (verr "operator session lifetime is invalid");;
  Ok (mkOperatorPrincipal (op_issuer p) (op_tenant p) (op_subject p) (op_session_id p)
        (op_client_id p) (op_roles p) times.1 times.2 (op_mfa p)).

Definition OperatorAuthorizationPolicy_post_init (p : OperatorAuthorizationPolicy) : result unit :=
  check_values "operator policy "
    [("issuer", MAX_OPERATOR_VALUE_LENGTH, pol_issuer p);
     ("tenant", MAX_OPERATOR_VALUE_LENGTH, pol_tenant p);
     ("subject", MAX_OPERATOR_AUDIT_IDENTIFIER_LENGTH, pol_subject p);
     ("client_id", MAX_OPERATOR_VALUE_LENGTH, pol_client_id p);
     ("required_role", MAX_OPERATOR_ROLE_LENGTH, pol_required_role p)];;
  raise_if (negb ((5 * minute <=? pol_maximum_session_age p)
                  && (pol_maximum_session_age p <=? 24 * hour)))%Z
    (verr "operator maximum session age is invalid").
End principal.

(** ** Responses *)
Definition _headers (content_type : pystr) : list (pystr * pystr) :=
  [(py "content-type", content_type);
   (py "cache-control", py "no-store");
   (py "content-security-policy",
      py "default-src 'none'; frame-ancestors 'none'; base-uri 'none'; form-action 'none'");
   (py "referrer-policy", py "no-referrer");
   (py "x-content-type-options", py "nosniff")].

Definition _html (body : list Z) : OperatorResponse :=
  mkOperatorResponse 200 (_headers (py "text/html; charset=utf-8")) body.

Definition _error (status : Z) (code : string) : OperatorResponse :=
  mkOperatorResponse status
    (_headers (py "application/json")
     ++ if (status =? 401)%Z then [(py "www-authenticate", py "Bearer")] else [])
    (py "{" ++ quote ++ py "error" ++ quote ++ py ":" ++ quote ++ py code ++ quote ++ py "}").

(** ** Routes *)
Definition _endpoint_id_from_path (path : pystr) : option uuid :=
  value ← strip_prefix (py "/endpoints/") path;
  endpoint_id ← uuid_of_str value;
  if bool_decide (uuid_str endpoint_id = value) then Some endpoint_id else None.

Definition _endpoint_page_after (query_string : pystr) : result (option uuid) :=
  let invalid := verr "operator page cursor is invalid" in
  if str_empty query_string then Ok None else
  match strip_prefix (py "after=") query_string with
  | None => Raise invalid
  | Some value =>
    match uuid_of_str value with
    | None => Raise invalid
    | Some after => if bool_decide (uuid_str after = value) then Ok (Some after) else Raise invalid
    end
  end.

(** [except E: handler]. *)
Definition catch {W A} (handled : exn → bool) (m handler : M W A) : M W A := λ w,
  match m w with
  | (w', Raise e) => if handled e then handler w' else (w', Raise e)
  | r => r
  end.
Definition is_NotFoundError (e : exn) : bool := match e with NotFoundError _ => true | _ => false end.

(** [endpoints[-1].endpoint_id if has_more else None]. *)
Definition split_page (page : list Endpoint) : list Endpoint * option uuid :=
  let has_more := (OPERATOR_ENDPOINT_PAGE_SIZE <? Z.of_nat (length page))%Z in
  let endpoints := take (Z.to_nat OPERATOR_ENDPOINT_PAGE_SIZE) page in
  (endpoints, if has_more then ep_endpoint_id <$> last endpoints else None).

Section application.
Context {T : Type} `{!OperatorStore T}.
Context (printable : Z → bool).

(** [OperatorApplication._verifier] and [._policy]. *)
Context (verify : OperatorSessionVerifier) (policy : OperatorAuthorizationPolicy).

Definition rejected_authentication (reason : string) (now : datetime) (correlation_id : uuid)
    : M (world T) OperatorPrincipal :=
  os_record_operator_access (py "unauthenticated") (py "operator:endpoint-views")
    (py "operator.authenticate") (py "rejected") (py reason) correlation_id now [];;
  raise (AuthorizationError (py "operator authentication failed")).

(** [encoded_authorization], with its two length tests. *)
Definition authorization_length_ok (authorization : option pystr) : option pystr :=
  a ← authorization;
  if ((1 <=? str_len a) && (str_len a <=? MAX_AUTHORIZATION_HEADER_BYTES))%Z then
    match encode_utf8 a with
    | Ok encoded =>
      if ((1 <=? Z.of_nat (length encoded))
          && (Z.of_nat (length encoded) <=? MAX_AUTHORIZATION_HEADER_BYTES))%Z
      then Some a else None
    | Raise _ => None
    end
  else None.

Definition _authenticate (authorization : option pystr) (now : datetime) (correlation_id : uuid)
    : M (world T) OperatorPrincipal :=
  match authorization_length_ok authorization with
  | None =>
    rejected_authentication "operator credential missing or oversized" now correlation_id
  | Some a =>
    match verify a now with
    | Ok (Some principal) => mret principal
    | Ok None => rejected_authentication "external session verification failed" now correlation_id
    | Raise e =>
      if is_Exception e then rejected_authentication "external session verification failed" now correlation_id
      else raise e
    end
  end.

Definition _authorization_denial (principal : OperatorPrincipal) (now : datetime)
    : result (option pystr) :=
  if negb (bool_decide (op_issuer principal = pol_issuer policy))
     || negb (bool_decide (op_tenant principal = pol_tenant policy))
     || negb (bool_decide (op_subject principal = pol_subject policy))
     || negb (bool_decide (op_client_id principal = pol_client_id policy))
  then Ok (Some (py "operator identity scope did not match policy")) else
  if negb (bool_decide (pol_required_role policy ∈ op_roles principal)) || negb (op_mfa principal)
  then Ok (Some (py "operator assurance or role was insufficient")) else
  authenticated_at ← astimezone_utc (op_authenticated_at principal);
  expires_at ← astimezone_utc (op_expires_at principal);
  if dt_ltb now authenticated_at || negb (dt_ltb now expires_at)
  then Ok (Some (py "operator session was not current")) else
  if (pol_maximum_session_age policy <? instant now - instant authenticated_at)%Z
  then Ok (Some (py "operator session exceeded maximum age")) else Ok None.

Definition principal_metadata (principal : OperatorPrincipal) : list (pystr * pystr) :=
  [(py "client_id", op_client_id principal);
   (py "issuer", op_issuer principal);
   (py "session_id", op_session_id principal);
   (py "tenant", op_tenant principal)].

Definition _audit (principal : OperatorPrincipal) (subject action decision reason : pystr)
    (correlation_id : uuid) (now : datetime) : M (world T) unit :=
  os_record_operator_access (op_subject principal) subject action decision reason correlation_id
    now (principal_metadata principal).

(** A rejected request: audited, then answered by 404. *)
Definition reject_request (principal : OperatorPrincipal) (subject action reason : pystr)
    (correlation_id : uuid) (now : datetime) : M (world T) OperatorResponse :=
  _audit principal subject action (py "rejected") reason correlation_id now;;
  mret (_error 404 "not_found").

Definition views_subject : pystr := py "operator:endpoint-views".
Definition read_reason : pystr := py "authenticated viewer read".

Definition serve_list (principal : OperatorPrincipal) (query_string : pystr)
    (correlation_id : uuid) (now : datetime) : M (world T) OperatorResponse :=
  match _endpoint_page_after query_string with
  | Raise e =>
    if is_ValidationError e
    then reject_request principal views_subject (py "operator.request")
           (py "operator route contract rejected") correlation_id now
    else raise e
  | Ok after =>
    page ← os_list_endpoint_page after (OPERATOR_ENDPOINT_PAGE_SIZE + 1);
    let '(endpoints, next_after) := split_page page in
    text ← render_endpoint_page endpoints next_after now;
    body ← lift (encode_utf8 text);
    _audit principal (py "endpoint:collection") (py "endpoint.list.read") (py "accepted")
      read_reason correlation_id now;;
    mret (_html body)
  end.

Definition serve_detail (principal : OperatorPrincipal) (request : OperatorRequest)
    (correlation_id : uuid) (now : datetime) : M (world T) OperatorResponse :=
  match (if str_empty (or_query_string request) then _endpoint_id_from_path (or_path request)
         else None) with
  | None =>
    reject_request principal views_subject (py "operator.request")
      (py "operator route not found") correlation_id now
  | Some endpoint_id =>
    let subject := py "endpoint:" ++ uuid_str endpoint_id in
    body ← catch is_NotFoundError
      (text ← render_endpoint_detail endpoint_id now; body ← lift (encode_utf8 text);
       mret (Some body))
      (mret None);
    match body with
    | None =>
      reject_request principal subject (py "endpoint.detail.read")
        (py "endpoint was not found") correlation_id now
    | Some body =>
      _audit principal subject (py "endpoint.detail.read") (py "accepted") read_reason
        correlation_id now;;
      mret (_html body)
    end
  end.

Definition handle (request : OperatorRequest) (received_at : datetime)
    : M (world T) OperatorResponse :=
  lift (require_aware received_at (py "received_at"));;
  now ← lift (astimezone_utc received_at);
  correlation_id ← uuid4;
  principal ← catch is_AuthorizationError
    (p ← _authenticate (or_authorization request) now correlation_id; mret (Some p))
    (mret None);
  match principal with
  | None => mret (_error 401 "unauthorized")
  | Some principal =>
    _audit principal views_subject (py "operator.authenticate") (py "accepted")
      (py "external session verified") correlation_id now;;
    denial ← lift (_authorization_denial principal now);
    match denial with
    | Some reason =>
      _audit principal views_subject (py "operator.authorize") (py "rejected") reason
        correlation_id now;;
      mret (_error 403 "forbidden")
    | None =>
      if negb (bool_decide (or_method request = py "GET"))
         || negb ((1 <=? str_len (or_path request))
                  && (str_len (or_path request) <=? MAX_OPERATOR_PATH_LENGTH))%Z
         || negb (isprintable printable (or_path request))
      then reject_request principal views_subject (py "operator.request")
             (py "operator route contract rejected") correlation_id now
      else if bool_decide (or_path request = py "/endpoints")
      then serve_list principal (or_query_string request) correlation_id now
      else serve_detail principal request correlation_id now
    end
  end.
End application.

(** ** The audit trail *)

(** The event [record_operator_access] stores. *)
Record access_event (actor_id subject action decision reason : pystr) (correlation_id : uuid)
    (now : datetime) (metadata : list (pystr * pystr)) (a : AuditEvent) : Prop := {
  acc_actor_type : ae_actor_type a = py "human_operator";
  acc_actor : ae_actor_id a = actor_id;
  acc_subject : ae_subject a = subject;
  acc_action : ae_action a = action;
  acc_decision : ae_decision a = decision;
  acc_reason : ae_reason a = reason;
  acc_correlation : ae_correlation_id a = correlation_id;
  acc_time : instant (ae_server_time a) = instant now;
  acc_metadata : NoDup metadata.*1 → ae_metadata a = py_sorted pair_leb metadata;
}.

(** What the application may rely on: [os_adds l s s'] when [s'] is [s] with the
events [l] appended to its audit trail and nothing else changed. Reads add
nothing; a recorded access adds its event; one that raises may have added it
(a commit whose reply was lost) or not. *)
Class OperatorStoreLaws (T : Type) `{!OperatorStore T} := {
  os_adds : list AuditEvent → T → T → Prop;
  os_adds_nil s : os_adds [] s s;
  os_adds_app l l' s1 s2 s3 : os_adds l s1 s2 → os_adds l' s2 s3 → os_adds (l ++ l') s1 s3;
  os_read_endpoint k (w : world T) : os_adds [] (store w) (store (rd_get_endpoint k w).1);
  os_read_identity k (w : world T) : os_adds [] (store w) (store (rd_get_identity k w).1);
  os_read_status k now (w : world T) :
    os_adds [] (store w) (store (rd_endpoint_status k now w).1);
  os_read_page after limit (w : world T) :
    os_adds [] (store w) (store (os_list_endpoint_page after limit w).1);
  os_record actor_id subject action decision reason correlation_id now metadata (w w' : world T) r :
    os_record_operator_access actor_id subject action decision reason correlation_id now metadata w
      = (w', r) →
    (∃ a, access_event actor_id subject action decision reason correlation_id now metadata a ∧
          os_adds [a] (store w) (store w')) ∨
    (∃ e, r = Raise e ∧ is_AuthorizationError e = false ∧ os_adds [] (store w) (store w'));
}.

(** The operator the policy admits, with a current session. *)
Record authorized (policy : OperatorAuthorizationPolicy) (p : OperatorPrincipal) (now : datetime)
    : Prop := {
  az_issuer : op_issuer p = pol_issuer policy;
  az_tenant : op_tenant p = pol_tenant policy;
  az_subject : op_subject p = pol_subject policy;
  az_client : op_client_id p = pol_client_id policy;
  az_role : pol_required_role policy ∈ op_roles p;
  az_mfa : op_mfa p = true;
  az_current : (instant (op_authenticated_at p) ≤ instant now < instant (op_expires_at p))%Z;
  az_age : (instant now - instant (op_authenticated_at p) ≤ pol_maximum_session_age policy)%Z;
}.

Lemma authorization_denial_None policy p now :
  _authorization_denial policy p now = Ok None → authorized policy p now.
Proof.
  unfold _authorization_denial. destruct (negb _ || negb _ || negb _ || negb _) eqn:H1; [done|].
  destruct (negb _ || negb (op_mfa p)) eqn:H2; [done|].
  destruct (astimezone_utc (op_authenticated_at p)) as [t1|] eqn:Ht1; [|done].
  destruct (astimezone_utc (op_expires_at p)) as [t2|] eqn:Ht2; [|done].
  cbn [mbind result_bind]. apply astimezone_utc_Ok in Ht1 as [Ht1 _], Ht2 as [Ht2 _].
  destruct (dt_ltb _ _ || _) eqn:H3; [done|].
  destruct (pol_maximum_session_age policy <? _)%Z eqn:H4; [done|]. intros _.
  unfold dt_ltb in H3. checks_in H1. checks_in H2.
  destruct_and?. split; try done; lia.
Qed.

Lemma astimezone_utc_utc t : dt_in_range t = true → astimezone_utc (utc t) = Ok (utc t).
Proof. intros Ht. unfold astimezone_utc, utc, utcoffset, instant. cbn. by rw Z.sub_0_r Ht. Qed.

(** What a constructed principal satisfies. *)
Record principal_ok (printable : Z → bool) (p : OperatorPrincipal) : Prop := {
  pk_values : ∀ v, v ∈ [op_issuer p; op_tenant p; op_session_id p; op_client_id p] →
    value_invalid printable MAX_OPERATOR_VALUE_LENGTH v = false;
  pk_subject : value_invalid printable MAX_OPERATOR_AUDIT_IDENTIFIER_LENGTH (op_subject p) = false;
  pk_roles : (1 ≤ length (op_roles p) ≤ 8)%nat ∧ NoDup (op_roles p) ∧
    ∀ r, r ∈ op_roles p → value_invalid printable MAX_OPERATOR_ROLE_LENGTH r = false;
  pk_times : ∃ t1 t2, op_authenticated_at p = utc t1 ∧ op_expires_at p = utc t2 ∧ (t1 < t2)%Z ∧
    dt_in_range t1 = true ∧ dt_in_range t2 = true;
}.

Lemma astimezone_utc_range d d' : astimezone_utc d = Ok d' → dt_in_range (instant d) = true.
Proof. unfold astimezone_utc. destruct (utcoffset d) as [[]|]; [by case_match|done..]. Qed.

Lemma principal_post_init_Ok printable q p :
  OperatorPrincipal_post_init printable q = Ok p → principal_ok printable p.
Proof.
  unfold OperatorPrincipal_post_init, operator_values, check_values. intros Hp. checks_in Hp.
  destruct Hp as ((Hi & Ht & Hs & Hse & Hc & _) & [Hr1 Hr2] & Hrole & Hnd & _ & _ & Hp).
  apply result_bind_Ok_inv in Hp as ([t1 t2] & Htimes & Hp). apply except_as_Ok in Htimes.
  apply result_bind_Ok_inv in Htimes as (t1' & H1 & Htimes).
  apply result_bind_Ok_inv in Htimes as (t2' & H2 & [= -> ->]). cbn [fst snd] in Hp.
  checks_in Hp. destruct Hp as [Hlt [= <-]]. unfold dt_leb in Hlt.
  pose proof (astimezone_utc_range _ _ H1). pose proof (astimezone_utc_range _ _ H2).
  apply astimezone_utc_Ok in H1 as [E1 ->], H2 as [E2 ->]. rw !instant_utc in Hlt.
  split; cbn.
  - intros v. rw !elem_of_cons elem_of_nil. naive_solver.
  - done.
  - split_and!; [destruct (op_roles q); [done|cbn; lia]|lia|done|].
    intros r Hr. destruct (value_invalid _ _ r) eqn:Hv; [|done].
    rw -(not_true_iff_false (existsb _ _)) in Hrole. destruct Hrole. apply existsb_exists.
    exists r. split; [by apply list_elem_of_In|done].
  - eexists _, _. split_and!; [reflexivity..| |done|done]. lia.
Qed.

Lemma authorized_no_denial printable policy p now :
  principal_ok printable p → authorized policy p now → _authorization_denial policy p now = Ok None.
Proof.
  intros [_ _ _ (t1 & t2 & Ht1 & Ht2 & _ & H1 & H2)] [? ? ? ? ? Hm Hcur Hage].
  unfold _authorization_denial. rw !bool_decide_true //. rw Hm. cbn [negb orb].
  rw Ht1 Ht2 !instant_utc in Hcur Hage |- *.
  rw (astimezone_utc_utc t1) // (astimezone_utc_utc t2) //. cbn [mbind result_bind].
  unfold dt_ltb. rw !instant_utc.
  rw (proj2 (Z.ltb_ge _ t1)) ?(proj2 (Z.ltb_lt _ t2)) /=; [|lia..].
  rw (proj2 (Z.ltb_ge _ _)); [done|lia].
Qed.

(** ** What the application does to its store *)
Section traced.
Context {T : Type} `{!OperatorStore T} `{!OperatorStoreLaws T}.

(** Running [m] only appends events to the audit trail; [Q] relates them to the
outcome. *)
Definition traced {A} (m : M (world T) A) (Q : result A → list AuditEvent → Prop) : Prop :=
  ∀ w, ∃ l, os_adds l (store w) (store (m w).1) ∧ Q (m w).2 l.

Lemma traced_mono {A} (m : M (world T) A) (P Q : result A → list AuditEvent → Prop) :
  traced m P → (∀ r l, P r l → Q r l) → traced m Q.
Proof. intros Hm HPQ w. destruct (Hm w) as (l & Ha & Hl). eauto. Qed.

Lemma traced_bind {A B} (m : M (world T) A) (k : A → M (world T) B) P Q :
  traced m P → (∀ a l, P (Ok a) l → traced (k a) (λ r l', Q r (l ++ l'))) →
  (∀ e l, P (Raise e) l → Q (Raise e) l) → traced (m ≫= k) Q.
Proof.
  intros Hm Hk He w. destruct (Hm w) as (l & Ha & Hl). rw /mbind /M_bind.
  destruct (m w) as [w1 [a|e]]; [|by eauto]. destruct (Hk a l Hl w1) as (l' & Ha' & Hl').
  exists (l ++ l'). split; [by eapply os_adds_app|done].
Qed.

Lemma traced_lift {A} (r : result A) : traced (lift r) (λ r' l, r' = r ∧ l = []).
Proof. intros w. exists []. split; [apply os_adds_nil|done]. Qed.
Lemma traced_ret {A} (a : A) (Q : result A → list AuditEvent → Prop) :
  Q (Ok a) [] → traced (mret a) Q.
Proof. intros HQ w. exists []. split; [apply os_adds_nil|done]. Qed.
Lemma traced_uuid4 : traced uuid4 (λ r l, ∃ u, r = Ok u ∧ l = []).
Proof. intros w. exists []. split; [apply os_adds_nil|by eexists]. Qed.

(** A read: no event, whatever it returns. *)
Lemma traced_read {A} (m : M (world T) A) :
  (∀ w, os_adds [] (store w) (store (m w).1)) → traced m (λ _ l, l = []).
Proof. intros Hm w. exists []. auto. Qed.

Lemma traced_record actor_id subject action decision reason correlation_id now metadata :
  traced (os_record_operator_access actor_id subject action decision reason correlation_id now
            metadata)
    (λ r l, (∃ a, l = [a] ∧ access_event actor_id subject action decision reason correlation_id
               now metadata a) ∨ (∃ e, r = Raise e ∧ is_AuthorizationError e = false)).
Proof.
  intros w. destruct (os_record_operator_access _ _ _ _ _ _ _ _ w) as [w' r] eqn:Hr.
  apply os_record in Hr as [(a & Hev & Ha)|(e & -> & He & Ha)]; eauto 10.
Qed.

Lemma traced_read_rows es now :
  traced (render_rows es now) (λ _ l, l = []).
Proof.
  induction es as [|e es IH]; cbn [render_rows]; [by apply traced_ret|].
  eapply traced_bind; [apply traced_read, os_read_status| |done]. intros st l ->. cbn [app].
  eapply traced_bind; [apply IH| |done]. intros rows l ->. by apply traced_ret.
Qed.

Lemma traced_render_page es next_after now :
  traced (render_endpoint_page es next_after now) (λ _ l, l = []).
Proof.
  eapply traced_bind; [apply traced_read_rows| |done]. intros rows l ->. by apply traced_ret.
Qed.

Lemma traced_render_detail k now : traced (render_endpoint_detail k now) (λ _ l, l = []).
Proof.
  eapply traced_bind; [apply traced_read, os_read_endpoint| |done]. intros e l ->.
  eapply traced_bind; [apply traced_read, os_read_identity| |done]. intros i l ->.
  eapply traced_bind; [apply traced_read, os_read_status| |done]. intros st l ->.
  by apply traced_ret.
Qed.

Lemma traced_catch {A} (handled : exn → bool) (m handler : M (world T) A)
    (P Q : result A → list AuditEvent → Prop) :
  traced m P → (∀ a l, P (Ok a) l → Q (Ok a) l) →
  (∀ e l, P (Raise e) l → if handled e then traced handler (λ r l', Q r (l ++ l'))
                          else Q (Raise e) l) →
  traced (catch handled m handler) Q.
Proof.
  intros Hm Hok Hraise w. destruct (Hm w) as (l & Ha & Hl). unfold catch.
  destruct (m w) as [w1 [a|e]]; [by eauto|]. specialize (Hraise e l Hl).
  destruct (handled e); [|by eauto]. destruct (Hraise w1) as (l' & Ha' & Hl').
  exists (l ++ l'). split; [by eapply os_adds_app|done].
Qed.
End traced.

(** ** The decisions *)
Section decisions.
Context {T : Type} `{!OperatorStore T} `{!OperatorStoreLaws T}.
Context (printable : Z → bool).
Context (verify : OperatorSessionVerifier) (policy : OperatorAuthorizationPolicy).

(** The principal the verifier vouches for. *)
Definition verified (request : OperatorRequest) (now : datetime) (p : OperatorPrincipal) : Prop :=
  ∃ a, or_authorization request = Some a ∧ verify a now = Ok (Some p).

(** An event of the principal [p]. *)
Definition operator_event (p : OperatorPrincipal) (subject action decision reason : pystr)
    (correlation_id : uuid) (now : datetime) (a : AuditEvent) : Prop :=
  access_event (op_subject p) subject action decision reason correlation_id now
    (principal_metadata p) a.

(** The resource a request names, as the audit calls it. *)
Inductive route (request : OperatorRequest) : pystr → pystr → Prop :=
| route_list :
    or_method request = py "GET" → or_path request = py "/endpoints" →
    route request (py "endpoint:collection") (py "endpoint.list.read")
| route_detail k :
    or_method request = py "GET" → or_query_string request = [] →
    or_path request = py "/endpoints/" ++ uuid_str k →
    route request (py "endpoint:" ++ uuid_str k) (py "endpoint.detail.read").

Inductive answered (request : OperatorRequest) (now : datetime) (corr : uuid)
    : list AuditEvent → OperatorResponse → Prop :=
| answered_unauthorized a reason :
    (authorization_length_ok (or_authorization request) = None ∨
     ∃ t, or_authorization request = Some t ∧ ∀ p, verify t now ≠ Ok (Some p)) →
    access_event (py "unauthenticated") views_subject (py "operator.authenticate") (py "rejected")
      reason corr now [] a →
    answered request now corr [a] (_error 401 "unauthorized")
| answered_forbidden p a a' reason :
    verified request now p → _authorization_denial policy p now = Ok (Some reason) →
    operator_event p views_subject (py "operator.authenticate") (py "accepted")
      (py "external session verified") corr now a →
    operator_event p views_subject (py "operator.authorize") (py "rejected") reason corr now a' →
    answered request now corr [a; a'] (_error 403 "forbidden")
| answered_not_found p a a' subject action reason :
    verified request now p → authorized policy p now →
    operator_event p views_subject (py "operator.authenticate") (py "accepted")
      (py "external session verified") corr now a →
    operator_event p subject action (py "rejected") reason corr now a' →
    answered request now corr [a; a'] (_error 404 "not_found")
| answered_data p a a' subject action body :
    verified request now p → authorized policy p now → route request subject action →
    operator_event p views_subject (py "operator.authenticate") (py "accepted")
      (py "external session verified") corr now a →
    operator_event p subject action (py "accepted") read_reason corr now a' →
    answered request now corr [a; a'] (_html body).

(** The outcome of one routed request of the principal [p]. *)
Definition routed (request : OperatorRequest) (p : OperatorPrincipal) (now : datetime)
    (corr : uuid) (r : result OperatorResponse) (l : list AuditEvent) : Prop :=
  match r with
  | Raise _ => True
  | Ok resp =>
    (∃ a subject action reason, l = [a] ∧ resp = _error 404 "not_found" ∧
       operator_event p subject action (py "rejected") reason corr now a) ∨
    (∃ a subject action body, l = [a] ∧ resp = _html body ∧ route request subject action ∧
       operator_event p subject action (py "accepted") read_reason corr now a)
  end.

Lemma traced_reject request p subject action reason corr now :
  traced (reject_request p subject action reason corr now) (routed request p now corr).
Proof.
  eapply traced_bind; [apply traced_record| |done].
  intros [] l [(a & -> & Ha)|(? & ? & _)]; [|done]. apply traced_ret. left. by eauto 10.
Qed.

Lemma traced_accept request p subject action body corr now :
  route request subject action →
  traced (_audit p subject action (py "accepted") read_reason corr now;; mret (_html body))
    (routed request p now corr).
Proof.
  intros Hroute. eapply traced_bind; [apply traced_record| |done].
  intros [] l [(a & -> & Ha)|(? & ? & _)]; [|done]. apply traced_ret. right. by eauto 10.
Qed.

Lemma traced_serve_list request p corr now :
  or_method request = py "GET" → or_path request = py "/endpoints" →
  traced (serve_list p (or_query_string request) corr now) (routed request p now corr).
Proof.
  intros Hm Hp. unfold serve_list. destruct (_endpoint_page_after _) as [after|e].
  - eapply traced_bind; [apply traced_read, os_read_page| |done]. intros page l ->. cbn [app].
    destruct (split_page page) as [es next].
    eapply traced_bind; [apply traced_render_page| |done]. intros text l ->. cbn [app].
    eapply traced_bind; [apply traced_lift| |done]. intros body l' [_ ->].
    by apply traced_accept, route_list.
  - destruct (is_ValidationError e); [apply traced_reject|]. eapply traced_mono; [apply traced_lift|].
    by intros r l [-> ->].
Qed.

Lemma endpoint_id_from_path_Some path k :
  _endpoint_id_from_path path = Some k → path = py "/endpoints/" ++ uuid_str k.
Proof.
  unfold _endpoint_id_from_path. destruct (strip_prefix _ path) as [v|] eqn:Hv; [|done].
  cbn [mbind option_bind]. destruct (uuid_of_str v) as [u|]; [|done]. cbn [mbind option_bind].
  case_bool_decide as Hu; [|done]. intros [= <-]. apply strip_prefix_Some in Hv. by rw Hu.
Qed.

Lemma traced_serve_detail request p corr now :
  or_method request = py "GET" →
  traced (serve_detail p request corr now) (routed request p now corr).
Proof.
  intros Hm. unfold serve_detail. destruct (or_query_string request) as [|c q] eqn:Hq; cbn [str_empty];
    [|apply traced_reject].
  destruct (_endpoint_id_from_path _) as [k|] eqn:Hk; [|apply traced_reject].
  apply endpoint_id_from_path_Some in Hk.
  eapply (traced_bind _ _ (λ _ l, l = [])); [| |done].
  - eapply (traced_catch _ _ _ (λ _ l, l = [])); [|done|].
    + eapply traced_bind; [apply traced_render_detail| |done]. intros text l ->. cbn [app].
      eapply traced_bind; [apply traced_lift| |by intros ? ? [_ ->]]. intros body l [_ ->].
      by apply traced_ret.
    + intros e l ->. destruct (is_NotFoundError e); [by apply traced_ret|done].
  - intros [body|] l ->; cbn [app]; [|apply traced_reject]. by apply traced_accept, route_detail.
Qed.

Lemma traced_authenticate request corr now :
  traced (_authenticate verify (or_authorization request) now corr)
    (λ r l, match r with
            | Ok p => l = [] ∧ verified request now p
            | Raise e =>
              is_AuthorizationError e = true → ∃ a reason, l = [a] ∧
              (authorization_length_ok (or_authorization request) = None ∨
               ∃ t, or_authorization request = Some t ∧ ∀ p, verify t now ≠ Ok (Some p)) ∧
              access_event (py "unauthenticated") views_subject (py "operator.authenticate")
                (py "rejected") reason corr now [] a
            end).
Proof.
  assert (Hrej : ∀ reason (P : Prop), P →
    traced (rejected_authentication reason now corr) (λ r l, match r with
      | Ok _ => False
      | Raise e => is_AuthorizationError e = true → ∃ a reason, l = [a] ∧ P ∧
          access_event (py "unauthenticated") views_subject (py "operator.authenticate")
            (py "rejected") reason corr now [] a end)).
  { intros reason P HP. eapply traced_bind; [apply traced_record| |].
    - intros [] l [(a & -> & Ha)|(? & ? & _)]; [|done]. eapply traced_mono; [apply traced_lift|].
      intros r l [-> ->] _. by eauto.
    - intros e l [(a & -> & Ha)|(? & [= <-] & He)] Hae; [by eauto|congruence]. }
  unfold _authenticate. destruct (authorization_length_ok _) as [a|] eqn:Hlen.
  - assert (Ha : or_authorization request = Some a).
    { unfold authorization_length_ok in Hlen. destruct (or_authorization request); [|done].
      cbn [mbind option_bind] in Hlen. repeat case_match; by simplify_eq. }
    destruct (verify a now) as [[p|]|e] eqn:Hv.
    1: { apply traced_ret. split; [done|]. by exists a. }
    2: destruct (is_Exception e) eqn:He; cycle 1.
    2: { eapply traced_mono; [apply traced_lift|]. intros r l [-> _] Hae. by destruct e. }
    all: eapply traced_mono; [apply (Hrej _ (∃ t, or_authorization request = Some t ∧
           ∀ p, verify t now ≠ Ok (Some p))); exists a; split; [done|]; by rw Hv|].
    all: intros [?|?] l; [done|]; intros Hl (a' & reason & -> & Hor & Hev)%Hl; by eauto 10.
  - eapply traced_mono; [apply (Hrej _ True); done|]. intros [?|?] l; [done|].
    intros Hl (a' & reason & -> & _ & Hev)%Hl. by eauto 10.
Qed.

(** One request: its events share a correlation ID and explain its answer. *)
Lemma traced_handle request received_at now :
  astimezone_utc received_at = Ok now →
  traced (handle printable verify policy request received_at) (λ r l, match r with
    | Ok resp => ∃ corr, answered request now corr l resp
    | Raise _ => True
    end).
Proof.
  intros Hnow. unfold handle. eapply traced_bind; [apply traced_lift| |done]. intros [] l [_ ->].
  rw Hnow. eapply traced_bind; [apply traced_lift| |done]. intros n l [[= ->] ->]. cbn [app].
  eapply traced_bind; [apply traced_uuid4| |done]. intros corr l (u & [= <-] & ->). cbn [app].
  eapply (traced_bind _ _ (λ r l, match r with
    | Ok (Some p) => l = [] ∧ verified request now p
    | Ok None => answered request now corr l (_error 401 "unauthorized")
    | Raise _ => True end)); [| |done].
  { eapply (traced_catch _ _ _ (λ r l, match r with
      | Ok (Some p) => l = [] ∧ verified request now p
      | Ok None => False
      | Raise e => is_AuthorizationError e = true →
          answered request now corr l (_error 401 "unauthorized") end)).
    - eapply traced_bind; [apply traced_authenticate| |].
      + intros p l [-> Hp]. by apply traced_ret.
      + intros e l Hl (a & reason & -> & Hor & Hev)%Hl. by eapply answered_unauthorized.
    - by intros [p|] l; [|intros []].
    - intros e l Hl. destruct (is_AuthorizationError e); [|done]. apply traced_ret.
      rw app_nil_r. by apply Hl. }
  intros [p|] l; [intros [-> Hp]|intros Hl; apply traced_ret; rw app_nil_r; by exists corr].
  cbn [app]. eapply traced_bind; [apply traced_record| |done].
  intros [] l [(a & -> & Ha)|(? & ? & _)]; [|done].
  eapply traced_bind; [apply traced_lift| |done]. intros denial l [Hd ->].
  destruct denial as [reason|].
  { eapply traced_bind; [apply traced_record| |done].
    intros [] l [(a' & -> & Ha')|(? & ? & _)]; [|done]. apply traced_ret. exists corr. cbn [app].
    by eapply answered_forbidden. }
  symmetry in Hd. pose proof (authorization_denial_None _ _ _ Hd) as Haz. cbn [app].
  apply (traced_mono _ (routed request p now corr)); last first.
  { intros [resp|e] l; [|done]. exists corr.
    destruct H as [(a' & sub & act & reason & -> & -> & Ha')|(a' & sub & act & body & -> & -> & Hr & Ha')].
    - by eapply answered_not_found.
    - by eapply answered_data. }
  destruct (negb (bool_decide (or_method request = py "GET")) || _ || _) eqn:Hc;
    [apply traced_reject|].
  apply orb_false_iff in Hc as [[Hm%negb_false_iff%bool_decide_eq_true _]%orb_false_iff _].
  case_bool_decide as Hpath; [by apply traced_serve_list|by apply traced_serve_detail].
Qed.
End decisions.
