(* ===== verification/OperatorVerifier.v ===== *)
(** * The operator session verifier ([src/src/northgate_rmm/operator_verifier.py])

[MTLSOperatorSessionVerifier.verify]: the request it writes and the checks of the
response. The HTTPS exchange is a parameter: from the headers of the request to the
response, whose two reads may fail too. [fromisoformat] is [datetime.fromisoformat],
[printable] classifies non-ASCII characters, [depth] is the recursion limit. *)
From stdpp Require Import prelude strings gmap sorting pretty ssreflect.
From S2P Require Import Prelude Uuid PyTime Json Text JsonLoads JsonProofs Domain Codec CodecTheorems AgentApi Http Net Configuration Enrollment IssuerClient Views OperatorApi.

Set Warnings "-clear-no-such-hyp".

Definition OPERATOR_SESSION_VERIFIER_PATH : pystr := py "/v1/operator-sessions/verify".
Definition MAX_OPERATOR_SESSION_RESPONSE_BYTES : Z := 16384.

(** [_BEARER_AUTHORIZATION]: a scheme, a token, padding. *)
Definition is_token_char (c : Z) : bool :=
  is_alnum c || bool_decide (c ∈ [45; 46; 95; 126; 43; 47]%Z).
Fixpoint drop_token (s : pystr) : pystr :=
  match s with [] => [] | c :: r => if is_token_char c then drop_token r else s end.
Definition bearer_authorization (s : pystr) : bool :=
  match strip_prefix (py "Bearer ") s with
  | Some (c :: r) => is_token_char c && forallb (λ d, (d =? 61)%Z) (drop_token r)
  | _ => false
  end.

(** [http.client.HTTPResponse], as [verify] reads it: the status, the headers,
[read(declared_length + 1)] and then [read(1)]. *)
Record session_response := mkSessionResponse {
  sv_status : Z;
  sv_getheader : pystr → option pystr;
  sv_read : Z → result (list Z);
  sv_read_more : result (list Z);
}.

(** ** The response body *)
Definition _RESPONSE_FIELDS : list pystr :=
  [py "issuer"; py "tenant"; py "subject"; py "session_id"; py "client_id"; py "roles";
   py "authenticated_at"; py "expires_at"; py "mfa"].

Section verifier.
Context (printable : Z → bool) (fromisoformat : pystr → option datetime) (depth : nat).

(** [_unique_object] and [_reject_json_constant]. *)
Definition session_constant (value : pystr) : exn :=
  ValidationError (py "operator verifier response constant " ++ repr_str value
                   ++ py " is invalid").
Definition session_hooks : hooks :=
  mkHooks (unique_object (verr "operator verifier response has a duplicate field") [])
    default_parse_int (λ value, Raise (session_constant value)).

Definition is_time_error (e : exn) : bool :=
  bool_decide (e ∈ [OverflowError; TypeError]) || is_ValueError e.

Definition _parse_canonical_utc (value : json) : result datetime :=
  text ← bounded_string value 1 64 (verr "operator verifier time is invalid");
  normalized ← except_as is_time_error (verr "operator verifier time is invalid")
    (parsed ← match fromisoformat text with Some d => Ok d | None => Raise ValueError end;
     require_aware parsed (py "operator verifier time");;
     astimezone_utc parsed);
  raise_if (negb (bool_decide (isoformat normalized = text)))
    (verr "operator verifier time is not canonical UTC");;
  Ok normalized.

(** [OperatorPrincipal(...)] of JSON values: a value that is not a string is refused
where the empty string is, and with the same error. *)
Definition as_str (value : json) : pystr := match value with JStr s => s | _ => [] end.

Definition new_OperatorPrincipal (issuer tenant subject session_id client_id : json)
    (roles : list json) (authenticated_at expires_at : datetime) (mfa : json)
    : result OperatorPrincipal :=
  let principal := mkOperatorPrincipal (as_str issuer) (as_str tenant) (as_str subject)
    (as_str session_id) (as_str client_id) (as_str <$> roles) authenticated_at expires_at in
  match mfa with
  | JBool b => OperatorPrincipal_post_init printable (principal b)
  | _ =>
    check_values printable "operator " (operator_values (principal false));;
    Raise (verr "operator mfa is invalid")
  end.

Definition _decode_operator_principal (encoded : list Z) : result OperatorPrincipal :=
  value ← except_as is_syntax_error (verr "operator verifier response is invalid JSON")
    (text ← utf8_decode encoded; loads session_hooks depth text);
  match value with
  | JObj body =>
    raise_if (negb (keys_are body _RESPONSE_FIELDS))
      (verr "operator verifier response fields are not exact");;
    roles ← dict_get (py "roles") body;
    match roles with
    | JArr roles =>
      issuer ← dict_get (py "issuer") body;
      tenant ← dict_get (py "tenant") body;
      subject ← dict_get (py "subject") body;
      session_id ← dict_get (py "session_id") body;
      client_id ← dict_get (py "client_id") body;
      authenticated_at ← (dict_get (py "authenticated_at") body ≫= _parse_canonical_utc);
      expires_at ← (dict_get (py "expires_at") body ≫= _parse_canonical_utc);
      mfa ← dict_get (py "mfa") body;
      new_OperatorPrincipal issuer tenant subject session_id client_id roles
        authenticated_at expires_at mfa
    | _ => Raise (verr "operator verifier roles are invalid")
    end
  | _ => Raise (verr "operator verifier response fields are not exact")
  end.

(** ** The exchange *)
Definition verification_failed : exn :=
  AuthorizationError (py "operator session verification failed").

(** [isascii() and isdigit()] of the declared length, and its two limits. *)
Definition session_length_ok (value : pystr) : bool :=
  match value with [] => false | _ => forallb is_digit value end
  && (str_len value <=? 5)%Z
  && (digits_value value <=? MAX_OPERATOR_SESSION_RESPONSE_BYTES)%Z.

Definition present (header : option pystr) : bool := bool_decide (is_Some header).

Definition read_session (response : session_response) : result OperatorPrincipal :=
  match sv_getheader response (py "Content-Length") with
  | None => Raise verification_failed
  | Some content_length =>
    raise_if (negb (session_length_ok content_length)
              || present (sv_getheader response (py "Transfer-Encoding"))
              || present (sv_getheader response (py "Content-Encoding"))) verification_failed;;
    let declared_length := digits_value content_length in
    encoded ← sv_read response (declared_length + 1);
    raise_if (negb (Z.of_nat (length encoded) =? declared_length)%Z) verification_failed;;
    more ← sv_read_more response;
    raise_if (negb (bool_decide (more = []))) verification_failed;;
    raise_if (bool_decide (sv_status response ∈ [401; 403]%Z))
      (AuthorizationError (py "operator session was rejected"));;
    raise_if (negb (sv_status response =? 200)%Z) verification_failed;;
    raise_if (negb (bool_decide
        (sv_getheader response (py "Content-Type") = Some (py "application/json"))))
      verification_failed;;
    except_as is_ValidationError verification_failed (_decode_operator_principal encoded)
  end.

Definition session_headers (configuration : ClientConfiguration) (authorization : pystr)
    : list (pystr * pystr) :=
  [(py "Authorization", authorization);
   (py "Content-Length", py "0");
   (py "Accept", py "application/json");
   (py "Host", http_authority (cc_authority configuration) (cc_port configuration));
   (py "Connection", py "close")].

Definition verify (configuration : ClientConfiguration)
    (exchange : list (pystr * pystr) → result session_response)
    (authorization : pystr) (now : datetime) : result OperatorPrincipal :=
  require_aware now (py "now");;
  raise_if (negb ((1 <=? str_len authorization)
                  && (str_len authorization <=? MAX_AUTHORIZATION_HEADER_BYTES))%Z
            || negb (bearer_authorization authorization)) verification_failed;;
  except_as is_transport_error verification_failed
    (response ← exchange (session_headers configuration authorization); read_session response).

(** ** Outcomes of the decoder *)
Lemma astimezone_aware_raises d e : aware d = true → astimezone_utc d = Raise e → e = OverflowError.
Proof using Type.
  unfold aware, astimezone_utc, utcoffset. destruct (dt_tz d); try done.
  intros _. case_match; congruence.
Qed.

Lemma require_aware_outcome d f : outcome is_validation (λ _, aware d = true) (require_aware d f).
Proof using Type.
  destruct (require_aware d f) as [u|e] eqn:Hr; cbn [outcome]; [by apply require_aware_Ok in Hr|].
  unfold require_aware in Hr. destruct (utcoffset d) as [[]|]; [done|..]; injection Hr as <-; by eexists.
Qed.

Lemma check_values_outcome prefix values :
  outcome is_validation (λ _, True) (check_values printable prefix values).
Proof using Type.
  induction values as [|[[name n] v] values IH]; cbn [check_values]; [done|].
  eapply outcome_bind; [apply outcome_raise_if; by eexists|]. by intros [] _.
Qed.

Lemma post_init_raises q e : OperatorPrincipal_post_init printable q = Raise e → is_validation e.
Proof using Type.
  intros He. assert (Ho : outcome is_validation (λ _, True) (OperatorPrincipal_post_init printable q)).
  { clear. unfold OperatorPrincipal_post_init.
    eapply outcome_bind; [apply check_values_outcome|]. intros [] _.
    do 3 (eapply outcome_bind; [apply outcome_raise_if; by eexists|]; intros [] _).
    eapply outcome_bind; [apply require_aware_outcome|]. intros [] H1.
    eapply outcome_bind; [apply require_aware_outcome|]. intros [] H2.
    destruct (astimezone_utc (op_authenticated_at q)) as [t1|e1] eqn:E1; last first.
    { apply astimezone_aware_raises in E1 as ->; [|done]. by eexists. }
    destruct (astimezone_utc (op_expires_at q)) as [t2|e2] eqn:E2; last first.
    { apply astimezone_aware_raises in E2 as ->; [|done]. by eexists. }
    cbn [mbind result_bind except_as].
    eapply outcome_bind; [apply outcome_raise_if; by eexists|]. by intros [] _. }
  by rw He in Ho.
Qed.

Lemma new_principal_outcome i t s ss c roles a x mfa :
  outcome is_validation (principal_ok printable) (new_OperatorPrincipal i t s ss c roles a x mfa).
Proof using Type.
  unfold new_OperatorPrincipal. destruct mfa.
  2: { destruct (OperatorPrincipal_post_init _ _) eqn:He; cbn [outcome];
       [by eapply principal_post_init_Ok|by eapply post_init_raises]. }
  all: eapply outcome_bind; [apply check_values_outcome|]; intros [] _; by eexists.
Qed.

Lemma parse_canonical_outcome v :
  outcome is_validation (λ d, ∃ t, d = utc t ∧ v = JStr (isoformat d)) (_parse_canonical_utc v).
Proof using Type.
  unfold _parse_canonical_utc. destruct v as [| | | |s| |]; try by eexists.
  cbn [bounded_string]. eapply outcome_bind; [eapply outcome_bind; [apply outcome_raise_if; by eexists|]|].
  { intros [] _. exact (eq_refl s). }
  intros ? <-. destruct (fromisoformat s) as [d|]; cbn [mbind result_bind]; [|by eexists].
  pose proof (require_aware_outcome d (py "operator verifier time")) as Ha.
  destruct (require_aware d _) as [[]|e]; cbn [mbind result_bind outcome] in *; last first.
  { destruct Ha as [msg ->]. by eexists. }
  destruct (astimezone_utc d) as [n|e] eqn:En; cbn [mbind result_bind except_as]; last first.
  { apply astimezone_aware_raises in En as ->; [|done]. by eexists. }
  eapply outcome_bind; [apply outcome_raise_if; by eexists|].
  intros [] Hc%negb_false_iff%bool_decide_eq_true. apply astimezone_utc_Ok in En as [_ ->].
  eexists. by rw Hc.
Qed.

Lemma is_validation_decode {A} (P : A → Prop) r : outcome is_validation P r → outcome decode_error P r.
Proof using Type. destruct r; [done|]. by left. Qed.

Lemma response_fields_get body key :
  keys_are body _RESPONSE_FIELDS = true → key ∈ _RESPONSE_FIELDS →
  outcome decode_error (λ v, (key, v) ∈ body) (dict_get key body).
Proof using Type. intros Hk Hin. by eapply dict_get_outcome, keys_are_spec. Qed.

Lemma decode_principal_outcome encoded :
  outcome decode_error (principal_ok printable) (_decode_operator_principal encoded).
Proof using Type.
  unfold _decode_operator_principal.
  eapply outcome_bind; [apply parse_outcome; [by eexists|intros s; by eexists]|].
  intros v _. destruct v as [| | | | | |body]; try apply verr_decode.
  eapply outcome_bind; [apply outcome_raise_if, verr_decode|]. intros [] Hk%negb_false_iff.
  assert (Hget : ∀ key, key ∈ _RESPONSE_FIELDS →
    outcome decode_error (λ v, (key, v) ∈ body) (dict_get key body))
    by (intros key; by apply response_fields_get).
  eapply outcome_bind; [apply Hget; by apply (bool_decide_unpack _)|]. intros roles _.
  destruct roles as [| | | | |roles|]; try apply verr_decode.
  do 5 (eapply outcome_bind; [apply Hget; by apply (bool_decide_unpack _)|]; intros ? _).
  assert (Htime : ∀ v, outcome decode_error (λ _, True) (_parse_canonical_utc v)).
  { intros v. pose proof (is_validation_decode _ _ (parse_canonical_outcome v)) as Hv.
    by destruct (_parse_canonical_utc v). }
  do 2 (eapply outcome_bind;
    [eapply outcome_bind; [apply Hget; by apply (bool_decide_unpack _)|]; intros ? _; apply Htime|];
    intros ? _).
  eapply outcome_bind; [apply Hget; by apply (bool_decide_unpack _)|]. intros mfa _.
  apply is_validation_decode, new_principal_outcome.
Qed.

(** ** The client *)

(** What the HTTP library documents: a failing exchange or read raises a transport
error. *)
Record session_transport (exchange : list (pystr * pystr) → result session_response) : Prop := {
  st_exchange h e : exchange h = Raise e → is_transport_error e = true;
  st_read h r n e : exchange h = Ok r → sv_read r n = Raise e → is_transport_error e = true;
  st_more h r e : exchange h = Ok r → sv_read_more r = Raise e → is_transport_error e = true;
}.

(** The response a principal is taken from. *)
Record accepted_session (r : session_response) (p : OperatorPrincipal) : Prop := {
  as_status : sv_status r = 200%Z;
  as_type : sv_getheader r (py "Content-Type") = Some (py "application/json");
  as_plain : sv_getheader r (py "Transfer-Encoding") = None ∧
             sv_getheader r (py "Content-Encoding") = None;
  as_body : ∃ declared encoded, sv_getheader r (py "Content-Length") = Some declared ∧
    session_length_ok declared = true ∧ sv_read r (digits_value declared + 1) = Ok encoded ∧
    Z.of_nat (length encoded) = digits_value declared ∧ sv_read_more r = Ok [] ∧
    _decode_operator_principal encoded = Ok p;
}.

Definition verifier_error (e : exn) : Prop := (∃ msg, e = AuthorizationError msg) ∨ e = ValueError.

Lemma present_false h : present h = false → h = None.
Proof using Type. unfold present. intros Hn%bool_decide_eq_false. destruct h; [|done]. by destruct Hn. Qed.

Lemma read_session_outcome r :
  outcome (λ e, verifier_error e ∨ (∃ n, sv_read r n = Raise e) ∨ sv_read_more r = Raise e)
    (λ p, accepted_session r p ∧ principal_ok printable p) (read_session r).
Proof using Type.
  set (E := λ e, verifier_error e ∨ (∃ n, sv_read r n = Raise e) ∨ sv_read_more r = Raise e).
  assert (∀ msg, E (AuthorizationError msg)) as Ha by (intros msg; left; left; by eexists).
  unfold read_session, verification_failed.
  destruct (sv_getheader r (py "Content-Length")) as [cl|] eqn:Hcl; [|apply Ha].
  eapply outcome_bind; [by apply outcome_raise_if|].
  intros [] [[Hlen%negb_false_iff Hte%present_false]%orb_false_iff Hce%present_false]%orb_false_iff.
  cbv zeta. destruct (sv_read r (digits_value cl + 1)) as [encoded|e] eqn:Hread; [|right; left; by eexists].
  cbn [mbind result_bind].
  eapply outcome_bind; [by apply outcome_raise_if|]. intros [] Hn%negb_false_iff%Z.eqb_eq.
  destruct (sv_read_more r) as [more|e] eqn:Hmore; [|by right; right]. cbn [mbind result_bind].
  eapply outcome_bind; [by apply outcome_raise_if|]. intros [] Hnil%negb_false_iff%bool_decide_eq_true.
  eapply outcome_bind; [by apply outcome_raise_if|]. intros [] _.
  eapply outcome_bind; [by apply outcome_raise_if|]. intros [] Hst%negb_false_iff%Z.eqb_eq.
  eapply outcome_bind; [by apply outcome_raise_if|]. intros [] Hty%negb_false_iff%bool_decide_eq_true.
  pose proof (decode_principal_outcome encoded) as Ho.
  destruct (_decode_operator_principal encoded) as [p|e] eqn:Hd; cbn in Ho |- *.
  - split; [|exact Ho]. split; [exact Hst|exact Hty|by split|].
    exists cl, encoded. by subst more.
  - destruct Ho as [[msg ->]| ->]; [apply Ha|]. left. by right.
Qed.

Lemma verify_outcome configuration exchange authorization now :
  session_transport exchange → aware now = true →
  outcome verifier_error
    (λ p, principal_ok printable p ∧ bearer_authorization authorization = true ∧
      (str_len authorization ≤ MAX_AUTHORIZATION_HEADER_BYTES)%Z ∧
      ∃ r, exchange (session_headers configuration authorization) = Ok r ∧ accepted_session r p)
    (verify configuration exchange authorization now).
Proof using Type.
  intros [Hx Hr Hm] Haw. unfold verify. rw (proj2 (require_aware_Ok now _ tt) Haw).
  cbn [mbind result_bind]. eapply outcome_bind; [apply outcome_raise_if; left; by eexists|].
  intros [] [Hlen%negb_false_iff Hb%negb_false_iff]%orb_false_iff.
  set (h := session_headers _ _). destruct (exchange h) as [r|e] eqn:Hex; cbn [mbind result_bind].
  - pose proof (read_session_outcome r) as Ho. destruct (read_session r) as [p|e] eqn:Hp; cbn in *.
    + destruct Ho as [Hacc Hok]. split_and!; [done|done|lia|]. by exists r.
    + destruct (is_transport_error e) eqn:Ht; [left; by eexists|].
      destruct Ho as [Ho|[[n Ho]|Ho]]; [exact Ho|..].
      * by rw (Hr _ _ _ _ Hex Ho) in Ht.
      * by rw (Hm _ _ _ Hex Ho) in Ht.
  - cbn [except_as]. rw (Hx _ _ Hex). left. by eexists.
Qed.

(** ** A session read back *)
Definition principal_document (p : OperatorPrincipal) : json :=
  JObj [(py "issuer", JStr (op_issuer p)); (py "tenant", JStr (op_tenant p));
        (py "subject", JStr (op_subject p)); (py "session_id", JStr (op_session_id p));
        (py "client_id", JStr (op_client_id p)); (py "roles", JArr (JStr <$> op_roles p));
        (py "authenticated_at", JStr (isoformat (op_authenticated_at p)));
        (py "expires_at", JStr (isoformat (op_expires_at p)));
        (py "mfa", JBool (op_mfa p))].

(** Texts UTF-8 can encode. *)
Definition principal_scalar (p : OperatorPrincipal) : Prop :=
  forallb (forallb is_scalar)
    [op_issuer p; op_tenant p; op_subject p; op_session_id p; op_client_id p] = true ∧
  forallb (forallb is_scalar) (op_roles p) = true.

Lemma principal_document_wf p :
  principal_scalar p → json_wf (λ _, false) (principal_document p) = true.
Proof using Type.
  intros [Hv Hr]. cbn [forallb] in Hv. rw !andb_true_iff in Hv. destruct Hv as (H1 & H2 & H3 & H4 & H5 & _).
  apply json_wf_obj; [by apply (bool_decide_unpack _); vm_compute|].
  repeat (apply Forall_cons; split; [split; [reflexivity|]; cbn [snd]|]);
    [done|done|done|done|done|by apply wf_strings|apply isoformat_scalar|apply isoformat_scalar|done|by constructor].
Qed.

Lemma principal_document_depth p : json_depth (principal_document p) ≤ 2.
Proof using Type.
  assert (Hl : max_list (json_depth <$> (JStr <$> op_roles p)) = 0)
    by (rw -list_fmap_compose; by apply max_list_zero).
  cbn in *. rw Hl. done.
Qed.

Lemma length_decn n z : length (decn n z) = n.
Proof using Type. revert z. induction n as [|n IH]; intros z; [done|]. cbn [decn]. rw length_app IH /=. lia. Qed.

Lemma length_isoformat_utc t : (1 ≤ str_len (isoformat (utc t)) ≤ 64)%Z.
Proof using Type.
  unfold str_len, isoformat. cbn [dt_wall dt_tz utc]. destruct (ymd_of_days _) as [[y m] dd].
  change (iso_offset 0) with (py "+00:00"). unfold iso_time.
  repeat match goal with |- context [decn ?n ?z] =>
    let l := fresh "l" in let H := fresh "Hl" in
    pose proof (length_decn n z) as H; revert H; generalize (decn n z); intros l H
  end.
  case_match; rw !length_app; repeat match goal with H : length ?l = _ |- _ => rw !H; clear H l end;
    vm_compute; split; discriminate.
Qed.

Lemma read_canonical_utc t :
  dt_in_range t = true → fromisoformat (isoformat (utc t)) = Some (utc t) →
  _parse_canonical_utc (JStr (isoformat (utc t))) = Ok (utc t).
Proof using Type.
  intros Ht Hf. unfold _parse_canonical_utc, bounded_string, raise_if.
  pose proof (length_isoformat_utc t) as [H1 H2].
  rw (proj2 (Z.leb_le _ _) H1) (proj2 (Z.leb_le _ _) H2). cbn [negb andb mbind result_bind].
  rw Hf. cbn [mbind result_bind]. rw (proj2 (require_aware_Ok (utc t) _ tt)) //.
  cbn [mbind result_bind]. rw astimezone_utc_utc //. cbn [except_as mbind result_bind].
  by rw bool_decide_true.
Qed.

Lemma post_init_ok p : principal_ok printable p → OperatorPrincipal_post_init printable p = Ok p.
Proof using Type.
  intros [Hv Hs [[H1 H8] [Hnd Hr]] (t1 & t2 & E1 & E2 & Hlt & R1 & R2)].
  unfold OperatorPrincipal_post_init, operator_values, check_values.
  rw !Hv ?Hs; [|set_solver..]. cbn [raise_if mbind result_bind].
  assert (Hne : op_roles p ≠ []) by (intros E; rw E in H1; cbn in H1; lia).
  rw (bool_decide_eq_false_2 _ Hne).
  rw (proj2 (Z.ltb_ge _ _)); [|lia]. cbn [orb raise_if mbind result_bind].
  rw (_ : existsb _ (op_roles p) = false); last first.
  { apply not_true_iff_false. intros (r & Hin & Hb)%existsb_exists.
    apply list_elem_of_In in Hin. by rw (Hr r Hin) in Hb. }
  rw bool_decide_true //. cbn [negb raise_if mbind result_bind].
  rw E1 E2 (proj2 (require_aware_Ok (utc t1) _ tt)) // (proj2 (require_aware_Ok (utc t2) _ tt)) //.
  cbn [mbind result_bind]. rw (astimezone_utc_utc t1) // (astimezone_utc_utc t2) //.
  cbn [mbind result_bind except_as fst snd]. unfold dt_leb. rw !instant_utc.
  rw (proj2 (Z.leb_gt _ _)); [|lia]. cbn [raise_if mbind result_bind]. destruct p. cbn in *. by subst.
Qed.

Lemma as_str_roles (l : list pystr) : as_str <$> (JStr <$> l) = l.
Proof using Type. rw -list_fmap_compose. apply list_fmap_id. Qed.

(** [fromisoformat] inverts [isoformat] on the times of a session. *)
Definition times_readable (p : OperatorPrincipal) : Prop :=
  ∀ d, d ∈ [op_authenticated_at p; op_expires_at p] → fromisoformat (isoformat d) = Some d.

Lemma decode_principal_document p :
  principal_ok printable p → principal_scalar p → times_readable p → 2 ≤ depth →
  _decode_operator_principal (json_dumps false (principal_document p)) = Ok p.
Proof using Type.
  intros Hok Hs Ht Hdepth. pose proof (principal_document_wf p Hs) as Hwf.
  unfold _decode_operator_principal. rw (utf8_decode_ascii _ (ascii_dumps (λ _, false) _ Hwf)).
  cbn [mbind result_bind]. rw (loads_dumps session_hooks (λ _, false)); [|done| |done|]; last first.
  { pose proof (principal_document_depth p). lia. }
  { intros l. exact (unique_object_all _ l []). }
  cbn [except_as mbind result_bind principal_document].
  rw (_ : keys_are _ _RESPONSE_FIELDS = true); [|unfold keys_are; by apply bool_decide_eq_true_2].
  cbn [negb raise_if].
  pose proof (post_init_ok p Hok) as Hpost. destruct Hok as [_ _ _ (t1 & t2 & E1 & E2 & _ & R1 & R2)].
  eapply bind_eq; [reflexivity|]. cbv beta.
  assert (Hread : ∀ t, dt_in_range t = true → utc t ∈ [op_authenticated_at p; op_expires_at p] →
    _parse_canonical_utc (JStr (isoformat (utc t))) = Ok (utc t)).
  { intros t Hr Hin. apply read_canonical_utc; [done|]. by apply Ht. }
  step ltac:(repeat first [exact (dict_get_here _ _ _) | etrans; [apply dict_get_next; by vm_compute|]]).
  do 5 (step ltac:(repeat first [exact (dict_get_here _ _ _) | etrans; [apply dict_get_next; by vm_compute|]])).
  do 2 (step ltac:(eapply bind_eq;
    [repeat first [exact (dict_get_here _ _ _) | etrans; [apply dict_get_next; by vm_compute|]]|];
    cbv beta; rw ?E1 ?E2; apply Hread; [done|rw E1 E2; set_solver])).
  step ltac:(repeat first [exact (dict_get_here _ _ _) | etrans; [apply dict_get_next; by vm_compute|]]).
  unfold new_OperatorPrincipal. cbn [as_str]. rw as_str_roles. rw -E1 -E2 -Hpost. by destruct p.
Qed.

(** The reply of an identity provider that accepts the session. *)
Definition session_reply (body : list Z) : session_response :=
  mkSessionResponse 200
    (λ name, if bool_decide (name = py "Content-Length") then Some (int_str (Z.of_nat (length body)))
             else if bool_decide (name = py "Content-Type") then Some (py "application/json") else None)
    (λ n, Ok (take (Z.to_nat n) body)) (Ok []).

Lemma read_session_reply p :
  principal_ok printable p → principal_scalar p → times_readable p → 2 ≤ depth →
  (Z.of_nat (length (json_dumps false (principal_document p)))
     ≤ MAX_OPERATOR_SESSION_RESPONSE_BYTES)%Z →
  read_session (session_reply (json_dumps false (principal_document p))) = Ok p.
Proof using Type.
  intros Hok Hs Ht Hd. pose proof (decode_principal_document p Hok Hs Ht Hd) as Hdec.
  revert Hdec. generalize (json_dumps false (principal_document p)). intros body Hdec Hlen.
  unfold MAX_OPERATOR_SESSION_RESPONSE_BYTES in Hlen.
  unfold read_session. cbn [session_reply sv_getheader sv_read sv_read_more sv_status].
  rw (bool_decide_eq_true_2 (py "Content-Length" = py "Content-Length")) //.
  destruct (int_str_digits (Z.of_nat (length body)) ltac:(lia)) as (Hdig & Hval & Hne).
  rw (_ : session_length_ok (int_str (Z.of_nat (length body))) = true); last first.
  { unfold session_length_ok. rw Hval Hdig !andb_true_iff !Z.leb_le. unfold str_len.
    pose proof (int_str_length (Z.of_nat (length body)) 5 ltac:(lia) ltac:(lia)).
    split_and!; [by destruct (int_str _)|lia|exact Hlen]. }
  rw Hval. eapply bind_eq; [reflexivity|]. cbv beta. eapply bind_eq; [reflexivity|]. cbv beta.
  rw take_ge; [|lia]. rw (Z.eqb_refl (Z.of_nat (length body))). eapply bind_eq; [reflexivity|]. cbv beta.
  eapply bind_eq; [reflexivity|]. cbv beta. do 4 (eapply bind_eq; [reflexivity|]; cbv beta).
  by rw Hdec.
Qed.
End verifier.

(** C28: the session verifier fails closed. Over any transport that raises only
transport errors, [verify] at an aware time returns a principal only for a bearer
credential of bounded length that was itself sent, when the response had status 200,
the JSON content type, no transfer or content encoding, a declared length within the
limit and a body of exactly that length; the principal is what that body decodes to
and satisfies every check of its class. Every other answer, error or malformed body
raises [AuthorizationError], apart from the interpreter's [ValueError] for an integer
literal over its digit limit. *)
Theorem operator_verifier_fails_closed printable fromisoformat depth configuration exchange
    authorization now :
  session_transport exchange → aware now = true →
  match verify printable fromisoformat depth configuration exchange authorization now with
  | Ok p => principal_ok printable p ∧ bearer_authorization authorization = true ∧
      (str_len authorization ≤ MAX_AUTHORIZATION_HEADER_BYTES)%Z ∧
      ∃ r, exchange (session_headers configuration authorization) = Ok r ∧
        accepted_session printable fromisoformat depth r p
  | Raise e => verifier_error e
  end.
Proof.
  intros Htr Hnow.
  pose proof (verify_outcome printable fromisoformat depth configuration exchange authorization now
    Htr Hnow) as Ho.
  by destruct (verify _ _ _ _ _ _ _).
Qed.

(** A session is read back exactly. When the identity provider answers the request
for a well-formed credential with the canonical JSON of a valid principal, within the
size limit and with UTC times that [fromisoformat] reads, [verify] returns that very
principal. *)
Theorem operator_session_roundtrip printable fromisoformat depth configuration exchange
    authorization now p :
  principal_ok printable p → principal_scalar p → times_readable fromisoformat p → 2 ≤ depth →
  (Z.of_nat (length (json_dumps false (principal_document p)))
     ≤ MAX_OPERATOR_SESSION_RESPONSE_BYTES)%Z →
  aware now = true → bearer_authorization authorization = true →
  (1 ≤ str_len authorization ≤ MAX_AUTHORIZATION_HEADER_BYTES)%Z →
  exchange (session_headers configuration authorization)
    = Ok (session_reply (json_dumps false (principal_document p))) →
  verify printable fromisoformat depth configuration exchange authorization now = Ok p.
Proof.
  intros Hok Hs Ht Hd Hlen Hnow Hb [H1 H2] Hex. unfold verify.
  rw (proj2 (require_aware_Ok now _ tt) Hnow) (proj2 (Z.leb_le _ _) H1) (proj2 (Z.leb_le _ _) H2) Hb.
  cbn [negb andb orb raise_if mbind result_bind]. rw Hex. cbn [mbind result_bind].
  by rw (read_session_reply printable fromisoformat depth p).
Qed.

(** An identity provider that accepts one request. *)
Definition one_session (h0 : list (pystr * pystr)) (body : list Z) (h : list (pystr * pystr))
    : result session_response :=
  if bool_decide (h = h0) then Ok (session_reply body) else Raise OSError.

Lemma one_session_transport h0 body : session_transport (one_session h0 body).
Proof.
  split; unfold one_session.
  - intros h e. case_bool_decide; [done|]. by intros [= <-].
  - intros h r n e. case_bool_decide; [|done]. by intros [= <-].
  - intros h r e. case_bool_decide; [|done]. by intros [= <-].
Qed.

Module VerifierSample.

Definition configuration : ClientConfiguration :=
  mkClientConfiguration (py "10.0.0.5") 8443 (py "idp.internal") (py "/ca") (py "/c") (py "/k") (Finite (QArith_base.inject_Z 5)).
Definition principal : OperatorPrincipal :=
  mkOperatorPrincipal (py "https://idp") (py "t") (py "alice") (py "s1") (py "console") [py "viewer"]
    (utc (738000 * day)) (utc (738000 * day + hour)) true.
Definition body : list Z := json_dumps false (principal_document principal).
Definition fromiso (s : pystr) : option datetime :=
  if bool_decide (s = isoformat (op_authenticated_at principal))
  then Some (op_authenticated_at principal)
  else if bool_decide (s = isoformat (op_expires_at principal))
  then Some (op_expires_at principal) else None.
Definition authorization : pystr := py "Bearer abc.DEF-1==".
Definition exchange : list (pystr * pystr) → result session_response :=
  one_session (session_headers configuration authorization) body.
Definition now : datetime := utc (738000 * day + minute).

Lemma principal_fine : principal_ok (λ _, false) principal.
Proof. apply (principal_post_init_Ok _ principal). vm_compute. reflexivity. Qed.

Lemma exchange_transport : session_transport exchange.
Proof. apply one_session_transport. Qed.

End VerifierSample.

Lemma operator_verifier_fails_closed_witness :
  verify (λ _, false) VerifierSample.fromiso 2 VerifierSample.configuration VerifierSample.exchange
    VerifierSample.authorization VerifierSample.now = Ok VerifierSample.principal ∧
  principal_ok (λ _, false) VerifierSample.principal.
Proof.
  pose proof (operator_verifier_fails_closed (λ _, false) VerifierSample.fromiso 2
    VerifierSample.configuration VerifierSample.exchange VerifierSample.authorization VerifierSample.now
    VerifierSample.exchange_transport eq_refl) as H.
  assert (Hrun : verify (λ _, false) VerifierSample.fromiso 2 VerifierSample.configuration
    VerifierSample.exchange VerifierSample.authorization VerifierSample.now = Ok VerifierSample.principal)
    by (vm_compute; reflexivity).
  rw Hrun in H. split; [reflexivity|]. apply H.
Defined.

Lemma operator_session_roundtrip_witness :
  verify (λ _, false) VerifierSample.fromiso 2 VerifierSample.configuration VerifierSample.exchange
    VerifierSample.authorization VerifierSample.now = Ok VerifierSample.principal.
Proof.
  apply (operator_session_roundtrip (λ _, false) VerifierSample.fromiso 2 VerifierSample.configuration
    VerifierSample.exchange VerifierSample.authorization VerifierSample.now VerifierSample.principal).
  - exact VerifierSample.principal_fine.
  - split; reflexivity.
  - intros d Hd. apply elem_of_cons in Hd as [->|Hd]; [vm_compute; reflexivity|].
    apply list_elem_of_singleton in Hd as ->. vm_compute. reflexivity.
  - apply le_n.
  - vm_compute. discriminate.
  - reflexivity.
  - vm_compute. reflexivity.
  - vm_compute. split; discriminate.
  - vm_compute. reflexivity.
Defined.
