(* ===== verification/ServiceConfiguration.v ===== *)
(** * Service configurations

[load_agent_service_configuration] ([agent_service.py]) with the helpers it shares,
[load_enrollment_service_configuration] ([enrollment_service.py]) and
[load_operator_service_configuration] ([operator_service.py]). [printable] classifies
non-ASCII characters for [str.isprintable]; [depth] is the recursion limit of
[json.loads]. *)
From stdpp Require Import prelude strings gmap sorting pretty ssreflect.
From Stdlib Require Import QArith Qround.
From S2P Require Import Prelude Uuid PyTime Json Text JsonLoads JsonProofs JsonBytes Domain Codec AgentApi Http Net Configuration PyFloat Files Certificates Enrollment OperatorApi.

Set Warnings "-clear-no-such-hyp".
Local Close Scope Q_scope.

Definition MAX_SERVICE_CONFIGURATION_BYTES : Z := 16384.
(** [DEFAULT_DATABASE_OPERATION_TIMEOUT_SECONDS], 8.0. *)
Definition DEFAULT_DATABASE_OPERATION_TIMEOUT_SECONDS : json := JFloat (py "8.0").

Record AgentServiceConfiguration := mkAgentService {
  as_listener : AgentListenerConfiguration;
  as_database_dsn_credential : pystr;
  as_database_operation_timeout_seconds : pynumber;
}.

Record EnrollmentServiceConfiguration := mkEnrollmentService {
  es_listener : TLSListenerConfiguration;
  es_database_dsn_credential : pystr;
  es_database_operation_timeout_seconds : pynumber;
  es_issuer : ClientConfiguration;
  es_endpoint_issuer_trust_root : pystr;
}.

Record OperatorServiceConfiguration := mkOperatorService {
  ops_listener : TLSListenerConfiguration;
  ops_database_dsn_credential : pystr;
  ops_database_operation_timeout_seconds : pynumber;
  ops_verifier : ClientConfiguration;
  ops_policy : OperatorAuthorizationPolicy;
}.

Definition agent_required_fields : list pystr :=
  [py "bind_address"; py "port"; py "authority"; py "server_certificate"; py "server_private_key";
   py "endpoint_ca_certificate"; py "database_dsn_credential"].
Definition agent_optional_fields : list pystr :=
  [py "request_timeout_seconds"; py "database_operation_timeout_seconds"].

Definition enrollment_required_fields : list pystr :=
  [py "bind_address"; py "port"; py "authority"; py "server_certificate"; py "server_private_key";
   py "database_dsn_credential"; py "issuer_connect_address"; py "issuer_port"; py "issuer_authority";
   py "issuer_ca_certificate"; py "issuer_client_certificate"; py "issuer_client_private_key";
   py "endpoint_issuer_trust_root"].
Definition enrollment_optional_fields : list pystr :=
  [py "request_timeout_seconds"; py "database_operation_timeout_seconds"; py "issuer_timeout_seconds"].

Definition operator_required_fields : list pystr :=
  [py "bind_address"; py "port"; py "authority"; py "server_certificate"; py "server_private_key";
   py "database_dsn_credential"; py "verifier_connect_address"; py "verifier_port";
   py "verifier_authority"; py "verifier_ca_certificate"; py "verifier_client_certificate";
   py "verifier_client_private_key"; py "policy_issuer"; py "policy_tenant"; py "policy_subject";
   py "policy_client_id"].
Definition operator_optional_fields : list pystr :=
  [py "policy_required_role"; py "policy_maximum_session_age_seconds"; py "request_timeout_seconds";
   py "database_operation_timeout_seconds"; py "verifier_timeout_seconds"].

(** [value.get(key, default)]. *)
Definition get_or (key : string) (default : json) (fields : list (pystr * json)) : json :=
  match dict_get (py key) fields with Ok v => v | Raise _ => default end.

(** [json.loads(encoded, object_pairs_hook=...)] with its default numbers. *)
Definition service_hooks (name : string) : hooks :=
  mkHooks (unique_object (ValidationError (py name ++ py " service configuration has a duplicate field")) [])
    default_parse_int (λ c, Ok (JFloat c)).

(** [except (UnicodeDecodeError, json.JSONDecodeError)]. *)
Definition is_decode_error (e : exn) : bool :=
  match e with UnicodeDecodeError | JSONDecodeError => true | _ => false end.

(** [fields >= required and fields <= required | optional]. *)
Definition fields_exact (required optional : list pystr) (fields : list (pystr * json)) : bool :=
  forallb (λ k, bool_decide (k ∈ fields.*1)) required
  && forallb (λ k, bool_decide (k ∈ required ++ optional)) fields.*1.

(** The document of a service: one object with exact fields. *)
Definition service_document (depth : nat) (name : string) (required optional : list pystr) (encoded : list Z)
    : result (list (pystr * json)) :=
  let err (m : string) := ValidationError (py name ++ py m) in
  value ← except_as is_decode_error (err " service configuration is invalid JSON")
    (loads_bytes (service_hooks name) depth encoded);
  match value with
  | JObj fields =>
    raise_if (negb (fields_exact required optional fields)) (err " service configuration fields are not exact");;
    Ok fields
  | _ => Raise (err " service configuration must be an object")
  end.

(** [_bounded_number]: an [int] or a [float], not a [bool]. *)
Definition _bounded_number (value : json) (field : string) (minimum maximum : Z) : result pynumber :=
  let outside := ValidationError (py "agent service " ++ py field ++ py " is outside its allowed range") in
  match value with
  | JInt z => raise_if (negb ((minimum <=? z) && (z <=? maximum)))%Z outside;; Ok (Finite (inject_Z z))
  | JFloat raw => raise_if (negb (number_between minimum maximum (json_float raw))) outside;; Ok (json_float raw)
  | _ => Raise outside
  end.

(** [type(port) is not int or port == 0], and the check of a client's port. *)
Definition fixed_port (e : exn) (value : json) : result Z :=
  match value with JInt z => raise_if (z =? 0)%Z e;; Ok z | _ => Raise e end.
Definition integer_port (e : exn) (value : json) : result Z :=
  match value with JInt z => Ok z | _ => Raise e end.

Section loaders.
Context (printable : Z → bool) (depth : nat).

Definition _required_string (value : list (pystr * json)) (field : string) : result pystr :=
  candidate ← dict_get (py field) value;
  let invalid := ValidationError (py "agent service " ++ py field ++ py " is invalid") in
  match candidate with
  | JStr s => raise_if (str_empty s || negb (isprintable printable s)) invalid;; Ok s
  | _ => Raise invalid
  end.

Definition _absolute_path (value : list (pystr * json)) (field : string) : result pystr :=
  candidate ← _required_string value field;
  raise_if (negb (is_absolute candidate))
    (ValidationError (py "agent service " ++ py field ++ py " path must be absolute"));;
  Ok candidate.

Definition _optional_string (value : list (pystr * json)) (field : string) (default : pystr) : result pystr :=
  let invalid := ValidationError (py "operator service " ++ py field ++ py " must be a non-empty string") in
  match get_or field (JStr default) value with
  | JStr s => raise_if (str_empty s) invalid;; Ok s
  | _ => Raise invalid
  end.

(** The construction of a configuration object from a decoded document. *)
Definition agent_configuration (value : list (pystr * json)) : result AgentServiceConfiguration :=
  bind_address ← _required_string value "bind_address";
  port_value ← dict_get (py "port") value;
  port ← fixed_port (verr "agent service port must be a fixed integer") port_value;
  authority ← _required_string value "authority";
  request_timeout ← _bounded_number (get_or "request_timeout_seconds" (JFloat (py "10.0")) value)
    "request_timeout_seconds" 1 30;
  database_timeout ← _bounded_number
    (get_or "database_operation_timeout_seconds" DEFAULT_DATABASE_OPERATION_TIMEOUT_SECONDS value)
    "database_operation_timeout_seconds" 1 30;
  server_certificate ← _absolute_path value "server_certificate";
  server_private_key ← _absolute_path value "server_private_key";
  endpoint_ca_certificate ← _absolute_path value "endpoint_ca_certificate";
  let listener := mkAgentListenerConfiguration bind_address port authority server_certificate
    server_private_key endpoint_ca_certificate request_timeout in
  AgentListenerConfiguration_post_init listener;;
  database_dsn_credential ← _absolute_path value "database_dsn_credential";
  Ok (mkAgentService listener database_dsn_credential database_timeout).

Definition enrollment_configuration (value : list (pystr * json)) : result EnrollmentServiceConfiguration :=
  bind_address ← _required_string value "bind_address";
  port_value ← dict_get (py "port") value;
  port ← fixed_port (verr "enrollment service port must be a fixed integer") port_value;
  authority ← _required_string value "authority";
  server_certificate ← _absolute_path value "server_certificate";
  server_private_key ← _absolute_path value "server_private_key";
  request_timeout ← _bounded_number (get_or "request_timeout_seconds" (JFloat (py "10.0")) value)
    "request_timeout_seconds" 1 30;
  let listener := mkTLSListenerConfiguration bind_address port authority server_certificate
    server_private_key request_timeout in
  EnrollmentListenerConfiguration_post_init listener;;
  issuer_port_value ← dict_get (py "issuer_port") value;
  issuer_port ← integer_port (verr "enrollment service issuer_port must be an integer") issuer_port_value;
  connect_address ← _required_string value "issuer_connect_address";
  issuer_authority ← _required_string value "issuer_authority";
  ca_certificate ← _absolute_path value "issuer_ca_certificate";
  client_certificate ← _absolute_path value "issuer_client_certificate";
  client_private_key ← _absolute_path value "issuer_client_private_key";
  issuer_timeout ← _bounded_number (get_or "issuer_timeout_seconds" (JFloat (py "10.0")) value)
    "issuer_timeout_seconds" 1 30;
  let issuer := mkClientConfiguration connect_address issuer_port issuer_authority ca_certificate
    client_certificate client_private_key issuer_timeout in
  IssuerClientConfiguration_post_init issuer;;
  database_dsn_credential ← _absolute_path value "database_dsn_credential";
  database_timeout ← _bounded_number
    (get_or "database_operation_timeout_seconds" DEFAULT_DATABASE_OPERATION_TIMEOUT_SECONDS value)
    "database_operation_timeout_seconds" 1 30;
  endpoint_issuer_trust_root ← _absolute_path value "endpoint_issuer_trust_root";
  Ok (mkEnrollmentService listener database_dsn_credential database_timeout issuer endpoint_issuer_trust_root).

(** [timedelta(seconds=...)] of a bounded number. *)
Definition seconds (x : pynumber) : Z := match x with Finite q => timedelta_seconds q | NotFinite => 0%Z end.

Definition operator_configuration (value : list (pystr * json)) : result OperatorServiceConfiguration :=
  port_value ← dict_get (py "port") value;
  port ← fixed_port (verr "operator service port must be a fixed integer") port_value;
  bind_address ← _required_string value "bind_address";
  authority ← _required_string value "authority";
  server_certificate ← _absolute_path value "server_certificate";
  server_private_key ← _absolute_path value "server_private_key";
  request_timeout ← _bounded_number (get_or "request_timeout_seconds" (JFloat (py "10.0")) value)
    "request_timeout_seconds" 1 30;
  let listener := mkTLSListenerConfiguration bind_address port authority server_certificate
    server_private_key request_timeout in
  OperatorListenerConfiguration_post_init listener;;
  verifier_port_value ← dict_get (py "verifier_port") value;
  verifier_port ← integer_port (verr "operator verifier_port must be an integer") verifier_port_value;
  connect_address ← _required_string value "verifier_connect_address";
  verifier_authority ← _required_string value "verifier_authority";
  ca_certificate ← _absolute_path value "verifier_ca_certificate";
  client_certificate ← _absolute_path value "verifier_client_certificate";
  client_private_key ← _absolute_path value "verifier_client_private_key";
  verifier_timeout ← _bounded_number (get_or "verifier_timeout_seconds" (JFloat (py "5.0")) value)
    "verifier_timeout_seconds" 1 15;
  let verifier := mkClientConfiguration connect_address verifier_port verifier_authority ca_certificate
    client_certificate client_private_key verifier_timeout in
  OperatorVerifierConfiguration_post_init verifier;;
  issuer ← _required_string value "policy_issuer";
  tenant ← _required_string value "policy_tenant";
  subject ← _required_string value "policy_subject";
  client_id ← _required_string value "policy_client_id";
  required_role ← _optional_string value "policy_required_role" (py "viewer");
  session_age ← _bounded_number (get_or "policy_maximum_session_age_seconds" (JInt 43200) value)
    "policy_maximum_session_age_seconds" 300 86400;
  let policy := mkOperatorPolicy issuer tenant subject client_id required_role (seconds session_age) in
  OperatorAuthorizationPolicy_post_init printable policy;;
  database_dsn_credential ← _absolute_path value "database_dsn_credential";
  database_timeout ← _bounded_number
    (get_or "database_operation_timeout_seconds" DEFAULT_DATABASE_OPERATION_TIMEOUT_SECONDS value)
    "database_operation_timeout_seconds" 1 30;
  Ok (mkOperatorService listener database_dsn_credential database_timeout verifier policy).

Definition load_agent_service_configuration (path : pystr) : M host AgentServiceConfiguration :=
  encoded ← _read_regular_file path (py "agent service configuration") MAX_SERVICE_CONFIGURATION_BYTES false;
  lift (value ← service_document depth "agent" agent_required_fields agent_optional_fields encoded;
        agent_configuration value).

Definition load_enrollment_service_configuration (path : pystr) : M host EnrollmentServiceConfiguration :=
  encoded ← _read_regular_file path (py "enrollment service configuration") MAX_SERVICE_CONFIGURATION_BYTES false;
  lift (value ← service_document depth "enrollment" enrollment_required_fields enrollment_optional_fields encoded;
        enrollment_configuration value).

Definition load_operator_service_configuration (path : pystr) : M host OperatorServiceConfiguration :=
  encoded ← _read_regular_file path (py "operator service configuration") MAX_SERVICE_CONFIGURATION_BYTES false;
  lift (value ← service_document depth "operator" operator_required_fields operator_optional_fields encoded;
        operator_configuration value).
End loaders.

(** ** What a loaded configuration is *)
Section soundness.
Context (printable : Z → bool).

Definition text_ok (s : pystr) : Prop := s ≠ [] ∧ isprintable printable s = true.
Definition path_ok (s : pystr) : Prop := text_ok s ∧ head s = Some 47%Z.

Record agent_service_ok (c : AgentServiceConfiguration) : Prop := {
  aso_listener : agent_listener_ok (as_listener c);
  aso_port : ac_port (as_listener c) ≠ 0%Z;
  aso_texts : text_ok (ac_bind_address (as_listener c)) ∧ text_ok (ac_authority (as_listener c));
  aso_paths : Forall path_ok [ac_server_certificate (as_listener c); ac_server_private_key (as_listener c);
    ac_endpoint_ca_certificate (as_listener c); as_database_dsn_credential c];
  aso_database : timeout_within 1 30 (as_database_operation_timeout_seconds c);
}.

Record enrollment_service_ok (c : EnrollmentServiceConfiguration) : Prop := {
  eso_listener : tls_listener_ok (es_listener c);
  eso_port : tc_port (es_listener c) ≠ 0%Z;
  eso_texts : Forall text_ok [tc_bind_address (es_listener c); tc_authority (es_listener c);
    cc_connect_address (es_issuer c); cc_authority (es_issuer c)];
  eso_issuer : client_ok 30 (es_issuer c);
  eso_paths : Forall path_ok [tc_server_certificate (es_listener c); tc_server_private_key (es_listener c);
    cc_ca_certificate (es_issuer c); cc_client_certificate (es_issuer c); cc_client_private_key (es_issuer c);
    es_database_dsn_credential c; es_endpoint_issuer_trust_root c];
  eso_database : timeout_within 1 30 (es_database_operation_timeout_seconds c);
}.

(** A policy pins an issuer, a tenant, a subject, a client and a role, and sessions live
between five minutes and a day. *)
Record policy_ok (p : OperatorAuthorizationPolicy) : Prop := {
  po_values : Forall (λ v : Z * pystr, value_invalid printable v.1 v.2 = false)
    [(512%Z, pol_issuer p); (512%Z, pol_tenant p); (256%Z, pol_subject p); (512%Z, pol_client_id p);
     (64%Z, pol_required_role p)];
  po_age : (5 * minute ≤ pol_maximum_session_age p ≤ 24 * hour)%Z;
}.

Record operator_service_ok (c : OperatorServiceConfiguration) : Prop := {
  oso_listener : tls_listener_ok (ops_listener c);
  oso_port : tc_port (ops_listener c) ≠ 0%Z;
  oso_texts : Forall text_ok [tc_bind_address (ops_listener c); tc_authority (ops_listener c);
    cc_connect_address (ops_verifier c); cc_authority (ops_verifier c)];
  oso_verifier : client_ok 15 (ops_verifier c);
  oso_policy : policy_ok (ops_policy c);
  oso_paths : Forall path_ok [tc_server_certificate (ops_listener c); tc_server_private_key (ops_listener c);
    cc_ca_certificate (ops_verifier c); cc_client_certificate (ops_verifier c);
    cc_client_private_key (ops_verifier c); ops_database_dsn_credential c];
  oso_database : timeout_within 1 30 (ops_database_operation_timeout_seconds c);
}.

(** *** The helpers *)
Definition invalid (e : exn) : Prop := is_ValidationError e = true.

Lemma dict_get_in key (value : list (pystr * json)) : key ∈ value.*1 → ∃ v, dict_get key value = Ok v.
Proof using Type.
  intros ([k v] & -> & Hin)%list_elem_of_fmap. unfold dict_get.
  destruct (find _ value) as [f|] eqn:Hf; [by eexists|].
  exfalso. apply list_elem_of_In, (find_none _ _ Hf (k, v)) in Hin. cbn in Hin.
  by rw bool_decide_true in Hin.
Qed.

Lemma field_outcome key (value : list (pystr * json)) :
  key ∈ value.*1 → outcome invalid (λ _, True) (dict_get key value).
Proof using Type. by intros [v ->]%dict_get_in. Qed.

Lemma required_string_outcome value field :
  py field ∈ value.*1 → outcome invalid text_ok (_required_string printable value field).
Proof using Type.
  intros [v Hv]%dict_get_in. unfold _required_string. rw Hv. cbn [mbind result_bind].
  destruct v as [| | | |s| |]; try done.
  destruct (str_empty s || negb (isprintable printable s)) eqn:Hs; [done|].
  apply orb_false_iff in Hs as [H1 H2%negb_false_iff]. split; [by destruct s|done].
Qed.

Lemma absolute_path_outcome value field :
  py field ∈ value.*1 → outcome invalid path_ok (_absolute_path printable value field).
Proof using Type.
  intros Hin. unfold _absolute_path. eapply outcome_bind; [by apply required_string_outcome|].
  intros s Hs. destruct (is_absolute s) eqn:Ha; [|done]. split; [done|].
  by apply bool_decide_eq_true in Ha.
Qed.

Lemma bounded_number_outcome value field lo hi :
  outcome invalid (timeout_within lo hi) (_bounded_number value field lo hi).
Proof using Type.
  unfold _bounded_number. destruct value as [| |z|raw| | |]; try done.
  - destruct (_ && _) eqn:Hz; [|done]. exists (inject_Z z). split; [done|].
    rw -!Zle_Qle. lia.
  - destruct (number_between lo hi (json_float raw)) eqn:Hn; [|done]. by apply number_between_spec.
Qed.

Lemma fixed_port_outcome m value : outcome invalid (λ z, z ≠ 0%Z) (fixed_port (ValidationError m) value).
Proof using Type. destruct value as [| |z| | | |]; try done. cbn. by destruct (Z.eqb_spec z 0). Qed.

Lemma integer_port_outcome m value : outcome invalid (λ _, True) (integer_port (ValidationError m) value).
Proof using Type. by destruct value. Qed.

Lemma optional_string_outcome value field default :
  outcome invalid (λ _, True) (_optional_string value field default).
Proof using Type. unfold _optional_string. destruct (get_or _ _ _); try done. by destruct (str_empty _). Qed.

Lemma validates_outcome (r : result unit) P : validates r P → outcome invalid (λ _, P) r.
Proof using Type. intros [Hok Hraise]. destruct r as [[]|e]; cbn; [by apply Hok|by apply Hraise]. Qed.

Lemma check_values_ok prefix values :
  validates (check_values printable prefix values)
    (Forall (λ v : string * Z * pystr, value_invalid printable v.1.2 v.2 = false) values).
Proof using Type.
  induction values as [|[[name maximum] v] values [IHo IHr]]; cbn [check_values]; [by repeat split|].
  split; [|by apply raises_validation; [apply raise_if_validation|]].
  by rw result_seq_Ok raise_if_Ok IHo Forall_cons.
Qed.

Lemma policy_post_init_ok p : validates (OperatorAuthorizationPolicy_post_init printable p) (policy_ok p).
Proof using Type.
  unfold OperatorAuthorizationPolicy_post_init.
  pose proof (check_values_ok "operator policy "
    [("issuer", 512%Z, pol_issuer p); ("tenant", 512%Z, pol_tenant p); ("subject", 256%Z, pol_subject p);
     ("client_id", 512%Z, pol_client_id p); ("required_role", 64%Z, pol_required_role p)]) as [Hok Hraise].
  split; [|by apply raises_validation; [|apply raise_if_validation]].
  rw result_seq_Ok raise_if_Ok Hok negb_false_iff andb_true_iff !Z.leb_le.
  split; [intros [H1 H2]|intros [H1 H2]]; (split; [|lia]); rw !Forall_cons in H1 |- *; cbn in *; naive_solver.
Qed.

(** *** The documents *)
Definition has_fields (required : list pystr) (value : list (pystr * json)) : Prop :=
  ∀ k, bool_decide (k ∈ required) = true → k ∈ value.*1.

Ltac next_outcome :=
  eapply outcome_bind;
  [ first [ apply required_string_outcome | apply absolute_path_outcome | apply bounded_number_outcome
          | apply fixed_port_outcome | apply integer_port_outcome | apply optional_string_outcome
          | apply field_outcome
          | apply validates_outcome, agent_checks_ok | apply validates_outcome, listener_checks_ok
          | apply validates_outcome, client_checks_ok | apply validates_outcome, policy_post_init_ok ];
    match goal with H : has_fields _ _ |- _ => apply H; vm_compute; reflexivity | _ => idtac end
  | intros ? ? ].

Lemma agent_configuration_outcome value :
  has_fields agent_required_fields value →
  outcome invalid agent_service_ok (agent_configuration printable value).
Proof using Type.
  intros Hreq. unfold agent_configuration. repeat next_outcome. split; cbn; try done.
  by rw !Forall_cons Forall_nil.
Qed.

Lemma enrollment_configuration_outcome value :
  has_fields enrollment_required_fields value →
  outcome invalid enrollment_service_ok (enrollment_configuration printable value).
Proof using Type.
  intros Hreq. unfold enrollment_configuration. repeat next_outcome.
  split; cbn; try done; by rw !Forall_cons Forall_nil.
Qed.

Lemma operator_configuration_outcome value :
  has_fields operator_required_fields value →
  outcome invalid operator_service_ok (operator_configuration printable value).
Proof using Type.
  intros Hreq. unfold operator_configuration. repeat next_outcome.
  split; cbn; try done; by rw !Forall_cons Forall_nil.
Qed.
End soundness.

(** ** Loading *)

(** A document is refused with a [ValidationError], or with the interpreter's own error
for an integer of more than 4,300 digits or too deep a nesting. *)
Definition document_error (e : exn) : Prop := is_ValidationError e = true ∨ e = ValueError ∨ e = RecursionError.

Lemma parse_int_raises s e : default_parse_int s = Raise e → e = ValueError.
Proof. unfold default_parse_int. cbv zeta. by intros [[_ ->]%raise_if_Raise|[_ ?]]%result_seq_Raise. Qed.

Lemma fields_unique_raises m acc l e :
  unique_object (ValidationError m) acc l = Raise e → is_ValidationError e = true.
Proof.
  revert acc. induction l as [|[k v] l IH]; intros acc; cbn [unique_object]; [done|].
  by intros [[_ ->]%raise_if_Raise|[_ ?]]%result_seq_Raise; [|eapply IH].
Qed.

Lemma service_document_outcome depth name required optional encoded :
  outcome document_error
    (λ value, has_fields required value ∧ ∀ k, k ∈ value.*1 → k ∈ required ++ optional)
    (service_document depth name required optional encoded).
Proof.
  unfold service_document. cbv zeta.
  eapply (outcome_bind document_error (λ _, True)).
  - destruct (loads_bytes _ depth encoded) as [v|e] eqn:Hl; [done|].
    assert (He : e = UnicodeDecodeError ∨ e = JSONDecodeError ∨ document_error e).
    { unfold loads_bytes in Hl. destruct (decode_as _ encoded) as [text|e'] eqn:Hd; cbn [mbind result_bind] in Hl.
      - right. revert Hl. apply (loads_text_raises _ (λ e, e = JSONDecodeError ∨ document_error e)).
        + by left.
        + right. right. by right.
        + intros l e'' Hu. right. left. exact (fields_unique_raises _ _ _ _ Hu).
        + intros s e'' Hi. right. right. left. exact (parse_int_raises _ _ Hi).
        + done.
      - injection Hl as <-. left. by eapply decode_as_raises. }
    cbn. destruct He as [-> |[-> |He]]; [by left..|]. destruct (is_decode_error e); [by left|done].
  - intros v _. destruct v as [| | | | | |fields]; try by left.
    destruct (fields_exact required optional fields) eqn:Hf; [|by left]. unfold fields_exact in Hf.
    apply andb_true_iff in Hf as [H1 H2]. rw !forallb_forall in H1 H2. split.
    + intros k Hk%bool_decide_eq_true. apply (bool_decide_eq_true (k ∈ fields.*1)), H1. by apply list_elem_of_In.
    + intros k Hk. apply (bool_decide_eq_true (k ∈ required ++ optional)), H2. by apply list_elem_of_In.
Qed.

(** What reading and decoding a configuration may raise. *)
Definition load_error (path : pystr) (e : exn) : Prop := open_error path e ∨ document_error e.

Lemma load_outcome {A} path label (parse : list Z → result A) (P : A → Prop) h :
  (∀ encoded, outcome document_error P (parse encoded)) →
  let '(h', r) := (encoded ← _read_regular_file path label MAX_SERVICE_CONFIGURATION_BYTES false;
                   lift (parse encoded)) h in
  released h h' ∧ outcome (load_error path) P r.
Proof.
  intros Hp. unfold mbind, M_bind.
  pose proof (read_regular_file_released path label MAX_SERVICE_CONFIGURATION_BYTES false h) as Hrel.
  pose proof (read_regular_file_raises path label MAX_SERVICE_CONFIGURATION_BYTES false ltac:(done) h) as Hr.
  destruct (_read_regular_file _ _ _ _ h) as [h' [b|e]]; (split; [done|]).
  - eapply outcome_mono; [apply Hp| |done]. intros e He. by right.
  - by left.
Qed.

Lemma document_then {A} depth name required optional (parse : list (pystr * json) → result A) (P : A → Prop) encoded :
  (∀ value, has_fields required value → outcome invalid P (parse value)) →
  outcome document_error P (value ← service_document depth name required optional encoded; parse value).
Proof.
  intros Hp. eapply outcome_bind; [apply service_document_outcome|]. intros value [Hf _].
  eapply outcome_mono; [by apply Hp| |done]. intros e He. by left.
Qed.

(** C26: service configurations are loaded safely. Whatever the file holds and however it is
interfered with, each of the three loaders closes its descriptor and either raises (a validation
error, or the error of a system call, of an integer literal over the interpreter's limit or of nested
arrays), or returns a configuration in which every check holds: a private fixed address, a DNS or
listener authority, timeouts within their ranges, absolute printable paths and, for the operator
service, a policy that pins every identity and bounds the age of sessions. *)
Theorem service_configurations_safe printable depth path h :
  (let '(h', r) := load_agent_service_configuration printable depth path h in
   released h h' ∧ outcome (load_error path) (agent_service_ok printable) r) ∧
  (let '(h', r) := load_enrollment_service_configuration printable depth path h in
   released h h' ∧ outcome (load_error path) (enrollment_service_ok printable) r) ∧
  (let '(h', r) := load_operator_service_configuration printable depth path h in
   released h h' ∧ outcome (load_error path) (operator_service_ok printable) r).
Proof.
  split; [|split]; apply load_outcome; intros encoded; apply document_then; intros value.
  - apply agent_configuration_outcome.
  - apply enrollment_configuration_outcome.
  - apply operator_configuration_outcome.
Qed.

(** ** Writing a configuration *)
Definition number_json (x : pynumber) : json :=
  match x with Finite (Qmake z 1) => JInt z | _ => JNull end.
Definition whole (x : pynumber) : Prop := ∃ z, x = Finite (inject_Z z).

Definition listener_fields (address : pystr) (port : Z) (authority certificate key dsn : pystr)
    (request database : pynumber) : list (pystr * json) :=
  [(py "bind_address", JStr address); (py "port", JInt port); (py "authority", JStr authority);
   (py "server_certificate", JStr certificate); (py "server_private_key", JStr key);
   (py "database_dsn_credential", JStr dsn); (py "request_timeout_seconds", number_json request);
   (py "database_operation_timeout_seconds", number_json database)].

Definition agent_document (c : AgentServiceConfiguration) : list (pystr * json) :=
  let l := as_listener c in
  listener_fields (ac_bind_address l) (ac_port l) (ac_authority l) (ac_server_certificate l)
    (ac_server_private_key l) (as_database_dsn_credential c) (ac_request_timeout_seconds l)
    (as_database_operation_timeout_seconds c) ++
  [(py "endpoint_ca_certificate", JStr (ac_endpoint_ca_certificate l))].

Definition enrollment_document (c : EnrollmentServiceConfiguration) : list (pystr * json) :=
  let l := es_listener c in let k := es_issuer c in
  listener_fields (tc_bind_address l) (tc_port l) (tc_authority l) (tc_server_certificate l)
    (tc_server_private_key l) (es_database_dsn_credential c) (tc_request_timeout_seconds l)
    (es_database_operation_timeout_seconds c) ++
  [(py "issuer_connect_address", JStr (cc_connect_address k)); (py "issuer_port", JInt (cc_port k));
   (py "issuer_authority", JStr (cc_authority k)); (py "issuer_ca_certificate", JStr (cc_ca_certificate k));
   (py "issuer_client_certificate", JStr (cc_client_certificate k));
   (py "issuer_client_private_key", JStr (cc_client_private_key k));
   (py "issuer_timeout_seconds", number_json (cc_timeout_seconds k));
   (py "endpoint_issuer_trust_root", JStr (es_endpoint_issuer_trust_root c))].

Definition operator_document (c : OperatorServiceConfiguration) : list (pystr * json) :=
  let l := ops_listener c in let k := ops_verifier c in let p := ops_policy c in
  listener_fields (tc_bind_address l) (tc_port l) (tc_authority l) (tc_server_certificate l)
    (tc_server_private_key l) (ops_database_dsn_credential c) (tc_request_timeout_seconds l)
    (ops_database_operation_timeout_seconds c) ++
  [(py "verifier_connect_address", JStr (cc_connect_address k)); (py "verifier_port", JInt (cc_port k));
   (py "verifier_authority", JStr (cc_authority k)); (py "verifier_ca_certificate", JStr (cc_ca_certificate k));
   (py "verifier_client_certificate", JStr (cc_client_certificate k));
   (py "verifier_client_private_key", JStr (cc_client_private_key k));
   (py "verifier_timeout_seconds", number_json (cc_timeout_seconds k));
   (py "policy_issuer", JStr (pol_issuer p)); (py "policy_tenant", JStr (pol_tenant p));
   (py "policy_subject", JStr (pol_subject p)); (py "policy_client_id", JStr (pol_client_id p));
   (py "policy_required_role", JStr (pol_required_role p));
   (py "policy_maximum_session_age_seconds", JInt (pol_maximum_session_age p / 1000000))].

(** The members of a [Forall], one hypothesis each. *)
Ltac all_paths H := rw !Forall_cons in H; decompose [and] H; clear H.

Section writing.
Context (printable : Z → bool).

Lemma required_string_written value field s :
  dict_get (py field) value = Ok (JStr s) → text_ok printable s → _required_string printable value field = Ok s.
Proof using Type.
  intros Hg [Hne Hp]. unfold _required_string. rw Hg. cbn [mbind result_bind]. rw Hp. by destruct s.
Qed.

Lemma absolute_path_written value field s :
  dict_get (py field) value = Ok (JStr s) → path_ok printable s → _absolute_path printable value field = Ok s.
Proof using Type.
  intros Hg [Ht Ha]. unfold _absolute_path. rw (required_string_written _ _ _ Hg Ht). cbn [mbind result_bind].
  unfold is_absolute. by rw bool_decide_true.
Qed.

Lemma bounded_number_written value field default name lo hi x :
  dict_get (py field) value = Ok (number_json x) → whole x → timeout_within lo hi x →
  _bounded_number (get_or field default value) name lo hi = Ok x.
Proof using Type.
  intros Hg [z ->] (q & Hq & H1 & H2). injection Hq as <-. unfold get_or. rw Hg. cbn [number_json inject_Z].
  unfold _bounded_number. rw -Zle_Qle in H1. rw -Zle_Qle in H2.
  by replace ((lo <=? z) && (z <=? hi))%Z with true by lia.
Qed.

(** [timedelta(seconds=n)] of a whole number. *)
Lemma seconds_whole z : seconds (Finite (inject_Z z)) = (z * 1000000)%Z.
Proof using Type.
  cbn [seconds]. unfold timedelta_seconds. rw Qfloor_Z. cbv zeta.
  assert (H0 : round_Q ((inject_Z z - inject_Z z) * inject_Z 1000000)%Q = Finite 0).
  { unfold round_Q. cbn [Qnum Qden inject_Z Qmult Qminus Qplus Qopp].
    replace ((z * 1 + - z * 1) * 1000000)%Z with 0%Z by lia. reflexivity. }
  rw H0. cbn [Qfloor]. replace (match _ with Eq => _ | Lt => _ | Gt => _ end) with (z * 1000000 + 0)%Z by reflexivity. lia.
Qed.

Lemma session_age_written value p :
  dict_get (py "policy_maximum_session_age_seconds") value = Ok (JInt (p / 1000000)) →
  (p mod 1000000 = 0)%Z → (5 * minute ≤ p ≤ 24 * hour)%Z →
  ∃ x, _bounded_number (get_or "policy_maximum_session_age_seconds" (JInt 43200) value)
    "policy_maximum_session_age_seconds" 300 86400 = Ok x ∧ seconds x = p.
Proof using Type.
  intros Hg Hm Hp. exists (Finite (inject_Z (p / 1000000))). unfold get_or. rw Hg. unfold _bounded_number.
  pose proof (Z.div_mod p 1000000 ltac:(lia)) as Hd. unfold hour, minute, second in Hp.
  replace ((300 <=? p / 1000000) && (p / 1000000 <=? 86400))%Z with true by lia. split; [done|].
  rw seconds_whole. lia.
Qed.

(** Every step of a constructor reads the field that was written. *)
Ltac next_written :=
  match goal with
  | |- context [_required_string printable ?v ?f] => rw (required_string_written v f _ eq_refl); [|done]
  | |- context [_absolute_path printable ?v ?f] => rw (absolute_path_written v f _ eq_refl); [|done]
  | |- context [_bounded_number (get_or ?f ?d ?v) ?n ?lo ?hi] =>
    rw (bounded_number_written v f d n lo hi _ eq_refl); [|done|done]
  end; cbn [mbind result_bind].

Lemma agent_configuration_written c :
  agent_service_ok printable c → whole (ac_request_timeout_seconds (as_listener c)) →
  whole (as_database_operation_timeout_seconds c) →
  agent_configuration printable (agent_document c) = Ok c.
Proof using Type.
  destruct c as [[addr port auth cert key ca req] dsn db].
  intros [Hl Hport [Hb Ha] Hpaths Hdb] Hw1 Hw2. cbn in Hport, Hb, Ha, Hpaths, Hdb, Hw1, Hw2. all_paths Hpaths.
  pose proof (alo_timeout _ Hl) as Hreq. cbn in Hreq. unfold agent_configuration.
  next_written. change (dict_get (py "port") _) with (Ok (JInt port)). cbn [mbind result_bind fixed_port].
  rw (proj2 (Z.eqb_neq port 0) Hport). cbn [raise_if mbind result_bind]. repeat next_written.
  rw (proj2 (proj1 (agent_checks_ok _)) Hl). cbn [mbind result_bind]. by repeat next_written.
Qed.

Lemma enrollment_configuration_written c :
  enrollment_service_ok printable c → whole (tc_request_timeout_seconds (es_listener c)) →
  whole (cc_timeout_seconds (es_issuer c)) → whole (es_database_operation_timeout_seconds c) →
  enrollment_configuration printable (enrollment_document c) = Ok c.
Proof using Type.
  destruct c as [[addr port auth cert key req] dsn db [iaddr iport iauth ica icert ikey itime] root].
  intros [Hl Hport Htexts Hi Hpaths Hdb] Hw1 Hw2 Hw3. cbn in Hport, Htexts, Hpaths, Hdb, Hw1, Hw2, Hw3.
  all_paths Htexts. all_paths Hpaths.
  pose proof (tlo_timeout _ Hl) as Hreq. pose proof (clo_timeout _ _ Hi) as Hit. cbn in Hreq, Hit.
  cbn [es_listener es_issuer] in Hl, Hi.
  unfold enrollment_configuration, EnrollmentListenerConfiguration_post_init, IssuerClientConfiguration_post_init.
  change (dict_get (py "port") _) with (Ok (JInt port)). change (dict_get (py "issuer_port") _) with (Ok (JInt iport)).
  repeat next_written. cbn [fixed_port]. rw (proj2 (Z.eqb_neq port 0) Hport). cbn [raise_if mbind result_bind].
  repeat next_written. rw (proj2 (proj1 (listener_checks_ok _ _)) Hl). cbn [mbind result_bind integer_port].
  repeat next_written. by rw (proj2 (proj1 (client_checks_ok _ _ _)) Hi).
Qed.

Lemma policy_texts p : policy_ok printable p →
  text_ok printable (pol_issuer p) ∧ text_ok printable (pol_tenant p) ∧ text_ok printable (pol_subject p) ∧
  text_ok printable (pol_client_id p) ∧ text_ok printable (pol_required_role p).
Proof using Type.
  intros [Hv _]. all_paths Hv. cbn in *.
  assert (Hok : ∀ n s, value_invalid printable n s = false → text_ok printable s).
  { intros n s. unfold value_invalid. rw !orb_false_iff negb_false_iff. intros [[Hnil _] Hpr].
    split; [by destruct s|done]. }
  split_and!; by eapply Hok.
Qed.

Lemma optional_string_written value field default s :
  dict_get (py field) value = Ok (JStr s) → text_ok printable s → _optional_string value field default = Ok s.
Proof using Type. intros Hg [Hne _]. unfold _optional_string, get_or. rw Hg. by destruct s. Qed.

Lemma operator_configuration_written c :
  operator_service_ok printable c → whole (tc_request_timeout_seconds (ops_listener c)) →
  whole (cc_timeout_seconds (ops_verifier c)) → whole (ops_database_operation_timeout_seconds c) →
  (pol_maximum_session_age (ops_policy c) mod 1000000 = 0)%Z →
  operator_configuration printable (operator_document c) = Ok c.
Proof using Type.
  destruct c as [[addr port auth cert key req] dsn db [vaddr vport vauth vca vcert vkey vtime] [iss ten sub cli role age]].
  intros [Hl Hport Htexts Hi Hpol Hpaths Hdb] Hw1 Hw2 Hw3 Hage. cbn in Hport, Htexts, Hpaths, Hdb, Hw1, Hw2, Hw3, Hage.
  all_paths Htexts. all_paths Hpaths. cbn [ops_listener ops_verifier ops_policy] in Hl, Hi, Hpol.
  destruct (policy_texts _ Hpol) as (? & ? & ? & ? & Hrole).
  pose proof (tlo_timeout _ Hl) as Hreq. pose proof (clo_timeout _ _ Hi) as Hit. cbn in Hreq, Hit.
  unfold operator_configuration, OperatorListenerConfiguration_post_init, OperatorVerifierConfiguration_post_init.
  change (dict_get (py "port") _) with (Ok (JInt port)). change (dict_get (py "verifier_port") _) with (Ok (JInt vport)).
  cbn [mbind result_bind fixed_port]. rw (proj2 (Z.eqb_neq port 0) Hport). cbn [raise_if mbind result_bind].
  repeat next_written. rw (proj2 (proj1 (listener_checks_ok _ _)) Hl). cbn [mbind result_bind integer_port].
  repeat next_written. rw (proj2 (proj1 (client_checks_ok _ _ _)) Hi). cbn [mbind result_bind].
  match goal with |- context [_optional_string ?v ?f ?d] =>
    rw (optional_string_written v f d role eq_refl Hrole); cbn [mbind result_bind];
    destruct (session_age_written v age eq_refl Hage (po_age _ _ Hpol)) as (x & Hx & Hs) end.
  rw Hx. cbn [mbind result_bind].
  rw Hs (proj2 (proj1 (policy_post_init_ok printable _)) Hpol). done.
Qed.
End writing.

(** ** The round trip *)
Section roundtrip.
Context (printable : Z → bool).
(** Surrogates are not printable. *)
Hypothesis printable_scalar : ∀ c, printable c = true → is_scalar c = true.

Definition small_int (z : Z) : bool := ((0 <=? z) && (z <? 10 ^ 9))%Z.

Lemma small_int_parsed z : small_int z = true → default_parse_int (int_str z) = Ok (JInt z).
Proof using Type.
  unfold small_int. intros Hz. destruct (int_str_digits z ltac:(lia)) as (Hd & Hv & Hne).
  pose proof (int_str_length z 9 ltac:(lia) ltac:(lia)) as Hlen. unfold default_parse_int.
  destruct (int_str z) as [|c s] eqn:E; [done|]. cbn [forallb] in Hd. apply andb_true_iff in Hd as [Hc _].
  unfold is_digit in Hc. replace (c =? 45)%Z with false by lia. cbv zeta. unfold str_len, INT_MAX_STR_DIGITS.
  rw (proj2 (Z.ltb_ge 4300 (Z.of_nat (length (c :: s))))); [|lia]. cbn [raise_if mbind result_bind]. by rw Hv.
Qed.

Lemma text_scalar s : text_ok printable s → forallb is_scalar s = true.
Proof using printable_scalar.
  intros [_ Hp]. revert Hp. apply forallb_mono. intros c. destruct (Z.ltb_spec c 128) as [Hc|Hc].
  - intros Hr. apply is_scalar_spec. lia.
  - apply printable_scalar.
Qed.

Lemma number_wf x lo hi :
  (0 ≤ lo)%Z → (hi ≤ 1000)%Z → whole x → timeout_within lo hi x → json_wf small_int (number_json x) = true.
Proof using Type.
  intros Hlo Hhi [z ->] (q & Hq & H1 & H2). injection Hq as <-. rw -Zle_Qle in H1. rw -Zle_Qle in H2.
  cbn. unfold small_int. lia.
Qed.

Lemma port_wf z : (0 ≤ z ≤ 100000)%Z → small_int z = true.
Proof using Type. unfold small_int. lia. Qed.

Lemma service_document_written depth name required optional fields :
  json_wf small_int (JObj fields) = true → json_depth (JObj fields) ≤ depth →
  fields_exact required optional fields = true →
  service_document depth name required optional (json_dumps false (JObj fields)) = Ok fields.
Proof using Type.
  intros Hw Hd Hf. unfold service_document. rw loads_bytes_plain; [|by eapply plain_dumps].
  rw (loads_text_dumps (service_hooks name) small_int); [|apply small_int_parsed| |done|done].
  - cbn [except_as mbind result_bind]. by rw Hf.
  - intros l Hl. unfold service_hooks. cbn [object_pairs]. by apply unique_object_all.
Qed.

(** Documents are well formed, and their keys are those the service expects. *)
Ltac document_wf :=
  cbn [json_wf]; apply andb_true_iff; split; [reflexivity|];
  repeat (apply andb_true_iff; split; [apply andb_true_iff; split; [reflexivity|]|]);
  [..|reflexivity]; cbn [json_wf];
  first [ by apply text_scalar
        | match goal with H : path_ok printable _ |- _ => by apply text_scalar, H end
        | apply port_wf | eapply number_wf; [| |eassumption|eassumption]; lia | idtac ].

Lemma agent_document_wf c :
  agent_service_ok printable c → whole (ac_request_timeout_seconds (as_listener c)) →
  whole (as_database_operation_timeout_seconds c) →
  json_wf small_int (JObj (agent_document c)) = true.
Proof using printable_scalar.
  destruct c as [[addr port auth cert key ca req] dsn db].
  intros [Hl Hport [Hb Ha] Hpaths Hdb] Hw1 Hw2. cbn in Hport, Hb, Ha, Hpaths, Hdb, Hw1, Hw2. all_paths Hpaths.
  pose proof (alo_timeout _ Hl) as Hreq. pose proof (alo_port _ Hl) as Hp. cbn in Hreq, Hp. document_wf.
  cbn. lia.
Qed.

Lemma enrollment_configuration_wf c :
  enrollment_service_ok printable c → whole (tc_request_timeout_seconds (es_listener c)) →
  whole (cc_timeout_seconds (es_issuer c)) → whole (es_database_operation_timeout_seconds c) →
  json_wf small_int (JObj (enrollment_document c)) = true.
Proof using printable_scalar.
  destruct c as [[addr port auth cert key req] dsn db [iaddr iport iauth ica icert ikey itime] root].
  intros [Hl Hport Htexts Hi Hpaths Hdb] Hw1 Hw2 Hw3. cbn in Hport, Htexts, Hpaths, Hdb, Hw1, Hw2, Hw3.
  all_paths Htexts. all_paths Hpaths. destruct Hl as [_ Hp _ Hreq _ _], Hi as [_ Hip _ Hit _].
  cbn in Hp, Hreq, Hip, Hit. document_wf; cbn; lia.
Qed.

Lemma operator_document_wf c :
  operator_service_ok printable c → whole (tc_request_timeout_seconds (ops_listener c)) →
  whole (cc_timeout_seconds (ops_verifier c)) → whole (ops_database_operation_timeout_seconds c) →
  json_wf small_int (JObj (operator_document c)) = true.
Proof using printable_scalar.
  destruct c as [[addr port auth cert key req] dsn db [vaddr vport vauth vca vcert vkey vtime] [iss ten sub cli role age]].
  intros [Hl Hport Htexts Hi Hpol Hpaths Hdb] Hw1 Hw2 Hw3. cbn in Hport, Htexts, Hpaths, Hdb, Hw1, Hw2, Hw3.
  all_paths Htexts. all_paths Hpaths. destruct Hl as [_ Hp _ Hreq _ _], Hi as [_ Hip _ Hit _].
  cbn [ops_policy] in Hpol. pose proof (policy_texts _ _ Hpol) as (? & ? & ? & ? & ?).
  pose proof (po_age _ _ Hpol) as Hage. cbn in Hp, Hreq, Hip, Hit.
  unfold hour, minute, second in Hage. cbn [pol_maximum_session_age] in Hage.
  document_wf; cbn [ops_listener tc_port ops_verifier cc_port ops_policy pol_maximum_session_age];
    [lia|lia|]. split; [apply Z.div_pos|apply Z.div_le_upper_bound]; lia.
Qed.

Lemma flat_depth (fields : list (pystr * json)) :
  Forall (λ f, json_depth f.2 = 0) fields → json_depth (JObj fields) ≤ 1.
Proof using Type.
  intros Hf. cbn [json_depth]. induction Hf as [|f fields H _ IH]; [cbn; lia|]. cbn. lia.
Qed.

Lemma number_depth x : json_depth (number_json x) = 0.
Proof using Type. destruct x as [[z [| |]]|]; done. Qed.

Ltac flat := apply flat_depth; repeat (apply Forall_cons; split; [first [reflexivity|apply number_depth]|]); apply Forall_nil_2.

(** The file of a service holds the text of a document. *)
Definition document_file (h : host) (path : pystr) (fields : list (pystr * json)) : Prop :=
  is_absolute path = true ∧ ∃ i, readable_file h path MAX_SERVICE_CONFIGURATION_BYTES false i ∧
    i_content i = json_dumps false (JObj fields).

Lemma load_written {A} h path label fields (parse : list Z → result A) c :
  document_file h path fields → parse (json_dumps false (JObj fields)) = Ok c →
  ((encoded ← _read_regular_file path label MAX_SERVICE_CONFIGURATION_BYTES false;
    lift (parse encoded)) h).2 = Ok c.
Proof using Type.
  intros (Habs & i & Hi & Hc) Hp.
  destruct (read_regular_file_complete path label MAX_SERVICE_CONFIGURATION_BYTES false h i ltac:(done) Habs Hi) as [h' Hr].
  rw (bind_Ok _ _ _ _ _ Hr) Hc. exact Hp.
Qed.

(** C27: a written configuration is loaded back. For every configuration of a service that meets its
checks and has whole-second timeouts, a regular configuration file within the size limit that holds
the JSON text of its document is read, decoded, checked and returned as that very configuration, for
all three services. *)
Theorem service_configuration_roundtrip depth h path :
  1 ≤ depth →
  (∀ c, agent_service_ok printable c → whole (ac_request_timeout_seconds (as_listener c)) →
    whole (as_database_operation_timeout_seconds c) → document_file h path (agent_document c) →
    (load_agent_service_configuration printable depth path h).2 = Ok c) ∧
  (∀ c, enrollment_service_ok printable c → whole (tc_request_timeout_seconds (es_listener c)) →
    whole (cc_timeout_seconds (es_issuer c)) → whole (es_database_operation_timeout_seconds c) →
    document_file h path (enrollment_document c) →
    (load_enrollment_service_configuration printable depth path h).2 = Ok c) ∧
  (∀ c, operator_service_ok printable c → whole (tc_request_timeout_seconds (ops_listener c)) →
    whole (cc_timeout_seconds (ops_verifier c)) → whole (ops_database_operation_timeout_seconds c) →
    (pol_maximum_session_age (ops_policy c) mod 1000000 = 0)%Z →
    document_file h path (operator_document c) →
    (load_operator_service_configuration printable depth path h).2 = Ok c).
Proof using printable_scalar.
  intros Hdepth. split; [|split].
  - intros c Hok Hw1 Hw2 Hfile. apply (load_written h path _ (agent_document c)); [done|].
    rw service_document_written; [|by apply agent_document_wf|etrans; [flat|done]|reflexivity].
    by apply agent_configuration_written.
  - intros c Hok Hw1 Hw2 Hw3 Hfile. apply (load_written h path _ (enrollment_document c)); [done|].
    rw service_document_written; [|by apply enrollment_configuration_wf|etrans; [flat|done]|reflexivity].
    by apply enrollment_configuration_written.
  - intros c Hok Hw1 Hw2 Hw3 Hage Hfile. apply (load_written h path _ (operator_document c)); [done|].
    rw service_document_written; [|by apply operator_document_wf|etrans; [flat|done]|reflexivity].
    by apply operator_configuration_written.
Qed.
End roundtrip.

Module ConfigurationSample.
Definition ascii_only (_ : Z) : bool := false.
Definition policy : OperatorAuthorizationPolicy :=
  mkOperatorPolicy (py "https://idp.example") (py "tenant") (py "alice") (py "console") (py "viewer") (12 * hour).
Definition operator : OperatorServiceConfiguration :=
  mkOperatorService
    (mkTLSListenerConfiguration (py "10.0.0.5") 8443 (py "ops.example") (py "/tls/cert") (py "/tls/key") (Finite 10))
    (py "/run/dsn") (Finite 8)
    (mkClientConfiguration (py "10.0.0.9") 443 (py "idp.example") (py "/tls/ca") (py "/tls/client") (py "/tls/client-key") (Finite 5))
    policy.
Definition text : list Z := json_dumps false (JObj (operator_document operator)).
Definition configuration_file : inode := mkInode 0x81A4 0 text.
Definition machine : host :=
  mkHost (mkPlatform true true (Some 1000%Z)) (λ t, mkEvent id false (100 + t)) 0
    (mkFiles {[py "/etc/operator.json" := File 1]} {[1 := configuration_file]}) ∅.

Lemma operator_ok : operator_service_ok ascii_only operator.
Proof.
  assert (Hf : has_fields operator_required_fields (operator_document operator)).
  { intros k Hk%bool_decide_eq_true. apply (bool_decide_eq_true (k ∈ (operator_document operator).*1)).
    revert k Hk. apply Forall_forall. apply forallb_Forall. vm_compute. reflexivity. }
  pose proof (operator_configuration_outcome ascii_only (operator_document operator) Hf) as H.
  assert (Hc : operator_configuration ascii_only (operator_document operator) = Ok operator)
    by (vm_compute; reflexivity).
  by rw Hc in H.
Qed.

Lemma file_ok : document_file machine (py "/etc/operator.json") (operator_document operator).
Proof.
  split; [reflexivity|]. exists configuration_file. split; [|reflexivity]. split.
  - by intros t.
  - apply (bool_decide_eq_false (0%Z ∈ py "/etc/operator.json")). vm_compute. reflexivity.
  - exists 1. split; reflexivity.
  - reflexivity.
  - apply Z.leb_le. vm_compute. reflexivity.
  - done.
Qed.
End ConfigurationSample.

Lemma service_configuration_roundtrip_witness :
  (load_operator_service_configuration ConfigurationSample.ascii_only 4 (py "/etc/operator.json")
    ConfigurationSample.machine).2 = Ok ConfigurationSample.operator.
Proof.
  apply (service_configuration_roundtrip ConfigurationSample.ascii_only ltac:(intros c Hc; discriminate Hc)
    4 ConfigurationSample.machine (py "/etc/operator.json") ltac:(lia)).
  - exact ConfigurationSample.operator_ok.
  - by exists 10%Z.
  - by exists 5%Z.
  - by exists 8%Z.
  - reflexivity.
  - exact ConfigurationSample.file_ok.
Defined.
