(* ===== verification/Database.v ===== *)
(** * The PostgreSQL tables ([src/src/northgate_rmm/migrations/]) and the SQL
statements of [persistence.py]

A table is a finite map from its primary key to its rows, or the list of its
rows where the code only appends. Each statement is a function that checks the
constraints of the migrations in the order the server does (value types and
CHECKs, then unique indexes, then immediate foreign keys) and returns the new
tables or the error class the driver raises: [UniqueViolation], or
[PsycopgError] for every other one. Deferred foreign keys are checked at
commit. [timestamptz] values are UTC instants in microseconds.

The four certificate columns are always written together and are one optional
tuple; the two consumption columns of a grant are both set or both NULL (a
CHECK) and are one optional pair.

[previous_identity_id] is never written by the program: the column is NULL in
every row, and it and the lineage trigger on it are left out. *)
From stdpp Require Import prelude strings gmap sorting pretty ssreflect.
From S2P Require Import Prelude Uuid PyTime Json Domain.

Set Warnings "-clear-no-such-hyp".

(** ** Rows *)
Record EndpointRow := mkEndpointRow {
  er_display_name : pystr;
  er_platform : Platform;
  er_architecture : pystr;
  er_identity_id : uuid;
  er_enrolled_at : Z;
  er_last_receipt_at : option Z;
  er_last_heartbeat_at : option Z;
}.

Record IdentityRow := mkIdentityRow {
  ir_endpoint_id : uuid;
  ir_fingerprint : pystr;
  ir_created_at : Z;
  ir_revoked_at : option Z;
  ir_revocation_reason : option pystr;
  ir_status : EndpointLifecycle;
  ir_certificate : option (pystr * pystr * Z * Z);
  ir_activated_at : option Z;
}.

Record ObservationRow := mkObservationRow {
  or_observation_id : uuid;
  or_endpoint_id : uuid;
  or_identity_id : uuid;
  or_message_id : uuid;
  or_observation_type : pystr;
  or_schema_version : Z;
  or_source_time : Z;
  or_received_at : Z;
  or_boot_id : uuid;
  or_sequence : Z;
  or_payload_digest : pystr;
  or_encoded_message_digest : option pystr;
}.

Record AuditRow := mkAuditRow {
  ar_event_id : uuid;
  ar_server_time : Z;
  ar_actor_type : pystr;
  ar_actor_id : pystr;
  ar_subject : pystr;
  ar_action : pystr;
  ar_decision : pystr;
  ar_reason : pystr;
  ar_correlation_id : uuid;
  ar_metadata : gmap pystr pystr;
}.

Record GrantRow := mkGrantRow {
  gr_token_sha256 : pystr;
  gr_display_name : pystr;
  gr_platform : Platform;
  gr_architecture : pystr;
  gr_created_at : Z;
  gr_expires_at : Z;
  gr_created_by : pystr;
  gr_consumed : option (Z * uuid);
}.

#[export] Instance EndpointRow_eq_dec : EqDecision EndpointRow.
Proof. solve_decision. Defined.
#[export] Instance IdentityRow_eq_dec : EqDecision IdentityRow.
Proof. solve_decision. Defined.
#[export] Instance ObservationRow_eq_dec : EqDecision ObservationRow.
Proof. solve_decision. Defined.
#[export] Instance GrantRow_eq_dec : EqDecision GrantRow.
Proof. solve_decision. Defined.

Record Db := mkDb {
  t_endpoints : gmap uuid EndpointRow;
  t_identities : gmap uuid IdentityRow;
  t_sequences : gmap (uuid * uuid) Z;
  t_observations : list ObservationRow;
  t_audit : list AuditRow;
  t_grants : gmap uuid GrantRow;
}.

Definition empty_db : Db := mkDb ∅ ∅ ∅ [] [] ∅.

Definition with_endpoints (f : gmap uuid EndpointRow → gmap uuid EndpointRow) (d : Db) : Db :=
  mkDb (f (t_endpoints d)) (t_identities d) (t_sequences d) (t_observations d) (t_audit d)
    (t_grants d).
Definition with_identities (f : gmap uuid IdentityRow → gmap uuid IdentityRow) (d : Db) : Db :=
  mkDb (t_endpoints d) (f (t_identities d)) (t_sequences d) (t_observations d) (t_audit d)
    (t_grants d).
Definition with_sequences (f : gmap (uuid * uuid) Z → gmap (uuid * uuid) Z) (d : Db) : Db :=
  mkDb (t_endpoints d) (t_identities d) (f (t_sequences d)) (t_observations d) (t_audit d)
    (t_grants d).
Definition with_observations (f : list ObservationRow → list ObservationRow) (d : Db) : Db :=
  mkDb (t_endpoints d) (t_identities d) (t_sequences d) (f (t_observations d)) (t_audit d)
    (t_grants d).
Definition with_audit (f : list AuditRow → list AuditRow) (d : Db) : Db :=
  mkDb (t_endpoints d) (t_identities d) (t_sequences d) (t_observations d) (f (t_audit d))
    (t_grants d).
Definition with_grants (f : gmap uuid GrantRow → gmap uuid GrantRow) (d : Db) : Db :=
  mkDb (t_endpoints d) (t_identities d) (t_sequences d) (t_observations d) (t_audit d)
    (f (t_grants d)).

(** ** Column types *)

(** The driver's text encoding: lone surrogates cannot be encoded, and the
server refuses NUL. *)
Definition is_surrogate (c : Z) : bool := ((55296 <=? c) && (c <=? 57343))%Z.
Definition pg_text (s : pystr) : result unit :=
  raise_if (existsb is_surrogate s) ValueError;;
  raise_if (existsb (Z.eqb 0) s) PsycopgError.

Fixpoint pg_texts (l : list pystr) : result unit :=
  match l with [] => Ok tt | s :: l' => pg_text s;; pg_texts l' end.

(** A value assigned to a [varchar(n)] column. *)
Definition varchar (n : Z) (s : pystr) : bool := (str_len s <=? n)%Z.
Definition char_length_between (s : pystr) (lo hi : Z) : bool :=
  ((lo <=? str_len s) && (str_len s <=? hi))%Z.
Definition pg_bigint (z : Z) : bool := ((- 2 ^ 63 <=? z) && (z <? 2 ^ 63))%Z.
Definition pg_integer (z : Z) : bool := ((- 2 ^ 31 <=? z) && (z <? 2 ^ 31))%Z.

(** A failed CHECK or a value out of its type. *)
Definition pg_check (b : bool) : result unit := raise_if (negb b) PsycopgError.
(** A duplicate key of a unique index. *)
Definition pg_unique (b : bool) : result unit := raise_if (negb b) UniqueViolation.

(** Does some row with another key satisfy [p]? *)
Definition other_row {R} (m : gmap uuid R) (k : uuid) (p : R → bool) : bool :=
  bool_decide (map_Exists (λ k' r, k' ≠ k ∧ p r = true) m).

(** ** CHECK constraints *)
Definition endpoint_checks (r : EndpointRow) : bool :=
  varchar 128 (er_display_name r) && char_length_between (er_display_name r) 1 128 &&
  varchar 32 (er_architecture r) && char_length_between (er_architecture r) 1 32.

Definition identity_checks (r : IdentityRow) : bool :=
  varchar 71 (ir_fingerprint r) && fullmatch_fingerprint (ir_fingerprint r) &&
  match ir_revoked_at r, ir_revocation_reason r with
  | None, None => true
  | Some t, Some s => char_length_between s 1 256 && (ir_created_at r <=? t)%Z
  | _, _ => false
  end &&
  bool_decide (ir_status r = REVOKED ↔ is_Some (ir_revoked_at r)) &&
  match ir_certificate r with
  | Some (serial, issuer, not_before, not_after) =>
    varchar 64 serial && varchar 256 issuer && (not_before <? not_after)%Z
  | None => true
  end &&
  match ir_activated_at r with Some t => (ir_created_at r <=? t)%Z | None => true end.

Definition observation_checks (r : ObservationRow) : bool :=
  bool_decide (or_observation_type r ∈ [py "heartbeat"; py "inventory"]) &&
  pg_integer (or_schema_version r) && (0 <? or_schema_version r)%Z &&
  pg_bigint (or_sequence r) && (0 <? or_sequence r)%Z &&
  fullmatch_sha256 (or_payload_digest r) &&
  match or_encoded_message_digest r with Some d => fullmatch_sha256 d | None => true end.

Definition audit_checks (r : AuditRow) : bool :=
  varchar 64 (ar_actor_type r) && varchar 256 (ar_actor_id r) && varchar 256 (ar_subject r) &&
  varchar 128 (ar_action r) &&
  bool_decide (ar_decision r ∈ [py "accepted"; py "rejected"; py "no_change"]) &&
  varchar 512 (ar_reason r).

Definition grant_checks (r : GrantRow) : bool :=
  fullmatch_sha256 (gr_token_sha256 r) && char_length_between (gr_display_name r) 1 128 &&
  bool_decide (gr_platform r = LINUX) && bool_decide (gr_architecture r = py "amd64") &&
  char_length_between (gr_created_by r) 1 256 &&
  (gr_created_at r <? gr_expires_at r)%Z &&
  (gr_expires_at r <=? gr_created_at r + 15 * minute)%Z &&
  match gr_consumed r with
  | Some (t, _) => (gr_created_at r <=? t)%Z && (t <? gr_expires_at r)%Z
  | None => true
  end.

(** ** Statements *)

(** [INSERT INTO endpoints]. *)
Definition insert_endpoint (k : uuid) (r : EndpointRow) (d : Db) : result Db :=
  pg_texts [er_display_name r; er_architecture r];;
  pg_check (endpoint_checks r);;
  pg_unique (bool_decide (t_endpoints d !! k = None));;
  pg_unique (negb (other_row (t_endpoints d) k
    (λ r', bool_decide (er_identity_id r' = er_identity_id r))));;
  Ok (with_endpoints <[k := r]> d).

(** Uniqueness of the fingerprint and of the certificate's issuer and serial. *)
Definition same_certificate (a b : IdentityRow) : bool :=
  match ir_certificate a, ir_certificate b with
  | Some (s, i, _, _), Some (s', i', _, _) => bool_decide (s = s') && bool_decide (i = i')
  | _, _ => false
  end.
Definition identity_unique (k : uuid) (r : IdentityRow) (d : Db) : result unit :=
  pg_unique (negb (other_row (t_identities d) k
    (λ r', bool_decide (ir_fingerprint r' = ir_fingerprint r))));;
  pg_unique (negb (other_row (t_identities d) k (same_certificate r))).

(** [INSERT INTO endpoint_identities]. *)
Definition insert_identity (k : uuid) (r : IdentityRow) (d : Db) : result Db :=
  pg_texts [ir_fingerprint r];;
  pg_check (identity_checks r);;
  pg_unique (bool_decide (t_identities d !! k = None));;
  identity_unique k r d;;
  pg_check (bool_decide (is_Some (t_endpoints d !! ir_endpoint_id r)));;
  Ok (with_identities <[k := r]> d).

(** [UPDATE endpoint_identities SET ... WHERE identity_id = k AND p]: the new
tables and whether a row matched. *)
Definition update_identity (k : uuid) (p : IdentityRow → bool) (f : IdentityRow → IdentityRow)
    (d : Db) : result (Db * bool) :=
  match t_identities d !! k with
  | Some r =>
    if p r then
      pg_check (identity_checks (f r));;
      identity_unique k (f r) d;;
      Ok (with_identities <[k := f r]> d, true)
    else Ok (d, false)
  | None => Ok (d, false)
  end.

(** [UPDATE endpoints SET ... WHERE endpoint_id = k] for the receipt columns. *)
Definition update_endpoint (k : uuid) (f : EndpointRow → EndpointRow) (d : Db) : Db :=
  match t_endpoints d !! k with
  | Some r => with_endpoints <[k := f r]> d
  | None => d
  end.

(** [INSERT INTO message_sequences ... ON CONFLICT DO UPDATE ... WHERE
message_sequences.last_sequence < EXCLUDED.last_sequence RETURNING]: whether a
row was returned. *)
Definition upsert_sequence (i b : uuid) (n : Z) (d : Db) : result (Db * bool) :=
  pg_check (pg_bigint n && (0 <? n)%Z);;
  match t_sequences d !! (i, b) with
  | Some last =>
    if (last <? n)%Z then Ok (with_sequences <[(i, b) := n]> d, true) else Ok (d, false)
  | None =>
    pg_check (bool_decide (is_Some (t_identities d !! i)));;
    Ok (with_sequences <[(i, b) := n]> d, true)
  end.

(** [INSERT INTO observations]. *)
Definition insert_observation (r : ObservationRow) (d : Db) : result Db :=
  pg_texts [or_observation_type r; or_payload_digest r];;
  pg_check (observation_checks r);;
  pg_unique (negb (existsb (λ r', bool_decide (or_observation_id r' = or_observation_id r))
                     (t_observations d)));;
  pg_unique (negb (existsb (λ r', bool_decide (or_message_id r' = or_message_id r))
                     (t_observations d)));;
  pg_unique (negb (existsb (λ r', bool_decide (or_identity_id r' = or_identity_id r
      ∧ or_boot_id r' = or_boot_id r ∧ or_sequence r' = or_sequence r)) (t_observations d)));;
  pg_check (bool_decide (is_Some (t_endpoints d !! or_endpoint_id r)));;
  pg_check (bool_decide (is_Some (t_identities d !! or_identity_id r)));;
  Ok (with_observations (λ l, l ++ [r]) d).

(** [INSERT INTO audit_events]; the metadata object reaches a [jsonb] column,
which refuses NUL and lone surrogates in its strings. *)
Definition jsonb_text (s : pystr) : bool :=
  negb (existsb is_surrogate s) && negb (existsb (Z.eqb 0) s).
Definition insert_audit_event (r : AuditRow) (d : Db) : result Db :=
  pg_texts [ar_actor_type r; ar_actor_id r; ar_subject r; ar_action r; ar_decision r;
            ar_reason r];;
  pg_check (forallb (λ kv, jsonb_text kv.1 && jsonb_text kv.2)
              (map_to_list (ar_metadata r)));;
  pg_check (audit_checks r);;
  pg_unique (negb (existsb (λ r', bool_decide (ar_event_id r' = ar_event_id r)) (t_audit d)));;
  Ok (with_audit (λ l, l ++ [r]) d).

(** Uniqueness of a grant's token digest and consuming identity. *)
Definition grant_unique (k : uuid) (r : GrantRow) (d : Db) : result unit :=
  pg_unique (negb (other_row (t_grants d) k
    (λ r', bool_decide (gr_token_sha256 r' = gr_token_sha256 r))));;
  pg_unique (negb (other_row (t_grants d) k
    (λ r', match gr_consumed r', gr_consumed r with
           | Some (_, i'), Some (_, i) => bool_decide (i' = i)
           | _, _ => false
           end))).

(** [INSERT INTO enrollment_grants]. *)
Definition insert_grant (k : uuid) (r : GrantRow) (d : Db) : result Db :=
  pg_texts [gr_token_sha256 r; gr_display_name r; gr_architecture r; gr_created_by r];;
  pg_check (grant_checks r);;
  pg_unique (bool_decide (t_grants d !! k = None));;
  grant_unique k r d;;
  Ok (with_grants <[k := r]> d).

(** [UPDATE enrollment_grants SET consumed_at = t, consumed_identity_id = i
WHERE grant_id = k AND consumed_at IS NULL]: whether one row changed. *)
Definition update_grant_consumed (k : uuid) (t : Z) (i : uuid) (d : Db) : result (Db * bool) :=
  match t_grants d !! k with
  | Some r =>
    match gr_consumed r with
    | Some _ => Ok (d, false)
    | None =>
      let r' := mkGrantRow (gr_token_sha256 r) (gr_display_name r) (gr_platform r)
                  (gr_architecture r) (gr_created_at r) (gr_expires_at r) (gr_created_by r)
                  (Some (t, i)) in
      pg_check (grant_checks r');;
      grant_unique k r' d;;
      Ok (with_grants <[k := r']> d, true)
    end
  | None => Ok (d, false)
  end.

(** The foreign keys checked at commit: an endpoint's current identity belongs
to it, and a consumed grant names an identity. *)
Definition endpoint_fk (d : Db) (k : uuid) (r : EndpointRow) : bool :=
  match t_identities d !! er_identity_id r with
  | Some i => bool_decide (ir_endpoint_id i = k)
  | None => false
  end.
Definition grant_fk (d : Db) (r : GrantRow) : bool :=
  match gr_consumed r with
  | Some (_, i) => bool_decide (is_Some (t_identities d !! i))
  | None => true
  end.
Definition deferred_constraints (d : Db) : bool :=
  bool_decide (map_Forall (λ k r, endpoint_fk d k r = true) (t_endpoints d)) &&
  bool_decide (map_Forall (λ _ r, grant_fk d r = true) (t_grants d)).
