(* ===== verification/Persistence.v ===== *)
(** * PostgreSQL control plane ([src/src/northgate_rmm/persistence.py])

Each method is a computation over the process state [Pg]: the tables, the
shutdown flag, the fates of the coming transactions and the coming random
tokens. A transaction either commits as a whole or leaves the tables as they
were; [fate] says what the network and the server do to it. Transactions are
taken one after the other, which is what the row locks of the source
([FOR UPDATE]) establish for calls on the same identity or grant. *)
From stdpp Require Import prelude strings gmap sorting pretty ssreflect.
From S2P Require Import Prelude Uuid PyTime Sha256 Json Domain ControlPlane Database.

Set Warnings "-clear-no-such-hyp".

(** What happens to a transaction: it commits; the connection cannot be made;
it fails before or at commit; or it commits and the reply is lost. *)
Inductive fate := Commits | ConnectFails | CommitFails | ReplyLost.

#[export] Instance fate_eq_dec : EqDecision fate.
Proof. solve_decision. Defined.

Record Pg := mkPg {
  pg_db : Db;
  pg_shutting_down : bool;
  pg_fates : nat → fate;
  pg_tokens : nat → Z;
}.

Abbreviation PG := (M (world Pg)).

Definition set_db (d : Db) (p : Pg) : Pg :=
  mkPg d (pg_shutting_down p) (pg_fates p) (pg_tokens p).

(** The tables as seen by the open transaction. *)
Definition select {A} (f : Db → A) : PG A := gets (λ w, f (pg_db (store w))).

(** A statement that changes the tables, with its result. *)
Definition execute {A} (f : Db → result (Db * A)) : PG A := λ w,
  match f (pg_db (store w)) with
  | Ok (d, a) => (World (set_db d (store w)) (rng w), Ok a)
  | Raise e => (w, Raise e)
  end.
Definition statement (f : Db → result Db) : PG unit :=
  execute (λ d, d' ← f d; Ok (d', tt)).

(** [with self._connect() as connection: body]: refused while shutting down;
an exception of the body rolls back; otherwise the deferred constraints are
checked and the transaction commits or fails by its fate. *)
Definition next_fate (p : Pg) : Pg :=
  mkPg (pg_db p) (pg_shutting_down p) (λ n, pg_fates p (S n)) (pg_tokens p).
Definition rollback (d : Db) (w : world Pg) : world Pg := World (set_db d (store w)) (rng w).

Definition _connect {A} (body : PG A) : PG A := λ w,
  if pg_shutting_down (store w) then
    (w, Raise (verr "database control plane is shutting down"))
  else
    let d := pg_db (store w) in
    let w1 := World (next_fate (store w)) (rng w) in
    match pg_fates (store w) 0 with
    | ConnectFails => (w1, Raise PsycopgError)
    | f =>
      match body w1 with
      | (w2, Raise e) => (rollback d w2, Raise e)
      | (w2, Ok a) =>
        if deferred_constraints (pg_db (store w2)) then
          match f with
          | Commits => (w2, Ok a)
          | ReplyLost => (w2, Raise PsycopgError)
          | _ => (rollback d w2, Raise PsycopgError)
          end
        else (rollback d w2, Raise PsycopgError)
      end
    end.

(** [begin_shutdown]: no transaction starts afterwards. The open connections it
interrupts end as their [fate] says. *)
Definition begin_shutdown : PG unit :=
  modify (λ w, World (mkPg (pg_db (store w)) true (pg_fates (store w)) (pg_tokens (store w)))
                 (rng w)).

(** [try: m except UniqueViolation: handler]. *)
Definition except_unique {A} (m : PG A) (handler : PG A) : PG A := λ w,
  match m w with
  | (w', Raise UniqueViolation) => handler w'
  | r => r
  end.

(** ** Rows to domain values *)
Definition _endpoint_from_row (k : uuid) (r : EndpointRow) : result Endpoint :=
  new_Endpoint k (er_display_name r) (er_platform r) (er_architecture r) (er_identity_id r)
    (utc (er_enrolled_at r)) (utc <$> er_last_receipt_at r) (utc <$> er_last_heartbeat_at r).

Definition _identity_from_row (k : uuid) (r : IdentityRow) : result EndpointIdentity :=
  new_EndpointIdentity k (ir_endpoint_id r) (ir_fingerprint r) (utc (ir_created_at r))
    (ir_status r) (utc <$> ir_revoked_at r) (ir_revocation_reason r).

Definition _enrollment_grant_from_row (k : uuid) (r : GrantRow) : result EnrollmentGrant :=
  new_EnrollmentGrant k (gr_token_sha256 r) (gr_display_name r) (gr_platform r)
    (gr_architecture r) (utc (gr_created_at r)) (utc (gr_expires_at r)) (gr_created_by r)
    (utc ∘ fst <$> gr_consumed r) (snd <$> gr_consumed r).

Definition _observation_from_row (r : ObservationRow) : result Observation :=
  new_Observation (or_observation_id r) (or_endpoint_id r) (or_message_id r)
    (or_observation_type r) (or_schema_version r) (utc (or_source_time r))
    (utc (or_received_at r)) (or_boot_id r) (or_sequence r) (or_payload_digest r)
    (or_encoded_message_digest r).

Definition _audit_from_row (r : AuditRow) : AuditEvent :=
  mkAuditEvent (ar_event_id r) (utc (ar_server_time r)) (ar_actor_type r) (ar_actor_id r)
    (ar_subject r) (ar_action r) (ar_decision r) (ar_reason r) (ar_correlation_id r)
    (py_sorted pair_leb (map_to_list (ar_metadata r))).

(** ** Audit *)

(** [dict(items)]: a later item overrides an earlier one. *)
Definition py_dict (items : list (pystr * pystr)) : gmap pystr pystr :=
  list_to_map (reverse items).

Definition _insert_audit (server_time : datetime) (actor_type actor_id subject action decision
    reason : pystr) (correlation_id : uuid) (metadata : list (pystr * pystr)) : PG unit :=
  event_id ← uuid4;
  statement (insert_audit_event (mkAuditRow event_id (instant server_time) actor_type actor_id
    subject action decision reason correlation_id (py_dict (py_sorted pair_leb metadata)))).

Definition _insert_rejection (identity_id endpoint_id : uuid) (action reason : pystr)
    (correlation_id : uuid) (received_at : datetime) : PG unit :=
  _insert_audit received_at (py "endpoint_identity") (uuid_str identity_id)
    (py "endpoint:" ++ uuid_str endpoint_id) action (py "rejected") reason correlation_id [].

Definition _record_audit (server_time : datetime) (actor_type actor_id subject action decision
    reason : pystr) (correlation_id : uuid) (metadata : list (pystr * pystr)) : PG unit :=
  _connect (_insert_audit server_time actor_type actor_id subject action decision reason
              correlation_id metadata).

Definition _record_rejection (identity_id endpoint_id : uuid) (action reason : pystr)
    (correlation_id : uuid) (received_at : datetime) : PG unit :=
  _record_audit received_at (py "endpoint_identity") (uuid_str identity_id)
    (py "endpoint:" ++ uuid_str endpoint_id) action (py "rejected") reason correlation_id [].

Definition record_operator_access (actor_id subject action decision reason : pystr)
    (correlation_id : uuid) (now : datetime) (metadata : list (pystr * pystr)) : PG unit :=
  lift (require_aware now (py "now"));;
  lift (raise_if (empty_or_longer actor_id 256) (verr "operator audit actor is invalid"));;
  lift (raise_if (empty_or_longer subject 256) (verr "operator audit subject is invalid"));;
  lift (raise_if (empty_or_longer action 128) (verr "operator audit action is invalid"));;
  lift (raise_if (negb (bool_decide (decision ∈ [py "accepted"; py "rejected"])))
          (verr "operator audit decision is invalid"));;
  lift (raise_if (empty_or_longer reason 512) (verr "operator audit reason is invalid"));;
  lift (raise_if ((8 <? Z.of_nat (length metadata))%Z
                  || existsb (λ m, empty_or_longer m.1 64 || (512 <? str_len m.2)%Z) metadata)
          (verr "operator audit metadata is invalid"));;
  server_time ← lift (astimezone_utc now);
  _record_audit server_time (py "human_operator") actor_id subject action decision reason
    correlation_id metadata.

(** ** Reads *)

(** Rows of a key-sorted [SELECT]. *)
Definition key_leb {R} (a b : uuid * R) : bool := uuid_leb a.1 b.1.

(** [tuple(f(row) for row in rows)]. *)
Fixpoint map_result {A B} (f : A → result B) (l : list A) : result (list B) :=
  match l with
  | [] => Ok []
  | x :: l' => y ← f x; ys ← map_result f l'; Ok (y :: ys)
  end.

Definition observation_leb (a b : ObservationRow) : bool :=
  if (or_received_at a =? or_received_at b)%Z
  then uuid_leb (or_observation_id a) (or_observation_id b)
  else (or_received_at a <? or_received_at b)%Z.

Definition observations : PG (list Observation) :=
  _connect (rows ← select (λ d, py_sorted observation_leb (t_observations d));
            lift (map_result _observation_from_row rows)).

Definition audit_events : PG (list AuditEvent) :=
  _connect (rows ← select t_audit; mret (_audit_from_row <$> rows)).

Definition list_endpoints : PG (list Endpoint) :=
  _connect (rows ← select (λ d, py_sorted key_leb (map_to_list (t_endpoints d)));
            lift (map_result (λ kr, _endpoint_from_row kr.1 kr.2) rows)).

Definition list_endpoint_page (after : option uuid) (limit : Z) : PG (list Endpoint) :=
  lift (raise_if (negb ((1 <=? limit) && (limit <=? 1000)))%Z
          (verr "endpoint page limit is invalid"));;
  _connect (
    rows ← select (λ d,
      let rows := map_to_list (t_endpoints d) in
      let rows := match after with
                  | None => rows
                  | Some a => filter (λ kr, uuid_gtb kr.1 a = true) rows
                  end in
      take (Z.to_nat limit) (py_sorted key_leb rows));
    lift (map_result (λ kr, _endpoint_from_row kr.1 kr.2) rows)).

Definition get_endpoint (endpoint_id : uuid) : PG Endpoint :=
  row ← _connect (select (λ d, t_endpoints d !! endpoint_id));
  match row with
  | None => raise (NotFoundError (py "endpoint does not exist"))
  | Some r => lift (_endpoint_from_row endpoint_id r)
  end.

Definition get_identity (identity_id : uuid) : PG EndpointIdentity :=
  row ← _connect (select (λ d, t_identities d !! identity_id));
  match row with
  | None => raise (NotFoundError (py "identity does not exist"))
  | Some r => lift (_identity_from_row identity_id r)
  end.

Definition get_enrollment_grant (grant_id : uuid) : PG EnrollmentGrant :=
  row ← _connect (select (λ d, t_grants d !! grant_id));
  match row with
  | None => raise (NotFoundError (py "enrollment grant does not exist"))
  | Some r => lift (_enrollment_grant_from_row grant_id r)
  end.

Definition endpoint_status (endpoint_id : uuid) (now : datetime)
    (policy : option FreshnessPolicy) : PG EndpointStatus :=
  lift (require_aware now (py "now"));;
  endpoint ← get_endpoint endpoint_id;
  identity ← get_identity (ep_identity_id endpoint);
  let freshness := default default_FreshnessPolicy policy in
  let last := ep_last_heartbeat_at endpoint in
  mret (mkEndpointStatus endpoint_id (ei_status identity) (derive_health freshness now last)
          last).

(** ** Enrollment grants *)
Definition GRANT_NAMESPACE : pystr := py "ngr1_".
Definition ENROLLMENT_REJECTION : pystr := py "enrollment grant is invalid or unavailable".
Definition MAX_ENDPOINT_CERTIFICATE_TTL : Z := 24 * hour.

(** The URL-safe base64 alphabet, and the 43 characters that encode 32 bytes
(256 bits, padded with two zero bits) given as a big-endian integer. *)
Definition b64url_digit (d : Z) : Z :=
  if (d <? 26)%Z then (65 + d)%Z else if (d <? 52)%Z then (71 + d)%Z
  else if (d <? 62)%Z then (d - 4)%Z else if (d =? 62)%Z then 45%Z else 95%Z.
Fixpoint b64n (n : nat) (z : Z) : pystr :=
  match n with O => [] | S n' => b64n n' (z / 64)%Z ++ [b64url_digit (z mod 64)%Z] end.

(** [secrets.token_urlsafe(32)]: the next 32 random bytes as text. *)
Definition token_urlsafe_32 : PG pystr := λ w,
  let p := store w in
  (World (mkPg (pg_db p) (pg_shutting_down p) (pg_fates p) (λ n, pg_tokens p (S n))) (rng w),
   Ok (b64n 43 (pg_tokens p 0 * 4))).

(** [ENROLLMENT_TOKEN_PATTERN.fullmatch]. *)
Definition is_b64url (c : Z) : bool :=
  ((65 <=? c) && (c <=? 90) || (97 <=? c) && (c <=? 122) || (48 <=? c) && (c <=? 57)
   || (c =? 95) || (c =? 45))%Z.
Definition fullmatch_token (s : pystr) : bool :=
  bool_decide (take 5 s = GRANT_NAMESPACE) && bool_decide (length s = 48)
  && forallb is_b64url (drop 5 s).

Definition create_enrollment_grant (display_name : pystr) (platform : Platform)
    (architecture : pystr) (now : datetime) (actor_id : pystr) (ttl : Z)
    : PG (EnrollmentGrant * pystr) :=
  lift (require_aware now (py "now"));;
  server_time ← lift (astimezone_utc now);
  secret ← token_urlsafe_32;
  let raw_token := GRANT_NAMESPACE ++ secret in
  let token_sha256 := Sha256.hexdigest raw_token in
  grant_id ← uuid4;
  expires_at ← lift (dt_add server_time ttl);
  grant ← lift (new_EnrollmentGrant grant_id token_sha256 display_name platform architecture
    server_time expires_at actor_id None None);
  correlation_id ← uuid4;
  _connect (
    statement (insert_grant (eg_grant_id grant) (mkGrantRow (eg_token_sha256 grant)
      (eg_display_name grant) (eg_platform grant) (eg_architecture grant)
      (instant (eg_created_at grant)) (instant (eg_expires_at grant)) (eg_created_by grant)
      None));;
    _insert_audit server_time (py "operator") actor_id
      (py "enrollment_grant:" ++ uuid_str (eg_grant_id grant))
      (py "enrollment_grant.create") (py "accepted")
      (py "short-lived single-use grant created") correlation_id
      [(py "architecture", eg_architecture grant); (py "display_name", eg_display_name grant);
       (py "expires_at", isoformat (eg_expires_at grant));
       (py "platform", platform_value (eg_platform grant))]);;
  mret (grant, raw_token).

(** The row [SELECT ... WHERE column = value] finds, for a unique column. *)
Definition find_row {R} (p : uuid → R → bool) (m : gmap uuid R) : option (uuid * R) :=
  head (filter (λ kr, p kr.1 kr.2 = true) (map_to_list m)).

(** An identity joined with the endpoint it belongs to. *)
Definition join_identity (k : uuid) (d : Db) : option (IdentityRow * EndpointRow) :=
  i ← t_identities d !! k;
  e ← t_endpoints d !! ir_endpoint_id i;
  Some (i, e).

(** What the first half of a grant consumption finds. *)
Inductive consumption :=
| ConsumeFails (grant : option EnrollmentGrant) (reason : pystr)
| ConsumeRetry (grant : EnrollmentGrant) (endpoint : Endpoint) (identity : EndpointIdentity)
| ConsumeNew (grant : EnrollmentGrant).

Definition consumption_grant (c : consumption) : option EnrollmentGrant :=
  match c with
  | ConsumeFails g _ => g
  | ConsumeRetry g _ _ | ConsumeNew g => Some g
  end.

(** The exact retry of a consumed grant: its identity is still pending or
issued, is its endpoint's current one, and has the same public key. *)
Definition consume_retry (grant : EnrollmentGrant) (public_key_fingerprint : pystr)
    : PG consumption :=
  let fails := ConsumeFails (Some grant) (py "grant is already consumed") in
  match eg_consumed_identity_id grant with
  | None => mret fails
  | Some identity_id =>
    row ← select (join_identity identity_id);
    match row with
    | Some (i, e) =>
      if bool_decide (er_identity_id e = identity_id)
         && bool_decide (ir_status i ∈ [PENDING; ISSUED])
         && bool_decide (ir_fingerprint i = public_key_fingerprint)
      then
        endpoint ← lift (_endpoint_from_row (ir_endpoint_id i) e);
        identity ← lift (_identity_from_row identity_id i);
        mret (ConsumeRetry grant endpoint identity)
      else mret fails
    | None => mret fails
    end
  end.

Definition consume_lookup (token_sha256 : option pystr) (public_key_fingerprint : pystr)
    (server_time : datetime) (allow_exact_retry : bool) : PG consumption :=
  match token_sha256 with
  | None => mret (ConsumeFails None (py "token format is invalid"))
  | Some digest =>
    row ← select (λ d, find_row (λ _ g, bool_decide (gr_token_sha256 g = digest)) (t_grants d));
    match row with
    | None => mret (ConsumeFails None (py "token digest is unknown"))
    | Some (k, r) =>
      grant ← lift (_enrollment_grant_from_row k r);
      if dt_ltb server_time (eg_created_at grant) then
        mret (ConsumeFails (Some grant) (py "server time predates grant creation"))
      else if dt_leb (eg_expires_at grant) server_time then
        mret (ConsumeFails (Some grant) (py "grant is expired"))
      else if negb (fullmatch_fingerprint public_key_fingerprint) then
        mret (ConsumeFails (Some grant) (py "public key fingerprint format is invalid"))
      else match eg_consumed_at grant with
      | Some _ =>
        if allow_exact_retry then consume_retry grant public_key_fingerprint
        else mret (ConsumeFails (Some grant) (py "grant is already consumed"))
      | None => mret (ConsumeNew grant)
      end
    end
  end.

Definition consume_subject (grant : option EnrollmentGrant) : pystr :=
  match grant with
  | Some g => py "enrollment_grant:" ++ uuid_str (eg_grant_id g)
  | None => py "enrollment_grant:unknown"
  end.

(** The acceptance of an unconsumed grant: one endpoint, one identity, the grant
marked, two audit events. *)
Definition consume_create (grant : EnrollmentGrant) (public_key_fingerprint : pystr)
    (server_time : datetime) (actor_id : pystr) (identity_status : EndpointLifecycle)
    (correlation_id : uuid) : PG (Endpoint * EndpointIdentity) :=
  endpoint_id ← uuid4;
  identity_id ← uuid4;
  identity ← lift (new_EndpointIdentity identity_id endpoint_id public_key_fingerprint
    server_time identity_status None None);
  endpoint ← lift (new_Endpoint endpoint_id (eg_display_name grant) (eg_platform grant)
    (eg_architecture grant) identity_id server_time None None);
  statement (insert_endpoint endpoint_id (mkEndpointRow (ep_display_name endpoint)
    (ep_platform endpoint) (ep_architecture endpoint) (ep_identity_id endpoint)
    (instant (ep_enrolled_at endpoint)) None None));;
  statement (insert_identity identity_id (mkIdentityRow endpoint_id public_key_fingerprint
    (instant (ei_created_at identity)) None None identity_status None None));;
  changed ← execute (update_grant_consumed (eg_grant_id grant) (instant server_time)
    identity_id);
  lift (raise_if (negb changed) (AssertionError (py "locked grant must be consumable once")));;
  _insert_audit server_time (py "service") actor_id (consume_subject (Some grant))
    (py "enrollment_grant.consume") (py "accepted")
    (py "grant exchanged for one endpoint identity") correlation_id
    [(py "endpoint_id", uuid_str endpoint_id);
     (py "identity_status", lifecycle_value identity_status);
     (py "identity_id", uuid_str identity_id)];;
  _insert_audit server_time (py "service") actor_id (py "endpoint:" ++ uuid_str endpoint_id)
    (py "endpoint.enroll") (py "accepted") (py "single-use enrollment grant consumed")
    correlation_id [(py "grant_id", uuid_str (eg_grant_id grant));
                    (py "identity_id", uuid_str identity_id)];;
  mret (endpoint, identity).

(** The second half of the transaction, by what the lookup found; [None] is a
recorded failure. *)
Definition consume_apply (found : consumption) (public_key_fingerprint : pystr)
    (server_time : datetime) (actor_id : pystr) (identity_status : EndpointLifecycle)
    (correlation_id : uuid) : PG (option (Endpoint * EndpointIdentity)) :=
  let audit (decision : string) (reason : pystr) metadata :=
    _insert_audit server_time (py "service") actor_id (consume_subject (consumption_grant found))
      (py "enrollment_grant.consume") (py decision) reason correlation_id metadata in
  match found with
  | ConsumeFails _ reason => audit "rejected" reason [];; mret None
  | ConsumeRetry _ endpoint identity =>
    audit "no_change" (py "exact enrollment retry resumed")
      [(py "endpoint_id", uuid_str (ep_endpoint_id endpoint));
       (py "identity_id", uuid_str (ei_identity_id identity))];;
    mret (Some (endpoint, identity))
  | ConsumeNew grant =>
    r ← consume_create grant public_key_fingerprint server_time actor_id identity_status
      correlation_id;
    mret (Some r)
  end.

(** A transaction in two phases whose [except UniqueViolation] handler sees the
local variables the first phase assigned. *)
Definition _connect_except {L A} (phase1 : PG L) (phase2 : L → PG A)
    (handler : option L → PG A) : PG A := λ w,
  match _connect (l ← phase1; phase2 l) w with
  | (w', Raise UniqueViolation) =>
    let found := match phase1 (World (next_fate (store w)) (rng w)) with
                 | (_, Ok l) => Some l
                 | (_, Raise _) => None
                 end in
    handler found w'
  | r => r
  end.

Definition _consume_enrollment_grant (token public_key_fingerprint : pystr) (now : datetime)
    (actor_id : pystr) (identity_status : EndpointLifecycle) (allow_exact_retry : bool)
    : PG (Endpoint * EndpointIdentity) :=
  lift (require_aware now (py "now"));;
  server_time ← lift (astimezone_utc now);
  lift (raise_if (empty_or_longer actor_id 256) (verr "actor_id is empty or too long"));;
  correlation_id ← uuid4;
  let token_sha256 := if fullmatch_token token then Some (Sha256.hexdigest token) else None in
  outcome ← _connect_except
    (consume_lookup token_sha256 public_key_fingerprint server_time allow_exact_retry)
    (λ found, consume_apply found public_key_fingerprint server_time actor_id identity_status
                correlation_id)
    (λ found,
      _record_audit server_time (py "service") actor_id
        (consume_subject (found ≫= consumption_grant)) (py "enrollment_grant.consume")
        (py "rejected") (py "public key fingerprint is already enrolled") correlation_id [];;
      raise (AuthorizationError ENROLLMENT_REJECTION));
  match outcome with
  | None => raise (AuthorizationError ENROLLMENT_REJECTION)
  | Some r => mret r
  end.

Definition consume_enrollment_grant (token public_key_fingerprint : pystr) (now : datetime)
    (actor_id : pystr) : PG (Endpoint * EndpointIdentity) :=
  _consume_enrollment_grant token public_key_fingerprint now actor_id ACTIVE false.

Definition begin_endpoint_enrollment (token public_key_fingerprint : pystr) (now : datetime)
    (actor_id : pystr) : PG (Endpoint * EndpointIdentity) :=
  _consume_enrollment_grant token public_key_fingerprint now actor_id PENDING true.

(** ** Certificates, synthetic enrollment, revocation *)

(** [re.fullmatch(r"[1-9a-f][0-9a-f]{0,63}", serial)]. *)
Definition fullmatch_serial (s : pystr) : bool :=
  match s with
  | [] => false
  | c :: rest => is_lower_hex c && negb (c =? 48)%Z && forallb is_lower_hex rest
                 && (Z.of_nat (length rest) <=? 63)%Z
  end.

(** The stored certificate equals the one presented. *)
Definition same_issuance (r : IdentityRow) (serial issuer : pystr) (not_before not_after : Z)
    : bool :=
  bool_decide (ir_status r ∈ [ISSUED; ACTIVE])
  && bool_decide (ir_certificate r = Some (serial, issuer, not_before, not_after)).

Definition set_issued (serial issuer : pystr) (not_before not_after : Z) (r : IdentityRow)
    : IdentityRow :=
  mkIdentityRow (ir_endpoint_id r) (ir_fingerprint r) (ir_created_at r) (ir_revoked_at r)
    (ir_revocation_reason r) ISSUED (Some (serial, issuer, not_before, not_after))
    (ir_activated_at r).

Definition record_issued_endpoint_identity (identity_id : uuid)
    (certificate_serial certificate_issuer : pystr)
    (certificate_not_before certificate_not_after now : datetime) (actor_id : pystr)
    : PG EndpointIdentity :=
  lift (require_aware certificate_not_before (py "certificate_not_before"));;
  lift (require_aware certificate_not_after (py "certificate_not_after"));;
  lift (require_aware now (py "now"));;
  server_time ← lift (astimezone_utc now);
  not_before ← lift (astimezone_utc certificate_not_before);
  not_after ← lift (astimezone_utc certificate_not_after);
  lift (raise_if (negb (fullmatch_serial certificate_serial))
          (verr "certificate serial is invalid"));;
  lift (raise_if (empty_or_longer certificate_issuer 256)
          (verr "certificate issuer is invalid"));;
  lift (raise_if (negb (dt_leb not_before server_time && dt_ltb server_time not_after))
          (verr "certificate is not valid at activation time"));;
  lift (raise_if (MAX_ENDPOINT_CERTIFICATE_TTL <? dt_sub not_after not_before)%Z
          (verr "certificate lifetime exceeds the v1 limit"));;
  lift (raise_if (empty_or_longer actor_id 256) (verr "actor_id is empty or too long"));;
  correlation_id ← uuid4;
  let audit (decision reason : string) metadata :=
    _insert_audit server_time (py "service") actor_id (py "identity:" ++ uuid_str identity_id)
      (py "identity.issue") (py decision) (py reason) correlation_id metadata in
  except_unique
    (_connect (
      row ← select (join_identity identity_id);
      match row with
      | None => raise (NotFoundError (py "identity does not exist"))
      | Some (i, e) =>
        identity ← lift (_identity_from_row identity_id i);
        if same_issuance i certificate_serial certificate_issuer (instant not_before)
             (instant not_after)
        then
          audit "no_change" "exact certificate issuance retry" [];;
          mret identity
        else
          lift (raise_if (negb (bool_decide (ir_status i = PENDING))
                          || negb (bool_decide (er_identity_id e = identity_id)))
                  (AuthorizationError (py "identity is not pending and current")));;
          lift (pg_texts [certificate_serial; certificate_issuer]);;
          execute (update_identity identity_id (λ _, true)
            (set_issued certificate_serial certificate_issuer (instant not_before)
               (instant not_after)));;
          identity' ← lift (replace_identity identity ISSUED (ei_revoked_at identity)
            (ei_revocation_reason identity));
          audit "accepted" "external endpoint certificate recorded"
            [(py "certificate_issuer", certificate_issuer);
             (py "certificate_serial", certificate_serial);
             (py "endpoint_id", uuid_str (ei_endpoint_id identity'))];;
          mret identity'
      end))
    (_record_audit server_time (py "service") actor_id (py "identity:" ++ uuid_str identity_id)
       (py "identity.issue") (py "rejected")
       (py "certificate issuer and serial are already registered") correlation_id [];;
     raise (verr "certificate identity metadata conflicts")).

Definition enroll_synthetic_endpoint (display_name : pystr) (platform : Platform)
    (architecture public_key_fingerprint : pystr) (now : datetime) (actor_id : pystr)
    : PG (Endpoint * EndpointIdentity) :=
  lift (require_aware now (py "now"));;
  endpoint_id ← uuid4;
  identity_id ← uuid4;
  correlation_id ← uuid4;
  identity ← lift (new_EndpointIdentity identity_id endpoint_id public_key_fingerprint now
                     ACTIVE None None);
  endpoint ← lift (new_Endpoint endpoint_id display_name platform architecture identity_id
                     now None None);
  except_unique
    (_connect (
      statement (insert_endpoint endpoint_id (mkEndpointRow display_name platform architecture
        identity_id (instant now) None None));;
      statement (insert_identity identity_id (mkIdentityRow endpoint_id public_key_fingerprint
        (instant now) None None ACTIVE None None));;
      _insert_audit now (py "operator") actor_id (py "endpoint:" ++ uuid_str endpoint_id)
        (py "endpoint.enroll") (py "accepted") (py "synthetic Phase 1 enrollment")
        correlation_id [(py "identity_id", uuid_str identity_id)]))
    (_record_audit now (py "operator") actor_id (py "endpoint:new") (py "endpoint.enroll")
       (py "rejected") (py "fingerprint is already enrolled") correlation_id [];;
     raise (verr "fingerprint is already enrolled"));;
  mret (endpoint, identity).

(** The identity row of an endpoint and public key, with its endpoint. *)
Definition certificate_lookup (endpoint_id : uuid) (public_key_fingerprint : pystr) (d : Db)
    : option (uuid * IdentityRow * EndpointRow) :=
  kr ← find_row (λ _ i, bool_decide (ir_endpoint_id i = endpoint_id)
                        && bool_decide (ir_fingerprint i = public_key_fingerprint))
         (t_identities d);
  e ← t_endpoints d !! ir_endpoint_id kr.2;
  Some (kr, e).

(** The identity found and the reason it may not be used. *)
Definition certificate_verdict (row : option (uuid * IdentityRow * EndpointRow))
    : result (option EndpointIdentity * option pystr) :=
  match row with
  | None => Ok (None, Some (py "certificate endpoint or public key is unknown"))
  | Some (k, i, e) =>
    identity ← _identity_from_row k i;
    Ok (Some identity,
        if bool_decide (is_Some (ei_revoked_at identity)) then
          Some (py "certificate identity is revoked")
        else if negb (bool_decide (ir_status i ∈ [ISSUED; ACTIVE]))
                || negb (bool_decide (er_identity_id e = k)) then
          Some (py "certificate identity is not current")
        else None)
  end.

Definition authenticate_endpoint_certificate (endpoint_id : uuid)
    (public_key_fingerprint : pystr) (authenticated_at : datetime) (correlation_id : uuid)
    : PG EndpointIdentity :=
  lift (require_aware authenticated_at (py "authenticated_at"));;
  server_time ← lift (astimezone_utc authenticated_at);
  outcome ← _connect (
    lift (pg_texts [public_key_fingerprint]);;
    row ← select (certificate_lookup endpoint_id public_key_fingerprint);
    verdict ← lift (certificate_verdict row);
    _insert_audit server_time (py "endpoint_certificate") (uuid_str endpoint_id)
      (py "endpoint:" ++ uuid_str endpoint_id) (py "certificate.authenticate")
      (py match verdict.2 with Some _ => "rejected" | None => "accepted" end)
      (default (py "verified certificate key is current") verdict.2) correlation_id [];;
    mret verdict);
  match outcome with
  | (Some identity, None) => mret identity
  | _ => raise (AuthorizationError (py "endpoint certificate is unauthorized"))
  end.

Definition set_revoked (now : Z) (reason : pystr) (r : IdentityRow) : IdentityRow :=
  mkIdentityRow (ir_endpoint_id r) (ir_fingerprint r) (ir_created_at r) (Some now)
    (Some reason) REVOKED (ir_certificate r) (ir_activated_at r).

Definition revoke_identity (identity_id : uuid) (reason actor_id : pystr) (now : datetime)
    (correlation_id : option uuid) : PG EndpointIdentity :=
  lift (require_aware now (py "now"));;
  lift (raise_if (empty_or_longer reason 256)
          (verr "revocation reason is empty or too long"));;
  event_correlation_id ← match correlation_id with Some u => mret u | None => uuid4 end;
  let audit (decision : string) (why : pystr) :=
    _insert_audit now (py "operator") actor_id (py "identity:" ++ uuid_str identity_id)
      (py "identity.revoke") (py decision) why event_correlation_id [] in
  _connect (
    row ← select (λ d, t_identities d !! identity_id);
    match row with
    | None => raise (NotFoundError (py "identity does not exist"))
    | Some r =>
      identity ← lift (_identity_from_row identity_id r);
      if bool_decide (is_Some (ei_revoked_at identity)) then
        audit "no_change" (py "identity already revoked");;
        mret identity
      else
        revoked ← lift (replace_identity identity REVOKED (Some now) (Some reason));
        lift (pg_texts [reason]);;
        execute (update_identity identity_id (λ _, true) (set_revoked (instant now) reason));;
        audit "accepted" reason;;
        mret revoked
    end).

(** ** Ingestion *)
Definition Failure : Type := (pystr → exn) * pystr.

Definition fails (error_type : pystr → exn) (reason : string) : option Failure :=
  Some (error_type, py reason).

(** The checks on the joined identity row, before the message is looked up. *)
Definition ingest_identity_checks (i : IdentityRow) (e : EndpointRow)
    (authenticated_identity_id : uuid) (identity : EndpointIdentity)
    (envelope : MessageEnvelope) (observation_type : pystr) : option Failure :=
  if bool_decide (is_Some (ei_revoked_at identity)) then
    fails AuthorizationError "authenticated identity is revoked"
  else if negb (bool_decide (ir_status i ∈ [ISSUED; ACTIVE]))
          || negb (bool_decide (er_identity_id e = authenticated_identity_id)) then
    fails AuthorizationError "authenticated identity is not current"
  else if bool_decide (ir_status i = ISSUED)
          && negb (bool_decide (observation_type = py "heartbeat")) then
    fails AuthorizationError "issued identity requires an activation heartbeat"
  else if bool_decide (me_endpoint_id envelope ≠ ei_endpoint_id identity) then
    fails AuthorizationError "message endpoint does not match transport identity"
  else None.

(** The checks on times and on the inventory's binding. *)
Definition ingest_message_checks (e : EndpointRow) (envelope : MessageEnvelope)
    (received_at : datetime) (inventory_binding : option (Platform * pystr))
    : result (option Failure) :=
  latest ← dt_add received_at MAX_CLOCK_SKEW;
  Ok (if dt_ltb latest (me_created_at envelope) then
        fails ValidationError "message creation time exceeds allowed clock skew"
      else if dt_leb (me_expires_at envelope) received_at then
        fails ValidationError "message expired before receipt"
      else match inventory_binding with
      | Some (platform, architecture) =>
        if bool_decide (platform_value platform ≠ platform_value (er_platform e))
           || bool_decide (architecture ≠ er_architecture e)
        then fails ValidationError "inventory binding does not match enrolled endpoint"
        else None
      | None => None
      end).

(** Is the stored observation the same encoded message of the same sender? *)
Definition exact_retry (existing : ObservationRow) (authenticated_identity_id : uuid)
    (envelope : MessageEnvelope) (encoded_message_digest : option pystr) : bool :=
  negb (bool_decide (encoded_message_digest = None))
  && bool_decide (or_encoded_message_digest existing = encoded_message_digest)
  && bool_decide (or_identity_id existing = authenticated_identity_id)
  && bool_decide (or_endpoint_id existing = me_endpoint_id envelope).

(** [GREATEST(COALESCE(last, t), t)]. *)
Definition greatest (last : option Z) (t : Z) : option Z := Some (Z.max (default t last) t).

Definition touch_receipt (t : Z) (heartbeat : bool) (r : EndpointRow) : EndpointRow :=
  mkEndpointRow (er_display_name r) (er_platform r) (er_architecture r) (er_identity_id r)
    (er_enrolled_at r) (greatest (er_last_receipt_at r) t)
    (if heartbeat then greatest (er_last_heartbeat_at r) t else er_last_heartbeat_at r).

Definition set_active (t : Z) (r : IdentityRow) : IdentityRow :=
  mkIdentityRow (ir_endpoint_id r) (ir_fingerprint r) (ir_created_at r) (ir_revoked_at r)
    (ir_revocation_reason r) ACTIVE (ir_certificate r) (Some t).

(** The acceptance: the observation, the receipt columns, the activation of an
issued identity by a heartbeat, and their audit events. *)
Definition ingest_accept (authenticated_identity_id : uuid) (identity : EndpointIdentity)
    (envelope : MessageEnvelope) (observation_type : pystr) (schema_version : Z)
    (payload_digest : pystr) (received_at : datetime) (encoded_message_digest : option pystr)
    : PG Observation :=
  observation_id ← uuid4;
  observation ← lift (new_Observation observation_id (ei_endpoint_id identity)
    (me_message_id envelope) observation_type schema_version (me_created_at envelope)
    received_at (me_boot_id envelope) (me_sequence envelope) payload_digest
    encoded_message_digest);
  statement (insert_observation (mkObservationRow observation_id (ei_endpoint_id identity)
    authenticated_identity_id (me_message_id envelope) observation_type schema_version
    (instant (me_created_at envelope)) (instant received_at) (me_boot_id envelope)
    (me_sequence envelope) payload_digest encoded_message_digest));;
  let heartbeat := bool_decide (observation_type = py "heartbeat") in
  statement (λ d, Ok (update_endpoint (ei_endpoint_id identity)
                        (touch_receipt (instant received_at) heartbeat) d));;
  (if heartbeat then
     activated ← execute (update_identity (ei_identity_id identity)
       (λ r, bool_decide (ir_status r = ISSUED)) (set_active (instant received_at)));
     if activated : bool then
       _insert_audit received_at (py "endpoint_identity") (uuid_str (ei_identity_id identity))
         (py "endpoint:" ++ uuid_str (ei_endpoint_id identity)) (py "identity.activate")
         (py "accepted") (py "first authenticated heartbeat accepted")
         (me_correlation_id envelope) []
     else mret tt
   else mret tt);;
  _insert_audit received_at (py "endpoint_identity") (uuid_str (ei_identity_id identity))
    (py "endpoint:" ++ uuid_str (ei_endpoint_id identity)) (observation_type ++ py ".ingest")
    (py "accepted") (py "message contract and authorization checks passed")
    (me_correlation_id envelope)
    [(py "message_id", uuid_str (ob_message_id observation));
     (py "payload_digest", ob_payload_digest observation);
     (py "sequence", int_str (ob_sequence observation))];;
  mret observation.

(** The transaction body: the failure to raise after commit, or the observation. *)
Definition ingest_transaction (authenticated_identity_id : uuid) (envelope : MessageEnvelope)
    (observation_type : pystr) (schema_version : Z) (payload_digest : pystr)
    (received_at : datetime) (inventory_binding : option (Platform * pystr))
    (encoded_message_digest : option pystr) : PG (Failure + Observation) :=
  let refuse (f : Failure) : PG (Failure + Observation) :=
    _insert_rejection authenticated_identity_id (me_endpoint_id envelope)
      (observation_type ++ py ".ingest") f.2 (me_correlation_id envelope) received_at;;
    mret (inl f) in
  row ← select (join_identity authenticated_identity_id);
  match row with
  | None => refuse (AuthorizationError, py "unknown authenticated identity")
  | Some (i, e) =>
    identity ← lift (_identity_from_row authenticated_identity_id i);
    match ingest_identity_checks i e authenticated_identity_id identity envelope
            observation_type with
    | Some f => refuse f
    | None =>
      existing ← select (λ d, find (λ r, bool_decide (or_message_id r = me_message_id envelope))
                                (t_observations d));
      match existing with
      | Some r =>
        if exact_retry r authenticated_identity_id envelope encoded_message_digest then
          observation ← lift (_observation_from_row r);
          _insert_audit received_at (py "endpoint_identity")
            (uuid_str authenticated_identity_id)
            (py "endpoint:" ++ uuid_str (me_endpoint_id envelope))
            (observation_type ++ py ".ingest") (py "no_change")
            (py "exact accepted message retry acknowledged") (me_correlation_id envelope)
            [(py "message_id", uuid_str (me_message_id envelope))];;
          mret (inr observation)
        else refuse (ReplayError, py "message ID reused with conflict")
      | None =>
        checks ← lift (ingest_message_checks e envelope received_at inventory_binding);
        match checks with
        | Some f => refuse f
        | None =>
          returned ← execute (upsert_sequence authenticated_identity_id (me_boot_id envelope)
                                (me_sequence envelope));
          if returned : bool then
            observation ← ingest_accept authenticated_identity_id identity envelope
              observation_type schema_version payload_digest received_at
              encoded_message_digest;
            mret (inr observation)
          else refuse (ReplayError, py "boot sequence replayed or out of order")
        end
      end
    end
  end.

Definition _ingest (authenticated_identity_id : uuid) (envelope : MessageEnvelope)
    (observation_type : pystr) (schema_version : Z) (payload_digest : pystr)
    (received_at : datetime) (inventory_binding : option (Platform * pystr))
    (encoded_message_digest : option pystr) : PG Observation :=
  lift (require_aware received_at (py "received_at"));;
  received_at ← lift (astimezone_utc received_at);
  outcome ← except_unique
    (_connect (ingest_transaction authenticated_identity_id envelope observation_type
       schema_version payload_digest received_at inventory_binding encoded_message_digest))
    (_record_rejection authenticated_identity_id (me_endpoint_id envelope)
       (observation_type ++ py ".ingest") (py "message ID or boot sequence replayed")
       (me_correlation_id envelope) received_at;;
     raise (ReplayError (py "message ID or boot sequence replayed")));
  match outcome with
  | inl (error_type, reason) => raise (error_type reason)
  | inr observation => mret observation
  end.

Definition ingest_heartbeat (authenticated_identity_id : uuid) (message : HeartbeatMessage)
    (received_at : datetime) (encoded_message_digest : option pystr) : PG Observation :=
  _ingest authenticated_identity_id (hm_envelope message) (py "heartbeat") 1
    (HeartbeatPayload_digest (hm_payload message)) received_at None encoded_message_digest.

Definition ingest_inventory (authenticated_identity_id : uuid) (message : InventoryMessage)
    (received_at : datetime) (encoded_message_digest : option pystr) : PG Observation :=
  let payload := im_payload message in
  _ingest authenticated_identity_id (im_envelope message) (py "inventory")
    (ip_schema_version payload) (InventoryPayload_digest payload) received_at
    (Some (ip_platform payload, ip_architecture payload)) encoded_message_digest.
