(* ===== verification/PersistenceProofs.v ===== *)
(** * What one call of the PostgreSQL control plane does to the tables

[db_effect] lists the changes a committed transaction may make; every method,
on every branch and whatever happens to its transactions, makes one of them. *)
From stdpp Require Import prelude strings gmap sorting pretty ssreflect relations.
From S2P Require Import Prelude Uuid PyTime Sha256 Json Domain ControlPlane Database Persistence.

Set Warnings "-clear-no-such-hyp".

Abbreviation dbof w := (pg_db (store w)).

(** ** Facts: the tables without the audit trail *)
Definition facts (d : Db) : Db := with_audit (λ _, []) d.

(** The audit trail only grows. *)
Definition audit_grows (d d' : Db) : Prop := t_audit d `prefix_of` t_audit d'.

#[export] Instance audit_grows_preorder : PreOrder audit_grows.
Proof. unfold audit_grows. split; [by intros d|]. intros x y z ? ?. by etrans. Qed.

(** Nothing but audit rows is added. *)
Definition only_audit (d d' : Db) : Prop := facts d' = facts d ∧ audit_grows d d'.

#[export] Instance only_audit_preorder : PreOrder only_audit.
Proof.
  split; [by intros d|]. intros x y z [? ?] [? ?]. split; [congruence|by etrans].
Qed.

Lemma facts_fields d d' :
  facts d = facts d' ↔
  t_endpoints d = t_endpoints d' ∧ t_identities d = t_identities d' ∧
  t_sequences d = t_sequences d' ∧ t_observations d = t_observations d' ∧
  t_grants d = t_grants d'.
Proof.
  destruct d, d'. unfold facts, with_audit. simpl. split; [by intros [= ]|].
  by intros (-> & -> & -> & -> & ->).
Qed.

(** ** Partial correctness: what holds when a computation returns *)
Definition okp {A} (m : PG A) (P : world Pg → A → Prop) (w : world Pg) : Prop :=
  ∀ w' a, m w = (w', Ok a) → P w' a.

Lemma okp_bind {A B} (m : PG A) (k : A → PG B) P w :
  okp m (λ w' a, okp (k a) P w') w → okp (m ≫= k) P w.
Proof. intros Hm w' b (w1 & a & H1 & H2)%bind_Ok_inv. by eapply Hm. Qed.

Lemma okp_mono {A} (m : PG A) (P Q : world Pg → A → Prop) w :
  okp m P w → (∀ w' a, P w' a → Q w' a) → okp m Q w.
Proof. intros Hm HPQ w' a H. eauto. Qed.

Lemma okp_ret {A} (a : A) P w : P w a → okp (mret a) P w.
Proof. intros HP w' b [= <- <-]. done. Qed.

Lemma okp_raise {A} e (P : world Pg → A → Prop) w : okp (raise e) P w.
Proof. by intros w' a [= ]. Qed.

Lemma okp_lift {A} (r : result A) (P : world Pg → A → Prop) w :
  (∀ a, r = Ok a → P w a) → okp (lift r) P w.
Proof. intros HP w' a [= <- Ha]. auto. Qed.

Lemma okp_select {A} (f : Db → A) (P : world Pg → A → Prop) w :
  P w (f (dbof w)) → okp (select f) P w.
Proof. intros HP w' a [= <- <-]. done. Qed.

Lemma okp_uuid4 (P : world Pg → uuid → Prop) w :
  (∀ w' u, dbof w' = dbof w → P w' u) → okp uuid4 P w.
Proof. intros HP w' u [= <- <-]. by apply HP. Qed.

Lemma okp_execute {A} (f : Db → result (Db * A)) (P : world Pg → A → Prop) w :
  (∀ w' d a, f (dbof w) = Ok (d, a) → dbof w' = d → P w' a) → okp (execute f) P w.
Proof.
  intros HP w' a. unfold execute. destruct (f (dbof w)) as [[d b]|e] eqn:Hf; [|done].
  intros [= <- <-]. by eapply HP.
Qed.

Lemma okp_statement (f : Db → result Db) (P : world Pg → unit → Prop) w :
  (∀ w' d, f (dbof w) = Ok d → dbof w' = d → P w' tt) → okp (statement f) P w.
Proof.
  intros HP. apply okp_execute. intros w' d [].
  destruct (f (dbof w)) as [d'|e] eqn:Hf; [|done]. intros [= <-] Hd. by apply (HP w' d').
Qed.

(** An audit insertion that returned added one row. *)
Lemma okp_audit t at_ aid sub act dec reason corr md (P : world Pg → unit → Prop) w :
  (∀ w', only_audit (dbof w) (dbof w') → P w' tt) →
  okp (_insert_audit t at_ aid sub act dec reason corr md) P w.
Proof.
  intros HP. unfold _insert_audit. apply okp_bind, okp_uuid4. intros w1 u Hw1.
  apply okp_statement. intros w2 d Hins Hd. apply HP. unfold insert_audit_event in Hins.
  checks_in Hins. destruct Hins as (_ & _ & _ & _ & [= Hd']).
  rw Hd -Hd' Hw1. split; [done|]. by eexists.
Qed.

(** A transaction whose body, when it returns, relates the tables by [R]. *)
Lemma connect_effect {A} (body : PG A) (R : Db → Db → Prop) w :
  (∀ d, R d d) →
  (∀ w1, dbof w1 = dbof w →
     okp body (λ w2 _, deferred_constraints (dbof w2) = true → R (dbof w) (dbof w2)) w1) →
  R (dbof w) (dbof (_connect body w).1).
Proof.
  intros Hrefl Hbody. unfold _connect. destruct (pg_shutting_down _); [apply Hrefl|].
  specialize (Hbody (World (next_fate (store w)) (rng w)) eq_refl).
  destruct (pg_fates _ 0); simpl; [| by apply Hrefl | |];
    (destruct (body _) as [w2 [a|e]] eqn:Hb; [|apply Hrefl]);
    (destruct (deferred_constraints _) eqn:Hdef; [|apply Hrefl]); try apply Hrefl;
    by eapply Hbody.
Qed.

(** A transaction that raised anything but a driver error rolled back. *)
Lemma connect_rollback {A} (body : PG A) w w' e :
  _connect body w = (w', Raise e) → e ≠ PsycopgError → dbof w' = dbof w.
Proof.
  unfold _connect. destruct (pg_shutting_down _); [by intros [= <- <-]|].
  destruct (pg_fates _ 0); [|by intros [= <- <-]| |];
    (destruct (body _) as [w2 [a|e']]; [|by intros [= <- <-]]);
    (destruct (deferred_constraints _); [|by intros [= <- <-]]); by intros [= <- <-].
Qed.

(** A transaction that returned committed what its body did. *)
Lemma connect_Ok {A} (body : PG A) w w' a :
  _connect body w = (w', Ok a) →
  body (World (next_fate (store w)) (rng w)) = (w', Ok a) ∧
  deferred_constraints (dbof w') = true.
Proof.
  unfold _connect. destruct (pg_shutting_down _); [done|].
  destruct (pg_fates _ 0); [|done| |];
    (destruct (body _) as [w2 [a'|e']]; [|done]);
    (destruct (deferred_constraints _) eqn:Hd; [|done]); intros [= <- <-]; done.
Qed.

(** ** Effects *)

(** No other identity has this key, or this certificate. *)
Definition fingerprint_free (d : Db) (k : uuid) (fp : pystr) : Prop :=
  ∀ j r, t_identities d !! j = Some r → j ≠ k → ir_fingerprint r ≠ fp.
Definition certificate_free (d : Db) (k : uuid) (r : IdentityRow) : Prop :=
  ∀ j r', t_identities d !! j = Some r' → j ≠ k → same_certificate r r' = false.

(** The rows a new enrollment adds. *)
Record enrolls (d : Db) (eid iid : uuid) (er : EndpointRow) (ir : IdentityRow) : Prop := {
  en_endpoint_new : t_endpoints d !! eid = None;
  en_identity_new : t_identities d !! iid = None;
  en_endpoint_ok : endpoint_checks er = true;
  en_identity_ok : identity_checks ir = true;
  en_current : er_identity_id er = iid ∧ ir_endpoint_id ir = eid;
  en_no_receipt : er_last_receipt_at er = None ∧ er_last_heartbeat_at er = None;
  en_status : ir_status ir ∈ [PENDING; ACTIVE] ∧ ir_revoked_at ir = None ∧
    ir_certificate ir = None;
  en_key : fingerprint_free d iid (ir_fingerprint ir);
}.

Definition enrolled (eid iid : uuid) (er : EndpointRow) (ir : IdentityRow) (d : Db) : Db :=
  with_identities <[iid := ir]> (with_endpoints <[eid := er]> d).

(** A grant and its consumed form. *)
Definition consume_grant (t : Z) (i : uuid) (g : GrantRow) : GrantRow :=
  mkGrantRow (gr_token_sha256 g) (gr_display_name g) (gr_platform g) (gr_architecture g)
    (gr_created_at g) (gr_expires_at g) (gr_created_by g) (Some (t, i)).

(** The identity row after an accepted observation. *)
Definition after_accept (o : ObservationRow) (r : IdentityRow) : IdentityRow :=
  if decide (ir_status r = ISSUED) then set_active (or_received_at o) r else r.

(** When observation [o] of identity [iid] is accepted. *)
Record accepts (d : Db) (iid : uuid) (ir : IdentityRow) (er : EndpointRow)
    (o : ObservationRow) : Prop := {
  ac_identity : t_identities d !! iid = Some ir;
  ac_endpoint : t_endpoints d !! ir_endpoint_id ir = Some er;
  ac_current : er_identity_id er = iid;
  ac_status : ir_status ir ∈ [ISSUED; ACTIVE];
  ac_active : ir_status ir = ISSUED → or_observation_type o = py "heartbeat";
  ac_unrevoked : ir_revoked_at ir = None;
  ac_binding : or_identity_id o = iid ∧ or_endpoint_id o = ir_endpoint_id ir;
  ac_fresh : ∀ o', o' ∈ t_observations d → or_message_id o' ≠ or_message_id o;
  ac_sequence : (default 0 (t_sequences d !! (iid, or_boot_id o)) < or_sequence o)%Z;
  ac_checks : observation_checks o = true;
  ac_after : ir_status ir = ISSUED → identity_checks (set_active (or_received_at o) ir) = true;
}.

Definition accepted_db (iid : uuid) (ir : IdentityRow) (er : EndpointRow) (o : ObservationRow)
    (d : Db) : Db :=
  with_identities <[iid := after_accept o ir]>
    (with_endpoints <[ir_endpoint_id ir :=
        touch_receipt (or_received_at o) (bool_decide (or_observation_type o = py "heartbeat")) er]>
      (with_observations (λ l, l ++ [o])
        (with_sequences <[(iid, or_boot_id o) := or_sequence o]> d))).

(** The row reads back as a valid grant. *)
Definition readable (k : uuid) (g : GrantRow) : Prop :=
  ∃ grant, _enrollment_grant_from_row k g = Ok grant.

(** The change of facts of one committed transaction. *)
Inductive fact_effect (d : Db) : Db → Prop :=
| fact_none : fact_effect d d
| fact_grant k g :
    t_grants d !! k = None → grant_checks g = true → gr_consumed g = None →
    (∀ k' g', t_grants d !! k' = Some g' → gr_token_sha256 g' ≠ gr_token_sha256 g) →
    readable k g → fact_effect d (with_grants <[k := g]> d)
| fact_enroll eid iid er ir :
    enrolls d eid iid er ir → fact_effect d (enrolled eid iid er ir d)
| fact_consume eid iid er ir k g t :
    enrolls d eid iid er ir → t_grants d !! k = Some g → gr_consumed g = None →
    grant_checks (consume_grant t iid g) = true →
    er = mkEndpointRow (gr_display_name g) (gr_platform g) (gr_architecture g) iid t None None →
    ir_created_at ir = t →
    fact_effect d (with_grants <[k := consume_grant t iid g]> (enrolled eid iid er ir d))
| fact_issue iid ir serial issuer not_before not_after :
    t_identities d !! iid = Some ir → ir_status ir = PENDING →
    identity_checks (set_issued serial issuer not_before not_after ir) = true →
    certificate_free d iid (set_issued serial issuer not_before not_after ir) →
    fact_effect d (with_identities <[iid := set_issued serial issuer not_before not_after ir]> d)
| fact_accept iid ir er o :
    accepts d iid ir er o → fact_effect d (accepted_db iid ir er o d)
| fact_revoke iid ir t reason :
    t_identities d !! iid = Some ir → ir_revoked_at ir = None →
    identity_checks (set_revoked t reason ir) = true →
    fact_effect d (with_identities <[iid := set_revoked t reason ir]> d).

(** One call: an effect on the facts, and audit rows. *)
Definition db_effect (d d' : Db) : Prop :=
  ∃ d1, fact_effect d d1 ∧ facts d' = facts d1 ∧ audit_grows d d'.

Lemma db_effect_refl d : db_effect d d.
Proof. exists d. split; [constructor|]. by split. Qed.

Lemma db_effect_audit d d' : only_audit d d' → db_effect d d'.
Proof. intros [? ?]. exists d. split; [constructor|done]. Qed.

#[export] Hint Resolve db_effect_refl db_effect_audit : core.

(** Whatever the outcome, the call has one effect. *)
Definition has_effect {A} (m : PG A) (d : Db) (w : world Pg) : Prop :=
  db_effect d (dbof (m w).1).

Lemma effect_lift {A B} (r : result A) (k : A → PG B) d w :
  dbof w = d → (∀ a, r = Ok a → has_effect (k a) d w) → has_effect (lift r ≫= k) d w.
Proof.
  unfold has_effect, mbind, M_bind, lift. intros <- Hk. destruct r as [a|e]; simpl; auto.
Qed.

Lemma effect_uuid4 {B} (k : uuid → PG B) d w :
  (∀ w' u, dbof w' = dbof w → has_effect (k u) d w') → has_effect (uuid4 ≫= k) d w.
Proof. intros Hk. by apply (Hk (World (store w) (λ n, rng w (S n))) (rng w 0)). Qed.

Lemma effect_token {B} (k : pystr → PG B) d w :
  (∀ w' s, dbof w' = dbof w → has_effect (k s) d w') → has_effect (token_urlsafe_32 ≫= k) d w.
Proof. intros Hk. unfold has_effect, mbind, M_bind, token_urlsafe_32. by apply Hk. Qed.

(** Code after the transaction that only returns or raises. *)
Lemma effect_tail {A B} (m : PG A) (k : A → PG B) d w :
  has_effect m d w → (∀ a w', (k a w').1 = w') → has_effect (m ≫= k) d w.
Proof.
  unfold has_effect, mbind, M_bind. intros Hm Hk.
  destruct (m w) as [w' [a|e]]; simpl in *; [by rw Hk|done].
Qed.

Lemma effect_connect {A} (body : PG A) d w :
  dbof w = d →
  (∀ w1, dbof w1 = d → okp body (λ w2 _, deferred_constraints (dbof w2) = true →
                                         db_effect d (dbof w2)) w1) →
  has_effect (_connect body) d w.
Proof. intros <- Hb. apply (connect_effect body db_effect); auto. Qed.

Lemma effect_except {A} (body handler : PG A) d w :
  has_effect (_connect body) d w → dbof w = d →
  (∀ w', dbof w' = d → has_effect handler d w') →
  has_effect (except_unique (_connect body) handler) d w.
Proof.
  unfold has_effect, except_unique. intros Hb Hd Hh.
  destruct (_connect body w) as [w' [a|e]] eqn:Hc; [done|].
  destruct e; try done. apply Hh. rw -Hd. by eapply connect_rollback.
Qed.

Lemma effect_record_audit t at_ aid sub act dec reason corr md d w :
  dbof w = d → has_effect (_record_audit t at_ aid sub act dec reason corr md) d w.
Proof.
  intros Hd. apply effect_connect; [done|]. intros w1 Hw1. apply okp_audit.
  intros w2 Ha _. apply db_effect_audit. by rw -Hw1.
Qed.

(** ** What the statements check *)
Lemma other_row_false {R} (m : gmap uuid R) k p :
  other_row m k p = false ↔ ∀ j r, m !! j = Some r → j ≠ k → p r = false.
Proof.
  unfold other_row. rw bool_decide_eq_false. split.
  - intros H j r Hj Hne. destruct (p r) eqn:Hp; [|done]. destruct H. by exists j, r.
  - intros H (j & r & Hj & Hne & Hp). by rw (H j r) in Hp.
Qed.

Lemma pg_check_Ok b u : pg_check b = Ok u ↔ b = true.
Proof. unfold pg_check. rw raise_if_Ok. by destruct b. Qed.
Lemma pg_unique_Ok b u : pg_unique b = Ok u ↔ b = true.
Proof. unfold pg_unique. rw raise_if_Ok. by destruct b. Qed.
#[export] Hint Rewrite pg_check_Ok pg_unique_Ok negb_true_iff @other_row_false : pyok.

Lemma insert_endpoint_Ok k r d d' :
  insert_endpoint k r d = Ok d' →
  endpoint_checks r = true ∧ t_endpoints d !! k = None ∧ d' = with_endpoints <[k := r]> d.
Proof.
  unfold insert_endpoint. intros H. checks_in H. destruct H as (_ & ? & ? & _ & [= <-]). done.
Qed.

Lemma identity_unique_Ok k r d :
  identity_unique k r d = Ok tt ↔
  fingerprint_free d k (ir_fingerprint r) ∧ certificate_free d k r.
Proof.
  unfold identity_unique. checks. unfold fingerprint_free, certificate_free.
  split; (intros [H1 H2]; split; [|exact H2]); intros j r' Hj Hne.
  - specialize (H1 j r' Hj Hne). by checks_in H1.
  - by apply bool_decide_eq_false_2, (H1 j).
Qed.

Lemma insert_identity_Ok k r d d' :
  insert_identity k r d = Ok d' →
  identity_checks r = true ∧ t_identities d !! k = None ∧
  fingerprint_free d k (ir_fingerprint r) ∧ d' = with_identities <[k := r]> d.
Proof.
  unfold insert_identity. intros H. checks_in H.
  destruct H as (_ & ? & ? & [? _]%identity_unique_Ok & _ & [= <-]). done.
Qed.

Lemma update_identity_Ok k p f d d' b :
  update_identity k p f d = Ok (d', b) →
  (b = false ∧ d' = d ∧ ∀ r, t_identities d !! k = Some r → p r = false) ∨
  (b = true ∧ ∃ r, t_identities d !! k = Some r ∧ p r = true ∧ identity_checks (f r) = true ∧
     certificate_free d k (f r) ∧ d' = with_identities <[k := f r]> d).
Proof.
  unfold update_identity. destruct (t_identities d !! k) as [r|] eqn:Hr; last first.
  { intros [= <- <-]. by left. }
  destruct (p r) eqn:Hp; last first. { intros [= <- <-]. left. naive_solver. }
  intros H. checks_in H. destruct H as (? & [_ ?]%identity_unique_Ok & [= <- <-]).
  right. split; [done|]. by exists r.
Qed.

(** ** The effect of each method *)
Lemma fact_effect_audit d d' : fact_effect d d' → t_audit d' = t_audit d.
Proof. by destruct 1. Qed.

(** Facts, then audit rows. *)
Lemma db_effect_fact d d1 d2 : fact_effect d d1 → only_audit d1 d2 → db_effect d d2.
Proof.
  intros He [Hf Ha]. exists d1. split_and!; [done..|].
  unfold audit_grows in *. by rw (fact_effect_audit d d1 He) in Ha.
Qed.

(** The two insertions of an enrollment. *)
Lemma okp_enroll {A} eid iid er ir (k : PG A) P w :
  er_identity_id er = iid → ir_endpoint_id ir = eid →
  er_last_receipt_at er = None → er_last_heartbeat_at er = None →
  ir_status ir ∈ [PENDING; ACTIVE] → ir_revoked_at ir = None → ir_certificate ir = None →
  (∀ w', enrolls (dbof w) eid iid er ir → dbof w' = enrolled eid iid er ir (dbof w) →
     okp k P w') →
  okp (statement (insert_endpoint eid er);; statement (insert_identity iid ir);; k) P w.
Proof.
  intros ??????? Hk.
  apply okp_bind, okp_statement. intros w1 d1 (Hc & Hn & ->)%insert_endpoint_Ok Hw1.
  apply okp_bind, okp_statement. intros w2 d2 (Hc' & Hn' & Hfp & ->)%insert_identity_Ok Hw2.
  rw Hw1 in Hn' Hfp Hw2. by apply Hk.
Qed.

Lemma effect_enroll_synthetic name pl arch fp now actor w :
  has_effect (enroll_synthetic_endpoint name pl arch fp now actor) (dbof w) w.
Proof.
  unfold enroll_synthetic_endpoint. apply effect_lift; [done|]. intros _ _.
  apply effect_uuid4. intros w1 eid Hw1. apply effect_uuid4. intros w2 iid Hw2.
  apply effect_uuid4. intros w3 corr Hw3. apply effect_lift; [congruence|]. intros identity _.
  apply effect_lift; [congruence|]. intros endpoint _.
  apply effect_tail; [|done]. apply effect_except; [|congruence|].
  - apply effect_connect; [congruence|]. intros w4 Hw4.
    apply okp_enroll; try done; [set_solver|]. intros w5 Hen Hw5.
    apply okp_audit. intros w6 Ha _. rw Hw4 in Hen Hw5. rw Hw5 in Ha.
    eapply db_effect_fact; [by apply fact_enroll|done].
  - intros w' Hw'. apply effect_tail; [|done]. by apply effect_record_audit.
Qed.

Lemma effect_operator_access actor subject action decision reason corr now md w :
  has_effect (record_operator_access actor subject action decision reason corr now md)
    (dbof w) w.
Proof.
  unfold record_operator_access. do 8 (apply effect_lift; [done|]; intros ? _).
  by apply effect_record_audit.
Qed.

Lemma effect_authenticate eid fp t corr w :
  has_effect (authenticate_endpoint_certificate eid fp t corr) (dbof w) w.
Proof.
  unfold authenticate_endpoint_certificate. do 2 (apply effect_lift; [done|]; intros ? _).
  apply effect_tail; [|by intros [[] []] ?]. apply effect_connect; [done|]. intros w1 Hw1.
  apply okp_bind, okp_lift. intros _ _. apply okp_bind, okp_select.
  apply okp_bind, okp_lift. intros v _. apply okp_bind, okp_audit. intros w2 Ha. apply okp_ret.
  intros _. rw -Hw1. auto.
Qed.

Lemma utc_instant t : utc (instant (utc t)) = utc t.
Proof. by rw instant_utc. Qed.

(** A grant just built reads back from its row. *)
Lemma grant_row_readable server expires ttl now k token name pl arch actor grant :
  server = utc now → dt_add server ttl = Ok expires →
  new_EnrollmentGrant k token name pl arch server expires actor None None = Ok grant →
  _enrollment_grant_from_row (eg_grant_id grant)
    (mkGrantRow (eg_token_sha256 grant) (eg_display_name grant) (eg_platform grant)
      (eg_architecture grant) (instant (eg_created_at grant)) (instant (eg_expires_at grant))
      (eg_created_by grant) None) = Ok grant.
Proof.
  intros -> Hadd Hnew. assert (expires = utc (now + ttl)) as ->.
  { unfold dt_add in Hadd. case_match; [|done]. by injection Hadd as <-. }
  pose proof Hnew as Hg. unfold new_EnrollmentGrant in Hg. apply result_seq_Ok in Hg as [_ [= <-]].
  unfold _enrollment_grant_from_row. simpl. by rw !utc_instant.
Qed.

Lemma effect_create_grant name pl arch now actor ttl w :
  has_effect (create_enrollment_grant name pl arch now actor ttl) (dbof w) w.
Proof.
  unfold create_enrollment_grant. apply effect_lift; [done|]. intros u _.
  apply effect_lift; [done|]. intros server [_ Hserver]%astimezone_utc_Ok.
  apply effect_token. intros w0 secret Hw0. cbv zeta. rw -Hw0.
  apply effect_uuid4. intros w1 k Hw1. apply effect_lift; [done|]. intros expires Hexp.
  apply effect_lift; [done|]. intros grant Hgrant.
  apply effect_uuid4. intros w2 corr Hw2. apply effect_tail; [|done].
  apply effect_connect; [congruence|]. intros w3 Hw3.
  apply okp_bind, okp_statement. intros w4 d4 Hins Hw4. apply okp_audit. intros w5 Ha _.
  unfold insert_grant, grant_unique in Hins. checks_in Hins.
  destruct Hins as (_ & Hc & Hn & (Ht & _) & [= <-]). rw Hw4 in Ha. rw Hw3 in Hn Ht Ha.
  eapply db_effect_fact; [|exact Ha]. apply fact_grant; [done..| |].
  - intros k' g' Hk' Heq. assert (k' ≠ eg_grant_id grant) by congruence.
    specialize (Ht k' g' Hk' ltac:(done)). checks_in Ht. by apply Ht.
  - exists grant. eapply (grant_row_readable server expires ttl); [exact Hserver|exact Hexp|exact Hgrant].
Qed.

Lemma identity_from_row_Ok k r i :
  _identity_from_row k r = Ok i →
  i = mkIdentity k (ir_endpoint_id r) (ir_fingerprint r) (utc (ir_created_at r)) (ir_status r)
        (utc <$> ir_revoked_at r) (ir_revocation_reason r).
Proof.
  unfold _identity_from_row, new_EndpointIdentity. intros H. apply result_seq_Ok in H as [_ [= <-]].
  done.
Qed.

Lemma effect_revoke i reason actor now corr w :
  has_effect (revoke_identity i reason actor now corr) (dbof w) w.
Proof.
  unfold revoke_identity. do 2 (apply effect_lift; [done|]; intros ? _).
  assert (∀ corr' w', dbof w' = dbof w → has_effect (_connect (
    row ← select (λ d, t_identities d !! i);
    match row with
    | None => raise (NotFoundError (py "identity does not exist"))
    | Some r =>
      identity ← lift (_identity_from_row i r);
      if bool_decide (is_Some (ei_revoked_at identity)) then
        _insert_audit now (py "operator") actor (py "identity:" ++ uuid_str i)
          (py "identity.revoke") (py "no_change") (py "identity already revoked") corr' [];;
        mret identity
      else
        revoked ← lift (replace_identity identity REVOKED (Some now) (Some reason));
        lift (pg_texts [reason]);;
        execute (update_identity i (λ _, true) (set_revoked (instant now) reason));;
        _insert_audit now (py "operator") actor (py "identity:" ++ uuid_str i)
          (py "identity.revoke") (py "accepted") reason corr' [];;
        mret revoked
    end)) (dbof w) w') as Htx; last first.
  { destruct corr as [u|]; [by apply Htx|]. apply effect_uuid4. intros w' u Hw'. by apply Htx. }
  intros corr' w' Hw'. apply effect_connect; [done|]. intros w1 Hw1.
  apply okp_bind, okp_select. destruct (t_identities (dbof w1) !! i) as [r|] eqn:Hr;
    [|apply okp_raise].
  apply okp_bind, okp_lift. intros identity ->%identity_from_row_Ok. simpl.
  case_bool_decide as Hrev.
  - apply okp_bind, okp_audit. intros w2 Ha. apply okp_ret. intros _. rw -Hw1. auto.
  - apply okp_bind, okp_lift. intros revoked _. apply okp_bind, okp_lift. intros _ _.
    apply okp_bind, okp_execute.
    intros w2 d2 b [(_ & _ & Hno)|(_ & r' & Hr' & _ & Hc & _ & ->)]%update_identity_Ok Hw2.
    { by specialize (Hno r Hr). }
    apply okp_bind, okp_audit. intros w3 Ha. apply okp_ret. intros _.
    rw Hr in Hr'. injection Hr' as <-. rw Hw2 in Ha. rw Hw1 in Hr Ha.
    eapply db_effect_fact; [|exact Ha]. apply fact_revoke; [done| |done].
    destruct (ir_revoked_at r); [|done]. destruct Hrev. by eexists.
Qed.

Lemma join_identity_Some k d i e :
  join_identity k d = Some (i, e) ↔
  t_identities d !! k = Some i ∧ t_endpoints d !! ir_endpoint_id i = Some e.
Proof.
  unfold join_identity. destruct (t_identities d !! k) as [i'|]; simpl; [|naive_solver].
  destruct (t_endpoints d !! ir_endpoint_id i') as [e'|] eqn:He; simpl; naive_solver.
Qed.

Lemma effect_issue i serial issuer nb na now actor w :
  has_effect (record_issued_endpoint_identity i serial issuer nb na now actor) (dbof w) w.
Proof.
  unfold record_issued_endpoint_identity. do 11 (apply effect_lift; [done|]; intros ? _).
  apply effect_uuid4. intros w1 corr Hw1. apply effect_except; [|done|].
  - apply effect_connect; [done|]. intros w2 Hw2. apply okp_bind, okp_select.
    destruct (join_identity i (dbof w2)) as [[r e]|] eqn:Hj; [|apply okp_raise].
    apply join_identity_Some in Hj as [Hr He].
    apply okp_bind, okp_lift. intros identity Hid. destruct (same_issuance _ _ _ _ _).
    + apply okp_bind, okp_audit. intros w3 Ha. apply okp_ret. intros _. rw -Hw2. auto.
    + apply okp_bind, okp_lift. intros u Hp. checks_in Hp. destruct Hp as [Hp _].
      apply okp_bind, okp_lift. intros _ _. apply okp_bind, okp_execute.
      intros w3 d3 b [(_ & _ & Hno)|(_ & r' & Hr' & _ & Hc & Hfree & ->)]%update_identity_Ok Hw3.
      { by specialize (Hno r Hr). }
      apply okp_bind, okp_lift. intros identity' _. apply okp_bind, okp_audit.
      intros w4 Ha. apply okp_ret. intros _.
      rw Hr in Hr'. injection Hr' as <-. rw Hw3 in Ha. rw Hw2 in Hr Ha Hfree.
      eapply db_effect_fact; [|exact Ha]. by apply fact_issue.
  - intros w' Hw'. apply effect_tail; [|done]. by apply effect_record_audit.
Qed.

Lemma grant_from_row_Ok k r g :
  _enrollment_grant_from_row k r = Ok g →
  g = mkGrant k (gr_token_sha256 r) (gr_display_name r) (gr_platform r) (gr_architecture r)
        (utc (gr_created_at r)) (utc (gr_expires_at r)) (gr_created_by r)
        (utc ∘ fst <$> gr_consumed r) (snd <$> gr_consumed r).
Proof.
  unfold _enrollment_grant_from_row, new_EnrollmentGrant. intros H.
  by apply result_seq_Ok in H as [_ [= <-]].
Qed.

Lemma find_row_Some {R} (p : uuid → R → bool) m k r :
  find_row p m = Some (k, r) → m !! k = Some r ∧ p k r = true.
Proof.
  unfold find_row. intros H%head_Some_elem_of.
  apply list_elem_of_filter in H as [Hp Hin]. by apply elem_of_map_to_list in Hin.
Qed.

(** The grant a lookup returns as new is stored and unconsumed. *)
Definition lookup_ok (d : Db) (c : consumption) : Prop :=
  match c with
  | ConsumeNew g => ∃ r, t_grants d !! eg_grant_id g = Some r ∧ gr_consumed r = None ∧
      _enrollment_grant_from_row (eg_grant_id g) r = Ok g
  | _ => True
  end.

Lemma okp_consume_retry g fp w :
  okp (consume_retry g fp) (λ w' c, dbof w' = dbof w ∧ ∀ g', c ≠ ConsumeNew g') w.
Proof.
  unfold consume_retry. destruct (eg_consumed_identity_id g); [|by apply okp_ret].
  apply okp_bind, okp_select. destruct (join_identity _ _) as [[i e]|]; [|by apply okp_ret].
  destruct (_ && _); [|by apply okp_ret].
  apply okp_bind, okp_lift. intros ? _. apply okp_bind, okp_lift. intros ? _. by apply okp_ret.
Qed.

Lemma okp_consume_lookup digest fp t retry w :
  okp (consume_lookup digest fp t retry) (λ w' c, dbof w' = dbof w ∧ lookup_ok (dbof w) c) w.
Proof.
  unfold consume_lookup. destruct digest as [digest|]; [|by apply okp_ret].
  apply okp_bind, okp_select. destruct (find_row _ _) as [[k r]|] eqn:Hf; [|by apply okp_ret].
  apply find_row_Some in Hf as [Hk _].
  apply okp_bind, okp_lift. intros g Hg. pose proof (grant_from_row_Ok _ _ _ Hg) as Hgr.
  do 3 (case_match; [by apply okp_ret|]). case_match eqn:Hc.
  - case_match; [|by apply okp_ret]. eapply okp_mono; [apply okp_consume_retry|].
    intros w' c [-> Hnew]. split; [done|]. destruct c; try done. by destruct (Hnew grant).
  - apply okp_ret. split; [done|]. exists r. subst g. simpl in *. split_and!; [done| |done].
    by destruct (gr_consumed r).
Qed.

Lemma okp_consume_create g fp t actor status corr w :
  status ∈ [PENDING; ACTIVE] → lookup_ok (dbof w) (ConsumeNew g) →
  okp (consume_create g fp t actor status corr) (λ w' _, db_effect (dbof w) (dbof w')) w.
Proof.
  intros Hst (r & Hr & Hnone & Hg). unfold consume_create.
  apply okp_bind, okp_uuid4. intros w1 eid Hw1. apply okp_bind, okp_uuid4. intros w2 iid Hw2.
  assert (dbof w2 = dbof w) as Hd by congruence.
  apply okp_bind, okp_lift. intros identity Hid. apply okp_bind, okp_lift. intros endpoint Hep.
  unfold new_EndpointIdentity in Hid. apply result_seq_Ok in Hid as [_ [= <-]].
  unfold new_Endpoint in Hep. apply result_seq_Ok in Hep as [_ [= <-]]. simpl.
  apply okp_enroll; try done. intros w3 Hen Hw3. rw Hd in Hen Hw3.
  apply okp_bind, okp_execute. intros w4 d4 b Hup Hw4.
  apply okp_bind, okp_lift. intros u Hb. checks_in Hb. subst b.
  unfold update_grant_consumed in Hup. rw Hw3 /= Hr Hnone in Hup. checks_in Hup.
  destruct Hup as (Hc & _ & [= <-]). rw -/(consume_grant (instant t) iid r) in Hw4 Hc.
  apply okp_bind, okp_audit. intros w5 Ha5. apply okp_bind, okp_audit. intros w6 Ha6.
  apply okp_ret. assert (only_audit (dbof w4) (dbof w6)) as Ha by by etrans. rw Hw4 in Ha.
  eapply db_effect_fact; [|exact Ha].
  apply (fact_consume (dbof w) eid iid _ _ (eg_grant_id g) r (instant t)); try done.
  apply grant_from_row_Ok in Hg. by rw Hg.
Qed.

Lemma effect_connect_except {L A} (phase1 : PG L) (phase2 : L → PG A) handler w d :
  has_effect (_connect (l ← phase1; phase2 l)) d w → dbof w = d →
  (∀ l w', dbof w' = d → has_effect (handler l) d w') →
  has_effect (_connect_except phase1 phase2 handler) d w.
Proof.
  unfold has_effect, _connect_except. intros Hb Hd Hh.
  destruct (_connect _ w) as [w' [a|e]] eqn:Hc; [done|].
  destruct e; try done. apply Hh. rw -Hd. by eapply connect_rollback.
Qed.

Lemma effect_consume token fp now actor status retry w :
  status ∈ [PENDING; ACTIVE] →
  has_effect (_consume_enrollment_grant token fp now actor status retry) (dbof w) w.
Proof.
  intros Hst. unfold _consume_enrollment_grant. do 3 (apply effect_lift; [done|]; intros ? _).
  apply effect_uuid4. intros w1 corr Hw1. apply effect_tail; [|by intros [] ?].
  apply effect_connect_except; [|done|].
  - apply effect_connect; [done|]. intros w2 Hw2. apply okp_bind.
    eapply okp_mono; [apply okp_consume_lookup|]. intros w3 found [Hw3 Hok].
    assert (dbof w3 = dbof w) as Hd by congruence. rw Hw2 in Hok.
    unfold consume_apply. destruct found as [g reason|g ep i|g].
    + apply okp_bind, okp_audit. intros w4 Ha. apply okp_ret. intros _. rw -Hd. auto.
    + apply okp_bind, okp_audit. intros w4 Ha. apply okp_ret. intros _. rw -Hd. auto.
    + apply okp_bind. eapply okp_mono; [apply okp_consume_create; [done|by rw Hd]|].
      intros w4 r He. apply okp_ret. intros _. by rw -Hd.
  - intros l w' Hw'. apply effect_tail; [|done]. by apply effect_record_audit.
Qed.

Lemma upsert_sequence_Ok i b n d d' :
  upsert_sequence i b n d = Ok (d', true) →
  (0 < n)%Z ∧ (default 0 (t_sequences d !! (i, b)) < n)%Z ∧
  d' = with_sequences <[(i, b) := n]> d.
Proof.
  unfold upsert_sequence. intros H. checks_in H. destruct H as [[_ Hn] H].
  destruct (t_sequences d !! (i, b)) as [last|]; simpl.
  - destruct (last <? n)%Z eqn:Hl; [|done]. apply Z.ltb_lt in Hl. by injection H as <-.
  - checks_in H. destruct H as [_ [= <-]]. done.
Qed.

Lemma existsb_false {A} (f : A → bool) l : existsb f l = false ↔ ∀ x, x ∈ l → f x = false.
Proof.
  induction l as [|x l IH]; simpl; [set_solver|]. rw orb_false_iff IH. set_solver.
Qed.

Lemma insert_observation_Ok r d d' :
  insert_observation r d = Ok d' →
  observation_checks r = true ∧
  (∀ r', r' ∈ t_observations d → or_message_id r' ≠ or_message_id r) ∧
  d' = with_observations (λ l, l ++ [r]) d.
Proof.
  unfold insert_observation. intros H. checks_in H.
  destruct H as (_ & ? & _ & Hm & _ & _ & _ & [= <-]). split_and!; [done| |done].
  intros r' Hr'. rw existsb_false in Hm. specialize (Hm r' Hr'). by checks_in Hm.
Qed.

Section ingest_accept.
Context (d : Db) (iid : uuid) (ir : IdentityRow) (er : EndpointRow) (env : MessageEnvelope).
Context (ty : pystr) (schema : Z) (digest : pystr) (received : datetime) (enc : option pystr).
Context (Hir : t_identities d !! iid = Some ir).
Context (Her : t_endpoints d !! ir_endpoint_id ir = Some er).
Context (Hcur : er_identity_id er = iid) (Hst : ir_status ir ∈ [ISSUED; ACTIVE]).
Context (Hbeat : ir_status ir = ISSUED → ty = py "heartbeat") (Hrev : ir_revoked_at ir = None).
Context (Hseq : (default 0 (t_sequences d !! (iid, me_boot_id env)) < me_sequence env)%Z).

Definition identity_of : EndpointIdentity :=
  mkIdentity iid (ir_endpoint_id ir) (ir_fingerprint ir) (utc (ir_created_at ir)) (ir_status ir)
    (utc <$> ir_revoked_at ir) (ir_revocation_reason ir).

Lemma after_accept_cases o :
  or_observation_type o = ty →
  (ir_status ir = ISSUED ∧ ty = py "heartbeat" ∧
     after_accept o ir = set_active (or_received_at o) ir) ∨
  (ir_status ir ≠ ISSUED ∧ after_accept o ir = ir).
Proof.
  intros Ho. unfold after_accept. destruct (decide (ir_status ir = ISSUED)); [left|right]; auto.
Qed.

Lemma okp_ingest_accept w :
  dbof w = with_sequences <[(iid, me_boot_id env) := me_sequence env]> d →
  okp (ingest_accept iid identity_of env ty schema digest received enc)
    (λ w' _, db_effect d (dbof w')) w.
Proof.
  intros Hw. unfold ingest_accept. apply okp_bind, okp_uuid4. intros w1 oid Hw1.
  apply okp_bind, okp_lift. intros obs Hobs.
  apply okp_bind, okp_statement. intros w2 d2 (Hoc & Hfresh & ->)%insert_observation_Ok Hw2.
  rw Hw1 Hw in Hw2 Hfresh. set (o := mkObservationRow _ _ _ _ _ _ _ _ _ _ _ _) in *.
  apply okp_bind, okp_statement. intros w3 d3 [= <-] Hw3.
  unfold update_endpoint in Hw3. rw Hw2 /= Her in Hw3.
  assert (accepts d iid ir er o → ∀ d', only_audit (accepted_db iid ir er o d) d' → db_effect d d') as Hfin.
  { intros Hac d' Ha. eapply db_effect_fact; [by apply fact_accept|done]. }
  assert ((ir_status ir = ISSUED → identity_checks (set_active (or_received_at o) ir) = true) →
    accepts d iid ir er o) as Hac by by intros Hok; split.
  apply okp_bind. eapply (okp_mono _ (λ w' _, accepts d iid ir er o ∧
    only_audit (accepted_db iid ir er o d) (dbof w'))); last first.
  { intros w4 [] [Hacc Ha4]. apply okp_bind, okp_audit. intros w5 Ha5. apply okp_ret.
    apply Hfin; [done|]. by etrans. }
  destruct (after_accept_cases o eq_refl) as [(Hs & Hty & Heq)|[Hs Heq]].
  - rw (bool_decide_eq_true_2 _ Hty). apply okp_bind, okp_execute. intros w4 d4 b Hup Hw4.
    apply update_identity_Ok in Hup as [(_ & _ & Hno)|(-> & r & Hr & _ & Hc & _ & ->)].
    { specialize (Hno ir). rw Hw3 /= in Hno. specialize (Hno Hir). by checks_in Hno. }
    rw Hw3 /= Hir in Hr. injection Hr as <-. apply okp_audit. intros w5 Ha5.
    split; [by apply Hac|]. etrans; [|exact Ha5]. rw Hw4 Hw3.
    unfold accepted_db. rw Heq. unfold o. simpl. rw (bool_decide_eq_true_2 _ Hty). done.
  - assert (only_audit (accepted_db iid ir er o d) (dbof w3)) as Ha3.
    { rw Hw3. unfold accepted_db. rw Heq. split; [|unfold audit_grows; reflexivity].
      apply facts_fields. simpl. rw (insert_id (t_identities d)) //. }
    case_bool_decide as Hty; [|apply okp_ret; split; [by apply Hac|done]].
    apply okp_bind, okp_execute. intros w4 d4 b Hup Hw4.
    apply update_identity_Ok in Hup as [(-> & -> & _)|(-> & r & Hr & Hi & _)].
    + apply okp_ret. rw Hw4. split; [by apply Hac|done].
    + rw Hw3 /= Hir in Hr. injection Hr as <-. by checks_in Hi.
Qed.

End ingest_accept.

(** What the identity checks leave. *)
Lemma ingest_identity_checks_None i e k env ty :
  ingest_identity_checks i e k (identity_of k i) env ty = None →
  ir_revoked_at i = None ∧ ir_status i ∈ [ISSUED; ACTIVE] ∧ er_identity_id e = k ∧
  (ir_status i = ISSUED → ty = py "heartbeat") ∧ me_endpoint_id env = ir_endpoint_id i.
Proof.
  unfold ingest_identity_checks, fails. simpl. intros H.
  case_bool_decide as Hrev; [done|]. case_match eqn:Hcur; [done|]. checks_in Hcur.
  case_match eqn:Hact; [done|]. case_bool_decide as Hep; [done|].
  destruct Hcur as [Hst Hk]. split_and!; [|done|done| |].
  - destruct (ir_revoked_at i); [|done]. destruct Hrev. by eexists.
  - intros Hi. rw bool_decide_eq_true_2 // in Hact. simpl in Hact. by checks_in Hact.
  - by destruct (decide (me_endpoint_id env = ir_endpoint_id i)).
Qed.

Lemma effect_ingest aid env ty schema digest received binding enc w :
  has_effect (_ingest aid env ty schema digest received binding enc) (dbof w) w.
Proof.
  unfold _ingest. do 2 (apply effect_lift; [done|]; intros ? _).
  apply effect_tail; [|by intros [[]|] ?]. apply effect_except; [|done|]; last first.
  { intros w' Hw'. apply effect_tail; [|done]. unfold _record_rejection.
    by apply effect_record_audit. }
  apply effect_connect; [done|]. intros w1 Hw1. rw -Hw1. unfold ingest_transaction.
  assert (∀ f w2, dbof w2 = dbof w1 → okp (_insert_rejection aid (me_endpoint_id env)
    (ty ++ py ".ingest") f.2 (me_correlation_id env) a0;; mret (inl f : Failure + Observation))
    (λ w3 _, deferred_constraints (dbof w3) = true → db_effect (dbof w1) (dbof w3)) w2) as Hrefuse.
  { intros f w2 Hw2. unfold _insert_rejection. apply okp_bind, okp_audit. intros w3 Ha. apply okp_ret. intros _.
    rw -Hw2. auto. }
  apply okp_bind, okp_select. destruct (join_identity aid (dbof w1)) as [[i e]|] eqn:Hj;
    [|by apply Hrefuse]. apply join_identity_Some in Hj as [Hi He].
  apply okp_bind, okp_lift. intros identity ->%identity_from_row_Ok.
  rw -/(identity_of aid i).
  destruct (ingest_identity_checks _ _ _ _ _ _) as [f|] eqn:Hchk; [by apply Hrefuse|].
  apply ingest_identity_checks_None in Hchk as (Hrev & Hst & Hcur & Hbeat & Hep).
  apply okp_bind, okp_select. destruct (find _ _) as [r|].
  { destruct (exact_retry _ _ _ _); [|by apply Hrefuse].
    apply okp_bind, okp_lift. intros obs _. apply okp_bind, okp_audit. intros w2 Ha.
    apply okp_ret. auto. }
  apply okp_bind, okp_lift. intros [f|] _; [by apply Hrefuse|].
  apply okp_bind, okp_execute. intros w2 d2 [] Hup Hw2; last first.
  { apply Hrefuse. rw Hw2. unfold upsert_sequence in Hup. checks_in Hup. destruct Hup as [_ Hup].
    repeat case_match; simplify_eq; [done|]. checks_in Hup. naive_solver. }
  apply upsert_sequence_Ok in Hup as (_ & Hseq & ->).
  apply okp_bind. eapply okp_mono; [by apply (okp_ingest_accept (dbof w1) aid i e)|].
  intros w3 obs Heff. apply okp_ret. auto.
Qed.
