(* ===== verification/PersistenceInvariant.v ===== *)
(** * The invariant of the PostgreSQL tables, kept by every effect *)
From stdpp Require Import prelude strings gmap sorting pretty ssreflect relations.
From S2P Require Import Prelude Uuid PyTime Json Domain ControlPlane Database Persistence PersistenceProofs.

Set Warnings "-clear-no-such-hyp".

(** The latest receipt among the observations selected by [p]. *)
Definition latest_row (p : ObservationRow → bool) (l : list ObservationRow) : option Z :=
  foldl (λ acc o, if p o then greatest acc (or_received_at o) else acc) None l.

Definition row_of (e : uuid) (o : ObservationRow) : bool := bool_decide (or_endpoint_id o = e).
Definition heartbeat_row_of (e : uuid) (o : ObservationRow) : bool :=
  row_of e o && bool_decide (or_observation_type o = py "heartbeat").

Lemma latest_row_snoc p l o :
  latest_row p (l ++ [o]) =
    if p o then greatest (latest_row p l) (or_received_at o) else latest_row p l.
Proof. unfold latest_row. by rw foldl_app. Qed.

Lemma latest_row_none p l : (∀ o, o ∈ l → p o = false) → latest_row p l = None.
Proof.
  induction l as [|o l IH] using rev_ind; intros Hp; [done|].
  rw latest_row_snoc Hp; [|set_solver]. apply IH. set_solver.
Qed.

Record db_wf (d : Db) : Prop := {
  dw_endpoint k r : t_endpoints d !! k = Some r →
    endpoint_checks r = true ∧
    ∃ i, t_identities d !! er_identity_id r = Some i ∧ ir_endpoint_id i = k;
  dw_identity k r : t_identities d !! k = Some r →
    identity_checks r = true ∧ fingerprint_free d k (ir_fingerprint r) ∧
    certificate_free d k r ∧
    ∃ e, t_endpoints d !! ir_endpoint_id r = Some e ∧ er_identity_id e = k;
  dw_observation o : o ∈ t_observations d →
    observation_checks o = true ∧
    ∃ i n, t_identities d !! or_identity_id o = Some i ∧ ir_endpoint_id i = or_endpoint_id o ∧
      ir_status i ∈ [ACTIVE; REVOKED] ∧
      t_sequences d !! (or_identity_id o, or_boot_id o) = Some n ∧ (or_sequence o ≤ n)%Z;
  dw_sequence i b n : t_sequences d !! (i, b) = Some n →
    (0 < n)%Z ∧ ∃ o, o ∈ t_observations d ∧ or_identity_id o = i ∧ or_boot_id o = b ∧
      or_sequence o = n;
  dw_messages : NoDup (or_message_id <$> t_observations d);
  dw_receipt k r : t_endpoints d !! k = Some r →
    er_last_receipt_at r = latest_row (row_of k) (t_observations d);
  dw_heartbeat k r : t_endpoints d !! k = Some r →
    er_last_heartbeat_at r = latest_row (heartbeat_row_of k) (t_observations d);
  dw_grant k g : t_grants d !! k = Some g →
    grant_checks g = true ∧ readable k g ∧
    ∀ t i, gr_consumed g = Some (t, i) →
      ∃ r, t_identities d !! i = Some r ∧ ir_created_at r = t;
  dw_grant_token k k' g g' : t_grants d !! k = Some g → t_grants d !! k' = Some g' →
    gr_token_sha256 g = gr_token_sha256 g' → k = k';
  dw_grant_identity k k' g g' t t' i : t_grants d !! k = Some g → t_grants d !! k' = Some g' →
    gr_consumed g = Some (t, i) → gr_consumed g' = Some (t', i) → k = k';
}.

Lemma db_wf_empty : db_wf empty_db.
Proof. split; simpl; try set_solver; try constructor; intros; simplify_map_eq. Qed.

Lemma db_wf_facts d d' : facts d' = facts d → db_wf d → db_wf d'.
Proof.
  intros (He & Hi & Hs & Ho & Hg)%facts_fields. destruct d, d'. simpl in *. subst.
  intros [????????? ?]. by split.
Qed.

Lemma same_certificate_comm a b : same_certificate a b = same_certificate b a.
Proof.
  unfold same_certificate.
  destruct (ir_certificate a) as [[[[]]]|], (ir_certificate b) as [[[[]]]|]; try done.
  f_equal; apply bool_decide_ext; naive_solver.
Qed.

(** A change of identity rows that keeps endpoint and key, and never leaves the
accepting states backwards, keeps the rest of the invariant. *)
Lemma db_wf_identity_change d k r r' :
  db_wf d → t_identities d !! k = Some r →
  ir_endpoint_id r' = ir_endpoint_id r → ir_fingerprint r' = ir_fingerprint r →
  ir_created_at r' = ir_created_at r → identity_checks r' = true → certificate_free d k r' →
  (ir_status r ∈ [ACTIVE; REVOKED] → ir_status r' ∈ [ACTIVE; REVOKED]) →
  db_wf (with_identities <[k := r']> d).
Proof.
  intros Hwf Hr He Hf Hc Hok Hcert Hst.
  assert (∀ j q, t_identities d !! j = Some q →
    ∃ q', <[k := r']> (t_identities d) !! j = Some q' ∧ ir_endpoint_id q' = ir_endpoint_id q ∧
      ir_created_at q' = ir_created_at q ∧
      (ir_status q ∈ [ACTIVE; REVOKED] → ir_status q' ∈ [ACTIVE; REVOKED])) as Hnew.
  { intros j q Hq. destruct (decide (k = j)) as [<-|].
    - exists r'. rw lookup_insert_eq. by simplify_eq.
    - exists q. by rw lookup_insert_ne. }
  split; unfold fingerprint_free, certificate_free; simpl; try apply Hwf.
  - intros j q Hq. destruct (dw_endpoint d Hwf j q Hq) as (? & i & Hi & Hie).
    split; [done|]. destruct (Hnew _ _ Hi) as (i' & ? & ? & _). exists i'. split; congruence.
  - intros j q [[<- <-]|[? Hq]]%lookup_insert_Some.
    + destruct (dw_identity d Hwf k r Hr) as (_ & Hfree & _ & e & Hep & Hek).
      split_and!; [done| | |exists e; by rw He].
      * rw Hf. intros j q [[? _]|[? Hj]]%lookup_insert_Some ?; [done|]. by eapply Hfree.
      * intros j q [[? _]|[? Hj]]%lookup_insert_Some ?; [done|]. by eapply Hcert.
    + destruct (dw_identity d Hwf j q Hq) as (? & Hfree & Hcfree & ?). split_and!; [done| | |done].
      * intros j' q' [[<- <-]|[? Hj']]%lookup_insert_Some ?; [|by eapply Hfree].
        rw Hf. by eapply Hfree.
      * intros j' q' [[<- <-]|[? Hj']]%lookup_insert_Some ?; [|by eapply Hcfree].
        rw same_certificate_comm. by eapply Hcert.
  - intros o Ho. destruct (dw_observation d Hwf o Ho) as (? & i & n & Hi & Hie & His & Hn & ?).
    split; [done|]. destruct (Hnew _ _ Hi) as (i' & ? & ? & _ & Hst').
    exists i', n. split_and!; [done|congruence|by apply Hst'|done..].
  - intros g gr Hg. destruct (dw_grant d Hwf g gr Hg) as (? & ? & Hcons). split_and!; [done..|].
    intros t i Ht. destruct (Hcons t i Ht) as (q & Hq & Hqt).
    destruct (Hnew _ _ Hq) as (q' & ? & _ & ? & _). exists q'. split; congruence.
Qed.

Lemma latest_fresh_endpoint d k p :
  db_wf d → t_endpoints d !! k = None → (p = row_of ∨ p = heartbeat_row_of) →
  latest_row (p k) (t_observations d) = None.
Proof.
  intros Hwf Hk Hp. apply latest_row_none. intros o Ho.
  destruct (dw_observation d Hwf o Ho) as (_ & i & _ & Hi & Hie & _).
  destruct (dw_identity d Hwf _ _ Hi) as (_ & _ & _ & e & He & _).
  assert (or_endpoint_id o ≠ k) by congruence.
  destruct Hp as [-> | ->]; unfold heartbeat_row_of, row_of; by rw bool_decide_eq_false_2.
Qed.

Lemma db_wf_enroll d eid iid er ir :
  db_wf d → enrolls d eid iid er ir → db_wf (enrolled eid iid er ir d).
Proof.
  intros Hwf [Hne Hni Hec Hic [Hcur Hbe] [Hnr Hnh] (_ & _ & Hcert) Hkey].
  assert (∀ k q, t_identities d !! k = Some q → k ≠ iid) as Hold by congruence.
  split; unfold fingerprint_free, certificate_free; simpl; try apply Hwf.
  - intros k q [[<- <-]|[? Hq]]%lookup_insert_Some.
    { split; [done|]. exists ir. by rw Hcur lookup_insert_eq. }
    destruct (dw_endpoint d Hwf k q Hq) as (? & i & Hi & ?). split; [done|]. exists i.
    rw lookup_insert_ne //. congruence.
  - intros k q [[<- <-]|[? Hq]]%lookup_insert_Some.
    { split_and!; [done| | |exists er; by rw Hbe lookup_insert_eq].
      - intros j q [[? _]|[? Hj]]%lookup_insert_Some ?; [done|]. by eapply Hkey.
      - intros j q [[? _]|[? Hj]]%lookup_insert_Some ?; [done|].
        unfold same_certificate. by rw Hcert. }
    destruct (dw_identity d Hwf k q Hq) as (? & Hfree & Hcfree & e & He & ?).
    split_and!; [done| | |exists e; split; [rw lookup_insert_ne //; congruence|done]].
    + intros j q' [[<- <-]|[? Hj]]%lookup_insert_Some ?; [|by eapply Hfree].
      intros Heq. by destruct (Hkey k q Hq).
    + intros j q' [[<- <-]|[? Hj]]%lookup_insert_Some ?; [|by eapply Hcfree].
      rw same_certificate_comm. unfold same_certificate. by rw Hcert.
  - intros o Ho. destruct (dw_observation d Hwf o Ho) as (? & i & n & Hi & ?).
    split; [done|]. exists i, n. rw lookup_insert_ne //. congruence.
  - intros k q [[<- <-]|[? Hq]]%lookup_insert_Some; [|by apply (dw_receipt d Hwf)].
    rw Hnr. symmetry. apply (latest_fresh_endpoint d eid); auto.
  - intros k q [[<- <-]|[? Hq]]%lookup_insert_Some; [|by apply (dw_heartbeat d Hwf)].
    rw Hnh. symmetry. apply (latest_fresh_endpoint d eid); auto.
  - intros k g Hg. destruct (dw_grant d Hwf k g Hg) as (? & ? & Hc). split_and!; [done..|].
    intros t i Ht. destruct (Hc t i Ht) as (q & Hq & ?). exists q. split; [|done].
    rw lookup_insert_ne //. congruence.
Qed.

(** Adding or consuming a grant. *)
Lemma db_wf_grant_new d k g :
  db_wf d → t_grants d !! k = None → grant_checks g = true → gr_consumed g = None →
  (∀ k' g', t_grants d !! k' = Some g' → gr_token_sha256 g' ≠ gr_token_sha256 g) →
  readable k g → db_wf (with_grants <[k := g]> d).
Proof.
  intros Hwf Hk Hc Hn Ht Hread. split; unfold fingerprint_free, certificate_free; simpl; try apply Hwf.
  - intros j q [[<- <-]|[? Hq]]%lookup_insert_Some; [|by apply (dw_grant d Hwf j)].
    split_and!; [done..|]. congruence.
  - intros j j' q q' [[<- <-]|[? Hq]]%lookup_insert_Some [[<- <-]|[? Hq']]%lookup_insert_Some Heq;
      [done| | |by eapply (dw_grant_token d Hwf)].
    + by destruct (Ht _ _ Hq').
    + by destruct (Ht _ _ Hq).
  - intros j j' q q' t t' i [[<- <-]|[? Hq]]%lookup_insert_Some
      [[<- <-]|[? Hq']]%lookup_insert_Some; try congruence. by eapply (dw_grant_identity d Hwf).
Qed.

(** A consumed grant still reads back: its consumption time lies between two
representable times. *)
Lemma readable_consume k g t i :
  readable k g → gr_consumed g = None → grant_checks (consume_grant t i g) = true →
  readable k (consume_grant t i g).
Proof.
  intros [grant Hg] Hn Hc. unfold readable, _enrollment_grant_from_row, new_EnrollmentGrant in *.
  apply result_seq_Ok in Hg as [Hg _]. eexists. rw result_seq_Ok. split; [|done].
  rw !EnrollmentGrant_post_init_Ok Hn in Hg |- *. simpl in *. rw !instant_utc in Hg |- *.
  destruct Hg as (? & ? & ? & ? & ? & ? & ? & ? & ? & ? & _).
  unfold grant_checks in Hc. simpl in Hc. checks_in Hc. destruct Hc as [_ [Hlo Hhi]].
  split_and!; try done; [lia|lia|]. intros c [= <-]. rw instant_utc.
  unfold dt_in_range in *. split_and!; [done|lia..].
Qed.

Lemma db_wf_grant_consume d k g t i r :
  db_wf d → t_grants d !! k = Some g → gr_consumed g = None →
  grant_checks (consume_grant t i g) = true → t_identities d !! i = Some r → ir_created_at r = t →
  (∀ k' g' t', t_grants d !! k' = Some g' → gr_consumed g' ≠ Some (t', i)) →
  db_wf (with_grants <[k := consume_grant t i g]> d).
Proof.
  intros Hwf Hk Hnone Hc Hi Hr Hu. split; unfold fingerprint_free, certificate_free; simpl; try apply Hwf.
  - intros j q [[<- <-]|[? Hq]]%lookup_insert_Some; [|by apply (dw_grant d Hwf j)].
    split_and!; [done|by apply readable_consume; [apply (dw_grant d Hwf _ _ Hk)|..]|].
    simpl. intros t' i' [= <- <-]. by exists r.
  - intros j j' q q' [[<- <-]|[? Hq]]%lookup_insert_Some [[<- <-]|[? Hq']]%lookup_insert_Some Heq;
      [done|by eapply (dw_grant_token d Hwf)..].
  - intros j j' q q' t1 t2 i' [[<- <-]|[? Hq]]%lookup_insert_Some
      [[<- <-]|[? Hq']]%lookup_insert_Some; simpl; [done| | |by eapply (dw_grant_identity d Hwf)].
    + intros [= <- <-] Hx. by destruct (Hu _ _ t2 Hq').
    + intros Hx [= <- <-]. by destruct (Hu _ _ t1 Hq).
Qed.

(** An accepted observation: first the observation, the sequence and the receipt
columns, with the identity row already in an accepting state. *)
Definition recorded (iid : uuid) (ir : IdentityRow) (er : EndpointRow) (o : ObservationRow)
    (d : Db) : Db :=
  with_endpoints <[ir_endpoint_id ir :=
      touch_receipt (or_received_at o) (bool_decide (or_observation_type o = py "heartbeat")) er]>
    (with_observations (λ l, l ++ [o])
      (with_sequences <[(iid, or_boot_id o) := or_sequence o]> d)).

Section record.
Context (d : Db) (iid : uuid) (ir : IdentityRow) (er : EndpointRow) (o : ObservationRow).
Context (Hwf : db_wf d) (Hir : t_identities d !! iid = Some ir).
Context (Her : t_endpoints d !! ir_endpoint_id ir = Some er) (Hcur : er_identity_id er = iid).
Context (Hst : ir_status ir ∈ [ACTIVE; REVOKED]).
Context (Hid : or_identity_id o = iid) (Hep : or_endpoint_id o = ir_endpoint_id ir).
Context (Hfresh : ∀ o', o' ∈ t_observations d → or_message_id o' ≠ or_message_id o).
Context (Hseq : (default 0 (t_sequences d !! (iid, or_boot_id o)) < or_sequence o)%Z).
Context (Hchk : observation_checks o = true).

Lemma recorded_sequence i b n :
  t_sequences d !! (i, b) = Some n →
  ∃ n', <[(iid, or_boot_id o) := or_sequence o]> (t_sequences d) !! (i, b) = Some n' ∧ (n ≤ n')%Z.
Proof.
  intros Hn. destruct (decide ((iid, or_boot_id o) = (i, b))) as [[= -> <-]|].
  - exists (or_sequence o). rw lookup_insert_eq. split; [done|]. pose proof Hseq as Hs.
    rw Hn /= in Hs. lia.
  - exists n. rw lookup_insert_ne //.
Qed.

Lemma recorded_latest p k q :
  (p = row_of ∨ p = heartbeat_row_of) → t_endpoints d !! k = Some q → k ≠ ir_endpoint_id ir →
  latest_row (p k) (t_observations d ++ [o]) = latest_row (p k) (t_observations d).
Proof.
  intros Hp _ Hne. rw latest_row_snoc (_ : p k o = false) //.
  destruct Hp as [-> | ->]; unfold heartbeat_row_of, row_of; rw bool_decide_eq_false_2 //; congruence.
Qed.

Lemma db_wf_record : db_wf (recorded iid ir er o d).
Proof.
  split; unfold fingerprint_free, certificate_free; simpl; try apply Hwf.
  - intros k q [[<- <-]|[? Hq]]%lookup_insert_Some; [|by apply (dw_endpoint d Hwf)].
    by apply (dw_endpoint d Hwf _ er).
  - intros k q Hq. destruct (dw_identity d Hwf k q Hq) as (? & ? & ? & e & He & Hek).
    split_and!; [done..|]. destruct (decide (ir_endpoint_id ir = ir_endpoint_id q)) as [Heq|].
    + eexists. rw -Heq lookup_insert_eq. split; [done|]. simpl. congruence.
    + exists e. by rw lookup_insert_ne.
  - intros o' [Ho'| ->%list_elem_of_singleton]%elem_of_app.
    + destruct (dw_observation d Hwf o' Ho') as (? & i & n & ? & ? & ? & Hn & ?).
      split; [done|]. destruct (recorded_sequence _ _ _ Hn) as (n' & ? & ?).
      exists i, n'. split_and!; [done..|lia].
    + split; [done|]. exists ir, (or_sequence o). rw Hid lookup_insert_eq. by split_and!.
  - intros i b n [[[= <- <-] <-]|[_ Hn]]%lookup_insert_Some.
    + split; [|exists o; set_solver].
      unfold observation_checks in Hchk. pose proof Hchk as Hk. checks_in Hk. naive_solver.
    + destruct (dw_sequence d Hwf i b n Hn) as (? & o' & ? & ?). split; [done|].
      exists o'. set_solver.
  - rw fmap_app. apply NoDup_app. split_and!; [apply Hwf| |apply NoDup_singleton].
    intros m Hm1 Hm2. apply list_elem_of_fmap in Hm1 as (o' & -> & Ho').
    apply list_elem_of_singleton in Hm2. by destruct (Hfresh o' Ho').
  - intros k q [[<- <-]|[? Hq]]%lookup_insert_Some.
    + rw latest_row_snoc (_ : row_of _ o = true); [|by apply bool_decide_eq_true_2].
      simpl. by rw (dw_receipt d Hwf _ _ Her).
    + rw (recorded_latest row_of _ _ _ Hq) //; [by apply (dw_receipt d Hwf)|auto].
  - intros k q [[<- <-]|[? Hq]]%lookup_insert_Some.
    + rw latest_row_snoc. unfold heartbeat_row_of at 1, row_of at 1.
      rw (bool_decide_eq_true_2 _ Hep) /= (dw_heartbeat d Hwf _ _ Her) //.
    + rw (recorded_latest heartbeat_row_of _ _ _ Hq) //; [by apply (dw_heartbeat d Hwf)|auto].
Qed.

End record.

Lemma after_accept_status o r :
  ir_status r ∈ [ISSUED; ACTIVE] → ir_status (after_accept o r) = ACTIVE.
Proof. unfold after_accept. case_decide; simpl; [done|]. set_solver. Qed.

Lemma after_accept_fields o r :
  ir_endpoint_id (after_accept o r) = ir_endpoint_id r ∧
  ir_fingerprint (after_accept o r) = ir_fingerprint r ∧
  ir_created_at (after_accept o r) = ir_created_at r ∧
  ir_revoked_at (after_accept o r) = ir_revoked_at r ∧
  ir_certificate (after_accept o r) = ir_certificate r.
Proof. unfold after_accept. by case_decide. Qed.

Lemma certificate_free_same d k r r' :
  ir_certificate r' = ir_certificate r → certificate_free d k r → certificate_free d k r'.
Proof.
  unfold certificate_free, same_certificate. intros ->. done.
Qed.

Lemma accepted_db_split iid ir er o d :
  accepted_db iid ir er o d =
  recorded iid (after_accept o ir) er o (with_identities <[iid := after_accept o ir]> d).
Proof.
  unfold accepted_db, recorded. destruct (after_accept_fields o ir) as (-> & _). done.
Qed.

Lemma db_wf_accept d iid ir er o :
  db_wf d → accepts d iid ir er o → db_wf (accepted_db iid ir er o d).
Proof.
  intros Hwf [Hir Her Hcur Hst Hact Hrev [Hi He] Hfresh Hseq Hchk Hafter].
  destruct (after_accept_fields o ir) as (Hf1 & Hf2 & Hf3 & Hf4 & Hf5).
  destruct (dw_identity d Hwf _ _ Hir) as (Hok & _ & Hcert & _).
  rw accepted_db_split. apply db_wf_record; simpl; rw ?Hf1 //.
  - eapply (db_wf_identity_change d iid ir); try done.
    + unfold after_accept. case_decide; [by apply Hafter|done].
    + by eapply certificate_free_same.
    + intros _. rw after_accept_status //. set_solver.
  - by rw lookup_insert_eq.
  - rw after_accept_status //. set_solver.
Qed.

Lemma revoked_fields r t :
  identity_checks r = true → ir_revoked_at r = Some t → ir_status r = REVOKED.
Proof.
  unfold identity_checks. intros H Ht. checks_in H. rw Ht in H. naive_solver eauto.
Qed.

Lemma unrevoked_fields r :
  identity_checks r = true → ir_revoked_at r = None → ir_status r ≠ REVOKED.
Proof.
  unfold identity_checks. intros H Ht Hs. checks_in H. rw Ht Hs in H.
  destruct H as [[[_ H] _] _]. destruct (proj1 H eq_refl). done.
Qed.

(** Every effect keeps the invariant. *)
Lemma fact_effect_wf d d' : fact_effect d d' → db_wf d → db_wf d'.
Proof.
  intros [|k g ?????|eid iid er ir He|eid iid er ir k g t He Hk Hn Hc Her Ht
    |iid ir serial issuer nb na Hir Hs Hok Hfree|iid ir er o Ha|iid ir t reason Hir Hn Hok] Hwf.
  - done.
  - by apply db_wf_grant_new.
  - by apply db_wf_enroll.
  - eapply (db_wf_grant_consume _ _ _ _ _ ir); [by apply db_wf_enroll|done|done|done| |done|].
    + simpl. by rw lookup_insert_eq.
    + simpl. intros k' g' t' Hg' Hcons. destruct (dw_grant d Hwf k' g' Hg') as (_ & _ & Hx).
      destruct (Hx t' iid Hcons) as (r & Hr & _). by rw (en_identity_new _ _ _ _ _ He) in Hr.
  - eapply db_wf_identity_change; try done. rw Hs. set_solver.
  - by apply db_wf_accept.
  - eapply db_wf_identity_change; try done; [|set_solver].
    destruct (dw_identity d Hwf _ _ Hir) as (_ & _ & Hcert & _).
    by eapply certificate_free_same.
Qed.

Lemma db_effect_wf d d' : db_effect d d' → db_wf d → db_wf d'.
Proof.
  intros (d1 & He & Hf & _) Hwf. eapply db_wf_facts; [exact Hf|]. by eapply fact_effect_wf.
Qed.
