(* ===== verification/PersistenceRefinement.v ===== *)
(** * The PostgreSQL control plane refines the message ledger

A step is one call of a public method, whatever its arguments, its random
draws (the unique indexes guard them) and the fates of its transactions. *)
From stdpp Require Import prelude strings gmap sorting pretty ssreflect relations.
From S2P Require Import Prelude Uuid PyTime Json Domain Ledger ControlPlane Database Persistence.
From S2P Require Import PersistenceProofs PersistenceInvariant.

Set Warnings "-clear-no-such-hyp".

(** ** Calls *)
Inductive pg_call :=
| PgEnroll (name : pystr) (platform : Platform) (arch fp : pystr) (now : datetime) (actor : pystr)
| PgGrant (name : pystr) (platform : Platform) (arch : pystr) (now : datetime) (actor : pystr)
    (ttl : Z)
| PgConsume (token fp : pystr) (now : datetime) (actor : pystr)
| PgBegin (token fp : pystr) (now : datetime) (actor : pystr)
| PgIssue (i : uuid) (serial issuer : pystr) (not_before not_after now : datetime) (actor : pystr)
| PgHeartbeat (aid : uuid) (m : HeartbeatMessage) (received : datetime) (enc : option pystr)
| PgInventory (aid : uuid) (m : InventoryMessage) (received : datetime) (enc : option pystr)
| PgAuthenticate (e : uuid) (fp : pystr) (t : datetime) (corr : uuid)
| PgRevoke (i : uuid) (reason actor : pystr) (now : datetime) (corr : option uuid)
| PgOperatorAccess (actor subject action decision reason : pystr) (corr : uuid)
    (now : datetime) (metadata : list (pystr * pystr))
| PgStatus (e : uuid) (now : datetime) (policy : option FreshnessPolicy)
| PgShutdown.

Definition pg_exec (call : pg_call) : PG unit :=
  match call with
  | PgEnroll name platform arch fp now actor =>
    enroll_synthetic_endpoint name platform arch fp now actor;; mret tt
  | PgGrant name platform arch now actor ttl =>
    create_enrollment_grant name platform arch now actor ttl;; mret tt
  | PgConsume token fp now actor => consume_enrollment_grant token fp now actor;; mret tt
  | PgBegin token fp now actor => begin_endpoint_enrollment token fp now actor;; mret tt
  | PgIssue i serial issuer nb na now actor =>
    record_issued_endpoint_identity i serial issuer nb na now actor;; mret tt
  | PgHeartbeat aid m received enc => ingest_heartbeat aid m received enc;; mret tt
  | PgInventory aid m received enc => ingest_inventory aid m received enc;; mret tt
  | PgAuthenticate e fp t corr => authenticate_endpoint_certificate e fp t corr;; mret tt
  | PgRevoke i reason actor now corr => revoke_identity i reason actor now corr;; mret tt
  | PgOperatorAccess actor subject action decision reason corr now metadata =>
    record_operator_access actor subject action decision reason corr now metadata
  | PgStatus e now policy => endpoint_status e now policy;; mret tt
  | PgShutdown => begin_shutdown
  end.

Definition pg_step (w w' : world Pg) : Prop := ∃ call, w' = (pg_exec call w).1.

(** A read leaves the tables alone. *)
Lemma read_unchanged {A} (f : Db → A) w : dbof (_connect (select f) w).1 = dbof w.
Proof.
  symmetry. apply (connect_effect (select f) (λ d d', d = d')); [done|].
  intros w1 Hw1. apply okp_select. by intros _.
Qed.

Lemma status_unchanged e now policy w : dbof (endpoint_status e now policy w).1 = dbof w.
Proof.
  unfold endpoint_status, mbind, M_bind, lift. destruct (require_aware _ _); [|done].
  unfold get_endpoint, mbind, M_bind.
  pose proof (read_unchanged (λ d, t_endpoints d !! e) w) as H1.
  destruct (_connect _ w) as [w1 [[r|]|]]; simpl in *; [|done..].
  unfold lift. destruct (_endpoint_from_row e r) as [ep|]; [|done].
  unfold get_identity, mbind, M_bind.
  pose proof (read_unchanged (λ d, t_identities d !! ep_identity_id ep) w1) as H2.
  destruct (_connect _ w1) as [w2 [[i|]|]]; simpl in *; [|congruence..].
  unfold lift. destruct (_identity_from_row _ i); simpl; congruence.
Qed.

Lemma pg_step_effect w w' : pg_step w w' → db_effect (dbof w) (dbof w').
Proof.
  intros (call & ->). destruct call; simpl; fold (has_effect (A := unit));
    try (apply effect_tail; [|done]).
  - apply effect_enroll_synthetic.
  - apply effect_create_grant.
  - apply effect_consume. set_solver.
  - apply effect_consume. set_solver.
  - apply effect_issue.
  - apply effect_ingest.
  - apply effect_ingest.
  - apply effect_authenticate.
  - apply effect_revoke.
  - apply effect_operator_access.
  - unfold has_effect. by rw status_unchanged.
  - apply db_effect_refl.
Qed.

Lemma pg_run_wf w w' : rtc pg_step w w' → db_wf (dbof w) → db_wf (dbof w').
Proof. induction 1; eauto using db_effect_wf, pg_step_effect. Qed.

(** ** The abstraction *)
Definition row_entry (o : ObservationRow) : entry :=
  mkEntry (or_identity_id o) (or_endpoint_id o) (or_message_id o) (or_boot_id o) (or_sequence o).

Record db_abs (d : Db) (l : ledger) : Prop := {
  da_bound : lg_bound l = ir_endpoint_id <$> t_identities d;
  da_revoked i : i ∈ lg_revoked l ↔
    ∃ r, t_identities d !! i = Some r ∧ is_Some (ir_revoked_at r);
  da_entries : lg_entries l = row_entry <$> t_observations d;
}.

Definition pg_rel (w : world Pg) (l : ledger) : Prop := db_wf (dbof w) ∧ db_abs (dbof w) l.

Lemma db_abs_facts d d' l : facts d' = facts d → db_abs d l → db_abs d' l.
Proof.
  intros (He & Hi & Hs & Ho & Hg)%facts_fields. destruct d, d'. simpl in *. subst.
  intros [???]. by split.
Qed.

(** A change of one identity row that keeps its endpoint. *)
Lemma db_abs_identity d l k r r' :
  db_abs d l → t_identities d !! k = Some r → ir_endpoint_id r' = ir_endpoint_id r →
  (is_Some (ir_revoked_at r') ↔ is_Some (ir_revoked_at r)) →
  db_abs (with_identities <[k := r']> d) l.
Proof.
  intros [Hb Hr He] Hk Hep Hrev. split; simpl; [| |done].
  - rw Hb fmap_insert Hep insert_id //. by rw lookup_fmap Hk.
  - intros i. rw Hr. destruct (decide (k = i)) as [<-|]; [|by rw lookup_insert_ne].
    rw lookup_insert_eq Hk. naive_solver.
Qed.

Lemma db_abs_enroll d l eid iid er ir :
  db_abs d l → enrolls d eid iid er ir →
  ledger_step l (mkLedger (<[iid := eid]> (lg_bound l)) (lg_revoked l) (lg_entries l)) ∧
  db_abs (enrolled eid iid er ir d)
    (mkLedger (<[iid := eid]> (lg_bound l)) (lg_revoked l) (lg_entries l)).
Proof.
  intros [Hb Hr He] Hen. destruct Hen as [_ Hni _ _ [_ Hbe] _ (_ & Hrev & _) _].
  split; [apply step_bind; by rw Hb lookup_fmap Hni|]. split; simpl; [by rw Hb fmap_insert Hbe| |done].
  intros i. rw Hr. destruct (decide (iid = i)) as [<-|]; [|by rw lookup_insert_ne].
  rw lookup_insert_eq Hni. split; [naive_solver|]. intros (? & [= <-] & Hs).
  rw Hrev in Hs. by destruct Hs.
Qed.

Lemma db_abs_accept d l iid ir er o :
  db_wf d → db_abs d l → accepts d iid ir er o →
  ∃ l', ledger_step l l' ∧ db_abs (accepted_db iid ir er o d) l'.
Proof.
  intros Hwf Habs Hac. pose proof Hac as [Hir Her Hcur Hst Hact Hrev [Hi He] Hfresh Hseq _ _].
  eexists. split; [apply (step_accept l (row_entry o))|]; simpl.
  - by rw (da_bound _ _ Habs) lookup_fmap Hi Hir He.
  - rw (da_revoked _ _ Habs) Hi Hir. intros (? & [= <-] & Hs). rw Hrev in Hs. by destruct Hs.
  - rw (da_entries _ _ Habs) -list_fmap_compose. intros (o' & Heq & Ho')%list_elem_of_fmap.
    by destruct (Hfresh o' Ho').
  - intros en. rw (da_entries _ _ Habs). intros (o' & -> & Ho')%list_elem_of_fmap [Hsi Hsb].
    simpl in *. destruct (dw_observation d Hwf o' Ho') as (_ & _ & n & _ & _ & _ & Hn & Hle).
    rw Hsi Hsb Hi in Hn. rw Hn /= in Hseq. lia.
  - destruct (after_accept_fields o ir) as (Hf1 & _ & _ & Hf4 & _).
    assert (db_abs (with_identities <[iid := after_accept o ir]> d) l) as [Hb Hr _].
    { eapply db_abs_identity; [done..|]. by rw Hf4. }
    split; simpl; [exact Hb|exact Hr|]. by rw (da_entries _ _ Habs) fmap_app.
Qed.

Lemma db_abs_effect d d' l :
  db_wf d → db_abs d l → fact_effect d d' → ∃ l', rtc ledger_step l l' ∧ db_abs d' l'.
Proof.
  intros Hwf Habs [|k g ?????|eid iid er ir He|eid iid er ir k g t He Hk Hn Hc Her Ht
    |iid ir serial issuer nb na Hir Hs Hok Hfree|iid ir er o Ha|iid ir t reason Hir Hn Hok].
  - by exists l.
  - exists l. split; [done|]. by destruct Habs; split.
  - destruct (db_abs_enroll _ _ _ _ _ _ Habs He). eexists. split; [by apply rtc_once|done].
  - destruct (db_abs_enroll _ _ _ _ _ _ Habs He) as [Hst [???]]. eexists.
    split; [by apply rtc_once|]. by split.
  - exists l. split; [done|]. by eapply db_abs_identity.
  - destruct (db_abs_accept _ _ _ _ _ _ Hwf Habs Ha) as (l' & ? & ?).
    exists l'. split; [by apply rtc_once|done].
  - exists (mkLedger (lg_bound l) ({[iid]} ∪ lg_revoked l) (lg_entries l)).
    destruct Habs as [Hb Hr He]. split; [apply rtc_once, step_revoke; by rw Hb lookup_fmap Hir|].
    split; simpl; [|intros i|done].
    + rw Hb fmap_insert insert_id //. by rw lookup_fmap Hir.
    + rw elem_of_union elem_of_singleton Hr.
      destruct (decide (iid = i)) as [<-|]; [rw lookup_insert_eq; naive_solver|].
      rw lookup_insert_ne //. naive_solver.
Qed.

#[export] Instance postgres_ledger : LedgerImpl pg_step pg_rel.
Proof.
  split. intros w w' l [Hwf Habs] Hs%pg_step_effect.
  pose proof (db_effect_wf _ _ Hs Hwf) as Hwf'. destruct Hs as (d1 & He & Hf & _).
  destruct (db_abs_effect _ _ _ Hwf Habs He) as (l' & ? & ?).
  exists l'. split; [done|]. split; [done|]. by eapply db_abs_facts.
Qed.

Lemma pg_rel_empty sd fates tokens k :
  pg_rel (World (mkPg empty_db sd fates tokens) k) empty_ledger.
Proof.
  split; [apply db_wf_empty|]. split; simpl; [by rw fmap_empty| |done].
  intros i. rw lookup_empty. set_solver.
Qed.
