(* ===== verification/PersistenceTheorems.v ===== *)
(** * Theorems of the PostgreSQL control plane: every execution *)
From stdpp Require Import prelude strings gmap sorting pretty ssreflect relations.
From S2P Require Import Prelude Uuid PyTime Json Domain Ledger ControlPlane Database Persistence.
From S2P Require Import PersistenceProofs PersistenceInvariant PersistenceRefinement.

Set Warnings "-clear-no-such-hyp".

(** A process over a freshly migrated database. *)
Abbreviation fresh fates tokens k := (World (mkPg empty_db false fates tokens) k).

(** ** A sample run, on which the witnesses evaluate: a grant is created, exchanged
for a pending identity, a certificate is recorded and a heartbeat activates it;
the reply of the heartbeat's transaction is lost. *)
Module PgSample.

Definition at_ (s : Z) : datetime := utc (63900000000 * second + s * second).
Definition fates0 : nat → fate := λ n, if decide (n = 3) then ReplyLost else Commits.
Definition tokens0 : nat → Z := λ n, (123456789 + Z.of_nat n)%Z.
Definition rng0 : nat → uuid := λ n, uid (1000 + Z.of_nat n).
Definition fp : pystr := py "sha256:" ++ hexn 64 12345.
Definition token : pystr := GRANT_NAMESPACE ++ b64n 43 (123456789 * 4).
Definition digest : pystr := hexn 64 77.

Definition w0 : world Pg := fresh fates0 tokens0 rng0.
Definition grant : pg_call :=
  PgGrant (py "host-1") LINUX (py "amd64") (at_ 0) (py "operator-1") MAX_ENROLLMENT_GRANT_TTL.
Definition w1 : world Pg := (pg_exec grant w0).1.
Definition enroll : pg_call := PgBegin token fp (at_ 5) (py "enrollment-service").
Definition w2 : world Pg := (pg_exec enroll w1).1.
Definition issue : pg_call :=
  PgIssue (uid 1005) (py "abc123") (py "issuer-1") (at_ 1) (at_ 3600) (at_ 7)
    (py "enrollment-service").
Definition w3 : world Pg := (pg_exec issue w2).1.
Definition message (mid seq sent : Z) : HeartbeatMessage :=
  mkHeartbeatMessage
    (mkEnvelope (uid mid) (uid 1004) (uid 7) seq (at_ sent) (at_ (sent + 60)) (uid 9) 1)
    (mkHeartbeatPayload (py "1.0.0") []).
Definition beat : pg_call := PgHeartbeat (uid 1005) (message 500 1 8) (at_ 9) (Some digest).
Definition w4 : world Pg := (pg_exec beat w3).1.
Definition revoke : pg_call :=
  PgRevoke (uid 1005) (py "lost device") (py "operator-1") (at_ 20) None.
Definition w5 : world Pg := (pg_exec revoke w4).1.

Lemma step (w : world Pg) call : pg_step w (pg_exec call w).1.
Proof. by exists call. Qed.
Lemma pg_step1 : pg_step w0 w1.
Proof. exact (step w0 grant). Qed.
Lemma pg_step2 : pg_step w1 w2.
Proof. exact (step w1 enroll). Qed.
Lemma pg_step3 : pg_step w2 w3.
Proof. exact (step w2 issue). Qed.
Lemma pg_step4 : pg_step w3 w4.
Proof. exact (step w3 beat). Qed.
Lemma pg_step5 : pg_step w4 w5.
Proof. exact (step w4 revoke). Qed.
Lemma pg_run25 : rtc pg_step w2 w5.
Proof. exact (rtc_l _ _ _ _ pg_step3 (rtc_l _ _ _ _ pg_step4 (rtc_once _ _ pg_step5))). Qed.
Lemma pg_run15 : rtc pg_step w1 w5.
Proof. exact (rtc_l _ _ _ _ pg_step2 pg_run25). Qed.
Lemma pg_run1 : rtc pg_step w0 w1.
Proof. exact (rtc_once _ _ pg_step1). Qed.
Lemma pg_run2 : rtc pg_step w0 w2.
Proof. exact (rtc_r _ _ _ pg_run1 pg_step2). Qed.
Lemma pg_run3 : rtc pg_step w0 w3.
Proof. exact (rtc_r _ _ _ pg_run2 pg_step3). Qed.
Lemma pg_run4 : rtc pg_step w0 w4.
Proof. exact (rtc_r _ _ _ pg_run3 pg_step4). Qed.
Lemma pg_run5 : rtc pg_step w0 w5.
Proof. exact (rtc_r _ _ _ pg_run4 pg_step5). Qed.

(** The lost reply committed its observation and the activation. *)
Example pg_run4_state :
  (pg_exec beat w3).2 = Raise PsycopgError ∧ length (t_observations (dbof w4)) = 1 ∧
  (ir_status <$> t_identities (dbof w4) !! uid 1005) = Some ACTIVE.
Proof. vm_compute. done. Qed.

End PgSample.

(** ** Every execution *)

(** C9: every database state reachable from a freshly migrated one satisfies the
invariant, whatever the calls, their arguments, the random draws and the fates
of the transactions: CHECKs hold of the stored rows, endpoints and identities
are in bijection, keys and certificates are unique, observations belong to
identities that became active and are covered by the sequence table, receipt
columns are the latest receipts, and grants name at most one identity each. *)
Theorem postgres_invariant fates tokens k w :
  rtc pg_step (fresh fates tokens k) w → db_wf (dbof w).
Proof. intros Hr. apply (pg_run_wf _ _ Hr), db_wf_empty. Qed.

Lemma postgres_invariant_witness : db_wf (dbof PgSample.w5).
Proof. apply (postgres_invariant PgSample.fates0 PgSample.tokens0 PgSample.rng0), PgSample.pg_run5. Defined.

(** C1: the PostgreSQL control plane implements the same message ledger as the
in-memory one, with transactions that may fail, be refused at shutdown or lose
their reply. *)
Theorem postgres_refines_ledger fates tokens k w :
  rtc pg_step (fresh fates tokens k) w → ∃ l, rtc ledger_step empty_ledger l ∧ pg_rel w l.
Proof. intros Hr. apply (impl_sim_star _ _ _ Hr), pg_rel_empty. Qed.

Lemma postgres_refines_ledger_witness :
  ∃ l, rtc ledger_step empty_ledger l ∧ pg_rel PgSample.w5 l.
Proof.
  apply (postgres_refines_ledger PgSample.fates0 PgSample.tokens0 PgSample.rng0), PgSample.pg_run5.
Defined.

(** Rows of one boot of one identity. *)
Definition same_boot_row (a b : ObservationRow) : Prop :=
  or_identity_id a = or_identity_id b ∧ or_boot_id a = or_boot_id b.

Lemma StronglySorted_fmap_inv {A B} (R : relation B) (f : A → B) l :
  StronglySorted R (f <$> l) → StronglySorted (λ a b, R (f a) (f b)) l.
Proof.
  induction l as [|x l IH]; [constructor|]. rw fmap_cons. intros [Hs Hall]%StronglySorted_inv.
  constructor; [by apply IH|]. rw Forall_fmap in Hall. exact Hall.
Qed.

(** C4: replay safety of the stored observations. Message IDs are never stored
twice and, within one boot of one identity, sequence numbers strictly increase
in the order of acceptance. *)
Theorem postgres_replay_safe fates tokens k w :
  rtc pg_step (fresh fates tokens k) w →
  NoDup (or_message_id <$> t_observations (dbof w)) ∧
  StronglySorted (λ a b, same_boot_row a b → (or_sequence a < or_sequence b)%Z)
    (t_observations (dbof w)).
Proof.
  intros Hr. destruct (impl_guarantee _ _ _ Hr (pg_rel_empty _ _ _ _) ledger_ok_empty)
    as (l & [Hwf Habs] & (_ & Hss & _) & _).
  split; [by apply (dw_messages _ Hwf)|]. rw (da_entries _ _ Habs) in Hss.
  by apply StronglySorted_fmap_inv in Hss.
Qed.

Lemma postgres_replay_safe_witness :
  NoDup (or_message_id <$> t_observations (dbof PgSample.w5)).
Proof.
  apply (postgres_replay_safe PgSample.fates0 PgSample.tokens0 PgSample.rng0), PgSample.pg_run5.
Defined.

(** ** Lifecycle *)

(** The transitions of an identity: issuance, activation by the first accepted
heartbeat, revocation of anything not yet revoked. *)
Inductive lifecycle_step : EndpointLifecycle → EndpointLifecycle → Prop :=
| lc_issue : lifecycle_step PENDING ISSUED
| lc_activate : lifecycle_step ISSUED ACTIVE
| lc_revoke s : s ≠ REVOKED → lifecycle_step s REVOKED.

(** A row takes a transition and keeps its endpoint, key and creation time. *)
Record row_step (r r' : IdentityRow) : Prop := {
  rs_status : lifecycle_step (ir_status r) (ir_status r');
  rs_unrevoked : ir_revoked_at r = None;
  rs_endpoint : ir_endpoint_id r' = ir_endpoint_id r;
  rs_key : ir_fingerprint r' = ir_fingerprint r;
  rs_created : ir_created_at r' = ir_created_at r;
}.

Lemma fact_effect_identity d d' k r :
  fact_effect d d' → db_wf d → t_identities d !! k = Some r →
  ∃ r', t_identities d' !! k = Some r' ∧ rtc row_step r r'.
Proof.
  intros He Hwf Hr. destruct (dw_identity d Hwf k r Hr) as (Hok & _).
  assert (∀ iid r0 r1, t_identities d !! iid = Some r0 → rtc row_step r0 r1 →
    ∃ r', <[iid := r1]> (t_identities d) !! k = Some r' ∧ rtc row_step r r') as Hset.
  { intros iid r0 r1 H0 Hst. destruct (decide (iid = k)) as [->|].
    - exists r1. rw lookup_insert_eq. by simplify_eq.
    - exists r. by rw lookup_insert_ne. }
  destruct He as [|j g ?????|eid iid er ir Hen|eid iid er ir j g t Hen ?????
    |iid ir serial issuer nb na Hir Hs Hc Hfree|iid ir er o Ha|iid ir t reason Hir Hn Hc]; simpl.
  1,2: by exists r.
  1,2: exists r; rw lookup_insert_ne //; intros ->; by rw (en_identity_new _ _ _ _ _ Hen) in Hr.
  - apply (Hset iid ir); [done|]. apply rtc_once. split; simpl; try done; [rw Hs; constructor|].
    destruct (dw_identity d Hwf _ _ Hir) as (Hk & _).
    destruct (ir_revoked_at ir) eqn:Hrev; [|done]. by rw (revoked_fields _ _ Hk Hrev) in Hs.
  - destruct Ha. apply (Hset iid ir); [done|]. unfold after_accept. case_decide as Hs; [|done].
    apply rtc_once. split; simpl; try done. rw Hs. constructor.
  - apply (Hset iid ir); [done|]. apply rtc_once. split; simpl; try done. constructor.
    destruct (dw_identity d Hwf _ _ Hir) as (Hk & _). by apply unrevoked_fields.
Qed.

Lemma pg_step_identity w w' k r :
  pg_step w w' → db_wf (dbof w) → t_identities (dbof w) !! k = Some r →
  ∃ r', t_identities (dbof w') !! k = Some r' ∧ rtc row_step r r'.
Proof.
  intros (d1 & He & Hf & _)%pg_step_effect Hwf Hr.
  destruct (fact_effect_identity _ _ _ _ He Hwf Hr) as (r' & ? & ?). exists r'.
  apply facts_fields in Hf as (_ & -> & _). done.
Qed.

Lemma pg_run_identity w w' k r :
  rtc pg_step w w' → db_wf (dbof w) → t_identities (dbof w) !! k = Some r →
  ∃ r', t_identities (dbof w') !! k = Some r' ∧ rtc row_step r r'.
Proof.
  intros Hs. revert r. induction Hs as [w|w w1 w2 Hs _ IH]; intros r Hwf Hr; [by exists r|].
  destruct (pg_step_identity _ _ _ _ Hs Hwf Hr) as (r1 & Hr1 & ?).
  destruct (IH r1) as (r2 & ? & ?); [by eauto using db_effect_wf, pg_step_effect|done|].
  exists r2. split; [done|by etrans].
Qed.

(** C10: the identity lifecycle. Along every execution an identity row persists,
keeps its endpoint, public key and creation time, and its status only moves
pending to issued, issued to active, or to revoked; and an observation is
stored only for an identity that is active or was revoked since, so a pending
or issued identity has never had a message accepted. *)
Theorem postgres_lifecycle fates tokens k w w' i r :
  rtc pg_step (fresh fates tokens k) w → rtc pg_step w w' →
  t_identities (dbof w) !! i = Some r →
  ∃ r', t_identities (dbof w') !! i = Some r' ∧ rtc row_step r r' ∧
    (ir_status r' ∈ [PENDING; ISSUED] → ∀ o, o ∈ t_observations (dbof w') → or_identity_id o ≠ i).
Proof.
  intros Hr Hr' Hi. pose proof (pg_run_wf _ _ Hr db_wf_empty) as Hwf.
  destruct (pg_run_identity _ _ _ _ Hr' Hwf Hi) as (r' & Hi' & ?).
  exists r'. split_and!; [done..|]. intros Hst o Ho <-.
  destruct (dw_observation _ (pg_run_wf _ _ Hr' Hwf) o Ho) as (_ & q & _ & Hq & _ & Hqs & _).
  rw Hi' in Hq. injection Hq as <-. rw !elem_of_cons in Hst Hqs. destruct Hst as [Hs|[Hs|Hs%elem_of_nil]]; [..|done];
    rw Hs in Hqs; destruct Hqs as [?|[?|?%elem_of_nil]]; done.
Qed.

Lemma postgres_lifecycle_witness :
  ∃ r r', t_identities (dbof PgSample.w2) !! uid 1005 = Some r ∧ ir_status r = PENDING ∧
    t_identities (dbof PgSample.w5) !! uid 1005 = Some r' ∧ ir_status r' = REVOKED ∧
    rtc row_step r r'.
Proof.
  destruct (t_identities (dbof PgSample.w2) !! uid 1005) as [r|] eqn:Hr;
    [|exfalso; revert Hr; vm_compute; congruence].
  assert (ir_status <$> t_identities (dbof PgSample.w2) !! uid 1005 = Some PENDING) as Hp
    by (vm_compute; reflexivity).
  assert (ir_status <$> t_identities (dbof PgSample.w5) !! uid 1005 = Some REVOKED) as Hv
    by (vm_compute; reflexivity).
  destruct (postgres_lifecycle PgSample.fates0 PgSample.tokens0 PgSample.rng0 PgSample.w2
    PgSample.w5 (uid 1005) r PgSample.pg_run2 PgSample.pg_run25 Hr) as (r' & Hr' & Hst & _).
  rw Hr /= in Hp. rw Hr' /= in Hv. injection Hp as Hp. injection Hv as Hv.
  exists r, r'. split_and!; assumption || reflexivity.
Defined.

Lemma row_step_final r r' : rtc row_step r r' → is_Some (ir_revoked_at r) → r' = r.
Proof.
  intros [|r0 r1 r2 [_ Hn] _] Hs; [done|]. rw Hn in Hs. by destruct Hs.
Qed.

Lemma pg_run_history w w' :
  rtc pg_step w w' →
  t_observations (dbof w) `prefix_of` t_observations (dbof w') ∧
  t_audit (dbof w) `prefix_of` t_audit (dbof w').
Proof.
  induction 1 as [w|w w1 w2 (d1 & He & Hf & Ha)%pg_step_effect _ [IH1 IH2]]; [done|].
  split; [|by etrans]. etrans; [|exact IH1].
  apply facts_fields in Hf as (_ & _ & _ & -> & _). destruct He; simpl; try done. by eexists.
Qed.

Lemma filter_row_entry i (l : list ObservationRow) :
  filter (λ en, en_identity en = i) (row_entry <$> l) =
  row_entry <$> filter (λ o, or_identity_id o = i) l.
Proof.
  induction l as [|o l IH]; [done|]. rw fmap_cons !filter_cons. simpl.
  case_decide; [rw fmap_cons|]; by rw IH.
Qed.

(** C3: revocation is final in the database. A revoked identity's row never
changes again and no later transaction stores an observation for it. *)
Theorem postgres_revocation_final fates tokens k w w' i r :
  rtc pg_step (fresh fates tokens k) w → rtc pg_step w w' →
  t_identities (dbof w) !! i = Some r → is_Some (ir_revoked_at r) →
  t_identities (dbof w') !! i = Some r ∧
  filter (λ o, or_identity_id o = i) (t_observations (dbof w')) =
  filter (λ o, or_identity_id o = i) (t_observations (dbof w)).
Proof.
  intros Hr Hr' Hi Hrev. pose proof (pg_run_wf _ _ Hr db_wf_empty) as Hwf.
  destruct (pg_run_identity _ _ _ _ Hr' Hwf Hi) as (r' & Hi' & Hst).
  apply row_step_final in Hst; [|done]. subst r'. split; [done|].
  destruct (impl_guarantee _ _ _ Hr (pg_rel_empty _ _ _ _) ledger_ok_empty) as (l & Hrel & Hok & _).
  destruct (impl_guarantee _ _ _ Hr' Hrel Hok) as (l' & [_ Habs'] & _ & _ & _ & Hfin).
  destruct Hrel as [_ Habs].
  assert (i ∈ lg_revoked l) as Hin by (apply (da_revoked _ _ Habs); eauto).
  specialize (Hfin i Hin). unfold entries_of in Hfin.
  rw (da_entries _ _ Habs') (da_entries _ _ Habs) !filter_row_entry in Hfin.
  destruct (pg_run_history _ _ Hr') as [[os Hos] _]. rw Hos filter_app fmap_app in Hfin |- *.
  rw -{2}(app_nil_r (row_entry <$> filter _ (t_observations (dbof w)))) in Hfin.
  apply app_inv_head, fmap_nil_inv in Hfin. by rw Hfin app_nil_r.
Qed.

Lemma postgres_revocation_final_witness :
  ∃ r, t_identities (dbof PgSample.w5) !! uid 1005 = Some r ∧ is_Some (ir_revoked_at r) ∧
    t_identities (dbof (pg_exec (PgHeartbeat (uid 1005) (PgSample.message 501 2 30)
      (PgSample.at_ 31) None) PgSample.w5).1) !! uid 1005 = Some r.
Proof.
  destruct (t_identities (dbof PgSample.w5) !! uid 1005) as [r|] eqn:Hr;
    [|exfalso; revert Hr; vm_compute; congruence].
  assert (is_Some (t_identities (dbof PgSample.w5) !! uid 1005 ≫= ir_revoked_at)) as Hv
    by (eexists; vm_compute; reflexivity).
  rw Hr /= in Hv. exists r. split; [reflexivity|]. split; [exact Hv|].
  apply (postgres_revocation_final PgSample.fates0 PgSample.tokens0 PgSample.rng0 PgSample.w5);
    [exact PgSample.pg_run5|apply rtc_once, PgSample.step|exact Hr|exact Hv].
Defined.

(** ** Grants *)
Lemma fact_effect_grant d d' k g :
  fact_effect d d' → t_grants d !! k = Some g →
  ∃ g', t_grants d' !! k = Some g' ∧
    (g' = g ∨ gr_consumed g = None ∧ ∃ t i, g' = consume_grant t i g ∧ t_identities d !! i = None).
Proof.
  intros He Hg. destruct He as [|j q Hj ????|eid iid er ir Hen|eid iid er ir j q t Hen Hj Hn ???
    |iid ir serial issuer nb na Hir Hs Hc Hfree|iid ir er o Ha|iid ir t reason Hir Hn Hc]; simpl.
  1,3,5-7: exists g; auto.
  - exists g. rw lookup_insert_ne; [auto|congruence].
  - destruct (decide (j = k)) as [->|]; [|exists g; rw lookup_insert_ne; auto].
    simplify_eq. eexists. rw lookup_insert_eq. split; [done|]. right. split; [done|].
    eexists _, iid. split; [done|]. by destruct Hen.
Qed.

(** C2: an enrollment grant is single-use. Along every execution a consumed grant
never changes again (so it names one identity for ever), an unconsumed one
either stays as it is or is consumed by an identity that did not exist before,
and no two grants name the same identity. *)
Theorem postgres_grant_single_use fates tokens k w w' j g :
  rtc pg_step (fresh fates tokens k) w → rtc pg_step w w' →
  t_grants (dbof w) !! j = Some g →
  ∃ g', t_grants (dbof w') !! j = Some g' ∧
    (g' = g ∨ gr_consumed g = None ∧ ∃ t i, g' = consume_grant t i g ∧
                t_identities (dbof w) !! i = None) ∧
    (∀ j' q t t' i, t_grants (dbof w') !! j' = Some q →
       gr_consumed g' = Some (t, i) → gr_consumed q = Some (t', i) → j' = j).
Proof.
  intros Hr Hr' Hg. pose proof (pg_run_wf _ _ Hr db_wf_empty) as Hwf.
  assert (∃ g', t_grants (dbof w') !! j = Some g' ∧
    (g' = g ∨ gr_consumed g = None ∧ ∃ t i, g' = consume_grant t i g ∧
                t_identities (dbof w) !! i = None)) as (g' & Hg' & Hcase).
  { clear Hr. revert g Hg Hwf. induction Hr' as [w|w w1 w2 Hs Hr IH]; intros g Hg Hwf; [eauto|].
    pose proof (pg_step_effect _ _ Hs) as (d1 & He & Hf & _).
    destruct (fact_effect_grant _ _ _ _ He Hg) as (g1 & Hg1 & Hc1).
    pose proof Hf as (_ & _ & _ & _ & Hgr)%facts_fields.
    destruct (IH g1) as (g2 & Hg2 & Hc2); [by rw Hgr|by eauto using db_effect_wf, pg_step_effect|].
    exists g2. split; [done|]. destruct Hc1 as [-> |(Hn & t & i & -> & Hi)], Hc2 as [-> |(Hn2 & t2 & i2 & -> & Hi2)]; try done.
    - by left.
    - right. split; [done|]. exists t2, i2. split; [done|].
      destruct (t_identities (dbof w) !! i2) as [q|] eqn:Hq; [|done].
      destruct (pg_step_identity _ _ _ _ Hs Hwf Hq) as (q' & Hq' & _). congruence.
    - right. split; [done|]. by exists t, i. }
  exists g'. split_and!; [done..|]. intros j' q t t' i Hq Hc Hc'.
  by eapply (dw_grant_identity _ (pg_run_wf _ _ Hr' Hwf)).
Qed.

Lemma postgres_grant_single_use_witness :
  ∃ g g', t_grants (dbof PgSample.w1) !! uid 1000 = Some g ∧ gr_consumed g = None ∧
    t_grants (dbof PgSample.w5) !! uid 1000 = Some g' ∧ ∃ t i, g' = consume_grant t i g.
Proof.
  destruct (t_grants (dbof PgSample.w1) !! uid 1000) as [g|] eqn:Hg;
    [|exfalso; revert Hg; vm_compute; congruence].
  assert (gr_consumed <$> t_grants (dbof PgSample.w1) !! uid 1000 = Some None) as Hn
    by (vm_compute; reflexivity).
  assert (is_Some (t_grants (dbof PgSample.w5) !! uid 1000 ≫= gr_consumed)) as Hc
    by (eexists; vm_compute; reflexivity).
  destruct (postgres_grant_single_use PgSample.fates0 PgSample.tokens0 PgSample.rng0 PgSample.w1
    PgSample.w5 (uid 1000) g PgSample.pg_run1 PgSample.pg_run15 Hg) as (g' & Hg' & Hcase & _).
  rw Hg /= in Hn. rw Hg' /= in Hc. injection Hn as Hn. exists g, g'.
  split; [reflexivity|]. split; [exact Hn|]. split; [exact Hg'|].
  destruct Hcase as [Heq|(_ & t & i & Heq & _)]; [|exists t, i; exact Heq].
  rw Heq Hn in Hc. destruct Hc as [? Hc]. discriminate Hc.
Defined.
