(* ===== verification/PersistenceBehaviour.v ===== *)
(** * The PostgreSQL control plane: calls that return

Completeness of the transactions: on a well-formed database, with a live
connection and unused random draws, exact retries are acknowledged, authorized
messages are accepted, and a grant is exchanged for an identity. *)
From stdpp Require Import prelude strings gmap sorting pretty ssreflect relations.
From S2P Require Import Prelude Uuid PyTime Sha256 Json Domain ControlPlane Database Persistence.
From S2P Require Import PersistenceProofs PersistenceInvariant.

Set Warnings "-clear-no-such-hyp".

(** ** Text the server stores *)
Definition char_ok (c : Z) : bool := negb (is_surrogate c) && negb (0 =? c)%Z.
Definition text_ok (s : pystr) : bool := forallb char_ok s.

Lemma text_ok_app s t : text_ok (s ++ t) = text_ok s && text_ok t.
Proof. apply forallb_app. Qed.

Lemma text_ok_spec s :
  text_ok s = true ↔ existsb is_surrogate s = false ∧ existsb (Z.eqb 0) s = false.
Proof.
  unfold text_ok. induction s as [|c s IH]; simpl; [done|]. unfold char_ok at 1.
  rw !andb_true_iff IH !negb_true_iff !orb_false_iff. tauto.
Qed.

Lemma pg_texts_run l : forallb text_ok l = true → pg_texts l = Ok tt.
Proof.
  induction l as [|s l IH]; simpl; [done|]. rw andb_true_iff. intros [Hs Hl].
  apply text_ok_spec in Hs as [H1 H2]. unfold pg_text. by rw H1 H2 /= IH.
Qed.

Lemma jsonb_text_ok s : jsonb_text s = text_ok s.
Proof.
  apply eq_bool_prop_intro. unfold jsonb_text. rw !Is_true_true text_ok_spec andb_true_iff.
  by rw !negb_true_iff.
Qed.

Lemma text_ok_hex s : forallb is_lower_hex s = true → text_ok s = true.
Proof.
  unfold text_ok. rw !forallb_forall. intros H c Hc. specialize (H c Hc).
  unfold is_lower_hex, char_ok, is_surrogate in *. lia.
Qed.

Lemma text_ok_take_drop n s : text_ok s = true → text_ok (take n s) = true ∧ text_ok (drop n s) = true.
Proof. rw -{1}(take_drop n s) text_ok_app andb_true_iff. done. Qed.

Lemma text_ok_dash n s : text_ok s = true → text_ok (dash_at n s) = true.
Proof.
  intros [H1 H2]%(text_ok_take_drop n). unfold dash_at. rw !text_ok_app H1 H2. done.
Qed.

Lemma text_ok_uuid u : text_ok (uuid_str u) = true.
Proof. rw uuid_str_dashes. repeat apply text_ok_dash. apply text_ok_hex, hexn_lower. Qed.

Lemma text_ok_pretty_N n s : text_ok (py s) = true → text_ok (py (pretty_N_go n s)) = true.
Proof.
  revert s. induction (N.lt_wf_0 n) as [n _ IH]; intros s Hs.
  destruct (decide (0 < n)%N) as [Hn|]; last first.
  { assert (n = 0%N) as -> by lia. by rw pretty_N_go_0. }
  rw pretty_N_go_step //. apply IH; [apply N.div_lt; lia|].
  unfold text_ok in *. simpl. rw Hs andb_true_r.
  assert (n `mod` 10 < 10)%N as Hm by (apply N.mod_lt; lia).
  destruct (n `mod` 10)%N as [|p]; [done|].
  do 4 (destruct p as [p|p|]; try done).
Qed.

Lemma text_ok_int z : text_ok (int_str z) = true.
Proof.
  destruct z as [|p|p]; [done| |].
  - by apply (text_ok_pretty_N (N.pos p) "").
  - change (char_ok 45 && text_ok (py (pretty_N_go (N.pos p) "")) = true).
    by apply (text_ok_pretty_N (N.pos p) "").
Qed.

Lemma text_ok_app_2 s t : text_ok s = true → text_ok t = true → text_ok (s ++ t) = true.
Proof. rw text_ok_app. by intros -> ->. Qed.

(** Text built from literals, UUIDs, integers and known text. *)
Ltac text :=
  lazymatch goal with
  | |- text_ok (_ ++ _) = true => apply text_ok_app_2; text
  | |- text_ok (uuid_str _) = true => apply text_ok_uuid
  | |- text_ok (int_str _) = true => apply text_ok_int
  | |- text_ok (py _) = true => vm_compute; reflexivity
  | |- _ => assumption
  end.

Lemma varchar_uuid n p u :
  (str_len p + 36 <=? n)%Z = true → varchar n (p ++ uuid_str u) = true.
Proof.
  unfold varchar, str_len. rw length_app length_uuid_str Nat2Z.inj_add. done.
Qed.

(** Its length. *)
Ltac fits :=
  lazymatch goal with
  | |- varchar _ (uuid_str ?u) = true => apply (varchar_uuid _ [] u); vm_compute; reflexivity
  | |- varchar _ (_ ++ uuid_str _) = true => apply varchar_uuid; vm_compute; reflexivity
  | |- varchar _ (py _) = true => vm_compute; reflexivity
  | |- varchar _ (py _ ++ py _) = true => vm_compute; reflexivity
  | |- _ => assumption
  end.

(** ** Audit insertions that succeed *)
Definition audit_safe (at_ aid sub act dec reason : pystr) (md : list (pystr * pystr)) : bool :=
  forallb text_ok [at_; aid; sub; act; dec; reason] &&
  forallb (λ kv, text_ok kv.1 && text_ok kv.2) md &&
  varchar 64 at_ && varchar 256 aid && varchar 256 sub && varchar 128 act &&
  bool_decide (dec ∈ [py "accepted"; py "rejected"; py "no_change"]) && varchar 512 reason.

Lemma audit_safe_intro at_ aid sub act dec reason md :
  text_ok at_ = true → text_ok aid = true → text_ok sub = true → text_ok act = true →
  text_ok reason = true → Forall (λ kv, text_ok kv.1 = true ∧ text_ok kv.2 = true) md →
  varchar 64 at_ = true → varchar 256 aid = true → varchar 256 sub = true →
  varchar 128 act = true → varchar 512 reason = true →
  dec ∈ [py "accepted"; py "rejected"; py "no_change"] →
  audit_safe at_ aid sub act dec reason md = true.
Proof.
  intros H1 H2 H3 H4 H5 Hmd L1 L2 L3 L4 L5 Hdec.
  assert (text_ok dec = true) as H6.
  { rw !elem_of_cons in Hdec. by destruct Hdec as [-> |[-> |[-> |?%elem_of_nil]]]. }
  unfold audit_safe. cbn [forallb]. rw H1 H2 H3 H4 H5 H6 L1 L2 L3 L4 L5 bool_decide_eq_true_2 //=.
  rw !andb_true_r. apply forallb_forall. intros kv Hkv%list_elem_of_In.
  rw Forall_forall in Hmd. destruct (Hmd kv Hkv) as [-> ->]. done.
Qed.

(** Audit arguments made of such text. *)
Ltac metadata :=
  repeat first [apply Forall_nil_2 | apply Forall_cons_2; [split; cbn [fst snd]; text|]].
Ltac decision := rw !elem_of_cons; auto.
Ltac audit_text :=
  apply audit_safe_intro;
  [text|text|text|text|text|metadata|fits|fits|fits|fits|fits|decision].

(** The event ID is not in the audit table. *)
Definition event_fresh (u : uuid) (d : Db) : Prop := ∀ r, r ∈ t_audit d → ar_event_id r ≠ u.

(** It can be computed. *)
Lemma event_fresh_check u d :
  forallb (λ r, negb (bool_decide (ar_event_id r = u))) (t_audit d) = true → event_fresh u d.
Proof.
  rw forallb_forall. intros H r Hr%list_elem_of_In Heq. specialize (H r Hr).
  by rw bool_decide_eq_true_2 in H.
Qed.

Lemma py_dict_elem kv l : kv ∈ map_to_list (py_dict l) → kv ∈ l.
Proof.
  destruct kv as [k v]. rw elem_of_map_to_list. unfold py_dict. intros H%elem_of_list_to_map_2.
  rw elem_of_reverse in H. exact H.
Qed.

Lemma py_dict_safe (f : pystr * pystr → bool) md :
  forallb f md = true → forallb f (map_to_list (py_dict (py_sorted pair_leb md))) = true.
Proof.
  rw !forallb_forall. intros H kv Hkv. apply H. apply list_elem_of_In in Hkv.
  apply py_dict_elem in Hkv. rw py_sorted_perm in Hkv. by apply list_elem_of_In.
Qed.

Definition audit_row_of (u : uuid) (t : datetime) (at_ aid sub act dec reason : pystr)
    (corr : uuid) (md : list (pystr * pystr)) : AuditRow :=
  mkAuditRow u (instant t) at_ aid sub act dec reason corr (py_dict (py_sorted pair_leb md)).

(** The process after an audit row. *)
Definition audit_world (r : AuditRow) (w : world Pg) : world Pg :=
  World (set_db (with_audit (λ l, l ++ [r]) (dbof w)) (store w)) (λ n, rng w (S n)).

Lemma insert_audit_run t at_ aid sub act dec reason corr md w :
  audit_safe at_ aid sub act dec reason md = true → event_fresh (rng w 0) (dbof w) →
  _insert_audit t at_ aid sub act dec reason corr md w =
  (audit_world (audit_row_of (rng w 0) t at_ aid sub act dec reason corr md) w, Ok tt).
Proof.
  intros Hsafe Hfresh.
  unfold _insert_audit, mbind, M_bind, uuid4, statement, execute. simpl.
  rw -/(audit_row_of (rng w 0) t at_ aid sub act dec reason corr md).
  set (row := audit_row_of _ _ _ _ _ _ _ _ _ _).
  enough (insert_audit_event row (dbof w) = Ok (with_audit (λ l, l ++ [row]) (dbof w))) as ->
    by done.
  unfold audit_safe in Hsafe. rw !andb_true_iff in Hsafe.
  destruct Hsafe as [[[[[[[Ht Hm] H1] H2] H3] H4] H5] H6].
  unfold insert_audit_event. rw pg_texts_run; [|simpl; by rw !andb_true_iff].
  rw result_seq_Ok. split; [done|]. rw result_seq_Ok pg_check_Ok. split.
  { unfold row. simpl. apply py_dict_safe. rw !forallb_forall in Hm |- *.
    intros kv Hkv. rw !jsonb_text_ok. by apply Hm. }
  rw result_seq_Ok pg_check_Ok. split; [unfold audit_checks; simpl; by rw H1 H2 H3 H4 H5 H6|].
  rw result_seq_Ok pg_unique_Ok negb_true_iff existsb_false. split; [|done].
  intros r Hr. by apply bool_decide_eq_false_2, Hfresh.
Qed.

(** ** Transactions that commit *)
Definition healthy (w : world Pg) : Prop :=
  pg_shutting_down (store w) = false ∧ pg_fates (store w) 0 = Commits.

Lemma connect_run {A} (body : PG A) w w2 a :
  healthy w → body (World (next_fate (store w)) (rng w)) = (w2, Ok a) →
  deferred_constraints (dbof w2) = true → _connect body w = (w2, Ok a).
Proof.
  intros [Hs Hf] Hb Hd. unfold _connect. by rw Hs Hf Hb Hd.
Qed.

Lemma db_wf_deferred d : db_wf d → deferred_constraints d = true.
Proof.
  intros Hwf. unfold deferred_constraints. rw andb_true_iff !bool_decide_eq_true. split.
  - intros k r Hr. unfold endpoint_fk. destruct (dw_endpoint d Hwf k r Hr) as (_ & i & -> & ?).
    by apply bool_decide_eq_true_2.
  - intros k g Hg. unfold grant_fk. destruct (dw_grant d Hwf k g Hg) as (_ & _ & Hc).
    destruct (gr_consumed g) as [[t i]|]; [|done]. destruct (Hc t i eq_refl) as (r & Hr & _).
    apply bool_decide_eq_true_2. eauto.
Qed.

Lemma deferred_audit f d : deferred_constraints (with_audit f d) = deferred_constraints d.
Proof. done. Qed.

(** Sequencing of computations that return. *)
Lemma run_bind {A B} (m : PG A) (k : A → PG B) w w1 a r :
  m w = (w1, Ok a) → k a w1 = r → (m ≫= k) w = r.
Proof. unfold mbind, M_bind. by intros -> ->. Qed.
Lemma run_lift {A B} (r : result A) (k : A → PG B) w a q :
  r = Ok a → k a w = q → (lift r ≫= k) w = q.
Proof. unfold mbind, M_bind, lift. by intros -> ->. Qed.
Lemma run_select {A B} (f : Db → A) (k : A → PG B) w q :
  k (f (dbof w)) w = q → (select f ≫= k) w = q.
Proof. unfold mbind, M_bind, select, gets. by intros ->. Qed.
Lemma run_uuid4 {B} (k : uuid → PG B) w q :
  k (rng w 0) (World (store w) (λ n, rng w (S n))) = q → (uuid4 ≫= k) w = q.
Proof. done. Qed.

(** ** Stored rows read back *)
Lemma identity_from_row_run k r :
  identity_checks r = true → _identity_from_row k r = Ok (identity_of k r).
Proof.
  intros H. unfold _identity_from_row, new_EndpointIdentity. rw result_seq_Ok. split; [|done].
  apply EndpointIdentity_post_init_Ok. simpl. unfold identity_checks in H. checks_in H.
  destruct H as [[[[[_ Hf] Hrev] Hst] _] _]. split_and!; [done|done| | | |].
  - rw Hst. by rw fmap_is_Some.
  - rw fmap_is_Some. destruct (ir_revoked_at r), (ir_revocation_reason r) as [[|]|]; try done; simpl;
      (split; [done|]); intros _; by apply mk_is_Some.
  - rw fmap_is_Some. destruct (ir_revoked_at r), (ir_revocation_reason r); try done; simpl.
  - destruct (ir_revoked_at r), (ir_revocation_reason r); try done; simpl.
    intros t [= <-]. rw !instant_utc. checks_in Hrev. split; [done|lia].
Qed.

Lemma char_length_nonempty s n : char_length_between s 1 n = true → empty_or_longer s n = false.
Proof.
  unfold char_length_between, empty_or_longer, str_empty, str_len. destruct s; simpl; lia.
Qed.

Definition endpoint_of (k : uuid) (r : EndpointRow) : Endpoint :=
  mkEndpoint k (er_display_name r) (er_platform r) (er_architecture r) (er_identity_id r)
    (utc (er_enrolled_at r)) (utc <$> er_last_receipt_at r) (utc <$> er_last_heartbeat_at r).

Lemma endpoint_from_row_run k r :
  endpoint_checks r = true → _endpoint_from_row k r = Ok (endpoint_of k r).
Proof.
  intros H. unfold _endpoint_from_row, new_Endpoint. rw result_seq_Ok. split; [|done].
  apply Endpoint_post_init_Ok. simpl. unfold endpoint_checks in H. rw !andb_true_iff in H.
  destruct H as [[[_ H1%andb_true_iff] _] H2%andb_true_iff].
  split_and!; [done|exact (char_length_nonempty _ 128 H1)|exact (char_length_nonempty _ 32 H2)| |].
  - destruct (er_last_receipt_at r); simpl; naive_solver.
  - destruct (er_last_heartbeat_at r); simpl; naive_solver.
Qed.

Definition observation_of (r : ObservationRow) : Observation :=
  mkObservation (or_observation_id r) (or_endpoint_id r) (or_message_id r)
    (or_observation_type r) (or_schema_version r) (utc (or_source_time r))
    (utc (or_received_at r)) (or_boot_id r) (or_sequence r) (or_payload_digest r)
    (or_encoded_message_digest r).

Lemma observation_from_row_run r :
  observation_checks r = true → _observation_from_row r = Ok (observation_of r).
Proof.
  intros H. unfold _observation_from_row, new_Observation. rw result_seq_Ok. split; [|done].
  unfold Observation_post_init. simpl. checks. unfold observation_checks in H. checks_in H.
  destruct H as [[_ H1] H2]. split_and!; [done..|].
  destruct (or_encoded_message_digest r); [|done]. by checks.
Qed.

(** The stored observation of a message is found by its ID. *)
Lemma find_message d r m :
  db_wf d → r ∈ t_observations d → or_message_id r = m →
  find (λ o, bool_decide (or_message_id o = m)) (t_observations d) = Some r.
Proof.
  intros Hwf Hr <-. pose proof (dw_messages d Hwf) as Hnd. revert Hr Hnd.
  generalize (t_observations d). intros l.
  induction l as [|o l IH]; simpl; [set_solver|]. rw NoDup_cons elem_of_cons.
  intros [<-|Hr] [Ho Hnd]; [by rw bool_decide_eq_true_2|].
  rw bool_decide_eq_false_2; [by apply IH|]. intros Heq. destruct Ho. rw Heq.
  by apply list_elem_of_fmap_2.
Qed.

(** ** The exact retry of an accepted message *)

(** Receipt times [astimezone(UTC)] can represent. *)
Definition representable (t : datetime) : Prop :=
  aware t = true ∧ dt_in_range (instant t) = true.

Lemma representable_run t : representable t → astimezone_utc t = Ok (utc (instant t)).
Proof. intros [Ha Hr]. by apply astimezone_utc_aware. Qed.

Lemma retry_audit_safe aid eid ty mid :
  ty ∈ [py "heartbeat"; py "inventory"] →
  audit_safe (py "endpoint_identity") (uuid_str aid) (py "endpoint:" ++ uuid_str eid)
    (ty ++ py ".ingest") (py "no_change") (py "exact accepted message retry acknowledged")
    [(py "message_id", uuid_str mid)] = true.
Proof.
  intros Hty. rw !elem_of_cons in Hty. destruct Hty as [-> |[-> |?%elem_of_nil]]; [..|done];
    audit_text.
Qed.

Lemma ingest_identity_checks_pass i e k env ty :
  ir_revoked_at i = None → ir_status i ∈ [ISSUED; ACTIVE] → er_identity_id e = k →
  (ir_status i = ISSUED → ty = py "heartbeat") → me_endpoint_id env = ir_endpoint_id i →
  ingest_identity_checks i e k (identity_of k i) env ty = None.
Proof.
  intros Hrev Hst Hcur Hbeat Hep. unfold ingest_identity_checks. simpl.
  rw Hrev Hep (bool_decide_eq_false_2 (is_Some _)); [|by intros ?%is_Some_None].
  rw (bool_decide_eq_true_2 (_ ∈ _)) // (bool_decide_eq_true_2 (_ = k)) //=.
  rw (bool_decide_eq_false_2 (_ ≠ _)); [|by intros ?].
  case_bool_decide as Hi; [|done]. simpl. by rw (bool_decide_eq_true_2 _ (Hbeat Hi)).
Qed.

Section message_retry.
Context (w : world Pg) (aid : uuid) (env : MessageEnvelope) (ty : pystr) (schema : Z).
Context (pdigest digest : pystr) (received : datetime) (binding : option (Platform * pystr)).
Context (r : ObservationRow) (i : IdentityRow).
Context (Hwf : db_wf (dbof w)) (Hh : healthy w) (Hev : event_fresh (rng w 0) (dbof w)).
Context (Hrep : representable received) (Hty : ty ∈ [py "heartbeat"; py "inventory"]).
Context (Hr : r ∈ t_observations (dbof w)) (Hmid : or_message_id r = me_message_id env).
Context (Hdig : or_encoded_message_digest r = Some digest) (Haid : or_identity_id r = aid).
Context (Heid : or_endpoint_id r = me_endpoint_id env).
Context (Hi : t_identities (dbof w) !! aid = Some i) (Hrev : ir_revoked_at i = None).

Lemma ingest_retry_run :
  ∃ a k, _ingest aid env ty schema pdigest received binding (Some digest) w =
    (World (set_db (with_audit (λ l, l ++ [a]) (dbof w)) (next_fate (store w))) k,
     Ok (observation_of r)) ∧ ar_decision a = py "no_change".
Proof.
  destruct (dw_observation _ Hwf r Hr) as (Hchk & i' & n & Hi' & Hie & Hst & _).
  rw Haid Hi in Hi'. injection Hi' as <-.
  destruct (dw_identity _ Hwf _ _ Hi) as (Hok & _ & _ & e & He & Hek).
  assert (ir_status i = ACTIVE) as Hact.
  { rw !elem_of_cons in Hst. destruct Hst as [?|[Hs|?%elem_of_nil]]; [done| |done].
    by destruct (unrevoked_fields i Hok Hrev). }
  set (row := audit_row_of (rng w 0) (utc (instant received)) (py "endpoint_identity")
    (uuid_str aid) (py "endpoint:" ++ uuid_str (me_endpoint_id env)) (ty ++ py ".ingest")
    (py "no_change") (py "exact accepted message retry acknowledged") (me_correlation_id env)
    [(py "message_id", uuid_str (me_message_id env))]).
  exists row, (λ n, rng w (S n)). split; [|done]. unfold _ingest.
  eapply (run_lift _ _ _ tt); [by apply require_aware_Ok, Hrep|].
  eapply run_lift; [by apply representable_run|].
  set (w1 := audit_world row (World (next_fate (store w)) (rng w))).
  eapply (run_bind _ _ _ w1 (inr (observation_of r))); [|reflexivity]. unfold except_unique.
  rw (connect_run _ w w1 (inr (observation_of r))) //.
  - unfold ingest_transaction. apply run_select. change (dbof (World _ _)) with (dbof w).
    rw (proj2 (join_identity_Some aid (dbof w) i e) (conj Hi He)).
    eapply run_lift; [by apply identity_from_row_run|].
    rw ingest_identity_checks_pass //; [|set_solver|by rw Hact|congruence].
    apply run_select. change (dbof (World _ _)) with (dbof w). rw (find_message _ r) //.
    rw (_ : exact_retry _ _ _ _ = true);
      [|unfold exact_retry; rw !andb_true_iff !bool_decide_eq_true; by split_and!].
    eapply run_lift; [by apply observation_from_row_run|].
    eapply run_bind; [by apply insert_audit_run; [apply retry_audit_safe|]|]. reflexivity.
  - exact (db_wf_deferred _ Hwf).
Qed.

End message_retry.

(** ** The exact retry of an enrollment *)
Lemma find_row_unique {R} (p : uuid → R → bool) (m : gmap uuid R) k r :
  m !! k = Some r → p k r = true → (∀ k' r', m !! k' = Some r' → p k' r' = true → k' = k) →
  find_row p m = Some (k, r).
Proof.
  intros Hk Hp Hu. unfold find_row.
  assert ((k, r) ∈ filter (λ kr, p kr.1 kr.2 = true) (map_to_list m)) as Hin.
  { apply list_elem_of_filter. by rw elem_of_map_to_list. }
  destruct (filter _ _) as [|[k' r'] l] eqn:Hf; [by apply elem_of_nil in Hin|]. simpl.
  assert ((k', r') ∈ filter (λ kr, p kr.1 kr.2 = true) (map_to_list m)) as Hin'.
  { rw Hf. apply list_elem_of_here. }
  apply list_elem_of_filter in Hin' as [Hp' Hm'%elem_of_map_to_list].
  assert (k' = k) as -> by by eapply Hu. congruence.
Qed.

Definition grant_of (k : uuid) (g : GrantRow) : EnrollmentGrant :=
  mkGrant k (gr_token_sha256 g) (gr_display_name g) (gr_platform g) (gr_architecture g)
    (utc (gr_created_at g)) (utc (gr_expires_at g)) (gr_created_by g)
    (utc ∘ fst <$> gr_consumed g) (snd <$> gr_consumed g).

Lemma grant_from_row_run d k g :
  db_wf d → t_grants d !! k = Some g → _enrollment_grant_from_row k g = Ok (grant_of k g).
Proof.
  intros Hwf Hk. destruct (dw_grant d Hwf k g Hk) as (_ & [grant Hg] & _). rw Hg.
  by rw (grant_from_row_Ok _ _ _ Hg).
Qed.

(** The lookup of a live, stored grant, up to the consumption check. *)
Lemma consume_lookup_run d w k g token fp now retry :
  db_wf d → dbof w = d → t_grants d !! k = Some g → gr_token_sha256 g = token →
  (gr_created_at g ≤ instant now < gr_expires_at g)%Z → fullmatch_fingerprint fp = true →
  consume_lookup (Some token) fp (utc (instant now)) retry w =
  match gr_consumed g with
  | Some _ =>
    if retry then consume_retry (grant_of k g) fp w
    else (w, Ok (ConsumeFails (Some (grant_of k g)) (py "grant is already consumed")))
  | None => (w, Ok (ConsumeNew (grant_of k g)))
  end.
Proof.
  intros Hwf Hd Hk Ht [Hlo Hhi] Hfp. unfold consume_lookup. apply run_select. rw Hd.
  rw (find_row_unique _ _ k g) //; [|by apply bool_decide_eq_true_2|]; last first.
  { intros k' g' Hk' Hp. apply bool_decide_eq_true in Hp.
    eapply (dw_grant_token d Hwf); [exact Hk'|exact Hk|congruence]. }
  eapply run_lift; [by eapply grant_from_row_run|].
  rw (_ : dt_ltb _ _ = false); [|unfold dt_ltb; cbn [grant_of eg_created_at]; rw !instant_utc; lia].
  rw (_ : dt_leb _ _ = false); [|unfold dt_leb; cbn [grant_of eg_expires_at]; rw !instant_utc; lia].
  rw Hfp. unfold grant_of. cbn [eg_consumed_at]. destruct (gr_consumed g) as [[t i]|]; [|done].
  by destruct retry.
Qed.

Lemma identity_checks_key r :
  identity_checks r = true → fullmatch_fingerprint (ir_fingerprint r) = true.
Proof.
  unfold identity_checks. intros H. checks_in H. by destruct H as [[[[[_ Hf] _] _] _] _].
Qed.

(** An actor name the program and the tables accept. *)
Definition actor_ok (actor : pystr) : Prop :=
  empty_or_longer actor 256 = false ∧ text_ok actor = true.

Lemma actor_fits actor : actor_ok actor → varchar 256 actor = true.
Proof. intros [H _]. unfold empty_or_longer, varchar in *. lia. Qed.

Section enroll_retry.
Context (w : world Pg) (token fp actor : pystr) (now : datetime).
Context (k i : uuid) (g : GrantRow) (t : Z) (ir : IdentityRow) (er : EndpointRow).
Context (Hwf : db_wf (dbof w)) (Hh : healthy w) (Hev : event_fresh (rng w 1) (dbof w)).
Context (Hrep : representable now) (Hactor : actor_ok actor) (Htok : fullmatch_token token = true).
Context (Hk : t_grants (dbof w) !! k = Some g) (Hg : gr_token_sha256 g = Sha256.hexdigest token).
Context (Hcons : gr_consumed g = Some (t, i)).
Context (Hlive : (gr_created_at g ≤ instant now < gr_expires_at g)%Z).
Context (Hir : t_identities (dbof w) !! i = Some ir) (Hst : ir_status ir ∈ [PENDING; ISSUED]).
Context (Hfp : ir_fingerprint ir = fp).
Context (Her : t_endpoints (dbof w) !! ir_endpoint_id ir = Some er).

Lemma enroll_retry_run :
  ∃ a r, begin_endpoint_enrollment token fp now actor w =
    (World (set_db (with_audit (λ l, l ++ [a]) (dbof w)) (next_fate (store w))) r,
     Ok (endpoint_of (ir_endpoint_id ir) er, identity_of i ir)) ∧
    ar_decision a = py "no_change".
Proof.
  destruct (dw_identity _ Hwf _ _ Hir) as (Hok & _ & _ & er' & Her' & Hcur).
  rw Her in Her'. injection Her' as <-.
  destruct (dw_endpoint _ Hwf _ _ Her) as (Hepok & _).
  pose proof (actor_fits actor Hactor) as Hfit. destruct Hactor as [Hact Htext].
  set (row := audit_row_of (rng w 1) (utc (instant now)) (py "service") actor
    (py "enrollment_grant:" ++ uuid_str k) (py "enrollment_grant.consume") (py "no_change")
    (py "exact enrollment retry resumed") (rng w 0)
    [(py "endpoint_id", uuid_str (ir_endpoint_id ir)); (py "identity_id", uuid_str i)]).
  exists row, (λ n, rng w (S (S n))). split; [|done].
  unfold begin_endpoint_enrollment, _consume_enrollment_grant.
  eapply (run_lift _ _ _ tt); [by apply require_aware_Ok, Hrep|].
  eapply run_lift; [by apply representable_run|].
  eapply (run_lift _ _ _ tt); [by rw raise_if_Ok|]. apply run_uuid4. rw Htok.
  set (w0 := World (store w) (λ n, rng w (S n))).
  set (w1 := audit_world row (World (next_fate (store w)) (λ n, rng w (S n)))).
  eapply (run_bind _ _ _ w1 (Some (endpoint_of (ir_endpoint_id ir) er, identity_of i ir)));
    [|reflexivity]. unfold _connect_except.
  rw (connect_run _ w0 w1 (Some (endpoint_of (ir_endpoint_id ir) er, identity_of i ir))) //.
  - eapply run_bind.
    + rw (consume_lookup_run (dbof w) _ k g) //; [|rw -Hfp; by apply identity_checks_key].
      rw Hcons. unfold consume_retry, grant_of. cbn [eg_consumed_identity_id]. rw Hcons.
      cbn [fmap option_fmap option_map snd]. apply run_select.
      change (dbof (World _ _)) with (dbof w).
      rw (proj2 (join_identity_Some i (dbof w) ir er) (conj Hir Her)).
      rw (bool_decide_eq_true_2 _ Hcur) (bool_decide_eq_true_2 _ Hst) (bool_decide_eq_true_2 _ Hfp).
      eapply run_lift; [by apply endpoint_from_row_run|].
      eapply run_lift; [by apply identity_from_row_run|]. reflexivity.
    + unfold consume_apply. eapply run_bind; [|reflexivity].
      apply insert_audit_run; [|done]. cbn [consumption_grant consume_subject eg_grant_id].
      audit_text.
  - exact (db_wf_deferred _ Hwf).
Qed.

End enroll_retry.

(** ** An authorized message is accepted *)
Lemma run_statement {B} (f : Db → result Db) (k : unit → PG B) w d q :
  f (dbof w) = Ok d → k tt (World (set_db d (store w)) (rng w)) = q →
  (statement f ≫= k) w = q.
Proof. unfold mbind, M_bind, statement, execute, mbind, result_bind. by intros -> ->. Qed.

Lemma run_execute {A B} (f : Db → result (Db * A)) (k : A → PG B) w d a q :
  f (dbof w) = Ok (d, a) → k a (World (set_db d (store w)) (rng w)) = q →
  (execute f ≫= k) w = q.
Proof. unfold mbind, M_bind, execute. by intros -> ->. Qed.

Lemma pg_bigint_sequence n : (0 < n ≤ MAX_SEQUENCE)%Z → pg_bigint n && (0 <? n)%Z = true.
Proof. unfold pg_bigint, MAX_SEQUENCE. lia. Qed.

Lemma text_ok_sha256 s : fullmatch_sha256 s = true → text_ok s = true.
Proof. unfold fullmatch_sha256. intros [_ H]%andb_true_iff. by apply text_ok_hex. Qed.

Lemma insert_observation_run r d :
  observation_checks r = true →
  (∀ o, o ∈ t_observations d → or_observation_id o ≠ or_observation_id r) →
  (∀ o, o ∈ t_observations d → or_message_id o ≠ or_message_id r) →
  (∀ o, o ∈ t_observations d → or_identity_id o = or_identity_id r → or_boot_id o = or_boot_id r →
     or_sequence o ≠ or_sequence r) →
  is_Some (t_endpoints d !! or_endpoint_id r) → is_Some (t_identities d !! or_identity_id r) →
  insert_observation r d = Ok (with_observations (λ l, l ++ [r]) d).
Proof.
  intros Hc H1 H2 H3 H4 H5. unfold insert_observation. rw pg_texts_run; last first.
  { unfold observation_checks in Hc. checks_in Hc. destruct Hc as [[[[[[Hty _] _] _] _] Hd] _].
    cbn [forallb]. rw (text_ok_sha256 _ Hd) andb_true_r.
    rw !elem_of_cons in Hty.
    by destruct Hty as [-> |[-> |?%elem_of_nil]]. }
  rw result_seq_Ok. split; [done|]. checks. rw !existsb_false. split_and!; [done| | | |done..].
  - intros o Ho. by apply bool_decide_eq_false_2, H1.
  - intros o Ho. by apply bool_decide_eq_false_2, H2.
  - intros o Ho. apply bool_decide_eq_false_2. intros (? & ? & ?). by eapply H3.
Qed.

Lemma update_identity_run k r p f d :
  t_identities d !! k = Some r → p r = true → identity_checks (f r) = true →
  fingerprint_free d k (ir_fingerprint (f r)) → certificate_free d k (f r) →
  update_identity k p f d = Ok (with_identities <[k := f r]> d, true).
Proof.
  intros Hk Hp Hc Hf Hce. unfold update_identity. rw Hk Hp. rw result_seq_Ok pg_check_Ok.
  split; [done|]. rw result_seq_Ok identity_unique_Ok. done.
Qed.

Lemma update_identity_skip k r p f d :
  t_identities d !! k = Some r → p r = false → update_identity k p f d = Ok (d, false).
Proof. intros Hk Hp. unfold update_identity. by rw Hk Hp. Qed.

Lemma event_fresh_audit u r d :
  event_fresh u d → ar_event_id r ≠ u → event_fresh u (with_audit (λ l, l ++ [r]) d).
Proof. unfold event_fresh. simpl. set_solver. Qed.

(** The audit insertion as a step that only needs its row to exist. *)
Lemma audit_step t at_ aid sub act dec reason corr md w :
  audit_safe at_ aid sub act dec reason md = true → event_fresh (rng w 0) (dbof w) →
  ∃ w', _insert_audit t at_ aid sub act dec reason corr md w = (w', Ok tt) ∧
    only_audit (dbof w) (dbof w') ∧ (∀ n, rng w' n = rng w (S n)) ∧
    (∀ u, event_fresh u (dbof w) → rng w 0 ≠ u → event_fresh u (dbof w')).
Proof.
  intros Hs Hf. eexists. split; [by apply insert_audit_run|].
  split; [split; [done|by eexists]|]. split; [done|].
  intros u Hu Hne. by apply event_fresh_audit.
Qed.

(** The conditions on the message and its sender. *)
Record message_ok (d : Db) (aid : uuid) (i : IdentityRow) (e : EndpointRow)
    (env : MessageEnvelope) (ty : pystr) (received : Z)
    (binding : option (Platform * pystr)) : Prop := {
  mo_identity : t_identities d !! aid = Some i;
  mo_endpoint : t_endpoints d !! ir_endpoint_id i = Some e;
  mo_unrevoked : ir_revoked_at i = None;
  mo_status : ir_status i ∈ [ISSUED; ACTIVE];
  mo_activation : ir_status i = ISSUED → ty = py "heartbeat" ∧ (ir_created_at i ≤ received)%Z;
  mo_bound : me_endpoint_id env = ir_endpoint_id i;
  mo_new : ∀ o, o ∈ t_observations d → or_message_id o ≠ me_message_id env;
  mo_skew : (instant (me_created_at env) ≤ received + MAX_CLOCK_SKEW)%Z;
  mo_live : (received < instant (me_expires_at env))%Z;
  mo_binding : ∀ p a, binding = Some (p, a) → p = er_platform e ∧ a = er_architecture e;
  mo_sequence : (default 0 (t_sequences d !! (aid, me_boot_id env)) < me_sequence env)%Z;
}.

(** The random draws of an ingestion are unused: the observation's ID and up to
two audit events. *)
Record draws_ok (w : world Pg) : Prop := {
  dr_observation : ∀ o, o ∈ t_observations (dbof w) → or_observation_id o ≠ rng w 0;
  dr_event1 : event_fresh (rng w 1) (dbof w);
  dr_event2 : event_fresh (rng w 2) (dbof w);
  dr_distinct : rng w 1 ≠ rng w 2;
}.

Lemma ingest_message_checks_pass d aid i e env ty received binding :
  message_ok d aid i e env ty received binding →
  dt_in_range (received + MAX_CLOCK_SKEW) = true →
  ingest_message_checks e env (utc received) binding = Ok None.
Proof.
  intros [] Hr. unfold ingest_message_checks, dt_add. simpl. rw Hr. simpl. f_equal.
  rw (_ : dt_ltb _ _ = false); [|unfold dt_ltb; rw (instant_utc (received + MAX_CLOCK_SKEW)); lia].
  rw (_ : dt_leb _ _ = false); [|unfold dt_leb; rw instant_utc; lia].
  destruct binding as [[p a]|]; [|done]. destruct (mo_binding0 p a eq_refl) as [-> ->].
  by rw !bool_decide_eq_false_2; try intros [].
Qed.

Lemma upsert_sequence_run i b n d :
  (0 < n ≤ MAX_SEQUENCE)%Z → (default 0 (t_sequences d !! (i, b)) < n)%Z →
  is_Some (t_identities d !! i) →
  upsert_sequence i b n d = Ok (with_sequences <[(i, b) := n]> d, true).
Proof.
  intros Hn Hlt Hi. unfold upsert_sequence. rw result_seq_Ok pg_check_Ok pg_bigint_sequence //.
  split; [done|]. destruct (t_sequences d !! (i, b)) as [last|]; simpl in Hlt.
  - by rw (proj2 (Z.ltb_lt _ _) Hlt).
  - rw result_seq_Ok pg_check_Ok. split; [by apply bool_decide_eq_true_2|done].
Qed.

Section accept_run.
Context (w : world Pg) (aid : uuid) (env : MessageEnvelope) (ty : pystr) (schema : Z).
Context (pdigest : pystr) (received : datetime) (binding : option (Platform * pystr)).
Context (enc : option pystr) (i : IdentityRow) (e : EndpointRow).
Context (Hwf : db_wf (dbof w)) (Hdr : draws_ok w).
Context (Hty : ty ∈ [py "heartbeat"; py "inventory"]) (Hschema : (0 < schema < 2 ^ 31)%Z).
Context (Hpd : fullmatch_sha256 pdigest = true).
Context (Henc : ∀ s, enc = Some s → fullmatch_sha256 s = true).
Context (Hsrc : aware (me_created_at env) = true) (Hmax : (me_sequence env ≤ MAX_SEQUENCE)%Z).
Context (Hok : message_ok (dbof w) aid i e env ty (instant received) binding).

Definition accepted_row : ObservationRow :=
  mkObservationRow (rng w 0) (ir_endpoint_id i) aid (me_message_id env) ty schema
    (instant (me_created_at env)) (instant received) (me_boot_id env) (me_sequence env) pdigest enc.

Definition accepted_observation : Observation :=
  mkObservation (rng w 0) (ir_endpoint_id i) (me_message_id env) ty schema (me_created_at env)
    (utc (instant received)) (me_boot_id env) (me_sequence env) pdigest enc.

Lemma accept_positive : (0 < me_sequence env)%Z.
Proof.
  pose proof (mo_sequence _ _ _ _ _ _ _ _ Hok) as Hs.
  destruct (t_sequences (dbof w) !! _) as [n|] eqn:Hn; simpl in Hs; [|lia].
  apply (dw_sequence _ Hwf) in Hn as [? _]. lia.
Qed.

Lemma accept_checks : observation_checks accepted_row = true.
Proof.
  unfold observation_checks, accepted_row. simpl. pose proof accept_positive.
  rw bool_decide_eq_true_2 // Hpd. unfold pg_integer, pg_bigint, MAX_SEQUENCE in *.
  rw !(proj2 (Z.leb_le _ _)) ?(proj2 (Z.ltb_lt _ _)) /=; try lia.
  destruct enc as [s|]; [by apply Henc|done].
Qed.

Lemma accept_unused_sequence o :
  o ∈ t_observations (dbof w) → or_identity_id o = aid → or_boot_id o = me_boot_id env →
  or_sequence o ≠ me_sequence env.
Proof.
  intros Ho Hoi Hob. destruct (dw_observation _ Hwf o Ho) as (_ & _ & n & _ & _ & _ & Hn & Hle).
  pose proof (mo_sequence _ _ _ _ _ _ _ _ Hok) as Hs. rw Hoi Hob in Hn. rw Hn /= in Hs. lia.
Qed.

Lemma accept_new_observation :
  new_Observation (rng w 0) (ir_endpoint_id i) (me_message_id env) ty schema (me_created_at env)
    (utc (instant received)) (me_boot_id env) (me_sequence env) pdigest enc
  = Ok accepted_observation.
Proof.
  unfold new_Observation. rw result_seq_Ok. split; [|done]. unfold Observation_post_init. simpl.
  checks. rw require_aware_Ok. split_and!; [done..|].
  destruct enc as [s|]; [|done]. rw raise_if_Ok (Henc s) //.
Qed.

(** The activation of an issued identity passes its constraints. *)
Lemma accept_after : ir_status i = ISSUED → identity_checks (set_active (instant received) i) = true.
Proof.
  intros Hs. destruct (mo_activation _ _ _ _ _ _ _ _ Hok Hs) as [_ Hle].
  destruct (dw_identity _ Hwf _ _ (mo_identity _ _ _ _ _ _ _ _ Hok)) as (Hi & _).
  pose proof (mo_unrevoked _ _ _ _ _ _ _ _ Hok) as Hrev.
  unfold identity_checks in *. simpl. checks_in Hi. rw Hrev Hs in Hi |- *.
  destruct Hi as [[[[[H1 H2] H3] H4] H5] _]. rw H1 H2 H3 H5. simpl.
  by apply Z.leb_le.
Qed.

Lemma accept_accepts : accepts (dbof w) aid i e accepted_row.
Proof.
  pose proof accept_checks. pose proof accept_after as Hafter. destruct Hok. split; try done.
  - destruct (dw_identity _ Hwf _ _ mo_identity0) as (_ & _ & _ & e' & He' & ?). congruence.
  - intros Hs. by apply mo_activation0.
Qed.

(** The world in which the acceptance starts. *)
Context (w0 : world Pg) (Hw0 : dbof w0 = with_sequences <[(aid, me_boot_id env) := me_sequence env]> (dbof w)).
Context (Hrng : ∀ n, rng w0 n = rng w n).

Lemma accept_activation w2 :
  dbof w2 = recorded aid i e accepted_row (dbof w) → (∀ n, rng w2 n = rng w (S n)) →
  ∃ w3 n, (if bool_decide (ty = py "heartbeat") then
       activated ← execute (update_identity aid (λ r, bool_decide (ir_status r = ISSUED))
                              (set_active (instant received)));
       if activated : bool then
         _insert_audit (utc (instant received)) (py "endpoint_identity") (uuid_str aid)
           (py "endpoint:" ++ uuid_str (ir_endpoint_id i)) (py "identity.activate")
           (py "accepted") (py "first authenticated heartbeat accepted")
           (me_correlation_id env) []
       else mret tt
     else mret tt) w2 = (w3, Ok tt) ∧ n ∈ [1; 2] ∧ rng w3 0 = rng w n ∧
    event_fresh (rng w n) (dbof w3) ∧
    only_audit (accepted_db aid i e accepted_row (dbof w)) (dbof w3).
Proof.
  intros Hw2 Hr2. pose proof (mo_identity _ _ _ _ _ _ _ _ Hok) as Hi.
  destruct Hdr as [_ Hf1 Hf2 Hne].
  assert (ir_status i ≠ ISSUED → only_audit (accepted_db aid i e accepted_row (dbof w)) (dbof w2))
    as Hsame.
  { intros Hs. rw Hw2. unfold accepted_db, after_accept. rw decide_False //.
    split; [|unfold audit_grows; reflexivity]. apply facts_fields. simpl.
    by rw (insert_id (t_identities (dbof w))). }
  assert (event_fresh (rng w 1) (dbof w2)) as Hf1' by (rw Hw2; exact Hf1).
  destruct (decide (ir_status i = ISSUED)) as [Hs|Hs].
  - destruct (mo_activation _ _ _ _ _ _ _ _ Hok Hs) as [Hbeat _].
    rw (bool_decide_eq_true_2 _ Hbeat).
    destruct (dw_identity _ Hwf _ _ Hi) as (_ & Hfp & Hcert & _).
    assert (update_identity aid (λ r, bool_decide (ir_status r = ISSUED))
      (set_active (instant received)) (dbof w2) =
      Ok (with_identities <[aid := set_active (instant received) i]> (dbof w2), true)) as Hup.
    { rw Hw2. apply (update_identity_run _ i); [done|by apply bool_decide_eq_true_2|
        by apply accept_after|exact Hfp|exact Hcert]. }
    set (w3 := World (set_db (with_identities <[aid := set_active (instant received) i]> (dbof w2))
                       (store w2)) (rng w2)).
    edestruct (audit_step (utc (instant received)) (py "endpoint_identity") (uuid_str aid)
      (py "endpoint:" ++ uuid_str (ir_endpoint_id i)) (py "identity.activate") (py "accepted")
      (py "first authenticated heartbeat accepted") (me_correlation_id env) [] w3)
      as (w4 & Hrun & Ha & Hr4 & Hev); [audit_text|by rw /= Hr2|].
    exists w4, 2. split_and!; [by eapply run_execute|set_solver|by rw Hr4 /= Hr2| |].
    + apply Hev; [rw /= Hw2; exact Hf2|]. by rw /= Hr2.
    + etrans; [|exact Ha]. simpl. rw Hw2. unfold accepted_db, after_accept. rw decide_True //.
  - case_bool_decide as Hb; [|by exists w2, 1; rw Hr2; split_and!; [done|set_solver|done..|auto]].
    exists w2, 1. split_and!; [|set_solver|done|done|auto].
    eapply run_execute; [apply (update_identity_skip _ i); [by rw Hw2|by apply bool_decide_eq_false_2]|].
    simpl. rw /mret /M_ret. by destruct w2 as [[] ?].
Qed.

Lemma ingest_accept_run :
  ∃ w', ingest_accept aid (identity_of aid i) env ty schema pdigest (utc (instant received)) enc w0
        = (w', Ok accepted_observation) ∧
    only_audit (accepted_db aid i e accepted_row (dbof w)) (dbof w').
Proof.
  pose proof (mo_identity _ _ _ _ _ _ _ _ Hok) as Hi. pose proof (mo_endpoint _ _ _ _ _ _ _ _ Hok) as He.
  set (w1 := World (set_db (recorded aid i e accepted_row (dbof w)) (store w0)) (λ n, rng w0 (S n))).
  destruct (accept_activation w1 eq_refl) as (w3 & n & Hact & Hn & Hr3 & Hev & Ha3).
  { intros n. by rw /= Hrng. }
  edestruct (audit_step (utc (instant received)) (py "endpoint_identity") (uuid_str aid)
    (py "endpoint:" ++ uuid_str (ir_endpoint_id i)) (ty ++ py ".ingest") (py "accepted")
    (py "message contract and authorization checks passed") (me_correlation_id env)
    [(py "message_id", uuid_str (me_message_id env)); (py "payload_digest", pdigest);
     (py "sequence", int_str (me_sequence env))] w3) as (w4 & Haud & Ha4 & _).
  { pose proof (text_ok_sha256 _ Hpd) as Htd. pose proof Hty as Ht. rw !elem_of_cons in Ht.
    clear Hact Hok. destruct Ht as [-> |[-> |?%elem_of_nil]]; [..|done]; audit_text. }
  { by rw Hr3. }
  exists w4. split; [|by etrans]. unfold ingest_accept. apply run_uuid4. rw Hrng.
  eapply run_lift; [exact accept_new_observation|].
  eapply run_statement; [rw /= Hw0; apply insert_observation_run|].
  - exact accept_checks.
  - exact (dr_observation _ Hdr).
  - exact (mo_new _ _ _ _ _ _ _ _ Hok).
  - exact accept_unused_sequence.
  - by eexists.
  - by eexists.
  - eapply run_statement; [unfold update_endpoint; rw /= He; reflexivity|].
    rw instant_utc. eapply run_bind; [exact Hact|]. eapply run_bind; [exact Haud|]. done.
Qed.

End accept_run.

Lemma find_none {A} (f : A → bool) l : (∀ x, x ∈ l → f x = false) → find f l = None.
Proof.
  induction l as [|x l IH]; intros H; simpl; [done|]. rw H; [|set_solver]. apply IH. set_solver.
Qed.

Lemma ingest_run w aid env ty schema pdigest received binding enc i e :
  db_wf (dbof w) → healthy w → draws_ok w → representable received →
  dt_in_range (instant received + MAX_CLOCK_SKEW) = true →
  ty ∈ [py "heartbeat"; py "inventory"] → (0 < schema < 2 ^ 31)%Z →
  fullmatch_sha256 pdigest = true → (∀ s, enc = Some s → fullmatch_sha256 s = true) →
  aware (me_created_at env) = true → (me_sequence env ≤ MAX_SEQUENCE)%Z →
  message_ok (dbof w) aid i e env ty (instant received) binding →
  ∃ w', _ingest aid env ty schema pdigest received binding enc w =
      (w', Ok (accepted_observation w env ty schema pdigest received enc i)) ∧
    only_audit (accepted_db aid i e (accepted_row w aid env ty schema pdigest received enc i)
                  (dbof w)) (dbof w').
Proof.
  intros Hwf Hh Hdr Hrep Hrange Hty Hsch Hpd Henc Hsrc Hmax Hok.
  pose proof (mo_identity _ _ _ _ _ _ _ _ Hok) as Hi. pose proof (mo_endpoint _ _ _ _ _ _ _ _ Hok) as He.
  set (w0 := World (set_db (with_sequences <[(aid, me_boot_id env) := me_sequence env]> (dbof w))
                      (next_fate (store w))) (rng w)).
  destruct (ingest_accept_run w aid env ty schema pdigest received binding enc i e Hwf Hdr Hty
    Hsch Hpd Henc Hsrc Hmax Hok w0 eq_refl (λ _, eq_refl)) as (w' & Hrun & Ha).
  pose proof (accept_accepts w aid env ty schema pdigest received binding enc i e Hwf Hty Hsch
    Hpd Henc Hmax Hok) as Hacc.
  exists w'. split; [|done]. unfold _ingest.
  eapply (run_lift _ _ _ tt); [by apply require_aware_Ok, Hrep|].
  eapply run_lift; [by apply representable_run|].
  set (obs := accepted_observation w env ty schema pdigest received enc i) in *.
  eapply (run_bind _ _ _ w' (inr obs)); [|reflexivity]. unfold except_unique.
  rw (connect_run _ w w' (inr obs)) //.
  - unfold ingest_transaction. apply run_select. change (dbof (World _ _)) with (dbof w).
    rw (proj2 (join_identity_Some aid (dbof w) i e) (conj Hi He)).
    destruct (dw_identity _ Hwf _ _ Hi) as (Hik & _).
    eapply run_lift; [by apply identity_from_row_run|].
    rw ingest_identity_checks_pass //; [|apply Hok|apply Hok|apply Hacc|by intros ?; apply Hok|apply Hok].
    apply run_select. change (dbof (World _ _)) with (dbof w).
    rw find_none; [|intros o Ho; by apply bool_decide_eq_false_2, (mo_new _ _ _ _ _ _ _ _ Hok)].
    eapply run_lift; [by eapply ingest_message_checks_pass|].
    eapply run_execute; [apply upsert_sequence_run|].
    + split; [|done]. by eapply (accept_positive w aid env).
    + apply Hok.
    + by eexists.
    + eapply run_bind; [exact Hrun|]. reflexivity.
  - destruct Ha as [Hf _]. apply db_wf_deferred. eapply db_wf_facts; [exact Hf|].
    by apply db_wf_accept.
Qed.

(** ** A live grant is exchanged *)

(** The draws of an exchange: correlation, endpoint, identity, two events. *)
Record enroll_draws (w : world Pg) : Prop := {
  ed_endpoint : t_endpoints (dbof w) !! rng w 1 = None;
  ed_identity : t_identities (dbof w) !! rng w 2 = None;
  ed_event1 : event_fresh (rng w 3) (dbof w);
  ed_event2 : event_fresh (rng w 4) (dbof w);
  ed_distinct : rng w 3 ≠ rng w 4;
}.

Section exchange.
Context (w : world Pg) (token fp actor : pystr) (now : datetime) (status : EndpointLifecycle).
Context (retry : bool) (k : uuid) (g : GrantRow).
Context (Hwf : db_wf (dbof w)) (Hh : healthy w) (Hdr : enroll_draws w).
Context (Hrep : representable now) (Hactor : actor_ok actor) (Htok : fullmatch_token token = true).
Context (Hst : status ∈ [PENDING; ACTIVE]).
Context (Hk : t_grants (dbof w) !! k = Some g) (Hg : gr_token_sha256 g = Sha256.hexdigest token).
Context (Hcons : gr_consumed g = None) (Hname : text_ok (gr_display_name g) = true).
Context (Hlive : (gr_created_at g ≤ instant now < gr_expires_at g)%Z).
Context (Hfp : fullmatch_fingerprint fp = true).
Context (Hfree : ∀ j r, t_identities (dbof w) !! j = Some r → ir_fingerprint r ≠ fp).

Definition new_endpoint_row : EndpointRow :=
  mkEndpointRow (gr_display_name g) (gr_platform g) (gr_architecture g) (rng w 2) (instant now)
    None None.
Definition new_identity_row : IdentityRow :=
  mkIdentityRow (rng w 1) fp (instant now) None None status None None.
Definition exchanged : Db :=
  with_grants <[k := consume_grant (instant now) (rng w 2) g]>
    (enrolled (rng w 1) (rng w 2) new_endpoint_row new_identity_row (dbof w)).


(** The two audit rows of an exchange. *)
Definition exchange_events : list AuditRow :=
  [audit_row_of (rng w 3) (utc (instant now)) (py "service") actor (py "enrollment_grant:" ++ uuid_str k)
     (py "enrollment_grant.consume") (py "accepted") (py "grant exchanged for one endpoint identity") (rng w 0)
     [(py "endpoint_id", uuid_str (rng w 1)); (py "identity_status", lifecycle_value status);
      (py "identity_id", uuid_str (rng w 2))];
   audit_row_of (rng w 4) (utc (instant now)) (py "service") actor (py "endpoint:" ++ uuid_str (rng w 1))
     (py "endpoint.enroll") (py "accepted") (py "single-use enrollment grant consumed") (rng w 0)
     [(py "grant_id", uuid_str k); (py "identity_id", uuid_str (rng w 2))]].

Lemma exchange_grant_checks : grant_checks (consume_grant (instant now) (rng w 2) g) = true.
Proof.
  destruct (dw_grant _ Hwf _ _ Hk) as (Hc & _). unfold grant_checks in *. simpl. rw Hcons in Hc.
  rw andb_true_r in Hc. rw Hc. simpl. lia.
Qed.

Lemma exchange_amd64 : gr_architecture g = py "amd64" ∧ gr_platform g = LINUX.
Proof.
  destruct (dw_grant _ Hwf _ _ Hk) as (Hc & _). unfold grant_checks in Hc. checks_in Hc. naive_solver.
Qed.

Lemma exchange_name : char_length_between (gr_display_name g) 1 128 = true.
Proof.
  destruct (dw_grant _ Hwf _ _ Hk) as (Hc & _). unfold grant_checks in Hc.
  repeat (apply andb_true_iff in Hc as [Hc ?]). done.
Qed.

Lemma exchange_endpoint_checks : endpoint_checks new_endpoint_row = true.
Proof.
  pose proof exchange_name as Hn. destruct exchange_amd64 as [Ha _].
  unfold endpoint_checks, new_endpoint_row. simpl. rw Hn Ha.
  rw (_ : varchar 128 _ = true) //. unfold char_length_between, varchar in *. lia.
Qed.

Lemma fullmatch_fingerprint_length : varchar 71 fp = true.
Proof.
  unfold fullmatch_fingerprint, fullmatch_sha256 in Hfp.
  apply andb_true_iff in Hfp as [_ H]. apply andb_true_iff in H as [H%bool_decide_eq_true _].
  unfold varchar, str_len. rw length_drop in H. lia.
Qed.

Lemma fullmatch_fingerprint_text : text_ok fp = true.
Proof.
  unfold fullmatch_fingerprint, fullmatch_sha256 in Hfp.
  apply andb_true_iff in Hfp as [H1%bool_decide_eq_true H]. apply andb_true_iff in H as [_ H].
  rw -(take_drop 7 fp) text_ok_app H1 (text_ok_hex _ H). done.
Qed.

Lemma exchange_identity_checks : identity_checks new_identity_row = true.
Proof.
  unfold identity_checks, new_identity_row. simpl. rw Hfp fullmatch_fingerprint_length /=.
  rw bool_decide_eq_true_2 //. split; [|by intros ?%is_Some_None].
  pose proof Hst as Hs. intros Heq. rw Heq !elem_of_cons in Hs.
  by destruct Hs as [?|[?|?%elem_of_nil]].
Qed.

Lemma exchange_statements w0 {B} (cont : PG B) q :
  dbof w0 = dbof w →
  cont (World (set_db (enrolled (rng w 1) (rng w 2) new_endpoint_row new_identity_row (dbof w))
                 (store w0)) (rng w0)) = q →
  (statement (insert_endpoint (rng w 1) new_endpoint_row);;
   statement (insert_identity (rng w 2) new_identity_row);; cont) w0 = q.
Proof.
  intros Hw0 Hq. destruct Hdr as [Hde Hdi _ _ _].
  eapply (run_statement _ _ _ (with_endpoints <[rng w 1 := new_endpoint_row]> (dbof w))).
  { rw Hw0. unfold insert_endpoint. rw pg_texts_run; last first.
    { cbn [forallb new_endpoint_row er_display_name er_architecture]. rw Hname.
      destruct exchange_amd64 as [-> _]. done. }
    rw result_seq_Ok. split; [done|]. rw result_seq_Ok pg_check_Ok. split; [apply exchange_endpoint_checks|].
    checks. split_and!; [done| |done]. intros j r Hj Hne. apply bool_decide_eq_false_2.
    destruct (dw_endpoint _ Hwf j r Hj) as (_ & i & Hi & _). simpl. congruence. }
  eapply (run_statement _ _ _ (enrolled (rng w 1) (rng w 2) new_endpoint_row new_identity_row (dbof w)));
    [|exact Hq].
  unfold insert_identity. rw pg_texts_run; last first.
  { cbn [forallb new_identity_row ir_fingerprint]. by rw fullmatch_fingerprint_text. }
  rw result_seq_Ok. split; [done|]. rw result_seq_Ok pg_check_Ok. split; [apply exchange_identity_checks|].
  rw result_seq_Ok pg_unique_Ok bool_decide_eq_true. split; [done|].
  rw result_seq_Ok identity_unique_Ok. split; [split; [by intros j r Hj _; apply (Hfree j)|done]|].
  rw result_seq_Ok pg_check_Ok bool_decide_eq_true. split; [|done].
  simpl. rw lookup_insert_eq. by eexists.
Qed.

Definition new_identity : EndpointIdentity :=
  mkIdentity (rng w 2) (rng w 1) fp (utc (instant now)) status None None.
Definition new_endpoint : Endpoint :=
  mkEndpoint (rng w 1) (gr_display_name g) (gr_platform g) (gr_architecture g) (rng w 2)
    (utc (instant now)) None None.

Lemma exchange_new_identity :
  new_EndpointIdentity (rng w 2) (rng w 1) fp (utc (instant now)) status None None = Ok new_identity.
Proof.
  pose proof (identity_from_row_run (rng w 2) new_identity_row exchange_identity_checks) as H.
  exact H.
Qed.

Lemma exchange_new_endpoint :
  new_Endpoint (rng w 1) (gr_display_name g) (gr_platform g) (gr_architecture g) (rng w 2)
    (utc (instant now)) None None = Ok new_endpoint.
Proof.
  pose proof (endpoint_from_row_run (rng w 1) new_endpoint_row exchange_endpoint_checks) as H.
  exact H.
Qed.

Lemma exchange_consumed d :
  t_grants d = t_grants (dbof w) →
  update_grant_consumed k (instant now) (rng w 2) d =
  Ok (with_grants <[k := consume_grant (instant now) (rng w 2) g]> d, true).
Proof.
  intros Hd. unfold update_grant_consumed. rw Hd Hk Hcons.
  rw result_seq_Ok pg_check_Ok. split; [exact exchange_grant_checks|].
  rw result_seq_Ok. split; [|done]. unfold grant_unique. rw Hd. checks. split.
  - intros j r Hj Hne. apply bool_decide_eq_false_2. simpl. intros Heq. destruct Hne.
    by eapply (dw_grant_token _ Hwf).
  - intros j r Hj _. simpl. destruct (gr_consumed r) as [[t i]|] eqn:Hc; [|done].
    apply bool_decide_eq_false_2. intros ->.
    destruct (dw_grant _ Hwf j r Hj) as (_ & _ & Hx). destruct (Hx t _ Hc) as (q & Hq & _).
    by rw (ed_identity _ Hdr) in Hq.
Qed.

Lemma with_audit_twice a b d :
  with_audit (λ l, l ++ [b]) (with_audit (λ l, l ++ [a]) d) = with_audit (λ l, l ++ [a; b]) d.
Proof. unfold with_audit. cbn. by rw -app_assoc. Qed.

Lemma exchange_audited d' : d' = with_audit (λ l, l ++ exchange_events) exchanged → only_audit exchanged d'.
Proof. intros ->. split; [done|by eexists]. Qed.

Lemma consume_create_run w0 :
  dbof w0 = dbof w → (∀ n, rng w0 n = rng w (S n)) →
  ∃ w', consume_create (grant_of k g) fp (utc (instant now)) actor status (rng w 0) w0 =
      (w', Ok (new_endpoint, new_identity)) ∧ dbof w' = with_audit (λ l, l ++ exchange_events) exchanged.
Proof.
  intros Hw0 Hr0. destruct Hdr as [_ _ He1 He2 Hne].
  pose proof (actor_fits actor Hactor) as Hfit. pose proof (proj2 Hactor) as Htext.
  set (w1 := World (set_db exchanged (store w0)) (λ n, rng w0 (S (S n)))).
  assert (text_ok (lifecycle_value status) = true) as Hstat by by destruct status.
  pose proof (insert_audit_run (utc (instant now)) (py "service") actor
    (py "enrollment_grant:" ++ uuid_str k) (py "enrollment_grant.consume") (py "accepted")
    (py "grant exchanged for one endpoint identity") (rng w 0)
    [(py "endpoint_id", uuid_str (rng w 1)); (py "identity_status", lifecycle_value status);
     (py "identity_id", uuid_str (rng w 2))] w1) as Haud1.
  ospecialize* Haud1; [audit_text|by rw /= Hr0|].
  set (w2 := audit_world _ w1) in Haud1.
  pose proof (insert_audit_run (utc (instant now)) (py "service") actor
    (py "endpoint:" ++ uuid_str (rng w 1)) (py "endpoint.enroll") (py "accepted")
    (py "single-use enrollment grant consumed") (rng w 0)
    [(py "grant_id", uuid_str k); (py "identity_id", uuid_str (rng w 2))] w2) as Haud2.
  ospecialize* Haud2; [audit_text| |].
  { unfold w2. cbn. rw Hr0. apply event_fresh_audit; [exact He2|by rw /= Hr0]. }
  set (w3 := audit_world _ w2) in Haud2.
  exists w3. split; cycle 1.
  { etrans; [exact (with_audit_twice _ _ exchanged)|].
    assert (rng w1 0 = rng w 3) as -> by exact (Hr0 2). assert (rng w2 0 = rng w 4) as -> by exact (Hr0 3). reflexivity. }
  unfold consume_create.
  apply run_uuid4. apply run_uuid4. cbn [store rng]. rw !Hr0.
  eapply run_lift; [exact exchange_new_identity|]. eapply run_lift; [exact exchange_new_endpoint|].
  cbn [new_identity new_endpoint ei_created_at ep_display_name ep_platform ep_architecture
       ep_identity_id ep_enrolled_at grant_of eg_grant_id]. rw instant_utc.
  apply exchange_statements; [exact Hw0|].
  eapply run_execute; [by apply exchange_consumed|].
  eapply (run_lift _ _ _ tt); [done|]. eapply run_bind; [exact Haud1|].
  eapply run_bind; [exact Haud2|]. done.
Qed.

Lemma exchange_enrolls :
  enrolls (dbof w) (rng w 1) (rng w 2) new_endpoint_row new_identity_row.
Proof.
  destruct Hdr. split; try done; [apply exchange_endpoint_checks|apply exchange_identity_checks|].
  intros j r Hj _. by apply (Hfree j).
Qed.

Lemma exchange_run :
  ∃ w', _consume_enrollment_grant token fp now actor status retry w =
      (w', Ok (new_endpoint, new_identity)) ∧ dbof w' = with_audit (λ l, l ++ exchange_events) exchanged.
Proof.
  set (w1 := World (next_fate (store w)) (λ n, rng w (S n))).
  destruct (consume_create_run w1 eq_refl (λ _, eq_refl)) as (w' & Hrun & Hx).
  pose proof (exchange_audited _ Hx) as Ha. exists w'. split; [|done]. unfold _consume_enrollment_grant.
  eapply (run_lift _ _ _ tt); [by apply require_aware_Ok, Hrep|].
  eapply run_lift; [by apply representable_run|].
  eapply (run_lift _ _ _ tt); [rw raise_if_Ok; apply Hactor|]. apply run_uuid4. rw Htok.
  eapply (run_bind _ _ _ w' (Some (new_endpoint, new_identity))); [|reflexivity].
  unfold _connect_except.
  rw (connect_run _ (World (store w) (λ n, rng w (S n))) w' (Some (new_endpoint, new_identity))) //.
  - eapply run_bind; [rw (consume_lookup_run (dbof w) _ k g) // Hcons //|].
    unfold consume_apply. eapply run_bind; [exact Hrun|]. reflexivity.
  - destruct Ha as [Hf _]. apply db_wf_deferred. eapply db_wf_facts; [exact Hf|].
    eapply fact_effect_wf; [|exact Hwf].
    pose proof exchange_enrolls. pose proof exchange_grant_checks.
    by apply (fact_consume _ _ _ _ _ _ _ (instant now)).
Qed.

End exchange.
