(* ===== verification/PersistenceCalls.v ===== *)
(** * Theorems of the PostgreSQL control plane: what each call does *)
From stdpp Require Import prelude strings gmap sorting pretty ssreflect relations.
From S2P Require Import Prelude Uuid PyTime Sha256 Json Domain Ledger ControlPlane Database.
From S2P Require Import Persistence PersistenceProofs PersistenceInvariant PersistenceRefinement.
From S2P Require Import PersistenceTheorems PersistenceBehaviour.

Set Warnings "-clear-no-such-hyp".

(** An accepted message may be retried safely. If an observation of this very
message (same ID, same encoded bytes, same sender and endpoint) is stored and
the identity was not revoked since, presenting the message again, at any time,
even after it expired and even if the first reply was lost, returns the stored
observation and adds one [no_change] audit row, nothing else. *)
Theorem message_retry_acknowledged w aid m received digest r i :
  db_wf (dbof w) → healthy w → event_fresh (rng w 0) (dbof w) → representable received →
  r ∈ t_observations (dbof w) → or_message_id r = me_message_id (hm_envelope m) →
  or_encoded_message_digest r = Some digest → or_identity_id r = aid →
  or_endpoint_id r = me_endpoint_id (hm_envelope m) →
  t_identities (dbof w) !! aid = Some i → ir_revoked_at i = None →
  ∃ a k, Persistence.ingest_heartbeat aid m received (Some digest) w =
    (World (set_db (with_audit (λ l, l ++ [a]) (dbof w)) (next_fate (store w))) k,
     Ok (observation_of r)) ∧ ar_decision a = py "no_change".
Proof.
  intros. unfold Persistence.ingest_heartbeat. eapply ingest_retry_run; eauto.
  rw !elem_of_cons. auto.
Qed.

Lemma message_retry_acknowledged_witness :
  ∃ r a k,
    (pg_exec PgSample.beat PgSample.w3).2 = Raise PsycopgError ∧
    Persistence.ingest_heartbeat (uid 1005) (PgSample.message 500 1 8) (PgSample.at_ 5000)
      (Some PgSample.digest) PgSample.w4 =
    (World (set_db (with_audit (λ l, l ++ [a]) (dbof PgSample.w4)) (next_fate (store PgSample.w4))) k,
     Ok (observation_of r)) ∧ ar_decision a = py "no_change".
Proof.
  assert (∃ r i, r ∈ t_observations (dbof PgSample.w4) ∧
    or_message_id r = me_message_id (hm_envelope (PgSample.message 500 1 8)) ∧
    or_encoded_message_digest r = Some PgSample.digest ∧ or_identity_id r = uid 1005 ∧
    or_endpoint_id r = me_endpoint_id (hm_envelope (PgSample.message 500 1 8)) ∧
    t_identities (dbof PgSample.w4) !! uid 1005 = Some i ∧ ir_revoked_at i = None)
    as (r & i & Hr & H1 & H2 & H3 & H4 & H5 & H6).
  { do 2 eexists. split; [vm_compute; apply list_elem_of_here|].
    do 5 (split; [vm_compute; reflexivity|]). vm_compute. reflexivity. }
  destruct (message_retry_acknowledged PgSample.w4 (uid 1005) (PgSample.message 500 1 8)
    (PgSample.at_ 5000) PgSample.digest r i) as (a & k & Heq & Ha);
    [| | | |exact Hr|exact H1|exact H2|exact H3|exact H4|exact H5|exact H6|].
  - apply (pg_run_wf _ _ PgSample.pg_run4), db_wf_empty.
  - split; vm_compute; reflexivity.
  - apply event_fresh_check. vm_compute. reflexivity.
  - split; vm_compute; reflexivity.
  - exists r, a, k. split; [vm_compute; reflexivity|]. exact (conj Heq Ha).
Defined.

(** An interrupted enrollment can be resumed. If a grant was already exchanged
and its identity is still pending or issued, presenting the same token with
the same public key while the grant is live returns the stored endpoint and
identity and adds one [no_change] audit row, nothing else. *)
Theorem enrollment_retry_resumes w token fp now actor k i g t ir er :
  db_wf (dbof w) → healthy w → event_fresh (rng w 1) (dbof w) → representable now →
  actor_ok actor → fullmatch_token token = true →
  t_grants (dbof w) !! k = Some g → gr_token_sha256 g = Sha256.hexdigest token →
  gr_consumed g = Some (t, i) → (gr_created_at g ≤ instant now < gr_expires_at g)%Z →
  t_identities (dbof w) !! i = Some ir → ir_status ir ∈ [PENDING; ISSUED] →
  ir_fingerprint ir = fp → t_endpoints (dbof w) !! ir_endpoint_id ir = Some er →
  ∃ a r, begin_endpoint_enrollment token fp now actor w =
    (World (set_db (with_audit (λ l, l ++ [a]) (dbof w)) (next_fate (store w))) r,
     Ok (endpoint_of (ir_endpoint_id ir) er, identity_of i ir)) ∧
    ar_decision a = py "no_change".
Proof. intros. by eapply enroll_retry_run. Qed.

Lemma enrollment_retry_resumes_witness :
  ∃ ir er a r, begin_endpoint_enrollment PgSample.token PgSample.fp (PgSample.at_ 6) (py "svc")
      PgSample.w2 =
    (World (set_db (with_audit (λ l, l ++ [a]) (dbof PgSample.w2)) (next_fate (store PgSample.w2))) r,
     Ok (endpoint_of (ir_endpoint_id ir) er, identity_of (uid 1005) ir)) ∧
    ar_decision a = py "no_change".
Proof.
  assert (∃ g t ir er, t_grants (dbof PgSample.w2) !! uid 1000 = Some g ∧
    gr_token_sha256 g = Sha256.hexdigest PgSample.token ∧
    gr_consumed g = Some (t, uid 1005) ∧
    (gr_created_at g <=? instant (PgSample.at_ 6))%Z && (instant (PgSample.at_ 6) <? gr_expires_at g)%Z
      = true ∧
    t_identities (dbof PgSample.w2) !! uid 1005 = Some ir ∧ ir_status ir = PENDING ∧
    ir_fingerprint ir = PgSample.fp ∧ t_endpoints (dbof PgSample.w2) !! ir_endpoint_id ir = Some er)
    as (g & t & ir & er & H1 & H2 & H3 & H4 & H5 & H6 & H7 & H8).
  { do 4 eexists. do 7 (split; [vm_compute; reflexivity|]). vm_compute. reflexivity. }
  destruct (enrollment_retry_resumes PgSample.w2 PgSample.token PgSample.fp (PgSample.at_ 6)
    (py "svc") (uid 1000) (uid 1005) g t ir er) as (a & r & Heq & Ha);
    [| | | | | |exact H1|exact H2|exact H3| |exact H5| |exact H7|exact H8|].
  - apply (pg_run_wf _ _ PgSample.pg_run2), db_wf_empty.
  - split; vm_compute; reflexivity.
  - apply event_fresh_check. vm_compute. reflexivity.
  - split; vm_compute; reflexivity.
  - split; vm_compute; reflexivity.
  - vm_compute. reflexivity.
  - apply andb_true_iff in H4 as [H4 H4']. apply Z.leb_le in H4. apply Z.ltb_lt in H4'.
    exact (conj H4 H4').
  - rw H6. apply list_elem_of_here.
  - exists ir, er, a, r. exact (conj Heq Ha).
Defined.

(** C5: an authorized heartbeat is accepted. On a well-formed database with a live
connection and unused draws, a heartbeat whose sender is an unrevoked issued or
active identity of the claimed endpoint, with an unseen message ID, a creation
time within skew, before its expiry and above the boot's last sequence, returns
its observation; the stored facts are exactly the acceptance: the observation
appended, the sequence raised, the receipt columns advanced and an issued
identity activated. *)
Theorem authorized_heartbeat_accepted w aid m received enc i e :
  db_wf (dbof w) → healthy w → draws_ok w → representable received →
  dt_in_range (instant received + MAX_CLOCK_SKEW) = true →
  (∀ s, enc = Some s → fullmatch_sha256 s = true) → envelope_ok (hm_envelope m) →
  message_ok (dbof w) aid i e (hm_envelope m) (py "heartbeat") (instant received) None →
  ∃ w', Persistence.ingest_heartbeat aid m received enc w =
      (w', Ok (accepted_observation w (hm_envelope m) (py "heartbeat") 1
                 (HeartbeatPayload_digest (hm_payload m)) received enc i)) ∧
    only_audit (accepted_db aid i e
      (accepted_row w aid (hm_envelope m) (py "heartbeat") 1
         (HeartbeatPayload_digest (hm_payload m)) received enc i) (dbof w)) (dbof w').
Proof.
  intros Hwf Hh Hdr Hrep Hrange Henc Henv Hok. apply envelope_ok_spec in Henv as (Hsrc & _ & _ & [_ Hmax] & _).
  unfold Persistence.ingest_heartbeat. apply (ingest_run _ _ _ _ _ _ _ None); try done.
  - rw !elem_of_cons. auto.
  - apply canonical_digest_shape.
Qed.

Lemma authorized_heartbeat_accepted_witness :
  ∃ w' o, Persistence.ingest_heartbeat (uid 1005) (PgSample.message 501 2 12) (PgSample.at_ 13) None
            PgSample.w4 = (w', Ok o).
Proof.
  assert (∃ i e, t_identities (dbof PgSample.w4) !! uid 1005 = Some i ∧
    t_endpoints (dbof PgSample.w4) !! ir_endpoint_id i = Some e ∧ ir_revoked_at i = None ∧
    ir_status i = ACTIVE ∧ uid 1004 = ir_endpoint_id i ∧ er_identity_id e = uid 1005)
    as (i & e & H1 & H2 & H3 & H4 & H5 & H6).
  { do 2 eexists. do 5 (split; [vm_compute; reflexivity|]). vm_compute. reflexivity. }
  destruct (authorized_heartbeat_accepted PgSample.w4 (uid 1005) (PgSample.message 501 2 12)
    (PgSample.at_ 13) None i e) as (w' & Hrun & _).
  - apply (pg_run_wf _ _ PgSample.pg_run4), db_wf_empty.
  - split; vm_compute; reflexivity.
  - split; [|apply event_fresh_check; vm_compute; reflexivity..|vm_compute; congruence].
    vm_compute. intros o Ho. apply list_elem_of_singleton in Ho. subst o. congruence.
  - split; vm_compute; reflexivity.
  - vm_compute. reflexivity.
  - congruence.
  - vm_compute. reflexivity.
  - split; [exact H1|exact H2|exact H3| | |exact H5| | | | |].
    + rw H4. apply list_elem_of_further, list_elem_of_here.
    + rw H4. congruence.
    + vm_compute. intros o Ho. apply list_elem_of_singleton in Ho. subst o. congruence.
    + vm_compute. congruence.
    + vm_compute. reflexivity.
    + congruence.
    + vm_compute. reflexivity.
  - exists w'. eexists. exact Hrun.
Defined.

(** ** Grants *)
Lemma b64n_shape n z : forallb is_b64url (b64n n z) = true ∧ length (b64n n z) = n.
Proof.
  revert z. induction n as [|n IH]; intros z; simpl; [done|]. destruct (IH (z / 64)%Z) as [H1 H2].
  rw forallb_app length_app H1 H2 /=. split; [|lia].
  assert (0 ≤ z mod 64 < 64)%Z as Hm by (apply Z.mod_pos_bound; lia).
  rw andb_true_r. unfold is_b64url, b64url_digit.
  repeat (case_match; simpl); lia.
Qed.

Lemma token_shape z : fullmatch_token (GRANT_NAMESPACE ++ b64n 43 z) = true.
Proof.
  destruct (b64n_shape 43 z) as [H1 H2]. unfold fullmatch_token.
  rw (take_app_length' GRANT_NAMESPACE) // (drop_app_length' GRANT_NAMESPACE) // H1.
Qed.

Lemma pg_texts_Ok l : pg_texts l = Ok tt → forallb text_ok l = true.
Proof.
  induction l as [|s l IH]; [done|]. simpl. intros H. apply result_seq_Ok in H as [Hs Hl].
  rw IH // andb_true_r. apply text_ok_spec. unfold pg_text in Hs. by checks_in Hs.
Qed.

Lemma okp_connect {A} (body : PG A) P w :
  (∀ w1, dbof w1 = dbof w → okp body P w1) → okp (_connect body) P w.
Proof. intros Hb w' a [H _]%connect_Ok. exact (Hb (World (next_fate (store w)) (rng w)) eq_refl w' a H). Qed.

Lemma okp_token (P : world Pg → pystr → Prop) w :
  (∀ w' z, dbof w' = dbof w → P w' (b64n 43 z)) → okp token_urlsafe_32 P w.
Proof. intros HP w' s [= <- <-]. by apply HP. Qed.

Lemma okp_audit_exact t at_ aid sub act dec reason corr md (P : world Pg → unit → Prop) w :
  (∀ w' event, dbof w' = with_audit (λ l, l ++ [audit_row_of event t at_ aid sub act dec reason corr md]) (dbof w) →
    P w' tt) →
  okp (_insert_audit t at_ aid sub act dec reason corr md) P w.
Proof.
  intros HP. unfold _insert_audit. apply okp_bind, okp_uuid4. intros w1 u Hw1.
  apply okp_statement. intros w2 d Hins Hd. apply (HP w2 u). unfold insert_audit_event in Hins.
  checks_in Hins. destruct Hins as (_ & _ & _ & _ & [= Hd']). by rw Hd -Hd' Hw1.
Qed.

(** The two rows a created grant adds: the grant with the digest of its secret, and one event. *)
Definition grant_row (name actor : pystr) (now : datetime) (ttl : Z) (token : pystr) : GrantRow :=
  mkGrantRow (Sha256.hexdigest token) name LINUX (py "amd64") (instant now) (instant now + ttl) actor None.
Definition grant_event (event corr : uuid) (name actor : pystr) (now : datetime) (grant : EnrollmentGrant) : AuditRow :=
  audit_row_of event (utc (instant now)) (py "operator") actor (py "enrollment_grant:" ++ uuid_str (eg_grant_id grant))
    (py "enrollment_grant.create") (py "accepted") (py "short-lived single-use grant created") corr
    [(py "architecture", py "amd64"); (py "display_name", name); (py "expires_at", isoformat (eg_expires_at grant));
     (py "platform", py "linux")].

Lemma create_grant_exact name pl arch now actor ttl w :
  okp (create_enrollment_grant name pl arch now actor ttl)
    (λ w1 r, fullmatch_token r.2 = true ∧ text_ok name = true ∧ instant (eg_expires_at r.1) = (instant now + ttl)%Z ∧
       ∃ event corr, dbof w1 =
         with_audit (λ l, l ++ [grant_event event corr name actor now r.1])
           (with_grants <[eg_grant_id r.1 := grant_row name actor now ttl r.2]> (dbof w))) w.
Proof.
  unfold create_enrollment_grant. apply okp_bind, okp_lift. intros _ _.
  apply okp_bind, okp_lift. intros server [_ ->]%astimezone_utc_Ok.
  apply okp_bind, okp_token. intros w1 z Hw1. apply okp_bind, okp_uuid4. intros w2 gid Hw2.
  apply okp_bind, okp_lift. intros expires Hexp. apply okp_bind, okp_lift. intros grant Hgrant.
  apply okp_bind, okp_uuid4. intros w3 corr Hw3. apply okp_bind, okp_connect. intros w4 Hw4.
  apply okp_bind, okp_statement. intros w5 d5 Hins Hw5. apply okp_audit_exact. intros w6 event Ha.
  apply okp_ret. split; [apply token_shape|]. cbn [fst snd].
  apply dt_add_Ok in Hexp as [Hexp _]. rw instant_utc in Hexp.
  unfold insert_grant in Hins. apply result_seq_Ok in Hins as [Ht Hins].
  checks_in Hins. destruct Hins as (_ & _ & _ & [= Hd]).
  apply pg_texts_Ok in Ht. cbn [forallb gr_display_name] in Ht.
  apply andb_true_iff in Ht as [_ Ht]. apply andb_true_iff in Ht as [Hname _].
  unfold new_EnrollmentGrant in Hgrant. apply result_seq_Ok in Hgrant as [Hpost [= Hg]].
  apply EnrollmentGrant_post_init_Ok in Hpost as (_ & _ & _ & _ & Hpl & Har & _).
  rw -Hg in Ha Hd Hname |- *.
  cbn [eg_grant_id eg_token_sha256 eg_display_name eg_platform eg_architecture eg_created_at eg_expires_at eg_created_by]
    in Ha, Hd, Hname, Hpl, Har |- *.
  split_and!; [done..|]. exists event, corr. rw Ha Hw5 -Hd Hw4 Hw3 Hw2 Hw1 Hpl Har instant_utc Hexp. reflexivity.
Qed.

(** C11: a created grant can be exchanged exactly for what it says. The secret returned by
[create_enrollment_grant] has the token format, and the database afterwards is the one before with
exactly two rows more: the grant, which holds the SHA-256 digest of the secret, and an audit event
made of the grant's public data; the secret itself is in neither. As long as the grant is live and
no identity has the presented public key, [begin_endpoint_enrollment] with that secret returns a
pending identity bound to a new endpoint with the grant's name and platform, and the database
afterwards is exactly: the new endpoint and identity rows, the grant marked consumed by the
identity, and two audit events, made of the new IDs. *)
Theorem grant_exchange name pl arch now actor ttl w w1 grant token fp now' actor' :
  db_wf (dbof w) → create_enrollment_grant name pl arch now actor ttl w = (w1, Ok (grant, token)) →
  healthy w1 → enroll_draws w1 → representable now' → actor_ok actor' →
  (instant now ≤ instant now' < instant now + ttl)%Z → fullmatch_fingerprint fp = true →
  (∀ j r, t_identities (dbof w1) !! j = Some r → ir_fingerprint r ≠ fp) →
  fullmatch_token token = true ∧
  (∃ event corr, dbof w1 =
    with_audit (λ l, l ++ [grant_event event corr name actor now grant])
      (with_grants <[eg_grant_id grant := grant_row name actor now ttl token]> (dbof w))) ∧
  ∃ w2,
    begin_endpoint_enrollment token fp now' actor' w1 =
      (w2, Ok (mkEndpoint (rng w1 1) name LINUX (py "amd64") (rng w1 2) (utc (instant now')) None None,
               mkIdentity (rng w1 2) (rng w1 1) fp (utc (instant now')) PENDING None None)) ∧
    dbof w2 = with_audit (λ l, l ++ exchange_events w1 actor' now' PENDING (eg_grant_id grant))
      (exchanged w1 fp now' PENDING (eg_grant_id grant) (grant_row name actor now ttl token)).
Proof.
  intros Hwf Hc Hh Hdr Hrep Hact Hlive Hfp Hfree.
  destruct (create_grant_exact name pl arch now actor ttl w w1 (grant, token) Hc)
    as (Htok & Htext & Hex & event & corr & Hdb). cbn [fst snd] in *.
  split_and!; [done|by exists event, corr|].
  assert (db_wf (dbof w1)) as Hwf1.
  { pose proof (effect_create_grant name pl arch now actor ttl w) as He. unfold has_effect in He.
    rw Hc in He. by eapply db_effect_wf. }
  destruct (exchange_run w1 token fp actor' now' PENDING true (eg_grant_id grant) (grant_row name actor now ttl token)
    Hwf1 Hh Hdr Hrep Hact Htok) as (w2 & Hrun & Ha); try done.
  { apply list_elem_of_here. } { rw Hdb. apply lookup_insert_eq. }
  exists w2. split; [|done]. unfold begin_endpoint_enrollment. by rw Hrun.
Qed.

Lemma key_unused_check d fp :
  forallb (λ kr, negb (bool_decide (ir_fingerprint kr.2 = fp))) (map_to_list (t_identities d)) = true →
  ∀ j r, t_identities d !! j = Some r → ir_fingerprint r ≠ fp.
Proof.
  rw forallb_forall. intros H j r Hj Heq. apply elem_of_map_to_list, list_elem_of_In in Hj.
  specialize (H _ Hj). simpl in H. by rw bool_decide_eq_true_2 in H.
Qed.

Lemma grant_exchange_witness :
  ∃ w1 w2 grant token r,
    create_enrollment_grant (py "host-1") LINUX (py "amd64") (PgSample.at_ 0) (py "operator-1")
      MAX_ENROLLMENT_GRANT_TTL PgSample.w0 = (w1, Ok (grant, token)) ∧
    begin_endpoint_enrollment token PgSample.fp (PgSample.at_ 5) (py "svc") w1 = (w2, Ok r).
Proof.
  destruct (run_Ok (create_enrollment_grant (py "host-1") LINUX (py "amd64") (PgSample.at_ 0)
    (py "operator-1") MAX_ENROLLMENT_GRANT_TTL) PgSample.w0) as (w1 & [grant token] & Hc);
    [eexists; vm_compute; reflexivity|].
  assert (w1 = PgSample.w1) as Hw1.
  { unfold PgSample.w1, PgSample.grant, pg_exec, mbind, M_bind. rw Hc. reflexivity. }
  destruct (grant_exchange _ _ _ _ _ _ PgSample.w0 _ _ _ PgSample.fp (PgSample.at_ 5) (py "svc")
    db_wf_empty Hc) as (_ & _ & w2 & Hrun & _); rw ?Hw1.
  - split; vm_compute; reflexivity.
  - split; [vm_compute; reflexivity|vm_compute; reflexivity|
      apply event_fresh_check; vm_compute; reflexivity|
      apply event_fresh_check; vm_compute; reflexivity|vm_compute; congruence].
  - split; vm_compute; reflexivity.
  - split; vm_compute; reflexivity.
  - split; vm_compute; congruence.
  - vm_compute. reflexivity.
  - apply key_unused_check. vm_compute. reflexivity.
  - exists w1, w2, grant, token. eexists. exact (conj Hc Hrun).
Defined.

(** ** Failing closed *)
Lemma connect_Raise {A} (body : PG A) w w' e :
  _connect body w = (w', Raise e) → pg_fates (store w) 0 ≠ ReplyLost → dbof w' = dbof w.
Proof.
  unfold _connect. destruct (pg_shutting_down _); [by intros [= <- <-]|].
  destruct (pg_fates _ 0) eqn:Hf; [|by intros [= <- <-]| |done]; intros H _; revert H;
    (destruct (body _) as [w2 [a|e']]; [|by intros [= <- <-]]);
    (destruct (deferred_constraints _); [|by intros [= <- <-]]); by intros [= <- <-].
Qed.

Lemma record_audit_only t at_ aid sub act dec reason corr md w :
  only_audit (dbof w) (dbof (_record_audit t at_ aid sub act dec reason corr md w).1).
Proof.
  apply (connect_effect _ only_audit); [done|]. intros w1 Hw1. apply okp_audit.
  intros w2 Ha _. by rw -Hw1.
Qed.

(** A recorded failure of the ingestion transaction adds audit rows only. *)
Lemma okp_ingest_failure aid env ty schema digest received binding enc w :
  okp (ingest_transaction aid env ty schema digest received binding enc)
    (λ w' r, match r with inl _ => only_audit (dbof w) (dbof w') | inr _ => True end) w.
Proof.
  unfold ingest_transaction.
  assert (∀ f w1, dbof w1 = dbof w → okp (_insert_rejection aid (me_endpoint_id env)
    (ty ++ py ".ingest") f.2 (me_correlation_id env) received;; mret (inl f : Failure + Observation))
    (λ w' r, match r with inl _ => only_audit (dbof w) (dbof w') | inr _ => True end) w1) as Hrefuse.
  { intros f w1 Hw1. unfold _insert_rejection. apply okp_bind, okp_audit. intros w2 Ha.
    apply okp_ret. by rw -Hw1. }
  apply okp_bind, okp_select. destruct (join_identity aid _) as [[i e]|]; [|by apply Hrefuse].
  apply okp_bind, okp_lift. intros identity _.
  destruct (ingest_identity_checks _ _ _ _ _ _) as [f|]; [by apply Hrefuse|].
  apply okp_bind, okp_select. destruct (find _ _) as [r|].
  { destruct (exact_retry _ _ _ _); [|by apply Hrefuse].
    apply okp_bind, okp_lift. intros obs _. apply okp_bind, okp_audit. intros w2 _. by apply okp_ret. }
  apply okp_bind, okp_lift. intros [f|] _; [by apply Hrefuse|].
  apply okp_bind, okp_execute. intros w2 d2 [] Hup Hw2.
  - apply okp_bind. eapply (okp_mono _ (λ _ _, True)); [by intros ??|]. intros w3 obs _. by apply okp_ret.
  - apply Hrefuse. rw Hw2. unfold upsert_sequence in Hup. checks_in Hup. destruct Hup as [_ Hup].
    repeat case_match; simplify_eq; [done|]. checks_in Hup. naive_solver.
Qed.

(** An ingestion that raises adds audit rows only. *)
Lemma ingest_raise_audit aid env ty schema digest received binding enc w w' e :
  _ingest aid env ty schema digest received binding enc w = (w', Raise e) →
  pg_fates (store w) 0 ≠ ReplyLost → only_audit (dbof w) (dbof w').
Proof.
  unfold _ingest, mbind, M_bind, lift. intros H Hfate.
  destruct (require_aware _ _); [|by injection H as <- _].
  destruct (astimezone_utc received) as [rcv|]; [|by injection H as <- _].
  unfold except_unique in H.
  destruct (_connect _ w) as [w1 [[f|obs]|e1]] eqn:Hc.
  - apply connect_Ok in Hc as [Hc _]. apply okp_ingest_failure in Hc.
    destruct f as [ty' reason]. by injection H as <- _.
  - done.
  - pose proof (connect_Raise _ _ _ _ Hc Hfate) as Hdb.
    assert (only_audit (dbof w) (dbof w1)) as Ha by by rw Hdb.
    destruct e1; try (by injection H as <- _).
    unfold mbind, M_bind, _record_rejection in H.
    pose proof (record_audit_only rcv (py "endpoint_identity") (uuid_str aid)
      (py "endpoint:" ++ uuid_str (me_endpoint_id env)) (ty ++ py ".ingest") (py "rejected")
      (py "message ID or boot sequence replayed") (me_correlation_id env) [] w1) as Hr.
    destruct (_record_audit _ _ _ _ _ _ _ _ _ w1) as [w2 [u|e2]]; injection H as <- _; by etrans.
Qed.

(** C6: ingestion fails closed. Whatever the message, the sender and the error, a
heartbeat or inventory that raises leaves every table but the audit trail as
it was, provided the server's reply to the commit was not lost (in which case
an accepted message may be stored although the caller sees an error, and the
exact retry acknowledges it). *)
Theorem ingest_fails_closed aid env ty schema digest received binding enc w w' e :
  _ingest aid env ty schema digest received binding enc w = (w', Raise e) →
  pg_fates (store w) 0 ≠ ReplyLost → only_audit (dbof w) (dbof w').
Proof. apply ingest_raise_audit. Qed.

Lemma ingest_fails_closed_witness :
  ∃ w' e, Persistence.ingest_heartbeat (uid 1005) (PgSample.message 500 7 10) (PgSample.at_ 11) None
      PgSample.w5 = (w', Raise e) ∧
    only_audit (dbof PgSample.w5) (dbof w').
Proof.
  assert (∃ e, (Persistence.ingest_heartbeat (uid 1005) (PgSample.message 500 7 10)
    (PgSample.at_ 11) None PgSample.w5).2 = Raise e) as [e He] by (eexists; vm_compute; reflexivity).
  exists (Persistence.ingest_heartbeat (uid 1005) (PgSample.message 500 7 10) (PgSample.at_ 11)
    None PgSample.w5).1, e.
  assert (Persistence.ingest_heartbeat (uid 1005) (PgSample.message 500 7 10) (PgSample.at_ 11)
    None PgSample.w5 = ((Persistence.ingest_heartbeat (uid 1005) (PgSample.message 500 7 10)
    (PgSample.at_ 11) None PgSample.w5).1, Raise e)) as Heq.
  { rw -He. apply surjective_pairing. }
  split; [exact Heq|]. eapply ingest_fails_closed; [exact Heq|vm_compute; congruence].
Defined.

(** ** Certificates *)

(** The identity row a certificate of endpoint [eid] and key [fp] names. *)
Definition certificate_row (d : Db) (eid : uuid) (fp : pystr) (k : uuid) (i : IdentityRow) : Prop :=
  t_identities d !! k = Some i ∧ ir_endpoint_id i = eid ∧ ir_fingerprint i = fp.

Lemma find_row_none {R} (p : uuid → R → bool) (m : gmap uuid R) :
  find_row p m = None → ∀ k r, m !! k = Some r → p k r = false.
Proof.
  unfold find_row. intros H%head_None k r Hk. destruct (p k r) eqn:Hp; [|done].
  assert ((k, r) ∈ filter (λ kr, p kr.1 kr.2 = true) (map_to_list m)) as Hin.
  { apply list_elem_of_filter. by rw elem_of_map_to_list. }
  rw H in Hin. by apply elem_of_nil in Hin.
Qed.

Lemma authenticate_audit_safe eid (dec : string) reason :
  dec ∈ ["accepted"%string; "rejected"%string] → text_ok reason = true → varchar 512 reason = true →
  audit_safe (py "endpoint_certificate") (uuid_str eid) (py "endpoint:" ++ uuid_str eid)
    (py "certificate.authenticate") (py dec) reason [] = true.
Proof.
  intros Hd Ht Hv. rw !elem_of_cons in Hd. destruct Hd as [-> |[-> |?%elem_of_nil]]; [..|done];
    audit_text.
Qed.

Definition verdict_spec (d : Db) (eid : uuid) (fp : pystr)
    (v : option EndpointIdentity * option pystr) : Prop :=
  match v with
  | (Some identity, None) => ∃ k i, certificate_row d eid fp k i ∧ identity = identity_of k i ∧
      ir_status i ∈ [ISSUED; ACTIVE]
  | (_, Some reason) => (∀ k i, certificate_row d eid fp k i → ir_status i ∉ [ISSUED; ACTIVE]) ∧
      text_ok reason = true ∧ varchar 512 reason = true
  | (None, None) => False
  end.

Lemma certificate_verdict_spec d eid fp :
  db_wf d → ∃ v, certificate_verdict (certificate_lookup eid fp d) = Ok v ∧ verdict_spec d eid fp v.
Proof.
  intros Hwf. unfold certificate_lookup. destruct (find_row _ _) as [[k i]|] eqn:Hf; simpl; last first.
  { eexists. split; [done|]. split; [|by vm_compute]. intros k i (Hk & He & Hp) _.
    pose proof (find_row_none _ _ Hf k i Hk) as Hn. simpl in Hn.
    by rw !bool_decide_eq_true_2 in Hn. }
  apply find_row_Some in Hf as [Hk Hp]. checks_in Hp. destruct Hp as [He Hp].
  destruct (dw_identity d Hwf k i Hk) as (Hok & Hfree & _ & e & Hep & Hcur).
  assert (∀ k' i', certificate_row d eid fp k' i' → k' = k ∧ i' = i) as Huniq.
  { intros k' i' (Hk' & _ & Hp'). destruct (decide (k' = k)) as [->|Hne]; [naive_solver|].
    destruct (Hfree k' i' Hk' Hne). congruence. }
  rw Hep /=. unfold certificate_verdict. rw (identity_from_row_run k i Hok) /=.
  rw (bool_decide_eq_true_2 _ Hcur) /= orb_false_r.
  eexists. split; [done|]. case_bool_decide as Hrev; simpl.
  { split; [|by vm_compute]. intros k' i' [_ ->]%Huniq Hin. destruct Hrev as [t Ht].
    destruct (ir_revoked_at i) as [t'|] eqn:Hr; [|done].
    rw (revoked_fields i t' Hok Hr) !elem_of_cons in Hin.
    by destruct Hin as [?|[?|?%elem_of_nil]]. }
  case_bool_decide as Hst; simpl; [by exists k, i|].
  split; [|by vm_compute]. by intros k' i' [_ ->]%Huniq.
Qed.

(** The outcome of an authentication, and the process it leaves. *)
Lemma authenticate_outcome w eid fp t corr :
  db_wf (dbof w) → healthy w → event_fresh (rng w 0) (dbof w) → representable t →
  text_ok fp = true →
  ∃ w' r, authenticate_endpoint_certificate eid fp t corr w = (w', r) ∧
    (only_audit (dbof w) (dbof w') ∧ length (t_audit (dbof w')) = S (length (t_audit (dbof w))) ∧
    match r with
    | Ok identity => ∃ k i, certificate_row (dbof w) eid fp k i ∧ identity = identity_of k i ∧
        ir_status i ∈ [ISSUED; ACTIVE]
    | Raise e => e = AuthorizationError (py "endpoint certificate is unauthorized") ∧
        ∀ k i, certificate_row (dbof w) eid fp k i → ir_status i ∉ [ISSUED; ACTIVE]
    end) ∧
    (pg_shutting_down (store w') = pg_shutting_down (store w) ∧
     (∀ n, pg_fates (store w') n = pg_fates (store w) (S n)) ∧
     (∀ n, rng w' n = rng w (S n)) ∧
     (∀ u, event_fresh u (dbof w) → rng w 0 ≠ u → event_fresh u (dbof w'))).
Proof.
  intros Hwf Hh Hev Hrep Htext.
  destruct (certificate_verdict_spec (dbof w) eid fp Hwf) as (v & Hv & Hspec).
  set (dec := match v.2 with Some _ => "rejected"%string | None => "accepted"%string end).
  set (row := audit_row_of (rng w 0) (utc (instant t)) (py "endpoint_certificate") (uuid_str eid)
    (py "endpoint:" ++ uuid_str eid) (py "certificate.authenticate") (py dec)
    (default (py "verified certificate key is current") v.2) corr []).
  set (w1 := audit_world row (World (next_fate (store w)) (rng w))).
  exists w1, (match v with
              | (Some identity, None) => Ok identity
              | _ => Raise (AuthorizationError (py "endpoint certificate is unauthorized"))
              end).
  split; [|split; [split; [split; [done|by eexists]|split; [simpl; rw length_app /=; lia|]]|]].
  2: { destruct v as [[identity|] [reason|]]; simpl in *; naive_solver. }
  2: { split_and!; try done. intros u Hu Hne. by apply event_fresh_audit. }
  unfold authenticate_endpoint_certificate.
  eapply (run_lift _ _ _ tt); [by apply require_aware_Ok, Hrep|].
  eapply run_lift; [by apply representable_run|].
  eapply (run_bind _ _ _ w1 v); [|by destruct v as [[] []]].
  apply connect_run; [done| |exact (db_wf_deferred _ Hwf)].
  eapply (run_lift _ _ _ tt); [apply pg_texts_run; simpl; by rw Htext|].
  apply run_select. eapply run_lift; [exact Hv|].
  eapply run_bind; [apply insert_audit_run; [|exact Hev]|reflexivity].
  unfold verdict_spec in Hspec. apply authenticate_audit_safe; unfold dec.
  - rw !elem_of_cons. destruct v.2; auto.
  - destruct v as [[] []]; naive_solver.
  - destruct v as [[] []]; naive_solver.
Qed.

(** C12: certificate authentication is exact. On a well-formed database with a live
connection, presenting a certificate's endpoint and public key returns an
identity exactly when that key belongs to an identity of that endpoint that is
issued or active (not pending, not revoked), and it is that identity; every
other presentation raises [AuthorizationError]; both are audited and neither
changes anything else. *)
Theorem certificate_authentication w eid fp t corr :
  db_wf (dbof w) → healthy w → event_fresh (rng w 0) (dbof w) → representable t →
  text_ok fp = true →
  ∃ w' r, authenticate_endpoint_certificate eid fp t corr w = (w', r) ∧
    only_audit (dbof w) (dbof w') ∧ length (t_audit (dbof w')) = S (length (t_audit (dbof w))) ∧
    match r with
    | Ok identity => ∃ k i, certificate_row (dbof w) eid fp k i ∧ identity = identity_of k i ∧
        ir_status i ∈ [ISSUED; ACTIVE]
    | Raise e => e = AuthorizationError (py "endpoint certificate is unauthorized") ∧
        ∀ k i, certificate_row (dbof w) eid fp k i → ir_status i ∉ [ISSUED; ACTIVE]
    end.
Proof.
  intros Hwf Hh Hev Hrep Htext.
  destruct (authenticate_outcome w eid fp t corr Hwf Hh Hev Hrep Htext) as (w' & r & Hrun & H & _).
  by exists w', r.
Qed.

Lemma certificate_authentication_witness :
  ∃ w' identity, authenticate_endpoint_certificate (uid 1004) PgSample.fp (PgSample.at_ 10) (uid 3)
    PgSample.w4 = (w', Ok identity).
Proof.
  destruct (certificate_authentication PgSample.w4 (uid 1004) PgSample.fp (PgSample.at_ 10) (uid 3))
    as (w' & r & Hrun & _).
  - apply (pg_run_wf _ _ PgSample.pg_run4), db_wf_empty.
  - split; vm_compute; reflexivity.
  - apply event_fresh_check. vm_compute. reflexivity.
  - split; vm_compute; reflexivity.
  - vm_compute. reflexivity.
  - destruct (run_Ok (authenticate_endpoint_certificate (uid 1004) PgSample.fp (PgSample.at_ 10)
      (uid 3)) PgSample.w4) as (w2 & i & Hi); [eexists; vm_compute; reflexivity|].
    exists w', i. rw Hrun. f_equal. rw Hrun in Hi. by injection Hi.
Defined.

(** ** Shutdown *)
Definition down (w : world Pg) : Prop := pg_shutting_down (store w) = true.

Lemma connect_down {A} (body : PG A) w :
  down w → _connect body w = (w, Raise (verr "database control plane is shutting down")).
Proof. intros Hd. unfold _connect. by rw Hd. Qed.

(** A computation that leaves a process that is shutting down as it is, but for
its random source. *)
Definition inert {A} (m : PG A) : Prop :=
  ∀ w, down w → down (m w).1 ∧ dbof (m w).1 = dbof w.

Lemma inert_connect {A} (body : PG A) : inert (_connect body).
Proof. intros w Hd. by rw connect_down. Qed.
Lemma inert_lift {A} (r : result A) : inert (lift r).
Proof. by intros w Hd. Qed.
Lemma inert_ret {A} (a : A) : inert (mret a).
Proof. by intros w Hd. Qed.
Lemma inert_raise {A} e : inert (raise e : PG A).
Proof. by intros w Hd. Qed.
Lemma inert_uuid4 : inert uuid4.
Proof. by intros w Hd. Qed.
Lemma inert_token : inert token_urlsafe_32.
Proof. by intros w Hd. Qed.
Lemma inert_bind {A B} (m : PG A) (k : A → PG B) : inert m → (∀ a, inert (k a)) → inert (m ≫= k).
Proof.
  intros Hm Hk w Hd. unfold mbind, M_bind. destruct (Hm w Hd) as [H1 H2].
  destruct (m w) as [w1 [a|e]]; simpl in *; [|done]. destruct (Hk a w1 H1). split; [done|congruence].
Qed.
Lemma inert_except {A} (m h : PG A) : inert m → inert h → inert (except_unique m h).
Proof.
  intros Hm Hh w Hd. unfold except_unique. destruct (Hm w Hd) as [H1 H2].
  destruct (m w) as [w1 [a|e]]; simpl in *; [done|]. destruct e; simpl; try done.
  destruct (Hh w1 H1). split; [done|congruence].
Qed.
Lemma inert_connect_except {L A} (p1 : PG L) (p2 : L → PG A) h :
  (∀ l, inert (h l)) → inert (_connect_except p1 p2 h).
Proof. intros Hh w Hd. unfold _connect_except. by rw connect_down. Qed.

Create HintDb inert.
#[export] Hint Resolve inert_connect inert_lift inert_ret inert_raise inert_uuid4 inert_token
  inert_bind inert_except inert_connect_except : inert.

Ltac inert :=
  repeat (first [apply inert_bind; [|intros]
                | apply inert_except
                | apply inert_connect_except; intros
                | solve [eauto with inert]
                | match goal with |- inert (match ?x with _ => _ end) => destruct x end]).

Lemma exec_inert call : inert (pg_exec call).
Proof.
  destruct call; simpl.
  - unfold enroll_synthetic_endpoint, _record_audit. inert.
  - unfold create_enrollment_grant. inert.
  - unfold consume_enrollment_grant, _consume_enrollment_grant, _record_audit. inert.
  - unfold begin_endpoint_enrollment, _consume_enrollment_grant, _record_audit. inert.
  - unfold record_issued_endpoint_identity, _record_audit. inert.
  - unfold Persistence.ingest_heartbeat, _ingest, _record_rejection, _record_audit. inert.
  - unfold Persistence.ingest_inventory, _ingest, _record_rejection, _record_audit. inert.
  - unfold authenticate_endpoint_certificate. inert.
  - unfold Persistence.revoke_identity. inert.
  - unfold Persistence.record_operator_access, _record_audit. inert.
  - unfold Persistence.endpoint_status, Persistence.get_endpoint, Persistence.get_identity. inert.
  - by intros w Hd.
Qed.

(** After [begin_shutdown] the database is never touched again: whatever calls
follow, the process stays shut down and every table, the audit trail included,
keeps its content. *)
Theorem shutdown_is_final w w' :
  rtc pg_step (begin_shutdown w).1 w' → down w' ∧ dbof w' = dbof w.
Proof.
  assert (∀ v, rtc pg_step v w' → down v → down w' ∧ dbof w' = dbof v) as H.
  { induction 1 as [|v v1 v2 [call ->] _ IH]; intros Hd; [done|].
    destruct (exec_inert call v Hd) as [H1 H2]. destruct (IH H1). split; [done|congruence]. }
  intros Hr. by apply (H _ Hr).
Qed.

Lemma shutdown_is_final_witness :
  dbof (pg_exec PgSample.revoke (begin_shutdown PgSample.w4).1).1 = dbof PgSample.w4.
Proof.
  apply (shutdown_is_final PgSample.w4).
  exact (rtc_once _ _ (PgSample.step (begin_shutdown PgSample.w4).1 PgSample.revoke)).
Defined.
