(* ===== verification/AgentExchange.v ===== *)
(** * Agent messages end to end

[PostgresControlPlane] implements the protocol of the agent API, so that what
the handler acknowledges is what the database holds; and an authorized message
of an enrolled endpoint is acknowledged. *)
From stdpp Require Import prelude strings gmap sorting pretty ssreflect.
From S2P Require Import Prelude Uuid PyTime Sha256 Json Text JsonLoads UuidText Domain Codec CodecTheorems AgentApi.
From S2P Require Import ControlPlane Database Persistence PersistenceProofs PersistenceInvariant PersistenceRefinement PersistenceTheorems PersistenceBehaviour PersistenceCalls.

Set Warnings "-clear-no-such-hyp".

#[export] Instance pg_message_store : AgentMessageStore (world Pg) := {
  st_authenticate_endpoint_certificate := authenticate_endpoint_certificate;
  st_ingest_heartbeat := Persistence.ingest_heartbeat;
  st_ingest_inventory := Persistence.ingest_inventory;
}.

(** ** The fates of later transactions *)
Definition no_lost_reply (w : world Pg) : Prop := ∀ n, pg_fates (store w) n ≠ ReplyLost.

(** Statements do not touch the fates. *)
Definition keeps_fates {A} (m : PG A) : Prop := ∀ w, pg_fates (store (m w).1) = pg_fates (store w).

Lemma keeps_bind {A B} (m : PG A) (k : A → PG B) :
  keeps_fates m → (∀ a, keeps_fates (k a)) → keeps_fates (m ≫= k).
Proof.
  intros Hm Hk w. unfold mbind, M_bind. specialize (Hm w).
  destruct (m w) as [w1 [a|e]]; [|done]. cbn in Hm. by rw Hk.
Qed.
Lemma keeps_lift {A} (r : result A) : keeps_fates (lift r).
Proof. done. Qed.
Lemma keeps_select {A} (f : Db → A) : keeps_fates (select f).
Proof. done. Qed.
Lemma keeps_audit t at_ aid sub act dec reason corr md :
  keeps_fates (_insert_audit t at_ aid sub act dec reason corr md).
Proof.
  apply keeps_bind; [done|]. intros u w. unfold statement, execute.
  by destruct (insert_audit_event _ _).
Qed.

Lemma connect_settled {A} (body : PG A) w :
  keeps_fates body → no_lost_reply w → no_lost_reply (_connect body w).1.
Proof.
  intros Hk Hs. unfold _connect. destruct (pg_shutting_down _); [done|].
  assert (Hn : ∀ n, pg_fates (store (body (World (next_fate (store w)) (rng w))).1) n ≠ ReplyLost).
  { intros n. rw Hk. apply Hs. }
  assert (Hd : ∀ d w2, (∀ n, pg_fates (store w2) n ≠ ReplyLost) → no_lost_reply (rollback d w2)) by done.
  destruct (pg_fates (store w) 0); try (by intros n; apply Hs);
    destruct (body _) as [w2 [a|e]]; cbn in Hn |- *; try (by apply Hd);
    (destruct (deferred_constraints _); [|by apply Hd]); try done; by apply Hd.
Qed.

(** ** Authentication *)
Definition certificate_live (w : world Pg) (eid : uuid) (fp : pystr) (k : uuid) : Prop :=
  ∃ i, certificate_row (dbof w) eid fp k i ∧ ir_status i ∈ [ISSUED; ACTIVE] ∧ ir_revoked_at i = None.

Lemma certificate_verdict_live d eid fp identity :
  certificate_verdict (certificate_lookup eid fp d) = Ok (Some identity, None) →
  ∃ i, certificate_row d eid fp (ei_identity_id identity) i ∧ ir_status i ∈ [ISSUED; ACTIVE] ∧
    ir_revoked_at i = None.
Proof.
  unfold certificate_lookup. destruct (find_row _ _) as [[k i]|] eqn:Hf; [|done].
  apply find_row_Some in Hf as [Hk Hp]. checks_in Hp. destruct Hp as [He Hp].
  cbn [mbind option_bind snd].
  destruct (t_endpoints d !! ir_endpoint_id i) as [e|]; [|done]. cbn [mbind option_bind certificate_verdict].
  destruct (_identity_from_row k i) as [id|] eqn:Hid; [|done]. cbn [mbind result_bind].
  apply identity_from_row_Ok in Hid as ->. cbn [ei_revoked_at]. intros Hv.
  case_bool_decide as Hrev; [done|]. destruct (_ || _) eqn:Hb; [done|]. checks_in Hb.
  injection Hv as <-. exists i. split; [by split|]. split; [apply Hb|].
  destruct (ir_revoked_at i); [|done]. destruct Hrev. by eexists.
Qed.

(** The transaction of an authentication. *)
Definition authenticate_body (eid : uuid) (fp : pystr) (server_time : datetime) (corr : uuid)
    : PG (option EndpointIdentity * option pystr) :=
  lift (pg_texts [fp]);;
  row ← select (certificate_lookup eid fp);
  verdict ← lift (certificate_verdict row);
  _insert_audit server_time (py "endpoint_certificate") (uuid_str eid)
    (py "endpoint:" ++ uuid_str eid) (py "certificate.authenticate")
    (py match verdict.2 with Some _ => "rejected" | None => "accepted" end)
    (default (py "verified certificate key is current") verdict.2) corr [];;
  mret verdict.

Lemma keeps_authenticate eid fp t corr : keeps_fates (authenticate_body eid fp t corr).
Proof.
  unfold authenticate_body. apply keeps_bind; [done|]. intros _. apply keeps_bind; [done|]. intros row.
  apply keeps_bind; [done|]. intros v. apply keeps_bind; [apply keeps_audit|]. done.
Qed.

Lemma okp_authenticate eid fp t corr w :
  okp (_connect (authenticate_body eid fp t corr)) (λ w' v, only_audit (dbof w) (dbof w') ∧
    ∀ i, v = (Some i, None) → certificate_live w eid fp (ei_identity_id i)) w.
Proof.
  apply okp_connect. intros w1 Hw1. unfold authenticate_body.
  apply okp_bind, okp_lift. intros _ _. apply okp_bind, okp_select. apply okp_bind, okp_lift.
  intros v Hv. apply okp_bind, okp_audit. intros w2 Ha. apply okp_ret. split; [by rw -Hw1|].
  intros i ->. rw Hw1 in Hv. by apply certificate_verdict_live in Hv.
Qed.

Lemma authenticate_laws w w' r eid fp t corr :
  authenticate_endpoint_certificate eid fp t corr w = (w', r) →
  (no_lost_reply w → only_audit (dbof w) (dbof w') ∧ no_lost_reply w') ∧
  (∀ i, r = Ok i → only_audit (dbof w) (dbof w') ∧ certificate_live w eid fp (ei_identity_id i)).
Proof.
  unfold authenticate_endpoint_certificate, mbind at 1 2 3, M_bind at 1 2 3, lift at 1 2.
  destruct (require_aware _ _); [|by intros [= <- <-]].
  destruct (astimezone_utc t) as [now|]; [|by intros [= <- <-]].
  change (_connect _ w) with (_connect (authenticate_body eid fp now corr) w).
  pose proof (okp_authenticate eid fp now corr w) as Hok.
  pose proof (connect_settled (authenticate_body eid fp now corr) w (keeps_authenticate _ _ _ _)) as Hset.
  destruct (_connect (authenticate_body eid fp now corr) w) as [w1 [v|e]] eqn:Hc; cbn in Hset.
  - destruct (Hok w1 v Hc) as [Ha Hlive].
    assert (Hw' : ∀ r', match v with (Some identity, None) => mret identity
                        | _ => raise (AuthorizationError (py "endpoint certificate is unauthorized")) end w1
                        = (w', r') → w' = w1 ∧ ∀ i, r' = Ok i → v = (Some i, None)).
    { intros r'. destruct v as [[i|] [s|]]; intros [= <- <-]; naive_solver. }
    intros [-> Hv]%Hw'. split; [auto|]. intros i Hi. split; [done|]. by apply Hlive, Hv.
  - intros [= <- <-]. split; [|done]. intros Hs. split; [|by apply Hset].
    rw (connect_Raise _ _ _ _ Hc (Hs 0)). done.
Qed.

(** ** Ingestion *)
Definition message_stored (w : world Pg) (env : MessageEnvelope) (digest : pystr) (aid : uuid) : Prop :=
  ∃ r, r ∈ t_observations (dbof w) ∧ or_message_id r = me_message_id env ∧
    or_endpoint_id r = me_endpoint_id env ∧ or_identity_id r = aid ∧
    or_encoded_message_digest r = Some digest.

Lemma only_audit_observations d d' : only_audit d d' → t_observations d' = t_observations d.
Proof. intros [Hf _]. by apply facts_fields in Hf as (_ & _ & _ & ? & _). Qed.

Lemma update_identity_observations k p f d d' b :
  update_identity k p f d = Ok (d', b) → t_observations d' = t_observations d.
Proof. by intros [(_ & -> & _)|(_ & r & _ & _ & _ & _ & ->)]%update_identity_Ok. Qed.

Lemma okp_accept_stored aid identity env ty schema digest received enc w :
  okp (ingest_accept aid identity env ty schema digest received enc)
    (λ w' _, ∃ r, r ∈ t_observations (dbof w') ∧ or_message_id r = me_message_id env ∧
       or_endpoint_id r = ei_endpoint_id identity ∧ or_identity_id r = aid ∧
       or_encoded_message_digest r = enc) w.
Proof.
  unfold ingest_accept. apply okp_bind, okp_uuid4. intros w1 oid Hw1.
  apply okp_bind, okp_lift. intros obs Hobs.
  apply okp_bind, okp_statement. intros w2 d2 (_ & _ & ->)%insert_observation_Ok Hw2.
  set (o := mkObservationRow _ _ _ _ _ _ _ _ _ _ _ _) in *.
  apply okp_bind, okp_statement. intros w3 d3 [= <-] Hw3.
  assert (Ho : o ∈ t_observations (dbof w3)).
  { rw Hw3. unfold update_endpoint. rw Hw2. destruct (t_endpoints _ !! _); cbn;
      apply elem_of_app; right; apply list_elem_of_here. }
  apply okp_bind. eapply (okp_mono _ (λ w' _, o ∈ t_observations (dbof w'))); last first.
  { intros w4 [] H4. apply okp_bind, okp_audit. intros w5 H5. apply okp_ret. exists o.
    by rw (only_audit_observations _ _ H5). }
  case_bool_decide; [|by apply okp_ret].
  apply okp_bind, okp_execute. intros w4 d4 b Hup%update_identity_observations Hw4.
  assert (H4 : o ∈ t_observations (dbof w4)) by (by rw Hw4 Hup).
  destruct b; [|by apply okp_ret]. apply okp_audit. intros w5 H5.
  by rw (only_audit_observations _ _ H5).
Qed.

Lemma okp_transaction_stored aid env ty schema digest received binding enc w :
  okp (ingest_transaction aid env ty schema digest received binding (Some enc))
    (λ w' r, match r with inl _ => True | inr _ => message_stored w' env enc aid end) w.
Proof.
  unfold ingest_transaction.
  assert (∀ f w1, okp (_insert_rejection aid (me_endpoint_id env)
    (ty ++ py ".ingest") f.2 (me_correlation_id env) received;; mret (inl f : Failure + Observation))
    (λ w' r, match r with inl _ => True | inr _ => message_stored w' env enc aid end) w1) as Hrefuse.
  { intros f w1. unfold _insert_rejection. apply okp_bind, okp_audit. intros w2 _. by apply okp_ret. }
  apply okp_bind, okp_select. destruct (join_identity aid _) as [[i e]|]; [|by apply Hrefuse].
  apply okp_bind, okp_lift. intros identity ->%identity_from_row_Ok. rw -/(identity_of aid i).
  destruct (ingest_identity_checks _ _ _ _ _ _) as [f|] eqn:Hchk; [by apply Hrefuse|].
  apply ingest_identity_checks_None in Hchk as (_ & _ & _ & _ & Hep).
  apply okp_bind, okp_select. destruct (find _ _) as [r|] eqn:Hf.
  { destruct (exact_retry _ _ _ _) eqn:Hr; [|by apply Hrefuse].
    apply okp_bind, okp_lift. intros obs _. apply okp_bind, okp_audit. intros w2 Ha. apply okp_ret.
    apply find_some in Hf as [Hin Hid]. unfold exact_retry in Hr. checks_in Hr. checks_in Hid.
    exists r. rw (only_audit_observations _ _ Ha). split; [by apply list_elem_of_In|].
    destruct Hr as [[[_ Hd] Hi] He]. done. }
  apply okp_bind, okp_lift. intros [f|] _; [by apply Hrefuse|].
  apply okp_bind, okp_execute. intros w2 d2 [] _ Hw2; [|by apply Hrefuse].
  apply okp_bind. eapply okp_mono; [apply okp_accept_stored|].
  intros w3 obs (r & Hin & Hm & He & Ha & Hd). apply okp_ret. exists r. by rw Hep.
Qed.

Lemma ingest_laws aid env ty schema digest received binding enc w w' r :
  _ingest aid env ty schema digest received binding (Some enc) w = (w', r) →
  match r with
  | Ok _ => message_stored w' env enc aid
  | Raise _ => no_lost_reply w → only_audit (dbof w) (dbof w')
  end.
Proof.
  intros H. destruct r as [obs|e]; [|by intros Hs; eapply ingest_raise_audit; [exact H|apply Hs]].
  revert H. unfold _ingest, mbind, M_bind, lift.
  destruct (require_aware _ _); [|done]. destruct (astimezone_utc received) as [rcv|]; [|done].
  unfold except_unique.
  destruct (_connect _ w) as [w1 [[[ty' reason]|o]|e1]] eqn:Hc; [done| |].
  - intros [= <- <-]. apply connect_Ok in Hc as [Hc _]. by apply okp_transaction_stored in Hc.
  - destruct e1; try done. unfold mbind, M_bind, raise. by destruct (_record_rejection _ _ _ _ _ _ w1) as [? [|]].
Qed.

Definition facts_kept (w w' : world Pg) : Prop := only_audit (dbof w) (dbof w').

Lemma facts_kept_preorder : PreOrder facts_kept.
Proof. split; [by intros w; unfold facts_kept|]. intros w1 w2 w3. unfold facts_kept. by intros; etrans. Qed.

#[export] Instance pg_store_laws : AgentStoreLaws (world Pg) := {|
  settled := no_lost_reply;
  unchanged := facts_kept;
  holds := message_stored;
  authenticated := certificate_live;
  unchanged_preorder := facts_kept_preorder;
  authenticate_spec := authenticate_laws;
  heartbeat_spec w w' r aid m t digest := ingest_laws aid _ _ _ _ t None digest w w' r;
  inventory_spec w w' r aid m t digest := ingest_laws aid _ _ _ _ t _ digest w w' r;
|}.

(** What the agent API acknowledges is stored. Whatever the request, the peer
and the state of the database: a response with status 200 is given only when the
body decodes to a message, the peer's endpoint and key belong to an issued or
active identity that is not revoked, and the database then holds an observation
of that message, that endpoint and that identity with the SHA-256 of the very
bytes received; every other response, and every exception, leaves all tables but
the audit trail as they were, provided no reply of the database was lost. *)
Theorem agent_acknowledgement_durable printable fromisoformat depth request peer received w w' r :
  AgentApi.handle printable fromisoformat depth request peer received w = (w', r) →
  match r with
  | Ok response =>
    (resp_status response = 200%Z ∧ ∃ m aid,
       decode_message printable fromisoformat depth (rq_body request) = Ok m ∧
       certificate_live w (vc_endpoint_id peer) (vc_public_key_fingerprint peer) aid ∧
       message_stored w' (envelope_of m) (Sha256.hexdigest (rq_body request)) aid ∧
       resp_body response = json_dumps false
         (JObj [(py "message_id", JStr (uuid_str (me_message_id (envelope_of m))));
                (py "accepted", JBool true)])) ∨
    (resp_status response ∈ [400; 403; 404; 405; 409; 413; 415]%Z ∧
       (no_lost_reply w → only_audit (dbof w) (dbof w')))
  | Raise _ => no_lost_reply w → only_audit (dbof w) (dbof w')
  end.
Proof. intros Hh. exact (handle_ok printable fromisoformat depth request peer received w w' r Hh). Qed.

(** ** Authorized messages are acknowledged *)

(** A request in the shape the handler accepts. *)
Definition well_formed_request (request : AgentMessageRequest) : Prop :=
  rq_path request = AGENT_MESSAGE_PATH ∧ rq_method request = py "POST" ∧
  (∃ t, rq_content_type request = Some t ∧ ascii_lower t = py "application/json") ∧
  rq_content_encoding request = None ∧
  (Z.of_nat (length (rq_body request)) ≤ MAX_ENCODED_MESSAGE_BYTES)%Z.

Lemma handle_process {W} `{AgentMessageStore W} printable fromisoformat depth request peer received :
  well_formed_request request →
  AgentApi.handle (W := W) printable fromisoformat depth request peer received
  = except_domain (process printable fromisoformat depth request peer received).
Proof.
  intros (Hp & Hm & (t & Ht & Hl) & He & Hb). unfold handle.
  rw !(bool_decide_eq_false_2 (_ ≠ _)); [|by intros []..].
  by rw Ht Hl bool_decide_eq_true_2 // (proj2 (Z.ltb_ge _ _) Hb).
Qed.

(** The random draws of an exchange: one for the authentication's audit row, then
those of the ingestion. *)
Record exchange_draws (w : world Pg) : Prop := {
  xd_event0 : event_fresh (rng w 0) (dbof w);
  xd_observation : ∀ o, o ∈ t_observations (dbof w) → or_observation_id o ≠ rng w 1;
  xd_event1 : event_fresh (rng w 2) (dbof w);
  xd_event2 : event_fresh (rng w 3) (dbof w);
  xd_distinct : rng w 0 ≠ rng w 2 ∧ rng w 0 ≠ rng w 3 ∧ rng w 2 ≠ rng w 3;
}.

(** The message as its kind, schema version, digest and binding. *)
Definition message_facts (m : Message) : pystr * Z * pystr * option (Platform * pystr) :=
  match m with
  | Heartbeat m => (py "heartbeat", 1%Z, HeartbeatPayload_digest (hm_payload m), None)
  | Inventory m => (py "inventory", ip_schema_version (im_payload m),
      InventoryPayload_digest (im_payload m),
      Some (ip_platform (im_payload m), ip_architecture (im_payload m)))
  end.

Lemma message_ok_facts d d' aid i e env ty received binding :
  only_audit d d' → PersistenceBehaviour.message_ok d aid i e env ty received binding →
  PersistenceBehaviour.message_ok d' aid i e env ty received binding.
Proof.
  intros [Hf _]. apply facts_fields in Hf as (He & Hi & Hs & Ho & _).
  intros []. split; rw ?He ?Hi ?Hs ?Ho; done.
Qed.

Lemma text_ok_fingerprint fp : fullmatch_fingerprint fp = true → text_ok fp = true.
Proof. apply fullmatch_fingerprint_text. Qed.

#[export] Instance accepted_db_proper iid ir er o :
  Proper (only_audit ==> only_audit) (accepted_db iid ir er o).
Proof.
  intros d d' [Hf Ha]. apply facts_fields in Hf as (He & Hi & Hs & Ho & Hg).
  split; [|exact Ha]. apply facts_fields. unfold accepted_db. cbn. by rw He Hi Hs Ho Hg.
Qed.

(** The ingestion of a decoded message. *)
Lemma ingest_message_run m w aid received i e raw :
  let '(ty, schema, digest, binding) := message_facts m in
  db_wf (dbof w) → healthy w → draws_ok w → representable received →
  dt_in_range (instant received + MAX_CLOCK_SKEW) = true → message_valid m →
  PersistenceBehaviour.message_ok (dbof w) aid i e (envelope_of m) ty (instant received) binding →
  ∃ w' o, match m with
    | Heartbeat m => Persistence.ingest_heartbeat aid m received (Some (Sha256.hexdigest raw))
    | Inventory m => Persistence.ingest_inventory aid m received (Some (Sha256.hexdigest raw))
    end w = (w', Ok o) ∧
    only_audit (accepted_db aid i e
      (mkObservationRow (rng w 0) (ir_endpoint_id i) aid (me_message_id (envelope_of m)) ty schema
         (instant (me_created_at (envelope_of m))) (instant received) (me_boot_id (envelope_of m))
         (me_sequence (envelope_of m)) digest (Some (Sha256.hexdigest raw))) (dbof w)) (dbof w').
Proof.
  destruct m as [m|m]; cbn [message_facts envelope_of];
    intros Hwf Hh Hdr Hrep Hrange [Henv Hp] Hok;
    apply envelope_ok_spec in Henv as (Hsrc & _ & _ & [_ Hmax] & _);
    edestruct (ingest_run w aid) as (w' & Hrun & Ha);
    [exact Hwf|exact Hh|exact Hdr|exact Hrep|exact Hrange| | | | |exact Hsrc|exact Hmax|exact Hok|
     |exact Hwf|exact Hh|exact Hdr|exact Hrep|exact Hrange| | | | |exact Hsrc|exact Hmax|exact Hok|].
  all: try (apply canonical_digest_shape).
  all: try (by rw !elem_of_cons; auto).
  all: try (by exists w'; eexists).
  all: try (intros s [= <-]; apply fullmatch_hexdigest).
  - lia.
  - unfold InventoryPayload_post_init in Hp. checks_in Hp. destruct Hp as [-> _]. lia.
Qed.

(** C13: an authorized message of an enrolled endpoint is acknowledged. On a
well-formed database with live connections, a well-formed request whose body
decodes to a heartbeat or inventory, sent with the certificate key of an issued
or active identity of the message's endpoint and within the message's lifetime
and sequence, is answered 200 with the message's ID, and exactly the acceptance
is stored: the observation with the digest of the received bytes, the sequence,
the receipt columns, and the activation of an identity that was only issued. *)
Theorem agent_message_acknowledged printable fromisoformat depth request peer received w m aid i e :
  db_wf (dbof w) → pg_shutting_down (store w) = false →
  pg_fates (store w) 0 = Commits → pg_fates (store w) 1 = Commits → exchange_draws w →
  representable received → dt_in_range (instant received + MAX_CLOCK_SKEW) = true →
  well_formed_request request →
  decode_message printable fromisoformat depth (rq_body request) = Ok m →
  certificate_row (dbof w) (vc_endpoint_id peer) (vc_public_key_fingerprint peer) aid i →
  let '(ty, schema, digest, binding) := message_facts m in
  PersistenceBehaviour.message_ok (dbof w) aid i e (envelope_of m) ty (instant received) binding →
  ∃ w', AgentApi.handle printable fromisoformat depth request peer received w =
      (w', Ok (_json_response 200
         (JObj [(py "message_id", JStr (uuid_str (me_message_id (envelope_of m))));
                (py "accepted", JBool true)]))) ∧
    only_audit (accepted_db aid i e
      (mkObservationRow (rng w 1) (ir_endpoint_id i) aid (me_message_id (envelope_of m)) ty schema
         (instant (me_created_at (envelope_of m))) (instant received) (me_boot_id (envelope_of m))
         (me_sequence (envelope_of m)) digest (Some (Sha256.hexdigest (rq_body request))))
      (dbof w)) (dbof w').
Proof.
  intros Hwf Hup Hf0 Hf1 Hdr Hrep Hrange Hreq Hdec Hcert.
  pose proof (decode_message_valid _ _ _ _ _ Hdec) as Hval.
  destruct (authenticate_outcome w (vc_endpoint_id peer) (vc_public_key_fingerprint peer) received
    (me_correlation_id (envelope_of m)) Hwf (conj Hup Hf0) (xd_event0 w Hdr) Hrep)
    as (w1 & r & Hauth & (Ha & _ & Hr) & Hup1 & Hfates & Hrng & Hfresh).
  { destruct Hcert as (Hi & _ & <-). apply text_ok_fingerprint, identity_checks_key.
    by destruct (dw_identity _ Hwf _ _ Hi). }
  destruct (message_facts m) as [[[ty schema] digest] binding] eqn:Hm. intros Hok.
  destruct r as [identity|err]; last first.
  { destruct Hr as [_ Hno]. destruct (Hno aid i Hcert). apply Hok. }
  destruct Hr as (k & i' & Hcert' & -> & _).
  assert (k = aid) as ->.
  { destruct Hcert as (Hi & _ & Hfp), Hcert' as (Hi' & _ & Hfp').
    destruct (decide (k = aid)) as [|Hne]; [done|]. exfalso.
    destruct (dw_identity _ Hwf aid i Hi) as (_ & Hfree & _). apply (Hfree k i' Hi' Hne). congruence. }
  pose proof (ingest_message_run m w1 aid received i e (rq_body request)) as Hrun.
  rw Hm in Hrun. destruct Hrun as (w' & o & Hrun & Hacc).
  - eapply db_wf_facts; [apply Ha|done].
  - split; [by rw Hup1|by rw Hfates].
  - destruct Hdr as [_ Ho He1 He2 (Hd1 & Hd2 & Hd3)]. split; rw ?Hrng; auto.
    intros o Hin. apply Ho. by rw -(only_audit_observations _ _ Ha).
  - done.
  - done.
  - done.
  - by eapply message_ok_facts.
  - exists w'. rw handle_process //. unfold except_domain, process, mbind, M_bind, lift. rw Hdec.
    cbv zeta. cbn [st_authenticate_endpoint_certificate pg_message_store]. rw Hauth.
    split; [|etrans; [by apply accepted_db_proper, Ha|by rw -Hrng]].
    change (ei_identity_id (identity_of aid i')) with aid.
    destruct m as [m|m]; cbn [st_ingest_heartbeat st_ingest_inventory pg_message_store]; by rw Hrun.
Qed.

(** ** A sample: the enrolled agent of [PgSample] sends its second heartbeat *)
Module AgentSample.

Definition beat : Message := Heartbeat (PgSample.message 501 2 12).
Definition read_time (s : pystr) : option datetime :=
  if bool_decide (s = isoformat (PgSample.at_ 12)) then Some (PgSample.at_ 12)
  else if bool_decide (s = isoformat (PgSample.at_ 72)) then Some (PgSample.at_ 72)
  else None.
Definition request : AgentMessageRequest :=
  mkAgentMessageRequest (py "POST") (py "/v1/agent/messages") (Some (py "Application/JSON")) None
    (encode_message beat).
Definition peer : VerifiedClientCertificate := mkVerifiedClientCertificate (uid 1004) PgSample.fp.

Abbreviation send := (AgentApi.handle (λ _, true) read_time 900 request peer (PgSample.at_ 13)).

Lemma sent : match (send PgSample.w4).2 with Ok r => resp_status r = 200%Z | Raise _ => False end.
Proof. vm_compute. reflexivity. Qed.

Lemma decodes : decode_message (λ _, true) read_time 900 (rq_body request) = Ok beat.
Proof. vm_compute. reflexivity. Qed.

End AgentSample.

Lemma agent_acknowledgement_durable_witness :
  ∃ w' response aid, AgentSample.send PgSample.w4 = (w', Ok response) ∧
    resp_status response = 200%Z ∧
    message_stored w' (envelope_of AgentSample.beat)
      (Sha256.hexdigest (rq_body AgentSample.request)) aid.
Proof.
  pose proof AgentSample.sent as Hst.
  destruct (AgentSample.send PgSample.w4) as [w' r] eqn:Hrun.
  pose proof (agent_acknowledgement_durable (λ _, true) AgentSample.read_time 900 AgentSample.request
    AgentSample.peer (PgSample.at_ 13) PgSample.w4 w' r Hrun) as Hd.
  destruct r as [response|err]; cbv beta iota delta [snd] in Hst; [|destruct Hst].
  destruct Hd as [(_ & m & aid & Hd & _ & Hs & _)|[Hno _]].
  - rw AgentSample.decodes in Hd. injection Hd as <-. exists w', response, aid.
    split; [reflexivity|split; [exact Hst|exact Hs]].
  - exfalso. rw Hst in Hno. revert Hno. apply (bool_decide_unpack (_ ∉ _)). vm_compute. exact I.
Defined.

Lemma agent_message_acknowledged_witness :
  ∃ w' response, AgentSample.send PgSample.w4 = (w', Ok response) ∧ resp_status response = 200%Z.
Proof.
  assert (∃ i e, t_identities (dbof PgSample.w4) !! uid 1005 = Some i ∧
    t_endpoints (dbof PgSample.w4) !! ir_endpoint_id i = Some e ∧ ir_revoked_at i = None ∧
    ir_status i = ACTIVE ∧ uid 1004 = ir_endpoint_id i ∧ ir_fingerprint i = PgSample.fp)
    as (i & e & H1 & H2 & H3 & H4 & H5 & H6).
  { do 2 eexists. do 5 (split; [vm_compute; reflexivity|]). vm_compute. reflexivity. }
  destruct (agent_message_acknowledged (λ _, true) AgentSample.read_time 900 AgentSample.request
    AgentSample.peer (PgSample.at_ 13) PgSample.w4 AgentSample.beat (uid 1005) i e) as (w' & Hrun & _).
  - apply (pg_run_wf _ _ PgSample.pg_run4), db_wf_empty.
  - vm_compute. reflexivity.
  - vm_compute. reflexivity.
  - vm_compute. reflexivity.
  - split; try (apply event_fresh_check; vm_compute; reflexivity); [|vm_compute; split_and!; congruence].
    vm_compute. intros o Ho. apply list_elem_of_singleton in Ho. subst o. congruence.
  - split; vm_compute; reflexivity.
  - vm_compute. reflexivity.
  - repeat split; try (vm_compute; reflexivity); [|vm_compute; discriminate].
    eexists. split; vm_compute; reflexivity.
  - exact AgentSample.decodes.
  - split; [exact H1|]. split; [symmetry; exact H5|exact H6].
  - split; [exact H1|exact H2|exact H3| | |exact H5| | | | |].
    + rw H4. apply list_elem_of_further, list_elem_of_here.
    + rw H4. congruence.
    + vm_compute. intros o Ho. apply list_elem_of_singleton in Ho. subst o. congruence.
    + vm_compute. congruence.
    + vm_compute. reflexivity.
    + congruence.
    + vm_compute. reflexivity.
  - exists w'. eexists. split; [exact Hrun|reflexivity].
Defined.
