(* ===== verification/EnrollmentExchange.v ===== *)
(** * Enrollment end to end

[PostgresControlPlane] implements the protocol of the enrollment service: what
the service discloses is recorded in the database first, and a live grant with
an honest issuer is answered by a credential. *)
From stdpp Require Import prelude strings gmap sorting pretty ssreflect.
From S2P Require Import Prelude Uuid PyTime Sha256 Json Text Base64 JsonLoads JsonProofs UuidText Domain Codec CodecTheorems AgentApi Certificates Enrollment.
From S2P Require Import ControlPlane Database Persistence PersistenceProofs PersistenceInvariant PersistenceRefinement PersistenceTheorems PersistenceBehaviour PersistenceCalls.

Set Warnings "-clear-no-such-hyp".

#[export] Instance pg_enrollment_store : EnrollmentStore (world Pg) := {
  st_begin_endpoint_enrollment := begin_endpoint_enrollment;
  st_record_issued_endpoint_identity := record_issued_endpoint_identity;
}.

(** ** What the two transactions leave *)
Definition pg_redeemed (d : Db) (token fp : pystr) (e i : uuid) : Prop :=
  fullmatch_token token = true ∧
  ∃ k g t ir er, t_grants d !! k = Some g ∧ gr_token_sha256 g = Sha256.hexdigest token ∧
    gr_consumed g = Some (t, i) ∧ t_identities d !! i = Some ir ∧ ir_endpoint_id ir = e ∧
    ir_fingerprint ir = fp ∧ t_endpoints d !! e = Some er ∧ er_identity_id er = i.

Definition pg_certified (d : Db) (i : uuid) (serial issuer : pystr) (not_before not_after : Z) : Prop :=
  ∃ ir, t_identities d !! i = Some ir ∧ ir_status ir ∈ [ISSUED; ACTIVE] ∧
    ir_certificate ir = Some (serial, issuer, not_before, not_after).

Lemma redeemed_facts d d' token fp e i :
  facts d' = facts d → pg_redeemed d token fp e i → pg_redeemed d' token fp e i.
Proof. intros (He & Hi & _ & _ & Hg)%facts_fields. unfold pg_redeemed. by rw He Hi Hg. Qed.

Lemma certified_facts d d' i serial issuer nb na :
  facts d' = facts d → pg_certified d i serial issuer nb na → pg_certified d' i serial issuer nb na.
Proof. intros (_ & Hi & _)%facts_fields. unfold pg_certified. by rw Hi. Qed.

(** What the first half of the exchange found. *)
Definition found_ok (d : Db) (token fp : pystr) (c : consumption) : Prop :=
  match c with
  | ConsumeFails _ _ => True
  | ConsumeRetry _ endpoint identity =>
    pg_redeemed d token fp (ep_endpoint_id endpoint) (ei_identity_id identity)
  | ConsumeNew g => fullmatch_token token = true ∧
      ∃ r, t_grants d !! eg_grant_id g = Some r ∧ gr_consumed r = None ∧
      _enrollment_grant_from_row (eg_grant_id g) r = Ok g ∧
      gr_token_sha256 r = Sha256.hexdigest token
  end.

Lemma found_retry g fp token k r w :
  fullmatch_token token = true →
  t_grants (dbof w) !! k = Some r → gr_token_sha256 r = Sha256.hexdigest token →
  _enrollment_grant_from_row k r = Ok g →
  okp (consume_retry g fp) (λ w' c, dbof w' = dbof w ∧ found_ok (dbof w) token fp c) w.
Proof.
  intros Htok Hk Hdig Hg. apply grant_from_row_Ok in Hg. unfold consume_retry.
  destruct (eg_consumed_identity_id g) as [i|] eqn:Hc; [|by apply okp_ret].
  apply okp_bind, okp_select. destruct (join_identity i (dbof w)) as [[ir er]|] eqn:Hj; [|by apply okp_ret].
  apply join_identity_Some in Hj as [Hi He].
  destruct (_ && _) eqn:Hb; [|by apply okp_ret].
  rw !andb_true_iff !bool_decide_eq_true in Hb. destruct Hb as [[Her _] Hfp].
  apply okp_bind, okp_lift. intros endpoint Hep. apply okp_bind, okp_lift. intros identity Hid.
  apply okp_ret. split; [done|].
  unfold _endpoint_from_row, new_Endpoint in Hep. apply result_seq_Ok in Hep as [_ [= <-]].
  apply identity_from_row_Ok in Hid as ->. cbn [found_ok ep_endpoint_id ei_identity_id].
  split; [done|]. rw Hg in Hc. cbn in Hc. destruct (gr_consumed r) as [[t i']|] eqn:Hcr; [|done].
  cbn in Hc. injection Hc as ->. exists k, r, t, ir, er. by rw Hcr.
Qed.

Lemma found_lookup token fp t w :
  okp (consume_lookup (if fullmatch_token token then Some (Sha256.hexdigest token) else None) fp t true)
    (λ w' c, dbof w' = dbof w ∧ found_ok (dbof w) token fp c) w.
Proof.
  unfold consume_lookup. destruct (fullmatch_token token) eqn:Htok; [|by apply okp_ret].
  apply okp_bind, okp_select. destruct (find_row _ _) as [[k r]|] eqn:Hf; [|by apply okp_ret].
  apply find_row_Some in Hf as [Hk Hdig%bool_decide_eq_true].
  apply okp_bind, okp_lift. intros g Hg. pose proof (grant_from_row_Ok _ _ _ Hg) as Hgr.
  do 3 (case_match; [by apply okp_ret|]). case_match eqn:Hc.
  - by apply (found_retry g fp token k r).
  - apply okp_ret. split; [done|]. split; [done|]. exists r.
    assert (eg_grant_id g = k) as -> by (by rw Hgr).
    rw Hgr in Hc. cbn [eg_consumed_at] in Hc.
    split; [exact Hk|]. split; [by destruct (gr_consumed r)|]. by split.
Qed.

(** The exchange of an unconsumed grant. *)
Lemma found_create g fp t actor status corr token w :
  found_ok (dbof w) token fp (ConsumeNew g) →
  okp (consume_create g fp t actor status corr)
    (λ w' r, pg_redeemed (dbof w') token fp (ep_endpoint_id r.1) (ei_identity_id r.2)) w.
Proof.
  intros (Htok & r & Hr & Hnone & Hg & Hdig). unfold consume_create.
  apply okp_bind, okp_uuid4. intros w1 eid Hw1. apply okp_bind, okp_uuid4. intros w2 iid Hw2.
  assert (dbof w2 = dbof w) as Hd by congruence.
  apply okp_bind, okp_lift. intros identity Hid. apply okp_bind, okp_lift. intros endpoint Hep.
  unfold new_EndpointIdentity in Hid. apply result_seq_Ok in Hid as [_ [= <-]].
  unfold new_Endpoint in Hep. apply result_seq_Ok in Hep as [_ [= <-]].
  apply okp_bind, okp_statement. intros w3 d3 (_ & _ & ->)%insert_endpoint_Ok Hw3.
  apply okp_bind, okp_statement. intros w4 d4 (_ & _ & _ & ->)%insert_identity_Ok Hw4.
  apply okp_bind, okp_execute. intros w5 d5 b Hup Hw5.
  apply okp_bind, okp_lift. intros u Hb. checks_in Hb. subst b.
  unfold update_grant_consumed in Hup. rw Hw4 Hw3 Hd in Hup. cbn [with_identities with_endpoints t_grants] in Hup.
  rw Hr Hnone in Hup. apply result_seq_Ok in Hup as [_ Hup]. apply result_seq_Ok in Hup as [_ [= Hd5]].
  apply okp_bind, okp_audit. intros w6 Ha6. apply okp_bind, okp_audit. intros w7 Ha7.
  apply okp_ret. assert (only_audit (dbof w5) (dbof w7)) as [Hf _] by by etrans.
  eapply redeemed_facts; [exact Hf|]. rw Hw5 -Hd5. split; [exact Htok|].
  cbn [fst snd ep_endpoint_id ei_identity_id].
  do 5 eexists. split; [by apply lookup_insert_eq|]. split; [exact Hdig|]. split; [reflexivity|].
  split; [by apply lookup_insert_eq|]. split; [reflexivity|]. split; [reflexivity|].
  split; [by apply lookup_insert_eq|]. reflexivity.
Qed.

Lemma begin_redeems token fp now actor w :
  okp (begin_endpoint_enrollment token fp now actor)
    (λ w' r, pg_redeemed (dbof w') token fp (ep_endpoint_id r.1) (ei_identity_id r.2)) w.
Proof.
  unfold begin_endpoint_enrollment, _consume_enrollment_grant.
  do 3 (apply okp_bind, okp_lift; intros ? _). apply okp_bind, okp_uuid4. intros w1 corr Hw1.
  apply okp_bind. intros w2 outcome Hc. destruct outcome as [r|]; [|apply okp_raise].
  apply okp_ret. unfold _connect_except in Hc.
  destruct (_connect _ w1) as [w3 [o|e]] eqn:Hrun; last first.
  { destruct e; try done. apply bind_Ok_inv in Hc as (? & ? & _ & Hc). done. }
  injection Hc as -> ->. revert w2 r Hrun.
  enough (okp (_connect (l ← consume_lookup (if fullmatch_token token then Some (Sha256.hexdigest token)
      else None) fp a0 true; consume_apply l fp a0 actor PENDING corr))
    (λ w' o, ∀ r, o = Some r → pg_redeemed (dbof w') token fp (ep_endpoint_id r.1) (ei_identity_id r.2)) w1)
    as Hok by (intros w2 r Hrun; by apply (Hok w2 (Some r))).
  apply okp_connect. intros w2 Hw2. apply okp_bind. eapply okp_mono; [apply found_lookup|].
  intros w3 c [Hw3 Hfound]. unfold consume_apply. destruct c as [g reason|g ep i|g].
  - apply okp_bind, okp_audit. intros w4 _. by apply okp_ret.
  - apply okp_bind, okp_audit. intros w4 [Hf _]. apply okp_ret. intros r [= <-].
    eapply redeemed_facts; [exact Hf|]. by rw Hw3.
  - apply okp_bind. eapply okp_mono; [apply (found_create g fp _ _ _ _ token); by rw Hw3|].
    intros w4 r Hred. apply okp_ret. by intros r' [= <-].
Qed.

(** The record of an issued certificate. *)
Lemma issue_certifies i serial issuer nb na now actor w :
  okp (record_issued_endpoint_identity i serial issuer nb na now actor)
    (λ w' _, pg_certified (dbof w') i serial issuer (instant nb) (instant na) ∧
       ∀ token fp e, pg_redeemed (dbof w) token fp e i → pg_redeemed (dbof w') token fp e i) w.
Proof.
  unfold record_issued_endpoint_identity. do 4 (apply okp_bind, okp_lift; intros ? _).
  apply okp_bind, okp_lift. intros nb' [_ ->]%astimezone_utc_Ok.
  apply okp_bind, okp_lift. intros na' [_ ->]%astimezone_utc_Ok.
  do 5 (apply okp_bind, okp_lift; intros ? _).
  apply okp_bind, okp_uuid4. intros w1 corr Hw1. rw !instant_utc.
  intros w2 r Hr. unfold except_unique in Hr.
  destruct (_connect _ w1) as [w3 [o|e]] eqn:Hrun; last first.
  { destruct e; try done. apply bind_Ok_inv in Hr as (? & ? & _ & Hr). done. }
  injection Hr as -> ->. revert w2 r Hrun. rw -Hw1.
  apply okp_connect. intros w4 Hw4. apply okp_bind, okp_select.
  destruct (join_identity i (dbof w4)) as [[ir e]|] eqn:Hj; [|apply okp_raise].
  apply join_identity_Some in Hj as [Hi He]. apply okp_bind, okp_lift. intros identity _.
  destruct (same_issuance _ _ _ _ _) eqn:Hsame.
  - apply okp_bind, okp_audit. intros w5 [Hf _]. apply okp_ret. rw -Hw4.
    unfold same_issuance in Hsame. rw andb_true_iff !bool_decide_eq_true in Hsame. destruct Hsame as [Hst Hc].
    split; [|intros token fp ep; by apply redeemed_facts].
    eapply certified_facts; [exact Hf|]. by exists ir.
  - apply okp_bind, okp_lift. intros _ _. apply okp_bind, okp_lift. intros _ _.
    apply okp_bind, okp_execute.
    intros w5 d5 b [(_ & _ & Hno)|(_ & r' & Hr' & _ & _ & _ & ->)]%update_identity_Ok Hw5.
    { by specialize (Hno ir Hi). }
    rw Hi in Hr'. injection Hr' as <-.
    apply okp_bind, okp_lift. intros identity' _. apply okp_bind, okp_audit. intros w6 [Hf _].
    apply okp_ret. rw Hw5 in Hf. rw -Hw4. split.
    + eapply certified_facts; [exact Hf|]. eexists. split; [by apply lookup_insert_eq|].
      split; [|reflexivity]. apply list_elem_of_here.
    + intros token fp ep (Htok & k & g & t & ir' & er & Hk & Hdig & Hcons & Hir & Hep & Hfp & Her & Heri).
      eapply redeemed_facts; [exact Hf|]. rw Hi in Hir. injection Hir as <-.
      split; [exact Htok|]. exists k, g, t, (set_issued serial issuer (instant nb) (instant na) ir), er.
      cbn [with_identities t_grants t_identities t_endpoints].
      split; [exact Hk|]. split; [exact Hdig|]. split; [exact Hcons|].
      split; [by apply lookup_insert_eq|].
      split; [exact Hep|]. split; [exact Hfp|]. split; [exact Her|exact Heri].
Qed.

#[export] Instance pg_enrollment_laws : EnrollmentStoreLaws (world Pg) := {
  redeemed w := pg_redeemed (dbof w);
  certified w := pg_certified (dbof w);
  law_begin token fp now actor w w' r := begin_redeems token fp now actor w w' r;
  law_issue i serial issuer nb na now actor w w' r :=
    issue_certifies i serial issuer nb na now actor w w' r;
}.

(** ** A request that is read back *)
Definition enrollment_document (token : pystr) (csr : list Z) : json :=
  JObj [(py "grant", JStr token); (py "csr", JStr (b64encode csr))].

Definition no_int (_ : Z) : bool := false.

Lemma ascii_scalar s : forallb is_ascii s = true → forallb is_scalar s = true.
Proof.
  rw !forallb_forall. intros Hs c Hc%Hs. unfold is_ascii in Hc. apply is_scalar_spec. lia.
Qed.

Lemma token_ascii token :
  fullmatch_token token = true → forallb is_ascii token = true ∧ length token = 48.
Proof.
  unfold fullmatch_token. intros Hf. rw !andb_true_iff !bool_decide_eq_true in Hf.
  destruct Hf as [[Ht Hl] Hd]. split; [|exact Hl]. rw -(take_drop 5 token) Ht forallb_app.
  apply andb_true_iff. split; [reflexivity|]. rw !forallb_forall in Hd |- *. intros c Hc%Hd.
  unfold is_b64url in Hc. unfold is_ascii. lia.
Qed.

Lemma enrollment_document_wf token csr :
  fullmatch_token token = true → forallb is_byte csr = true →
  json_wf no_int (enrollment_document token csr) = true.
Proof.
  intros [Ht _]%token_ascii Hcsr. unfold enrollment_document. cbn [json_wf].
  apply andb_true_iff. split; [apply bool_decide_eq_true_2; by apply (bool_decide_unpack _)|].
  cbn [forallb fst snd json_wf]. rw (ascii_scalar _ Ht) (ascii_scalar _ (ascii_b64encode _ Hcsr)).
  reflexivity.
Qed.

Lemma decode_enrollment_document depth token csr :
  fullmatch_token token = true → forallb is_byte csr = true →
  (1 ≤ Z.of_nat (length csr) ≤ MAX_CSR_BYTES)%Z → 1 ≤ depth →
  _decode_enrollment_body depth (json_dumps false (enrollment_document token csr))
    = Ok (token, csr).
Proof.
  intros Htok Hcsr Hlen Hdepth. pose proof (enrollment_document_wf token csr Htok Hcsr) as Hwf.
  unfold _decode_enrollment_body. rw (utf8_decode_ascii _ (ascii_dumps no_int _ Hwf)).
  cbn [mbind result_bind]. rw (loads_dumps enrollment_hooks no_int); [|done| |done|done]; last first.
  { intros l. exact (unique_object_all _ l []). }
  cbn [except_as mbind result_bind enrollment_document].
  assert (∀ a b, keys_are [(py "grant", a); (py "csr", b)] [py "grant"; py "csr"] = true) as ->.
  { intros a b. unfold keys_are. by apply bool_decide_eq_true_2. }
  cbn [negb raise_if]. eapply bind_eq; [reflexivity|]. cbv beta.
  eapply bind_eq; [exact (dict_get_here _ _ _)|]. cbv beta.
  eapply bind_eq; [etrans; [by apply dict_get_next|exact (dict_get_here _ _ _)]|]. cbv beta.
  pose proof (proj2 (token_ascii token Htok)) as Hl. pose proof (length_b64encode csr) as Hb.
  unfold bounded_string, str_len, raise_if. rw Hl Hb. unfold MAX_CSR_BYTES in Hlen.
  eapply bind_eq; [reflexivity|]. cbv beta.
  eapply (bind_eq _ (b64encode csr)).
  { rw (_ : (1 <=? 4 * ((Z.of_nat (length csr) + 2) / 3)) && (4 * ((Z.of_nat (length csr) + 2) / 3) <=? 12000)
      = true)%Z; [reflexivity|]. Z.to_euclidean_division_equations; lia. }
  cbv beta. rw b64decode_b64encode //.
Qed.

(** ** The second transaction *)
Lemma serial_shape serial :
  fullmatch_serial serial = true → text_ok serial = true ∧ varchar 64 serial = true.
Proof.
  unfold fullmatch_serial. destruct serial as [|c rest]; [done|]. intros Hf.
  rw !andb_true_iff in Hf. destruct Hf as [[[Hc _] Hr] Hl]. split.
  - apply text_ok_hex. cbn [forallb]. by rw Hc Hr.
  - unfold varchar, str_len. cbn [length]. apply Z.leb_le in Hl. apply Z.leb_le. rw Nat2Z.inj_succ. lia.
Qed.

Section issue.
Context (w : world Pg) (i : uuid) (ir : IdentityRow) (serial issuer actor : pystr).
Context (nb na now : datetime).
Context (Hwf : db_wf (dbof w)) (Hh : healthy w) (Hev : event_fresh (rng w 1) (dbof w)).
Context (Hnow : representable now) (Hnb : representable nb) (Hna : representable na).
Context (Hserial : fullmatch_serial serial = true).
Context (Hissuer : empty_or_longer issuer 256 = false) (Htext : text_ok issuer = true).
Context (Hvalid : (instant nb ≤ instant now < instant na)%Z).
Context (Httl : (instant na - instant nb ≤ MAX_ENDPOINT_CERTIFICATE_TTL)%Z).
Context (Hactor : actor_ok actor).
Context (Hi : t_identities (dbof w) !! i = Some ir) (Hst : ir_status ir = PENDING).

Abbreviation issued_row := (set_issued serial issuer (instant nb) (instant na) ir).
Context (Hcert : certificate_free (dbof w) i issued_row).

Lemma issued_checks : identity_checks issued_row = true.
Proof using All.
  destruct (dw_identity _ Hwf _ _ Hi) as (Hc & _). destruct (serial_shape serial Hserial) as [_ Hs].
  unfold identity_checks in *.
  cbn [set_issued ir_fingerprint ir_revoked_at ir_revocation_reason ir_status ir_certificate
       ir_activated_at ir_created_at].
  apply andb_prop in Hc as [Hc H6]. apply andb_prop in Hc as [Hc _]. apply andb_prop in Hc as [Hc H4].
  apply bool_decide_eq_true in H4. rw Hst in H4.
  apply andb_true_intro. split; [|exact H6]. apply andb_true_intro. split.
  - apply andb_true_intro. split; [exact Hc|]. apply bool_decide_eq_true_2.
    split; [done|]. intros Hr. by apply H4 in Hr.
  - rw Hs. apply andb_true_intro. split; [|lia]. unfold empty_or_longer, varchar in *. lia.
Qed.

Lemma issue_run : ∃ w' identity,
  record_issued_endpoint_identity i serial issuer nb na now actor w = (w', Ok identity).
Proof using All.
  destruct (dw_identity _ Hwf _ _ Hi) as (Hc & Hfree & _ & er & Her & Hcur).
  pose proof (actor_fits actor Hactor) as Hfit. destruct Hactor as [Hact Hatext].
  destruct (serial_shape serial Hserial) as [Hst64 _].
  set (d := with_identities <[i := issued_row]> (dbof w)).
  destruct (audit_step (utc (instant now)) (py "service") actor
    (py "identity:" ++ uuid_str i) (py "identity.issue") (py "accepted")
    (py "external endpoint certificate recorded") (rng w 0)
    [(py "certificate_issuer", issuer); (py "certificate_serial", serial);
     (py "endpoint_id", uuid_str (ir_endpoint_id ir))]
    (World (set_db d (next_fate (store w))) (λ n, rng w (S n)))) as (w' & Haud & [Hf _] & _);
    [audit_text|exact Hev|].
  exists w', (identity_of i issued_row). unfold record_issued_endpoint_identity.
  do 3 (eapply (run_lift _ _ _ tt); [apply require_aware_Ok; first [apply Hnb|apply Hna|apply Hnow]|]).
  do 3 (eapply run_lift; [by apply representable_run|]).
  eapply (run_lift _ _ _ tt); [by rw Hserial|]. eapply (run_lift _ _ _ tt); [by rw Hissuer|].
  eapply (run_lift _ _ _ tt).
  { rw raise_if_Ok negb_false_iff. unfold dt_leb, dt_ltb. rw !instant_utc. lia. }
  eapply (run_lift _ _ _ tt). { rw raise_if_Ok. unfold dt_sub. rw !instant_utc. lia. }
  eapply (run_lift _ _ _ tt); [by rw Hact|]. apply run_uuid4. rw !instant_utc.
  unfold except_unique. rw (connect_run _ _ w' (identity_of i issued_row)) //.
  - apply run_select. cbn [store rng]. change (dbof (World _ _)) with (dbof w).
    rw (proj2 (join_identity_Some i (dbof w) ir er) (conj Hi Her)).
    eapply run_lift; [by apply identity_from_row_run|].
    rw (_ : same_issuance _ _ _ _ _ = false); last first.
    { unfold same_issuance. rw bool_decide_eq_false_2 //. rw Hst !elem_of_cons.
      by intros [?|[?|?%elem_of_nil]]. }
    eapply (run_lift _ _ _ tt).
    { rw raise_if_Ok (bool_decide_eq_true_2 _ Hst) (bool_decide_eq_true_2 _ Hcur). reflexivity. }
    eapply (run_lift _ _ _ tt). { apply pg_texts_run. cbn [forallb]. by rw Hst64 Htext. }
    eapply run_execute; [apply (update_identity_run i ir); [exact Hi|done|exact issued_checks|exact Hfree|exact Hcert]|].
    eapply run_lift.
    { pose proof (identity_from_row_run i issued_row issued_checks) as Hx. exact Hx. }
    eapply run_bind; [exact Haud|]. reflexivity.
  - apply db_wf_deferred. eapply db_wf_facts; [exact Hf|]. eapply fact_effect_wf; [|exact Hwf].
    by apply (fact_issue _ i ir serial issuer (instant nb) (instant na) Hi Hst issued_checks).
Qed.
End issue.

(** ** What a transaction uses up *)

(** From [w] to [w']: [f] fates and at most [c] draws were used, and new audit rows
carry drawn IDs. *)
Record continues (c f : nat) (w w' : world Pg) : Prop := {
  ct_up : pg_shutting_down (store w') = pg_shutting_down (store w);
  ct_fates n : pg_fates (store w') n = pg_fates (store w) (f + n);
  ct_draws : ∃ b, b ≤ c ∧ (∀ n, rng w' n = rng w (b + n)) ∧
    ∀ r, r ∈ t_audit (dbof w') → r ∈ t_audit (dbof w) ∨ ∃ i, i < b ∧ ar_event_id r = rng w i;
}.

Definition uses {A} (c f : nat) (m : PG A) : Prop := ∀ w, okp m (λ w' _, continues c f w w') w.

Lemma continues_refl w : continues 0 0 w w.
Proof. split; [done|done|]. exists 0. split_and!; [done|done|]. auto. Qed.

Lemma continues_trans c f c' f' w w1 w' :
  continues c f w w1 → continues c' f' w1 w' → continues (c + c') (f + f') w w'.
Proof.
  intros [U1 F1 (b & Hb & D1 & E1)] [U2 F2 (b' & Hb' & D2 & E2)]. split; [congruence| |].
  - intros n. by rw F2 F1 Nat.add_assoc.
  - exists (b + b'). split_and!; [lia| |].
    + intros n. by rw D2 D1 Nat.add_assoc.
    + intros r [Hr|(i & Hi & Heq)]%E2; [|right; exists (b + i); by rw Heq D1; split; [lia|]].
      apply E1 in Hr as [Hr|(i & Hi & Heq)]; [auto|]. right. exists i. split; [lia|done].
Qed.

Lemma continues_mono c c' f w w' : c ≤ c' → continues c f w w' → continues c' f w w'.
Proof. intros Hle [U F (b & Hb & HD)]. split; [done..|]. exists b. split; [lia|done]. Qed.

Lemma uses_mono {A} c c' f (m : PG A) : c ≤ c' → uses c f m → uses c' f m.
Proof. intros Hle Hm w w' a Ha. eapply continues_mono; [done|by eapply Hm]. Qed.

Lemma uses_bind {A B} c f c' f' (m : PG A) (k : A → PG B) :
  uses c f m → (∀ a, uses c' f' (k a)) → uses (c + c') (f + f') (m ≫= k).
Proof.
  intros Hm Hk w w' b (w1 & a & H1 & H2)%bind_Ok_inv.
  eapply continues_trans; [by eapply Hm|by eapply Hk].
Qed.

Lemma uses_lift {A} (r : result A) : uses 0 0 (lift r).
Proof. intros w. apply okp_lift. intros _ _. apply continues_refl. Qed.
Lemma uses_ret {A} (a : A) : uses 0 0 (mret a).
Proof. intros w. apply okp_ret, continues_refl. Qed.
Lemma uses_raise {A} e : uses 0 0 (raise e : PG A).
Proof. intros w. apply okp_raise. Qed.
Lemma uses_select {A} (f : Db → A) : uses 0 0 (select f).
Proof. intros w. apply okp_select, continues_refl. Qed.

Lemma uses_uuid4 : uses 1 0 uuid4.
Proof. intros w w' u [= <- <-]. split; [done|done|]. exists 1. split_and!; [done|done|]. auto. Qed.

Lemma uses_execute {A} (f : Db → result (Db * A)) :
  (∀ d d' a, f d = Ok (d', a) → t_audit d' = t_audit d) → uses 0 0 (execute f).
Proof.
  intros Hf w w' a. unfold execute. destruct (f (dbof w)) as [[d b]|e] eqn:He; [|done].
  intros [= <- <-]. split; [done|done|]. exists 0. split_and!; [done|done|]. cbn. rw (Hf _ _ _ He). auto.
Qed.

Lemma uses_statement (f : Db → result Db) :
  (∀ d d', f d = Ok d' → t_audit d' = t_audit d) → uses 0 0 (statement f).
Proof.
  intros Hf. apply uses_execute. intros d d' []. destruct (f d) as [d1|] eqn:He; [|done].
  intros [= <-]. by apply Hf.
Qed.

Lemma uses_audit t at_ aid sub act dec reason corr md :
  uses 1 0 (_insert_audit t at_ aid sub act dec reason corr md).
Proof.
  intros w w' [] Ha. unfold _insert_audit in Ha. apply bind_Ok_inv in Ha as (w1 & u & [= <- <-] & Ha).
  unfold statement, execute in Ha. cbn [store] in Ha.
  destruct (insert_audit_event _ (dbof w)) as [d|e] eqn:Hins; [|done]. cbn [mbind result_bind] in Ha.
  injection Ha as <-. split; [done|done|]. exists 1. split_and!; [done|done|]. cbn [store].
  unfold insert_audit_event in Hins. checks_in Hins. destruct Hins as (_ & _ & _ & _ & [= <-]).
  intros r Hr. cbn in Hr. apply elem_of_app in Hr as [Hr|Hr]; [by left|].
  apply list_elem_of_singleton in Hr as ->. right. exists 0. split; [lia|done].
Qed.

Lemma uses_connect {A} c f (body : PG A) : uses c f body → uses c (S f) (_connect body).
Proof.
  intros Hb w w' a [Hrun _]%connect_Ok. apply Hb in Hrun.
  apply (continues_trans 0 1 c f w (World (next_fate (store w)) (rng w)) w'); [|exact Hrun].
  split; [done|done|]. exists 0. split_and!; [done|done|]. auto.
Qed.

(** The exchange of a grant, when it returns: one transaction and five draws. *)
Lemma uses_lookup digest fp t retry : uses 0 0 (consume_lookup digest fp t retry).
Proof.
  unfold consume_lookup. destruct digest; [|apply uses_ret].
  apply (uses_bind 0 0 0 0); [apply uses_select|]. intros [[k r]|]; [|apply uses_ret].
  apply (uses_bind 0 0 0 0); [apply uses_lift|]. intros g.
  do 3 (case_match; [apply uses_ret|]). case_match; [|apply uses_ret].
  case_match; [|apply uses_ret]. unfold consume_retry. case_match; [|apply uses_ret].
  apply (uses_bind 0 0 0 0); [apply uses_select|]. intros [[i e]|]; [|apply uses_ret].
  case_match; [|apply uses_ret].
  apply (uses_bind 0 0 0 0); [apply uses_lift|]. intros ep.
  apply (uses_bind 0 0 0 0); [apply uses_lift|]. intros id. apply uses_ret.
Qed.

Lemma uses_create g fp t actor status corr : uses 4 0 (consume_create g fp t actor status corr).
Proof.
  unfold consume_create.
  apply (uses_bind 1 0 3 0); [apply uses_uuid4|]. intros eid.
  apply (uses_bind 1 0 2 0); [apply uses_uuid4|]. intros iid.
  apply (uses_bind 0 0 2 0); [apply uses_lift|]. intros identity.
  apply (uses_bind 0 0 2 0); [apply uses_lift|]. intros endpoint.
  apply (uses_bind 0 0 2 0).
  { apply uses_statement. by intros d d' (_ & _ & ->)%insert_endpoint_Ok. }
  intros _. apply (uses_bind 0 0 2 0).
  { apply uses_statement. by intros d d' (_ & _ & _ & ->)%insert_identity_Ok. }
  intros _. apply (uses_bind 0 0 2 0).
  { apply uses_execute. unfold update_grant_consumed. intros d d' b Hu.
    destruct (t_grants d !! _) as [g'|]; [|by injection Hu as <- _].
    destruct (gr_consumed g'); [by injection Hu as <- _|].
    apply result_seq_Ok in Hu as [_ Hu]. by apply result_seq_Ok in Hu as [_ [= <- _]]. }
  intros changed. apply (uses_bind 0 0 2 0); [apply uses_lift|]. intros _.
  apply (uses_bind 1 0 1 0); [apply uses_audit|]. intros _.
  apply (uses_bind 1 0 0 0); [apply uses_audit|]. intros _. apply uses_ret.
Qed.

Lemma uses_begin token fp now actor : uses 5 1 (begin_endpoint_enrollment token fp now actor).
Proof.
  unfold begin_endpoint_enrollment, _consume_enrollment_grant.
  do 3 (apply (uses_bind 0 0 5 1); [apply uses_lift|]; intros ?).
  apply (uses_bind 1 0 4 1); [apply uses_uuid4|]. intros corr.
  apply (uses_bind 4 1 0 0); [|intros [r|]; [apply uses_ret|apply uses_raise]].
  intros w w' o Hc. unfold _connect_except in Hc.
  destruct (_connect _ w) as [w3 [o'|e]] eqn:Hrun; last first.
  { destruct e; try done. by apply bind_Ok_inv in Hc as (? & ? & _ & Hc). }
  injection Hc as -> ->. revert Hrun. apply (uses_connect 4 0).
  apply (uses_bind 0 0 4 0); [apply uses_lookup|]. intros [g reason|g ep i|g]; unfold consume_apply.
  - apply (uses_bind 1 0 3 0); [apply uses_audit|]. intros _. apply (uses_mono 0); [lia|apply uses_ret].
  - apply (uses_bind 1 0 3 0); [apply uses_audit|]. intros _. apply (uses_mono 0); [lia|apply uses_ret].
  - apply (uses_bind 4 0 0 0); [apply uses_create|]. intros r. apply uses_ret.
Qed.

(** ** Serial numbers *)
Lemma hexn_head n z :
  ∃ tl, hexn (S n) z = hex_digit (z / 16 ^ Z.of_nat n mod 16) :: tl ∧ length tl = n ∧
    forallb is_lower_hex tl = true.
Proof.
  revert z. induction n as [|n IH]; intros z.
  - exists []. cbn. by rw Z.div_1_r.
  - destruct (IH (z / 16)%Z) as (tl & Heq & Hl & Hx).
    exists (tl ++ [hex_digit (z mod 16)]). split_and!.
    + change (hexn (S (S n)) z) with (hexn (S n) (z / 16) ++ [hex_digit (z mod 16)]).
      rw Heq Z.div_div; [|lia|lia]. cbn [app]. do 3 f_equal.
      rw -Z.pow_succ_r; [|lia]. by rw Nat2Z.inj_succ.
    + rw length_app Hl /=. lia.
    + rw forallb_app Hx. cbn [forallb andb]. rw andb_true_r.
      apply hex_digit_lower, Z.mod_pos_bound. lia.
Qed.

(** The text of a positive serial of at most 256 bits is one the store accepts. *)
Lemma hex_str_serial n : (0 < n < 2 ^ 256)%Z → fullmatch_serial (hex_str n) = true.
Proof.
  intros Hn. unfold hex_str. rw (proj2 (Z.ltb_ge n 0)); [|lia]. cbn [app].
  rw Z.abs_eq; [|lia].
  pose proof (Z.log2_spec n (proj1 Hn)) as Hlog. pose proof (Z.log2_nonneg n) as H0.
  assert (Z.log2 n < 256)%Z as Hlt by (apply Z.log2_lt_pow2; lia).
  set (q := (Z.log2 n / 4)%Z) in *. assert (0 ≤ q ≤ 63)%Z as Hq by (unfold q; Z.to_euclidean_division_equations; lia).
  replace (Z.to_nat (q + 1)) with (S (Z.to_nat q)) by lia.
  destruct (hexn_head (Z.to_nat q) n) as (tl & -> & Hl & Hx). rw Z2Nat.id; [|lia].
  assert (1 ≤ n / 16 ^ q < 16)%Z as Hd.
  { change 16%Z with (2 ^ 4)%Z at 1. rw -Z.pow_mul_r; [|lia|lia]. split.
    - apply Z.div_le_lower_bound; [apply Z.pow_pos_nonneg; lia|]. rw Z.mul_1_r.
      etrans; [|apply Hlog]. apply Z.pow_le_mono_r; [lia|]. unfold q. Z.to_euclidean_division_equations; lia.
    - apply Z.div_lt_upper_bound; [apply Z.pow_pos_nonneg; lia|].
      eapply Z.lt_le_trans; [apply Hlog|]. change 16%Z with (2 ^ 4)%Z. rw -Z.pow_add_r; [|lia|lia].
      apply Z.pow_le_mono_r; [lia|]. unfold q. Z.to_euclidean_division_equations; lia. }
  rw Z.mod_small; [|lia]. cbn [fullmatch_serial].
  rw Hx Hl andb_true_r. generalize dependent (n / 16 ^ q)%Z. intros d Hd.
  rw (hex_digit_lower d); [|lia]. rw (_ : (hex_digit d =? 48)%Z = false); [cbn; apply Z.leb_le; lia|].
  unfold hex_digit. destruct (d <? 10)%Z eqn:?; lia.
Qed.

(** ** A live grant is redeemed *)

(** The grant of [token] can be exchanged, or was exchanged for a pending identity
of the same key. *)
Inductive live_grant (w : world Pg) (token fp : pystr) (now : Z) (e i : uuid) : Prop :=
| live_new k g :
    t_grants (dbof w) !! k = Some g → gr_token_sha256 g = Sha256.hexdigest token →
    gr_consumed g = None → (gr_created_at g ≤ now < gr_expires_at g)%Z →
    text_ok (gr_display_name g) = true →
    (∀ j r, t_identities (dbof w) !! j = Some r → ir_fingerprint r ≠ fp) →
    t_endpoints (dbof w) !! rng w 1 = None → t_identities (dbof w) !! rng w 2 = None →
    e = rng w 1 → i = rng w 2 → live_grant w token fp now e i
| live_resumed k g t ir :
    t_grants (dbof w) !! k = Some g → gr_token_sha256 g = Sha256.hexdigest token →
    gr_consumed g = Some (t, i) → (gr_created_at g ≤ now < gr_expires_at g)%Z →
    t_identities (dbof w) !! i = Some ir → ir_status ir = PENDING → ir_fingerprint ir = fp →
    ir_endpoint_id ir = e → live_grant w token fp now e i.

(** Eight draws ahead are pairwise different and no audit row has them. *)
Record draws_ahead (w : world Pg) : Prop := {
  da_distinct : distinct_draws (rng w) 8;
  da_fresh n : n < 8 → event_fresh (rng w n) (dbof w);
}.

Lemma draws_fresh_check w n :
  forallb (λ i, forallb (λ r, negb (bool_decide (ar_event_id r = rng w i))) (t_audit (dbof w))) (seq 0 n)
    = true → ∀ i, i < n → event_fresh (rng w i) (dbof w).
Proof.
  rw forallb_forall. intros Hc i Hi. apply event_fresh_check. apply Hc, list_elem_of_In, elem_of_seq. lia.
Qed.

Lemma begin_live w token fp now actor e i :
  db_wf (dbof w) → healthy w → draws_ahead w → representable now → actor_ok actor →
  fullmatch_token token = true → fullmatch_fingerprint fp = true →
  live_grant w token fp (instant now) e i →
  ∃ w1 ep id, begin_endpoint_enrollment token fp now actor w = (w1, Ok (ep, id)) ∧
    ep_endpoint_id ep = e ∧ ei_identity_id id = i ∧ db_wf (dbof w1) ∧
    (∃ ir, t_identities (dbof w1) !! i = Some ir ∧ ir_status ir = PENDING) ∧
    ∀ j r, t_identities (dbof w1) !! j = Some r → j ≠ i → t_identities (dbof w) !! j = Some r.
Proof.
  intros Hwf Hh [Hdist Hfresh] Hrep Hact Htok Hfp
    [k g Hk Hdig Hcons Hlive Hname Hfree Hne Hni -> ->|k g t ir Hk Hdig Hcons Hlive Hi Hst Hkey Hep].
  - assert (enroll_draws w) as Hdr.
    { split; [done|done|apply Hfresh; lia|apply Hfresh; lia|].
      intros Heq. apply Hdist in Heq; lia. }
    destruct (exchange_run w token fp actor now PENDING true k g Hwf Hh Hdr Hrep Hact Htok)
      as (w1 & Hrun & Ha); try done. { apply list_elem_of_here. }
    exists w1. do 2 eexists. split; [exact Hrun|]. split; [reflexivity|]. split; [reflexivity|].
    apply exchange_audited in Ha. destruct Ha as [Hf _]. split.
    { eapply db_wf_facts; [exact Hf|]. eapply fact_effect_wf; [|exact Hwf].
      apply (fact_consume _ _ _ _ _ _ _ (instant now)); [|done|done| |reflexivity|reflexivity].
      - apply (exchange_enrolls w fp now PENDING k g); try done. apply list_elem_of_here.
      - by apply (exchange_grant_checks w now k g). }
    apply facts_fields in Hf as (_ & Hids & _). rw Hids. cbn. split.
    + eexists. split; [by apply lookup_insert_eq|]. reflexivity.
    + intros j r Hj Hne'. by rw lookup_insert_ne in Hj.
  - destruct (dw_identity _ Hwf _ _ Hi) as (_ & _ & _ & er & Her & _).
    destruct (enroll_retry_run w token fp actor now k i g t ir er Hwf Hh (Hfresh 1 ltac:(lia)) Hrep
      Hact Htok Hk Hdig Hcons Hlive Hi) as (a & r & Hrun & _); [|done|done|].
    { rw Hst. apply list_elem_of_here. }
    do 3 eexists. split; [exact Hrun|]. split; [exact Hep|]. split; [reflexivity|]. split.
    { eapply db_wf_facts; [|exact Hwf]. reflexivity. }
    split; [by exists ir|]. by intros j q Hj _.
Qed.

Section completion.
Context {library : X509}.

(** The issuer answers the request of this identity with a credential that passes
the checks at the clock's reading, of a certificate the store can record and
has not recorded for another identity. *)
Record honest_issuer (env : surroundings) (d : Db) (e i : uuid) (fp : pystr) (canonical : list Z)
    (asked : datetime) (leaf : Certificate) (intermediates : list Certificate) : Prop := {
  hi_answer : ∃ issued,
    sr_issue env (mkIssuanceRequest i e fp canonical) asked = Ok issued ∧
    credential_ok (sr_roots env) issued e fp (utc (instant (sr_clock env))) leaf intermediates;
  hi_clock : representable (sr_clock env);
  hi_before : representable (not_valid_before_utc leaf);
  hi_after : representable (not_valid_after_utc leaf);
  hi_serial : (0 < serial_number leaf < 2 ^ 256)%Z;
  hi_issuer : empty_or_longer (issuer_rfc4514_string leaf) 256 = false ∧
    text_ok (issuer_rfc4514_string leaf) = true;
  hi_lifetime : (instant (not_valid_after_utc leaf) - instant (not_valid_before_utc leaf)
                   ≤ MAX_ENDPOINT_CERTIFICATE_TTL)%Z;
  hi_unused j r s n nb na : t_identities d !! j = Some r → ir_certificate r = Some (s, n, nb, na) →
    s = hex_str (serial_number leaf) → n ≠ issuer_rfc4514_string leaf;
}.

Definition enrollment_request (token : pystr) (csr : list Z) : EnrollmentRequest :=
  mkEnrollmentRequest (py "POST") ENROLLMENT_PATH (Some (py "application/json")) None
    (json_dumps false (enrollment_document token csr)).

Lemma representable_utc t : representable t → representable (utc (instant t)).
Proof. intros [_ Hr]. split; [done|]. by rw instant_utc. Qed.

Lemma enroll_live w env token csr now e i fp canonical leaf intermediates :
  db_wf (dbof w) → healthy w → pg_fates (store w) 1 = Commits → draws_ahead w →
  representable now → fullmatch_token token = true →
  _validate_csr csr = Ok (canonical, fp) → live_grant w token fp (instant now) e i →
  honest_issuer env (dbof w) e i fp canonical (utc (instant now)) leaf intermediates →
  ∃ w', enroll env token csr now w =
    (w', Ok (mkEnrollmentResult e i (certificate_public_bytes leaf)
               (certificate_public_bytes <$> intermediates))).
Proof.
  intros Hwf Hh Hnext Hdr Hrep Htok Hcsr Hlive [(issued & Hans & Hcred) Hclk Hnb Hna Hser [Hiss Htext] Httl Hun].
  pose proof (validate_csr_Ok _ _ _ Hcsr) as (_ & _ & key & _ & _ & _ & _ & _ & _ & _ & _ & Hfp).
  assert (actor_ok enrollment_actor) as Hactor by by split.
  destruct (begin_live w token fp (utc (instant now)) enrollment_actor e i)
    as (w1 & ep & id & Hbegin & <- & <- & Hwf1 & (ir & Hir & Hst) & Hothers);
    [done|done|done|by apply representable_utc|done|done|rw Hfp; apply key_fingerprint_valid
    |by rw instant_utc|].
  pose proof (uses_begin _ _ _ _ _ _ _ Hbegin) as [Hup Hfates (b & Hb & Hdraws & Hevents)].
  destruct (issue_run w1 (ei_identity_id id) ir (hex_str (serial_number leaf))
    (issuer_rfc4514_string leaf) enrollment_actor (not_valid_before_utc leaf) (not_valid_after_utc leaf)
    (utc (instant (sr_clock env)))) as (w2 & ident & Hissue); try done.
  { split; [rw Hup; apply Hh|]. by rw Hfates. }
  { intros r Hr Heq. rw Hdraws in Heq. apply Hevents in Hr as [Hr|(j & Hj & Hjr)].
    - apply (da_fresh _ Hdr (b + 1) ltac:(lia) r Hr Heq).
    - rw Hjr in Heq. apply (da_distinct _ Hdr) in Heq; lia. }
  { by apply representable_utc. }
  { by apply hex_str_serial. }
  { rw instant_utc. pose proof (cr_valid _ _ _ _ _ _ _ Hcred) as Hv. by rw instant_utc in Hv. }
  { intros j r Hj Hne. specialize (Hothers j r Hj Hne). unfold same_certificate. cbn [set_issued ir_certificate].
    destruct (ir_certificate r) as [[[[s n] nb'] na']|] eqn:Hc; [|done].
    apply andb_false_iff. destruct (decide (hex_str (serial_number leaf) = s)) as [Hs|Hs].
    - right. apply bool_decide_eq_false_2. intros Hn. by apply (Hun j r s n nb' na' Hothers Hc).
    - left. by apply bool_decide_eq_false_2. }
  exists w2. unfold enroll. apply (proj2 (validate_issued_credential_Ok _ _ _ _ _ _ _)) in Hcred.
  eapply (run_lift _ _ _ tt); [apply require_aware_Ok, Hrep|].
  eapply run_lift; [by apply representable_run|]. eapply run_lift; [exact Hcsr|]. cbv beta iota.
  eapply run_bind; [apply except_asM_Ok; exact Hbegin|]. cbv beta iota.
  eapply run_lift; [exact Hans|]. eapply (run_lift _ _ _ tt); [apply require_aware_Ok, Hclk|].
  eapply run_lift; [by apply representable_run|]. eapply run_lift; [by rw Hcred|]. cbv beta iota.
  eapply run_bind; [apply except_asM_Ok; exact Hissue|]. reflexivity.
Qed.
End completion.

(** A live grant, a CSR that passes the checks and an honest issuer, on a database whose
next two transactions commit. *)
Record enrollment_ready `{X509} (w : world Pg) (depth : nat) (env : surroundings) (token : pystr)
    (csr : list Z) (now : datetime) (e i : uuid) (fp : pystr) (canonical : list Z) (leaf : Certificate)
    (intermediates : list Certificate) : Prop := {
  er_wf : db_wf (dbof w);
  er_healthy : healthy w;
  er_next : pg_fates (store w) 1 = Commits;
  er_draws : draws_ahead w;
  er_now : representable now;
  er_depth : 1 ≤ depth;
  er_token : fullmatch_token token = true;
  er_bytes : forallb is_byte csr = true;
  er_size : (Z.of_nat (length (json_dumps false (enrollment_document token csr)))
               ≤ MAX_ENROLLMENT_BODY_BYTES)%Z;
  er_csr : _validate_csr csr = Ok (canonical, fp);
  er_live : live_grant w token fp (instant now) e i;
  er_issuer : honest_issuer env (dbof w) e i fp canonical (utc (instant now)) leaf intermediates;
}.

Lemma handle_ready `{X509} (w : world Pg) depth env token csr now e i fp canonical leaf intermediates :
  enrollment_ready w depth env token csr now e i fp canonical leaf intermediates →
  ∃ w', handle depth env (enrollment_request token csr) now w =
    (w', Ok (_http_json 201 (enrolled_document (mkEnrollmentResult e i
       (certificate_public_bytes leaf) (certificate_public_bytes <$> intermediates))))).
Proof.
  intros [Hwf Hh Hnext Hdr Hrep Hdepth Htok Hbytes Hsize Hcsr Hlive Hissuer].
  destruct (enroll_live w env token csr now e i fp canonical leaf intermediates) as (w' & Hrun);
    [done..|].
  pose proof (validate_csr_Ok _ _ _ Hcsr) as [Hlen _].
  exists w'. unfold handle, enrollment_request. cbn [eq_path eq_method eq_content_type eq_content_encoding eq_body].
  assert (bool_decide (json_dumps false (enrollment_document token csr) = []) = false) as Hne.
  { apply bool_decide_eq_false_2. intros Hnil.
    destruct (starts_dumps no_int _ (enrollment_document_wf token csr Htok Hbytes)) as (c & t & Heq & _).
    by rw Heq in Hnil. }
  do 2 (rw bool_decide_eq_false_2; [|intros Hx; exact (Hx eq_refl)]).
  rw (bool_decide_eq_true_2 (ascii_lower (py "application/json") = _) eq_refl).
  rw (bool_decide_eq_false_2 (None ≠ None)); [|intros Hx; exact (Hx eq_refl)].
  rw Hne (proj2 (Z.ltb_ge _ _) Hsize). cbn [negb orb].
  unfold except_enrollment, mbind, M_bind, lift.
  rw decode_enrollment_document //. cbv beta iota. rw Hrun. reflexivity.
Qed.

(** ** The theorems *)

(** What an enrollment response discloses is recorded first. Whenever the
handler answers 201 over PostgreSQL, the request carried a valid grant token
and a CSR with proof of possession and no claims of its own; the database holds
the grant as consumed by exactly the identity and endpoint the response names,
bound to the key of that CSR; the leaf the response carries is the issuer's
answer for that identity, verifies to a trust root, has the endpoint profile
naming that endpoint and that key, and is valid now; and its serial, issuer and
validity are stored with the identity, which is issued or active. *)
Theorem enrollment_disclosure_recorded `{X509} depth (env : surroundings) request received_at
    (w w' : world Pg) resp :
  handle depth env request received_at w = (w', Ok resp) → ers_status resp = 201%Z →
  ∃ token csr_der canonical fp r issued leaf intermediates key,
    _decode_enrollment_body depth (eq_body request) = Ok (token, csr_der) ∧
    _validate_csr csr_der = Ok (canonical, fp) ∧ fp = key_fingerprint key ∧
    ers_body resp = json_dumps false (enrolled_document r) ∧
    pg_redeemed (dbof w') token fp (en_endpoint_id r) (en_identity_id r) ∧
    sr_issue env (mkIssuanceRequest (en_identity_id r) (en_endpoint_id r) fp canonical)
      (utc (instant received_at)) = Ok issued ∧
    load_der_x509_certificate (ic_leaf_certificate_der issued) = Ok leaf ∧
    client_verify (sr_roots env) (utc (instant (sr_clock env))) leaf intermediates = Ok tt ∧
    endpoint_profile leaf (en_endpoint_id r) key ∧
    (instant (not_valid_before_utc leaf) ≤ instant (sr_clock env) < instant (not_valid_after_utc leaf))%Z ∧
    en_leaf_certificate_der r = certificate_public_bytes leaf ∧
    pg_certified (dbof w') (en_identity_id r) (hex_str (serial_number leaf))
      (issuer_rfc4514_string leaf) (instant (not_valid_before_utc leaf))
      (instant (not_valid_after_utc leaf)).
Proof.
  intros Hh H201.
  destruct (handle_created _ _ _ _ _ _ _ Hh H201) as (token & csr & r & Hbody & Hr & ->).
  apply enroll_Ok in Hr as [(canonical & fp & Hcsr & Hred & issued & leaf & ints & Hans & Hcred & Hl & _ & Hcert)].
  destruct Hcred as [Hleaf _ _ Hchain (key & Hprof & Hfp) Hvalid]. rw instant_utc in Hvalid.
  exists token, csr, canonical, fp, r, issued, leaf, ints, key.
  do 11 (split; [first [reflexivity|eassumption]|]). exact Hcert.
Qed.

(** Enrollment completes. With a well-formed database whose next two
transactions commit, unused draws, a live grant (not yet exchanged, or
exchanged before for a pending identity of the same key, as after a failure of
the issuer), a CSR that passes the checks and an issuer that answers with a
valid credential for that identity, the canonical request is answered by 201
with exactly that endpoint, identity and certificate chain. *)
Theorem enrollment_completes `{X509} (w : world Pg) depth env token csr now e i fp canonical leaf
    intermediates :
  db_wf (dbof w) → healthy w → pg_fates (store w) 1 = Commits → draws_ahead w →
  representable now → 1 ≤ depth → fullmatch_token token = true → forallb is_byte csr = true →
  (Z.of_nat (length (json_dumps false (enrollment_document token csr))) ≤ MAX_ENROLLMENT_BODY_BYTES)%Z →
  _validate_csr csr = Ok (canonical, fp) → live_grant w token fp (instant now) e i →
  honest_issuer env (dbof w) e i fp canonical (utc (instant now)) leaf intermediates →
  ∃ w', handle depth env (enrollment_request token csr) now w =
    (w', Ok (_http_json 201 (enrolled_document (mkEnrollmentResult e i
       (certificate_public_bytes leaf) (certificate_public_bytes <$> intermediates))))).
Proof.
  intros. by apply (handle_ready w depth env token csr now e i fp canonical leaf intermediates).
Qed.

(** ** A sample *)
Module EnrollmentSample.

(** A library that knows one certificate, one request and one key. *)
#[local] Instance library : X509 := {|
  Certificate := unit; Csr := unit; PublicKey := unit;
  load_der_x509_certificate b := if bool_decide (b = [48; 130]%Z) then Ok tt else Raise ValueError;
  load_der_x509_csr b := if bool_decide (b = [48; 129]%Z) then Ok tt else Raise ValueError;
  BasicConstraints_ca _ := Ok false;
  KeyUsage_digital_signature _ := Ok true;
  ExtendedKeyUsage _ := Ok [CLIENT_AUTH];
  SubjectAlternativeName _ :=
    Ok [UniformResourceIdentifier (ENDPOINT_URI_PREFIX ++ uuid_str (uid 1004))];
  extensions _ := Ok [(true, false); (false, true)];
  certificate_public_key _ := Ok tt;
  certificate_public_bytes _ := [48; 130]%Z;
  serial_number _ := 74565%Z;
  issuer_rfc4514_string _ := py "CN=issuer";
  not_valid_before_utc _ := PgSample.at_ 0;
  not_valid_after_utc _ := PgSample.at_ 3600;
  client_verify _ _ _ _ := Ok tt;
  is_signature_valid _ := Ok true;
  subject_len _ := Ok 0%Z;
  csr_extensions_len _ := Ok 0%Z;
  attributes_len _ := Ok 0%Z;
  csr_public_key _ := Ok tt;
  csr_public_bytes _ := [48; 129]%Z;
  key_type_of _ := EllipticCurvePublicKey SECP256R1;
  subject_public_key_info _ := [1; 2; 3]%Z;
|}.

Definition env : surroundings :=
  mkSurroundings [tt] (λ _ _, Ok (mkIssuedCredential [48; 130]%Z [])) (PgSample.at_ 6).
Definition csr : list Z := [48; 129]%Z.
Definition request : EnrollmentRequest := enrollment_request PgSample.token csr.
Definition now : datetime := PgSample.at_ 5.

(** The response, evaluated. *)
Definition response : EnrollmentResponse :=
  _http_json 201 (enrolled_document (mkEnrollmentResult (uid 1004) (uid 1005) [48; 130]%Z [])).

Lemma ready :
  @enrollment_ready library PgSample.w1 1 env PgSample.token csr now (uid 1004) (uid 1005)
    (@key_fingerprint library tt) [48; 129]%Z tt [].
Proof.
  split.
  - apply (pg_run_wf _ _ PgSample.pg_run1), db_wf_empty.
  - split; vm_compute; reflexivity.
  - vm_compute. reflexivity.
  - split; [apply distinct_draws_check; vm_compute; reflexivity|].
    apply draws_fresh_check. vm_compute. reflexivity.
  - split; vm_compute; reflexivity.
  - lia.
  - vm_compute. reflexivity.
  - reflexivity.
  - vm_compute. congruence.
  - reflexivity.
  - assert (∃ g, t_grants (dbof PgSample.w1) !! uid 1000 = Some g ∧
      gr_token_sha256 g = Sha256.hexdigest PgSample.token ∧ gr_consumed g = None ∧
      (gr_created_at g <=? instant now)%Z
        && (instant now <? gr_expires_at g)%Z = true ∧
      text_ok (gr_display_name g) = true) as (g & H1 & H2 & H3 & H4 & H5).
    { eexists. do 4 (split; [vm_compute; reflexivity|]). vm_compute. reflexivity. }
    apply andb_true_iff in H4 as [H4%Z.leb_le H4'%Z.ltb_lt].
    apply (live_new _ _ _ _ _ _ (uid 1000) g H1 H2 H3 (conj H4 H4') H5).
    + apply key_unused_check. vm_compute. reflexivity.
    + vm_compute. reflexivity.
    + vm_compute. reflexivity.
    + vm_compute. reflexivity.
    + vm_compute. reflexivity.
  - split.
    + eexists. split; [reflexivity|]. split.
      * reflexivity.
      * split; [reflexivity|]. split; [constructor|]. vm_compute. congruence.
      * reflexivity.
      * reflexivity.
      * exists tt. split; [|reflexivity]. split; try reflexivity.
        exists [(true, false); (false, true)]. split; [reflexivity|].
        by apply (bool_decide_unpack _).
      * split; vm_compute; congruence.
    + split; vm_compute; reflexivity.
    + split; vm_compute; reflexivity.
    + split; vm_compute; reflexivity.
    + split; vm_compute; reflexivity.
    + split; vm_compute; reflexivity.
    + vm_compute. congruence.
    + intros j r s n nb na Hj. by vm_compute in Hj.
Qed.

End EnrollmentSample.

Lemma enrollment_completes_witness :
  ∃ w', @handle EnrollmentSample.library _ _ 1 EnrollmentSample.env EnrollmentSample.request
      EnrollmentSample.now PgSample.w1 = (w', Ok EnrollmentSample.response).
Proof.
  destruct EnrollmentSample.ready as [].
  by apply (@enrollment_completes EnrollmentSample.library PgSample.w1 1 EnrollmentSample.env
    PgSample.token EnrollmentSample.csr EnrollmentSample.now (uid 1004) (uid 1005)
    (@key_fingerprint EnrollmentSample.library tt) [48; 129]%Z tt []).
Defined.

Lemma enrollment_disclosure_recorded_witness :
  ∃ w' token fp e i, @handle EnrollmentSample.library _ _ 1 EnrollmentSample.env
      EnrollmentSample.request EnrollmentSample.now PgSample.w1 = (w', Ok EnrollmentSample.response) ∧
    pg_redeemed (dbof w') token fp e i.
Proof.
  destruct (run_Ok (@handle EnrollmentSample.library _ _ 1 EnrollmentSample.env EnrollmentSample.request
    EnrollmentSample.now) PgSample.w1) as (w' & resp & Hrun); [eexists; vm_compute; reflexivity|].
  assert (resp = EnrollmentSample.response) as ->.
  { apply (f_equal snd) in Hrun. vm_compute in Hrun. by injection Hrun as <-. }
  destruct (@enrollment_disclosure_recorded EnrollmentSample.library _ _ _ _ _ _ _ Hrun eq_refl)
    as (token & csr_der & canonical & fp & r & issued & leaf & ints & key & _ & _ & _ & _ & Hred & _).
  exists w', token, fp, (en_endpoint_id r), (en_identity_id r). split; [exact Hrun|exact Hred].
Defined.
