(* ===== verification/OperatorExchange.v ===== *)
(** * The operator application over PostgreSQL

[PostgresControlPlane] implements the protocol of the operator application and
its laws: the application changes nothing but the audit trail, and every answer
is explained by the events it recorded. *)
From stdpp Require Import prelude strings gmap sorting pretty ssreflect.
From S2P Require Import Prelude Uuid PyTime Sha256 Json Text JsonLoads UuidText Domain Views OperatorApi.
From S2P Require Import ControlPlane Paging Database Persistence PersistenceProofs PersistenceInvariant PersistenceRefinement PersistenceTheorems PersistenceBehaviour PersistenceCalls.

Set Warnings "-clear-no-such-hyp".

#[export] Instance pg_endpoint_reader : EndpointReader (world Pg) := {
  rd_list_endpoints := Persistence.list_endpoints;
  rd_get_endpoint := Persistence.get_endpoint;
  rd_get_identity := Persistence.get_identity;
  rd_endpoint_status k now := Persistence.endpoint_status k now None;
}.

#[export] Instance pg_operator_store : OperatorStore Pg := {
  os_list_endpoint_page := Persistence.list_endpoint_page;
  os_record_operator_access := Persistence.record_operator_access;
}.

(** ** The laws *)

(** The audit trail as events. *)
Definition trail (d : Db) : list AuditEvent := _audit_from_row <$> t_audit d.

Definition pg_adds (l : list AuditEvent) (p p' : Pg) : Prop :=
  facts (pg_db p') = facts (pg_db p) ∧ trail (pg_db p') = trail (pg_db p) ++ l.

Lemma pg_adds_same p p' : pg_db p' = pg_db p → pg_adds [] p p'.
Proof. unfold pg_adds. intros ->. by rw app_nil_r. Qed.

(** A computation that leaves the tables as they are. *)
Definition reads {A} (m : PG A) : Prop := ∀ w, dbof (m w).1 = dbof w.

Lemma reads_bind {A B} (m : PG A) (k : A → PG B) : reads m → (∀ a, reads (k a)) → reads (m ≫= k).
Proof.
  intros Hm Hk w. rw /mbind /M_bind. specialize (Hm w). destruct (m w) as [w1 [a|e]]; [|done].
  cbn in Hm. by rw Hk.
Qed.
Lemma reads_lift {A} (r : result A) : reads (lift r).
Proof. done. Qed.
Lemma reads_select {A} (f : Db → A) : reads (select f).
Proof. done. Qed.
Lemma reads_connect {A} (m : PG A) : reads m → reads (_connect m).
Proof.
  intros Hm w. symmetry. apply (connect_effect m eq); [done|]. intros w1 Hw1 w2 a Hrun _.
  rw -Hw1 -(Hm w1). by rw Hrun.
Qed.

Create HintDb reads.
#[local] Hint Resolve reads_bind reads_lift reads_select reads_connect : reads.

Lemma reads_get_endpoint k : reads (Persistence.get_endpoint k).
Proof. apply reads_bind; [auto with reads|]. intros [r|]; apply reads_lift. Qed.
Lemma reads_get_identity k : reads (Persistence.get_identity k).
Proof. apply reads_bind; [auto with reads|]. intros [r|]; apply reads_lift. Qed.
Lemma reads_endpoint_status k now policy : reads (Persistence.endpoint_status k now policy).
Proof.
  apply reads_bind; [apply reads_lift|]. intros _. apply reads_bind; [apply reads_get_endpoint|].
  intros e. apply reads_bind; [apply reads_get_identity|]. intros i. apply (reads_lift (Ok _)).
Qed.
Lemma reads_list_endpoint_page after limit : reads (Persistence.list_endpoint_page after limit).
Proof. apply reads_bind; [apply reads_lift|]. intros _. auto with reads. Qed.

(** The metadata column round-trips. *)
Lemma metadata_roundtrip md :
  NoDup md.*1 → py_sorted pair_leb (map_to_list (py_dict (py_sorted pair_leb md))) = py_sorted pair_leb md.
Proof.
  intros Hnd. apply pair_sorted_unique; [apply py_sorted_sorted..|].
  rw !py_sorted_perm. unfold py_dict. rw map_to_list_to_map; [by rw reverse_Permutation py_sorted_perm|].
  by rw reverse_Permutation py_sorted_perm.
Qed.

Lemma insert_audit_not_authorization r d e :
  insert_audit_event r d = Raise e → is_AuthorizationError e = false.
Proof.
  unfold insert_audit_event, pg_check, pg_unique. rw !result_seq_Raise !raise_if_Raise.
  naive_solver.
Qed.

Lemma insert_audit_cases t at_ aid sub act dec reason corr md w :
  _insert_audit t at_ aid sub act dec reason corr md w =
  match insert_audit_event (mkAuditRow (rng w 0) (instant t) at_ aid sub act dec reason corr
          (py_dict (py_sorted pair_leb md))) (dbof w) with
  | Ok d => (World (set_db d (store w)) (λ n, rng w (S n)), Ok tt)
  | Raise e => (World (store w) (λ n, rng w (S n)), Raise e)
  end.
Proof.
  unfold _insert_audit. apply run_uuid4. unfold statement, execute. cbn [store rng].
  by destruct (insert_audit_event _ _).
Qed.

(** Recording an event: it is stored, or nothing is, and the error is not one of
authorization. *)
Lemma record_audit_adds t actor_id subject action decision reason corr md w w' r :
  _record_audit t (py "human_operator") actor_id subject action decision reason corr md w = (w', r) →
  (∃ a, access_event actor_id subject action decision reason corr t md a ∧
        pg_adds [a] (store w) (store w')) ∨
  (∃ e, r = Raise e ∧ is_AuthorizationError e = false ∧ pg_adds [] (store w) (store w')).
Proof.
  set (row := mkAuditRow (rng w 0) (instant t) (py "human_operator") actor_id subject action decision
    reason corr (py_dict (py_sorted pair_leb md))).
  assert (Hev : access_event actor_id subject action decision reason corr t md (_audit_from_row row)).
  { split; try exact eq_refl; [by apply instant_utc|]. by apply metadata_roundtrip. }
  unfold _record_audit, _connect. destruct (pg_shutting_down _).
  { intros [= <- <-]. right. eexists. split; [done|]. split; [done|]. by apply pg_adds_same. }
  set (w1 := World (next_fate (store w)) (rng w)).
  destruct (_insert_audit t _ _ _ _ _ _ _ _ w1) as [w2 r2] eqn:Hins.
  assert (Hcase : (∃ e, r2 = Raise e ∧ is_AuthorizationError e = false) ∨
                  r2 = Ok tt ∧ dbof w2 = with_audit (λ l, l ++ [row]) (dbof w)).
  { rw insert_audit_cases in Hins. change (insert_audit_event _ _) with (insert_audit_event row (dbof w)) in Hins.
    destruct (insert_audit_event row (dbof w)) as [d|e] eqn:Hi; injection Hins as <- <-.
    - right. split; [done|]. unfold insert_audit_event in Hi. checks_in Hi.
      by destruct Hi as (_ & _ & _ & _ & [= <-]).
    - left. exists e. split; [done|]. by eapply insert_audit_not_authorization. }
  assert (Hnone : ∀ e d w3, is_AuthorizationError e = false → d = pg_db (store w) →
    (rollback d w3, Raise e) = (w', r) →
    (∃ e, r = Raise e ∧ is_AuthorizationError e = false ∧ pg_adds [] (store w) (store w'))).
  { intros e d w3 He -> [= <- <-]. exists e. split; [done|]. split; [done|]. by apply pg_adds_same. }
  destruct Hcase as [(e & -> & He)|[-> Hd]].
  { destruct (pg_fates _ 0); intros Hr; right;
      try exact (Hnone e _ w2 He eq_refl Hr).
    injection Hr as <- <-. eexists. split; [done|]. split; [done|]. by apply pg_adds_same. }
  assert (Hadd : pg_adds [_audit_from_row row] (store w) (store w2)).
  { unfold pg_adds. change (pg_db (store w2)) with (dbof w2). rw Hd. split; [done|].
    unfold trail. cbn [with_audit t_audit]. by rw fmap_app. }
  destruct (pg_fates _ 0).
  2: { intros [= <- <-]. right. eexists. split; [done|]. split; [done|]. by apply pg_adds_same. }
  all: destruct (deferred_constraints _); intros Hr; try (right; exact (Hnone PsycopgError _ w2 eq_refl eq_refl Hr));
    left; injection Hr as <- <-; by eexists.
Qed.

Lemma record_operator_access_adds actor_id subject action decision reason corr now md w w' r :
  Persistence.record_operator_access actor_id subject action decision reason corr now md w = (w', r) →
  (∃ a, access_event actor_id subject action decision reason corr now md a ∧
        pg_adds [a] (store w) (store w')) ∨
  (∃ e, r = Raise e ∧ is_AuthorizationError e = false ∧ pg_adds [] (store w) (store w')).
Proof.
  assert (Hchk : ∀ (c : result unit) (k : PG unit),
    (∀ e, c = Raise e → is_AuthorizationError e = false) →
    (k w = (w', r) → (∃ a, access_event actor_id subject action decision reason corr now md a ∧
        pg_adds [a] (store w) (store w')) ∨
      (∃ e, r = Raise e ∧ is_AuthorizationError e = false ∧ pg_adds [] (store w) (store w'))) →
    (lift c;; k) w = (w', r) → (∃ a, access_event actor_id subject action decision reason corr now md a ∧
        pg_adds [a] (store w) (store w')) ∨
      (∃ e, r = Raise e ∧ is_AuthorizationError e = false ∧ pg_adds [] (store w) (store w'))).
  { intros [[]|e] k Hc Hk; [exact Hk|]. intros [= <- <-]. right. exists e. split; [done|].
    split; [by apply Hc|]. by apply pg_adds_same. }
  unfold Persistence.record_operator_access.
  apply Hchk. { intros e. unfold require_aware. repeat case_match; by intros [= <-]. }
  do 6 (apply Hchk; [intros e He; by apply raise_if_Raise in He as [_ ->]|]).
  destruct (astimezone_utc now) as [t|e] eqn:Ht; last first.
  { intros [= <- <-]. right. exists e. split; [done|]. split; [|by apply pg_adds_same].
    unfold astimezone_utc, utcoffset in Ht. repeat case_match; by simplify_eq. }
  intros [(a & Ha & Hadd)|?]%record_audit_adds; [left|by right]. exists a. split; [|done].
  apply astimezone_utc_Ok in Ht as [Ht _]. destruct Ha. split; try done. congruence.
Qed.

#[export] Instance pg_operator_laws : OperatorStoreLaws Pg.
Proof.
  refine {| os_adds := pg_adds |}.
  - intros s. by apply pg_adds_same.
  - intros l l' s1 s2 s3 [H1 H2] [H3 H4]. split; [congruence|]. by rw H4 H2 app_assoc.
  - intros k w. apply pg_adds_same, reads_get_endpoint.
  - intros k w. apply pg_adds_same, reads_get_identity.
  - intros k now w. apply pg_adds_same, reads_endpoint_status.
  - intros after limit w. apply pg_adds_same, reads_list_endpoint_page.
  - intros. by apply record_operator_access_adds.
Defined.

(** ** Accountability *)

(** What one request does to the database, and what its answer means. *)
Lemma handle_accountable printable verify policy request received_at w w' r :
  OperatorApi.handle printable verify policy request received_at w = (w', r) →
  ∃ l, facts (dbof w') = facts (dbof w) ∧ trail (dbof w') = trail (dbof w) ++ l ∧
    match r with
    | Ok response => ∃ now corr, astimezone_utc received_at = Ok now ∧
        answered verify policy request now corr l response
    | Raise _ => True
    end.
Proof.
  intros Hrun. destruct (astimezone_utc received_at) as [now|e] eqn:Hnow.
  - pose proof (traced_handle printable verify policy request received_at now Hnow w)
      as (l & [Hf Ht] & Hl).
    rw Hrun in Hf Ht Hl. exists l. split; [done|]. split; [done|]. cbn in Hl.
    destruct r as [resp|e]; [|done]. destruct Hl as [corr Hl]. by exists now, corr.
  - exists []. unfold OperatorApi.handle in Hrun. rw Hnow in Hrun.
    destruct (require_aware received_at _) as [[]|e']; injection Hrun as <- <-;
      by rw app_nil_r.
Qed.

(** C19: over PostgreSQL the operator application is read-only and accountable. Whatever the request,
the verifier, the database and the fates of its transactions, every table but the audit trail is as
before, and the trail only grows. An answer is 200 only for a principal the verifier vouched for now,
who matches the pinned issuer, tenant, subject and client, holds the role with MFA, and whose session
is current and young enough; the trail then holds the accepted authentication and the accepted read
of exactly the resource named by the request, under one correlation ID with the session's facts.
Every other answer is a fixed 401, 403 or 404 without data, and its rejection is stored too. *)
Theorem operator_access_accountable printable verify policy request received_at w w' r :
  OperatorApi.handle printable verify policy request received_at w = (w', r) →
  ∃ l, facts (dbof w') = facts (dbof w) ∧ trail (dbof w') = trail (dbof w) ++ l ∧
    match r with
    | Ok response => ∃ now corr, astimezone_utc received_at = Ok now ∧
        answered verify policy request now corr l response
    | Raise _ => True
    end.
Proof. apply handle_accountable. Qed.

Module OperatorSample.
Definition policy : OperatorAuthorizationPolicy :=
  mkOperatorPolicy (py "https://idp.example") (py "tenant-1") (py "alice") (py "console")
    (py "viewer") MAX_OPERATOR_SESSION_AGE.
Definition principal (mfa : bool) : OperatorPrincipal :=
  mkOperatorPrincipal (py "https://idp.example") (py "tenant-1") (py "alice") (py "session-9")
    (py "console") [py "viewer"] (PgSample.at_ 0) (PgSample.at_ 600) mfa.
(** A verifier that knows two tokens. *)
Definition verify : OperatorSessionVerifier := λ token _,
  if bool_decide (token = py "Bearer good") then Ok (Some (principal true))
  else if bool_decide (token = py "Bearer weak") then Ok (Some (principal false))
  else Raise (verr "unknown token").
Definition request (token : string) (path : pystr) : OperatorRequest :=
  mkOperatorRequest (py "GET") path (Some (py token)) [].
Definition run (token : string) (path : pystr) : world Pg * result OperatorResponse :=
  OperatorApi.handle (λ _, false) verify policy (request token path) (PgSample.at_ 30) PgSample.w5.
Definition detail_path : pystr := py "/endpoints/" ++ uuid_str (uid 1004).

(** The four answers. *)
Definition status_of (r : result OperatorResponse) : option Z :=
  match r with Ok resp => Some (os_status resp) | Raise _ => None end.
Example statuses :
  [status_of (run "Bearer good" detail_path).2; status_of (run "Bearer good" (py "/endpoints")).2;
   status_of (run "Bearer good" (py "/nothing")).2; status_of (run "Bearer weak" detail_path).2;
   status_of (run "Bearer bad" detail_path).2]
  = [Some 200; Some 200; Some 404; Some 403; Some 401]%Z.
Proof. vm_compute. reflexivity. Qed.
End OperatorSample.

Lemma operator_access_accountable_witness :
  ∃ l, OperatorSample.status_of (OperatorSample.run "Bearer good" OperatorSample.detail_path).2 = Some 200%Z ∧
    facts (dbof (OperatorSample.run "Bearer good" OperatorSample.detail_path).1)
      = facts (dbof PgSample.w5) ∧
    trail (dbof (OperatorSample.run "Bearer good" OperatorSample.detail_path).1)
      = trail (dbof PgSample.w5) ++ l.
Proof.
  destruct (operator_access_accountable (λ _, false) OperatorSample.verify OperatorSample.policy
    (OperatorSample.request "Bearer good" OperatorSample.detail_path) (PgSample.at_ 30) PgSample.w5
    _ _ (surjective_pairing _)) as (l & Hf & Ht & _).
  exists l. split; [vm_compute; reflexivity|]. split; [exact Hf|exact Ht].
Defined.
