(* ===== verification/OperatorBrowse.v ===== *)
(** * Browsing the operator pages

Over a database whose transactions commit, an authorized operator who opens the
endpoint list and follows its links sees every endpoint exactly once, in order of
its ID, and reaches a last page. *)
From stdpp Require Import prelude strings gmap sorting pretty ssreflect.
From S2P Require Import Prelude Uuid PyTime Sha256 Json Text JsonLoads UuidText Domain Views OperatorApi.
From S2P Require Import ControlPlane Paging Database Persistence PersistenceProofs PersistenceInvariant PersistenceRefinement PersistenceTheorems PersistenceBehaviour PersistenceCalls OperatorExchange.

Set Warnings "-clear-no-such-hyp".

(** ** Reads that commit *)

(** Every transaction to come commits. *)
Definition settled (w : world Pg) : Prop :=
  pg_shutting_down (store w) = false ∧ ∀ n, pg_fates (store w) n = Commits.

(** The process after a read: same tables, same draws. *)
Record after_read (w w' : world Pg) : Prop := {
  ard_db : dbof w' = dbof w;
  ard_rng : rng w' = rng w;
  ard_settled : settled w';
}.

Lemma after_read_trans w1 w2 w3 : after_read w1 w2 → after_read w2 w3 → after_read w1 w3.
Proof. intros [H1 H2 _] [H3 H4 ?]. split; congruence || done. Qed.
Lemma after_read_refl w : settled w → after_read w w.
Proof. by split. Qed.

(** [m] returns [a] and only reads. *)
Definition returns {A} (m : PG A) (w : world Pg) (a : A) : Prop :=
  ∃ w', m w = (w', Ok a) ∧ after_read w w'.

Lemma returns_bind {A B} (m : PG A) (k : A → PG B) w a b :
  returns m w a → (∀ w', after_read w w' → returns (k a) w' b) → returns (m ≫= k) w b.
Proof.
  intros (w1 & Hm & H1) Hk. destruct (Hk w1 H1) as (w2 & Hk2 & H2). exists w2.
  split; [by eapply run_bind|by eapply after_read_trans].
Qed.
Lemma returns_lift {A} (r : result A) w a : settled w → r = Ok a → returns (lift r) w a.
Proof. intros Hs ->. exists w. split; [done|by apply after_read_refl]. Qed.

Lemma settled_next w : settled w → after_read w (World (next_fate (store w)) (rng w)).
Proof. intros [Hs Hf]. split; [done..|]. split; [done|]. intros n. apply Hf. Qed.

Lemma returns_connect {A B} (f : Db → B) (g : B → result A) w a :
  settled w → deferred_constraints (dbof w) = true → g (f (dbof w)) = Ok a →
  returns (_connect (b ← select f; lift (g b))) w a.
Proof.
  intros Hs Hd Hg. exists (World (next_fate (store w)) (rng w)). split; [|by apply settled_next].
  apply connect_run; [destruct Hs as [? Hs]; split; [done|apply Hs]| |done].
  apply run_select. unfold lift. f_equal. exact Hg.
Qed.
Lemma returns_connect_select {B} (f : Db → B) w :
  settled w → deferred_constraints (dbof w) = true → returns (_connect (select f)) w (f (dbof w)).
Proof.
  intros Hs Hd. exists (World (next_fate (store w)) (rng w)). split; [|by apply settled_next].
  apply connect_run; [destruct Hs as [? Hs]; split; [done|apply Hs]|reflexivity|done].
Qed.

(** ** The endpoints a database shows *)
Definition endpoints_of (d : Db) : list Endpoint :=
  (λ kr, endpoint_of kr.1 kr.2) <$> map_to_list (t_endpoints d).

(** The status a database shows of an endpoint. *)
Definition status_in (d : Db) (now : datetime) (e : Endpoint) : EndpointStatus :=
  mkEndpointStatus (ep_endpoint_id e)
    (default PENDING (ir_status <$> t_identities d !! ep_identity_id e))
    (derive_health default_FreshnessPolicy now (ep_last_heartbeat_at e)) (ep_last_heartbeat_at e).

Lemma elem_of_endpoints_of d e :
  e ∈ endpoints_of d ↔ ∃ k r, t_endpoints d !! k = Some r ∧ e = endpoint_of k r.
Proof.
  unfold endpoints_of. rw list_elem_of_fmap. split.
  - intros ([k r] & -> & H%elem_of_map_to_list). by exists k, r.
  - intros (k & r & H & ->). exists (k, r). split; [done|]. by apply elem_of_map_to_list.
Qed.

Lemma endpoints_of_ids d : distinct_ids (endpoints_of d).
Proof.
  unfold distinct_ids, endpoints_of. rw -list_fmap_compose. apply (NoDup_fst_map_to_list (t_endpoints d)).
Qed.

Section reading.
Context (d : Db) (Hwf : db_wf d).

Lemma returns_get_endpoint k r w :
  settled w → dbof w = d → t_endpoints d !! k = Some r →
  returns (Persistence.get_endpoint k) w (endpoint_of k r).
Proof.
  intros Hs Hw Hr. eapply returns_bind.
  { apply returns_connect_select; [done|]. rw Hw. by apply db_wf_deferred. }
  intros w' Hw'. cbv beta. rw Hw Hr. apply returns_lift; [apply Hw'|].
  apply endpoint_from_row_run. by destruct (dw_endpoint d Hwf k r Hr).
Qed.

Lemma returns_get_identity k r w :
  settled w → dbof w = d → t_identities d !! k = Some r →
  returns (Persistence.get_identity k) w (identity_of k r).
Proof.
  intros Hs Hw Hr. eapply returns_bind.
  { apply returns_connect_select; [done|]. rw Hw. by apply db_wf_deferred. }
  intros w' Hw'. cbv beta. rw Hw Hr. apply returns_lift; [apply Hw'|].
  apply identity_from_row_run. by destruct (dw_identity d Hwf k r Hr).
Qed.

Lemma returns_endpoint_status e now w :
  settled w → dbof w = d → aware now = true → e ∈ endpoints_of d →
  returns (Persistence.endpoint_status (ep_endpoint_id e) now None) w (status_in d now e).
Proof.
  intros Hs Hw Hnow (k & r & Hr & ->)%elem_of_endpoints_of.
  destruct (dw_endpoint d Hwf k r Hr) as (_ & i & Hi & _).
  eapply returns_bind; [apply (returns_lift _ _ tt); [done|by apply require_aware_Ok]|].
  intros w1 H1. eapply returns_bind; [apply returns_get_endpoint; [apply H1| |exact Hr]; by rw (ard_db _ _ H1)|].
  intros w2 H2. eapply returns_bind.
  { apply returns_get_identity; [apply H2| |exact Hi]. by rw (ard_db _ _ H2) (ard_db _ _ H1). }
  intros w3 H3. apply (returns_lift (Ok _)); [apply H3|]. unfold status_in. cbn. by rw Hi.
Qed.

Lemma returns_render_rows es now w :
  settled w → dbof w = d → aware now = true → (∀ e, e ∈ es → e ∈ endpoints_of d) →
  returns (render_rows es now) w (zip_with row_html es (status_in d now <$> es)).
Proof.
  revert w. induction es as [|e es IH]; intros w Hs Hw Hnow Hes; cbn [render_rows].
  { by apply (returns_lift (Ok [])). }
  eapply returns_bind; [apply returns_endpoint_status; [done..|apply Hes; by left]|].
  intros w1 H1. eapply returns_bind.
  { apply IH; [apply H1|by rw (ard_db _ _ H1)|done|]. intros e' He'. apply Hes. by right. }
  intros w2 H2. by apply (returns_lift (Ok _)); [apply H2|].
Qed.
End reading.

(** ** One page *)
Lemma map_result_fmap {A B} (f : A → result B) (g : A → B) l :
  (∀ x, x ∈ l → f x = Ok (g x)) → map_result f l = Ok (g <$> l).
Proof.
  induction l as [|x l IH]; intros Hf; [done|]. cbn [map_result].
  rw (Hf x (list_elem_of_here _ _)). cbn [mbind result_bind]. rw IH; [done|].
  intros y Hy. apply Hf. by right.
Qed.

Lemma filter_fmap_agree {A B} (f : A → B) (P : B → Prop) (Q : A → Prop)
    `{!∀ y, Decision (P y)} `{!∀ x, Decision (Q x)} (l : list A) :
  (∀ x, P (f x) ↔ Q x) → filter P (f <$> l) = f <$> filter Q l.
Proof.
  intros HPQ. induction l as [|x l IH]; [done|]. cbn [fmap list_fmap]. rw !filter_cons.
  specialize (HPQ x). destruct (decide (P (f x))), (decide (Q x)); try tauto. cbn. by f_equal.
Qed.

#[export] Instance key_leb_cmp {R} : Comparison (@key_leb R).
Proof. apply (cmp_on fst). Qed.

(** Sorting rows by key sorts the endpoints they describe by ID. *)
Lemma sorted_rows rows :
  NoDup (fst <$> rows) →
  (λ kr, endpoint_of kr.1 kr.2) <$> py_sorted key_leb rows =
  py_sorted endpoint_id_leb ((λ kr : uuid * EndpointRow, endpoint_of kr.1 kr.2) <$> rows).
Proof.
  intros Hnd. apply sorted_unique.
  - unfold distinct_ids. rw -list_fmap_compose py_sorted_perm. exact Hnd.
  - assert (Hs := py_sorted_sorted (cmp := key_leb) rows). induction Hs as [|kr l _ IH Hall]; [constructor|].
    cbn [fmap list_fmap]. constructor; [exact IH|]. apply Forall_fmap. exact Hall.
  - apply py_sorted_sorted.
  - by rw !py_sorted_perm.
Qed.

Lemma returns_page d after limit w :
  db_wf d → settled w → dbof w = d → (1 ≤ limit ≤ 1000)%Z →
  returns (Persistence.list_endpoint_page after limit) w (page_of (endpoints_of d) after limit).
Proof.
  intros Hwf Hs Hw Hl. eapply returns_bind.
  { apply (returns_lift _ _ tt); [done|]. by rw (_ : (_ && _)%Z = true); [|lia]. }
  intros w1 H1. cbv beta.
  set (rows := match after with
               | None => map_to_list (t_endpoints d)
               | Some a => filter (λ kr, uuid_gtb kr.1 a = true) (map_to_list (t_endpoints d))
               end).
  assert (Hrows : (λ kr, endpoint_of kr.1 kr.2) <$> rows =
    filter (λ e, after_cursor after e = true) (endpoints_of d)).
  { subst rows. unfold endpoints_of. destruct after as [a|].
    - symmetry. by apply filter_fmap_agree.
    - symmetry. by apply filter_every. }
  assert (Hsub : ∀ kr, kr ∈ rows → kr ∈ map_to_list (t_endpoints d)).
  { subst rows. destruct after; [|done]. by intros kr [_ ?]%list_elem_of_filter. }
  assert (Hnd : NoDup rows.*1).
  { assert (H := distinct_ids_filter _ (λ e, after_cursor after e = true) (endpoints_of_ids d)).
    rw -Hrows in H. unfold distinct_ids in H. rw -list_fmap_compose in H. exact H. }
  apply (returns_connect (λ d', _) (map_result _)); [apply H1|rw (ard_db _ _ H1) Hw; by apply db_wf_deferred|].
  rw (ard_db _ _ H1) Hw. fold rows.
  rw (map_result_fmap _ (λ kr, endpoint_of kr.1 kr.2)).
  - unfold page_of. by rw -Hrows -sorted_rows // fmap_take.
  - intros [k r] Hkr%elem_of_take. destruct Hkr as (i & Hi & _).
    apply list_elem_of_lookup_2 in Hi. rw py_sorted_perm in Hi. apply Hsub, elem_of_map_to_list in Hi.
    apply endpoint_from_row_run. by destruct (dw_endpoint d Hwf k r Hi).
Qed.

(** ** The page as bytes *)
Definition scalar (s : pystr) : Prop := forallb is_scalar s = true.

Lemma scalar_app s t : scalar s → scalar t → scalar (s ++ t).
Proof. unfold scalar. intros H1 H2. by rw forallb_app H1 H2. Qed.

Lemma scalar_escape s : scalar s → scalar (escape s).
Proof.
  unfold scalar, escape. induction s as [|c s IH]; [done|]. cbn [forallb].
  intros [Hc Hs]%andb_true_iff. rw bind_cons forallb_app (IH Hs) andb_true_r.
  unfold escape_char. repeat case_match; try reflexivity. cbn [forallb]. by rw Hc.
Qed.

Lemma scalar_ascii s : forallb is_ascii s = true → scalar s.
Proof. apply forallb_mono. intros c Hc. unfold is_ascii in Hc. apply is_scalar_spec. lia. Qed.

Lemma scalar_uuid u : scalar (uuid_str u).
Proof.
  apply scalar_ascii. eapply forallb_mono; [|apply uuid_str_chars].
  intros c Hc. unfold uuid_char, is_lower_hex in Hc. unfold is_ascii. lia.
Qed.

Lemma scalar_decn n z : scalar (decn n z).
Proof.
  revert z. induction n as [|n IH]; intros z; [done|]. cbn [decn]. apply scalar_app; [apply IH|].
  unfold scalar. cbn [forallb]. rw andb_true_r. apply is_scalar_spec.
  pose proof (Z.mod_pos_bound z 10 ltac:(lia)). lia.
Qed.

Create HintDb scalar.
#[local] Hint Resolve scalar_app scalar_escape scalar_uuid scalar_decn : scalar.
#[local] Hint Extern 1 (scalar (py _)) => reflexivity : scalar.
#[local] Hint Extern 1 (scalar []) => reflexivity : scalar.
#[local] Hint Extern 1 (scalar quote) => reflexivity : scalar.

Lemma scalar_time t : scalar (_time t).
Proof.
  destruct t as [t|]; [|reflexivity]. cbn [_time]. unfold isoformat, iso_time, iso_offset.
  destruct (ymd_of_days _) as [[y m] dd]. repeat case_match; eauto 25 with scalar.
Qed.
#[local] Hint Resolve scalar_time : scalar.

Ltac scalars :=
  repeat lazymatch goal with |- scalar (_ ++ _) => apply scalar_app end;
  try reflexivity; eauto 3 with scalar.

(** The free text of an endpoint can be encoded. *)
Definition encodable (e : Endpoint) : Prop := scalar (ep_display_name e) ∧ scalar (ep_architecture e).

Lemma scalar_row e st : encodable e → scalar (row_html e st).
Proof.
  intros [Hn Ha]. unfold row_html, anchor.
  assert (Hp : scalar (platform_value (ep_platform e))) by by destruct (ep_platform e).
  assert (Hl : scalar (lifecycle_value (es_lifecycle st))) by by destruct (es_lifecycle st).
  assert (Hh : scalar (health_value (es_health st))) by by destruct (es_health st).
  scalars.
Qed.

Lemma scalar_rows es sts :
  (∀ e, e ∈ es → encodable e) → scalar (concat (zip_with row_html es sts)).
Proof.
  revert sts. induction es as [|e es IH]; intros [|st sts] Hes; try reflexivity.
  cbn [zip_with concat]. apply scalar_app; [apply scalar_row, Hes; by left|].
  apply IH. intros e' He'. apply Hes. by right.
Qed.

Lemma encode_page es sts next_after :
  (∀ e, e ∈ es → encodable e) →
  let page := page_html (zip_with row_html es sts) next_after in
  encode_utf8 page = Ok (utf8 page) ∧ utf8_decode (utf8 page) = Ok page.
Proof.
  intros Hes page. assert (Hp : scalar page); last first.
  { split; [unfold encode_utf8; by rw Hp|by apply utf8_roundtrip]. }
  subst page. unfold page_html, html_head, no_endpoints, next_link, anchor.
  pose proof (scalar_rows es sts Hes) as Hrows.
  scalars.
  - destruct (concat (zip_with row_html es sts)); [reflexivity|exact Hrows].
  - destruct next_after; [|reflexivity]. scalars.
Qed.

(** ** Recorded accesses *)

(** The process after an access was recorded. *)
Record after_record (w w' : world Pg) : Prop := {
  arc_facts : facts (dbof w') = facts (dbof w);
  arc_settled : settled w';
  arc_rng n : rng w' n = rng w (S n);
  arc_fresh u : event_fresh u (dbof w) → rng w 0 ≠ u → event_fresh u (dbof w');
}.

(** Literal arguments the columns hold. *)
Definition access_words (subject action decision reason : pystr) : bool :=
  forallb (λ s, negb (str_empty s) && text_ok s) [subject; action; reason]
  && (str_len subject <=? 256)%Z && (str_len action <=? 128)%Z && (str_len reason <=? 512)%Z
  && bool_decide (decision ∈ [py "accepted"; py "rejected"]).

Section sessions.
Context (printable : Z → bool).

(** [str.isprintable] is false of surrogates. *)
Context (Hsurrogates : ∀ c, is_surrogate c = true → printable c = false).

Lemma printable_text s n : value_invalid printable n s = false →
  text_ok s = true ∧ empty_or_longer s n = false.
Proof.
  unfold value_invalid, empty_or_longer. intros H. checks_in H. destruct H as [[He Hl] Hp].
  split; [|rw He; lia]. unfold isprintable in Hp. revert Hp. unfold text_ok. apply forallb_mono.
  intros c Hc. unfold char_ok. destruct (Z.ltb_spec c 128) as [Hlt|Hge].
  - unfold is_surrogate. lia.
  - destruct (is_surrogate c) eqn:Hs; [by rw (Hsurrogates c Hs) in Hc|].
    by destruct (Z.eqb_spec 0 c); [lia|].
Qed.

Lemma record_access_run p subject action decision reason corr t w :
  principal_ok printable p → dt_in_range t = true → access_words subject action decision reason = true →
  settled w → db_wf (dbof w) → event_fresh (rng w 0) (dbof w) →
  ∃ w', OperatorApi._audit p subject action decision reason corr (utc t) w = (w', Ok tt) ∧
    after_record w w'.
Proof.
  intros [Hv Hsub _ _] Ht Hw Hs Hwf Hf. unfold access_words in Hw. cbn [forallb] in Hw.
  checks_in Hw. destruct Hw as ((((Hsra & Ls) & La) & Lr) & Hdec).
  destruct Hsra as ([Es Ts] & [Ea Ta] & [Er Tr] & _).
  apply printable_text in Hsub as [Tp Lp].
  assert (Hvals : ∀ v, v ∈ [op_issuer p; op_tenant p; op_session_id p; op_client_id p] →
    text_ok v = true ∧ empty_or_longer v 512 = false) by (intros v Hin; by apply printable_text, Hv).
  destruct (Hvals (op_issuer p)) as [Ti Li]; [set_solver|].
  destruct (Hvals (op_tenant p)) as [Tt Lt]; [set_solver|].
  destruct (Hvals (op_session_id p)) as [Tse Lse]; [set_solver|].
  destruct (Hvals (op_client_id p)) as [Tc Lc]; [set_solver|]. clear Hvals Hv.
  unfold empty_or_longer in *. checks_in Lp. checks_in Li. checks_in Lt. checks_in Lse. checks_in Lc.
  assert (Hsafe : audit_safe (py "human_operator") (op_subject p) subject action decision reason
    (principal_metadata p) = true).
  { apply audit_safe_intro; try assumption; try reflexivity.
    - unfold principal_metadata. metadata.
    - apply Z.leb_le, Lp.
    - by apply Z.leb_le.
    - by apply Z.leb_le.
    - by apply Z.leb_le.
    - rw !elem_of_cons in Hdec |- *. tauto. }
  destruct (audit_step (utc t) _ _ _ _ _ _ corr _ (World (next_fate (store w)) (rng w)) Hsafe Hf)
    as (w' & Hrun & [Hfacts Haud] & Hrng & Hfr).
  assert (Hset : settled w').
  { rw insert_audit_run // in Hrun. injection Hrun as <-. destruct Hs as [Hs1 Hs2].
    split; [exact Hs1|]. intros n. apply Hs2. }
  exists w'. split; [|by split].
  unfold OperatorApi._audit. cbn [os_record_operator_access pg_operator_store].
  unfold Persistence.record_operator_access.
  apply (run_lift _ _ _ tt); [by apply require_aware_Ok|].
  assert (Hchk : ∀ v n, str_empty v = false → (str_len v ≤ n)%Z → empty_or_longer v n = false).
  { intros v n Hv Hn. unfold empty_or_longer. rw Hv. cbn. lia. }
  apply (run_lift _ _ _ tt); [apply raise_if_Ok, Hchk; apply Lp|].
  do 2 (apply (run_lift _ _ _ tt); [apply raise_if_Ok, Hchk; done|]).
  apply (run_lift _ _ _ tt); [apply raise_if_Ok; by rw bool_decide_true|].
  apply (run_lift _ _ _ tt); [apply raise_if_Ok, Hchk; done|].
  apply (run_lift _ _ _ tt).
  { apply raise_if_Ok. unfold principal_metadata. cbn [existsb length fst snd].
    unfold empty_or_longer. destruct Lc, Li, Lse, Lt.
    rw !(proj2 (Z.ltb_ge 512 _)) //. }
  eapply run_lift; [by apply astimezone_utc_utc|].
  apply connect_run; [destruct Hs as [? Hs]; split; [done|apply Hs]|exact Hrun|].
  apply db_wf_deferred. by eapply db_wf_facts.
Qed.

(** ** The list route *)
Context (verify : OperatorSessionVerifier) (policy : OperatorAuthorizationPolicy).

(** A current session of an authorized operator, as the handler sees it. *)
Record session (token : pystr) (received_at : datetime) (p : OperatorPrincipal) (t : Z) : Prop := {
  ss_now : astimezone_utc received_at = Ok (utc t);
  ss_range : dt_in_range t = true;
  ss_token : authorization_length_ok (Some token) = Some token;
  ss_verified : verify token (utc t) = Ok (Some p);
  ss_principal : principal_ok printable p;
  ss_authorized : authorized policy p (utc t);
}.

Definition after_query (after : option uuid) : pystr :=
  match after with None => [] | Some u => py "after=" ++ uuid_str u end.

Definition list_request (token : pystr) (after : option uuid) : OperatorRequest :=
  mkOperatorRequest (py "GET") (py "/endpoints") (Some token) (after_query after).

Lemma endpoint_page_after_query after : _endpoint_page_after (after_query after) = Ok after.
Proof.
  destruct after as [u|]; [|done]. unfold _endpoint_page_after, after_query.
  rw (_ : str_empty _ = false) //. rw (proj2 (strip_prefix_Some _ _ _) eq_refl).
  by rw uuid_of_str_str bool_decide_true.
Qed.

(** The cursor of the next page, when [l] continues after its first page. *)
Definition next_cursor (l : list Endpoint) : option uuid :=
  if (100 <? length l)%nat then cursor_of (take 100 l) else None.

Lemma split_page_take l :
  split_page (take 101 l) = (take 100 l, next_cursor l).
Proof.
  unfold split_page, OPERATOR_ENDPOINT_PAGE_SIZE, next_cursor, cursor_of.
  change (Z.to_nat 100) with 100. rw take_take (_ : 100 `min` 101 = 100) //. f_equal.
  rw length_take. destruct (Nat.ltb_spec 100 (length l)).
  - by rw (proj2 (Z.ltb_lt _ _)); [|lia].
  - by rw (proj2 (Z.ltb_ge _ _)); [|lia].
Qed.

(** One page as it is rendered from the tables. *)
Definition shown (d : Db) (t : Z) (es : list Endpoint) (next_after : option uuid) : pystr :=
  page_html (zip_with row_html es (status_in d (utc t) <$> es)) next_after.

(** The next [n] draws are new event IDs. *)
Definition draws_fresh (n : nat) (w : world Pg) : Prop :=
  distinct_draws (rng w) n ∧ ∀ i, i < n → event_fresh (rng w i) (dbof w).

(** The process after a request: the same facts, three draws later. *)
Record after_request (w w' : world Pg) : Prop := {
  arq_facts : facts (dbof w') = facts (dbof w);
  arq_settled : settled w';
  arq_fresh n : draws_fresh (3 + n) w → draws_fresh n w';
}.

Lemma facts_endpoints_of d d' : facts d' = facts d → endpoints_of d' = endpoints_of d.
Proof. intros (He & _)%facts_fields. unfold endpoints_of. by rw He. Qed.
Lemma facts_shown d d' t es next : facts d' = facts d → shown d' t es next = shown d t es next.
Proof.
  intros (_ & Hi & _)%facts_fields. unfold shown. f_equal. f_equal. apply list_fmap_ext.
  intros _ e _. unfold status_in. by rw Hi.
Qed.

Lemma normalized_aware d d' : astimezone_utc d = Ok d' → aware d = true.
Proof using Type. unfold astimezone_utc, aware, utcoffset. by destruct (dt_tz d). Qed.

(** A request draws its correlation ID and records two accesses. *)
Lemma after_two_records w w1 w3 w4 :
  after_record (World (store w) (λ n, rng w (S n))) w1 → after_read w1 w3 → after_record w3 w4 →
  after_request w w4.
Proof using Type.
  intros [Hf1 _ Hr1 Hfr1] [Hdb Hr3 _] [Hf4 Hs4 Hr4 Hfr4].
  split; [by rw Hf4 Hdb Hf1|done|]. intros n [Hd Hall].
  assert (Hrng : ∀ i, rng w4 i = rng w (3 + i)) by (intros i; by rw Hr4 Hr3 Hr1).
  split; [intros i j Hi Hj; rw !Hrng; intros Heq%Hd; lia|].
  intros i Hi. rw Hrng. apply Hfr4; [rw Hdb; apply Hfr1; [apply Hall; lia|]|].
  - cbn. intros Heq%Hd; lia.
  - rw Hr3 Hr1. cbn. intros Heq%Hd; lia.
Qed.

Lemma list_request_run token received_at p t w l1 l2 :
  session token received_at p t → settled w → db_wf (dbof w) → draws_fresh 3 w →
  (∀ e, e ∈ endpoints_of (dbof w) → encodable e) →
  py_sorted endpoint_id_leb (endpoints_of (dbof w)) = l1 ++ l2 →
  ∃ w', OperatorApi.handle printable verify policy (list_request token (cursor_of l1)) received_at w
      = (w', Ok (_html (utf8 (shown (dbof w) t (take 100 l2) (next_cursor l2))))) ∧
    after_request w w'.
Proof.
  intros [Hnow Hrange Htok Hver Hp Haz] Hs Hwf [Hdis Hfr] Henc Hsorted.
  set (w0 := World (store w) (λ n, rng w (S n))).
  destruct (record_access_run p views_subject (py "operator.authenticate") (py "accepted")
    (py "external session verified") (rng w 0) t w0 Hp Hrange eq_refl Hs Hwf (Hfr 1 ltac:(lia)))
    as (w1 & Hrun1 & Hrec1). pose proof Hrec1 as [Hf1 Hs1 Hr1 Hfr1].
  assert (Hwf1 : db_wf (dbof w1)) by by eapply db_wf_facts.
  assert (Heps : endpoints_of (dbof w1) = endpoints_of (dbof w)) by by apply facts_endpoints_of.
  destruct (returns_page (dbof w1) (cursor_of l1) 101 w1 Hwf1 Hs1 eq_refl ltac:(lia))
    as (w2 & Hrun2 & H2).
  rw Heps (page_of_cursor _ 101 (endpoints_of_ids _) l1 l2 Hsorted) in Hrun2.
  assert (Hin : ∀ e, e ∈ take 100 l2 → e ∈ endpoints_of (dbof w)).
  { intros e (i & Hi & _)%elem_of_take. apply list_elem_of_lookup_2 in Hi.
    rw -(py_sorted_perm endpoint_id_leb (endpoints_of (dbof w))) Hsorted. apply elem_of_app. by right. }
  destruct (returns_render_rows (dbof w1) Hwf1 (take 100 l2) (utc t) w2) as (w3 & Hrun3 & H3);
    [apply H2|apply H2|done|by rw Heps|].
  assert (H13 : after_read w1 w3) by by eapply after_read_trans.
  destruct (encode_page (take 100 l2) (status_in (dbof w1) (utc t) <$> take 100 l2) (next_cursor l2))
    as [Hutf _]; [by intros e He%Hin; apply Henc|].
  assert (Hf3 : event_fresh (rng w3 0) (dbof w3)).
  { rw (ard_db _ _ H13) (ard_rng _ _ H13) Hr1. apply Hfr1; [by apply Hfr; lia|].
    cbn. intros Heq%Hdis; lia. }
  destruct (record_access_run p (py "endpoint:collection") (py "endpoint.list.read") (py "accepted")
    read_reason (rng w 0) t w3 Hp Hrange eq_refl (ard_settled _ _ H13)) as (w4 & Hrun4 & Hrec4);
    [by rw (ard_db _ _ H13)|done|].
  exists w4. split.
  - unfold OperatorApi.handle, list_request. cbn [or_authorization or_method or_path or_query_string].
    apply (run_lift _ _ _ tt); [by apply require_aware_Ok; eapply normalized_aware|].
    eapply run_lift; [exact Hnow|]. apply run_uuid4. fold w0.
    eapply run_bind.
    { unfold catch, _authenticate. rw Htok Hver. reflexivity. }
    cbv beta iota. eapply run_bind; [exact Hrun1|].
    eapply run_lift; [by eapply authorized_no_denial|]. cbv iota.
    rw (bool_decide_true (py "GET" = py "GET")) // (bool_decide_true (py "/endpoints" = py "/endpoints")) //.
    rw (_ : negb true || negb ((1 <=? str_len (py "/endpoints")) && (str_len (py "/endpoints") <=?
      MAX_OPERATOR_PATH_LENGTH))%Z || negb (isprintable printable (py "/endpoints")) = false); last first.
    { reflexivity. }
    unfold serve_list. rw endpoint_page_after_query.
    eapply run_bind; [exact Hrun2|]. cbv beta. change (Z.to_nat 101) with 101. rw split_page_take.
    eapply run_bind; [eapply run_bind; [exact Hrun3|reflexivity]|]. cbv beta.
    eapply run_lift; [exact Hutf|]. eapply run_bind; [exact Hrun4|].
    rw -(facts_shown (dbof w) (dbof w1)) //.
  - by eapply after_two_records.
Qed.
End sessions.

(** ** Following the links *)
Definition link_prefix : pystr := py "a href=" ++ quote ++ py "/endpoints?after=".

(** The cursor of a link to another page. *)
Definition link_target (tag : pystr) : option uuid :=
  rest ← strip_prefix link_prefix tag; uuid_of_str (take 36 rest).

Definition links (page : pystr) : list uuid := omap link_target (tags page).

(** Text without such a link that ends outside a tag. *)
Definition linkless (s : pystr) : Prop := scan_state None s = None ∧ links s = [].

Lemma links_app s t : scan_state None s = None → links (s ++ t) = links s ++ links t.
Proof. intros Hs. unfold links, tags. by rw (proj1 (scan_app _ _ _)) Hs omap_app. Qed.

Lemma linkless_app s t : linkless s → linkless t → linkless (s ++ t).
Proof.
  intros [H1 H2] [H3 H4]. split; [by rw (proj2 (scan_app _ _ _)) H1|]. by rw links_app // H2 H4.
Qed.

Lemma linkless_quiet s : quiet s = true → linkless s.
Proof. intros [Ht Hs]%quiet_scan. split; [done|]. unfold links. by rw Ht. Qed.

Lemma tags_anchor path :
  forallb (λ c, negb (c =? 62)%Z) path = true →
  tags (anchor path) = [py "a href=" ++ quote ++ path ++ quote].
Proof.
  intros Hp. unfold anchor, tags. rw (proj1 (scan_app _ _ _)) (proj1 (scan_app quote _ _)).
  rw (proj1 (scan_app path _ _)) (proj1 (inside_scan _ path Hp)) (proj2 (inside_scan _ path Hp)).
  reflexivity.
Qed.

Lemma uuid_no_gt prefix u :
  forallb (λ c, negb (c =? 62)%Z) prefix = true →
  forallb (λ c, negb (c =? 62)%Z) (prefix ++ uuid_str u) = true.
Proof.
  intros Hp. rw forallb_app Hp. eapply forallb_mono; [|apply uuid_str_chars].
  intros c Hc. unfold uuid_char, is_lower_hex in Hc. lia.
Qed.

Lemma linkless_detail_anchor u : linkless (anchor (py "/endpoints/" ++ uuid_str u)).
Proof.
  split; [by apply uuid_path_closed|]. unfold links. rw tags_anchor; [reflexivity|]. by apply uuid_no_gt.
Qed.

Lemma links_next_anchor u : links (anchor (py "/endpoints?after=" ++ uuid_str u)) = [u].
Proof.
  unfold links. rw tags_anchor; [|by apply uuid_no_gt]. cbn [omap list_omap].
  unfold link_target. rw (_ : py "a href=" ++ quote ++ (py "/endpoints?after=" ++ uuid_str u) ++ quote
    = link_prefix ++ (uuid_str u ++ quote)); [|by unfold link_prefix; rw -!app_assoc].
  rw (proj2 (strip_prefix_Some _ _ _) eq_refl). cbn [mbind option_bind].
  rw take_app_length'; [by rw uuid_of_str_str|by rw length_uuid_str].
Qed.

Ltac linkless :=
  repeat lazymatch goal with
  | |- linkless (_ ++ _) => apply linkless_app
  | |- linkless (anchor (py "/endpoints/" ++ _)) => apply linkless_detail_anchor
  | |- linkless (escape _) => apply linkless_quiet, quiet_escape
  | |- linkless (_time _) => apply linkless_quiet, quiet_time
  | |- linkless (py _) => split; vm_compute; reflexivity
  | |- linkless quote => split; vm_compute; reflexivity
  end.

Lemma linkless_row e st : linkless (row_html e st).
Proof. unfold row_html. linkless. Qed.

Lemma linkless_rows es sts : linkless (concat (zip_with row_html es sts)).
Proof.
  revert sts. induction es as [|e es IH]; intros [|st sts]; try (split; reflexivity).
  cbn [zip_with concat]. apply linkless_app; [apply linkless_row|apply IH].
Qed.

(** The link of a page is its cursor. *)
Lemma links_page es sts next_after :
  links (page_html (zip_with row_html es sts) next_after) = option_list next_after.
Proof.
  assert (Hskip : ∀ s t, linkless s → links (s ++ t) = links t).
  { intros s t [Hs Hl]. by rw links_app // Hl. }
  assert (Hbody : linkless match concat (zip_with row_html es sts) with [] => no_endpoints | b => b end).
  { pose proof (linkless_rows es sts) as Hr.
    destruct (concat (zip_with row_html es sts)); [split; vm_compute; reflexivity|exact Hr]. }
  unfold page_html. rw !(Hskip html_head) ?(Hskip (py _)) ?(Hskip _ _ Hbody) ?(Hskip (py _));
    try (split; vm_compute; reflexivity).
  destruct next_after as [u|]; cbn [next_link]; [|vm_compute; reflexivity].
  rw -(app_assoc (py "<nav>")) (Hskip (py "<nav>")); [|split; vm_compute; reflexivity].
  rw -(app_assoc (anchor _)) links_app; [|by apply uuid_path_closed]. by rw links_next_anchor.
Qed.

(** A client that opens the list and follows the link of each page it reads, for
at most [n] pages. *)
Section browsing.
Context (printable : Z → bool) (verify : OperatorSessionVerifier)
  (policy : OperatorAuthorizationPolicy) (token : pystr) (received_at : datetime).

Fixpoint browse (n : nat) (after : option uuid) : PG (list pystr) :=
  match n with
  | O => mret []
  | S n' =>
    response ← OperatorApi.handle printable verify policy (list_request token after) received_at;
    page ← lift (utf8_decode (os_body response));
    match head (links page) with
    | None => mret [page]
    | Some cursor => rest ← browse n' (Some cursor); mret (page :: rest)
    end
  end.

(** The pages of a list of endpoints: a hundred at a time. *)
Fixpoint pages (n : nat) (l : list Endpoint) : list (list Endpoint * option uuid) :=
  match n with
  | O => []
  | S n' =>
    (take 100 l, next_cursor l) ::
    match next_cursor l with None => [] | Some _ => pages n' (drop 100 l) end
  end.

Lemma next_cursor_None l : next_cursor l = None → length l ≤ 100.
Proof using Type.
  unfold next_cursor, cursor_of. destruct (Nat.ltb_spec 100 (length l)) as [Hlt|]; [|done].
  intros Hc%fmap_None%last_None. assert (Hz : length (take 100 l) = 0) by by rw Hc.
  rw length_take in Hz. lia.
Qed.

Lemma next_cursor_Some l u :
  next_cursor l = Some u → 100 < length l ∧ cursor_of (take 100 l) = Some u.
Proof using Type. unfold next_cursor. by destruct (Nat.ltb_spec 100 (length l)). Qed.

(** The cursor after two prefixes is that of the second, when it has one. *)
Lemma cursor_app l k u : cursor_of k = Some u → cursor_of (l ++ k) = Some u.
Proof using Type.
  unfold cursor_of. intros (e & He & ->)%fmap_Some. by rw last_app He.
Qed.

Lemma pages_all n l :
  length l < n → concat (fst <$> pages n l) = l ∧ Forall (λ c, length c.1 ≤ 100) (pages n l).
Proof using Type.
  revert l. induction n as [|n IH]; intros l Hn; [lia|]. cbn [pages fmap list_fmap concat fst].
  destruct (next_cursor l) as [u|] eqn:Hc.
  - apply next_cursor_Some in Hc as [Hlt _].
    destruct (IH (drop 100 l)) as [H1 H2]; [rw length_drop; lia|]. rw H1 take_drop.
    split; [done|]. constructor; [cbn [fst]; rw length_take; lia|done].
  - apply next_cursor_None in Hc. cbn [fmap list_fmap concat]. rw app_nil_r take_ge //.
    split; [done|]. by constructor.
Qed.
End browsing.

(** From the endpoints after a prefix [l1] on. *)
Lemma browse_rest printable verify policy token received_at p t d :
  (∀ c, is_surrogate c = true → printable c = false) →
  session printable verify policy token received_at p t →
  db_wf d → (∀ e, e ∈ endpoints_of d → encodable e) →
  ∀ m w l1 l2, settled w → facts (dbof w) = facts d → draws_fresh (3 * m) w →
    py_sorted endpoint_id_leb (endpoints_of d) = l1 ++ l2 → length l2 < m →
    ∃ w', browse printable verify policy token received_at m (cursor_of l1) w
      = (w', Ok ((λ c, shown d t c.1 c.2) <$> pages m l2)) ∧ facts (dbof w') = facts d.
Proof.
  intros Hsur Hsess Hwf Henc. induction m as [|m IH]; intros w l1 l2 Hs Hf Hd Hsplit Hlt; [lia|].
  assert (Heps : endpoints_of (dbof w) = endpoints_of d) by by apply facts_endpoints_of.
  destruct (list_request_run printable Hsur verify policy token received_at p t w l1 l2 Hsess Hs)
    as (w2 & Hreq & [Hf2 Hs2 Hd2]).
  { by eapply db_wf_facts. }
  { destruct Hd as [Hd1 Hd3]. split; [intros i j Hi Hj; apply Hd1; lia|intros i Hi; apply Hd3; lia]. }
  { by rw Heps. } { by rw Heps. }
  rw (facts_shown d) // in Hreq.
  set (page := shown d t (take 100 l2) (next_cursor l2)) in *.
  assert (Hdec : utf8_decode (utf8 page) = Ok page).
  { apply encode_page. intros e (i & Hi & _)%elem_of_take. apply list_elem_of_lookup_2 in Hi.
    apply Henc. rw -(py_sorted_perm endpoint_id_leb (endpoints_of d)) Hsplit. apply elem_of_app. by right. }
  assert (Hlinks : head (links page) = next_cursor l2).
  { unfold page, shown. rw links_page. by destruct (next_cursor l2). }
  cbn [pages fmap list_fmap fst snd]. fold page.
  destruct (next_cursor l2) as [u|] eqn:Hc.
  - apply next_cursor_Some in Hc as [Hlen Hcur].
    destruct (IH w2 (l1 ++ take 100 l2) (drop 100 l2)) as (w3 & Hrest & Hf3); [done|congruence| | | |].
    { apply Hd2. by rw (_ : 3 + 3 * m = 3 * S m); [|lia]. }
    { by rw -app_assoc take_drop. } { rw length_drop. lia. }
    rw (cursor_app _ _ _ Hcur) in Hrest.
    exists w3. split; [|done]. cbn [browse].
    eapply run_bind; [exact Hreq|]. eapply run_lift; [exact Hdec|]. cbv beta. rw Hlinks.
    eapply run_bind; [exact Hrest|reflexivity].
  - exists w2. split; [|congruence]. cbn [browse].
    eapply run_bind; [exact Hreq|]. eapply run_lift; [exact Hdec|]. cbv beta. by rw Hlinks.
Qed.

(** C29: the pages of the operator console are complete and end. Over a well-formed database whose
transactions commit, an authorized operator with a current session who opens the endpoint list and
follows the link of each page receives at most one page per endpoint plus one; each page is the
rendering of at most a hundred endpoints with their identity and freshness, and together the pages
show every endpoint of the database exactly once, in order of its ID. The requests change nothing but
the audit trail. The hypothesis on [str.isprintable] is that surrogates are not printable. *)
Theorem operator_browse_complete printable verify policy token received_at p t w n :
  (∀ c, is_surrogate c = true → printable c = false) →
  session printable verify policy token received_at p t →
  settled w → db_wf (dbof w) → (∀ e, e ∈ endpoints_of (dbof w) → encodable e) →
  size (t_endpoints (dbof w)) < n → draws_fresh (3 * n) w →
  let sorted := py_sorted endpoint_id_leb (endpoints_of (dbof w)) in
  ∃ w', browse printable verify policy token received_at n None w
      = (w', Ok ((λ c, shown (dbof w) t c.1 c.2) <$> pages n sorted)) ∧
    facts (dbof w') = facts (dbof w) ∧ concat (fst <$> pages n sorted) = sorted ∧
    Forall (λ c, length c.1 ≤ 100) (pages n sorted).
Proof.
  intros Hsur Hsess Hs Hwf Henc Hn Hdraws sorted.
  assert (Hlen : length sorted < n).
  { subst sorted. rw py_sorted_perm. unfold endpoints_of. by rw length_fmap length_map_to_list. }
  destruct (pages_all n sorted Hlen) as [Hall Hle].
  destruct (browse_rest _ _ _ _ _ _ _ _ Hsur Hsess Hwf Henc n w [] sorted Hs eq_refl Hdraws eq_refl Hlen)
    as (w' & Hb & Hf).
  exists w'. split; [exact Hb|]. by split.
Qed.

Module BrowseSample.
(** The database of the sample run, with live transactions from here on. *)
Definition live (d : Db) : world Pg :=
  World (mkPg d false (λ _, Commits) (λ _, 0%Z)) (λ n, uid (5000 + Z.of_nat n)).
Lemma dbof_live d : dbof (live d) = d.
Proof. reflexivity. Qed.
Definition w : world Pg := live (dbof PgSample.w5).

Lemma sample_session :
  session (λ _, false) OperatorSample.verify OperatorSample.policy (py "Bearer good") (PgSample.at_ 30)
    (OperatorSample.principal true) (instant (PgSample.at_ 30)).
Proof.
  split; [vm_compute; reflexivity..| |].
  - eapply (principal_post_init_Ok _ (OperatorSample.principal true)). vm_compute. reflexivity.
  - apply authorization_denial_None. vm_compute. reflexivity.
Qed.

Lemma sample_settled : settled w.
Proof. split; reflexivity. Qed.
Lemma sample_wf : db_wf (dbof w).
Proof. unfold w. rw dbof_live. apply (pg_run_wf _ _ PgSample.pg_run5), db_wf_empty. Qed.
Lemma sample_encodable e : e ∈ endpoints_of (dbof w) → encodable e.
Proof. intros He. vm_compute in He. apply list_elem_of_singleton in He as ->. split; reflexivity. Qed.
Lemma sample_size : size (t_endpoints (dbof w)) < 2.
Proof. vm_compute. lia. Qed.
Lemma sample_draws : draws_fresh 6 w.
Proof.
  split; [apply distinct_draws_check; vm_compute; reflexivity|].
  intros i Hi. apply event_fresh_check.
  do 6 (destruct i as [|i]; [vm_compute; reflexivity|]). lia.
Qed.
End BrowseSample.

Lemma operator_browse_complete_witness :
  ∃ w' l, browse (λ _, false) OperatorSample.verify OperatorSample.policy (py "Bearer good")
      (PgSample.at_ 30) 2 None BrowseSample.w = (w', Ok l).
Proof.
  destruct (operator_browse_complete (λ _, false) OperatorSample.verify OperatorSample.policy
    (py "Bearer good") (PgSample.at_ 30) (OperatorSample.principal true) (instant (PgSample.at_ 30))
    BrowseSample.w 2 (λ _ _, eq_refl) BrowseSample.sample_session BrowseSample.sample_settled
    BrowseSample.sample_wf BrowseSample.sample_encodable BrowseSample.sample_size
    BrowseSample.sample_draws) as (w' & Hb & _).
  exists w'. eexists. exact Hb.
Defined.
