(* ===== verification/Migrations.v ===== *)
(** * Schema migrations ([apply_migrations] and [verify_schema_state] of
[persistence.py])

The migration directory is the list of its [NNNN_*.sql] files (name and text);
what a script does to the schema is a parameter. The whole run is one
transaction under an advisory lock: an exception leaves the database as it
was. *)
From stdpp Require Import prelude strings gmap sorting pretty ssreflect.
From S2P Require Import Prelude Sha256 Domain Json Text Database.

Set Warnings "-clear-no-such-hyp".

Record Migration := mkMigration { mg_name : pystr; mg_script : pystr }.

Definition migration_leb (a b : Migration) : bool := str_leb (mg_name a) (mg_name b).

Definition checksum (m : Migration) : pystr := Sha256.hexdigest (utf8 (mg_script m)).

Section migrations.
Context {Schema : Type} (run_script : pystr → Schema → result Schema).

(** The schema, and the [schema_migrations] table once it exists. *)
Record MigrationDb := mkMigrationDb {
  md_schema : Schema;
  md_applied : option (gmap pystr pystr);
}.

(** The loop over the sorted migrations; [applied] is the table as read before
it, [table] the table being extended. *)
Fixpoint apply_loop (applied : gmap pystr pystr) (todo : list Migration) (schema : Schema)
    (table : gmap pystr pystr) (applied_now : list pystr)
    : result (Schema * gmap pystr pystr * list pystr) :=
  match todo with
  | [] => Ok (schema, table, applied_now)
  | m :: rest =>
    match applied !! mg_name m with
    | Some previous =>
      raise_if (negb (bool_decide (previous = checksum m)))
        (ValidationError (py "applied migration checksum changed: " ++ mg_name m));;
      apply_loop applied rest schema table applied_now
    | None =>
      schema' ← run_script (mg_script m) schema;
      pg_check (varchar 255 (mg_name m));;
      pg_unique (bool_decide (table !! mg_name m = None));;
      apply_loop applied rest schema' (<[mg_name m := checksum m]> table)
        (applied_now ++ [mg_name m])
    end
  end.

(** [max(applied)]. *)
Definition applied_head (applied : gmap pystr pystr) : option pystr :=
  last (py_sorted str_leb (map_to_list applied).*1).

Definition str_ltb (a b : pystr) : bool := str_leb a b && negb (bool_decide (a = b)).

Definition apply_checked (migrations : list Migration) (schema : Schema)
    (applied : gmap pystr pystr) : result (Schema * gmap pystr pystr * list pystr) :=
  let discovered := mg_name <$> migrations in
  let missing := py_sorted str_leb
    (filter (λ n, n ∉ discovered) (map_to_list applied).*1) in
  raise_if (negb (bool_decide (missing = [])))
    (ValidationError (py "applied migrations are missing from source: " ++ repr_list missing));;
  match applied_head applied with
  | None => Ok tt
  | Some head =>
    let out_of_order := py_sorted str_leb
      (filter (λ n, applied !! n = None ∧ str_ltb n head = true) discovered) in
    raise_if (negb (bool_decide (out_of_order = [])))
      (ValidationError (py "unapplied migrations precede the applied migration head "
                        ++ head ++ py ": " ++ repr_list out_of_order))
  end;;
  apply_loop applied migrations schema applied [].

Definition apply_migrations (directory : list Migration) (d : MigrationDb)
    : MigrationDb * result (list pystr) :=
  let migrations := py_sorted migration_leb directory in
  match migrations with
  | [] => (d, Raise (verr "no database migrations were found"))
  | _ =>
    match apply_checked migrations (md_schema d) (default ∅ (md_applied d)) with
    | Ok (schema, table, applied_now) => (mkMigrationDb schema (Some table), Ok applied_now)
    | Raise e => (d, Raise e)
    end
  end.

(** [{m.name: sha256(m) for m in migrations}]. *)
Definition expected_state (migrations : list Migration) : gmap pystr pystr :=
  list_to_map (reverse ((λ m, (mg_name m, checksum m)) <$> migrations)).

(** [verify_schema_state]; [opened] is what opening the connection gives
([Persistence._connect]: it may fail or be refused by a shutdown). *)
Definition verify_schema_state (directory : list Migration) (opened : result unit)
    (d : MigrationDb) : result (list pystr) :=
  let migrations := py_sorted migration_leb directory in
  match migrations with
  | [] => Raise (verr "no database migrations were found")
  | _ =>
    opened;;
    match md_applied d with
    | None => Raise PsycopgError
    | Some actual =>
      raise_if (negb (bool_decide (actual = expected_state migrations)))
        (verr "database migration state does not match this service");;
      Ok (mg_name <$> migrations)
    end
  end.

(** ** Proofs *)

(** A directory holds each name once. *)
Definition distinct_names (l : list Migration) : Prop := NoDup (mg_name <$> l).

(** Which migrations a run executes. *)
Definition pending (applied : gmap pystr pystr) (l : list Migration) : list Migration :=
  filter (λ m, applied !! mg_name m = None) l.

(** Executing scripts one after the other. *)
Fixpoint run_scripts (l : list Migration) (schema : Schema) : result Schema :=
  match l with
  | [] => Ok schema
  | m :: rest => schema' ← run_script (mg_script m) schema; run_scripts rest schema'
  end.

(** The table after recording [l]. *)
Definition record_all (l : list Migration) (table : gmap pystr pystr) : gmap pystr pystr :=
  foldl (λ t m, <[mg_name m := checksum m]> t) table l.

(** The three ways a database and a directory disagree: an applied migration
is gone, was edited, or an unapplied one sorts before an applied one. *)
Inductive drifted (applied : gmap pystr pystr) (l : list Migration) : Prop :=
  | drift_missing n :
      is_Some (applied !! n) → n ∉ mg_name <$> l → drifted applied l
  | drift_edited m c :
      m ∈ l → applied !! mg_name m = Some c → c ≠ checksum m → drifted applied l
  | drift_order m n :
      m ∈ l → applied !! mg_name m = None → is_Some (applied !! n) →
      str_leb (mg_name m) n = true → drifted applied l.

#[local] Instance migration_leb_cmp : Comparison migration_leb.
Proof. apply (cmp_on mg_name). Qed.

Lemma pending_cons_applied applied m c l :
  applied !! mg_name m = Some c → pending applied (m :: l) = pending applied l.
Proof. intros Hm. unfold pending. rw filter_cons decide_False //. congruence. Qed.

Lemma pending_cons_new applied m l :
  applied !! mg_name m = None → pending applied (m :: l) = m :: pending applied l.
Proof. intros Hm. unfold pending. by rw filter_cons decide_True. Qed.

(** The loop runs exactly the pending scripts, in order, and records them. *)
Lemma apply_loop_run applied todo schema table now schema' :
  distinct_names todo →
  (∀ m, m ∈ todo → applied !! mg_name m = None → table !! mg_name m = None) →
  (∀ m c, m ∈ todo → applied !! mg_name m = Some c → c = checksum m) →
  (∀ m, m ∈ todo → varchar 255 (mg_name m) = true) →
  run_scripts (pending applied todo) schema = Ok schema' →
  apply_loop applied todo schema table now =
    Ok (schema', record_all (pending applied todo) table,
        now ++ (mg_name <$> pending applied todo)).
Proof.
  unfold distinct_names. revert schema table now.
  induction todo as [|m todo IH]; intros schema table now Hnd Htab Hsum Hlen Hrun.
  { injection Hrun as <-. cbn. by rw app_nil_r. }
  apply NoDup_cons in Hnd as [Hm Hnd]. cbn [apply_loop].
  destruct (applied !! mg_name m) as [c|] eqn:Hap.
  - rw (pending_cons_applied _ _ c) // in Hrun |- *.
    pose proof (Hsum m c (list_elem_of_here _ _) Hap) as Hc.
    rw (bool_decide_true _ Hc). cbn [negb raise_if mbind result_bind].
    apply IH; eauto using list_elem_of_further.
  - rw pending_cons_new // in Hrun |- *. cbn [run_scripts] in Hrun.
    apply result_bind_Ok_inv in Hrun as (s1 & Hs & Hrun). rw Hs. cbn [mbind result_bind].
    rw (Hlen m (list_elem_of_here _ _)) (Htab m (list_elem_of_here _ _) Hap).
    rw (bool_decide_true (None = None) eq_refl).
    cbn [pg_check pg_unique raise_if negb mbind result_bind].
    assert (∀ m', m' ∈ todo → applied !! mg_name m' = None →
      <[mg_name m := checksum m]> table !! mg_name m' = None) as Htab'.
    { intros m' Hin Hap'. rw lookup_insert_ne; [by apply Htab; [by apply list_elem_of_further|]|].
      intros Heq. apply Hm. rw Heq. by apply list_elem_of_fmap_2. }
    rw (IH s1 _ _ Hnd Htab' (λ m' c' H, Hsum m' c' (list_elem_of_further _ _ _ H))
       (λ m' H, Hlen m' (list_elem_of_further _ _ _ H)) Hrun).
    rw fmap_cons -app_assoc. reflexivity.
Qed.

(** An edited migration stops the loop before any script when all earlier
ones are applied. *)
Lemma apply_loop_edited applied pre m post c schema table now :
  (∀ m', m' ∈ pre → is_Some (applied !! mg_name m')) →
  applied !! mg_name m = Some c → c ≠ checksum m →
  ∃ msg, apply_loop applied (pre ++ m :: post) schema table now = Raise (ValidationError msg).
Proof.
  intros Hpre Hm Hc. induction pre as [|m' pre IH]; cbn [app apply_loop].
  - rw Hm (bool_decide_false _ Hc). cbn [negb raise_if mbind result_bind]. eauto.
  - destruct (Hpre m' (list_elem_of_here _ _)) as [c' Hc']. rw Hc'.
    case_bool_decide; cbn [negb raise_if mbind result_bind]; [|eauto].
    apply IH. eauto using list_elem_of_further.
Qed.

Lemma last_sorted {A} (cmp : A → A → bool) `{!Comparison cmp} l x y :
  StronglySorted (rel_of cmp) l → last l = Some x → y ∈ l → cmp y x = true ∨ y = x.
Proof.
  intros Hs (l' & ->)%last_Some. rw elem_of_app list_elem_of_singleton.
  intros [Hy| ->]; [|by right]. left. induction l' as [|z l' IH]; [set_solver|].
  cbn in Hs. apply StronglySorted_inv in Hs as [Hs Hall]. apply elem_of_cons in Hy as [-> |Hy].
  - rw Forall_forall in Hall. apply Hall. set_solver.
  - by apply IH.
Qed.

(** [applied_head] is the greatest applied name. *)
Lemma applied_head_max applied head n :
  applied_head applied = Some head → is_Some (applied !! n) → str_leb n head = true.
Proof.
  unfold applied_head. intros Hh [c Hc].
  assert (n ∈ py_sorted str_leb (map_to_list applied).*1) as Hn.
  { rw py_sorted_perm. apply list_elem_of_fmap. exists (n, c). by rw elem_of_map_to_list. }
  destruct (last_sorted str_leb _ head n (py_sorted_sorted _) Hh Hn) as [| ->]; [done|].
  apply str_leb_refl.
Qed.

Lemma applied_head_in applied head :
  applied_head applied = Some head → is_Some (applied !! head).
Proof.
  unfold applied_head. intros (l & Hl)%last_Some.
  assert (head ∈ py_sorted str_leb (map_to_list applied).*1) as Hin by (rw Hl; set_solver).
  rw py_sorted_perm in Hin. apply list_elem_of_fmap in Hin as ([n c] & -> & Hin).
  apply elem_of_map_to_list in Hin. eauto.
Qed.

Lemma applied_head_None applied n : applied_head applied = None → applied !! n = None.
Proof.
  unfold applied_head. intros Hl%last_None. apply eq_None_not_Some. intros [c Hc].
  assert (n ∈ py_sorted str_leb (map_to_list applied).*1) as Hn.
  { rw py_sorted_perm. apply list_elem_of_fmap. exists (n, c). by rw elem_of_map_to_list. }
  rw Hl in Hn. by apply not_elem_of_nil in Hn.
Qed.

Lemma sorted_nil_filter (P : pystr → Prop) `{!∀ x, Decision (P x)} l :
  py_sorted str_leb (filter P l) = [] ↔ ∀ n, n ∈ l → ¬ P n.
Proof.
  split.
  - intros Hnil n Hn HP. assert (n ∈ py_sorted str_leb (filter P l)) as Hin.
    { rw py_sorted_perm. by apply list_elem_of_filter. }
    rw Hnil in Hin. by apply not_elem_of_nil in Hin.
  - intros Hno. apply Permutation_nil. rw py_sorted_perm. symmetry. apply Permutation_nil_r.
    destruct (filter P l) as [|n k] eqn:Hf; [done|].
    assert (n ∈ filter P l) as [? ?]%list_elem_of_filter by (rw Hf; apply list_elem_of_here).
    by destruct (Hno n).
Qed.

Lemma str_ltb_true a b : str_ltb a b = true ↔ str_leb a b = true ∧ a ≠ b.
Proof. unfold str_ltb. rw andb_true_iff negb_true_iff bool_decide_eq_false. done. Qed.

Lemma elem_of_keys (applied : gmap pystr pystr) n :
  n ∈ (map_to_list applied).*1 ↔ is_Some (applied !! n).
Proof.
  rw list_elem_of_fmap. split.
  - intros ([k c] & -> & Hin%elem_of_map_to_list). eauto.
  - intros [c Hc]. exists (n, c). by rw elem_of_map_to_list.
Qed.

Lemma unapplied_not_before (applied : gmap pystr pystr) (l : list Migration) head m :
  (∀ n, n ∈ mg_name <$> l → ¬ (applied !! n = None ∧ str_ltb n head = true)) →
  is_Some (applied !! head) → m ∈ l → str_leb (mg_name m) head = true →
  is_Some (applied !! mg_name m).
Proof.
  intros Hord Hhead Hin Hle. apply not_eq_None_Some. intros Hnone.
  apply (Hord (mg_name m)); [by apply list_elem_of_fmap_2|]. split; [done|].
  apply str_ltb_true. split; [done|]. intros Heq. rw -Heq Hnone in Hhead. by destruct Hhead.
Qed.

(** A drifted database is refused before any script runs. *)
Lemma apply_checked_drifted migrations schema applied :
  StronglySorted (rel_of migration_leb) migrations → drifted applied migrations →
  ∃ msg, apply_checked migrations schema applied = Raise (ValidationError msg).
Proof.
  intros Hs Hd. unfold apply_checked. cbv zeta.
  case_bool_decide as Hmiss; cbn [negb raise_if mbind result_bind]; [|eauto].
  rw sorted_nil_filter in Hmiss.
  destruct (applied_head applied) as [head|] eqn:Hh; last first.
  { exfalso. destruct Hd as [n [c Hn] _|m c _ Hc _|m n _ _ [c Hn] _];
      rw applied_head_None // in Hn || rw applied_head_None // in Hc. }
  case_bool_decide as Hord; cbn [negb raise_if mbind result_bind]; [|eauto].
  rw sorted_nil_filter in Hord. pose proof (applied_head_in _ _ Hh) as Hin.
  destruct Hd as [n Hn Hout|m c Hm Hc Hne|m n Hm Hnone Hn Hle].
  - exfalso. apply (Hmiss n); [by apply elem_of_keys|done].
  - apply list_elem_of_split in Hm as (pre & post & ->).
    eapply apply_loop_edited; [|done..]. intros m' Hpre.
    eapply unapplied_not_before; [done..| |].
    + apply elem_of_app. by left.
    + eapply str_leb_trans; [exact (StronglySorted_before _ _ _ _ _ Hs Hpre)|].
      eapply applied_head_max; [done|]. eauto.
  - exfalso. eapply (unapplied_not_before _ _ head m) in Hord; [|done..|].
    + rw Hnone in Hord. by destruct Hord.
    + eapply str_leb_trans; [done|]. by eapply applied_head_max.
Qed.

(** Without drift the checks pass and the loop runs the pending scripts. *)
Lemma apply_checked_run migrations schema applied schema' :
  distinct_names migrations → ¬ drifted applied migrations →
  (∀ m, m ∈ migrations → varchar 255 (mg_name m) = true) →
  run_scripts (pending applied migrations) schema = Ok schema' →
  apply_checked migrations schema applied =
    Ok (schema', record_all (pending applied migrations) applied,
        mg_name <$> pending applied migrations).
Proof.
  intros Hnd Hd Hlen Hrun. unfold apply_checked. cbv zeta.
  rw bool_decide_true; last first.
  { apply sorted_nil_filter. intros n Hn Hout. apply Hd.
    eapply drift_missing; [by apply elem_of_keys|done]. }
  cbn [negb raise_if mbind result_bind].
  assert (∀ head, applied_head applied = Some head → py_sorted str_leb
    (filter (λ n, applied !! n = None ∧ str_ltb n head = true) (mg_name <$> migrations)) = [])
    as Hord.
  { intros head Hh. apply sorted_nil_filter.
    intros n (m & -> & Hm)%list_elem_of_fmap [Hnone [Hle _]%str_ltb_true]. apply Hd.
    by eapply (drift_order _ _ m head); [..|eapply applied_head_in|]. }
  destruct (applied_head applied) as [head|] eqn:Hh.
  1: rw (Hord head eq_refl) (bool_decide_true ([] = []) eq_refl).
  all: cbn [negb raise_if mbind result_bind]; apply (apply_loop_run _ _ _ _ []); try done;
    intros m c Hm Hc; destruct (decide (c = checksum m)); [done|];
    by destruct Hd; eapply drift_edited.
Qed.

#[local] Instance drifted_proper : Proper ((=) ==> (≡ₚ) ==> iff) drifted.
Proof.
  assert (∀ a l k, l ≡ₚ k → drifted a l → drifted a k) as Himp.
  { intros a l k Hlk [n ? Hn|m c Hm ? ?|m n Hm ? ? ?].
    - eapply drift_missing; [done|]. by rw -Hlk.
    - eapply drift_edited; [by rw -Hlk|done..].
    - eapply drift_order; [by rw -Hlk|done..]. }
  intros a ? <- l k Hlk. split; by apply Himp.
Qed.

Lemma record_all_lookup l table n c :
  distinct_names l →
  record_all l table !! n = Some c ↔
  (∃ m, m ∈ l ∧ mg_name m = n ∧ c = checksum m) ∨ ((n ∉ mg_name <$> l) ∧ (table !! n = Some c)).
Proof.
  unfold distinct_names. revert table. induction l as [|m l IH]; intros table.
  { intros _. cbn. split; [|by intros [(m & []%not_elem_of_nil & _)|[_ ?]]].
    intros ?. right. split; [apply not_elem_of_nil|done]. }
  intros [Hm Hnd]%NoDup_cons. cbn [record_all foldl].
  change (foldl _ ?t l) with (record_all l t). rw IH //.
  destruct (decide (mg_name m = n)) as [<-|Hn].
  - rw lookup_insert_eq. split.
    + intros [(m' & ? & ? & ?)|[_ [= <-]]]; left; eauto using list_elem_of_further, list_elem_of_here.
    + intros [(m' & [-> |Hin]%elem_of_cons & Heq & ->)|[[]%not_elem_of_cons _]]; [by right|left|done].
      eauto.
  - rw lookup_insert_ne //. rw fmap_cons not_elem_of_cons. split.
    + intros [(m' & ? & ? & ?)|[? ?]]; [left; eauto using list_elem_of_further|right].
      split_and!; [|done..]. congruence.
    + intros [(m' & [-> |Hin]%elem_of_cons & Heq & ->)|[[_ ?] ?]]; [done| |by right]. left. eauto.
Qed.

Lemma expected_lookup l n c :
  distinct_names l →
  (expected_state l !! n = Some c) ↔ ∃ m, m ∈ l ∧ mg_name m = n ∧ c = checksum m.
Proof using Type.
  intros Hnd. unfold expected_state. rw -elem_of_list_to_map.
  - rw elem_of_reverse list_elem_of_fmap. split.
    + intros (m & [= -> ->] & Hm). eauto.
    + intros (m & Hm & <- & ->). eauto.
  - rw fmap_reverse (reverse_Permutation _) -list_fmap_compose. exact Hnd.
Qed.

Lemma distinct_names_pending applied l : distinct_names l → distinct_names (pending applied l).
Proof.
  unfold distinct_names, pending. induction l as [|m l IH]; [done|].
  intros [Hm Hnd]%NoDup_cons. rw filter_cons. case_decide; [|by apply IH].
  rw fmap_cons NoDup_cons. split; [|by apply IH].
  intros (m' & Heq & [_ Hin]%list_elem_of_filter)%list_elem_of_fmap. apply Hm. rw Heq.
  by apply list_elem_of_fmap_2.
Qed.

(** Without drift a run ends with the state [verify_schema_state] expects. *)
Lemma record_pending applied l :
  distinct_names l → ¬ drifted applied l →
  record_all (pending applied l) applied = expected_state l.
Proof.
  intros Hnd Hd. apply map_eq. intros n. apply option_eq. intros c.
  rw record_all_lookup; [|by apply distinct_names_pending]. rw expected_lookup //. split.
  - intros [(m & [_ Hm]%list_elem_of_filter & ? & ?)|[Hout Hc]]; [by eauto|].
    destruct (decide (n ∈ mg_name <$> l)) as [(m & -> & Hm)%list_elem_of_fmap|Hn].
    + exists m. split_and!; [done..|]. destruct (decide (c = checksum m)); [done|].
      destruct Hd. by eapply drift_edited.
    + destruct Hd. eapply drift_missing; [|done]. eauto.
  - intros (m & Hm & <- & ->). destruct (applied !! mg_name m) as [c|] eqn:Hc.
    + right. split.
      * intros (m' & Heq & [Hnone _]%list_elem_of_filter)%list_elem_of_fmap. congruence.
      * destruct (decide (c = checksum m)) as [->|]; [done|]. destruct Hd. by eapply drift_edited.
    + left. exists m. split_and!; [|done..]. by apply list_elem_of_filter.
Qed.

Lemma expected_not_drifted l : distinct_names l → ¬ drifted (expected_state l) l.
Proof.
  intros Hnd [n [c Hc] Hn|m c Hm Hc Hne|m n Hm Hnone _ _].
  - apply expected_lookup in Hc as (m & Hm & <- & _); [|done].
    apply Hn. by apply list_elem_of_fmap_2.
  - apply expected_lookup in Hc as (m' & Hm' & Heq & ->); [|done]. apply Hne.
    by rw (NoDup_fmap_elem mg_name l m m').
  - assert (expected_state l !! mg_name m = Some (checksum m)) as Hs
      by (apply expected_lookup; eauto). congruence.
Qed.

Lemma pending_expected l : distinct_names l → pending (expected_state l) l = [].
Proof.
  intros Hnd. unfold pending. apply filter_none. intros m Hm Hnone.
  assert (expected_state l !! mg_name m = Some (checksum m)) as Hs
    by (apply expected_lookup; eauto). congruence.
Qed.

Lemma py_sorted_ne {A} (cmp : A → A → bool) l : l ≠ [] → py_sorted cmp l ≠ [].
Proof. intros Hl Hnil. apply Hl. apply Permutation_nil. by rw -Hnil py_sorted_perm. Qed.

Lemma apply_migrations_checked directory d :
  directory ≠ [] →
  apply_migrations directory d =
    match apply_checked (py_sorted migration_leb directory) (md_schema d)
            (default ∅ (md_applied d)) with
    | Ok (schema, table, applied_now) => (mkMigrationDb schema (Some table), Ok applied_now)
    | Raise e => (d, Raise e)
    end.
Proof.
  intros Hne%(py_sorted_ne migration_leb). unfold apply_migrations.
  by destruct (py_sorted migration_leb directory).
Qed.

Lemma apply_migrations_run directory d schema' :
  directory ≠ [] → distinct_names directory →
  ¬ drifted (default ∅ (md_applied d)) directory →
  (∀ m, m ∈ directory → varchar 255 (mg_name m) = true) →
  let sorted := py_sorted migration_leb directory in
  let todo := pending (default ∅ (md_applied d)) sorted in
  run_scripts todo (md_schema d) = Ok schema' →
  apply_migrations directory d =
    (mkMigrationDb schema' (Some (expected_state sorted)), Ok (mg_name <$> todo)).
Proof.
  intros Hne Hnd Hd Hlen sorted todo Hrun. pose proof (py_sorted_perm migration_leb directory) as Hp.
  assert (distinct_names sorted) as Hnd' by (unfold distinct_names, sorted; by rw Hp).
  rw -Hp in Hd. rw apply_migrations_checked //. rw (apply_checked_run _ _ _ schema'); [|done..| |done].
  - by rw record_pending.
  - intros m. rw Hp. apply Hlen.
Qed.

Lemma verify_expected directory schema :
  directory ≠ [] →
  verify_schema_state directory (Ok tt)
    (mkMigrationDb schema (Some (expected_state (py_sorted migration_leb directory)))) =
  Ok (mg_name <$> py_sorted migration_leb directory).
Proof.
  intros Hne%(py_sorted_ne migration_leb). unfold verify_schema_state. cbv zeta. cbn [md_applied].
  rw (bool_decide_true _ eq_refl). by destruct (py_sorted migration_leb directory).
Qed.

(** C37: an upgrade completes and is idempotent. When the migration directory
agrees with what the database has recorded, names fit their column and the
pending scripts run, [apply_migrations] runs exactly the pending scripts in
name order and returns their names; the service's start-up check
[verify_schema_state] then accepts the database and returns every migration,
and applying the directory again changes nothing and returns nothing. *)
Theorem migrations_upgrade directory d schema' :
  directory ≠ [] → distinct_names directory →
  ¬ drifted (default ∅ (md_applied d)) directory →
  (∀ m, m ∈ directory → varchar 255 (mg_name m) = true) →
  let sorted := py_sorted migration_leb directory in
  let todo := pending (default ∅ (md_applied d)) sorted in
  run_scripts todo (md_schema d) = Ok schema' →
  ∃ d', apply_migrations directory d = (d', Ok (mg_name <$> todo)) ∧
    md_schema d' = schema' ∧
    verify_schema_state directory (Ok tt) d' = Ok (mg_name <$> sorted) ∧
    apply_migrations directory d' = (d', Ok []).
Proof.
  intros Hne Hnd Hd Hlen sorted todo Hrun. pose proof (py_sorted_perm migration_leb directory) as Hp.
  assert (distinct_names sorted) as Hnd' by (unfold distinct_names, sorted; by rw Hp).
  eexists. split_and!; [by apply apply_migrations_run|done|by apply verify_expected|].
  rw (apply_migrations_run _ _ schema'); [|done..| | |]; cbn [md_applied default md_schema].
  - by rw pending_expected.
  - intros Hdr. apply (expected_not_drifted sorted Hnd').
    exact (proj2 (drifted_proper _ _ eq_refl _ _ Hp) Hdr).
  - done.
  - by rw pending_expected.
Qed.

(** Drift is refused before anything is executed. When a recorded
migration is missing from the directory, its text no longer has the recorded
checksum, or an unapplied migration sorts before an applied one,
[apply_migrations] raises a validation error and leaves schema and history
unchanged, whatever the scripts do; a directory whose state differs from the
recorded one is not accepted by [verify_schema_state] either. *)
Theorem migrations_drift_refused directory d :
  directory ≠ [] → drifted (default ∅ (md_applied d)) directory →
  (∃ msg, apply_migrations directory d = (d, Raise (ValidationError msg))) ∧
  (distinct_names directory →
   ∃ e, verify_schema_state directory (Ok tt) d = Raise e).
Proof.
  intros Hne Hd. rw -(py_sorted_perm migration_leb directory) in Hd. split.
  - rw apply_migrations_checked //.
    edestruct (apply_checked_drifted _ (md_schema d) _ (py_sorted_sorted _) Hd) as [msg ->]. eauto.
  - intros Hnd. unfold verify_schema_state. cbv zeta.
    apply (py_sorted_ne migration_leb) in Hne.
    destruct (py_sorted migration_leb directory) as [|m l] eqn:Hl; [done|].
    destruct (md_applied d) as [actual|]; cbn [mbind result_bind]; [|eauto].
    case_bool_decide as Heq; cbn [negb raise_if mbind result_bind]; [|eauto].
    exfalso. cbn [default] in Hd. rw Heq in Hd. revert Hd. apply expected_not_drifted.
    unfold distinct_names. by rw -Hl py_sorted_perm.
Qed.
End migrations.

(** ** A directory of two migrations *)
Module MigrationSample.
Definition m1 : Migration := mkMigration (py "0001_initial.sql") (py "CREATE TABLE a (x int);").
Definition m2 : Migration := mkMigration (py "0002_more.sql") (py "CREATE TABLE b (y int);").
Definition m2_edited : Migration := mkMigration (py "0002_more.sql") (py "CREATE TABLE c ();").
(** A schema is the list of the scripts that made it. *)
Definition run (script : pystr) (schema : list pystr) : result (list pystr) :=
  Ok (schema ++ [script]).
Definition fresh : MigrationDb (Schema := list pystr) := mkMigrationDb [] None.
Definition d1 : MigrationDb (Schema := list pystr) := (apply_migrations run [m1] fresh).1.
Definition d2 : MigrationDb (Schema := list pystr) := (apply_migrations run [m2; m1] fresh).1.

Lemma d1_applied : default ∅ (md_applied d1) = expected_state [m1].
Proof. vm_compute. reflexivity. Qed.

Lemma sample_distinct : distinct_names [m2; m1].
Proof. apply (bool_decide_unpack _). vm_compute. exact I. Qed.

Lemma d1_not_drifted : ¬ drifted (default ∅ (md_applied d1)) [m2; m1].
Proof.
  rw d1_applied. assert (distinct_names [m1]) as Hnd by apply NoDup_singleton.
  intros [n [c Hc] Hn|m c Hm Hc Hne|m n Hm Hnone [c Hc] Hle].
  - apply expected_lookup in Hc as (m & ->%list_elem_of_singleton & <- & _); [|done].
    apply Hn. apply list_elem_of_further, list_elem_of_here.
  - apply expected_lookup in Hc as (m' & ->%list_elem_of_singleton & Heq & ->); [|done].
    apply Hne. f_equal. apply (NoDup_fmap_elem mg_name [m2; m1]); [exact sample_distinct| |done..].
    apply list_elem_of_further, list_elem_of_here.
  - apply expected_lookup in Hc as (m' & ->%list_elem_of_singleton & <- & _); [|done].
    apply elem_of_cons in Hm as [-> | ->%list_elem_of_singleton]; [by vm_compute in Hle|].
    by vm_compute in Hnone.
Qed.
End MigrationSample.
Import MigrationSample.

(** A second migration is applied over the first. *)
Lemma migrations_upgrade_witness :
  ∃ d', apply_migrations run [m2; m1] d1 = (d', Ok [mg_name m2]) ∧
    md_schema d' = [mg_script m1; mg_script m2] ∧
    verify_schema_state [m2; m1] (Ok tt) d' = Ok [mg_name m1; mg_name m2] ∧
    apply_migrations run [m2; m1] d' = (d', Ok []).
Proof.
  apply (migrations_upgrade run [m2; m1] d1 [mg_script m1; mg_script m2]).
  - exact (λ H, eq_ind [m2; m1] (λ l, match l with [] => False | _ => True end) I [] H).
  - exact sample_distinct.
  - exact d1_not_drifted.
  - intros m [-> | ->%list_elem_of_singleton]%elem_of_cons; vm_compute; reflexivity.
  - vm_compute. reflexivity.
Defined.

(** An edited migration is refused. *)
Lemma migrations_drift_refused_witness :
  (∃ msg, apply_migrations run [m1; m2_edited] d2 = (d2, Raise (ValidationError msg))) ∧
  (distinct_names [m1; m2_edited] →
   ∃ e, verify_schema_state [m1; m2_edited] (Ok tt) d2 = Raise e).
Proof.
  apply (migrations_drift_refused run [m1; m2_edited] d2).
  - exact (λ H, eq_ind [m1; m2_edited] (λ l, match l with [] => False | _ => True end) I [] H).
  - apply (drift_edited _ _ m2_edited (checksum m2)).
    + apply list_elem_of_further, list_elem_of_here.
    + vm_compute. reflexivity.
    + intros H. vm_compute in H. discriminate H.
Defined.
