(* ===== verification/Services.v ===== *)
(** * The three services

[run_*_service] and [main] of [agent_service.py], [enrollment_service.py] and
[operator_service.py]: start-up checks, the listener's life, and the shutdown, over a
[process] that owns the open files, the signal handlers, the listening socket and the
store's shutdown flag, with a log of what it did. [surroundings] are the answers of the
event loop, the database and the network. *)
From stdpp Require Import prelude strings gmap sorting pretty ssreflect.
From S2P Require Import Prelude Uuid PyTime Json Text JsonLoads Domain AgentApi Http Net UrlText Configuration PyFloat Files DatabaseDsn Certificates TlsContext Enrollment OperatorApi ServiceConfiguration Database Migrations.

Set Warnings "-clear-no-such-hyp".

Inductive signal := SIGINT | SIGTERM.
#[export] Instance signal_eq_dec : EqDecision signal.
Proof. solve_decision. Defined.

(** The [PostgresControlPlane] a service owns: where it connects, and its timeout. *)
Record Store := mkStore { st_dsn : pystr; st_operation_timeout_seconds : pynumber }.

(** What a service does, in order; a listener serves the store it was given. *)
Inductive action :=
| HandlerAdded (s : signal)
| Listening (address : pystr) (port : Z) (context : ssl_context) (store : Store)
| ShutdownBegun
| ListenerClosed
| HandlerRemoved (s : signal).

Record process := mkProcess {
  pr_host : host;
  pr_handlers : list signal;
  pr_server : option ssl_context;
  pr_shutting_down : bool;
  pr_log : list action;
}.

Definition on_host {A} (m : M host A) : M process A := λ p,
  let '(h, r) := m (pr_host p) in
  (mkProcess h (pr_handlers p) (pr_server p) (pr_shutting_down p) (pr_log p), r).
Definition log (a : action) (p : process) : process :=
  mkProcess (pr_host p) (pr_handlers p) (pr_server p) (pr_shutting_down p) (pr_log p ++ [a]).
Definition set_handlers (hs : list signal) (p : process) : process :=
  mkProcess (pr_host p) hs (pr_server p) (pr_shutting_down p) (pr_log p).
Definition set_server (c : option ssl_context) (p : process) : process :=
  mkProcess (pr_host p) (pr_handlers p) c (pr_shutting_down p) (pr_log p).

(** [store.begin_shutdown()], which never raises. *)
Definition store_begin_shutdown : M process unit := modify (λ p,
  log ShutdownBegun (mkProcess (pr_host p) (pr_handlers p) (pr_server p) true (pr_log p))).

Record surroundings := mkSurroundings {
  sr_environ : list pystr;
  (** the packaged migrations; opening a connection, and the database, behind each connection string *)
  sr_directory : list Migration;
  sr_opened : pystr → result unit;
  sr_database : pystr → MigrationDb (Schema := unit);
  (** [loop.add_signal_handler], the binding of the socket, [stopped.wait()], and the end of
  an open server *)
  sr_add_signal : signal → result unit;
  sr_bind : result unit;
  sr_wait : result unit;
  sr_close : result unit;
  (** [runner.setup()] of aiohttp, and [runner.cleanup()] when the start fails *)
  sr_setup : result unit;
  sr_cleanup : result unit;
}.

(** ** Shared steps *)
Definition _require_unprivileged_process : M host unit :=
  euid ← _effective_user_id;
  lift (raise_if (bool_decide (euid = Some 0%Z)) (verr "agent service refuses to run as root")).

(** [PostgresControlPlane(dsn, operation_timeout_seconds=...)]. *)
Definition PostgresControlPlane_init (dsn : pystr) (timeout : pynumber) : result Store :=
  raise_if (str_empty dsn) (verr "PostgreSQL DSN is required");;
  raise_if (negb (number_between 1 30 timeout))
    (verr "database operation timeout is outside the supported range");;
  Ok (mkStore dsn timeout).

Section services.
Context `{TLSLibrary} `{X509Pem}.
Context (conninfo_to_dict : pystr → result conninfo) (lower : pystr → pystr).
Context (sr : surroundings).

(** The store: its credential, its constructor, its schema. *)
Definition open_store (credential : pystr) (timeout : pynumber) : M host Store :=
  dsn ← load_database_dsn conninfo_to_dict lower (sr_environ sr) credential;
  store ← lift (PostgresControlPlane_init dsn timeout);
  _ ← lift (verify_schema_state (sr_directory sr) (sr_opened sr (st_dsn store)) (sr_database sr (st_dsn store)));
  mret store.

(** The loop over the two signals; [NotImplementedError] is skipped. *)
Fixpoint install_signals (signals installed : list signal) : M process (list signal) :=
  match signals with
  | [] => mret installed
  | s :: rest => λ p,
    match sr_add_signal sr s with
    | Ok _ => install_signals rest (installed ++ [s]) (log (HandlerAdded s) (set_handlers (s :: pr_handlers p) p))
    | Raise NotImplementedError => install_signals rest installed p
    | Raise e => (p, Raise e)
    end
  end.

Definition remove_signals (installed : list signal) : M process unit := modify (λ p,
  foldl (λ q s, log (HandlerRemoved s) (set_handlers (filter (λ t, t ≠ s) (pr_handlers q)) q)) p installed).

(** The stream listeners' [start]: the TLS context is built first, then the socket is bound. *)
Definition listen (store : Store) (address : pystr) (port : Z) (build : M host ssl_context) : M process unit :=
  context ← on_host build;
  lift (sr_bind sr);;
  modify (λ p, log (Listening address port context store) (set_server (Some context) p)).

Definition stream_listener_start (name : string) (store : Store) (address : pystr) (port : Z)
    (build : M host ssl_context) : M process unit := λ p,
  match pr_server p with
  | Some _ => (p, Raise (RuntimeError (py name ++ py " listener is already started")))
  | None => listen store address port build p
  end.

(** [except BaseException: await runner.cleanup(); raise]. *)
Definition or_clean_up (m : M process unit) : M process unit := λ p,
  match m p with
  | (p', Ok u) => (p', Ok u)
  | (p', Raise e) => (lift (sr_cleanup sr);; raise e) p'
  end.

(** [AgentTLSListener.start]: the runner is set up first, and cleaned up when the rest fails. *)
Definition agent_listener_start (store : Store) (address : pystr) (port : Z) (build : M host ssl_context)
    : M process unit := λ p,
  match pr_server p with
  | Some _ => (p, Raise (RuntimeError (py "agent listener is already started")))
  | None =>
    (lift (sr_setup sr);; or_clean_up (listen store address port build)) p
  end.

(** [close]: the server is taken out of the listener and closed before anything can fail; then the
tasks of the connections are cancelled and gathered, which raises nothing. *)
Definition listener_close : M process unit := λ p,
  match pr_server p with
  | None => (p, Ok tt)
  | Some _ => (log ListenerClosed (set_server None p), sr_close sr)
  end.

(** The [finally] block: the store first, then the listener, then the handlers. *)
Definition shut_down (installed : list signal) : M process unit :=
  store_begin_shutdown;; finallyM listener_close (remove_signals installed).

(** From the signal handlers on. *)
Definition serve (own_stop_event : bool) (start : M process unit) : M process unit :=
  installed ← (if own_stop_event then mret [] else install_signals [SIGINT; SIGTERM] []);
  finallyM (start;; lift (sr_wait sr)) (shut_down installed).

(** ** The agent service *)

(** The checks of [create_agent_web_application]. *)
Definition AgentTLSListener_init (c : AgentListenerConfiguration) : result unit :=
  _validate_authority (ac_authority c);;
  raise_if (negb (number_between 1 30 (ac_request_timeout_seconds c)))
    (verr "listener request timeout is outside the supported range").

Definition run_agent_service (own_stop_event : bool) (c : AgentServiceConfiguration) : M process unit :=
  store ← on_host (
    _require_unprivileged_process;;
    store ← open_store (as_database_dsn_credential c) (as_database_operation_timeout_seconds c);
    lift (AgentTLSListener_init (as_listener c));;
    mret store);
  serve own_stop_event
    (agent_listener_start store (ac_bind_address (as_listener c)) (ac_port (as_listener c))
       (build_server_ssl_context (as_listener c))).

(** ** The enrollment and operator services *)
Definition distinct_identities (server client : pystr) (server_label client_label message : string) : M host unit :=
  server_public_key ← load_tls_identity_public_key server (py server_label);
  client_public_key ← load_tls_identity_public_key client (py client_label);
  lift (raise_if (bool_decide (server_public_key = client_public_key)) (verr message)).

Definition enrollment_validate_distinct_tls_identities (c : EnrollmentServiceConfiguration) : M host unit :=
  distinct_identities (tc_server_certificate (es_listener c)) (cc_client_certificate (es_issuer c))
    "enrollment server certificate" "issuer client certificate"
    "enrollment server and issuer client identities must be distinct".

Definition operator_validate_distinct_tls_identities (c : OperatorServiceConfiguration) : M host unit :=
  distinct_identities (tc_server_certificate (ops_listener c)) (cc_client_certificate (ops_verifier c))
    "operator server certificate" "operator verifier client certificate"
    "operator server and verifier client identities must be distinct".

(** [MTLSIssuerClient(...)] and [MTLSOperatorSessionVerifier(...)] build their contexts. *)
Definition _build_client_context (c : ClientConfiguration) : M host ssl_context :=
  build_mtls_client_context (cc_ca_certificate c) (cc_client_certificate c) (cc_client_private_key c)
    (py "issuer CA certificate") (py "issuer client certificate") (py "issuer client private key").
Definition _build_verifier_context (c : ClientConfiguration) : M host ssl_context :=
  build_mtls_client_context (cc_ca_certificate c) (cc_client_certificate c) (cc_client_private_key c)
    (py "operator verifier CA certificate") (py "operator verifier client certificate")
    (py "operator verifier client private key").

Definition run_enrollment_service (own_stop_event : bool) (c : EnrollmentServiceConfiguration) : M process unit :=
  store ← on_host (
    _require_unprivileged_process;;
    enrollment_validate_distinct_tls_identities c;;
    store ← open_store (es_database_dsn_credential c) (es_database_operation_timeout_seconds c);
    _build_client_context (es_issuer c);;
    root ← load_endpoint_issuer_trust_root (es_endpoint_issuer_trust_root c);
    _ ← lift (EnrollmentService_init [root]);
    mret store);
  serve own_stop_event
    (stream_listener_start "enrollment" store (tc_bind_address (es_listener c)) (tc_port (es_listener c))
       (enrollment_build_server_context (es_listener c))).

Definition run_operator_service (own_stop_event : bool) (c : OperatorServiceConfiguration) : M process unit :=
  store ← on_host (
    _require_unprivileged_process;;
    operator_validate_distinct_tls_identities c;;
    store ← open_store (ops_database_dsn_credential c) (ops_database_operation_timeout_seconds c);
    _build_verifier_context (ops_verifier c);;
    mret store);
  serve own_stop_event
    (stream_listener_start "operator" store (tc_bind_address (ops_listener c)) (tc_port (ops_listener c))
       (operator_build_server_context (ops_listener c))).

(** ** [main]: the exit status *)

(** [except KeyboardInterrupt] and [except Exception]: a [SystemExit] or a cancellation is neither, and
escapes [main]. *)
Definition exit_status (r : result unit) : result Z :=
  match r with
  | Ok _ => Ok 0%Z
  | Raise KeyboardInterrupt => Ok 130%Z
  | Raise e => if is_Exception e then Ok 1%Z else Raise e
  end.

Definition service_main {C} (load : M host C) (run : C → M process unit) : M process Z := λ p,
  let '(p', r) := (configuration ← on_host (_require_unprivileged_process;; load); run configuration) p in
  (p', exit_status r).

Definition agent_main (printable : Z → bool) (depth : nat) (path : pystr) : M process Z :=
  service_main (load_agent_service_configuration printable depth path) (run_agent_service false).
Definition enrollment_main (printable : Z → bool) (depth : nat) (path : pystr) : M process Z :=
  service_main (load_enrollment_service_configuration printable depth path) (run_enrollment_service false).
Definition operator_main (printable : Z → bool) (depth : nat) (path : pystr) : M process Z :=
  service_main (load_operator_service_configuration printable depth path) (run_operator_service false).
End services.

(** ** The launcher ([server/packaging/launcher.py]) *)
Definition PACKAGE_ROOT : pystr := py "/usr/lib/northgate-rmm-server/site-packages".
Definition ENTRY_POINTS : list (pystr * pystr) := [
  (py "northgate-rmm-agent-service", py "northgate_rmm.agent_service");
  (py "northgate-rmm-enrollment-service", py "northgate_rmm.enrollment_service");
  (py "northgate-rmm-operator-service", py "northgate_rmm.operator_service")].

(** [Path(text).name]: the last component that is neither empty nor a dot. *)
Fixpoint path_components (current : pystr) (s : pystr) : list pystr :=
  match s with
  | [] => [reverse current]
  | c :: r => if (c =? 47)%Z then reverse current :: path_components [] r else path_components (c :: current) r
  end.
Definition path_name (s : pystr) : pystr :=
  default [] (last (List.filter (λ p, negb (str_empty p) && negb (bool_decide (p = py "."))) (path_components [] s))).

(** [run]: [import_module] gives the [main] of a module found on the search path. *)
Definition launcher_run (import_module : list pystr → pystr → result (M process Z)) (sys_path : list pystr)
    (argv0 : pystr) (p : process) : process * result Z :=
  match find (λ e, bool_decide (e.1 = path_name argv0)) ENTRY_POINTS with
  | None => (p, Ok 64%Z)
  | Some (_, module_name) =>
    match import_module (PACKAGE_ROOT :: sys_path) module_name with
    | Ok main => main p
    | Raise e => (p, Raise e)
    end
  end.

(** ** The life of a process *)
Definition fresh_process (h : host) : process := mkProcess h [] None false [].

(** Adding handlers changes nothing else. *)
Definition handlers_added (ins : list signal) (p p' : process) : Prop :=
  p' = mkProcess (pr_host p) (reverse ins ++ pr_handlers p) (pr_server p) (pr_shutting_down p)
         (pr_log p ++ (HandlerAdded <$> ins)).

Lemma install_signals_spec sr signals installed p :
  ∃ ins, handlers_added ins p (install_signals sr signals installed p).1 ∧
    ∀ l, (install_signals sr signals installed p).2 = Ok l → l = installed ++ ins.
Proof.
  revert installed p. induction signals as [|s signals IH]; intros installed p; cbn [install_signals].
  - exists []. split; [unfold handlers_added; rw app_nil_r; by destruct p|]. intros l [= <-]. by rw app_nil_r.
  - destruct (sr_add_signal sr s) as [u|e].
    + destruct (IH (installed ++ [s]) (log (HandlerAdded s) (set_handlers (s :: pr_handlers p) p))) as (ins & Hp & Hl).
      exists (s :: ins). split.
      * unfold handlers_added in *. rw Hp. cbn [pr_host pr_handlers pr_server pr_shutting_down pr_log log set_handlers].
        by rw reverse_cons fmap_cons -!app_assoc.
      * intros l Hr. rw (Hl l Hr). by rw -app_assoc.
    + assert (Hstop : ∃ ins, handlers_added ins p p ∧ ∀ l, Raise e = Ok l → l = installed ++ ins).
      { exists []. split; [unfold handlers_added; rw app_nil_r; by destruct p|done]. }
      destruct e; try exact Hstop. apply IH.
Qed.

Lemma remove_signals_spec ins p :
  (remove_signals ins p).1 =
  mkProcess (pr_host p) (filter (λ t, t ∉ ins) (pr_handlers p)) (pr_server p) (pr_shutting_down p)
    (pr_log p ++ (HandlerRemoved <$> ins)).
Proof.
  unfold remove_signals, modify. cbn [fst]. revert p. induction ins as [|s ins IH]; intros p; cbn [foldl].
  - rw app_nil_r. destruct p as [h hs c d l]. cbn. f_equal. induction hs as [|x hs IH]; [done|].
    rw filter_cons_True; [by rw -IH|apply not_elem_of_nil].
  - rw IH. cbn. rw -app_assoc. f_equal. rw list_filter_filter. apply list_filter_iff. intros x. set_solver.
Qed.

(** How a run of a service ends. Either it was refused before the listener was started, or it went
through the whole shutdown: the store refuses work, then the socket is closed, then the handlers
are removed. It listened at most once, only with a context and a store that were [ready], and a run that
returns did listen until it was told to stop. *)
Definition lifecycle (address : pystr) (port : Z) (ready : ssl_context → Store → Prop) (p' : process) (r : result unit) : Prop :=
  pr_server p' = None ∧
  ((∃ e ins, r = Raise e ∧ pr_shutting_down p' = false ∧ pr_log p' = HandlerAdded <$> ins) ∨
   (pr_shutting_down p' = true ∧ pr_handlers p' = [] ∧ ∃ ins started closed,
      pr_log p' = (HandlerAdded <$> ins) ++ started ++ [ShutdownBegun] ++ closed ++ (HandlerRemoved <$> ins) ∧
      ((∃ e, r = Raise e ∧ started = [] ∧ closed = []) ∨
       ∃ context store, started = [Listening address port context store] ∧ closed = [ListenerClosed] ∧
         ready context store))).

Definition with_host (h : host) (p : process) : process :=
  mkProcess h (pr_handlers p) (pr_server p) (pr_shutting_down p) (pr_log p).

(** What a start does: it fails and changes nothing but the files that were open, or it listens
with the context it built. *)
Definition starts (store : Store) (address : pystr) (port : Z) (build : M host ssl_context) (start : M process unit)
    : Prop :=
  ∀ p, pr_server p = None → ∃ h, let '(p1, r) := start p in
    (∃ e, r = Raise e ∧ p1 = with_host h p) ∨
    (r = Ok tt ∧ ∃ c, build (pr_host p) = (h, Ok c) ∧
      p1 = log (Listening address port c store) (set_server (Some c) (with_host h p))).

Lemma listen_starts sr store address port build :
  starts store address port build (listen sr store address port build).
Proof.
  intros p Hs. unfold listen. unfold mbind at 1, M_bind at 1, on_host.
  destruct (build (pr_host p)) as [h [c|e]]; exists h; [|left; by exists e].
  unfold mbind, M_bind, lift. destruct (sr_bind sr) as [[]|e]; [right|left; by exists e].
  split; [done|]. by exists c.
Qed.
Lemma stream_listener_starts sr name store address port build :
  starts store address port build (stream_listener_start sr name store address port build).
Proof. intros p Hs. unfold stream_listener_start. rw Hs. by apply listen_starts. Qed.
Lemma agent_listener_starts sr store address port build :
  starts store address port build (agent_listener_start sr store address port build).
Proof.
  intros p Hs. unfold agent_listener_start. rw Hs. unfold or_clean_up, mbind, M_bind, lift.
  destruct (sr_setup sr) as [[]|e]; [|exists (pr_host p); left; exists e; split; [done|by destruct p]].
  destruct (listen_starts sr store address port build p Hs) as [h Hl]. exists h.
  destruct (listen sr store address port build p) as [p1 [[]|e]]; [exact Hl|].
  destruct Hl as [(e' & _ & ->)|[? _]]; [|done]. destruct (sr_cleanup sr) as [[]|e'']; left; by eexists.
Qed.

Definition closing (p : process) : list action := match pr_server p with Some _ => [ListenerClosed] | None => [] end.

Lemma shutdown_spec sr ins p :
  let '(p', r) := shut_down sr ins p in
  p' = mkProcess (pr_host p) (filter (λ t, t ∉ ins) (pr_handlers p)) None true
         (pr_log p ++ [ShutdownBegun] ++ closing p ++ (HandlerRemoved <$> ins)) ∧
  r = match pr_server p with Some _ => sr_close sr | None => Ok tt end.
Proof.
  unfold shut_down, store_begin_shutdown, listener_close, finallyM, mbind, M_bind. cbn [modify fst snd].
  destruct p as [h hs server d l]. unfold closing. destruct server as [c|]; cbn [log pr_server pr_log pr_host pr_handlers];
    match goal with |- context [remove_signals ins ?q] => pose proof (remove_signals_spec ins q) as Hr;
      destruct (remove_signals ins q) as [p' [[]|e]] eqn:E; [|discriminate E] end; cbn in Hr; subst p';
    (split; [by rw -?app_assoc|done]).
Qed.

Definition installing (sr : surroundings) (own : bool) : M process (list signal) :=
  if own then mret [] else install_signals sr [SIGINT; SIGTERM] [].

Lemma installing_spec sr own h :
  ∃ ins, let '(p, r) := installing sr own (fresh_process h) in
    p = mkProcess h (reverse ins) None false (HandlerAdded <$> ins) ∧ ∀ l, r = Ok l → l = ins.
Proof.
  unfold installing. destruct own; [exists []; split; [done|by intros l [= <-]]|].
  destruct (install_signals_spec sr [SIGINT; SIGTERM] [] (fresh_process h)) as (ins & Hp & Hl). exists ins.
  destruct (install_signals sr [SIGINT; SIGTERM] [] (fresh_process h)) as [p r]. cbn in Hp, Hl. split; [|done].
  unfold handlers_added in Hp. cbn in Hp. by rw app_nil_r in Hp.
Qed.

Lemma removed_all ins : filter (λ t : signal, t ∉ ins) (reverse ins) = [].
Proof. apply elem_of_nil_inv. intros x [Hx Hin]%list_elem_of_filter. by rw elem_of_reverse in Hin. Qed.

Lemma serve_spec sr own store address port build start h :
  starts store address port build start →
  let '(p', r) := serve sr own start (fresh_process h) in
  lifecycle address port (λ c st, (∃ h', build h = (h', Ok c)) ∧ st = store) p' r ∧
  (r = Ok tt → sr_wait sr = Ok tt ∧ sr_close sr = Ok tt).
Proof.
  intros Hstart. unfold serve. fold (installing sr own). unfold mbind at 1, M_bind at 1.
  destruct (installing_spec sr own h) as [ins Hins]. destruct (installing sr own (fresh_process h)) as [p1 r1].
  destruct Hins as [-> Hl]. destruct r1 as [l|e]; cycle 1.
  { split; [|done]. split; [done|]. left. by exists e, ins. }
  rw (Hl l eq_refl). clear Hl l. unfold finallyM at 1, mbind at 1, M_bind at 1.
  set (p1 := mkProcess h _ _ _ _). destruct (Hstart p1 eq_refl) as [h1 Hs]. destruct (start p1) as [p2 r2].
  pose proof (removed_all ins) as Hnone.
  destruct Hs as [(e & -> & ->)|(-> & c & Hbuild & ->)]; cbn [pr_host p1] in *.
  - pose proof (shutdown_spec sr ins (with_host h1 p1)) as Hsd. destruct (shut_down sr ins (with_host h1 p1)) as [p3 r3].
    destruct Hsd as [-> ->]. split; [|done]. split; [done|]. right. cbn. rw Hnone. split_and!; [done..|].
    exists ins, [], []. split; [done|]. left. by exists e.
  - set (p2 := log _ _). pose proof (shutdown_spec sr ins p2) as Hsd. unfold lift at 1.
    destruct (shut_down sr ins p2) as [p3 r3]. destruct Hsd as [-> ->].
    assert (Hlife : ∀ r, lifecycle address port (λ c st, (∃ h', build h = (h', Ok c)) ∧ st = store)
      (mkProcess h1 (filter (λ t, t ∉ ins) (reverse ins)) None true
        (pr_log p2 ++ [ShutdownBegun] ++ [ListenerClosed] ++ (HandlerRemoved <$> ins))) r).
    { intros r. split; [done|]. right. cbn. rw Hnone. split_and!; [done..|].
      exists ins, [Listening address port c store], [ListenerClosed]. split; [by rw -app_assoc|].
      right. exists c, store. split_and!; [done..|by exists h1|done]. }
    destruct (sr_wait sr) as [[]|], (sr_close sr) as [[]|]; (split; [apply Hlife|done]).
Qed.

(** The status of a process whose [try] body ended as given. *)
Inductive exits : result unit → result Z → Prop :=
| exits_returned : exits (Ok tt) (Ok 0%Z)
| exits_interrupted : exits (Raise KeyboardInterrupt) (Ok 130%Z)
| exits_failed e : e ∉ [KeyboardInterrupt; SystemExit; CancelledError] → exits (Raise e) (Ok 1%Z)
| exits_escaped e : e ∈ [SystemExit; CancelledError] → exits (Raise e) (Raise e).

Lemma exit_status_exits r : exits r (exit_status r).
Proof.
  destruct r as [[]|e]; [constructor|]. unfold exit_status.
  destruct e; cbn [is_Exception]; constructor; rw !elem_of_cons elem_of_nil; naive_solver.
Qed.

(** ** What a service has verified before it listens *)
Section readiness.
Context `{TLSLibrary} `{X509Pem}.
Context (conninfo_to_dict : pystr → result conninfo) (lower : pystr → pystr).
Context (sr : surroundings).

(** [bytes] were read from the file that [path] named and that passed the checks, at some moment after
[h]; they are its contents unless it was written meanwhile. *)
Definition read_from (h : host) (path : pystr) (maximum_bytes : Z) (private : bool) (bytes : list Z) : Prop :=
  ∃ start ino i, checked_file h start path maximum_bytes private ino i ∧ Z.of_nat (length bytes) = st_size i ∧
    (stable h ino → bytes = i_content i).

Lemma read_from_intro n h h1 h' path label maximum_bytes private bytes :
  (0 ≤ maximum_bytes)%Z → later n h h1 →
  _read_regular_file path label maximum_bytes private h1 = (h', Ok bytes) →
  read_from h path maximum_bytes private bytes ∧ ∃ k, later k h h'.
Proof using Type.
  intros Hm Hl Hr. pose proof (read_regular_file_released path label maximum_bytes private h1) as Hrel. rw Hr in Hrel.
  destruct Hrel as [[k Hk] _]. apply read_regular_file_Ok in Hr as (_ & ino & i & Hc & Hlen & Hs); [|done].
  split; [|exists (n + k); by eapply later_trans]. apply (checked_file_later _ _ _ _ _ _ _ _ _ Hl) in Hc.
  eexists _, ino, i. split; [exact Hc|]. split; [done|]. intros Hst. by eapply Hs, stable_later.
Qed.

(** Not root; no libpq variable; a store on a safe connection string, which is what the credential file
of the configuration holds, with the configured timeout; and behind that very connection string a
database with exactly the packaged migrations. *)
Record dependencies (h : host) (credential : pystr) (timeout : pynumber) (store : Store) : Prop := {
  dep_user : p_euid (h_platform h) ≠ Some 0%Z;
  dep_environ : ∀ name rest, name ∈ sr_environ sr → name ≠ py "PG" ++ rest;
  dep_credential : ∃ encoded, read_from h credential MAX_DATABASE_DSN_BYTES true encoded ∧
    utf8_decode encoded = Ok (st_dsn store);
  dep_safe : ∃ p, safe_dsn conninfo_to_dict lower (st_dsn store) p;
  dep_timeout : st_operation_timeout_seconds store = timeout;
  dep_schema : sr_directory sr ≠ [] ∧
    md_applied (sr_database sr (st_dsn store)) = Some (expected_state (py_sorted migration_leb (sr_directory sr)));
}.

(** The public key of the first certificate of a PEM file. *)
Definition holds_key (bytes key : list Z) : Prop :=
  ∃ certificate rest k, load_pem_x509_certificates bytes = Ok (certificate :: rest) ∧
    certificate_public_key certificate = Ok k ∧ key = subject_public_key_info k.

(** The keys in the two files, as the service read them, differ. *)
Definition distinct_keys (h : host) (server client : pystr) : Prop :=
  ∃ b1 b2 k1 k2,
    read_from h server MAX_TLS_IDENTITY_CERTIFICATE_BYTES false b1 ∧ holds_key b1 k1 ∧
    read_from h client MAX_TLS_IDENTITY_CERTIFICATE_BYTES false b2 ∧ holds_key b2 k2 ∧ k1 ≠ k2.

(** Without disturbance one file is never distinct from itself. *)
Lemma distinct_keys_irreflexive h path : quiet h → ~ distinct_keys h path path.
Proof using Type.
  intros Hq (b1 & b2 & k1 & k2 & (s1 & ino1 & i1 & Hc1 & _ & Hb1) & Hk1 & (s2 & ino2 & i2 & Hc2 & _ & Hb2) & Hk2 & Hne).
  specialize (Hb1 (quiet_stable _ _ Hq)). specialize (Hb2 (quiet_stable _ _ Hq)).
  pose proof (cf_named _ _ _ _ _ _ _ Hc1) as Hn1. pose proof (cf_named _ _ _ _ _ _ _ Hc2) as Hn2.
  pose proof (cf_inode _ _ _ _ _ _ _ Hc1) as Hi1. pose proof (cf_inode _ _ _ _ _ _ _ Hc2) as Hi2.
  rw !quiet_files // in Hn1, Hn2, Hi1, Hi2. rw Hn1 in Hn2. injection Hn2 as <-. rw Hi1 in Hi2. injection Hi2 as <-.
  destruct Hk1 as (? & ? & ? & Hp1 & Hq1 & ->), Hk2 as (? & ? & ? & Hp2 & Hq2 & ->). congruence.
Qed.

Lemma require_unprivileged_Ok h h' u :
  _require_unprivileged_process h = (h', Ok u) → h' = h ∧ p_euid (h_platform h) ≠ Some 0%Z.
Proof using Type.
  unfold _require_unprivileged_process, _effective_user_id, os_geteuid, mbind, M_bind.
  intros [-> Hb%bool_decide_eq_false]%lift_if_Ok. done.
Qed.

Lemma verify_schema_state_Ok dsn names :
  verify_schema_state (sr_directory sr) (sr_opened sr dsn) (sr_database sr dsn) = Ok names →
  sr_directory sr ≠ [] ∧
  md_applied (sr_database sr dsn) = Some (expected_state (py_sorted migration_leb (sr_directory sr))).
Proof using Type.
  unfold verify_schema_state. destruct (py_sorted migration_leb (sr_directory sr)) as [|m ms] eqn:Hs; [done|].
  intros Hv. split; [intros Hn; by rw Hn in Hs|].
  apply result_seq_Ok in Hv as [_ Hv]. destruct (md_applied _) as [actual|]; [|done].
  apply result_seq_Ok in Hv as [Hb%raise_if_Ok _]. apply negb_false_iff, bool_decide_eq_true in Hb. by rw Hb.
Qed.

Lemma open_store_Ok n h h1 h' credential timeout store :
  later n h h1 → p_euid (h_platform h1) ≠ Some 0%Z →
  open_store conninfo_to_dict lower sr credential timeout h1 = (h', Ok store) →
  dependencies h credential timeout store.
Proof using Type.
  intros Hl Hu. unfold open_store. intros (h2 & dsn & Hd & Hr)%bind_Ok_inv.
  apply bind_Ok_inv in Hr as (h3 & st & Hst & Hr). apply bind_Ok_inv in Hr as (h4 & names & Hv & [= _ <-]).
  injection Hst as _ Hst. apply result_seq_Ok in Hst as [_ Hst]. apply result_seq_Ok in Hst as [_ [= <-]].
  injection Hv as _ Hv%verify_schema_state_Ok.
  pose proof (load_database_dsn_Ok _ _ _ _ _ _ _ Hd) as Hsafe. unfold load_database_dsn in Hd.
  apply seq_Ok_inv in Hd as (h5 & [-> Henv]%lift_if_Ok & Hd).
  apply bind_Ok_inv in Hd as (h6 & encoded & Hread & Hd). injection Hd as _ Hd.
  apply result_bind_Ok_inv in Hd as (value & Hdec & Hd). apply check_dsn_Ok in Hd as [-> _].
  apply (read_from_intro n h) in Hread as [Hread _]; [|done..].
  split; [by rw -(lt_platform _ _ _ Hl)|by apply no_libpq_variables| |done..].
  exists encoded. split; [done|]. by apply except_as_Ok in Hdec.
Qed.

Lemma identity_key_Ok n h h1 h' path label key :
  later n h h1 → load_tls_identity_public_key path label h1 = (h', Ok key) →
  (∃ k, later k h h') ∧ ∃ b, read_from h path MAX_TLS_IDENTITY_CERTIFICATE_BYTES false b ∧ holds_key b key.
Proof using Type.
  intros Hl. unfold load_tls_identity_public_key. intros (h2 & b & Hb & Hr)%bind_Ok_inv.
  apply (read_from_intro n h) in Hb as [Hb Hk]; [|done..]. injection Hr as <- Hr. split; [done|]. exists b. split; [done|].
  apply except_as_Ok in Hr. apply result_bind_Ok_inv in Hr as (cs & Hcs & Hr). destruct cs as [|c cs]; [done|].
  apply result_bind_Ok_inv in Hr as (k & Hkey & [= <-]). by exists c, cs, k.
Qed.

Lemma distinct_identities_Ok n h h1 h' server client l1 l2 m :
  later n h h1 → distinct_identities server client l1 l2 m h1 = (h', Ok tt) →
  (∃ k, later k h h') ∧ distinct_keys h server client.
Proof using Type.
  intros Hl. unfold distinct_identities. intros (h2 & k1 & Hk1 & Hr)%bind_Ok_inv.
  apply bind_Ok_inv in Hr as (h3 & k2 & Hk2 & Hr). apply lift_if_Ok in Hr as [-> Hb%bool_decide_eq_false].
  apply (identity_key_Ok n h) in Hk1 as ([n2 Hl2] & b1 & Hr1 & Hb1); [|done].
  apply (identity_key_Ok n2 h) in Hk2 as (Hl3 & b2 & Hr2 & Hb2); [|done]. split; [done|]. by exists b1, b2, k1, k2.
Qed.

(** The checks of a service that is also a client. *)
Lemma client_checks_Ok n h h1 h' server client l1 l2 m credential timeout (rest : Store → M host Store) store :
  later n h h1 → (∀ st h2 h3 st', rest st h2 = (h3, Ok st') → st' = st) →
  (_require_unprivileged_process;; distinct_identities server client l1 l2 m;;
   st ← open_store conninfo_to_dict lower sr credential timeout; rest st) h1 = (h', Ok store) →
  dependencies h credential timeout store ∧ distinct_keys h server client.
Proof using Type.
  intros Hl Hrest (h2 & Hu & Hr)%seq_Ok_inv. apply require_unprivileged_Ok in Hu as [-> Hu].
  apply seq_Ok_inv in Hr as (h3 & Hd & Hr). apply (distinct_identities_Ok n h) in Hd as [[k Hk] Hd]; [|done].
  apply bind_Ok_inv in Hr as (h4 & st & Hs & Hr). apply Hrest in Hr as ->. split; [|done].
  eapply open_store_Ok; [exact Hk| |exact Hs]. by rw (lt_platform _ _ _ Hk) -(lt_platform _ _ _ Hl).
Qed.

(** A run: the checks, then the service. *)
Lemma run_spec (checks : M host Store) own address port build start h (ready : ssl_context → Store → Prop) :
  (∀ store, starts store address port build (start store)) →
  (∀ h' store c h1 h2, checks h = (h', Ok store) → build h1 = (h2, Ok c) → ready c store) →
  let '(p', r) := (store ← on_host checks; serve sr own (start store)) (fresh_process h) in
  lifecycle address port ready p' r ∧ (r = Ok tt → sr_wait sr = Ok tt ∧ sr_close sr = Ok tt).
Proof using Type.
  intros Hstart Hc. unfold mbind, M_bind, on_host. cbn [fresh_process pr_host].
  destruct (checks h) as [h1 [store|e]]; cycle 1.
  { split; [|done]. split; [done|]. left. exists e, []. done. }
  pose proof (serve_spec sr own store address port build (start store) h1 (Hstart store)) as Hs.
  change (mkProcess h1 _ _ _ _) with (fresh_process h1).
  destruct (serve sr own _ (fresh_process h1)) as [p' r]. destruct Hs as [[Hn Hl] Hw]. split; [|done]. split; [done|].
  destruct Hl as [Hl|(Hsd & Hh & ins & started & closed & Hlog & Hl)]; [by left|right]. split_and!; [done..|].
  exists ins, started, closed. split; [done|].
  destruct Hl as [Hl|(c & st & Hst & Hcl & [h2 Hc2] & ->)]; [by left|right].
  exists c, store. split_and!; [done..|by eapply Hc].
Qed.

(** How [main] ends: refused before anything is opened, or a life of the service [run] under a
configuration that meets its checks. *)
Definition concludes {C} (ok : C → Prop) (life : C → process → result unit → Prop) (p' : process) (status : result Z)
    : Prop :=
  (status = Ok 1%Z ∧ pr_server p' = None ∧ pr_log p' = []) ∨
  ∃ c r, ok c ∧ exits r status ∧ life c p' r ∧
    (status = Ok 0%Z → sr_wait sr = Ok tt ∧ sr_close sr = Ok tt ∧
      ∃ address port context store, Listening address port context store ∈ pr_log p').

Lemma lifecycle_listened address port ready p' r :
  lifecycle address port ready p' r → r = Ok tt → ∃ context store, Listening address port context store ∈ pr_log p'.
Proof using Type.
  intros [_ [(e & ins & -> & _)|(_ & _ & ins & started & closed & Hlog & [(e & -> & _)|(c & st & -> & _)])]] Hr; [done..|].
  exists c, st. rw Hlog. apply elem_of_app. right. by left.
Qed.

(** What a loader leaves and returns, as [main] needs it. *)
Definition loaded {C} (load : M host C) (ok : C → Prop) (h : host) : Prop :=
  (∀ e, (load h).2 = Raise e → is_Exception e = true) ∧ (∀ h' c, load h = (h', Ok c) → ok c) ∧ released h (load h).1.

Lemma main_spec {C} (load : M host C) (run : C → M process unit) (ok : C → Prop) address port ready h :
  loaded load ok h →
  (∀ c h1 n, later n h h1 → let '(p', r) := run c (fresh_process h1) in
    lifecycle (address c) (port c) (ready c) p' r ∧ (r = Ok tt → sr_wait sr = Ok tt ∧ sr_close sr = Ok tt)) →
  let '(p', status) := service_main load run (fresh_process h) in
  concludes ok (λ c, lifecycle (address c) (port c) (ready c)) p' status.
Proof using Type.
  intros (Hk & Hok & Hrel) Hrun. unfold service_main, mbind at 1, M_bind at 1, on_host. cbn [fresh_process pr_host].
  unfold mbind at 1, M_bind at 1. destruct (_require_unprivileged_process h) as [h0 r0] eqn:Hreq.
  assert (h0 = h ∧ (r0 = Ok tt ∨ ∃ m, r0 = Raise (ValidationError m))) as [-> Hr0].
  { unfold _require_unprivileged_process, _effective_user_id, os_geteuid, mbind, M_bind, lift, raise_if in Hreq.
    case_bool_decide; injection Hreq as <- <-; split; eauto. }
  destruct Hr0 as [-> |[m ->]]; [|by left].
  destruct (load h) as [h1 [c|e]]; cycle 1.
  { left. split; [|done]. specialize (Hk e eq_refl). by destruct e. }
  destruct Hrel as [[n Hl] _]. specialize (Hrun c h1 n Hl). change (mkProcess h1 _ _ _ _) with (fresh_process h1).
  destruct (run c (fresh_process h1)) as [p' r]. destruct Hrun as [Hlife Hw]. right. exists c, r.
  split; [by eapply Hok|]. split; [apply exit_status_exits|]. split; [done|]. intros Hs.
  assert (Hr : r = Ok tt) by (destruct r as [[]|e]; [done|by destruct e]).
  destruct (Hw Hr) as [Hw1 Hw2]. split; [done|]. split; [done|].
  destruct (lifecycle_listened _ _ _ _ _ Hlife Hr) as (context & store & Hin). by exists (address c), (port c), context, store.
Qed.

Lemma load_error_exception path e : load_error path e → is_Exception e = true.
Proof using Type. intros He. by destruct e; try done; destruct He as [[?|[?|[? _]]]|[?|[?|?]]]. Qed.

Lemma loaded_intro {C} (load : M host C) ok path h :
  (let '(h', r) := load h in released h h' ∧ outcome (load_error path) ok r) → loaded load ok h.
Proof using Type.
  unfold loaded. destruct (load h) as [h' [c|e]]; intros [Hrel Ho]; cbn in *; split_and!; try done.
  - by intros h'' c' [= <- <-].
  - intros e' [= <-]. by eapply load_error_exception.
Qed.

Lemma agent_loaded printable depth path h :
  loaded (load_agent_service_configuration printable depth path) (agent_service_ok printable) h.
Proof using Type.
  apply (loaded_intro _ _ path), load_outcome. intros b. apply document_then. apply agent_configuration_outcome.
Qed.
Lemma enrollment_loaded printable depth path h :
  loaded (load_enrollment_service_configuration printable depth path) (enrollment_service_ok printable) h.
Proof using Type.
  apply (loaded_intro _ _ path), load_outcome. intros b. apply document_then. apply enrollment_configuration_outcome.
Qed.
Lemma operator_loaded printable depth path h :
  loaded (load_operator_service_configuration printable depth path) (operator_service_ok printable) h.
Proof using Type.
  apply (loaded_intro _ _ path), load_outcome. intros b. apply document_then. apply operator_configuration_outcome.
Qed.

(** C20: the three services start only when everything they depend on has been verified, and always
shut down in order. Whatever the configuration, the files, the database, the event loop and the
network do, [main] ends with no socket left listening: with status 0, 130 for an interrupt, 1 for any
other [Exception], or with the [SystemExit] or cancellation that was raised. A service listens at most
once, at the address of a configuration that meets its checks, as an unprivileged process, with a TLS
1.3 context without tickets (requiring client certificates for agents), serving a store whose
connection string is safe, is the content of the configured credential file and leads to a database
holding exactly the packaged migrations; where it is also a client, the key in its server certificate
file differs from the key in its client certificate file. Once it may have listened, the store
refuses work before the socket is closed and the signal handlers are removed. Status 0 means it
served until it was stopped. *)
Theorem service_mains_fail_closed printable depth path h :
  (let '(p', status) := agent_main conninfo_to_dict lower sr printable depth path (fresh_process h) in
   concludes (agent_service_ok printable) (λ c,
     lifecycle (ac_bind_address (as_listener c)) (ac_port (as_listener c)) (λ context store,
       dependencies h (as_database_dsn_credential c) (as_database_operation_timeout_seconds c) store ∧
       strict_context PROTOCOL_TLS_SERVER CERT_REQUIRED context ∧ sc_num_tickets context = 0%Z ∧
       ∃ ca, sc_verify_locations context = [ca])) p' status) ∧
  (let '(p', status) := enrollment_main conninfo_to_dict lower sr printable depth path (fresh_process h) in
   concludes (enrollment_service_ok printable) (λ c,
     lifecycle (tc_bind_address (es_listener c)) (tc_port (es_listener c)) (λ context store,
       dependencies h (es_database_dsn_credential c) (es_database_operation_timeout_seconds c) store ∧
       distinct_keys h (tc_server_certificate (es_listener c)) (cc_client_certificate (es_issuer c)) ∧
       strict_context PROTOCOL_TLS_SERVER CERT_NONE context ∧ sc_num_tickets context = 0%Z)) p' status) ∧
  (let '(p', status) := operator_main conninfo_to_dict lower sr printable depth path (fresh_process h) in
   concludes (operator_service_ok printable) (λ c,
     lifecycle (tc_bind_address (ops_listener c)) (tc_port (ops_listener c)) (λ context store,
       dependencies h (ops_database_dsn_credential c) (ops_database_operation_timeout_seconds c) store ∧
       distinct_keys h (tc_server_certificate (ops_listener c)) (cc_client_certificate (ops_verifier c)) ∧
       strict_context PROTOCOL_TLS_SERVER CERT_NONE context ∧ sc_num_tickets context = 0%Z)) p' status).
Proof using Type.
  split; [|split].
  - apply main_spec; [apply agent_loaded|]. intros c h1 n Hl. eapply run_spec; [intros st; apply agent_listener_starts|].
    intros h' store ctx h2 h3 (h4 & Hu & Hr)%seq_Ok_inv Hb. apply require_unprivileged_Ok in Hu as [-> Hu].
    apply bind_Ok_inv in Hr as (h5 & st & Hs & Hr). apply seq_Ok_inv in Hr as (h6 & _ & [= _ <-]).
    split; [by eapply open_store_Ok|by eapply build_server_ssl_context_strict].
  - apply main_spec; [apply enrollment_loaded|]. intros c h1 n Hl. eapply run_spec; [intros st; apply stream_listener_starts|].
    intros h' store ctx h2 h3 Hr Hb. pose proof (build_server_context_strict _ _ _ _ _ Hb).
    apply (client_checks_Ok n h) in Hr as [Hd Hk]; [done|done|].
    intros st h4 h5 st' (h6 & cc & _ & Hr')%bind_Ok_inv. apply bind_Ok_inv in Hr' as (h7 & root & _ & Hr').
    by apply bind_Ok_inv in Hr' as (h8 & u & _ & [= _ <-]).
  - apply main_spec; [apply operator_loaded|]. intros c h1 n Hl. eapply run_spec; [intros st; apply stream_listener_starts|].
    intros h' store ctx h2 h3 Hr Hb. pose proof (build_server_context_strict _ _ _ _ _ Hb).
    apply (client_checks_Ok n h) in Hr as [Hd Hk]; [done|done|].
    by intros st h4 h5 st' (h6 & cc & _ & [= _ <-])%bind_Ok_inv.
Qed.
End readiness.

(** ** A run of the operator service *)
Module ServiceSample.
#[local] Instance library : TLSLibrary := {| tls_check_chain := λ _ _, Ok tt; tls_check_ca := λ _, Ok tt |}.
(** Certificates are their own bytes and public keys. *)
#[local] Instance x509 : X509 := {|
  Certificate := list Z; Csr := unit; PublicKey := list Z;
  load_der_x509_certificate := λ b, Ok b; load_der_x509_csr := λ _, Ok tt;
  BasicConstraints_ca := λ _, Ok true; KeyUsage_digital_signature := λ _, Ok true;
  ExtendedKeyUsage := λ _, Ok []; SubjectAlternativeName := λ _, Ok []; extensions := λ _, Ok [];
  certificate_public_key := λ c, Ok c; certificate_public_bytes := λ c, c; serial_number := λ _, 1%Z;
  issuer_rfc4514_string := λ _, []; not_valid_before_utc := λ _, utc 0; not_valid_after_utc := λ _, utc 0;
  client_verify := λ _ _ _ _, Ok tt; is_signature_valid := λ _, Ok true; subject_len := λ _, Ok 0%Z;
  csr_extensions_len := λ _, Ok 0%Z; attributes_len := λ _, Ok 0%Z; csr_public_key := λ _, Ok [];
  csr_public_bytes := λ _, []; key_type_of := λ _, Ed25519PublicKey; subject_public_key_info := λ k, k |}.
#[local] Instance pem : X509Pem := {|
  load_pem_x509_certificates := λ b, Ok [b]; KeyUsage_key_cert_sign := λ _, Ok true; subject_is_issuer := λ _, true |}.

Definition tree (client_certificate : list Z) : files :=
  foldr (λ (f : string * Z * list Z) fs,
      let n := S (size (f_inodes fs)) in
      mkFiles (<[py f.1.1 := File n]> (f_entries fs)) (<[n := mkInode f.1.2 1000 f.2]> (f_inodes fs)))
    (mkFiles ∅ ∅)
    [("/etc/operator.json", 0x81A4%Z, ConfigurationSample.text); ("/run/dsn", 0x8180%Z, DsnSample.dsn);
     ("/tls/cert", 0x81A4%Z, [1%Z]); ("/tls/key", 0x8180%Z, [2%Z]); ("/tls/ca", 0x81A4%Z, [3%Z]);
     ("/tls/client", 0x81A4%Z, client_certificate); ("/tls/client-key", 0x8180%Z, [5%Z])].
Definition machine (uid : Z) (client_certificate : list Z) : host :=
  mkHost (mkPlatform true true (Some uid)) (λ t, mkEvent id false 700) 0 (tree client_certificate) ∅.

Definition migrations : list Migration := [mkMigration (py "0001_init.sql") (py "CREATE TABLE t ()")].
(** Only the database the credential names has the schema. *)
Definition setting (wait : result unit) : surroundings :=
  mkSurroundings [py "HOME"] migrations (λ _, Ok tt)
    (λ dsn, mkMigrationDb tt (if bool_decide (dsn = DsnSample.dsn)
       then Some (expected_state (py_sorted migration_leb migrations)) else None))
    (λ s, match s with SIGINT => Ok tt | SIGTERM => Raise NotImplementedError end) (Ok tt) wait (Ok tt) (Ok tt) (Ok tt).

Definition service (wait : result unit) : M process Z :=
  operator_main DsnSample.parser ascii_lower (setting wait) (λ _, false) 8 (py "/etc/operator.json").
Definition run (uid : Z) (client_certificate : list Z) (wait : result unit) : list Z * result Z :=
  let '(p, status) := service wait (fresh_process (machine uid client_certificate)) in
  ((λ a, match a with HandlerAdded _ => 1 | Listening _ _ _ _ => 2 | ShutdownBegun => 3 | ListenerClosed => 4
         | HandlerRemoved _ => 5 end)%Z <$> pr_log p, status).
End ServiceSample.

(** It serves until it is stopped, interrupted or cancelled; it refuses to run as root, and with one
key in both roles. *)
Example operator_service_runs :
  ServiceSample.run 1000 [4%Z] (Ok tt) = ([1; 2; 3; 4; 5]%Z, Ok 0%Z) ∧
  ServiceSample.run 1000 [4%Z] (Raise KeyboardInterrupt) = ([1; 2; 3; 4; 5]%Z, Ok 130%Z) ∧
  ServiceSample.run 1000 [4%Z] (Raise OSError) = ([1; 2; 3; 4; 5]%Z, Ok 1%Z) ∧
  ServiceSample.run 1000 [4%Z] (Raise CancelledError) = ([1; 2; 3; 4; 5]%Z, Raise CancelledError) ∧
  ServiceSample.run 0 [4%Z] (Ok tt) = ([], Ok 1%Z) ∧
  ServiceSample.run 1000 [1%Z] (Ok tt) = ([], Ok 1%Z).
Proof. vm_compute. auto 10. Qed.

(** The launcher runs a service under its own name only. *)
Example launcher_runs :
  let import_module (path : list pystr) (m : pystr) :=
    if bool_decide (head path = Some PACKAGE_ROOT ∧ m = py "northgate_rmm.operator_service")
    then Ok (ServiceSample.service (Ok tt)) else Raise OSError in
  let run (name : string) :=
    (launcher_run import_module [] (py name) (fresh_process (ServiceSample.machine 1000 [4%Z]))).2 in
  run "/usr/sbin/northgate-rmm-operator-service"%string = Ok 0%Z ∧
  run "northgate-rmm-operator-service/."%string = Ok 0%Z ∧
  run "/usr/sbin/northgate-rmm-server"%string = Ok 64%Z.
Proof. vm_compute. auto. Qed.
