(* ===== verification/ListenerLife.v ===== *)
(** * The life of a stream listener

[start], [close] and [_accept] of [EnrollmentTLSListener] and [OperatorTLSListener]
([enrollment_listener.py], [operator_listener.py]), interleaved with the tasks of their
connections at the points where a coroutine waits. A listener is started once, as the services
do. What a task does while it serves is [Connection]'s [_handle_transport]; here it matters that
it looks at the TLS context once, before it starts TLS. *)
From stdpp Require Import prelude gmap sets relations ssreflect.
From S2P Require Import Prelude.

Set Warnings "-clear-no-such-hyp".

(** A task: created; serving its connection over TLS; on its way out without TLS; done. *)
Inductive task_state := Created | Serving | Leaving | Done.
#[export] Instance task_state_eq_dec : EqDecision task_state.
Proof. solve_decision. Defined.

(** Where the listener is. [Gathering ts]: [close] waits for the tasks it cancelled. *)
Inductive phase := New | Starting | Listening | WaitingClosed | Gathering (tasks : gset nat) | Closed.
#[export] Instance phase_eq_dec : EqDecision phase.
Proof. solve_decision. Defined.

(** [_server], [_tls_context] and [_tasks], and every task ever created. *)
Record listener_life := mkLife {
  lf_phase : phase;
  lf_server : bool;
  lf_tls_context : bool;
  lf_tasks : gset nat;
  lf_states : gmap nat task_state;
}.

Definition fresh_life : listener_life := mkLife New false false ∅ ∅.

Inductive life_event :=
| StartContext | StartBound | StartFailed
| Accept (t : nat) | LookAtContext (t : nat) | Refuse (t : nat) | Finish (t : nat) | Discard (t : nat)
| BeginClose | ServerClosed | Gathered.

Definition set_state (t : nat) (s : task_state) (l : listener_life) : listener_life :=
  mkLife (lf_phase l) (lf_server l) (lf_tls_context l) (lf_tasks l) (<[t := s]> (lf_states l)).

(** [start]: the context is stored, then the server is awaited; a failure takes it back. *)
Definition start_context (l : listener_life) : option listener_life :=
  if bool_decide (lf_phase l = New) && negb (lf_server l)
  then Some (mkLife Starting (lf_server l) true (lf_tasks l) (lf_states l)) else None.
Definition start_bound (l : listener_life) : option listener_life :=
  if bool_decide (lf_phase l = Starting)
  then Some (mkLife Listening true (lf_tls_context l) (lf_tasks l) (lf_states l)) else None.
Definition start_failed (l : listener_life) : option listener_life :=
  if bool_decide (lf_phase l = Starting)
  then Some (mkLife New (lf_server l) false (lf_tasks l) (lf_states l)) else None.

(** [_accept]: the event loop calls it once the socket listens, and may still call it for a
connection it had accepted when the server was closed. *)
Definition _accept (t : nat) (l : listener_life) : option listener_life :=
  if bool_decide (lf_phase l ≠ New ∧ lf_phase l ≠ Starting) && bool_decide (lf_states l !! t = None)
  then Some (mkLife (lf_phase l) (lf_server l) (lf_tls_context l) ({[t]} ∪ lf_tasks l) (<[t := Created]> (lf_states l)))
  else None.

(** [tls_context = self._tls_context; if tls_context is None: return]. *)
Definition look_at_context (t : nat) (l : listener_life) : option listener_life :=
  if bool_decide (lf_states l !! t = Some Created)
  then Some (set_state t (if lf_tls_context l then Serving else Leaving) l) else None.
(** The early returns before it. *)
Definition refuse (t : nat) (l : listener_life) : option listener_life :=
  if bool_decide (lf_states l !! t = Some Created) then Some (set_state t Leaving l) else None.
(** A task returns, raises or is cancelled, at any point of its life. *)
Definition finish (t : nat) (l : listener_life) : option listener_life :=
  match lf_states l !! t with
  | Some (Created | Serving | Leaving) => Some (set_state t Done l)
  | _ => None
  end.
(** The done callback, [self._tasks.discard]. *)
Definition discard (t : nat) (l : listener_life) : option listener_life :=
  if bool_decide (lf_states l !! t = Some Done)
  then Some (mkLife (lf_phase l) (lf_server l) (lf_tls_context l) (lf_tasks l ∖ {[t]}) (lf_states l)) else None.

(** [close] up to its first [await]: without a server the tasks are gathered at once. *)
Definition begin_close (l : listener_life) : option listener_life :=
  match lf_phase l with
  | New | Listening =>
    Some (mkLife (if lf_server l then WaitingClosed else Gathering (lf_tasks l)) false false (lf_tasks l) (lf_states l))
  | _ => None
  end.
(** [wait_closed] returned: the tasks of this moment are cancelled and gathered. *)
Definition server_closed (l : listener_life) : option listener_life :=
  if bool_decide (lf_phase l = WaitingClosed)
  then Some (mkLife (Gathering (lf_tasks l)) (lf_server l) (lf_tls_context l) (lf_tasks l) (lf_states l)) else None.
Definition gathered (l : listener_life) : option listener_life :=
  match lf_phase l with
  | Gathering tasks =>
    if bool_decide (set_Forall (λ t, lf_states l !! t = Some Done) tasks)
    then Some (mkLife Closed (lf_server l) (lf_tls_context l) (lf_tasks l) (lf_states l)) else None
  | _ => None
  end.

Definition life_step (e : life_event) (l : listener_life) : option listener_life :=
  match e with
  | StartContext => start_context l | StartBound => start_bound l | StartFailed => start_failed l
  | Accept t => _accept t l | LookAtContext t => look_at_context t l | Refuse t => refuse t l
  | Finish t => finish t l | Discard t => discard t l
  | BeginClose => begin_close l | ServerClosed => server_closed l | Gathered => gathered l
  end.
Definition life_steps (l l' : listener_life) : Prop := ∃ e, life_step e l = Some l'.

(** ** The invariant *)
Definition accepting (p : phase) : bool := match p with New | Starting => false | _ => true end.
Definition serving_allowed (l : listener_life) (t : nat) : Prop :=
  match lf_phase l with
  | Listening | WaitingClosed => True
  | Gathering tasks => t ∈ tasks
  | New | Starting | Closed => False
  end.

Record life_ok (l : listener_life) : Prop := {
  (** only a starting or listening listener has a context, and a server only while it listens *)
  lo_context : lf_tls_context l = true → lf_phase l = Starting ∨ lf_phase l = Listening;
  lo_server : lf_server l = true ↔ lf_phase l = Listening;
  (** the set holds every task that is not done, and tasks that exist *)
  lo_tracked : ∀ t s, lf_states l !! t = Some s → s ≠ Done → t ∈ lf_tasks l;
  lo_known : ∀ t, t ∈ lf_tasks l → is_Some (lf_states l !! t);
  (** a task serves only while the listener listens, or while [close] waits for that task *)
  lo_serving : ∀ t, lf_states l !! t = Some Serving → serving_allowed l t;
  (** nothing was accepted before the listener listened *)
  lo_early : accepting (lf_phase l) = false → lf_states l = ∅;
  (** the tasks [close] waits for exist *)
  lo_gathering : ∀ ts t, lf_phase l = Gathering ts → t ∈ ts → is_Some (lf_states l !! t);
}.

Lemma fresh_life_ok : life_ok fresh_life.
Proof. split; cbn; try done; set_solver. Qed.

(** A task that exists moves on; it serves only from a listener with a context. *)
Lemma set_state_ok t s s0 l :
  life_ok l → lf_states l !! t = Some s0 → s0 ≠ Done → (s = Serving → lf_tls_context l = true) →
  life_ok (set_state t s l).
Proof.
  intros [Hc Hs Ht Hk Hv He Hg] H0 Hn Hserve.
  assert (Hstates : lf_states l ≠ ∅) by (intros Hx; rw Hx in H0; done).
  split; cbn [set_state lf_phase lf_server lf_tls_context lf_tasks lf_states]; try done.
  - intros t' s' [[<- <-]|[_ Hl]]%lookup_insert_Some Hd; [by eapply Ht|by eapply Ht].
  - intros t' Hin. destruct (decide (t = t')) as [<-|]; [rw lookup_insert_eq|rw lookup_insert_ne; [|done]]; eauto.
  - intros t' [[<- ->]|[_ Hl]]%lookup_insert_Some; [|by apply Hv]. unfold serving_allowed. cbn.
    destruct (Hc (Hserve eq_refl)) as [Hp|Hp]; rw Hp; [|done]. apply Hstates, He. by rw Hp.
  - intros Hp. by destruct (Hstates (He Hp)).
  - intros ts t' Hp Hin. destruct (decide (t = t')) as [<-|]; [rw lookup_insert_eq|rw lookup_insert_ne; [|done]]; eauto.
Qed.

Lemma accept_ok t l l' : life_ok l → _accept t l = Some l' → life_ok l'.
Proof.
  intros [Hc Hs Ht Hk Hv He Hg]. unfold _accept.
  case_bool_decide as Hp; [|done]. case_bool_decide as Hnew; [|done]. intros [= <-]. destruct Hp as [Hp1 Hp2].
  split; cbn [lf_phase lf_server lf_tls_context lf_tasks lf_states]; try done.
  - intros t' s' [[<- <-]|[_ Hl]]%lookup_insert_Some Hd; [set_solver|]. apply elem_of_union_r. by eapply Ht.
  - intros t' [->%elem_of_singleton|Hin]%elem_of_union; [rw lookup_insert_eq; eauto|].
    destruct (decide (t = t')) as [<-|]; [rw lookup_insert_eq|rw lookup_insert_ne; [|done]]; eauto.
  - intros t' [[<- ?]|[_ Hl]]%lookup_insert_Some; [done|by apply Hv].
  - by destruct (lf_phase l).
  - intros ts t' Hg1 Hin. destruct (decide (t = t')) as [<-|]; [rw lookup_insert_eq|rw lookup_insert_ne; [|done]]; eauto.
Qed.

Lemma discard_ok t l l' : life_ok l → discard t l = Some l' → life_ok l'.
Proof.
  intros [Hc Hs Ht Hk Hv He Hg]. unfold discard. case_bool_decide as Hd; [|done]. intros [= <-].
  split; cbn [lf_phase lf_server lf_tls_context lf_tasks lf_states]; try done.
  - intros t' s' Hl Hn. apply elem_of_difference. split; [by eapply Ht|]. intros ->%elem_of_singleton. naive_solver.
  - intros t' [Hin _]%elem_of_difference. by apply Hk.
Qed.

(** The steps of [start] and [close] keep the tasks and move the phase. *)
Lemma phase_ok p b c l :
  life_ok l → (c = true → p = Starting ∨ p = Listening) → (b = true ↔ p = Listening) →
  (∀ t, lf_states l !! t = Some Serving → serving_allowed (mkLife p b c (lf_tasks l) (lf_states l)) t) →
  (accepting p = false → lf_states l = ∅) → (∀ ts, p = Gathering ts → ts = lf_tasks l) →
  life_ok (mkLife p b c (lf_tasks l) (lf_states l)).
Proof.
  intros [Hc Hs Ht Hk Hv He Hg] H1 H2 H3 H4 H5.
  split; cbn [lf_phase lf_server lf_tls_context lf_tasks lf_states]; try done.
  intros ts t Hp Hin. rw (H5 ts Hp) in Hin. by apply Hk.
Qed.

Lemma life_step_ok e l l' : life_ok l → life_step e l = Some l' → life_ok l'.
Proof.
  intros Hl. pose proof Hl as [Hc Hs Ht Hk Hv He Hg]. destruct e as [| | |t|t|t|t|t| | |]; cbn [life_step].
  - unfold start_context. case_bool_decide as Hp; [|done]. destruct (lf_server l) eqn:Hb; [done|]. intros [= <-].
    rw Hp in He. specialize (He eq_refl). apply phase_ok; try done; [by left|]. intros t Hx. by rw He in Hx.
  - unfold start_bound. case_bool_decide as Hp; [|done]. intros [= <-]. apply phase_ok; try done. by right.
  - unfold start_failed. case_bool_decide as Hp; [|done]. intros [= <-]. rw Hp in He. specialize (He eq_refl).
    apply phase_ok; try done; [|intros t Hx; by rw He in Hx]. rw Hs Hp. done.
  - by apply accept_ok.
  - unfold look_at_context. case_bool_decide as Hx; [|done]. intros [= <-]. eapply set_state_ok; [done..|].
    by destruct (lf_tls_context l).
  - unfold refuse. case_bool_decide as Hx; [|done]. intros [= <-]. by eapply set_state_ok.
  - unfold finish. destruct (lf_states l !! t) as [[]|] eqn:Hx; try done; intros [= <-]; by eapply set_state_ok.
  - by apply discard_ok.
  - unfold begin_close. intros H.
    assert (l' = mkLife (if lf_server l then WaitingClosed else Gathering (lf_tasks l)) false false (lf_tasks l) (lf_states l))
      as -> by (destruct (lf_phase l); naive_solver).
    destruct (lf_server l); apply phase_ok; try done; [|by intros ts [= <-]]. intros t Hx. cbn. by eapply Ht.
  - unfold server_closed. case_bool_decide as Hp; [|done]. intros [= <-]. apply phase_ok; try done.
    + intros Hx. destruct (Hc Hx); congruence.
    + rw Hs Hp. done.
    + intros t Hx. cbn. by eapply Ht.
    + by intros ts [= <-].
  - unfold gathered. destruct (lf_phase l) as [| | | |ts|] eqn:Hp; try done. case_bool_decide as Hd; [|done]. intros [= <-].
    apply phase_ok; try done.
    + intros Hx. destruct (Hc Hx); congruence.
    + rw Hs. done.
    + intros t Hx. specialize (Hv t Hx). unfold serving_allowed in Hv. rw Hp in Hv. specialize (Hd t Hv). cbn in Hd. congruence.
Qed.

Lemma life_steps_ok l l' : rtc life_steps l l' → life_ok l → life_ok l'.
Proof. induction 1 as [|x y z [e He] _ IH]; [done|]. intros Hx. by eapply IH, life_step_ok. Qed.

(** ** Shutting down *)
Lemma closed_step e l l' : lf_phase l = Closed → life_step e l = Some l' → lf_phase l' = Closed.
Proof.
  intros Hp. destruct e; cbn [life_step];
    unfold start_context, start_bound, start_failed, _accept, look_at_context, refuse, finish, discard, begin_close,
      server_closed, gathered; rw ?Hp; intros H; simplify_option_eq; repeat case_match; simplify_eq; done.
Qed.
Lemma closed_stays l l' : rtc life_steps l l' → lf_phase l = Closed → lf_phase l' = Closed.
Proof. induction 1 as [|x y z [e He] _ IH]; [done|]. intros Hp. by eapply IH, closed_step. Qed.

(** The tasks [ts] end, one after the other; nothing else changes. *)
Lemma finish_tasks (ts : list nat) l :
  (∀ t, t ∈ ts → is_Some (lf_states l !! t)) →
  ∃ states, rtc life_steps l (mkLife (lf_phase l) (lf_server l) (lf_tls_context l) (lf_tasks l) states) ∧
    (∀ t, t ∈ ts → states !! t = Some Done) ∧ (∀ t, lf_states l !! t = Some Done → states !! t = Some Done) ∧
    (∀ t, is_Some (lf_states l !! t) → is_Some (states !! t)).
Proof.
  revert l. induction ts as [|t ts IH]; intros l Hk.
  { exists (lf_states l). split_and!; [by destruct l|set_solver|done|done]. }
  destruct (Hk t (list_elem_of_here _ _)) as [s Hs].
  assert (Hstep : ∃ l1, rtc life_steps l l1 ∧ lf_states l1 = <[t := Done]> (lf_states l) ∧
    (lf_phase l1, lf_server l1, lf_tls_context l1, lf_tasks l1) =
    (lf_phase l, lf_server l, lf_tls_context l, lf_tasks l)).
  { destruct (decide (s = Done)) as [->|Hn]; [exists l; split_and!; [done|by rw insert_id|done]|].
    exists (set_state t Done l). split_and!; [|done|done]. apply rtc_once. exists (Finish t). cbn. unfold finish. rw Hs.
    by destruct s. }
  destruct Hstep as (l1 & Hr & Hst & [= Hp Hb Hc Ht]).
  assert (Hmore : ∀ x, is_Some (lf_states l !! x) → is_Some (lf_states l1 !! x)).
  { intros x Hx. rw Hst. destruct (decide (t = x)) as [<-|]; [rw lookup_insert_eq; eauto|by rw lookup_insert_ne]. }
  destruct (IH l1) as (states & Hr' & H1 & H2 & H3).
  { intros x Hx. by apply Hmore, Hk, list_elem_of_further. }
  rw Hp Hb Hc Ht in Hr'. exists states. split_and!; [by etrans|..].
  - intros x [->|Hx]%elem_of_cons; [|by apply H1]. apply H2. by rw Hst lookup_insert_eq.
  - intros x Hx. apply H2. rw Hst. destruct (decide (t = x)) as [<-|]; [by rw lookup_insert_eq|by rw lookup_insert_ne].
  - intros x Hx. by apply H3, Hmore.
Qed.

(** The done callbacks empty the set. *)
Lemma discard_tasks (ts : list nat) l :
  (∀ t, t ∈ ts → lf_states l !! t = Some Done) →
  rtc life_steps l (mkLife (lf_phase l) (lf_server l) (lf_tls_context l) (lf_tasks l ∖ list_to_set ts) (lf_states l)).
Proof.
  revert l. induction ts as [|t ts IH]; intros l Hd.
  { cbn. rw difference_empty_L. by destruct l. }
  eapply rtc_l; [exists (Discard t); cbn; unfold discard; rw bool_decide_true; [reflexivity|apply Hd, list_elem_of_here]|].
  etrans; [apply IH; intros x Hx; by apply Hd, list_elem_of_further|]. cbn.
  by rw difference_difference_l_L.
Qed.

Lemma reach_gathering l : life_ok l → lf_phase l ≠ Closed → ∃ l' ts, rtc life_steps l l' ∧ lf_phase l' = Gathering ts.
Proof.
  intros Hl Hn. pose proof (lo_server l Hl) as Hs. destruct l as [p b c tasks states]. cbn in *.
  set (g := mkLife (Gathering tasks) false false tasks states).
  assert (Hwait : rtc life_steps (mkLife WaitingClosed false false tasks states) g).
  { apply rtc_once. by exists ServerClosed. }
  assert (Hlisten : ∀ c, rtc life_steps (mkLife Listening true c tasks states) g).
  { intros c'. eapply rtc_l; [|exact Hwait]. by exists BeginClose. }
  destruct p as [| | | |ts|].
  - exists g, tasks. split; [|done]. apply rtc_once. exists BeginClose. destruct b; [|done]. discriminate (proj1 Hs eq_refl).
  - exists g, tasks. split; [|done]. eapply rtc_l; [by exists StartBound|apply Hlisten].
  - destruct b; [|discriminate (proj2 Hs eq_refl)]. exists g, tasks. split; [apply Hlisten|done].
  - exists (mkLife (Gathering tasks) b c tasks states), tasks. split; [|done]. apply rtc_once. by exists ServerClosed.
  - by eexists _, ts.
  - done.
Qed.

Lemma reach_closed l : life_ok l → ∃ l', rtc life_steps l l' ∧ lf_phase l' = Closed.
Proof.
  intros Hl. destruct (decide (lf_phase l = Closed)) as [|Hn]; [by exists l|].
  destruct (reach_gathering l Hl Hn) as (l1 & ts & Hr & Hp). pose proof (life_steps_ok _ _ Hr Hl) as Hl1.
  destruct (finish_tasks (elements ts) l1) as (states & Hf & Hd & _).
  { intros t Ht%elem_of_elements. by eapply lo_gathering. }
  eexists. split; [etrans; [exact Hr|]; etrans; [exact Hf|]; apply rtc_once; exists Gathered|].
  - cbn. unfold gathered. rw Hp. cbn [lf_phase lf_states]. rw bool_decide_true; [reflexivity|].
    intros t Ht. by apply Hd, elem_of_elements.
  - done.
Qed.

(** C38: a stream listener shuts down completely, however its steps and those of its tasks
interleave. Its set of tasks holds every task that is not done. Once [close] has returned, the
server and the TLS context are gone and, for ever, no task serves a connection: those that did are
done, and a connection that was accepted late is dropped before TLS. And [close] is never stuck:
from every point of a listener's life its steps lead to the end of [close] with no task left. *)
Theorem listener_shutdown_complete l :
  rtc life_steps fresh_life l →
  (∀ t s, lf_states l !! t = Some s → s ≠ Done → t ∈ lf_tasks l) ∧
  (lf_phase l = Closed → lf_server l = false ∧ lf_tls_context l = false ∧
    ∀ l' t, rtc life_steps l l' → lf_states l' !! t ≠ Some Serving) ∧
  ∃ l', rtc life_steps l l' ∧ lf_phase l' = Closed ∧ lf_tasks l' = ∅ ∧ ∀ t, lf_states l' !! t ≠ Some Serving.
Proof.
  intros Hr. pose proof (life_steps_ok _ _ Hr fresh_life_ok) as Hl.
  assert (Hno : ∀ l' t, life_ok l' → lf_phase l' = Closed → lf_states l' !! t ≠ Some Serving).
  { intros l' t Hl' Hp Hx. pose proof (lo_serving l' Hl' t Hx) as Hs. unfold serving_allowed in Hs. by rw Hp in Hs. }
  split_and!; [exact (lo_tracked l Hl)|..].
  - intros Hp. split_and!.
    + destruct (lf_server l) eqn:Hb; [|done]. apply (lo_server l Hl) in Hb. congruence.
    + destruct (lf_tls_context l) eqn:Hc; [|done]. destruct (lo_context l Hl Hc); congruence.
    + intros l' t Hr'. apply Hno; [by eapply life_steps_ok|by eapply closed_stays].
  - destruct (reach_closed l Hl) as (l1 & H1 & Hp1). pose proof (life_steps_ok _ _ H1 Hl) as Hl1.
    destruct (finish_tasks (elements (lf_tasks l1)) l1) as (states & H2 & Hd & _).
    { intros t Ht%elem_of_elements. by apply lo_known. }
    pose proof (discard_tasks (elements (lf_tasks l1)) (mkLife (lf_phase l1) (lf_server l1) (lf_tls_context l1)
      (lf_tasks l1) states) Hd) as H3.
    eexists. split; [etrans; [exact H1|etrans; [exact H2|exact H3]]|]. cbn. split_and!; [done|set_solver|].
    intros t. apply (Hno (mkLife (lf_phase l1) (lf_server l1) (lf_tls_context l1) (lf_tasks l1) states)); [|done].
    by eapply (life_steps_ok l1).
Qed.

(** Two connections, one of them served; the listener closes while a third arrives late. *)
Definition sample_life : listener_life :=
  default fresh_life (foldl (λ l e, l ≫= life_step e) (Some fresh_life)
    [StartContext; StartBound; Accept 0; Accept 1; LookAtContext 0; BeginClose; LookAtContext 1; ServerClosed;
     Accept 2; Finish 0; Finish 1; Gathered; LookAtContext 2]).

Lemma run_life (es : list life_event) l l' : foldl (λ l e, l ≫= life_step e) (Some l) es = Some l' → rtc life_steps l l'.
Proof.
  revert l. induction es as [|e es IH]; intros l; cbn; [by intros [= <-]|].
  destruct (life_step e l) as [l1|] eqn:He; [|clear IH; by induction es as [|e' es IH]; [|exact IH]]. intros H. eapply rtc_l; [by exists e|by apply IH].
Qed.

Lemma listener_shutdown_complete_witness :
  lf_phase sample_life = Closed ∧ lf_states sample_life !! 2 = Some Leaving ∧
  (∀ l' t, rtc life_steps sample_life l' → lf_states l' !! t ≠ Some Serving).
Proof.
  split; [reflexivity|split; [reflexivity|]].
  apply (listener_shutdown_complete sample_life); [|reflexivity].
  apply (run_life [StartContext; StartBound; Accept 0; Accept 1; LookAtContext 0; BeginClose; LookAtContext 1; ServerClosed;
     Accept 2; Finish 0; Finish 1; Gathered; LookAtContext 2]). reflexivity.
Defined.
