(* ===== verification/RateLimit.v ===== *)
(** * The sliding-window rate limiters of the three listeners

[_AgentRateLimiter] of [listener.py] keys its quota by endpoint and public
key; [_SourceRateLimiter] of [enrollment_listener.py] and
[_OperatorSourceRateLimiter] of [operator_listener.py] key it by source
address and share one body. A [deque] is the list of its elements from the
left; an [OrderedDict] is the list of its items from the first, least recently
moved one.

Clock readings are the values of the event loop's monotonic clock, in
microseconds; [now - WINDOW] is the [cutoff] of a configuration. The theorems
ask only that [cutoff] is monotone and below its argument, as the rounded
subtraction of floats also is. *)
From stdpp Require Import prelude strings gmap sorting ssreflect.
From S2P Require Import Prelude Uuid PyTime.

Set Warnings "-clear-no-such-hyp".

(** The constants of a limiter. *)
Record LimiterConfig := mkLimiterConfig {
  cutoff : Z → Z;
  max_global : nat;
  max_key : nat;
  max_tracked : nat;
}.

Definition agent_limits : LimiterConfig :=
  mkLimiterConfig (λ now, now - 10 * second)%Z 160 32 4096.
Definition enrollment_limits : LimiterConfig :=
  mkLimiterConfig (λ now, now - 60 * second)%Z 64 8 4096.
Definition operator_limits : LimiterConfig :=
  mkLimiterConfig (λ now, now - 60 * second)%Z 120 30 4096.

(** [while values and values[0] <= cutoff: values.popleft()]. *)
Fixpoint _discard_before (values : list Z) (c : Z) : list Z :=
  match values with
  | [] => []
  | v :: rest => if (v <=? c)%Z then _discard_before rest c else values
  end.

Section limiter.
Context {K : Type} `{EqDecision K}.

(** ** [OrderedDict] *)
Definition od_get (k : K) (d : list (K * list Z)) : option (list Z) :=
  snd <$> head (filter (λ e, e.1 = k) d).
Definition od_del (k : K) (d : list (K * list Z)) : list (K * list Z) :=
  filter (λ e, e.1 ≠ k) d.
(** Storing under the last key, which [allow] has just inserted or moved. *)
Definition od_set_last (k : K) (v : list Z) (d : list (K * list Z)) : list (K * list Z) :=
  od_del k d ++ [(k, v)].

Record Limiter := mkLimiter {
  lm_global : list Z;
  lm_keys : list (K * list Z);
}.

Definition empty_limiter : Limiter := mkLimiter [] [].

(** The deque of [key], created or moved to the end; a new key of a full table
evicts the first one. *)
Definition touch_key (cfg : LimiterConfig) (k : K) (d : list (K * list Z))
    : list Z * list (K * list Z) :=
  match od_get k d with
  | None =>
    let d' := if max_tracked cfg <=? length d then tail d else d in
    ([], od_set_last k [] d')
  | Some events => (events, od_set_last k events d)
  end.

(** [_AgentRateLimiter.allow]. *)
Definition agent_allow (cfg : LimiterConfig) (k : K) (now : Z) (s : Limiter) : Limiter * bool :=
  let c := cutoff cfg now in
  let global := _discard_before (lm_global s) c in
  let '(identity, keys) := touch_key cfg k (lm_keys s) in
  let identity := _discard_before identity c in
  if (max_global cfg <=? length global) || (max_key cfg <=? length identity) then
    (mkLimiter global (od_set_last k identity keys), false)
  else
    (mkLimiter (global ++ [now]) (od_set_last k (identity ++ [now]) keys), true).

(** [_SourceRateLimiter.allow] and [_OperatorSourceRateLimiter.allow]. *)
Definition source_allow (cfg : LimiterConfig) (k : K) (now : Z) (s : Limiter) : Limiter * bool :=
  let c := cutoff cfg now in
  let global := _discard_before (lm_global s) c in
  if max_global cfg <=? length global then (mkLimiter global (lm_keys s), false)
  else
    let '(events, keys) := touch_key cfg k (lm_keys s) in
    let events := _discard_before events c in
    if max_key cfg <=? length events then (mkLimiter global (od_set_last k events keys), false)
    else (mkLimiter (global ++ [now]) (od_set_last k (events ++ [now]) keys), true).

(** ** Executions

The calls of an execution and the requests it let through, oldest first. *)
Abbreviation call := (K * Z)%type.

Fixpoint run_limiter (allow : K → Z → Limiter → Limiter * bool) (calls : list call)
    (s : Limiter) : Limiter * list call :=
  match calls with
  | [] => (s, [])
  | (k, now) :: rest =>
    let '(s1, ok) := allow k now s in
    let '(s2, admitted) := run_limiter allow rest s1 in
    (s2, if ok then (k, now) :: admitted else admitted)
  end.

(** The clock never goes back. *)
Definition ordered (calls : list call) : Prop := StronglySorted Z.le calls.*2.

(** The requests let through in the window that ends at [t]. *)
Definition in_window (cfg : LimiterConfig) (t : Z) (e : call) : Prop :=
  (cutoff cfg t < e.2 ≤ t)%Z.
#[global] Instance in_window_dec cfg t e : Decision (in_window cfg t e).
Proof. unfold in_window. apply _. Defined.

Definition window (cfg : LimiterConfig) (t : Z) (admitted : list call) : list call :=
  filter (in_window cfg t) admitted.
Definition key_window (cfg : LimiterConfig) (k : K) (t : Z) (admitted : list call) : list call :=
  filter (λ e, e.1 = k) (window cfg t admitted).

(** ** Invariant *)

(** The admitted requests after [c] whose key satisfies [P]. *)
Definition live (P : K → Prop) `{!∀ k, Decision (P k)} (c : Z) (acc : list call) : list call :=
  filter (λ e, P e.1 ∧ (c < e.2)%Z) acc.

Definition bounded (cfg : LimiterConfig) (P : K → Prop) `{!∀ k, Decision (P k)} (n : nat)
    (acc : list call) : Prop :=
  ∀ t, length (filter (λ e, P e.1 ∧ in_window cfg t e) acc) ≤ n.

(** What the limits need of a configuration. *)
Record limits_ok (cfg : LimiterConfig) : Prop := {
  cutoff_mono t t' : (t ≤ t')%Z → (cutoff cfg t ≤ cutoff cfg t')%Z;
  cutoff_below t : (cutoff cfg t < t)%Z;
  tracked_pos : 0 < max_tracked cfg;
  key_pos : 0 < max_key cfg;
}.

Lemma ordered_cons e acc :
  ordered (e :: acc) ↔ ordered acc ∧ ∀ e', e' ∈ acc → (e.2 ≤ e'.2)%Z.
Proof.
  unfold ordered. rw fmap_cons. split.
  - intros [Hs Hall]%StronglySorted_inv. split; [done|]. intros e' He'.
    rw Forall_forall in Hall. apply Hall. by apply list_elem_of_fmap_2.
  - intros [Hs Hall]. constructor; [done|]. apply Forall_forall.
    intros t (e' & -> & He')%list_elem_of_fmap. by apply Hall.
Qed.

Lemma ordered_snoc acc e :
  ordered acc → (∀ e', e' ∈ acc → (e'.2 ≤ e.2)%Z) → ordered (acc ++ [e]).
Proof.
  induction acc as [|e0 acc IH]; intros Ho Hall; cbn.
  { apply ordered_cons. split; [by constructor|]. by intros e' ?%not_elem_of_nil. }
  apply ordered_cons in Ho as [Ho H0]. apply ordered_cons. split.
  - apply IH; [done|]. intros e' He'. apply Hall. by apply list_elem_of_further.
  - intros e' [He'| ->%list_elem_of_singleton]%elem_of_app; [by apply H0|].
    apply Hall, list_elem_of_here.
Qed.

Lemma live_all P `{!∀ k, Decision (P k)} c c' acc :
  (c ≤ c')%Z → (∀ e, e ∈ acc → (c' < e.2)%Z) → live P c acc = live P c' acc.
Proof.
  intros Hc Hall. apply filter_ext_elem. intros e He.
  specialize (Hall e He). naive_solver lia.
Qed.

(** Discarding from the left keeps exactly the live requests. *)
Lemma discard_live P `{!∀ k, Decision (P k)} c c' acc :
  ordered acc → (c ≤ c')%Z →
  _discard_before (live P c acc).*2 c' = (live P c' acc).*2.
Proof.
  intros Ho Hc. induction acc as [|e acc IH]; [done|].
  apply ordered_cons in Ho as [Ho Hall]. unfold live. rw !filter_cons.
  destruct (decide (P e.1 ∧ (c < e.2)%Z)) as [[HP He]|Hn].
  - rw fmap_cons. cbn [_discard_before]. destruct (Z.leb_spec e.2 c').
    + rw decide_False; [|lia]. by apply IH.
    + rw decide_True //. rw fmap_cons. f_equal. f_equal. apply live_all; [done|].
      intros e' He'. specialize (Hall e' He'). lia.
  - rw decide_False; [|naive_solver lia]. by apply IH.
Qed.

Lemma live_snoc P `{!∀ k, Decision (P k)} c acc e :
  live P c (acc ++ [e]) = live P c acc ++ (if decide (P e.1 ∧ (c < e.2)%Z) then [e] else []).
Proof. unfold live. rw filter_app filter_cons. by case_decide. Qed.

(** Admitting one more request below the limit keeps every window bounded. *)
Lemma bounded_snoc cfg P `{!∀ k, Decision (P k)} n acc k now :
  limits_ok cfg → bounded cfg P n acc → (∀ e, e ∈ acc → (e.2 ≤ now)%Z) →
  (P k → length (live P (cutoff cfg now) acc) < n) →
  bounded cfg P n (acc ++ [(k, now)]).
Proof.
  intros Hok Hb Hall Hlt t. rw filter_app length_app filter_cons.
  case_decide as Hd; [|by rw Nat.add_0_r]. destruct Hd as [HP [Hc Ht]]. cbn in Hc, Ht, HP.
  rw filter_nil. cbn [length]. specialize (Hlt HP).
  enough (length (filter (λ e, P e.1 ∧ in_window cfg t e) acc)
          ≤ length (live P (cutoff cfg now) acc)) by lia.
  apply sublist_length, filter_sublist_elem. intros e He [? [? ?]]. split; [done|].
  specialize (Hall e He). pose proof (cutoff_mono cfg Hok now t ltac:(done)). lia.
Qed.

(** ** The table of keys *)

Lemma od_set_last_twice k v w d : od_set_last k v (od_set_last k w d) = od_set_last k v d.
Proof.
  unfold od_set_last, od_del. rw filter_app filter_cons decide_False; [|naive_solver].
  rw filter_nil app_nil_r. f_equal. rw list_filter_filter. apply list_filter_iff. naive_solver.
Qed.

Lemma elem_of_od_set_last k v d e :
  e ∈ od_set_last k v d ↔ (e ∈ d ∧ e.1 ≠ k) ∨ e = (k, v).
Proof.
  unfold od_set_last, od_del. rw elem_of_app list_elem_of_filter list_elem_of_singleton. naive_solver.
Qed.

Lemma od_del_keys k d : (od_del k d).*1 = filter (λ k', k' ≠ k) d.*1.
Proof.
  unfold od_del. induction d as [|[k' v] d IH]; [done|].
  rw fmap_cons !filter_cons. cbn [fst]. repeat case_decide; [|done..|done].
  rw fmap_cons. by f_equal.
Qed.

Lemma NoDup_od_set_last k v d : NoDup d.*1 → NoDup (od_set_last k v d).*1.
Proof.
  intros Hnd. unfold od_set_last. rw fmap_app od_del_keys. apply NoDup_app. split_and!.
  - by apply NoDup_filter.
  - intros k' [? _]%list_elem_of_filter. cbn. by rw list_elem_of_singleton.
  - apply NoDup_singleton.
Qed.

Lemma od_get_Some k d ev : od_get k d = Some ev → (k, ev) ∈ d.
Proof.
  unfold od_get. intros ([k' ev'] & Hh & ->)%fmap_Some. apply head_Some_elem_of in Hh.
  apply list_elem_of_filter in Hh as [<- ?]. done.
Qed.

Lemma od_get_None k d : od_get k d = None → k ∉ d.*1.
Proof.
  unfold od_get. intros Hh%fmap_None (e & -> & He)%list_elem_of_fmap.
  apply head_None in Hh. assert (e ∈ filter (λ e', e'.1 = e.1) d) as Hin
    by by apply list_elem_of_filter. rw Hh in Hin. by apply not_elem_of_nil in Hin.
Qed.

(** The table the key is put into: without its first item when a new key finds
it full. *)
Definition evicted (cfg : LimiterConfig) (k : K) (d : list (K * list Z)) : list (K * list Z) :=
  match od_get k d with
  | None => if max_tracked cfg <=? length d then tail d else d
  | Some _ => d
  end.

Lemma touch_key_eq cfg k d :
  touch_key cfg k d =
    (default [] (od_get k d), od_set_last k (default [] (od_get k d)) (evicted cfg k d)).
Proof. unfold touch_key, evicted. by destruct (od_get k d). Qed.

(** Every tracked deque holds the requests of its key after some moment before
[c], and every request after [c] has a tracked key. *)
Record keys_inv (cfg : LimiterConfig) (acc : list call) (c : Z) (d : list (K * list Z)) : Prop := {
  ki_nodup : NoDup d.*1;
  ki_size : length d ≤ max_tracked cfg;
  ki_events k ev : (k, ev) ∈ d → ∃ c', (c' ≤ c)%Z ∧ ev = (live (.= k) c' acc).*2;
  ki_live e : e ∈ acc → (c < e.2)%Z → e.1 ∈ d.*1;
}.

Lemma keys_inv_mono cfg acc c c' d :
  (c ≤ c')%Z → keys_inv cfg acc c d → keys_inv cfg acc c' d.
Proof.
  intros Hc [Hnd Hsz Hev Hl]. split; [done..| |].
  - intros k ev (c0 & ? & ?)%Hev. exists c0. split; [lia|done].
  - intros e He ?. apply Hl; [done|lia].
Qed.

Lemma key_events cfg acc c d k :
  ordered acc → keys_inv cfg acc c d →
  _discard_before (default [] (od_get k d)) c = (live (.= k) c acc).*2.
Proof.
  intros Ho Hk. destruct (od_get k d) as [ev|] eqn:Hg; cbn [default].
  - apply od_get_Some, (ki_events _ _ _ _ Hk) in Hg as (c' & ? & ->). by apply discard_live.
  - apply od_get_None in Hg. unfold live. rw filter_none //. intros e He [<- ?].
    by apply Hg, (ki_live _ _ _ _ Hk).
Qed.

Lemma evicted_sub cfg k d e : e ∈ evicted cfg k d → e ∈ d.
Proof.
  unfold evicted. destruct (od_get k d); [done|]. destruct (_ <=? _); [|done].
  destruct d; [done|]. apply list_elem_of_further.
Qed.

Lemma evicted_nodup cfg k d : NoDup d.*1 → NoDup (evicted cfg k d).*1.
Proof.
  unfold evicted. destruct (od_get k d); [done|]. destruct (_ <=? _); [|done].
  destruct d; [done|]. rw fmap_cons NoDup_cons. naive_solver.
Qed.

(** One more item fits after the eviction. *)
Lemma evicted_size cfg k v d :
  limits_ok cfg → length d ≤ max_tracked cfg →
  length (od_set_last k v (evicted cfg k d)) ≤ max_tracked cfg.
Proof.
  intros Hok Hd. pose proof (tracked_pos _ Hok). unfold od_set_last. rw length_app. cbn [length].
  assert (length (od_del k (evicted cfg k d)) < max_tracked cfg); [|lia].
  unfold evicted. destruct (od_get k d) as [ev|] eqn:Hg.
  - apply od_get_Some in Hg. unfold od_del.
    pose proof (length_filter_lt (λ e, e.1 ≠ k) d (k, ev) Hg ltac:(naive_solver)). lia.
  - destruct (Nat.leb_spec (max_tracked cfg) (length d)).
    + eapply Nat.le_lt_trans; [apply length_filter|]. destruct d; cbn in *; lia.
    + eapply Nat.le_lt_trans; [apply length_filter|]. lia.
Qed.

(** The eviction drops no request after [c]. *)
Definition eviction_safe (cfg : LimiterConfig) (acc : list call) (c : Z) (k : K)
    (d : list (K * list Z)) : Prop :=
  ∀ e, e ∈ acc → (c < e.2)%Z → e.1 = k ∨ e.1 ∈ (evicted cfg k d).*1.

Lemma keys_touch cfg acc c k d :
  limits_ok cfg → keys_inv cfg acc c d → eviction_safe cfg acc c k d →
  keys_inv cfg acc c (od_set_last k (live (.= k) c acc).*2 (evicted cfg k d)).
Proof.
  intros Hok [Hnd Hsz Hev Hl] Hsafe. split.
  - by apply NoDup_od_set_last, evicted_nodup.
  - by apply evicted_size.
  - intros k' ev [[Hin%evicted_sub _]|[= -> ->]]%elem_of_od_set_last; [by apply Hev|].
    exists c. split; [lia|done].
  - intros e He Hc. apply list_elem_of_fmap. destruct (decide (e.1 = k)) as [Heq|Hne].
    + exists (k, (live (.= k) c acc).*2). split; [done|]. apply elem_of_od_set_last. by right.
    + destruct (Hsafe e He Hc) as [|([k' ev] & Heq & Hin)%list_elem_of_fmap]; [done|].
      exists (k', ev). split; [done|]. apply elem_of_od_set_last. left. naive_solver.
Qed.

Lemma keys_admit cfg acc c k now d0 :
  (c < now)%Z → keys_inv cfg acc c (od_set_last k (live (.= k) c acc).*2 d0) →
  keys_inv cfg (acc ++ [(k, now)]) c (od_set_last k ((live (.= k) c acc).*2 ++ [now]) d0).
Proof.
  intros Hc [Hnd Hsz Hev Hl]. split.
  - revert Hnd. unfold od_set_last. by rw !fmap_app.
  - revert Hsz. unfold od_set_last. by rw !length_app.
  - intros k' ev [[Hin Hne]|[= -> ->]]%elem_of_od_set_last.
    + destruct (Hev k' ev) as (c' & ? & ->); [apply elem_of_od_set_last; by left|].
      exists c'. split; [done|]. rw live_snoc decide_False; [|naive_solver]. by rw app_nil_r.
    + exists c. split; [lia|]. rw live_snoc decide_True; [|naive_solver]. by rw fmap_app.
  - intros e [He| ->%list_elem_of_singleton]%elem_of_app Hlt; apply list_elem_of_fmap.
    + apply (Hl e He), list_elem_of_fmap in Hlt as ([k' ev] & Heq & Hin). cbn in Heq.
      apply elem_of_od_set_last in Hin as [[Hin Hne]|[= -> ->]].
      * exists (k', ev). split; [done|]. apply elem_of_od_set_last. by left.
      * eexists (k, _). split; [done|]. apply elem_of_od_set_last. by right.
    + eexists (k, _). split; [done|]. apply elem_of_od_set_last. by right.
Qed.

(** The global deque after the call at [T] has let [acc] through. *)
Record global_inv (cfg : LimiterConfig) (acc : list call) (T : Z) (global : list Z) : Prop := {
  gi_ordered : ordered acc;
  gi_before e : e ∈ acc → (e.2 ≤ T)%Z;
  gi_global : global = (live (λ _, True) (cutoff cfg T) acc).*2;
  gi_bound : bounded cfg (λ _, True) (max_global cfg) acc;
}.

(** The invariant of a limiter. *)
Record limiter_inv (cfg : LimiterConfig) (acc : list call) (T : Z) (s : Limiter) : Prop := {
  lv_global : global_inv cfg acc T (lm_global s);
  lv_keys : keys_inv cfg acc (cutoff cfg T) (lm_keys s);
  lv_key_bound k : bounded cfg (.= k) (max_key cfg) acc;
}.

Lemma global_inv_empty cfg T : global_inv cfg [] T [].
Proof.
  split; [constructor|by intros e ?%not_elem_of_nil|done|]. intros t. cbn. lia.
Qed.

Lemma limiter_inv_empty cfg T : limiter_inv cfg [] T empty_limiter.
Proof.
  split; [apply global_inv_empty| |].
  - split; [constructor|cbn; lia|by intros k ev ?%not_elem_of_nil|by intros e ?%not_elem_of_nil].
  - intros k t. cbn. lia.
Qed.

(** A call at [now] first discards; then it refuses or appends. *)
Lemma global_inv_refuse cfg acc T now g :
  limits_ok cfg → (T ≤ now)%Z → global_inv cfg acc T g →
  global_inv cfg acc now (_discard_before g (cutoff cfg now)).
Proof.
  intros Hok HT [Ho Hb -> Hw]. pose proof (cutoff_mono _ Hok _ _ HT). split; [done| | |done].
  - intros e ?%Hb. lia.
  - by apply discard_live.
Qed.

Lemma global_inv_accept cfg acc now g k :
  limits_ok cfg → global_inv cfg acc now g → length g < max_global cfg →
  global_inv cfg (acc ++ [(k, now)]) now (g ++ [now]).
Proof.
  intros Hok [Ho Hb -> Hw] Hlt. pose proof (cutoff_below _ Hok now). rw length_fmap in Hlt. split.
  - by apply ordered_snoc.
  - intros e [He| ->%list_elem_of_singleton]%elem_of_app; [by apply Hb|cbn; lia].
  - rw live_snoc decide_True // fmap_app //.
  - by apply bounded_snoc.
Qed.

(** A refused call. *)
Lemma limiter_inv_refuse cfg acc T now s keys :
  limits_ok cfg → (T ≤ now)%Z → limiter_inv cfg acc T s →
  keys_inv cfg acc (cutoff cfg now) keys →
  limiter_inv cfg acc now (mkLimiter (_discard_before (lm_global s) (cutoff cfg now)) keys).
Proof.
  intros Hok HT [Hg _ Hb] Hk. split; [|done..]. by eapply global_inv_refuse.
Qed.

Lemma limiter_inv_keys cfg acc T now s :
  limits_ok cfg → (T ≤ now)%Z → limiter_inv cfg acc T s →
  keys_inv cfg acc (cutoff cfg now) (lm_keys s).
Proof. intros Hok HT [_ Hk _]. eapply keys_inv_mono; [|done]. by apply cutoff_mono. Qed.

(** The global count a call at [now] sees. *)
Lemma limiter_inv_count cfg acc T now s :
  limits_ok cfg → (T ≤ now)%Z → limiter_inv cfg acc T s →
  length (_discard_before (lm_global s) (cutoff cfg now)) =
  length (live (λ _, True) (cutoff cfg now) acc).
Proof.
  intros Hok HT [Hg _ _]. apply (global_inv_refuse _ _ _ now) in Hg as [_ _ -> _]; [|done..].
  apply length_fmap.
Qed.

(** An accepted call. *)
Lemma limiter_inv_accept cfg acc T now s k :
  limits_ok cfg → (T ≤ now)%Z → limiter_inv cfg acc T s →
  eviction_safe cfg acc (cutoff cfg now) k (lm_keys s) →
  length (_discard_before (lm_global s) (cutoff cfg now)) < max_global cfg →
  length (live (.= k) (cutoff cfg now) acc) < max_key cfg →
  limiter_inv cfg (acc ++ [(k, now)]) now
    (mkLimiter (_discard_before (lm_global s) (cutoff cfg now) ++ [now])
       (od_set_last k ((live (.= k) (cutoff cfg now) acc).*2 ++ [now])
          (evicted cfg k (lm_keys s)))).
Proof.
  intros Hok HT Hi Hsafe Hlg Hlk. pose proof (limiter_inv_keys _ _ _ _ _ Hok HT Hi) as Hk.
  pose proof (global_inv_refuse _ _ _ _ _ Hok HT (lv_global _ _ _ _ Hi)) as Hg.
  pose proof (cutoff_below _ Hok now). split.
  - by apply global_inv_accept.
  - by apply keys_admit, keys_touch.
  - intros k'. apply bounded_snoc; [done|apply Hi|apply Hg|]. by intros <-.
Qed.

(** ** Order of the table

Each item of the table carries the time it was last touched: these increase
along the table, no request of its key is later, and at that time its key had
a request in the window. *)
Definition touched_at (cfg : LimiterConfig) (acc : list call) (T : Z) (e : (K * list Z) * Z)
    : Prop :=
  (e.2 ≤ T)%Z ∧ (∀ t, (e.1.1, t) ∈ acc → (t ≤ e.2)%Z) ∧
  ∃ t, (e.1.1, t) ∈ acc ∧ (cutoff cfg e.2 < t ≤ e.2)%Z.

Definition order_inv (cfg : LimiterConfig) (acc : list call) (T : Z) (d : list (K * list Z))
    : Prop :=
  ∃ dt : list ((K * list Z) * Z),
    dt.*1 = d ∧ StronglySorted Z.le dt.*2 ∧ ∀ e, e ∈ dt → touched_at cfg acc T e.

Lemma StronglySorted_snoc_le (l : list Z) x :
  StronglySorted Z.le l → (∀ y, y ∈ l → (y ≤ x)%Z) → StronglySorted Z.le (l ++ [x]).
Proof.
  induction 1 as [|y l Hs IH Hall]; intros Hx; cbn; [by repeat constructor|]. constructor.
  - apply IH. intros z Hz. apply Hx. by apply list_elem_of_further.
  - apply Forall_app. split; [done|]. constructor; [apply Hx, list_elem_of_here|constructor].
Qed.

Lemma StronglySorted_fmap_filter {A B} (R : relation B) (f : A → B) (P : A → Prop)
    `{!∀ x, Decision (P x)} l :
  StronglySorted R (f <$> l) → StronglySorted R (f <$> filter P l).
Proof.
  induction l as [|x l IH]; [done|]. rw fmap_cons filter_cons.
  intros [Hs Hall]%StronglySorted_inv. case_decide; [|by apply IH]. rw fmap_cons.
  constructor; [by apply IH|]. rw !Forall_forall in Hall |- *.
  intros y (z & -> & [_ Hz]%list_elem_of_filter)%list_elem_of_fmap.
  apply Hall. by apply list_elem_of_fmap_2.
Qed.

Lemma od_del_fmap k (dt : list ((K * list Z) * Z)) :
  (filter (λ e, e.1.1 ≠ k) dt).*1 = od_del k dt.*1.
Proof.
  unfold od_del. induction dt as [|e dt IH]; [done|]. rw fmap_cons !filter_cons.
  repeat case_decide; [|done..|done]. rw fmap_cons. by f_equal.
Qed.

(** Touching a key that has a request in the window. *)
Lemma order_touch cfg acc acc' T now k v d :
  order_inv cfg acc T d → (T ≤ now)%Z →
  (∀ k' t, k' ≠ k → (k', t) ∈ acc ↔ (k', t) ∈ acc') → (∀ t, (k, t) ∈ acc' → (t ≤ now)%Z) →
  (∃ t, (k, t) ∈ acc' ∧ (cutoff cfg now < t ≤ now)%Z) →
  order_inv cfg acc' now (od_set_last k v (evicted cfg k d)).
Proof.
  intros (dt & Hd & Hs & Ht) HT Hacc Hk Hw.
  assert (∃ dt0, dt0.*1 = evicted cfg k d ∧ StronglySorted Z.le dt0.*2 ∧ ∀ e, e ∈ dt0 → e ∈ dt)
    as (dt0 & Hd0 & Hs0 & Hin0).
  { unfold evicted. destruct (od_get k d); [by exists dt|]. destruct (_ <=? _); [|by exists dt].
    exists (tail dt). subst d. destruct dt as [|e dt]; [done|]. cbn in *. split_and!; [done| |].
    - by apply StronglySorted_inv in Hs as [? _].
    - intros e'. apply list_elem_of_further. }
  exists (filter (λ e, e.1.1 ≠ k) dt0 ++ [((k, v), now)]). split_and!.
  - by rw fmap_app od_del_fmap Hd0.
  - rw fmap_app. apply StronglySorted_snoc_le; [by apply StronglySorted_fmap_filter|].
    intros t (e & -> & [_ He%Hin0%Ht]%list_elem_of_filter)%list_elem_of_fmap.
    destruct He as [? _]. cbn. lia.
  - intros e [[Hne He%Hin0%Ht]%list_elem_of_filter| ->%list_elem_of_singleton]%elem_of_app.
    + destruct He as (? & Hle & t & Hin & ?). split_and!; [lia| |].
      * intros t' Ht'%Hacc; [by apply Hle|done].
      * exists t. split; [by apply Hacc|done].
    + split_and!; cbn; [lia|done|done].
Qed.

Lemma order_mono cfg acc T now d :
  order_inv cfg acc T d → (T ≤ now)%Z → order_inv cfg acc now d.
Proof.
  intros (dt & Hd & Hs & Ht) HT. exists dt. split_and!; [done..|].
  intros e (? & ? & ?)%Ht. split_and!; [lia|done..].
Qed.

(** With a table larger than two windows of requests, the first item of a full
table has no live request: every tracked key had a request in the window when
it was last touched, so the keys touched since a live request of the first
one had theirs in the current window or in the one that ends at that request. *)
Lemma source_eviction_safe cfg acc T now s k :
  limits_ok cfg → 2 * max_global cfg < max_tracked cfg → (T ≤ now)%Z →
  limiter_inv cfg acc T s → order_inv cfg acc T (lm_keys s) →
  eviction_safe cfg acc (cutoff cfg now) k (lm_keys s).
Proof.
  intros Hok Hcap HT Hi (dt & Hd & Hs & Ht) e He Hlive.
  pose proof (limiter_inv_keys _ _ _ _ _ Hok HT Hi) as Hk.
  pose proof (global_inv_refuse _ _ _ _ _ Hok HT (lv_global _ _ _ _ Hi)) as [_ Hb _ Hbound].
  pose proof (ki_live _ _ _ _ Hk e He Hlive) as Hin. unfold evicted.
  destruct (od_get k (lm_keys s)); [by right|].
  destruct (Nat.leb_spec (max_tracked cfg) (length (lm_keys s))) as [Hfull|]; [|by right].
  right. pose proof (ki_nodup _ _ _ _ Hk) as Hnd.
  destruct dt as [|[[k0 v0] t0] dt]; [by rw -Hd in Hin; apply not_elem_of_nil in Hin|].
  destruct (lm_keys s) as [|kv d] eqn:Hkeys; [done|]. injection Hd as <- Hd.
  cbn [tail]. rw fmap_cons in Hin. apply elem_of_cons in Hin as [Heq|]; [|done]. exfalso.
  assert (e.2 ≤ t0)%Z as Het.
  { destruct (Ht _ (list_elem_of_here _ _)) as (_ & Hle & _). apply Hle. cbn in Heq |- *.
    rw -Heq. by destruct e. }
  set (W := live (λ _, True) (cutoff cfg now) acc ++
            filter (λ x, True ∧ in_window cfg e.2 x) acc).
  assert (((k0, v0) :: d).*1 ⊆+ W.*1) as Hsub.
  { apply NoDup_submseteq; [done|]. rw -Hd. intros k' (kv & -> & Hkv)%list_elem_of_fmap.
    assert (∃ τ, (kv, τ) ∈ ((k0, v0), t0) :: dt ∧ (t0 ≤ τ)%Z) as (τ & Hτ & Hle).
    { apply elem_of_cons in Hkv as [-> |([kv' τ] & -> & Hτ)%list_elem_of_fmap].
      - exists t0. split; [apply list_elem_of_here|lia].
      - exists τ. split; [by apply list_elem_of_further|].
        apply StronglySorted_inv in Hs as [_ Hall]. rw Forall_forall in Hall.
        apply Hall. by apply (list_elem_of_fmap_2 snd _ (kv', τ)). }
    destruct (Ht _ Hτ) as (_ & _ & t & Hin & Hw1 & Hw2). cbn in Hw1, Hw2.
    apply list_elem_of_fmap. exists (kv.1, t). split; [done|]. apply elem_of_app.
    pose proof (cutoff_mono _ Hok e.2 τ ltac:(lia)).
    destruct (Z.ltb_spec (cutoff cfg now) t); [left|right]; apply list_elem_of_filter;
      split; [|done| |done]; [done|]. split; [done|]. unfold in_window. cbn. lia. }
  apply submseteq_length in Hsub. rw !length_fmap in Hsub. unfold W in Hsub. rw length_app in Hsub.
  pose proof (Hbound e.2) as Hb2. pose proof (Hbound now) as Hb1.
  assert (length (live (λ _, True) (cutoff cfg now) acc) ≤ max_global cfg); [|lia].
  etrans; [|exact Hb1]. apply sublist_length, filter_sublist_elem. intros x Hx [_ ?].
  split; [done|]. split; [done|]. by apply Hb.
Qed.

(** ** Reference: the whole history is kept and counted *)
Definition admissible (cfg : LimiterConfig) (k : K) (now : Z) (acc : list call) : bool :=
  (length (live (λ _, True) (cutoff cfg now) acc) <? max_global cfg)
  && (length (live (.= k) (cutoff cfg now) acc) <? max_key cfg).

Fixpoint reference (cfg : LimiterConfig) (acc calls : list call) : list call :=
  match calls with
  | [] => acc
  | (k, now) :: rest =>
    reference cfg (if admissible cfg k now acc then acc ++ [(k, now)] else acc) rest
  end.

Definition admit_if (b : bool) (k : K) (now : Z) (acc : list call) : list call :=
  if b then acc ++ [(k, now)] else acc.

Lemma live_nonempty cfg k now acc n :
  0 < n → n ≤ length (live (.= k) (cutoff cfg now) acc) → (∀ e, e ∈ acc → (e.2 ≤ now)%Z) →
  ∃ t, (k, t) ∈ acc ∧ (cutoff cfg now < t ≤ now)%Z.
Proof.
  intros Hn Hlen Hb. destruct (live (.= k) (cutoff cfg now) acc) as [|[k' t] l] eqn:Hl;
    [cbn in Hlen; lia|].
  assert ((k', t) ∈ live (.= k) (cutoff cfg now) acc) as Hin by (rw Hl; apply list_elem_of_here).
  apply list_elem_of_filter in Hin as [[Heq ?] Hin]. cbn in Heq. subst k'.
  exists t. split; [done|]. specialize (Hb _ Hin). cbn in *. lia.
Qed.

(** One call of the source limiters decides as the reference does. *)
Lemma source_allow_step cfg acc T now s k :
  limits_ok cfg → 2 * max_global cfg < max_tracked cfg → (T ≤ now)%Z →
  limiter_inv cfg acc T s → order_inv cfg acc T (lm_keys s) →
  let b := admissible cfg k now acc in
  (source_allow cfg k now s).2 = b ∧
  limiter_inv cfg (admit_if b k now acc) now (source_allow cfg k now s).1 ∧
  order_inv cfg (admit_if b k now acc) now (lm_keys (source_allow cfg k now s).1).
Proof.
  intros Hok Hcap HT Hi Hord b. pose proof (limiter_inv_keys _ _ _ _ _ Hok HT Hi) as Hk.
  pose proof (global_inv_refuse _ _ _ _ _ Hok HT (lv_global _ _ _ _ Hi)) as Hg.
  pose proof (source_eviction_safe _ _ _ _ _ k Hok Hcap HT Hi Hord) as Hsafe.
  pose proof (cutoff_below _ Hok now). unfold source_allow, b, admissible. cbv zeta.
  rw -(limiter_inv_count _ _ _ _ _ Hok HT Hi).
  destruct (Nat.leb_spec (max_global cfg) (length (_discard_before (lm_global s) (cutoff cfg now)))).
  { rw (proj2 (Nat.ltb_ge _ _)) //. cbn [andb fst snd admit_if]. split_and!; [done| |].
    - by eapply limiter_inv_refuse.
    - by eapply order_mono. }
  rw (proj2 (Nat.ltb_lt _ _)) //. rw touch_key_eq. cbn [andb].
  rw (key_events _ _ _ _ _ (gi_ordered _ _ _ _ Hg) Hk) !od_set_last_twice length_fmap.
  destruct (Nat.leb_spec (max_key cfg) (length (live (.= k) (cutoff cfg now) acc))).
  - rw (proj2 (Nat.ltb_ge _ _)) //. cbn [fst snd admit_if]. split_and!; [done| |].
    + by eapply limiter_inv_refuse, keys_touch.
    + eapply order_touch; [done..| |].
      * intros t Ht. by apply (gi_before _ _ _ _ Hg) in Ht.
      * eapply live_nonempty; [apply (key_pos _ Hok)|done|apply Hg].
  - rw (proj2 (Nat.ltb_lt _ _)) //. cbn [fst snd admit_if]. split_and!; [done| |].
    + by eapply limiter_inv_accept.
    + eapply order_touch; [done..| | |].
      * intros k' t Hne. rw elem_of_app list_elem_of_singleton. naive_solver.
      * intros t [Ht|[= ->]%list_elem_of_singleton]%elem_of_app; [|lia].
        by apply (gi_before _ _ _ _ Hg) in Ht.
      * exists now. split; [|lia]. apply elem_of_app. right. by apply list_elem_of_singleton.
Qed.

Lemma ordered_head k now (rest : list call) e :
  ordered ((k, now) :: rest) → e ∈ (k, now) :: rest → (now ≤ e.2)%Z.
Proof. intros [_ Hall]%ordered_cons [-> |He]%elem_of_cons; [done|]. by apply Hall. Qed.

Lemma source_run cfg calls acc T s :
  limits_ok cfg → 2 * max_global cfg < max_tracked cfg → ordered calls →
  (∀ e, e ∈ calls → (T ≤ e.2)%Z) → limiter_inv cfg acc T s → order_inv cfg acc T (lm_keys s) →
  reference cfg acc calls = acc ++ (run_limiter (source_allow cfg) calls s).2 ∧
  ∃ T', limiter_inv cfg (reference cfg acc calls) T' (run_limiter (source_allow cfg) calls s).1.
Proof.
  intros Hok Hcap. revert acc T s. induction calls as [|[k now] rest IH];
    intros acc T s Hc HT Hi Hord; cbn [run_limiter reference].
  { rw app_nil_r. eauto. }
  destruct (source_allow_step cfg acc T now s k Hok Hcap
    (HT _ (list_elem_of_here _ _)) Hi Hord) as (Hb & Hi1 & Ho1).
  destruct (source_allow cfg k now s) as [s1 ok]. cbn [fst snd] in Hb, Hi1, Ho1. subst ok.
  destruct (IH _ now s1 (proj1 (proj1 (ordered_cons _ _) Hc))
    (λ e He, ordered_head _ _ _ _ Hc (list_elem_of_further _ _ _ He)) Hi1 Ho1) as (Heq & T' & Hi').
  destruct (run_limiter (source_allow cfg) rest s1) as [s2 adm]. cbn [fst snd] in Heq, Hi' |- *.
  unfold admit_if in Heq, Hi'. split; [|by eauto]. rw Heq.
  destruct (admissible cfg k now acc); [by rw -app_assoc|done].
Qed.

Lemma order_inv_empty cfg T : order_inv cfg [] T [].
Proof. exists []. split_and!; [done|constructor|by intros e ?%not_elem_of_nil]. Qed.

(** A time before every call. *)
Lemma ordered_start (calls : list call) : ordered calls → ∃ T, ∀ e, e ∈ calls → (T ≤ e.2)%Z.
Proof.
  destruct calls as [|[k now] rest]; intros Ho.
  - exists 0%Z. by intros e ?%not_elem_of_nil.
  - exists now. intros e. by apply ordered_head.
Qed.

Lemma source_run_empty cfg calls :
  limits_ok cfg → 2 * max_global cfg < max_tracked cfg → ordered calls →
  reference cfg [] calls = (run_limiter (source_allow cfg) calls empty_limiter).2 ∧
  ∃ T', limiter_inv cfg (reference cfg [] calls) T'
          (run_limiter (source_allow cfg) calls empty_limiter).1.
Proof.
  intros Hok Hcap Ho. destruct (ordered_start calls Ho) as [T HT].
  exact (source_run cfg calls [] T empty_limiter Hok Hcap Ho HT (limiter_inv_empty _ _)
    (order_inv_empty _ _)).
Qed.

(** ** The agent limiter *)

Lemma evicted_id cfg k d U :
  NoDup d.*1 → (∀ k', k' ∈ k :: d.*1 → k' ∈ U) → length U ≤ max_tracked cfg → evicted cfg k d = d.
Proof.
  intros Hnd HU Hlen. unfold evicted. destruct (od_get k d) eqn:Hg; [done|].
  apply od_get_None in Hg.
  assert (k :: d.*1 ⊆+ U) as Hs%submseteq_length.
  { apply NoDup_submseteq; [by constructor|]. apply HU. }
  cbn in Hs. rw length_fmap in Hs. rw (proj2 (Nat.leb_gt _ _)) //. lia.
Qed.

Lemma agent_allow_step cfg acc T now s k :
  limits_ok cfg → (T ≤ now)%Z → limiter_inv cfg acc T s →
  eviction_safe cfg acc (cutoff cfg now) k (lm_keys s) →
  let b := admissible cfg k now acc in
  (agent_allow cfg k now s).2 = b ∧
  limiter_inv cfg (admit_if b k now acc) now (agent_allow cfg k now s).1.
Proof.
  intros Hok HT Hi Hsafe b. pose proof (limiter_inv_keys _ _ _ _ _ Hok HT Hi) as Hk.
  pose proof (global_inv_refuse _ _ _ _ _ Hok HT (lv_global _ _ _ _ Hi)) as Hg.
  unfold agent_allow, b, admissible. cbv zeta. rw -(limiter_inv_count _ _ _ _ _ Hok HT Hi).
  rw touch_key_eq (key_events _ _ _ _ _ (gi_ordered _ _ _ _ Hg) Hk) !od_set_last_twice length_fmap.
  destruct (Nat.leb_spec (max_global cfg) (length (_discard_before (lm_global s) (cutoff cfg now))));
    destruct (Nat.leb_spec (max_key cfg) (length (live (.= k) (cutoff cfg now) acc))).
  4: rw !(proj2 (Nat.ltb_lt _ _)) //; cbn [orb andb fst snd admit_if]; split; [done|];
     by eapply limiter_inv_accept.
  1, 2: rw (proj2 (Nat.ltb_ge (length (_discard_before _ _)) _)) //.
  3: rw (proj2 (Nat.ltb_ge (length (live _ _ _)) _)) // andb_false_r.
  all: cbn [orb andb fst snd admit_if]; split; [done|];
       by eapply limiter_inv_refuse, keys_touch.
Qed.

Lemma agent_allow_keys cfg k now s k' :
  k' ∈ (lm_keys (agent_allow cfg k now s).1).*1 → k' = k ∨ k' ∈ (lm_keys s).*1.
Proof.
  unfold agent_allow. cbv zeta. rw touch_key_eq. destruct (_ || _); cbn [fst lm_keys];
    rw od_set_last_twice; intros (e & -> & [[He%evicted_sub _]| ->]%elem_of_od_set_last)%list_elem_of_fmap;
    [right; by apply list_elem_of_fmap_2|by left|right; by apply list_elem_of_fmap_2|by left].
Qed.

Lemma agent_run cfg U calls acc T s :
  limits_ok cfg → length U ≤ max_tracked cfg → ordered calls →
  (∀ e, e ∈ calls → (T ≤ e.2)%Z ∧ e.1 ∈ U) → limiter_inv cfg acc T s →
  (∀ k, k ∈ (lm_keys s).*1 → k ∈ U) →
  reference cfg acc calls = acc ++ (run_limiter (agent_allow cfg) calls s).2 ∧
  ∃ T', limiter_inv cfg (reference cfg acc calls) T' (run_limiter (agent_allow cfg) calls s).1.
Proof.
  intros Hok HU. revert acc T s. induction calls as [|[k now] rest IH];
    intros acc T s Hc HT Hi Hin; cbn [run_limiter reference].
  { rw app_nil_r. eauto. }
  destruct (HT _ (list_elem_of_here _ _)) as [HTn HkU]. cbn in HTn, HkU.
  pose proof (limiter_inv_keys _ _ _ _ _ Hok HTn Hi) as Hk.
  assert (eviction_safe cfg acc (cutoff cfg now) k (lm_keys s)) as Hsafe.
  { intros e He Hlive. right. rw (evicted_id _ _ _ U (ki_nodup _ _ _ _ Hk)) //.
    - by apply (ki_live _ _ _ _ Hk).
    - intros k' [-> |?]%elem_of_cons; [done|]. by apply Hin. }
  destruct (agent_allow_step cfg acc T now s k Hok HTn Hi Hsafe) as (Hb & Hi1).
  pose proof (agent_allow_keys cfg k now s) as Hkeys.
  destruct (agent_allow cfg k now s) as [s1 ok]. cbn [fst snd] in Hb, Hi1, Hkeys. subst ok.
  destruct (IH (admit_if (admissible cfg k now acc) k now acc) now s1) as (Heq & T' & Hi').
  - by apply ordered_cons in Hc as [? _].
  - intros e He. split; [by apply (ordered_head _ _ _ _ Hc), list_elem_of_further|].
    apply HT. by apply list_elem_of_further.
  - done.
  - intros k' [-> |?]%Hkeys; [done|by apply Hin].
  - destruct (run_limiter (agent_allow cfg) rest s1) as [s2 adm]. cbn [fst snd] in Heq, Hi' |- *.
    unfold admit_if in Heq, Hi'. split; [|by eauto]. rw Heq.
    destruct (admissible cfg k now acc); [by rw -app_assoc|done].
Qed.

(** Whatever is evicted, the global deque is exact and the table bounded. *)
Lemma agent_global_run cfg calls acc T s :
  limits_ok cfg → ordered calls → (∀ e, e ∈ calls → (T ≤ e.2)%Z) →
  global_inv cfg acc T (lm_global s) → length (lm_keys s) ≤ max_tracked cfg →
  let r := run_limiter (agent_allow cfg) calls s in
  bounded cfg (λ _, True) (max_global cfg) (acc ++ r.2) ∧
  length (lm_keys r.1) ≤ max_tracked cfg.
Proof.
  intros Hok. revert acc T s. induction calls as [|[k now] rest IH];
    intros acc T s Hc HT Hg Hsz; cbn [run_limiter].
  { cbn [fst snd]. rw app_nil_r. split; [apply Hg|done]. }
  pose proof (global_inv_refuse _ _ _ now _ Hok (HT _ (list_elem_of_here _ _)) Hg) as Hg1.
  assert (length (lm_keys (agent_allow cfg k now s).1) ≤ max_tracked cfg ∧
    global_inv cfg (admit_if (agent_allow cfg k now s).2 k now acc) now
      (lm_global (agent_allow cfg k now s).1)) as [Hsz1 Hg2].
  { unfold agent_allow. cbv zeta. rw touch_key_eq.
    destruct (_ || _) eqn:Hb; cbn [fst snd lm_keys lm_global admit_if]; rw od_set_last_twice;
      (split; [by apply evicted_size|]); [done|].
    apply orb_false_iff in Hb as [?%Nat.leb_gt _]. by apply global_inv_accept. }
  destruct (agent_allow cfg k now s) as [s1 ok]. cbn [fst snd] in Hsz1, Hg2.
  destruct (IH _ now s1 (proj1 (proj1 (ordered_cons _ _) Hc))
    (λ e He, ordered_head _ _ _ _ Hc (list_elem_of_further _ _ _ He)) Hg2 Hsz1) as (Hbd & Hsz').
  destruct (run_limiter (agent_allow cfg) rest s1) as [s2 adm]. cbn [fst snd] in Hbd, Hsz' |- *.
  split; [|done]. destruct ok; cbn [admit_if] in Hbd; [by rw -app_assoc in Hbd|done].
Qed.

Lemma bounded_window cfg n (acc : list call) :
  bounded cfg (λ _, True) n acc → ∀ t, length (window cfg t acc) ≤ n.
Proof.
  intros Hb t. etrans; [|apply (Hb t)]. apply sublist_length, filter_sublist_elem. naive_solver.
Qed.

Lemma bounded_key_window cfg k n (acc : list call) :
  bounded cfg (.= k) n acc → ∀ t, length (key_window cfg k t acc) ≤ n.
Proof.
  intros Hb t. etrans; [|apply (Hb t)]. unfold key_window, window. rw list_filter_filter.
  apply sublist_length, filter_sublist_elem. naive_solver.
Qed.

(** At any moment the admitted requests of the window that ends there are within
both quotas, and the table within its size. *)
Definition within_quotas (cfg : LimiterConfig) (r : Limiter * list call) : Prop :=
  ∀ t, length (window cfg t r.2) ≤ max_global cfg ∧
    (∀ k, length (key_window cfg k t r.2) ≤ max_key cfg) ∧
    length (lm_keys r.1) ≤ max_tracked cfg.

Lemma source_run_within cfg calls :
  limits_ok cfg → 2 * max_global cfg < max_tracked cfg → ordered calls →
  within_quotas cfg (run_limiter (source_allow cfg) calls empty_limiter).
Proof.
  intros Hok Hcap Ho t. destruct (source_run_empty cfg calls Hok Hcap Ho) as (Heq & T & [Hg Hk Hb]).
  rw -Heq. split_and!.
  - by apply bounded_window, Hg.
  - intros k. by apply bounded_key_window.
  - apply Hk.
Qed.

Lemma agent_run_tracked cfg calls U :
  limits_ok cfg → ordered calls → length U ≤ max_tracked cfg → (∀ e, e ∈ calls → e.1 ∈ U) →
  let r := run_limiter (agent_allow cfg) calls empty_limiter in
  r.2 = reference cfg [] calls ∧ ∀ k t, length (key_window cfg k t r.2) ≤ max_key cfg.
Proof.
  intros Hok Ho HU Hin r. destruct (ordered_start calls Ho) as [T HT].
  destruct (agent_run cfg U calls [] T empty_limiter Hok HU Ho) as (Heq & T' & [_ _ Hk]).
  - intros e He. split; [by apply HT|by apply Hin].
  - apply limiter_inv_empty.
  - by intros k ?%not_elem_of_nil.
  - unfold r. cbn [app] in Heq. rw -Heq. split; [done|]. intros k t. by apply bounded_key_window.
Qed.
End limiter.

(** ** The three limiters *)

(** [_AgentRateLimiter], [_SourceRateLimiter] and [_OperatorSourceRateLimiter]. *)
Definition identity_allow {K} `{EqDecision K} : K → Z → Limiter → Limiter * bool :=
  agent_allow agent_limits.
Definition enrollment_allow {K} `{EqDecision K} : K → Z → Limiter → Limiter * bool :=
  source_allow enrollment_limits.
Definition operator_allow {K} `{EqDecision K} : K → Z → Limiter → Limiter * bool :=
  source_allow operator_limits.

(** The three configurations satisfy what the theorems ask. *)
Lemma listener_limits_ok :
  limits_ok agent_limits ∧ limits_ok enrollment_limits ∧ limits_ok operator_limits.
Proof. split_and!; split; cbn; unfold second; intros; lia. Qed.

Lemma source_capacity :
  2 * max_global enrollment_limits < max_tracked enrollment_limits ∧
  2 * max_global operator_limits < max_tracked operator_limits.
Proof. cbn. lia. Qed.

(** C40: the source limiters are exact sliding windows. However the clock readings
of the calls advance, the enrollment and operator limiters, with their expired
and evicted deques, admit exactly the requests that a limiter keeping the whole
history would: those that find fewer than the global limit of admitted requests
in the window and fewer than the source limit of their own source. *)
Theorem source_limiter_exact {K} `{EqDecision K} (calls : list (K * Z)) :
  ordered calls →
  (run_limiter enrollment_allow calls empty_limiter).2 = reference enrollment_limits [] calls ∧
  (run_limiter operator_allow calls empty_limiter).2 = reference operator_limits [] calls.
Proof.
  destruct listener_limits_ok as (_ & He & Ho), source_capacity as [Hce Hco]. intros Hord.
  split; symmetry; by apply source_run_empty.
Qed.

(** The source limiters' quotas hold in every window, not only in those that
end at a request: at any moment at most the global limit of admitted requests,
and at most the source limit of any one source, lie in the window that ends
there, and the table never tracks more sources than its limit. *)
Theorem source_window_bounds {K} `{EqDecision K} (calls : list (K * Z)) :
  ordered calls →
  within_quotas enrollment_limits (run_limiter enrollment_allow calls empty_limiter) ∧
  within_quotas operator_limits (run_limiter operator_allow calls empty_limiter).
Proof.
  destruct listener_limits_ok as (_ & He & Ho), source_capacity as [Hce Hco]. intros Hord.
  split; by apply source_run_within.
Qed.

(** The agent limiter. For every sequence of calls the global quota holds in
every window and the table is bounded; and as long as no more identities call
than the table can track, it admits exactly what a limiter with the whole
history would, so that each identity's quota holds in every window. *)
Theorem agent_limiter_bounds {K} `{EqDecision K} (calls : list (K * Z)) :
  ordered calls →
  let r := run_limiter identity_allow calls empty_limiter in
  (∀ t, length (window agent_limits t r.2) ≤ max_global agent_limits) ∧
  length (lm_keys r.1) ≤ max_tracked agent_limits ∧
  ∀ U, length U ≤ max_tracked agent_limits → (∀ e, e ∈ calls → e.1 ∈ U) →
    r.2 = reference agent_limits [] calls ∧
    ∀ k t, length (key_window agent_limits k t r.2) ≤ max_key agent_limits.
Proof.
  intros Ho r. destruct listener_limits_ok as (Hok & _ & _).
  destruct (ordered_start calls Ho) as [T HT].
  destruct (agent_global_run agent_limits calls [] T empty_limiter Hok Ho HT (global_inv_empty _ _))
    as [Hb Hsz]; [cbn; lia|]. split_and!; [by apply bounded_window|done|].
  intros U HU Hin. by apply (agent_run_tracked agent_limits calls U).
Qed.

(** Nine enrollment requests of one source, one second apart: the ninth is
refused, and one more is admitted once the first has left the window. *)
Definition burst : list (Z * Z) :=
  ((λ n, (7, Z.of_nat n * second)%Z) <$> seq 0 9) ++ [(7, 60 * second)%Z].

Lemma burst_ordered : ordered burst.
Proof. repeat constructor; vm_compute; discriminate. Qed.

Lemma source_limiter_exact_witness :
  (run_limiter enrollment_allow burst empty_limiter).2
    = ((λ n, (7, Z.of_nat n * second)%Z) <$> seq 0 8) ++ [(7, 60 * second)%Z].
Proof.
  etrans; [apply (proj1 (source_limiter_exact burst burst_ordered))|]. vm_compute. reflexivity.
Defined.

Lemma source_window_bounds_witness :
  within_quotas enrollment_limits (run_limiter enrollment_allow burst empty_limiter) ∧
  within_quotas operator_limits (run_limiter operator_allow burst empty_limiter).
Proof. exact (source_window_bounds burst burst_ordered). Defined.

Lemma agent_limiter_bounds_witness :
  let r := run_limiter identity_allow burst empty_limiter in
  r.2 = burst ∧ ∀ k t, length (key_window agent_limits k t r.2) ≤ 32.
Proof.
  destruct (agent_limiter_bounds burst burst_ordered) as (_ & _ & H).
  destruct (H [7%Z]) as [Heq Hk]; [cbn; lia| |split; [|exact Hk]].
  - intros e He. apply list_elem_of_singleton. revert e He. apply Forall_forall.
    repeat constructor.
  - rw Heq. vm_compute. reflexivity.
Defined.

(** With more identities than the table tracks the agent limiter's identity
quota can be exceeded: requests refused by the global quota still insert their
identity and evict another one with its live requests. Here with the agent's
window and a table of four: identity 0 uses its quota of two at five seconds,
four other identities are refused but evict it, and once the global quota has
room it is admitted twice again, four requests in one window. *)
Definition small_agent_limits : LimiterConfig := mkLimiterConfig (cutoff agent_limits) 4 2 4.
Definition flood : list (Z * Z) :=
  [(1, 0); (2, 0); (0, 5 * second); (0, 5 * second)]%Z
  ++ ((λ i, (10 + Z.of_nat i, 5 * second)%Z) <$> seq 0 4)
  ++ [(0, 10 * second); (0, 10 * second)]%Z.

Example agent_eviction_resets_quota :
  length (key_window small_agent_limits 0%Z (10 * second)
    (run_limiter (agent_allow small_agent_limits) flood empty_limiter).2) = 4.
Proof. vm_compute. reflexivity. Qed.
