(* ===== verification/Admission.v ===== *)
(** * Admission of connections and requests

The listeners bound their concurrent work twice, in total and per identity or
source address. [_AgentTLSAdapter] of [listener.py], [EnrollmentTLSListener]
and [OperatorTLSListener] keep an [asyncio.Semaphore] and a dictionary of
active counts; [_ConnectionAdmission] of [listener.py] keeps two counts. Both
implement one interface, [AdmissionLaws], and the life of the admitted tasks
is verified against it: handlers run interleaved, a task that outlives its
handler's deadline keeps its slot until it ends.

[Semaphore.acquire] is called only when the semaphore is not locked, so it
returns at once, and no other task runs between the test and the update. *)
From stdpp Require Import prelude strings gmap sorting ssreflect.
From S2P Require Import Prelude Uuid PyTime Domain.

Set Warnings "-clear-no-such-hyp".

(** ** The interface *)
Class Admission (S K : Type) := {
  adm_acquire : K → S → option S;
  adm_release : K → S → result S;
  adm_init : S;
  adm_wf : S → Prop;
  adm_count : K → S → Z;
  adm_total : S → Z;
}.

Definition bump {K} `{EqDecision K} (k k' : K) : Z := (if decide (k' = k) then 1 else 0)%Z.

(** What admission promises: an admitted task is below both limits and is
counted once; releasing a counted task succeeds and uncounts it; with nothing
counted the state is the initial one. *)
Class AdmissionLaws (S K : Type) `{EqDecision K, Admission S K} (maximum per : Z) : Prop := {
  law_init : adm_wf adm_init ∧ adm_total adm_init = 0%Z ∧ ∀ k : K, adm_count k adm_init = 0%Z;
  law_acquire k s s' : adm_wf s → adm_acquire k s = Some s' →
    adm_wf s' ∧ (adm_total s < maximum)%Z ∧ (adm_count k s < per)%Z ∧
    adm_total s' = (adm_total s + 1)%Z ∧
    ∀ k', adm_count k' s' = (adm_count k' s + bump k k')%Z;
  law_busy k s : adm_wf s → (0 ≤ adm_total s ≤ maximum)%Z → adm_acquire k s = None →
    (adm_total s = maximum)%Z ∨ (per ≤ adm_count k s)%Z;
  law_release k s : adm_wf s → (0 < adm_count k s ≤ adm_total s)%Z → ∃ s',
    adm_release k s = Ok s' ∧ adm_wf s' ∧ adm_total s' = (adm_total s - 1)%Z ∧
    ∀ k', adm_count k' s' = (adm_count k' s - bump k k')%Z;
  law_idle s : adm_wf s → adm_total s = 0%Z → (∀ k : K, adm_count k s = 0%Z) → s = adm_init;
}.

(** ** The semaphore and the dictionary *)
Section slots.
Context {K : Type} `{Countable K} (maximum per : Z) (message : pystr).

Record Slots := mkSlots {
  sem_value : Z;
  active : gmap K Z;
}.

Definition active_for (k : K) (s : Slots) : Z := default 0%Z (active s !! k).

(** [if semaphore.locked() or active >= PER: busy], then the acquisition. *)
Definition slots_acquire (k : K) (s : Slots) : option Slots :=
  let active_for_key := active_for k s in
  if ((sem_value s =? 0) || (per <=? active_for_key))%Z then None
  else Some (mkSlots (sem_value s - 1) (<[k := active_for_key + 1]> (active s)))%Z.

(** [_release_request_slot], [_release] and [_release_handshake]. *)
Definition slots_release (k : K) (s : Slots) : result Slots :=
  match active s !! k with
  | None => Raise (AssertionError message)
  | Some a =>
    raise_if (a <? 1)%Z (AssertionError message);;
    Ok (mkSlots (sem_value s + 1)
          (if (a =? 1)%Z then delete k (active s) else <[k := (a - 1)%Z]> (active s)))
  end.

(** No count is zero, and the semaphore has not been over-released. *)
Definition slots_wf (s : Slots) : Prop :=
  (0 ≤ sem_value s ≤ maximum)%Z ∧ map_Forall (λ _ a, (1 ≤ a)%Z) (active s).

#[export] Instance slots_admission : Admission Slots K := {
  adm_acquire := slots_acquire;
  adm_release := slots_release;
  adm_init := mkSlots maximum ∅;
  adm_wf := slots_wf;
  adm_count := active_for;
  adm_total s := (maximum - sem_value s)%Z;
}.

Lemma active_for_insert k a v m k' :
  active_for k' (mkSlots v (<[k := a]> m)) = if decide (k' = k) then a else default 0%Z (m !! k').
Proof.
  unfold active_for. cbn. case_decide as Hk; [by rw Hk lookup_insert_eq|by rw lookup_insert_ne].
Qed.

#[export] Instance slots_laws : (0 ≤ maximum)%Z → AdmissionLaws Slots K maximum per.
Proof.
  intros Hmax. split; cbn; unfold slots_wf.
  - split_and!; cbn; [lia|lia|apply map_Forall_empty|lia|done].
  - intros k s s' [Hv Hall] Hac. unfold slots_acquire in Hac. cbv zeta in Hac.
    destruct (_ || _)%Z eqn:Hb; [done|]. injection Hac as <-. checks_in Hb. destruct Hb as [? ?].
    assert (0 ≤ active_for k s)%Z.
    { unfold active_for. destruct (active s !! k) eqn:Hk; cbn; [|lia]. specialize (Hall _ _ Hk). cbn in Hall. lia. }
    cbn. split_and!; [lia|lia| |lia|done|lia|].
    + apply map_Forall_insert_2; [lia|done].
    + intros k'. rw active_for_insert. unfold bump. case_decide as Hk; [by rw Hk|].
      unfold active_for. lia.
  - intros k s _ [? ?] Hac. unfold slots_acquire in Hac. cbv zeta in Hac.
    destruct (_ || _)%Z eqn:Hb; [|done]. apply orb_true_iff in Hb as [?%Z.eqb_eq|?%Z.leb_le]; lia.
  - intros k s [Hv Hall] [Hc Hct]. unfold slots_release. unfold active_for in Hc, Hct.
    destruct (active s !! k) as [a|] eqn:Hk; cbn in Hc, Hct; [|lia].
    rw (proj2 (Z.ltb_ge _ _)); [|lia]. eexists. split; [done|]. cbn.
    split_and!; [lia|lia| |lia|].
    + destruct (Z.eqb_spec a 1); [by apply map_Forall_delete|].
      apply map_Forall_insert_2; [lia|done].
    + intros k'. unfold bump, active_for. cbn. destruct (Z.eqb_spec a 1).
      * case_decide as Heq; [rw Heq lookup_delete_eq Hk; cbn; lia|rw lookup_delete_ne //; lia].
      * case_decide as Heq; [rw Heq lookup_insert_eq Hk; cbn; lia|rw lookup_insert_ne //; lia].
  - intros [v m] [Hv Hall] Ht Hc. cbn in *. f_equal; [lia|]. apply map_empty. intros k.
    destruct (m !! k) as [a|] eqn:Hk; [|done]. specialize (Hall _ _ Hk).
    specialize (Hc k). unfold active_for in Hc. cbn in Hc, Hall. rw Hk /= in Hc. lia.
Qed.
End slots.

(** ** The two counts of [_ConnectionAdmission] *)
Section connections.
Context {K : Type} `{Countable K} (maximum per : Z).

Record Connections := mkConnections {
  ca_active : Z;
  ca_by_identity : gmap K Z;
}.

(** [_ConnectionAdmission.acquire]. *)
Definition connection_acquire (k : K) (s : Connections) : option Connections :=
  let active_for_identity := default 0%Z (ca_by_identity s !! k) in
  if ((maximum <=? ca_active s) || (per <=? active_for_identity))%Z then None
  else Some (mkConnections (ca_active s + 1)
               (<[k := active_for_identity + 1]> (ca_by_identity s)))%Z.

(** [_ConnectionAdmission.release]. *)
Definition connection_release (k : K) (s : Connections) : result Connections :=
  let inconsistent := AssertionError (py "connection admission accounting is inconsistent") in
  match ca_by_identity s !! k with
  | None => Raise inconsistent
  | Some a =>
    raise_if (ca_active s <? 1)%Z inconsistent;;
    Ok (mkConnections (ca_active s - 1)
          (if (a =? 1)%Z then delete k (ca_by_identity s)
           else <[k := (a - 1)%Z]> (ca_by_identity s)))
  end.

#[export] Instance connection_admission : Admission Connections K := {
  adm_acquire := connection_acquire;
  adm_release := connection_release;
  adm_init := mkConnections 0 ∅;
  adm_wf s := map_Forall (λ _ a, (1 ≤ a)%Z) (ca_by_identity s);
  adm_count k s := default 0%Z (ca_by_identity s !! k);
  adm_total := ca_active;
}.

#[export] Instance connection_laws : AdmissionLaws Connections K maximum per.
Proof.
  split; cbn.
  - split_and!; [apply map_Forall_empty|done|done].
  - intros k s s' Hall Hac. unfold connection_acquire in Hac. cbv zeta in Hac.
    destruct (_ || _)%Z eqn:Hb; [done|]. injection Hac as <-. checks_in Hb. destruct Hb as [? ?].
    assert (0 ≤ default 0 (ca_by_identity s !! k))%Z.
    { destruct (ca_by_identity s !! k) eqn:Hk; cbn; [|lia]. specialize (Hall _ _ Hk). cbn in Hall. lia. }
    cbn. split_and!; [|lia|lia|done|].
    + apply map_Forall_insert_2; [lia|done].
    + intros k'. unfold bump. case_decide as Hk; [by rw Hk lookup_insert_eq|].
      rw lookup_insert_ne //. lia.
  - intros k s _ [? ?] Hac. unfold connection_acquire in Hac. cbv zeta in Hac.
    destruct (_ || _)%Z eqn:Hb; [|done]. apply orb_true_iff in Hb as [?%Z.leb_le|?%Z.leb_le]; lia.
  - intros k s Hall [Hc Hct]. unfold connection_release. cbv zeta.
    destruct (ca_by_identity s !! k) as [a|] eqn:Hk; cbn in Hc, Hct; [|lia].
    rw (proj2 (Z.ltb_ge _ _)); [|lia]. eexists. split; [done|]. cbn. split_and!; [|done|].
    + destruct (Z.eqb_spec a 1); [by apply map_Forall_delete|].
      apply map_Forall_insert_2; [lia|done].
    + intros k'. unfold bump. destruct (Z.eqb_spec a 1).
      * case_decide as Heq; [rw Heq lookup_delete_eq Hk; cbn; lia|rw lookup_delete_ne //; lia].
      * case_decide as Heq; [rw Heq lookup_insert_eq Hk; cbn; lia|rw lookup_insert_ne //; lia].
  - intros [v m] Hall Ht Hc. cbn in *. f_equal; [done|]. apply map_empty. intros k.
    destruct (m !! k) as [a|] eqn:Hk; [|done]. specialize (Hall _ _ Hk).
    specialize (Hc k). cbn in Hall. rw Hk /= in Hc. lia.
Qed.
End connections.

(** ** The life of admitted tasks *)

(** A handler that holds a slot reads its request, then runs the operation in
a thread. When the deadline passes or the handler is cancelled while the
thread still runs, the handler ends and the slot stays with the thread's done
callback ([_release_after_task]); otherwise the [finally] clause releases. A
connection of [_HardenedRequestHandler] has only the first phase. *)
Inductive phase := Reading | Operating | Detached.
#[export] Instance phase_eq_dec : EqDecision phase.
Proof. solve_decision. Defined.

Inductive event (K : Type) :=
| Arrive (task : nat) (k : K)
| Operate (task : nat)
| Detach (task : nat)
| End (task : nat).
Arguments Arrive {_} _ _.
Arguments Operate {_} _.
Arguments Detach {_} _.
Arguments End {_} _.

Section lifecycle.
Context {S K : Type} `{EqDecision K, Admission S K} (maximum per : Z).
Context `{!AdmissionLaws S K maximum per}.

Record Tasks := mkTasks {
  ts_slots : S;
  ts_phase : gmap nat (K * phase);
}.

Definition idle : Tasks := mkTasks adm_init ∅.

(** An event that does not apply changes nothing; a refused arrival is answered
without a slot. *)
Definition handle_event (e : event K) (c : Tasks) : result Tasks :=
  match e with
  | Arrive i k =>
    match ts_phase c !! i, adm_acquire k (ts_slots c) with
    | None, Some s => Ok (mkTasks s (<[i := (k, Reading)]> (ts_phase c)))
    | _, _ => Ok c
    end
  | Operate i =>
    match ts_phase c !! i with
    | Some (k, Reading) => Ok (mkTasks (ts_slots c) (<[i := (k, Operating)]> (ts_phase c)))
    | _ => Ok c
    end
  | Detach i =>
    match ts_phase c !! i with
    | Some (k, Operating) => Ok (mkTasks (ts_slots c) (<[i := (k, Detached)]> (ts_phase c)))
    | _ => Ok c
    end
  | End i =>
    match ts_phase c !! i with
    | Some (k, _) =>
      s ← adm_release k (ts_slots c);
      Ok (mkTasks s (delete i (ts_phase c)))
    | None => Ok c
    end
  end.

Fixpoint handle_events (es : list (event K)) (c : Tasks) : result Tasks :=
  match es with
  | [] => Ok c
  | e :: rest => c' ← handle_event e c; handle_events rest c'
  end.

(** The tasks that hold a slot for [k]. *)
Definition holders (k : K) (m : gmap nat (K * phase)) : nat :=
  size (filter (λ e, e.2.1 = k) m).

(** The counts are the tasks that hold slots. *)
Record tasks_inv (c : Tasks) : Prop := {
  ti_wf : adm_wf (ts_slots c);
  ti_total : adm_total (ts_slots c) = Z.of_nat (size (ts_phase c));
  ti_count k : adm_count k (ts_slots c) = Z.of_nat (holders k (ts_phase c));
  ti_max : (adm_total (ts_slots c) ≤ maximum)%Z;
  ti_per k : (adm_count k (ts_slots c) ≤ Z.max 0 per)%Z;
}.

Lemma holders_insert_new i k ph m k' :
  m !! i = None →
  Z.of_nat (holders k' (<[i := (k, ph)]> m)) = (Z.of_nat (holders k' m) + bump k k')%Z.
Proof.
  intros Hi. unfold holders, bump. case_decide as Hk.
  - rw map_filter_insert_True; [|cbn; congruence]. rw map_size_insert_None; [lia|].
    apply map_lookup_filter_None. by left.
  - rw map_filter_insert_False; [|cbn; congruence]. rw delete_id //. lia.
Qed.

Lemma holders_update i k ph ph' m k' :
  m !! i = Some (k, ph) → holders k' (<[i := (k, ph')]> m) = holders k' m.
Proof.
  intros Hi. unfold holders. destruct (decide (k = k')) as [Hk|Hk].
  - rw map_filter_insert_True //. apply map_size_insert_Some.
    exists (k, ph). by apply map_lookup_filter_Some.
  - rw map_filter_insert_not' //. intros [k0 ph0]. rw Hi. by intros [= <- <-].
Qed.

Lemma holders_delete i k ph m k' :
  m !! i = Some (k, ph) →
  Z.of_nat (holders k' (delete i m)) = (Z.of_nat (holders k' m) - bump k k')%Z.
Proof.
  intros Hi. rw -{2}(insert_delete_id m i (k, ph)) // holders_insert_new; [lia|].
  apply lookup_delete_eq.
Qed.

Lemma tasks_inv_idle : (0 ≤ maximum)%Z → tasks_inv idle.
Proof.
  intros Hm. destruct law_init as (Hwf & Ht & Hc).
  split; cbn; [done|by rw Ht| | |]; [intros k; by rw Hc|lia|intros k; rw Hc; lia].
Qed.

Lemma holders_le k m : holders k m ≤ size m.
Proof. apply map_subseteq_size, map_filter_subseteq. Qed.

Lemma holders_pos i k ph m : m !! i = Some (k, ph) → 0 < holders k m.
Proof.
  intros Hi. pose proof (holders_delete i k ph m k Hi) as Hd. unfold bump in Hd.
  rw decide_True // in Hd. lia.
Qed.

(** A task that changes its phase keeps its slot. *)
Lemma tasks_inv_phase c i k ph ph' :
  ts_phase c !! i = Some (k, ph) → tasks_inv c →
  tasks_inv (mkTasks (ts_slots c) (<[i := (k, ph')]> (ts_phase c))).
Proof.
  intros Hi [Hwf Ht Hc Hm Hp]. split; cbn; [done| |intros k'; by rw (holders_update i k ph)|done..].
  by rw map_size_insert_Some.
Qed.

(** Every event succeeds and keeps the counts exact. *)
Lemma handle_event_inv e c :
  tasks_inv c → ∃ c', handle_event e c = Ok c' ∧ tasks_inv c'.
Proof.
  intros Hinv. pose proof Hinv as [Hwf Ht Hc Hm Hp]. destruct e as [i k|i|i|i]; cbn.
  - destruct (ts_phase c !! i) eqn:Hi; [by eauto|].
    destruct (adm_acquire k (ts_slots c)) as [s|] eqn:Hac; [|by eauto].
    destruct (law_acquire k _ _ Hwf Hac) as (Hwf' & Hlt & Hltk & Ht' & Hc').
    eexists. split; [done|]. split; cbn; [done| | |lia|].
    + rw Ht' Ht map_size_insert_None //. lia.
    + intros k'. by rw Hc' Hc holders_insert_new.
    + intros k'. rw Hc'. specialize (Hp k'). unfold bump. case_decide as Heq; [rw Heq|]; lia.
  - destruct (ts_phase c !! i) as [[k []]|] eqn:Hi; eauto using tasks_inv_phase.
  - destruct (ts_phase c !! i) as [[k []]|] eqn:Hi; eauto using tasks_inv_phase.
  - destruct (ts_phase c !! i) as [[k ph]|] eqn:Hi; [|by eauto].
    pose proof (holders_pos _ _ _ _ Hi). pose proof (holders_le k (ts_phase c)).
    destruct (law_release k (ts_slots c) Hwf) as (s & -> & Hwf' & Ht' & Hc').
    { rw Hc Ht. lia. }
    eexists. split; [done|]. split; cbn; [done| | |lia|].
    + rw Ht' Ht. rw (map_size_delete_Some i _ (mk_is_Some _ _ Hi)). lia.
    + intros k'. by rw Hc' Hc (holders_delete i k ph).
    + intros k'. rw Hc'. specialize (Hp k'). unfold bump. case_decide; lia.
Qed.

Lemma handle_events_inv es c :
  tasks_inv c → ∃ c', handle_events es c = Ok c' ∧ tasks_inv c'.
Proof.
  revert c. induction es as [|e es IH]; intros c Hinv; [by eauto|].
  destruct (handle_event_inv e c Hinv) as (c1 & He & Hinv1). cbn. rw He. by apply IH.
Qed.

(** What the accounting guarantees of an execution: it never finds its counts
inconsistent; the tasks that hold slots are within both limits; an arrival is
refused only at a limit; and when all tasks have ended, every slot is back. *)
Definition accounted (es : list (event K)) : Prop :=
  ∃ c, handle_events es idle = Ok c ∧
    (Z.of_nat (size (ts_phase c)) ≤ maximum)%Z ∧
    (∀ k, Z.of_nat (holders k (ts_phase c)) ≤ Z.max 0 per)%Z ∧
    (∀ k, adm_acquire k (ts_slots c) = None →
      Z.of_nat (size (ts_phase c)) = maximum ∨ (per ≤ Z.of_nat (holders k (ts_phase c)))%Z) ∧
    (ts_phase c = ∅ → ts_slots c = adm_init).

Lemma accounting es : (0 ≤ maximum)%Z → accounted es.
Proof.
  intros Hmax. destruct (handle_events_inv es idle (tasks_inv_idle Hmax)) as (c & He & Hinv).
  destruct Hinv as [Hwf Ht Hc Hm Hp]. exists c. split_and!; [done| | | |].
  - by rw -Ht.
  - intros k. rw -Hc. apply Hp.
  - intros k Hb. rw -Ht -Hc. apply law_busy; [done| |done]. rw Ht. split; [lia|by rw -Ht].
  - intros Hempty. apply law_idle; [done| |]; [rw Ht Hempty //|].
    intros k. by rw Hc Hempty.
Qed.
End lifecycle.

(** The pools of the listeners, each with its limits and the message its release
raises on an inconsistent count. *)
Record SlotPool := mkSlotPool {
  pool_max : Z;
  pool_per : Z;
  pool_message : pystr;
}.

Definition MAX_CONCURRENT_REQUESTS : Z := 16.
Definition MAX_CONCURRENT_REQUESTS_PER_IDENTITY : Z := 4.
Definition MAX_CONCURRENT_ENROLLMENTS : Z := 4.
Definition MAX_ACTIVE_PER_SOURCE : Z := 1.
Definition MAX_CONCURRENT_TLS_HANDSHAKES : Z := 16.
Definition MAX_TLS_HANDSHAKES_PER_SOURCE : Z := 2.
Definition MAX_CONCURRENT_OPERATOR_REQUESTS : Z := 8.
Definition MAX_ACTIVE_OPERATOR_REQUESTS_PER_SOURCE : Z := 2.
Definition MAX_CONCURRENT_OPERATOR_TLS_HANDSHAKES : Z := 16.
Definition MAX_OPERATOR_TLS_HANDSHAKES_PER_SOURCE : Z := 2.

Definition agent_requests : SlotPool :=
  mkSlotPool MAX_CONCURRENT_REQUESTS MAX_CONCURRENT_REQUESTS_PER_IDENTITY
    (py "request admission accounting is inconsistent").
Definition enrollment_requests : SlotPool :=
  mkSlotPool MAX_CONCURRENT_ENROLLMENTS MAX_ACTIVE_PER_SOURCE
    (py "enrollment admission accounting is inconsistent").
Definition enrollment_handshakes : SlotPool :=
  mkSlotPool MAX_CONCURRENT_TLS_HANDSHAKES MAX_TLS_HANDSHAKES_PER_SOURCE
    (py "TLS handshake admission accounting is inconsistent").
Definition operator_requests : SlotPool :=
  mkSlotPool MAX_CONCURRENT_OPERATOR_REQUESTS MAX_ACTIVE_OPERATOR_REQUESTS_PER_SOURCE
    (py "operator request admission accounting is inconsistent").
Definition operator_handshakes : SlotPool :=
  mkSlotPool MAX_CONCURRENT_OPERATOR_TLS_HANDSHAKES MAX_OPERATOR_TLS_HANDSHAKES_PER_SOURCE
    (py "operator TLS admission accounting is inconsistent").

Definition slot_pools : list SlotPool :=
  [agent_requests; enrollment_requests; enrollment_handshakes; operator_requests;
   operator_handshakes].

Definition pool_admission {K} `{Countable K} (p : SlotPool) : Admission (Slots (K := K)) K :=
  slots_admission (pool_max p) (pool_per p) (pool_message p).

Lemma slot_pools_ok p : p ∈ slot_pools → (0 ≤ pool_max p)%Z.
Proof. revert p. apply Forall_forall. repeat constructor; vm_compute; discriminate. Qed.


(** Two enrollments of one source: the second is refused; the first times out
while its operation runs and its slot returns when the operation ends. *)
Definition enrollment_events : list (event Z) :=
  [Arrive 0 7%Z; Arrive 1 7%Z; Operate 0; Detach 0; End 1; End 0].


Example enrollment_refused :
  let adm := pool_admission enrollment_requests in
  ts_phase <$> (match handle_events (H := adm) (take 4 enrollment_events) (idle (H := adm)) with
                Ok c => Some c | Raise _ => None end)
  = Some {[0 := (7%Z, Detached)]}.
Proof. vm_compute. reflexivity. Qed.
