(* ===== verification/Connection.v ===== *)
(** * One connection of the enrollment or operator listener

[_handle_transport] and [_handle_connection] of [EnrollmentTLSListener]
([enrollment_listener.py]) and [OperatorTLSListener] ([operator_listener.py]): the
handshake slot, the rate limiter, the request slot, reading, the operation and the
response, with the [except] clauses in their order. The two listeners differ in the
arguments of this file: limits, reader, operation, writer, and whether they end with
[except Exception].

A [Connection] holds what the environment decides: the peer, the outcome of the TLS
handshake, the clock, the bytes that arrive before the deadline, whether the deadline
passes or the task is cancelled while it waits, and the outcome of the drain after
the response, which a cancellation may interrupt too ([CancelledError]). An operation that is overtaken runs to its end. *)
From stdpp Require Import prelude strings gmap sorting pretty ssreflect.
From S2P Require Import Prelude Uuid PyTime Json Text JsonLoads JsonProofs AgentApi Http Net RateLimit Admission.

Set Warnings "-clear-no-such-hyp".

Inductive interruption := Uninterrupted | DeadlineOperating | CancelledReading | CancelledOperating.

Record Connection := mkConnection {
  cn_peer : option pystr;
  cn_tls : result unit;
  cn_time : Z;
  cn_reader : StreamReader;
  cn_received_at : datetime;
  cn_interruption : interruption;
  cn_drain : result unit;
}.

(** How a handler ends: it returns, it is cancelled, or an exception escapes. *)
Inductive ending := Returned | WasCancelled | Escaped (e : exn).

(** What a connection did: the writes, the ending, and whether the running operation
keeps the request slot ([_release_after_task] returns it). *)
Record Exchange := mkExchange {
  ex_written : list (list Z);
  ex_ending : ending;
  ex_detached : bool;
}.

(** The state of a listener. *)
Record Listener := mkListener {
  ls_limiter : Limiter (K := pystr);
  ls_slots : Slots (K := pystr);
  ls_handshakes : Slots (K := pystr);
}.

(** [__init__]. *)
Definition new_listener (requests handshakes : SlotPool) : Listener :=
  mkListener empty_limiter (mkSlots (pool_max requests) ∅) (mkSlots (pool_max handshakes) ∅).

(** [except (ConnectionError, OSError, ValueError)]. *)
Definition is_connection_error (e : exn) : bool := is_OSError e || is_ValueError e.
Definition swallow (e : exn) : ending := if is_connection_error e then Returned else Escaped e.

(** [isinstance(peer, tuple) and peer and isinstance(peer[0], str)], then
[str(ipaddress.ip_address(peer[0]))]: [None] for [ValueError]. *)
Definition source_of (host : pystr) : option pystr := ip_str <$> ip_address host.

Section connection.
Context {W Req Resp : Type}.
Context (allow : pystr → Z → Limiter (K := pystr) → Limiter (K := pystr) * bool).
Context (requests handshakes : SlotPool) (busy_code : string).
Context (read_request : StreamReader → result Req).
Context (operation : Req → datetime → M W Resp).
Context (respond : Resp → result (list Z)) (write_error : Z → pystr → result (list Z)).
Context (unavailable : option (Z * string)).

(** [await _write_error(writer, status, code)] as the last step of a handler. *)
Definition end_with_error (written : list (list Z)) (status : Z) (code : pystr) (detached : bool)
    : Exchange :=
  match write_error status code with
  | Ok bytes => mkExchange (written ++ [bytes]) Returned detached
  | Raise e => mkExchange written (swallow e) detached
  end.

(** The [except] clauses, for an exception of the [try] body with no operation
running. *)
Definition end_with_exception (written : list (list Z)) (e : exn) : Exchange :=
  match e with
  | TimeoutError => end_with_error written 408 (py "request_timeout") false
  | RequestError status code => end_with_error written status code false
  | CancelledError => mkExchange written WasCancelled false
  | _ =>
    match unavailable with
    | Some (status, code) =>
      if is_Exception e then end_with_error written status (py code) false
      else mkExchange written (Escaped e) false
    | None => mkExchange written (swallow e) false
    end
  end.

(** The [try] body under [asyncio.timeout], with its [except] clauses. *)
Definition serve_request (c : Connection) (w : W) : W * Exchange :=
  match cn_interruption c with
  | CancelledReading => (w, mkExchange [] WasCancelled false)
  | interrupted =>
    match read_request (cn_reader c) with
    | Raise e => (w, end_with_exception [] e)
    | Ok request =>
      let '(w', r) := operation request (cn_received_at c) w in
      match interrupted with
      | DeadlineOperating => (w', end_with_error [] 408 (py "request_timeout") true)
      | CancelledOperating => (w', mkExchange [] WasCancelled true)
      | _ =>
        match r with
        | Raise e => (w', end_with_exception [] e)
        | Ok response =>
          match respond response with
          | Raise e => (w', end_with_exception [] e)
          | Ok bytes =>
            match cn_drain c with
            | Ok _ => (w', mkExchange [bytes] Returned false)
            | Raise e => (w', end_with_exception [bytes] e)
            end
          end
        end
      end
    end
  end.

Definition _handle_connection (c : Connection) (l : Listener) (w : W) : Listener * W * Exchange :=
  match cn_peer c with
  | None => (l, w, end_with_error [] 400 (py "invalid_request") false)
  | Some host =>
    match source_of host with
    | None => (l, w, mkExchange [] Returned false)
    | Some source =>
      let '(limiter, allowed) := allow source (cn_time c) (ls_limiter l) in
      let l1 := mkListener limiter (ls_slots l) (ls_handshakes l) in
      if negb allowed then (l1, w, end_with_error [] 429 (py "rate_limited") false)
      else
        match slots_acquire (pool_per requests) source (ls_slots l) with
        | None => (l1, w, end_with_error [] 503 (py busy_code) false)
        | Some slots =>
          let '(w', x) := serve_request c w in
          if ex_detached x then (mkListener limiter slots (ls_handshakes l), w', x)
          else
            match slots_release (pool_message requests) source slots with
            | Ok slots' => (mkListener limiter slots' (ls_handshakes l), w', x)
            | Raise e =>
              (mkListener limiter slots (ls_handshakes l), w',
               mkExchange (ex_written x) (Escaped e) false)
            end
        end
    end
  end.

(** [_handle_transport], with the listener's TLS context [started] or gone. *)
Definition _handle_transport (started : bool) (c : Connection) (l : Listener) (w : W)
    : Listener * W * Exchange :=
  let nothing := mkExchange [] Returned false in
  match cn_peer c with
  | None => (l, w, nothing)
  | Some host =>
    match source_of host with
    | None => (l, w, nothing)
    | Some source =>
      match slots_acquire (pool_per handshakes) source (ls_handshakes l) with
      | None => (l, w, nothing)
      | Some slots =>
        let l1 := mkListener (ls_limiter l) (ls_slots l) slots in
        let '(l2, w', x) :=
          if negb started then (l1, w, nothing)
          else match cn_tls c with
               | Raise e => (l1, w, mkExchange [] (swallow e) false)
               | Ok _ =>
                 let '(l2, w', x) := _handle_connection c l1 w in
                 (l2, w', match ex_ending x with
                          | Escaped e => mkExchange (ex_written x) (swallow e) (ex_detached x)
                          | _ => x
                          end)
               end in
        match slots_release (pool_message handshakes) source (ls_handshakes l2) with
        | Ok slots' => (mkListener (ls_limiter l2) (ls_slots l2) slots', w', x)
        | Raise e => (l2, w', mkExchange (ex_written x) (Escaped e) (ex_detached x))
        end
      end
    end
  end.
End connection.

(** ** Slots *)
Section slots.
Context {K : Type} `{Countable K}.

(** Releasing right after acquiring gives the slots back as they were. *)
Lemma slots_release_acquired maximum per message (k : K) s s' :
  slots_wf maximum s → slots_acquire per k s = Some s' → slots_release message k s' = Ok s.
Proof.
  intros [_ Hall] Hac. unfold slots_acquire in Hac. cbv zeta in Hac.
  destruct (_ || _)%Z; [done|]. injection Hac as <-. unfold slots_release. cbn [active sem_value].
  rw lookup_insert_eq. unfold active_for. destruct (active s !! k) as [a|] eqn:Hk; cbn [from_option id].
  - pose proof (Hall _ _ Hk) as Ha. cbn in Ha. rw (proj2 (Z.ltb_ge (a + 1) 1)); [|lia].
    cbn [raise_if mbind result_bind]. rw (proj2 (Z.eqb_neq (a + 1) 1)); [|lia].
    rw insert_insert_eq (_ : (a + 1 - 1 = a)%Z); [|lia]. rw insert_id //.
    destruct s. cbn. do 2 f_equal. lia.
  - cbn [raise_if mbind result_bind]. rw (_ : (0 + 1 <? 1)%Z = false) // (_ : (0 + 1 =? 1)%Z = true) //.
    cbn [raise_if mbind result_bind]. rw delete_insert_id //. destruct s. cbn. do 2 f_equal. lia.
Qed.

Lemma slots_acquire_wf maximum per (k : K) s s' :
  slots_wf maximum s → slots_acquire per k s = Some s' → slots_wf maximum s'.
Proof.
  intros [[H1 H2] Hall] Hac. unfold slots_acquire in Hac. cbv zeta in Hac.
  destruct (_ || _)%Z eqn:Hb; [done|]. injection Hac as <-. checks_in Hb. destruct Hb as [Hb _].
  assert (0 ≤ active_for k s)%Z.
  { unfold active_for. destruct (active s !! k) eqn:Hk; cbn; [|lia]. specialize (Hall _ _ Hk). cbn in Hall. lia. }
  split; cbn; [lia|]. apply map_Forall_insert_2; [lia|done].
Qed.
End slots.

(** ** One connection *)

(** Both pools of a listener are well formed. *)
Definition listener_wf (requests handshakes : SlotPool) (l : Listener) : Prop :=
  slots_wf (pool_max requests) (ls_slots l) ∧ slots_wf (pool_max handshakes) (ls_handshakes l).

(** The slots after a connection: as before, or with the slot of the operation that
outlived its handler. *)
Definition slots_after (requests : SlotPool) (x : Exchange) (l l' : Listener) : Prop :=
  if ex_detached x
  then ∃ source, slots_acquire (pool_per requests) source (ls_slots l) = Some (ls_slots l')
  else ls_slots l' = ls_slots l.

Section proofs.
Context {W Req Resp : Type}.
Context (allow : pystr → Z → Limiter (K := pystr) → Limiter (K := pystr) * bool).
Context (requests handshakes : SlotPool) (busy_code : string).
Context (read_request : StreamReader → result Req).
Context (operation : Req → datetime → M W Resp).
Context (respond : Resp → result (list Z)) (write_error : Z → pystr → result (list Z)).
Context (unavailable : option (Z * string)).

Definition error_document (bytes : list Z) : Prop := ∃ status code, write_error status code = Ok bytes.

(** What a connection may do: nothing but writing error documents; or the operation,
once, on the request it read, and then write its response or error documents. *)
Definition served (c : Connection) (w w' : W) (written : list (list Z)) : Prop :=
  (w' = w ∧ Forall error_document written) ∨
  (∃ request r, read_request (cn_reader c) = Ok request ∧
     operation request (cn_received_at c) w = (w', r) ∧
     Forall (λ bytes, (∃ response, r = Ok response ∧ respond response = Ok bytes) ∨
                      error_document bytes) written).

Lemma end_with_error_written P written status code detached :
  (∀ bytes, error_document bytes → P bytes) → Forall P written →
  Forall P (ex_written (end_with_error write_error written status code detached)).
Proof using Type.
  intros HP Hw. unfold end_with_error. destruct (write_error status code) as [b|e] eqn:Hb; [|done].
  cbn. apply Forall_app. split; [done|]. constructor; [|done]. apply HP. by eexists _, _.
Qed.

Lemma end_with_exception_written P written e :
  (∀ bytes, error_document bytes → P bytes) → Forall P written →
  Forall P (ex_written (end_with_exception write_error unavailable written e)).
Proof using Type.
  intros HP Hw. unfold end_with_exception.
  destruct e; try (by apply end_with_error_written); destruct unavailable as [[]|];
    try (by apply end_with_error_written); done.
Qed.

Lemma end_with_error_detached written status code d :
  ex_detached (end_with_error write_error written status code d) = d.
Proof using Type. unfold end_with_error. by destruct (write_error _ _). Qed.

Lemma serve_request_served c w w' x :
  serve_request read_request operation respond write_error unavailable c w = (w', x) →
  served c w w' (ex_written x).
Proof using Type.
  assert (Hno : ∀ written e, written = [] →
    Forall error_document (ex_written (end_with_exception write_error unavailable written e))).
  { intros written e ->. by apply end_with_exception_written. }
  unfold serve_request. destruct (cn_interruption c) eqn:Hi; [| |by intros [= <- <-]; left|].
  all: destruct (read_request (cn_reader c)) as [request|e] eqn:Hr;
    [|intros [= <- <-]; left; split; [done|by apply Hno]].
  all: destruct (operation request (cn_received_at c) w) as [w1 r] eqn:Ho.
  - intros Hx. right. exists request, r. split; [done|].
    destruct r as [response|e]; [|injection Hx as <- <-; split; [done|]; apply end_with_exception_written;
      [by right|done]].
    destruct (respond response) as [bytes|e] eqn:Hb; [|injection Hx as <- <-; split; [done|];
      apply end_with_exception_written; [by right|done]].
    assert (Hone : Forall (λ bytes, (∃ response0, Ok response = Ok response0 ∧ respond response0 = Ok bytes) ∨
      error_document bytes) [bytes]) by (constructor; [left; by exists response|done]).
    destruct (cn_drain c) as [u|e]; injection Hx as <- <-; (split; [done|]); [exact Hone|].
    apply end_with_exception_written; [by right|exact Hone].
  - intros [= <- <-]. right. exists request, r. split; [done|]. split; [done|].
    apply end_with_error_written; [by right|done].
  - intros [= <- <-]. right. exists request, r. split; [done|]. split; [done|]. constructor.
Qed.

Lemma handle_connection_ok c l w l' w' x :
  slots_wf (pool_max requests) (ls_slots l) →
  _handle_connection allow requests busy_code read_request operation respond write_error unavailable c l w
    = (l', w', x) →
  ls_handshakes l' = ls_handshakes l ∧ slots_after requests x l l' ∧ served c w w' (ex_written x).
Proof using Type.
  intros Hwf. unfold _handle_connection, slots_after.
  assert (Hno : ∀ status code, Forall error_document (ex_written (end_with_error write_error [] status code false))).
  { intros status code. by apply end_with_error_written. }
  destruct (cn_peer c) as [host|].
  2: { intros [= <- <- <-]. rw end_with_error_detached. split_and!; [done|done|]. left. by split. }
  destruct (source_of host) as [source|]; [|by intros [= <- <- <-]; split_and!; [done|done|left]].
  destruct (allow source (cn_time c) (ls_limiter l)) as [limiter allowed].
  destruct (negb allowed).
  { intros [= <- <- <-]. rw end_with_error_detached. split_and!; [done|done|]. left. by split. }
  destruct (slots_acquire _ source (ls_slots l)) as [slots|] eqn:Hac.
  2: { intros [= <- <- <-]. rw end_with_error_detached. split_and!; [done|done|]. left. by split. }
  destruct (serve_request _ _ _ _ _ c w) as [w1 y] eqn:Hs. apply serve_request_served in Hs.
  destruct (ex_detached y) eqn:Hd.
  - intros [= <- <- <-]. rw Hd. split_and!; [done| |done]. by exists source.
  - rw (slots_release_acquired _ _ _ _ _ _ Hwf Hac). intros [= <- <- <-]. by rw Hd.
Qed.

(** A connection gives its handshake slot back, and its request slot unless the
operation outlives it; it runs the operation at most once, on the request it read. *)
Lemma handle_transport_ok started c l w l' w' x :
  listener_wf requests handshakes l →
  _handle_transport allow requests handshakes busy_code read_request operation respond write_error
    unavailable started c l w = (l', w', x) →
  ls_handshakes l' = ls_handshakes l ∧ slots_after requests x l l' ∧ served c w w' (ex_written x).
Proof using Type.
  intros [Hwf Hhs]. unfold _handle_transport.
  assert (Hnot : ls_handshakes l = ls_handshakes l ∧ slots_after requests (mkExchange [] Returned false) l l ∧
    served c w w []) by (split_and!; [done|done|left; split; [done|constructor]]).
  destruct (cn_peer c) as [host|]; [|by intros [= <- <- <-]].
  destruct (source_of host) as [source|]; [|by intros [= <- <- <-]].
  destruct (slots_acquire _ source (ls_handshakes l)) as [slots|] eqn:Hac; [|by intros [= <- <- <-]].
  pose proof (slots_release_acquired _ _ (pool_message handshakes) _ _ _ Hhs Hac) as Hrel.
  destruct started; cbn [negb].
  2: { cbn [ls_handshakes ls_limiter ls_slots]. rw Hrel. by intros [= <- <- <-]. }
  destruct (cn_tls c) as [u|e].
  2: { cbn [ls_handshakes ls_limiter ls_slots]. rw Hrel. intros [= <- <- <-]. split_and!; [done|done|].
       left. split; [done|constructor]. }
  destruct (_handle_connection _ _ _ _ _ _ _ _ c _ w) as [[l2 w2] y] eqn:Hc.
  apply handle_connection_ok in Hc as (Hh & Hs & Hserved); [|exact Hwf]. cbn [ls_handshakes ls_slots] in *.
  rw Hh Hrel. intros [= <- <- <-]. split; [done|].
  destruct (ex_ending y); (split; [exact Hs|exact Hserved]).
Qed.
End proofs.

(** ** An admitted connection *)

(** The environment lets the connection through: TLS succeeds, both pools and the
limiter admit its source, nothing interrupts it, and the response is drained. *)
Record admitted (allow : pystr → Z → Limiter (K := pystr) → Limiter (K := pystr) * bool)
    (requests handshakes : SlotPool) (c : Connection) (l : Listener) (limiter : Limiter) : Prop := {
  ad_source : ∃ host source slots hslots, cn_peer c = Some host ∧ source_of host = Some source ∧
    allow source (cn_time c) (ls_limiter l) = (limiter, true) ∧
    slots_acquire (pool_per requests) source (ls_slots l) = Some slots ∧
    slots_acquire (pool_per handshakes) source (ls_handshakes l) = Some hslots;
  ad_tls : cn_tls c = Ok tt;
  ad_quiet : cn_interruption c = Uninterrupted;
  ad_drain : cn_drain c = Ok tt;
}.

(** Then the response of the operation is all it writes, and both slots are back. *)
Lemma handle_transport_admitted {W Req Resp} allow requests handshakes busy_code
    (read_request : StreamReader → result Req) (operation : Req → datetime → M W Resp)
    (respond : Resp → result (list Z)) write_error unavailable c l limiter request response bytes w w' :
  listener_wf requests handshakes l → admitted allow requests handshakes c l limiter →
  read_request (cn_reader c) = Ok request →
  operation request (cn_received_at c) w = (w', Ok response) → respond response = Ok bytes →
  _handle_transport allow requests handshakes busy_code read_request operation respond write_error
    unavailable true c l w
  = (mkListener limiter (ls_slots l) (ls_handshakes l), w', mkExchange [bytes] Returned false).
Proof.
  intros [Hwf Hhs] [(host & source & slots & hslots & Hp & Hs & Ha & Hsl & Hh) Htls Hq Hd] Hr Ho Hb.
  unfold _handle_transport. rw Hp Hs Hh Htls. cbn [negb].
  unfold _handle_connection. cbn [ls_limiter ls_slots ls_handshakes]. rw Hp Hs Ha Hsl. cbn [negb].
  unfold serve_request. rw Hq Hr Ho Hb Hd. cbn [ex_detached].
  rw (slots_release_acquired _ _ _ _ _ _ Hwf Hsl). cbn [ls_limiter ls_slots ls_handshakes ex_ending].
  by rw (slots_release_acquired _ _ _ _ _ _ Hhs Hh).
Qed.
