(* ===== verification/OperatorListener.v ===== *)
(** * The operator listener ([src/src/northgate_rmm/operator_listener.py])

The request reader, the response writer and the connection handler, composed with the
operator application over PostgreSQL and the session verifier. *)
From stdpp Require Import prelude strings gmap sorting pretty ssreflect.
From S2P Require Import Prelude Uuid PyTime Json Text JsonLoads JsonProofs UuidText Domain Codec CodecTheorems AgentApi Http Net Configuration RateLimit Admission Connection.
From S2P Require Import Views OperatorApi.

Set Warnings "-clear-no-such-hyp".

Definition MAX_OPERATOR_HEADER_BYTES : Z := 6144.
Definition MAX_OPERATOR_HEADERS : Z := 24.
Definition MAX_OPERATOR_RESPONSE_BYTES : Z := 524288.

(** ** Reading *)
Definition _read_request (authority : pystr) (port : Z) (reader : StreamReader)
    : result OperatorRequest :=
  '(head, _) ← read_head MAX_OPERATOR_HEADER_BYTES MAX_OPERATOR_HEADERS reader;
  let headers := rh_headers head in
  check_host authority port headers;;
  raise_if (existsb (λ name, bool_decide (is_Some (headers !! name)))
              [py "transfer-encoding"; py "expect"; py "content-encoding"]) invalid_request;;
  raise_if (match headers !! py "content-length" with
            | Some content_length => negb (bool_decide (content_length = py "0"))
            | None => false
            end) (RequestError 413 (py "request_body_not_allowed"));;
  let '(path, query) := partition 63 (rh_target head) in
  Ok (mkOperatorRequest (rh_method head) path (headers !! py "authorization") (default [] query)).

(** ** Writing *)
Definition reason_phrase (status : Z) : pystr :=
  let table : list (Z * string) :=
    [(200, "OK"); (400, "Bad Request"); (401, "Unauthorized"); (403, "Forbidden");
     (404, "Not Found"); (408, "Request Timeout"); (413, "Content Too Large");
     (421, "Misdirected Request"); (429, "Too Many Requests");
     (431, "Request Header Fields Too Large"); (503, "Service Unavailable")]%Z in
  match find (λ e, (e.1 =? status)%Z) table with Some e => py e.2 | None => py "Error" end.

Definition base_headers (body : list Z) : list (pystr * pystr) :=
  [(py "content-type", py "application/json");
   (py "cache-control", py "no-store");
   (py "content-security-policy",
      py "default-src 'none'; frame-ancestors 'none'; base-uri 'none'; form-action 'none'");
   (py "referrer-policy", py "no-referrer");
   (py "x-content-type-options", py "nosniff");
   (py "strict-transport-security", py "max-age=31536000");
   (py "connection", py "close");
   (py "content-length", int_str (Z.of_nat (length body)))].

(** The headers of the application the listener lets through. *)
Definition header_allowed (name value : pystr) : bool :=
  bool_decide (name = py "content-type")
    && bool_decide (value ∈ [py "application/json"; py "text/html; charset=utf-8"])
  || bool_decide (name = py "www-authenticate") && bool_decide (value = py "Bearer").

Fixpoint merge_headers (headers output_headers : list (pystr * pystr)) : list (pystr * pystr) :=
  match headers with
  | [] => output_headers
  | (name, value) :: rest =>
    let normalized_name := ascii_lower name in
    merge_headers rest
      (if header_allowed normalized_name value then dict_set normalized_name value output_headers
       else output_headers)
  end.

Definition _write_raw (status : Z) (body : list Z) (headers : list (pystr * pystr))
    : result (list Z) :=
  write_head status (reason_phrase status) (merge_headers headers (base_headers body)) body.

Definition _write_error (status : Z) (code : pystr) : result (list Z) :=
  body ← encode_ascii (error_body code); _write_raw status body [].

Definition _write_response (response : OperatorResponse) : result (list Z) :=
  _write_raw (os_status response) (os_body response) (os_headers response).

(** The response of the operation, within the size limit. *)
Definition respond (response : OperatorResponse) : result (list Z) :=
  if (MAX_OPERATOR_RESPONSE_BYTES <? Z.of_nat (length (os_body response)))%Z
  then _write_error 503 (py "operator_unavailable") else _write_response response.

(** ** The listener *)
Section listener.
Context {W : Type} (operation : OperatorRequest → datetime → M W OperatorResponse).

(** [OperatorTLSListener._handle_transport]. *)
Definition handle_transport (configuration : TLSListenerConfiguration)
    : bool → Connection → Listener → W → Listener * W * Exchange :=
  _handle_transport operator_allow operator_requests operator_handshakes "operator_busy"
    (_read_request (tc_authority configuration) (tc_port configuration))
    operation respond _write_error (Some (503%Z, "operator_unavailable"%string)).

(** [OperatorTLSListener._handle_connection]. *)
Definition handle_connection (configuration : TLSListenerConfiguration)
    : Connection → Listener → W → Listener * W * Exchange :=
  _handle_connection operator_allow operator_requests "operator_busy"
    (_read_request (tc_authority configuration) (tc_port configuration))
    operation respond _write_error (Some (503%Z, "operator_unavailable"%string)).
End listener.

(** ** What the writer produces *)

(** The headers every response carries, whatever the application answered. *)
Record hardened (body : list Z) (headers : gmap pystr pystr) : Prop := {
  hd_type : ∃ t, headers !! py "content-type" = Some t ∧
    t ∈ [py "application/json"; py "text/html; charset=utf-8"];
  hd_cache : headers !! py "cache-control" = Some (py "no-store");
  hd_csp : headers !! py "content-security-policy"
    = Some (py "default-src 'none'; frame-ancestors 'none'; base-uri 'none'; form-action 'none'");
  hd_referrer : headers !! py "referrer-policy" = Some (py "no-referrer");
  hd_sniff : headers !! py "x-content-type-options" = Some (py "nosniff");
  hd_transport : headers !! py "strict-transport-security" = Some (py "max-age=31536000");
  hd_close : headers !! py "connection" = Some (py "close");
  hd_length : headers !! py "content-length" = Some (int_str (Z.of_nat (length body)));
}.

Lemma header_allowed_cases name value :
  header_allowed name value = true →
  (name = py "content-type" ∧ value ∈ [py "application/json"; py "text/html; charset=utf-8"]) ∨
  (name = py "www-authenticate" ∧ value = py "Bearer").
Proof.
  unfold header_allowed. rw orb_true_iff !andb_true_iff !bool_decide_eq_true. done.
Qed.

Lemma header_allowed_ok name value :
  header_allowed name value = true → header_ok (name, value) = true ∧ ascii_lower name = name.
Proof.
  intros [[-> Hv]|[-> ->]]%header_allowed_cases; [|by vm_compute].
  apply elem_of_cons in Hv as [->|Hv]; [by vm_compute|]. apply list_elem_of_singleton in Hv as ->.
  by vm_compute.
Qed.

Lemma hardened_set body headers name value :
  header_allowed name value = true → hardened body headers →
  hardened body (<[name := value]> headers).
Proof.
  intros Ha [Hty ? ? ? ? ? ? ?]. apply header_allowed_cases in Ha as [[-> Hv]|[-> ->]].
  - split; [rw lookup_insert_eq; by eauto|by rw lookup_insert_ne..].
  - split; [rw lookup_insert_ne //|by rw lookup_insert_ne..].
Qed.

Lemma base_headers_ok body : headers_ok (base_headers body).
Proof.
  unfold base_headers. pose proof (int_str_value (Z.of_nat (length body)) ltac:(lia)) as Hv.
  revert Hv. generalize (int_str (Z.of_nat (length body))). intros n Hv.
  split; [|by apply (bool_decide_unpack _); vm_compute].
  repeat (apply Forall_cons; split; [split; [|by vm_compute]|]); [by vm_compute..| |by constructor].
  unfold header_ok. cbn [fst snd]. by rw Hv.
Qed.

Lemma base_headers_hardened body : hardened body (list_to_map (base_headers body)).
Proof. split; [eexists; split; [reflexivity|by left]|reflexivity..]. Qed.

Lemma merge_headers_ok body headers output :
  headers_ok output → hardened body (list_to_map output) →
  headers_ok (merge_headers headers output) ∧ hardened body (list_to_map (merge_headers headers output)).
Proof.
  revert output. induction headers as [|[name value] headers IH]; intros output Hok Hh; [done|].
  cbn [merge_headers]. cbv zeta. destruct (header_allowed (ascii_lower name) value) eqn:Ha; [|by apply IH].
  destruct (header_allowed_ok _ _ Ha) as [Hv Hl]. apply IH; [by apply headers_ok_set|].
  rw list_to_map_dict_set. by apply hardened_set.
Qed.

Lemma reason_phrase_chars status : forallb value_char (reason_phrase status) = true.
Proof.
  unfold reason_phrase. cbv zeta. destruct (find _ _) as [[s r]|] eqn:Hf; [|reflexivity].
  apply find_some in Hf as [Hin _]. cbn [snd].
  repeat (destruct Hin as [[= <- <-]|Hin]; [by vm_compute|]). done.
Qed.

(** A client reads back the status line, the body and hardened headers. *)
Definition framed (bytes : list Z) (status : Z) (body : list Z) : Prop :=
  ∃ headers, read_response bytes = Some (status_text status (reason_phrase status), headers, body) ∧
    hardened body headers.

Lemma write_raw_framed status body headers :
  ∃ bytes, _write_raw status body headers = Ok bytes ∧ framed bytes status body.
Proof.
  destruct (merge_headers_ok body headers (base_headers body) (base_headers_ok body)
    (base_headers_hardened body)) as [Hok Hh].
  destruct (read_response_headers status (reason_phrase status) _ body (reason_phrase_chars status) Hok)
    as (bytes & Hw & Hr).
  exists bytes. split; [exact Hw|]. by eexists.
Qed.

Lemma write_error_framed status code bytes :
  _write_error status code = Ok bytes → framed bytes status (error_body code).
Proof.
  unfold _write_error, encode_ascii. case_match; [|done]. cbn [mbind result_bind].
  destruct (write_raw_framed status (error_body code) []) as (b & -> & Hf). by intros [= <-].
Qed.

Lemma write_error_Ok status code :
  forallb is_ascii code = true → ∃ bytes, _write_error status code = Ok bytes.
Proof.
  intros Hc. unfold _write_error, encode_ascii.
  rw (_ : forallb is_ascii (error_body code) = true); [|unfold error_body; by rw !forallb_app Hc].
  cbn [mbind result_bind]. destruct (write_raw_framed status (error_body code) []) as (b & -> & _).
  by exists b.
Qed.

Lemma respond_framed response bytes :
  respond response = Ok bytes →
  framed bytes (os_status response) (os_body response) ∨
  framed bytes 503 (error_body (py "operator_unavailable")).
Proof.
  unfold respond. case_match; [intros ?%write_error_framed; by right|].
  unfold _write_response.
  destruct (write_raw_framed (os_status response) (os_body response) (os_headers response))
    as (b & -> & Hf). intros [= <-]. by left.
Qed.

(** ** What the reader accepts *)
Definition operator_refusals : list Z := [400; 413; 421; 431]%Z.

Lemma read_request_outcome authority port reader :
  outcome (read_refused operator_refusals reader)
    (λ request, ∃ head reader', head_consumed MAX_OPERATOR_HEADER_BYTES MAX_OPERATOR_HEADERS reader (head, reader') ∧
       rh_headers head !! py "host" = Some (expected_host authority port) ∧
       (∀ name, name ∈ [py "transfer-encoding"; py "expect"; py "content-encoding"] →
          rh_headers head !! name = None) ∧
       rh_headers head !! py "content-length" ∈ [None; Some (py "0")] ∧
       or_method request = rh_method head ∧
       or_authorization request = rh_headers head !! py "authorization")
    (_read_request authority port reader).
Proof.
  assert (Href : ∀ status code, status ∈ operator_refusals → forallb value_char code = true →
    read_refused operator_refusals reader (RequestError status code)) by (intros; left; by eexists _, _).
  unfold _read_request.
  eapply outcome_bind; [by apply read_head_returns; apply (bool_decide_unpack _)|].
  intros [head reader'] Hhead.
  eapply outcome_bind; [by apply check_host_returns, (bool_decide_unpack _)|]. intros [] Hhost.
  eapply outcome_bind; [by apply outcome_raise_if, Href; [apply (bool_decide_unpack _)|]|].
  intros [] Hno.
  eapply outcome_bind; [by apply outcome_raise_if, Href; [apply (bool_decide_unpack _)|]|].
  intros [] Hcl. destruct (partition 63 (rh_target head)) as [path query]. cbn [outcome].
  exists head, reader'. split_and!; try done.
  - intros name Hin. apply eq_None_not_Some. intros Hs. revert Hno. apply not_false_iff_true.
    apply existsb_exists. exists name. split; [by apply list_elem_of_In|by apply bool_decide_eq_true].
  - destruct (rh_headers head !! py "content-length") as [cl|]; [|by left].
    apply negb_false_iff, bool_decide_eq_true in Hcl as ->. right. by left.
Qed.

(** ** The requests of a client *)
Definition client_headers (listener : TLSListenerConfiguration) (token : pystr) : list (pystr * pystr) :=
  [(py "Host", expected_host (tc_authority listener) (tc_port listener)); (py "Authorization", token)].

Definition split_target (target : pystr) : pystr * pystr :=
  let '(path, query) := partition 63 target in (path, default [] query).

(** A client's GET request is read as sent. *)
Lemma read_client_request listener token target rest eof :
  tls_listener_ok listener → value_ok token = true → length token ≤ 4096 →
  forallb word_char target = true → length target ≤ 512 →
  _read_request (tc_authority listener) (tc_port listener)
    (mkStreamReader (request_head (py "GET") target (client_headers listener token) ++ rest) eof)
  = Ok (mkOperatorRequest (py "GET") (split_target target).1 (Some token) (split_target target).2).
Proof.
  intros Hl Htok Hlen Htarget Htl. destruct (expected_host_ok listener Hl) as [Hv Hhl].
  unfold _read_request, client_headers in *.
  revert Hv Hhl. set (host := expected_host _ _). intros Hv Hhl.
  rw read_head_request //; cycle 1.
  - cbn [forallb]. unfold header_ok. cbn [fst snd]. by rw Hv Htok.
  - by apply (bool_decide_unpack _); vm_compute.
  - unfold request_head, request_line. rw !fmap_cons. cbn [join_crlf]. unfold header_text. cbn [fst snd].
    rw !length_app.
    repeat match goal with |- context [length (py ?s)] => let n := eval vm_compute in (length (py s)) in
      change (length (py s)) with n end.
    change (length CRLF) with 2. change (length (header_text <$> [])) with 0.
    unfold MAX_OPERATOR_HEADER_BYTES. cbn [fmap list_fmap length] in *. lia.
  - cbn [mbind result_bind rh_headers rh_target rh_method]. fold host.
    set (headers := list_to_map _).
    assert (Hh : headers !! py "host" = Some host) by reflexivity.
    assert (Ha : headers !! py "authorization" = Some token) by reflexivity.
    assert (Hno : ∀ k, k ∉ [py "host"; py "authorization"] → headers !! k = None).
    { intros k Hk. apply not_elem_of_list_to_map_1. exact Hk. }
    unfold check_host. fold host. rw Hh bool_decide_true //. cbn [negb raise_if mbind result_bind].
    cbn [existsb].
    rw (Hno (py "transfer-encoding")) ?(Hno (py "expect")) ?(Hno (py "content-encoding"))
      ?(Hno (py "content-length")); [|by apply (bool_decide_unpack _); vm_compute..].
    rw !(bool_decide_eq_false_2 (is_Some None)); [|by intros []].
    cbn [orb raise_if mbind result_bind]. rw Ha. unfold split_target. by destruct (partition 63 target).
Qed.
