(* ===== verification/OperatorWire.v ===== *)
(** * The operator console over the wire

[OperatorTLSListener] ([operator_listener.py]), [OperatorApplication]
([operator_api.py]), [MTLSOperatorSessionVerifier] ([operator_verifier.py]) and
[PostgresControlPlane] ([persistence.py]) together: from the bytes of a connection to
the bytes of its response. *)
From stdpp Require Import prelude strings gmap sorting pretty ssreflect.
From S2P Require Import Prelude Uuid PyTime Sha256 Json Text JsonLoads JsonProofs UuidText Domain Codec CodecTheorems AgentApi Http Net Configuration Enrollment IssuerClient Views OperatorApi OperatorVerifier.
From S2P Require Import ControlPlane Paging Database Persistence PersistenceProofs PersistenceInvariant PersistenceRefinement PersistenceTheorems PersistenceBehaviour PersistenceCalls OperatorExchange OperatorBrowse.
From S2P Require Import RateLimit Admission Connection OperatorListener.

Set Warnings "-clear-no-such-hyp".

(** The verifier the application is given. *)
Definition session_verifier (printable : Z → bool) (fromisoformat : pystr → option datetime)
    (depth : nat) (configuration : ClientConfiguration)
    (exchange : list (pystr * pystr) → result session_response) : OperatorSessionVerifier :=
  λ authorization now,
    principal ← verify printable fromisoformat depth configuration exchange authorization now;
    Ok (Some principal).

Section wire.
Context (printable : Z → bool) (fromisoformat : pystr → option datetime) (depth : nat).
Context (verifier : ClientConfiguration) (exchange : list (pystr * pystr) → result session_response).
Context (policy : OperatorAuthorizationPolicy) (listener : TLSListenerConfiguration).

Definition sessions : OperatorSessionVerifier :=
  session_verifier printable fromisoformat depth verifier exchange.

(** The listener over the application over PostgreSQL. *)
Definition console (started : bool) (c : Connection) (l : Listener) (w : world Pg)
    : Listener * world Pg * Exchange :=
  handle_transport (OperatorApi.handle printable sessions policy) listener started c l w.

(** A page disclosed: the request named a credential, the identity provider vouched for
it with an accepted response, its principal satisfies the policy now, and the events
[events] record the accepted authentication and the accepted read. *)
Definition disclosed (c : Connection) (events : list AuditEvent) (body : list Z) : Prop :=
  ∃ request authorization response p now corr,
    _read_request (tc_authority listener) (tc_port listener) (cn_reader c) = Ok request ∧
    or_authorization request = Some authorization ∧
    exchange (session_headers verifier authorization) = Ok response ∧
    accepted_session printable fromisoformat depth response p ∧
    astimezone_utc (cn_received_at c) = Ok now ∧ authorized policy p now ∧
    answered sessions policy request now corr events (_html body).

Lemma sessions_verified authorization now p :
  session_transport exchange → aware now = true → sessions authorization now = Ok (Some p) →
  ∃ r, exchange (session_headers verifier authorization) = Ok r ∧
    accepted_session printable fromisoformat depth r p.
Proof using Type.
  intros Htr Hnow. unfold sessions, session_verifier.
  pose proof (verify_outcome printable fromisoformat depth verifier exchange authorization now Htr Hnow) as Ho.
  destruct (verify _ _ _ _ _ _ _) as [q|e]; [|done]. intros [= ->]. by destruct Ho as (_ & _ & _ & Hr).
Qed.

Lemma aware_utc_of d now : astimezone_utc d = Ok now → aware now = true.
Proof using Type. by intros [_ ->]%astimezone_utc_Ok. Qed.

(** What one answer of the application means for the bytes of its body. *)
Lemma answered_disclosed c request now corr events response :
  session_transport exchange →
  _read_request (tc_authority listener) (tc_port listener) (cn_reader c) = Ok request →
  astimezone_utc (cn_received_at c) = Ok now →
  answered sessions policy request now corr events response →
  (∃ status code, response = _error status code) ∨
  (os_status response = 200%Z ∧ disclosed c events (os_body response)).
Proof using Type.
  intros Htr Hread Hnow Ha. pose proof Ha as Ha'. destruct Ha'; [left; by eauto..|]. right. split; [done|].
  destruct H as (a0 & Haz & Hv).
  destruct (sessions_verified a0 now p Htr (aware_utc_of _ _ Hnow) Hv) as (r & Hex & Hacc).
  by exists request, a0, r, p, now, corr.
Qed.
End wire.


(** ** A page served *)

(** The target of a page, as the links of the console write it. *)
Definition page_target (after : option uuid) : pystr :=
  match after with
  | None => py "/endpoints"
  | Some u => py "/endpoints?after=" ++ uuid_str u
  end.

Lemma page_target_words after :
  forallb word_char (page_target after) = true ∧ length (page_target after) ≤ 53.
Proof.
  destruct after as [u|]; [|split; [by vm_compute|apply (bool_decide_unpack _); by vm_compute]].
  unfold page_target. rw forallb_app length_app length_uuid_str. split.
  - rw (_ : forallb word_char (py "/endpoints?after=") = true); [|by vm_compute]. cbn [andb].
    eapply forallb_mono; [|apply uuid_str_chars].
    unfold uuid_char, is_lower_hex, word_char, is_ascii. lia.
  - change (length (py "/endpoints?after=")) with 17. lia.
Qed.

Lemma split_page_target after : split_target (page_target after) = (py "/endpoints", after_query after).
Proof.
  destruct after as [u|]; [|by vm_compute]. unfold split_target, page_target, after_query.
  change (py "/endpoints?after=" ++ uuid_str u) with (py "/endpoints" ++ 63%Z :: py "after=" ++ uuid_str u).
  rw partition_at; [done|]. by apply (bool_decide_unpack _); vm_compute.
Qed.

Lemma token_length token : authorization_length_ok (Some token) = Some token → length token ≤ 4096.
Proof.
  unfold authorization_length_ok. cbn [mbind option_bind]. unfold str_len, MAX_AUTHORIZATION_HEADER_BYTES.
  destruct (_ && _)%Z eqn:Hl; [|done]. intros _. lia.
Qed.

(** C18: an authorized operator is served over the wire. When a valid listener admits a
connection that sends the request for a page of the endpoint list with a credential
the verifier accepts for an operator of the policy, the connection writes exactly one
response: status 200 with the security headers, and in its body the page of the
hundred endpoints after the cursor, as the database holds them, within the size limit.
Both slots are back, and the database has only recorded the access. *)
Theorem operator_page_served printable verify policy listener c l limiter token p t w l1 l2 rest eof :
  OperatorListenerConfiguration_post_init listener = Ok tt →
  listener_wf operator_requests operator_handshakes l →
  admitted operator_allow operator_requests operator_handshakes c l limiter →
  cn_reader c = mkStreamReader (request_head (py "GET") (page_target (cursor_of l1))
                                  (client_headers listener token) ++ rest) eof →
  value_ok token = true → session printable verify policy token (cn_received_at c) p t →
  (∀ c, is_surrogate c = true → printable c = false) →
  settled w → db_wf (dbof w) → draws_fresh 3 w → (∀ e, e ∈ endpoints_of (dbof w) → encodable e) →
  py_sorted endpoint_id_leb (endpoints_of (dbof w)) = l1 ++ l2 →
  let page := utf8 (shown (dbof w) t (take 100 l2) (next_cursor l2)) in
  (Z.of_nat (length page) ≤ MAX_OPERATOR_RESPONSE_BYTES)%Z →
  ∃ w' bytes,
    handle_transport (OperatorApi.handle printable verify policy) listener true c l w
      = (mkListener limiter (ls_slots l) (ls_handshakes l), w', mkExchange [bytes] Returned false) ∧
    framed bytes 200 page ∧ after_request w w'.
Proof.
  intros Hcfg%listener_checks_ok Hwf Had Hreader Htok Hsess Hsur Hs Hdb Hfr Henc Hsorted page Hlen.
  destruct (list_request_run printable Hsur verify policy token (cn_received_at c) p t w l1 l2 Hsess Hs Hdb
    Hfr Henc Hsorted) as (w' & Hrun & Hafter).
  destruct (write_raw_framed 200 page (os_headers (_html page))) as (bytes & Hw & Hf).
  exists w', bytes. split; [|done]. unfold handle_transport.
  eapply handle_transport_admitted; [exact Hwf|exact Had| |exact Hrun|].
  - rw Hreader. destruct (page_target_words (cursor_of l1)) as [Hwords Htl].
    rw read_client_request //; [|by apply token_length, Hsess|lia]. by rw split_page_target.
  - unfold respond. change (os_body (_html (utf8 _))) with page. rw (proj2 (Z.ltb_ge _ _) Hlen). exact Hw.
Qed.

Module WireSample.
Definition listener : TLSListenerConfiguration :=
  mkTLSListenerConfiguration (py "10.1.2.3") 8443 (py "ops.example") (py "/c") (py "/k")
    (Finite (QArith_base.inject_Z 10)).
Definition principal : OperatorPrincipal := OperatorSample.principal true.
Definition fromiso (s : pystr) : option datetime :=
  if bool_decide (s = isoformat (PgSample.at_ 0)) then Some (PgSample.at_ 0)
  else if bool_decide (s = isoformat (PgSample.at_ 600)) then Some (PgSample.at_ 600) else None.
Definition token : pystr := py "Bearer good".
(** An identity provider that knows one credential. *)
Definition exchange : list (pystr * pystr) → result session_response :=
  one_session (session_headers VerifierSample.configuration token)
    (json_dumps false (principal_document principal)).
Definition connection : Connection :=
  mkConnection (Some (py "10.9.9.9")) (Ok tt) 0
    (mkStreamReader (request_head (py "GET") (page_target None) (client_headers listener token)) false)
    (PgSample.at_ 30) Uninterrupted (Ok tt).
Definition idle_listener : Listener := new_listener operator_requests operator_handshakes.
Definition verify : OperatorSessionVerifier :=
  sessions (λ _, false) fromiso 2 VerifierSample.configuration exchange.
Definition run : Listener * world Pg * Exchange :=
  console (λ _, false) fromiso 2 VerifierSample.configuration exchange OperatorSample.policy listener
    true connection idle_listener BrowseSample.w.

Lemma console_transport : session_transport exchange.
Proof. apply one_session_transport. Qed.
Lemma operator_idle_wf : listener_wf operator_requests operator_handshakes idle_listener.
Proof. split; (split; [vm_compute; split; discriminate|apply map_Forall_empty]). Qed.
Lemma operator_admits :
  admitted operator_allow operator_requests operator_handshakes connection idle_listener
    (ls_limiter run.1.1).
Proof.
  split; [|reflexivity..]. eexists _, _, _, _. split; [reflexivity|]. split; [vm_compute; reflexivity|].
  split; [vm_compute; reflexivity|]. split; vm_compute; reflexivity.
Qed.
Lemma wire_session :
  session (λ _, false) verify OperatorSample.policy token (PgSample.at_ 30) principal
    (instant (PgSample.at_ 30)).
Proof.
  split; [vm_compute; reflexivity..| |].
  - eapply (principal_post_init_Ok _ principal). vm_compute. reflexivity.
  - apply authorization_denial_None. vm_compute. reflexivity.
Qed.
(** The status line of the one response. *)
Example page_served_status :
  (λ bytes, fst <$> (fst <$> read_response bytes)) <$> ex_written run.2 = [Some (py "HTTP/1.1 200 OK")].
Proof. vm_compute. reflexivity. Qed.
End WireSample.


Lemma operator_page_served_witness :
  ∃ w' bytes, handle_transport
      (OperatorApi.handle (λ _, false) WireSample.verify OperatorSample.policy) WireSample.listener true
      WireSample.connection WireSample.idle_listener BrowseSample.w
    = (mkListener (ls_limiter WireSample.run.1.1) (ls_slots WireSample.idle_listener)
         (ls_handshakes WireSample.idle_listener), w', mkExchange [bytes] Returned false).
Proof.
  destruct (operator_page_served (λ _, false) WireSample.verify OperatorSample.policy WireSample.listener
    WireSample.connection WireSample.idle_listener (ls_limiter WireSample.run.1.1) WireSample.token
    WireSample.principal (instant (PgSample.at_ 30)) BrowseSample.w []
    (py_sorted endpoint_id_leb (endpoints_of (dbof BrowseSample.w))) [] false) as (w' & bytes & Hrun & _).
  - vm_compute. reflexivity.
  - exact WireSample.operator_idle_wf.
  - exact WireSample.operator_admits.
  - unfold WireSample.connection. cbn [cn_reader cursor_of]. by rw app_nil_r.
  - vm_compute. reflexivity.
  - exact WireSample.wire_session.
  - reflexivity.
  - exact BrowseSample.sample_settled.
  - exact BrowseSample.sample_wf.
  - destruct BrowseSample.sample_draws as [Hd Hf]. split; [|intros i Hi; apply Hf; lia].
    intros i j Hi Hj. apply Hd; lia.
  - exact BrowseSample.sample_encodable.
  - reflexivity.
  - vm_compute. discriminate.
  - by exists w', bytes.
Defined.
