(* ===== verification/EnrollmentListener.v ===== *)
(** * The enrollment listener ([src/src/northgate_rmm/enrollment_listener.py])

The request reader, the response writer and the connection handler of
[EnrollmentTLSListener]. *)
From stdpp Require Import prelude strings gmap sorting pretty ssreflect.
From S2P Require Import Prelude Uuid PyTime Json Text JsonLoads JsonProofs Domain Codec CodecTheorems AgentApi Http Net Configuration Certificates Enrollment RateLimit Admission Connection.

Set Warnings "-clear-no-such-hyp".

Definition MAX_ENROLLMENT_HEADER_BYTES : Z := 2048.
Definition MAX_ENROLLMENT_HEADERS : Z := 24.

(** ** Reading *)
Definition _read_request (authority : pystr) (port : Z) (reader : StreamReader)
    : result EnrollmentRequest :=
  '(head, reader') ← read_head MAX_ENROLLMENT_HEADER_BYTES MAX_ENROLLMENT_HEADERS reader;
  let headers := rh_headers head in
  check_host authority port headers;;
  raise_if (bool_decide (is_Some (headers !! py "transfer-encoding"))
            || bool_decide (is_Some (headers !! py "expect"))) invalid_request;;
  let required := RequestError 411 (py "length_required") in
  match headers !! py "content-length" with
  | None => Raise required
  | Some content_length =>
    raise_if (str_empty content_length || negb (forallb is_digit content_length)) required;;
    let length_ := digits_value content_length in
    raise_if (MAX_ENROLLMENT_BODY_BYTES <? length_)%Z (RequestError 413 (py "request_too_large"));;
    '(body, _) ← readexactly length_ reader';
    Ok (mkEnrollmentRequest (rh_method head) (rh_target head) (headers !! py "content-type")
          (headers !! py "content-encoding") body)
  end.

(** ** Writing *)
Definition reason_phrase (status : Z) : pystr :=
  let table : list (Z * string) :=
    [(201, "Created"); (400, "Bad Request"); (403, "Forbidden"); (404, "Not Found");
     (405, "Method Not Allowed"); (408, "Request Timeout"); (411, "Length Required");
     (413, "Content Too Large"); (415, "Unsupported Media Type"); (421, "Misdirected Request");
     (429, "Too Many Requests"); (431, "Request Header Fields Too Large");
     (503, "Service Unavailable")]%Z in
  match find (λ e, (e.1 =? status)%Z) table with Some e => py e.2 | None => py "Error" end.

Definition base_headers (body : list Z) : list (pystr * pystr) :=
  [(py "content-type", py "application/json");
   (py "cache-control", py "no-store");
   (py "x-content-type-options", py "nosniff");
   (py "connection", py "close");
   (py "content-length", int_str (Z.of_nat (length body)))].

Fixpoint set_headers (headers output_headers : list (pystr * pystr)) : list (pystr * pystr) :=
  match headers with
  | [] => output_headers
  | (name, value) :: rest => set_headers rest (dict_set (ascii_lower name) value output_headers)
  end.

Definition _write_raw (status : Z) (body : list Z) (headers : list (pystr * pystr))
    : result (list Z) :=
  write_head status (reason_phrase status) (set_headers headers (base_headers body)) body.

Definition _write_error (status : Z) (code : pystr) : result (list Z) :=
  body ← encode_ascii (error_body code); _write_raw status body [].

Definition _write_response (response : EnrollmentResponse) : result (list Z) :=
  _write_raw (ers_status response) (ers_body response) (ers_headers response).

(** ** The listener *)
Section listener.
Context {W : Type} (operation : EnrollmentRequest → datetime → M W EnrollmentResponse).

(** [EnrollmentTLSListener._handle_transport] and [._handle_connection]; there is no
[except Exception]. *)
Definition handle_transport (configuration : TLSListenerConfiguration)
    : bool → Connection → Listener → W → Listener * W * Exchange :=
  _handle_transport enrollment_allow enrollment_requests enrollment_handshakes "enrollment_busy"
    (_read_request (tc_authority configuration) (tc_port configuration))
    operation _write_response _write_error None.

Definition handle_connection (configuration : TLSListenerConfiguration)
    : Connection → Listener → W → Listener * W * Exchange :=
  _handle_connection enrollment_allow enrollment_requests "enrollment_busy"
    (_read_request (tc_authority configuration) (tc_port configuration))
    operation _write_response _write_error None.
End listener.

(** ** What the reader accepts *)
Definition enrollment_refusals : list Z := [400; 411; 413; 421; 431]%Z.

Lemma read_enrollment_outcome authority port reader :
  outcome (read_refused enrollment_refusals reader)
    (λ request, ∃ head reader' declared,
       head_consumed MAX_ENROLLMENT_HEADER_BYTES MAX_ENROLLMENT_HEADERS reader (head, reader') ∧
       rh_headers head !! py "host" = Some (expected_host authority port) ∧
       rh_headers head !! py "transfer-encoding" = None ∧ rh_headers head !! py "expect" = None ∧
       rh_headers head !! py "content-length" = Some declared ∧
       Z.of_nat (length (eq_body request)) = digits_value declared ∧
       (Z.of_nat (length (eq_body request)) ≤ MAX_ENROLLMENT_BODY_BYTES)%Z ∧
       eq_body request `prefix_of` sr_bytes reader')
    (_read_request authority port reader).
Proof.
  assert (Href : ∀ status code, status ∈ enrollment_refusals → forallb value_char code = true →
    read_refused enrollment_refusals reader (RequestError status code)) by (intros; left; by eexists _, _).
  unfold _read_request.
  eapply outcome_bind; [by apply read_head_returns; apply (bool_decide_unpack _)|].
  intros [head reader'] Hhead.
  eapply outcome_bind; [by apply check_host_returns, (bool_decide_unpack _)|]. intros [] Hhost.
  eapply outcome_bind; [by apply outcome_raise_if, Href; [apply (bool_decide_unpack _)|]|].
  intros [] [Hte%bool_decide_eq_false Hex%bool_decide_eq_false]%orb_false_iff. cbv zeta.
  destruct (rh_headers head !! py "content-length") as [declared|] eqn:Hcl;
    [|apply Href; [by apply (bool_decide_unpack _)|done]].
  eapply outcome_bind; [by apply outcome_raise_if, Href; [apply (bool_decide_unpack _)|]|].
  intros [] [_ Hdig%negb_false_iff]%orb_false_iff.
  eapply outcome_bind; [by apply outcome_raise_if, Href; [apply (bool_decide_unpack _)|]|].
  intros [] Hmax%Z.ltb_ge.
  pose proof (digits_value_nonneg declared Hdig) as Hnn.
  unfold readexactly. case_match eqn:Hle.
  - cbn [mbind result_bind outcome]. exists head, reader', declared.
    assert (Hlen : Z.of_nat (length (take (Z.to_nat (digits_value declared)) (sr_bytes reader')))
      = digits_value declared) by (rw length_take; lia).
    cbn [eq_body]. split_and!; try done; [by apply eq_None_not_Some..|lia|apply prefix_take].
  - destruct Hhead as (_ & Heof & _). cbn [snd] in Heof.
    destruct (sr_eof reader') eqn:He; cbn [mbind result_bind outcome].
    + apply Href; [by apply (bool_decide_unpack _)|done].
    + right. by rw -Heof.
Qed.

(** ** What the writer produces *)

(** The headers of the enrollment application. *)
Definition plain_headers (headers : list (pystr * pystr)) : Prop :=
  Forall (λ h, h ∈ [(py "content-type", py "application/json"); (py "cache-control", py "no-store");
                    (py "allow", py "POST")]) headers.

Record enrollment_framing (body : list Z) (headers : gmap pystr pystr) : Prop := {
  ef_type : headers !! py "content-type" = Some (py "application/json");
  ef_cache : headers !! py "cache-control" = Some (py "no-store");
  ef_sniff : headers !! py "x-content-type-options" = Some (py "nosniff");
  ef_close : headers !! py "connection" = Some (py "close");
  ef_length : headers !! py "content-length" = Some (int_str (Z.of_nat (length body)));
}.

Lemma base_headers_fine body :
  headers_ok (base_headers body) ∧ enrollment_framing body (list_to_map (base_headers body)).
Proof.
  split; [|split; reflexivity].
  unfold base_headers. pose proof (int_str_value (Z.of_nat (length body)) ltac:(lia)) as Hv.
  revert Hv. generalize (int_str (Z.of_nat (length body))). intros n Hv.
  split; [|by apply (bool_decide_unpack _); vm_compute].
  repeat (apply Forall_cons; split; [split; [|by vm_compute]|]); [by vm_compute..| |by constructor].
  unfold header_ok. cbn [fst snd]. by rw Hv.
Qed.

Lemma set_headers_fine body headers output :
  plain_headers headers → headers_ok output → enrollment_framing body (list_to_map output) →
  headers_ok (set_headers headers output) ∧ enrollment_framing body (list_to_map (set_headers headers output)).
Proof.
  intros Hp. revert output. induction Hp as [|[name value] headers Hh Hp IH]; intros output Hok Hf; [done|].
  cbn [set_headers].
  assert (Hcase : ascii_lower name = name ∧ header_ok (name, value) = true ∧
    enrollment_framing body (<[name := value]> (list_to_map output))).
  { destruct Hf as [? ? ? ? ?]. rw !elem_of_cons elem_of_nil in Hh.
    destruct Hh as [[= -> ->]|[[= -> ->]|[[= -> ->]|[]]]]; (split; [by vm_compute|]; split; [by vm_compute|]);
      split; first [exact (lookup_insert_eq _ _ _) | rw lookup_insert_ne; [done|by apply (bool_decide_unpack _); vm_compute]]. }
  destruct Hcase as (Hl & Hv & Hf'). rw Hl. apply IH; [by apply headers_ok_set|]. by rw list_to_map_dict_set.
Qed.

Lemma reason_phrase_valid status : forallb value_char (reason_phrase status) = true.
Proof.
  unfold reason_phrase. cbv zeta. destruct (find _ _) as [[s r]|] eqn:Hf; [|reflexivity].
  apply find_some in Hf as [Hin _]. cbn [snd].
  repeat (destruct Hin as [[= <- <-]|Hin]; [by vm_compute|]). done.
Qed.

Definition enrollment_framed (bytes : list Z) (status : Z) (body : list Z) : Prop :=
  ∃ headers, read_response bytes = Some (status_text status (reason_phrase status), headers, body) ∧
    enrollment_framing body headers.

Lemma write_raw_fine status body headers :
  plain_headers headers →
  ∃ bytes, _write_raw status body headers = Ok bytes ∧ enrollment_framed bytes status body.
Proof.
  intros Hp. destruct (base_headers_fine body) as [Hb1 Hb2].
  destruct (set_headers_fine body headers (base_headers body) Hp Hb1 Hb2) as [Hok Hh].
  destruct (read_response_headers status (reason_phrase status) _ body (reason_phrase_valid status) Hok)
    as (bytes & Hw & Hr).
  exists bytes. split; [exact Hw|]. by eexists.
Qed.

Lemma write_error_fine status code bytes :
  _write_error status code = Ok bytes → enrollment_framed bytes status (error_body code).
Proof.
  unfold _write_error, encode_ascii. case_match; [|done]. cbn [mbind result_bind].
  destruct (write_raw_fine status (error_body code) []) as (b & -> & Hf); [constructor|]. by intros [= <-].
Qed.

(** ** A client's request is read as sent *)
Definition enrollment_client_headers (listener : TLSListenerConfiguration) (body : list Z)
    : list (pystr * pystr) :=
  [(py "Host", expected_host (tc_authority listener) (tc_port listener));
   (py "Content-Type", py "application/json");
   (py "Content-Length", int_str (Z.of_nat (length body)))].

Lemma read_client_enrollment listener body rest eof :
  tls_listener_ok listener → (Z.of_nat (length body) ≤ MAX_ENROLLMENT_BODY_BYTES)%Z →
  _read_request (tc_authority listener) (tc_port listener)
    (mkStreamReader (request_head (py "POST") ENROLLMENT_PATH (enrollment_client_headers listener body)
                     ++ body ++ rest) eof)
  = Ok (mkEnrollmentRequest (py "POST") ENROLLMENT_PATH (Some (py "application/json")) None body).
Proof.
  intros Hl Hlen. destruct (expected_host_ok listener Hl) as [Hv Hhl].
  unfold _read_request, enrollment_client_headers in *.
  revert Hv Hhl. set (host := expected_host _ _). intros Hv Hhl.
  destruct (int_str_digits (Z.of_nat (length body)) ltac:(lia)) as (Hdig & Hval & Hne).
  pose proof (int_str_value (Z.of_nat (length body)) ltac:(lia)) as Hnv.
  pose proof (int_str_length (Z.of_nat (length body)) 5 ltac:(unfold MAX_ENROLLMENT_BODY_BYTES in Hlen; lia) ltac:(lia)) as Hnl.
  revert Hdig Hval Hne Hnv Hnl. set (n := int_str _). intros Hdig Hval Hne Hnv Hnl.
  rw read_head_request //; cycle 1.
  - cbn [forallb]. unfold header_ok. cbn [fst snd]. by rw Hv Hnv.
  - by apply (bool_decide_unpack _); vm_compute.
  - unfold request_head, request_line. rw !fmap_cons. cbn [join_crlf]. unfold header_text. cbn [fst snd].
    rw !length_app. unfold ENROLLMENT_PATH.
    repeat match goal with |- context [length (py ?s)] => let k := eval vm_compute in (length (py s)) in
      change (length (py s)) with k end.
    change (length CRLF) with 2. unfold MAX_ENROLLMENT_HEADER_BYTES. cbn [fmap list_fmap length] in *. lia.
  - cbn [mbind result_bind rh_headers rh_target rh_method].
    set (headers := list_to_map _).
    assert (Hh : headers !! py "host" = Some host) by reflexivity.
    assert (Ht : headers !! py "content-type" = Some (py "application/json")) by reflexivity.
    assert (Hc : headers !! py "content-length" = Some n) by reflexivity.
    assert (Hno : ∀ k, k ∉ [py "host"; py "content-type"; py "content-length"] → headers !! k = None).
    { intros k Hk. apply not_elem_of_list_to_map_1. exact Hk. }
    unfold check_host. fold host. rw Hh (bool_decide_eq_true_2 (Some host = Some host) eq_refl).
    cbn [negb raise_if mbind result_bind].
    rw (Hno (py "transfer-encoding")) ?(Hno (py "expect")) ?(Hno (py "content-encoding"));
      [|by apply (bool_decide_unpack _); vm_compute..].
    rw !(bool_decide_eq_false_2 (is_Some None)); [|by intros []].
    cbn [orb raise_if mbind result_bind]. rw Hc Hdig Hval.
    rw (_ : str_empty n || negb true = false); [|by destruct n].
    cbn [raise_if mbind result_bind]. rw (proj2 (Z.ltb_ge _ _) Hlen). cbn [raise_if mbind result_bind].
    unfold readexactly. cbn [sr_bytes sr_eof]. rw length_app (proj2 (Z.leb_le _ _)); [|lia].
    cbn [mbind result_bind]. by rw Nat2Z.id take_app_length Ht.
Qed.
