(* ===== verification/EnrollmentWire.v ===== *)
(** * Enrollment over the wire

[EnrollmentTLSListener] ([enrollment_listener.py]), [EnrollmentApplication] and
[EnrollmentService] ([enrollment.py]) and [PostgresControlPlane] ([persistence.py])
together: from the bytes of a connection to the bytes of its response. *)
From stdpp Require Import prelude strings gmap sorting pretty ssreflect.
From S2P Require Import Prelude Uuid PyTime Sha256 Json Text Base64 JsonLoads JsonProofs UuidText Domain Codec CodecTheorems AgentApi Http Net Configuration Certificates Enrollment.
From S2P Require Import ControlPlane Database Persistence PersistenceProofs PersistenceInvariant PersistenceRefinement PersistenceTheorems PersistenceBehaviour PersistenceCalls EnrollmentExchange.
From S2P Require Import RateLimit Admission Connection Views OperatorApi OperatorListener EnrollmentListener.

Set Warnings "-clear-no-such-hyp".

(** C34: the request readers of both TLS listeners fail closed. Whatever bytes a peer sends,
a reader raises a refusal with a fixed code and one of its listed statuses, or times
out on a stream that is still open; or it returns a request whose head fits the header
limits and names the listener's authority and port in its only Host header, without
transfer coding or expectation. The operator reader accepts no body; the body of an
enrollment request is the bytes that follow its head, exactly as many as the one
Content-Length header declares, within the limit. *)
Theorem listener_readers_fail_closed authority port reader :
  outcome (read_refused operator_refusals reader)
    (λ request, ∃ head reader',
       head_consumed MAX_OPERATOR_HEADER_BYTES MAX_OPERATOR_HEADERS reader (head, reader') ∧
       rh_headers head !! py "host" = Some (expected_host authority port) ∧
       (∀ name, name ∈ [py "transfer-encoding"; py "expect"; py "content-encoding"] →
          rh_headers head !! name = None) ∧
       rh_headers head !! py "content-length" ∈ [None; Some (py "0")] ∧
       or_method request = rh_method head ∧
       or_authorization request = rh_headers head !! py "authorization")
    (OperatorListener._read_request authority port reader) ∧
  outcome (read_refused enrollment_refusals reader)
    (λ request, ∃ head reader' declared,
       head_consumed MAX_ENROLLMENT_HEADER_BYTES MAX_ENROLLMENT_HEADERS reader (head, reader') ∧
       rh_headers head !! py "host" = Some (expected_host authority port) ∧
       rh_headers head !! py "transfer-encoding" = None ∧ rh_headers head !! py "expect" = None ∧
       rh_headers head !! py "content-length" = Some declared ∧
       Z.of_nat (length (eq_body request)) = digits_value declared ∧
       (Z.of_nat (length (eq_body request)) ≤ MAX_ENROLLMENT_BODY_BYTES)%Z ∧
       eq_body request `prefix_of` sr_bytes reader')
    (EnrollmentListener._read_request authority port reader).
Proof. split; [apply read_request_outcome|apply read_enrollment_outcome]. Qed.

Section answers.
Context {library : X509}.

Lemma answer_ret {W A} (a b : A) (w w' : W) : (w, Ok a) = (w', Ok b) → b = a.
Proof. congruence. Qed.

(** The application answers with an error document or a recorded enrollment. *)
Lemma handle_answers depth env request received_at (w w' : world Pg) resp :
  Enrollment.handle depth env request received_at w = (w', Ok resp) →
  plain_headers (ers_headers resp) ∧
  ((ers_status resp ≠ 201%Z ∧ ∃ code, ers_body resp = json_dumps false (JObj [(py "error", JStr (py code))])) ∨
   (ers_status resp = 201%Z ∧ ∃ token csr_der r,
      _decode_enrollment_body depth (eq_body request) = Ok (token, csr_der) ∧
      enrolled_by env token csr_der received_at w' r ∧
      ers_body resp = json_dumps false (enrolled_document r))).
Proof.
  intros Hh. destruct (decide (ers_status resp = 201%Z)) as [H201|Hne].
  - destruct (handle_created _ _ _ _ _ _ _ Hh H201) as (token & csr & r & Hb & Hr & ->).
    split; [by repeat constructor; apply (bool_decide_unpack _)|]. right. split; [done|].
    exists token, csr, r. split; [done|]. split; [by apply enroll_Ok in Hr|done].
  - assert (Herr : ∃ status code allow, resp = _http_error status code allow ∧ (allow = None ∨ allow = Some (py "POST"))).
    { revert Hh. unfold Enrollment.handle.
      repeat (match goal with |- (if ?b then _ else _) _ = _ → _ => destruct b end;
        [intros Hr%answer_ret; rw Hr; eexists _, _, _; split; [reflexivity|by (left + right)]|]).
      unfold except_enrollment. cbv beta. destruct ((lift _ ≫= _) w) as [w1 [r|e]] eqn:Hrun.
      - intros Hr%answer_ret. exfalso. apply Hne. rw Hr. apply lift_bind_Ok_inv in Hrun as ([token csr] & _ & Hrun).
        by apply bind_Ok_inv in Hrun as (w2 & r' & _ & [= <- <-]).
      - destruct e; try done; intros Hr%answer_ret; rw Hr; eexists _, _, _; (split; [reflexivity|by left]). }
    destruct Herr as (status & code & allow & -> & Ha).
    split; [|left; split; [done|]; exists code; by destruct allow].
    destruct Ha as [->| ->]; by repeat constructor; apply (bool_decide_unpack _).
Qed.
End answers.

(** What a response of the listener may carry. *)
Inductive enrollment_body `{X509} (depth : nat) (env : surroundings) (listener : TLSListenerConfiguration)
    (c : Connection) (w' : world Pg) (status : Z) (body : list Z) : Prop :=
| body_refused code : body = error_body code → enrollment_body depth env listener c w' status body
| body_rejected code :
    status ≠ 201%Z → body = json_dumps false (JObj [(py "error", JStr (py code))]) →
    enrollment_body depth env listener c w' status body
| body_enrolled request token csr_der r :
    status = 201%Z →
    _read_request (tc_authority listener) (tc_port listener) (cn_reader c) = Ok request →
    _decode_enrollment_body depth (eq_body request) = Ok (token, csr_der) →
    enrolled_by env token csr_der (cn_received_at c) w' r →
    body = json_dumps false (enrolled_document r) →
    enrollment_body depth env listener c w' status body.


(** C16: enrollment completes over the wire. When a valid listener admits a connection
that sends the canonical enrollment request of a live grant and a valid CSR, on a
database whose next two transactions commit and with an honest issuer, the connection
writes exactly one response: status 201, framed with the fixed headers, carrying that
endpoint, identity and certificate chain; both slots are back. *)
Theorem enrollment_served `{X509} listener c l limiter depth env token csr (w : world Pg) e i fp canonical
    leaf intermediates rest eof :
  EnrollmentListenerConfiguration_post_init listener = Ok tt →
  listener_wf enrollment_requests enrollment_handshakes l →
  admitted enrollment_allow enrollment_requests enrollment_handshakes c l limiter →
  let body := json_dumps false (enrollment_document token csr) in
  cn_reader c = mkStreamReader (request_head (py "POST") ENROLLMENT_PATH
                  (enrollment_client_headers listener body) ++ body ++ rest) eof →
  enrollment_ready w depth env token csr (cn_received_at c) e i fp canonical leaf intermediates →
  ∃ w' bytes,
    EnrollmentListener.handle_transport (Enrollment.handle depth env) listener true c l w
      = (mkListener limiter (ls_slots l) (ls_handshakes l), w', mkExchange [bytes] Returned false) ∧
    enrollment_framed bytes 201 (json_dumps false (enrolled_document (mkEnrollmentResult e i
      (certificate_public_bytes leaf) (certificate_public_bytes <$> intermediates)))).
Proof.
  intros Hcfg%listener_checks_ok Hwf Had body Hreader Hready.
  destruct (handle_ready _ _ _ _ _ _ _ _ _ _ _ _ Hready) as (w' & Hrun).
  set (r := mkEnrollmentResult _ _ _ _) in *.
  destruct (write_raw_fine 201 (json_dumps false (enrolled_document r))
    [(py "content-type", py "application/json"); (py "cache-control", py "no-store")]) as (bytes & Hw & Hf).
  { by repeat constructor; apply (bool_decide_unpack _). }
  exists w', bytes. split; [|exact Hf]. unfold EnrollmentListener.handle_transport.
  eapply handle_transport_admitted; [exact Hwf|exact Had| |exact Hrun|exact Hw].
  rw Hreader read_client_enrollment //. apply Hready.
Qed.

Module EnrollmentWireSample.
Definition listener : TLSListenerConfiguration :=
  mkTLSListenerConfiguration (py "10.1.2.4") 443 (py "enroll.example") (py "/c") (py "/k")
    (Finite (QArith_base.inject_Z 10)).
Definition body : list Z := json_dumps false (enrollment_document PgSample.token EnrollmentSample.csr).
Definition connection : Connection :=
  mkConnection (Some (py "10.9.9.9")) (Ok tt) 0
    (mkStreamReader (request_head (py "POST") ENROLLMENT_PATH (enrollment_client_headers listener body)
                     ++ body) false)
    EnrollmentSample.now Uninterrupted (Ok tt).
Definition idle_listener : Listener := new_listener enrollment_requests enrollment_handshakes.
Definition run : Listener * world Pg * Exchange :=
  EnrollmentListener.handle_transport
    (@Enrollment.handle EnrollmentSample.library _ _ 1 EnrollmentSample.env) listener true connection
    idle_listener PgSample.w1.

Lemma enrollment_idle_wf : listener_wf enrollment_requests enrollment_handshakes idle_listener.
Proof. split; (split; [vm_compute; split; discriminate|apply map_Forall_empty]). Qed.
Lemma enrollment_admits :
  admitted enrollment_allow enrollment_requests enrollment_handshakes connection idle_listener
    (ls_limiter run.1.1).
Proof.
  split; [|reflexivity..]. eexists _, _, _, _. split; [reflexivity|]. split; [vm_compute; reflexivity|].
  split; [vm_compute; reflexivity|]. split; vm_compute; reflexivity.
Qed.
Example enrollment_served_status :
  (λ bytes, fst <$> (fst <$> read_response bytes)) <$> ex_written run.2
    = [Some (py "HTTP/1.1 201 Created")].
Proof. vm_compute. reflexivity. Qed.
End EnrollmentWireSample.


Lemma enrollment_served_witness :
  ∃ w' bytes, EnrollmentListener.handle_transport
      (@Enrollment.handle EnrollmentSample.library _ _ 1 EnrollmentSample.env)
      EnrollmentWireSample.listener true EnrollmentWireSample.connection
      EnrollmentWireSample.idle_listener PgSample.w1
    = (mkListener (ls_limiter EnrollmentWireSample.run.1.1) (ls_slots EnrollmentWireSample.idle_listener)
         (ls_handshakes EnrollmentWireSample.idle_listener), w', mkExchange [bytes] Returned false).
Proof.
  destruct (@enrollment_served EnrollmentSample.library EnrollmentWireSample.listener
    EnrollmentWireSample.connection EnrollmentWireSample.idle_listener
    (ls_limiter EnrollmentWireSample.run.1.1) 1 EnrollmentSample.env PgSample.token EnrollmentSample.csr
    PgSample.w1 (uid 1004) (uid 1005) (@key_fingerprint EnrollmentSample.library tt) [48; 129]%Z tt [] []
    false) as (w' & bytes & Hrun & _).
  - vm_compute. reflexivity.
  - exact EnrollmentWireSample.enrollment_idle_wf.
  - exact EnrollmentWireSample.enrollment_admits.
  - unfold EnrollmentWireSample.connection. cbn [cn_reader]. by rw app_nil_r.
  - exact EnrollmentSample.ready.
  - by exists w', bytes.
Defined.
