(* ===== verification/AgentListener.v ===== *)
(** * The agent listener ([src/src/northgate_rmm/listener.py])

[_AgentTLSAdapter.handle], between aiohttp and the agent message API, with its headers
and its request slots; and [_HardenedRequestHandler], the life of one connection.
aiohttp parses the request: a [WebRequest] is what its request object gives the
adapter, the body with the outcome of reading it. *)
From stdpp Require Import prelude strings gmap sorting pretty ssreflect.
From S2P Require Import Prelude Uuid PyTime Sha256 Json Text JsonLoads JsonProofs UuidText Domain Codec AgentApi Http Certificates RateLimit Admission Connection.

Set Warnings "-clear-no-such-hyp".

(** ** Requests *)

(** [await request.read()]: the body, [HTTPRequestEntityTooLarge], the deadline, a lost
connection or a cancellation. *)
Inductive body_read := BodyRead (body : list Z) | BodyTooLarge | BodyTimeout | BodyInterrupted.

Record WebRequest := mkWebRequest {
  wr_http11 : bool;
  wr_method : pystr;
  wr_raw_path : pystr;
  wr_headers : list (pystr * pystr);
  wr_ssl : option ssl_object;
  wr_body : body_read;
}.

(** Header names compare without case. *)
Definition same_name (a b : pystr) : bool := bool_decide (ascii_lower a = ascii_lower b).

Definition _header_values (request : WebRequest) (name : pystr) : list pystr :=
  snd <$> filter (λ h, same_name h.1 name = true) (wr_headers request).

Definition _single_header (request : WebRequest) (name : pystr) : option pystr :=
  match _header_values request name with [v] => Some v | _ => None end.

(** [str | _DuplicateHeader | None]. *)
Inductive optional_header := NoHeader | DuplicateHeader | OneHeader (value : pystr).
Definition _single_optional_header (request : WebRequest) (name : pystr) : optional_header :=
  match _header_values request name with
  | [] => NoHeader
  | [v] => OneHeader v
  | _ => DuplicateHeader
  end.

(** ** Responses *)
Record WebResponse := mkWebResponse {
  ws_status : Z;
  ws_headers : list (pystr * pystr);
  ws_body : list Z;
  ws_force_close : bool;
}.

(** [headers.setdefault(name, value)], [headers[name] = value] and
[headers.pop(name, None)] of a [CIMultiDict]. *)
Definition has_header (name : pystr) (headers : list (pystr * pystr)) : bool :=
  existsb (λ h, same_name h.1 name) headers.
Definition setdefault (name value : pystr) (headers : list (pystr * pystr)) : list (pystr * pystr) :=
  if has_header name headers then headers else headers ++ [(name, value)].
Definition pop_header (name : pystr) (headers : list (pystr * pystr)) : list (pystr * pystr) :=
  filter (λ h, same_name h.1 name = false) headers.
Fixpoint set_header (name value : pystr) (headers : list (pystr * pystr)) : list (pystr * pystr) :=
  match headers with
  | [] => [(name, value)]
  | (k, v) :: r =>
    if same_name k name then (name, value) :: pop_header name r else (k, v) :: set_header name value r
  end.

Definition _response (status : Z) (body : list Z) (headers : list (pystr * pystr)) : WebResponse :=
  mkWebResponse status
    (set_header (py "X-Content-Type-Options") (py "nosniff")
       (setdefault (py "Cache-Control") (py "no-store")
          (setdefault (py "Content-Type") (py "application/json") headers)))
    body true.

Definition _application_response (result : AgentMessageResponse) : WebResponse :=
  _response (resp_status result) (resp_body result) (resp_headers result).

(** [_prepare_response], which aiohttp runs on a response with its own headers. *)
Definition _prepare_response (response : WebResponse) : WebResponse :=
  mkWebResponse (ws_status response)
    (set_header (py "X-Content-Type-Options") (py "nosniff")
       (pop_header (py "Server") (ws_headers response)))
    (ws_body response) (ws_force_close response).

(** [_HardenedRequestHandler.handle_error]: the response to an exception that escapes the
adapter, and to a request the parser rejects. *)
Definition handle_error (status : Z) : WebResponse :=
  mkWebResponse status
    [(py "Content-Type", py "application/json"); (py "Cache-Control", py "no-store");
     (py "X-Content-Type-Options", py "nosniff")]
    (error_body (py "invalid_request")) true.

(** ** The adapter *)
Abbreviation identity_key := (uuid * pystr)%type.

Record Adapter := mkAdapter {
  ad_limiter : Limiter (K := identity_key);
  ad_slots : Slots (K := identity_key);
}.

Definition new_adapter : Adapter :=
  mkAdapter empty_limiter (mkSlots MAX_CONCURRENT_REQUESTS ∅).

(** How a request ends: a response, a re-raised interruption, or an exception. *)
Inductive agent_outcome := Answer (response : WebResponse) | Interrupted | Failed (e : exn).

Record AgentExchange := mkAgentExchange {
  ax_outcome : agent_outcome;
  ax_detached : bool;
}.

(** The environment of one request: the loop's clock, [datetime.now(UTC)], and what
happens while the operation runs. *)
Record Surroundings := mkSurroundings {
  su_time : Z;
  su_received_at : datetime;
  su_interruption : interruption;
}.

Section adapter.
Context `{X509} {W : Type} `{AgentMessageStore W}.
Context (printable : Z → bool) (fromisoformat : pystr → option datetime) (depth : nat).

(** An error response of the adapter itself. *)
Definition refuse (status : Z) (code : string) : AgentExchange :=
  mkAgentExchange (Answer (_response status (error_body (py code)) [])) false.

Definition agent_request (request : WebRequest) (content_type : pystr)
    (content_encoding : optional_header) (body : list Z) : AgentMessageRequest :=
  mkAgentMessageRequest (wr_method request) (wr_raw_path request) (Some content_type)
    (match content_encoding with OneHeader v => Some v | _ => None end) body.

(** From [body = await request.read()] to the end of the [try], with its [except]
clauses. *)
Definition operate (env : Surroundings) (request : WebRequest) (content_type : pystr)
    (content_encoding : optional_header) (peer : VerifiedClientCertificate) (w : W)
    : W * AgentExchange :=
  match wr_body request with
  | BodyTooLarge => (w, refuse 413 "request_too_large")
  | BodyTimeout => (w, refuse 408 "request_timeout")
  | BodyInterrupted => (w, mkAgentExchange Interrupted false)
  | BodyRead body =>
    let '(w', r) := AgentApi.handle printable fromisoformat depth
      (agent_request request content_type content_encoding body) peer (su_received_at env) w in
    match su_interruption env with
    | DeadlineOperating =>
      (w', mkAgentExchange (Answer (_response 408 (error_body (py "request_timeout")) [])) true)
    | CancelledReading | CancelledOperating => (w', mkAgentExchange Interrupted true)
    | Uninterrupted =>
      match r with
      | Ok result => (w', mkAgentExchange (Answer (_application_response result)) false)
      | Raise TimeoutError => (w', refuse 408 "request_timeout")
      | Raise e => (w', mkAgentExchange (Failed e) false)
      end
    end
  end.

Definition handle (authority : pystr) (env : Surroundings) (request : WebRequest) (s : Adapter) (w : W)
    : Adapter * W * AgentExchange :=
  if negb (wr_http11 request) then (s, w, refuse 505 "http_version_not_supported")
  else if negb (bool_decide (_single_header request (py "Host") = Some authority)) then
    (s, w, refuse 421 "misdirected_request")
  else
    match extract_verified_client_certificate (wr_ssl request) with
    | Raise e =>
      (s, w, if is_ValidationError e then refuse 403 "unauthorized" else mkAgentExchange (Failed e) false)
    | Ok peer =>
      let key := (vc_endpoint_id peer, vc_public_key_fingerprint peer) in
      let '(limiter, allowed) := identity_allow key (su_time env) (ad_limiter s) in
      let s1 := mkAdapter limiter (ad_slots s) in
      if negb allowed then (s1, w, refuse 429 "rate_limited")
      else
        match _single_header request (py "Content-Type"),
              _single_optional_header request (py "Content-Encoding") with
        | None, _ | _, DuplicateHeader => (s1, w, refuse 400 "invalid_headers")
        | Some content_type, content_encoding =>
          match slots_acquire (pool_per agent_requests) key (ad_slots s) with
          | None => (s1, w, refuse 503 "listener_busy")
          | Some slots =>
            let '(w', x) := operate env request content_type content_encoding peer w in
            if ax_detached x then (mkAdapter limiter slots, w', x)
            else
              match slots_release (pool_message agent_requests) key slots with
              | Ok slots' => (mkAdapter limiter slots', w', x)
              | Raise e => (mkAdapter limiter slots, w', mkAgentExchange (Failed e) false)
              end
          end
        end
    end.
End adapter.

(** ** One connection: [_HardenedRequestHandler] *)

(** [pt_messages] counts the parsed requests that wait for the handler, [pt_started]
those it has taken. *)
Record Protocol := mkProtocol {
  pt_admitted : option identity_key;
  pt_header_timeout : bool;
  pt_messages : nat;
  pt_request_count : nat;
  pt_started : nat;
  pt_force_close : bool;
}.

Section protocol.
Context `{X509}.

Definition connection_made (ssl : option ssl_object) (admission : Connections (K := identity_key))
    : result (Protocol * Connections (K := identity_key)) :=
  let closed := mkProtocol None false 0 0 0 true in
  match extract_verified_client_certificate ssl with
  | Raise e => if is_ValidationError e then Ok (closed, admission) else Raise e
  | Ok peer =>
    let key := (vc_endpoint_id peer, vc_public_key_fingerprint peer) in
    match connection_acquire MAX_CONCURRENT_REQUESTS MAX_CONCURRENT_REQUESTS_PER_IDENTITY key admission with
    | None => Ok (closed, admission)
    | Some admission' => Ok (mkProtocol (Some key) true 0 0 0 false, admission')
    end
  end.

(** [data_received] with data that completes [parsed] requests; aiohttp parses nothing
once the connection is being closed. *)
Definition data_received (parsed : nat) (p : Protocol) : Protocol :=
  let parsed := if pt_force_close p then 0 else parsed in
  let count := pt_request_count p + parsed in
  let messages := pt_messages p + parsed in
  if 1 <? count then
    mkProtocol (pt_admitted p) (pt_header_timeout p) 0 count (pt_started p) true
  else
    mkProtocol (pt_admitted p) (if 0 <? messages then false else pt_header_timeout p) messages count
      (pt_started p) (pt_force_close p).

(** The handler task takes the next request. *)
Definition take_message (p : Protocol) : Protocol :=
  match pt_messages p with
  | O => p
  | S n => mkProtocol (pt_admitted p) (pt_header_timeout p) n (pt_request_count p) (S (pt_started p))
             (pt_force_close p)
  end.

(** The timer fires. *)
Definition _expire_incomplete_headers (p : Protocol) : Protocol :=
  if pt_header_timeout p then
    mkProtocol (pt_admitted p) false (pt_messages p) (pt_request_count p) (pt_started p)
      (pt_force_close p || (pt_messages p =? 0))
  else p.

Definition connection_lost (p : Protocol) (admission : Connections (K := identity_key))
    : result (Protocol * Connections (K := identity_key)) :=
  admission' ← match pt_admitted p with
               | None => Ok admission
               | Some key => connection_release key admission
               end;
  Ok (mkProtocol None false (pt_messages p) (pt_request_count p) (pt_started p) (pt_force_close p),
      admission').

Inductive connection_event := DataReceived (parsed : nat) | TakeMessage | HeaderTimeout.
Definition connection_step (p : Protocol) (e : connection_event) : Protocol :=
  match e with
  | DataReceived n => data_received n p
  | TakeMessage => take_message p
  | HeaderTimeout => _expire_incomplete_headers p
  end.
Definition connection_steps (events : list connection_event) (p : Protocol) : Protocol :=
  fold_left connection_step events p.

(** What holds while a connection is open. *)
Record protocol_inv (admitted : option identity_key) (p : Protocol) : Prop := {
  pv_admitted : pt_admitted p = admitted;
  pv_one : pt_messages p + pt_started p ≤ 1;
  pv_count : pt_messages p + pt_started p ≤ pt_request_count p;
  pv_second : 1 < pt_request_count p → pt_messages p = 0 ∧ pt_force_close p = true;
  pv_timer : pt_header_timeout p = true → pt_messages p + pt_started p = 0 ∨ pt_force_close p = true;
  pv_refused : admitted = None → pt_force_close p = true ∧ pt_messages p + pt_started p = 0;
}.

Lemma connection_step_inv admitted p e :
  protocol_inv admitted p → protocol_inv admitted (connection_step p e).
Proof using Type.
  intros [Ha H1 Hc H2 Ht Hr]. destruct p as [a ht m c s fc]. cbn in *. subst a.
  assert (Hr' : admitted = None → fc = true ∧ m = 0 ∧ s = 0) by (intros Hn; destruct (Hr Hn) as [-> ?]; split_and!; [done|lia|lia]).
  destruct e as [n| |]; cbn [connection_step].
  - unfold data_received. cbn [pt_force_close pt_request_count pt_messages pt_admitted pt_header_timeout pt_started].
    destruct fc; [destruct (Nat.ltb_spec 1 (c + 0))|destruct (Nat.ltb_spec 1 (c + n))];
      (split; cbn [pt_force_close pt_request_count pt_messages pt_admitted pt_header_timeout pt_started];
       [done|lia|lia| | |]); try lia; try (by intros; right); try (intros Hn%Hr'; lia).
    destruct (Nat.ltb_spec 0 (m + n)); [done|]. intros Hh. specialize (Ht Hh). lia.
  - unfold take_message. cbn. destruct m as [|m]; [by split|].
    split; cbn; [done|lia|lia| | |].
    + intros Hgt%H2. lia.
    + intros [?|?]%Ht; [lia|by right].
    + intros Hn%Hr'. lia.
  - unfold _expire_incomplete_headers. cbn. destruct ht; [|by split].
    split; cbn; [done|lia|lia| |done|].
    + intros Hgt. destruct (H2 Hgt) as [-> ->]. done.
    + intros Hn%Hr'. destruct Hn as (-> & -> & ->). done.
Qed.

Lemma connection_steps_inv admitted events p :
  protocol_inv admitted p → protocol_inv admitted (connection_steps events p).
Proof using Type.
  revert p. induction events as [|e events IH]; intros p Hp; [done|].
  by apply IH, connection_step_inv.
Qed.

(** The counts of a connection table. *)
Definition admission_wf (c : Connections (K := identity_key)) : Prop :=
  (0 ≤ ca_active c)%Z ∧ map_Forall (λ _ a, (1 ≤ a)%Z) (ca_by_identity c).

Lemma connection_release_acquired maximum per key c c' :
  admission_wf c → connection_acquire maximum per key c = Some c' → connection_release key c' = Ok c.
Proof using Type.
  intros [H0 Hall] Hac. unfold connection_acquire in Hac. cbv zeta in Hac.
  destruct (_ || _)%Z; [done|]. injection Hac as <-. unfold connection_release. cbn [ca_active ca_by_identity].
  cbv zeta. rw lookup_insert_eq (proj2 (Z.ltb_ge (ca_active c + 1) 1)); [|lia].
  cbn [raise_if mbind result_bind].
  destruct (ca_by_identity c !! key) as [a|] eqn:Hk; cbn [from_option id].
  - pose proof (Hall _ _ Hk) as Ha. cbn in Ha. rw (proj2 (Z.eqb_neq (a + 1) 1)); [|lia].
    rw insert_insert_eq (_ : (a + 1 - 1 = a)%Z); [|lia]. rw insert_id //.
    destruct c. cbn. do 2 f_equal. lia.
  - rw (_ : (0 + 1 =? 1)%Z = true) // delete_insert_id //. destruct c. cbn. do 2 f_equal. lia.
Qed.
End protocol.
