(* ===== verification/AgentWire.v ===== *)
(** * The agent listener over PostgreSQL

[_AgentTLSAdapter] and [_HardenedRequestHandler] ([listener.py]), the agent message API
([agent_api.py]) and [PostgresControlPlane] ([persistence.py]) together. *)
From stdpp Require Import prelude strings gmap sorting pretty ssreflect.
From S2P Require Import Prelude Uuid PyTime Sha256 Json Text JsonLoads JsonProofs UuidText Domain Codec CodecTheorems AgentApi Http Certificates Enrollment.
From S2P Require Import ControlPlane Database Persistence PersistenceProofs PersistenceInvariant PersistenceRefinement PersistenceTheorems PersistenceBehaviour PersistenceCalls AgentExchange EnrollmentExchange.
From S2P Require Import Net Configuration RateLimit Admission Connection EnrollmentListener EnrollmentWire AgentListener.

Set Warnings "-clear-no-such-hyp".

(** C35: a connection of the agent listener serves at most one request, and only of an
admitted endpoint. Whatever arrives and whenever the timer fires: the HTTP handler is
given at most one request; it is given one only when the peer presented a TLS 1.3
certificate of the endpoint profile and the connection was admitted under that
endpoint and key, below both connection limits; a second request closes the
connection; while the header timer is armed no request has been taken unless the
connection is being closed; and losing the connection gives exactly its place back. *)
Theorem agent_connection_single_request `{X509} ssl admission p admission' events :
  admission_wf admission → connection_made ssl admission = Ok (p, admission') →
  let p' := connection_steps events p in
  pt_messages p' + pt_started p' ≤ 1 ∧
  (0 < pt_messages p' + pt_started p' → ∃ peer,
     extract_verified_client_certificate ssl = Ok peer ∧
     pt_admitted p' = Some (vc_endpoint_id peer, vc_public_key_fingerprint peer) ∧
     connection_acquire MAX_CONCURRENT_REQUESTS MAX_CONCURRENT_REQUESTS_PER_IDENTITY
       (vc_endpoint_id peer, vc_public_key_fingerprint peer) admission = Some admission') ∧
  (1 < pt_request_count p' → pt_force_close p' = true) ∧
  (pt_header_timeout p' = true → pt_started p' = 0 ∨ pt_force_close p' = true) ∧
  ∃ closed, connection_lost p' admission' = Ok (closed, admission) ∧
    pt_header_timeout closed = false ∧ pt_admitted closed = None.
Proof.
  intros Hwf Hmade p'.
  assert (Hstart : (p = mkProtocol None false 0 0 0 true ∧ admission' = admission) ∨
    ∃ peer, extract_verified_client_certificate ssl = Ok peer ∧
      p = mkProtocol (Some (vc_endpoint_id peer, vc_public_key_fingerprint peer)) true 0 0 0 false ∧
      connection_acquire MAX_CONCURRENT_REQUESTS MAX_CONCURRENT_REQUESTS_PER_IDENTITY
        (vc_endpoint_id peer, vc_public_key_fingerprint peer) admission = Some admission').
  { unfold connection_made in Hmade. destruct (extract_verified_client_certificate ssl) as [peer|e].
    - destruct (connection_acquire _ _ _ _) as [a|] eqn:Hac; injection Hmade as <- <-; [|by left].
      right. by exists peer.
    - destruct (is_ValidationError e); [|done]. injection Hmade as <- <-. by left. }
  destruct Hstart as [[-> ->]|(peer & Hpeer & -> & Hac)].
  - assert (Hinv : protocol_inv None p') by (apply connection_steps_inv; split; cbn; try done; lia).
    destruct Hinv as [Ha H1 _ H2 Ht Hr]. destruct (Hr eq_refl) as [Hfc Hz].
    split_and!; [done|lia|by intros [_ ?]%H2|by intros _; right|]. unfold connection_lost. rw Ha. by eexists.
  - assert (Hinv : protocol_inv (Some (vc_endpoint_id peer, vc_public_key_fingerprint peer)) p')
      by (apply connection_steps_inv; split; cbn; [done|lia|lia|lia|by left|done]).
    destruct Hinv as [Ha H1 _ H2 Ht _]. split_and!; [done|by exists peer|by intros [_ ?]%H2| |].
    + intros [?|?]%Ht; [left; lia|by right].
    + unfold connection_lost. rw Ha (connection_release_acquired _ _ _ _ _ Hwf Hac). by eexists.
Qed.

(** ** The adapter *)

(** The values of a header of the response that is sent. *)
Definition sent_values (response : WebResponse) (name : pystr) : list pystr :=
  snd <$> filter (λ h, same_name h.1 name = true) (ws_headers (_prepare_response response)).

Record agent_hardened (response : WebResponse) : Prop := {
  ah_type : sent_values response (py "Content-Type") = [py "application/json"];
  ah_cache : sent_values response (py "Cache-Control") = [py "no-store"];
  ah_sniff : sent_values response (py "X-Content-Type-Options") = [py "nosniff"];
  ah_server : sent_values response (py "Server") = [];
  ah_close : ws_force_close response = true;
}.

(** The headers of the agent API. *)
Definition agent_headers (headers : list (pystr * pystr)) : Prop :=
  headers = [] ∨ headers = [(py "content-type", py "application/json"); (py "cache-control", py "no-store")] ∨
  headers = [(py "content-type", py "application/json"); (py "cache-control", py "no-store");
             (py "allow", py "POST")].

Lemma response_hardened status body headers :
  agent_headers headers → agent_hardened (_response status body headers).
Proof. by intros [->|[->| ->]]; split. Qed.
Lemma handle_error_hardened status : agent_hardened (handle_error status).
Proof. by split. Qed.

Section answers.
Context {library : X509} {W : Type} `{!AgentMessageStore W} `{!AgentStoreLaws W}.
Context (printable : Z → bool) (fromisoformat : pystr → option datetime) (depth : nat).

Lemma api_headers request peer received (w w' : W) resp :
  AgentApi.handle printable fromisoformat depth request peer received w = (w', Ok resp) →
  agent_headers (resp_headers resp).
Proof using Type.
  assert (Hj : ∀ status v, agent_headers (resp_headers (_json_response status v))) by (intros; by right; left).
  assert (He : ∀ status code, agent_headers (resp_headers (_error_response status code None)))
    by (intros; by right; left).
  unfold AgentApi.handle.
  repeat (match goal with |- (if ?b then _ else _) _ = _ → _ => destruct b end;
    [intros Hr; apply (f_equal snd) in Hr; injection Hr as <-; first [apply He|by right; right]|]).
  unfold except_domain. destruct (process _ _ _ _ _ _ w) as [w1 [r|e]] eqn:Hp.
  - intros [= <- <-]. unfold process, mbind, M_bind, lift in Hp. cbv zeta in Hp.
    repeat case_match; simplify_eq; apply (f_equal snd) in Hp; injection Hp as <-; apply Hj.
  - destruct e; try done; intros [= <- <-]; apply He.
Qed.

(** What an acknowledgement means for the request that got it. *)
Definition acknowledged (authority : pystr) (request : WebRequest) (w w' : W) (response : WebResponse) : Prop :=
  wr_http11 request = true ∧ _header_values request (py "Host") = [authority] ∧
  ∃ peer body m aid,
    extract_verified_client_certificate (wr_ssl request) = Ok peer ∧ wr_body request = BodyRead body ∧
    decode_message printable fromisoformat depth body = Ok m ∧
    authenticated w (vc_endpoint_id peer) (vc_public_key_fingerprint peer) aid ∧
    holds w' (envelope_of m) (Sha256.hexdigest body) aid ∧
    ws_body response = json_dumps false
      (JObj [(py "message_id", JStr (uuid_str (me_message_id (envelope_of m))));
             (py "accepted", JBool true)]).

(** The outcome of a request: an acknowledgement of a stored message, or a store that is
unchanged, unless the operation is still running. *)
Definition outcome_ok (authority : pystr) (request : WebRequest) (w w' : W) (x : AgentExchange) : Prop :=
  match ax_outcome x with
  | Answer response =>
    agent_hardened response ∧
    ((ws_status response = 200%Z ∧ ax_detached x = false ∧ acknowledged authority request w w' response) ∨
     (ws_status response ≠ 200%Z ∧ (ax_detached x = false → settled w → unchanged w w')))
  | _ => ax_detached x = false → settled w → unchanged w w'
  end.

Lemma refuse_ok authority request w status code :
  status ≠ 200%Z → outcome_ok authority request w w (refuse status code).
Proof using Type.
  intros Hs. split; [by apply response_hardened; left|]. right. by split.
Qed.

Lemma single_header_Some request name v : _single_header request name = Some v → _header_values request name = [v].
Proof using Type. unfold _single_header. destruct (_header_values request name) as [|u [|]]; try done. by intros [= ->]. Qed.

Lemma operate_ok authority env request content_type content_encoding peer w w' x :
  wr_http11 request = true → _header_values request (py "Host") = [authority] →
  extract_verified_client_certificate (wr_ssl request) = Ok peer →
  operate printable fromisoformat depth env request content_type content_encoding peer w = (w', x) →
  outcome_ok authority request w w' x.
Proof using Type.
  intros H11 Hhost Hpeer. unfold operate.
  destruct (wr_body request) as [body| | |] eqn:Hbody;
    [|intros [= <- <-]; by apply refuse_ok|intros [= <- <-]; by apply refuse_ok|by intros [= <- <-] _ _].
  destruct (AgentApi.handle _ _ _ _ _ _ w) as [w1 r] eqn:Hrun.
  pose proof (handle_ok _ _ _ _ _ _ _ _ _ Hrun) as Hok.
  destruct (su_interruption env); [| |by intros [= <- <-]|by intros [= <- <-]].
  - destruct r as [resp|e]; cbn [exchange_ok] in Hok.
    + intros [= <- <-]. split; [apply response_hardened; by eapply api_headers|].
      destruct Hok as [(Hst & m & aid & Hd & Ha & Hh & Hb)|[Hst Hu]].
      * left. split; [done|]. split; [done|]. split; [done|]. split; [done|]. by exists peer, body, m, aid.
      * right. split; [|by intros _]. intros Heq. cbn in Heq. rw Heq in Hst. revert Hst.
        by apply (bool_decide_unpack (_ ∉ _)).
    + destruct (decide (e = TimeoutError)) as [->|Hne].
      * intros [= <- <-]. split; [by apply response_hardened; left|]. right. split; [done|]. by intros _.
      * destruct e; try done; intros [= <- <-]; by intros _.
  - intros [= <- <-]. split; [by apply response_hardened; left|]. right. by split.
Qed.

Lemma adapter_ok authority env request s w s' w' x :
  slots_wf MAX_CONCURRENT_REQUESTS (ad_slots s) →
  AgentListener.handle printable fromisoformat depth authority env request s w = (s', w', x) →
  (if ax_detached x
   then ∃ key, slots_acquire (pool_per agent_requests) key (ad_slots s) = Some (ad_slots s')
   else ad_slots s' = ad_slots s) ∧
  outcome_ok authority request w w' x.
Proof using Type.
  intros Hwf. unfold AgentListener.handle.
  destruct (wr_http11 request) eqn:H11; cbn [negb]; [|intros [= <- <- <-]; split; [done|by apply refuse_ok]].
  case_bool_decide as Hhost; cbn [negb]; [|intros [= <- <- <-]; split; [done|by apply refuse_ok]].
  apply single_header_Some in Hhost.
  destruct (extract_verified_client_certificate (wr_ssl request)) as [peer|e] eqn:Hpeer.
  2: { intros [= <- <- <-]. destruct (is_ValidationError e); (split; [done|]); [by apply refuse_ok|]. by intros _. }
  cbv zeta. destruct (identity_allow _ _ _) as [limiter allowed].
  destruct allowed; cbn [negb]; [|intros [= <- <- <-]; split; [done|by apply refuse_ok]].
  destruct (_single_header request (py "Content-Type")) as [ct|];
    [|intros [= <- <- <-]; split; [done|by apply refuse_ok]].
  assert (Hgo : ∀ ce, match slots_acquire (pool_per agent_requests)
      (vc_endpoint_id peer, vc_public_key_fingerprint peer) (ad_slots s) with
    | None => (mkAdapter limiter (ad_slots s), w, refuse 503 "listener_busy")
    | Some slots =>
      let '(w', x) := operate printable fromisoformat depth env request ct ce peer w in
      if ax_detached x then (mkAdapter limiter slots, w', x)
      else match slots_release (pool_message agent_requests)
             (vc_endpoint_id peer, vc_public_key_fingerprint peer) slots with
           | Ok slots' => (mkAdapter limiter slots', w', x)
           | Raise e => (mkAdapter limiter slots, w', mkAgentExchange (Failed e) false)
           end
    end = (s', w', x) →
    (if ax_detached x
     then ∃ key, slots_acquire (pool_per agent_requests) key (ad_slots s) = Some (ad_slots s')
     else ad_slots s' = ad_slots s) ∧ outcome_ok authority request w w' x).
  { intros ce. destruct (slots_acquire _ _ (ad_slots s)) as [slots|] eqn:Hac;
      [|intros [= <- <- <-]; split; [done|by apply refuse_ok]].
    destruct (operate _ _ _ _ _ _ _ _ w) as [w1 y] eqn:Hop. apply (operate_ok authority) in Hop; [|done..].
    rw (slots_release_acquired _ _ _ _ _ _ Hwf Hac).
    destruct (ax_detached y) eqn:Hd; intros [= <- <- <-]; rw Hd; (split; [|done]); [by eexists|done]. }
  destruct (_single_optional_header request (py "Content-Encoding"));
    [exact (Hgo NoHeader)| |exact (Hgo (OneHeader value))].
  intros [= <- <- <-]. split; [done|by apply refuse_ok].
Qed.
End answers.


(** ** A sample: the endpoint of [EnrollmentWireSample] sends a heartbeat *)
Module AgentWireSample.
Definition live (d : Db) : world Pg :=
  World (mkPg d false (λ _, Commits) (λ _, 0%Z)) (λ n, uid (5000 + Z.of_nat n)).
(** The database after the enrollment over the wire. *)
Definition w : world Pg := live (dbof EnrollmentWireSample.run.1.2).
Definition ssl : option ssl_object := Some (mkSslObject (Some (py "TLSv1.3")) (Some [48; 130]%Z)).
Definition request : WebRequest :=
  mkWebRequest true (py "POST") (py "/v1/agent/messages")
    [(py "Host", py "agents.example:8443"); (py "content-type", py "application/json")] ssl
    (BodyRead (encode_message AgentSample.beat)).
Definition env : Surroundings := AgentListener.mkSurroundings 0 (PgSample.at_ 13) Uninterrupted.
Definition run : Adapter * world Pg * AgentListener.AgentExchange :=
  @AgentListener.handle EnrollmentSample.library _ _ (λ _, true) AgentSample.read_time 900
    (py "agents.example:8443") env request new_adapter w.

Example answered_200 :
  match ax_outcome run.2 with Answer response => ws_status response | _ => 0%Z end = 200%Z.
Proof. vm_compute. reflexivity. Qed.
Lemma adapter_wf : slots_wf MAX_CONCURRENT_REQUESTS (ad_slots new_adapter).
Proof. split; [vm_compute; split; discriminate|apply map_Forall_empty]. Qed.

(** A connection of that endpoint: made, one request parsed and taken, then a second. *)
Definition admission0 : Connections (K := identity_key) := mkConnections 0 ∅.
Definition events : list connection_event :=
  [DataReceived 0; DataReceived 1; TakeMessage; DataReceived 1; TakeMessage; HeaderTimeout].
Definition made : Protocol * Connections (K := identity_key) :=
  match @connection_made EnrollmentSample.library ssl admission0 with
  | Ok r => r
  | Raise _ => (mkProtocol None false 0 0 0 true, admission0)
  end.
Lemma made_Ok : @connection_made EnrollmentSample.library ssl admission0 = Ok (made.1, made.2).
Proof.
  assert (Hok : match @connection_made EnrollmentSample.library ssl admission0 with
                | Ok _ => true | Raise _ => false end = true) by (vm_compute; reflexivity).
  unfold made. destruct (@connection_made EnrollmentSample.library ssl admission0) as [[]|];
    [reflexivity|discriminate].
Qed.
Lemma admission0_wf : admission_wf admission0.
Proof. split; [vm_compute; discriminate|apply map_Forall_empty]. Qed.
End AgentWireSample.


Lemma agent_connection_single_request_witness :
  pt_started (connection_steps AgentWireSample.events AgentWireSample.made.1) = 1 ∧
  pt_force_close (connection_steps AgentWireSample.events AgentWireSample.made.1) = true ∧
  ∃ closed, connection_lost (connection_steps AgentWireSample.events AgentWireSample.made.1)
    AgentWireSample.made.2 = Ok (closed, AgentWireSample.admission0).
Proof.
  split; [vm_compute; reflexivity|]. split; [vm_compute; reflexivity|].
  destruct (@agent_connection_single_request EnrollmentSample.library AgentWireSample.ssl
    AgentWireSample.admission0 AgentWireSample.made.1 AgentWireSample.made.2 AgentWireSample.events
    AgentWireSample.admission0_wf AgentWireSample.made_Ok) as (_ & _ & _ & _ & closed & Hl & _).
  exists closed. exact Hl.
Defined.
